(* ===== verification/_CoqProject ===== *)
-Q . S2P
Prelude.v
GoString.v
GoMonad.v
GoNum.v
GoTime.v
GoFile.v
GoNet.v
GoUrl.v
GeoIp.v
GoCrypto.v
Crypto.v
NetUtil.v
Mfa.v
Model.v
LogServers.v
StoreDB.v
Traffic.v
StoreThreat.v
StoreUsers.v
StoreHosts.v
Auth.v
Firewall.v
ThreatScore.v
Service.v
Vault.v
ThreatEngine.v
ThreatEvents.v
Retention.v
StoreGroups.v
StoreBastion.v
StoreBackup.v
Bastion.v
Hosts.v
LiveChecks.v
Settings.v
Accounts.v
Backup.v
Setup.v
SetupSafety.v
LdapSync.v
BackupSchedule.v
Feeds.v
TrafficReports.v
StoreViews.v
ThreatViews.v
BastionKeys.v
Acme.v
ApiCore.v
ApiLogin.v
ApiHosts.v
ApiAdmin.v
ApiSystem.v
ApiRouter.v
ApiSafety.v
ApiLoginSafety.v
ProxyCore.v
Proxy.v
ProxySafety.v
ProxySource.v
HostRoutes.v
EdgeTheorems.v
