(* ===== verification/Prelude.v ===== *)
(** * DomNexDomain: the edge proxy and its control plane

    DomNexDomain is a reverse proxy with a control plane: an admin service that
    keeps domains, hosts, accounts and threat state in a SQLite database, an HTTP
    API in front of it, an edge that routes public requests by what the service
    says, and an SSH bastion.  This development is a shallow embedding of the Go
    code under [src/internal]; every definition that models code carries the name
    of the function it translates, or a name for the part of it that it is.

    ** Conventions

    A function that can fail and changes state is a computation of [GoMonad]:
    [M S A] takes a state and gives a result, [Ok a] or [Err e], and the state
    after.  [x ← m; k] is [x, err := m(); if err != nil { return err }],
    [try_] keeps the error as a value, [ignore] drops it ([_ = f()]).
    Statements about all runs are weakest preconditions ([wp]) or frames
    ([keeps R m]: whatever [m] returns, [R] relates the states).
    Integers are [Z] with the wrap-around written where it can happen
    ([GoNum.wrap64], [Duration]); times are nanoseconds since year 1, with
    the text order of RFC3339Nano where the database compares text; strings
    are byte strings, case mapping and white space those of ASCII.
    The database is a record of tables ([StoreDB.DB]); the environment of an
    operation holds the tables, the clock (one instant per operation), the
    random bytes to come and, for each coming statement, whether the driver
    fails it.  So a theorem about an operation speaks of every way it can be
    cut short, and a transaction rolls back.  An operation under a mutex is one
    step.

    ** Layers and files

    - Go's library: [GoString] (strings, strconv), [GoNum] (float64 as exact
      rationals with rounding), [GoTime], [GoFile] (paths, stamps), [GoNet],
      [GoUrl], [GoCrypto] (hex, base32/64, SHA-1, SHA-256, HMAC, executable).
    - [internal/model]: [Model].
    - [internal/store/store.go]: [StoreDB] (schema, statements, transactions,
      cascades), [StoreThreat] (settings, threat tables), [StoreViews] (the
      queries of the threat views), [StoreUsers] (accounts, sessions, tokens,
      audit), [StoreHosts] (domains, hosts, the host state machine),
      [StoreBastion], [StoreBackup] (archives, snapshot and restoration), the
      traffic tables in [Traffic]; [store/identity_groups.go]: [StoreGroups].
    - [internal/crypto], [mfa], [netutil], [geoip], [firewall], [auth]:
      [Crypto], [Mfa], [NetUtil], [GeoIp], [Firewall], [Auth].
    - [internal/app/service.go]: [Service] is the state of [app.Service] and the
      signature rules; [ThreatScore] and [ThreatEngine] score events and
      decide blocks, [ThreatEvents] says what an event does, [Retention]
      purges and decays, [Feeds] synchronises the lists of addresses,
      [ThreatViews] and [TrafficReports] answer the questions of the interface;
      [Vault] keeps secrets, [Settings] the runtime settings, [LogServers]
      ships audit events; [Hosts] manages domains, hosts and their DNS records,
      [LiveChecks] probes them and repairs the records; [Accounts] (with
      [identity_management.go]) manages users, second factors and groups,
      [BastionKeys] the keys of the bastion.
    - The other files of [internal/app]: [Setup] and [SetupSafety]
      ([setup.go]), [Backup] ([backup.go]), [BackupSchedule]
      ([backup_schedule.go]), [LdapSync] ([ldap_sync.go]).
    - [internal/traffic]: [Traffic], the recorder between edge and store.
    - [internal/acme]: [Acme], the certificates the edge presents.
    - [internal/api/server.go]: [ApiCore] (answers, requests, guards),
      [ApiLogin], [ApiHosts], [ApiAdmin], [ApiSystem] (the handlers) and
      [ApiRouter] (the table of routes); [ApiSafety] and [ApiLoginSafety] hold
      the theorems about every request.
    - [internal/proxy]: [ProxyCore] (decisions), [Proxy] (the engine, its
      refresh and its handler, stage by stage as the code nests them).
    - [internal/bastion]: [Bastion].

    The edge reaches the service through Go's interface [HostSource].  Here it is
    the class [Proxy.HostSource], with the laws [HostSourceLaws] the engine
    relies on; [ProxySafety] and [EdgeTheorems] prove the edge against the
    class, [ProxySource] gives the service's instance and discharges the laws,
    and [HostRoutes] follows a host from the form it was created with to the
    route the edge serves.  The sources of the bastion ([Bastion.AuthSource]) and
    of the certificates ([Acme.HostProvider]) are classes in the same way.

    ** What is shown

    - Edge: a request is served only when every policy of its host allows it,
      for the country of its header or, without one, of its address; a dropped
      source is on the list and stays dropped until it is taken off it, a
      session is opened only by the right credentials, backends are chosen
      fairly, the flood guard counts as it should where it is reached.
    - Administration API: over the whole table of routes, what the guards let
      through, that a domain admin stays within its domains and a read-only
      credential changes nothing, on the public routes too, and that every session is the end of a login.
    - Authentication and accounts: who logs in has proved the password and,
      where required, the second factor, from an allowed source (a person of
      the directory is asked for no second factor by the program); lockouts,
      tokens and codes have the life they promise; groups grant what the
      catalogue lists; the directory and the shadow users agree.
    - First run: nothing is configured without the one-time code, guesses are
      bounded, and the wizard is closed once a user exists.
    - Store: invariants of the tables over any run of operations; what is
      written is read back; settings stay within their bounds; a snapshot is
      restored or the database stays as it was.
    - Backups: a package opens to what was packed; a restoration that goes
      through leaves secrets that can be read, and what it leaves otherwise is
      stated (SQLite refuses the detaching it ends with, so none goes through);
      retention keeps the newest archives.
    - Threat engine: the level loop is the closed form of its thresholds, decay
      only lowers, verdicts follow the thresholds, the firewall gets public
      addresses only, what is blocked is listed and what is released had
      expired; a feed holds the addresses its list names, each once and in
      canonical form, and nothing after a download that failed; the pages of
      the offenders cover each of them once while nothing moves and no two tie.
    - Service: routing input, DNS records, retirement of domains, country
      policies and logins mean at the edge what was asked of the service, and
      the maintenance repairs the records it finds wrong.
    - Traffic: every recorded request is accounted once, on the way through
      channel, maps and flush, and the classes of a report add up.
    - Certificates: which names a certificate may be asked for, and which
      certificates a refresh leaves behind.

    ** Parameters, fuel, bounds

    Outside code is a parameter: Argon2, scrypt and AES-GCM, the JSON codecs,
    gzip and tar, the DNS provider, the LDAP, HTTP, FTP and ACME clients, the
    GeoIP readers, SSH keys, the router of paths, the backends, the file
    operations, [nft], [timedatectl] and the route table.  What the code relies
    on of them is a class with a concrete instance ([Vault.AEAD],
    [Vault.KeyDerivation], [Backup.PackageLaws], [LiveChecks.HonestDNS]) or a
    hypothesis of the theorem that uses it, met by its witness.  Loops are
    structural on their data, or run on fuel: the level loop on the levels left
    up to the hard one ([ThreatScore.level_fuel]; each round gains one, and
    [level_loop_correct] shows that it ends within it), the chunks of the
    firewall on the number of addresses, the readers of texts (IPv6 addresses,
    wrapped lines) and the blocks of a hash on their length, of which each round
    takes at least one.

    ** Not modelled

    - The dashboard of the threat engine (its averages are floating-point
      Julian days of SQLite), time synchronisation and the probes of system
      health (files and sockets of the system), the compilation and the upload
      of GeoIP tables ([app/geoip_compile.go]), with the handlers that only
      hand these out.
    - [dns/cloudflare.go]: the client of the DNS provider is a parameter.
    - [cmd], [config], [logging], metrics: the glue of the process.
    - Listeners, timers (a tick is an operation), log lines, counters and the
      copying of bytes.
*)

From stdpp Require Export prelude strings gmap pretty list.
From Stdlib Require Export ZArith Lia.

(* ------------------------------------------------------------------ *)
(** ** Functional record update

    [r <| f := v |>] is the Go assignment [r.f = v] on a value of record
    type, [r <| f ::= g |>] the read-modify-write [r.f = g(r.f)].  A record
    opts in by declaring its eta expansion as an instance of [Eta]. *)

Class Eta (R : Type) := eta : R -> R.

Class Setter {R T : Type} (proj : R -> T) := upd_field : (T -> T) -> R -> R.
Arguments upd_field {R T} proj {_} _ _ : simpl nomatch.

Ltac solve_setter :=
  match goal with
  | |- @Setter ?R ?T ?p =>
      let f := fresh "f" in
      let r := fresh "r" in
      intros f r;
      let e := constr:(@eta R _ r) in
      let e := eval cbv beta delta [eta] in e in
      let e := eval hnf in e in
      let g := eval pattern (p r) in e in
      match g with
      | ?h _ => let t := eval cbv beta in (h (f (p r))) in exact t
      end
  end.
#[export] Hint Extern 1 (Setter _) => solve_setter : typeclass_instances.

Declare Scope go_scope.
Delimit Scope go_scope with go.

Notation "r '<|' f ':=' v '|>'" := (upd_field f (fun _ => v) r)
  (at level 1, f at level 11, v at level 100) : go_scope.
Notation "r '<|' f '::=' g '|>'" := (upd_field f g r)
  (at level 1, f at level 11, g at level 100) : go_scope.

Open Scope go_scope.
Open Scope Z_scope.

(* ------------------------------------------------------------------ *)
(** ** Tactics of the development *)

(** Split every conjunction of the goal and of the context. *)
Ltac split_conj := destruct_and?; repeat split.

(** Case analysis on the first boolean test or match the goal is stuck on. *)
Ltac case_step :=
  match goal with
  | |- context [if ?b then _ else _] => destruct b eqn:?
  | |- context [match ?x with _ => _ end] => destruct x eqn:?
  end.

Ltac case_hyp H :=
  match type of H with
  | context [if ?b then _ else _] => destruct b eqn:?
  | context [match ?x with _ => _ end] => destruct x eqn:?
  end.

(** Close a goal about integer tests: booleans are read by [lia]. *)
Ltac zcase := repeat (case_step; try lia); try lia.

(** Turn the boolean facts of the context into propositions. *)
Ltac bool_facts :=
  repeat match goal with
  | H : (_ && _)%bool = true |- _ => apply andb_prop in H as [? ?]
  | H : (_ || _)%bool = false |- _ => apply orb_false_elim in H as [? ?]
  | H : negb _ = true |- _ => apply negb_true_iff in H
  | H : negb _ = false |- _ => apply negb_false_iff in H
  | H : String.eqb _ _ = true |- _ => apply String.eqb_eq in H
  | H : String.eqb _ _ = false |- _ => apply String.eqb_neq in H
  | H : bool_decide _ = true |- _ => apply bool_decide_eq_true_1 in H
  | H : bool_decide _ = false |- _ => apply bool_decide_eq_false_1 in H
  end.

Create HintDb go.

(* ------------------------------------------------------------------ *)
(** ** Lists: filtering loops with a "seen" map

    The program de-duplicates with one loop written again and again:
    [for _, v := range in { v = norm(v); if v == "" || seen[v] { continue };
    seen[v] = true; out = append(out, v) }].  [dedup_seen] is that loop after
    [norm]; the empty string is filtered by the caller through [keep]. *)

Section dedup.
Context {A B : Type} `{Countable B} (norm : A -> B) (keep : B -> bool).

Fixpoint dedup_seen (seen : gset B) (l : list A) : list B :=
  match l with
  | [] => []
  | x :: l' =>
      let v := norm x in
      if negb (keep v) || bool_decide (v ∈ seen)
      then dedup_seen seen l'
      else v :: dedup_seen ({[v]} ∪ seen) l'
  end.

Lemma elem_of_dedup_seen v seen l :
  v ∈ dedup_seen seen l <->
  (v ∉ seen) /\ keep v = true /\ exists x, x ∈ l /\ norm x = v.
Proof.
  revert seen; induction l as [|x l IH]; intros seen; simpl.
  { set_solver. }
  destruct (keep (norm x)) eqn:Hk; simpl.
  - case_bool_decide as Hs.
    + rewrite IH. set_solver.
    + rewrite elem_of_cons, IH.
      destruct (decide (v = norm x)) as [->|Hne]; set_solver.
  - rewrite IH. split; [set_solver|].
    intros (? & Hv & y & [->|?]%elem_of_cons & <-); [congruence|set_solver].
Qed.

Lemma NoDup_dedup_seen seen l : NoDup (dedup_seen seen l).
Proof.
  revert seen; induction l as [|x l IH]; intros seen; simpl; [constructor|].
  case_step; [apply IH|]. constructor; [|apply IH].
  rewrite elem_of_dedup_seen. set_solver.
Qed.

Lemma dedup_seen_length seen l : (length (dedup_seen seen l) <= length l)%nat.
Proof.
  revert seen; induction l as [|x l IH]; intros seen; simpl; [lia|].
  case_step; simpl; [specialize (IH seen)|specialize (IH ({[norm x]} ∪ seen))]; lia.
Qed.
End dedup.

(** A second pass over an already de-duplicated list changes nothing. *)
Lemma dedup_seen_fix `{Countable B} (norm : B -> B) (keep : B -> bool) seen l :
  NoDup l -> (forall v, v ∈ l -> norm v = v /\ keep v = true /\ v ∉ seen) ->
  dedup_seen norm keep seen l = l.
Proof.
  revert seen; induction l as [|x l IH]; intros seen; [done|].
  intros [Hx Hl]%NoDup_cons Hall; simpl.
  destruct (Hall x) as (Hn & Hk & Hs); [set_solver|].
  rewrite Hn, Hk, bool_decide_eq_false_2 by done; simpl. f_equal.
  apply IH; [done|]. intros v Hv. destruct (Hall v) as (? & ? & ?); set_solver.
Qed.

Lemma dedup_seen_idem `{Countable B} (norm : B -> B) (keep : B -> bool) l :
  (forall v, norm (norm v) = norm v) ->
  dedup_seen norm keep ∅ (dedup_seen norm keep ∅ l) = dedup_seen norm keep ∅ l.
Proof.
  intros Hn. apply dedup_seen_fix; [apply NoDup_dedup_seen|].
  intros v (Hs & Hk & x & _ & <-)%elem_of_dedup_seen. rewrite Hn. done.
Qed.

(** The same loop on identifiers: the positive ones, each once. *)
Definition positive_ids (ids : list Z) : list Z := dedup_seen (fun i => i) (fun i => 0 <? i) ∅ ids.

(* ------------------------------------------------------------------ *)
(** ** Sums over lists and maps *)

Definition lsum (l : list Z) : Z := foldr Z.add 0 l.

#[export] Instance lsum_perm : Proper (Permutation ==> eq) lsum.
Proof. intros l l' H. induction H; unfold lsum in *; simpl in *; lia. Qed.

Lemma lsum_app l l' : lsum (l ++ l') = lsum l + lsum l'.
Proof. unfold lsum. induction l as [|x l IH]; simpl; [lia|]. rewrite IH. lia. Qed.

Definition msum {K A} `{Countable K} (f : A -> Z) (m : gmap K A) : Z := lsum (map f (map_to_list m).*2).

Section msum.
Context {K A : Type} `{Countable K} (f : A -> Z).
Implicit Types m : gmap K A.

Lemma msum_empty : msum f (∅ : gmap K A) = 0.
Proof. unfold msum. by rewrite map_to_list_empty. Qed.

Lemma msum_insert_new k x m : m !! k = None -> msum f (<[k := x]> m) = f x + msum f m.
Proof. intros Hk. unfold msum. by rewrite (map_to_list_insert m k x Hk). Qed.

Lemma msum_insert k x m : msum f (<[k := x]> m) = f x - from_option f 0 (m !! k) + msum f m.
Proof.
  destruct (m !! k) as [y|] eqn:Hk; simpl; [|rewrite msum_insert_new by done; lia].
  rewrite <- (insert_id m k y Hk) at 2. rewrite <- insert_delete_eq, <- (insert_delete_eq m k y).
  rewrite !msum_insert_new by apply lookup_delete_eq. lia.
Qed.

Lemma msum_nonneg m : (forall k x, m !! k = Some x -> 0 <= f x) -> 0 <= msum f m.
Proof.
  induction m as [|k x m Hk IH] using map_ind; intros Hp; [rewrite msum_empty; lia|].
  rewrite msum_insert_new by done. assert (0 <= f x) by (apply (Hp k); apply lookup_insert_eq).
  assert (0 <= msum f m); [|lia]. apply IH. intros j y Hj. apply (Hp j). rewrite lookup_insert_ne; congruence.
Qed.
End msum.
