(* ===== verification/GoString.v ===== *)
(** The functions of Go's [strings] and [strconv] packages that the program
    calls, on [string] read as Go reads it: a sequence of bytes.

    Case mapping and white space are those of ASCII ([unicode.IsSpace] and the
    case tables restricted to bytes below 0x80); a byte of a multi-byte rune is
    neither space nor letter, and is left as it is.  Host names, addresses,
    signal names, role names and setting values are ASCII. *)

From S2P Require Import Prelude.
From Stdlib Require Import Ascii.

(** A character by its code, for bytes that have no readable literal. *)
Definition byte (n : Z) : ascii := ascii_of_N (Z.to_N n).
Definition code (c : ascii) : Z := Z.of_N (N_of_ascii c).

Definition chr (s : string) : ascii := match s with String c _ => c | "" => zero end.

(* ------------------------------------------------------------------ *)
(** ** Bytes *)

Definition is_space (c : ascii) : bool :=
  let n := code c in (n =? 32) || ((9 <=? n) && (n <=? 13)).
Definition is_upper (c : ascii) : bool := (65 <=? code c) && (code c <=? 90).
Definition is_lower (c : ascii) : bool := (97 <=? code c) && (code c <=? 122).
Definition is_digit (c : ascii) : bool := (48 <=? code c) && (code c <=? 57).
Definition lower_byte (c : ascii) : ascii := if is_upper c then byte (code c + 32) else c.
Definition upper_byte (c : ascii) : ascii := if is_lower c then byte (code c - 32) else c.

(** Facts about one byte are checked on the 256 of them. *)
Definition all_bytes : list ascii := map (fun n => ascii_of_nat n) (seq 0 256).

Lemma elem_of_all_bytes c : c ∈ all_bytes.
Proof.
  apply list_elem_of_In, in_map_iff. exists (nat_of_ascii c). split.
  - apply ascii_nat_embedding.
  - apply in_seq. pose proof (nat_ascii_bounded c). lia.
Qed.

Lemma byte_ind (P : ascii -> bool) : forallb P all_bytes = true -> forall c, P c = true.
Proof.
  intros H c. rewrite forallb_forall in H. apply H, list_elem_of_In, elem_of_all_bytes.
Qed.

Lemma byte_prop (P : ascii -> Prop) `{forall c, Decision (P c)} :
  forallb (fun c => bool_decide (P c)) all_bytes = true -> forall c, P c.
Proof. intros Hall c. eapply bool_decide_unpack, Is_true_true, (byte_ind _ Hall c). Qed.

Ltac by_bytes c :=
  pattern c; match goal with |- ?P c => refine (byte_prop P _ c) end;
  vm_compute; reflexivity.

Lemma code_bound c : 0 <= code c < 256.
Proof. unfold code. pose proof (N_ascii_bounded c). lia. Qed.

Lemma byte_code c : byte (code c) = c.
Proof. unfold byte, code. rewrite N2Z.id. apply ascii_N_embedding. Qed.

Lemma lower_byte_idem c : lower_byte (lower_byte c) = lower_byte c.
Proof. by_bytes c. Qed.
Lemma upper_byte_idem c : upper_byte (upper_byte c) = upper_byte c.
Proof. by_bytes c. Qed.
Lemma is_space_lower c : is_space (lower_byte c) = is_space c.
Proof. by_bytes c. Qed.
Lemma is_space_upper c : is_space (upper_byte c) = is_space c.
Proof. by_bytes c. Qed.
Lemma lower_upper_byte c : lower_byte (upper_byte c) = lower_byte c.
Proof. by_bytes c. Qed.

(* ------------------------------------------------------------------ *)
(** ** [strings] *)

Fixpoint smap (f : ascii -> ascii) (s : string) : string :=
  match s with "" => "" | String c s' => String (f c) (smap f s') end.

Definition ToLower : string -> string := smap lower_byte.
Definition ToUpper : string -> string := smap upper_byte.
Definition EqualFold (a b : string) : bool := String.eqb (ToLower a) (ToLower b).

Fixpoint trim_left (p : ascii -> bool) (s : string) : string :=
  match s with
  | "" => ""
  | String c s' => if p c then trim_left p s' else s
  end.

Fixpoint trim_right (p : ascii -> bool) (s : string) : string :=
  match s with
  | "" => ""
  | String c s' =>
      match trim_right p s' with
      | "" => if p c then "" else String c ""
      | r => String c r
      end
  end.

(** [strings.TrimSpace]; [strings.Trim(s, cutset)] is [trim] with another test. *)
Definition trim (p : ascii -> bool) (s : string) : string := trim_right p (trim_left p s).
Definition TrimSpace : string -> string := trim is_space.

Definition HasPrefix (s p : string) : bool := String.prefix p s.

Fixpoint drop_bytes (n : nat) (s : string) : string :=
  match n, s with
  | O, _ => s
  | S n', String _ s' => drop_bytes n' s'
  | S _, "" => ""
  end.
Fixpoint take_bytes (n : nat) (s : string) : string :=
  match n, s with
  | S n', String c s' => String c (take_bytes n' s')
  | _, _ => ""
  end.

Definition TrimPrefix (s p : string) : string :=
  if HasPrefix s p then drop_bytes (String.length p) s else s.

Definition HasSuffix (s p : string) : bool :=
  (Nat.leb (String.length p) (String.length s)) &&
  String.eqb (drop_bytes (String.length s - String.length p) s) p.
Definition TrimSuffix (s p : string) : string :=
  if HasSuffix s p then take_bytes (String.length s - String.length p) s else s.

Fixpoint Contains (s p : string) : bool :=
  HasPrefix s p || match s with "" => false | String _ s' => Contains s' p end.

(** [strings.Index(s, c)] for a one-byte [c]: [before] is [s[:idx]], and
    [after] is [s[idx+1:]]; [None] when the byte does not occur. *)
Fixpoint cut (sep : ascii) (s : string) : option (string * string) :=
  match s with
  | "" => None
  | String c s' =>
      if Ascii.eqb c sep then Some ("", s')
      else match cut sep s' with
           | Some (b, a) => Some (String c b, a)
           | None => None
           end
  end.

(** [if idx := strings.Index(s, sep); idx >= 0 { s = s[:idx] }] *)
Definition before (sep : ascii) (s : string) : string :=
  match cut sep s with Some (b, _) => b | None => s end.

(** [strings.Split] on a one-byte separator. *)
Fixpoint Split (s : string) (sep : ascii) : list string :=
  match s with
  | "" => [""]
  | String c s' =>
      if Ascii.eqb c sep then "" :: Split s' sep
      else match Split s' sep with
           | [] => [String c ""]
           | p :: ps => String c p :: ps
           end
  end.

Fixpoint Join (l : list string) (sep : string) : string :=
  match l with
  | [] => ""
  | [x] => x
  | x :: l' => x +:+ sep +:+ Join l' sep
  end.

(** [strings.ReplaceAll] of a one-byte string. *)
Fixpoint ReplaceAll (s : string) (old : ascii) (new : string) : string :=
  match s with
  | "" => ""
  | String c s' =>
      if Ascii.eqb c old then new +:+ ReplaceAll s' old new else String c (ReplaceAll s' old new)
  end.

Fixpoint Count (s : string) (c : ascii) : Z :=
  match s with
  | "" => 0
  | String d s' => (if Ascii.eqb d c then 1 else 0) + Count s' c
  end.

Definition len (s : string) : Z := Z.of_nat (String.length s).

Lemma string_app_assoc (a b c : string) : (a +:+ b) +:+ c = a +:+ (b +:+ c).
Proof.
  induction a as [|x a IH]; [done|].
  change (String x ((a +:+ b) +:+ c) = String x (a +:+ (b +:+ c))). by rewrite IH.
Qed.

(* ------------------------------------------------------------------ *)
(** ** [strconv] *)

(** [strconv.Itoa], [strconv.FormatInt(_, 10)], [fmt] with %d. *)
Definition Itoa (n : Z) : string := pretty n.
Definition FormatBool (b : bool) : string := if b then "true" else "false".

Definition digit_value (c : ascii) : option Z :=
  if is_digit c then Some (code c - 48) else None.

(** The value of a non-empty run of decimal digits. *)
Fixpoint decimal (acc : Z) (s : string) : option Z :=
  match s with
  | "" => Some acc
  | String c s' =>
      match digit_value c with Some d => decimal (10 * acc + d) s' | None => None end
  end.

Definition max_int64 : Z := 2 ^ 63 - 1.
Definition min_int64 : Z := - 2 ^ 63.
Definition in_int64 (n : Z) : bool := (min_int64 <=? n) && (n <=? max_int64).

(** [strconv.Atoi]: an optional sign, at least one digit, and a value that fits
    the 64-bit [int]; anything else is an error. *)
Definition Atoi (s : string) : option Z :=
  let run (f : Z -> Z) (t : string) :=
    match t with
    | "" => None
    | _ => match decimal 0 t with
           | Some n => if in_int64 (f n) then Some (f n) else None
           | None => None
           end
    end in
  match s with
  | String c s' =>
      if Ascii.eqb c "-"%char then run Z.opp s'
      else if Ascii.eqb c "+"%char then run (fun n => n) s'
      else run (fun n => n) s
  | "" => None
  end.

(** Signed 64-bit wrap-around, the arithmetic of [int], [int64] and
    [time.Duration]. *)
Definition wrap64 (n : Z) : Z := (n + 2 ^ 63) mod 2 ^ 64 - 2 ^ 63.

Lemma wrap64_small n : in_int64 n = true -> wrap64 n = n.
Proof.
  unfold in_int64, min_int64, max_int64, wrap64. intros H.
  rewrite Z.mod_small; lia.
Qed.

Lemma wrap64_range n : in_int64 (wrap64 n) = true.
Proof.
  unfold in_int64, min_int64, max_int64, wrap64.
  pose proof (Z.mod_pos_bound (n + 2 ^ 63) (2 ^ 64)). lia.
Qed.

(* ------------------------------------------------------------------ *)
(** ** Trimming *)

Section trim.
Context (p : ascii -> bool).

Lemma trim_left_idem s : trim_left p (trim_left p s) = trim_left p s.
Proof. induction s as [|c s IH]; [done|]. simpl. destruct (p c) eqn:E; [done|]. simpl. by rewrite E. Qed.

Lemma trim_right_cons c s :
  trim_right p (String c s) =
  match trim_right p s with "" => if p c then "" else String c "" | r => String c r end.
Proof. done. Qed.

Lemma trim_right_idem s : trim_right p (trim_right p s) = trim_right p s.
Proof.
  induction s as [|c s IH]; [done|]. rewrite trim_right_cons.
  destruct (trim_right p s) as [|d r] eqn:E.
  - destruct (p c) eqn:Hc; [done|]. simpl. by rewrite Hc.
  - rewrite trim_right_cons, IH. done.
Qed.

(** Trimming the right end does not uncover a character at the left end. *)
Lemma trim_left_right s : trim_left p s = s -> trim_left p (trim_right p s) = trim_right p s.
Proof.
  destruct s as [|c s]; [done|]. simpl. destruct (p c) eqn:Hc.
  - intros H. exfalso. assert (Hlen : (String.length (trim_left p s) <= String.length s)%nat).
    { clear. induction s as [|d s IH]; simpl; [lia|]. case_step; simpl; lia. }
    rewrite H in Hlen. simpl in Hlen. lia.
  - intros _. destruct (trim_right p s); simpl; by rewrite Hc.
Qed.

Lemma trim_idem s : trim p (trim p s) = trim p s.
Proof.
  unfold trim. rewrite (trim_left_right (trim_left p s)) by apply trim_left_idem.
  apply trim_right_idem.
Qed.

Lemma trim_fixed s : trim p s = s -> trim_left p s = s /\ trim_right p s = s.
Proof.
  intros H. rewrite <- H. split; [|apply trim_right_idem].
  apply trim_left_right, trim_left_idem.
Qed.

Lemma trim_left_app s t : s <> "" -> trim_left p s = s -> trim_left p (s +:+ t) = s +:+ t.
Proof.
  destruct s as [|c s]; [done|]. intros _ H.
  change (trim_left p (String c (s +:+ t)) = String c (s +:+ t)).
  simpl in *. destruct (p c) eqn:Hc; [|done]. exfalso.
  assert (Hlen : (String.length (trim_left p s) <= String.length s)%nat).
  { clear. induction s as [|d s IH]; simpl; [lia|]. case_step; simpl; lia. }
  rewrite H in Hlen. simpl in Hlen. lia.
Qed.

Lemma trim_right_app s t : t <> "" -> trim_right p t = t -> trim_right p (s +:+ t) = s +:+ t.
Proof.
  intros Hne Ht. induction s as [|c s IH]; [done|].
  change (trim_right p (String c (s +:+ t)) = String c (s +:+ t)).
  rewrite trim_right_cons, IH. destruct (s +:+ t) eqn:E; [|done].
  destruct s; [|done]. by destruct Hne.
Qed.

Lemma trim_app s u t : s <> "" -> t <> "" -> trim p s = s -> trim p t = t ->
  trim p (s +:+ u +:+ t) = s +:+ u +:+ t.
Proof.
  intros Hs Ht [Hs1 _]%trim_fixed [_ Ht2]%trim_fixed. unfold trim.
  rewrite trim_left_app by done. rewrite <- string_app_assoc. by apply trim_right_app.
Qed.
End trim.

Lemma TrimSpace_idem s : TrimSpace (TrimSpace s) = TrimSpace s.
Proof. apply trim_idem. Qed.

Lemma smap_idem f : (forall c, f (f c) = f c) -> forall s, smap f (smap f s) = smap f s.
Proof. intros H s. induction s as [|c s IH]; [done|]. simpl. by rewrite H, IH. Qed.
Lemma ToLower_idem s : ToLower (ToLower s) = ToLower s.
Proof. apply smap_idem, lower_byte_idem. Qed.

(** Case mapping commutes with trimming: neither changes what is a space. *)
Lemma trim_left_smap p f : (forall c, p (f c) = p c) -> forall s, trim_left p (smap f s) = smap f (trim_left p s).
Proof. intros H s. induction s as [|c s IH]; [done|]. simpl. rewrite H. by case_step. Qed.
Lemma trim_right_smap p f : (forall c, p (f c) = p c) -> forall s, trim_right p (smap f s) = smap f (trim_right p s).
Proof.
  intros H s. induction s as [|c s IH]; [done|]. simpl. rewrite IH, H.
  destruct (trim_right p s); simpl; [by case_step|done].
Qed.
Lemma TrimSpace_ToLower s : TrimSpace (ToLower s) = ToLower (TrimSpace s).
Proof.
  unfold TrimSpace, trim, ToLower.
  by rewrite trim_left_smap, trim_right_smap by apply is_space_lower.
Qed.
Lemma TrimSpace_ToUpper s : TrimSpace (ToUpper s) = ToUpper (TrimSpace s).
Proof.
  unfold TrimSpace, trim, ToUpper.
  by rewrite trim_left_smap, trim_right_smap by apply is_space_upper.
Qed.
Lemma norm_idem s : ToLower (TrimSpace (ToLower (TrimSpace s))) = ToLower (TrimSpace s).
Proof. by rewrite TrimSpace_ToLower, ToLower_idem, TrimSpace_idem. Qed.

(* ------------------------------------------------------------------ *)
(** ** Splitting what was joined *)

Definition lacks (sep : ascii) (s : string) : Prop := cut sep s = None.

Lemma lacks_cons sep c s : lacks sep (String c s) <-> Ascii.eqb c sep = false /\ lacks sep s.
Proof.
  unfold lacks. simpl. destruct (Ascii.eqb c sep); [split; [done|intros [? _]; done]|].
  destruct (cut sep s) as [[? ?]|]; split; try done; intros [_ ?]; done.
Qed.

Lemma Split_lacks sep s : lacks sep s -> Split s sep = [s].
Proof.
  induction s as [|c s IH]; [done|]. rewrite lacks_cons. intros [Hc Hs]. simpl.
  by rewrite Hc, IH.
Qed.

Lemma Split_app sep s t : lacks sep s -> Split (s +:+ String sep t) sep = s :: Split t sep.
Proof.
  induction s as [|c s IH]; intros H.
  - change (Split (String sep t) sep = "" :: Split t sep). simpl. by rewrite Ascii.eqb_refl.
  - apply lacks_cons in H as [Hc Hs].
    change (Split (String c (s +:+ String sep t)) sep = String c s :: Split t sep).
    simpl. by rewrite Hc, IH.
Qed.

Lemma Split_nonempty s c : Split s c <> [].
Proof. destruct s as [|x s]; simpl; [done|]. repeat case_step; done. Qed.

Lemma Split_Join sep l :
  l <> [] -> Forall (lacks sep) l -> Split (Join l (String sep "")) sep = l.
Proof.
  intros Hne Hl. induction Hl as [|x l Hx Hl IH]; [done|].
  destruct l as [|y l]; [by apply Split_lacks|].
  change (Join (x :: y :: l) (String sep "")) with (x +:+ String sep (Join (y :: l) (String sep ""))).
  rewrite Split_app by done. f_equal. by apply IH.
Qed.

(** A list of trimmed non-empty texts joins to a trimmed non-empty text. *)
Lemma Join_trimmed p (sep : string) l :
  l <> [] -> Forall (fun s => s <> "" /\ trim p s = s) l ->
  Join l sep <> "" /\ trim p (Join l sep) = Join l sep.
Proof.
  intros Hne Hl. induction Hl as [|x l [Hx Htx] Hl IH]; [done|].
  destruct l as [|y l]; [done|]. destruct IH as [Hj Htj]; [done|].
  change (Join (x :: y :: l) sep) with (x +:+ sep +:+ Join (y :: l) sep).
  split; [by destruct x|]. by apply trim_app.
Qed.

Lemma lacks_trim sep p s : lacks sep s -> lacks sep (trim p s).
Proof.
  intros H. unfold trim.
  assert (Hl : lacks sep (trim_left p s)).
  { induction s as [|c s IH]; [done|]. apply lacks_cons in H as [Hc Hs]. simpl.
    case_step; [by apply IH|]. by apply lacks_cons. }
  clear H. induction (trim_left p s) as [|c r IH]; [done|].
  apply lacks_cons in Hl as [Hc Hs]. specialize (IH Hs). rewrite trim_right_cons.
  destruct (trim_right p r); [case_step; [done|]|]; by apply lacks_cons.
Qed.

(* ------------------------------------------------------------------ *)
(** ** Printing and reading numbers *)

Lemma decimal_go n s : (0 <= n)%N -> decimal 0 (pretty_N_go n s) = decimal (Z.of_N n) s.
Proof.
  intros _. revert s. induction (N.lt_wf_0 n) as [n _ IH]. intros s.
  destruct (decide (n = 0%N)) as [->|Hn]; [done|].
  rewrite pretty_N_go_step by lia. rewrite IH by (apply N.div_lt; lia). simpl.
  assert (Hd : digit_value (pretty_N_char (n mod 10)) = Some (Z.of_N (n mod 10))).
  { pose proof (N.mod_lt n 10 ltac:(lia)) as Hlt.
    destruct (n mod 10)%N as [|q]; [done|].
    do 9 (destruct q as [q|q|]; try done; try lia). }
  rewrite Hd. f_equal. rewrite N2Z.inj_mod, N2Z.inj_div.
  pose proof (Z.div_mod (Z.of_N n) 10). lia.
Qed.

Lemma decimal_head acc c s n : decimal acc (String c s) = Some n -> is_digit c = true.
Proof. simpl. unfold digit_value. by destruct (is_digit c). Qed.

Lemma digit_facts c :
  is_digit c = true -> is_space c = false /\ Ascii.eqb c "-"%char = false /\ Ascii.eqb c "+"%char = false.
Proof. by_bytes c. Qed.

Lemma Atoi_decimal s n : s <> "" -> decimal 0 s = Some n -> in_int64 n = true -> Atoi s = Some n.
Proof.
  destruct s as [|c s]; [done|]. intros _ Hd Hr.
  destruct (digit_facts c (decimal_head _ _ _ _ Hd)) as (_ & Hm & Hp).
  unfold Atoi. rewrite Hm, Hp, Hd, Hr. done.
Qed.

Lemma decimal_trim acc s n : decimal acc s = Some n -> TrimSpace s = s.
Proof.
  intros H. assert (Hs : trim_left is_space s = s /\ trim_right is_space s = s).
  { revert acc H. induction s as [|c s IH]; intros acc H; [done|].
    destruct (digit_facts c (decimal_head _ _ _ _ H)) as (Hsp & _). simpl in H |- *.
    rewrite Hsp. split; [done|]. destruct (digit_value c); [|done].
    destruct (IH _ H) as [_ ->]. by destruct s. }
  unfold TrimSpace, trim. by destruct Hs as [-> ->].
Qed.

Lemma decimal_Itoa n : 0 <= n -> Itoa n <> "" /\ decimal 0 (Itoa n) = Some n.
Proof.
  intros Hn. unfold Itoa. destruct n as [|q|q]; [done| |lia].
  change (pretty (Z.pos q)) with (pretty (N.pos q)). unfold pretty, pretty_N.
  rewrite decide_False by done. split.
  - intros E. pose proof (decimal_go (N.pos q) "" ltac:(lia)) as Hd. rewrite E in Hd. simpl in Hd. done.
  - rewrite decimal_go by lia. done.
Qed.

Lemma Atoi_Itoa n : 0 <= n <= max_int64 -> Atoi (Itoa n) = Some n.
Proof.
  intros Hn. destruct (decimal_Itoa n) as [Hne Hd]; [lia|].
  apply Atoi_decimal; [done|done|]. unfold in_int64, min_int64. lia.
Qed.

Lemma TrimSpace_Itoa n : 0 <= n -> TrimSpace (Itoa n) = Itoa n.
Proof. intros Hn. destruct (decimal_Itoa n Hn) as [_ Hd]. by eapply decimal_trim. Qed.

Lemma HasPrefix_app p s : HasPrefix (p +:+ s) p = true.
Proof.
  unfold HasPrefix. induction p as [|c p IH]; [by destruct s|].
  change (String.prefix (String c p) (String c (p +:+ s)) = true). simpl.
  by destruct (ascii_dec c c).
Qed.

Lemma TrimPrefix_app p s : TrimPrefix (p +:+ s) p = s.
Proof.
  unfold TrimPrefix. rewrite HasPrefix_app. induction p as [|c p IH]; [by destruct s|]. exact IH.
Qed.

(* ------------------------------------------------------------------ *)
(** ** Texts an operation leaves alone *)

(** Every character satisfies [p]. *)
Fixpoint all_chars (p : ascii -> bool) (s : string) : bool :=
  match s with "" => true | String c s' => p c && all_chars p s' end.

Lemma all_chars_impl (p q : ascii -> bool) s :
  (forall c, p c = true -> q c = true) -> all_chars p s = true -> all_chars q s = true.
Proof. intros H. induction s as [|c s IH]; simpl; [done|]. intros [Hc Hs]%andb_prop. by rewrite H, IH. Qed.

Lemma all_chars_app p s t : all_chars p (s +:+ t) = all_chars p s && all_chars p t.
Proof.
  induction s as [|c s IH]; [done|]. change (String c s +:+ t) with (String c (s +:+ t)). simpl.
  by rewrite IH, andb_assoc.
Qed.

Lemma trim_left_all p s : all_chars (fun c => negb (p c)) s = true -> trim_left p s = s.
Proof. destruct s as [|c s]; simpl; [done|]. intros [H _]%andb_prop. by rewrite negb_true_iff in H; rewrite H. Qed.

Lemma trim_right_all p s : all_chars (fun c => negb (p c)) s = true -> trim_right p s = s.
Proof.
  induction s as [|c s IH]; [done|]. simpl. intros [H Hs]%andb_prop. rewrite negb_true_iff in H.
  change (match trim_right p s with "" => if p c then "" else String c "" | r => String c r end = String c s).
  rewrite IH, H by done. by destruct s.
Qed.

Lemma TrimSpace_all s : all_chars (fun c => negb (is_space c)) s = true -> TrimSpace s = s.
Proof. intros H. unfold TrimSpace, trim. by rewrite trim_left_all, trim_right_all. Qed.

Lemma ReplaceAll_lacking s c new : all_chars (fun d => negb (Ascii.eqb d c)) s = true -> ReplaceAll s c new = s.
Proof.
  induction s as [|d s IH]; [done|]. simpl. intros [H Hs]%andb_prop. rewrite negb_true_iff in H.
  by rewrite H, IH.
Qed.

Lemma smap_fixed f s : all_chars (fun c => Ascii.eqb (f c) c) s = true -> smap f s = s.
Proof. induction s as [|c s IH]; [done|]. simpl. intros [H%Ascii.eqb_eq Hs]%andb_prop. by rewrite H, IH. Qed.

Lemma string_length_app s t : String.length (s +:+ t) = (String.length s + String.length t)%nat.
Proof. induction s as [|c s IH]; [done|]. change (String c s +:+ t) with (String c (s +:+ t)). simpl. by rewrite IH. Qed.

Lemma ReplaceAll_app s t c new : ReplaceAll (s +:+ t) c new = ReplaceAll s c new +:+ ReplaceAll t c new.
Proof.
  induction s as [|d s IH]; [done|]. change (String d s +:+ t) with (String d (s +:+ t)). simpl.
  rewrite IH. case_match; [by rewrite string_app_assoc|done].
Qed.

Lemma all_chars_take p n s : all_chars p s = true -> all_chars p (take_bytes n s) = true.
Proof.
  revert s. induction n as [|n IH]; intros s; [by destruct s|]. destruct s as [|c s]; [done|]. simpl.
  intros [-> Hs]%andb_prop. by rewrite IH.
Qed.
Lemma all_chars_drop p n s : all_chars p s = true -> all_chars p (drop_bytes n s) = true.
Proof.
  revert s. induction n as [|n IH]; intros s; [done|]. destruct s as [|c s]; [done|]. simpl.
  intros [_ Hs]%andb_prop. by apply IH.
Qed.

Lemma string_app_nil s : s +:+ "" = s.
Proof. induction s as [|c s IH]; [done|]. change (String c (s +:+ "") = String c s). by rewrite IH. Qed.

(** A line break after a text without blanks is trimmed. *)
Lemma TrimSpace_line s : all_chars (fun c => negb (is_space c)) s = true -> TrimSpace (s +:+ String (byte 10) "") = s.
Proof.
  intros Hs. unfold TrimSpace, trim.
  assert (Hr : trim_right is_space (s +:+ String (byte 10) "") = s).
  { induction s as [|c s IH]; [done|]. simpl in Hs. apply andb_prop in Hs as [Hc Hs]. rewrite negb_true_iff in Hc.
    change (String c s +:+ String (byte 10) "") with (String c (s +:+ String (byte 10) "")).
    rewrite trim_right_cons, IH by done. destruct s; [by rewrite Hc|done]. }
  destruct s as [|c s]; [done|].
  assert (E : trim_left is_space (String c s +:+ String (byte 10) "") = String c s +:+ String (byte 10) "").
  { simpl in Hs. apply andb_prop in Hs as [Hc _]. rewrite negb_true_iff in Hc.
    change (String c s +:+ String (byte 10) "") with (String c (s +:+ String (byte 10) "")). simpl. by rewrite Hc. }
  by rewrite E.
Qed.

(** [strings.ToLower(strings.TrimSpace(s))] *)
Definition norm (s : string) : string := ToLower (TrimSpace s).
Definition nonempty (s : string) : bool := negb (String.eqb s "").
