(* ===== verification/GoMonad.v ===== *)
(** Errors, results and the state monad of the development.

    A Go function [func (r *T) f(...) (A, error)] is a computation [M S A]
    over the state [S] it can reach: it always gives the state back, because a
    Go function that returns an error keeps the writes it already did.  The
    second half is a small weakest-precondition calculus for it. *)

From S2P Require Import Prelude GoString.

(** The error values the program distinguishes.  [errors.Is(err,
    sql.ErrNoRows)] looks through the wrapping of [fmt.Errorf("...%w")]. *)
Inductive error : Type :=
| ErrNoRows                          (* sql.ErrNoRows *)
| ErrText (msg : string)             (* errors.New / fmt.Errorf *)
| ErrWrap (msg : string) (e : error) (* fmt.Errorf(msg + ": %w", e) *)
| ErrDriver                          (* the SQL driver failed *)
| ErrConstraint.                     (* UNIQUE or FOREIGN KEY constraint *)

#[export] Instance error_eq_dec : EqDecision error.
Proof. solve_decision. Defined.

Fixpoint is_no_rows (e : error) : bool :=
  match e with ErrNoRows => true | ErrWrap _ e' => is_no_rows e' | _ => false end.

(** [err.Error()] *)
Fixpoint error_text (e : error) : string :=
  match e with
  | ErrNoRows => "sql: no rows in result set"
  | ErrText m => m
  | ErrWrap m e' => m +:+ ": " +:+ error_text e'
  | ErrDriver => "driver error"
  | ErrConstraint => "constraint failed"
  end.

Inductive result (A : Type) : Type := Ok (a : A) | Err (e : error).
Arguments Ok {_} _.
Arguments Err {_} _.

#[export] Instance result_eq_dec `{EqDecision A} : EqDecision (result A).
Proof. solve_decision. Defined.

#[export] Instance result_ret : MRet result := fun _ a => Ok a.
#[export] Instance result_bind : MBind result := fun _ _ f r =>
  match r with Ok a => f a | Err e => Err e end.

Definition is_ok {A} (r : result A) : bool := match r with Ok _ => true | Err _ => false end.

Definition M (S A : Type) : Type := S -> result A * S.

#[export] Instance M_ret S : MRet (M S) := fun _ a s => (Ok a, s).
#[export] Instance M_bind S : MBind (M S) := fun A B (k : A -> M S B) m s =>
  match m s with
  | (Ok a, s') => k a s'
  | (Err e, s') => (Err e, s')
  end.

Section ops.
Context {S : Type}.

Definition fail {A} (e : error) : M S A := fun s => (Err e, s).
Definition lift {A} (r : result A) : M S A := fun s => (r, s).
Definition get : M S S := fun s => (Ok s, s).
Definition put (s : S) : M S unit := fun _ => (Ok tt, s).
Definition gets {A} (f : S -> A) : M S A := fun s => (Ok (f s), s).
Definition modify (f : S -> S) : M S unit := fun s => (Ok tt, f s).

(** [v, err := f()] followed by a test of [err]. *)
Definition try_ {A} (m : M S A) : M S (result A) := fun s =>
  let '(r, s') := m s in (Ok r, s').
(** [_ = f()] *)
Definition ignore {A} (m : M S A) : M S unit := fun s => (Ok tt, (m s).2).
(** [if c { return err }] *)
Definition fail_if (c : bool) (msg : string) : M S unit :=
  if c then fail (ErrText msg) else mret tt.
Definition when (c : bool) (m : M S unit) : M S unit := if c then m else mret tt.

(** [for _, x := range l { if err := f(x); err != nil { return err } }] *)
Fixpoint for_each {A} (f : A -> M S unit) (l : list A) : M S unit :=
  match l with
  | [] => mret tt
  | x :: l' => f x ≫= fun _ => for_each f l'
  end.
Fixpoint map_each {A B} (f : A -> M S B) (l : list A) : M S (list B) :=
  match l with
  | [] => mret []
  | x :: l' => f x ≫= fun y => map_each f l' ≫= fun ys => mret (y :: ys)
  end.
(** A loop that threads the local variables it updates. *)
Fixpoint fold_each {A B} (f : B -> A -> M S B) (b : B) (l : list A) : M S B :=
  match l with
  | [] => mret b
  | x :: l' => f b x ≫= fun b' => fold_each f b' l'
  end.
End ops.

(** Run a computation of a part of the state: Go's [s.store.f(...)]. *)
Definition zoom {S T A} (view : S -> T) (set : T -> S -> S) (m : M T A) : M S A := fun s =>
  let '(r, t) := m (view s) in (r, set t s).

Arguments fail {_ _} _ _ /.
Arguments lift {_ _} _ _ /.
Arguments get {_} _ /.
Arguments put {_} _ _ /.
Arguments gets {_ _} _ _ /.
Arguments modify {_} _ _ /.

(* ------------------------------------------------------------------ *)
(** ** Weakest preconditions *)

Section wp.
Context {S : Type}.
Implicit Types s : S.

Definition wp {A} (m : M S A) (Q : result A -> S -> Prop) : S -> Prop :=
  fun s => let '(r, s') := m s in Q r s'.

Lemma wp_run {A} (m : M S A) Q s r s' : wp m Q s -> m s = (r, s') -> Q r s'.
Proof. unfold wp. intros H E. by rewrite E in H. Qed.

Lemma wp_runs {A} (m : M S A) (Q : result A -> S -> Prop) s : wp m Q s -> forall r s', m s = (r, s') -> Q r s'.
Proof. intros H r s'. by apply wp_run. Qed.

Lemma wp_apply {A} (m : M S A) Q s : wp m Q s -> Q (m s).1 (m s).2.
Proof. unfold wp. by destruct (m s). Qed.

Lemma wp_mono {A} (m : M S A) (Q R : result A -> S -> Prop) s :
  wp m Q s -> (forall r s', Q r s' -> R r s') -> wp m R s.
Proof. unfold wp. destruct (m s). eauto. Qed.

Lemma wp_ret {A} (a : A) (Q : result A -> S -> Prop) s : Q (Ok a) s -> wp (mret a) Q s.
Proof. done. Qed.

Lemma wp_fail {A} e (Q : result A -> S -> Prop) s : Q (Err e) s -> wp (fail e) Q s.
Proof. done. Qed.

Lemma wp_bind {A B} (m : M S A) (k : A -> M S B) Q s :
  wp m (fun r s' => match r with Ok a => wp (k a) Q s' | Err e => Q (Err e) s' end) s ->
  wp (m ≫= k) Q s.
Proof. unfold wp, mbind, M_bind. destruct (m s) as [[a|e] s']; done. Qed.

Lemma wp_gets {A} (f : S -> A) Q s : Q (Ok (f s)) s -> wp (gets f) Q s.
Proof. done. Qed.

Lemma wp_modify f Q s : Q (Ok tt) (f s) -> wp (modify f) Q s.
Proof. done. Qed.

Lemma wp_try {A} (m : M S A) Q s : wp m (fun r s' => Q (Ok r) s') s -> wp (try_ m) Q s.
Proof. unfold wp, try_. by destruct (m s). Qed.

Lemma wp_ignore {A} (m : M S A) Q s : wp m (fun _ s' => Q (Ok tt) s') s -> wp (ignore m) Q s.
Proof. unfold wp, ignore. by destruct (m s). Qed.

Lemma wp_fail_if c msg Q s :
  (c = true -> Q (Err (ErrText msg)) s) -> (c = false -> Q (Ok tt) s) ->
  wp (fail_if c msg) Q s.
Proof. intros H1 H2. destruct c; [exact (H1 eq_refl)|exact (H2 eq_refl)]. Qed.

Lemma wp_when c m Q s :
  (c = true -> wp m Q s) -> (c = false -> Q (Ok tt) s) -> wp (when c m) Q s.
Proof. intros H1 H2. destruct c; [exact (H1 eq_refl)|exact (H2 eq_refl)]. Qed.

Lemma wp_any {A} (m : M S A) (Q : result A -> S -> Prop) s : (forall r s', Q r s') -> wp m Q s.
Proof. unfold wp. by case_match. Qed.

Lemma wp_and {A} (m : M S A) (P Q : result A -> S -> Prop) s : wp m P s -> wp m Q s -> wp m (fun r s' => P r s' /\ Q r s') s.
Proof. unfold wp. by case_match. Qed.

Lemma wp_ignored {A B} (m : M S A) (k : unit -> M S B) Q s :
  (forall s', wp (k tt) Q s') -> wp (ignore m ≫= k) Q s.
Proof. intros H. apply wp_bind, wp_ignore, wp_any. intros. apply H. Qed.

(** A computation keeps the relation [R] between the state before and after,
    whatever it returns. *)
Definition keeps (R : S -> S -> Prop) {A} (m : M S A) : Prop := forall s, R s (m s).2.

Lemma keeps_wp {A} (R : S -> S -> Prop) (m : M S A) s : keeps R m -> wp m (fun _ s' => R s s') s.
Proof. intros H. specialize (H s). unfold wp. by destruct (m s). Qed.

Lemma wp_keeps {A} (R : S -> S -> Prop) (m : M S A) (Q : result A -> S -> Prop) s :
  keeps R m -> (forall r s', R s s' -> Q r s') -> wp m Q s.
Proof. intros H HQ. eapply wp_mono; [by apply keeps_wp|]. eauto. Qed.

Lemma keeps_weaken (R R' : S -> S -> Prop) {A} (m : M S A) :
  (forall s s', R s s' -> R' s s') -> keeps R m -> keeps R' m.
Proof. intros H Hm s. apply H, Hm. Qed.

Section keeps.
Context (R : S -> S -> Prop) `{!PreOrder R}.

Lemma keeps_ret {A} (a : A) : keeps R (mret a : M S A).
Proof. intros s. simpl. reflexivity. Qed.
Lemma keeps_fail {A} e : keeps R (fail e : M S A).
Proof. intros s. simpl. reflexivity. Qed.
Lemma keeps_lift {A} (r : result A) : keeps R (lift r).
Proof. intros s. simpl. reflexivity. Qed.
Lemma keeps_gets {A} (f : S -> A) : keeps R (gets f).
Proof. intros s. simpl. reflexivity. Qed.
Lemma keeps_get : keeps R get.
Proof. intros s. simpl. reflexivity. Qed.
Lemma keeps_fail_if c msg : keeps R (fail_if c msg).
Proof. destruct c; intros s; simpl; reflexivity. Qed.
Lemma keeps_modify f : (forall s, R s (f s)) -> keeps R (modify f).
Proof. intros H s. apply H. Qed.
Lemma keeps_bind {A B} (m : M S A) (k : A -> M S B) :
  keeps R m -> (forall a, keeps R (k a)) -> keeps R (m ≫= k).
Proof.
  intros Hm Hk s. specialize (Hm s). unfold mbind, M_bind.
  destruct (m s) as [[a|e] s']; simpl in *; [|done].
  etransitivity; [exact Hm|apply Hk].
Qed.
Lemma keeps_try {A} (m : M S A) : keeps R m -> keeps R (try_ m).
Proof. intros H s. specialize (H s). unfold try_. by destruct (m s). Qed.
Lemma keeps_ignore {A} (m : M S A) : keeps R m -> keeps R (ignore m).
Proof. intros H s. apply H. Qed.
Lemma keeps_when c m : keeps R m -> keeps R (when c m).
Proof. destruct c; [done|]. intros _. apply keeps_ret. Qed.
Lemma keeps_for_each {A} (f : A -> M S unit) l :
  (forall x, keeps R (f x)) -> keeps R (for_each f l).
Proof.
  intros H. induction l; simpl; [apply keeps_ret|]. by apply keeps_bind.
Qed.
Lemma keeps_map_each {A B} (f : A -> M S B) l :
  (forall x, keeps R (f x)) -> keeps R (map_each f l).
Proof.
  intros H. induction l; simpl; [apply keeps_ret|].
  apply keeps_bind; [done|]. intros y. apply keeps_bind; [done|]. intros ys. apply keeps_ret.
Qed.
Lemma keeps_fold_each {A B} (f : B -> A -> M S B) b l :
  (forall y x, keeps R (f y x)) -> keeps R (fold_each f b l).
Proof.
  intros H. revert b. induction l; intros b; simpl; [apply keeps_ret|]. by apply keeps_bind.
Qed.
End keeps.
End wp.

(** Runs. *)
Lemma lift_run {S A B} (a : A) (k : A -> M S B) s : (lift (Ok a) ≫= k) s = k a s.
Proof. done. Qed.
Lemma modify_run {S B} (f : S -> S) (k : unit -> M S B) s : (modify f ≫= k) s = k tt (f s).
Proof. done. Qed.
Lemma bind_ok_run {S A B} (m : M S A) (k : A -> M S B) s a s' : m s = (Ok a, s') -> (m ≫= k) s = k a s'.
Proof. intros E. unfold mbind, M_bind. by rewrite E. Qed.
Lemma bind_err_run {S A B} (m : M S A) (k : A -> M S B) s e s' : m s = (Err e, s') -> (m ≫= k) s = (Err e, s').
Proof. intros E. unfold mbind, M_bind. by rewrite E. Qed.
Lemma gets_run_eq {S A B} (f : S -> A) (k : A -> M S B) s : (gets f ≫= k) s = k (f s) s.
Proof. done. Qed.

(** [keeps_tac] walks a computation; what it cannot do is left to the caller
    (usually a [modify] or an operation with a lemma in [go_keeps]). *)
Create HintDb go_keeps.

Ltac keeps_step :=
  match goal with
  | |- forall _, keeps _ _ => intros ?
  | |- keeps _ (mret _) => apply keeps_ret
  | |- keeps _ (fail _) => apply keeps_fail
  | |- keeps _ (lift _) => apply keeps_lift
  | |- keeps _ (gets _) => apply keeps_gets
  | |- keeps _ get => apply keeps_get
  | |- keeps _ (fail_if _ _) => apply keeps_fail_if
  | |- keeps _ (try_ _) => apply keeps_try
  | |- keeps _ (ignore _) => apply keeps_ignore
  | |- keeps _ (when _ _) => apply keeps_when
  | |- keeps _ (mbind _ _) => apply keeps_bind
  | |- keeps _ (for_each _ _) => apply keeps_for_each
  | |- keeps _ (map_each _ _) => apply keeps_map_each
  | |- keeps _ (fold_each _ _ _) => apply keeps_fold_each
  | |- keeps _ (let _ := _ in _) => intros ?
  | |- keeps _ (match ?x with _ => _ end) => destruct x
  | |- keeps _ _ => solve [eauto 3 with go_keeps typeclass_instances]
  | |- PreOrder _ => solve [typeclasses eauto]
  end.
Ltac keeps_tac := cbv beta; repeat (keeps_step; cbv beta zeta).

(** One step of a [wp] goal. *)
Ltac wp_step :=
  match goal with
  | |- wp (mbind _ _) _ _ => apply wp_bind
  | |- wp (mret _) _ _ => apply wp_ret
  | |- wp (fail _) _ _ => apply wp_fail
  | |- wp (gets _) _ _ => apply wp_gets
  | |- wp (modify _) _ _ => apply wp_modify
  | |- wp (try_ _) _ _ => apply wp_try
  | |- wp (ignore _) _ _ => apply wp_ignore
  | |- wp (fail_if _ _) _ _ => apply wp_fail_if; intros
  | |- wp (when _ _) _ _ => apply wp_when; intros
  end.
