(* ===== verification/GoNum.v ===== *)
(** The [float64] arithmetic of the threat engine.

    A finite [float64] is the exact rational [mant * 2 ^ expo]; an operation
    computes the exact result and rounds it to 53 bits, ties to even.  The
    values of the program are far from the exponent limits (at most about
    [10 * 1.6 ^ 64]), so neither subnormal numbers nor infinities arise. *)

From S2P Require Import Prelude GoString.

Record float := Fl { mant : Z; expo : Z }.

(** Round [v * 2 ^ e] to 53 bits, nearest, ties to even. *)
Definition rne (v e : Z) : float :=
  let a := Z.abs v in
  if a <? 2 ^ 53 then Fl v e
  else
    let k := Z.log2 a - 52 in
    let q := a / 2 ^ k in
    let r := a mod 2 ^ k in
    let half := 2 ^ (k - 1) in
    let q' := if (r <? half) || ((r =? half) && Z.even q) then q else q + 1 in
    Fl (Z.sgn v * q') (e + k).

(** [float64(n)] *)
Definition of_int (n : Z) : float := rne n 0.
Definition mul (a b : float) : float := rne (mant a * mant b) (expo a + expo b).

(** [math.Floor] and [math.Round] (half away from zero), as integers. *)
Definition Floor (f : float) : Z :=
  if 0 <=? expo f then mant f * 2 ^ expo f else mant f / 2 ^ (- expo f).
Definition Round (f : float) : Z :=
  if 0 <=? expo f then mant f * 2 ^ expo f
  else Z.sgn (mant f) * ((Z.abs (mant f) + 2 ^ (- expo f - 1)) / 2 ^ (- expo f)).

(** [int(f)] for an integral [f]: a value outside [int64] gives the minimum. *)
Definition to_int (z : Z) : Z := if in_int64 z then z else min_int64.

(** [math.Pow(x, n)] for an integral exponent: the loop of the library
    squares [x] and multiplies the factors of the set bits of [n]. *)
Fixpoint pow_loop (a x : float) (i : positive) : float :=
  match i with
  | xH => mul a x
  | xO i' => pow_loop a (mul x x) i'
  | xI i' => pow_loop (mul a x) (mul x x) i'
  end.
Definition Pow (x : float) (n : Z) : float :=
  match n with Z0 => Fl 1 0 | Zpos i => pow_loop (Fl 1 0) x i | Zneg _ => Fl 0 0 end.

(** The literals of the source. *)
Definition f1_0 : float := Fl 1 0.
Definition f2_0 : float := Fl 2 0.
Definition f1_5 : float := Fl 3 (-1).
Definition f1_2 : float := Fl 5404319552844595 (-52).
Definition f1_6 : float := Fl 3602879701896397 (-51).
Definition f0_93 : float := Fl 8376695306909123 (-53).
