(* ===== verification/GoTime.v ===== *)
(** Instants, durations and the textual timestamps of the database.

    A [time.Time] is the number of nanoseconds since 1 January of year 1, UTC,
    so the zero [time.Time] is [0] and [t.IsZero()] is [t =? 0].  The database
    stores [t.UTC().Format(time.RFC3339Nano)] and compares the texts, so this
    file also defines that rendering and proves what the comparison of texts
    says about the instants. *)

From S2P Require Import Prelude GoString.
From Stdlib Require Import Ascii.

Definition time : Type := Z.
Definition duration : Type := Z.

Definition Nanosecond : duration := 1.
Definition Millisecond : duration := 1000000.
Definition Second : duration := 1000000000.
Definition Minute : duration := 60 * Second.
Definition Hour : duration := 60 * Minute.
Definition Day : duration := 24 * Hour.

Definition IsZero (t : time) : bool := t =? 0.
Definition Before (t u : time) : bool := t <? u.
Definition After (t u : time) : bool := u <? t.
Definition Add (t : time) (d : duration) : time := t + d.

(** [t.Sub(u)]: a [Duration] is an [int64]; the difference saturates. *)
Definition Sub (t u : time) : duration := Z.max min_int64 (Z.min max_int64 (t - u)).

(** [t.Unix()] *)
Definition Unix (t : time) : Z := t / Second - 62135596800.

Lemma Sub_exact t u : in_int64 (t - u) = true -> Sub t u = t - u.
Proof. unfold in_int64, Sub. lia. Qed.

(* ------------------------------------------------------------------ *)
(** ** The calendar *)

(** Days from 1 January of year 1 to 1 January of year [y + 1]. *)
Definition days_before_year (y : Z) : Z := 365 * y + y / 4 - y / 100 + y / 400.

(** Years completed on day [d]. *)
Definition year_of_day (d : Z) : Z :=
  let y := (400 * d) / 146097 in
  if d <? days_before_year y then y - 1
  else if days_before_year (y + 1) <=? d then y + 1 else y.

Definition is_leap (year : Z) : bool :=
  (year mod 4 =? 0) && (negb (year mod 100 =? 0) || (year mod 400 =? 0)).

(** Days before each month of a common year. *)
Definition month_table : list Z := [0; 31; 59; 90; 120; 151; 181; 212; 243; 273; 304; 334].

Definition days_before_month (leap : bool) (m : nat) : Z :=
  nth m month_table 334 + (if leap && (2 <=? m)%nat then 1 else 0).

(** The last month that starts on or before the day of the year. *)
Fixpoint month_search (leap : bool) (yday : Z) (m : nat) : nat :=
  match m with
  | O => O
  | S m' => if days_before_month leap m <=? yday then m else month_search leap yday m'
  end.

(** Fixed-width decimal, most significant digit first. *)
Fixpoint digits (k : nat) (n : Z) : string :=
  match k with
  | O => ""
  | S k' => digits k' (n / 10) +:+ String (byte (48 + n mod 10)) ""
  end.

Definition date_text (d : Z) : string :=
  let y := year_of_day d in
  let leap := is_leap (y + 1) in
  let yday := d - days_before_year y in
  let m := month_search leap yday 11 in
  digits 4 (y + 1) +:+ "-" +:+ digits 2 (Z.of_nat m + 1) +:+ "-"
    +:+ digits 2 (yday - days_before_month leap m + 1).

Definition clock_text (s : Z) : string :=
  digits 2 (s / 3600) +:+ ":" +:+ digits 2 ((s / 60) mod 60) +:+ ":" +:+ digits 2 (s mod 60).

(** The fraction of a second without its trailing zeros. *)
Definition fraction_text (ns : Z) : string :=
  if ns =? 0 then "" else "." +:+ trim_right (fun c => Ascii.eqb c "0"%char) (digits 9 ns).

(** [t.UTC().Format(time.RFC3339Nano)] *)
Definition RFC3339Nano (t : time) : string :=
  let s := t / Second in
  date_text (s / 86400) +:+ "T" +:+ clock_text (s mod 86400)
    +:+ fraction_text (t mod Second) +:+ "Z".

(** [t.Format(time.RFC3339)] in UTC. *)
Definition RFC3339 (t : time) : string :=
  let s := t / Second in date_text (s / 86400) +:+ "T" +:+ clock_text (s mod 86400) +:+ "Z".

(** [a < b] in a SQL comparison of two timestamp columns or parameters. *)
Definition text_lt (a b : time) : bool := String.ltb (RFC3339Nano a) (RFC3339Nano b).
Definition text_le (a b : time) : bool := negb (text_lt b a).

Example rfc3339_epoch : RFC3339Nano (62135596800 * Second) = "1970-01-01T00:00:00Z".
Proof. reflexivity. Qed.
Example rfc3339_leap : RFC3339Nano ((62135596800 + 951782400) * Second + 500 * Millisecond)
  = "2000-02-29T00:00:00.5Z".
Proof. reflexivity. Qed.
Example rfc3339_late : RFC3339Nano ((62135596800 + 1767225599) * Second + 1) = "2025-12-31T23:59:59.000000001Z".
Proof. reflexivity. Qed.

(* ------------------------------------------------------------------ *)
(** ** The order of texts and the order of instants *)

(** Instants whose year has four digits. *)
Definition four_digit_year (t : time) : Prop := 0 <= t / Second / 86400 < days_before_year 9999.

Lemma year_of_day_spec d :
  days_before_year (year_of_day d) <= d < days_before_year (year_of_day d + 1).
Proof.
  unfold year_of_day. cbv zeta.
  assert (Hb : days_before_year (400 * d / 146097 - 1) <= d < days_before_year (400 * d / 146097 + 2)).
  { unfold days_before_year. Z.div_mod_to_equations. lia. }
  replace (400 * d / 146097 + 2) with (400 * d / 146097 + 1 + 1) in Hb by lia.
  repeat case_step;
    repeat match goal with H : (_ <? _) = _ |- _ => revert H | H : (_ <=? _) = _ |- _ => revert H end;
    replace (400 * d / 146097 - 1 + 1) with (400 * d / 146097) by lia; lia.
Qed.

Lemma days_before_year_mono a b : a <= b -> days_before_year a <= days_before_year b.
Proof. unfold days_before_year. intros H. Z.div_mod_to_equations. lia. Qed.

Lemma year_of_day_mono a b : a <= b -> year_of_day a <= year_of_day b.
Proof.
  intros H. pose proof (year_of_day_spec a). pose proof (year_of_day_spec b).
  destruct (decide (year_of_day a <= year_of_day b)); [done|].
  pose proof (days_before_year_mono (year_of_day b + 1) (year_of_day a)). lia.
Qed.

Lemma year_length y :
  days_before_year (y + 1) - days_before_year y <= if is_leap (y + 1) then 366 else 365.
Proof.
  unfold days_before_year, is_leap. Z.div_mod_to_equations. zcase.
Qed.

Lemma month_search_spec leap yday m :
  0 <= yday ->
  let r := month_search leap yday m in
  (r <= m)%nat /\ days_before_month leap r <= yday /\
  forall k, (r < k <= m)%nat -> yday < days_before_month leap k.
Proof.
  intros Hy. induction m as [|m IH].
  - cbn [month_search]. split_and!; [lia| |lia].
    unfold days_before_month. destruct leap; simpl; lia.
  - cbn [month_search]. cbv zeta. case_step; [split_and!; lia|].
    destruct IH as (H1 & H2 & H3). split_and!; [lia|done|].
    intros k Hk. destruct (decide (k = S m)) as [->|]; [lia|]. apply H3. lia.
Qed.

Lemma month_search_mono leap a b m :
  0 <= a <= b -> (month_search leap a m <= month_search leap b m)%nat.
Proof.
  intros H. destruct (month_search_spec leap a m) as (A1 & A2 & A3); [lia|].
  destruct (month_search_spec leap b m) as (B1 & B2 & B3); [lia|].
  destruct (decide (month_search leap a m <= month_search leap b m)%nat); [done|].
  specialize (B3 (month_search leap a m)). lia.
Qed.

Lemma month_day_bound (leap : bool) yday :
  0 <= yday < (if leap then 366 else 365) ->
  1 <= yday - days_before_month leap (month_search leap yday 11) + 1 < 100.
Proof.
  intros H.
  destruct (month_search_spec leap yday 11) as (H1 & H2 & H3); [lia|].
  remember (month_search leap yday 11) as m eqn:Em. clear Em.
  assert (yday < days_before_month leap m + 99); [|lia].
  destruct (decide (m = 11%nat)) as [->|].
  - unfold days_before_month; destruct leap; simpl; lia.
  - specialize (H3 (S m)).
    do 11 (destruct m as [|m]; [unfold days_before_month in *; destruct leap; simpl in *; lia|]). lia.
Qed.

(** Lexical comparison of concatenations. *)
Lemma compare_app_same p x y : String.compare (p +:+ x) (p +:+ y) = String.compare x y.
Proof.
  induction p as [|c p IH]; [done|]. simpl.
  unfold Ascii.compare. by rewrite N.compare_refl.
Qed.

Lemma compare_digit a b x y : 0 <= a < b -> b < 10 ->
  String.compare (String (byte (48 + a)) x) (String (byte (48 + b)) y) = Lt.
Proof.
  intros Ha Hb. simpl. unfold Ascii.compare, byte.
  rewrite !N_ascii_embedding by lia.
  assert (E : (Z.to_N (48 + a) ?= Z.to_N (48 + b))%N = Lt) by (apply N.compare_lt_iff; lia).
  by rewrite E.
Qed.

Lemma compare_digits k n m x y : 0 <= n < m -> m < 10 ^ Z.of_nat k ->
  String.compare (digits k n +:+ x) (digits k m +:+ y) = Lt.
Proof.
  revert n m x y; induction k as [|k IH]; intros n m x y Hn Hm.
  { simpl in Hm. lia. }
  cbn [digits]. rewrite !string_app_assoc.
  replace (10 ^ Z.of_nat (S k)) with (10 * 10 ^ Z.of_nat k) in Hm
    by (rewrite Nat2Z.inj_succ, Z.pow_succ_r; lia).
  destruct (decide (n / 10 < m / 10)).
  - apply IH; Z.div_mod_to_equations; nia.
  - assert (n / 10 = m / 10) as -> by (Z.div_mod_to_equations; lia).
    rewrite compare_app_same. apply compare_digit; Z.div_mod_to_equations; lia.
Qed.

Lemma compare_date a b x y : 0 <= a < b -> b < days_before_year 9999 ->
  String.compare (date_text a +:+ x) (date_text b +:+ y) = Lt.
Proof.
  intros Ha Hb. unfold date_text. cbv zeta. rewrite !string_app_assoc.
  pose proof (year_of_day_spec a) as Sa. pose proof (year_of_day_spec b) as Sb.
  pose proof (year_of_day_mono a b ltac:(lia)) as Hy.
  assert (0 <= year_of_day a) by (pose proof (year_of_day_mono 0 a); change (year_of_day 0) with 0 in *; lia).
  assert (year_of_day b < 9999).
  { destruct (decide (year_of_day b < 9999)); [done|].
    pose proof (days_before_year_mono 9999 (year_of_day b)). lia. }
  destruct (decide (year_of_day a < year_of_day b)) as [?|?].
  { apply compare_digits; [lia|]. change (10 ^ Z.of_nat 4) with 10000. lia. }
  assert (Ey : year_of_day a = year_of_day b) by lia. rewrite Ey in *.
  rewrite compare_app_same. set (yr := year_of_day b) in *.
  pose proof (year_length yr) as Hl. set (leap := is_leap (yr + 1)) in *.
  set (da := a - days_before_year yr). set (db := b - days_before_year yr).
  rewrite (compare_app_same "-").
  assert (Hd : 0 <= da < db /\ db < if leap then 366 else 365) by (unfold da, db; lia).
  pose proof (month_search_mono leap da db 11 ltac:(lia)).
  destruct (month_search_spec leap db 11) as (M1 & _ & _); [lia|].
  destruct (decide (month_search leap da 11 < month_search leap db 11)%nat).
  { apply compare_digits; [lia|]. change (10 ^ Z.of_nat 2) with 100. lia. }
  assert (month_search leap da 11 = month_search leap db 11) as Em by lia.
  rewrite <- Em. rewrite compare_app_same, (compare_app_same "-").
  pose proof (month_day_bound leap da). pose proof (month_day_bound leap db).
  rewrite <- Em in *.
  apply compare_digits; [lia|]. change (10 ^ Z.of_nat 2) with 100. lia.
Qed.

Lemma compare_clock a b x y : 0 <= a < b -> b < 86400 ->
  String.compare (clock_text a +:+ x) (clock_text b +:+ y) = Lt.
Proof.
  intros Ha Hb. unfold clock_text. rewrite !string_app_assoc.
  destruct (decide (a / 3600 < b / 3600)).
  { apply compare_digits; [Z.div_mod_to_equations; lia|].
    change (10 ^ Z.of_nat 2) with 100. Z.div_mod_to_equations. lia. }
  assert (a / 3600 = b / 3600) as -> by (Z.div_mod_to_equations; lia).
  rewrite compare_app_same, (compare_app_same ":").
  destruct (decide ((a / 60) mod 60 < (b / 60) mod 60)).
  { apply compare_digits; [Z.div_mod_to_equations; lia|].
    change (10 ^ Z.of_nat 2) with 100. Z.div_mod_to_equations. lia. }
  assert ((a / 60) mod 60 = (b / 60) mod 60) as -> by (Z.div_mod_to_equations; lia).
  rewrite compare_app_same, (compare_app_same ":").
  apply compare_digits; [Z.div_mod_to_equations; lia|].
  change (10 ^ Z.of_nat 2) with 100. Z.div_mod_to_equations. lia.
Qed.

Lemma compare_RFC3339Nano a b :
  four_digit_year a -> four_digit_year b -> a / Second < b / Second ->
  String.compare (RFC3339Nano a) (RFC3339Nano b) = Lt.
Proof.
  unfold four_digit_year. intros Ha Hb Hlt. unfold RFC3339Nano. cbv zeta.
  destruct (decide (a / Second / 86400 < b / Second / 86400)).
  { apply compare_date; lia. }
  assert (a / Second / 86400 = b / Second / 86400) as -> by (Z.div_mod_to_equations; lia).
  rewrite compare_app_same, (compare_app_same "T").
  apply compare_clock; Z.div_mod_to_equations; lia.
Qed.

(** Texts of instants in different seconds are ordered as the instants. *)
Lemma text_lt_seconds a b :
  four_digit_year a -> four_digit_year b -> a / Second <> b / Second ->
  text_lt a b = Before a b.
Proof.
  intros Ha Hb Hne. unfold text_lt, Before, String.ltb.
  destruct (decide (a / Second < b / Second)).
  - rewrite compare_RFC3339Nano by done. symmetry. apply Z.ltb_lt.
    unfold Second in *. Z.div_mod_to_equations. lia.
  - rewrite String.compare_antisym, compare_RFC3339Nano by (done || lia). simpl.
    symmetry. apply Z.ltb_ge. unfold Second in *. Z.div_mod_to_equations. lia.
Qed.

(** Inside one second they need not be: the fraction sorts before the [Z]. *)
Lemma text_lt_within_second :
  let t := (62135596800 + 1767225599) * Second in
  Before t (t + 500 * Millisecond) = true /\ text_lt (t + 500 * Millisecond) t = true.
Proof. vm_compute. done. Qed.

(** Adding whole seconds keeps the text order. *)
Lemma text_lt_add t d :
  four_digit_year t -> four_digit_year (t + d) -> Second <= d -> text_lt t (t + d) = true.
Proof.
  intros H1 H2 Hd. rewrite text_lt_seconds; [|done|done|].
  - unfold Before, Second in *. lia.
  - unfold Second in *. Z.div_mod_to_equations. lia.
Qed.
