(* ===== verification/GoFile.v ===== *)
(** Paths and timestamps in text: [path.Clean] and [path.Join], the stamp of a file
    name, and [time.Parse] with the layout [time.RFC3339Nano]. *)

From S2P Require Import Prelude GoString GoTime.
From Stdlib Require Import Ascii.
Open Scope string_scope.
Open Scope Z_scope.

(* ------------------------------------------------------------------ *)
(** ** Paths *)

(** One element of a path; [out] holds the elements kept, the last first. *)
Definition clean_step (rooted : bool) (out : list string) (el : string) : list string :=
  if String.eqb el "" || String.eqb el "." then out
  else if String.eqb el ".." then
    match out with
    | x :: l => if String.eqb x ".." then ".." :: out else l
    | [] => if rooted then [] else [".."]
    end
  else el :: out.

(** [path.Clean], which [filepath.Clean] is on Unix. *)
Definition Clean (p : string) : string :=
  let rooted := HasPrefix p "/" in
  let body := Join (rev (foldl (clean_step rooted) [] (Split p "/"%char))) "/" in
  if rooted then "/" +:+ body else if String.eqb body "" then "." else body.

(** [path.Join(dir, name)] *)
Definition PathJoin (dir name : string) : string :=
  match List.filter nonempty [dir; name] with [] => "" | l => Clean (Join l "/") end.

Example clean_dots : Clean "/a/./b//../c/" = "/a/c" /\ Clean "../a/../../b" = "../../b" /\ Clean "/.." = "/" /\ Clean "a/.." = ".".
Proof. by vm_compute. Qed.
Example join_root : PathJoin "/" "f" = "/f" /\ PathJoin "/var/lib" "f" = "/var/lib/f".
Proof. by vm_compute. Qed.

(* ------------------------------------------------------------------ *)
(** ** Timestamps *)

(** [t.UTC().Format("20060102-150405")] *)
Definition stamp (t : time) : string :=
  let s := t / Second in
  ReplaceAll (date_text (s / 86400)) "-"%char "" +:+ "-" +:+ ReplaceAll (clock_text (s mod 86400)) ":"%char "".

(** [k] decimal digits. *)
Fixpoint take_num (k : nat) (acc : Z) (s : string) : option (Z * string) :=
  match k, s with
  | O, _ => Some (acc, s)
  | S k', String c s' => d ← digit_value c; take_num k' (10 * acc + d) s'
  | _, "" => None
  end.
(** One or two digits, as an hour is read. *)
Definition take_hour (s : string) : option (Z * string) :=
  match take_num 2 0 s with Some r => Some r | None => take_num 1 0 s end.
Definition expect (c : ascii) (s : string) : option string :=
  match s with String c' s' => if Ascii.eqb c c' then Some s' else None | "" => None end.

(** The digits of a fraction: the first nine count. *)
Fixpoint take_fraction (k : nat) (acc : Z) (s : string) : Z * string :=
  match s with
  | String c s' =>
      match digit_value c with
      | Some d => match k with O => take_fraction O acc s' | S k' => take_fraction k' (acc + d * 10 ^ Z.of_nat k') s' end
      | None => (acc, s)
      end
  | "" => (acc, s)
  end.
Definition fraction (s : string) : Z * string :=
  match s with
  | String c (String d _ as s') =>
      if (Ascii.eqb c "."%char || Ascii.eqb c ","%char) && is_digit d then take_fraction 9 0 s' else (0, s)
  | _ => (0, s)
  end.

(** The offset of the zone in seconds. *)
Definition take_zone (s : string) : option (Z * string) :=
  match s with
  | String c s' =>
      if Ascii.eqb c "Z"%char then Some (0, s')
      else if Ascii.eqb c "+"%char || Ascii.eqb c "-"%char then
        '(h, s) ← take_num 2 0 s';
        s ← expect ":"%char s;
        '(m, s) ← take_num 2 0 s;
        if (24 <? h) || (60 <? m) then None
        else Some ((if Ascii.eqb c "-"%char then -1 else 1) * (h * 3600 + m * 60), s)
      else None
  | "" => None
  end.

Definition days_in (leap : bool) (m : Z) : Z :=
  if m =? 12 then 31 else days_before_month leap (Z.to_nat m) - days_before_month leap (Z.to_nat (m - 1)).

(** [time.Parse(time.RFC3339Nano, s)] *)
Definition ParseRFC3339Nano (s : string) : option time :=
  '(y, s) ← take_num 4 0 s; s ← expect "-"%char s;
  '(mo, s) ← take_num 2 0 s; s ← expect "-"%char s;
  '(d, s) ← take_num 2 0 s; s ← expect "T"%char s;
  '(h, s) ← take_hour s; s ← expect ":"%char s;
  '(mi, s) ← take_num 2 0 s; s ← expect ":"%char s;
  '(sec, s) ← take_num 2 0 s;
  let '(ns, s) := fraction s in
  '(off, s) ← take_zone s;
  let leap := is_leap y in
  if nonempty s || (mo <? 1) || (12 <? mo) || (d <? 1) || (days_in leap mo <? d) || (23 <? h) || (59 <? mi) || (59 <? sec) then None
  else
    let day := days_before_year (y - 1) + days_before_month leap (Z.to_nat (mo - 1)) + d - 1 in
    Some ((day * 86400 + h * 3600 + mi * 60 + sec - off) * Second + ns).

Example parse_leap : ParseRFC3339Nano "2000-02-29T00:00:00.5Z" = Some ((62135596800 + 951782400) * Second + 500 * Millisecond).
Proof. by vm_compute. Qed.
Example parse_zone : ParseRFC3339Nano "1970-01-01T02:00:00+02:00" = Some (62135596800 * Second) /\ ParseRFC3339Nano "2001-02-29T00:00:00Z" = None.
Proof. by vm_compute. Qed.
Example stamped : stamp ((62135596800 + 951782400) * Second) = "20000229-000000".
Proof. by vm_compute. Qed.
