(* ===== verification/GoNet.v ===== *)
(** The parts of Go's [net] package the program calls: textual addresses,
    address predicates, CIDR networks and [host:port] splitting.

    A [net.IP] produced by [net.ParseIP] is sixteen bytes; here it is the
    128-bit number they spell.  An IPv4 address is the mapped [::ffff:a.b.c.d];
    [To4] recovers the 32-bit number. *)

From S2P Require Import Prelude GoString.
From Stdlib Require Import Ascii.

Definition ip : Type := Z.

Definition mapped (v4 : Z) : ip := Z.lor (Z.shiftl 65535 32) v4.
Definition To4 (i : ip) : option Z :=
  if Z.shiftr i 32 =? 65535 then Some (Z.land i (2 ^ 32 - 1)) else None.

(* ------------------------------------------------------------------ *)
(** ** [net.ParseIP] *)

(** A field of a dotted address: digits, no leading zero, at most 255. *)
Definition parse_octet (s : string) : option Z :=
  match s with
  | "" => None
  | String "0" (String _ _) => None
  | _ => match decimal 0 s with
         | Some n => if n <=? 255 then Some n else None
         | None => None
         end
  end.

Definition parse_v4 (s : string) : option Z :=
  match Split s "."%char with
  | [a; b; c; d] =>
      a ← parse_octet a; b ← parse_octet b; c ← parse_octet c; d ← parse_octet d;
      Some (((a * 256 + b) * 256 + c) * 256 + d)
  | _ => None
  end.

Definition hex_value (c : ascii) : option Z :=
  let n := code c in
  if is_digit c then Some (n - 48)
  else if (97 <=? n) && (n <=? 102) then Some (n - 87)
  else if (65 <=? n) && (n <=? 70) then Some (n - 55)
  else None.

(** The hexadecimal group at the head of [s]: number of digits, value, rest. *)
Fixpoint hex_group (digs acc : Z) (s : string) : Z * Z * string :=
  match s with
  | "" => (digs, acc, "")
  | String c s' =>
      match hex_value c with
      | Some d => hex_group (digs + 1) (acc * 16 + d) s'
      | None => (digs, acc, s)
      end
  end.

(** The loop of [netip.parseIPv6]: [acc] holds the 16-bit groups read so far,
    last one first, and [ell] the number of groups before ["::"].  One turn
    reads at least one character, so the length of the text is enough fuel. *)
Fixpoint v6_loop (fuel : nat) (s : string) (acc : list Z) (ell : option nat)
    : option (list Z * option nat) :=
  match fuel with
  | O => None
  | S fuel' =>
      if (8 <=? length acc)%nat then (if String.eqb s "" then Some (acc, ell) else None)
      else
      let '(digs, v, rest) := hex_group 0 0 s in
      if (digs =? 0) || (4 <? digs) then None
      else match rest with
      | String "." _ =>
          if match ell with None => negb (length acc =? 6)%nat | Some _ => false end then None
          else if (6 <? length acc)%nat then None
          else match parse_v4 s with
               | Some q => Some (q mod 65536 :: q / 65536 :: acc, ell)
               | None => None
               end
      | "" => Some (v :: acc, ell)
      | String ":" rest' =>
          match rest' with
          | "" => None
          | String ":" rest'' =>
              match ell with
              | Some _ => None
              | None =>
                  if String.eqb rest'' "" then Some (v :: acc, Some (length (v :: acc)))
                  else v6_loop fuel' rest'' (v :: acc) (Some (length (v :: acc)))
              end
          | _ => v6_loop fuel' rest' (v :: acc) ell
          end
      | String _ _ => None
      end
  end.

Definition groups_value (l : list Z) : Z := fold_left (fun a g => a * 65536 + g) l 0.

Definition finish_v6 (r : list Z * option nat) : option ip :=
  let '(acc, ell) := r in
  let l := rev acc in
  match ell with
  | None => if (length l =? 8)%nat then Some (groups_value l) else None
  | Some k =>
      if (length l <? 8)%nat
      then Some (groups_value (take k l ++ repeat 0 (8 - length l) ++ drop k l))
      else None
  end.

Definition parse_v6 (s : string) : option ip :=
  match s with
  | String ":" (String ":" "") => Some 0
  | String ":" (String ":" s') => v6_loop (S (String.length s)) s' [] (Some O) ≫= finish_v6
  | _ => v6_loop (S (String.length s)) s [] None ≫= finish_v6
  end.

(** [netip.ParseAddr] without zones: which form is decided by the first of
    the two separators.  [inl] is a four-byte address. *)
Fixpoint first_sep (s : string) : option ascii :=
  match s with
  | "" => None
  | String c s' =>
      if Ascii.eqb c "." || Ascii.eqb c ":" || Ascii.eqb c "%" then Some c else first_sep s'
  end.

Definition ParseAddr (s : string) : option (Z + ip) :=
  match first_sep s with
  | Some "."%char => inl <$> parse_v4 s
  | Some ":"%char => inr <$> parse_v6 s
  | _ => None
  end.

Definition ParseIP (s : string) : option ip :=
  match ParseAddr s with
  | Some (inl v4) => Some (mapped v4)
  | Some (inr v6) => Some v6
  | None => None
  end.

(* ------------------------------------------------------------------ *)
(** ** [IP.String] *)

Definition octet (v4 : Z) (k : Z) : Z := Z.land (Z.shiftr v4 (8 * (3 - k))) 255.

Definition v4_text (v : Z) : string :=
  Join [Itoa (octet v 0); Itoa (octet v 1); Itoa (octet v 2); Itoa (octet v 3)] ".".

Definition hex_digit (n : Z) : string :=
  String (byte (if n <? 10 then 48 + n else 87 + n)) "".

(** A 16-bit group without leading zeros. *)
Definition hex_text (g : Z) : string :=
  let d k := Z.land (Z.shiftr g (4 * k)) 15 in
  (if 4096 <=? g then hex_digit (d 3) else "") +:+
  (if 256 <=? g then hex_digit (d 2) else "") +:+
  (if 16 <=? g then hex_digit (d 1) else "") +:+ hex_digit (d 0).

Definition groups_of (i : ip) : list Z :=
  map (fun k => Z.land (Z.shiftr i (16 * k)) 65535) [7; 6; 5; 4; 3; 2; 1; 0].

(** The leading run of zero groups. *)
Fixpoint zero_run (l : list Z) : nat :=
  match l with 0 :: l' => S (zero_run l') | _ => O end.

(** The first of the longest runs: its start and length. *)
Fixpoint longest_run (pos : nat) (l : list Z) (best : nat * nat) : nat * nat :=
  match l with
  | [] => best
  | _ :: l' =>
      let n := zero_run l in
      longest_run (S pos) l' (if (snd best <? n)%nat then (pos, n) else best)
  end.

Definition v6_text (i : ip) : string :=
  let l := groups_of i in
  let '(p, n) := longest_run O l (O, O) in
  if (2 <=? n)%nat
  then Join (map hex_text (take p l)) ":" +:+ "::" +:+ Join (map hex_text (drop (p + n) l)) ":"
  else Join (map hex_text l) ":".

Definition IP_String (i : ip) : string :=
  match To4 i with Some v => v4_text v | None => v6_text i end.

(* ------------------------------------------------------------------ *)
(** ** Address predicates *)

Definition IsLoopback (i : ip) : bool :=
  match To4 i with Some v => octet v 0 =? 127 | None => i =? 1 end.
Definition IsPrivate (i : ip) : bool :=
  match To4 i with
  | Some v =>
      (octet v 0 =? 10) || ((octet v 0 =? 172) && (Z.land (octet v 1) 240 =? 16))
      || ((octet v 0 =? 192) && (octet v 1 =? 168))
  | None => Z.land (Z.shiftr i 120) 254 =? 252
  end.
Definition IsUnspecified (i : ip) : bool :=
  match To4 i with Some v => v =? 0 | None => i =? 0 end.
Definition IsMulticast (i : ip) : bool :=
  match To4 i with
  | Some v => Z.land (octet v 0) 240 =? 224
  | None => Z.shiftr i 120 =? 255
  end.
Definition IsLinkLocalMulticast (i : ip) : bool :=
  match To4 i with
  | Some v => (octet v 0 =? 224) && (octet v 1 =? 0) && (octet v 2 =? 0)
  | None => (Z.shiftr i 120 =? 255) && (Z.land (Z.shiftr i 112) 15 =? 2)
  end.
Definition IsLinkLocalUnicast (i : ip) : bool :=
  match To4 i with
  | Some v => (octet v 0 =? 169) && (octet v 1 =? 254)
  | None => (Z.shiftr i 120 =? 254) && (Z.land (Z.shiftr i 112) 192 =? 128)
  end.

(* ------------------------------------------------------------------ *)
(** ** Networks *)

(** A parsed [*net.IPNet]: a four-byte or a sixteen-byte network address, its
    prefix length, and the width the mask was written with. *)
Record IPNet := { net_addr : Z + ip; net_ones : Z }.

#[export] Instance IPNet_eq_dec : EqDecision IPNet.
Proof. solve_decision. Defined.

Definition mask (width ones : Z) : Z := Z.shiftl (2 ^ ones - 1) (width - ones).

(** The decimal run of a prefix length; every character must be a digit. *)
Definition prefix_length (s : string) : option Z :=
  match s with "" => None | _ => decimal 0 s end.

Definition ParseCIDR (s : string) : option IPNet :=
  match cut "/"%char s with
  | None => None
  | Some (addr, m) =>
      match ParseAddr addr, prefix_length m with
      | Some (inl v4), Some n =>
          if n <=? 32 then Some {| net_addr := inl (Z.land v4 (mask 32 n)); net_ones := n |} else None
      | Some (inr v6), Some n =>
          if n <=? 128 then Some {| net_addr := inr (Z.land v6 (mask 128 n)); net_ones := n |} else None
      | _, _ => None
      end
  end.

(** [IPNet.Contains]: a sixteen-byte network whose address is IPv4-mapped
    is compared as the IPv4 network of its last four mask bytes. *)
Definition Net_Contains (n : IPNet) (i : ip) : bool :=
  let v4 (addr ones : Z) :=
    match To4 i with
    | Some x => Z.land addr (mask 32 ones) =? Z.land x (mask 32 ones)
    | None => false
    end in
  match net_addr n with
  | inl a => v4 a (net_ones n)
  | inr a =>
      match To4 a with
      | Some a4 => v4 a4 (net_ones n - 96)
      | None =>
          match To4 i with
          | Some _ => false
          | None => Z.land a (mask 128 (net_ones n)) =? Z.land i (mask 128 (net_ones n))
          end
      end
  end.

(** [IPNet.String] *)
Definition Net_String (n : IPNet) : string :=
  match net_addr n with
  | inl a => v4_text a +:+ "/" +:+ Itoa (net_ones n)
  | inr a =>
      match To4 a with
      | Some a4 => v4_text a4 +:+ "/" +:+ Itoa (net_ones n - 96)
      | None => v6_text a +:+ "/" +:+ Itoa (net_ones n)
      end
  end.

(* ------------------------------------------------------------------ *)
(** ** [net.SplitHostPort] *)

(** The text before and after the last occurrence of a byte. *)
Fixpoint cut_last (sep : ascii) (s : string) : option (string * string) :=
  match s with
  | "" => None
  | String c s' =>
      match cut_last sep s' with
      | Some (b, a) => Some (String c b, a)
      | None => if Ascii.eqb c sep then Some ("", s') else None
      end
  end.

Definition has_byte (c : ascii) (s : string) : bool :=
  match cut c s with Some _ => true | None => false end.

Definition SplitHostPort (s : string) : option (string * string) :=
  match cut_last ":"%char s with
  | None => None
  | Some (host, port) =>
      match s with
      | String "[" s1 =>
          match cut "]"%char s1 with
          | None => None
          | Some (h, after) =>
              (* the bracket must be followed by the last colon *)
              if String.eqb after (String ":" port) then
                if has_byte "["%char s1 || has_byte "]"%char after then None
                else Some (h, port)
              else None
          end
      | _ =>
          if has_byte ":"%char host then None
          else if has_byte "["%char s || has_byte "]"%char s then None
          else Some (host, port)
      end
  end.

Example parse_v4_text : ParseIP "192.168.1.20" = Some (mapped 3232235796).
Proof. reflexivity. Qed.
Example parse_v4_leading_zero : ParseIP "192.168.01.20" = None.
Proof. reflexivity. Qed.
Example parse_v6_print : IP_String <$> ParseIP "2001:DB8:0:0:1::1" = Some "2001:db8::1:0:0:1".
Proof. reflexivity. Qed.
Example parse_v6_mapped : IP_String <$> ParseIP "::ffff:10.0.0.1" = Some "10.0.0.1".
Proof. reflexivity. Qed.
Example cidr_v4 : Net_String <$> ParseCIDR "10.1.2.3/8" = Some "10.0.0.0/8".
Proof. reflexivity. Qed.
Example split_v6 : SplitHostPort "[::1]:443" = Some ("::1", "443").
Proof. reflexivity. Qed.

(* ------------------------------------------------------------------ *)
(** ** Facts *)

Lemma octet_range v k : 0 <= octet v k <= 255.
Proof.
  unfold octet. set (x := Z.shiftr v (8 * (3 - k))).
  replace (Z.land x 255) with (x mod 2 ^ 8) by (rewrite <- Z.land_ones by lia; done).
  pose proof (Z.mod_pos_bound x (2 ^ 8) ltac:(lia)). lia.
Qed.

Lemma To4_mapped v : 0 <= v < 2 ^ 32 -> To4 (mapped v) = Some v.
Proof.
  intros Hv. unfold To4, mapped.
  rewrite Z.shiftr_lor, Z.shiftr_shiftl_l by lia.
  rewrite (Z.shiftr_div_pow2 v), (Z.div_small v) by lia. simpl.
  change (2 ^ 32 - 1) with (Z.ones 32). rewrite Z.land_lor_distr_l, !Z.land_ones by lia.
  rewrite Z.shiftl_mul_pow2, Z.mod_mul by lia. simpl. by rewrite Z.mod_small.
Qed.

