(* ===== verification/GeoIp.v ===== *)
(** [internal/geoip/geoip.go]: the country of an address.

    The databases the resolver opens (a MaxMind reader per file) and the answers
    of the three web services are arguments; the JSON of an answer is given
    decoded.  One call runs at one instant. *)

From S2P Require Import Prelude GoString GoMonad GoTime GoNet.
From Stdlib Require Import Ascii.

(* ------------------------------------------------------------------ *)
(** ** Data *)

(** The fields of a database record that are read, in the order of the code:
    [country.iso_code], [country.country_code], [registered_country.iso_code],
    [registered_country.country_code], [country_code]. *)
Definition GeoPayload : Type := list string.
(** [db.Lookup(ip, &payload)]; nothing is its error. *)
Definition Reader : Type := ip -> option GeoPayload.

Record cacheItem := mkcacheItem { ci_country : string; ci_expires : time }.

(** [Resolver]; the readers carry the path they were opened from. *)
Record Resolver := mkResolver {
  ge_cache : gmap string cacheItem; ge_ttl : duration; ge_mmdbs : list (string * Reader); ge_lastScan : time
}.
#[export] Instance eta_Resolver : Eta Resolver := fun r =>
  mkResolver (ge_cache r) (ge_ttl r) (ge_mmdbs r) (ge_lastScan r).

(** A decoded answer of a web service: [success] (where the service has it) and
    the country it names. *)
Record answer := mkanswer { an_success : bool; an_code : string }.

(* ------------------------------------------------------------------ *)
(** ** The resolver *)

Definition normalizeCountryCode (raw : string) : string :=
  let c := ToUpper (TrimSpace raw) in
  if negb (len c =? 2) then "" else if String.eqb c "XX" || String.eqb c "T1" then "" else c.

Definition isPrivateIP (i : ip) : bool :=
  IsLoopback i || IsPrivate i || IsLinkLocalUnicast i || IsLinkLocalMulticast i
  || match To4 i with
     | Some v => (octet v 0 =? 127) || (octet v 0 =? 10) || ((octet v 0 =? 192) && (octet v 1 =? 168))
                 || ((octet v 0 =? 172) && (16 <=? octet v 1) && (octet v 1 <=? 31))
     | None => false
     end.

(** The first text of a list that normalises to a code. *)
Fixpoint first_code (l : list string) : string :=
  match l with
  | [] => ""
  | c :: l' => if String.eqb (normalizeCountryCode c) "" then first_code l' else normalizeCountryCode c
  end.

Fixpoint lookupCountryCodeMMDB (mmdbs : list (string * Reader)) (i : ip) : string :=
  match mmdbs with
  | [] => ""
  | (_, lookup) :: l =>
      match lookup i with
      | None => lookupCountryCodeMMDB l i
      | Some payload =>
          if String.eqb (first_code payload) "" then lookupCountryCodeMMDB l i else first_code payload
      end
  end.

(** [openLocalMMDBs]: the paths of the two environment variables, then the fixed
    ones, each tried once. *)
Definition fixed_paths : list string :=
  ["/var/lib/domnexdomain/geoip-compiled/domnex-country.mmdb";
   "/var/lib/domnexdomain/geoip/compiled/domnex-country.mmdb";
   "/var/lib/domnexdomain/geoip/dbip-country-lite.mmdb";
   "/var/lib/domnexdomain/geoip/dbip-country-lite-2026-02.mmdb";
   "/var/lib/domnexdomain/geoip/DBIP-Country-Lite.mmdb";
   "/var/lib/domnexdomain/geoip/IP2LOCATION-LITE-DB1.MMDB";
   "/var/lib/domnexdomain/geoip/GeoLite2-Country.mmdb";
   "/etc/domnexdomain/dbip-country-lite.mmdb";
   "/etc/domnexdomain/IP2LOCATION-LITE-DB1.MMDB";
   "/media/i2l/IP2LOCATION-LITE-DB1.MMDB"].

Definition mmdb_paths (envs env : string) : list string :=
  dedup_seen TrimSpace nonempty ∅
    (Split (TrimSpace envs) ","%char ++ [TrimSpace env] ++ fixed_paths).

Section world.
(** The environment variables [DOMNEX_GEOIP_MMDBS] and [DOMNEX_GEOIP_MMDB]; the
    database at a path at an instant, where there is one that opens; and the web
    service: the status and the decoded body of a [GET], where the outer nothing
    is an error of the request and the inner one a body that is not JSON. *)
Context (env_MMDBS env_MMDB : string) (open : time -> string -> option Reader).
Context (http_get : string -> option (Z * option answer)).

Definition providers (addr : string) : list (string * bool) :=
  [("https://ipapi.co/" +:+ addr +:+ "/json/", false); ("https://ipwho.is/" +:+ addr, true);
   ("https://ipinfo.io/" +:+ addr +:+ "/json", false)].

(** What a provider says; the second one also has to report success. *)
Definition extract (needs_success : bool) (body : option answer) : string :=
  match body with
  | None => ""
  | Some a => if needs_success && negb (an_success a) then "" else normalizeCountryCode (an_code a)
  end.

Fixpoint ask (l : list (string * bool)) : string :=
  match l with
  | [] => ""
  | (url, needs_success) :: l' =>
      match http_get url with
      | None => ask l'
      | Some (status, body) =>
          if (status <? 200) || (299 <? status) then ask l'
          else if String.eqb (extract needs_success body) "" then ask l' else extract needs_success body
      end
  end.
Definition lookupCountryCode (addr : string) : string := ask (providers addr).

Definition openLocalMMDBs (now : time) : list (string * Reader) :=
  omap (fun p => pair p <$> open now p) (mmdb_paths env_MMDBS env_MMDB).

Definition maybeReloadSources (now : time) (r : Resolver) : Resolver :=
  if negb (IsZero (ge_lastScan r)) && (Sub now (ge_lastScan r) <? 5 * Minute) then r
  else
    let readers := openLocalMMDBs now in
    let r := r <| ge_lastScan := now |> in
    if bool_decide ((ge_mmdbs r).*1 = readers.*1) then r
    else r <| ge_mmdbs := readers |> <| ge_cache := ∅ |>.

Definition New (ttl : duration) (now : time) : Resolver :=
  mkResolver ∅ (if ttl <=? 0 then Hour else ttl) (openLocalMMDBs now) 0.

(** The databases, then the web, then the placeholder. *)
Definition resolve (r : Resolver) (i : ip) : string :=
  let country := lookupCountryCodeMMDB (ge_mmdbs r) i in
  let country := if String.eqb country "" then lookupCountryCode (IP_String i) else country in
  if String.eqb country "" then "ZZ" else country.

Definition cached (now : time) (key : string) (r : Resolver) : option string :=
  match ge_cache r !! key with
  | Some c => if Before now (ci_expires c) then Some (ci_country c) else None
  | None => None
  end.

Definition CountryCode (now : time) (addr : string) (r : Resolver) : string * Resolver :=
  let r := maybeReloadSources now r in
  match ParseIP (TrimSpace addr) with
  | None => ("ZZ", r)
  | Some i =>
      if isPrivateIP i then ("LOCAL", r)
      else
        match cached now (IP_String i) r with
        | Some country => (country, r)
        | None =>
            let country := resolve r i in
            (country, r <| ge_cache ::= <[IP_String i := mkcacheItem country (Add now (ge_ttl r))]> |>)
        end
  end.
End world.

(* ------------------------------------------------------------------ *)
(** ** Facts *)

(** Looking an address up again at the same instant gives the same answer: the
    databases are not exchanged twice, and the cache holds the first answer. *)
Lemma reload_again envs env open now r cache :
  let r1 := maybeReloadSources envs env open now r in
  maybeReloadSources envs env open now (r1 <| ge_cache := cache |>) = r1 <| ge_cache := cache |>.
Proof.
  intros r1. assert (H : r1 = r /\ negb (IsZero (ge_lastScan r)) && (Sub now (ge_lastScan r) <? 5 * Minute) = true \/
    ge_lastScan r1 = now /\ (ge_mmdbs r1).*1 = (openLocalMMDBs envs env open now).*1).
  { unfold r1, maybeReloadSources. destruct (_ && _); [by left|]. cbv zeta. case_bool_decide; by right. }
  clearbody r1. unfold maybeReloadSources. cbn [ge_lastScan upd_field].
  destruct H as [[-> H]|[Hn H]]; [by rewrite H|].
  destruct (_ && _); [done|]. cbv zeta. cbn [ge_mmdbs upd_field]. rewrite bool_decide_eq_true_2 by done.
  destruct r1. cbn in *. by subst.
Qed.

Lemma CountryCode_again envs env open get now addr r :
  (CountryCode envs env open get now addr (CountryCode envs env open get now addr r).2).1 =
  (CountryCode envs env open get now addr r).1.
Proof.
  pose proof (reload_again envs env open now r) as Hr. unfold CountryCode at 2 3. cbv zeta in *.
  set (r1 := maybeReloadSources envs env open now r) in *. clearbody r1.
  assert (H1 : maybeReloadSources envs env open now r1 = r1) by (specialize (Hr (ge_cache r1)); by destruct r1).
  assert (Hu : forall k item, r1 <| ge_cache ::= <[k := item]> |> = r1 <| ge_cache := <[k := item]> (ge_cache r1) |>) by done.
  destruct (ParseIP (TrimSpace addr)) as [i|] eqn:Ei; cbn [fst snd]; [|unfold CountryCode; by rewrite Ei].
  destruct (isPrivateIP i) eqn:Hp; cbn [fst snd]; [unfold CountryCode; by rewrite Ei, Hp|].
  destruct (cached now (IP_String i) r1) as [c|] eqn:Hc; cbn [fst snd].
  - unfold CountryCode. cbv zeta. by rewrite Ei, Hp, H1, Hc.
  - set (item := mkcacheItem (resolve get r1 i) (Add now (ge_ttl r1))). rewrite Hu.
    unfold CountryCode. cbv zeta. rewrite Ei, Hp, Hr. unfold cached. cbn [ge_cache upd_field]. rewrite lookup_insert_eq.
    by destruct (Before now _).
Qed.

(** A country the resolver may answer for a public address. *)
Definition is_country (c : string) : Prop := c = "ZZ" \/ (c <> "" /\ normalizeCountryCode c = c).
Definition cache_ok (r : Resolver) : Prop := forall k c, ge_cache r !! k = Some c -> is_country (ci_country c).

Lemma normalizeCountryCode_idem raw : normalizeCountryCode (normalizeCountryCode raw) = normalizeCountryCode raw.
Proof.
  assert (Hc : ToUpper (TrimSpace (ToUpper (TrimSpace raw))) = ToUpper (TrimSpace raw)).
  { rewrite TrimSpace_ToUpper, TrimSpace_idem. apply smap_idem, upper_byte_idem. }
  unfold normalizeCountryCode at 2 3. cbv zeta.
  destruct (negb (len (ToUpper (TrimSpace raw)) =? 2)) eqn:E1; [done|].
  destruct (String.eqb (ToUpper (TrimSpace raw)) "XX" || _) eqn:E2; [done|].
  unfold normalizeCountryCode. cbv zeta. by rewrite Hc, E1, E2.
Qed.

Lemma first_code_idem l : normalizeCountryCode (first_code l) = first_code l.
Proof. induction l as [|c l IH]; simpl; [done|]. case_match; [done|]. apply normalizeCountryCode_idem. Qed.

Lemma mmdb_idem l i : normalizeCountryCode (lookupCountryCodeMMDB l i) = lookupCountryCodeMMDB l i.
Proof.
  induction l as [|[p f] l IH]; simpl; [done|]. destruct (f i) as [pl|]; [|done].
  case_match; [done|]. apply first_code_idem.
Qed.

Lemma extract_idem b o : normalizeCountryCode (extract b o) = extract b o.
Proof. unfold extract. destruct o; [|done]. case_match; [done|]. apply normalizeCountryCode_idem. Qed.

Lemma ask_idem get l : normalizeCountryCode (ask get l) = ask get l.
Proof.
  induction l as [|[u b] l IH]; simpl; [done|]. destruct (get u) as [[st o]|]; [|done].
  case_match; [done|]. case_match; [done|]. apply extract_idem.
Qed.

Lemma resolve_country get r i : is_country (resolve get r i).
Proof.
  unfold resolve, is_country. cbv zeta.
  match goal with |- context [if String.eqb ?c "" then "ZZ" else ?c] => set (country := c) end.
  assert (Hn : normalizeCountryCode country = country).
  { unfold country. case_match; [apply ask_idem|apply mmdb_idem]. }
  destruct (String.eqb country "") eqn:E; [by left|]. bool_facts. by right.
Qed.

(** What the resolver answers: [LOCAL] exactly for the addresses of a local
    network, and otherwise [ZZ] or two letters in upper case that are not a
    placeholder, whatever the databases, the web services and the time; and a
    lookup keeps the cache to such codes. *)
Theorem country_codes_normal envs env open get now addr r :
  cache_ok r ->
  let '(c, r') := CountryCode envs env open get now addr r in
  cache_ok r' /\ (c = "LOCAL" \/ is_country c) /\
  (c = "LOCAL" <-> exists i, ParseIP (TrimSpace addr) = Some i /\ isPrivateIP i = true).
Proof.
  intros Hok. unfold CountryCode. cbv zeta. set (r1 := maybeReloadSources envs env open now r).
  assert (Hok1 : cache_ok r1).
  { unfold r1, maybeReloadSources. case_match; [done|]. cbv zeta. case_match; [done|].
    intros k c Hk. simpl in Hk. by rewrite lookup_empty in Hk. }
  clearbody r1.
  assert (Hlocal : forall c, is_country c -> c <> "LOCAL") by (intros c [Hc|[_ Hn]] E; subst c; done).
  destruct (ParseIP (TrimSpace addr)) as [i|].
  2: { split_and!; [done|by right; left|]. split; [done|by intros (i & ? & _)]. }
  destruct (isPrivateIP i) eqn:Hp.
  { split_and!; [done|by left|]. split; [eauto|done]. }
  assert (Hiff : forall c, is_country c -> c = "LOCAL" <-> exists j, Some i = Some j /\ isPrivateIP j = true).
  { intros c Hc. split; [by intros ?%Hlocal|]. intros (j & [= <-] & Hj). congruence. }
  destruct (cached now (IP_String i) r1) as [c|] eqn:Hcached.
  - assert (Hc : is_country c).
    { revert Hcached. unfold cached. destruct (ge_cache r1 !! IP_String i) as [it|] eqn:Hit; [|discriminate].
      case_match; [intros [= <-]; exact (Hok1 _ _ Hit)|discriminate]. }
    exact (conj Hok1 (conj (or_intror Hc) (Hiff c Hc))).
  - pose proof (resolve_country get r1 i) as Hc.
    refine (conj _ (conj (or_intror Hc) (Hiff _ Hc))).
    intros k c Hk.
    change (<[IP_String i := mkcacheItem (resolve get r1 i) (Add now (ge_ttl r1))]> (ge_cache r1) !! k = Some c) in Hk.
    apply lookup_insert_Some in Hk as [[_ <-]|[_ Hk]]; [exact Hc|exact (Hok1 _ _ Hk)].
Qed.

Definition toy_reader (_ : ip) : option GeoPayload := Some [""; "xx"; " de "].
Definition toy_sources (_ : time) (p : string) : option Reader :=
  if String.eqb p "/etc/domnexdomain/dbip-country-lite.mmdb" then Some toy_reader else None.
Definition toy_web (_ : string) : option (Z * option answer) := None.

Lemma country_codes_normal_witness :
  let '(c, r') := CountryCode "" "" toy_sources toy_web (Hour + 1) "203.0.113.9" (New "" "" toy_sources 0 Hour) in
  c = "DE" /\ cache_ok r' /\ is_country c.
Proof.
  pose proof (country_codes_normal "" "" toy_sources toy_web (Hour + 1) "203.0.113.9" (New "" "" toy_sources 0 Hour)) as H.
  destruct (CountryCode _ _ _ _ _ _ _) as [c r'] eqn:E.
  assert (Hc : c = "DE") by (apply (f_equal fst) in E; vm_compute in E; by rewrite <- E).
  destruct H as (H1 & H2 & _).
  - intros k c' Hk. exfalso. vm_compute in Hk. discriminate.
  - destruct H2 as [H2|H2]; [congruence|]. exact (conj Hc (conj H1 H2)).
Defined.
