(* ===== verification/GoCrypto.v ===== *)
(** The byte-level functions of Go's standard library the program calls:
    [encoding/hex], [encoding/base64], [encoding/base32], [crypto/sha1],
    [crypto/sha256], [crypto/hmac].  A byte is a number below 256, a word a
    number below 2^32. *)

From S2P Require Import Prelude GoString.
From Stdlib Require Import Ascii.

Definition bytes : Type := list Z.

Fixpoint bytes_of (s : string) : bytes :=
  match s with "" => [] | String c s' => code c :: bytes_of s' end.
Fixpoint string_of (l : bytes) : string :=
  match l with [] => "" | n :: l' => String (byte n) (string_of l') end.

Definition is_bytes (l : bytes) : Prop := Forall (fun b => 0 <= b < 256) l.

(* ------------------------------------------------------------------ *)
(** ** Alphabets, hexadecimal *)

(** The character of a value, and the value of a character. *)
Definition symbol (alphabet : string) (n : Z) : ascii :=
  match String.get (Z.to_nat n) alphabet with Some c => c | None => zero end.

Fixpoint index_from (n : Z) (c : ascii) (alphabet : string) : option Z :=
  match alphabet with
  | "" => None
  | String d a => if Ascii.eqb c d then Some n else index_from (n + 1) c a
  end.
Definition value (alphabet : string) (c : ascii) : option Z := index_from 0 c alphabet.

Definition hex_alphabet : string := "0123456789abcdef".

(** [hex.EncodeToString] *)
Fixpoint hex_encode (l : bytes) : string :=
  match l with
  | [] => ""
  | b :: l' => String (symbol hex_alphabet (b / 16)) (String (symbol hex_alphabet (b mod 16)) (hex_encode l'))
  end.

(* ------------------------------------------------------------------ *)
(** ** Base 64 without padding *)

Definition std_alphabet : string := "ABCDEFGHIJKLMNOPQRSTUVWXYZabcdefghijklmnopqrstuvwxyz0123456789+/".
Definition url_alphabet : string := "ABCDEFGHIJKLMNOPQRSTUVWXYZabcdefghijklmnopqrstuvwxyz0123456789-_".

Fixpoint b64_digits (l : bytes) : list Z :=
  match l with
  | a :: b :: c :: l' =>
      a / 4 :: (a mod 4) * 16 + b / 16 :: (b mod 16) * 4 + c / 64 :: c mod 64 :: b64_digits l'
  | [a; b] => [a / 4; (a mod 4) * 16 + b / 16; (b mod 16) * 4]
  | [a] => [a / 4; (a mod 4) * 16]
  | [] => []
  end.

Definition b64_encode (alphabet : string) (l : bytes) : string :=
  string_of (map (fun d => code (symbol alphabet d)) (b64_digits l)).

(** The decoder skips line breaks and ignores the spare bits of the last
    group; one left-over character is an error. *)
Fixpoint b64_values (alphabet : string) (s : string) : option (list Z) :=
  match s with
  | "" => Some []
  | String c s' =>
      if Ascii.eqb c (byte 10) || Ascii.eqb c (byte 13) then b64_values alphabet s'
      else v ← value alphabet c; l ← b64_values alphabet s'; Some (v :: l)
  end.

Fixpoint b64_bytes (l : list Z) : option bytes :=
  match l with
  | [] => Some []
  | a :: b :: c :: d :: l' =>
      r ← b64_bytes l';
      Some (a * 4 + b / 16 :: (b mod 16) * 16 + c / 4 :: (c mod 4) * 64 + d :: r)
  | [a; b; c] => Some [a * 4 + b / 16; (b mod 16) * 16 + c / 4]
  | [a; b] => Some [a * 4 + b / 16]
  | [_] => None
  end.

Definition b64_decode (alphabet : string) (s : string) : option bytes :=
  b64_values alphabet s ≫= b64_bytes.

(* ------------------------------------------------------------------ *)
(** ** Base 32 without padding *)

Definition b32_alphabet : string := "ABCDEFGHIJKLMNOPQRSTUVWXYZ234567".

(** The digits of [n] in base 32, [k] of them, most significant first. *)
Fixpoint b32_split (k : nat) (n : Z) : list Z :=
  match k with O => [] | S k' => b32_split k' (n / 32) ++ [n mod 32] end.

Fixpoint b32_digits (l : bytes) : list Z :=
  match l with
  | a :: b :: c :: d :: e :: l' =>
      b32_split 8 ((((a * 256 + b) * 256 + c) * 256 + d) * 256 + e) ++ b32_digits l'
  | [a; b; c; d] => b32_split 7 ((((a * 256 + b) * 256 + c) * 256 + d) * 8)
  | [a; b; c] => b32_split 5 (((a * 256 + b) * 256 + c) * 2)
  | [a; b] => b32_split 4 ((a * 256 + b) * 16)
  | [a] => b32_split 2 (a * 4)
  | [] => []
  end.
Definition b32_encode (l : bytes) : string :=
  string_of (map (fun d => code (symbol b32_alphabet d)) (b32_digits l)).

Fixpoint b32_values (s : string) : option (list Z) :=
  match s with
  | "" => Some []
  | String c s' =>
      if Ascii.eqb c (byte 10) || Ascii.eqb c (byte 13) then b32_values s'
      else v ← value b32_alphabet c; l ← b32_values s'; Some (v :: l)
  end.

(** [k] bytes of a number, most significant first. *)
Fixpoint be_bytes (k : nat) (n : Z) : bytes :=
  match k with O => [] | S k' => be_bytes k' (n / 256) ++ [n mod 256] end.
Definition be_value (l : bytes) : Z := fold_left (fun a b => a * 256 + b) l 0.

Definition b32_join (l : list Z) : Z := fold_left (fun a d => a * 32 + d) l 0.

(** A last group of one, three or six characters is dropped, not an error. *)
Fixpoint b32_bytes (l : list Z) : bytes :=
  match l with
  | a :: b :: c :: d :: e :: f :: g :: h :: l' =>
      be_bytes 5 (b32_join [a; b; c; d; e; f; g; h]) ++ b32_bytes l'
  | [a; b; c; d; e; f; g] => be_bytes 4 (b32_join l / 8)
  | [a; b; c; d; e] => be_bytes 3 (b32_join l / 2)
  | [a; b; c; d] => be_bytes 2 (b32_join l / 16)
  | [a; b] => be_bytes 1 (b32_join l / 4)
  | _ => []
  end.
Definition b32_decode (s : string) : option bytes := b32_bytes <$> b32_values s.

(* ------------------------------------------------------------------ *)
(** ** SHA-1 and SHA-256 *)

Definition w32 (n : Z) : Z := n mod 2 ^ 32.
Definition not32 (x : Z) : Z := 2 ^ 32 - 1 - x.
Definition rotr (n x : Z) : Z := Z.lor (Z.shiftr x n) (w32 (Z.shiftl x (32 - n))).
Definition rotl (n x : Z) : Z := rotr (32 - n) x.

(** The message, a one bit, zeros, and the bit length, to a multiple of 64. *)
Definition sha_pad (m : bytes) : bytes :=
  let n := Z.of_nat (length m) in
  m ++ 128 :: repeat 0 (Z.to_nat ((55 - n) mod 64)) ++ be_bytes 8 (8 * n).

Fixpoint words_of (l : bytes) : list Z :=
  match l with
  | a :: b :: c :: d :: l' => (((a * 256 + b) * 256 + c) * 256 + d) :: words_of l'
  | _ => []
  end.

(** Blocks of sixteen words. *)
Fixpoint blocks (fuel : nat) (l : list Z) : list (list Z) :=
  match fuel, l with
  | S f, _ :: _ => take 16 l :: blocks f (drop 16 l)
  | _, _ => []
  end.

(** The schedule is built last word first. *)
Fixpoint schedule (next : list Z -> Z) (k : nat) (w : list Z) : list Z :=
  match k with O => rev w | S k' => schedule next k' (next w :: w) end.
Definition nthz (n : nat) (l : list Z) : Z := nth n l 0.

Definition sha256_k : list Z :=
  [1116352408; 1899447441; 3049323471; 3921009573; 961987163; 1508970993; 2453635748; 2870763221;
   3624381080; 310598401; 607225278; 1426881987; 1925078388; 2162078206; 2614888103; 3248222580;
   3835390401; 4022224774; 264347078; 604807628; 770255983; 1249150122; 1555081692; 1996064986;
   2554220882; 2821834349; 2952996808; 3210313671; 3336571891; 3584528711; 113926993; 338241895;
   666307205; 773529912; 1294757372; 1396182291; 1695183700; 1986661051; 2177026350; 2456956037;
   2730485921; 2820302411; 3259730800; 3345764771; 3516065817; 3600352804; 4094571909; 275423344;
   430227734; 506948616; 659060556; 883997877; 958139571; 1322822218; 1537002063; 1747873779;
   1955562222; 2024104815; 2227730452; 2361852424; 2428436474; 2756734187; 3204031479; 3329325298].

Definition sha256_next (w : list Z) : Z :=
  let s0 x := Z.lxor (Z.lxor (rotr 7 x) (rotr 18 x)) (Z.shiftr x 3) in
  let s1 x := Z.lxor (Z.lxor (rotr 17 x) (rotr 19 x)) (Z.shiftr x 10) in
  w32 (s1 (nthz 1 w) + nthz 6 w + s0 (nthz 14 w) + nthz 15 w).

Definition sha256_round (st : list Z) (kw : Z * Z) : list Z :=
  match st with
  | [a; b; c; d; e; f; g; h] =>
      let S1 := Z.lxor (Z.lxor (rotr 6 e) (rotr 11 e)) (rotr 25 e) in
      let ch := Z.lxor (Z.land e f) (Z.land (not32 e) g) in
      let t1 := w32 (h + S1 + ch + kw.1 + kw.2) in
      let S0 := Z.lxor (Z.lxor (rotr 2 a) (rotr 13 a)) (rotr 22 a) in
      let maj := Z.lxor (Z.lxor (Z.land a b) (Z.land a c)) (Z.land b c) in
      [w32 (t1 + S0 + maj); a; b; c; w32 (d + t1); e; f; g]
  | _ => st
  end.

Definition sha256_block (st : list Z) (blk : list Z) : list Z :=
  let w := schedule sha256_next 48 (rev blk) in
  zip_with (fun x y => w32 (x + y)) st (fold_left sha256_round (zip sha256_k w) st).

Definition sha256 (m : bytes) : bytes :=
  let ws := words_of (sha_pad m) in
  let init := [1779033703; 3144134277; 1013904242; 2773480762; 1359893119; 2600822924; 528734635; 1541459225] in
  concat (map (be_bytes 4) (fold_left sha256_block (blocks (length ws) ws) init)).

(** [sum := sha256.Sum256([]byte(raw)); hex.EncodeToString(sum[:])] *)
Definition sha256_hex (raw : string) : string := hex_encode (sha256 (bytes_of raw)).

Definition sha1_next (w : list Z) : Z :=
  rotl 1 (Z.lxor (Z.lxor (nthz 2 w) (nthz 7 w)) (Z.lxor (nthz 13 w) (nthz 15 w))).

Definition sha1_round (st : list Z) (iw : nat * Z) : list Z :=
  match st with
  | [a; b; c; d; e] =>
      let '(f, k) :=
        if (iw.1 <? 20)%nat then (Z.lor (Z.land b c) (Z.land (not32 b) d), 1518500249)
        else if (iw.1 <? 40)%nat then (Z.lxor (Z.lxor b c) d, 1859775393)
        else if (iw.1 <? 60)%nat then
          (Z.lor (Z.lor (Z.land b c) (Z.land b d)) (Z.land c d), 2400959708)
        else (Z.lxor (Z.lxor b c) d, 3395469782) in
      [w32 (rotl 5 a + f + e + k + iw.2); a; rotl 30 b; c; d]
  | _ => st
  end.

Definition sha1_block (st : list Z) (blk : list Z) : list Z :=
  let w := schedule sha1_next 64 (rev blk) in
  zip_with (fun x y => w32 (x + y)) st (fold_left sha1_round (zip (seq 0 80) w) st).

Definition sha1 (m : bytes) : bytes :=
  let ws := words_of (sha_pad m) in
  let init := [1732584193; 4023233417; 2562383102; 271733878; 3285377520] in
  concat (map (be_bytes 4) (fold_left sha1_block (blocks (length ws) ws) init)).

(** [hmac.New(sha1.New, key)] over one message. *)
Definition hmac_sha1 (key msg : bytes) : bytes :=
  let key := if (64 <? length key)%nat then sha1 key else key in
  let key := key ++ repeat 0 (64 - length key) in
  sha1 (map (Z.lxor 92) key ++ sha1 (map (Z.lxor 54) key ++ msg)).

Example sha256_abc :
  sha256_hex "abc" = "ba7816bf8f01cfea414140de5dae2223b00361a396177a9cb410ff61f20015ad".
Proof. vm_compute. reflexivity. Qed.
Example sha1_abc : hex_encode (sha1 (bytes_of "abc")) = "a9993e364706816aba3e25717850c26c9cd0d89d".
Proof. vm_compute. reflexivity. Qed.
(** RFC 2202, test case 2. *)
Example hmac_sha1_jefe :
  hex_encode (hmac_sha1 (bytes_of "Jefe") (bytes_of "what do ya want for nothing?"))
  = "effcdf6ae5eb2fa2d27416d5f184df9c259a7c79".
Proof. vm_compute. reflexivity. Qed.

(* ------------------------------------------------------------------ *)
(** ** Round trips *)

Lemma string_of_bytes_of s : string_of (bytes_of s) = s.
Proof. induction s as [|c s IH]; simpl; [done|]. by rewrite byte_code, IH. Qed.

Lemma is_bytes_of s : is_bytes (bytes_of s).
Proof. induction s as [|c s IH]; simpl; constructor; [apply code_bound|apply IH]. Qed.

(** Every digit has a symbol that reads back as the digit and is no line break. *)
Definition good_symbol (alphabet : string) (n : nat) : bool :=
  let c := symbol alphabet (Z.of_nat n) in
  bool_decide (value alphabet c = Some (Z.of_nat n))
  && negb (Ascii.eqb c (byte 10) || Ascii.eqb c (byte 13)).
Definition good_alphabet (k : nat) (alphabet : string) : bool :=
  forallb (good_symbol alphabet) (seq 0 k).

Lemma good_alphabet_spec k alphabet n :
  good_alphabet k alphabet = true -> 0 <= n < Z.of_nat k ->
  let c := symbol alphabet n in
  value alphabet c = Some n /\ Ascii.eqb c (byte 10) || Ascii.eqb c (byte 13) = false.
Proof.
  unfold good_alphabet. rewrite forallb_forall. intros H Hn.
  specialize (H (Z.to_nat n)). unfold good_symbol in H. rewrite Z2Nat.id in H by lia.
  specialize (H ltac:(apply in_seq; lia)). bool_facts.
  split; [done|]. by apply orb_false_iff.
Qed.

Lemma std_good : good_alphabet 64 std_alphabet = true.
Proof. vm_compute. reflexivity. Qed.
Lemma url_good : good_alphabet 64 url_alphabet = true.
Proof. vm_compute. reflexivity. Qed.
Lemma b32_good : good_alphabet 32 b32_alphabet = true.
Proof. vm_compute. reflexivity. Qed.

Lemma b64_values_symbols alphabet l :
  good_alphabet 64 alphabet = true -> Forall (fun d => 0 <= d < 64) l ->
  b64_values alphabet (string_of (map (fun d => code (symbol alphabet d)) l)) = Some l.
Proof.
  intros Hg. induction 1 as [|d l Hd _ IH]; [done|]. simpl. rewrite byte_code.
  destruct (good_alphabet_spec 64 alphabet d Hg ltac:(lia)) as [-> ->].
  simpl. by rewrite IH.
Qed.

(** Induction that peels three bytes at a time. *)
Lemma bytes_ind3 (P : bytes -> Prop) :
  P [] -> (forall a, P [a]) -> (forall a b, P [a; b]) ->
  (forall a b c l, P l -> P (a :: b :: c :: l)) -> forall l, P l.
Proof.
  intros H0 H1 H2 H3. fix rec 1. intros [|a [|b [|c l]]]; [done|done|done|]. apply H3, rec.
Qed.

Ltac inv_bytes := repeat match goal with H : Forall _ (_ :: _) |- _ => apply Forall_cons in H as [? H] end.

Lemma b64_digits_range l : is_bytes l -> Forall (fun d => 0 <= d < 64) (b64_digits l).
Proof.
  unfold is_bytes. induction l as [|a|a b|a b c l IH] using bytes_ind3; intros H; inv_bytes;
    simpl; repeat apply Forall_cons_2; auto; try (Z.div_mod_to_equations; lia); constructor.
Qed.

Lemma b64_bytes_digits l : is_bytes l -> b64_bytes (b64_digits l) = Some l.
Proof.
  unfold is_bytes. induction l as [|a|a b|a b c l IH] using bytes_ind3; intros H; inv_bytes; simpl.
  - done.
  - do 2 f_equal; Z.div_mod_to_equations; lia.
  - repeat f_equal; Z.div_mod_to_equations; lia.
  - rewrite IH by done. simpl. repeat f_equal; Z.div_mod_to_equations; lia.
Qed.

Lemma b64_round_trip alphabet l :
  good_alphabet 64 alphabet = true -> is_bytes l -> b64_decode alphabet (b64_encode alphabet l) = Some l.
Proof.
  intros Hg Hl. unfold b64_decode, b64_encode.
  pose proof (b64_digits_range l Hl) as Hd.
  rewrite (b64_values_symbols alphabet _ Hg Hd). by apply b64_bytes_digits.
Qed.

Lemma hex_encode_length l : String.length (hex_encode l) = (2 * length l)%nat.
Proof. induction l as [|b l IH]; simpl; [done|]. rewrite IH. lia. Qed.

Lemma b32_values_symbols l : Forall (fun d => 0 <= d < 32) l ->
  b32_values (string_of (map (fun d => code (symbol b32_alphabet d)) l)) = Some l.
Proof.
  induction 1 as [|d l Hd _ IH]; [done|]. simpl. rewrite byte_code.
  destruct (good_alphabet_spec 32 b32_alphabet d b32_good ltac:(lia)) as [-> ->].
  simpl. by rewrite IH.
Qed.

Lemma b32_split_range k n : Forall (fun d => 0 <= d < 32) (b32_split k n).
Proof.
  revert n. induction k as [|k IH]; intros n; [constructor|]. simpl. apply Forall_app. split; [apply IH|].
  repeat constructor; apply Z.mod_pos_bound; lia.
Qed.

Lemma b32_split_length k n : length (b32_split k n) = k.
Proof. revert n. induction k as [|k IH]; intros n; [done|]. simpl. rewrite length_app, IH. simpl. lia. Qed.

Lemma b32_join_split k n : 0 <= n < 32 ^ Z.of_nat k -> b32_join (b32_split k n) = n.
Proof.
  revert n. induction k as [|k IH]; intros n Hn; [simpl in *; unfold b32_join; simpl; lia|].
  simpl. unfold b32_join in *. rewrite fold_left_app. simpl. rewrite IH.
  - pose proof (Z.div_mod n 32). lia.
  - rewrite Nat2Z.inj_succ, Z.pow_succ_r in Hn by lia. Z.div_mod_to_equations. lia.
Qed.

Lemma be_value_snoc l b : be_value (l ++ [b]) = be_value l * 256 + b.
Proof. unfold be_value. by rewrite fold_left_app. Qed.

Lemma be_bytes_value l : is_bytes l -> be_bytes (length l) (be_value l) = l.
Proof.
  unfold is_bytes. induction l as [|b l IH] using rev_ind; intros H; [done|].
  apply Forall_app in H as [Hl Hb]. inv_bytes. rewrite length_app, Nat.add_comm. simpl.
  rewrite be_value_snoc.
  replace ((be_value l * 256 + b) / 256) with (be_value l) by (Z.div_mod_to_equations; lia).
  replace ((be_value l * 256 + b) mod 256) with b by (Z.div_mod_to_equations; lia).
  by rewrite IH.
Qed.

Lemma be_value_range l : is_bytes l -> 0 <= be_value l < 256 ^ Z.of_nat (length l).
Proof.
  unfold is_bytes. induction l as [|b l IH] using rev_ind; intros H; [done|].
  apply Forall_app in H as [Hl Hb]. inv_bytes. rewrite be_value_snoc, length_app, Nat.add_comm. simpl.
  rewrite Nat2Z.inj_succ, Z.pow_succ_r by lia. specialize (IH Hl). lia.
Qed.

Lemma bytes_ind5 (P : bytes -> Prop) :
  P [] -> (forall a, P [a]) -> (forall a b, P [a; b]) -> (forall a b c, P [a; b; c]) ->
  (forall a b c d, P [a; b; c; d]) ->
  (forall a b c d e l, P l -> P (a :: b :: c :: d :: e :: l)) -> forall l, P l.
Proof.
  intros H0 H1 H2 H3 H4 H5. fix rec 1. intros [|a [|b [|c [|d [|e l]]]]]; [done..|]. apply H5, rec.
Qed.

Lemma b32_digits_range l : Forall (fun d => 0 <= d < 32) (b32_digits l).
Proof.
  induction l as [|a|a b|a b c|a b c d|a b c d e l IH] using bytes_ind5;
    cbn [b32_digits]; try apply b32_split_range; [constructor|].
  apply Forall_app. split; [apply b32_split_range|done].
Qed.

(** The group of [k] bytes with value [v], as [n] characters. *)
Lemma b32_group (l : bytes) (n : nat) (scale : Z) :
  is_bytes l -> 0 < scale -> 256 ^ Z.of_nat (length l) * scale <= 32 ^ Z.of_nat n ->
  be_bytes (length l) (b32_join (b32_split n (be_value l * scale)) / scale) = l.
Proof.
  intros Hl Hs Hn. pose proof (be_value_range l Hl). rewrite b32_join_split by nia.
  rewrite Z.div_mul by lia. by apply be_bytes_value.
Qed.

Lemma b32_full_group (l : list Z) r : length l = 8%nat -> b32_bytes (l ++ r) = be_bytes 5 (b32_join l) ++ b32_bytes r.
Proof. do 9 (destruct l as [|? l]; try done). Qed.

Lemma b32_last_group (l : list Z) :
  (length l = 7%nat -> b32_bytes l = be_bytes 4 (b32_join l / 8)) /\
  (length l = 5%nat -> b32_bytes l = be_bytes 3 (b32_join l / 2)) /\
  (length l = 4%nat -> b32_bytes l = be_bytes 2 (b32_join l / 16)) /\
  (length l = 2%nat -> b32_bytes l = be_bytes 1 (b32_join l / 4)).
Proof. split_and!; intros H; do 8 (destruct l as [|? l]; try done). Qed.

Lemma b32_round_trip l : is_bytes l -> b32_decode (b32_encode l) = Some l.
Proof.
  intros Hl. unfold b32_decode, b32_encode. rewrite b32_values_symbols by apply b32_digits_range.
  simpl. f_equal. revert Hl. unfold is_bytes.
  induction l as [|a|a b|a b c|a b c d|a b c d e l IH] using bytes_ind5; intros H; cbn [b32_digits].
  - done.
  - rewrite (proj2 (proj2 (proj2 (b32_last_group _)))) by apply b32_split_length.
    exact (b32_group [a] 2 4 H ltac:(lia) ltac:(simpl; lia)).
  - rewrite (proj1 (proj2 (proj2 (b32_last_group _)))) by apply b32_split_length.
    exact (b32_group [a; b] 4 16 H ltac:(lia) ltac:(simpl; lia)).
  - rewrite (proj1 (proj2 (b32_last_group _))) by apply b32_split_length.
    exact (b32_group [a; b; c] 5 2 H ltac:(lia) ltac:(simpl; lia)).
  - rewrite (proj1 (b32_last_group _)) by apply b32_split_length.
    exact (b32_group [a; b; c; d] 7 8 H ltac:(lia) ltac:(simpl; lia)).
  - rewrite b32_full_group by apply b32_split_length.
    assert (H5 : Forall (fun b => 0 <= b < 256) [a; b; c; d; e] /\ Forall (fun b => 0 <= b < 256) l).
    { apply Forall_app. exact H. }
    destruct H5 as [H5 Hl]. rewrite IH by done.
    change (a :: b :: c :: d :: e :: l) with ([a; b; c; d; e] ++ l). f_equal.
    pose proof (b32_group [a; b; c; d; e] 8 1 H5 ltac:(lia) ltac:(simpl; lia)) as Hg.
    rewrite Z.mul_1_r, Z.div_1_r in Hg. exact Hg.
Qed.
