(* ===== verification/Crypto.v ===== *)
(** [internal/crypto/crypto.go]: password hashes and the keystore.

    Argon2 and AES-GCM come from outside the repository: they are parameters.
    The random bytes are arguments; the callers draw them. *)

From S2P Require Import Prelude GoString GoMonad GoCrypto.
From Stdlib Require Import Ascii.

(* ------------------------------------------------------------------ *)
(** ** Parsing the parameters of a hash *)

(** [ss.SkipSpace] of [fmt]: blanks are skipped, a line break is an error. *)
Fixpoint skip_space (s : string) : option string :=
  match s with
  | "" => Some ""
  | String c s' =>
      if Ascii.eqb c (byte 10) then None
      else if is_space c then skip_space s' else Some s
  end.

(** The longest run of digits, and the rest. *)
Fixpoint digit_run (s : string) : string * string :=
  match s with
  | String c s' => if is_digit c then let '(d, r) := digit_run s' in (String c d, r) else ("", s)
  | "" => ("", "")
  end.

(** [%d] into an unsigned integer of [bits] bits. *)
Definition scan_uint (bits : Z) (s : string) : option (Z * string) :=
  s ← skip_space s;
  let '(d, rest) := digit_run s in
  if String.eqb d "" then None
  else n ← decimal 0 d;
       if n <? 2 ^ bits then Some (n, rest) else None.

(** A literal part of the format. *)
Definition scan_lit (lit s : string) : option string :=
  if HasPrefix s lit then Some (drop_bytes (String.length lit) s) else None.

(** [fmt.Sscanf(s, "m=%d,t=%d,p=%d", &memory, &iterations, &parallelism)]; what
    follows the last number is not read. *)
Definition scan_params (s : string) : option (Z * Z * Z) :=
  s ← scan_lit "m=" s;
  '(m, s) ← scan_uint 32 s;
  s ← scan_lit ",t=" s;
  '(t, s) ← scan_uint 32 s;
  s ← scan_lit ",p=" s;
  '(p, _) ← scan_uint 8 s;
  Some (m, t, p).

(* ------------------------------------------------------------------ *)
(** ** Passwords *)

Record ArgonConfig := mkArgonConfig {
  ac_Memory : Z; ac_Iterations : Z; ac_Parallelism : Z; ac_KeyLen : Z; ac_SaltLen : Z
}.
#[export] Instance eta_ArgonConfig : Eta ArgonConfig := fun r =>
  mkArgonConfig (ac_Memory r) (ac_Iterations r) (ac_Parallelism r) (ac_KeyLen r)
    (ac_SaltLen r).

Definition DefaultArgonConfig : ArgonConfig := mkArgonConfig (64 * 1024) 3 2 32 16.

Section argon2.
(** [argon2.IDKey(password, salt, time, memory, threads, keyLen)] *)
Context (IDKey : bytes -> bytes -> Z -> Z -> Z -> Z -> bytes).

Definition HashPassword (password : string) (salt : bytes) (cfg : ArgonConfig) : string :=
  let hash := IDKey (bytes_of password) salt (ac_Iterations cfg) (ac_Memory cfg) (ac_Parallelism cfg) (ac_KeyLen cfg) in
  "argon2id$v=19$m=" +:+ Itoa (ac_Memory cfg) +:+ ",t=" +:+ Itoa (ac_Iterations cfg) +:+ ",p="
    +:+ Itoa (ac_Parallelism cfg) +:+ "$" +:+ b64_encode std_alphabet salt +:+ "$" +:+ b64_encode std_alphabet hash.

Definition VerifyPassword (password encoded : string) : bool :=
  match Split encoded "$"%char with
  | [alg; _; params; salt; hash] =>
      if negb (String.eqb alg "argon2id") then false
      else match scan_params params with
           | None => false
           | Some (memory, iterations, parallelism) =>
               match b64_decode std_alphabet salt, b64_decode std_alphabet hash with
               | Some salt, Some expected =>
                   bool_decide (IDKey (bytes_of password) salt iterations memory parallelism
                                  (Z.of_nat (length expected) mod 2 ^ 32) = expected)
               | _, _ => false
               end
           end
  | _ => false
  end.
End argon2.

(* ------------------------------------------------------------------ *)
(** ** Base 64 with padding *)

(** [base64.StdEncoding.EncodeToString] *)
Definition b64_padding (n : nat) : string :=
  match (n mod 3)%nat with 1%nat => "==" | 2%nat => "=" | _ => "" end.
Definition StdEncode (l : bytes) : string := b64_encode std_alphabet l +:+ b64_padding (length l).

Fixpoint drop_breaks (s : string) : string :=
  match s with
  | "" => ""
  | String c s' => if Ascii.eqb c (byte 10) || Ascii.eqb c (byte 13) then drop_breaks s' else String c (drop_breaks s')
  end.

(** [base64.StdEncoding.DecodeString]: whole groups, padded at the end only. *)
Definition StdDecode (s : string) : option bytes :=
  let s := drop_breaks s in
  if negb (String.length s mod 4 =? 0)%nat then None
  else if HasSuffix s "==" then b64_decode std_alphabet (take_bytes (String.length s - 2) s)
  else if HasSuffix s "=" then b64_decode std_alphabet (take_bytes (String.length s - 1) s)
  else b64_decode std_alphabet s.

(* ------------------------------------------------------------------ *)
(** ** The keystore *)

Definition NonceSize : nat := 12.

(** [aes.NewCipher] accepts keys of 16, 24 and 32 bytes. *)
Definition valid_aes_key (key : bytes) : bool :=
  bool_decide (length key = 16%nat) || bool_decide (length key = 24%nat) || bool_decide (length key = 32%nat).

Section aes_gcm.
(** [gcm.Seal(nil, nonce, plain, nil)] and [gcm.Open(nil, nonce, payload, nil)]
    under a key. *)
Context (Seal : bytes -> bytes -> bytes -> bytes).
Context (Open : bytes -> bytes -> bytes -> option bytes).

(** [nonce]: the bytes drawn for this message. *)
Definition Encrypt (key nonce : bytes) (plain : string) : result string :=
  if negb (valid_aes_key key) then Err (ErrText "crypto/aes: invalid key size")
  else Ok (StdEncode (nonce ++ Seal key nonce (bytes_of plain))).

Definition Decrypt (key : bytes) (cipherText : string) : result string :=
  match StdDecode cipherText with
  | None => Err (ErrText "illegal base64 data")
  | Some raw =>
      if negb (valid_aes_key key) then Err (ErrText "crypto/aes: invalid key size")
      else if (length raw <? NonceSize)%nat then Err (ErrText "ciphertext too short")
      else match Open key (take NonceSize raw) (drop NonceSize raw) with
           | None => Err (ErrText "cipher: message authentication failed")
           | Some plain => Ok (string_of plain)
           end
  end.
End aes_gcm.

(** The key of the keystore and what the key file holds afterwards: [file] is
    its content before, if it can be read, [rand] the drawn bytes if the source
    does not fail, [writable] whether the file can be written. *)
Definition LoadOrCreateKey (file : option string) (rand : option bytes) (writable : bool)
    : result (bytes * string) :=
  match file with
  | Some b =>
      match StdDecode (TrimSpace b) with
      | None => Err (ErrText "illegal base64 data")
      | Some k => if negb (length k =? 32)%nat then Err (ErrText "invalid key length") else Ok (k, b)
      end
  | None =>
      match rand with
      | None => Err (ErrText "random source")
      | Some k =>
          if negb writable then Err (ErrText "write failed")
          else Ok (k, StdEncode k +:+ String (byte 10) "")
      end
  end.

(* ------------------------------------------------------------------ *)
(** ** Reading back what was printed *)

Lemma digit_run_app d rest :
  all_chars is_digit d = true -> (match rest with "" => true | String c _ => negb (is_digit c) end) = true ->
  digit_run (d +:+ rest) = (d, rest).
Proof.
  intros Hd Hr. induction d as [|c d IH].
  - change ("" +:+ rest) with rest. destruct rest as [|c r]; [done|]. rewrite negb_true_iff in Hr.
    unfold digit_run. by rewrite Hr.
  - change (String c d +:+ rest) with (String c (d +:+ rest)). simpl in *. apply andb_prop in Hd as [Hc Hd].
    by rewrite Hc, (IH Hd).
Qed.

Lemma decimal_digits acc d n : decimal acc d = Some n -> all_chars is_digit d = true.
Proof.
  revert acc. induction d as [|c d IH]; intros acc; [done|]. simpl. unfold digit_value.
  destruct (is_digit c); [|done]. intros H. by apply IH in H.
Qed.

Lemma digit_visible c : is_digit c = true -> is_space c = false /\ Ascii.eqb c (byte 10) = false /\ Ascii.eqb c "$"%char = false.
Proof.
  assert (H : implb (is_digit c) (negb (is_space c) && negb (Ascii.eqb c (byte 10)) && negb (Ascii.eqb c "$"%char)) = true).
  { revert c. apply byte_ind. vm_compute. reflexivity. }
  intros Hd. rewrite Hd in H. simpl in H. bool_facts. split_and!; done.
Qed.

Lemma scan_uint_Itoa bits n rest : 0 <= n < 2 ^ bits ->
  (match rest with "" => true | String c _ => negb (is_digit c) end) = true ->
  scan_uint bits (Itoa n +:+ rest) = Some (n, rest).
Proof.
  intros Hn Hr. unfold scan_uint. destruct (decimal_Itoa n ltac:(lia)) as [Hne Hd].
  pose proof (decimal_digits _ _ _ Hd) as Ha.
  destruct (Itoa n) as [|c d] eqn:E; [done|]. clear E.
  assert (Hs : skip_space (String c d +:+ rest) = Some (String c d +:+ rest)).
  { change (String c d +:+ rest) with (String c (d +:+ rest)). simpl. simpl in Ha. apply andb_prop in Ha as [Hc _].
    destruct (digit_visible c Hc) as (-> & -> & _). done. }
  pose proof (digit_run_app (String c d) rest Ha Hr) as Hrun.
  revert Hs Hrun. generalize (String c d +:+ rest) as t. intros t -> Hrun. simpl. rewrite Hrun.
  change (String c d =? "")%string with false. cbn iota. rewrite Hd. simpl. by replace (n <? 2 ^ bits) with true by lia.
Qed.

Lemma scan_lit_app lit s : scan_lit lit (lit +:+ s) = Some s.
Proof.
  unfold scan_lit. rewrite HasPrefix_app. f_equal.
  induction lit as [|c l IH]; [by destruct s|]. exact IH.
Qed.

Lemma all_lacks c s : all_chars (fun d => negb (Ascii.eqb d c)) s = true -> lacks c s.
Proof.
  induction s as [|d s IH]; [done|]. simpl. intros [H Hs]%andb_prop. rewrite negb_true_iff in H.
  apply lacks_cons. split; [done|by apply IH].
Qed.

(** The texts of a hash hold no dollar sign. *)
Definition no_dollar (c : ascii) : bool := negb (Ascii.eqb c "$"%char).

Lemma Itoa_no_dollar n : 0 <= n -> all_chars no_dollar (Itoa n) = true.
Proof.
  intros Hn. destruct (decimal_Itoa n Hn) as [_ Hd]. apply decimal_digits in Hd.
  eapply all_chars_impl; [|exact Hd]. intros c Hc. unfold no_dollar. by destruct (digit_visible c Hc) as (_ & _ & ->).
Qed.

Lemma symbols_all (p : ascii -> bool) k alphabet l :
  forallb (fun n => p (symbol alphabet (Z.of_nat n))) (seq 0 k) = true ->
  Forall (fun d => 0 <= d < Z.of_nat k) l ->
  all_chars p (string_of (map (fun d => code (symbol alphabet d)) l)) = true.
Proof.
  intros Hk. rewrite forallb_forall in Hk. induction 1 as [|d l Hd _ IH]; [done|]. simpl. rewrite byte_code.
  specialize (Hk (Z.to_nat d)). rewrite Z2Nat.id in Hk by lia. rewrite Hk by (apply in_seq; lia). done.
Qed.

Lemma b64_all p l : forallb (fun n => p (symbol std_alphabet (Z.of_nat n))) (seq 0 64) = true ->
  is_bytes l -> all_chars p (b64_encode std_alphabet l) = true.
Proof. intros Hp Hl. apply (symbols_all p 64); [done|by apply b64_digits_range]. Qed.

Definition config_widths (cfg : ArgonConfig) : Prop :=
  0 <= ac_Memory cfg < 2 ^ 32 /\ 0 <= ac_Iterations cfg < 2 ^ 32 /\ 0 <= ac_Parallelism cfg < 2 ^ 8.

Lemma scan_params_printed cfg : config_widths cfg ->
  scan_params ("m=" +:+ Itoa (ac_Memory cfg) +:+ ",t=" +:+ Itoa (ac_Iterations cfg) +:+ ",p=" +:+ Itoa (ac_Parallelism cfg))
  = Some (ac_Memory cfg, ac_Iterations cfg, ac_Parallelism cfg).
Proof.
  intros (H1 & H2 & H3). unfold scan_params. rewrite scan_lit_app. simpl mbind.
  rewrite scan_uint_Itoa by done. simpl mbind. rewrite scan_lit_app. simpl mbind.
  rewrite scan_uint_Itoa by done. simpl mbind. rewrite scan_lit_app. simpl mbind.
  rewrite <- (string_app_nil (Itoa (ac_Parallelism cfg))). rewrite scan_uint_Itoa by done. done.
Qed.

(** The five parts of a printed hash. *)
Lemma Split_hash params salt hash :
  all_chars no_dollar params = true -> all_chars no_dollar salt = true -> all_chars no_dollar hash = true ->
  Split ("argon2id$v=19$" +:+ params +:+ "$" +:+ salt +:+ "$" +:+ hash) "$"%char =
  ["argon2id"; "v=19"; params; salt; hash].
Proof.
  intros Hp Hs Hh.
  change ("argon2id$v=19$" +:+ params +:+ "$" +:+ salt +:+ "$" +:+ hash) with
    ("argon2id" +:+ String "$" ("v=19" +:+ String "$" (params +:+ String "$" (salt +:+ String "$" hash)))).
  rewrite Split_app by (by apply all_lacks). rewrite Split_app by (by apply all_lacks).
  rewrite Split_app by (by apply all_lacks). rewrite Split_app by (by apply all_lacks).
  rewrite Split_lacks by (by apply all_lacks). done.
Qed.

Lemma verify_hash IDKey password salt cfg attempt :
  (forall p s t m l k, 0 <= k -> is_bytes (IDKey p s t m l k) /\ Z.of_nat (length (IDKey p s t m l k)) = k) ->
  is_bytes salt -> config_widths cfg -> 0 <= ac_KeyLen cfg < 2 ^ 32 ->
  let derive p := IDKey (bytes_of p) salt (ac_Iterations cfg) (ac_Memory cfg) (ac_Parallelism cfg) (ac_KeyLen cfg) in
  VerifyPassword IDKey attempt (HashPassword IDKey password salt cfg) = bool_decide (derive attempt = derive password) /\
  VerifyPassword IDKey password (HashPassword IDKey password salt cfg) = true.
Proof.
  intros HK Hs Hw Hk. cbv zeta.
  set (hash := IDKey (bytes_of password) salt (ac_Iterations cfg) (ac_Memory cfg) (ac_Parallelism cfg) (ac_KeyLen cfg)).
  assert (Hh : is_bytes hash /\ Z.of_nat (length hash) = ac_KeyLen cfg) by (apply HK; lia). destruct Hh as [Hh Hlen].
  assert (E : forall attempt, VerifyPassword IDKey attempt (HashPassword IDKey password salt cfg) =
    bool_decide (IDKey (bytes_of attempt) salt (ac_Iterations cfg) (ac_Memory cfg) (ac_Parallelism cfg) (ac_KeyLen cfg) = hash)).
  { intros a. unfold VerifyPassword, HashPassword. cbv zeta. fold hash.
    set (params := "m=" +:+ Itoa (ac_Memory cfg) +:+ ",t=" +:+ Itoa (ac_Iterations cfg) +:+ ",p=" +:+ Itoa (ac_Parallelism cfg)).
    replace ("argon2id$v=19$m=" +:+ Itoa (ac_Memory cfg) +:+ ",t=" +:+ Itoa (ac_Iterations cfg) +:+ ",p="
      +:+ Itoa (ac_Parallelism cfg) +:+ "$" +:+ b64_encode std_alphabet salt +:+ "$" +:+ b64_encode std_alphabet hash)
      with ("argon2id$v=19$" +:+ params +:+ "$" +:+ b64_encode std_alphabet salt +:+ "$" +:+ b64_encode std_alphabet hash)
      by (unfold params; by rewrite !string_app_assoc).
    destruct Hw as (W1 & W2 & W3).
    rewrite Split_hash.
    - change (negb ("argon2id" =? "argon2id")%string) with false. cbn iota.
      unfold params. rewrite scan_params_printed by done. cbn iota.
      rewrite !b64_round_trip by (done || apply std_good). by rewrite Hlen, Z.mod_small.
    - unfold params. rewrite !all_chars_app, !Itoa_no_dollar by lia. done.
    - apply b64_all; [vm_compute; reflexivity|done].
    - apply b64_all; [vm_compute; reflexivity|done]. }
  rewrite !E. split; [done|]. by apply bool_decide_eq_true_2.
Qed.

(** Checking a password against a stored hash compares the key derivations:
    for every derivation function with outputs of the length asked for, a
    password matches the hash of another exactly when both derive the same key
    from the salt; so the right password is accepted, and a wrong one only on a
    collision of the derivation. *)
Theorem password_check IDKey password salt cfg attempt :
  (forall p s t m l k, 0 <= k -> is_bytes (IDKey p s t m l k) /\ Z.of_nat (length (IDKey p s t m l k)) = k) ->
  is_bytes salt -> config_widths cfg -> 0 <= ac_KeyLen cfg < 2 ^ 32 ->
  let derive p := IDKey (bytes_of p) salt (ac_Iterations cfg) (ac_Memory cfg) (ac_Parallelism cfg) (ac_KeyLen cfg) in
  VerifyPassword IDKey attempt (HashPassword IDKey password salt cfg) = bool_decide (derive attempt = derive password) /\
  VerifyPassword IDKey password (HashPassword IDKey password salt cfg) = true.
Proof. apply verify_hash. Qed.

(** A stand-in for the derivation: the bytes of the password, cut or filled. *)
Definition toy_derivation (p s : bytes) (t m l k : Z) : bytes :=
  map (fun n => nth n p 0 mod 256) (seq 0 (Z.to_nat k)).

Lemma password_check_witness :
  VerifyPassword toy_derivation "guess" (HashPassword toy_derivation "secret" [1; 2; 3] DefaultArgonConfig) = false /\
  VerifyPassword toy_derivation "secret" (HashPassword toy_derivation "secret" [1; 2; 3] DefaultArgonConfig) = true.
Proof.
  split; [vm_compute; reflexivity|].
  refine (proj2 (password_check toy_derivation "secret" [1; 2; 3] DefaultArgonConfig "secret" _ _ _ _)).
  - intros p s t m l k Hk. unfold toy_derivation. split.
    + apply Forall_map, Forall_true. intros n. simpl. apply Z.mod_pos_bound. lia.
    + rewrite length_map, length_seq. lia.
  - repeat (constructor; [lia|]). constructor.
  - unfold config_widths. simpl. lia.
  - simpl. lia.
Defined.

(* ------------------------------------------------------------------ *)
(** ** The keystore reads what it wrote *)

(** No line break, blank, or padding character. *)
Definition b64_char (c : ascii) : bool :=
  negb (Ascii.eqb c (byte 10) || Ascii.eqb c (byte 13)) && negb (Ascii.eqb c "="%char) && negb (is_space c).

Lemma b64_chars l : is_bytes l -> all_chars b64_char (b64_encode std_alphabet l) = true.
Proof. apply b64_all. vm_compute. reflexivity. Qed.

Lemma drop_breaks_all s : all_chars (fun c => negb (Ascii.eqb c (byte 10) || Ascii.eqb c (byte 13))) s = true -> drop_breaks s = s.
Proof.
  induction s as [|c s IH]; [done|]. simpl. intros [H Hs]%andb_prop. rewrite negb_true_iff in H. by rewrite H, IH.
Qed.

Lemma symbols_length alphabet l : String.length (string_of (map (fun d => code (symbol alphabet d)) l)) = length l.
Proof. induction l as [|d l IH]; [done|]. simpl. by rewrite IH. Qed.

Lemma b64_length l : exists q, (String.length (b64_encode std_alphabet l) + String.length (b64_padding (length l)) = 4 * q)%nat /\
  String.length (b64_padding (length l)) = ((3 - length l mod 3) mod 3)%nat.
Proof.
  unfold b64_encode. rewrite symbols_length.
  induction l as [|a|a b|a b c l IH] using bytes_ind3; [exists 0%nat|exists 1%nat|exists 1%nat|]; try done.
  destruct IH as (q & H1 & H2). exists (S q). cbn [b64_digits length].
  assert (E : (S (S (S (length l))) mod 3 = length l mod 3)%nat).
  { replace (S (S (S (length l)))) with (length l + 1 * 3)%nat by lia. apply Nat.Div0.mod_add. }
  unfold b64_padding in *. rewrite E. split; [lia|done].
Qed.

Lemma take_bytes_app s t : take_bytes (String.length s) (s +:+ t) = s.
Proof.
  induction s as [|c s IH]; [by destruct t|]. change (String c s +:+ t) with (String c (s +:+ t)). simpl. by rewrite IH.
Qed.

Lemma drop_bytes_app s t : drop_bytes (String.length s) (s +:+ t) = t.
Proof. induction s as [|c s IH]; [by destruct t|exact IH]. Qed.

(** A text of base-64 characters ends in no padding. *)
Lemma not_padded s p : all_chars b64_char s = true -> p <> "" -> HasPrefix p "=" = true -> HasSuffix s p = false.
Proof.
  intros Hs Hp He. unfold HasSuffix. destruct (String.length p <=? String.length s)%nat eqn:Hl; [|done]. simpl.
  apply String.eqb_neq. intros E. pose proof (all_chars_drop _ (String.length s - String.length p) _ Hs) as Hd.
  rewrite E in Hd. destruct p as [|c p]; [done|].
  change (String.prefix "=" (String c p) = true) in He. cbn [String.prefix] in He.
  destruct (ascii_dec "="%char c) as [<-|]; [|done]. cbn in Hd. discriminate Hd.
Qed.

Lemma not_padded_one s : all_chars b64_char s = true -> HasSuffix (s +:+ "=") "==" = false.
Proof.
  intros Hs. induction s as [|c s IH]; [done|].
  change (String c s +:+ "=") with (String c (s +:+ "=")). simpl in Hs. apply andb_prop in Hs as [Hc Hs].
  specialize (IH Hs). unfold HasSuffix in *. rewrite string_length_app in *.
  change (String.length (String c (s +:+ "="))) with (S (String.length (s +:+ "="))). rewrite string_length_app.
  change (String.length "==") with 2%nat in *. change (String.length "=") with 1%nat in *.
  destruct s as [|d s].
  - simpl. destruct (c =? "=")%char eqn:E; [|done]. apply Ascii.eqb_eq in E. subst c. cbn in Hc. discriminate Hc.
  - replace (S (String.length (String d s) + 1) - 2)%nat with (S (String.length (String d s) + 1 - 2))%nat by (simpl; lia).
    simpl in *. replace (String.length s + 1)%nat with (S (String.length s)) in * by lia. simpl in *. exact IH.
Qed.

Lemma HasSuffix_app s p : HasSuffix (s +:+ p) p = true.
Proof.
  unfold HasSuffix. rewrite string_length_app.
  replace (String.length s + String.length p - String.length p)%nat with (String.length s) by lia.
  rewrite drop_bytes_app, String.eqb_refl, andb_true_r. apply Nat.leb_le. lia.
Qed.

Lemma StdDecode_StdEncode l : is_bytes l -> StdDecode (StdEncode l) = Some l.
Proof.
  intros Hl. pose proof (b64_chars l Hl) as Hc. destruct (b64_length l) as (q & Hq & Hpad).
  unfold StdDecode, StdEncode. set (s := b64_encode std_alphabet l) in *.
  assert (Hb : all_chars (fun c => negb (Ascii.eqb c (byte 10) || Ascii.eqb c (byte 13))) (s +:+ b64_padding (length l)) = true).
  { rewrite all_chars_app. apply andb_true_intro. split.
    - eapply all_chars_impl; [|exact Hc]. intros c H. unfold b64_char in H. apply andb_prop in H as [H _].
      by apply andb_prop in H as [H _].
    - unfold b64_padding. by destruct (length l mod 3)%nat as [|[|[|]]]. }
  rewrite (drop_breaks_all _ Hb). cbv zeta. rewrite string_length_app, Hq.
  replace (4 * q)%nat with (q * 4)%nat by lia. rewrite Nat.Div0.mod_mul. simpl negb. cbn iota.
  assert (Hdec : b64_decode std_alphabet s = Some l) by (by apply b64_round_trip; [apply std_good|]).
  unfold b64_padding in *. pose proof (Nat.mod_upper_bound (length l) 3 ltac:(lia)).
  destruct (length l mod 3)%nat as [|[|[|]]] eqn:Em; [| | |lia].
  - rewrite string_app_nil, !not_padded by done. exact Hdec.
  - rewrite HasSuffix_app. simpl in Hq. replace (q * 4 - 2)%nat with (String.length s) by lia. by rewrite take_bytes_app.
  - rewrite not_padded_one, HasSuffix_app by done. simpl in Hq.
    replace (q * 4 - 1)%nat with (String.length s) by lia. by rewrite take_bytes_app.
Qed.

Lemma encrypt_decrypt Seal Open key nonce plain :
  (forall k n p, is_bytes p -> Open k n (Seal k n p) = Some p /\ is_bytes (Seal k n p)) ->
  valid_aes_key key = true -> is_bytes nonce -> length nonce = NonceSize ->
  exists c, Encrypt Seal key nonce plain = Ok c /\ Decrypt Open key c = Ok plain.
Proof.
  intros Hcipher Hkey Hn Hlen. destruct (Hcipher key nonce (bytes_of plain) (is_bytes_of plain)) as [Hopen Hbytes].
  unfold Encrypt. rewrite Hkey. simpl negb. cbn iota. eexists. split; [done|].
  unfold Decrypt. rewrite StdDecode_StdEncode by (by apply Forall_app; split).
  rewrite Hkey. simpl negb. cbn iota. rewrite length_app, Hlen.
  replace (NonceSize + _ <? NonceSize)%nat with false by (symmetry; apply Nat.ltb_ge; lia).
  rewrite <- Hlen, take_app_length, drop_app_length, Hopen. by rewrite string_of_bytes_of.
Qed.

Lemma StdEncode_trim l : is_bytes l -> TrimSpace (StdEncode l) = StdEncode l.
Proof.
  intros Hl. apply TrimSpace_all. unfold StdEncode. rewrite all_chars_app. apply andb_true_intro. split.
  - apply b64_all; [vm_compute; reflexivity|done].
  - unfold b64_padding. by destruct (length l mod 3)%nat as [|[|[|]]].
Qed.

(** A sealed text can be trimmed. *)
Lemma encrypt_trim Seal key nonce plain c :
  (forall k n p, is_bytes p -> is_bytes (Seal k n p)) -> is_bytes nonce -> Encrypt Seal key nonce plain = Ok c -> TrimSpace c = c.
Proof.
  intros Hs Hn. unfold Encrypt. destruct (negb _); [done|]. intros [= <-]. apply StdEncode_trim, Forall_app.
  split; [done|apply Hs, is_bytes_of].
Qed.

(** What the keystore encrypts it decrypts: for every cipher whose [Open]
    undoes its [Seal], every key of a valid size and every nonce of twelve
    bytes; and the key written on the first start is the key read on the next. *)
Theorem keystore_round_trip Seal Open key nonce plain :
  (forall k n p, is_bytes p -> Open k n (Seal k n p) = Some p /\ is_bytes (Seal k n p)) ->
  valid_aes_key key = true -> is_bytes nonce -> length nonce = NonceSize ->
  (exists c, Encrypt Seal key nonce plain = Ok c /\ Decrypt Open key c = Ok plain) /\
  (forall k file, LoadOrCreateKey None (Some k) true = Ok (key, file) -> is_bytes k -> length k = 32%nat ->
     LoadOrCreateKey (Some file) None false = Ok (key, file)).
Proof.
  intros Hcipher Hkey Hn Hlen. split.
  - by apply encrypt_decrypt.
  - unfold LoadOrCreateKey. simpl. intros k file [= <- <-] Hk Hl.
    assert (E : TrimSpace (StdEncode k +:+ String (byte 10) "") = StdEncode k).
    { pose proof (b64_chars k Hk) as Hc. unfold StdEncode.
      assert (Hs : all_chars (fun c => negb (is_space c)) (b64_encode std_alphabet k +:+ b64_padding (length k)) = true).
      { rewrite all_chars_app. apply andb_true_intro. split.
        - eapply all_chars_impl; [|exact Hc]. intros c H. unfold b64_char in H. by apply andb_prop in H as [_ H].
        - unfold b64_padding. by destruct (length k mod 3)%nat as [|[|[|]]]. }
      generalize dependent (b64_encode std_alphabet k +:+ b64_padding (length k)). intros t Ht.
      by apply TrimSpace_line. }
    rewrite E, StdDecode_StdEncode by done. by rewrite Hl.
Qed.

(** A stand-in for the cipher. *)
Definition toy_key : bytes := repeat 7 32.
Definition toy_nonce : bytes := repeat 9 12.

Lemma keystore_round_trip_witness :
  (exists c, Encrypt (fun _ _ p => rev p) toy_key toy_nonce "secret" = Ok c /\
     Decrypt (fun _ _ c => Some (rev c)) toy_key c = Ok "secret").
Proof.
  refine (proj1 (keystore_round_trip (fun _ _ p => rev p) (fun _ _ c => Some (rev c)) toy_key toy_nonce "secret" _ _ _ _)).
  - intros k n p Hp. rewrite rev_involutive. split; [done|]. unfold is_bytes in *. by apply Forall_rev.
  - reflexivity.
  - unfold is_bytes, toy_nonce. simpl. repeat (constructor; [lia|]). constructor.
  - reflexivity.
Defined.
