(* ===== verification/NetUtil.v ===== *)
(** [internal/netutil/netutil.go]: CIDR lists and who a request comes from.

    [Request] is the part of an [http.Request] the program reads. *)

From S2P Require Import Prelude GoString GoMonad GoNet.
From Stdlib Require Import Ascii.

(** [http.Request]: [Header] gives the first value of a header by its canonical
    name, [Cookies] the first cookie of a name, [Form] the parsed form, or
    nothing when [ParseForm] fails. *)
Record Request := mkRequest {
  rq_RemoteAddr : string; rq_RHost : string; rq_Method : string; rq_Path : string;
  rq_RequestURI : string; rq_Header : gmap string string; rq_Cookies : gmap string string;
  rq_Form : option (gmap string string); rq_TLS : bool; rq_ContentLength : Z
}.
#[export] Instance eta_Request : Eta Request := fun r =>
  mkRequest (rq_RemoteAddr r) (rq_RHost r) (rq_Method r) (rq_Path r) (rq_RequestURI r)
    (rq_Header r) (rq_Cookies r) (rq_Form r) (rq_TLS r) (rq_ContentLength r).

(** [r.Header.Get(name)] and [r.UserAgent()] *)
Definition header (r : Request) (name : string) : string := default "" (rq_Header r !! name).
Definition UserAgent (r : Request) : string := header r "User-Agent".
(** [r.FormValue(name)] after a successful [ParseForm]. *)
Definition form_value (r : Request) (name : string) : string :=
  match rq_Form r with Some m => default "" (m !! name) | None => "" end.

Definition plain_request (addr host path : string) : Request :=
  mkRequest addr host "GET" path path ∅ ∅ (Some ∅) false 0.

(* ------------------------------------------------------------------ *)
(** ** CIDR lists *)

(** The two loops over the entries of a list: blank ones are skipped, a bad one
    fails the whole list. *)
Fixpoint parse_cidrs (cidrs : list string) : result (list IPNet) :=
  match cidrs with
  | [] => Ok []
  | c :: l =>
      let c := TrimSpace c in
      if String.eqb c "" then parse_cidrs l
      else match ParseCIDR c with
           | None => Err (ErrText ("invalid cidr: " +:+ c))
           | Some n => match parse_cidrs l with Ok ns => Ok (n :: ns) | Err e => Err e end
           end
  end.

Definition ParseCIDRs (cidrs : list string) : result (list IPNet) := parse_cidrs cidrs.

(* ------------------------------------------------------------------ *)
(** ** The source of a request *)

Definition quote : ascii := ascii_of_nat 34.

Definition parseCandidateIP (raw : string) : string :=
  let raw := TrimSpace (trim (Ascii.eqb quote) raw) in
  if String.eqb raw "" then ""
  else
    let raw := if HasPrefix raw "[" && has_byte "]"%char raw
               then before "]"%char (TrimPrefix raw "[") else raw in
    match ParseIP raw with
    | Some i => IP_String i
    | None =>
        match SplitHostPort raw with
        | Some (host, _) =>
            match ParseIP (TrimSpace host) with Some i => IP_String i | None => "" end
        | None => ""
        end
    end.

Definition RemoteIP (r : Request) : string :=
  let addr := TrimSpace (rq_RemoteAddr r) in
  match SplitHostPort addr with
  | Some (host, _) =>
      if negb (String.eqb host "") && negb (String.eqb (parseCandidateIP host) "")
      then parseCandidateIP host else parseCandidateIP addr
  | None => parseCandidateIP addr
  end.

Definition in_nets (nets : list IPNet) (i : ip) : bool := existsb (fun n => Net_Contains n i) nets.

Definition IsTrustedProxy (r : Request) (trusted : list IPNet) : bool :=
  match trusted with
  | [] => false
  | _ => match ParseIP (RemoteIP r) with Some i => in_nets trusted i | None => false end
  end.

(** The first part of the header that is an address. *)
Fixpoint first_candidate (parts : list string) : option string :=
  match parts with
  | [] => None
  | p :: l => let i := parseCandidateIP p in if String.eqb i "" then first_candidate l else Some i
  end.

Definition ClientIP (r : Request) (trusted : list IPNet) : string :=
  if IsTrustedProxy r trusted then
    let cfip := parseCandidateIP (header r "Cf-Connecting-Ip") in
    if negb (String.eqb cfip "") then cfip
    else
      let xff := TrimSpace (header r "X-Forwarded-For") in
      let forwarded := if String.eqb xff "" then None else first_candidate (Split xff ","%char) in
      match forwarded with
      | Some i => i
      | None =>
          let xrip := parseCandidateIP (header r "X-Real-Ip") in
          if negb (String.eqb xrip "") then xrip else RemoteIP r
      end
  else RemoteIP r.

Definition country_code (c : string) : option string :=
  let cc := ToUpper (TrimSpace c) in
  if (len cc =? 2) && negb (String.eqb cc "XX") && negb (String.eqb cc "T1") then Some cc else None.

Definition CountryFromHeaders (r : Request) (trusted : list IPNet) : string :=
  if negb (IsTrustedProxy r trusted) then ""
  else default "" (head (omap (fun h => country_code (header r h))
                    ["Cf-Ipcountry"; "X-Country-Code"; "X-Appengine-Country"])).

(* ------------------------------------------------------------------ *)
(** ** Facts *)

(** An address as [net.IP.String] prints it, or nothing. *)
Definition is_address (s : string) : Prop := s = "" \/ exists i, s = IP_String i.

Lemma parseCandidateIP_address raw : is_address (parseCandidateIP raw).
Proof.
  unfold parseCandidateIP, is_address. cbv zeta. set (x := if _ && _ then _ else _).
  case_match; [by left|]. destruct (ParseIP x) as [i|]; [right; by exists i|].
  destruct (SplitHostPort x) as [[host port]|]; [|by left].
  destruct (ParseIP (TrimSpace host)) as [i|]; [right; by exists i|by left].
Qed.

Lemma RemoteIP_address r : is_address (RemoteIP r).
Proof.
  unfold RemoteIP. cbv zeta. destruct (SplitHostPort _) as [[host port]|]; [case_match|];
    apply parseCandidateIP_address.
Qed.

Lemma first_candidate_address l i : first_candidate l = Some i -> is_address i.
Proof.
  induction l as [|p l IH]; simpl; [done|]. case_match; [exact IH|]. intros [= <-]. apply parseCandidateIP_address.
Qed.

Lemma ClientIP_address r trusted : is_address (ClientIP r trusted).
Proof.
  unfold ClientIP. case_match; [|apply RemoteIP_address]. cbv zeta.
  case_match; [apply parseCandidateIP_address|].
  set (fwd := if (TrimSpace (header r "X-Forwarded-For") =? "")%string then None else _).
  assert (Hf : forall i, fwd = Some i -> is_address i).
  { unfold fwd. intros i. case_match; [done|]. apply first_candidate_address. }
  clearbody fwd. destruct fwd as [i|]; [by apply Hf|].
  destruct (negb (parseCandidateIP (header r "X-Real-Ip") =? "")%string);
    [apply parseCandidateIP_address|apply RemoteIP_address].
Qed.

(** C21. A client cannot name its own address or country: two requests from the
    same peer give the same source address and country whatever their headers
    say, unless that peer is in the list of trusted proxies; and a source
    address is always one [net.IP.String] printed, or empty. *)
Theorem source_not_spoofable r r' trusted :
  rq_RemoteAddr r = rq_RemoteAddr r' -> IsTrustedProxy r trusted = false ->
  ClientIP r' trusted = ClientIP r trusted /\
  CountryFromHeaders r' trusted = CountryFromHeaders r trusted /\
  CountryFromHeaders r trusted = "" /\ is_address (ClientIP r trusted).
Proof.
  intros Ha Ht.
  assert (Hr : RemoteIP r' = RemoteIP r) by (unfold RemoteIP; by rewrite Ha).
  assert (Ht' : IsTrustedProxy r' trusted = false).
  { revert Ht. unfold IsTrustedProxy. by rewrite Hr. }
  split_and!; [..|apply ClientIP_address].
  - unfold ClientIP. by rewrite Ht, Ht', Hr.
  - unfold CountryFromHeaders. by rewrite Ht, Ht'.
  - unfold CountryFromHeaders. by rewrite Ht.
Qed.

Definition spoofed : Request :=
  (plain_request "198.51.100.7:4711" "app.example.org" "/")
    <| rq_Header := {["X-Forwarded-For" := "10.0.0.1"; "Cf-Ipcountry" := "DE"]} |>.

Lemma source_not_spoofable_witness :
  exists trusted, ParseCIDRs ["10.0.0.0/8"] = Ok trusted /\
    ClientIP spoofed trusted = ClientIP (plain_request "198.51.100.7:4711" "app.example.org" "/") trusted /\
    CountryFromHeaders spoofed trusted = "".
Proof.
  destruct (ParseCIDRs ["10.0.0.0/8"]) as [trusted|e] eqn:E; [|vm_compute in E; discriminate].
  exists trusted. split; [done|].
  assert (Hu : IsTrustedProxy (plain_request "198.51.100.7:4711" "app.example.org" "/") trusted = false).
  { vm_compute in E. injection E as <-. vm_compute. reflexivity. }
  destruct (source_not_spoofable (plain_request "198.51.100.7:4711" "app.example.org" "/") spoofed trusted eq_refl Hu)
    as (H1 & H2 & H3 & _). split; [done|]. by rewrite H2.
Defined.

(** Behind a trusted proxy the forwarded address is used. *)
Example forwarded_by_trusted :
  (fun nets => ClientIP (spoofed <| rq_RemoteAddr := "10.9.9.9:80" |>
                           <| rq_Header := {["X-Forwarded-For" := "unknown, [2001:db8::1]:99"]} |>) nets)
  <$> (match ParseCIDRs ["10.0.0.0/8"] with Ok n => Some n | Err _ => None end) = Some "2001:db8::1".
Proof. vm_compute. reflexivity. Qed.
