(* ===== verification/Mfa.v ===== *)
(** [internal/mfa/mfa.go]: time-based one-time passwords and recovery codes.
    The random bytes are an argument; the callers draw them. *)

From S2P Require Import Prelude GoString GoTime GoCrypto.
From Stdlib Require Import Ascii.

Definition DefaultPeriod : Z := 30.
Definition DefaultDigits : nat := 6.

(** The secret of twenty random bytes. *)
Definition GenerateSecret (raw : bytes) : string := ToUpper (TrimSpace (b32_encode raw)).

Definition strip (s : string) : string := ReplaceAll (ReplaceAll s " "%char "") "-"%char "".
Definition normalizeCode (v : string) : string := strip (TrimSpace v).

(** [binary.BigEndian.PutUint64]: the counter is a [uint64]. *)
Definition counter_bytes (counter : Z) : bytes := be_bytes 8 (counter mod 2 ^ 64).

(** Dynamic truncation of the HMAC, as [digits] decimal digits. *)
Definition hotp (key : bytes) (counter : Z) (ndigits : nat) : string :=
  let sum := hmac_sha1 key (counter_bytes counter) in
  let at_ i := nth (Z.to_nat i) sum 0 in
  let offset := Z.land (at_ 19) 15 in
  let bin := Z.lor (Z.lor (Z.lor (Z.shiftl (Z.land (at_ offset) 127) 24) (Z.shiftl (at_ (offset + 1)) 16))
                     (Z.shiftl (at_ (offset + 2)) 8)) (at_ (offset + 3)) in
  digits ndigits (bin mod 10 ^ Z.of_nat ndigits).

#[global] Arguments hotp : simpl never.

(** The counters [counter-window .. counter+window]. *)
Definition window_counters (counter window : Z) : list Z :=
  map (fun k => counter - window + Z.of_nat k) (seq 0 (Z.to_nat (2 * window + 1))).

Definition ValidateTOTPWithWindow (secret code : string) (now : time) (window : Z) : bool :=
  let secret := ToUpper (TrimSpace secret) in
  let code := normalizeCode code in
  if String.eqb secret "" || String.eqb code "" || negb (String.length code =? DefaultDigits)%nat then false
  else match b32_decode secret with
       | None | Some [] => false
       | Some key =>
           let counter := Z.quot (Unix now) DefaultPeriod in
           existsb (fun c => String.eqb code (hotp key c DefaultDigits)) (window_counters counter window)
       end.

Definition ValidateTOTP (secret code : string) (now : time) : bool := ValidateTOTPWithWindow secret code now 1.

(** One code from six random bytes. *)
Definition recovery_code (raw : bytes) : string :=
  let s := ToUpper (hex_encode raw) in
  take_bytes 4 s +:+ "-" +:+ take_bytes 4 (drop_bytes 4 s) +:+ "-" +:+ take_bytes 4 (drop_bytes 8 s).

Definition NormalizeRecoveryCode (v : string) : string :=
  ReplaceAll (ReplaceAll (ToUpper (TrimSpace v)) "-"%char "") " "%char "".
Definition HashRecoveryCode (v : string) : string := sha256_hex (NormalizeRecoveryCode v).
Definition IsRecoveryCodeFormat (v : string) : bool :=
  let n := len (NormalizeRecoveryCode v) in (8 <=? n) && (n <=? 24).

(** [url.PathEscape] and [url.QueryEscape]: every other byte becomes [%XX]. *)
Definition unreserved (c : ascii) : bool := is_lower c || is_upper c || is_digit c || existsb (Ascii.eqb c) ["-"; "_"; "."; "~"]%char.
Definition in_segment (c : ascii) : bool := unreserved c || existsb (Ascii.eqb c) ["$"; "&"; "+"; ":"; "="; "@"]%char.
Fixpoint escape (kept : ascii -> bool) (s : string) : string :=
  match s with
  | "" => ""
  | String c s' => if kept c then String c (escape kept s') else "%" +:+ ToUpper (hex_encode [code c]) +:+ escape kept s'
  end.
Definition PathEscape (s : string) : string := escape in_segment s.
Definition QueryEscape (s : string) : string :=
  ReplaceAll (escape (fun c => unreserved c || Ascii.eqb c " "%char) s) " "%char "+".

(** The text behind the QR code of an enrollment; [url.Values] prints its keys in order. *)
Definition BuildOTPAuthURL (issuer account secret : string) : string :=
  let or_else v d := if String.eqb v "" then d else v in
  let issuer := or_else (TrimSpace issuer) "DomNexDomain" in
  let account := or_else (TrimSpace account) "user" in
  "otpauth://totp/" +:+ PathEscape (issuer +:+ ":" +:+ account) +:+ "?algorithm=SHA1&digits=" +:+ Itoa (Z.of_nat DefaultDigits)
    +:+ "&issuer=" +:+ QueryEscape issuer +:+ "&period=" +:+ Itoa DefaultPeriod
    +:+ "&secret=" +:+ QueryEscape (ToUpper (TrimSpace secret)).

Example otpauth_ann : BuildOTPAuthURL "DomNexDomain" "ann b/c" "abc" =
  "otpauth://totp/DomNexDomain:ann%20b%2Fc?algorithm=SHA1&digits=6&issuer=DomNexDomain&period=30&secret=ABC".
Proof. reflexivity. Qed.

(** Characters of codes and secrets: upper case letters and digits. *)
Definition plain_char (c : ascii) : bool :=
  negb (is_space c) && Ascii.eqb (upper_byte c) c && negb (Ascii.eqb c " "%char) && negb (Ascii.eqb c "-"%char).

Lemma plain_char_spec c : plain_char c = true ->
  is_space c = false /\ Ascii.eqb (upper_byte c) c = true /\ Ascii.eqb c " "%char = false /\ Ascii.eqb c "-"%char = false.
Proof.
  unfold plain_char. intros H. apply andb_prop in H as [H H4]. apply andb_prop in H as [H H3].
  apply andb_prop in H as [H1 H2]. by rewrite negb_true_iff in H1, H3, H4.
Qed.

Lemma plain_facts s : all_chars plain_char s = true -> TrimSpace s = s /\ ToUpper s = s /\ strip s = s.
Proof.
  intros H.
  assert (Hq : forall q, (forall c, plain_char c = true -> q c = true) -> all_chars q s = true)
    by (intros q Hq; by eapply all_chars_impl).
  split_and!.
  - apply TrimSpace_all, Hq. intros c Hc. by destruct (plain_char_spec c Hc) as (-> & _).
  - apply smap_fixed, Hq. intros c Hc. apply (plain_char_spec c Hc).
  - unfold strip. rewrite (ReplaceAll_lacking s " "%char), ReplaceAll_lacking; [done| |]; apply Hq; intros c Hc;
      destruct (plain_char_spec c Hc) as (_ & _ & H3 & H4); by rewrite ?H3, ?H4.
Qed.

Lemma symbols_plain k alphabet l :
  forallb (fun n => plain_char (symbol alphabet (Z.of_nat n))) (seq 0 k) = true ->
  Forall (fun d => 0 <= d < Z.of_nat k) l ->
  all_chars plain_char (string_of (map (fun d => code (symbol alphabet d)) l)) = true.
Proof.
  intros Hk. rewrite forallb_forall in Hk. induction 1 as [|d l Hd _ IH]; [done|]. simpl. rewrite byte_code.
  specialize (Hk (Z.to_nat d)). rewrite Z2Nat.id in Hk by lia. rewrite Hk by (apply in_seq; lia). done.
Qed.

Lemma b32_plain l : all_chars plain_char (b32_encode l) = true.
Proof. apply (symbols_plain 32); [vm_compute; reflexivity|apply b32_digits_range]. Qed.

Lemma digits_plain k n : all_chars plain_char (digits k n) = true.
Proof.
  revert n. induction k as [|k IH]; intros n; [done|]. simpl. rewrite all_chars_app, IH. simpl.
  assert (H : forallb (fun m => plain_char (byte (48 + Z.of_nat m))) (seq 0 10) = true) by (vm_compute; reflexivity).
  rewrite forallb_forall in H. specialize (H (Z.to_nat (n mod 10))).
  pose proof (Z.mod_pos_bound n 10 ltac:(lia)). rewrite Z2Nat.id in H by lia.
  by rewrite H by (apply in_seq; lia).
Qed.

Lemma digits_length k n : String.length (digits k n) = k.
Proof. revert n. induction k as [|k IH]; intros n; [done|]. simpl. rewrite string_length_app, IH. simpl. lia. Qed.

(* ------------------------------------------------------------------ *)
(** ** One-time passwords *)

Definition totp_counter (now : time) : Z := Z.quot (Unix now) DefaultPeriod.

Lemma window_spec counter c : In c (window_counters counter 1) <-> counter - 1 <= c <= counter + 1.
Proof. unfold window_counters. simpl. lia. Qed.

(** A one-time password is checked exactly: with the secret the program
    generated from [raw], a code is accepted at [now] if and only if, without
    its blanks and dashes, it is the HOTP value of the thirty-second period of
    [now], the one before or the one after.  In particular the code of a period
    is accepted for the whole of it and of the next. *)
Theorem totp_window raw code now :
  is_bytes raw -> raw <> [] ->
  (ValidateTOTP (GenerateSecret raw) code now = true <->
   exists c, totp_counter now - 1 <= c <= totp_counter now + 1 /\ normalizeCode code = hotp raw c DefaultDigits) /\
  (forall issued, totp_counter now - 1 <= totp_counter issued <= totp_counter now + 1 ->
     ValidateTOTP (GenerateSecret raw) (hotp raw (totp_counter issued) DefaultDigits) now = true).
Proof.
  intros Hb Hne. unfold ValidateTOTP, ValidateTOTPWithWindow, GenerateSecret. cbv zeta.
  destruct (plain_facts _ (b32_plain raw)) as (T1 & T2 & _). rewrite T1, T2, T1, T2, b32_round_trip by done.
  assert (Henc : String.eqb (b32_encode raw) "" = false).
  { apply String.eqb_neq. intros E. pose proof (b32_round_trip raw Hb) as Hr. rewrite E in Hr. by injection Hr as <-. }
  rewrite Henc. destruct raw as [|r0 raw]; [done|]. clear Henc. set (key := r0 :: raw) in *. cbn [orb].
  assert (Hspec : forall code, (if String.eqb (normalizeCode code) "" || negb (String.length (normalizeCode code) =? DefaultDigits)%nat
      then false else existsb (fun c => String.eqb (normalizeCode code) (hotp key c DefaultDigits))
                        (window_counters (Z.quot (Unix now) DefaultPeriod) 1)) = true <->
      exists c, totp_counter now - 1 <= c <= totp_counter now + 1 /\ normalizeCode code = hotp key c DefaultDigits).
  { clear code. intros code. split.
    - case_match; [done|]. intros (c & Hc & He)%existsb_exists. apply String.eqb_eq in He. exists c.
      split; [by apply window_spec|done].
    - intros (c & Hc & He).
      assert (Hl : String.length (normalizeCode code) = DefaultDigits) by (rewrite He; unfold hotp; apply digits_length).
      destruct (normalizeCode code =? "")%string eqn:E; [apply String.eqb_eq in E; by rewrite E in Hl|].
      rewrite Hl, Nat.eqb_refl. simpl orb. cbn iota. apply existsb_exists. exists c.
      split; [by apply window_spec|by apply String.eqb_eq]. }
  split; [apply Hspec|]. intros issued Hi. apply Hspec. exists (totp_counter issued). split; [done|].
  unfold normalizeCode. destruct (plain_facts (hotp key (totp_counter issued) DefaultDigits)) as (E1 & _ & E3);
    [apply digits_plain|]. by rewrite E1, E3.
Qed.

(** The secret of RFC 6238 and the code of its first test time. *)
Definition rfc_secret : bytes := bytes_of "12345678901234567890".
Definition rfc_time (unix : Z) : time := (62135596800 + unix) * Second.

Example rfc6238_59 : hotp rfc_secret (totp_counter (rfc_time 59)) 8 = "94287082".
Proof. vm_compute. reflexivity. Qed.

Lemma totp_window_witness :
  ValidateTOTP (GenerateSecret rfc_secret) "287 082" (rfc_time 59) = true /\
  ValidateTOTP (GenerateSecret rfc_secret) (hotp rfc_secret (totp_counter (rfc_time 59)) DefaultDigits) (rfc_time 89) = true.
Proof.
  split; [vm_compute; reflexivity|].
  refine (proj2 (totp_window rfc_secret "" (rfc_time 89) (is_bytes_of _) _) (rfc_time 59) _).
  - discriminate.
  - vm_compute. split; discriminate.
Defined.

(* ------------------------------------------------------------------ *)
(** ** Recovery codes *)

Lemma upper_lower_byte c : upper_byte (lower_byte c) = upper_byte c.
Proof. by_bytes c. Qed.

Lemma ToUpper_ToLower s : ToUpper (ToLower s) = ToUpper s.
Proof.
  induction s as [|c s IH]; [done|].
  change (String (upper_byte (lower_byte c)) (ToUpper (ToLower s)) = String (upper_byte c) (ToUpper s)).
  by rewrite upper_lower_byte, IH.
Qed.

Lemma ToUpper_length s : String.length (ToUpper s) = String.length s.
Proof.
  induction s as [|c s IH]; [done|]. change (S (String.length (ToUpper s)) = S (String.length s)). by rewrite IH.
Qed.

Lemma NormalizeRecoveryCode_lower v : NormalizeRecoveryCode (ToLower v) = NormalizeRecoveryCode v.
Proof. unfold NormalizeRecoveryCode. by rewrite TrimSpace_ToLower, ToUpper_ToLower. Qed.

Lemma hex_upper_plain l : is_bytes l -> all_chars plain_char (ToUpper (hex_encode l)) = true.
Proof.
  assert (H : forallb (fun m => plain_char (upper_byte (symbol hex_alphabet (Z.of_nat m)))) (seq 0 16) = true)
    by (vm_compute; reflexivity).
  rewrite forallb_forall in H.
  assert (Hd : forall d, 0 <= d < 16 -> plain_char (upper_byte (symbol hex_alphabet d)) = true).
  { intros d Hd. specialize (H (Z.to_nat d)). rewrite Z2Nat.id in H by lia. apply H, in_seq. lia. }
  unfold is_bytes. induction 1 as [|b l Hb _ IH]; [done|].
  change (plain_char (upper_byte (symbol hex_alphabet (b / 16))) &&
          (plain_char (upper_byte (symbol hex_alphabet (b mod 16))) && all_chars plain_char (ToUpper (hex_encode l))) = true).
  rewrite !Hd by (Z.div_mod_to_equations; lia). exact IH.
Qed.

(** A text of twelve characters is its three groups of four. *)
Lemma three_groups s : String.length s = 12%nat ->
  s = take_bytes 4 s +:+ take_bytes 4 (drop_bytes 4 s) +:+ take_bytes 4 (drop_bytes 8 s).
Proof. intros H. do 12 (destruct s as [|? s]; [done|]). by destruct s. Qed.

(** A recovery code is recognised however it is typed: the normal form of a
    generated code is the hexadecimal text of its six random bytes, which has
    the format the login accepts, and letter case does not change the stored
    hash. *)
Theorem recovery_code_normal raw :
  is_bytes raw -> length raw = 6%nat ->
  NormalizeRecoveryCode (recovery_code raw) = ToUpper (hex_encode raw) /\
  IsRecoveryCodeFormat (recovery_code raw) = true /\
  HashRecoveryCode (ToLower (recovery_code raw)) = HashRecoveryCode (recovery_code raw).
Proof.
  intros Hb Hlen.
  assert (E : NormalizeRecoveryCode (recovery_code raw) = ToUpper (hex_encode raw)).
  { unfold recovery_code. cbv zeta. pose proof (hex_upper_plain raw Hb) as Hp.
    assert (Hl : String.length (ToUpper (hex_encode raw)) = 12%nat).
    { rewrite ToUpper_length, hex_encode_length. lia. }
    set (s := ToUpper (hex_encode raw)) in *.
    assert (P1 := all_chars_take _ 4 _ Hp). assert (P2 := all_chars_take _ 4 _ (all_chars_drop _ 4 _ Hp)).
    assert (P3 := all_chars_take _ 4 _ (all_chars_drop _ 8 _ Hp)).
    rewrite (three_groups s Hl) at 4. clearbody s.
    generalize dependent (take_bytes 4 s). generalize dependent (take_bytes 4 (drop_bytes 4 s)).
    generalize dependent (take_bytes 4 (drop_bytes 8 s)). intros c Hc b Hb' a Ha.
    assert (Q : all_chars (fun x => negb (is_space x) && Ascii.eqb (upper_byte x) x && negb (Ascii.eqb x " "%char))
                  (a +:+ "-" +:+ b +:+ "-" +:+ c) = true).
    { rewrite !all_chars_app. simpl all_chars. rewrite !andb_true_iff. split_and!; try done;
        (eapply all_chars_impl; [|eassumption]); intros x Hx; destruct (plain_char_spec x Hx) as (-> & -> & -> & _); done. }
    unfold NormalizeRecoveryCode. rewrite TrimSpace_all, (smap_fixed upper_byte : forall s, _ -> ToUpper s = s).
    - rewrite !ReplaceAll_app.
      rewrite !(ReplaceAll_lacking a), !(ReplaceAll_lacking b), !(ReplaceAll_lacking c); [done|..];
        (eapply all_chars_impl; [|eassumption]); intros x Hx; destruct (plain_char_spec x Hx) as (_ & _ & H3 & H4);
        by rewrite ?H3, ?H4.
    - eapply all_chars_impl; [|exact Q]. intros x Hx. cbv beta in Hx. by bool_facts.
    - eapply all_chars_impl; [|exact Q]. intros x Hx. cbv beta in Hx. apply andb_prop in Hx as [Hx _]. by apply andb_prop in Hx as [-> _]. }
  split; [done|]. split; [|unfold HashRecoveryCode; by rewrite NormalizeRecoveryCode_lower].
  unfold IsRecoveryCodeFormat, len. rewrite E.
  assert (Hl : String.length (ToUpper (hex_encode raw)) = 12%nat).
  { rewrite ToUpper_length, hex_encode_length. lia. }
  by rewrite Hl.
Qed.

Lemma recovery_code_normal_witness :
  recovery_code [1; 35; 69; 103; 137; 171] = "0123-4567-89AB" /\
  HashRecoveryCode (ToLower (recovery_code [1; 35; 69; 103; 137; 171])) =
    HashRecoveryCode (recovery_code [1; 35; 69; 103; 137; 171]).
Proof.
  split; [vm_compute; reflexivity|].
  refine (proj2 (proj2 (recovery_code_normal [1; 35; 69; 103; 137; 171] _ eq_refl))).
  repeat (constructor; [lia|]). constructor.
Defined.
