(* ===== verification/Model.v ===== *)
(** The data of [internal/model/model.go].

    Each Go struct is a record with the fields of the source, in its order,
    under the initials of the type ([User.Username] is [u_Username]); the
    [zero_] value of a type is Go's zero value. *)

From S2P Require Import Prelude GoString GoTime.

Definition Role : Type := string.
Definition RoleAdmin : Role := "admin".
Definition RoleDomainAdmin : Role := "domain-admin".
Definition RoleOperator : Role := "operator".
Definition RoleReadOnly : Role := "read-only".

(** An account; [MFASecretEnc] and [PasswordHash] never leave the server. *)
Record User := mkUser {
  u_ID : Z; u_Username : string; u_URole : Role; u_AuthProvider : string;
  u_AllowedCIDRs : string; u_IPCheckOff : bool; u_MFAEnabled : bool;
  u_MFASecretEnc : string; u_MFAEnrolled : time; u_PasswordHash : string;
  u_CreatedAt : time; u_UpdatedAt : time
}.
#[export] Instance eta_User : Eta User := fun r =>
  mkUser (u_ID r) (u_Username r) (u_URole r) (u_AuthProvider r) (u_AllowedCIDRs r)
    (u_IPCheckOff r) (u_MFAEnabled r) (u_MFASecretEnc r) (u_MFAEnrolled r)
    (u_PasswordHash r) (u_CreatedAt r) (u_UpdatedAt r).
Definition zero_User : User :=
  mkUser 0 "" "" "" "" false false "" 0 "" 0 0.

Record PermissionGroup := mkPermissionGroup {
  pg_ID : Z; pg_Name : string; pg_Description : string; pg_Template : string;
  pg_System : bool; pg_CreatedAt : time; pg_UpdatedAt : time
}.
#[export] Instance eta_PermissionGroup : Eta PermissionGroup := fun r =>
  mkPermissionGroup (pg_ID r) (pg_Name r) (pg_Description r) (pg_Template r) (pg_System
    r) (pg_CreatedAt r) (pg_UpdatedAt r).
Definition zero_PermissionGroup : PermissionGroup :=
  mkPermissionGroup 0 "" "" "" false 0 0.

Record UserGroupMembership := mkUserGroupMembership {
  gm_UserID : Z; gm_GroupID : Z; gm_Priority : Z; gm_CreatedAt : time; gm_UpdatedAt : time;
  gm_GroupName : string; gm_IsTemplate : bool
}.
#[export] Instance eta_UserGroupMembership : Eta UserGroupMembership := fun r =>
  mkUserGroupMembership (gm_UserID r) (gm_GroupID r) (gm_Priority r) (gm_CreatedAt r)
    (gm_UpdatedAt r) (gm_GroupName r) (gm_IsTemplate r).
Definition zero_UserGroupMembership : UserGroupMembership :=
  mkUserGroupMembership 0 0 0 0 0 "" false.

Record Session := mkSession {
  se_ID : string; se_UserID : Z; se_ExpiresAt : time
}.
#[export] Instance eta_Session : Eta Session := fun r =>
  mkSession (se_ID r) (se_UserID r) (se_ExpiresAt r).
Definition zero_Session : Session :=
  mkSession "" 0 0.

Record APIToken := mkAPIToken {
  tk_ID : Z; tk_Name : string; tk_TokenPrefix : string; tk_TokenHash : string;
  tk_Scopes : string; tk_TRole : Role; tk_DomainIDs : list Z; tk_ExpiresAt : time;
  tk_CreatedAt : time; tk_LastUsedAt : time
}.
#[export] Instance eta_APIToken : Eta APIToken := fun r =>
  mkAPIToken (tk_ID r) (tk_Name r) (tk_TokenPrefix r) (tk_TokenHash r) (tk_Scopes r)
    (tk_TRole r) (tk_DomainIDs r) (tk_ExpiresAt r) (tk_CreatedAt r) (tk_LastUsedAt r).
Definition zero_APIToken : APIToken :=
  mkAPIToken 0 "" "" "" "" "" [] 0 0 0.

Record Domain := mkDomain {
  d_ID : Z; d_Name : string; d_DNSMode : string; d_CertMode : string; d_Provider : string;
  d_ZoneID : string; d_Status : string; d_CreatedAt : time; d_UpdatedAt : time
}.
#[export] Instance eta_Domain : Eta Domain := fun r =>
  mkDomain (d_ID r) (d_Name r) (d_DNSMode r) (d_CertMode r) (d_Provider r) (d_ZoneID r)
    (d_Status r) (d_CreatedAt r) (d_UpdatedAt r).
Definition zero_Domain : Domain :=
  mkDomain 0 "" "" "" "" "" "" 0 0.

Record HABackend := mkHABackend {
  hb_Name : string; hb_URL : string
}.
#[export] Instance eta_HABackend : Eta HABackend := fun r =>
  mkHABackend (hb_Name r) (hb_URL r).
Definition zero_HABackend : HABackend :=
  mkHABackend "" "".

Record SSHBastionRoute := mkSSHBastionRoute {
  sb_ID : Z; sb_FQDN : string; sb_TargetHost : string; sb_TargetPort : Z; sb_Enabled : bool;
  sb_CreatedAt : time; sb_UpdatedAt : time
}.
#[export] Instance eta_SSHBastionRoute : Eta SSHBastionRoute := fun r =>
  mkSSHBastionRoute (sb_ID r) (sb_FQDN r) (sb_TargetHost r) (sb_TargetPort r) (sb_Enabled r)
    (sb_CreatedAt r) (sb_UpdatedAt r).

Record SSHBastionKey := mkSSHBastionKey {
  bk_ID : Z; bk_Name : string; bk_PublicKey : string; bk_Fingerprint : string; bk_Enabled : bool;
  bk_RouteIDs : list Z; bk_CreatedAt : time; bk_UpdatedAt : time
}.
#[export] Instance eta_SSHBastionKey : Eta SSHBastionKey := fun r =>
  mkSSHBastionKey (bk_ID r) (bk_Name r) (bk_PublicKey r) (bk_Fingerprint r) (bk_Enabled r)
    (bk_RouteIDs r) (bk_CreatedAt r) (bk_UpdatedAt r).

Record SSHBastionKeyAuth := mkSSHBastionKeyAuth { ka_Key : SSHBastionKey; ka_Routes : list SSHBastionRoute }.

Record BackupArchive := mkBackupArchive {
  ba_ID : Z; ba_FileName : string; ba_Storage : string; ba_Location : string; ba_SizeBytes : Z;
  ba_SHA256 : string; ba_Status : string; ba_CreatedAt : time
}.
#[export] Instance eta_BackupArchive : Eta BackupArchive := fun r =>
  mkBackupArchive (ba_ID r) (ba_FileName r) (ba_Storage r) (ba_Location r) (ba_SizeBytes r)
    (ba_SHA256 r) (ba_Status r) (ba_CreatedAt r).

(** A published host: where it is, where its requests go and what guards it. *)
Record Host := mkHost {
  h_ID : Z; h_DomainID : Z; h_Subdomain : string; h_FQDN : string;
  h_ConnectionProfile : string; h_UpstreamURL : string; h_InsecureTLS : bool;
  h_HAEnabled : bool; h_HAMode : string; h_HABackends : list HABackend;
  h_AuthEnabled : bool; h_AuthUser : string; h_AuthPassHash : string; h_GeoMode : string;
  h_GeoCountries : list string; h_State : string; h_ErrorReason : string;
  h_CreatedAt : time; h_UpdatedAt : time
}.
#[export] Instance eta_Host : Eta Host := fun r =>
  mkHost (h_ID r) (h_DomainID r) (h_Subdomain r) (h_FQDN r) (h_ConnectionProfile r)
    (h_UpstreamURL r) (h_InsecureTLS r) (h_HAEnabled r) (h_HAMode r) (h_HABackends r)
    (h_AuthEnabled r) (h_AuthUser r) (h_AuthPassHash r) (h_GeoMode r) (h_GeoCountries r)
    (h_State r) (h_ErrorReason r) (h_CreatedAt r) (h_UpdatedAt r).
Definition zero_Host : Host :=
  mkHost 0 0 "" "" "" "" false false "" [] false "" "" "" [] "" "" 0 0.

Record AuditEvent := mkAuditEvent {
  ae_ID : Z; ae_Actor : string; ae_Action : string; ae_Target : string; ae_Meta : string;
  ae_SourceIP : string; ae_CreatedAt : time
}.
#[export] Instance eta_AuditEvent : Eta AuditEvent := fun r =>
  mkAuditEvent (ae_ID r) (ae_Actor r) (ae_Action r) (ae_Target r) (ae_Meta r)
    (ae_SourceIP r) (ae_CreatedAt r).
Definition zero_AuditEvent : AuditEvent :=
  mkAuditEvent 0 "" "" "" "" "" 0.

Record BlockedIP := mkBlockedIP {
  b_IP : string; b_Reason : string; b_CreatedAt : time; b_UpdatedAt : time
}.
#[export] Instance eta_BlockedIP : Eta BlockedIP := fun r =>
  mkBlockedIP (b_IP r) (b_Reason r) (b_CreatedAt r) (b_UpdatedAt r).
Definition zero_BlockedIP : BlockedIP :=
  mkBlockedIP "" "" 0 0.

Record ThreatIntelConfig := mkThreatIntelConfig {
  tc_Enabled : bool; tc_Mode : string; tc_OSFirewall : bool; tc_OSFirewallMode : string;
  tc_SyncHours : Z; tc_EventMinHits : Z; tc_OffenderMinHits : Z; tc_MonitorMaxLevel : Z;
  tc_SoftMinLevel : Z; tc_HardLevel : Z; tc_SoftBlockMinutes : Z
}.
#[export] Instance eta_ThreatIntelConfig : Eta ThreatIntelConfig := fun r =>
  mkThreatIntelConfig (tc_Enabled r) (tc_Mode r) (tc_OSFirewall r) (tc_OSFirewallMode r)
    (tc_SyncHours r) (tc_EventMinHits r) (tc_OffenderMinHits r) (tc_MonitorMaxLevel r)
    (tc_SoftMinLevel r) (tc_HardLevel r) (tc_SoftBlockMinutes r).
Definition zero_ThreatIntelConfig : ThreatIntelConfig :=
  mkThreatIntelConfig false "" false "" 0 0 0 0 0 0 0.

Record ThreatIntelFeed := mkThreatIntelFeed {
  tf_ID : Z; tf_Name : string; tf_URL : string; tf_Enabled : bool; tf_IsDefault : bool;
  tf_EntryCount : Z; tf_LastSyncAt : time; tf_LastError : string; tf_LastHash : string;
  tf_CreatedAt : time; tf_UpdatedAt : time
}.
#[export] Instance eta_ThreatIntelFeed : Eta ThreatIntelFeed := fun r =>
  mkThreatIntelFeed (tf_ID r) (tf_Name r) (tf_URL r) (tf_Enabled r) (tf_IsDefault r)
    (tf_EntryCount r) (tf_LastSyncAt r) (tf_LastError r) (tf_LastHash r) (tf_CreatedAt
    r) (tf_UpdatedAt r).
Definition zero_ThreatIntelFeed : ThreatIntelFeed :=
  mkThreatIntelFeed 0 "" "" false false 0 0 "" "" 0 0.

(** The proxy's copy of the threat configuration; the maps of the source are gmaps. *)
Record ThreatIntelSnapshot := mkThreatIntelSnapshot {
  sn_Enabled : bool; sn_Mode : string; sn_EventMinHits : Z; sn_OffenderMinHits : Z;
  sn_MonitorMaxLevel : Z; sn_SoftMinLevel : Z; sn_HardLevel : Z; sn_SoftBlockMinutes : Z;
  sn_Allowlist : gset string; sn_FeedByIP : gmap string (list string)
}.
#[export] Instance eta_ThreatIntelSnapshot : Eta ThreatIntelSnapshot := fun r =>
  mkThreatIntelSnapshot (sn_Enabled r) (sn_Mode r) (sn_EventMinHits r)
    (sn_OffenderMinHits r) (sn_MonitorMaxLevel r) (sn_SoftMinLevel r) (sn_HardLevel r)
    (sn_SoftBlockMinutes r) (sn_Allowlist r) (sn_FeedByIP r).
Definition zero_ThreatIntelSnapshot : ThreatIntelSnapshot :=
  mkThreatIntelSnapshot false "" 0 0 0 0 0 0 ∅ ∅.

Record ThreatIntelMatchEvent := mkThreatIntelMatchEvent {
  me_IP : string; me_Feed : string; me_Host : string; me_Path : string; me_Country : string;
  me_Mode : string; me_Decision : string; me_TraceID : string; me_SourceScope : string;
  me_XPDelta : Z; me_XPAfter : Z; me_LevelAfter : Z; me_TierAfter : string
}.
#[export] Instance eta_ThreatIntelMatchEvent : Eta ThreatIntelMatchEvent := fun r =>
  mkThreatIntelMatchEvent (me_IP r) (me_Feed r) (me_Host r) (me_Path r) (me_Country r)
    (me_Mode r) (me_Decision r) (me_TraceID r) (me_SourceScope r) (me_XPDelta r)
    (me_XPAfter r) (me_LevelAfter r) (me_TierAfter r).
Definition zero_ThreatIntelMatchEvent : ThreatIntelMatchEvent :=
  mkThreatIntelMatchEvent "" "" "" "" "" "" "" "" "" 0 0 0 "".

Record TraceEvent := mkTraceEvent {
  te_TraceID : string; te_Kind : string; te_Actor : string; te_Action : string;
  te_Target : string; te_Meta : string; te_SourceIP : string; te_IP : string;
  te_Decision : string; te_Feed : string; te_Host : string; te_Path : string;
  te_Country : string; te_Mode : string; te_SourceScope : string; te_Hits : Z; te_XP : Z;
  te_Level : Z; te_Tier : string; te_Summary : string; te_EventAt : time
}.
#[export] Instance eta_TraceEvent : Eta TraceEvent := fun r =>
  mkTraceEvent (te_TraceID r) (te_Kind r) (te_Actor r) (te_Action r) (te_Target r)
    (te_Meta r) (te_SourceIP r) (te_IP r) (te_Decision r) (te_Feed r) (te_Host r)
    (te_Path r) (te_Country r) (te_Mode r) (te_SourceScope r) (te_Hits r) (te_XP r)
    (te_Level r) (te_Tier r) (te_Summary r) (te_EventAt r).
Definition zero_TraceEvent : TraceEvent :=
  mkTraceEvent "" "" "" "" "" "" "" "" "" "" "" "" "" "" "" 0 0 0 "" "" 0.

(** What the threat engine remembers of one source address. *)
Record ThreatIntelIPState := mkThreatIntelIPState {
  ts_IP : string; ts_XP : Z; ts_Level : Z; ts_RiskState : string; ts_BanUntil : time;
  ts_PermBlocked : bool; ts_TempBlockCount : Z; ts_LastSeenAt : time; ts_TopSignal : string;
  ts_SignalCounts : gmap string Z
}.
#[export] Instance eta_ThreatIntelIPState : Eta ThreatIntelIPState := fun r =>
  mkThreatIntelIPState (ts_IP r) (ts_XP r) (ts_Level r) (ts_RiskState r) (ts_BanUntil r)
    (ts_PermBlocked r) (ts_TempBlockCount r) (ts_LastSeenAt r) (ts_TopSignal r)
    (ts_SignalCounts r).
Definition zero_ThreatIntelIPState : ThreatIntelIPState :=
  mkThreatIntelIPState "" 0 0 "" 0 false 0 0 "" ∅.

Record ThreatIntelEventInput := mkThreatIntelEventInput {
  ei_IP : string; ei_Host : string; ei_Path : string; ei_UserAgent : string;
  ei_Country : string; ei_SourceScope : string; ei_TraceID : string;
  ei_Signals : list string; ei_Mode : string
}.
#[export] Instance eta_ThreatIntelEventInput : Eta ThreatIntelEventInput := fun r =>
  mkThreatIntelEventInput (ei_IP r) (ei_Host r) (ei_Path r) (ei_UserAgent r) (ei_Country
    r) (ei_SourceScope r) (ei_TraceID r) (ei_Signals r) (ei_Mode r).
Definition zero_ThreatIntelEventInput : ThreatIntelEventInput :=
  mkThreatIntelEventInput "" "" "" "" "" "" "" [] "".

Record ThreatIntelEventResult := mkThreatIntelEventResult {
  er_Decision : string; er_Blocked : bool; er_HardBlock : bool; er_BanUntil : time;
  er_XPDelta : Z; er_XPAfter : Z; er_Level : Z; er_Tier : string; er_RiskState : string
}.
#[export] Instance eta_ThreatIntelEventResult : Eta ThreatIntelEventResult := fun r =>
  mkThreatIntelEventResult (er_Decision r) (er_Blocked r) (er_HardBlock r) (er_BanUntil
    r) (er_XPDelta r) (er_XPAfter r) (er_Level r) (er_Tier r) (er_RiskState r).
Definition zero_ThreatIntelEventResult : ThreatIntelEventResult :=
  mkThreatIntelEventResult "" false false 0 0 0 0 "" "".
