(* ===== verification/LogServers.v ===== *)
(** [internal/app/logservers.go]: the settings of the remote log servers, the
    level of an audit event, and what is sent where when one is dispatched.

    The dispatcher's queue and the sockets are left out: a dispatch gives the
    list of messages it tries to send, in order.  [encoding/json] writes the
    envelope of the HTTP and TCP sinks, which therefore carry the envelope
    itself. *)

From S2P Require Import Prelude GoString GoMonad GoTime GoNet Mfa Model.
From Stdlib Require Import Ascii.

Record LogServerSyslogSettings := mkLogServerSyslogSettings {
  sy_Enabled : bool; sy_Protocol : string; sy_Address : string; sy_MinLevel : string; sy_AppName : string
}.
Record LogServerHTTPSettings := mkLogServerHTTPSettings {
  lh_Enabled : bool; lh_URL : string; lh_TimeoutSec : Z; lh_MinLevel : string; lh_Insecure : bool
}.
Record LogServerTCPJSONSettings := mkLogServerTCPJSONSettings {
  lt_Enabled : bool; lt_Address : string; lt_TimeoutSec : Z; lt_MinLevel : string
}.
Record LogServerSettings := mkLogServerSettings {
  ls_Syslog : LogServerSyslogSettings; ls_HTTP : LogServerHTTPSettings; ls_TCPJSON : LogServerTCPJSONSettings
}.
Record logEnvelope := mklogEnvelope {
  lg_Timestamp : string; lg_Host : string; lg_Service : string; lg_Level : string; lg_Actor : string;
  lg_Action : string; lg_Target : string; lg_Meta : string; lg_SourceIP : string
}.

Definition defaultLogServerSettings : LogServerSettings :=
  mkLogServerSettings
    (mkLogServerSyslogSettings false "udp" "" "info" "DomNexDomain")
    (mkLogServerHTTPSettings false "" 4 "warn" false)
    (mkLogServerTCPJSONSettings false "" 3 "info").

(* ------------------------------------------------------------------ *)
(** ** Normal form of the settings *)

Definition log_levels : gset string := {["info"; "warn"; "error"]}.

Definition normalizeLogLevel (v : string) : string :=
  if bool_decide (norm v ∈ log_levels) then norm v else "info".

Definition or_default (v dflt : string) : string := if String.eqb v "" then dflt else v.

Definition clamp_timeout (dflt sec : Z) : Z :=
  let sec := if sec <=? 0 then dflt else sec in if 30 <? sec then 30 else sec.

Definition host_port_ok (address : string) : bool :=
  match SplitHostPort address with Some _ => true | None => false end.

Definition http_url_ok (url : string) : bool :=
  HasPrefix (ToLower url) "http://" || HasPrefix (ToLower url) "https://".

(** The checks in the order of the code; the first that fails is the error. *)
Definition normalizeLogServerSettings (i : LogServerSettings) : result LogServerSettings :=
  let sy := ls_Syslog i in let ht := ls_HTTP i in let tc := ls_TCPJSON i in
  let protocol := or_default (norm (sy_Protocol sy)) "udp" in
  let address := TrimSpace (sy_Address sy) in
  let url := TrimSpace (lh_URL ht) in
  let tcp := TrimSpace (lt_Address tc) in
  if negb (String.eqb protocol "udp") && negb (String.eqb protocol "tcp")
  then Err (ErrText "syslog protocol must be udp or tcp")
  else if sy_Enabled sy && negb (host_port_ok address) then Err (ErrText "syslog address must be host:port")
  else if lh_Enabled ht && String.eqb url "" then Err (ErrText "http log URL is required when enabled")
  else if lh_Enabled ht && negb (http_url_ok url)
  then Err (ErrText "http log URL must start with http:// or https://")
  else if lt_Enabled tc && negb (host_port_ok tcp) then Err (ErrText "tcp json address must be host:port")
  else Ok (mkLogServerSettings
    (mkLogServerSyslogSettings (sy_Enabled sy) protocol address (normalizeLogLevel (sy_MinLevel sy))
       (or_default (TrimSpace (sy_AppName sy)) "DomNexDomain"))
    (mkLogServerHTTPSettings (lh_Enabled ht) url (clamp_timeout 4 (lh_TimeoutSec ht))
       (normalizeLogLevel (lh_MinLevel ht)) (lh_Insecure ht))
    (mkLogServerTCPJSONSettings (lt_Enabled tc) tcp (clamp_timeout 3 (lt_TimeoutSec tc))
       (normalizeLogLevel (lt_MinLevel tc)))).

(* ------------------------------------------------------------------ *)
(** ** Dispatch *)

Definition auditSeverity (action : string) : string :=
  let a := norm action in
  if Contains a ".error" || Contains a ".hard_drop" || Contains a ".hard_block" then "error"
  else if Contains a ".failed" || Contains a ".blocked" || Contains a ".warn" || Contains a ".soft_block" then "warn"
  else "info".

(** The Go map [lv] gives 0 for a missing key. *)
Definition level_rank (l : string) : Z :=
  if String.eqb l "info" then 1 else if String.eqb l "warn" then 2 else if String.eqb l "error" then 3 else 0.
Definition shouldShip (minLevel eventLevel : string) : bool :=
  level_rank (normalizeLogLevel minLevel) <=? level_rank eventLevel.

Definition sanitizeSyslog (s : string) : string :=
  ReplaceAll (ReplaceAll (TrimSpace s) (byte 10) " ") (byte 13) " ".

(** One message on its way to a sink. *)
Inductive Shipment : Type :=
| ToSyslog (protocol address line : string)
| ToHTTP (url : string) (insecure : bool) (timeout : duration) (bearer : option string) (env : logEnvelope)
| ToTCP (address : string) (timeout : duration) (env : logEnvelope).

Section dispatch.
(** [os.Hostname()], the empty text when it fails. *)
Context (Hostname : string).

Definition syslog_severity (level : string) : Z :=
  if String.eqb level "warn" then 4 else if String.eqb level "error" then 3 else 6.

Definition syslog_line (appName : string) (env : logEnvelope) : string :=
  let hostname := or_default (or_default (lg_Host env) Hostname) "domnexdomain" in
  "<" +:+ Itoa (16 * 1 + syslog_severity (lg_Level env)) +:+ ">1 " +:+ lg_Timestamp env +:+ " " +:+ hostname
    +:+ " " +:+ appName +:+ " - - - actor=" +:+ sanitizeSyslog (lg_Actor env)
    +:+ " action=" +:+ sanitizeSyslog (lg_Action env) +:+ " target=" +:+ sanitizeSyslog (lg_Target env)
    +:+ " meta=" +:+ sanitizeSyslog (lg_Meta env) +:+ " source=" +:+ sanitizeSyslog (lg_SourceIP env).

Definition sendSyslog (cfg : LogServerSyslogSettings) (env : logEnvelope) : Shipment :=
  ToSyslog (ToLower (sy_Protocol cfg)) (sy_Address cfg) (syslog_line (sy_AppName cfg) env +:+ String (byte 10) "").

Definition sendHTTPLog (cfg : LogServerHTTPSettings) (token : string) (env : logEnvelope) : Shipment :=
  ToHTTP (lh_URL cfg) (lh_Insecure cfg) (lh_TimeoutSec cfg * Second)
    (if String.eqb (TrimSpace token) "" then None else Some ("Bearer " +:+ token)) env.

Definition sendTCPJSON (cfg : LogServerTCPJSONSettings) (env : logEnvelope) : Shipment :=
  ToTCP (lt_Address cfg) (lt_TimeoutSec cfg * Second) env.

Definition envelope_of (host : string) (e : AuditEvent) : logEnvelope :=
  mklogEnvelope (RFC3339Nano (ae_CreatedAt e)) host "DomNexDomain" (auditSeverity (ae_Action e))
    (or_default (TrimSpace (ae_Actor e)) "system") (TrimSpace (ae_Action e)) (TrimSpace (ae_Target e))
    (TrimSpace (ae_Meta e)) (TrimSpace (ae_SourceIP e)).

Definition ship_if (c : bool) (m : Shipment) : list Shipment := if c then [m] else [].

Definition dispatchAuditEvent (cfg : LogServerSettings) (token host : string) (e : AuditEvent) : list Shipment :=
  let level := auditSeverity (ae_Action e) in
  let env := envelope_of host e in
  let sy := ls_Syslog cfg in let ht := ls_HTTP cfg in let tc := ls_TCPJSON cfg in
  ship_if (sy_Enabled sy && negb (String.eqb (sy_Address sy) "") && shouldShip (sy_MinLevel sy) level)
    (sendSyslog sy env)
  ++ ship_if (lh_Enabled ht && negb (String.eqb (lh_URL ht) "") && shouldShip (lh_MinLevel ht) level)
    (sendHTTPLog ht token env)
  ++ ship_if (lt_Enabled tc && negb (String.eqb (lt_Address tc) "") && shouldShip (lt_MinLevel tc) level)
    (sendTCPJSON tc env).
End dispatch.

(* ------------------------------------------------------------------ *)
(** ** Normal forms are stable *)

Lemma norm_norm s : norm (norm s) = norm s.
Proof. apply norm_idem. Qed.

Lemma normalizeLogLevel_in v : normalizeLogLevel v ∈ log_levels.
Proof.
  unfold normalizeLogLevel. case_bool_decide; [done|]. apply (bool_decide_unpack _). vm_compute. done.
Qed.

Lemma normalizeLogLevel_idem v : normalizeLogLevel (normalizeLogLevel v) = normalizeLogLevel v.
Proof.
  assert (H : forall l, l ∈ log_levels -> norm l = l).
  { intros l. unfold log_levels. intros Hl. rewrite !elem_of_union, !elem_of_singleton in Hl.
    destruct Hl as [[->| ->]| ->]; reflexivity. }
  unfold normalizeLogLevel at 1. rewrite (H _ (normalizeLogLevel_in v)).
  by rewrite bool_decide_eq_true_2 by apply normalizeLogLevel_in.
Qed.

Lemma or_default_idem v d : or_default (or_default v d) d = or_default v d.
Proof. unfold or_default. destruct (v =? "")%string eqn:E; [|by rewrite E]. by case_step. Qed.

Lemma clamp_timeout_ok d sec : 1 <= d <= 30 -> 1 <= clamp_timeout d sec <= 30.
Proof. unfold clamp_timeout. intros H. zcase. Qed.
Lemma clamp_timeout_in d sec : 1 <= sec <= 30 -> clamp_timeout d sec = sec.
Proof. unfold clamp_timeout. intros H. replace (sec <=? 0) with false by lia. by replace (30 <? sec) with false by lia. Qed.
Lemma clamp_timeout_idem d sec : 1 <= d <= 30 -> clamp_timeout d (clamp_timeout d sec) = clamp_timeout d sec.
Proof. intros H. by apply clamp_timeout_in, clamp_timeout_ok. Qed.

Lemma or_default_trim v d : TrimSpace d = d -> TrimSpace (or_default (TrimSpace v) d) = or_default (TrimSpace v) d.
Proof. intros Hd. unfold or_default. case_step; [done|apply TrimSpace_idem]. Qed.
Lemma or_default_norm v d : norm d = d -> norm (or_default (norm v) d) = or_default (norm v) d.
Proof. intros Hd. unfold or_default. case_step; [done|apply norm_norm]. Qed.

(** What a sink needs of the settings it is given. *)
Record settings_ok (c : LogServerSettings) : Prop := {
  ok_protocol : sy_Protocol (ls_Syslog c) = "udp" \/ sy_Protocol (ls_Syslog c) = "tcp";
  ok_syslog : sy_Enabled (ls_Syslog c) = true -> is_Some (SplitHostPort (sy_Address (ls_Syslog c)));
  ok_app : sy_AppName (ls_Syslog c) <> "";
  ok_http : lh_Enabled (ls_HTTP c) = true -> http_url_ok (lh_URL (ls_HTTP c)) = true;
  ok_http_timeout : 1 <= lh_TimeoutSec (ls_HTTP c) <= 30;
  ok_tcp : lt_Enabled (ls_TCPJSON c) = true -> is_Some (SplitHostPort (lt_Address (ls_TCPJSON c)));
  ok_tcp_timeout : 1 <= lt_TimeoutSec (ls_TCPJSON c) <= 30;
  ok_levels : sy_MinLevel (ls_Syslog c) ∈ log_levels /\ lh_MinLevel (ls_HTTP c) ∈ log_levels /\
              lt_MinLevel (ls_TCPJSON c) ∈ log_levels
}.

Lemma host_port_ok_spec a : host_port_ok a = true -> is_Some (SplitHostPort a).
Proof. unfold host_port_ok. case_step; [eauto|done]. Qed.

(** Accepted settings are usable by every sink that is switched on: protocol,
    addresses and URL are well formed, timeouts lie between 1 and 30 seconds,
    levels are known; and storing them and reading them back changes nothing
    (the normal form is a fixed point). *)
Theorem log_settings_normal i c :
  normalizeLogServerSettings i = Ok c -> settings_ok c /\ normalizeLogServerSettings c = Ok c.
Proof.
  unfold normalizeLogServerSettings. cbv zeta.
  set (protocol := or_default (norm (sy_Protocol (ls_Syslog i))) "udp").
  destruct (negb (protocol =? "udp")%string && negb (protocol =? "tcp")%string) eqn:Ep; [done|].
  destruct (sy_Enabled (ls_Syslog i) && _) eqn:Es; [done|].
  destruct (lh_Enabled (ls_HTTP i) && (_ =? "")%string) eqn:Eu; [done|].
  destruct (lh_Enabled (ls_HTTP i) && _) eqn:Eh in |- *; [done|].
  destruct (lt_Enabled (ls_TCPJSON i) && _) eqn:Et; [done|].
  intros [= <-]. split.
  - split; cbn [ls_Syslog ls_HTTP ls_TCPJSON sy_Enabled sy_Protocol sy_Address sy_MinLevel sy_AppName lh_Enabled
      lh_URL lh_TimeoutSec lh_MinLevel lt_Enabled lt_Address lt_TimeoutSec lt_MinLevel].
    + destruct (protocol =? "udp")%string eqn:E1; bool_facts; [by left|right].
      destruct (protocol =? "tcp")%string eqn:E2; [by bool_facts|done].
    + intros He. rewrite He in Es. apply host_port_ok_spec. simpl in Es. by bool_facts.
    + unfold or_default. case_step; [done|]. by bool_facts.
    + intros He. rewrite He in Eh. simpl in Eh. by bool_facts.
    + by apply clamp_timeout_ok.
    + intros He. rewrite He in Et. apply host_port_ok_spec. simpl in Et. by bool_facts.
    + by apply clamp_timeout_ok.
    + split_and!; apply normalizeLogLevel_in.
  - cbn [ls_Syslog ls_HTTP ls_TCPJSON sy_Enabled sy_Protocol sy_Address sy_MinLevel sy_AppName lh_Enabled
      lh_URL lh_TimeoutSec lh_MinLevel lh_Insecure lt_Enabled lt_Address lt_TimeoutSec lt_MinLevel].
    unfold protocol in *. rewrite or_default_norm, or_default_idem, !TrimSpace_idem, or_default_trim by done.
    rewrite Ep, Es, Eu, Eh, Et. rewrite or_default_idem, !normalizeLogLevel_idem, !clamp_timeout_idem by done. done.
Qed.

Lemma log_settings_normal_witness :
  let i := mkLogServerSettings (mkLogServerSyslogSettings true " UDP " " [::1]:514 " "nope" "")
    (mkLogServerHTTPSettings true "HTTPS://logs.example" 0 "ERROR" true) (mkLogServerTCPJSONSettings false "" 99 "warn") in
  exists c, normalizeLogServerSettings i = Ok c /\ normalizeLogServerSettings c = Ok c.
Proof.
  eexists. split; [vm_compute; reflexivity|].
  eapply (log_settings_normal (mkLogServerSettings (mkLogServerSyslogSettings true " UDP " " [::1]:514 " "nope" "")
    (mkLogServerHTTPSettings true "HTTPS://logs.example" 0 "ERROR" true) (mkLogServerTCPJSONSettings false "" 99 "warn"))).
  vm_compute. reflexivity.
Defined.

(* ------------------------------------------------------------------ *)
(** ** One event, one syslog line *)

(** Neither a line feed nor a carriage return. *)
Definition not_break (c : ascii) : bool := negb (Ascii.eqb c (byte 10)) && negb (Ascii.eqb c (byte 13)).
Definition one_line (s : string) : Prop := all_chars not_break s = true.

Lemma one_line_app s t : one_line s -> one_line t -> one_line (s +:+ t).
Proof. unfold one_line. intros H1 H2. by rewrite all_chars_app, H1, H2. Qed.

Lemma plain_one_line s : all_chars plain_char s = true -> one_line s.
Proof.
  apply all_chars_impl. intros c Hc. destruct (plain_char_spec c Hc) as (Hs & _). unfold not_break.
  destruct (Ascii.eqb c (byte 10)) eqn:E1; [apply Ascii.eqb_eq in E1; subst; vm_compute in Hs; done|].
  destruct (Ascii.eqb c (byte 13)) eqn:E2; [apply Ascii.eqb_eq in E2; subst; vm_compute in Hs; done|]. done.
Qed.

Lemma digits_one_line k n : one_line (digits k n).
Proof. apply plain_one_line, digits_plain. Qed.

Lemma trim_right_one_line p s : one_line s -> one_line (trim_right p s).
Proof.
  unfold one_line. induction s as [|c s IH]; [done|]. cbn [all_chars trim_right].
  intros [Hc Hs]%andb_prop. specialize (IH Hs). destruct (trim_right p s) as [|d t].
  - destruct (p c); [done|]. cbn [all_chars]. by rewrite Hc.
  - cbn [all_chars] in *. by rewrite Hc.
Qed.

Ltac split_line := repeat match goal with |- one_line (_ +:+ _) => apply one_line_app end.

Lemma RFC3339Nano_one_line t : one_line (RFC3339Nano t).
Proof.
  unfold RFC3339Nano, date_text, clock_text, fraction_text.
  split_line; try apply digits_one_line; try reflexivity.
  destruct (t mod Second =? 0); [reflexivity|]. apply one_line_app; [reflexivity|]. apply trim_right_one_line, digits_one_line.
Qed.

Lemma Itoa_one_line n : 0 <= n < 1000 -> one_line (Itoa n).
Proof.
  intros Hn. assert (H : forallb (fun k => all_chars not_break (Itoa (Z.of_nat k))) (seq 0 1000) = true)
    by (vm_compute; reflexivity).
  rewrite forallb_forall in H. specialize (H (Z.to_nat n)). rewrite Z2Nat.id in H by lia.
  apply H, in_seq. lia.
Qed.

(** A replaced byte does not occur; another byte occurs only where it was. *)
Lemma ReplaceAll_out p s c new :
  all_chars (fun d => p d || Ascii.eqb d c) s = true -> all_chars p new = true -> all_chars p (ReplaceAll s c new) = true.
Proof.
  intros Hs Hn. induction s as [|d s IH]; [done|]. cbn [all_chars] in Hs. apply andb_prop in Hs as [Hd Hs].
  cbn [ReplaceAll]. destruct (Ascii.eqb d c) eqn:E.
  - by rewrite all_chars_app, Hn, IH.
  - cbn [all_chars]. rewrite orb_false_r in Hd. by rewrite Hd, IH.
Qed.

Lemma sanitize_one_line s : one_line (sanitizeSyslog s).
Proof.
  unfold sanitizeSyslog. apply ReplaceAll_out; [|done]. apply ReplaceAll_out; [|done].
  induction (TrimSpace s) as [|c t IH]; [done|]. cbn [all_chars]. rewrite IH, andb_true_r.
  unfold not_break. destruct (Ascii.eqb c (byte 10)), (Ascii.eqb c (byte 13)); done.
Qed.

Lemma or_default_one_line v d : one_line v -> one_line d -> one_line (or_default v d).
Proof. unfold or_default. by case_step. Qed.

(** No actor, action, target, meta text or address in an audit event can break
    the line of its syslog message: when the configured names hold no line
    break, a dispatch sends at most one syslog message and it is one line, ended
    by its only line feed.  (An [AppName] with a line break does break it:
    nothing sanitises that setting.) *)
Theorem syslog_one_line Hostname cfg token host e :
  one_line Hostname -> one_line host -> one_line (sy_AppName (ls_Syslog cfg)) ->
  forall protocol address line, ToSyslog protocol address line ∈ dispatchAuditEvent Hostname cfg token host e ->
    address = sy_Address (ls_Syslog cfg) /\
    exists body, line = body +:+ String (byte 10) "" /\ one_line body.
Proof.
  intros Hn Hh Ha protocol address line. unfold dispatchAuditEvent. cbv zeta.
  rewrite !elem_of_app. unfold ship_if. intros [Hin|[Hin|Hin]].
  - case_hyp Hin; [|by apply elem_of_nil in Hin]. apply list_elem_of_singleton in Hin.
    unfold sendSyslog in Hin. injection Hin as -> -> ->. split; [done|]. eexists. split; [reflexivity|].
    unfold syslog_line. split_line; try reflexivity; try apply sanitize_one_line; try done.
    + apply Itoa_one_line. unfold syslog_severity. zcase.
    + apply RFC3339Nano_one_line.
    + repeat apply or_default_one_line; done.
  - case_hyp Hin; [|by apply elem_of_nil in Hin]. apply list_elem_of_singleton in Hin. done.
  - case_hyp Hin; [|by apply elem_of_nil in Hin]. apply list_elem_of_singleton in Hin. done.
Qed.

Definition syslog_demo : LogServerSettings :=
  mkLogServerSettings (mkLogServerSyslogSettings true "udp" "10.0.0.9:514" "info" "edge")
    (ls_HTTP defaultLogServerSettings) (ls_TCPJSON defaultLogServerSettings).

(** An attempt to forge a second line through the target of an event. *)
Definition forged_event : AuditEvent :=
  zero_AuditEvent <| ae_Actor := "eve" |> <| ae_Action := "auth.login.failed" |>
                  <| ae_Target := "user" +:+ String (byte 10) "<129>1 forged" |>.

Lemma syslog_one_line_witness :
  exists line, ToSyslog "udp" "10.0.0.9:514" line ∈ dispatchAuditEvent "edge1" syslog_demo "" "edge1" forged_event /\
    exists body, line = body +:+ String (byte 10) "" /\ one_line body.
Proof.
  eexists. assert (Hin : ToSyslog "udp" "10.0.0.9:514"
      (syslog_line "edge1" "edge" (envelope_of "edge1" forged_event) +:+ String (byte 10) "")
    ∈ dispatchAuditEvent "edge1" syslog_demo "" "edge1" forged_event) by (vm_compute; left).
  split; [exact Hin|].
  exact (proj2 (syslog_one_line "edge1" syslog_demo "" "edge1" forged_event eq_refl eq_refl eq_refl _ _ _ Hin)).
Defined.
