(* ===== verification/StoreDB.v ===== *)
(** The database of [internal/store]: its tables, the environment a store
    operation runs in, and the shapes of SQL statement the store uses.

    A table is a finite map from its primary key to its row, or the list of its
    rows, oldest first, where the program only appends and scans.  The schema
    is [migrate] of [store.go]; the columns that hold JSON or a list separated
    by commas hold the decoded value.  Every statement first asks the
    environment whether the driver fails, so a theorem about an operation
    speaks of all the ways it can be cut short. *)

From stdpp Require Import sorting.
From S2P Require Import Prelude GoString GoMonad GoTime Model.

(* ------------------------------------------------------------------ *)
(** ** Rows without a type of their own in the model package *)

(** Row of [login_attempts]. *)
Record LoginAttempt := mkLoginAttempt {
  la_failed_count : Z; la_last_failed_at : time; la_lock_until : time
}.
#[export] Instance eta_LoginAttempt : Eta LoginAttempt := fun r =>
  mkLoginAttempt (la_failed_count r) (la_last_failed_at r) (la_lock_until r).

(** Row of [password_reset_tokens]; [used_at] is nullable. *)
Record ResetToken := mkResetToken {
  rt_user_id : Z; rt_expires_at : time; rt_used_at : option time; rt_created_at : time
}.
#[export] Instance eta_ResetToken : Eta ResetToken := fun r =>
  mkResetToken (rt_user_id r) (rt_expires_at r) (rt_used_at r) (rt_created_at r).

(** Row of [state_transitions]. *)
Record StateTransition := mkStateTransition {
  st_host_id : Z; st_from_state : string; st_to_state : string; st_reason : string;
  st_created_at : time
}.
#[export] Instance eta_StateTransition : Eta StateTransition := fun r =>
  mkStateTransition (st_host_id r) (st_from_state r) (st_to_state r) (st_reason r)
    (st_created_at r).

(** Row of [threat_intel_matches] under its unique key. *)
Record MatchRow := mkMatchRow {
  mr_ip : string; mr_feed : string; mr_host : string; mr_path : string; mr_country : string;
  mr_mode : string; mr_decision : string; mr_hits : Z; mr_first_seen_at : time;
  mr_last_seen_at : time; mr_last_trace_id : string; mr_source_scope : string;
  mr_xp_delta : Z; mr_xp_after : Z; mr_level_after : Z; mr_tier_after : string
}.
#[export] Instance eta_MatchRow : Eta MatchRow := fun r =>
  mkMatchRow (mr_ip r) (mr_feed r) (mr_host r) (mr_path r) (mr_country r) (mr_mode r)
    (mr_decision r) (mr_hits r) (mr_first_seen_at r) (mr_last_seen_at r)
    (mr_last_trace_id r) (mr_source_scope r) (mr_xp_delta r) (mr_xp_after r)
    (mr_level_after r) (mr_tier_after r).

(** Row of [threat_intel_ip_state]. *)
Record StateRow := mkStateRow {
  sr_state : ThreatIntelIPState; sr_created_at : time; sr_updated_at : time
}.
#[export] Instance eta_StateRow : Eta StateRow := fun r =>
  mkStateRow (sr_state r) (sr_created_at r) (sr_updated_at r).

(** Row of [threat_intel_ban_history]; the empty text is [0]. *)
Record BanHistory := mkBanHistory {
  bh_id : Z; bh_ip : string; bh_first_seen_at : time; bh_banned_at : time;
  bh_ban_kind : string; bh_xp_at_ban : Z; bh_reason : string; bh_rehab_at : time;
  bh_false_positive : bool; bh_created_at : time
}.
#[export] Instance eta_BanHistory : Eta BanHistory := fun r =>
  mkBanHistory (bh_id r) (bh_ip r) (bh_first_seen_at r) (bh_banned_at r) (bh_ban_kind r)
    (bh_xp_at_ban r) (bh_reason r) (bh_rehab_at r) (bh_false_positive r)
    (bh_created_at r).

(** Row of [threat_intel_rehab_history]. *)
Record RehabHistory := mkRehabHistory {
  rh_ip : string; rh_first_seen_at : time; rh_rehab_at : time; rh_had_block : bool;
  rh_reason : string; rh_created_at : time
}.
#[export] Instance eta_RehabHistory : Eta RehabHistory := fun r =>
  mkRehabHistory (rh_ip r) (rh_first_seen_at r) (rh_rehab_at r) (rh_had_block r)
    (rh_reason r) (rh_created_at r).

(** Row of [ldap_delete_queue]. *)
Record DeleteQueueRow := mkDeleteQueueRow {
  dq_created_at : time; dq_updated_at : time; dq_last_error : string
}.
#[export] Instance eta_DeleteQueueRow : Eta DeleteQueueRow := fun r =>
  mkDeleteQueueRow (dq_created_at r) (dq_updated_at r) (dq_last_error r).

(** The counters of a traffic bucket. *)
Record TrafficRow := mkTrafficRow {
  tr_fqdn : string; tr_requests : Z; tr_bytes_in : Z; tr_bytes_out : Z; tr_blocked : Z;
  tr_status_2xx : Z; tr_status_3xx : Z; tr_status_4xx : Z; tr_status_5xx : Z
}.
#[export] Instance eta_TrafficRow : Eta TrafficRow := fun r =>
  mkTrafficRow (tr_fqdn r) (tr_requests r) (tr_bytes_in r) (tr_bytes_out r)
    (tr_blocked r) (tr_status_2xx r) (tr_status_3xx r) (tr_status_4xx r)
    (tr_status_5xx r).

(** The unique key of [threat_intel_matches]: ip, feed, host, path, decision. *)
Definition MatchKey : Type := string * string * string * string * string.

(** The tables. *)
Record DB := mkDB {
  t_sqlite_sequence : gmap string Z; t_users : gmap Z User;
  t_sessions : gmap string Session; t_api_tokens : gmap Z APIToken;
  t_api_token_domain_scopes : gset (Z * Z); t_domains : gmap Z Domain;
  t_hosts : gmap Z Host; t_secrets : gmap string string; t_audit_events : list AuditEvent;
  t_trace_events : list TraceEvent; t_state_transitions : list StateTransition;
  t_login_attempts : gmap string LoginAttempt;
  t_ldap_delete_queue : gmap string DeleteQueueRow; t_blocked_ips : gmap string BlockedIP;
  t_password_reset_tokens : gmap string ResetToken; t_settings : gmap string string;
  t_user_domain_scopes : gset (Z * Z); t_permission_groups : gmap Z PermissionGroup;
  t_permission_group_entries : gset (Z * string);
  t_user_group_memberships : gmap (Z * Z) UserGroupMembership;
  t_user_mfa_recovery_codes : gmap (Z * string) (option time);
  t_host_traffic_minute : gmap (Z * string * Z) TrafficRow;
  t_host_traffic_class_minute : gmap (Z * string * string * Z) TrafficRow;
  t_host_visitors_daily : gset (Z * string * string);
  t_threat_intel_feeds : gmap Z ThreatIntelFeed; t_threat_intel_entries : gset (Z * string);
  t_threat_intel_allowlist : gmap string BlockedIP;
  t_threat_intel_matches : gmap MatchKey MatchRow;
  t_threat_intel_ip_state : gmap string StateRow;
  t_threat_intel_ban_history : list BanHistory;
  t_threat_intel_rehab_history : list RehabHistory;
  t_ssh_bastion_routes : gmap Z SSHBastionRoute; t_ssh_bastion_keys : gmap Z SSHBastionKey;
  t_ssh_bastion_key_routes : gset (Z * Z); t_backup_archives : gmap Z BackupArchive
}.
#[export] Instance eta_DB : Eta DB := fun r =>
  mkDB (t_sqlite_sequence r) (t_users r) (t_sessions r) (t_api_tokens r)
    (t_api_token_domain_scopes r) (t_domains r) (t_hosts r) (t_secrets r)
    (t_audit_events r) (t_trace_events r) (t_state_transitions r) (t_login_attempts r)
    (t_ldap_delete_queue r) (t_blocked_ips r) (t_password_reset_tokens r) (t_settings r)
    (t_user_domain_scopes r) (t_permission_groups r) (t_permission_group_entries r)
    (t_user_group_memberships r) (t_user_mfa_recovery_codes r) (t_host_traffic_minute r)
    (t_host_traffic_class_minute r) (t_host_visitors_daily r) (t_threat_intel_feeds r)
    (t_threat_intel_entries r) (t_threat_intel_allowlist r) (t_threat_intel_matches r)
    (t_threat_intel_ip_state r) (t_threat_intel_ban_history r)
    (t_threat_intel_rehab_history r) (t_ssh_bastion_routes r) (t_ssh_bastion_keys r)
    (t_ssh_bastion_key_routes r) (t_backup_archives r).

Definition empty_DB : DB :=
  mkDB ∅ ∅ ∅ ∅ ∅ ∅ ∅ ∅ [] [] [] ∅ ∅ ∅ ∅ ∅ ∅ ∅ ∅ ∅ ∅ ∅ ∅ ∅ ∅ ∅ ∅ ∅ ∅ [] [] ∅ ∅ ∅ ∅.

(* ------------------------------------------------------------------ *)
(** ** The environment of an operation *)

(** What an operation reads besides its arguments: the database, the clock (one instant per operation), for each coming statement whether the driver fails it, and the bytes the random source will give. *)
Record Env := mkEnv {
  e_db : DB; e_now : time; e_faults : list bool; e_rand : list string
}.
#[export] Instance eta_Env : Eta Env := fun r =>
  mkEnv (e_db r) (e_now r) (e_faults r) (e_rand r).

Definition clean (db : DB) (now : time) : Env := mkEnv db now [] [].

Abbreviation SM := (M Env).

(** [time.Now().UTC()] *)
Definition Now : SM time := gets e_now.

(** A statement reaches the driver. *)
Definition stmt : SM unit := fun e =>
  match e_faults e with
  | true :: fs => (Err ErrDriver, e <| e_faults := fs |>)
  | false :: fs => (Ok tt, e <| e_faults := fs |>)
  | [] => (Ok tt, e)
  end.

(** [SELECT] of any number of rows, and of one row. *)
Definition query {A} (f : DB -> A) : SM A := stmt ≫= fun _ => gets (fun e : Env => f (e_db e)).
Definition query_row {A} (f : DB -> option A) : SM A :=
  o ← query f;
  match o with Some a => mret a | None => fail ErrNoRows end.

(** [INSERT], [UPDATE], [DELETE]: one that cannot violate a constraint, and
    one that can, in which case the database is untouched. *)
Definition exec (f : DB -> DB) : SM unit :=
  stmt ≫= fun _ => modify (fun e : Env => e <| e_db ::= f |>).
Definition exec_checked (ok : DB -> bool) (f : DB -> DB) : SM unit :=
  query ok ≫= fun b : bool =>
  if b then modify (fun e : Env => e <| e_db ::= f |>) else fail ErrConstraint.

(** [BeginTx ... Commit] with [defer tx.Rollback()]: an error in the body or in
    the commit puts the tables back. *)
Definition transaction {A} (m : SM A) : SM A := fun e0 =>
  match stmt e0 with
  | (Err x, e1) => (Err x, e1)
  | (Ok _, e1) =>
      match m e1 with
      | (Err x, e2) => (Err x, e2 <| e_db := e_db e1 |>)
      | (Ok a, e2) =>
          match stmt e2 with
          | (Err x, e3) => (Err x, e3 <| e_db := e_db e1 |>)
          | (Ok _, e3) => (Ok a, e3)
          end
      end
  end.

(** Bytes from the random source; an exhausted source is its error. *)
Definition random : SM string := fun e =>
  match e_rand e with
  | r :: rs => (Ok r, e <| e_rand := rs |>)
  | [] => (Err (ErrText "random source"), e)
  end.

(* ------------------------------------------------------------------ *)
(** ** Tables *)

Definition next_id (tbl : string) (db : DB) : Z := default 0 (t_sqlite_sequence db !! tbl) + 1.
Definition take_id (tbl : string) (db : DB) : DB :=
  db <| t_sqlite_sequence ::= <[tbl := next_id tbl db]> |>.

(** The rows of a table, in the order of its keys. *)
Definition rows {K A} `{Countable K} (m : gmap K A) : list A := snd <$> map_to_list m.
Definition find_row {K A} `{Countable K} (p : A -> bool) (m : gmap K A) : option A :=
  List.find p (rows m).
Definition keep_rows {K A} `{Countable K} (p : A -> bool) (m : gmap K A) : gmap K A :=
  filter (fun kv => p kv.2 = true) m.
Definition keep_keys {K A} `{Countable K} (p : K -> bool) (m : gmap K A) : gmap K A :=
  filter (fun kv => p kv.1 = true) m.
Definition keep_set {K} `{Countable K} (p : K -> bool) (s : gset K) : gset K :=
  filter (fun k => p k = true) s.

(** [ORDER BY]: a stable sort; rows that compare equal keep the scan order. *)
Fixpoint insert_by {A} (le : A -> A -> bool) (x : A) (l : list A) : list A :=
  match l with
  | [] => [x]
  | y :: l' => if le x y then x :: l else y :: insert_by le x l'
  end.
Fixpoint order_by {A} (le : A -> A -> bool) (l : list A) : list A :=
  match l with [] => [] | x :: l' => insert_by le x (order_by le l') end.

Definition asc_text {A} (f : A -> string) (x y : A) : bool := String.leb (f x) (f y).
Definition asc_time {A} (f : A -> time) (x y : A) : bool := text_le (f x) (f y).
Definition desc_time {A} (f : A -> time) (x y : A) : bool := text_le (f y) (f x).
Definition asc_Z {A} (f : A -> Z) (x y : A) : bool := f x <=? f y.

(** [LIMIT n] *)
Definition limit {A} (n : Z) (l : list A) : list A := take (Z.to_nat n) l.

(** [ON DELETE CASCADE] of the tables others refer to. *)
Definition delete_user_rows (id : Z) (db : DB) : DB :=
  db <| t_users ::= delete id |>
     <| t_sessions ::= keep_rows (fun s => negb (se_UserID s =? id)) |>
     <| t_password_reset_tokens ::= keep_rows (fun r => negb (rt_user_id r =? id)) |>
     <| t_user_domain_scopes ::= keep_set (fun p => negb (p.1 =? id)) |>
     <| t_user_group_memberships ::= keep_keys (fun k => negb (k.1 =? id)) |>
     <| t_user_mfa_recovery_codes ::= keep_keys (fun k => negb (k.1 =? id)) |>.

Definition delete_host_rows (gone : Z -> bool) (db : DB) : DB :=
  db <| t_hosts ::= keep_keys (fun k => negb (gone k)) |>
     <| t_state_transitions ::= List.filter (fun t => negb (gone (st_host_id t))) |>
     <| t_host_traffic_minute ::= keep_keys (fun k => negb (gone k.1.1)) |>
     <| t_host_traffic_class_minute ::= keep_keys (fun k => negb (gone k.1.1.1)) |>
     <| t_host_visitors_daily ::= keep_set (fun k => negb (gone k.1.1)) |>.

Definition of_domain (id : Z) (db : DB) (k : Z) : bool :=
  match t_hosts db !! k with Some h => h_DomainID h =? id | None => false end.
Definition delete_domain_rows (id : Z) (db : DB) : DB :=
  (delete_host_rows (of_domain id db) db)
     <| t_domains ::= delete id |>
     <| t_api_token_domain_scopes ::= keep_set (fun p => negb (p.2 =? id)) |>
     <| t_user_domain_scopes ::= keep_set (fun p => negb (p.2 =? id)) |>.

(** The bastion's join table refers to both of the others. *)
Definition delete_bastion_route_rows (id : Z) (db : DB) : DB :=
  db <| t_ssh_bastion_routes ::= delete id |>
     <| t_ssh_bastion_key_routes ::= keep_set (fun p => negb (p.2 =? id)) |>.
Definition delete_bastion_key_rows (id : Z) (db : DB) : DB :=
  db <| t_ssh_bastion_keys ::= delete id |>
     <| t_ssh_bastion_key_routes ::= keep_set (fun p => negb (p.1 =? id)) |>.

Lemma delete_domain_hosts id db :
  t_hosts (delete_domain_rows id db) = t_hosts (delete_host_rows (of_domain id db) db) /\
  t_state_transitions (delete_domain_rows id db) =
    t_state_transitions (delete_host_rows (of_domain id db) db) /\
  t_sqlite_sequence (delete_domain_rows id db) =
    t_sqlite_sequence (delete_host_rows (of_domain id db) db).
Proof.
  unfold delete_domain_rows. generalize (delete_host_rows (of_domain id db) db) as d.
  intros d. simpl. done.
Qed.

(* ------------------------------------------------------------------ *)
(** ** Sorting and limits select rows *)

Section order.
Context {A : Type} (le : A -> A -> bool).

Lemma insert_by_perm x l : insert_by le x l ≡ₚ x :: l.
Proof.
  induction l as [|y l IH]; simpl; [done|]. case_step; [done|].
  rewrite IH. constructor.
Qed.

Lemma order_by_perm l : order_by le l ≡ₚ l.
Proof. induction l as [|x l IH]; simpl; [done|]. by rewrite insert_by_perm, IH. Qed.

Lemma elem_of_order_by x l : x ∈ order_by le l <-> x ∈ l.
Proof. by rewrite order_by_perm. Qed.

(** A total order sorts; when it tells the elements apart, the sorted list is the
    only one. *)
Context (le_total : forall x y, le x y = true \/ le y x = true).
Context (le_trans : forall x y z, le x y = true -> le y z = true -> le x z = true).

Lemma insert_by_sorted x l : StronglySorted (fun x y => le x y = true) l ->
  StronglySorted (fun x y => le x y = true) (insert_by le x l).
Proof.
  induction 1 as [|y l Hl IH Hy]; simpl; [repeat constructor|]. destruct (le x y) eqn:E.
  - constructor; [by constructor|]. constructor; [done|]. eapply Forall_impl; [exact Hy|]. eauto.
  - constructor; [done|]. assert (Hyx : le y x = true) by (destruct (le_total x y); congruence).
    rewrite insert_by_perm. by constructor.
Qed.

Lemma order_by_sorted l : StronglySorted (fun x y => le x y = true) (order_by le l).
Proof. induction l; simpl; [constructor|by apply insert_by_sorted]. Qed.

Lemma order_by_unique l l' : StronglySorted (fun x y => le x y = true) l' -> l' ≡ₚ l ->
  (forall x y, x ∈ l -> y ∈ l -> le x y = true -> le y x = true -> x = y) -> order_by le l = l'.
Proof.
  intros Hs Hp Ha. apply (StronglySorted_unique_strong (fun x y => le x y = true)); [|apply order_by_sorted|done|].
  - intros x y Hx Hy. rewrite elem_of_order_by in Hx. rewrite Hp in Hy. auto.
  - by rewrite order_by_perm, Hp.
Qed.
End order.

Lemma elem_of_limit {A} n (x : A) l : x ∈ limit n l -> x ∈ l.
Proof. unfold limit. intros H. by eapply elem_of_take in H as (? & H & _); eapply list_elem_of_lookup_2. Qed.

Lemma limit_all {A} n (l : list A) : Z.of_nat (length l) <= n -> limit n l = l.
Proof. intros H. unfold limit. apply take_ge. lia. Qed.

Lemma elem_of_rows {K A} `{Countable K} (m : gmap K A) x :
  x ∈ rows m <-> exists k, m !! k = Some x.
Proof.
  unfold rows. rewrite list_elem_of_fmap. split.
  - intros ([k y] & -> & Hk). exists k. by apply elem_of_map_to_list.
  - intros [k Hk]. exists (k, x). split; [done|]. by apply elem_of_map_to_list.
Qed.

Lemma find_row_Some {K A} `{Countable K} (p : A -> bool) (m : gmap K A) x :
  find_row p m = Some x -> p x = true /\ exists k, m !! k = Some x.
Proof.
  unfold find_row. intros Hf%find_some. destruct Hf as [Hin Hp]. split; [done|].
  apply elem_of_rows. by apply list_elem_of_In.
Qed.

Lemma find_row_None {K A} `{Countable K} (p : A -> bool) (m : gmap K A) :
  find_row p m = None <-> forall k x, m !! k = Some x -> p x = false.
Proof.
  unfold find_row. split.
  - intros Hf k x Hk. apply (find_none _ _ Hf). apply list_elem_of_In, elem_of_rows. eauto.
  - intros Hall. destruct (List.find p (rows m)) as [x|] eqn:E; [|done].
    apply find_some in E as [Hin Hp].
    apply list_elem_of_In, elem_of_rows in Hin as [k Hk].
    specialize (Hall k x Hk). congruence.
Qed.

(** When exactly one key can satisfy the test, the scan finds its row. *)
Lemma find_row_unique {K A} `{Countable K} (p : A -> bool) (m : gmap K A) k x :
  m !! k = Some x -> p x = true ->
  (forall k' x', m !! k' = Some x' -> p x' = true -> k' = k) ->
  find_row p m = Some x.
Proof.
  intros Hk Hp Huniq. destruct (find_row p m) as [y|] eqn:E.
  - apply find_row_Some in E as (Hy & k' & Hk').
    rewrite (Huniq _ _ Hk' Hy) in Hk'. congruence.
  - rewrite find_row_None in E. specialize (E k x Hk). congruence.
Qed.

Lemma lookup_keep_rows {K A} `{Countable K} (p : A -> bool) (m : gmap K A) k :
  keep_rows p m !! k = match m !! k with Some x => if p x then Some x else None | None => None end.
Proof.
  unfold keep_rows. rewrite map_lookup_filter.
  destruct (m !! k) as [x|]; simpl; [|done].
  destruct (p x) eqn:Hp; case_guard; simplify_eq/=; congruence.
Qed.

Lemma elem_of_selected {A} (p : A -> bool) l x : x ∈ List.filter p l <-> x ∈ l /\ p x = true.
Proof. rewrite !list_elem_of_In. apply filter_In. Qed.

(** Rows that carry their key are all different. *)
Lemma rows_NoDup {K A} `{Countable K} (m : gmap K A) :
  (forall j k x, m !! j = Some x -> m !! k = Some x -> j = k) -> NoDup (rows m).
Proof.
  intros Hinj. unfold rows. apply NoDup_fmap_2_strong; [|apply NoDup_map_to_list].
  intros [j x] [k y] Hj%elem_of_map_to_list Hk%elem_of_map_to_list E. simpl in E. subst y. by rewrite (Hinj j k x).
Qed.

Lemma lookup_keep_keys {K A} `{Countable K} (p : K -> bool) (m : gmap K A) k x :
  keep_keys p m !! k = Some x <-> m !! k = Some x /\ p k = true.
Proof. unfold keep_keys. by rewrite map_lookup_filter_Some. Qed.

Lemma elem_of_keep_set {K} `{Countable K} (p : K -> bool) (s : gset K) x : x ∈ keep_set p s <-> p x = true /\ x ∈ s.
Proof. unfold keep_set. by rewrite elem_of_filter. Qed.

(* ------------------------------------------------------------------ *)
(** ** Rules for statements *)

Section rules.
Context {A : Type} (Q : result A -> Env -> Prop).

Lemma wp_query (f : DB -> A) e :
  (forall fs, Q (Err ErrDriver) (e <| e_faults := fs |>)) ->
  (forall fs, Q (Ok (f (e_db e))) (e <| e_faults := fs |>)) ->
  wp (query f) Q e.
Proof.
  intros HE HO. unfold wp, query, stmt, mbind, M_bind.
  destruct e as [db now [|[] fs] rnd]; simpl in *; [|apply HE|apply HO].
  apply (HO []).
Qed.

Lemma wp_query_row (f : DB -> option A) e :
  (forall fs, Q (Err ErrDriver) (e <| e_faults := fs |>)) ->
  (forall fs a, f (e_db e) = Some a -> Q (Ok a) (e <| e_faults := fs |>)) ->
  (forall fs, f (e_db e) = None -> Q (Err ErrNoRows) (e <| e_faults := fs |>)) ->
  wp (query_row f) Q e.
Proof.
  intros HE HO HN. unfold wp, query_row, query, stmt, mbind, M_bind.
  destruct e as [db now [|[] fs] rnd]; simpl in *; [|apply HE|].
  - destruct (f db) eqn:E; [by apply (HO [])|by apply (HN [])].
  - destruct (f db) eqn:E; [by apply HO|by apply HN].
Qed.
End rules.

Lemma wp_exec (f : DB -> DB) Q e :
  (forall fs, Q (Err ErrDriver) (e <| e_faults := fs |>)) ->
  (forall fs, Q (Ok tt) (e <| e_db ::= f |> <| e_faults := fs |>)) ->
  wp (exec f) Q e.
Proof.
  intros HE HO. unfold wp, exec, stmt, mbind, M_bind.
  destruct e as [db now [|[] fs] rnd]; simpl in *; [|apply HE|apply HO].
  apply (HO []).
Qed.

Lemma wp_exec_checked ok (f : DB -> DB) Q e :
  (forall fs, Q (Err ErrDriver) (e <| e_faults := fs |>)) ->
  (forall fs, ok (e_db e) = true -> Q (Ok tt) (e <| e_db ::= f |> <| e_faults := fs |>)) ->
  (forall fs, ok (e_db e) = false -> Q (Err ErrConstraint) (e <| e_faults := fs |>)) ->
  wp (exec_checked ok f) Q e.
Proof.
  intros HE HO HN. unfold wp, exec_checked, query, stmt, mbind, M_bind.
  destruct e as [db now [|[] fs] rnd]; simpl in *; [|apply HE|].
  - destruct (ok db) eqn:E; [by apply (HO [])|by apply (HN [])].
  - destruct (ok db) eqn:E; [by apply HO|by apply HN].
Qed.

(** A table (or any function of the tables) is left as it was, and the clock
    with it. *)
Definition same {T} (p : DB -> T) (e e' : Env) : Prop :=
  p (e_db e') = p (e_db e) /\ e_now e' = e_now e.

#[export] Instance same_preorder {T} (p : DB -> T) : PreOrder (same p).
Proof. split; unfold same; [intros e; done|intros a b c [? ?] [? ?]; split; congruence]. Qed.

Section same.
Context {T : Type} (p : DB -> T).

Lemma keeps_stmt : keeps (same p) stmt.
Proof. by intros [db now [|[] fs] rnd]. Qed.
Lemma keeps_query {A} (f : DB -> A) : keeps (same p) (query f).
Proof. by intros [db now [|[] fs] rnd]. Qed.
Lemma keeps_query_row {A} (f : DB -> option A) : keeps (same p) (query_row f).
Proof.
  intros [db now [|[] fs] rnd]; unfold query_row, query, mbind, M_bind; simpl; try done;
    by destruct (f db).
Qed.
Lemma keeps_exec (f : DB -> DB) : (forall db, p (f db) = p db) -> keeps (same p) (exec f).
Proof. intros H [db now [|[] fs] rnd]; unfold same; simpl; auto. Qed.
Lemma keeps_modify_db (f : DB -> DB) :
  (forall db, p (f db) = p db) -> keeps (same p) (modify (fun e : Env => e <| e_db ::= f |>)).
Proof. intros H e. unfold same. simpl. auto. Qed.
Lemma keeps_exec_checked ok (f : DB -> DB) :
  (forall db, p (f db) = p db) -> keeps (same p) (exec_checked ok f).
Proof.
  intros H [db now [|[] fs] rnd]; unfold exec_checked, query, mbind, M_bind, same; simpl;
    try done; destruct (ok db); simpl; auto.
Qed.
Lemma keeps_random : keeps (same p) random.
Proof. by intros [db now fs [|r rs]]. Qed.
Lemma keeps_transaction {A} (m : SM A) : keeps (same p) m -> keeps (same p) (transaction m).
Proof.
  intros H e. unfold transaction, same.
  pose proof (keeps_stmt e) as H1. destruct (stmt e) as [[[]|x] e1]; simpl in *; [|done].
  specialize (H e1). destruct (m e1) as [[a|x] e2]; simpl in *.
  - pose proof (keeps_stmt e2) as H2. unfold same in *.
    destruct (stmt e2) as [[[]|x] e3]; simpl in *; destruct_and!; split; congruence.
  - unfold same in *. destruct_and!. split; congruence.
Qed.
End same.

Lemma keeps_Now R `{!PreOrder R} : keeps R Now.
Proof. by apply keeps_gets. Qed.
#[export] Hint Resolve keeps_Now : go_keeps.

Ltac keeps_db :=
  keeps_tac;
  repeat first
    [ apply keeps_stmt | apply keeps_query | apply keeps_query_row | apply keeps_random
    | apply keeps_exec; done
    | apply keeps_exec_checked; done
    | apply keeps_modify_db; done
    | apply keeps_transaction
    | progress keeps_tac ].

(** An invariant of the tables is preserved. *)
Definition inv (I : DB -> Prop) (e e' : Env) : Prop := I (e_db e) -> I (e_db e').

#[export] Instance inv_preorder I : PreOrder (inv I).
Proof. split; unfold inv; [intros e; done|intros a b c; auto]. Qed.

Section inv.
Context (I : DB -> Prop).

Lemma keeps_inv_stmt : keeps (inv I) stmt.
Proof. intros [db now [|[] fs] rnd]; unfold inv; done. Qed.
Lemma keeps_inv_query {A} (f : DB -> A) : keeps (inv I) (query f).
Proof. intros [db now [|[] fs] rnd]; unfold inv; done. Qed.
Lemma keeps_inv_query_row {A} (f : DB -> option A) : keeps (inv I) (query_row f).
Proof.
  intros [db now [|[] fs] rnd]; unfold inv, query_row, query, mbind, M_bind; simpl; try done;
    by destruct (f db).
Qed.
Lemma keeps_inv_exec (f : DB -> DB) : (forall db, I db -> I (f db)) -> keeps (inv I) (exec f).
Proof. intros H [db now [|[] fs] rnd]; unfold inv; simpl; auto. Qed.
Lemma keeps_inv_modify (f : DB -> DB) :
  (forall db, I db -> I (f db)) -> keeps (inv I) (modify (fun e : Env => e <| e_db ::= f |>)).
Proof. intros H e. unfold inv. simpl. auto. Qed.
Lemma keeps_inv_exec_checked ok (f : DB -> DB) :
  (forall db, ok db = true -> I db -> I (f db)) -> keeps (inv I) (exec_checked ok f).
Proof.
  intros H [db now [|[] fs] rnd]; unfold exec_checked, query, mbind, M_bind, inv; simpl;
    try done; destruct (ok db) eqn:E; simpl; auto.
Qed.
Lemma keeps_inv_random : keeps (inv I) random.
Proof. intros [db now fs [|r rs]]; unfold inv; done. Qed.
Lemma keeps_inv_transaction {A} (m : SM A) : keeps (inv I) m -> keeps (inv I) (transaction m).
Proof.
  intros H e. unfold transaction, inv. intros HI.
  pose proof (keeps_inv_stmt e HI) as H1. destruct (stmt e) as [[[]|x] e1]; simpl in *; [|done].
  specialize (H e1 H1). destruct (m e1) as [[a|x] e2]; simpl in *; [|done].
  pose proof (keeps_inv_stmt e2 H) as H2.
  destruct (stmt e2) as [[[]|x] e3]; simpl in *; done.
Qed.
End inv.

Ltac keeps_inv :=
  keeps_tac;
  repeat first
    [ apply keeps_inv_stmt | apply keeps_inv_query | apply keeps_inv_query_row | apply keeps_inv_random
    | apply keeps_inv_transaction
    | progress keeps_tac ];
  try (apply keeps_inv_exec || apply keeps_inv_exec_checked || apply keeps_inv_modify).

(** A relation between the tables before and after. *)
Definition steps (R : DB -> DB -> Prop) (e e' : Env) : Prop := R (e_db e) (e_db e').

#[export] Instance steps_preorder R `{!PreOrder R} : PreOrder (steps R).
Proof. split; unfold steps; [intros e; reflexivity|intros a b c; apply transitivity]. Qed.

Section steps.
Context (R : DB -> DB -> Prop) `{!PreOrder R}.

Lemma steps_query {A} (f : DB -> A) : keeps (steps R) (query f).
Proof. intros [db now [|[] fs] rnd]; unfold steps; simpl; reflexivity. Qed.
Lemma steps_query_row {A} (f : DB -> option A) : keeps (steps R) (query_row f).
Proof.
  intros [db now [|[] fs] rnd]; unfold steps, query_row, query, mbind, M_bind; simpl; try reflexivity;
    destruct (f db); simpl; reflexivity.
Qed.
Lemma steps_exec (f : DB -> DB) : (forall db, R db (f db)) -> keeps (steps R) (exec f).
Proof. intros H [db now [|[] fs] rnd]; unfold steps; simpl; try reflexivity; apply H. Qed.

Lemma steps_exec_checked ok (f : DB -> DB) : (forall db, ok db = true -> R db (f db)) -> keeps (steps R) (exec_checked ok f).
Proof.
  intros H [db now [|[] fs] rnd]; unfold exec_checked, query, mbind, M_bind, steps; simpl; try reflexivity;
    destruct (ok db) eqn:E; simpl; try reflexivity; by apply H.
Qed.

(** A transaction that fails leaves the tables; one that commits has done what
    its body did. *)
Lemma steps_transaction {A} (m : SM A) :
  (forall e, wp m (fun r e' => is_ok r = true -> R (e_db e) (e_db e')) e) -> keeps (steps R) (transaction m).
Proof.
  intros H e. unfold transaction, steps.
  assert (He : e_db (stmt e).2 = e_db e) by by destruct e as [db now [|[] fs] rnd].
  destruct (stmt e) as [[[]|x] e1]; simpl in *; [|rewrite He; reflexivity].
  specialize (H e1). unfold wp in H. rewrite He in H. destruct (m e1) as [[a|x] e2]; simpl in *; [|by rewrite He].
  assert (He2 : e_db (stmt e2).2 = e_db e2) by by destruct e2 as [db now [|[] fs] rnd].
  destruct (stmt e2) as [[[]|x] e3]; simpl in *; [rewrite He2; auto|by rewrite He].
Qed.
End steps.

(** What holds of every run of the body that ends well holds of the transaction. *)
Lemma wp_transaction {A} (m : SM A) (P : A -> DB -> Prop) e :
  (forall fs, wp m (fun r e' => forall a, r = Ok a -> P a (e_db e')) (e <| e_faults := fs |>)) ->
  wp (transaction m) (fun r e' => forall a, r = Ok a -> P a (e_db e')) e.
Proof.
  intros H. unfold transaction, wp in *. assert (He : exists r fs, stmt e = (r, e <| e_faults := fs |>)).
  { destruct e as [db now [|[] fs] rnd]; simpl; eauto. }
  destruct He as ([[]|x] & fs & ->); [|done]. specialize (H fs). destruct (m _) as [[a|x] e2]; [|done].
  assert (He2 : e_db (stmt e2).2 = e_db e2) by by destruct e2 as [db now [|[] fs2] rnd].
  destruct (stmt e2) as [[[]|x] e3]; simpl in *; [|done]. intros b [= <-]. rewrite He2. by apply H.
Qed.

(** A transaction changes nothing, or what its body changed on a good run. *)
Lemma wp_transaction_cases {A} (m : SM A) (P : A -> DB -> Prop) e :
  (forall fs, wp m (fun r e' => forall a, r = Ok a -> P a (e_db e')) (e <| e_faults := fs |>)) ->
  wp (transaction m) (fun r e' => match r with Ok a => P a (e_db e') | Err _ => e_db e' = e_db e end) e.
Proof.
  intros H. pose proof (wp_transaction m P e H) as HP. unfold wp in HP |- *. clear H.
  assert (HE : forall x e', transaction m e = (Err x, e') -> e_db e' = e_db e).
  { unfold transaction. intros x e'. assert (He : e_db (stmt e).2 = e_db e) by by destruct e as [db now [|[] fs] rnd].
    destruct (stmt e) as [[[]|y] e1]; simpl in *; [|by intros [= <- <-]]. destruct (m e1) as [[a|y] e2]; [|by intros [= <- <-]].
    destruct (stmt e2) as [[[]|y] e3]; [done|]. by intros [= <- <-]. }
  destruct (transaction m e) as [[a|x] e']; [by apply HP|by apply (HE x)].
Qed.

(** An environment in which no statement fails stays one. *)
Definition calm (e e' : Env) : Prop := e_faults e = [] -> e_faults e' = [].

#[export] Instance calm_preorder : PreOrder calm.
Proof. split; unfold calm; [intros e; done|intros a b c; auto]. Qed.

Section calm.
Lemma calm_stmt : keeps calm stmt.
Proof. intros [db now [|f fs] rnd]; unfold calm; done. Qed.
Lemma calm_query {A} (f : DB -> A) : keeps calm (query f).
Proof. intros [db now [|b fs] rnd]; unfold calm; done. Qed.
Lemma calm_query_row {A} (f : DB -> option A) : keeps calm (query_row f).
Proof.
  intros [db now [|b fs] rnd]; unfold calm, query_row, query, mbind, M_bind; simpl; try done.
  by destruct (f db).
Qed.
Lemma calm_exec (f : DB -> DB) : keeps calm (exec f).
Proof. intros [db now [|b fs] rnd]; unfold calm; done. Qed.
Lemma calm_modify (f : DB -> DB) : keeps calm (modify (fun e : Env => e <| e_db ::= f |>)).
Proof. intros e. unfold calm. done. Qed.
Lemma calm_exec_checked ok (f : DB -> DB) : keeps calm (exec_checked ok f).
Proof.
  intros [db now [|b fs] rnd]; unfold exec_checked, query, mbind, M_bind, calm; simpl; try done.
  by destruct (ok db).
Qed.
Lemma calm_random : keeps calm random.
Proof. intros [db now fs [|r rs]]; unfold calm; done. Qed.
Lemma calm_transaction {A} (m : SM A) : keeps calm m -> keeps calm (transaction m).
Proof.
  intros H e. unfold transaction, calm. intros He.
  pose proof (calm_stmt e He) as H1. destruct (stmt e) as [[[]|x] e1]; simpl in *; [|done].
  specialize (H e1 H1). destruct (m e1) as [[a|x] e2]; simpl in *; [|done].
  pose proof (calm_stmt e2 H) as H2. destruct (stmt e2) as [[[]|x] e3]; simpl in *; done.
Qed.
End calm.

Ltac keeps_calm :=
  keeps_tac;
  repeat first
    [ apply calm_stmt | apply calm_query | apply calm_query_row | apply calm_random
    | apply calm_exec | apply calm_exec_checked | apply calm_modify | apply calm_transaction
    | progress keeps_tac ].

(** Without faults a statement does what it says.  The equations rewrite a run
    from its first statement on. *)
Section clean_runs.
Context {B : Type} (db : DB) (now : time) (rnd : list string).
Local Abbreviation env d := (mkEnv d now [] rnd).

Lemma query_run {A} (f : DB -> A) (k : A -> SM B) :
  (query f ≫= k) (env db) = k (f db) (env db).
Proof. done. Qed.
Lemma query_row_run {A} (f : DB -> option A) (k : A -> SM B) :
  (query_row f ≫= k) (env db) =
  match f db with Some a => k a (env db) | None => (Err ErrNoRows, env db) end.
Proof. unfold query_row, query, mbind, M_bind. simpl. by destruct (f db). Qed.
Lemma exec_run (f : DB -> DB) (k : unit -> SM B) :
  (exec f ≫= k) (env db) = k tt (env (f db)).
Proof. done. Qed.
Lemma exec_checked_run ok (f : DB -> DB) (k : unit -> SM B) :
  (exec_checked ok f ≫= k) (env db) =
  if ok db then k tt (env (f db)) else (Err ErrConstraint, env db).
Proof. unfold exec_checked, query, mbind, M_bind. simpl. by destruct (ok db). Qed.
Lemma Now_run (k : time -> SM B) : (Now ≫= k) (env db) = k now (env db).
Proof. done. Qed.
Lemma gets_run {A} (f : Env -> A) (k : A -> SM B) : (gets f ≫= k) (env db) = k (f (env db)) (env db).
Proof. done. Qed.
Lemma fail_if_run c msg (k : unit -> SM B) :
  (fail_if c msg ≫= k) (env db) = if c then (Err (ErrText msg), env db) else k tt (env db).
Proof. by destruct c. Qed.
Lemma bind_assoc_run {A C} (m : SM A) (f : A -> SM C) (k : C -> SM B) (e : Env) :
  ((m ≫= f) ≫= k) e = (m ≫= fun a => f a ≫= k) e.
Proof. unfold mbind, M_bind. by destruct (m e) as [[a|x] e']. Qed.
End clean_runs.

Lemma exec_run_end f db now rnd :
  exec f (mkEnv db now [] rnd) = (Ok tt, mkEnv (f db) now [] rnd).
Proof. done. Qed.
Lemma query_row_run_end {A} (f : DB -> option A) db now rnd :
  query_row f (mkEnv db now [] rnd) =
  (match f db with Some a => Ok a | None => Err ErrNoRows end, mkEnv db now [] rnd).
Proof. unfold query_row, query, mbind, M_bind. simpl. by destruct (f db). Qed.
Lemma exec_checked_run_end ok f db now rnd :
  exec_checked ok f (mkEnv db now [] rnd) =
  if ok db then (Ok tt, mkEnv (f db) now [] rnd) else (Err ErrConstraint, mkEnv db now [] rnd).
Proof. unfold exec_checked, query, mbind, M_bind. simpl. by destruct (ok db). Qed.
Lemma query_run_end {A} (f : DB -> A) db now rnd :
  query f (mkEnv db now [] rnd) = (Ok (f db), mkEnv db now [] rnd).
Proof. done. Qed.
Lemma modify_db_run {B} (f : DB -> DB) (k : unit -> SM B) db now rnd :
  (modify (fun e : Env => e <| e_db ::= f |>) ≫= k) (mkEnv db now [] rnd) = k tt (mkEnv (f db) now [] rnd).
Proof. done. Qed.
Lemma transaction_run {A} (m : SM A) db now rnd :
  transaction m (mkEnv db now [] rnd) =
  match m (mkEnv db now [] rnd) with
  | (Err x, e2) => (Err x, e2 <| e_db := db |>)
  | (Ok a, e2) => match stmt e2 with
                  | (Err x, e3) => (Err x, e3 <| e_db := db |>)
                  | (Ok _, e3) => (Ok a, e3)
                  end
  end.
Proof. done. Qed.

(** Run the next statement of a fault-free environment. *)
Ltac run_step :=
  first
    [ rewrite bind_assoc_run | rewrite query_run | rewrite query_row_run | rewrite exec_run
    | rewrite exec_checked_run | rewrite Now_run | rewrite gets_run | rewrite fail_if_run
    | rewrite modify_db_run | rewrite exec_run_end | rewrite query_row_run_end
    | rewrite exec_checked_run_end | rewrite query_run_end ]; cbv beta.
