(* ===== verification/Traffic.v ===== *)
(** [internal/traffic]: the recorder that aggregates edge requests into minute
    buckets, the live hub, and the traffic tables of [internal/store/store.go].

    The recorder's goroutine is a state machine: an event is put on the channel,
    one is taken off and aggregated, the ticker flushes.  A Go map is walked in
    no particular order: a flush is given the order, and the theorem holds for
    every one. *)

From S2P Require Import Prelude GoString GoMonad GoTime GoCrypto Model StoreDB.
From Stdlib Require Import Ascii.

(* ------------------------------------------------------------------ *)
(** ** The tables *)

(** What one upsert adds to a row. *)
Record counters := mkcounters {
  co_requests : Z; co_bytesIn : Z; co_bytesOut : Z; co_blocked : Z;
  co_2xx : Z; co_3xx : Z; co_4xx : Z; co_5xx : Z
}.
#[export] Instance eta_counters : Eta counters := fun r =>
  mkcounters (co_requests r) (co_bytesIn r) (co_bytesOut r) (co_blocked r) (co_2xx r) (co_3xx r)
    (co_4xx r) (co_5xx r).
Definition zero_counters : counters := mkcounters 0 0 0 0 0 0 0 0.

(** The row of the insert, or what [ON CONFLICT DO UPDATE] makes of the old one. *)
Definition add_to_row (fqdn : string) (c : counters) (old : option TrafficRow) : TrafficRow :=
  let r := default (mkTrafficRow fqdn 0 0 0 0 0 0 0 0) old in
  mkTrafficRow fqdn (tr_requests r + co_requests c) (tr_bytes_in r + co_bytesIn c) (tr_bytes_out r + co_bytesOut c)
    (tr_blocked r + co_blocked c) (tr_status_2xx r + co_2xx c) (tr_status_3xx r + co_3xx c)
    (tr_status_4xx r + co_4xx c) (tr_status_5xx r + co_5xx c).

(** The foreign key of the three tables. *)
Definition host_exists (hostID : Z) (db : DB) : bool :=
  match t_hosts db !! hostID with Some _ => true | None => false end.

Definition UpsertHostTrafficMinute (hostID : Z) (fqdn country : string) (bucket : time) (c : counters) : SM unit :=
  exec_checked (host_exists hostID) (fun db => db <| t_host_traffic_minute ::= fun m =>
    <[(hostID, country, bucket) := add_to_row fqdn c (m !! (hostID, country, bucket))]> m |>).

Definition UpsertHostTrafficClassMinute (hostID : Z) (fqdn country class : string) (bucket : time) (c : counters) : SM unit :=
  let class := norm class in
  let class := if String.eqb class "" then "unknown" else class in
  exec_checked (host_exists hostID) (fun db => db <| t_host_traffic_class_minute ::= fun m =>
    <[(hostID, country, class, bucket) := add_to_row fqdn c (m !! (hostID, country, class, bucket))]> m |>).

Definition UpsertHostVisitorDaily (hostID : Z) (day ipHash : string) : SM unit :=
  exec_checked (host_exists hostID) (fun db => db <| t_host_visitors_daily ::= union {[(hostID, day, ipHash)]} |>).

(* ------------------------------------------------------------------ *)
(** ** Events *)

Record Event := mkEvent {
  ev_HostID : Z; ev_FQDN : string; ev_Country : string; ev_UserAgent : string; ev_ClientIP : string;
  ev_Status : Z; ev_BytesIn : Z; ev_BytesOut : Z; ev_Blocked : bool; ev_Timestamp : time
}.
#[export] Instance eta_Event : Eta Event := fun r =>
  mkEvent (ev_HostID r) (ev_FQDN r) (ev_Country r) (ev_UserAgent r) (ev_ClientIP r) (ev_Status r)
    (ev_BytesIn r) (ev_BytesOut r) (ev_Blocked r) (ev_Timestamp r).

Record trafficAgg := mktrafficAgg {
  ag_hostID : Z; ag_fqdn : string; ag_country : string; ag_bucketStart : time; ag_counters : counters
}.
#[export] Instance eta_trafficAgg : Eta trafficAgg := fun r =>
  mktrafficAgg (ag_hostID r) (ag_fqdn r) (ag_country r) (ag_bucketStart r) (ag_counters r).

Record trafficClassAgg := mktrafficClassAgg { cg_agg : trafficAgg; cg_class : string }.

(** [Recorder], with the three maps of its goroutine. *)
Record Recorder := mkRecorder {
  rc_ch : list Event; rc_traffic : gmap string trafficAgg; rc_class : gmap string trafficClassAgg;
  rc_visitors : gset string
}.
#[export] Instance eta_Recorder : Eta Recorder := fun r =>
  mkRecorder (rc_ch r) (rc_traffic r) (rc_class r) (rc_visitors r).

Definition NewRecorder : Recorder := mkRecorder [] ∅ ∅ ∅.
Definition channel_size : nat := Z.to_nat 8192.

(** What [Record] makes of an event: nothing when it is not kept. *)
Definition normalize_event (now : time) (ev : Event) : option Event :=
  if (ev_HostID ev <=? 0) || String.eqb (TrimSpace (ev_FQDN ev)) "" then None
  else
    let country := ToUpper (TrimSpace (ev_Country ev)) in
    let country := if String.eqb country "" then "ZZ" else country in
    if String.eqb country "LOCAL" then None
    else Some (ev <| ev_FQDN := norm (ev_FQDN ev) |> <| ev_Country := country |>
                  <| ev_Timestamp ::= fun t => if IsZero t then now else t |>).

(** A full channel drops the event. *)
Definition record_event (now : time) (ev : Event) (r : Recorder) : Recorder :=
  match normalize_event now ev with
  | None => r
  | Some ev => if (length (rc_ch r) <? channel_size)%nat then r <| rc_ch ::= fun l => l ++ [ev] |> else r
  end.

(* ------------------------------------------------------------------ *)
(** ** Texts *)

(** The digits of a positive number, last one first. *)
Fixpoint itoa_loop (fuel : nat) (v : Z) (b : string) : string :=
  match fuel with
  | O => b
  | S fuel => if v <=? 0 then b else itoa_loop fuel (Z.quot v 10) (String (byte (48 + Z.rem v 10)) b)
  end.
Definition itoa (v : Z) : string :=
  if v =? 0 then "0"
  else
    let neg := v <? 0 in
    let b := itoa_loop 20 (if neg then wrap64 (- v) else v) "" in
    if neg then "-" +:+ b else b.

Definition max64 (a b : Z) : Z := if b <? a then a else b.

Definition botHints : list string :=
  ["bot"; "crawler"; "spider"; "slurp"; "mediapartners-google";
   "googlebot"; "bingbot"; "duckduckbot"; "yandexbot"; "baiduspider";
   "semrush"; "ahrefs"; "mj12bot"; "dotbot"; "petalbot"; "facebookexternalhit";
   "curl/"; "wget/"; "python-requests"; "go-http-client"].

Definition classifyTrafficClass (userAgent : string) : string :=
  let ua := norm userAgent in
  if String.eqb ua "" then "unknown" else if existsb (Contains ua) botHints then "crawler" else "human".

Definition hashIP (ip : string) : string :=
  let ip := TrimSpace ip in if String.eqb ip "" then "" else sha256_hex ip.

(** [ev.Timestamp.UTC().Truncate(time.Minute)] *)
Definition minute_of (t : time) : time := t - t mod Minute.
Definition day_of (t : time) : string := date_text (t / Second / 86400).

Definition agg_key (ev : Event) : string :=
  Join [itoa (ev_HostID ev); ev_FQDN ev; ev_Country ev; RFC3339 (minute_of (ev_Timestamp ev))] "|".
Definition class_key (ev : Event) : string :=
  Join [itoa (ev_HostID ev); ev_FQDN ev; ev_Country ev; classifyTrafficClass (ev_UserAgent ev);
        RFC3339 (minute_of (ev_Timestamp ev))] "|".
Definition visitor_key (ev : Event) (ipHash : string) : string :=
  itoa (ev_HostID ev) +:+ "|" +:+ day_of (ev_Timestamp ev) +:+ "|" +:+ ipHash.

(* ------------------------------------------------------------------ *)
(** ** Aggregation *)

(** One request: the counts by one, the bytes in [int64]. *)
Definition count_event (ev : Event) (c : counters) : counters :=
  let st := ev_Status ev in
  let c := c <| co_requests ::= Z.succ |>
             <| co_bytesIn ::= fun n => wrap64 (n + max64 0 (ev_BytesIn ev)) |>
             <| co_bytesOut ::= fun n => wrap64 (n + max64 0 (ev_BytesOut ev)) |>
             <| co_blocked ::= fun n => if ev_Blocked ev then n + 1 else n |> in
  if (200 <=? st) && (st <? 300) then c <| co_2xx ::= Z.succ |>
  else if (300 <=? st) && (st <? 400) then c <| co_3xx ::= Z.succ |>
  else if (400 <=? st) && (st <? 500) then c <| co_4xx ::= Z.succ |>
  else if 500 <=? st then c <| co_5xx ::= Z.succ |>
  else c.

Definition fresh_agg (ev : Event) : trafficAgg :=
  mktrafficAgg (ev_HostID ev) (ev_FQDN ev) (ev_Country ev) (minute_of (ev_Timestamp ev)) zero_counters.

Definition count_agg (ev : Event) (a : trafficAgg) : trafficAgg := a <| ag_counters ::= count_event ev |>.

Definition aggregate (ev : Event) (r : Recorder) : Recorder :=
  let class := classifyTrafficClass (ev_UserAgent ev) in
  let ag := count_agg ev (default (fresh_agg ev) (rc_traffic r !! agg_key ev)) in
  let cag := match rc_class r !! class_key ev with
             | Some c => mktrafficClassAgg (count_agg ev (cg_agg c)) (cg_class c)
             | None => mktrafficClassAgg (count_agg ev (fresh_agg ev)) class
             end in
  let ipHash := hashIP (ev_ClientIP ev) in
  r <| rc_traffic ::= <[agg_key ev := ag]> |> <| rc_class ::= <[class_key ev := cag]> |>
    <| rc_visitors ::= fun v => if String.eqb ipHash "" then v else {[visitor_key ev ipHash]} ∪ v |>.

(** The goroutine takes the oldest event. *)
Definition take_event (r : Recorder) : Recorder :=
  match rc_ch r with
  | [] => r
  | ev :: l => aggregate ev (r <| rc_ch := l |>)
  end.

(* ------------------------------------------------------------------ *)
(** ** Flush *)

(** The host id at the head of a visitor key, digit by digit in [int64]. *)
Fixpoint parse_host_id (id : Z) (s : string) : Z :=
  match s with
  | "" => id
  | String c s' =>
      if negb (is_digit c) then 0 else parse_host_id (wrap64 (wrap64 (id * 10) + (code c - 48))) s'
  end.

(** [strings.SplitN(key, "|", 3)] and the checks on it. *)
Definition visitor_of (key : string) : option (Z * string * string) :=
  match cut "|"%char key with
  | Some (hostID, rest) =>
      match cut "|"%char rest with
      | Some (day, ipHash) =>
          let id := parse_host_id 0 hostID in
          if id <=? 0 then None else Some (id, day, ipHash)
      | None => None
      end
  | None => None
  end.

(** The writes of a flush, with the maps walked in the given orders; an error is
    logged and the row is lost. *)
Definition write_all (traffic : list trafficAgg) (classes : list trafficClassAgg) (visitors : list string) : SM unit :=
  for_each (fun a => ignore (UpsertHostTrafficMinute (ag_hostID a) (ag_fqdn a) (ag_country a)
                               (ag_bucketStart a) (ag_counters a))) traffic ≫= fun _ =>
  for_each (fun c => let a := cg_agg c in
              ignore (UpsertHostTrafficClassMinute (ag_hostID a) (ag_fqdn a) (ag_country a) (cg_class c)
                        (ag_bucketStart a) (ag_counters a))) classes ≫= fun _ =>
  for_each (fun key => match visitor_of key with
                       | Some (id, day, ipHash) => ignore (UpsertHostVisitorDaily id day ipHash)
                       | None => mret tt
                       end) visitors.

Definition flushed (r : Recorder) : Recorder := r <| rc_traffic := ∅ |> <| rc_class := ∅ |> <| rc_visitors := ∅ |>.

(** Orders a flush may walk the maps in. *)
Definition walks (r : Recorder) (traffic : list trafficAgg) (classes : list trafficClassAgg) (visitors : list string) : Prop :=
  traffic ≡ₚ (map_to_list (rc_traffic r)).*2 /\ classes ≡ₚ (map_to_list (rc_class r)).*2 /\
  visitors ≡ₚ elements (rc_visitors r).

(** The event [Record] puts on the channel, if it does. *)
Definition accepted (now : time) (ev : Event) (r : Recorder) : list Event :=
  match normalize_event now ev with
  | Some ev => if (length (rc_ch r) <? channel_size)%nat then [ev] else []
  | None => []
  end.

(** The recorder and its store, step by step, with the events each step accepts. *)
Inductive step : list Event -> Recorder * Env -> Recorder * Env -> Prop :=
| step_record now ev r e : step (accepted now ev r) (r, e) (record_event now ev r, e)
| step_take r e : step [] (r, e) (take_event r, e)
| step_flush r e traffic classes visitors :
    walks r traffic classes visitors ->
    step [] (r, e) (flushed r, (write_all traffic classes visitors e).2).

Inductive runs (s0 : Recorder * Env) : list Event -> Recorder * Env -> Prop :=
| runs_start : runs s0 [] s0
| runs_step l l' s s' : runs s0 l s -> step l' s s' -> runs s0 (l ++ l') s'.

(* ------------------------------------------------------------------ *)
(** ** The live hub *)

Record LiveTraceEvent := mkLiveTraceEvent {
  lt_Timestamp : string; lt_HostID : Z; lt_DomainID : Z; lt_FQDN : string; lt_Country : string;
  lt_Class : string; lt_Scanner : bool; lt_Status : Z; lt_Path : string; lt_SourceIP : string;
  lt_SourceType : string
}.

(** A subscriber's channel: its buffer and what it holds. *)
Record LiveHub := mkLiveHub { lh_nextID : Z; lh_subs : gmap Z (nat * list LiveTraceEvent) }.
#[export] Instance eta_LiveHub : Eta LiveHub := fun r => mkLiveHub (lh_nextID r) (lh_subs r).

Definition NewLiveHub : LiveHub := mkLiveHub 0 ∅.
Definition SubscriberCount (h : LiveHub) : Z := Z.of_nat (size (lh_subs h)).

Definition Subscribe (buffer : Z) (h : LiveHub) : Z * LiveHub :=
  let buffer := if buffer <=? 0 then 256 else buffer in
  let id := lh_nextID h + 1 in
  (id, mkLiveHub id (<[id := (Z.to_nat buffer, [])]> (lh_subs h))).
Definition cancel (id : Z) (h : LiveHub) : LiveHub := h <| lh_subs ::= delete id |>.

(** A full buffer misses the event; nobody waits. *)
Definition Publish (ev : LiveTraceEvent) (h : LiveHub) : LiveHub :=
  h <| lh_subs ::= fmap (fun '(size, l) => if (length l <? size)%nat then (size, l ++ [ev]) else (size, l)) |>.

(* ------------------------------------------------------------------ *)
(** ** Every request is counted once *)

Definition requests_of (a : trafficAgg) : Z := co_requests (ag_counters a).
(** Requests on the channel and in the maps, and requests in the table. *)
Definition pending (r : Recorder) : Z := Z.of_nat (length (rc_ch r)) + msum requests_of (rc_traffic r).
Definition stored (e : Env) : Z := msum tr_requests (t_host_traffic_minute (e_db e)).

Definition known (db : DB) (hostID : Z) : Prop := host_exists hostID db = true.

Lemma count_event_requests ev c : co_requests (count_event ev c) = co_requests c + 1.
Proof. unfold count_event. cbv zeta. repeat case_match; simpl; lia. Qed.

Lemma aggregate_pending ev r :
  msum requests_of (rc_traffic (aggregate ev r)) = msum requests_of (rc_traffic r) + 1.
Proof.
  unfold aggregate. cbv zeta. simpl. rewrite msum_insert. unfold requests_of at 1, count_agg. simpl.
  rewrite count_event_requests. destruct (rc_traffic r !! agg_key ev) as [a|]; simpl; unfold requests_of; lia.
Qed.

Lemma upsert_requests (hostID : Z) (fqdn country : string) (bucket : time) (c : counters) (m : gmap (Z * string * Z) TrafficRow) :
  msum tr_requests (<[(hostID, country, bucket) := add_to_row fqdn c (m !! (hostID, country, bucket))]> m) =
  msum tr_requests m + co_requests c.
Proof. rewrite msum_insert. unfold add_to_row. simpl. destruct (m !! _); simpl; lia. Qed.

(** The part of a flush the accounting is about. *)
Definition rest (db : DB) := (t_host_traffic_minute db, t_hosts db).

Lemma write_traffic l e :
  Forall (fun a => 0 <= requests_of a) l ->
  wp (for_each (fun a => ignore (UpsertHostTrafficMinute (ag_hostID a) (ag_fqdn a) (ag_country a)
        (ag_bucketStart a) (ag_counters a))) l)
   (fun _ e' => t_hosts (e_db e') = t_hosts (e_db e) /\ stored e' <= stored e + lsum (map requests_of l) /\
      (e_faults e = [] -> Forall (fun a => known (e_db e) (ag_hostID a)) l ->
       e_faults e' = [] /\ stored e' = stored e + lsum (map requests_of l))) e.
Proof.
  revert e. induction l as [|a l IH]; intros e Hp; simpl.
  { apply wp_ret. unfold lsum. simpl. split_and!; [done|lia|]. intros Hf _. split; [done|lia]. }
  apply Forall_cons in Hp as [Ha Hp]. apply wp_bind, wp_ignore.
  assert (H1 : wp (UpsertHostTrafficMinute (ag_hostID a) (ag_fqdn a) (ag_country a) (ag_bucketStart a) (ag_counters a))
    (fun _ e' => t_hosts (e_db e') = t_hosts (e_db e) /\ stored e' <= stored e + requests_of a /\
       (e_faults e = [] -> known (e_db e) (ag_hostID a) -> e_faults e' = [] /\ stored e' = stored e + requests_of a)) e).
  { destruct e as [db now [|b fs] rnd].
    - unfold wp, UpsertHostTrafficMinute. rewrite exec_checked_run_end. unfold known.
      destruct (host_exists (ag_hostID a) db) eqn:E; unfold stored; simpl; rewrite ?upsert_requests, ?E;
        fold (requests_of a); (split_and!; [done|lia|]); intros Hf Hk; (split; [done|]); first [lia|congruence].
    - apply wp_exec_checked; intros; unfold stored; simpl; rewrite ?upsert_requests; fold (requests_of a);
        (split_and!; [done|lia|done]). }
  eapply wp_mono; [exact H1|]. clear H1. intros _ e1 (Hh1 & Hle1 & Heq1).
  eapply wp_mono; [by apply IH|]. intros _ e2 (Hh2 & Hle2 & Heq2).
  split_and!; [congruence|unfold lsum in *; simpl; lia|].
  intros Hf [Hk Hks]%Forall_cons. destruct (Heq1 Hf Hk) as [Hf1 E1]. destruct (Heq2 Hf1) as [Hf2 E2].
  { eapply Forall_impl; [exact Hks|]. intros x. unfold known, host_exists. by rewrite Hh1. }
  split; [done|]. unfold lsum in *. simpl. lia.
Qed.

Lemma write_rest_keeps classes visitors :
  keeps (same rest)
    (for_each (fun c => let a := cg_agg c in
              ignore (UpsertHostTrafficClassMinute (ag_hostID a) (ag_fqdn a) (ag_country a) (cg_class c)
                        (ag_bucketStart a) (ag_counters a))) classes ≫= fun _ =>
     for_each (fun key => match visitor_of key with
                       | Some (id, day, ipHash) => ignore (UpsertHostVisitorDaily id day ipHash)
                       | None => mret tt
                       end) visitors).
Proof. unfold UpsertHostTrafficClassMinute, UpsertHostVisitorDaily. keeps_db. Qed.

Lemma write_rest_calm classes visitors :
  keeps calm
    (for_each (fun c => let a := cg_agg c in
              ignore (UpsertHostTrafficClassMinute (ag_hostID a) (ag_fqdn a) (ag_country a) (cg_class c)
                        (ag_bucketStart a) (ag_counters a))) classes ≫= fun _ =>
     for_each (fun key => match visitor_of key with
                       | Some (id, day, ipHash) => ignore (UpsertHostVisitorDaily id day ipHash)
                       | None => mret tt
                       end) visitors).
Proof. unfold UpsertHostTrafficClassMinute, UpsertHostVisitorDaily. keeps_calm. Qed.

(** What a step preserves: nothing is counted twice, and nothing is lost while no
    statement fails and the hosts exist. *)
Record accounted (e0 : Env) (l : list Event) (s : Recorder * Env) : Prop := {
  ac_hosts : t_hosts (e_db s.2) = t_hosts (e_db e0);
  ac_bound : (length (rc_ch s.1) <= channel_size)%nat;
  ac_nonneg : forall k a, rc_traffic s.1 !! k = Some a -> 0 <= requests_of a;
  ac_le : stored s.2 + pending s.1 <= stored e0 + Z.of_nat (length l);
  ac_eq : e_faults e0 = [] -> Forall (fun ev => known (e_db e0) (ev_HostID ev)) l ->
    e_faults s.2 = [] /\ Forall (fun ev => known (e_db e0) (ev_HostID ev)) (rc_ch s.1) /\
    (forall k a, rc_traffic s.1 !! k = Some a -> known (e_db e0) (ag_hostID a)) /\
    stored s.2 + pending s.1 = stored e0 + Z.of_nat (length l)
}.

Lemma accounted_record e0 l now ev r e :
  accounted e0 l (r, e) -> accounted e0 (l ++ accepted now ev r) (record_event now ev r, e).
Proof.
  intros [H1 H2 H3 H4 H5]. unfold accepted, record_event in *. simpl in *.
  destruct (normalize_event now ev) as [ev'|]; [|rewrite app_nil_r; by split].
  destruct (length (rc_ch r) <? channel_size)%nat eqn:E; [|rewrite app_nil_r; by split].
  apply Nat.ltb_lt in E.
  split; unfold pending in *; simpl in *; rewrite ?length_app; simpl; try done; try lia.
  intros Hf [Hl Hev]%Forall_app. destruct (H5 Hf Hl) as (G1 & G2 & G3 & G4).
  split_and!; try done; [by apply Forall_app|lia].
Qed.

Lemma aggregate_lookup ev r k a : rc_traffic (aggregate ev r) !! k = Some a ->
  rc_traffic r !! k = Some a \/
  a = count_agg ev (default (fresh_agg ev) (rc_traffic r !! agg_key ev)).
Proof.
  unfold aggregate. cbv zeta. intros Hk.
  change (<[agg_key ev := count_agg ev (default (fresh_agg ev) (rc_traffic r !! agg_key ev))]> (rc_traffic r) !! k = Some a) in Hk.
  apply lookup_insert_Some in Hk as [[_ <-]|[_ Hk]]; [by right|by left].
Qed.

Lemma accounted_take e0 l r e : accounted e0 l (r, e) -> accounted e0 l (take_event r, e).
Proof.
  intros [H1 H2 H3 H4 H5]. unfold take_event. simpl in *.
  destruct (rc_ch r) as [|ev ch] eqn:Hch; [split; simpl; rewrite ?Hch; done|].
  set (r1 := r <| rc_ch := ch |>).
  assert (Hp : pending (aggregate ev r1) = pending r).
  { unfold pending. rewrite aggregate_pending, Hch. unfold r1. simpl. lia. }
  assert (Hk : forall (P : trafficAgg -> Prop), (forall k a, rc_traffic r !! k = Some a -> P a) ->
    (forall a, P a \/ a = fresh_agg ev -> P (count_agg ev a)) ->
    forall k a, rc_traffic (aggregate ev r1) !! k = Some a -> P a).
  { intros P Hr Hc k a [Hk| ->]%aggregate_lookup; [by apply (Hr k)|]. apply Hc.
    destruct (rc_traffic r1 !! agg_key ev) as [b|] eqn:E; [left; by apply (Hr _ b E)|by right]. }
  split; simpl.
  - done.
  - change (length ch <= channel_size)%nat. simpl in H2. lia.
  - apply (Hk (fun a => 0 <= requests_of a)); [done|]. intros a [Ha| ->]; unfold requests_of, count_agg; simpl;
      rewrite count_event_requests; [unfold requests_of in Ha; lia|simpl; lia].
  - rewrite Hp. done.
  - intros Hf Hl. destruct (H5 Hf Hl) as (G1 & [G2 G2']%Forall_cons & G3 & G4). rewrite Hp.
    split_and!; [done|exact G2'| |done].
    apply (Hk (fun a => known (e_db e0) (ag_hostID a))); [done|]. intros a [Ha| ->]; [exact Ha|exact G2].
Qed.

Lemma accounted_flush e0 l r e traffic classes visitors :
  walks r traffic classes visitors -> accounted e0 l (r, e) ->
  accounted e0 l (flushed r, (write_all traffic classes visitors e).2).
Proof.
  intros (W & _ & _) [H1 H2 H3 H4 H5]. simpl in *.
  assert (Hin : forall a, a ∈ traffic -> exists k, rc_traffic r !! k = Some a).
  { intros a Ha. rewrite W in Ha. apply list_elem_of_fmap in Ha as ([k b] & -> & Hb).
    exists k. by apply elem_of_map_to_list. }
  assert (Hsum : lsum (map requests_of traffic) = msum requests_of (rc_traffic r)) by (unfold msum; by rewrite W).
  assert (Hpos : Forall (fun a => 0 <= requests_of a) traffic).
  { apply Forall_forall. intros a Ha%Hin. destruct Ha as [k Hk]. by eapply H3. }
  assert (Hp : pending (flushed r) = pending r - msum requests_of (rc_traffic r)).
  { unfold pending, flushed. simpl. rewrite msum_empty. lia. }
  match goal with |- accounted _ _ (_, ?x) => assert (Hw : t_hosts (e_db x) = t_hosts (e_db e) /\
    stored x <= stored e + lsum (map requests_of traffic) /\
      (e_faults e = [] -> Forall (fun a => known (e_db e) (ag_hostID a)) traffic ->
       e_faults x = [] /\ stored x = stored e + lsum (map requests_of traffic))) end.
  { apply (wp_apply (write_all traffic classes visitors) (fun _ x => t_hosts (e_db x) = t_hosts (e_db e) /\
      stored x <= stored e + lsum (map requests_of traffic) /\
      (e_faults e = [] -> Forall (fun a => known (e_db e) (ag_hostID a)) traffic ->
       e_faults x = [] /\ stored x = stored e + lsum (map requests_of traffic)))).
    unfold write_all. apply wp_bind. eapply wp_mono; [by apply write_traffic|].
    intros [[]|er] e1 (E1 & E2 & E3); [|done].
    eapply wp_mono; [apply wp_and; apply keeps_wp; [apply write_rest_keeps|apply write_rest_calm]|].
    intros _ e2 [[[= F1 F2] _] Hcalm]. unfold stored in *. rewrite F1, F2. split_and!; [done|done|].
    intros Hf Hk. destruct (E3 Hf Hk) as [Hf1 ->]. split; [by apply Hcalm|done]. }
  destruct Hw as (E1 & E2 & E3). rewrite Hsum in *.
  split; simpl; [congruence|done|by intros k a Hk; rewrite lookup_empty in Hk|lia|].
  intros Hf Hl. destruct (H5 Hf Hl) as (G1 & G2 & G3 & G4). destruct (E3 G1) as [F1 F2].
  { apply Forall_forall. intros a Ha%Hin. destruct Ha as [k Hk]. apply G3 in Hk.
    unfold known, host_exists in *. by rewrite H1. }
  split_and!; [done|exact G2|by intros k a Hk; rewrite lookup_empty in Hk|lia].
Qed.

Lemma accounted_runs e0 l s : runs (NewRecorder, e0) l s -> accounted e0 l s.
Proof.
  induction 1 as [|l l' s s' Hr IH Hs].
  - split; simpl.
    + done.
    + lia.
    + by intros k a Hk.
    + unfold pending. simpl. rewrite msum_empty. lia.
    + intros Hf _. split_and!; [done|constructor|by intros k a Hk|]. unfold pending. simpl. rewrite msum_empty. lia.
  - destruct Hs; rewrite ?app_nil_r; [by apply accounted_record|by apply accounted_take|by apply accounted_flush].
Qed.

(** C20. The traffic statistics count every request once: however recording,
    aggregation and flushes interleave, the channel stays within its bound and
    the requests in the table and those still on their way never exceed what was
    there and what was accepted, whatever statements fail; they are exactly that
    when none fails and the hosts of the events exist. *)
Theorem requests_accounted e0 l r e :
  runs (NewRecorder, e0) l (r, e) ->
  (length (rc_ch r) <= channel_size)%nat /\
  stored e + pending r <= stored e0 + Z.of_nat (length l) /\
  (e_faults e0 = [] -> Forall (fun ev => known (e_db e0) (ev_HostID ev)) l ->
   stored e + pending r = stored e0 + Z.of_nat (length l)).
Proof.
  intros [_ H2 _ H4 H5]%accounted_runs. split_and!; [exact H2|exact H4|].
  intros Hf Hl. by destruct (H5 Hf Hl) as (_ & _ & _ & ?).
Qed.

Definition demo_event (host : Z) (country ua : string) : Event :=
  mkEvent host " App.Example.org" country ua "203.0.113.9" 200 10 20 false (61 * Second).
Definition demo_env : Env := clean (empty_DB <| t_hosts := {[7 := zero_Host]} |>) Day.
Definition demo_recorder : Recorder :=
  take_event (take_event (record_event Day (demo_event 7 "" "curl/8") (record_event Day (demo_event 7 "de" "") NewRecorder))).

Lemma requests_accounted_witness :
  let traffic := (map_to_list (rc_traffic demo_recorder)).*2 in
  let classes := (map_to_list (rc_class demo_recorder)).*2 in
  let visitors := elements (rc_visitors demo_recorder) in
  let e := (write_all traffic classes visitors demo_env).2 in
  stored e = 2 /\ pending (flushed demo_recorder) = 0 /\ stored e + pending (flushed demo_recorder) <= stored demo_env + 2.
Proof.
  cbv zeta. split; [vm_compute; reflexivity|]. split; [vm_compute; reflexivity|].
  set (l := accepted Day (demo_event 7 "de" "") NewRecorder ++
            accepted Day (demo_event 7 "" "curl/8") (record_event Day (demo_event 7 "de" "") NewRecorder)).
  assert (Hr : runs (NewRecorder, demo_env) l (flushed demo_recorder,
    (write_all (map_to_list (rc_traffic demo_recorder)).*2 (map_to_list (rc_class demo_recorder)).*2
       (elements (rc_visitors demo_recorder)) demo_env).2)).
  { rewrite <- (app_nil_r l). eapply runs_step; [|by apply step_flush].
    rewrite <- (app_nil_r l). eapply runs_step; [|apply step_take].
    rewrite <- (app_nil_r l). eapply runs_step; [|apply step_take].
    apply (runs_step _ _ _ _ _ (runs_step _ [] _ _ _ (runs_start _) (step_record _ _ _ _)) (step_record _ _ _ _)). }
  destruct (requests_accounted demo_env l _ _ Hr) as (_ & H & _).
  replace 2 with (Z.of_nat (length l)) by (vm_compute; reflexivity). exact H.
Defined.

(* ------------------------------------------------------------------ *)
(** ** The printer of keys *)

Lemma pretty_N_char_byte (d : N) : (d < 10)%N -> pretty_N_char d = byte (48 + Z.of_N d).
Proof.
  intros Hd. destruct d as [|q]; [reflexivity|].
  do 9 (destruct q as [q|q|]; try reflexivity; try lia).
Qed.

Lemma itoa_loop_go fuel n s : (n < 10 ^ N.of_nat fuel)%N -> itoa_loop fuel (Z.of_N n) s = pretty_N_go n s.
Proof.
  revert n s. induction fuel as [|fuel IH]; intros n s Hn; simpl.
  { replace n with 0%N by (change (10 ^ N.of_nat 0)%N with 1%N in Hn; lia). done. }
  destruct (Z.of_N n <=? 0) eqn:E; [by replace n with 0%N by lia|].
  rewrite Nat2N.inj_succ, N.pow_succ_r' in Hn.
  rewrite pretty_N_go_step by lia. rewrite <- IH by (apply N.Div0.div_lt_upper_bound; lia).
  assert (Hm : (n mod 10 < 10)%N) by (apply N.mod_lt; lia).
  rewrite pretty_N_char_byte by done.
  rewrite Z.quot_div_nonneg, Z.rem_mod_nonneg, N2Z.inj_div, N2Z.inj_mod by lia. done.
Qed.

Lemma itoa_pos p : Z.pos p <= max_int64 -> itoa_loop 20 (Z.pos p) "" = pretty (N.pos p).
Proof.
  intros Hp. change (Z.pos p) with (Z.of_N (N.pos p)). rewrite itoa_loop_go by
    (change (10 ^ N.of_nat 20)%N with 100000000000000000000%N; change max_int64 with 9223372036854775807 in Hp; lia).
  unfold pretty, pretty_N. by rewrite decide_False.
Qed.

(** The recorder's own integer printer agrees with [strconv.Itoa] on every
    64-bit integer but the smallest, for which the negation overflows and only
    the sign is printed. *)
Theorem itoa_equiv v :
  in_int64 v = true -> itoa v = if v =? min_int64 then "-" else Itoa v.
Proof.
  intros Hv. unfold in_int64, min_int64, max_int64 in Hv. unfold itoa, Itoa, min_int64.
  destruct v as [|p|p]; [reflexivity| |].
  - change (Z.pos p <? 0) with false. change (Z.pos p =? 0) with false. cbv zeta iota.
    rewrite itoa_pos by (unfold max_int64; lia). destruct (Z.pos p =? _) eqn:E; [discriminate E|done].
  - change (Z.neg p <? 0) with true. change (Z.neg p =? 0) with false. cbv zeta iota.
    destruct (Z.neg p =? _) eqn:E.
    + apply Z.eqb_eq in E. change (- 2 ^ 63) with (Z.neg 9223372036854775808) in E. injection E as ->. reflexivity.
    + apply Z.eqb_neq in E. change (- 2 ^ 63) with (- 9223372036854775808) in *.
      change (2 ^ 63 - 1) with 9223372036854775807 in Hv.
      pose proof (Pos2Z.is_pos p). rewrite <- (Pos2Z.opp_pos p) in Hv, E |- *.
      rewrite wrap64_small by (unfold in_int64; change min_int64 with (- 9223372036854775808);
        change max_int64 with 9223372036854775807; lia).
      rewrite Z.opp_involutive.
      rewrite itoa_pos by (change max_int64 with 9223372036854775807; lia). reflexivity.
Qed.

Lemma itoa_equiv_witness : itoa (-1234567890123) = "-1234567890123".
Proof. apply (itoa_equiv (-1234567890123)). vm_compute. reflexivity. Defined.

(** Two requests whose clients declare a body of [2^63 - 1] bytes make the byte
    counter of the minute negative. *)
Example bytes_in_overflow :
  let ev := (demo_event 7 "de" "") <| ev_BytesIn := max_int64 |> in
  let r := take_event (take_event (record_event Day ev (record_event Day ev NewRecorder))) in
  map (fun a => co_bytesIn (ag_counters a)) (map_to_list (rc_traffic r)).*2 = [-2].
Proof. vm_compute. reflexivity. Qed.
