(* ===== verification/StoreThreat.v ===== *)
(** [internal/store/store.go]: settings, blocked addresses and the tables of
    the threat engine.

    Parameters of the Go methods that are only the context are left out.  A
    timestamp column holds the instant its text denotes; where SQL compares
    two of them, the comparison is of the texts ([text_lt]). *)

From S2P Require Import Prelude GoString GoMonad GoTime Model StoreDB.

(* ------------------------------------------------------------------ *)
(** ** Settings *)

Definition GetSetting (key : string) : SM string :=
  query_row (fun db => t_settings db !! key).

Definition SetSetting (key value : string) : SM unit :=
  exec (fun db => db <| t_settings ::= <[key := value]> |>).

(** [if v, err := s.GetSetting(ctx, key); err == nil { cfg = f(v, cfg) }] *)
Definition read_setting {C} (key : string) (f : string -> C -> C) (cfg : C) : SM C :=
  r ← try_ (GetSetting key);
  mret (match r with Ok v => f v cfg | Err _ => cfg end).

(** [if n, nErr := strconv.Atoi(strings.TrimSpace(v)); nErr == nil && n >= lo && n <= hi] *)
Definition int_between (lo hi : Z) (v : string) : option Z :=
  match Atoi (TrimSpace v) with
  | Some n => if (lo <=? n) && (n <=? hi) then Some n else None
  | None => None
  end.

Definition is_true (v : string) : bool := EqualFold (TrimSpace v) "true".

Definition default_config : ThreatIntelConfig :=
  mkThreatIntelConfig false "monitor_only" false "hard_only" 24 2 10 2 3 6 15.

Definition read_mode (v : string) (cfg : ThreatIntelConfig) : ThreatIntelConfig :=
  let mode := ToLower (TrimSpace v) in
  if String.eqb mode "monitor_only" || String.eqb mode "auto_mode" then cfg <| tc_Mode := mode |>
  else if String.eqb mode "log_only" then cfg <| tc_Mode := "monitor_only" |>
  else if String.eqb mode "hard_check" || String.eqb mode "soft_block" || String.eqb mode "hard_block"
  then cfg <| tc_Mode := "auto_mode" |>
  else cfg.

Definition read_os_mode (v : string) (cfg : ThreatIntelConfig) : ThreatIntelConfig :=
  let mode := ToLower (TrimSpace v) in
  if String.eqb mode "hard_only" || String.eqb mode "all_blocked"
  then cfg <| tc_OSFirewallMode := mode |> else cfg.

(** An integer setting overwrites the default only inside its bounds. *)
Definition read_int (lo hi : Z) (set : Z -> ThreatIntelConfig -> ThreatIntelConfig)
    (v : string) (cfg : ThreatIntelConfig) : ThreatIntelConfig :=
  match int_between lo hi v with Some n => set n cfg | None => cfg end.

(** The last three tests of [GetThreatIntelConfig]. *)
Definition order_levels (cfg : ThreatIntelConfig) : ThreatIntelConfig :=
  let cfg := if tc_OffenderMinHits cfg <=? tc_EventMinHits cfg
             then cfg <| tc_OffenderMinHits := tc_EventMinHits cfg + 1 |> else cfg in
  let cfg := if tc_SoftMinLevel cfg <=? tc_MonitorMaxLevel cfg
             then cfg <| tc_SoftMinLevel := tc_MonitorMaxLevel cfg + 1 |> else cfg in
  if tc_HardLevel cfg <=? tc_SoftMinLevel cfg
  then cfg <| tc_HardLevel := tc_SoftMinLevel cfg + 1 |> else cfg.

Definition GetThreatIntelConfig : SM ThreatIntelConfig :=
  cfg ← read_setting "threatintel.enabled" (fun v c => c <| tc_Enabled := is_true v |>) default_config;
  cfg ← read_setting "threatintel.mode" read_mode cfg;
  cfg ← read_setting "threatintel.os_firewall" (fun v c => c <| tc_OSFirewall := is_true v |>) cfg;
  cfg ← read_setting "threatintel.os_firewall_mode" read_os_mode cfg;
  cfg ← read_setting "threatintel.sync_hours" (read_int 1 168 (fun n c => c <| tc_SyncHours := n |>)) cfg;
  cfg ← read_setting "threatintel.event_min_hits" (read_int 1 100 (fun n c => c <| tc_EventMinHits := n |>)) cfg;
  cfg ← read_setting "threatintel.offender_min_hits" (read_int 2 10000 (fun n c => c <| tc_OffenderMinHits := n |>)) cfg;
  cfg ← read_setting "threatintel.monitor_max_level" (read_int 0 32 (fun n c => c <| tc_MonitorMaxLevel := n |>)) cfg;
  cfg ← read_setting "threatintel.soft_min_level" (read_int 1 32 (fun n c => c <| tc_SoftMinLevel := n |>)) cfg;
  cfg ← read_setting "threatintel.hard_level" (read_int 2 64 (fun n c => c <| tc_HardLevel := n |>)) cfg;
  cfg ← read_setting "threatintel.soft_block_minutes" (read_int 1 (24 * 60) (fun n c => c <| tc_SoftBlockMinutes := n |>)) cfg;
  mret (order_levels cfg).

(** The numeric clamps of [SetThreatIntelConfig], in its order. *)
Definition clamp_sync (cfg : ThreatIntelConfig) : ThreatIntelConfig :=
  let cfg := if tc_SyncHours cfg <=? 0 then cfg <| tc_SyncHours := 24 |> else cfg in
  if 168 <? tc_SyncHours cfg then cfg <| tc_SyncHours := 168 |> else cfg.
Definition clamp_hits (cfg : ThreatIntelConfig) : ThreatIntelConfig :=
  let cfg := if tc_EventMinHits cfg <=? 0 then cfg <| tc_EventMinHits := 2 |> else cfg in
  if tc_OffenderMinHits cfg <=? tc_EventMinHits cfg
  then cfg <| tc_OffenderMinHits := tc_EventMinHits cfg + 1 |> else cfg.
Definition clamp_levels (cfg : ThreatIntelConfig) : ThreatIntelConfig :=
  let cfg := if tc_MonitorMaxLevel cfg <? 0 then cfg <| tc_MonitorMaxLevel := 0 |> else cfg in
  let cfg := if tc_SoftMinLevel cfg <=? tc_MonitorMaxLevel cfg
             then cfg <| tc_SoftMinLevel := tc_MonitorMaxLevel cfg + 1 |> else cfg in
  if tc_HardLevel cfg <=? tc_SoftMinLevel cfg
  then cfg <| tc_HardLevel := tc_SoftMinLevel cfg + 1 |> else cfg.
Definition clamp_minutes (cfg : ThreatIntelConfig) : ThreatIntelConfig :=
  let cfg := if tc_SoftBlockMinutes cfg <=? 0 then cfg <| tc_SoftBlockMinutes := 15 |> else cfg in
  if 24 * 60 <? tc_SoftBlockMinutes cfg then cfg <| tc_SoftBlockMinutes := 24 * 60 |> else cfg.
Definition clamp_config (cfg : ThreatIntelConfig) : ThreatIntelConfig :=
  clamp_minutes (clamp_levels (clamp_hits (clamp_sync cfg))).

Definition SetThreatIntelConfig (cfg : ThreatIntelConfig) : SM unit :=
  let cfg := if String.eqb (tc_Mode cfg) "" then cfg <| tc_Mode := "monitor_only" |> else cfg in
  let mode := ToLower (TrimSpace (tc_Mode cfg)) in
  fail_if (negb (String.eqb mode "monitor_only" || String.eqb mode "auto_mode"))
          "invalid threat intel mode" ≫= fun _ =>
  let osfw := ToLower (TrimSpace (tc_OSFirewallMode cfg)) in
  let osfw := if String.eqb osfw "" then "hard_only" else osfw in
  fail_if (negb (String.eqb osfw "hard_only" || String.eqb osfw "all_blocked"))
          "invalid os firewall mode" ≫= fun _ =>
  let cfg := clamp_config cfg in
  SetSetting "threatintel.enabled" (FormatBool (tc_Enabled cfg)) ≫= fun _ =>
  SetSetting "threatintel.mode" mode ≫= fun _ =>
  SetSetting "threatintel.os_firewall" (FormatBool (tc_OSFirewall cfg)) ≫= fun _ =>
  SetSetting "threatintel.os_firewall_mode" osfw ≫= fun _ =>
  SetSetting "threatintel.sync_hours" (Itoa (tc_SyncHours cfg)) ≫= fun _ =>
  SetSetting "threatintel.event_min_hits" (Itoa (tc_EventMinHits cfg)) ≫= fun _ =>
  SetSetting "threatintel.offender_min_hits" (Itoa (tc_OffenderMinHits cfg)) ≫= fun _ =>
  SetSetting "threatintel.monitor_max_level" (Itoa (tc_MonitorMaxLevel cfg)) ≫= fun _ =>
  SetSetting "threatintel.soft_min_level" (Itoa (tc_SoftMinLevel cfg)) ≫= fun _ =>
  SetSetting "threatintel.hard_level" (Itoa (tc_HardLevel cfg)) ≫= fun _ =>
  SetSetting "threatintel.soft_block_minutes" (Itoa (tc_SoftBlockMinutes cfg)).

(* ------------------------------------------------------------------ *)
(** ** Blocked addresses *)

Definition IsIPBlocked (ip : string) : SM bool :=
  let ip := TrimSpace ip in
  if String.eqb ip "" then mret false
  else query (fun db => bool_decide (is_Some (t_blocked_ips db !! ip))).

(** [ON CONFLICT(ip) DO UPDATE SET reason, updated_at]: the creation time stays. *)
Definition upsert_ip (ip reason : string) (now : time) (m : gmap string BlockedIP) : gmap string BlockedIP :=
  let created := match m !! ip with Some b => b_CreatedAt b | None => now end in
  <[ip := mkBlockedIP ip reason created now]> m.

Definition UpsertBlockedIP (ip reason : string) : SM unit :=
  now ← Now;
  exec (fun db => db <| t_blocked_ips ::= upsert_ip (TrimSpace ip) (TrimSpace reason) now |>).

Definition RemoveBlockedIP (ip : string) : SM unit :=
  exec (fun db => db <| t_blocked_ips ::= delete (TrimSpace ip) |>).

Definition ListBlockedIPs (n : Z) : SM (list BlockedIP) :=
  let n := if (n <=? 0) || (200000 <? n) then 200 else n in
  query (fun db => limit n (order_by (desc_time b_UpdatedAt) (rows (t_blocked_ips db)))).

Definition ListBlockedIPsBefore (cutoff : time) (n : Z) : SM (list BlockedIP) :=
  let n := if (n <=? 0) || (200000 <? n) then 1000 else n in
  query (fun db =>
    limit n (order_by (asc_time b_CreatedAt)
      (List.filter (fun b => text_lt (b_CreatedAt b) cutoff) (rows (t_blocked_ips db))))).

Definition PurgeBlockedIPsBefore (cutoff : time) : SM Z :=
  let old b := text_lt (b_UpdatedAt b) cutoff in
  n ← query (fun db => Z.of_nat (length (List.filter old (rows (t_blocked_ips db)))));
  modify (fun e : Env => e <| e_db ::= fun db =>
    db <| t_blocked_ips ::= keep_rows (fun b => negb (old b)) |> |>) ≫= fun _ => mret n.

(* ------------------------------------------------------------------ *)
(** ** Ban and rehabilitation history *)

Definition normalizeBanKind (kind : string) : string :=
  if String.eqb (ToLower (TrimSpace kind)) "soft" then "soft" else "hard".

(** [SELECT MIN(first_seen_at) FROM threat_intel_matches WHERE ip=?] *)
Definition first_seen (ip : string) (db : DB) : option time :=
  match List.filter (fun m => String.eqb (mr_ip m) ip) (rows (t_threat_intel_matches db)) with
  | [] => None
  | m :: l => Some (fold_left (fun t m => if text_lt (mr_first_seen_at m) t then mr_first_seen_at m else t)
                              l (mr_first_seen_at m))
  end.

Definition state_xp (ip : string) (db : DB) : Z :=
  match t_threat_intel_ip_state db !! ip with Some r => ts_XP (sr_state r) | None => 0 end.

(** The row is the open entry of its address and kind. *)
Definition is_open (ip kind : string) (h : BanHistory) : bool :=
  String.eqb (bh_ip h) ip && String.eqb (bh_ban_kind h) kind && (bh_rehab_at h =? 0).

Definition add_ban (ip : string) (seen banned : time) (kind reason : string) (created : time) (db : DB) : DB :=
  (take_id "threat_intel_ban_history" db) <| t_threat_intel_ban_history ::= fun l =>
    l ++ [mkBanHistory (next_id "threat_intel_ban_history" db) ip seen banned kind
            (state_xp ip db) reason 0 false created] |>.

Definition EnsureThreatIntelBanHistoryForIP (ip reason banKind : string) : SM unit :=
  let ip := TrimSpace ip in
  let reason := TrimSpace reason in
  let kind := normalizeBanKind banKind in
  if String.eqb ip "" then mret tt
  else
    now ← Now;
    exec (fun db =>
      if existsb (is_open ip kind) (t_threat_intel_ban_history db) then db
      else add_ban ip (default now (first_seen ip db)) now kind reason now db).

Definition sync_one (now : time) (db : DB) (b : BlockedIP) : DB :=
  if existsb (is_open (b_IP b) "hard") (t_threat_intel_ban_history db) then db
  else add_ban (b_IP b) (default (b_CreatedAt b) (first_seen (b_IP b) db)) (b_CreatedAt b) "hard"
         (b_Reason b) now db.

Definition SyncThreatIntelBanHistoryOpen : SM unit :=
  now ← Now;
  exec (fun db => fold_left (sync_one now) (rows (t_blocked_ips db)) db).

(** The most recent open row: [ORDER BY banned_at DESC LIMIT 1]. *)
Definition latest_open (ip kind : string) (l : list BanHistory) : option BanHistory :=
  head (order_by (desc_time bh_banned_at) (List.filter (is_open ip kind) l)).

Definition close_row (now : time) (falsePositive : bool) (h : BanHistory) : BanHistory :=
  h <| bh_rehab_at := now |> <| bh_false_positive ::= fun fp => falsePositive || fp |>.

Definition CloseThreatIntelBanHistory (ip banKind : string) (falsePositive : bool) : SM unit :=
  let ip := TrimSpace ip in
  let kind := normalizeBanKind banKind in
  if String.eqb ip "" then mret tt
  else
    now ← Now;
    exec (fun db => db <| t_threat_intel_ban_history ::= fun l =>
      match latest_open ip kind l with
      | None => l
      | Some h => map (fun r => if bh_id r =? bh_id h then close_row now falsePositive r else r) l
      end |>).

Definition RecordThreatIntelRehabEvent (ip : string) (hadBlock : bool) (reason : string) : SM unit :=
  let ip := TrimSpace ip in
  let reason := TrimSpace reason in
  if String.eqb ip "" then mret tt
  else
    now ← Now;
    exec (fun db => db <| t_threat_intel_rehab_history ::= fun l =>
      l ++ [mkRehabHistory ip (default 0 (first_seen ip db)) now hadBlock reason now] |>).

(* ------------------------------------------------------------------ *)
(** ** Feeds and the allow list *)

Definition feed_by_url (url : string) (db : DB) : option ThreatIntelFeed :=
  find_row (fun f => String.eqb (tf_URL f) url) (t_threat_intel_feeds db).

(** [INSERT ... ON CONFLICT(url) DO UPDATE SET upd] *)
Definition upsert_feed (url : string) (upd : ThreatIntelFeed -> ThreatIntelFeed)
    (new : Z -> ThreatIntelFeed) (db : DB) : DB :=
  match feed_by_url url db with
  | Some f => db <| t_threat_intel_feeds ::= <[tf_ID f := upd f]> |>
  | None =>
      let id := next_id "threat_intel_feeds" db in
      (take_id "threat_intel_feeds" db) <| t_threat_intel_feeds ::= <[id := new id]> |>
  end.

Definition EnsureThreatIntelDefaultFeed (defaultURL : string) : SM unit :=
  let url := TrimSpace defaultURL in
  fail_if (String.eqb url "") "default threat intel feed URL required" ≫= fun _ =>
  now ← Now;
  exec (upsert_feed url (fun f => f <| tf_IsDefault := true |> <| tf_UpdatedAt := now |>)
          (fun id => mkThreatIntelFeed id "blocklist.de all" url true true 0 0 "" "" now now)).

Definition GetThreatIntelFeedByID (id : Z) : SM ThreatIntelFeed :=
  query_row (fun db => t_threat_intel_feeds db !! id).

Definition GetThreatIntelFeedByURL (url : string) : SM ThreatIntelFeed :=
  query_row (feed_by_url (TrimSpace url)).

Definition UpsertThreatIntelFeed (inp : ThreatIntelFeed) : SM ThreatIntelFeed :=
  let inp := inp <| tf_Name ::= TrimSpace |> <| tf_URL ::= TrimSpace |> in
  fail_if (String.eqb (tf_Name inp) "") "feed name required" ≫= fun _ =>
  fail_if (String.eqb (tf_URL inp) "") "feed URL required" ≫= fun _ =>
  now ← Now;
  if 0 <? tf_ID inp then
    exec_checked
      (fun db => match feed_by_url (tf_URL inp) db with
                 | Some f => (tf_ID f =? tf_ID inp)
                             || negb (bool_decide (is_Some (t_threat_intel_feeds db !! tf_ID inp)))
                 | None => true end)
      (fun db => db <| t_threat_intel_feeds ::= alter (fun f =>
         f <| tf_Name := tf_Name inp |> <| tf_URL := tf_URL inp |>
           <| tf_Enabled := tf_Enabled inp |> <| tf_UpdatedAt := now |>) (tf_ID inp) |>) ≫= fun _ =>
    GetThreatIntelFeedByID (tf_ID inp)
  else
    exec (upsert_feed (tf_URL inp)
            (fun f => f <| tf_Name := tf_Name inp |> <| tf_Enabled := tf_Enabled inp |>
                        <| tf_UpdatedAt := now |>)
            (fun id => mkThreatIntelFeed id (tf_Name inp) (tf_URL inp) (tf_Enabled inp)
                         (tf_IsDefault inp) 0 0 "" "" now now)) ≫= fun _ =>
    GetThreatIntelFeedByURL (tf_URL inp).

Definition DeleteThreatIntelFeed (id : Z) : SM unit :=
  exec (fun db => db <| t_threat_intel_feeds ::= delete id |>
                     <| t_threat_intel_entries ::= keep_set (fun p => negb (p.1 =? id)) |>).

Definition feed_le (x y : ThreatIntelFeed) : bool :=
  if Bool.eqb (tf_IsDefault x) (tf_IsDefault y) then String.leb (tf_Name x) (tf_Name y)
  else tf_IsDefault x.

Definition ListThreatIntelFeeds : SM (list ThreatIntelFeed) :=
  query (fun db => order_by feed_le (rows (t_threat_intel_feeds db))).

(** The insertion loop inside the transaction: each address once. *)
Fixpoint insert_entries (feedID : Z) (seen : gset string) (count : Z) (ips : list string) : SM Z :=
  match ips with
  | [] => mret count
  | ip :: l =>
      let ip := TrimSpace ip in
      if String.eqb ip "" || bool_decide (ip ∈ seen) then insert_entries feedID seen count l
      else
        exec_checked
          (fun db => bool_decide (is_Some (t_threat_intel_feeds db !! feedID))
                     && negb (bool_decide ((feedID, ip) ∈ t_threat_intel_entries db)))
          (fun db => db <| t_threat_intel_entries ::= fun s => {[(feedID, ip)]} ∪ s |>) ≫= fun _ =>
        insert_entries feedID ({[ip]} ∪ seen) (count + 1) l
  end.

Definition ReplaceThreatIntelFeedEntries (feedID : Z) (ips : list string) (hash syncErr : string) : SM unit :=
  transaction (
    exec (fun db => db <| t_threat_intel_entries ::= keep_set (fun p => negb (p.1 =? feedID)) |>) ≫= fun _ =>
    now ← Now;
    stmt ≫= fun _ =>
    count ← insert_entries feedID ∅ 0 ips;
    exec (fun db => db <| t_threat_intel_feeds ::= alter (fun f =>
      f <| tf_EntryCount := count |> <| tf_LastSyncAt := now |>
        <| tf_LastError := TrimSpace syncErr |> <| tf_LastHash := TrimSpace hash |>
        <| tf_UpdatedAt := now |>) feedID |>)).

(** [ORDER BY e.ip, f.name] then grouped by address. *)
Definition entries_by_ip (db : DB) : gmap string (list string) :=
  let pairs := omap (fun p : Z * string =>
    match t_threat_intel_feeds db !! p.1 with
    | Some f => if tf_Enabled f then Some (p.2, tf_Name f) else None
    | None => None
    end) (elements (t_threat_intel_entries db)) in
  fold_right (fun p m => <[p.1 := p.2 :: default [] (m !! p.1)]> m) ∅
    (order_by (fun x y => String.leb x.2 y.2) pairs).

Definition ListThreatIntelEntriesByIP : SM (gmap string (list string)) := query entries_by_ip.

Definition UpsertThreatIntelAllowIP (ip reason : string) : SM unit :=
  let ip := TrimSpace ip in
  fail_if (String.eqb ip "") "ip required" ≫= fun _ =>
  now ← Now;
  exec (fun db => db <| t_threat_intel_allowlist ::= upsert_ip ip (TrimSpace reason) now |>).

Definition RemoveThreatIntelAllowIP (ip : string) : SM unit :=
  exec (fun db => db <| t_threat_intel_allowlist ::= delete (TrimSpace ip) |>).

Definition ListThreatIntelAllowIPs : SM (list BlockedIP) :=
  query (fun db => limit 1000 (order_by (desc_time b_UpdatedAt) (rows (t_threat_intel_allowlist db)))).

(* ------------------------------------------------------------------ *)
(** ** Matches and address states *)

(** The defaults [RecordThreatIntelMatch] fills in. *)
Definition normalize_match (m : ThreatIntelMatchEvent) : ThreatIntelMatchEvent :=
  let m := m <| me_IP ::= TrimSpace |> <| me_Feed ::= TrimSpace |> <| me_Host ::= TrimSpace |>
             <| me_Path ::= TrimSpace |> <| me_Country ::= fun c => ToUpper (TrimSpace c) |>
             <| me_Mode ::= fun c => ToLower (TrimSpace c) |>
             <| me_Decision ::= fun c => ToLower (TrimSpace c) |> in
  let m := if String.eqb (me_Host m) "" then m <| me_Host := "_unknown" |> else m in
  let m := if String.eqb (me_Path m) "" then m <| me_Path := "/" |> else m in
  let m := if String.eqb (me_Country m) "" then m <| me_Country := "ZZ" |> else m in
  if String.eqb (TrimSpace (me_TierAfter m)) "" then m <| me_TierAfter := "tier0" |> else m.

Definition match_id (m : ThreatIntelMatchEvent) : MatchKey :=
  (me_IP m, me_Feed m, me_Host m, me_Path m, me_Decision m).

Definition upsert_match (m : ThreatIntelMatchEvent) (now : time) (db : DB) : DB :=
  db <| t_threat_intel_matches ::= fun t =>
    let fresh hits first :=
      mkMatchRow (me_IP m) (me_Feed m) (me_Host m) (me_Path m) (me_Country m) (me_Mode m)
        (me_Decision m) hits first now (me_TraceID m) (me_SourceScope m) (me_XPDelta m)
        (me_XPAfter m) (me_LevelAfter m) (me_TierAfter m) in
    match t !! match_id m with
    | None => <[match_id m := fresh 1 now]> t
    | Some r => <[match_id m := fresh (mr_hits r + 1) (mr_first_seen_at r)]> t
    end |>.

Definition trace_of_match (m : ThreatIntelMatchEvent) (now : time) : TraceEvent :=
  mkTraceEvent (ToLower (TrimSpace (me_TraceID m))) "evidence" "" "" "" "" "" (me_IP m)
    (me_Decision m) (me_Feed m) (me_Host m) (me_Path m) (me_Country m) (me_Mode m)
    (me_SourceScope m) 1 (me_XPAfter m) (me_LevelAfter m) (me_TierAfter m)
    "Threat evidence recorded" now.

Definition add_trace (t : TraceEvent) : SM unit :=
  exec (fun db => db <| t_trace_events ::= fun l => l ++ [t] |>).

Definition RecordThreatIntelMatch (inp : ThreatIntelMatchEvent) : SM unit :=
  now ← Now;
  let m := normalize_match inp in
  if String.eqb (me_IP m) "" || String.eqb (me_Feed m) "" then mret tt
  else
    exec (upsert_match m now) ≫= fun _ =>
    when (negb (String.eqb (TrimSpace (me_TraceID m)) "")) (ignore (add_trace (trace_of_match m now))).

Definition GetThreatIntelIPState (ip : string) : SM ThreatIntelIPState :=
  query_row (fun db => sr_state <$> t_threat_intel_ip_state db !! TrimSpace ip).

(** What the upsert writes: a zero [LastSeenAt] becomes the present. *)
Definition normalize_state (now : time) (st : ThreatIntelIPState) : ThreatIntelIPState :=
  let st := st <| ts_IP ::= TrimSpace |> in
  let st := if String.eqb (ts_RiskState st) "" then st <| ts_RiskState := "monitoring" |> else st in
  if IsZero (ts_LastSeenAt st) then st <| ts_LastSeenAt := now |> else st.

Definition upsert_state (now : time) (st : ThreatIntelIPState) (m : gmap string StateRow) : gmap string StateRow :=
  let created := match m !! ts_IP st with Some r => sr_created_at r | None => now end in
  <[ts_IP st := mkStateRow st created now]> m.

Definition UpsertThreatIntelIPState (st : ThreatIntelIPState) : SM unit :=
  fail_if (String.eqb (TrimSpace (ts_IP st)) "") "ip required" ≫= fun _ =>
  now ← Now;
  exec (fun db => db <| t_threat_intel_ip_state ::= upsert_state now (normalize_state now st) |>).

Definition ListThreatIntelIPStates (n : Z) : SM (list ThreatIntelIPState) :=
  let n := if (n <=? 0) || (50000 <? n) then 10000 else n in
  query (fun db => sr_state <$> limit n (order_by (desc_time sr_updated_at) (rows (t_threat_intel_ip_state db)))).

Definition DeleteThreatIntelState (ip : string) : SM unit :=
  let ip := TrimSpace ip in
  if String.eqb ip "" then mret tt
  else exec (fun db => db <| t_threat_intel_ip_state ::= delete ip |>).

Definition DeleteThreatIntelMatchesByIP (ip : string) : SM unit :=
  let ip := TrimSpace ip in
  if String.eqb ip "" then mret tt
  else exec (fun db => db <| t_threat_intel_matches ::= keep_rows (fun m => negb (String.eqb (mr_ip m) ip)) |>).

(** The states a promotion converts: at the hard level and not allow-listed. *)
Definition promotable (db : DB) (hardLevel : Z) (ip : string) (r : StateRow) : bool :=
  (hardLevel <=? ts_Level (sr_state r)) && negb (bool_decide (is_Some (t_threat_intel_allowlist db !! ip))).

(** [INSERT INTO blocked_ips SELECT ... ON CONFLICT(ip) DO NOTHING] *)
Definition promote_insert (hardLevel : Z) (now : time) (db : DB) : DB :=
  db <| t_blocked_ips ::= fun b =>
    b ∪ ((fun r : StateRow => mkBlockedIP (ts_IP (sr_state r)) "threat_intel_auto:level_hard" now now) <$>
         filter (fun kv => promotable db hardLevel kv.1 kv.2 = true) (t_threat_intel_ip_state db)) |>.

Definition promote_row (now : time) (r : StateRow) : StateRow :=
  r <| sr_state ::= fun st => st <| ts_PermBlocked := true |> <| ts_BanUntil := 0 |>
                                 <| ts_RiskState := "hardblock" |> |>
    <| sr_updated_at := now |>.

Definition promote_update (hardLevel : Z) (now : time) (db : DB) : DB :=
  db <| t_threat_intel_ip_state ::= map_imap (fun ip r =>
    Some (if promotable db hardLevel ip r then promote_row now r else r)) |>.

Definition PromoteThreatIntelHardBlocks (hardLevel : Z) : SM Z :=
  let hardLevel := if hardLevel <=? 0 then 6 else hardLevel in
  now ← Now;
  transaction (
    exec (promote_insert hardLevel now) ≫= fun _ =>
    n ← query (fun db => Z.of_nat (size (filter (fun kv => promotable db hardLevel kv.1 kv.2 = true)
                                              (t_threat_intel_ip_state db))));
    modify (fun e : Env => e <| e_db ::= promote_update hardLevel now |>) ≫= fun _ =>
    mret n).

(* ------------------------------------------------------------------ *)
(** ** The configuration that is read *)

(** What the readers of the configuration rely on. *)
Definition config_ok (c : ThreatIntelConfig) : Prop :=
  (tc_Mode c = "monitor_only" \/ tc_Mode c = "auto_mode") /\
  (tc_OSFirewallMode c = "hard_only" \/ tc_OSFirewallMode c = "all_blocked") /\
  1 <= tc_SyncHours c <= 168 /\
  1 <= tc_EventMinHits c < tc_OffenderMinHits c /\
  0 <= tc_MonitorMaxLevel c < tc_SoftMinLevel c /\
  tc_SoftMinLevel c < tc_HardLevel c <= 64 /\
  1 <= tc_SoftBlockMinutes c <= 1440.

(** The bounds before the levels are put in order. *)
Definition config_pre (c : ThreatIntelConfig) : Prop :=
  (tc_Mode c = "monitor_only" \/ tc_Mode c = "auto_mode") /\
  (tc_OSFirewallMode c = "hard_only" \/ tc_OSFirewallMode c = "all_blocked") /\
  1 <= tc_SyncHours c <= 168 /\ 1 <= tc_EventMinHits c <= 100 /\
  2 <= tc_OffenderMinHits c <= 10000 /\ 0 <= tc_MonitorMaxLevel c <= 32 /\
  1 <= tc_SoftMinLevel c <= 32 /\ 2 <= tc_HardLevel c <= 64 /\ 1 <= tc_SoftBlockMinutes c <= 1440.

Lemma order_levels_ok c : config_pre c -> config_ok (order_levels c).
Proof.
  unfold config_pre, config_ok, order_levels. intros (Hm & Ho & H).
  repeat case_step; simpl in *; split_and!; try done; lia.
Qed.

Lemma int_between_range lo hi v n : int_between lo hi v = Some n -> lo <= n <= hi.
Proof. unfold int_between. repeat case_step; intros [= <-]; lia. Qed.

Lemma read_int_pre lo hi set v c :
  config_pre c -> (forall n, lo <= n <= hi -> config_pre (set n c)) -> config_pre (read_int lo hi set v c).
Proof.
  intros Hc Hset. unfold read_int. destruct (int_between lo hi v) eqn:E; [|done].
  eapply Hset, int_between_range, E.
Qed.

Lemma read_mode_pre v c : config_pre c -> config_pre (read_mode v c).
Proof.
  intros H. unfold read_mode. repeat case_step; try done; unfold config_pre in *; simpl; [|tauto..].
  apply orb_true_iff in Heqb as [E|E]; bool_facts; rewrite E; tauto.
Qed.

Lemma read_os_mode_pre v c : config_pre c -> config_pre (read_os_mode v c).
Proof.
  intros H. unfold read_os_mode. case_step; [|done]. unfold config_pre in *. simpl.
  apply orb_true_iff in Heqb as [E|E]; bool_facts; rewrite E; tauto.
Qed.

Lemma wp_read_setting {C} (P : C -> Prop) key f c (Q : result C -> Env -> Prop) e :
  P c -> (forall v, P (f v c)) -> (forall c' fs, P c' -> Q (Ok c') (e <| e_faults := fs |>)) ->
  wp (read_setting key f c) Q e.
Proof.
  intros Hc Hf HQ. unfold read_setting. apply wp_bind, wp_try. unfold GetSetting.
  apply wp_query_row; intros; apply wp_ret; auto.
Qed.

Ltac pre_field :=
  unfold config_pre in *; simpl; destruct_and!; split_and!; (assumption || lia).
Ltac next_setting :=
  apply wp_bind; eapply (wp_read_setting config_pre);
    [eassumption
    |intros v; first [by apply read_mode_pre | by apply read_os_mode_pre
                     | apply read_int_pre; [assumption|intros n Hn; pre_field]
                     | pre_field]
    |let c := fresh "c" in let fs := fresh "fs" in intros c fs ?; cbv beta].

(** The bounds of what [GetThreatIntelConfig] returns; it returns always. *)
Lemma GetThreatIntelConfig_wp e :
  wp GetThreatIntelConfig (fun r e' => e_db e' = e_db e /\ exists c, r = Ok c /\ config_ok c) e.
Proof.
  unfold GetThreatIntelConfig.
  assert (Hd : config_pre default_config) by (unfold config_pre, default_config; simpl; split_and!; (lia || auto)).
  do 11 next_setting.
  apply wp_ret. split; [done|]. eexists. split; [done|]. by apply order_levels_ok.
Qed.

(** Whatever texts the settings table holds, and wherever the driver fails,
    [GetThreatIntelConfig] returns a configuration, changes no table, and the
    levels of the configuration are in order: monitor < soft < hard <= 64. *)
Theorem config_always_valid e :
  exists c, (GetThreatIntelConfig e).1 = Ok c /\ config_ok c /\ e_db (GetThreatIntelConfig e).2 = e_db e.
Proof.
  pose proof (GetThreatIntelConfig_wp e) as H. unfold wp in H.
  destruct (GetThreatIntelConfig e) as [r e']. simpl. destruct H as (Hdb & c & -> & Hc). eauto.
Qed.

(** The configuration that [SetThreatIntelConfig] writes. *)
Definition with_mode (cfg : ThreatIntelConfig) : ThreatIntelConfig :=
  if String.eqb (tc_Mode cfg) "" then cfg <| tc_Mode := "monitor_only" |> else cfg.
Definition canonical (cfg : ThreatIntelConfig) : ThreatIntelConfig :=
  let osfw := ToLower (TrimSpace (tc_OSFirewallMode cfg)) in
  (clamp_config (with_mode cfg)) <| tc_Mode := ToLower (TrimSpace (tc_Mode (with_mode cfg))) |>
    <| tc_OSFirewallMode := if String.eqb osfw "" then "hard_only" else osfw |>.

(** A canonical configuration that the readers accept. *)
Definition readable (c : ThreatIntelConfig) : Prop :=
  (tc_Mode c = "monitor_only" \/ tc_Mode c = "auto_mode") /\
  (tc_OSFirewallMode c = "hard_only" \/ tc_OSFirewallMode c = "all_blocked") /\
  tc_EventMinHits c <= 100 /\ tc_OffenderMinHits c <= 10000 /\
  tc_MonitorMaxLevel c <= 32 /\ tc_SoftMinLevel c <= 32 /\ tc_HardLevel c <= 64.

(** Each clamp bounds its own fields and leaves the others. *)
Definition sync_of (c : ThreatIntelConfig) := tc_SyncHours c.
Definition hits_of (c : ThreatIntelConfig) := (tc_EventMinHits c, tc_OffenderMinHits c).
Definition levels_of (c : ThreatIntelConfig) := (tc_MonitorMaxLevel c, tc_SoftMinLevel c, tc_HardLevel c).
Definition rest_of (c : ThreatIntelConfig) := (tc_Enabled c, tc_Mode c, tc_OSFirewall c, tc_OSFirewallMode c).

Lemma clamp_sync_spec c : 1 <= tc_SyncHours (clamp_sync c) <= 168 /\ rest_of (clamp_sync c) = rest_of c.
Proof. unfold clamp_sync, rest_of. repeat case_step; simpl in *; split; (done || lia). Qed.
Lemma clamp_hits_spec c :
  1 <= tc_EventMinHits (clamp_hits c) < tc_OffenderMinHits (clamp_hits c) /\
  sync_of (clamp_hits c) = sync_of c /\ rest_of (clamp_hits c) = rest_of c.
Proof. unfold clamp_hits, rest_of, sync_of. repeat case_step; simpl in *; split_and!; (done || lia). Qed.
Lemma clamp_levels_spec c :
  0 <= tc_MonitorMaxLevel (clamp_levels c) < tc_SoftMinLevel (clamp_levels c) /\
  tc_SoftMinLevel (clamp_levels c) < tc_HardLevel (clamp_levels c) /\
  sync_of (clamp_levels c) = sync_of c /\ hits_of (clamp_levels c) = hits_of c /\
  rest_of (clamp_levels c) = rest_of c.
Proof.
  unfold clamp_levels, rest_of, sync_of, hits_of.
  repeat case_step; simpl in *; split_and!; (done || lia).
Qed.
Lemma clamp_minutes_spec c :
  1 <= tc_SoftBlockMinutes (clamp_minutes c) <= 1440 /\
  sync_of (clamp_minutes c) = sync_of c /\ hits_of (clamp_minutes c) = hits_of c /\
  levels_of (clamp_minutes c) = levels_of c /\ rest_of (clamp_minutes c) = rest_of c.
Proof.
  unfold clamp_minutes, rest_of, sync_of, hits_of, levels_of.
  repeat case_step; simpl in *; split_and!; (done || lia).
Qed.

(** What the clamps establish, for any configuration they produce. *)
Definition clamped (cfg c : ThreatIntelConfig) : Prop :=
  1 <= tc_SyncHours c <= 168 /\ 1 <= tc_EventMinHits c < tc_OffenderMinHits c /\
  0 <= tc_MonitorMaxLevel c < tc_SoftMinLevel c /\ tc_SoftMinLevel c < tc_HardLevel c /\
  1 <= tc_SoftBlockMinutes c <= 1440 /\ rest_of c = rest_of cfg.

Lemma clamp_config_bounds cfg : clamped cfg (clamp_config cfg).
Proof.
  unfold clamp_config.
  generalize (clamp_minutes_spec (clamp_levels (clamp_hits (clamp_sync cfg)))).
  generalize (clamp_levels_spec (clamp_hits (clamp_sync cfg))).
  generalize (clamp_hits_spec (clamp_sync cfg)). generalize (clamp_sync_spec cfg).
  generalize (clamp_minutes (clamp_levels (clamp_hits (clamp_sync cfg)))) as c4.
  generalize (clamp_levels (clamp_hits (clamp_sync cfg))) as c3.
  generalize (clamp_hits (clamp_sync cfg)) as c2. generalize (clamp_sync cfg) as c1.
  unfold clamped, sync_of, hits_of, levels_of.
  intros c1 c2 c3 c4 (A1 & A2) (B1 & B2 & B3) (D1 & D2 & D3 & [= D4 D4'] & D5)
    (E1 & E2 & [= E3 E3'] & [= E4 E4' E4''] & E5).
  split_and!; try lia. congruence.
Qed.

Lemma read_int_Itoa lo hi set n c :
  0 <= n <= max_int64 -> lo <= n <= hi -> read_int lo hi set (Itoa n) c = set n c.
Proof.
  intros Hn Hr. unfold read_int, int_between. rewrite TrimSpace_Itoa, Atoi_Itoa by lia.
  by replace ((lo <=? n) && (n <=? hi)) with true by lia.
Qed.

Lemma is_true_FormatBool b : is_true (FormatBool b) = b.
Proof. by destruct b. Qed.

Lemma read_setting_run {C B} key (f : string -> C -> C) c (k : C -> SM B) db now rnd :
  (read_setting key f c ≫= k) (mkEnv db now [] rnd) =
  k (match t_settings db !! key with Some v => f v c | None => c end) (mkEnv db now [] rnd).
Proof.
  unfold read_setting, GetSetting, try_, query_row, query, mbind, M_bind. simpl.
  by destruct (t_settings db !! key).
Qed.

Lemma SetSetting_run {B} key v (k : unit -> SM B) db now rnd :
  (SetSetting key v ≫= k) (mkEnv db now [] rnd) =
  k tt (mkEnv (db <| t_settings ::= <[key := v]> |>) now [] rnd).
Proof. done. Qed.

(** The settings as [SetThreatIntelConfig] leaves them. *)
Definition config_settings (c : ThreatIntelConfig) (m : gmap string string) : gmap string string :=
  <["threatintel.soft_block_minutes" := Itoa (tc_SoftBlockMinutes c)]>
  (<["threatintel.hard_level" := Itoa (tc_HardLevel c)]>
  (<["threatintel.soft_min_level" := Itoa (tc_SoftMinLevel c)]>
  (<["threatintel.monitor_max_level" := Itoa (tc_MonitorMaxLevel c)]>
  (<["threatintel.offender_min_hits" := Itoa (tc_OffenderMinHits c)]>
  (<["threatintel.event_min_hits" := Itoa (tc_EventMinHits c)]>
  (<["threatintel.sync_hours" := Itoa (tc_SyncHours c)]>
  (<["threatintel.os_firewall_mode" := tc_OSFirewallMode c]>
  (<["threatintel.os_firewall" := FormatBool (tc_OSFirewall c)]>
  (<["threatintel.mode" := tc_Mode c]>
  (<["threatintel.enabled" := FormatBool (tc_Enabled c)]> m)))))))))).


Lemma canonical_ok cfg : readable (canonical cfg) -> config_ok (canonical cfg).
Proof.
  unfold canonical. cbv zeta. generalize (clamp_config_bounds (with_mode cfg)).
  generalize (clamp_config (with_mode cfg)) as c.
  unfold readable, config_ok, clamped. simpl. intros c Hb H. destruct_and!.
  split_and!; (assumption || lia).
Qed.

Lemma order_levels_id c : config_ok c -> order_levels c = c.
Proof.
  unfold config_ok, order_levels. intros H. cbv zeta. destruct_and!.
  replace (tc_OffenderMinHits c <=? tc_EventMinHits c) with false by lia.
  replace (tc_SoftMinLevel c <=? tc_MonitorMaxLevel c) with false by lia.
  by replace (tc_HardLevel c <=? tc_SoftMinLevel c) with false by lia.
Qed.

Lemma read_mode_id c' c : tc_Mode c = "monitor_only" \/ tc_Mode c = "auto_mode" ->
  read_mode (tc_Mode c) c' = c' <| tc_Mode := tc_Mode c |>.
Proof. by intros [-> | ->]. Qed.
Lemma read_os_mode_id c' c : tc_OSFirewallMode c = "hard_only" \/ tc_OSFirewallMode c = "all_blocked" ->
  read_os_mode (tc_OSFirewallMode c) c' = c' <| tc_OSFirewallMode := tc_OSFirewallMode c |>.
Proof. by intros [-> | ->]. Qed.

Lemma FormatBool_run b c (f : bool -> ThreatIntelConfig -> ThreatIntelConfig) :
  f (is_true (FormatBool b)) c = f b c.
Proof. by rewrite is_true_FormatBool. Qed.

(** Reading the settings a configuration was written to. *)
Lemma GetThreatIntelConfig_settings c m db now rnd :
  config_ok c -> readable c -> t_settings db = config_settings c m ->
  GetThreatIntelConfig (mkEnv db now [] rnd) = (Ok c, mkEnv db now [] rnd).
Proof.
  intros Hok Hr Hs. unfold GetThreatIntelConfig.
  repeat (rewrite read_setting_run, Hs; unfold config_settings;
    rewrite ?lookup_insert_ne by done; rewrite lookup_insert_eq; fold (config_settings c m)).
  unfold readable in Hr. unfold config_ok in Hok. destruct_and!.
  rewrite !is_true_FormatBool, read_mode_id, read_os_mode_id by done.
  rewrite !read_int_Itoa by (unfold max_int64; lia). simpl.
  rewrite order_levels_id; [by destruct c|]. unfold config_ok. simpl.
  destruct c; simpl in *. split_and!; (assumption || lia).
Qed.

Lemma with_mode_rest cfg :
  tc_Enabled (with_mode cfg) = tc_Enabled cfg /\ tc_OSFirewall (with_mode cfg) = tc_OSFirewall cfg /\
  tc_OSFirewallMode (with_mode cfg) = tc_OSFirewallMode cfg.
Proof. unfold with_mode. by case_step. Qed.

Lemma SetThreatIntelConfig_run cfg db now rnd :
  let c := canonical cfg in
  (tc_Mode c = "monitor_only" \/ tc_Mode c = "auto_mode") ->
  (tc_OSFirewallMode c = "hard_only" \/ tc_OSFirewallMode c = "all_blocked") ->
  exists db', SetThreatIntelConfig cfg (mkEnv db now [] rnd) = (Ok tt, mkEnv db' now [] rnd) /\
    t_settings db' = config_settings c (t_settings db).
Proof.
  cbv zeta. intros Hm Ho. unfold SetThreatIntelConfig. cbv zeta. fold (with_mode cfg).
  destruct (with_mode_rest cfg) as (_ & _ & E3). rewrite E3.
  rewrite fail_if_run.
  replace (negb _) with false by (unfold canonical in Hm; simpl in Hm; destruct Hm as [-> | ->]; done).
  rewrite fail_if_run.
  replace (negb _) with false by (unfold canonical in Ho; simpl in Ho; destruct Ho as [-> | ->]; done).
  clear Hm Ho. unfold canonical. generalize (clamp_config (with_mode cfg)) as c. intros c.
  rewrite !SetSetting_run. unfold SetSetting. rewrite exec_run_end.
  eexists. split; [reflexivity|]. reflexivity.
Qed.

(** A configuration inside the readers' bounds survives a write and a
    read: [GetThreatIntelConfig] after [SetThreatIntelConfig] returns the
    canonical configuration that was written. *)
Theorem config_round_trip cfg db now :
  readable (canonical cfg) ->
  (SetThreatIntelConfig cfg ≫= fun _ => GetThreatIntelConfig) (clean db now) =
    (Ok (canonical cfg), (SetThreatIntelConfig cfg (clean db now)).2).
Proof.
  intros Hr. unfold clean.
  destruct (SetThreatIntelConfig_run cfg db now []) as (db' & E & Hs);
    [by destruct Hr|by destruct Hr as (_ & ? & _)|].
  unfold mbind, M_bind. rewrite E. simpl.
  eapply GetThreatIntelConfig_settings; [by apply canonical_ok|done|exact Hs].
Qed.

Definition demo_config : ThreatIntelConfig :=
  mkThreatIntelConfig true " AUTO_MODE " true "" 0 3 3 2 1 9 9999.

Lemma config_round_trip_witness :
  (SetThreatIntelConfig demo_config ≫= fun _ => GetThreatIntelConfig) (clean empty_DB 0) =
  (Ok (mkThreatIntelConfig true "auto_mode" true "hard_only" 24 3 4 2 3 9 1440),
   (SetThreatIntelConfig demo_config (clean empty_DB 0)).2).
Proof.
  apply (config_round_trip demo_config).
  unfold readable. vm_compute. split_and!; try (left; reflexivity); try (right; reflexivity); discriminate.
Defined.

(** Outside those bounds the write succeeds and the read falls back. *)
Example config_out_of_range :
  let cfg := default_config <| tc_HardLevel := 100 |> in
  (SetThreatIntelConfig cfg ≫= fun _ => GetThreatIntelConfig) (clean empty_DB 0) =
    (Ok default_config, (SetThreatIntelConfig cfg (clean empty_DB 0)).2).
Proof. vm_compute. reflexivity. Qed.
