(* ===== verification/StoreUsers.v ===== *)
(** [internal/store/store.go]: accounts, sessions, API tokens, failed logins,
    multi-factor state, reset tokens and the audit log. *)

From S2P Require Import Prelude GoString GoMonad GoTime GoCrypto Model StoreDB.
From Stdlib Require Import Ascii.

(* ------------------------------------------------------------------ *)
(** ** Audit and trace events *)

(** The first [;]-separated part that starts with [key] (compared in lower
    case for the trace), without it. *)
Fixpoint part_with (test : string -> bool) (parts : list string) : option string :=
  match parts with
  | [] => None
  | p :: l => let p := TrimSpace p in if test p then Some p else part_with test l
  end.

Definition parseTraceFromMeta (meta : string) : string :=
  match part_with (fun p => HasPrefix (ToLower p) "trace=") (Split (TrimSpace meta) ";"%char) with
  | Some p => ToLower (TrimSpace (drop_bytes 6 p))
  | None => ""
  end.

Definition parseSourceFromMeta (meta : string) : string :=
  let meta := TrimSpace meta in
  if String.eqb meta "" then ""
  else match part_with (fun p => HasPrefix p "source=") (Split meta ";"%char) with
       | Some p => TrimSpace (TrimPrefix p "source=")
       | None => ""
       end.

Definition insert_audit (e : AuditEvent) (now : time) (db : DB) : DB :=
  (take_id "audit_events" db) <| t_audit_events ::= fun l =>
    l ++ [mkAuditEvent (next_id "audit_events" db) (ae_Actor e) (ae_Action e) (ae_Target e) (ae_Meta e) "" now] |>.

Definition audit_trace (traceID : string) (e : AuditEvent) (now : time) : TraceEvent :=
  mkTraceEvent traceID "action" (TrimSpace (ae_Actor e)) (TrimSpace (ae_Action e))
    (TrimSpace (ae_Target e)) (TrimSpace (ae_Meta e)) (TrimSpace (parseSourceFromMeta (ae_Meta e)))
    "" "" "" "" "" "" "" "" 0 0 0 "" "Operational action recorded" now.

(** The audit hook (log shipping) observes the event and changes no table. *)
Definition AddAuditEvent (e : AuditEvent) : SM unit :=
  now ← Now;
  exec (insert_audit e now) ≫= fun _ =>
  let traceID := parseTraceFromMeta (ae_Meta e) in
  when (negb (String.eqb traceID ""))
    (ignore (exec (fun db => db <| t_trace_events ::= fun l => l ++ [audit_trace traceID e now] |>))).

(** [_ = s.store.AddAuditEvent(ctx, model.AuditEvent{...})] *)
Definition audit (actor action target meta : string) : SM unit :=
  ignore (AddAuditEvent (zero_AuditEvent <| ae_Actor := actor |> <| ae_Action := action |>
                           <| ae_Target := target |> <| ae_Meta := meta |>)).

(** The newest events first; the source is read in the text of the event. *)
Definition ListAuditEvents (limit : Z) : SM (list AuditEvent) :=
  let limit := if limit <=? 0 then 500 else limit in
  let limit := if 5000 <? limit then 5000 else limit in
  query (fun db => map (fun e => e <| ae_SourceIP := parseSourceFromMeta (ae_Meta e) |>)
                     (take (Z.to_nat limit) (order_by (fun x y => ae_ID y <=? ae_ID x) (t_audit_events db)))).

Definition RecordTraceEvent (e : TraceEvent) : SM unit :=
  now ← Now;
  let e := if IsZero (te_EventAt e) then e <| te_EventAt := now |> else e in
  let traceID := ToLower (TrimSpace (te_TraceID e)) in
  fail_if (String.eqb traceID "") "trace id required" ≫= fun _ =>
  let kind := ToLower (TrimSpace (te_Kind e)) in
  let kind := if String.eqb kind "" then "flow" else kind in
  let row := mkTraceEvent traceID kind (TrimSpace (te_Actor e)) (TrimSpace (te_Action e))
    (TrimSpace (te_Target e)) (TrimSpace (te_Meta e)) (TrimSpace (te_SourceIP e)) (TrimSpace (te_IP e))
    (TrimSpace (te_Decision e)) (TrimSpace (te_Feed e)) (TrimSpace (te_Host e)) (TrimSpace (te_Path e))
    (TrimSpace (te_Country e)) (TrimSpace (te_Mode e)) (TrimSpace (te_SourceScope e)) (te_Hits e)
    (te_XP e) (te_Level e) (TrimSpace (te_Tier e)) (TrimSpace (te_Summary e)) (te_EventAt e) in
  exec (fun db => db <| t_trace_events ::= fun l => l ++ [row] |>).

(* ------------------------------------------------------------------ *)
(** ** Accounts *)

Definition user_by_name (username : string) (db : DB) : option User :=
  find_row (fun u => String.eqb (u_Username u) username) (t_users db).

Definition new_user (id : Z) (username : string) (role : Role) (provider cidrs : string)
    (ipOff : bool) (passHash : string) (now : time) : User :=
  mkUser id username role provider cidrs ipOff false "" 0 passHash now now.

(** [INSERT INTO users]: the user name is unique. *)
Definition insert_user (username : string) (role : Role) (provider cidrs : string) (ipOff : bool)
    (passHash : string) (now : time) : SM Z :=
  exec_checked (fun db => match user_by_name username db with None => true | Some _ => false end)
    (fun db =>
      let id := next_id "users" db in
      (take_id "users" db) <| t_users ::= <[id := new_user id username role provider cidrs ipOff passHash now]> |>)
  ≫= fun _ => gets (fun e : Env => default 0 (t_sqlite_sequence (e_db e) !! "users")).

Definition CountUsers : SM Z := query (fun db => Z.of_nat (size (t_users db))).

Definition EnsureBootstrapUser (username : string) (role : Role) (passHash : string) : SM bool :=
  c ← CountUsers;
  if 0 <? c then mret false
  else now ← Now; insert_user username role "local" "" false passHash now ≫= fun _ => mret true.

Definition FindUserByUsername (username : string) : SM User := query_row (user_by_name username).
Definition GetUserByID (id : Z) : SM User := query_row (fun db => t_users db !! id).

Definition CreateUser (username : string) (role : Role) (allowedCIDRs : string)
    (ipCheckDisabled : bool) (passHash : string) : SM User :=
  fail_if ipCheckDisabled "ip check can be disabled only after MFA is enabled for this user" ≫= fun _ =>
  now ← Now;
  id ← insert_user username role "local" (TrimSpace allowedCIDRs) ipCheckDisabled passHash now;
  GetUserByID id.

Definition ListUsers : SM (list User) :=
  query (fun db => order_by (asc_text u_Username) (rows (t_users db))).

Definition DeleteUser (userID : Z) : SM unit := exec (delete_user_rows userID).

Definition SetUserPasswordHashByID (userID : Z) (passHash : string) : SM unit :=
  now ← Now;
  exec (fun db => db <| t_users ::= alter (fun u =>
    u <| u_PasswordHash := passHash |> <| u_UpdatedAt := now |>) userID |>).

(* ------------------------------------------------------------------ *)
(** ** Domains a user may manage *)

Definition ListDomainIDs : SM (list Z) :=
  query (fun db => order_by Z.leb (d_ID <$> rows (t_domains db))).

Definition scope_ids (owner : Z) (s : gset (Z * Z)) : list Z :=
  order_by Z.leb (snd <$> List.filter (fun p => p.1 =? owner) (elements s)).

Definition GetUserDomainIDs (userID : Z) : SM (list Z) :=
  query (fun db => scope_ids userID (t_user_domain_scopes db)).

Definition clear_scopes (userID : Z) : SM unit :=
  exec (fun db => db <| t_user_domain_scopes ::= keep_set (fun p => negb (p.1 =? userID)) |>).

(** The insertion loop; a repeated or unknown domain violates a constraint. *)
Definition insert_scopes (userID : Z) (domainIDs : list Z) : SM unit :=
  for_each (fun did =>
    if did <=? 0 then mret tt
    else exec_checked
           (fun db => bool_decide (is_Some (t_users db !! userID))
                      && bool_decide (is_Some (t_domains db !! did))
                      && negb (bool_decide ((userID, did) ∈ t_user_domain_scopes db)))
           (fun db => db <| t_user_domain_scopes ::= fun s => {[(userID, did)]} ∪ s |>)) domainIDs.

Definition SetUserDomainScopes (userID : Z) (domainIDs : list Z) : SM unit :=
  transaction (clear_scopes userID ≫= fun _ => insert_scopes userID domainIDs).

(** [UPDATE users ... WHERE id=?] and the number of rows it changed. *)
Definition update_user (userID : Z) (f : User -> User) : SM Z :=
  n ← query (fun db => if decide (is_Some (t_users db !! userID)) then 1 else 0);
  modify (fun e : Env => e <| e_db ::= fun db => db <| t_users ::= alter f userID |> |>) ≫= fun _ =>
  mret n.

Definition SetUserRoleAndDomainScopes (userID : Z) (role : Role) (domainIDs : list Z) : SM unit :=
  transaction (
    now ← Now;
    affected ← update_user userID (fun u => u <| u_URole := role |> <| u_UpdatedAt := now |>);
    if affected =? 0 then fail ErrNoRows
    else
      clear_scopes userID ≫= fun _ =>
      when (String.eqb role RoleDomainAdmin) (insert_scopes userID domainIDs)).

Definition SetUserAccessPolicy (userID : Z) (role : Role) (domainIDs : list Z)
    (allowedCIDRs : string) (ipCheckDisabled : bool) : SM unit :=
  transaction (
    (if ipCheckDisabled then
       mfa ← query_row (fun db => u_MFAEnabled <$> t_users db !! userID);
       fail_if (negb mfa) "ip check can be disabled only for MFA-enabled users"
     else mret tt) ≫= fun _ =>
    now ← Now;
    affected ← update_user userID (fun u =>
      u <| u_URole := role |> <| u_AllowedCIDRs := TrimSpace allowedCIDRs |>
        <| u_IPCheckOff := ipCheckDisabled |> <| u_UpdatedAt := now |>);
    if affected =? 0 then fail ErrNoRows
    else
      clear_scopes userID ≫= fun _ =>
      when (String.eqb role RoleDomainAdmin) (insert_scopes userID domainIDs)).

(** Find or create the shadow account of an external identity. *)
Definition external_user_id (username : string) (role : Role) (provider passHash : string) : SM Z :=
  now ← Now;
  r ← try_ (query_row (fun db => (fun u => (u_ID u, u_AuthProvider u)) <$> user_by_name username db));
  match r with
  | Err e =>
      if is_no_rows e then insert_user username role provider "" false passHash now else fail e
  | Ok (id, existing) =>
      let existing := ToLower (TrimSpace existing) in
      let existing := if String.eqb existing "" then "local" else existing in
      fail_if (negb (String.eqb existing provider)) "username already exists with local auth provider"
      ≫= fun _ =>
      exec (fun db => db <| t_users ::= alter (fun u =>
        u <| u_URole := role |> <| u_AuthProvider := provider |> <| u_UpdatedAt := now |>) id |>)
      ≫= fun _ => mret id
  end.

Definition UpsertExternalUser (username : string) (role : Role) (domainIDs : list Z)
    (provider passHash : string) : SM User :=
  let username := TrimSpace username in
  fail_if (String.eqb username "") "username required" ≫= fun _ =>
  let provider := ToLower (TrimSpace provider) in
  let provider := if String.eqb provider "" then "ldap" else provider in
  id ← transaction (
    id ← external_user_id username role provider passHash;
    clear_scopes id ≫= fun _ =>
    when (String.eqb role RoleDomainAdmin) (insert_scopes id domainIDs) ≫= fun _ =>
    mret id);
  GetUserByID id.

(* ------------------------------------------------------------------ *)
(** ** Sessions *)

Definition CreateSession (id : string) (userID : Z) (expiresAt : time) : SM unit :=
  exec_checked
    (fun db => bool_decide (t_sessions db !! id = None) && bool_decide (is_Some (t_users db !! userID)))
    (fun db => db <| t_sessions ::= <[id := mkSession id userID expiresAt]> |>).

Definition GetSession (id : string) : SM Session := query_row (fun db => t_sessions db !! id).
Definition DeleteSession (id : string) : SM unit := exec (fun db => db <| t_sessions ::= delete id |>).
Definition DeleteAllSessionsForUser (userID : Z) : SM unit :=
  exec (fun db => db <| t_sessions ::= keep_rows (fun s => negb (se_UserID s =? userID)) |>).
Definition PruneExpiredSessions : SM unit :=
  now ← Now;
  exec (fun db => db <| t_sessions ::= keep_rows (fun s => negb (text_lt (se_ExpiresAt s) now)) |>).

(* ------------------------------------------------------------------ *)
(** ** API tokens *)

Definition HashToken (raw : string) : string := sha256_hex raw.
Definition PrefixToken (raw : string) : string := if len raw <? 8 then raw else take_bytes 8 raw.

Definition GetAPITokenDomainIDs (tokenID : Z) : SM (list Z) :=
  query (fun db => scope_ids tokenID (t_api_token_domain_scopes db)).

Definition token_by_hash (hash : string) (db : DB) : option APIToken :=
  find_row (fun t => String.eqb (tk_TokenHash t) hash) (t_api_tokens db).

Definition insert_token_scopes (id : Z) (domainIDs : list Z) : SM unit :=
  for_each (fun did =>
    if did <=? 0 then mret tt
    else exec_checked
           (fun db => bool_decide (is_Some (t_domains db !! did))
                      && negb (bool_decide ((id, did) ∈ t_api_token_domain_scopes db)))
           (fun db => db <| t_api_token_domain_scopes ::= fun s => {[(id, did)]} ∪ s |>)) domainIDs.

Definition bearer_of (raw : string) : string := "dnx_" +:+ b64_encode url_alphabet (bytes_of raw).

Definition CreateAPIToken (name : string) (role : Role) (scopes : string) (domainIDs : list Z)
    (expiresAt : time) : SM (APIToken * string) :=
  stmt ≫= fun _ =>
  blob ← random;
  let raw := hex_encode (bytes_of blob) in
  now ← Now;
  id ← transaction (
    exec_checked (fun db => match token_by_hash (HashToken raw) db with None => true | Some _ => false end)
      (fun db =>
        let id := next_id "api_tokens" db in
        (take_id "api_tokens" db) <| t_api_tokens ::= <[id :=
          mkAPIToken id name (PrefixToken raw) (HashToken raw) scopes role [] expiresAt now 0]> |>)
    ≫= fun _ =>
    id ← gets (fun e : Env => default 0 (t_sqlite_sequence (e_db e) !! "api_tokens"));
    insert_token_scopes id domainIDs ≫= fun _ =>
    mret id);
  dids ← try_ (GetAPITokenDomainIDs id);
  mret (mkAPIToken id name (PrefixToken raw) (HashToken raw) scopes role
          (match dids with Ok l => l | Err _ => [] end) expiresAt now 0, bearer_of raw).

Definition LookupAPIToken (bearer : string) : SM APIToken :=
  if negb (HasPrefix bearer "dnx_") then fail ErrNoRows
  else match b64_decode url_alphabet (TrimPrefix bearer "dnx_") with
  | None => fail (ErrText "illegal base64 data")
  | Some rawB =>
      now ← Now;
      t ← query_row (token_by_hash (HashToken (string_of rawB)));
      if Before (tk_ExpiresAt t) now then fail ErrNoRows
      else
        r ← try_ (GetAPITokenDomainIDs (tk_ID t));
        let t := match r with Ok dids => t <| tk_DomainIDs := dids |> | Err _ => t end in
        ignore (exec (fun db => db <| t_api_tokens ::= alter (fun t => t <| tk_LastUsedAt := now |>) (tk_ID t) |>))
        ≫= fun _ => mret t
  end.

Definition ListAPITokens (n : Z) : SM (list APIToken) :=
  let n := if (n <=? 0) || (500 <? n) then 100 else n in
  out ← query (fun db => limit n (order_by (fun x y => tk_ID y <=? tk_ID x) (rows (t_api_tokens db))));
  map_each (fun t =>
    r ← try_ (GetAPITokenDomainIDs (tk_ID t));
    mret (t <| tk_DomainIDs := match r with Ok l => l | Err _ => [] end |>)) out.

Definition RevokeAPIToken (id : Z) : SM bool :=
  found ← query (fun db => bool_decide (is_Some (t_api_tokens db !! id)));
  modify (fun e : Env => e <| e_db ::= fun db =>
    db <| t_api_tokens ::= delete id |>
       <| t_api_token_domain_scopes ::= keep_set (fun p => negb (p.1 =? id)) |> |>) ≫= fun _ =>
  mret found.

Definition SplitScopes (scopes : string) : gset string :=
  list_to_set (List.filter (fun s => negb (String.eqb s "")) (map TrimSpace (Split scopes ","%char))).

(* ------------------------------------------------------------------ *)
(** ** Failed logins *)

Definition GetLoginAttempt (username : string) : SM (Z * time) :=
  r ← try_ (query_row (fun db => t_login_attempts db !! username));
  match r with
  | Ok a => mret (la_failed_count a, la_lock_until a)
  | Err e => if is_no_rows e then mret (0, 0) else fail e
  end.

Definition loginFailureDelay (fails : Z) : duration :=
  if fails <? 3 then 0
  else
    let sec := (fails - 2) * 6 in
    let sec := if 300 <? sec then 300 else sec in
    sec * Second.

(** The values are returned with the error of the insertion, which the callers
    ignore. *)
Definition RegisterLoginFailure (username : string) : SM (Z * time * option error) :=
  r ← try_ (GetLoginAttempt username);
  match r with
  | Err e => mret (0, 0, Some e)
  | Ok (failed, _) =>
      now ← Now;
      let failed := failed + 1 in
      let lockUntil := Add now (loginFailureDelay failed) in
      r ← try_ (exec (fun db => db <| t_login_attempts ::= <[username := mkLoginAttempt failed now lockUntil]> |>));
      mret (failed, lockUntil, match r with Ok _ => None | Err e => Some e end)
  end.

Definition ClearLoginFailures (username : string) : SM unit :=
  exec (fun db => db <| t_login_attempts ::= delete username |>).

(* ------------------------------------------------------------------ *)
(** ** Password reset tokens *)

Definition CreatePasswordResetToken (userID : Z) (tokenHash : string) (expiresAt : time) : SM unit :=
  now ← Now;
  exec_checked
    (fun db => bool_decide (t_password_reset_tokens db !! tokenHash = None)
               && bool_decide (is_Some (t_users db !! userID)))
    (fun db => db <| t_password_reset_tokens ::= <[tokenHash := mkResetToken userID expiresAt None now]> |>).

Definition ConsumePasswordResetToken (tokenHash : string) : SM Z :=
  t ← query_row (fun db => t_password_reset_tokens db !! tokenHash);
  fail_if (bool_decide (is_Some (rt_used_at t))) "reset token already used" ≫= fun _ =>
  now ← Now;
  fail_if (After now (rt_expires_at t)) "reset token expired" ≫= fun _ =>
  exec (fun db => db <| t_password_reset_tokens ::= alter (fun t => t <| rt_used_at := Some now |>) tokenHash |>)
  ≫= fun _ => mret (rt_user_id t).

(* ------------------------------------------------------------------ *)
(** ** Multi-factor state *)

Definition SetUserMFAState (userID : Z) (enabled : bool) (secretEnc : string) (enrolledAt : time) : SM unit :=
  now ← Now;
  exec (fun db => db <| t_users ::= alter (fun u =>
    u <| u_MFAEnabled := enabled |> <| u_MFASecretEnc := TrimSpace secretEnc |>
      <| u_MFAEnrolled := enrolledAt |> <| u_UpdatedAt := now |>) userID |>).

Definition clear_codes (userID : Z) : SM unit :=
  exec (fun db => db <| t_user_mfa_recovery_codes ::= keep_keys (fun k => negb (k.1 =? userID)) |>).

Definition ResetUserMFA (userID : Z) : SM unit :=
  transaction (
    now ← Now;
    exec (fun db => db <| t_users ::= alter (fun u =>
      u <| u_MFAEnabled := false |> <| u_MFASecretEnc := "" |> <| u_MFAEnrolled := 0 |>
        <| u_IPCheckOff := false |> <| u_UpdatedAt := now |>) userID |>) ≫= fun _ =>
    clear_codes userID).

Definition ReplaceUserMFARecoveryCodes (userID : Z) (codeHashes : list string) : SM unit :=
  transaction (
    clear_codes userID ≫= fun _ =>
    for_each (fun h =>
      let h := TrimSpace h in
      if String.eqb h "" then mret tt
      else exec_checked
             (fun db => bool_decide (is_Some (t_users db !! userID))
                        && bool_decide (t_user_mfa_recovery_codes db !! (userID, h) = None))
             (fun db => db <| t_user_mfa_recovery_codes ::= <[(userID, h) := None]> |>)) codeHashes).

Definition code_unused (userID : Z) (h : string) (db : DB) : bool :=
  match t_user_mfa_recovery_codes db !! (userID, h) with Some None => true | _ => false end.

Definition ConsumeUserMFARecoveryCode (userID : Z) (codeHash : string) : SM bool :=
  now ← Now;
  let h := TrimSpace codeHash in
  found ← query (code_unused userID h);
  modify (fun e : Env => e <| e_db ::= fun db =>
    if code_unused userID h db
    then db <| t_user_mfa_recovery_codes ::= <[(userID, h) := Some now]> |> else db |>) ≫= fun _ =>
  mret found.

Definition CountUserMFARecoveryCodesRemaining (userID : Z) : SM Z :=
  query (fun db => Z.of_nat (size (filter (fun kv => kv.1.1 = userID /\ kv.2 = None)
                                     (t_user_mfa_recovery_codes db)))).

(* ------------------------------------------------------------------ *)
(** ** Secrets and the LDAP deletion queue *)

Definition GetSecret (key : string) : SM string := query_row (fun db => t_secrets db !! key).
Definition StoreSecret (key encVal : string) : SM unit :=
  exec (fun db => db <| t_secrets ::= <[key := encVal]> |>).
Definition DeleteSecret (key : string) : SM unit := exec (fun db => db <| t_secrets ::= delete key |>).

Definition EnqueueLDAPDelete (username : string) : SM unit :=
  let username := ToLower (TrimSpace username) in
  if String.eqb username "" then mret tt
  else
    now ← Now;
    exec (fun db => db <| t_ldap_delete_queue ::= fun q =>
      let created := match q !! username with Some r => dq_created_at r | None => now end in
      <[username := mkDeleteQueueRow created now ""]> q |>).

Definition ListLDAPDeleteQueue (n : Z) : SM (list string) :=
  let n := if n <=? 0 then 1000 else n in
  query (fun db =>
    List.filter (fun u => negb (String.eqb u ""))
      (map (fun kv => ToLower (TrimSpace kv.1))
         (limit n (order_by (fun x y => text_le (dq_updated_at x.2) (dq_updated_at y.2))
            (map_to_list (t_ldap_delete_queue db)))))).

Definition SetLDAPDeleteQueueError (username lastErr : string) : SM unit :=
  let username := ToLower (TrimSpace username) in
  if String.eqb username "" then mret tt
  else
    now ← Now;
    exec (fun db => db <| t_ldap_delete_queue ::= alter (fun r =>
      r <| dq_updated_at := now |> <| dq_last_error := TrimSpace lastErr |>) username |>).

Definition RemoveLDAPDeleteQueue (username : string) : SM unit :=
  let username := ToLower (TrimSpace username) in
  if String.eqb username "" then mret tt
  else exec (fun db => db <| t_ldap_delete_queue ::= delete username |>).

(* ------------------------------------------------------------------ *)
(** ** Failed logins *)

(** The lock that follows failed attempts: none for the first two, then six
    seconds per further failure, never more than five minutes and never less
    than for fewer failures; a failure on a working database stores the count
    and that lock. *)
Theorem login_lock username db now rnd :
  let before := default (mkLoginAttempt 0 0 0) (t_login_attempts db !! username) in
  let n := la_failed_count before + 1 in
  let e := (RegisterLoginFailure username (mkEnv db now [] rnd)).2 in
  (GetLoginAttempt username e).1 = Ok (n, now + loginFailureDelay n) /\
  (n < 3 -> loginFailureDelay n = 0) /\
  (3 <= n -> loginFailureDelay n = Z.min 300 (6 * (n - 2)) * Second) /\
  (forall m, m <= n -> 0 <= loginFailureDelay m <= loginFailureDelay n).
Proof.
  cbv zeta. set (b := default _ _). split_and!.
  - unfold RegisterLoginFailure, GetLoginAttempt, try_. unfold query_row, query, mbind, M_bind. simpl. unfold b.
    destruct (t_login_attempts db !! username) as [a|] eqn:E; simpl; rewrite lookup_insert_eq; simpl;
      unfold Add; f_equal; f_equal; lia.
  - unfold loginFailureDelay. intros H. by replace (_ <? 3) with true by lia.
  - unfold loginFailureDelay. intros H. replace (_ <? 3) with false by lia. f_equal. zcase.
  - intros m Hm. unfold loginFailureDelay, Second. zcase.
Qed.

Lemma login_lock_witness :
  loginFailureDelay (2 + 1) = 6 * Second /\
  (GetLoginAttempt "bob" (RegisterLoginFailure "bob"
     (mkEnv (empty_DB <| t_login_attempts := {["bob" := mkLoginAttempt 2 5 5]} |>) 100 [] [])).2).1
    = Ok (3, 100 + 6 * Second).
Proof.
  split; [vm_compute; reflexivity|].
  etransitivity; [exact (proj1 (login_lock "bob"
    (empty_DB <| t_login_attempts := {["bob" := mkLoginAttempt 2 5 5]} |>) 100 []))|].
  vm_compute. reflexivity.
Defined.

(* ------------------------------------------------------------------ *)
(** ** One-time credentials *)

Lemma consume_reset_wp h e :
  wp (ConsumePasswordResetToken h) (fun r e' => forall uid, r = Ok uid ->
    (exists t, t_password_reset_tokens (e_db e) !! h = Some t /\ rt_user_id t = uid /\ rt_used_at t = None /\
               e_now e <= rt_expires_at t) /\
    exists t', t_password_reset_tokens (e_db e') !! h = Some t' /\ is_Some (rt_used_at t')) e.
Proof.
  unfold ConsumePasswordResetToken. apply wp_bind, wp_query_row; intros fs; try done.
  intros t Ht. cbv beta iota. apply wp_bind, wp_fail_if; intros Hu; [done|].
  apply wp_bind, wp_gets. apply wp_bind, wp_fail_if; intros Hx; [done|].
  apply wp_bind, wp_exec; intros fs'; [done|]. apply wp_ret. intros uid [= <-].
  unfold After in Hx. simpl in Hx. bool_facts. split.
  - exists t. split_and!; [done..| |lia]. destruct (rt_used_at t); [|done]. exfalso. apply Hu. eauto.
  - simpl. rewrite lookup_alter_eq, Ht. simpl. eauto.
Qed.

(** A password reset token works once: it is accepted only while unexpired
    and unused, and after it was accepted no later attempt succeeds, at any
    time and whatever the driver does. *)
Theorem reset_token_single_use h e uid e' now faults rnd :
  ConsumePasswordResetToken h e = (Ok uid, e') ->
  (exists t, t_password_reset_tokens (e_db e) !! h = Some t /\ rt_user_id t = uid /\ e_now e <= rt_expires_at t) /\
  forall uid', (ConsumePasswordResetToken h (mkEnv (e_db e') now faults rnd)).1 <> Ok uid'.
Proof.
  intros Hrun. destruct (wp_run _ _ _ _ _ (consume_reset_wp h e) Hrun uid eq_refl) as
    [(t & H1 & H2 & H3 & H4) (t' & H5 & [u H6])].
  split; [by exists t|]. intros uid' Hagain.
  destruct (wp_apply _ _ _ (consume_reset_wp h (mkEnv (e_db e') now faults rnd)) uid' Hagain) as
    [(t'' & H7 & _ & H8 & _) _]. simpl in H7. congruence.
Qed.

Definition reset_demo : Env :=
  clean (empty_DB <| t_password_reset_tokens := {["h" := mkResetToken 7 100 None 1]} |>) 50.

Lemma reset_token_single_use_witness :
  exists e', ConsumePasswordResetToken "h" reset_demo = (Ok 7, e') /\
    forall uid', (ConsumePasswordResetToken "h" (mkEnv (e_db e') 60 [false] [])).1 <> Ok uid'.
Proof.
  destruct (ConsumePasswordResetToken "h" reset_demo) as [r e'] eqn:E.
  assert (Hr : r = (ConsumePasswordResetToken "h" reset_demo).1) by by rewrite E.
  assert (Hr7 : r = Ok 7) by (rewrite Hr; vm_compute; reflexivity). clear Hr. subst r.
  exists e'. split; [done|]. exact (proj2 (reset_token_single_use "h" reset_demo 7 e' 60 [false] [] E)).
Defined.

(** A recovery code works once. *)
Theorem recovery_code_single_use uid h e e' now faults rnd :
  ConsumeUserMFARecoveryCode uid h e = (Ok true, e') ->
  t_user_mfa_recovery_codes (e_db e) !! (uid, TrimSpace h) = Some None /\
  (ConsumeUserMFARecoveryCode uid h (mkEnv (e_db e') now faults rnd)).1 <> Ok true.
Proof.
  assert (Hwp : forall e, wp (ConsumeUserMFARecoveryCode uid h) (fun r e' => r = Ok true ->
    t_user_mfa_recovery_codes (e_db e) !! (uid, TrimSpace h) = Some None /\
    exists u, t_user_mfa_recovery_codes (e_db e') !! (uid, TrimSpace h) = Some (Some u)) e).
  { intros x. unfold ConsumeUserMFARecoveryCode. apply wp_bind, wp_gets.
    apply wp_bind, wp_query; intros fs; [done|]. apply wp_bind, wp_modify, wp_ret. intros [= Hc]. simpl.
    rewrite Hc. unfold code_unused in Hc. split; [by destruct (_ !! _) as [[]|]|].
    simpl. rewrite lookup_insert_eq. eauto. }
  intros Hrun. destruct (wp_run _ _ _ _ _ (Hwp e) Hrun eq_refl) as [H1 [u H2]]. split; [done|].
  intros Hagain. destruct (wp_apply _ _ _ (Hwp (mkEnv (e_db e') now faults rnd)) Hagain) as [H3 _].
  simpl in H3. congruence.
Qed.

Definition code_demo : Env :=
  clean (empty_DB <| t_user_mfa_recovery_codes := {[(7, "h") := None]} |>) 50.

Lemma recovery_code_single_use_witness :
  exists e', ConsumeUserMFARecoveryCode 7 "h" code_demo = (Ok true, e') /\
    (ConsumeUserMFARecoveryCode 7 "h" (mkEnv (e_db e') 60 [] [])).1 <> Ok true.
Proof.
  destruct (ConsumeUserMFARecoveryCode 7 "h" code_demo) as [r e'] eqn:E.
  assert (Hr : r = (ConsumeUserMFARecoveryCode 7 "h" code_demo).1) by by rewrite E.
  assert (Hr7 : r = Ok true) by (rewrite Hr; vm_compute; reflexivity). clear Hr. subst r.
  exists e'. split; [done|]. exact (proj2 (recovery_code_single_use 7 "h" code_demo e' 60 [] [] E)).
Defined.

(* ------------------------------------------------------------------ *)
(** ** API tokens *)

Lemma bearer_parts raw :
  HasPrefix (bearer_of raw) "dnx_" = true /\
  b64_decode url_alphabet (TrimPrefix (bearer_of raw) "dnx_") = Some (bytes_of raw).
Proof.
  unfold bearer_of. split; [apply HasPrefix_app|]. rewrite TrimPrefix_app.
  apply b64_round_trip; [apply url_good|apply is_bytes_of].
Qed.

Lemma insert_token_scopes_keeps id l : keeps (same t_api_tokens) (insert_token_scopes id l).
Proof. unfold insert_token_scopes. keeps_db. Qed.

(** The row [CreateAPIToken] leaves behind, and that no other row shares its hash. *)
Definition issued (t : APIToken) (raw : string) (db : DB) : Prop :=
  exists row, t_api_tokens db !! tk_ID t = Some row /\ tk_ID row = tk_ID t /\
    tk_TokenHash row = HashToken raw /\ tk_TRole row = tk_TRole t /\ tk_Scopes row = tk_Scopes t /\
    tk_ExpiresAt row = tk_ExpiresAt t /\
    forall k r, t_api_tokens db !! k = Some r -> tk_TokenHash r = HashToken raw -> k = tk_ID t.

Lemma issued_find t raw db : issued t raw db ->
  exists row, token_by_hash (HashToken raw) db = Some row /\ tk_ID row = tk_ID t /\
    tk_TRole row = tk_TRole t /\ tk_Scopes row = tk_Scopes t /\ tk_ExpiresAt row = tk_ExpiresAt t.
Proof.
  intros (row & H1 & H2 & H3 & H4 & H5 & H6 & Hu). exists row. split; [|done].
  unfold token_by_hash. eapply find_row_unique; [exact H1|by rewrite H3, String.eqb_refl|].
  intros k r Hk Hr. apply String.eqb_eq in Hr. eauto.
Qed.

Lemma CreateAPIToken_issued name role scopes dids expires db now blob rnd :
  wp (CreateAPIToken name role scopes dids expires)
     (fun r e' => forall t bearer, r = Ok (t, bearer) -> exists raw, bearer = bearer_of raw /\
        tk_TRole t = role /\ tk_Scopes t = scopes /\ tk_ExpiresAt t = expires /\ issued t raw (e_db e'))
     (mkEnv db now [] (blob :: rnd)).
Proof.
  unfold CreateAPIToken. apply wp_bind. unfold wp at 1. simpl.
  apply wp_bind. unfold wp at 1. simpl. set (raw := hex_encode (bytes_of blob)).
  apply wp_bind, wp_gets. simpl. apply wp_bind.
  set (id := next_id "api_tokens" db).
  set (row := mkAPIToken id name (PrefixToken raw) (HashToken raw) scopes role [] expires now 0).
  assert (Hx : wp (transaction (exec_checked
      (fun db => match token_by_hash (HashToken raw) db with None => true | Some _ => false end)
      (fun db => let id := next_id "api_tokens" db in
        (take_id "api_tokens" db) <| t_api_tokens ::= <[id :=
          mkAPIToken id name (PrefixToken raw) (HashToken raw) scopes role [] expires now 0]> |>)
    ≫= fun _ => id ← gets (fun e : Env => default 0 (t_sqlite_sequence (e_db e) !! "api_tokens"));
    insert_token_scopes id dids ≫= fun _ => mret id))
    (fun r e => forall i, r = Ok i -> i = id /\ token_by_hash (HashToken raw) db = None /\
       t_api_tokens (e_db e) = <[id := row]> (t_api_tokens db)) (mkEnv db now [] rnd)).
  { unfold wp. rewrite transaction_run, exec_checked_run.
    destruct (token_by_hash (HashToken raw) db) eqn:E; [done|]. rewrite gets_run. cbn [t_sqlite_sequence e_db].
    set (db1 := _ <| t_api_tokens ::= _ |>).
    replace (default 0 (t_sqlite_sequence db1 !! "api_tokens")) with id
      by (unfold db1; simpl; by rewrite lookup_insert_eq).
    assert (E1 : t_api_tokens db1 = <[id := row]> (t_api_tokens db)) by done. clearbody db1.
    pose proof (insert_token_scopes_keeps id dids (mkEnv db1 now [] rnd)) as [Hk _].
    unfold mbind, M_bind. destruct (insert_token_scopes id dids (mkEnv db1 now [] rnd)) as [[[]|x] e2]; [|done].
    simpl in Hk. pose proof (keeps_stmt t_api_tokens e2) as [Hs _]. simpl.
    destruct (stmt e2) as [[[]|x] e3]; [|done]. simpl in Hs. intros i [= <-]. split_and!; [done..|]. congruence. }
  eapply wp_mono; [exact Hx|]. clear Hx. intros [i|x] e1 Hi; [|done].
  destruct (Hi i eq_refl) as (-> & Hfresh & Ht). clear Hi.
  apply wp_bind, wp_try. eapply wp_keeps; [apply (keeps_query t_api_tokens)|]. intros d e2 [E2 _].
  apply wp_ret. intros t bearer [= <- <-]. exists raw. split_and!; [done..|]. exists row. simpl.
  rewrite E2, Ht, lookup_insert_eq. split_and!; try done.
  intros k r. rewrite lookup_insert_Some. intros [[-> _]|[_ Hk]] Hr; [done|].
  unfold token_by_hash in Hfresh. rewrite find_row_None in Hfresh. specialize (Hfresh k r Hk).
  by rewrite Hr, String.eqb_refl in Hfresh.
Qed.

(** The bearer string of a created token identifies that token and no
    other: looked up before it expires it gives the row with the role and
    scopes asked for, after that it is refused, and once the token is revoked it
    is refused at any time. *)
Theorem api_token_lifecycle name role scopes dids expires db now blob rnd t bearer e' now' rnd' :
  CreateAPIToken name role scopes dids expires (mkEnv db now [] (blob :: rnd)) = (Ok (t, bearer), e') ->
  let look d := (LookupAPIToken bearer (mkEnv d now' [] rnd')).1 in
  (now' <= expires -> exists t', look (e_db e') = Ok t' /\ tk_ID t' = tk_ID t /\ tk_TRole t' = role /\ tk_Scopes t' = scopes) /\
  (expires < now' -> look (e_db e') = Err ErrNoRows) /\
  look (e_db (RevokeAPIToken (tk_ID t) (mkEnv (e_db e') now' [] rnd')).2) = Err ErrNoRows.
Proof.
  intros Hrun. cbv zeta.
  destruct (wp_run _ _ _ _ _ (CreateAPIToken_issued name role scopes dids expires db now blob rnd) Hrun t bearer eq_refl)
    as (raw & -> & Hrole & Hscopes & Hexp & Hissued). clear Hrun.
  destruct (bearer_parts raw) as [Hb1 Hb2].
  unfold LookupAPIToken. rewrite Hb1, Hb2, string_of_bytes_of. cbn [negb].
  rewrite !Now_run, !query_row_run.
  destruct (issued_find t raw _ Hissued) as (row & -> & F1 & F2 & F3 & F4).
  rewrite F4, Hexp. split_and!.
  - intros Hle. unfold Before. replace (expires <? now') with false by lia.
    unfold try_, GetAPITokenDomainIDs, mbind, M_bind. simpl. eexists. split; [done|]. simpl. by rewrite F1, F2, F3.
  - intros Hlt. unfold Before. by replace (expires <? now') with true by lia.
  - destruct Hissued as (r0 & H1 & H2 & H3 & _ & _ & _ & Hu). unfold RevokeAPIToken. rewrite query_run.
    unfold modify, mbind, M_bind. simpl.
    assert (E : token_by_hash (HashToken raw) ((e_db e') <| t_api_tokens ::= delete (tk_ID t) |>
        <| t_api_token_domain_scopes ::= keep_set (fun p => negb (p.1 =? tk_ID t)) |>) = None); [|by rewrite E].
    apply find_row_None. intros k r. simpl. rewrite lookup_delete_Some. intros [Hk Hr].
    apply String.eqb_neq. intros Hh. by apply Hk, eq_sym, (Hu k r).
Qed.

Lemma api_token_lifecycle_witness :
  exists t bearer e', CreateAPIToken "ci" RoleAdmin "hosts:read" [] 100 (mkEnv empty_DB 5 [] ["0123456789"]) = (Ok (t, bearer), e') /\
    (LookupAPIToken bearer (mkEnv (e_db e') 101 [] [])).1 = Err ErrNoRows.
Proof.
  destruct (CreateAPIToken "ci" RoleAdmin "hosts:read" [] 100 (mkEnv empty_DB 5 [] ["0123456789"])) as [r e'] eqn:E.
  assert (Hr : r = (CreateAPIToken "ci" RoleAdmin "hosts:read" [] 100 (mkEnv empty_DB 5 [] ["0123456789"])).1) by by rewrite E.
  assert (Hok : exists t bearer, r = Ok (t, bearer)).
  { rewrite Hr. do 2 eexists. vm_compute. reflexivity. }
  clear Hr. destruct Hok as (t & bearer & ->). exists t, bearer, e'. split; [done|].
  refine (proj1 (proj2 (api_token_lifecycle "ci" RoleAdmin "hosts:read" [] 100 empty_DB 5 "0123456789" [] t bearer e' 101 [] E)) _).
  lia.
Defined.
