(* ===== verification/StoreHosts.v ===== *)
(** [internal/store/store.go]: domains, hosts and the host state machine.

    The [ha_backends] column holds the JSON of the list kept here, and
    [geo_countries] the list as [decodeCSV] reads back what [encodeCSV]
    wrote. *)

From S2P Require Import Prelude GoString GoMonad GoTime Model StoreDB.
From Stdlib Require Import Ascii.

Definition encodeCSV (values : list string) : string :=
  Join (List.filter nonempty (map TrimSpace values)) ",".

Definition decodeCSV (raw : string) : list string :=
  let raw := TrimSpace raw in
  if String.eqb raw "" then []
  else List.filter nonempty (map TrimSpace (Split raw ","%char)).

(* ------------------------------------------------------------------ *)
(** ** Domains *)

Definition domain_by_name (name : string) (db : DB) : option Domain :=
  find_row (fun d => String.eqb (d_Name d) name) (t_domains db).

Definition GetDomainByName (name : string) : SM Domain := query_row (domain_by_name name).
Definition GetDomainByID (id : Z) : SM Domain := query_row (fun db => t_domains db !! id).
Definition ListDomains : SM (list Domain) :=
  query (fun db => order_by (asc_text d_Name) (rows (t_domains db))).

Definition UpsertDomain (d : Domain) : SM Domain :=
  now ← Now;
  exec (fun db =>
    match domain_by_name (d_Name d) db with
    | Some old => db <| t_domains ::= <[d_ID old :=
        old <| d_DNSMode := d_DNSMode d |> <| d_CertMode := d_CertMode d |>
            <| d_Provider := d_Provider d |> <| d_ZoneID := d_ZoneID d |>
            <| d_Status := d_Status d |> <| d_UpdatedAt := now |>]> |>
    | None =>
        let id := next_id "domains" db in
        (take_id "domains" db) <| t_domains ::= <[id :=
          d <| d_ID := id |> <| d_CreatedAt := now |> <| d_UpdatedAt := now |>]> |>
    end) ≫= fun _ =>
  GetDomainByName (d_Name d).

Definition RemoveDomain (id : Z) : SM unit :=
  c ← query (fun db => Z.of_nat (length (List.filter
        (fun h => (h_DomainID h =? id) && String.eqb (h_State h) "active") (rows (t_hosts db)))));
  fail_if (0 <? c) "cannot remove domain with active hosts" ≫= fun _ =>
  exec (delete_domain_rows id).

Definition SetDomainStatus (id : Z) (status : string) : SM unit :=
  let status := ToLower (TrimSpace status) in
  fail_if (String.eqb status "") "domain status required" ≫= fun _ =>
  now ← Now;
  exec (fun db => db <| t_domains ::= alter (fun d => d <| d_Status := status |> <| d_UpdatedAt := now |>) id |>).

(* ------------------------------------------------------------------ *)
(** ** Hosts *)

Definition host_by_fqdn (fqdn : string) (db : DB) : option Host :=
  find_row (fun h => String.eqb (h_FQDN h) fqdn) (t_hosts db).

Definition GetHostByID (id : Z) : SM Host := query_row (fun db => t_hosts db !! id).
Definition FindHostByFQDN (fqdn : string) : SM Host := query_row (host_by_fqdn fqdn).
Definition ListHosts : SM (list Host) :=
  query (fun db => order_by (asc_text h_FQDN) (rows (t_hosts db))).
Definition ListHostsByDomainID (domainID : Z) : SM (list Host) :=
  query (fun db => order_by (asc_text h_FQDN)
           (List.filter (fun h => h_DomainID h =? domainID) (rows (t_hosts db)))).

Definition update_host (id : Z) (f : Host -> Host) : SM unit :=
  now ← Now;
  exec (fun db => db <| t_hosts ::= alter (fun h => (f h) <| h_UpdatedAt := now |>) id |>).

Definition UpdateHostAuth (id : Z) (enabled : bool) (username passHash : string) : SM unit :=
  update_host id (fun h => h <| h_AuthEnabled := enabled |> <| h_AuthUser := username |>
                             <| h_AuthPassHash := passHash |>).

Definition UpdateHostRouting (id : Z) (profile upstream : string) (insecureTLS haEnabled : bool)
    (haMode : string) (haBackends : list HABackend) : SM unit :=
  update_host id (fun h =>
    h <| h_ConnectionProfile := profile |> <| h_UpstreamURL := upstream |>
      <| h_InsecureTLS := insecureTLS |> <| h_HAEnabled := haEnabled |>
      <| h_HAMode := haMode |> <| h_HABackends := haBackends |>).

Definition UpdateHostGeoPolicy (id : Z) (mode : string) (countries : list string) : SM unit :=
  update_host id (fun h => h <| h_GeoMode := mode |> <| h_GeoCountries := decodeCSV (encodeCSV countries) |>).

Definition RemoveHost (id : Z) : SM unit := exec (delete_host_rows (Z.eqb id)).

(* ------------------------------------------------------------------ *)
(** ** The state machine *)

(** The map [allowed] of [validTransition]. *)
Definition allowed_transitions : gmap string (gset string) :=
  list_to_map
    [("created", {["dns_pending"; "cert_pending"; "error"; "disabled"]});
     ("dns_pending", {["cert_pending"; "error"; "disabled"]});
     ("cert_pending", {["active"; "error"; "disabled"]});
     ("active", {["error"; "cert_pending"; "disabled"; "maintenance"]});
     ("maintenance", {["active"; "error"; "disabled"]});
     ("disabled", {["active"; "error"]});
     ("error", {["dns_pending"; "cert_pending"; "disabled"; "maintenance"]})].

Definition validTransition (from to : string) : bool :=
  if String.eqb from "" && String.eqb to "created" then true
  else bool_decide (to ∈ default ∅ (allowed_transitions !! from)).

Definition transitionHostState (hostID : Z) (from to reason : string) : SM unit :=
  now ← Now;
  exec_checked (fun db => bool_decide (is_Some (t_hosts db !! hostID)))
    (fun db => db <| t_state_transitions ::= fun l => l ++ [mkStateTransition hostID from to reason now] |>).

Definition SetHostState (hostID : Z) (toState reason : string) : SM unit :=
  h ← GetHostByID hostID;
  fail_if (negb (validTransition (h_State h) toState))
    ("invalid transition " +:+ h_State h +:+ " -> " +:+ toState) ≫= fun _ =>
  update_host hostID (fun h => h <| h_State := toState |> <| h_ErrorReason := reason |>) ≫= fun _ =>
  transitionHostState hostID (h_State h) toState reason.

(** The row an insertion creates; the other columns have their defaults. *)
Definition new_host (id domainID : Z) (subdomain fqdn profile upstream : string)
    (insecureTLS haEnabled : bool) (haMode : string) (haBackends : list HABackend) (now : time) : Host :=
  mkHost id domainID subdomain fqdn profile upstream insecureTLS haEnabled haMode haBackends
    false "" "" "" [] "created" "" now now.

(** AUTOINCREMENT: an id above that of every row and every one given before. *)
Definition new_host_id (db : DB) : Z :=
  foldr Z.max (next_id "hosts" db) (map (fun p : Z * Host => p.1 + 1) (map_to_list (t_hosts db))).

Definition CreateHost (domainID : Z) (subdomain fqdn profile upstream : string) (insecureTLS : bool)
    (haEnabled : bool) (haMode : string) (haBackends : list HABackend) : SM Host :=
  now ← Now;
  exec_checked
    (fun db => bool_decide (is_Some (t_domains db !! domainID))
               && negb (existsb (fun h => String.eqb (h_FQDN h) fqdn
                                  || ((h_DomainID h =? domainID) && String.eqb (h_Subdomain h) subdomain))
                          (rows (t_hosts db))))
    (fun db =>
      let id := new_host_id db in
      db <| t_sqlite_sequence ::= <["hosts" := id]> |> <| t_hosts ::= <[id := new_host id domainID subdomain fqdn profile upstream
        insecureTLS haEnabled haMode haBackends now]> |>) ≫= fun _ =>
  id ← gets (fun e : Env => default 0 (t_sqlite_sequence (e_db e) !! "hosts"));
  transitionHostState id "" "created" "initial" ≫= fun _ =>
  GetHostByID id.

(* ------------------------------------------------------------------ *)
(** ** Invariant of the state machine

    The states of the machine, and a well-formed log: every recorded step is
    an edge of [validTransition], and the last recorded step of a host ends in
    the state its row is in, unless a driver failure came between the update
    and the log. *)

Definition host_states : gset string :=
  {["created"; "dns_pending"; "cert_pending"; "active"; "maintenance"; "disabled"; "error"]}.

Definition states_ok (db : DB) : Prop :=
  map_Forall (fun _ h => h_State h ∈ host_states) (t_hosts db) /\
  Forall (fun t => validTransition (st_from_state t) (st_to_state t) = true) (t_state_transitions db).

(** The last step the log records for a host. *)
Definition last_step (id : Z) (db : DB) : option StateTransition :=
  last (List.filter (fun t => st_host_id t =? id) (t_state_transitions db)).

Lemma validTransition_states from to : validTransition from to = true -> to ∈ host_states.
Proof.
  unfold validTransition. case_step; intros H.
  - bool_facts. subst. vm_compute. done.
  - bool_facts. assert (Hall : map_Forall (fun _ s => s ⊆ host_states) allowed_transitions)
      by (apply (bool_decide_unpack _); vm_compute; done).
    destruct (allowed_transitions !! from) as [s|] eqn:E; simpl in *; [|set_solver].
    specialize (Hall from s E). set_solver.
Qed.

(** The operations of the store that touch hosts or domains. *)
Inductive host_op : Type :=
| OpCreate (domainID : Z) (subdomain fqdn profile upstream : string) (tls ha : bool) (mode : string)
    (backends : list HABackend)
| OpState (id : Z) (to reason : string)
| OpAuth (id : Z) (enabled : bool) (user hash : string)
| OpRouting (id : Z) (profile upstream : string) (tls ha : bool) (mode : string) (backends : list HABackend)
| OpGeo (id : Z) (mode : string) (countries : list string)
| OpRemoveHost (id : Z)
| OpUpsertDomain (d : Domain)
| OpDomainStatus (id : Z) (status : string)
| OpRemoveDomain (id : Z).

Definition run_op (op : host_op) : SM unit :=
  match op with
  | OpCreate d s f p u t h m b => CreateHost d s f p u t h m b ≫= fun _ => mret tt
  | OpState id to reason => SetHostState id to reason
  | OpAuth id e u h => UpdateHostAuth id e u h
  | OpRouting id p u t h m b => UpdateHostRouting id p u t h m b
  | OpGeo id m c => UpdateHostGeoPolicy id m c
  | OpRemoveHost id => RemoveHost id
  | OpUpsertDomain d => UpsertDomain d ≫= fun _ => mret tt
  | OpDomainStatus id s => SetDomainStatus id s
  | OpRemoveDomain id => RemoveDomain id
  end.

(** The databases the store can be in: any operations, in any order, at any
    times, the driver failing as [faults] allows. *)
Inductive reachable (allow : list bool -> Prop) : DB -> Prop :=
| reach_empty : reachable allow empty_DB
| reach_op db op now faults :
    reachable allow db -> allow faults ->
    reachable allow (e_db (run_op op (mkEnv db now faults [])).2).

Lemma reachable_inv allow (I : DB -> Prop) :
  I empty_DB -> (forall op, keeps (inv I) (run_op op)) -> forall db, reachable allow db -> I db.
Proof.
  intros H0 Hop db. induction 1 as [|db op now faults _ IH _]; [done|].
  exact (Hop op (mkEnv db now faults []) IH).
Qed.

(** [states_ok] reads two tables. *)
Lemma states_ok_ext db db' :
  t_hosts db' = t_hosts db -> t_state_transitions db' = t_state_transitions db ->
  states_ok db -> states_ok db'.
Proof. intros E1 E2. unfold states_ok. by rewrite E1, E2. Qed.

Lemma states_ok_hosts db (f : gmap Z Host -> gmap Z Host) :
  (forall m, map_Forall (fun _ h => h_State h ∈ host_states) m ->
             map_Forall (fun _ h => h_State h ∈ host_states) (f m)) ->
  states_ok db -> states_ok (db <| t_hosts ::= f |>).
Proof. intros Hf [H1 H2]. split; simpl; auto. Qed.

Lemma alter_states id (f : Host -> Host) (m : gmap Z Host) :
  (forall h, h_State h ∈ host_states -> h_State (f h) ∈ host_states) ->
  map_Forall (fun _ h => h_State h ∈ host_states) m ->
  map_Forall (fun _ h => h_State h ∈ host_states) (alter f id m).
Proof.
  intros Hf Hm k h Hk. destruct (decide (id = k)) as [->|Hne].
  - rewrite lookup_alter_eq in Hk. destruct (m !! k) as [h0|] eqn:E; simplify_eq/=.
    apply Hf, (Hm k), E.
  - rewrite lookup_alter_ne in Hk by done. by apply (Hm k).
Qed.

Lemma keeps_update_host id f :
  (forall h, h_State h ∈ host_states -> h_State (f h) ∈ host_states) ->
  keeps (inv states_ok) (update_host id f).
Proof.
  intros Hf. unfold update_host, Now. keeps_inv. intros db. apply states_ok_hosts.
  intros m. by apply alter_states.
Qed.

Lemma delete_hosts_states_ok gone db : states_ok db -> states_ok (delete_host_rows gone db).
Proof.
  intros [H1 H2]. unfold delete_host_rows. split; simpl.
  - intros k h Hk. unfold keep_keys in Hk. apply map_lookup_filter_Some in Hk as [Hk _]. by apply (H1 k).
  - apply Forall_forall. intros t Ht%list_elem_of_In. apply filter_In in Ht as [Ht _].
    rewrite Forall_forall in H2. by apply H2, list_elem_of_In.
Qed.

Lemma keeps_transition id from to reason :
  validTransition from to = true -> keeps (inv states_ok) (transitionHostState id from to reason).
Proof.
  intros Hv. unfold transitionHostState, Now. keeps_inv. intros db _ [H1 H2].
  split; [exact H1|]. simpl. apply Forall_app. split; [done|]. by constructor.
Qed.

Lemma keeps_SetHostState id to reason : keeps (inv states_ok) (SetHostState id to reason).
Proof.
  unfold SetHostState. apply keeps_bind; [typeclasses eauto|unfold GetHostByID; keeps_inv|].
  intros h. destruct (validTransition (h_State h) to) eqn:Hv; simpl; [|by intros e He].
  apply keeps_bind; [typeclasses eauto|keeps_inv|]. intros _.
  apply keeps_bind; [typeclasses eauto|apply keeps_update_host|].
  - intros h' _. simpl. by eapply validTransition_states.
  - intros _. by apply keeps_transition.
Qed.

Lemma keeps_CreateHost d s f p u t h m b : keeps (inv states_ok) (CreateHost d s f p u t h m b).
Proof.
  unfold CreateHost, Now, GetHostByID. keeps_inv.
  - intros db _ [H1 H2]. split; [|done]. simpl. apply map_Forall_insert_2; [|done].
    simpl. vm_compute. done.
  - by apply keeps_transition.
Qed.

Lemma keeps_run_op op : keeps (inv states_ok) (run_op op).
Proof.
  destruct op; simpl.
  - apply keeps_bind; [typeclasses eauto|apply keeps_CreateHost|intros; keeps_inv].
  - apply keeps_SetHostState.
  - apply keeps_update_host. done.
  - apply keeps_update_host. done.
  - apply keeps_update_host. done.
  - unfold RemoveHost. keeps_inv. intros db. apply delete_hosts_states_ok.
  - unfold UpsertDomain, Now, GetDomainByName. keeps_inv.
    intros db. destruct (domain_by_name _ db); by apply states_ok_ext.
  - unfold SetDomainStatus, Now. keeps_inv. intros db. by apply states_ok_ext.
  - unfold RemoveDomain. keeps_inv. intros db Hok.
    destruct (delete_domain_hosts id db) as (E1 & E2 & _).
    apply (states_ok_ext _ _ E1 E2).
    by apply delete_hosts_states_ok.
Qed.

(** C6. Whatever operations run, in whatever order, and wherever the SQL driver
    fails, every host row is in one of the seven states and every recorded
    transition is an edge of the state machine. *)
Theorem host_states_invariant allow db : reachable allow db -> states_ok db.
Proof. apply reachable_inv; [split; [apply map_Forall_empty|constructor]|apply keeps_run_op]. Qed.

(* ------------------------------------------------------------------ *)
(** ** The log explains the state *)

Definition log_of (id : Z) (db : DB) : list StateTransition :=
  List.filter (fun t => st_host_id t =? id) (t_state_transitions db).

(** Follow recorded steps from a state; [None] if one does not apply. *)
Fixpoint follow (from : string) (l : list StateTransition) : option string :=
  match l with
  | [] => Some from
  | t :: l' =>
      if String.eqb (st_from_state t) from && validTransition from (st_to_state t)
      then follow (st_to_state t) l' else None
  end.

Definition machine_ok (db : DB) : Prop :=
  (forall id h, t_hosts db !! id = Some h -> follow "" (log_of id db) = Some (h_State h)) /\
  (forall t, t ∈ t_state_transitions db -> is_Some (t_hosts db !! st_host_id t)) /\
  (forall id h, t_hosts db !! id = Some h -> id <= default 0 (t_sqlite_sequence db !! "hosts")).

Lemma follow_snoc from l s to id reason now :
  follow from l = Some s -> validTransition s to = true ->
  follow from (l ++ [mkStateTransition id s to reason now]) = Some to.
Proof.
  revert from. induction l as [|t l IH]; intros from; simpl.
  - intros [= ->] ->. by rewrite String.eqb_refl.
  - case_step; [apply IH|done].
Qed.

Lemma log_of_snoc id t l :
  List.filter (fun t => st_host_id t =? id) (l ++ [t]) =
  List.filter (fun t => st_host_id t =? id) l ++ (if st_host_id t =? id then [t] else []).
Proof. rewrite List.filter_app. simpl. by case_step. Qed.

(** Rewriting a host row without its state. *)
Lemma machine_ok_alter id (f : Host -> Host) db :
  (forall h, h_State (f h) = h_State h) ->
  machine_ok db -> machine_ok (db <| t_hosts ::= alter f id |>).
Proof.
  intros Hf (H1 & H2 & H3). split_and!; simpl.
  - intros k h Hk. apply lookup_alter_Some in Hk as [(<- & h0 & Hk & ->)|(_ & Hk)].
    + rewrite Hf. apply (H1 _ _ Hk).
    + apply (H1 _ _ Hk).
  - intros t Ht. by apply lookup_alter_is_Some, H2.
  - intros k h Hk. apply lookup_alter_Some in Hk as [(<- & h0 & Hk & ->)|(_ & Hk)]; eauto.
Qed.

(** A step of one host: the row and the log move together. *)
Lemma machine_ok_step id (f : Host -> Host) h to reason now db :
  t_hosts db !! id = Some h -> validTransition (h_State h) to = true -> h_State (f h) = to ->
  machine_ok db ->
  machine_ok (db <| t_hosts ::= alter f id |>
                 <| t_state_transitions ::= fun l => l ++ [mkStateTransition id (h_State h) to reason now] |>).
Proof.
  intros Hh Hv Hf (H1 & H2 & H3). split_and!.
  - intros k h' Hk. unfold log_of. simpl in *. rewrite log_of_snoc. simpl.
    apply lookup_alter_Some in Hk as [(<- & h0 & Hk & ->)|(Hne & Hk)].
    + simplify_eq. rewrite Z.eqb_refl. rewrite (follow_snoc _ _ (h_State h)); [done| |done].
      by apply (H1 id).
    + replace (id =? k) with false by (symmetry; by apply Z.eqb_neq).
      rewrite app_nil_r. by apply (H1 k).
  - intros t. simpl. rewrite elem_of_app, list_elem_of_singleton.
    intros [Ht| ->]; apply lookup_alter_is_Some; simpl; eauto.
  - intros k h'. simpl. intros Hk.
    apply lookup_alter_Some in Hk as [(<- & h0 & Hk & ->)|(_ & Hk)]; eauto.
Qed.

Lemma filter_filter_imp {A} (p q : A -> bool) l :
  (forall x, p x = true -> q x = true) -> List.filter p (List.filter q l) = List.filter p l.
Proof.
  intros H. induction l as [|x l IH]; simpl; [done|].
  destruct (q x) eqn:Hq; simpl; [by rewrite IH|].
  destruct (p x) eqn:Hp; [|done]. apply H in Hp. congruence.
Qed.

Lemma machine_ok_delete gone db : machine_ok db -> machine_ok (delete_host_rows gone db).
Proof.
  intros (H1 & H2 & H3). unfold delete_host_rows. split_and!; simpl.
  - intros k h Hk. unfold keep_keys in Hk. apply map_lookup_filter_Some in Hk as [Hk Hg]. simpl in Hg.
    rewrite <- (H1 k h Hk). unfold log_of. simpl. f_equal. apply filter_filter_imp.
    intros t ->%Z.eqb_eq. done.
  - intros t Ht%list_elem_of_In. apply filter_In in Ht as [Ht Hg]. apply list_elem_of_In in Ht.
    destruct (H2 t Ht) as [h Hh]. exists h. unfold keep_keys. by apply map_lookup_filter_Some.
  - intros k h Hk. unfold keep_keys in Hk. apply map_lookup_filter_Some in Hk as [Hk _]. eauto.
Qed.

Lemma foldr_max_ge (b x : Z) l : x ∈ b :: l -> x <= foldr Z.max b l.
Proof. induction l as [|y l IH]; simpl; [set_unfold; intros [->|[]]; lia|]. set_unfold. intros [->|[->|H]]; [|lia|]; lia || (assert (x <= foldr Z.max b l) by (apply IH; tauto); lia). Qed.

Lemma new_host_id_above db k h : t_hosts db !! k = Some h -> k < new_host_id db.
Proof.
  intros Hk. unfold new_host_id. enough (k + 1 <= foldr Z.max (next_id "hosts" db) (map (fun p : Z * Host => p.1 + 1) (map_to_list (t_hosts db)))) by lia.
  apply foldr_max_ge. right. apply list_elem_of_fmap. exists (k, h). split; [done|]. by apply elem_of_map_to_list.
Qed.
Lemma new_host_id_free db : t_hosts db !! new_host_id db = None.
Proof. destruct (t_hosts db !! new_host_id db) as [h|] eqn:E; [|done]. apply new_host_id_above in E. lia. Qed.

Lemma machine_ok_insert h db now :
  h_State h = "created" -> machine_ok db ->
  let id := new_host_id db in
  machine_ok (db <| t_sqlite_sequence ::= <["hosts" := id]> |> <| t_hosts ::= <[id := h]> |>
    <| t_state_transitions ::= fun l => l ++ [mkStateTransition id "" "created" "initial" now] |>).
Proof.
  intros Hs (H1 & H2 & H3) id.
  assert (Hnew : t_hosts db !! id = None).
  { apply new_host_id_free. }
  assert (Hlog : log_of id db = []).
  { unfold log_of. destruct (List.filter _ _) as [|t l] eqn:E; [done|]. exfalso.
    assert (Hin : In t (t :: l)) by (by left). rewrite <- E in Hin.
    apply filter_In in Hin as [Hin Ht]. apply list_elem_of_In, H2 in Hin as [h' Hh'].
    apply Z.eqb_eq in Ht. congruence. }
  split_and!.
  - intros k h' Hk. unfold log_of in *. simpl in *. rewrite log_of_snoc. simpl.
    destruct (decide (id = k)) as [<-|Hne].
    + rewrite lookup_insert_eq in Hk. simplify_eq. rewrite Hlog, Z.eqb_refl, Hs. done.
    + rewrite lookup_insert_ne in Hk by done.
      replace (id =? k) with false by (symmetry; by apply Z.eqb_neq). rewrite app_nil_r. by apply H1.
  - intros t. simpl. rewrite elem_of_app, list_elem_of_singleton.
    intros [Ht| ->]; simpl; [|rewrite lookup_insert_eq; eauto].
    destruct (decide (id = st_host_id t)) as [<-|Hne]; [rewrite lookup_insert_eq; eauto|].
    rewrite lookup_insert_ne by done. by apply H2.
  - intros k h'. simpl. rewrite lookup_insert_eq. simpl. intros Hk.
    destruct (decide (id = k)) as [<-|Hne]; [done|].
    rewrite lookup_insert_ne in Hk by done. pose proof (new_host_id_above _ _ _ Hk). unfold id. lia.
Qed.

(** [machine_ok] reads two tables and one counter. *)
Lemma machine_ok_ext db db' :
  t_hosts db' = t_hosts db -> t_state_transitions db' = t_state_transitions db ->
  t_sqlite_sequence db' !! "hosts" = t_sqlite_sequence db !! "hosts" ->
  machine_ok db -> machine_ok db'.
Proof. intros E1 E2 E3. unfold machine_ok, log_of. by rewrite E1, E2, E3. Qed.

Lemma machine_ok_run_op op db now :
  machine_ok db -> machine_ok (e_db (run_op op (mkEnv db now [] [])).2).
Proof.
  intros Hok. destruct op; simpl run_op.
  - unfold CreateHost. repeat run_step. case_step; [|done].
    unfold transitionHostState. repeat run_step. simpl.
    rewrite (lookup_insert_eq (t_sqlite_sequence db)). simpl.
    rewrite bool_decide_eq_true_2 by (rewrite lookup_insert_eq; eauto).
    unfold GetHostByID. repeat run_step. simpl. rewrite lookup_insert_eq. simpl.
    by apply (machine_ok_insert (new_host _ _ _ _ _ _ _ _ _ _ _)).
  - unfold SetHostState, GetHostByID. repeat run_step.
    destruct (t_hosts db !! id) as [h|] eqn:Hh; [|done].
    run_step. destruct (validTransition (h_State h) to) eqn:Hv; simpl; [|done].
    unfold update_host, transitionHostState. repeat run_step. simpl.
    rewrite bool_decide_eq_true_2 by (apply lookup_alter_is_Some; eauto).
    by apply machine_ok_step.
  - unfold UpdateHostAuth, update_host. repeat run_step. by apply machine_ok_alter.
  - unfold UpdateHostRouting, update_host. repeat run_step. by apply machine_ok_alter.
  - unfold UpdateHostGeoPolicy, update_host. repeat run_step. by apply machine_ok_alter.
  - unfold RemoveHost. run_step. by apply machine_ok_delete.
  - unfold UpsertDomain, GetDomainByName. repeat run_step.
    destruct (domain_by_name (d_Name d) db); simpl; case_match; simpl;
      (eapply machine_ok_ext; [| | |exact Hok]); simpl; try done;
      by rewrite lookup_insert_ne.
  - unfold SetDomainStatus. run_step. case_step; [done|]. repeat run_step.
    by eapply machine_ok_ext; [| | |exact Hok].
  - unfold RemoveDomain. repeat run_step. case_step; [done|].
    destruct (delete_domain_hosts id db) as (E1 & E2 & E3). simpl.
    apply (machine_ok_ext _ _ E1 E2); [by rewrite E3|].
    by apply machine_ok_delete.
Qed.

(** C28. When the driver does not fail, the transition log of every host is a
    path of the state machine from the start to the state the host is in. *)
Theorem transition_log_explains_state db :
  reachable (fun fs => fs = []) db ->
  forall id h, t_hosts db !! id = Some h -> follow "" (log_of id db) = Some (h_State h).
Proof.
  intros Hr. assert (Hok : machine_ok db); [|by destruct Hok].
  induction Hr as [|db op now faults _ IH ->].
  - split_and!; set_solver.
  - by apply machine_ok_run_op.
Qed.

(** A domain, a host and its way to [active]. *)
Definition demo_ops : list host_op :=
  [OpUpsertDomain (zero_Domain <| d_Name := "example.org" |>);
   OpCreate 1 "app" "app.example.org" "http" "http://10.0.0.2" false false "" [];
   OpState 1 "dns_pending" ""; OpState 1 "cert_pending" ""; OpState 1 "active" ""].
Definition run_ops (ops : list host_op) (db : DB) : DB :=
  fold_left (fun db op => e_db (run_op op (mkEnv db 0 [] [])).2) ops db.
Definition demo_db : DB := run_ops demo_ops empty_DB.

Lemma reachable_run_ops (allow : list bool -> Prop) ops db :
  allow [] -> reachable allow db -> reachable allow (run_ops ops db).
Proof.
  intros H. revert db. induction ops as [|op ops IH]; intros db Hdb; [done|].
  apply IH. by apply reach_op.
Qed.

Lemma demo_reachable (allow : list bool -> Prop) : allow [] -> reachable allow demo_db.
Proof. intros H. apply reachable_run_ops; [done|apply reach_empty]. Qed.

Lemma host_states_invariant_witness :
  reachable (fun fs => fs = []) demo_db /\ states_ok demo_db.
Proof.
  split; [by apply demo_reachable|].
  apply (host_states_invariant (fun fs => fs = [])). by apply demo_reachable.
Defined.

Definition demo_host : Host :=
  mkHost 1 1 "app" "app.example.org" "http" "http://10.0.0.2" false false "" [] false "" "" "" []
    "active" "" 0 0.

Lemma transition_log_explains_state_witness :
  t_hosts demo_db !! 1 = Some demo_host /\ follow "" (log_of 1 demo_db) = Some "active".
Proof.
  assert (Hh : t_hosts demo_db !! 1 = Some demo_host) by (vm_compute; reflexivity).
  split; [exact Hh|].
  exact (transition_log_explains_state demo_db (demo_reachable _ eq_refl) 1 demo_host Hh).
Defined.

(* ------------------------------------------------------------------ *)
(** ** Lists of countries *)

Lemma csv_decoded l :
  Forall (lacks ","%char) l -> decodeCSV (encodeCSV l) = List.filter nonempty (map TrimSpace l).
Proof.
  intros Hl. unfold encodeCSV. set (l' := List.filter nonempty (map TrimSpace l)).
  assert (Hl' : Forall (fun s => lacks ","%char s /\ s <> "" /\ trim is_space s = s) l').
  { apply Forall_forall. intros s Hs%list_elem_of_In. apply filter_In in Hs as [Hs Hne].
    apply in_map_iff in Hs as (r & <- & Hr). rewrite Forall_forall in Hl.
    split_and!; [by apply lacks_trim, Hl, list_elem_of_In| |apply trim_idem].
    unfold nonempty in Hne. by bool_facts. }
  clearbody l'. destruct l' as [|x l']; [done|].
  destruct (Join_trimmed is_space "," (x :: l')) as [Hne Htrim]; [done| |].
  { eapply Forall_impl; [exact Hl'|]. intros s (_ & ? & ?). done. }
  unfold decodeCSV, TrimSpace. rewrite Htrim.
  replace (Join (x :: l') "," =? "")%string with false by (symmetry; by apply String.eqb_neq).
  rewrite Split_Join; [|done|eapply Forall_impl; [exact Hl'|]; by intros s (? & _)].
  assert (Hmap : map (trim is_space) (x :: l') = x :: l').
  { rewrite <- (map_id (x :: l')) at 2. apply map_ext_in. intros s Hs%list_elem_of_In.
    rewrite Forall_forall in Hl'. by apply Hl' in Hs as (_ & _ & ?). }
  rewrite Hmap. clear Hne Htrim Hmap. induction Hl' as [|s r (_ & Hs & _) _ IH]; [done|]. simpl.
  unfold nonempty at 1. replace (s =? "")%string with false by (symmetry; by apply String.eqb_neq).
  simpl. by f_equal.
Qed.

(** A list of texts without commas survives [encodeCSV] and [decodeCSV],
    up to the trimming and the dropping of empty entries that both do. *)
Theorem csv_round_trip l :
  Forall (lacks ","%char) l -> decodeCSV (encodeCSV l) = List.filter nonempty (map TrimSpace l).
Proof. apply csv_decoded. Qed.

Lemma csv_round_trip_witness : decodeCSV (encodeCSV [" DE"; ""; "US "]) = ["DE"; "US"].
Proof. apply (csv_round_trip [" DE"; ""; "US "]). repeat constructor. Defined.
