(* ===== verification/Auth.v ===== *)
(** [internal/auth]: passwords, one-time codes, sessions, source policies, roles
    and scopes ([auth.go]), and the LDAP login ([ldap.go]).

    The service's store is the environment of [StoreDB].  Argon2, AES-GCM, the
    JSON of the LDAP settings, [net/url] and the LDAP client are parameters. *)

From S2P Require Import Prelude GoString GoMonad GoTime GoNet GoUrl GoCrypto Crypto NetUtil Mfa Model.
From S2P Require Import StoreDB StoreThreat StoreUsers.
From Stdlib Require Import Ascii.

(** What [auth.New] computes: the session lifetime, the configured networks, the
    key of the keystore and the hash burnt on failed lookups. *)
Record AuthService := mkAuthService {
  au_sessionTTL : duration; au_allowed : list IPNet; au_trusted : list IPNet;
  au_key : bytes; au_dummyPasswordHash : string
}.
#[export] Instance eta_AuthService : Eta AuthService := fun r =>
  mkAuthService (au_sessionTTL r) (au_allowed r) (au_trusted r) (au_key r)
    (au_dummyPasswordHash r).

(** Who a request speaks for; [Scopes] is empty for a session. *)
Record Identity := mkIdentity {
  id_UserID : Z; id_Username : string; id_IRole : Role; id_DomainIDs : list Z;
  id_Scopes : gset string; id_Type : string
}.
#[export] Instance eta_Identity : Eta Identity := fun r =>
  mkIdentity (id_UserID r) (id_Username r) (id_IRole r) (id_DomainIDs r) (id_Scopes r)
    (id_Type r).

(* ------------------------------------------------------------------ *)
(** ** Pure decisions *)

Definition rank (r : Role) : Z :=
  if String.eqb r RoleReadOnly then 1
  else if String.eqb r RoleOperator || String.eqb r RoleDomainAdmin then 2
  else if String.eqb r RoleAdmin then 3 else 0.
Definition RoleAllows (role need : Role) : bool := rank need <=? rank role.

Definition ScopeAllows (scopes : gset string) (want : string) : bool :=
  if bool_decide (scopes = ∅) then true
  else if bool_decide (want ∈ scopes) || bool_decide ("*" ∈ scopes) then true
  else if HasSuffix want ":read" then bool_decide (TrimSuffix want ":read" +:+ ":write" ∈ scopes)
  else false.

(** [strings.SplitN(v, " ", 2)] *)
Definition bearerToken (v : string) : string :=
  match cut " "%char v with
  | Some (scheme, rest) => if EqualFold scheme "Bearer" then TrimSpace rest else ""
  | None => ""
  end.

Definition shouldCountLoginFailure (ldapDetail : string) : bool :=
  negb (bool_decide (ToLower (TrimSpace ldapDetail) ∈
    ["dial_failed"; "starttls_failed"; "bind_failed"; "rebind_failed"; "group_search_failed";
     "account_locked"; "config_error"; "ldap_disabled"])).

Definition loginFailureMeta (fails : Z) (lockUntil : time) (counted : bool) : string :=
  if negb counted then "failures=skipped;lock_until=none"
  else "failures=" +:+ Itoa fails +:+ ";lock_until=" +:+ RFC3339 lockUntil.

Definition line_break : ascii := byte 10.

Definition parseCIDRsCSV (raw : string) : result (list IPNet) :=
  parse_cidrs (Split (ReplaceAll (ReplaceAll raw line_break ",") ";"%char ",") ","%char).

Definition isSourceAllowedForUser (s : AuthService) (u : User) (source : string) : bool * string :=
  if u_IPCheckOff u && u_MFAEnabled u then (true, "ip_check_disabled=1;mfa_enabled=1")
  else match ParseIP (TrimSpace source) with
  | None => (false, "invalid_source_ip")
  | Some ip =>
      match (if negb (String.eqb (TrimSpace (u_AllowedCIDRs u)) "") then parseCIDRsCSV (u_AllowedCIDRs u)
             else Ok (au_allowed s)) with
      | Err _ => (false, "invalid_user_cidrs")
      | Ok [] => (true, "no_cidr_policy")
      | Ok nets => if in_nets nets ip then (true, "cidr_match") else (false, "cidr_miss")
      end
  end.

Definition is_ldap (u : User) : bool := EqualFold (TrimSpace (u_AuthProvider u)) "ldap".

(** The setting that enforces a second factor for a role. *)
Definition mfa_policy_key (r : Role) : option string :=
  if String.eqb r RoleAdmin then Some "auth.mfa.enforce_admin"
  else if String.eqb r RoleDomainAdmin then Some "auth.mfa.enforce_domain_admin"
  else if String.eqb r RoleReadOnly then Some "auth.mfa.enforce_read_only"
  else None.

Definition userRequiresMFA (u : User) : SM (bool * string) :=
  if is_ldap u then mret (false, "external_provider_ldap")
  else if u_MFAEnabled u then mret (true, "user_enrolled")
  else match mfa_policy_key (u_URole u) with
  | None => mret (false, "role_not_enforced")
  | Some key =>
      r ← try_ (GetSetting key);
      mret (match r with
            | Err _ => (false, "policy_unset")
            | Ok v => if EqualFold (TrimSpace v) "true" then (true, "policy_enforced") else (false, "policy_not_enforced")
            end)
  end.

(* ------------------------------------------------------------------ *)
(** ** Configuration of the LDAP login *)

Record ldapRuntimeConfig := mkldapRuntimeConfig {
  lc_Enabled : bool; lc_URL : string; lc_StartTLS : bool; lc_InsecureSkipVerify : bool;
  lc_BindDN : string; lc_UserBaseDN : string; lc_GroupBaseDN : string; lc_UserAttr : string;
  lc_AdminGroup : string; lc_DomainAdminGroup : string; lc_ReadOnlyGroup : string;
  lc_DomainAdminDomainIDs : list Z
}.
#[export] Instance eta_ldapRuntimeConfig : Eta ldapRuntimeConfig := fun r =>
  mkldapRuntimeConfig (lc_Enabled r) (lc_URL r) (lc_StartTLS r)
    (lc_InsecureSkipVerify r) (lc_BindDN r) (lc_UserBaseDN r) (lc_GroupBaseDN r)
    (lc_UserAttr r) (lc_AdminGroup r) (lc_DomainAdminGroup r) (lc_ReadOnlyGroup r)
    (lc_DomainAdminDomainIDs r).

Definition zero_ldapRuntimeConfig : ldapRuntimeConfig := mkldapRuntimeConfig false "" false false "" "" "" "" "" "" "" [].

Definition normalizeLDAPConfig (c : ldapRuntimeConfig) : ldapRuntimeConfig :=
  c <| lc_URL ::= TrimSpace |> <| lc_BindDN ::= TrimSpace |> <| lc_UserBaseDN ::= TrimSpace |>
    <| lc_GroupBaseDN ::= TrimSpace |>
    <| lc_UserAttr ::= fun a => if String.eqb (TrimSpace a) "" then "uid" else TrimSpace a |>
    <| lc_AdminGroup ::= TrimSpace |> <| lc_DomainAdminGroup ::= TrimSpace |> <| lc_ReadOnlyGroup ::= TrimSpace |>.

(** One entry of an LDAP answer: its name and the values of an attribute. *)
Record Entry := mkEntry { en_DN : string; en_values : string -> list string }.

(** The answer of [ldapAuthenticate]: what it proves of the user, or the detail
    and the error. *)
Inductive ldap_answer : Type :=
| LdapUser (role : Role) (domainIDs : list Z) (username detail : string)
| LdapError (detail : string) (e : error).

Definition isLDAPAccountLocked (msg : string) : bool :=
  let m := ToLower (TrimSpace msg) in Contains m "account locked" || Contains m "data 775".

(** The role of the first configured group the user is in. *)
Definition ldap_role (cfg : ldapRuntimeConfig) (groups : gset string) : option Role :=
  let has g := let g := norm g in negb (String.eqb g "") && bool_decide (g ∈ groups) in
  if has (lc_AdminGroup cfg) then Some RoleAdmin
  else if has (lc_DomainAdminGroup cfg) then Some RoleDomainAdmin
  else if has (lc_ReadOnlyGroup cfg) then Some RoleReadOnly
  else None.

Definition group_set (entries : list Entry) : gset string :=
  list_to_set (List.filter (fun cn => negb (String.eqb cn "")) (map norm (concat (map (fun e => en_values e "cn") entries)))).

Section client.
(** [ldap.EscapeFilter] and the client: dialing a URL, [StartTLS], the n-th
    [Bind] of the connection (the text of its error), and [Search] in a base
    with a filter, for the given attributes, up to a number of entries. *)
Context (EscapeFilter : string -> string).
Context (dial : string -> bool -> bool) (start_tls : bool -> bool).
Context (bind : nat -> string -> string -> option string).
Context (search : string -> string -> list string -> Z -> result (list Entry)).

(** The first candidate name that finds an entry. *)
Fixpoint find_candidate (cfg : ldapRuntimeConfig) (candidates : list string) : option (string * string) :=
  match candidates with
  | [] => None
  | cand :: l =>
      let filter := "(" +:+ lc_UserAttr cfg +:+ "=" +:+ EscapeFilter cand +:+ ")" in
      match search (lc_UserBaseDN cfg) filter ["dn"; lc_UserAttr cfg] 2 with
      | Ok (e :: _) =>
          let matched := TrimSpace (default "" (head (en_values e (lc_UserAttr cfg)))) in
          if String.eqb (en_DN e) "" then None
          else Some (en_DN e, if String.eqb matched "" then cand else matched)
      | _ => find_candidate cfg l
      end
  end.

Definition group_filter (user dn : string) : string :=
  "(|(memberUid=" +:+ EscapeFilter user +:+ ")(member=" +:+ EscapeFilter dn +:+ ")(uniqueMember=" +:+ EscapeFilter dn +:+ "))".

(** Groups, role and domains of the user that was bound. *)
Definition ldap_roles_of (cfg : ldapRuntimeConfig) (userDN matched : string) : ldap_answer :=
  match search (lc_GroupBaseDN cfg) (group_filter matched userDN) ["cn"] 0 with
  | Err e => LdapError "group_search_failed" e
  | Ok entries =>
      match ldap_role cfg (group_set entries) with
      | None => LdapError "group_mapping_missing" (ErrText "no mapped ldap group")
      | Some role =>
          let ids := order_by Z.leb (lc_DomainAdminDomainIDs cfg) in
          let detail :=
            if String.eqb role RoleDomainAdmin && (Z.of_nat (length ids) =? 0)
            then "role=domain-admin;source=ldap;domains=all"
            else "role=" +:+ role +:+ ";source=ldap;domains=" +:+ Itoa (Z.of_nat (length ids)) in
          LdapUser role ids matched detail
      end
  end.

Definition ldapAuthenticate (cfg : ldapRuntimeConfig) (bindPassword loginUsername loginPassword : string) : ldap_answer :=
  if String.eqb (TrimSpace loginUsername) "" || String.eqb (TrimSpace loginPassword) ""
  then LdapError "missing_credentials" (ErrText "missing credentials")
  else if String.eqb (TrimSpace (lc_URL cfg)) "" || String.eqb (TrimSpace (lc_BindDN cfg)) ""
       || String.eqb (TrimSpace (lc_UserBaseDN cfg)) "" || String.eqb (TrimSpace (lc_GroupBaseDN cfg)) ""
  then LdapError "config_incomplete" (ErrText "ldap config incomplete")
  else match url_Scheme <$> Parse (lc_URL cfg) with
  | None => LdapError "bad_url" (ErrText "parse url")
  | Some scheme =>
      let url := if String.eqb scheme "" then "ldaps://" +:+ lc_URL cfg else lc_URL cfg in
      if negb (dial url (lc_InsecureSkipVerify cfg)) then LdapError "dial_failed" (ErrText "dial")
      else if HasPrefix (ToLower url) "ldap://" && lc_StartTLS cfg && negb (start_tls (lc_InsecureSkipVerify cfg))
      then LdapError "starttls_failed" (ErrText "starttls")
      else match bind 0 (lc_BindDN cfg) bindPassword with
      | Some e => LdapError "bind_failed" (ErrText e)
      | None =>
          let name := TrimSpace loginUsername in
          let candidates := if String.eqb (ToLower name) name then [name] else [name; ToLower name] in
          match find_candidate cfg candidates with
          | None => LdapError "user_not_found" (ErrText "user not found")
          | Some (userDN, matched) =>
              match bind 1 userDN loginPassword with
              | Some e => LdapError (if isLDAPAccountLocked e then "account_locked" else "bad_password") (ErrText e)
              | None =>
                  match bind 2 (lc_BindDN cfg) bindPassword with
                  | Some e => LdapError "rebind_failed" (ErrText e)
                  | None => ldap_roles_of cfg userDN matched
                  end
              end
          end
      end
  end.
End client.

(* ------------------------------------------------------------------ *)
(** ** The operations of the service *)

Section auth.
(** [encoding/json] on the stored LDAP settings, the cipher, the key derivation
    and the LDAP client, as far as the login sees it. *)
Context (decode_ldap : string -> option ldapRuntimeConfig).
Context (Open : bytes -> bytes -> bytes -> option bytes).
Context (IDKey : bytes -> bytes -> Z -> Z -> Z -> Z -> bytes).
Context (ldap : ldapRuntimeConfig -> string -> string -> string -> ldap_answer).
Context (s : AuthService).

Definition loadLDAPConfig : SM (ldapRuntimeConfig * string) :=
  r ← try_ (GetSetting "auth.ldap.config");
  match r with
  | Err ErrNoRows => mret (zero_ldapRuntimeConfig, "")
  | Err e => fail e
  | Ok raw =>
      let raw := TrimSpace raw in
      if String.eqb raw "" then mret (zero_ldapRuntimeConfig, "")
      else match decode_ldap raw with
      | None => fail (ErrText "invalid ldap config json")
      | Some cfg =>
          let cfg := normalizeLDAPConfig cfg in
          if negb (lc_Enabled cfg) then mret (cfg, "")
          else
            r ← try_ (GetSecret "auth.ldap.bind_password");
            match r with
            | Err ErrNoRows => fail (ErrText "ldap bind password missing")
            | Err e => fail e
            | Ok enc => match Decrypt Open (au_key s) enc with
                        | Err _ => fail (ErrText "ldap bind password decrypt failed")
                        | Ok dec => mret (cfg, dec)
                        end
            end
      end
  end.

(** The provisioned user, or the detail of the failure. *)
Definition tryLDAPLogin (loginUsername password : string) : SM (User + string) :=
  r ← try_ loadLDAPConfig;
  match r with
  | Err _ => mret (inr "config_error")
  | Ok (cfg, bindPassword) =>
      if negb (lc_Enabled cfg) then mret (inr "ldap_disabled")
      else match ldap cfg bindPassword loginUsername password with
      | LdapError detail _ => mret (inr detail)
      | LdapUser role domainIDs sourceUsername _ =>
          domainIDs ← (if String.eqb role RoleDomainAdmin && (Z.of_nat (length domainIDs) =? 0)
                       then r ← try_ ListDomainIDs; mret (match r with Ok l => l | Err _ => domainIDs end)
                       else mret domainIDs);
          r ← try_ (UpsertExternalUser (norm sourceUsername) role domainIDs "ldap" (au_dummyPasswordHash s));
          mret (match r with Ok u => inl u | Err _ => inr "shadow_upsert_failed" end)
      end
  end.

Definition registerFailureIfEligible (username ldapDetail : string) : SM (Z * time * bool) :=
  if negb (shouldCountLoginFailure ldapDetail) then mret (0, 0, false)
  else r ← RegisterLoginFailure username; mret (r.1.1, r.1.2, true).

Definition validateMFA (u : User) (otpOrRecovery : string) : SM (bool * string) :=
  let raw := TrimSpace otpOrRecovery in
  if String.eqb raw "" then mret (false, "missing_code") else
  now ← Now;
  let totp := negb (String.eqb (TrimSpace (u_MFASecretEnc u)) "") &&
    match Decrypt Open (au_key s) (TrimSpace (u_MFASecretEnc u)) with
    | Ok secret => ValidateTOTP secret raw now
    | Err _ => false
    end in
  if totp then mret (true, "totp_ok")
  else if IsRecoveryCodeFormat raw then
    r ← try_ (ConsumeUserMFARecoveryCode (u_ID u) (HashRecoveryCode raw));
    mret (match r with Ok true => (true, "recovery_ok") | _ => (false, "invalid_code") end)
  else mret (false, "invalid_code").

Definition failErr : error := ErrText "login failed".

(** A failed attempt of a known user: count, audit, refuse. *)
Definition deny {A} (username source reason detail : string) : SM A :=
  r ← RegisterLoginFailure username;
  audit username "auth.login.failed" "user"
    (reason +:+ detail +:+ ";failures=" +:+ Itoa r.1.1 +:+ ";lock_until=" +:+ RFC3339 r.1.2 +:+ ";source=" +:+ source)
  ≫= fun _ => fail failErr.

(** A failed LDAP attempt. *)
Definition deny_ldap {A} (username source reason detail : string) : SM A :=
  r ← registerFailureIfEligible username detail;
  audit username "auth.login.failed" "user"
    (reason +:+ ";source=" +:+ source +:+ ";" +:+ loginFailureMeta r.1.1 r.1.2 r.2
       +:+ (if String.eqb (TrimSpace detail) "" then "" else ";ldap=" +:+ detail))
  ≫= fun _ => fail failErr.

(** [randomHex(32)] *)
Definition randomHex : SM string := blob ← random; mret (hex_encode (bytes_of blob)).

(** A session for a user who passed every check. *)
Definition open_session (u : User) (meta : string) : SM (string * User) :=
  sid ← randomHex;
  now ← Now;
  CreateSession sid (u_ID u) (Add now (au_sessionTTL s)) ≫= fun _ =>
  audit (u_Username u) "auth.login.success" "session" meta ≫= fun _ =>
  mret (sid, u).

(** The proof of identity: LDAP or the stored hash. *)
Definition prove_identity (username normUsername source password : string) (u : User) : SM User :=
  if is_ldap u then
    ext ← tryLDAPLogin username password;
    match ext with
    | inl extUser => mret extUser
    | inr detail => deny_ldap normUsername source "ldap_auth_failed" detail
    end
  else if negb (VerifyPassword IDKey password (u_PasswordHash u))
  then deny normUsername source "bad_password" ""
  else mret u.

(** The second factor, where one is required. *)
Definition check_second_factor (normUsername source otpOrRecovery : string) (u : User) : SM unit :=
  req ← userRequiresMFA u;
  if negb req.1 then mret tt
  else if negb (u_MFAEnabled u)
  then deny normUsername source "mfa_required_not_enrolled;" req.2
  else
    ok ← validateMFA u otpOrRecovery;
    if negb ok.1 then deny normUsername source "mfa_failed;" ok.2 else mret tt.

(** Whether the source is on the block list; a failed lookup counts as no. *)
Definition source_blocked (source : string) : SM bool :=
  r ← try_ (IsIPBlocked source);
  mret (match r with Ok b => b | Err _ => false end).

Definition or_na (source : string) : string := if String.eqb (TrimSpace source) "" then "n/a" else source.

Definition AuthenticatePassword (username password otpOrRecovery source : string) : SM (string * User) :=
  let username := TrimSpace username in
  let normUsername := if String.eqb (ToLower username) "" then username else ToLower username in
  let source := or_na source in
  source_blocked source ≫= fun blocked : bool =>
  if blocked then
    audit username "auth.login.blocked_ip" "user" ("source=" +:+ source) ≫= fun _ => fail failErr
  else
  '(failed, lockUntil) ← GetLoginAttempt normUsername;
  now ← Now;
  if (0 <? failed) && After lockUntil now then
    audit username "auth.login.locked" "user" ("lock_until=" +:+ RFC3339 lockUntil +:+ ";source=" +:+ source)
    ≫= fun _ => fail failErr
  else
  r ← try_ (FindUserByUsername normUsername);
  match r with
  | Err e =>
      if is_no_rows e then
        ext ← tryLDAPLogin username password;
        match ext with
        | inl _ => fail e
        | inr detail => deny_ldap normUsername source "unknown_user" detail
        end
      else fail e
  | Ok u =>
      u ← prove_identity username normUsername source password u;
      let '(ok, detail) := isSourceAllowedForUser s u source in
      if negb ok then deny normUsername source "ip_policy_denied;" detail
      else
        check_second_factor normUsername source otpOrRecovery u ≫= fun _ =>
        ignore (ClearLoginFailures normUsername) ≫= fun _ =>
        open_session u ("password+mfa;provider=" +:+ TrimSpace (u_AuthProvider u) +:+ ";source=" +:+ source)
  end.

Definition AuthenticateExternal (username : string) (role : Role) (domainIDs : list Z) (provider source : string)
    : SM (string * User) :=
  let username := norm username in
  fail_if (String.eqb username "") "login failed" ≫= fun _ =>
  let source := or_na source in
  source_blocked source ≫= fun blocked : bool =>
  if blocked then
    audit username "auth.login.blocked_ip" "user" ("source=" +:+ source +:+ ";provider=" +:+ TrimSpace provider)
    ≫= fun _ => fail failErr
  else
    u ← UpsertExternalUser username role domainIDs provider (au_dummyPasswordHash s);
    let '(ok, detail) := isSourceAllowedForUser s u source in
    if negb ok then
      audit username "auth.login.failed" "user"
        ("ip_policy_denied;" +:+ detail +:+ ";source=" +:+ source +:+ ";provider=" +:+ TrimSpace provider)
      ≫= fun _ => fail failErr
    else
      ignore (ClearLoginFailures username) ≫= fun _ =>
      open_session u ("provider=" +:+ TrimSpace provider +:+ ";source=" +:+ source).

(** The session of the cookie, checked against its user. *)
Definition resolve_session (cookie : option string) (source : string) : SM Identity :=
  match cookie with
  | None => fail (ErrText "unauthorized")
  | Some value =>
      r ← try_ (GetSession value);
      now ← Now;
      match r with
      | Err _ => fail (ErrText "unauthorized")
      | Ok sess =>
          if Before (se_ExpiresAt sess) now then fail (ErrText "unauthorized")
          else
            r ← try_ (GetUserByID (se_UserID sess));
            match r with
            | Err _ => fail (ErrText "unauthorized")
            | Ok u =>
                let '(ok, detail) := isSourceAllowedForUser s u source in
                if negb ok then
                  audit (u_Username u) "auth.session.denied" "session" (detail +:+ ";source=" +:+ source)
                  ≫= fun _ => fail (ErrText "unauthorized")
                else
                  r ← try_ (GetUserDomainIDs (u_ID u));
                  mret (mkIdentity (u_ID u) (u_Username u) (u_URole u)
                          (match r with Ok l => l | Err _ => [] end) ∅ "session")
            end
      end
  end.

Definition requestIP (r : Request) : string := ClientIP r (au_trusted s).

Definition ResolveIdentity (r : Request) : SM Identity :=
  let source := requestIP r in
  source_blocked source ≫= fun blocked : bool =>
  if blocked then fail (ErrText "unauthorized")
  else
    let token := bearerToken (header r "Authorization") in
    tok ← (if String.eqb token "" then mret None
           else t ← try_ (LookupAPIToken token); mret (match t with Ok t => Some t | Err _ => None end));
    match tok with
    | Some t => mret (mkIdentity 0 ("token:" +:+ tk_Name t) (tk_TRole t) (tk_DomainIDs t) (SplitScopes (tk_Scopes t)) "token")
    | None => resolve_session (rq_Cookies r !! "domnex_session") source
    end.

Definition Logout (sessionID actor : string) : SM unit :=
  DeleteSession sessionID ≫= fun _ => audit actor "auth.logout" "session" "single".
Definition LogoutAll (userID : Z) (actor : string) : SM unit :=
  DeleteAllSessionsForUser userID ≫= fun _ => audit actor "auth.logout_all" "session" "all".

Definition CheckAdminNetwork (r : Request) : SM bool :=
  let source := requestIP r in
  source_blocked source ≫= fun blocked : bool =>
  if blocked then
    audit "system" "auth.admin_network.blocked_ip" "admin_api" ("source=" +:+ source) ≫= fun _ => mret false
  else mret (match ParseIP source with Some ip => in_nets (au_allowed s) ip | None => false end).
End auth.

(* ------------------------------------------------------------------ *)
(** ** What reads leave alone, and computations that always refuse *)

Lemma keeps_source_blocked {T} (p : DB -> T) source : keeps (same p) (source_blocked source).
Proof. unfold source_blocked, IsIPBlocked. keeps_db. Qed.
Lemma keeps_GetLoginAttempt {T} (p : DB -> T) n : keeps (same p) (GetLoginAttempt n).
Proof. unfold GetLoginAttempt. keeps_db. Qed.
Lemma keeps_audit {T} (p : DB -> T) actor action target meta :
  (forall db f, p (db <| t_audit_events ::= f |>) = p db) ->
  (forall db f, p (db <| t_trace_events ::= f |>) = p db) ->
  (forall db f, p (db <| t_sqlite_sequence ::= f |>) = p db) ->
  keeps (same p) (audit actor action target meta).
Proof.
  intros H1 H2 H3. unfold audit, AddAuditEvent. keeps_tac; try typeclasses eauto.
  - apply keeps_exec. intros db. unfold insert_audit, take_id. by rewrite H1, H3.
  - apply keeps_exec. intros db. by rewrite H2.
Qed.

Lemma source_blocked_wp source e :
  wp (source_blocked source) (fun r e1 => exists b, r = Ok b /\ same id e e1 /\
    (e_faults e = [] -> TrimSpace source <> "" -> b = bool_decide (is_Some (t_blocked_ips (e_db e) !! TrimSpace source)))) e.
Proof.
  unfold source_blocked. apply wp_bind, wp_try. unfold IsIPBlocked.
  destruct (TrimSpace source =? "")%string eqn:E.
  - apply wp_ret, wp_ret. exists false. split_and!; [done..|]. apply String.eqb_eq in E. intros _ Hne. done.
  - unfold wp, query, stmt, mbind, M_bind. destruct e as [db now [|[] fs] rnd]; simpl; eexists; split_and!; done.
Qed.

Lemma GetLoginAttempt_wp n e :
  wp (GetLoginAttempt n) (fun r e1 => same id e e1 /\ forall failed lock, r = Ok (failed, lock) ->
    (failed, lock) = match t_login_attempts (e_db e) !! n with
                     | Some a => (la_failed_count a, la_lock_until a) | None => (0, 0) end) e.
Proof.
  unfold GetLoginAttempt. apply wp_bind, wp_try. apply wp_query_row; intros fs; [done|intros a Ha|intros Ha].
  - apply wp_ret. simpl. rewrite Ha. split; [done|]. by intros ? ? [= <- <-].
  - apply wp_ret. simpl. rewrite Ha. split; [done|]. by intros ? ? [= <- <-].
Qed.

Lemma FindUser_wp n e :
  wp (FindUserByUsername n) (fun r e1 => same id e e1 /\
    match r with Ok u => user_by_name n (e_db e) = Some u | Err er => er = ErrDriver \/ er = ErrNoRows /\ user_by_name n (e_db e) = None end) e.
Proof.
  unfold FindUserByUsername. apply wp_query_row; intros fs; [split; [done|by left]|intros u Hu; done|intros Hu; split; [done|by right]].
Qed.

(** A computation that never answers [Ok]. *)
Definition refuses {A} (m : SM A) : Prop := forall e, exists er, (m e).1 = Err er.

Lemma refuses_wp {A} (m : SM A) (Q : result A -> Env -> Prop) e : refuses m -> (forall er e', Q (Err er) e') -> wp m Q e.
Proof. intros H HQ. unfold wp. destruct (H e) as [er He]. destruct (m e) as [r e']. simpl in He. by subst r. Qed.

Lemma refuses_fail {A} er : refuses (fail er : SM A).
Proof. intros e. by exists er. Qed.
Lemma refuses_bind {A B} (m : SM A) (k : A -> SM B) : (forall a, refuses (k a)) -> refuses (m ≫= k).
Proof. intros H e. unfold mbind, M_bind. destruct (m e) as [[a|er] e1]; [apply H|by exists er]. Qed.
Lemma refuses_deny {A} n source reason detail : refuses (deny n source reason detail : SM A).
Proof. unfold deny. do 2 (apply refuses_bind; intros ?). apply refuses_fail. Qed.
Lemma refuses_deny_ldap {A} n source reason detail : refuses (deny_ldap n source reason detail : SM A).
Proof. unfold deny_ldap. do 2 (apply refuses_bind; intros ?). apply refuses_fail. Qed.

(* ------------------------------------------------------------------ *)
(** ** A login proves what it should *)

Section sound.
Context (decode_ldap : string -> option ldapRuntimeConfig).
Context (Open : bytes -> bytes -> bytes -> option bytes).
Context (IDKey : bytes -> bytes -> Z -> Z -> Z -> Z -> bytes).
Context (ldap : ldapRuntimeConfig -> string -> string -> string -> ldap_answer).
Context (s : AuthService).

(** The name the login looks up. *)
Definition login_name (username : string) : string :=
  if String.eqb (ToLower (TrimSpace username)) "" then TrimSpace username else ToLower (TrimSpace username).

(** The one-time password or recovery code [code] counts for [u] in [e]. *)
Definition second_factor (u : User) (code : string) (e : Env) : Prop :=
  (exists secret, Decrypt Open (au_key s) (TrimSpace (u_MFASecretEnc u)) = Ok secret /\
     ValidateTOTP secret (TrimSpace code) (e_now e) = true) \/
  t_user_mfa_recovery_codes (e_db e) !! (u_ID u, TrimSpace (HashRecoveryCode (TrimSpace code))) = Some None.

(** Accounts are stored under their number. *)
Definition accounts_keyed (db : DB) : Prop := map_Forall (fun k u => u_ID u = k) (t_users db).

(** The account of the name an LDAP server vouches for, with the role it gives. *)
Definition vouched (name : string) (role : Role) (u : User) : Prop :=
  u_Username u = norm name /\ u_URole u = role /\ is_ldap u = true.

Lemma external_user_id_wp username role provider hash e : accounts_keyed (e_db e) ->
  wp (external_user_id username role provider hash) (fun r e' => forall id, r = Ok id -> exists u,
    t_users (e_db e') !! id = Some u /\ u_Username u = username /\ u_URole u = role /\ u_AuthProvider u = provider) e.
Proof.
  intros Hk. unfold external_user_id. apply wp_bind, wp_gets, wp_bind, wp_try. apply wp_query_row; intros fs; [by apply wp_fail| |].
  - intros [id prov] Hu. destruct (user_by_name username (e_db e)) as [u|] eqn:E; [|done]. simpl in Hu. injection Hu as Hid _.
    unfold user_by_name in E. apply find_row_Some in E as [Hn [k Hrow]]. apply String.eqb_eq in Hn.
    apply wp_bind, wp_fail_if; intros _; [done|]. apply wp_bind, wp_exec; intros fs'; [done|]. apply wp_ret. intros id' [= <-].
    pose proof (Hk _ _ Hrow) as Hkey. cbv beta in Hkey. simpl. rewrite <- Hid, Hkey, lookup_alter_eq, Hrow. by eexists.
  - intros _. simpl. unfold insert_user. apply wp_bind, wp_exec_checked; intros fs'; [done| |done]. intros _. apply wp_gets. intros id [= <-].
    simpl. rewrite !lookup_insert_eq. by eexists.
Qed.

Lemma upsert_external_wp username role ids e : accounts_keyed (e_db e) ->
  wp (UpsertExternalUser (norm username) role ids "ldap" (au_dummyPasswordHash s))
     (fun r _ => forall u, r = Ok u -> vouched username role u) e.
Proof.
  intros Hk. unfold UpsertExternalUser. apply wp_bind, wp_fail_if; intros _; [done|].
  change (ToLower (TrimSpace "ldap")) with "ldap". cbv beta zeta. change ("ldap" =? "")%string with false. cbv iota.
  set (good := fun id d => exists u, t_users d !! id = Some u /\ vouched username role u).
  apply wp_bind. eapply wp_mono; [apply (wp_transaction _ good)|].
  - intros fs. apply wp_bind. eapply wp_mono; [by apply external_user_id_wp|]. intros [id|x] e1 Hid; [|done].
    destruct (Hid id eq_refl) as (u & Hu & Hn & Hr & Hp).
    apply wp_bind. eapply (wp_keeps (same t_users)); [unfold clear_scopes; keeps_db|]. intros [[]|x] e2 [E2 _]; [|done].
    apply wp_bind. eapply (wp_keeps (same t_users)); [unfold insert_scopes; keeps_db|]. intros [[]|x] e3 [E3 _]; [|done].
    apply wp_ret. intros a [= <-]. exists u. rewrite E3, E2. split; [done|]. unfold vouched, is_ldap. split_and!; [|done|by rewrite Hp].
    rewrite Hn. unfold norm. by rewrite TrimSpace_ToLower, TrimSpace_idem.
  - intros [id|x] e1 Hid; [|done]. destruct (Hid id eq_refl) as (u & Hu & Hv). unfold GetUserByID.
    apply wp_query_row; intros fs; [done| |done]. intros u' Hu' ? [= <-]. congruence.
Qed.

Lemma quiet_config : keeps (same t_users) (loadLDAPConfig decode_ldap Open s).
Proof. unfold loadLDAPConfig, GetSetting, GetSecret. keeps_db. Qed.

Lemma tryLDAPLogin_ldap username password e : accounts_keyed (e_db e) ->
  wp (tryLDAPLogin decode_ldap Open ldap s username password)
     (fun r _ => forall u, r = Ok (inl u) -> exists cfg pw role ids name detail,
        ldap cfg pw username password = LdapUser role ids name detail /\ vouched name role u) e.
Proof.
  intros Hk. unfold tryLDAPLogin. apply wp_bind, wp_try. eapply wp_keeps; [apply quiet_config|]. intros [[cfg pw]|er] e1 [E1 _]; [|by apply wp_ret].
  case_match; [by apply wp_ret|]. destruct (ldap cfg pw username password) as [role ids name detail|d er] eqn:E; [|by apply wp_ret].
  apply wp_bind. eapply (wp_keeps (same t_users)).
  { unfold ListDomainIDs. keeps_db. }
  intros [l|x] e2 [E2 _]; [|done]. apply wp_bind, wp_try. eapply wp_mono; [apply upsert_external_wp|].
  { unfold accounts_keyed. by rewrite E2, E1. }
  intros [u|x] e3 Hu; apply wp_ret; [|done]. intros u' [= <-]. eauto 12.
Qed.

Lemma validateMFA_wp u code e :
  wp (validateMFA Open s u code) (fun r _ => forall d, r = Ok (true, d) -> second_factor u code e) e.
Proof.
  unfold validateMFA. case_match; [by apply wp_ret|]. apply wp_bind, wp_gets.
  destruct (negb _ && _) eqn:Ht; [apply wp_ret|].
  - intros d _. left. apply andb_prop in Ht as [_ Ht].
    destruct (Decrypt Open (au_key s) (TrimSpace (u_MFASecretEnc u))) as [secret|]; [|done]. eauto.
  - clear Ht. destruct (IsRecoveryCodeFormat (TrimSpace code)); [|by apply wp_ret]. apply wp_bind, wp_try. unfold ConsumeUserMFARecoveryCode.
    apply wp_bind, wp_gets, wp_bind, wp_query; intros fs; [by apply wp_ret|].
    apply wp_bind, wp_modify, wp_ret, wp_ret. cbn [e_db]. intros d Hd. right.
    unfold code_unused in Hd. revert Hd.
    change (e_db (e <| e_faults := fs |>)) with (e_db e).
    destruct (t_user_mfa_recovery_codes (e_db e) !! _) as [[]|]; done.
Qed.

Lemma clock_prove username n source password u :
  keeps (same (fun _ => tt)) (prove_identity decode_ldap Open IDKey ldap s username n source password u).
Proof.
  unfold prove_identity, deny, deny_ldap, registerFailureIfEligible, RegisterLoginFailure, GetLoginAttempt, audit,
    AddAuditEvent, tryLDAPLogin, loadLDAPConfig, GetSetting, GetSecret, ListDomainIDs, UpsertExternalUser,
    external_user_id, insert_user, clear_scopes, insert_scopes, GetUserByID.
  keeps_db.
Qed.

Lemma prove_identity_wp username n source password u e : accounts_keyed (e_db e) ->
  wp (prove_identity decode_ldap Open IDKey ldap s username n source password u)
    (fun r e1 => e_now e1 = e_now e /\ forall u', r = Ok u' ->
       (is_ldap u = false -> u' = u /\ VerifyPassword IDKey password (u_PasswordHash u) = true /\ same id e e1) /\
       (is_ldap u = true -> exists cfg pw role ids name detail,
          ldap cfg pw username password = LdapUser role ids name detail /\ vouched name role u')) e.
Proof.
  intros Hkeyed. eapply wp_mono with (Q := fun r e1 => same (fun _ => tt) e e1 /\ forall u', r = Ok u' ->
       (is_ldap u = false -> u' = u /\ VerifyPassword IDKey password (u_PasswordHash u) = true /\ same id e e1) /\
       (is_ldap u = true -> exists cfg pw role ids name detail,
          ldap cfg pw username password = LdapUser role ids name detail /\ vouched name role u')).
  2: { intros r e1 [[_ H1] H2]. done. }
  apply wp_and; [apply keeps_wp, clock_prove|]. unfold prove_identity. destruct (is_ldap u).
  - apply wp_bind. eapply wp_mono; [by apply tryLDAPLogin_ldap|]. intros [[ext|detail]|er] e1 Hx; [apply wp_ret| |done].
    + intros u' [= <-]. split; [done|]. intros _. by apply (Hx ext).
    + apply refuses_wp; [apply refuses_deny_ldap|done].
  - destruct (VerifyPassword IDKey password (u_PasswordHash u)) eqn:E; simpl.
    + apply wp_ret. intros u' [= <-]. done.
    + apply refuses_wp; [apply refuses_deny|done].
Qed.

Lemma check_second_factor_wp n source code u e :
  wp (check_second_factor Open s n source code u)
    (fun r e1 => e_now e1 = e_now e /\ (r = Ok tt -> is_ldap u = false -> u_MFAEnabled u = true -> second_factor u code e)) e.
Proof.
  eapply wp_mono with (Q := fun r e1 => same (fun _ => tt) e e1 /\
    (r = Ok tt -> is_ldap u = false -> u_MFAEnabled u = true -> second_factor u code e)).
  2: { intros r e1 [[_ H1] H2]. done. }
  apply wp_and.
  { apply keeps_wp. unfold check_second_factor, userRequiresMFA, validateMFA, ConsumeUserMFARecoveryCode, deny,
      RegisterLoginFailure, GetLoginAttempt, audit, AddAuditEvent, GetSetting. keeps_db. }
  unfold check_second_factor, userRequiresMFA.
  destruct (is_ldap u); [apply wp_bind, wp_ret; by apply wp_ret|].
  destruct (u_MFAEnabled u) eqn:Em.
  - apply wp_bind, wp_ret. simpl. apply wp_bind. eapply wp_mono; [apply validateMFA_wp|].
    intros [[[] d]|er] e1 Hv; simpl; [apply wp_ret; by intros _ _ _; eapply Hv| |done].
    apply refuses_wp; [apply refuses_deny|done].
  - apply wp_any. intros r e1 _ _ [=].
Qed.

Lemma open_session_wp u meta e :
  wp (open_session s u meta) (fun r e' => forall sid u', r = Ok (sid, u') -> u' = u /\
    t_sessions (e_db e') !! sid = Some (mkSession sid (u_ID u) (Add (e_now e) (au_sessionTTL s)))) e.
Proof.
  unfold open_session, randomHex. apply wp_bind, wp_bind.
  eapply wp_mono; [apply keeps_wp, (keeps_random (fun _ => tt))|]. intros [blob|er] e1 [_ H1]; [|done].
  apply wp_ret, wp_bind, wp_gets, wp_bind. unfold CreateSession. apply wp_exec_checked; intros fs; [done| |done].
  intros _. apply wp_bind. eapply wp_keeps; [by apply (keeps_audit t_sessions)|].
  intros [[]|er] e2 [E2 _]; [|done]. apply wp_ret. intros sid u' [= <- <-]. split; [done|].
  rewrite E2. simpl. by rewrite lookup_insert_eq, H1.
Qed.

(** What a login that answers a session has established, in the environment
    [e] it started from. *)
Definition login_established (username password code source sid : string) (u : User) (e e' : Env) : Prop :=
  let n := login_name username in
  let source := or_na source in
  (e_faults e = [] -> t_blocked_ips (e_db e) !! TrimSpace source = None) /\
  (forall a, t_login_attempts (e_db e) !! n = Some a -> la_failed_count a <= 0 \/ la_lock_until a <= e_now e) /\
  (exists u0, user_by_name n (e_db e) = Some u0 /\
     if is_ldap u0
     then exists cfg pw role ids name detail, ldap cfg pw (TrimSpace username) password = LdapUser role ids name detail /\ vouched name role u
     else u = u0 /\ VerifyPassword IDKey password (u_PasswordHash u0) = true /\
          (u_MFAEnabled u0 = true -> second_factor u0 code e)) /\
  (isSourceAllowedForUser s u source).1 = true /\
  t_sessions (e_db e') !! sid = Some (mkSession sid (u_ID u) (Add (e_now e) (au_sessionTTL s))).

Lemma TrimSpace_or_na source : TrimSpace (or_na source) <> "".
Proof. unfold or_na. destruct (TrimSpace source =? "")%string eqn:E; [done|]. by apply String.eqb_neq. Qed.

Lemma AuthenticatePassword_wp username password code source e : accounts_keyed (e_db e) ->
  wp (AuthenticatePassword decode_ldap Open IDKey ldap s username password code source)
    (fun r e' => forall sid u, r = Ok (sid, u) -> login_established username password code source sid u e e') e.
Proof.
  intros Hkeyed. unfold AuthenticatePassword. cbv zeta. fold (login_name username).
  set (n := login_name username). set (src := or_na source).
  assert (Haudit : forall A (m : SM A) (Q : result (string * User) -> Env -> Prop) x,
    (forall er e', Q (Err er) e') -> wp (m ≫= fun _ => fail failErr) Q x).
  { intros A m Q x HQ. apply refuses_wp; [apply refuses_bind; intros; apply refuses_fail|done]. }
  apply wp_bind. eapply wp_mono; [apply source_blocked_wp|]. intros r1 e1 (b & -> & [E1 N1] & Hb). cbv beta iota.
  destruct b; [by apply Haudit|].
  apply wp_bind. eapply wp_mono; [apply GetLoginAttempt_wp|]. intros [[failed lock]|er] e2 [[E2 N2] Hl]; [|done].
  specialize (Hl failed lock eq_refl). apply wp_bind, wp_gets. cbn [fst snd].
  destruct ((0 <? failed) && After lock (e_now e2)) eqn:Hlock; [by apply Haudit|].
  apply wp_bind, wp_try. eapply wp_mono; [apply FindUser_wp|]. intros [u0|er] e3 [[E3 N3] Hu].
  2: { destruct (is_no_rows er); [|by apply wp_fail]. apply wp_bind, wp_any. intros [[ext|detail]|er'] e4; [done| |done].
       apply refuses_wp; [apply refuses_deny_ldap|done]. }
  unfold id in E1, E2, E3. cbv beta iota.
  apply wp_bind. eapply wp_mono; [apply prove_identity_wp; unfold accounts_keyed; by rewrite E3, E2, E1|]. intros [u|er] e4 [N4 Hp]; [|done].
  specialize (Hp u eq_refl). destruct Hp as [Hlocal Hldap].
  destruct (isSourceAllowedForUser s u src) as [ok detail] eqn:Hsrc.
  destruct ok; [|apply refuses_wp; [apply refuses_deny|done]]. simpl negb. cbn iota.
  apply wp_bind. eapply wp_mono; [apply check_second_factor_wp|]. intros [[]|er] e5 [N5 Hm]; [|done].
  specialize (Hm eq_refl).
  apply wp_bind, wp_ignore. eapply wp_keeps; [apply (keeps_exec (fun _ => tt)); done|]. intros _ e6 [_ N6].
  eapply wp_mono; [apply open_session_wp|]. intros r e7 Ho sid u' Hr. destruct (Ho sid u' Hr) as [-> Hsess].
  unfold login_established. cbv zeta. fold n src. split_and!.
  - intros Hf. specialize (Hb Hf (TrimSpace_or_na source)). symmetry in Hb. apply bool_decide_eq_false_1 in Hb.
    by apply eq_None_not_Some.
  - intros a Ha. rewrite E1 in Hl. rewrite Ha in Hl. injection Hl as -> ->.
    unfold After in Hlock. rewrite N2, N1 in Hlock. lia.
  - exists u0. split; [by rewrite <- E1, <- E2|]. destruct (is_ldap u0) eqn:Hk; [by apply Hldap|].
    destruct (Hlocal eq_refl) as (-> & Hv & [E4 _]). split_and!; [done..|]. intros Hen. specialize (Hm Hk Hen).
    unfold id in E4. unfold second_factor in *. by rewrite E4, E3, E2, E1, N4, N3, N2, N1 in Hm.
  - by rewrite Hsrc.
  - rewrite Hsess. congruence.
Qed.

(** C5. A session is a proof: whatever the store holds and wherever it fails, a
    password login that answers a session was for a stored account, not locked by earlier
    failures.  For a local account, the password was right and, where the account has a
    second factor, the one-time code valid or the recovery code unused, and the session
    is that account's.  For an account of LDAP, which the code asks for no second
    factor, the LDAP server vouched for the name and the password that were sent, and the
    session belongs to the LDAP account of the name the server gives (never to a local
    account), with the role the server's groups map to.  In both cases the source is one
    the account's networks allow, and the session is stored for the account with the
    configured lifetime.  On a working store the source is not on the block list. *)
Theorem login_sound username password code source e sid u e' (Hkeyed : accounts_keyed (e_db e)) :
  AuthenticatePassword decode_ldap Open IDKey ldap s username password code source e = (Ok (sid, u), e') ->
  login_established username password code source sid u e e'.
Proof. intros Hrun. by eapply (wp_run _ _ _ _ _ (AuthenticatePassword_wp username password code source e Hkeyed) Hrun). Qed.

(** The first login of an LDAP user fails: a name without a stored account
    never gets a session, even when the LDAP server vouches for it and the
    shadow account is created on the way. *)
Theorem unknown_user_never_logs_in username password code source e r e' (Hkeyed : accounts_keyed (e_db e)) :
  user_by_name (login_name username) (e_db e) = None ->
  AuthenticatePassword decode_ldap Open IDKey ldap s username password code source e = (r, e') ->
  exists er, r = Err er.
Proof.
  intros Hu Hrun. destruct r as [[sid u]|er]; [|by exists er].
  destruct (wp_run _ _ _ _ _ (AuthenticatePassword_wp username password code source e Hkeyed) Hrun sid u eq_refl)
    as (_ & _ & (u0 & Hu0 & _) & _). congruence.
Qed.
End sound.

(* ------------------------------------------------------------------ *)
(** ** Concrete logins *)

Definition demo_auth : AuthService := mkAuthService (12 * Hour) [] [] (repeat 7 32) "".
Definition no_json (_ : string) : option ldapRuntimeConfig := None.
Definition no_ldap (_ : ldapRuntimeConfig) (_ _ _ : string) : ldap_answer := LdapError "" ErrNoRows.
Definition toy_open (_ _ c : bytes) : option bytes := Some c.

Definition demo_users : Env :=
  mkEnv (empty_DB <| t_users := {[1 := zero_User <| u_ID := 1 |> <| u_Username := "ann" |> <| u_URole := RoleAdmin |>
     <| u_AuthProvider := "local" |>
     <| u_PasswordHash := HashPassword toy_derivation "secret" [1; 2; 3] DefaultArgonConfig |>]} |>) (Day * 800000) [] ["0123"].

Lemma login_sound_witness :
  exists sid u e', AuthenticatePassword no_json toy_open toy_derivation no_ldap demo_auth " Ann " "secret" "" "203.0.113.5" demo_users
      = (Ok (sid, u), e') /\
    login_established toy_open toy_derivation no_ldap demo_auth " Ann " "secret" "" "203.0.113.5" sid u demo_users e'.
Proof.
  destruct (AuthenticatePassword no_json toy_open toy_derivation no_ldap demo_auth " Ann " "secret" "" "203.0.113.5" demo_users)
    as [r e'] eqn:E.
  assert (Hr : r = (AuthenticatePassword no_json toy_open toy_derivation no_ldap demo_auth " Ann " "secret" "" "203.0.113.5" demo_users).1)
    by by rewrite E.
  assert (Hok : exists sid u, r = Ok (sid, u)) by (rewrite Hr; do 2 eexists; vm_compute; reflexivity).
  clear Hr. destruct Hok as (sid & u & ->). exists sid, u, e'. split; [done|].
  assert (Hk : accounts_keyed (e_db demo_users)) by (intros k u' Hu; change (({[1 := default u' (t_users (e_db demo_users) !! 1)]} : gmap Z User) !! k = Some u') in Hu;
    by apply lookup_singleton_Some in Hu as [<- <-]).
  exact (login_sound no_json toy_open toy_derivation no_ldap demo_auth _ _ _ _ _ _ _ _ Hk E).
Defined.

(** An LDAP server that vouches for everybody. *)
Definition ldap_json (_ : string) : option ldapRuntimeConfig :=
  Some (zero_ldapRuntimeConfig <| lc_Enabled := true |>).
Definition vouching (_ : ldapRuntimeConfig) (_ name _ : string) : ldap_answer := LdapUser RoleAdmin [] name "ok".
Definition ldap_store : Env :=
  mkEnv (empty_DB <| t_settings := {["auth.ldap.config" := "{}"]} |>
    <| t_secrets := {["auth.ldap.bind_password" := StdEncode (repeat 65 14)]} |>) (Day * 800000) [] ["0123"; "4567"].

(** The first attempt is refused, the second, with the account the first one
    created, is not. *)
Lemma unknown_user_never_logs_in_witness :
  let login := AuthenticatePassword ldap_json toy_open toy_derivation vouching demo_auth "eve" "pw" "" "203.0.113.5" in
  (exists er, (login ldap_store).1 = Err er) /\ is_ok (login (login ldap_store).2).1 = true.
Proof.
  cbv zeta. split; [|vm_compute; reflexivity].
  destruct (AuthenticatePassword ldap_json toy_open toy_derivation vouching demo_auth "eve" "pw" "" "203.0.113.5" ldap_store)
    as [r e'] eqn:E.
  assert (H : user_by_name (login_name "eve") (e_db ldap_store) = None) by (vm_compute; reflexivity).
  exact (unknown_user_never_logs_in ldap_json toy_open toy_derivation vouching demo_auth "eve" "pw" "" "203.0.113.5"
    ldap_store r e' ltac:(intros k u Hk; change ((∅ : gmap Z User) !! k = Some u) in Hk; by apply lookup_empty_Some in Hk) H E).
Defined.
