(* ===== verification/Firewall.v ===== *)
(** [internal/firewall/nft.go]: the driver of the [nft] program.

    [nft] itself is not part of the program: the state keeps the commands that
    were run, in order, and a stream of replies (whether the command succeeded
    and what it printed); an exhausted stream answers success and no output.
    [apply_cmd] is the documented effect of the two commands that change the
    contents of a set. *)

From S2P Require Import Prelude GoString GoMonad.
From Stdlib Require Import Ascii.

(** The commands run so far and the replies to come. *)
Record Nft := mkNft {
  n_cmds : list (list string); n_replies : list (bool * string)
}.
#[export] Instance eta_Nft : Eta Nft := fun r =>
  mkNft (n_cmds r) (n_replies r).

Abbreviation NM := (M Nft).

Definition table : string := "domnex".
Definition chain : string := "domnex_input".
Definition set4 : string := "domnex_blocked_v4".
Definition set6 : string := "domnex_blocked_v6".
Definition ruleTag : string := "domnex_ti_drop_v4".
Definition rule6 : string := "domnex_ti_drop_v6".

(** [NftEnforcer.output]: run the program; its error carries its output. *)
Definition output (args : list string) : NM string := fun s =>
  let '(rep, rest) := match n_replies s with r :: rs => (r, rs) | [] => ((true, ""), []) end in
  let s' := mkNft (n_cmds s ++ [args]) rest in
  if rep.1 then (Ok rep.2, s')
  else (Err (ErrText ("nft " +:+ Join args " " +:+ " failed: " +:+ TrimSpace rep.2)), s').

(** [NftEnforcer.run] *)
Definition run (args : list string) : NM unit := output args ≫= fun _ => mret tt.

Definition isAlreadyExists (e : error) : bool := Contains (ToLower (error_text e)) "file exists".
Definition isNotFound (e : error) : bool :=
  Contains (ToLower (error_text e)) "no such file or directory"
  || Contains (ToLower (error_text e)) "not found".

(** [if err := n.run(...); err != nil && !tolerated(err) { return err }] *)
Definition run_unless (tolerated : error -> bool) (args : list string) : NM unit :=
  r ← try_ (run args);
  match r with
  | Ok _ => mret tt
  | Err e => if tolerated e then mret tt else fail e
  end.

Definition add_chain : list string :=
  ["add"; "chain"; "inet"; table; chain; "{"; "type"; "filter"; "hook"; "input"; "priority"; "-300";
   ";"; "policy"; "accept"; ";"; "}"].

Definition ensureInputChainPriority : NM unit :=
  r ← try_ (output ["list"; "chain"; "inet"; table; chain]);
  match r with
  | Err e => if isNotFound e then run add_chain else fail e
  | Ok out =>
      if Contains out "priority -300" || Contains out "priority raw" then mret tt
      else
        ignore (run ["flush"; "chain"; "inet"; table; chain]) ≫= fun _ =>
        ignore (run ["delete"; "chain"; "inet"; table; chain]) ≫= fun _ =>
        run add_chain
  end.

Definition add_rule (family set tag : string) : list string :=
  ["add"; "rule"; "inet"; table; chain; family; "saddr"; "@" +:+ set; "tcp"; "dport"; "{"; "80,";
   "443,"; "2222"; "}"; "drop"; "comment"; tag].

Definition Ensure : NM unit :=
  run_unless isAlreadyExists ["add"; "table"; "inet"; table] ≫= fun _ =>
  run_unless isAlreadyExists ["add"; "set"; "inet"; table; set4; "{"; "type"; "ipv4_addr"; ";"; "}"] ≫= fun _ =>
  run_unless isAlreadyExists ["add"; "set"; "inet"; table; set6; "{"; "type"; "ipv6_addr"; ";"; "}"] ≫= fun _ =>
  ensureInputChainPriority ≫= fun _ =>
  out ← output ["list"; "chain"; "inet"; table; chain];
  when (negb (Contains out ruleTag)) (run (add_rule "ip" set4 ruleTag)) ≫= fun _ =>
  when (negb (Contains out rule6)) (run (add_rule "ip6" set6 rule6)).

Definition Disable : NM unit :=
  run_unless isNotFound ["flush"; "set"; "inet"; table; set4] ≫= fun _ =>
  run_unless isNotFound ["flush"; "set"; "inet"; table; set6].

Definition chunk : nat := 200.

(** The loop that adds the elements of a set, [chunk] at a time.  A turn takes
    at least one element, so the length of the list is enough fuel. *)
Fixpoint add_elements (fuel : nat) (set : string) (ips : list string) : NM unit :=
  match fuel, ips with
  | S fuel', _ :: _ =>
      run ["add"; "element"; "inet"; table; set; "{"; Join (take chunk ips) ", "; "}"] ≫= fun _ =>
      add_elements fuel' set (drop chunk ips)
  | _, _ => mret tt
  end.

Definition Replace (ipv4 ipv6 : list string) : NM unit :=
  Ensure ≫= fun _ =>
  run ["flush"; "set"; "inet"; table; set4] ≫= fun _ =>
  run ["flush"; "set"; "inet"; table; set6] ≫= fun _ =>
  add_elements (length ipv4) set4 ipv4 ≫= fun _ =>
  add_elements (length ipv6) set6 ipv6.

(* ------------------------------------------------------------------ *)
(** ** What the commands do *)

(** The elements of the named set after a command. *)
Definition apply_cmd (set : string) (elems : list string) (cmd : list string) : list string :=
  match cmd with
  | ["flush"; "set"; "inet"; t; s] =>
      if String.eqb t table && String.eqb s set then [] else elems
  | ["add"; "element"; "inet"; t; s; "{"; part; "}"] =>
      if String.eqb t table && String.eqb s set
      then elems ++ map TrimSpace (Split part ","%char) else elems
  | _ => elems
  end.
Definition elements_of (set : string) (cmds : list (list string)) : list string :=
  fold_left (apply_cmd set) cmds [].

(** An address as the program prints it: no comma, no blank at its ends. *)
Definition plain (s : string) : Prop := lacks ","%char s /\ TrimSpace s = s.

Definition silent (s : Nft) : Prop := n_replies s = [].

Lemma output_silent args s : silent s -> output args s = (Ok "", mkNft (n_cmds s ++ [args]) []).
Proof. unfold silent, output. by intros ->. Qed.

Lemma run_silent args s : silent s -> run args s = (Ok tt, mkNft (n_cmds s ++ [args]) []).
Proof. unfold run, mbind, M_bind. intros H. by rewrite output_silent. Qed.

(** Splitting at the comma undoes the joining with [", "]. *)
Lemma Split_Join_comma l :
  l <> [] -> Forall plain l -> map TrimSpace (Split (Join l ", ") ","%char) = l.
Proof.
  intros Hne Hl. induction Hl as [|x l [Hx Htx] Hl IH]; [done|].
  destruct l as [|y l]; [by rewrite Split_lacks by done; simpl; rewrite Htx|].
  change (Join (x :: y :: l) ", ") with (x +:+ String "," (String " " (Join (y :: l) ", "))).
  rewrite Split_app by done. cbn [map]. rewrite Htx. f_equal.
  specialize (IH ltac:(done)). revert IH. generalize (Join (y :: l) ", "). intros j.
  simpl. pose proof (Split_nonempty j ",") as Hsp.
  destruct (Split j ",") as [|p ps]; [done|]. simpl. intros H. exact H.
Qed.

Lemma elements_of_snoc set cmds cmd :
  elements_of set (cmds ++ [cmd]) = apply_cmd set (elements_of set cmds) cmd.
Proof. unfold elements_of. by rewrite fold_left_app. Qed.

Lemma apply_add set part elems :
  apply_cmd set elems ["add"; "element"; "inet"; table; set; "{"; part; "}"] =
  elems ++ map TrimSpace (Split part ","%char).
Proof. unfold apply_cmd. by rewrite !String.eqb_refl. Qed.

Lemma apply_add_other other set part elems : other <> set ->
  apply_cmd other elems ["add"; "element"; "inet"; table; set; "{"; part; "}"] = elems.
Proof.
  intros Hne. unfold apply_cmd.
  by replace (set =? other)%string with false by (symmetry; apply String.eqb_neq; congruence).
Qed.

Lemma add_elements_spec fuel set ips s :
  (length ips <= fuel)%nat -> silent s -> Forall plain ips ->
  exists s', add_elements fuel set ips s = (Ok tt, s') /\ silent s' /\
    elements_of set (n_cmds s') = elements_of set (n_cmds s) ++ ips /\
    forall other, other <> set -> elements_of other (n_cmds s') = elements_of other (n_cmds s).
Proof.
  revert ips s. induction fuel as [|fuel IH]; intros ips s Hlen Hs Hp.
  { destruct ips; simpl in *; [|lia]. exists s. rewrite app_nil_r. done. }
  destruct ips as [|ip ips]; [exists s; rewrite app_nil_r; done|].
  cbn [add_elements]. unfold mbind, M_bind. rewrite run_silent by done.
  set (part := take chunk (ip :: ips)). set (rest := drop chunk (ip :: ips)).
  set (cmd := ["add"; "element"; "inet"; table; set; "{"; Join part ", "; "}"]).
  destruct (IH rest (mkNft (n_cmds s ++ [cmd]) [])) as (s' & -> & Hs' & He & Ho).
  - unfold rest. rewrite length_drop. unfold chunk. simpl in *. lia.
  - done.
  - by apply Forall_drop.
  - exists s'. split; [done|]. split; [done|]. split.
    + rewrite He. cbn [n_cmds]. rewrite elements_of_snoc. unfold cmd. rewrite apply_add.
      rewrite Split_Join_comma; [|discriminate|by apply Forall_take].
      rewrite <- app_assoc. unfold part, rest. by rewrite take_drop.
    + intros other Hne. rewrite Ho by done. cbn [n_cmds]. rewrite elements_of_snoc.
      by apply apply_add_other.
Qed.

(** When every [nft] command succeeds, [Replace] leaves exactly the given
    addresses in the two sets, whatever they held before, however many chunks
    the additions take. *)
Theorem replace_sets ipv4 ipv6 s :
  silent s -> Forall plain ipv4 -> Forall plain ipv6 ->
  exists s', Replace ipv4 ipv6 s = (Ok tt, s') /\
    elements_of set4 (n_cmds s') = ipv4 /\ elements_of set6 (n_cmds s') = ipv6.
Proof.
  intros Hs H4 H6. unfold Replace, Ensure, ensureInputChainPriority, run_unless, try_, when, ignore.
  unfold mbind, M_bind.
  repeat (rewrite ?run_silent, ?output_silent by done; simpl).
  match goal with |- context [add_elements (length ipv4) set4 ipv4 ?s1] =>
    destruct (add_elements_spec (length ipv4) set4 ipv4 s1) as (s2 & -> & Hs2 & E4 & O4); [lia|done|done|]
  end.
  destruct (add_elements_spec (length ipv6) set6 ipv6 s2) as (s3 & -> & Hs3 & E6 & O6); [lia|done|done|].
  exists s3. split; [done|]. split.
  - rewrite O6 by done. rewrite E4. simpl. repeat rewrite elements_of_snoc. done.
  - rewrite E6, O4 by done. simpl. repeat rewrite elements_of_snoc. done.
Qed.

Lemma replace_sets_witness :
  plain "203.0.113.7" /\ exists s', Replace ["203.0.113.7"] ["2a00::1"] (mkNft [] []) = (Ok tt, s') /\
    elements_of set4 (n_cmds s') = ["203.0.113.7"] /\ elements_of set6 (n_cmds s') = ["2a00::1"].
Proof.
  split; [by split|].
  apply (replace_sets ["203.0.113.7"] ["2a00::1"] (mkNft [] [])); [done| |]; repeat constructor.
Defined.
