(* ===== verification/ThreatScore.v ===== *)
(** The scoring rules of the threat engine: the functions of
    [internal/app/service.go] between [uniqueThreatSignals] and [threatTier]
    that read and write nothing but their arguments. *)

From S2P Require Import Prelude GoString GoNum GoTime Model.

Definition defaultTISoftMinLevel : Z := 3.
Definition defaultTIHardLevel : Z := 6.
Definition defaultTISoftBlockMinutes : Z := 15.
Definition defaultTIWatchLevel : Z := 3.

Definition norm_signal (s : string) : string := TrimSpace (ToLower s).

Definition uniqueThreatSignals (inp : list string) : list string :=
  dedup_seen norm_signal nonempty ∅ inp.

Definition points_table : gmap string Z :=
  list_to_map
    [("behavior.unknown_host", 1); ("behavior.path_scan", 4); ("behavior.ua_scanner", 2);
     ("behavior.invalid_host", 2); ("behavior.auth_failed", 3); ("protocol.ssh.auth_denied", 3);
     ("protocol.ssh.forward_denied", 4); ("signature.wp_scanner", 6); ("signature.secret_hunter", 7);
     ("signature.webshell_probe", 8); ("signature.flat_php_probe", 5);
     ("signature.hidden_index_dropper", 7); ("signature.admin_surface_probe", 4);
     ("signature.api_enum", 4); ("signature.scanner_ua", 3)].

(** The points of a signal, a signature without an entry counting four. *)
Definition signal_points (sig : string) : Z :=
  let p := default 0 (points_table !! sig) in
  if (p =? 0) && HasPrefix sig "signature." then 4 else p.

(** The variables of the loop of [calcThreatBaseXP]. *)
Record xp_acc := { xa_total : Z; xa_top : string; xa_topPts : Z; xa_external : bool }.

Definition add_signal (a : xp_acc) (sig : string) : xp_acc :=
  let p := signal_points sig in
  {| xa_external := xa_external a || ((p =? 0) && negb (HasPrefix sig "behavior."));
     xa_total := xa_total a + p;
     xa_topPts := if xa_topPts a <? p then p else xa_topPts a;
     xa_top := if xa_topPts a <? p then sig else xa_top a |}.

Definition calcThreatBaseXP (signals : list string) : Z * string :=
  let a := fold_left add_signal (uniqueThreatSignals signals) {| xa_total := 0; xa_top := ""; xa_topPts := 0; xa_external := false |} in
  let total := if xa_external a then xa_total a + 6 else xa_total a in
  let top := if xa_external a && String.eqb (xa_top a) "" then "external_feed_hit" else xa_top a in
  let total := if total <=? 0 then 1 else total in
  let top := if String.eqb top "" then "behavior.unknown_host" else top in
  (total, top).

Definition hasExternalFeedSignal (signals : list string) : bool :=
  existsb (fun sig => negb (HasPrefix sig "behavior.") && negb (HasPrefix sig "protocol.")
                      && negb (HasPrefix sig "signature.")) (uniqueThreatSignals signals).
Definition hasThreatSignatureSignal (signals : list string) : bool :=
  existsb (fun sig => HasPrefix sig "signature.") (uniqueThreatSignals signals).
Definition hasKnownThreatBoostSignal (signals : list string) : bool :=
  hasExternalFeedSignal signals || hasThreatSignatureSignal signals.

Definition applyThreatMultipliers (base : Z) (burstFactor : float) (signals : list string) : Z :=
  let xp := to_int (Round (mul (of_int base) burstFactor)) in
  let xp := if xp <? 1 then 1 else xp in
  if (3 <=? length (uniqueThreatSignals signals))%nat then xp + 2 else xp.

(* ------------------------------------------------------------------ *)
(** ** The burst window *)

(** One minute of signals of an address; the zero value has a zero start. *)
Record tiWindow := { w_start : time; w_perSignal : gmap string Z; w_categories : gset string }.
Definition zero_window : tiWindow := {| w_start := 0; w_perSignal := ∅; w_categories := ∅ |}.

Definition burst_factor (n : Z) : float :=
  if 8 <=? n then f2_0 else if 5 <=? n then f1_5 else if 3 <=? n then f1_2 else f1_0.

(** [bumpThreatWindow] without its lock: the factor and the windows after. *)
Definition bumpThreatWindow (win : gmap string tiWindow) (ip primary : string) (signals : list string)
    (now : time) : float * gmap string tiWindow :=
  let win := filter (fun kv => negb (2 * Minute <? Sub now (w_start kv.2)) = true) win in
  let w := default zero_window (win !! ip) in
  let w := if IsZero (w_start w) || (Minute <? Sub now (w_start w))
           then {| w_start := now; w_perSignal := ∅; w_categories := ∅ |} else w in
  let primary := if String.eqb primary "" then "behavior.unknown_host" else primary in
  let n := default 0 (w_perSignal w !! primary) + 1 in
  let w := {| w_start := w_start w;
              w_perSignal := <[primary := n]> (w_perSignal w);
              w_categories := w_categories w ∪ list_to_set (uniqueThreatSignals signals) |} in
  (burst_factor n, <[ip := w]> win).

(* ------------------------------------------------------------------ *)
(** ** Levels *)

Definition threatLevelThreshold (level : Z) : Z :=
  let level := if level <? 0 then 0 else level in
  to_int (Round (mul (of_int 10) (Pow f1_6 level))).

#[global] Arguments threatLevelThreshold : simpl never.

Definition threatRiskState (level softMinLevel hardLevel : Z) : string :=
  if hardLevel <=? level then "hardblock"
  else if softMinLevel <=? level then "softblock" else "monitoring".

Definition threatTier (level : Z) : string :=
  "tier" +:+ Itoa (if level <? 0 then 0 else level).

(** The loop [for { req := ...; if st.Level >= hardLevel || st.XP < req { break };
    st.XP -= req; st.Level++ }]; [None] is a loop cut short. *)
Fixpoint level_up (fuel : nat) (hardLevel level xp : Z) : option (Z * Z) :=
  match fuel with
  | O => None
  | S fuel' =>
      let req := threatLevelThreshold level in
      if (hardLevel <=? level) || (xp <? req) then Some (level, xp)
      else level_up fuel' hardLevel (level + 1) (xp - req)
  end.

(** Every turn raises the level, so the distance to the hard level is enough. *)
Definition level_fuel (hardLevel level : Z) : nat := S (Z.to_nat (hardLevel - level)).
Definition run_levels (hardLevel level xp : Z) : Z * Z :=
  default (level, xp) (level_up (level_fuel hardLevel level) hardLevel level xp).

(* ------------------------------------------------------------------ *)
(** ** Decay *)

Definition decay_xp (xp : Z) : Z :=
  let x := to_int (Floor (mul (of_int xp) f0_93)) in if x <? 0 then 0 else x.

#[global] Arguments decay_xp : simpl never.

(** The body of [decayThreatState] once an address is free to decay. *)
Definition decay_idle (idle : duration) (st : ThreatIntelIPState) : ThreatIntelIPState :=
  let st :=
    if 30 * Minute <=? idle
    then st <| ts_XP := Nat.iter (Z.to_nat (idle / (30 * Minute))) decay_xp (ts_XP st) |> else st in
  if (72 * Hour <=? idle) && (0 <? ts_Level st) then
    let down := idle / (72 * Hour) in
    let down := if ts_Level st <? down then ts_Level st else down in
    let level := ts_Level st - down in
    st <| ts_Level := if level <? 0 then 0 else level |>
  else st.

Definition decayThreatState (st : ThreatIntelIPState) (now : time) : ThreatIntelIPState :=
  if IsZero (ts_LastSeenAt st) then st
  else if ts_PermBlocked st then st
  else if negb (IsZero (ts_BanUntil st)) && After (ts_BanUntil st) now then st
  else decay_idle (Sub now (ts_LastSeenAt st)) st.

(* ------------------------------------------------------------------ *)
(** ** Facts *)

(** The thresholds of the levels a configuration can reach. *)
Definition threshold_levels : list Z := map Z.of_nat (seq 0 65).

Lemma level_cases (P : Z -> bool) :
  forallb P threshold_levels = true -> forall l, 0 <= l <= 64 -> P l = true.
Proof.
  rewrite forallb_forall. intros H l Hl. apply H. unfold threshold_levels.
  apply in_map_iff. exists (Z.to_nat l). split; [lia|]. apply in_seq. lia.
Qed.

(** Ten times 1.6 to the [l], rounded half up, as a ratio of integers. *)
Definition exact_threshold (l : Z) : Z := (2 * 10 * 8 ^ l + 5 ^ l) / (2 * 5 ^ l).

(** C39. Computed in [float64] as the program does it, the threshold of every
    level below 64 is the exact value of [10 * 1.6 ^ level] rounded to the
    nearest integer. *)
Theorem threshold_exact l : 0 <= l < 64 -> threatLevelThreshold l = exact_threshold l.
Proof.
  intros Hl. apply Z.eqb_eq.
  assert (H : (l =? 64) || (threatLevelThreshold l =? exact_threshold l) = true).
  { apply (level_cases (fun l => (l =? 64) || (threatLevelThreshold l =? exact_threshold l)));
      [vm_compute; done|lia]. }
  lia.
Qed.

Lemma threshold_exact_witness : 0 <= 5 < 64 /\ threatLevelThreshold 5 = 105.
Proof. split; [lia|]. apply (threshold_exact 5). lia. Defined.

(** The rounding error of the powers is visible from level 64 on. *)
Example threshold_inexact : threatLevelThreshold 64 = exact_threshold 64 + 1.
Proof. vm_compute. reflexivity. Qed.

Lemma threshold_range l : 0 <= l <= 64 -> 10 <= threatLevelThreshold l < 2 ^ 47.
Proof.
  intros Hl.
  assert (H : (10 <=? threatLevelThreshold l) && (threatLevelThreshold l <? 2 ^ 47) = true).
  { apply (level_cases (fun l => (10 <=? threatLevelThreshold l) && (threatLevelThreshold l <? 2 ^ 47)));
      [vm_compute; done|lia]. }
  lia.
Qed.

Lemma threshold_step l : 0 <= l < 64 -> threatLevelThreshold l < threatLevelThreshold (l + 1).
Proof.
  intros Hl.
  assert (H : (l =? 64) || (threatLevelThreshold l <? threatLevelThreshold (l + 1)) = true).
  { apply (level_cases (fun l => (l =? 64) || (threatLevelThreshold l <? threatLevelThreshold (l + 1))));
      [vm_compute; done|lia]. }
  lia.
Qed.

Lemma rne_upper v e : 2 ^ 53 <= v ->
  exists k, 1 <= k /\ 2 ^ (k + 52) <= v < 2 ^ (k + 53) /\ expo (rne v e) = e + k /\
    0 <= mant (rne v e) /\ mant (rne v e) * 2 ^ k <= v + 2 ^ (k - 1).
Proof.
  intros Hv. assert (Hpos : 0 < v) by lia.
  pose proof (Z.log2_spec v Hpos) as [Hlo Hhi].
  assert (Hlog : 53 <= Z.log2 v) by (apply Z.log2_le_pow2; lia).
  exists (Z.log2 v - 52). unfold rne. rewrite Z.abs_eq by lia.
  replace (v <? 2 ^ 53) with false by lia.
  set (k := Z.log2 v - 52). assert (Hk : 1 <= k) by (unfold k; lia).
  replace (k + 52) with (Z.log2 v) by (unfold k; lia).
  replace (k + 53) with (Z.succ (Z.log2 v)) by (unfold k; lia).
  split; [done|]. split; [lia|]. cbn [mant expo]. split; [done|].
  rewrite Z.sgn_pos, Z.mul_1_l by lia.
  assert (Hp : 0 < 2 ^ (k - 1)) by (apply Z.pow_pos_nonneg; lia).
  assert (E2 : 2 ^ k = 2 * 2 ^ (k - 1)) by (rewrite <- Z.pow_succ_r by lia; f_equal; lia).
  pose proof (Z.div_mod v (2 ^ k) ltac:(lia)) as Hdm.
  pose proof (Z.mod_pos_bound v (2 ^ k) ltac:(lia)) as Hm.
  assert (Hq : 0 <= v / 2 ^ k) by (apply Z.div_pos; lia).
  destruct ((v mod 2 ^ k <? 2 ^ (k - 1)) || _) eqn:Hc; [split; [lia|nia]|].
  apply orb_false_iff in Hc as [Hc _]. split; [lia|]. nia.
Qed.

(** The points of an address stay below this bound (see [threshold_range]). *)
Definition max_xp : Z := 2 ^ 48.

Lemma decay_xp_below x : 0 <= x < max_xp -> 0 <= decay_xp x <= x /\ (1 <= x -> decay_xp x < x).
Proof.
  unfold max_xp. intros Hx. unfold decay_xp, of_int, mul.
  assert (E : rne x 0 = Fl x 0).
  { unfold rne. replace (Z.abs x <? 2 ^ 53) with true by lia. done. }
  rewrite E. cbn [mant expo f0_93]. rewrite Z.add_0_l. set (v := x * 8376695306909123).
  assert (Hv : 0 <= v < x * 2 ^ 53 + 1) by (unfold v; lia).
  set (f := rne v (-53)).
  assert (Hf : 0 <= Floor f <= x /\ (1 <= x -> Floor f < x)).
  { destruct (decide (v < 2 ^ 53)) as [Hs|Hs].
    - assert (Ef : f = Fl v (-53)) by (unfold f, rne; replace (Z.abs v <? 2 ^ 53) with true by lia; done).
      rewrite Ef. unfold Floor. cbn [mant expo]. change (- -53) with 53.
      change (0 <=? -53) with false. cbv iota. unfold v in *. Z.div_mod_to_equations. lia.
    - destruct (rne_upper v (-53)) as (k & Hk & Hvk & He & Hm & Hu); [lia|]. fold f in He, Hm, Hu.
      assert (Hk2 : k < 49).
      { destruct (decide (k < 49)); [done|].
        assert (2 ^ 101 <= 2 ^ (k + 52)) by (apply Z.pow_le_mono_r; lia). unfold v in *. lia. }
      unfold Floor. rewrite He. replace (0 <=? -53 + k) with false by lia.
      replace (- (-53 + k)) with (53 - k) by lia.
      assert (Hp : 0 < 2 ^ (k - 1)) by (apply Z.pow_pos_nonneg; lia).
      assert (Hp2 : 0 < 2 ^ (53 - k)) by (apply Z.pow_pos_nonneg; lia).
      assert (E53 : 2 ^ 53 * 2 ^ (k - 1) = 2 ^ (k + 52)) by (rewrite <- Z.pow_add_r by lia; f_equal; lia).
      assert (Ek : 2 ^ (53 - k) * 2 ^ k = 2 ^ 53) by (rewrite <- Z.pow_add_r by lia; f_equal; lia).
      assert (Hlt : mant f < x * 2 ^ (53 - k)).
      { assert (Hpk : 0 < 2 ^ k) by (apply Z.pow_pos_nonneg; lia).
        assert (mant f * 2 ^ k < x * 2 ^ 53). { unfold v in Hu, Hvk, Hs. assert (Hx1 : 1 <= x) by lia. clear -Hu E53 Hvk Hx1.
          revert Hu E53 Hvk.
          generalize (mant f * 2 ^ k) (2 ^ (k - 1)) (2 ^ (k + 52)) (2 ^ (k + 53)).
          clear -Hx1. intros W P Q R Hu E53 Hvk. lia. }
        rewrite <- Ek in *. nia. }
      assert (mant f / 2 ^ (53 - k) < x) by (apply Z.div_lt_upper_bound; lia).
      assert (0 <= mant f / 2 ^ (53 - k)) by (apply Z.div_pos; lia). lia. }
  assert (Ei : to_int (Floor f) = Floor f).
  { unfold to_int, in_int64, min_int64, max_int64.
    by replace ((- 2 ^ 63 <=? Floor f) && (Floor f <=? 2 ^ 63 - 1)) with true by lia. }
  rewrite Ei. replace (Floor f <? 0) with false by lia. done.
Qed.

Lemma iter_decay n x : 0 <= x < max_xp ->
  0 <= Nat.iter n decay_xp x <= x /\ (1 <= x -> (0 < n)%nat -> Nat.iter n decay_xp x < x).
Proof.
  intros Hx. induction n as [|n [IH IH']]; [simpl; lia|]. simpl.
  destruct (decay_xp_below (Nat.iter n decay_xp x)) as [H1 H2]; [lia|].
  split; [lia|]. intros. destruct (decide (1 <= Nat.iter n decay_xp x)); [specialize (H2 ltac:(done)); lia|].
  lia.
Qed.

(** After enough steps nothing is left: a step takes at least one point. *)
Lemma iter_decay_zero n x : 0 <= x < max_xp -> x <= Z.of_nat n -> Nat.iter n decay_xp x = 0.
Proof.
  intros Hx Hn. assert (H : Nat.iter n decay_xp x <= Z.max 0 (x - Z.of_nat n) /\ 0 <= Nat.iter n decay_xp x).
  { clear Hn. induction n as [|n IH]; [simpl; lia|]. rewrite Nat.iter_succ.
    destruct (iter_decay n x Hx) as [Hi _].
    destruct (decay_xp_below (Nat.iter n decay_xp x)) as [H1 H2]; [lia|].
    destruct (decide (1 <= Nat.iter n decay_xp x)); [specialize (H2 ltac:(done))|]; lia. }
  lia.
Qed.

(** Decay rehabilitates and never aggravates: the points and the level of
    an address do not rise and do not become negative, and everything else is
    kept; half an hour of silence costs at least one point. *)
Theorem decay_monotone st now :
  0 <= ts_XP st < max_xp -> 0 <= ts_Level st ->
  let st' := decayThreatState st now in
  0 <= ts_XP st' <= ts_XP st /\ 0 <= ts_Level st' <= ts_Level st /\
  st' = st <| ts_XP := ts_XP st' |> <| ts_Level := ts_Level st' |> /\
  (IsZero (ts_LastSeenAt st) = false -> ts_PermBlocked st = false -> IsZero (ts_BanUntil st) = true ->
   30 * Minute <= Sub now (ts_LastSeenAt st) -> 1 <= ts_XP st -> ts_XP st' < ts_XP st).
Proof.
  intros Hx Hl. cbv zeta. unfold decayThreatState, decay_idle. destruct st. simpl in *.
  set (n := Z.to_nat (Sub now ts_LastSeenAt / (30 * Minute))).
  pose proof (iter_decay n ts_XP Hx) as [Hi Hi'].
  assert (Hq : 72 * Hour <= Sub now ts_LastSeenAt -> 0 <= Sub now ts_LastSeenAt / (72 * Hour)).
  { intros H. apply Z.div_pos; unfold Hour, Minute, Second in *; lia. }
  assert (Hn : 30 * Minute <= Sub now ts_LastSeenAt -> (0 < n)%nat).
  { intros H. unfold n. apply Z2Nat.inj_lt with (n := 0); [lia|apply Z.div_pos; unfold Minute, Second in *; lia|].
    apply Z.div_str_pos. unfold Minute, Second in *. lia. }
  destruct (IsZero ts_LastSeenAt); [simpl; split_and!; (lia || done)|].
  destruct ts_PermBlocked; [simpl; split_and!; (lia || done)|].
  destruct (negb _ && _) eqn:Hban.
  { simpl. split_and!; try (lia || done). intros _ _ Hz. rewrite Hz in Hban. done. }
  destruct (30 * Minute <=? Sub now ts_LastSeenAt) eqn:H30;
    destruct (72 * Hour <=? Sub now ts_LastSeenAt) eqn:H72; simpl;
    repeat case_step; simpl; split_and!; (done || lia).
Qed.

(** An address in prison does not decay: while it is blocked for good, or a
    temporary ban lasts, its state is unchanged. *)
Theorem decay_frozen_while_blocked st now :
  ts_PermBlocked st = true \/ (ts_BanUntil st <> 0 /\ now < ts_BanUntil st) ->
  decayThreatState st now = st.
Proof.
  intros H. unfold decayThreatState, IsZero, After. case_step; [done|].
  destruct (ts_PermBlocked st); [done|]. destruct H as [?|[H1 H2]]; [done|].
  replace (ts_BanUntil st =? 0) with false by lia. by replace (now <? ts_BanUntil st) with true by lia.
Qed.

Lemma decay_frozen_while_blocked_witness :
  let st := zero_ThreatIntelIPState <| ts_XP := 50 |> <| ts_LastSeenAt := 1 |> <| ts_BanUntil := 100 * Hour |> in
  decayThreatState st (90 * Hour) = st.
Proof. apply decay_frozen_while_blocked. right. vm_compute. split; congruence. Defined.

Lemma decay_monotone_witness :
  let st := zero_ThreatIntelIPState <| ts_XP := 100 |> <| ts_Level := 4 |> <| ts_LastSeenAt := 1 |> in
  ts_XP (decayThreatState st (73 * Hour)) < 100 /\ ts_Level (decayThreatState st (73 * Hour)) = 3.
Proof.
  set (st := zero_ThreatIntelIPState <| ts_XP := 100 |> <| ts_Level := 4 |> <| ts_LastSeenAt := 1 |>).
  assert (H1 : 0 <= ts_XP st < max_xp) by (vm_compute; split; congruence).
  assert (H2 : 0 <= ts_Level st) by (vm_compute; congruence).
  split; [|vm_compute; reflexivity].
  destruct (decay_monotone st (73 * Hour) H1 H2) as (_ & _ & _ & H).
  apply H; try reflexivity; vm_compute; congruence.
Defined.

(* ------------------------------------------------------------------ *)
(** ** The level loop *)

(** The points the levels from [level] on cost, [n] of them. *)
Fixpoint level_cost (n : nat) (level : Z) : Z :=
  match n with O => 0 | S n' => threatLevelThreshold level + level_cost n' (level + 1) end.

Lemma level_up_spec d hard level xp :
  hard <= 64 -> 0 <= level -> 0 <= xp -> hard - level <= Z.of_nat d ->
  exists n l x, level_up (S d) hard level xp = Some (l, x) /\
    l = level + Z.of_nat n /\ xp = x + level_cost n level /\ 0 <= x /\
    l <= Z.max level hard /\ (hard <= l \/ x < threatLevelThreshold l).
Proof.
  intros Hh. revert level xp. induction d as [|d IH]; intros level xp Hl Hx Hd.
  - exists O, level, xp. cbn [level_up].
    replace ((hard <=? level) || (xp <? threatLevelThreshold level)) with true by lia.
    simpl. split_and!; (done || lia).
  - cbn [level_up].
    destruct ((hard <=? level) || (xp <? threatLevelThreshold level)) eqn:Hc.
    + exists O, level, xp. simpl. split_and!; (done || lia).
    + destruct (IH (level + 1) (xp - threatLevelThreshold level)) as (n & l & x & E & H1 & H2 & H3 & H4 & H5);
        [lia|lia|lia|].
      exists (S n), l, x. cbn [level_up] in E. simpl level_cost.
      split_and!; [exact E|lia|lia|lia|lia|done].
Qed.

Lemma level_cost_nonneg n level : 0 <= level -> level + Z.of_nat n <= 65 -> 0 <= level_cost n level.
Proof.
  revert level. induction n as [|n IH]; intros level Hl Hn; simpl; [lia|].
  pose proof (threshold_range level ltac:(lia)). specialize (IH (level + 1)). lia.
Qed.

(** C38. The level loop ends within its fuel for every configuration the program
    can read, keeps the points it does not spend, and stops exactly when the
    hard level is reached or the points no longer pay for a level. *)
Theorem level_loop_correct hard level xp :
  hard <= 64 -> 0 <= level -> 0 <= xp ->
  exists n l x, level_up (level_fuel hard level) hard level xp = Some (l, x) /\
    l = level + Z.of_nat n /\ xp = x + level_cost n level /\ 0 <= x /\
    l <= Z.max level hard /\ (hard <= l \/ x < threatLevelThreshold l).
Proof. intros. apply level_up_spec; (done || lia). Qed.

Lemma level_loop_correct_witness :
  level_up (level_fuel 6 0) 6 0 60 = Some (3, 8) /\
  exists n l x, level_up (level_fuel 6 0) 6 0 60 = Some (l, x) /\
    l = 0 + Z.of_nat n /\ 60 = x + level_cost n 0 /\ 0 <= x /\
    l <= Z.max 0 6 /\ (6 <= l \/ x < threatLevelThreshold l).
Proof. split; [vm_compute; reflexivity|]. apply (level_loop_correct 6 0 60); lia. Defined.

(* ------------------------------------------------------------------ *)
(** ** Base points and multipliers *)

(** The points of an event are positive and its top signal is never empty,
    whatever signals it carries; in particular no event is free. *)
Theorem base_xp_positive signals :
  1 <= (calcThreatBaseXP signals).1 /\ (calcThreatBaseXP signals).2 <> "".
Proof.
  unfold calcThreatBaseXP. cbv zeta. split; simpl.
  - repeat case_step; lia.
  - repeat case_step; bool_facts; done.
Qed.

Lemma applyThreatMultipliers_positive base f signals : 1 <= applyThreatMultipliers base f signals.
Proof. unfold applyThreatMultipliers. cbv zeta. repeat case_step; lia. Qed.

(** De-duplicated signals are trimmed, in lower case, not empty and pairwise
    different, and de-duplicating them again changes nothing. *)
Theorem unique_signals_normal signals :
  NoDup (uniqueThreatSignals signals) /\
  (forall s, s ∈ uniqueThreatSignals signals <-> s <> "" /\ exists r, r ∈ signals /\ norm_signal r = s) /\
  uniqueThreatSignals (uniqueThreatSignals signals) = uniqueThreatSignals signals.
Proof.
  split_and!.
  - apply NoDup_dedup_seen.
  - intros s. unfold uniqueThreatSignals. rewrite elem_of_dedup_seen.
    unfold nonempty. rewrite negb_true_iff, String.eqb_neq.
    split; [intros (_ & ? & ?); done|intros [? ?]; split_and!; [apply not_elem_of_empty|done..]].
  - apply dedup_seen_idem. intros v. unfold norm_signal.
    by rewrite !TrimSpace_ToLower, ToLower_idem, TrimSpace_idem.
Qed.
