(* ===== verification/Service.v ===== *)
(** The state of [app.Service] ([internal/app/service.go]) that the modelled
    operations read and write, and the signature rules it keeps
    ([internal/app/threat_signatures.go]). *)

From S2P Require Import Prelude GoString GoMonad GoTime GoCrypto Model LogServers StoreDB StoreThreat StoreUsers Firewall ThreatScore.

(* ------------------------------------------------------------------ *)
(** ** Signature rules *)

Record threatSignatureRule := mkthreatSignatureRule {
  rl_ID : string; rl_Signal : string; rl_Family : string; rl_PathContains : list string;
  rl_PathPrefix : list string; rl_HostContains : list string; rl_UAContains : list string
}.
#[export] Instance eta_threatSignatureRule : Eta threatSignatureRule := fun r =>
  mkthreatSignatureRule (rl_ID r) (rl_Signal r) (rl_Family r) (rl_PathContains r)
    (rl_PathPrefix r) (rl_HostContains r) (rl_UAContains r).

Record ThreatSignatureConfig := mkThreatSignatureConfig {
  sc_Enabled : bool; sc_AutoUpdate : bool; sc_SourceURL : string; sc_LastSyncAt : time;
  sc_LastHash : string; sc_RuleCount : Z; sc_Source : string
}.
#[export] Instance eta_ThreatSignatureConfig : Eta ThreatSignatureConfig := fun r =>
  mkThreatSignatureConfig (sc_Enabled r) (sc_AutoUpdate r) (sc_SourceURL r)
    (sc_LastSyncAt r) (sc_LastHash r) (sc_RuleCount r) (sc_Source r).

Definition defaultThreatIntelSignatureURL : string :=
  "https://raw.githubusercontent.com/AsaTyr2018/DomNexDomain/main/security/signatures/threat-signatures.json".

Definition path_rule (id signal family : string) (paths : list string) : threatSignatureRule :=
  mkthreatSignatureRule id signal family paths [] [] [].

Definition defaultThreatSignatures : list threatSignatureRule :=
  [path_rule "wp-core" "signature.wp_scanner" "wp_scanner"
     ["/wp-admin"; "/wp-login"; "/wp-content"; "/wp-includes"; "xmlrpc.php"; "wlwmanifest.xml"; "wp-trackback"];
   path_rule "secret-leaks" "signature.secret_hunter" "secret_hunter"
     ["/.env"; "/.git/config"; "/config.env"; "/api/.env"; "/laravel/.env"; "/docker/.env"];
   path_rule "webshell-probe" "signature.webshell_probe" "webshell_probe"
     ["ioxi-o.php"; "/file.php"; "/rip.php"; "/sf.php"; "/wso.php"; "/r57.php"; "/shell.php"; "/cmd.php";
      "/xmr.php"; "/xmrlpc.php"; "/zwso.php"];
   path_rule "flat-php-probe" "signature.flat_php_probe" "flat_php_probe"
     ["/inputs.php"; "/adminfuns.php"; "/class-t.api.php"; "/ms-edit.php"; "/randkeyword.php";
      "/randkeyword.php7"; "/kbfr.php"];
   path_rule "hidden-index-dropper" "signature.hidden_index_dropper" "hidden_index_dropper"
     ["/wk/index.php"; "/.well-known/logs233/index.php"; "/.trash7206/index.php"; "/update/da222.php"];
   path_rule "admin-surface" "signature.admin_surface_probe" "admin_surface_probe"
     ["/admin.php"; "/admin/"; "/manager/html"; "/hudson"; "/jenkins"; "/server-status"; "/actuator/env"];
   mkthreatSignatureRule "api-enum" "signature.api_enum" "api_enum"
     ["/api/settings"; "/api/config"; "/graphql"] ["/api/"] [] [];
   mkthreatSignatureRule "scanner-ua" "signature.scanner_ua" "scanner_ua" [] [] []
     ["zgrab"; "masscan"; "nmap"; "sqlmap"; "nikto"; "nuclei"; "dirbuster"; "gobuster"; "wpscan"]].

Definition norm_all (l : list string) : list string := List.filter nonempty (map norm l).

Definition normalizeThreatSignatureRule (r : threatSignatureRule) : option threatSignatureRule :=
  let id := norm (rl_ID r) in
  let signal := norm (rl_Signal r) in
  let family := norm (rl_Family r) in
  let id := if String.eqb id "" then signal else id in
  if String.eqb signal "" then None
  else
    let signal := if HasPrefix signal "signature." then signal else "signature." +:+ signal in
    let family := if String.eqb family "" then TrimPrefix signal "signature." else family in
    let out := mkthreatSignatureRule id signal family (norm_all (rl_PathContains r))
      (norm_all (rl_PathPrefix r)) (norm_all (rl_HostContains r)) (norm_all (rl_UAContains r)) in
    if (length (rl_PathContains out) + length (rl_PathPrefix out) + length (rl_HostContains out)
        + length (rl_UAContains out) =? 0)%nat then None else Some out.

Fixpoint normalize_rules_loop (seen : gset string) (l : list threatSignatureRule) : list threatSignatureRule :=
  match l with
  | [] => []
  | r :: l' =>
      match normalizeThreatSignatureRule r with
      | None => normalize_rules_loop seen l'
      | Some n =>
          let key := rl_ID n +:+ "|" +:+ rl_Signal n in
          if bool_decide (key ∈ seen) then normalize_rules_loop seen l'
          else n :: normalize_rules_loop ({[key]} ∪ seen) l'
      end
  end.
Definition normalizeThreatSignatureRules (l : list threatSignatureRule) : list threatSignatureRule :=
  normalize_rules_loop ∅ l.

Definition matchThreatSignatureRule (r : threatSignatureRule) (host path ua : string) : bool :=
  existsb (Contains path) (rl_PathContains r) || existsb (HasPrefix path) (rl_PathPrefix r)
  || existsb (Contains host) (rl_HostContains r) || existsb (Contains ua) (rl_UAContains r).

(* ------------------------------------------------------------------ *)
(** ** The service *)

(** A parsed backup package ([backup.go]). *)
Record backupManifest := mkbackupManifest {
  mf_SchemaVersion : Z; mf_CreatedAt : string; mf_Host : string; mf_Users : Z; mf_Domains : Z;
  mf_Subdomains : Z; mf_DBSHA256 : string; mf_KeySHA256 : string
}.
Record backupSnapshot := mkbackupSnapshot {
  bs_Manifest : backupManifest; bs_DBBytes : bytes; bs_KeyBytes : bytes; bs_FileName : string
}.

(** The fields of the first-run setup, under [setupMu]: the hash of the one-time
    code, its expiry, how long the wizard stays unlocked, the failed attempts and
    the cooldown, and the uploaded restore package.  [su_announced] is the code
    last written to the log and to the file [bootstrap/ots]. *)
Record SetupState := mkSetupState {
  su_Initialized : bool; su_OTSHash : bytes; su_OTSExpires : time; su_UnlockUntil : time;
  su_Attempts : Z; su_Cooldown : time; su_Restore : option backupSnapshot; su_announced : string
}.
#[export] Instance eta_SetupState : Eta SetupState := fun r =>
  mkSetupState (su_Initialized r) (su_OTSHash r) (su_OTSExpires r) (su_UnlockUntil r)
    (su_Attempts r) (su_Cooldown r) (su_Restore r) (su_announced r).
Definition zero_SetupState : SetupState := mkSetupState false (repeat 0 32) 0 0 0 0 None "".

(** The part of [config.Config] the service reads. *)
Record Config := mkConfig {
  cfg_Domain : string; cfg_AdminBindAddr : string; cfg_ACMEEmail : string; cfg_ACMEStaging : bool
}.
#[export] Instance eta_Config : Eta Config := fun r =>
  mkConfig (cfg_Domain r) (cfg_AdminBindAddr r) (cfg_ACMEEmail r) (cfg_ACMEStaging r).

(** The calls the service makes to its DNS provider. *)
Inductive DnsCall : Type :=
| UpsertARecord (zoneID name ip : string)
| DeleteARecord (zoneID name : string)
| ResolveZone (name : string).

(** The service: its store and, when the host has one, its firewall; the burst windows, the snapshot handed to the proxy,
    and the signature rules; the public address, the key of the keystore, the content of the key file
    and the first-run setup; the configuration, the retry times of hosts, the calls made to
    the DNS provider so far, the settings and token of the log servers, what the DNS
    maintenance saw last, the entries the LDAP server was asked to delete, and the files of
    the backup archives, on the local disk by path and on FTP servers by address and path. *)
Record Svc := mkSvc {
  s_env : Env; s_nft : option Nft; s_tiWin : gmap string tiWindow;
  s_tiSnap : ThreatIntelSnapshot; s_sigRules : list threatSignatureRule;
  s_sigLastSync : time; s_sigSourceURL : string; s_sigSourceHash : string;
  s_sigEnabled : bool; s_sigAutoUpdate : bool;
  s_publicIP : string; s_keystore : bytes; s_keyfile : string; s_setup : SetupState;
  s_cfg : Config; s_backoff : gmap Z time; s_dnsCalls : list DnsCall;
  s_logCfg : LogServerSettings; s_logToken : string; s_hostName : string;
  s_maintReach : gmap string bool; s_maintCFMismatch : gmap string bool;
  s_ldapDeletes : list string; s_files : gmap string bytes; s_ftpFiles : gmap (string * string) bytes
}.
#[export] Instance eta_Svc : Eta Svc := fun r =>
  mkSvc (s_env r) (s_nft r) (s_tiWin r) (s_tiSnap r) (s_sigRules r) (s_sigLastSync r)
    (s_sigSourceURL r) (s_sigSourceHash r) (s_sigEnabled r) (s_sigAutoUpdate r)
    (s_publicIP r) (s_keystore r) (s_keyfile r) (s_setup r) (s_cfg r) (s_backoff r) (s_dnsCalls r)
    (s_logCfg r) (s_logToken r) (s_hostName r) (s_maintReach r) (s_maintCFMismatch r)
    (s_ldapDeletes r) (s_files r) (s_ftpFiles r).

(** The snapshot before the first refresh. *)
Definition initial_snapshot : ThreatIntelSnapshot := mkThreatIntelSnapshot false "monitor_only" 2 10 2 3 6 15 ∅ ∅.

(** [New], before the stored settings of the log servers are read. *)
Definition new_svc_with (cfg : Config) (key : bytes) (keyfile : string) (host : string) (e : Env) (nft : option Nft) : Svc :=
  mkSvc e nft ∅ initial_snapshot [] 0 "" "" false false "" key keyfile zero_SetupState cfg ∅ []
    defaultLogServerSettings "" (if String.eqb (TrimSpace host) "" then "domnexdomain" else TrimSpace host) ∅ ∅ [] ∅ ∅.
Definition new_svc (e : Env) (nft : option Nft) : Svc :=
  new_svc_with (mkConfig "" "127.0.0.1:8443" "" false) [] "" "" e nft.

Abbreviation AM := (M Svc).

(** [s.store.f(...)] *)
Definition db {A} (m : SM A) : AM A := zoom s_env (fun e s => s <| s_env := e |>) m.

(** A non-blank setting, or the default. *)
Definition setting_or {A} (key : string) (f : string -> A) (dflt : A) : AM A :=
  r ← try_ (db (GetSetting key));
  mret (match r with
        | Ok v => if String.eqb (TrimSpace v) "" then dflt else f v
        | Err _ => dflt
        end).

Definition getThreatSignatureURL : AM string :=
  setting_or "threatintel.signature_url" TrimSpace defaultThreatIntelSignatureURL.
Definition isThreatSignatureAutoUpdateEnabled : AM bool :=
  setting_or "threatintel.signature_auto_update" is_true true.
Definition isThreatSignatureEnabled : AM bool :=
  setting_or "threatintel.signature_enabled" is_true false.

Definition GetThreatSignatureConfig : AM ThreatSignatureConfig :=
  enabled ← isThreatSignatureEnabled;
  auto ← isThreatSignatureAutoUpdateEnabled;
  url ← getThreatSignatureURL;
  gets (fun s => mkThreatSignatureConfig enabled auto url (s_sigLastSync s) (s_sigSourceHash s)
                   (Z.of_nat (length (s_sigRules s))) (s_sigSourceURL s)).

Definition ensureThreatSignaturesLoaded : AM unit :=
  modify (fun s =>
    match s_sigRules s with
    | _ :: _ => s
    | [] => s <| s_sigRules := normalizeThreatSignatureRules defaultThreatSignatures |>
              <| s_sigSourceURL := "builtin" |> <| s_sigSourceHash := "" |> <| s_sigLastSync := 0 |>
    end).

Section sync.
(** The download of the bundle and the decoding of its JSON: the answer of
    the HTTP client and the rules [encoding/json] reads in the body. *)
Context (fetch : string -> result (Z * string)).
Context (decode_bundle : string -> option (list threatSignatureRule)).

Definition syncThreatSignatures (force : bool) : AM unit :=
  enabled ← isThreatSignatureEnabled;
  if negb enabled then mret tt else
  auto ← (if force then mret true else isThreatSignatureAutoUpdateEnabled);
  if negb auto then mret tt else
  last ← gets s_sigLastSync;
  now ← db Now;
  if negb force && negb (IsZero last) && (Sub now last <? 6 * Hour) then mret tt else
  url ← getThreatSignatureURL;
  match fetch url with
  | Err e => fail e
  | Ok (status, body) =>
      fail_if ((status <? 200) || (300 <=? status)) ("signature update http status " +:+ Itoa status) ≫= fun _ =>
      let hash := sha256_hex body in
      match decode_bundle body with
      | None => fail (ErrText "invalid signature bundle json")
      | Some raw =>
          let rules := normalizeThreatSignatureRules raw in
          fail_if (match rules with [] => true | _ => false end) "signature bundle has no valid rules" ≫= fun _ =>
          modify (fun s => s <| s_sigRules := rules |> <| s_sigLastSync := now |>
                             <| s_sigSourceURL := url |> <| s_sigSourceHash := hash |>) ≫= fun _ =>
          ignore (db (SetSetting "threatintel.signature_url" url)) ≫= fun _ =>
          ignore (db (SetSetting "threatintel.signature_auto_update" "true")) ≫= fun _ =>
          ignore (db (SetSetting "threatintel.signature_last_sync" (RFC3339Nano now))) ≫= fun _ =>
          ignore (db (SetSetting "threatintel.signature_last_hash" hash))
      end
  end.

Definition SetThreatSignatureConfig (cfg : ThreatSignatureConfig) : AM unit :=
  let url := TrimSpace (sc_SourceURL cfg) in
  let url := if String.eqb url "" then defaultThreatIntelSignatureURL else url in
  db (SetSetting "threatintel.signature_enabled" (ToLower (FormatBool (sc_Enabled cfg)))) ≫= fun _ =>
  db (SetSetting "threatintel.signature_auto_update" (ToLower (FormatBool (sc_AutoUpdate cfg)))) ≫= fun _ =>
  db (SetSetting "threatintel.signature_url" url) ≫= fun _ =>
  modify (fun s => s <| s_sigEnabled := sc_Enabled cfg |> <| s_sigAutoUpdate := sc_AutoUpdate cfg |>
                     <| s_sigSourceURL := url |>) ≫= fun _ =>
  when (sc_Enabled cfg)
    (ensureThreatSignaturesLoaded ≫= fun _ => ignore (syncThreatSignatures true)).
End sync.

Definition matching_signals (rules : list threatSignatureRule) (host path ua : string) : list string :=
  let lp := norm path in
  let lp := if String.eqb lp "" then "/" else lp in
  uniqueThreatSignals (map rl_Signal
    (List.filter (fun r => matchThreatSignatureRule r (norm host) lp (norm ua)) rules)).

Definition detectThreatSignatureSignals (host path ua : string) : AM (list string) :=
  enabled ← isThreatSignatureEnabled;
  if negb enabled then mret []
  else
    ensureThreatSignaturesLoaded ≫= fun _ =>
    rules ← gets s_sigRules;
    mret (matching_signals rules host path ua).

(* ------------------------------------------------------------------ *)
(** ** Computations of the service and the relations they keep *)

(** A relation between environments, for the service. *)
Definition on_env (R : Env -> Env -> Prop) (s s' : Svc) : Prop := R (s_env s) (s_env s').

#[export] Instance on_env_preorder R `{!PreOrder R} : PreOrder (on_env R).
Proof. split; unfold on_env; [intros s; reflexivity|intros a b c ? ?; by etransitivity]. Qed.

Lemma keeps_db R {A} (m : SM A) : keeps R m -> keeps (on_env R) (db m).
Proof. intros H s. unfold db, zoom, on_env. specialize (H (s_env s)). by destruct (m (s_env s)). Qed.

Lemma keeps_svc R `{!PreOrder R} (f : Svc -> Svc) :
  (forall s, s_env (f s) = s_env s) -> keeps (on_env R) (modify f).
Proof. intros H. apply keeps_modify. intros s. unfold on_env. rewrite H. reflexivity. Qed.

Lemma wp_db {A} (m : SM A) Q s :
  wp m (fun r e => Q r (s <| s_env := e |>)) (s_env s) -> wp (db m) Q s.
Proof. unfold wp, db, zoom. destruct (m (s_env s)). done. Qed.

Lemma db_bind {A B} (m : SM A) (k : A -> AM B) Q s :
  wp m (fun r e => match r with Ok a => wp (k a) Q (s <| s_env := e |>) | Err x => Q (Err x) (s <| s_env := e |>) end) (s_env s) ->
  wp (db m ≫= k) Q s.
Proof. intros H. by apply wp_bind, wp_db. Qed.

Lemma db_now_run {B} (k : time -> AM B) s : (db Now ≫= k) s = k (e_now (s_env s)) s.
Proof. by destruct s. Qed.

(** Statements of a run in which the driver does not fail. *)
Section calm_runs.
Context {B : Type} (s : Svc) (Hf : e_faults (s_env s) = []).

Lemma db_query_row_run {A} (f : DB -> option A) (k : A -> AM B) :
  (db (query_row f) ≫= k) s =
  match f (e_db (s_env s)) with Some a => k a s | None => (Err ErrNoRows, s) end.
Proof.
  destruct s as [[d now fs rnd]]. simpl in Hf. subst fs. unfold db, zoom, mbind, M_bind. simpl.
  rewrite query_row_run_end. by destruct (f d).
Qed.
Lemma db_query_run {A} (f : DB -> A) (k : A -> AM B) : (db (query f) ≫= k) s = k (f (e_db (s_env s))) s.
Proof. destruct s as [[d now fs rnd]]. simpl in Hf. by subst fs. Qed.
Lemma db_exec_run (f : DB -> DB) (k : unit -> AM B) :
  (db (exec f) ≫= k) s = k tt (s <| s_env := (s_env s) <| e_db ::= f |> |>).
Proof. destruct s as [[d now fs rnd]]. simpl in Hf. by subst fs. Qed.

Lemma calm_query_row_wp {A} (f : DB -> option A) (k : A -> AM B) Q a :
  f (e_db (s_env s)) = Some a -> wp (k a) Q s -> wp (db (query_row f) ≫= k) Q s.
Proof. intros Ha. unfold wp. by rewrite db_query_row_run, Ha. Qed.
Lemma calm_query_wp {A} (f : DB -> A) (k : A -> AM B) Q : wp (k (f (e_db (s_env s)))) Q s -> wp (db (query f) ≫= k) Q s.
Proof. unfold wp. by rewrite db_query_run. Qed.
Lemma calm_exec_wp (f : DB -> DB) (k : unit -> AM B) Q :
  wp (k tt) Q (s <| s_env := (s_env s) <| e_db ::= f |> |>) -> wp (db (exec f) ≫= k) Q s.
Proof. unfold wp. by rewrite db_exec_run. Qed.
End calm_runs.

Lemma db_now_end s : db Now s = (Ok (e_now (s_env s)), s).
Proof. by destruct s. Qed.

Lemma keeps_setting_or R `{!PreOrder R} {A} key (f : string -> A) d :
  keeps R (GetSetting key) -> keeps (on_env R) (setting_or key f d).
Proof. intros H. unfold setting_or. keeps_tac. by apply keeps_db. Qed.

Lemma keeps_detect R `{!PreOrder R} host path ua :
  (forall key, keeps R (GetSetting key)) -> keeps (on_env R) (detectThreatSignatureSignals host path ua).
Proof.
  intros H. unfold detectThreatSignatureSignals, isThreatSignatureEnabled, ensureThreatSignaturesLoaded.
  keeps_tac; try (by apply keeps_setting_or); apply keeps_svc; [done|].
  intros s. by destruct (s_sigRules s).
Qed.

(* ------------------------------------------------------------------ *)
(** ** Facts *)

(** C40. A normalised rule names a signal in the [signature.] name space, carries
    at least one pattern, and none of its patterns is empty (an empty pattern
    would match every request). *)
Theorem normalized_rule_valid r n :
  normalizeThreatSignatureRule r = Some n ->
  HasPrefix (rl_Signal n) "signature." = true /\
  (rl_PathContains n ++ rl_PathPrefix n ++ rl_HostContains n ++ rl_UAContains n <> []) /\
  Forall (fun p => p <> "") (rl_PathContains n ++ rl_PathPrefix n ++ rl_HostContains n ++ rl_UAContains n).
Proof.
  unfold normalizeThreatSignatureRule. cbv zeta.
  destruct (norm (rl_Signal r) =? "")%string; [done|].
  destruct (_ =? 0)%nat eqn:Hlen; [done|]. intros [= <-]. cbn [rl_Signal rl_PathContains rl_PathPrefix rl_HostContains rl_UAContains] in *.
  split_and!.
  - destruct (HasPrefix (norm (rl_Signal r)) "signature.") eqn:E; [done|].
    apply HasPrefix_app.
  - apply Nat.eqb_neq in Hlen. intros E. apply (f_equal length) in E. rewrite !length_app in E. simpl in E. lia.
  - rewrite !Forall_app. unfold norm_all. split_and!; apply Forall_forall; intros p Hp%list_elem_of_In;
      apply filter_In in Hp as [_ Hp]; unfold nonempty in Hp; by bool_facts.
Qed.

Lemma normalized_rule_valid_witness :
  let r := mkthreatSignatureRule "" " WP " "" ["/WP-admin"; " "] [] [] [] in
  exists n, normalizeThreatSignatureRule r = Some n /\
    Forall (fun p => p <> "") (rl_PathContains n ++ rl_PathPrefix n ++ rl_HostContains n ++ rl_UAContains n).
Proof.
  eexists. split; [vm_compute; reflexivity|].
  apply (normalized_rule_valid (mkthreatSignatureRule "" " WP " "" ["/WP-admin"; " "] [] [] [])).
  vm_compute. reflexivity.
Defined.

(** The built-in rules are in normal form already. *)
Example builtin_rules_normal :
  normalizeThreatSignatureRules defaultThreatSignatures = defaultThreatSignatures.
Proof. vm_compute. reflexivity. Qed.

(** Normalised rules have pairwise different keys. *)
Lemma normalized_rules_NoDup l :
  NoDup (map (fun r => rl_ID r +:+ "|" +:+ rl_Signal r) (normalizeThreatSignatureRules l)).
Proof.
  unfold normalizeThreatSignatureRules.
  assert (H : forall seen, NoDup (map (fun r => rl_ID r +:+ "|" +:+ rl_Signal r) (normalize_rules_loop seen l))
    /\ forall k, k ∈ map (fun r => rl_ID r +:+ "|" +:+ rl_Signal r) (normalize_rules_loop seen l) -> k ∉ seen).
  { induction l as [|r l IH]; intros seen; simpl; [split; [constructor|set_solver]|].
    destruct (normalizeThreatSignatureRule r) as [n|]; [|apply IH].
    case_bool_decide; [apply IH|]. simpl.
    destruct (IH ({[rl_ID n +:+ "|" +:+ rl_Signal n]} ∪ seen)) as [IH1 IH2]. split.
    - constructor; [|done]. intros Hin%IH2. set_solver.
    - intros k [->|Hk]%elem_of_cons; [done|]. apply IH2 in Hk. set_solver. }
  apply H.
Qed.
