(* ===== verification/Vault.v ===== *)
(** [internal/app/service.go], [logservers.go]: the secrets of the service.

    Passwords are hashed with a fresh salt, secrets are stored under the key of
    the keystore with a fresh nonce.  Argon2 and AES-GCM are parameters, with the
    law that opening what was sealed under the same key and nonce gives it back. *)

From S2P Require Import Prelude GoString GoMonad GoTime GoCrypto Crypto Model StoreDB StoreThreat StoreUsers Service.

(** [rand.Read] into a slice of [n] bytes fills it, or fails: the next draw of the
    source, cut or filled to the size asked for. *)
Definition random_bytes (n : nat) : SM bytes :=
  b ← random; mret (take n (bytes_of b ++ repeat 0 n)).

Section vault.
Context (IDKey : bytes -> bytes -> Z -> Z -> Z -> Z -> bytes).
Context (Seal : bytes -> bytes -> bytes -> bytes) (Open : bytes -> bytes -> bytes -> option bytes).

(** [crypto.HashPassword(p, crypto.DefaultArgonConfig())] *)
Definition hash_password (password : string) : AM string :=
  salt ← db (random_bytes 16); mret (HashPassword IDKey password salt DefaultArgonConfig).

(** [s.keystore.Encrypt], [s.keystore.Decrypt] *)
Definition encrypt (plain : string) : AM string :=
  key ← gets s_keystore;
  nonce ← db (random_bytes NonceSize);
  lift (Encrypt Seal key nonce plain).
Definition decrypt (cipherText : string) : AM string :=
  key ← gets s_keystore; lift (Decrypt Open key cipherText).

Definition store_secret (name plain : string) : AM unit :=
  enc ← encrypt plain; db (StoreSecret name enc).
Definition load_secret (name : string) : AM string :=
  enc ← db (GetSecret name); decrypt enc.

Definition SetCloudflareToken (token : string) : AM unit := store_secret "cloudflare.api_token" token.
Definition GetCloudflareToken : AM string := load_secret "cloudflare.api_token".

Definition SetLogHTTPBearer (token : string) : AM unit :=
  let token := TrimSpace token in
  if String.eqb token "" then mret tt else store_secret "log.http_bearer" token.
Definition GetLogHTTPBearer : AM string := load_secret "log.http_bearer".

Definition GetOIDCClientSecret : AM string := load_secret "auth.oidc.client_secret".
End vault.

(* ------------------------------------------------------------------ *)
(** ** What they change *)

(** A table the vault does not touch. *)
Lemma keeps_random_db {T} (p : DB -> T) n : keeps (on_env (same p)) (db (random_bytes n)).
Proof. apply keeps_db. unfold random_bytes. keeps_db. Qed.

Lemma keeps_hash {T} (p : DB -> T) IDKey password : keeps (on_env (same p)) (hash_password IDKey password).
Proof. unfold hash_password. keeps_tac; try typeclasses eauto. apply keeps_random_db. Qed.

Lemma keeps_encrypt {T} (p : DB -> T) Seal plain : keeps (on_env (same p)) (encrypt Seal plain).
Proof. unfold encrypt. keeps_tac; try typeclasses eauto. apply keeps_random_db. Qed.

Lemma keeps_decrypt {T} (p : DB -> T) Open c : keeps (on_env (same p)) (decrypt Open c).
Proof. unfold decrypt. keeps_tac; typeclasses eauto. Qed.

Lemma random_bytes_src n (Q : result bytes -> Svc -> Prop) s :
  (forall e' b, is_bytes b -> length b = n -> e_db e' = e_db (s_env s) -> e_now e' = e_now (s_env s) ->
     e_faults e' = e_faults (s_env s) -> Q (Ok b) (s <| s_env := e' |>)) ->
  Q (Err (ErrText "random source")) s -> wp (db (random_bytes n)) Q s.
Proof.
  intros HO HE. apply wp_db. unfold random_bytes, wp, mbind, M_bind, random.
  destruct (e_rand (s_env s)) as [|r rs].
  - replace (s <| s_env := s_env s |>) with s by by destruct s. apply HE.
  - simpl. apply HO; try done.
    + apply Forall_take, Forall_app. split; [apply is_bytes_of|]. apply Forall_forall. intros x Hx%list_elem_of_In%repeat_spec. lia.
    + rewrite length_take, length_app, repeat_length. lia.
Qed.

Lemma random_bytes_wp n (Q : result bytes -> Svc -> Prop) s :
  (forall e' b, is_bytes b -> length b = n -> e_db e' = e_db (s_env s) -> e_now e' = e_now (s_env s) ->
     e_faults e' = e_faults (s_env s) -> Q (Ok b) (s <| s_env := e' |>)) ->
  (forall e, Q (Err e) s) -> wp (db (random_bytes n)) Q s.
Proof. intros HO HE. by apply random_bytes_src. Qed.

(** The hash a run of [hash_password] gives is made with bytes drawn for it. *)
Lemma wp_hash IDKey password (Q : result string -> Svc -> Prop) s :
  (forall e' salt, is_bytes salt -> e_db e' = e_db (s_env s) /\ e_now e' = e_now (s_env s) ->
     Q (Ok (HashPassword IDKey password salt DefaultArgonConfig)) (s <| s_env := e' |>)) ->
  (forall e, Q (Err e) s) ->
  wp (hash_password IDKey password) Q s.
Proof.
  intros HO HE. unfold hash_password. apply wp_bind, random_bytes_wp; [|done].
  intros e' salt Hs _ Hd Hn _. apply wp_ret. by apply HO.
Qed.

(** [gcm.Open] undoes [gcm.Seal]. *)
Class AEAD (Seal : bytes -> bytes -> bytes -> bytes) (Open : bytes -> bytes -> bytes -> option bytes) : Prop :=
  aead_ok : forall k n p, is_bytes p -> Open k n (Seal k n p) = Some p /\ is_bytes (Seal k n p).

(** A sealed secret opens under the same key. *)
Lemma wp_encrypt Seal Open `{!AEAD Seal Open} plain (Q : result string -> Svc -> Prop) s :
  (forall e' c, Decrypt Open (s_keystore s) c = Ok plain -> TrimSpace c = c -> e_db e' = e_db (s_env s) ->
     e_now e' = e_now (s_env s) -> e_faults e' = e_faults (s_env s) -> Q (Ok c) (s <| s_env := e' |>)) ->
  (forall e s', s_keystore s' = s_keystore s -> e_db (s_env s') = e_db (s_env s) -> Q (Err e) s') ->
  wp (encrypt Seal plain) Q s.
Proof.
  intros HO HE. unfold encrypt. apply wp_bind, wp_gets. cbv beta iota.
  apply wp_bind, random_bytes_wp; [|intros e; by apply HE].
  intros e' nonce Hn Hl Hd Ht Hf. unfold lift, wp. destruct (valid_aes_key (s_keystore s)) eqn:Hk.
  - destruct (encrypt_decrypt Seal Open (s_keystore s) nonce plain aead_ok Hk Hn Hl) as (c & E & Hc). rewrite E.
    apply HO; try done. apply (encrypt_trim Seal (s_keystore s) nonce plain); [|done..]. intros k n p Hp. by destruct (aead_ok k n p Hp).
  - unfold Encrypt. rewrite Hk. by apply HE.
Qed.

(** A cipher for examples. *)
Definition toy_seal (_ _ p : bytes) : bytes := rev p.
Definition toy_open (_ _ c : bytes) : option bytes := Some (rev c).
#[export] Instance toy_aead : AEAD toy_seal toy_open.
Proof. intros k n p Hp. unfold toy_open, toy_seal. rewrite rev_involutive. split; [done|]. unfold is_bytes in *. by apply Forall_rev. Qed.

(* ------------------------------------------------------------------ *)
(** ** The key derivation the clients rely on *)

(** [argon2.IDKey] gives as many bytes as it is asked for. *)
Class KeyDerivation (IDKey : bytes -> bytes -> Z -> Z -> Z -> Z -> bytes) : Prop :=
  derivation_ok : forall p s t m l k, 0 <= k -> is_bytes (IDKey p s t m l k) /\ Z.of_nat (length (IDKey p s t m l k)) = k.

#[export] Instance toy_is_derivation : KeyDerivation toy_derivation.
Proof.
  intros p s t m l k Hk. unfold toy_derivation. split.
  - apply Forall_forall. intros b Hb%list_elem_of_fmap. destruct Hb as (n & -> & _). apply Z.mod_pos_bound. lia.
  - rewrite length_map, length_seq. lia.
Qed.

Section derivation.
Context {IDKey : bytes -> bytes -> Z -> Z -> Z -> Z -> bytes} `{!KeyDerivation IDKey}.

(** The key a password derives under a salt, with the default parameters. *)
Definition derived (salt : bytes) (password : string) : bytes :=
  IDKey (bytes_of password) salt (ac_Iterations DefaultArgonConfig) (ac_Memory DefaultArgonConfig)
    (ac_Parallelism DefaultArgonConfig) (ac_KeyLen DefaultArgonConfig).

Lemma default_hash_check password salt attempt : is_bytes salt ->
  VerifyPassword IDKey attempt (HashPassword IDKey password salt DefaultArgonConfig) =
    bool_decide (derived salt attempt = derived salt password).
Proof.
  intros Hs. refine (proj1 (verify_hash IDKey password salt DefaultArgonConfig attempt derivation_ok Hs _ _)).
  - unfold config_widths. simpl. lia.
  - simpl. lia.
Qed.

Lemma default_hash_accepts password salt : is_bytes salt ->
  VerifyPassword IDKey password (HashPassword IDKey password salt DefaultArgonConfig) = true.
Proof. intros Hs. rewrite default_hash_check by done. by apply bool_decide_eq_true_2. Qed.
End derivation.

Lemma hash_nonempty IDKey password salt cfg : HashPassword IDKey password salt cfg <> "".
Proof. unfold HashPassword. cbv zeta. done. Qed.
