(* ===== verification/ThreatEngine.v ===== *)
(** The threat engine of [internal/app/service.go]: scoring of events, block
    list and firewall reconciliation.  The periodic decay is in [Retention].

    One operation runs at one instant: the clock of the environment is read
    where the code calls [time.Now], and does not move inside an operation.
    Log lines are not modelled. *)

From S2P Require Import Prelude GoString GoMonad GoNum GoTime GoNet Model StoreDB StoreThreat StoreUsers.
From S2P Require Import Firewall ThreatScore Service.

(* ------------------------------------------------------------------ *)
(** ** Configuration and snapshot *)

Definition normalizeThreatIntelMode (mode : string) : string :=
  let m := norm mode in
  if String.eqb m "monitor_only" || String.eqb m "auto_mode" then m
  else if String.eqb m "log_only" then "monitor_only"
  else if String.eqb m "hard_check" || String.eqb m "soft_block" || String.eqb m "hard_block" then "auto_mode"
  else "monitor_only".

Definition allow_set (entries : list BlockedIP) : gset string :=
  list_to_set (map (fun b => TrimSpace (b_IP b)) entries).

Definition snapshot_of (cfg : ThreatIntelConfig) (feeds : gmap string (list string)) (allow : gset string)
    : ThreatIntelSnapshot :=
  mkThreatIntelSnapshot (tc_Enabled cfg) (normalizeThreatIntelMode (tc_Mode cfg)) (tc_EventMinHits cfg)
    (tc_OffenderMinHits cfg) (tc_MonitorMaxLevel cfg) (tc_SoftMinLevel cfg) (tc_HardLevel cfg)
    (tc_SoftBlockMinutes cfg) allow feeds.

Definition RefreshThreatIntelSnapshot : AM ThreatIntelSnapshot :=
  cfg ← db GetThreatIntelConfig;
  feedByIP ← db ListThreatIntelEntriesByIP;
  allowEntries ← db ListThreatIntelAllowIPs;
  let snap := snapshot_of cfg feedByIP (allow_set allowEntries) in
  modify (fun s => s <| s_tiSnap := snap |>) ≫= fun _ =>
  mret snap.

Definition AddThreatIntelAllowIP (ip reason : string) : AM unit :=
  db (UpsertThreatIntelAllowIP ip reason) ≫= fun _ => ignore RefreshThreatIntelSnapshot.
Definition RemoveThreatIntelAllowIP (ip : string) : AM unit :=
  db (StoreThreat.RemoveThreatIntelAllowIP ip) ≫= fun _ => ignore RefreshThreatIntelSnapshot.

(* ------------------------------------------------------------------ *)
(** ** The host firewall *)

Definition isPublicIPv4 (raw : string) : bool :=
  match ParseIP (TrimSpace raw) with
  | None => false
  | Some i =>
      match To4 i with
      | None => false
      | Some v =>
          if IsLoopback i || IsPrivate i || IsLinkLocalMulticast i || IsLinkLocalUnicast i || IsUnspecified i
          then false
          else if octet v 0 =? 0 then false
          else if (octet v 0 =? 100) && (64 <=? octet v 1) && (octet v 1 <=? 127) then false
          else if (octet v 0 =? 169) && (octet v 1 =? 254) then false
          else if 224 <=? octet v 0 then false
          else true
      end
  end.

Definition isPublicIPv6 (raw : string) : bool :=
  match ParseIP (TrimSpace raw) with
  | None => false
  | Some i =>
      match To4 i with
      | Some _ => false
      | None =>
          if IsLoopback i || IsPrivate i || IsLinkLocalMulticast i || IsLinkLocalUnicast i
             || IsUnspecified i || IsMulticast i then false
          else
            let t := ToLower (IP_String i) in
            if HasPrefix t "fc" || HasPrefix t "fd" then false
            else if HasPrefix t "2001:db8:" then false
            else true
      end
  end.

(** The addresses at the hard level, for the mode that enforces only those. *)
Definition hard_ips (cfg : ThreatIntelConfig) (states : list ThreatIntelIPState) : gset string :=
  list_to_set (omap (fun st =>
    let ip := TrimSpace (ts_IP st) in
    if String.eqb ip "" then None
    else if ts_PermBlocked st || String.eqb (ToLower (TrimSpace (ts_RiskState st))) "hardblock"
            || (tc_HardLevel cfg <=? ts_Level st)
    then Some ip else None) states).

(** The filter of the loop over the blocked addresses. *)
Definition enforced (mode : string) (hard : gset string) (b : BlockedIP) : bool :=
  let ip := TrimSpace (b_IP b) in
  negb (String.eqb ip "")
  && negb (String.eqb mode "hard_only" && negb (bool_decide (ip ∈ hard))
           && negb (Contains (ToLower (TrimSpace (b_Reason b))) "hard")).

Definition sorted_set (s : gset string) : list string := order_by String.leb (elements s).

(** The two sets handed to the firewall. *)
Definition firewall_sets (mode : string) (hard : gset string) (blocked : list BlockedIP)
    : list string * list string :=
  let ips := map (fun b => TrimSpace (b_IP b)) (List.filter (enforced mode hard) blocked) in
  (sorted_set (list_to_set (List.filter isPublicIPv4 ips)),
   sorted_set (list_to_set (List.filter (fun ip => negb (isPublicIPv4 ip) && isPublicIPv6 ip) ips))).

(** [s.nft.f(...)], when there is one. *)
Definition firewall (m : NM unit) : AM unit := fun s =>
  match s_nft s with
  | None => (Ok tt, s)
  | Some n => let '(r, n') := m n in (r, s <| s_nft := Some n' |>)
  end.

Definition reconcileOSFirewall : AM unit :=
  nft ← gets s_nft;
  match nft with
  | None => mret tt
  | Some _ =>
      cfg ← db GetThreatIntelConfig;
      if negb (tc_OSFirewall cfg) then firewall Disable
      else
        let mode := ToLower (TrimSpace (tc_OSFirewallMode cfg)) in
        let mode := if String.eqb mode "" then "hard_only" else mode in
        hard ← (if String.eqb mode "hard_only"
                then states ← db (ListThreatIntelIPStates 50000); mret (hard_ips cfg states)
                else mret ∅);
        blocked ← db (ListBlockedIPs 200000);
        let '(ips4, ips6) := firewall_sets mode hard blocked in
        firewall (Replace ips4 ips6)
  end.

Definition SetThreatIntelConfig (cfg : ThreatIntelConfig) : AM unit :=
  db (StoreThreat.SetThreatIntelConfig (cfg <| tc_Mode ::= normalizeThreatIntelMode |>)) ≫= fun _ =>
  ignore reconcileOSFirewall ≫= fun _ =>
  RefreshThreatIntelSnapshot ≫= fun _ => mret tt.

(* ------------------------------------------------------------------ *)
(** ** The block list *)

Definition UpsertBlockedIP (ip reason : string) : AM unit :=
  fail_if (match ParseIP (TrimSpace ip) with Some i => IsLoopback i | None => false end)
    "loopback addresses cannot be blocked" ≫= fun _ =>
  db (StoreThreat.UpsertBlockedIP ip reason) ≫= fun _ =>
  ignore (db (EnsureThreatIntelBanHistoryForIP ip reason "hard")) ≫= fun _ =>
  ignore reconcileOSFirewall.

Definition removeBlockedIPTrackedOnly (ip : string) (falsePositive : bool) (reason : string) : AM unit :=
  db (StoreThreat.RemoveBlockedIP ip) ≫= fun _ =>
  let reason := if String.eqb (TrimSpace reason) "" then "blocked_ip_removed" else reason in
  ignore (db (RecordThreatIntelRehabEvent ip true reason)) ≫= fun _ =>
  ignore (db (CloseThreatIntelBanHistory ip "hard" falsePositive)).

Definition removeBlockedIPTrackedWithReason (ip : string) (falsePositive : bool) (reason : string) : AM unit :=
  removeBlockedIPTrackedOnly ip falsePositive reason ≫= fun _ => ignore reconcileOSFirewall.
Definition removeBlockedIPTracked (ip : string) (falsePositive : bool) : AM unit :=
  removeBlockedIPTrackedWithReason ip falsePositive "blocked_ip_removed".
Definition RemoveBlockedIP (ip : string) : AM unit := removeBlockedIPTracked ip false.
Definition RemoveBlockedIPFalsePositive (ip : string) : AM unit := removeBlockedIPTracked ip true.

(* ------------------------------------------------------------------ *)
(** ** Events *)

(** The levels an event is judged by, from the configuration. *)
Definition event_levels (cfg : ThreatIntelConfig) : Z * Z * Z :=
  let hard := if tc_HardLevel cfg <=? 0 then defaultTIHardLevel else tc_HardLevel cfg in
  let soft := if tc_SoftMinLevel cfg <=? 0 then defaultTISoftMinLevel else tc_SoftMinLevel cfg in
  let soft := if hard <=? soft then hard - 1 else soft in
  let soft := if soft <? 1 then 1 else soft in
  let minutes := if tc_SoftBlockMinutes cfg <=? 0 then defaultTISoftBlockMinutes else tc_SoftBlockMinutes cfg in
  (hard, soft, minutes).

(** Points, levels and the two caps: from [xpDelta] to the watch boost. *)
Definition award (xpDelta : Z) (topSignal : string) (hardLevel : Z) (watchBoost : bool)
    (st : ThreatIntelIPState) : ThreatIntelIPState :=
  let xpDelta := if xpDelta <? 0 then 0 else xpDelta in
  let st := st <| ts_XP ::= fun x => x + xpDelta |> <| ts_TopSignal := topSignal |> in
  let st := if String.eqb topSignal "" then st
            else st <| ts_SignalCounts ::= fun m => <[topSignal := default 0 (m !! topSignal) + 1]> m |> in
  let '(level, xp) := run_levels hardLevel (ts_Level st) (ts_XP st) in
  let xp := if (hardLevel <=? level) && (threatLevelThreshold hardLevel <? xp)
            then threatLevelThreshold hardLevel else xp in
  let st := st <| ts_Level := level |> <| ts_XP := xp |> in
  if watchBoost && (ts_Level st <? defaultTIWatchLevel) then
    let maxWatchXP := threatLevelThreshold defaultTIWatchLevel - 1 in
    let maxWatchXP := if maxWatchXP <? 0 then 0 else maxWatchXP in
    st <| ts_Level := defaultTIWatchLevel |>
       <| ts_XP := if maxWatchXP <? ts_XP st then maxWatchXP else ts_XP st |>
       <| ts_RiskState := "watch" |>
  else st.

(** Risk state and the deterministic hard block. *)
Definition judge (mode : string) (hardLevel softMinLevel : Z) (watchBoost : bool) (now : time)
    (st : ThreatIntelIPState) : ThreatIntelIPState :=
  let st := st <| ts_RiskState := threatRiskState (ts_Level st) softMinLevel hardLevel |> in
  let st := if watchBoost && negb (ts_PermBlocked st)
               && (IsZero (ts_BanUntil st) || negb (After (ts_BanUntil st) now))
            then st <| ts_RiskState := "watch" |> else st in
  let st := if String.eqb mode "auto_mode" && (hardLevel <=? ts_Level st)
            then st <| ts_PermBlocked := true |> <| ts_BanUntil := 0 |> <| ts_RiskState := "hardblock" |>
            else st in
  st <| ts_LastSeenAt := now |>.

(** What the code does once the state is judged. *)
Inductive verdict : Type :=
| HardBlock            (* hard_block_permanent *)
| SoftActive           (* soft_block_active *)
| SoftSet (until : time) (* soft_block_set *)
| WatchBoost           (* watch_boost *)
| Observe.             (* monitor_observe *)

#[export] Instance verdict_eq_dec : EqDecision verdict.
Proof. solve_decision. Defined.

Definition verdict_of (mode : string) (softMinLevel minutes : Z) (watchBoost : bool) (now : time)
    (st : ThreatIntelIPState) : verdict :=
  if ts_PermBlocked st then HardBlock
  else if negb (IsZero (ts_BanUntil st)) && After (ts_BanUntil st) now then SoftActive
  else if String.eqb mode "auto_mode" then
    if watchBoost then WatchBoost
    else if softMinLevel <=? ts_Level st then SoftSet (Add now (minutes * Minute))
    else Observe
  else Observe.

Definition apply_verdict (v : verdict) (st : ThreatIntelIPState) : ThreatIntelIPState :=
  match v with
  | SoftSet until => st <| ts_TempBlockCount ::= Z.succ |> <| ts_BanUntil := until |>
  | _ => st
  end.

Definition verdict_text (v : verdict) : string :=
  match v with
  | HardBlock => "hard_block_permanent" | SoftActive => "soft_block_active"
  | SoftSet _ => "soft_block_set" | WatchBoost => "watch_boost" | Observe => "monitor_observe"
  end.
Definition verdict_blocks (v : verdict) : bool :=
  match v with HardBlock | SoftActive | SoftSet _ => true | _ => false end.

Definition initial_result : ThreatIntelEventResult :=
  zero_ThreatIntelEventResult <| er_Decision := "monitor_observe" |> <| er_RiskState := "monitoring" |>
    <| er_Tier := "tier0" |>.

(** The result as it stands once the verdict is known; it is what the code
    returns when the state cannot be stored. *)
Definition decided (v : verdict) : ThreatIntelEventResult :=
  initial_result <| er_Decision := verdict_text v |> <| er_Blocked := verdict_blocks v |>
    <| er_HardBlock := match v with HardBlock => true | _ => false end |>
    <| er_BanUntil := match v with SoftSet until => until | _ => 0 end |>.

(** The result of an event whose state was stored. *)
Definition event_result (v : verdict) (xpDelta : Z) (now : time) (st : ThreatIntelIPState) : ThreatIntelEventResult :=
  (decided v) <| er_XPDelta := xpDelta |> <| er_XPAfter := ts_XP st |> <| er_Level := ts_Level st |>
    <| er_Tier := threatTier (ts_Level st) |> <| er_RiskState := ts_RiskState st |>
    <| er_BanUntil ::= fun t =>
         if negb (IsZero (ts_BanUntil st)) && After (ts_BanUntil st) now then ts_BanUntil st else t |>.

(** The state of an address never seen. *)
Definition fresh_state (ip : string) : ThreatIntelIPState :=
  zero_ThreatIntelIPState <| ts_IP := ip |> <| ts_RiskState := "monitoring" |>.

Definition bump (ip primary : string) (signals : list string) (now : time) : AM float := fun s =>
  let '(f, win) := bumpThreatWindow (s_tiWin s) ip primary signals now in
  (Ok f, s <| s_tiWin := win |>).

(** The writes and the firewall call that go with the verdict, before the
    state itself is stored. *)
Definition enforce (ip topSignal : string) (v : verdict) : AM unit :=
  match v with
  | HardBlock =>
      ignore (db (StoreThreat.UpsertBlockedIP ip ("threat_intel_auto:" +:+ topSignal))) ≫= fun _ =>
      ignore (db (EnsureThreatIntelBanHistoryForIP ip ("threat_intel_auto:" +:+ topSignal) "hard")) ≫= fun _ =>
      ignore reconcileOSFirewall
  | SoftSet _ => ignore (db (EnsureThreatIntelBanHistoryForIP ip "threat_intel_auto:soft_block" "soft"))
  | _ => mret tt
  end.

(** The state row of an address, or a fresh one. *)
Definition load_state (ip : string) : AM ThreatIntelIPState :=
  r ← try_ (db (GetThreatIntelIPState ip));
  match r with
  | Ok st => mret st
  | Err e => if is_no_rows e then mret (fresh_state ip) else fail e
  end.

(** Everything between loading the state and acting on it. *)
Definition score (mode : string) (levels : Z * Z * Z) (signals : list string) (xpDelta : Z)
    (topSignal : string) (now : time) (st : ThreatIntelIPState) : verdict * ThreatIntelIPState :=
  let '(hard, soft, minutes) := levels in
  let watch := hasKnownThreatBoostSignal signals in
  let st := judge mode hard soft watch now (award xpDelta topSignal hard watch st) in
  let v := verdict_of mode soft minutes watch now st in
  (v, apply_verdict v st).

(** The match row an event is recorded under. *)
Definition match_of (inp : ThreatIntelEventInput) (ip mode : string) (signals : list string)
    (res : ThreatIntelEventResult) : ThreatIntelMatchEvent :=
  mkThreatIntelMatchEvent ip (Join (uniqueThreatSignals signals) ",") (ei_Host inp) (ei_Path inp)
    (ei_Country inp) mode (er_Decision res) (ei_TraceID inp) (ei_SourceScope inp)
    (er_XPDelta res) (er_XPAfter res) (er_Level res) (er_Tier res).

(** Act on the verdict, store the state, record the match.  The code returns
    the result beside the error. *)
Definition settle (inp : ThreatIntelEventInput) (ip mode topSignal : string) (signals : list string)
    (v : verdict) (xpDelta : Z) (now : time) (st : ThreatIntelIPState)
    : AM (ThreatIntelEventResult * option error) :=
  enforce ip topSignal v ≫= fun _ =>
  stored ← try_ (db (UpsertThreatIntelIPState st));
  match stored with
  | Err e => mret (decided v, Some e)
  | Ok _ =>
      let res := event_result v xpDelta now st in
      ignore (db (RecordThreatIntelMatch (match_of inp ip mode signals res))) ≫= fun _ =>
      mret (res, None)
  end.

Definition ApplyThreatIntelEvent (inp : ThreatIntelEventInput) : AM (ThreatIntelEventResult * option error) :=
  let ip := TrimSpace (ei_IP inp) in
  if String.eqb ip "" then mret (initial_result, None) else
  let mode := normalizeThreatIntelMode (ei_Mode inp) in
  sigSignals ← detectThreatSignatureSignals (ei_Host inp) (ei_Path inp) (ei_UserAgent inp);
  let signals := uniqueThreatSignals (ei_Signals inp ++ sigSignals) in
  r ← try_ (db GetThreatIntelConfig);
  let cfg := match r with Ok c => c | Err _ => zero_ThreatIntelConfig end in
  now ← db Now;
  loaded ← try_ (load_state ip);
  match loaded with
  | Err e => mret (initial_result, Some e)
  | Ok st0 =>
      let st0 := decayThreatState st0 now in
      let '(baseXP, topSignal) := calcThreatBaseXP signals in
      factor ← bump ip topSignal signals now;
      let xpDelta := applyThreatMultipliers baseXP factor signals in
      let '(v, st) := score mode (event_levels cfg) signals xpDelta topSignal now st0 in
      settle inp ip mode topSignal signals v xpDelta now st
  end.

(* ------------------------------------------------------------------ *)
(** ** What the operations leave alone *)

Lemma keeps_firewall R `{!PreOrder R} m : keeps (on_env R) (firewall m).
Proof.
  intros s. unfold firewall, on_env. destruct (s_nft s) as [n|]; [|reflexivity].
  destruct (m n). reflexivity.
Qed.

Lemma keeps_bump R `{!PreOrder R} ip primary signals now : keeps (on_env R) (bump ip primary signals now).
Proof. intros s. unfold bump, on_env. destruct (bumpThreatWindow _ _ _ _ _). reflexivity. Qed.

Section untouched.
Context {T : Type} (p : DB -> T).

Lemma keeps_read_setting {C} key (f : string -> C -> C) c : keeps (same p) (read_setting key f c).
Proof. unfold read_setting, GetSetting. keeps_db. Qed.
Lemma keeps_GetThreatIntelConfig : keeps (same p) GetThreatIntelConfig.
Proof. unfold GetThreatIntelConfig. keeps_tac; apply keeps_read_setting. Qed.
Lemma keeps_reconcileOSFirewall : keeps (on_env (same p)) reconcileOSFirewall.
Proof.
  unfold reconcileOSFirewall. keeps_tac; try typeclasses eauto; try (apply keeps_firewall; typeclasses eauto);
    apply keeps_db.
  - apply keeps_GetThreatIntelConfig.
  - unfold ListThreatIntelIPStates. keeps_db.
  - unfold ListBlockedIPs. keeps_db.
Qed.
Lemma keeps_load_state ip : keeps (on_env (same p)) (load_state ip).
Proof.
  unfold load_state, GetThreatIntelIPState. keeps_tac; try typeclasses eauto. apply keeps_db. keeps_db.
Qed.
End untouched.

(* ------------------------------------------------------------------ *)
(** ** The firewall is given public addresses only *)

(** An address no rule of the host firewall may name. *)
Definition reserved (i : ip) : bool :=
  IsLoopback i || IsPrivate i || IsLinkLocalUnicast i || IsLinkLocalMulticast i || IsUnspecified i.

Lemma isPublicIPv4_spec raw :
  isPublicIPv4 raw = true -> exists i v, ParseIP (TrimSpace raw) = Some i /\ To4 i = Some v /\ reserved i = false.
Proof.
  unfold isPublicIPv4, reserved. destruct (ParseIP (TrimSpace raw)) as [i|]; [|done].
  destruct (To4 i) as [v|] eqn:E; [|done]. destruct (_ || _) eqn:Hr; [done|]. intros _.
  exists i, v. split_and!; try done. bool_facts.
  repeat match goal with H : _ = false |- _ => rewrite H; clear H end. done.
Qed.

Lemma isPublicIPv6_spec raw :
  isPublicIPv6 raw = true -> exists i, ParseIP (TrimSpace raw) = Some i /\ To4 i = None /\ reserved i = false.
Proof.
  unfold isPublicIPv6, reserved. destruct (ParseIP (TrimSpace raw)) as [i|]; [|done].
  destruct (To4 i) as [v|] eqn:E; [done|]. destruct (_ || _) eqn:Hr; [done|]. intros _.
  exists i. split_and!; try done. bool_facts.
  repeat match goal with H : _ = false |- _ => rewrite H; clear H end. done.
Qed.

Lemma elem_of_sorted_set x s : x ∈ sorted_set s <-> x ∈ s.
Proof. unfold sorted_set. by rewrite elem_of_order_by, elem_of_elements. Qed.

(** Every address the firewall is told to drop is a blocked address that
    parses, and is neither loopback, private, link-local nor unspecified; the
    first set holds IPv4 and the second IPv6 addresses only. *)
Theorem firewall_sets_public mode hard blocked ip :
  let sets := firewall_sets mode hard blocked in
  (ip ∈ sets.1 -> exists b i v, b ∈ blocked /\ TrimSpace (b_IP b) = ip /\
      ParseIP (TrimSpace ip) = Some i /\ To4 i = Some v /\ reserved i = false) /\
  (ip ∈ sets.2 -> exists b i, b ∈ blocked /\ TrimSpace (b_IP b) = ip /\
      ParseIP (TrimSpace ip) = Some i /\ To4 i = None /\ reserved i = false).
Proof.
  cbv zeta. unfold firewall_sets. simpl. rewrite !elem_of_sorted_set, !elem_of_list_to_set.
  assert (Hsrc : forall p, ip ∈ List.filter p (map (fun b => TrimSpace (b_IP b)) (List.filter (enforced mode hard) blocked)) ->
    p ip = true /\ exists b, b ∈ blocked /\ TrimSpace (b_IP b) = ip).
  { intros p Hin%list_elem_of_In. apply filter_In in Hin as [Hin Hp]. split; [done|].
    apply in_map_iff in Hin as (b & Hb & Hin). apply filter_In in Hin as [Hin _].
    exists b. split; [by apply list_elem_of_In|done]. }
  split; intros Hin; apply Hsrc in Hin as (Hp & b & Hb & Hip).
  - apply isPublicIPv4_spec in Hp as (i & v & H1 & H2 & H3). eauto 10.
  - apply andb_prop in Hp as [_ Hp]. apply isPublicIPv6_spec in Hp as (i & H1 & H2 & H3). eauto 10.
Qed.

(* ------------------------------------------------------------------ *)
(** ** Scoring *)

Lemma event_levels_valid cfg : config_ok cfg ->
  event_levels cfg = (tc_HardLevel cfg, tc_SoftMinLevel cfg, tc_SoftBlockMinutes cfg).
Proof.
  unfold config_ok, event_levels. intros H. destruct_and!. cbv zeta.
  replace (tc_HardLevel cfg <=? 0) with false by lia.
  replace (tc_SoftMinLevel cfg <=? 0) with false by lia.
  replace (tc_HardLevel cfg <=? tc_SoftMinLevel cfg) with false by lia.
  replace (tc_SoftMinLevel cfg <? 1) with false by lia.
  by replace (tc_SoftBlockMinutes cfg <=? 0) with false by lia.
Qed.

(** What a single event does to points and level. *)
Lemma run_levels_spec hard level xp :
  hard <= 64 -> 0 <= level -> 0 <= xp ->
  let '(l, x) := run_levels hard level xp in
  level <= l <= Z.max level hard /\ 0 <= x <= xp /\ (hard <= l \/ x < threatLevelThreshold l).
Proof.
  intros Hh Hl Hx. unfold run_levels, level_fuel.
  destruct (level_up_spec (Z.to_nat (hard - level)) hard level xp) as (n & l & x & -> & H1 & H2 & H3 & H4 & H5);
    [lia..|]. simpl.
  assert (0 <= level_cost n level) by (destruct n; [simpl; lia|apply level_cost_nonneg; lia]). lia.
Qed.

Definition score_ok (hard : Z) (st : ThreatIntelIPState) : Prop :=
  0 <= ts_Level st /\ 0 <= ts_XP st /\
  (ts_Level st < hard -> ts_XP st < threatLevelThreshold (ts_Level st)) /\
  (hard <= ts_Level st -> ts_XP st <= threatLevelThreshold hard).

(** Points stay in range: after an event the level is not negative and does
    not fall, the points are not negative, they do not pay for the next level
    while the hard level is not reached, and at the hard level they are capped
    by its threshold.  (A hard level of at least 4, above the watch level.) *)
Theorem award_bounds delta top hard watch st :
  4 <= hard <= 64 -> 0 <= ts_Level st -> 0 <= ts_XP st ->
  score_ok hard (award delta top hard watch st) /\
  ts_Level st <= ts_Level (award delta top hard watch st) <= Z.max (ts_Level st) hard.
Proof.
  intros Hh Hl Hx. unfold award. cbv zeta.
  set (d := if delta <? 0 then 0 else delta). assert (Hd : 0 <= d) by (unfold d; case_step; lia).
  set (st1 := if (top =? "")%string then _ else _).
  assert (E1 : ts_Level st1 = ts_Level st /\ ts_XP st1 = ts_XP st + d) by (unfold st1; by case_step).
  destruct E1 as [E1 E2]. rewrite E1, E2.
  pose proof (run_levels_spec hard (ts_Level st) (ts_XP st + d) ltac:(lia) Hl ltac:(lia)) as Hr.
  destruct (run_levels hard (ts_Level st) (ts_XP st + d)) as [l x]. destruct Hr as (Hl' & Hx' & Hc).
  pose proof (threshold_range hard ltac:(lia)) as Hth.
  assert (H41 : threatLevelThreshold 3 = 41) by (vm_compute; reflexivity).
  unfold defaultTIWatchLevel. rewrite H41. clearbody st1 d. unfold score_ok.
  destruct (watch && (ts_Level _ <? 3)) eqn:Hw; simpl in *.
  - destruct ((hard <=? l) && _) eqn:Hcap; repeat case_step; simpl; split_and!; lia.
  - destruct ((hard <=? l) && _) eqn:Hcap; simpl; split_and!; lia.
Qed.

Definition demo_state : ThreatIntelIPState := zero_ThreatIntelIPState <| ts_XP := 3 |>.

Lemma award_bounds_witness :
  ts_Level (award 15 "signature.wp_scanner" 6 true demo_state) = 3 /\
  score_ok 6 (award 15 "signature.wp_scanner" 6 true demo_state).
Proof.
  assert (H1 : 4 <= 6 <= 64) by lia.
  assert (H2 : 0 <= ts_Level demo_state) by (vm_compute; congruence).
  assert (H3 : 0 <= ts_XP demo_state) by (vm_compute; congruence).
  split; [vm_compute; reflexivity|].
  exact (proj1 (award_bounds 15 "signature.wp_scanner" 6 true demo_state H1 H2 H3)).
Defined.

Lemma award_keeps delta top hard watch st :
  let st' := award delta top hard watch st in
  ts_PermBlocked st' = ts_PermBlocked st /\ ts_BanUntil st' = ts_BanUntil st /\ ts_IP st' = ts_IP st.
Proof.
  unfold award. cbv zeta.
  destruct (run_levels _ _ _) as [l x].
  destruct (top =? "")%string; destruct (watch && _); simpl; done.
Qed.

(** The level the judgement is based on. *)
Definition level_after (hard : Z) (signals : list string) (delta : Z) (top : string) (st : ThreatIntelIPState) : Z :=
  ts_Level (award delta top hard (hasKnownThreatBoostSignal signals) st).

(** An address is blocked for good by an event exactly when it was already,
    or when the mode is [auto_mode] and the event takes it to the hard level. *)
Theorem hard_block_iff mode hard soft minutes signals delta top now st :
  (score mode (hard, soft, minutes) signals delta top now st).1 = HardBlock <->
  ts_PermBlocked st = true \/ (mode = "auto_mode" /\ hard <= level_after hard signals delta top st).
Proof.
  unfold score, level_after. simpl. set (w := hasKnownThreatBoostSignal signals).
  destruct (award_keeps delta top hard w st) as (E1 & E2 & _).
  set (a := award delta top hard w st) in *. clearbody a.
  unfold judge, verdict_of. cbv zeta. rewrite <- E1.
  destruct (String.eqb_spec mode "auto_mode") as [->|Hm]; simpl;
    destruct (w && negb (ts_PermBlocked a) && _); simpl;
    destruct (hard <=? ts_Level a) eqn:Hl; simpl;
    repeat case_step; split; intros H; try done; try (by destruct H as [?|[? ?]]);
    try (by left); try (right; split; [done|lia]); destruct H as [?|[? ?]]; congruence || lia.
Qed.

(** The state is under no block at [now]. *)
Definition free (now : time) (st : ThreatIntelIPState) : Prop :=
  ts_PermBlocked st = false /\ (ts_BanUntil st = 0 \/ ts_BanUntil st <= now).

(** In monitor mode an event never starts a block. *)
Lemma score_monitor mode hard soft minutes signals delta top now st :
  mode <> "auto_mode" -> free now st ->
  let '(v, st') := score mode (hard, soft, minutes) signals delta top now st in v = Observe /\ free now st'.
Proof.
  intros Hm [Hp Hb]. unfold score. set (w := hasKnownThreatBoostSignal signals).
  destruct (award_keeps delta top hard w st) as (E1 & E2 & _).
  set (a := award delta top hard w st) in *. clearbody a. rewrite <- E1 in Hp. rewrite <- E2 in Hb.
  apply String.eqb_neq in Hm.
  assert (Hj : let j := judge mode hard soft w now a in ts_PermBlocked j = false /\ ts_BanUntil j = ts_BanUntil a).
  { unfold judge. cbv zeta. rewrite Hm. simpl. by destruct (w && negb (ts_PermBlocked a) && _). }
  destruct Hj as [J1 J2]. set (j := judge mode hard soft w now a) in *. clearbody j.
  unfold verdict_of, After, IsZero. rewrite J1, J2, Hm.
  replace (negb (ts_BanUntil a =? 0) && (now <? ts_BanUntil a)) with false by lia. simpl.
  split; [done|]. split; [done|]. by rewrite J2.
Qed.

(** A permanently blocked state stays one, whatever the event. *)
Lemma score_perm mode levels signals delta top now st :
  ts_PermBlocked st = true -> (score mode levels signals delta top now st).1 = HardBlock.
Proof.
  intros Hp. unfold score. destruct levels as [[hard soft] minutes]. simpl. set (w := hasKnownThreatBoostSignal signals).
  destruct (award_keeps delta top hard w st) as (E1 & _ & _).
  set (a := award delta top hard w st) in *. clearbody a. rewrite Hp in E1.
  unfold verdict_of, judge. cbv zeta.
  repeat match goal with |- context [if ?b then upd_field _ _ _ else _] => destruct b end; simpl; by rewrite ?E1.
Qed.

(** A source with an external-feed or signature signal is never given a
    temporary block by that event: the verdict is the permanent block, a
    running temporary block, the watch list, or plain observation. *)
Theorem watch_boost_not_soft_blocked mode hard soft minutes signals delta top now st until :
  hasKnownThreatBoostSignal signals = true ->
  (score mode (hard, soft, minutes) signals delta top now st).1 <> SoftSet until.
Proof.
  intros Hw. unfold score. simpl. rewrite Hw. unfold verdict_of. repeat case_step; congruence.
Qed.

Lemma watch_boost_not_soft_blocked_witness :
  (score "auto_mode" (6, 3, 15) ["blocklist.de all"] 20 "external_feed_hit" 7
     (zero_ThreatIntelIPState <| ts_Level := 4 |>)).1 <> SoftSet (15 * Minute + 7).
Proof. apply watch_boost_not_soft_blocked. vm_compute. reflexivity. Defined.

(** With a hard level at or below the watch level, the watch boost itself is a
    permanent block on the first event. *)
Example watch_boost_hard_level_3 :
  (score "auto_mode" (3, 2, 15) ["blocklist.de all"] 7 "external_feed_hit" 7 (fresh_state "203.0.113.9")).1 = HardBlock.
Proof. vm_compute. reflexivity. Qed.

(** The periodic decay charges an idle period again at every tick: the state
    keeps its [LastSeenAt], so two ticks [t1 <= t2] after the same silence take
    the steps of both idle periods, not those of the longer one. *)
Theorem decay_compounds st t1 t2 :
  ts_LastSeenAt st <> 0 -> ts_PermBlocked st = false -> ts_BanUntil st = 0 ->
  30 * Minute <= Sub t1 (ts_LastSeenAt st) -> Sub t1 (ts_LastSeenAt st) <= Sub t2 (ts_LastSeenAt st) ->
  Sub t2 (ts_LastSeenAt st) < 72 * Hour ->
  let steps t := Z.to_nat (Sub t (ts_LastSeenAt st) / (30 * Minute)) in
  decayThreatState (decayThreatState st t1) t2 =
    st <| ts_XP := Nat.iter (steps t2 + steps t1)%nat decay_xp (ts_XP st) |>.
Proof.
  intros Hseen Hp Hb H1 H2 H3. cbv zeta. destruct st. simpl in *. subst.
  unfold decayThreatState, decay_idle, IsZero. simpl.
  replace (ts_LastSeenAt =? 0) with false by lia. simpl.
  replace (30 * Minute <=? Sub t1 ts_LastSeenAt) with true by lia.
  replace (72 * Hour <=? Sub t1 ts_LastSeenAt) with false by lia. simpl.
  replace (ts_LastSeenAt =? 0) with false by lia.
  replace (30 * Minute <=? Sub t2 ts_LastSeenAt) with true by lia.
  replace (72 * Hour <=? Sub t2 ts_LastSeenAt) with false by lia. simpl.
  unfold upd_field. simpl. by rewrite Nat.iter_add.
Qed.

Lemma decay_compounds_witness :
  let st := zero_ThreatIntelIPState <| ts_XP := 100 |> <| ts_LastSeenAt := 1 |> in
  ts_XP (decayThreatState st (35 * Minute)) = 93 /\
  decayThreatState (decayThreatState st (31 * Minute)) (35 * Minute) = st <| ts_XP := 86 |>.
Proof.
  split; [vm_compute; reflexivity|].
  etransitivity.
  - apply (decay_compounds (zero_ThreatIntelIPState <| ts_XP := 100 |> <| ts_LastSeenAt := 1 |>)
      (31 * Minute) (35 * Minute)); vm_compute; congruence.
  - vm_compute. reflexivity.
Defined.
