(* ===== verification/ThreatEvents.v ===== *)
(** What an event does to the block list: the effects of
    [ApplyThreatIntelEvent] and [RemoveBlockedIP] of [internal/app/service.go],
    for every way the driver can fail. *)

From S2P Require Import Prelude GoString GoMonad GoTime Model StoreDB StoreThreat Firewall ThreatScore.
From S2P Require Import Service ThreatEngine.

(* ------------------------------------------------------------------ *)
(** ** Decay and judgement do not start a block *)

Lemma decay_bans st now :
  ts_PermBlocked (decayThreatState st now) = ts_PermBlocked st /\
  ts_BanUntil (decayThreatState st now) = ts_BanUntil st /\ ts_IP (decayThreatState st now) = ts_IP st.
Proof. unfold decayThreatState, decay_idle. cbv zeta. repeat case_match; done. Qed.

(** The address is under no block at [now] according to the stored states. *)
Definition not_banned (ip : string) (now : time) (db : DB) : Prop :=
  forall r, t_threat_intel_ip_state db !! ip = Some r ->
    free now (sr_state r).

Lemma load_state_wp (P : ThreatIntelIPState -> Prop) ip s :
  TrimSpace ip = ip -> P (fresh_state ip) ->
  (forall r, t_threat_intel_ip_state (e_db (s_env s)) !! ip = Some r -> P (sr_state r)) ->
  wp (load_state ip) (fun r _ => match r with Ok st => P st | Err _ => True end) s.
Proof.
  intros Ht Hf Hr. unfold load_state. apply wp_bind, wp_try, wp_db. unfold GetThreatIntelIPState.
  rewrite Ht. apply wp_query_row; intros fs; try done.
  intros st Hst. apply fmap_Some in Hst as (r & Hl & ->). by apply Hr.
Qed.

Lemma keeps_UpsertState {T} (p : DB -> T) st :
  (forall db f, p (db <| t_threat_intel_ip_state ::= f |>) = p db) -> keeps (same p) (UpsertThreatIntelIPState st).
Proof. intros H. unfold UpsertThreatIntelIPState. keeps_tac; try typeclasses eauto. by apply keeps_exec. Qed.

Lemma keeps_RecordMatch m : keeps (same t_blocked_ips) (RecordThreatIntelMatch m).
Proof. unfold RecordThreatIntelMatch, add_trace. keeps_db. Qed.
Lemma keeps_EnsureBan ip reason kind : keeps (same t_blocked_ips) (EnsureThreatIntelBanHistoryForIP ip reason kind).
Proof.
  unfold EnsureThreatIntelBanHistoryForIP. keeps_db. apply keeps_exec. intros db. by case_match.
Qed.

(** The steps of an event up to the state it starts from. *)
Lemma keeps_event_prefix {T} (p : DB -> T) inp :
  keeps (on_env (same p)) (detectThreatSignatureSignals (ei_Host inp) (ei_Path inp) (ei_UserAgent inp)).
Proof. apply keeps_detect; [typeclasses eauto|]. intros key. unfold GetSetting. keeps_db. Qed.

(** The part of an event that follows the verdict. *)
Lemma keeps_settle inp ip mode top signals v xp now st :
  v <> HardBlock -> keeps (on_env (same t_blocked_ips)) (settle inp ip mode top signals v xp now st).
Proof.
  intros Hv. unfold settle. apply keeps_bind; [typeclasses eauto| |intros _].
  - destruct v; try done; simpl; keeps_tac; try typeclasses eauto. apply keeps_db, keeps_EnsureBan.
  - keeps_tac; try typeclasses eauto; apply keeps_db; [by apply keeps_UpsertState|apply keeps_RecordMatch].
Qed.

Lemma settle_result inp ip mode top signals v xp now st s :
  wp (settle inp ip mode top signals v xp now st)
   (fun r _ => match r with
               | Ok (res, _) => er_Blocked res = verdict_blocks v /\ er_HardBlock res = bool_decide (v = HardBlock)
               | Err _ => True end) s.
Proof.
  unfold settle. apply wp_bind, wp_any. intros [[]|] s1; [|done].
  apply wp_bind, wp_try, wp_any. intros [[]|e] s2; [|apply wp_ret; by destruct v].
  apply wp_bind, wp_ignore, wp_any. intros _ s3. apply wp_ret. by destruct v.
Qed.

(** C8. Monitor mode blocks nobody: when the mode of the event is not
    [auto_mode] and the address is under no block, the event leaves the block
    list as it was and never answers that the address is blocked, whichever
    statements fail. *)
Theorem monitor_event_blocks_nobody inp s :
  normalizeThreatIntelMode (ei_Mode inp) <> "auto_mode" ->
  not_banned (TrimSpace (ei_IP inp)) (e_now (s_env s)) (e_db (s_env s)) ->
  let '(r, s') := ApplyThreatIntelEvent inp s in
  t_blocked_ips (e_db (s_env s')) = t_blocked_ips (e_db (s_env s)) /\
  (forall res e, r = Ok (res, e) -> er_Blocked res = false /\ er_HardBlock res = false).
Proof.
  intros Hm Hnb.
  change (wp (ApplyThreatIntelEvent inp) (fun r s' =>
    t_blocked_ips (e_db (s_env s')) = t_blocked_ips (e_db (s_env s)) /\
    (forall res e, r = Ok (res, e) -> er_Blocked res = false /\ er_HardBlock res = false)) s).
  unfold ApplyThreatIntelEvent. cbv zeta. set (ip := TrimSpace (ei_IP inp)) in *.
  case_match; [apply wp_ret; split; [done|by intros res e [= <- _]]|].
  set (same2 := same (fun db => (t_blocked_ips db, t_threat_intel_ip_state db))).
  assert (Hsame : forall s1, on_env same2 s s1 -> t_blocked_ips (e_db (s_env s1)) = t_blocked_ips (e_db (s_env s)))
    by (intros s1 [[= E _] _]; done).
  apply wp_bind. eapply wp_keeps; [apply (keeps_event_prefix (fun db => (t_blocked_ips db, t_threat_intel_ip_state db)))|].
  intros [sigs|e] s1 H1; [|by split; [apply Hsame|]].
  apply wp_bind, wp_try. eapply wp_keeps;
    [apply (keeps_db same2), (keeps_GetThreatIntelConfig (fun db => (t_blocked_ips db, t_threat_intel_ip_state db)))|].
  intros cfg s2 H2. set (c := match cfg with Ok c => c | Err _ => _ end).
  apply wp_bind, wp_db, wp_gets. replace (s2 <| s_env := s_env s2 |>) with s2 by (by destruct s2).
  assert (H12 : on_env same2 s s2) by (by etransitivity). clear H1 H2 s1.
  apply wp_bind, wp_try. eapply wp_mono.
  { apply wp_and; [apply keeps_wp, (keeps_load_state (fun db => (t_blocked_ips db, t_threat_intel_ip_state db)))|].
    apply (load_state_wp (free (e_now (s_env s2)))).
    - apply TrimSpace_idem.
    - split; [done|]. by left.
    - destruct H12 as [[= _ E] E2]. intros r Hr. rewrite E2. apply Hnb. by rewrite <- E. }
  intros [st|e] s3 [H3 Hst].
  2: { apply wp_ret. split; [apply Hsame; by etransitivity|by intros res e' [= <- _]]. }
  assert (Hst0 : free (e_now (s_env s2)) (decayThreatState st (e_now (s_env s2)))).
  { destruct (decay_bans st (e_now (s_env s2))) as (D1 & D2 & _). unfold free. by rewrite D1, D2. }
  revert Hst0. generalize (decayThreatState st (e_now (s_env s2))) as st0. intros st0 Hst0.
  destruct (calcThreatBaseXP _) as [base top].
  apply wp_bind. eapply wp_keeps; [apply (keeps_bump same2); typeclasses eauto|].
  intros [factor|e] s4 H4; [|split; [apply Hsame; do 2 (etransitivity; [eassumption|]); done|done]].
  destruct (event_levels c) as [[hard soft] minutes].
  match goal with |- context [score ?m ?l ?sg ?x ?t ?n ?z] =>
    pose proof (score_monitor m hard soft minutes sg x t n z Hm Hst0) as Hsc; destruct (score m l sg x t n z) as [v st1]
  end.
  destruct Hsc as [-> [Hp1 Hb1]].
  eapply wp_mono; [apply wp_and; [apply keeps_wp, keeps_settle; discriminate|apply settle_result]|].
  intros r s5 [[H5 _] Hr]. split.
  - rewrite H5. apply Hsame. by do 2 (etransitivity; [eassumption|]).
  - by intros res e ->.
Qed.

Definition monitor_demo : Svc :=
  new_svc (clean (empty_DB <| t_threat_intel_ip_state := {["203.0.113.9" :=
    mkStateRow (zero_ThreatIntelIPState <| ts_IP := "203.0.113.9" |> <| ts_XP := 400 |> <| ts_Level := 5 |>
                  <| ts_LastSeenAt := Day |>) Day Day]} |>) (Day + 1)) None.
Definition demo_event (mode : string) : ThreatIntelEventInput :=
  zero_ThreatIntelEventInput <| ei_IP := " 203.0.113.9" |> <| ei_Mode := mode |>
    <| ei_Signals := ["signature.webshell_probe"] |> <| ei_Path := "/x" |>.

Lemma monitor_event_blocks_nobody_witness :
  let '(r, s') := ApplyThreatIntelEvent (demo_event "monitor_only") monitor_demo in
  t_blocked_ips (e_db (s_env s')) = t_blocked_ips (e_db (s_env monitor_demo)) /\
  (forall res e, r = Ok (res, e) -> er_Blocked res = false /\ er_HardBlock res = false).
Proof.
  apply (monitor_event_blocks_nobody (demo_event "monitor_only") monitor_demo).
  - vm_compute. discriminate.
  - intros r Hr. assert (E : Some r = Some (mkStateRow (zero_ThreatIntelIPState <| ts_IP := "203.0.113.9" |>
      <| ts_XP := 400 |> <| ts_Level := 5 |> <| ts_LastSeenAt := Day |>) Day Day)).
    { etransitivity; [symmetry; exact Hr|]. vm_compute. reflexivity. }
    injection E as ->. split; [done|]. by left.
Defined.

(* ------------------------------------------------------------------ *)
(** ** A permanent block is enforced, and comes back *)

Section calm_ops.
Lemma calm_db {A} (m : SM A) : keeps calm m -> keeps (on_env calm) (db m).
Proof. apply keeps_db. Qed.
Lemma calm_GetThreatIntelConfig : keeps calm GetThreatIntelConfig.
Proof. unfold GetThreatIntelConfig, read_setting, GetSetting. keeps_calm; typeclasses eauto. Qed.
Lemma calm_reconcile : keeps (on_env calm) reconcileOSFirewall.
Proof.
  unfold reconcileOSFirewall. keeps_tac; try typeclasses eauto; try (apply keeps_firewall; typeclasses eauto);
    apply keeps_db.
  - apply calm_GetThreatIntelConfig.
  - unfold ListThreatIntelIPStates. keeps_calm.
  - unfold ListBlockedIPs. keeps_calm.
Qed.
Lemma calm_detect host path ua : keeps (on_env calm) (detectThreatSignatureSignals host path ua).
Proof. apply keeps_detect; [typeclasses eauto|]. intros key. unfold GetSetting. keeps_calm. Qed.
Lemma calm_load_state ip : keeps (on_env calm) (load_state ip).
Proof. unfold load_state, GetThreatIntelIPState. keeps_tac; try typeclasses eauto. apply keeps_db. keeps_calm. Qed.
End calm_ops.

Lemma upsert_blocks ip reason db now rnd :
  is_Some (t_blocked_ips (e_db (StoreThreat.UpsertBlockedIP ip reason (mkEnv db now [] rnd)).2) !! TrimSpace ip).
Proof. unfold StoreThreat.UpsertBlockedIP. simpl. unfold upsert_ip. rewrite lookup_insert_eq. eauto. Qed.

(** Acting on the verdict [HardBlock] puts the address on the block list. *)
Lemma settle_blocks inp ip mode top signals xp now st s :
  e_faults (s_env s) = [] -> TrimSpace ip = ip ->
  wp (settle inp ip mode top signals HardBlock xp now st)
     (fun _ s' => is_Some (t_blocked_ips (e_db (s_env s')) !! ip)) s.
Proof.
  intros Hf Ht. unfold settle.
  assert (Hkeep : forall s1 s2, on_env (same t_blocked_ips) s1 s2 ->
    is_Some (t_blocked_ips (e_db (s_env s1)) !! ip) -> is_Some (t_blocked_ips (e_db (s_env s2)) !! ip)).
  { intros s1 s2 [E _]. by rewrite E. }
  apply wp_bind. unfold enforce. apply wp_bind, wp_ignore, wp_db.
  set (reason := "threat_intel_auto:" +:+ top).
  assert (Hup : wp (StoreThreat.UpsertBlockedIP ip reason) (fun _ e => is_Some (t_blocked_ips (e_db e) !! ip)) (s_env s)).
  { destruct (s_env s) as [dbs nw fs rnd]. simpl in Hf. subst fs. pose proof (upsert_blocks ip reason dbs nw rnd) as H.
    rewrite Ht in H. unfold wp. by destruct (StoreThreat.UpsertBlockedIP _ _ _). }
  eapply wp_mono; [exact Hup|]. clear Hup. intros r1 e1 H1.
  apply wp_bind, wp_ignore. eapply wp_keeps; [apply keeps_db, keeps_EnsureBan|]. intros _ s2 H2.
  apply wp_ignore. eapply wp_keeps; [apply (keeps_reconcileOSFirewall t_blocked_ips)|]. intros _ s3 H3.
  assert (H13 : is_Some (t_blocked_ips (e_db (s_env s3)) !! ip)).
  { eapply Hkeep; [exact H3|]. eapply Hkeep; [exact H2|]. exact H1. }
  apply wp_bind, wp_try. eapply wp_keeps; [apply keeps_db; by apply (keeps_UpsertState t_blocked_ips)|].
  intros [[]|e] s4 H4; [|apply wp_ret; by eapply Hkeep]. cbv zeta.
  apply wp_bind, wp_ignore. eapply wp_keeps; [apply keeps_db, keeps_RecordMatch|]. intros _ s5 H5.
  apply wp_ret. eapply Hkeep; [exact H5|]. by eapply Hkeep.
Qed.

Lemma detect_ok host path ua s :
  wp (detectThreatSignatureSignals host path ua) (fun r _ => exists l, r = Ok l) s.
Proof.
  unfold detectThreatSignatureSignals, isThreatSignatureEnabled, setting_or.
  apply wp_bind, wp_bind, wp_try, wp_any. intros r s1. apply wp_ret. cbv beta iota. case_match.
  - apply wp_ret. eauto.
  - apply wp_bind, wp_modify, wp_bind, wp_gets, wp_ret. eauto.
Qed.

Lemma bump_ok ip primary signals now s : wp (bump ip primary signals now) (fun r _ => exists f, r = Ok f) s.
Proof. unfold wp, bump. destruct (bumpThreatWindow _ _ _ _ _). eauto. Qed.

Lemma load_state_run ip s : e_faults (s_env s) = [] -> TrimSpace ip = ip ->
  wp (load_state ip) (fun r s' => on_env calm s s' /\ exists st, r = Ok st /\
    forall row, t_threat_intel_ip_state (e_db (s_env s)) !! ip = Some row -> st = sr_state row) s.
Proof.
  intros Hf Ht. apply wp_and; [apply keeps_wp, calm_load_state|].
  destruct s as [[dbs now fs rnd] nft win snap rules ls su sh se sa]. simpl in *. subst fs.
  unfold load_state. apply wp_bind, wp_try, wp_db. unfold GetThreatIntelIPState. rewrite Ht.
  unfold wp. simpl. rewrite query_row_run_end.
  destruct (t_threat_intel_ip_state dbs !! ip) as [row|] eqn:E; simpl; eexists; split; try done; congruence.
Qed.

(** An event on a fault-free environment: it ends in [settle] on the state that
    was scored, started from the stored or fresh state. *)
Lemma event_settles inp s (Q : result (ThreatIntelEventResult * option error) -> Svc -> Prop) :
  e_faults (s_env s) = [] -> TrimSpace (ei_IP inp) <> "" ->
  (forall st0 signals xp top s' e,
     on_env calm s s' ->
     (forall r, t_threat_intel_ip_state (e_db (s_env s)) !! TrimSpace (ei_IP inp) = Some r ->
        ts_PermBlocked st0 = ts_PermBlocked (sr_state r)) ->
     let mode := normalizeThreatIntelMode (ei_Mode inp) in
     let '(v, st) := score mode e signals xp top (e_now (s_env s)) st0 in
     wp (settle inp (TrimSpace (ei_IP inp)) mode top signals v xp (e_now (s_env s)) st) Q s') ->
  wp (ApplyThreatIntelEvent inp) Q s.
Proof.
  intros Hf Hne HQ. unfold ApplyThreatIntelEvent. cbv zeta. set (ip := TrimSpace (ei_IP inp)) in *.
  apply String.eqb_neq in Hne. rewrite Hne.
  set (dsame := same t_threat_intel_ip_state).
  apply wp_bind. eapply wp_mono; [apply wp_and; [apply wp_and|]|];
    [apply keeps_wp, (keeps_event_prefix t_threat_intel_ip_state)|apply keeps_wp, calm_detect|apply detect_ok|].
  intros r1 s1 [[H1 C1] [sigs ->]]. cbv beta iota.
  apply wp_bind, wp_try. eapply wp_mono; [apply wp_and|];
    [apply keeps_wp, (keeps_db dsame), (keeps_GetThreatIntelConfig t_threat_intel_ip_state)
    |apply keeps_wp, calm_db, calm_GetThreatIntelConfig|].
  intros cfg s2 [H2 C2].
  apply wp_bind, wp_db, wp_gets. replace (s2 <| s_env := s_env s2 |>) with s2 by (by destruct s2).
  assert (H12 : on_env dsame s s2) by (by etransitivity).
  assert (C12 : on_env calm s s2) by (by etransitivity). clear H1 C1 H2 C2 s1.
  apply wp_bind, wp_try. eapply wp_mono; [apply load_state_run; [by apply C12|apply TrimSpace_idem]|].
  intros r3 s3 [C3 (st & -> & Hst)]. cbv beta iota.
  destruct (calcThreatBaseXP _) as [base top].
  apply wp_bind. eapply wp_mono; [apply wp_and; [apply keeps_wp, (keeps_bump calm); typeclasses eauto|apply bump_ok]|].
  intros r4 s4 [C4 [factor ->]]. cbv beta iota.
  destruct H12 as [E12 N12].
  match goal with |- context [score ?m ?l ?sg ?x ?t ?n ?z] => specialize (HQ z sg x t s4 l) end.
  cbv zeta in HQ. rewrite <- N12 in HQ. destruct (score _ _ _ _ _ _ _) as [v st1]. apply HQ.
  - do 2 (etransitivity; [eassumption|]). exact C4.
  - intros r Hr. rewrite (proj1 (decay_bans _ _)). rewrite (Hst r); [done|]. by rewrite E12.
Qed.

Lemma hard_block_listed inp s res err s' :
  e_faults (s_env s) = [] -> ApplyThreatIntelEvent inp s = (Ok (res, err), s') -> er_HardBlock res = true ->
  is_Some (t_blocked_ips (e_db (s_env s')) !! TrimSpace (ei_IP inp)).
Proof.
  intros Hf Hrun Hhb. destruct (decide (TrimSpace (ei_IP inp) = "")) as [He|Hne].
  { unfold ApplyThreatIntelEvent in Hrun. rewrite He in Hrun. cbn in Hrun. injection Hrun as <- _ _. discriminate. }
  assert (H : wp (ApplyThreatIntelEvent inp) (fun r s' => forall res err, r = Ok (res, err) -> er_HardBlock res = true ->
    is_Some (t_blocked_ips (e_db (s_env s')) !! TrimSpace (ei_IP inp))) s).
  { apply event_settles; [done..|]. intros st0 signals xp top s1 e Hcalm _.
    cbv zeta. destruct (score _ _ _ _ _ _ _) as [v st]. destruct (decide (v = HardBlock)) as [->|Hv].
    - eapply wp_mono; [apply settle_blocks; [by apply Hcalm|apply TrimSpace_idem]|]. intros ? ? H ? ? ? ?. exact H.
    - eapply wp_mono; [apply settle_result|]. intros r s2 Hr res' err' -> Hh. destruct Hr as [_ Hr].
      rewrite Hr, bool_decide_eq_false_2 in Hh by done. done. }
  eapply (wp_run _ _ _ _ _ H Hrun); done.
Qed.

(** C11. When no statement fails, an event that answers "permanently blocked"
    has put the address on the block list. *)
Theorem hard_block_is_listed inp s res err s' :
  e_faults (s_env s) = [] -> ApplyThreatIntelEvent inp s = (Ok (res, err), s') -> er_HardBlock res = true ->
  is_Some (t_blocked_ips (e_db (s_env s')) !! TrimSpace (ei_IP inp)).
Proof. apply hard_block_listed. Qed.

(** An event takes no address off the list, and reaches no failure of its own. *)
Section event_keeps.
Context (R : Env -> Env -> Prop) `{!PreOrder R}.
Hypothesis R_config : keeps R GetThreatIntelConfig.
Hypothesis R_setting : forall key, keeps R (GetSetting key).
Hypothesis R_state : forall ip, keeps R (GetThreatIntelIPState ip).
Hypothesis R_states : forall n, keeps R (ListThreatIntelIPStates n).
Hypothesis R_list : forall n, keeps R (ListBlockedIPs n).
Hypothesis R_block : forall ip reason, keeps R (StoreThreat.UpsertBlockedIP ip reason).
Hypothesis R_ban : forall ip reason kind, keeps R (EnsureThreatIntelBanHistoryForIP ip reason kind).
Hypothesis R_store : forall st, keeps R (UpsertThreatIntelIPState st).
Hypothesis R_match : forall m, keeps R (RecordThreatIntelMatch m).

Lemma keeps_event inp : keeps (on_env R) (ApplyThreatIntelEvent inp).
Proof.
  assert (HF : keeps (on_env R) reconcileOSFirewall).
  { unfold reconcileOSFirewall. keeps_tac; try typeclasses eauto; try (apply keeps_firewall; typeclasses eauto);
      by apply keeps_db. }
  assert (HS : forall ip mode top signals v xp now st, keeps (on_env R) (settle inp ip mode top signals v xp now st)).
  { intros. unfold settle, enforce. keeps_tac; try typeclasses eauto; try done; by apply keeps_db. }
  unfold ApplyThreatIntelEvent, load_state.
  keeps_tac; try typeclasses eauto; try (apply keeps_bump; typeclasses eauto); try (by apply keeps_db); try apply HS.
  - by apply keeps_detect.
  - apply keeps_db, keeps_Now. typeclasses eauto.
Qed.
End event_keeps.

Lemma calm_event inp : keeps (on_env calm) (ApplyThreatIntelEvent inp).
Proof.
  apply keeps_event; try typeclasses eauto; [apply calm_GetThreatIntelConfig|..]; intros;
    unfold GetSetting, GetThreatIntelIPState, ListThreatIntelIPStates, ListBlockedIPs, StoreThreat.UpsertBlockedIP,
      EnsureThreatIntelBanHistoryForIP, UpsertThreatIntelIPState, RecordThreatIntelMatch, add_trace; keeps_calm.
Qed.

Lemma event_keeps_blocks ip inp :
  keeps (on_env (inv (fun db => is_Some (t_blocked_ips db !! ip)))) (ApplyThreatIntelEvent inp).
Proof.
  set (I := fun db : DB => is_Some (t_blocked_ips db !! ip)).
  assert (Hw : forall {A} (m : SM A), keeps (same t_blocked_ips) m -> keeps (inv I) m).
  { intros A m Hm. eapply keeps_weaken; [|exact Hm]. intros e e' [E _] Hi. unfold I in *. by rewrite E. }
  apply keeps_event; try typeclasses eauto; intros.
  - apply Hw, keeps_GetThreatIntelConfig.
  - apply Hw. unfold GetSetting. keeps_db.
  - apply Hw. unfold GetThreatIntelIPState. keeps_db.
  - apply Hw. unfold ListThreatIntelIPStates. keeps_db.
  - apply Hw. unfold ListBlockedIPs. keeps_db.
  - unfold StoreThreat.UpsertBlockedIP. keeps_inv; try typeclasses eauto. intros db Hi. unfold I in *. simpl. unfold upsert_ip.
    destruct (decide (TrimSpace ip0 = ip)) as [->|]; [rewrite lookup_insert_eq; eauto|by rewrite lookup_insert_ne].
  - apply Hw, keeps_EnsureBan.
  - apply Hw. by apply keeps_UpsertState.
  - apply Hw, keeps_RecordMatch.
Qed.

(** Lifting a block: the entry goes, the threat states stay. *)
Lemma remove_wp ip s : e_faults (s_env s) = [] ->
  wp (RemoveBlockedIP ip) (fun _ s' => on_env calm s s' /\ on_env (same t_threat_intel_ip_state) s s' /\
    t_blocked_ips (e_db (s_env s')) !! TrimSpace ip = None) s.
Proof.
  intros Hf. unfold RemoveBlockedIP, removeBlockedIPTracked, removeBlockedIPTrackedWithReason, removeBlockedIPTrackedOnly.
  apply wp_bind, wp_bind, wp_db.
  assert (Hrm : wp (StoreThreat.RemoveBlockedIP ip) (fun r e => r = Ok tt /\ calm (s_env s) e /\
    same t_threat_intel_ip_state (s_env s) e /\ t_blocked_ips (e_db e) !! TrimSpace ip = None) (s_env s)).
  { destruct (s_env s) as [dbs now fs rnd]. simpl in Hf. subst fs. unfold wp. simpl.
    split_and!; try done. by rewrite lookup_delete_eq. }
  eapply wp_mono; [exact Hrm|]. clear Hrm. intros r1 e1 (-> & C1 & S1 & B1). cbv beta iota zeta.
  set (s1 := s <| s_env := e1 |>).
  assert (Hrest : forall {A} (m : AM A) sa, keeps (on_env calm) m -> keeps (on_env (same t_threat_intel_ip_state)) m ->
    keeps (on_env (same t_blocked_ips)) m ->
    on_env calm s sa /\ on_env (same t_threat_intel_ip_state) s sa /\ t_blocked_ips (e_db (s_env sa)) !! TrimSpace ip = None ->
    wp m (fun _ sb => on_env calm s sb /\ on_env (same t_threat_intel_ip_state) s sb /\
      t_blocked_ips (e_db (s_env sb)) !! TrimSpace ip = None) sa).
  { intros A m sa K1 K2 K3 (Ca & Sa & Ba).
    eapply wp_mono; [apply wp_and; [apply (keeps_wp _ _ _ K1)|apply wp_and; [apply (keeps_wp _ _ _ K2)|apply (keeps_wp _ _ _ K3)]]|].
    intros r sb (Cb & Sb & Eb & _). split_and!; [by etransitivity..|]. by rewrite Eb. }
  apply wp_bind, wp_ignore. eapply wp_mono; [apply Hrest|];
    [apply keeps_db; unfold RecordThreatIntelRehabEvent; keeps_calm
    |apply keeps_db; unfold RecordThreatIntelRehabEvent; keeps_db
    |apply keeps_db; unfold RecordThreatIntelRehabEvent; keeps_db|done|]. intros r2 s2 H2.
  apply wp_ignore. eapply wp_mono; [apply Hrest|];
    [apply keeps_db; unfold CloseThreatIntelBanHistory; keeps_calm
    |apply keeps_db; unfold CloseThreatIntelBanHistory; keeps_db
    |apply keeps_db; unfold CloseThreatIntelBanHistory; keeps_db|exact H2|]. intros r3 s3 H3.
  apply wp_ignore. eapply wp_mono; [apply Hrest|];
    [apply calm_reconcile|apply keeps_reconcileOSFirewall|apply keeps_reconcileOSFirewall|exact H3|].
  intros ? ? H. exact H.
Qed.

(** Lifting a block by hand does not clear the threat state: the address
    is off the block list, and the next event of a permanently blocked address,
    however harmless and in any mode, puts it back. *)
Theorem removed_block_returns inp s r :
  e_faults (s_env s) = [] ->
  t_threat_intel_ip_state (e_db (s_env s)) !! TrimSpace (ei_IP inp) = Some r ->
  ts_PermBlocked (sr_state r) = true -> TrimSpace (ei_IP inp) <> "" ->
  let s1 := (RemoveBlockedIP (ei_IP inp) s).2 in
  let s2 := (ApplyThreatIntelEvent inp s1).2 in
  t_blocked_ips (e_db (s_env s1)) !! TrimSpace (ei_IP inp) = None /\
  is_Some (t_blocked_ips (e_db (s_env s2)) !! TrimSpace (ei_IP inp)).
Proof.
  intros Hf Hr Hp Hne. cbv zeta.
  pose proof (remove_wp (ei_IP inp) s Hf) as H1. unfold wp in H1.
  destruct (RemoveBlockedIP (ei_IP inp) s) as [r1 s1]. simpl. destruct H1 as (C1 & [S1 _] & B1).
  split; [exact B1|].
  assert (H2 : wp (ApplyThreatIntelEvent inp) (fun _ s' =>
    is_Some (t_blocked_ips (e_db (s_env s')) !! TrimSpace (ei_IP inp))) s1).
  { apply event_settles; [by apply C1|done|]. intros st0 signals xp top s2 e C2 Hst. cbv zeta.
    pose proof (score_perm (normalizeThreatIntelMode (ei_Mode inp)) e signals xp top (e_now (s_env s1)) st0) as Hs.
    destruct (score _ _ _ _ _ _ _) as [v st]. simpl in Hs. rewrite Hs.
    - apply settle_blocks; [by apply C2, C1|apply TrimSpace_idem].
    - rewrite (Hst r); [done|]. by rewrite S1. }
  unfold wp in H2. by destruct (ApplyThreatIntelEvent inp s1).
Qed.

Lemma hard_block_is_listed_witness :
  exists res, (ApplyThreatIntelEvent (demo_event "auto_mode") monitor_demo).1 = Ok (res, None) /\
    er_HardBlock res = true /\
    is_Some (t_blocked_ips (e_db (s_env (ApplyThreatIntelEvent (demo_event "auto_mode") monitor_demo).2))
               !! "203.0.113.9").
Proof.
  destruct (ApplyThreatIntelEvent (demo_event "auto_mode") monitor_demo) as [r s'] eqn:E.
  assert (Hr : exists res, r = Ok (res, None) /\ er_HardBlock res = true).
  { assert (E1 : r = (ApplyThreatIntelEvent (demo_event "auto_mode") monitor_demo).1) by by rewrite E.
    rewrite E1. eexists. split; vm_compute; reflexivity. }
  destruct Hr as (res & -> & Hh). exists res. split_and!; [done..|].
  exact (hard_block_is_listed (demo_event "auto_mode") monitor_demo res None s' eq_refl E Hh).
Defined.

Definition prison_demo : Svc :=
  new_svc (clean (empty_DB
    <| t_threat_intel_ip_state := {["203.0.113.9" := mkStateRow (zero_ThreatIntelIPState
         <| ts_IP := "203.0.113.9" |> <| ts_PermBlocked := true |> <| ts_LastSeenAt := Day |>) Day Day]} |>
    <| t_blocked_ips := {["203.0.113.9" := mkBlockedIP "203.0.113.9" "x" Day Day]} |>) (2 * Day)) None.
Definition harmless_event : ThreatIntelEventInput :=
  zero_ThreatIntelEventInput <| ei_IP := "203.0.113.9" |> <| ei_Mode := "monitor_only" |>.

Lemma removed_block_returns_witness :
  let s1 := (RemoveBlockedIP "203.0.113.9" prison_demo).2 in
  is_Some (t_blocked_ips (e_db (s_env prison_demo)) !! "203.0.113.9") /\
  t_blocked_ips (e_db (s_env s1)) !! "203.0.113.9" = None /\
  is_Some (t_blocked_ips (e_db (s_env (ApplyThreatIntelEvent harmless_event s1).2)) !! "203.0.113.9").
Proof.
  cbv zeta. split; [vm_compute; eauto|].
  assert (H2 : t_threat_intel_ip_state (e_db (s_env prison_demo)) !! "203.0.113.9" = Some (mkStateRow
    (zero_ThreatIntelIPState <| ts_IP := "203.0.113.9" |> <| ts_PermBlocked := true |> <| ts_LastSeenAt := Day |>) Day Day))
    by (vm_compute; reflexivity).
  apply (removed_block_returns harmless_event prison_demo _ eq_refl H2 eq_refl). discriminate.
Defined.
