(* ===== verification/Retention.v ===== *)
(** Retention and decay: the purges of [internal/store/store.go], the retention
    policy, [RunRetentionPurge] and [ReconcileThreatIntelDecay] of
    [internal/app/service.go]. *)

From S2P Require Import Prelude GoString GoMonad GoTime Model StoreDB StoreThreat Firewall ThreatScore.
From S2P Require Import Service ThreatEngine.

(* ------------------------------------------------------------------ *)
(** ** Purges of the store

    A purge answers the number of rows it deleted. *)

Definition purge (count : DB -> Z) (f : DB -> DB) : SM Z :=
  n ← query count;
  modify (fun e : Env => e <| e_db ::= f |>) ≫= fun _ => mret n.

Definition count_rows {K A} `{Countable K} (p : A -> bool) (m : gmap K A) : Z :=
  Z.of_nat (length (List.filter p (rows m))).
Definition count_list {A} (p : A -> bool) (l : list A) : Z := Z.of_nat (length (List.filter p l)).
Definition count_keys {K A} `{Countable K} (p : K -> bool) (m : gmap K A) : Z :=
  Z.of_nat (length (List.filter p (map_to_list m).*1)).

Definition PurgeAuditEventsBefore (cutoff : time) : SM Z :=
  let old e := text_lt (ae_CreatedAt e) cutoff in
  purge (fun db => count_list old (t_audit_events db))
        (fun db => db <| t_audit_events ::= List.filter (fun e => negb (old e)) |>).

Definition PurgeTrafficBucketsBefore (cutoff : time) : SM Z :=
  transaction (
    n1 ← purge (fun db => count_keys (fun k => text_lt k.2 cutoff) (t_host_traffic_minute db))
               (fun db => db <| t_host_traffic_minute ::= keep_keys (fun k => negb (text_lt k.2 cutoff)) |>);
    n2 ← purge (fun db => count_keys (fun k => text_lt k.2 cutoff) (t_host_traffic_class_minute db))
               (fun db => db <| t_host_traffic_class_minute ::= keep_keys (fun k => negb (text_lt k.2 cutoff)) |>);
    mret (n1 + n2)).

(** [cutoff.UTC().Format("2006-01-02")] *)
Definition day_text (t : time) : string := date_text (t / Second / 86400).

Definition PurgeVisitorHashesBeforeDay (cutoff : time) : SM Z :=
  let old (k : Z * string * string) := String.ltb k.1.2 (day_text cutoff) in
  purge (fun db => Z.of_nat (length (List.filter old (elements (t_host_visitors_daily db)))))
        (fun db => db <| t_host_visitors_daily ::= keep_set (fun k => negb (old k)) |>).

Definition PurgeThreatIntelMatchesBefore (cutoff : time) : SM Z :=
  let old m := text_lt (mr_last_seen_at m) cutoff in
  purge (fun db => count_rows old (t_threat_intel_matches db))
        (fun db => db <| t_threat_intel_matches ::= keep_rows (fun m => negb (old m)) |>).

(** [last_seen_at < ? AND perm_block = 0 AND (ban_until = '' OR ban_until < ?)];
    the zero time is stored as the empty text. *)
Definition purgeable_state (cutoff : time) (r : StateRow) : bool :=
  let st := sr_state r in
  text_lt (ts_LastSeenAt st) cutoff && negb (ts_PermBlocked st)
  && (IsZero (ts_BanUntil st) || text_lt (ts_BanUntil st) cutoff).

Definition PurgeThreatIntelStateBefore (cutoff : time) : SM Z :=
  purge (fun db => count_rows (purgeable_state cutoff) (t_threat_intel_ip_state db))
        (fun db => db <| t_threat_intel_ip_state ::= keep_rows (fun r => negb (purgeable_state cutoff r)) |>).

Definition PurgeTraceEventsBefore (cutoff : time) : SM Z :=
  let old e := text_lt (te_EventAt e) cutoff in
  purge (fun db => count_list old (t_trace_events db))
        (fun db => db <| t_trace_events ::= List.filter (fun e => negb (old e)) |>).

Definition PurgeLoginAttemptsBefore (cutoff : time) : SM Z :=
  let old a := text_lt (la_last_failed_at a) cutoff in
  purge (fun db => count_rows old (t_login_attempts db))
        (fun db => db <| t_login_attempts ::= keep_rows (fun a => negb (old a)) |>).

Definition purgeable_reset (cutoff : time) (r : ResetToken) : bool :=
  text_lt (rt_expires_at r) cutoff
  || match rt_used_at r with Some u => text_lt u cutoff | None => false end.

Definition PurgePasswordResetTokensBefore (cutoff : time) : SM Z :=
  purge (fun db => count_rows (purgeable_reset cutoff) (t_password_reset_tokens db))
        (fun db => db <| t_password_reset_tokens ::= keep_rows (fun r => negb (purgeable_reset cutoff r)) |>).

(* ------------------------------------------------------------------ *)
(** ** The policy *)

Record RetentionPolicy := mkRetentionPolicy {
  rp_AuditDays : Z; rp_TrafficDays : Z; rp_VisitorsDays : Z; rp_ThreatDays : Z;
  rp_BlockedDays : Z; rp_LoginAttemptDays : Z; rp_PasswordResetDays : Z
}.
#[export] Instance eta_RetentionPolicy : Eta RetentionPolicy := fun r =>
  mkRetentionPolicy (rp_AuditDays r) (rp_TrafficDays r) (rp_VisitorsDays r)
    (rp_ThreatDays r) (rp_BlockedDays r) (rp_LoginAttemptDays r)
    (rp_PasswordResetDays r).

Definition defaultRetentionPolicy : RetentionPolicy := mkRetentionPolicy 90 30 30 60 60 30 7.

(** [if out.X < 1 { out.X = def.X }] and [if out.X > 3650 { out.X = 3650 }] *)
Definition clamp_days (dflt n : Z) : Z :=
  let n := if n <? 1 then dflt else n in if 3650 <? n then 3650 else n.

Definition normalizeRetentionPolicy (p : RetentionPolicy) : RetentionPolicy :=
  let d := defaultRetentionPolicy in
  mkRetentionPolicy (clamp_days (rp_AuditDays d) (rp_AuditDays p))
    (clamp_days (rp_TrafficDays d) (rp_TrafficDays p)) (clamp_days (rp_VisitorsDays d) (rp_VisitorsDays p))
    (clamp_days (rp_ThreatDays d) (rp_ThreatDays p)) (clamp_days (rp_BlockedDays d) (rp_BlockedDays p))
    (clamp_days (rp_LoginAttemptDays d) (rp_LoginAttemptDays p))
    (clamp_days (rp_PasswordResetDays d) (rp_PasswordResetDays p)).

Definition read_days (key : string) (dflt : Z) : AM Z :=
  r ← try_ (db (GetSetting key));
  mret (match r with
        | Ok v => default dflt (Atoi (TrimSpace v))
        | Err _ => dflt
        end).

Definition getRetentionPolicy : AM RetentionPolicy :=
  let d := defaultRetentionPolicy in
  audit ← read_days "runtime.retention.audit_days" (rp_AuditDays d);
  traffic ← read_days "runtime.retention.traffic_days" (rp_TrafficDays d);
  visitors ← read_days "runtime.retention.visitors_days" (rp_VisitorsDays d);
  threat ← read_days "runtime.retention.threat_days" (rp_ThreatDays d);
  blocked ← read_days "runtime.retention.blocked_days" (rp_BlockedDays d);
  login ← read_days "runtime.retention.login_days" (rp_LoginAttemptDays d);
  reset ← read_days "runtime.retention.password_reset_days" (rp_PasswordResetDays d);
  mret (normalizeRetentionPolicy (mkRetentionPolicy audit traffic visitors threat blocked login reset)).

(** [now.AddDate(0, 0, -days)] in UTC. *)
Definition days_ago (now : time) (days : Z) : time := now - days * Day.

(** How many rows each table lost. *)
Record RetentionPurgeResult := mkRetentionPurgeResult {
  pr_AuditEvents : Z; pr_TrafficBuckets : Z; pr_VisitorHashes : Z; pr_ThreatMatches : Z;
  pr_ThreatStates : Z; pr_TraceEvents : Z; pr_BlockedIPs : Z; pr_LoginAttempts : Z;
  pr_PasswordResetTokens : Z
}.
#[export] Instance eta_RetentionPurgeResult : Eta RetentionPurgeResult := fun r =>
  mkRetentionPurgeResult (pr_AuditEvents r) (pr_TrafficBuckets r) (pr_VisitorHashes r)
    (pr_ThreatMatches r) (pr_ThreatStates r) (pr_TraceEvents r) (pr_BlockedIPs r)
    (pr_LoginAttempts r) (pr_PasswordResetTokens r).

Definition Total (r : RetentionPurgeResult) : Z :=
  pr_AuditEvents r + pr_TrafficBuckets r + pr_VisitorHashes r + pr_ThreatMatches r + pr_ThreatStates r
  + pr_TraceEvents r + pr_BlockedIPs r + pr_LoginAttempts r + pr_PasswordResetTokens r.

Definition RunRetentionPurge : AM RetentionPurgeResult :=
  policy ← getRetentionPolicy;
  now ← db Now;
  audit ← db (PurgeAuditEventsBefore (days_ago now (rp_AuditDays policy)));
  traffic ← db (PurgeTrafficBucketsBefore (days_ago now (rp_TrafficDays policy)));
  visitors ← db (PurgeVisitorHashesBeforeDay (days_ago now (rp_VisitorsDays policy)));
  matches ← db (PurgeThreatIntelMatchesBefore (days_ago now (rp_ThreatDays policy)));
  states ← db (PurgeThreatIntelStateBefore (days_ago now (rp_ThreatDays policy)));
  traces ← db (PurgeTraceEventsBefore (days_ago now 60));
  attempts ← db (PurgeLoginAttemptsBefore (days_ago now (rp_LoginAttemptDays policy)));
  resets ← db (PurgePasswordResetTokensBefore (days_ago now (rp_PasswordResetDays policy)));
  mret (mkRetentionPurgeResult audit traffic visitors matches states traces 0 attempts resets).

(* ------------------------------------------------------------------ *)
(** ** Periodic decay *)

(** The fields an expired hard block is reset to. *)
Definition release (now : time) (st : ThreatIntelIPState) : ThreatIntelIPState :=
  st <| ts_PermBlocked := false |> <| ts_BanUntil := 0 |> <| ts_RiskState := "watch" |>
     <| ts_Level := defaultTIWatchLevel |> <| ts_XP := threatLevelThreshold defaultTIWatchLevel |>
     <| ts_TempBlockCount := 0 |> <| ts_LastSeenAt := now |>.

Definition rejudge (softMinLevel hardLevel : Z) (st : ThreatIntelIPState) : ThreatIntelIPState :=
  if negb (String.eqb (ts_RiskState st) "watch")
  then st <| ts_RiskState := threatRiskState (ts_Level st) softMinLevel hardLevel |>
  else if (ts_Level st <=? 0) && (ts_XP st <=? 0) then st <| ts_RiskState := "monitoring" |>
  else st.

(** The address has cooled down for 72 hours. *)
Definition cooled (now : time) (st : ThreatIntelIPState) : bool :=
  (ts_XP st <=? 0) && (ts_Level st <=? 0) && (72 * Hour <=? Sub now (ts_LastSeenAt st))
  && negb (ts_PermBlocked st) && IsZero (ts_BanUntil st).

(** The counters of the loop: rehabilitated addresses, firewall touched. *)
Definition decay_acc : Type := Z * bool.

Definition release_expired (expired : gset string) (now : time) (acc : decay_acc) (st : ThreatIntelIPState)
    : AM (decay_acc * ThreatIntelIPState) :=
  if bool_decide (ts_IP st ∈ expired) && ts_PermBlocked st then
    r ← try_ (removeBlockedIPTrackedOnly (ts_IP st) false "hard_block_retention_expired");
    mret (match r with Ok _ => (acc.1 + 1, true) | Err _ => acc end, release now st)
  else mret (acc, st).

Definition expire_soft_ban (now : time) (st : ThreatIntelIPState) : AM ThreatIntelIPState :=
  if negb (IsZero (ts_BanUntil st)) && negb (After (ts_BanUntil st) now) then
    ignore (db (RecordThreatIntelRehabEvent (ts_IP st) true "soft_ban_expired")) ≫= fun _ =>
    ignore (db (CloseThreatIntelBanHistory (ts_IP st) "soft" false)) ≫= fun _ =>
    mret (st <| ts_BanUntil := 0 |>)
  else mret st.

Definition decay_one (softMinLevel hardLevel : Z) (expired allow : gset string) (now : time)
    (acc : decay_acc) (st : ThreatIntelIPState) : AM decay_acc :=
  if String.eqb (ts_IP st) "" then mret acc else
  '(acc, st) ← release_expired expired now acc st;
  st ← expire_soft_ban now (decayThreatState st now);
  let st := rejudge softMinLevel hardLevel st in
  let store st := ignore (db (UpsertThreatIntelIPState st)) ≫= fun _ => mret acc in
  if cooled now st then
    let st := st <| ts_XP := 0 |> <| ts_Level := 0 |> <| ts_RiskState := "monitoring" |>
                 <| ts_TempBlockCount := 0 |> in
    if negb (bool_decide (ts_IP st ∈ allow)) then
      ignore (db (RecordThreatIntelRehabEvent (ts_IP st) false "monitor_decay_cleanup")) ≫= fun _ =>
      ignore (db (DeleteThreatIntelMatchesByIP (ts_IP st))) ≫= fun _ =>
      ignore (db (DeleteThreatIntelState (ts_IP st))) ≫= fun _ =>
      mret (acc.1 + 1, acc.2)
    else store st
  else store st.

(** The second loop: expired blocks without a state.  Go ranges over a map, in
    any order; here it is the order of the set. *)
Definition release_stateless (known allow : gset string) (acc : decay_acc) (ip : string) : AM decay_acc :=
  if bool_decide (ip ∈ allow) || bool_decide (ip ∈ known) then mret acc
  else
    r ← try_ (removeBlockedIPTrackedOnly ip false "hard_block_retention_expired");
    mret (match r with Ok _ => (acc.1 + 1, true) | Err _ => acc end).

(** [expiredByIP] *)
Definition expired_set (l : list BlockedIP) : gset string :=
  list_to_set (List.filter nonempty (map (fun b => TrimSpace (b_IP b)) l)).

Definition ReconcileThreatIntelDecay : AM Z :=
  r ← try_ (db GetThreatIntelConfig);
  policy ← getRetentionPolicy;
  let retentionDays := if rp_BlockedDays policy <=? 0 then 60 else rp_BlockedDays policy in
  let pick (f : ThreatIntelConfig -> Z) (d : Z) :=
    match r with Ok c => if 0 <? f c then f c else d | Err _ => d end in
  let softMinLevel := pick tc_SoftMinLevel defaultTISoftMinLevel in
  let hardLevel := pick tc_HardLevel defaultTIHardLevel in
  ignore (db (PromoteThreatIntelHardBlocks hardLevel)) ≫= fun _ =>
  ignore (db SyncThreatIntelBanHistoryOpen) ≫= fun _ =>
  states ← db (ListThreatIntelIPStates 20000);
  allowEntries ← db ListThreatIntelAllowIPs;
  let allow := allow_set allowEntries in
  now ← db Now;
  expiredBlocked ← db (ListBlockedIPsBefore (days_ago now retentionDays) 50000);
  let expired := expired_set expiredBlocked in
  acc ← fold_each (decay_one softMinLevel hardLevel expired allow now) (0, false) states;
  acc ← fold_each (release_stateless (list_to_set (map ts_IP states)) allow) acc (elements expired);
  when acc.2 (ignore reconcileOSFirewall) ≫= fun _ =>
  mret acc.1.

(* ------------------------------------------------------------------ *)
(** ** The policy stays within its bounds *)

Definition days_ok (n : Z) : Prop := 1 <= n <= 3650.
Definition policy_ok (p : RetentionPolicy) : Prop :=
  days_ok (rp_AuditDays p) /\ days_ok (rp_TrafficDays p) /\ days_ok (rp_VisitorsDays p) /\
  days_ok (rp_ThreatDays p) /\ days_ok (rp_BlockedDays p) /\ days_ok (rp_LoginAttemptDays p) /\
  days_ok (rp_PasswordResetDays p).

Lemma clamp_days_ok d n : days_ok d -> days_ok (clamp_days d n).
Proof. unfold days_ok, clamp_days. intros. zcase. Qed.

Lemma normalizeRetentionPolicy_ok p : policy_ok (normalizeRetentionPolicy p).
Proof. unfold policy_ok. split_and!; simpl; apply clamp_days_ok; unfold days_ok; simpl; lia. Qed.

Lemma keeps_read_days R `{!PreOrder R} key d :
  keeps R (GetSetting key) -> keeps (on_env R) (read_days key d).
Proof. intros H. unfold read_days. keeps_tac. by apply keeps_db. Qed.

Lemma keeps_GetSetting {T} (p : DB -> T) key : keeps (same p) (GetSetting key).
Proof. unfold GetSetting. keeps_db. Qed.

Lemma keeps_getRetentionPolicy {T} (p : DB -> T) : keeps (on_env (same p)) getRetentionPolicy.
Proof. unfold getRetentionPolicy. keeps_tac; try apply keeps_read_days, keeps_GetSetting; typeclasses eauto. Qed.

Lemma wp_read_days (Q : result Z -> Svc -> Prop) key d s :
  (forall n s', on_env (same id) s s' -> Q (Ok n) s') -> wp (read_days key d) Q s.
Proof.
  intros H. unfold read_days. apply wp_bind, wp_try.
  eapply wp_keeps; [apply keeps_db, (keeps_GetSetting id)|]. intros r s' Hs. apply wp_ret. by apply H.
Qed.

Lemma getRetentionPolicy_wp s :
  wp getRetentionPolicy (fun r s' => on_env (same id) s s' /\ exists p, r = Ok p /\ policy_ok p) s.
Proof.
  unfold getRetentionPolicy.
  repeat (apply wp_bind, wp_read_days; intros ? ? ?).
  apply wp_ret. split; [|eexists; split; [done|apply normalizeRetentionPolicy_ok]].
  repeat (etransitivity; [eassumption|]). reflexivity.
Qed.

(** Whatever the settings hold and whichever reads fail, the policy that
    the purge runs under keeps every class of record for at least one day and
    at most 3650. *)
Theorem retention_policy_bounded s :
  exists p s', getRetentionPolicy s = (Ok p, s') /\ policy_ok p /\ e_db (s_env s') = e_db (s_env s).
Proof.
  pose proof (getRetentionPolicy_wp s) as H. unfold wp in H.
  destruct (getRetentionPolicy s) as [r s']. destruct H as ([Hs _] & p & -> & Hp). eauto 6.
Qed.

(* ------------------------------------------------------------------ *)
(** ** A purge never lifts a block *)

Lemma keeps_purge {T} (p : DB -> T) count f :
  (forall db, p (f db) = p db) -> keeps (same p) (purge count f).
Proof. intros H. unfold purge. keeps_tac; [apply keeps_query|by apply keeps_modify_db]. Qed.

Lemma keeps_inv_purge I count f :
  (forall db, I db -> I (f db)) -> keeps (inv I) (purge count f).
Proof. intros H. unfold purge. keeps_tac; [apply keeps_inv_query|by apply keeps_inv_modify]. Qed.

(** The permanently blocked address [ip] is on record with row [r]. *)
Definition held (ip : string) (b : option BlockedIP) (r : StateRow) (db : DB) : Prop :=
  t_blocked_ips db !! ip = b /\ t_threat_intel_ip_state db !! ip = Some r.

Lemma keeps_RunRetentionPurge_held ip b r :
  ts_PermBlocked (sr_state r) = true -> keeps (on_env (inv (held ip b r))) RunRetentionPurge.
Proof.
  intros Hr. unfold RunRetentionPurge, PurgeAuditEventsBefore, PurgeTrafficBucketsBefore,
    PurgeVisitorHashesBeforeDay, PurgeThreatIntelMatchesBefore, PurgeThreatIntelStateBefore,
    PurgeTraceEventsBefore, PurgeLoginAttemptsBefore, PurgePasswordResetTokensBefore.
  cbv zeta. keeps_tac; try typeclasses eauto; try apply keeps_db;
    try (apply keeps_inv_purge; intros db [H1 H2]; split; [done|]; try done).
  - eapply keeps_weaken; [|apply (keeps_getRetentionPolicy (held ip b r))].
    intros s s' [E _] H. by rewrite E.
  - intros e H. exact H.
  - apply keeps_inv_transaction. keeps_tac; try typeclasses eauto; apply keeps_inv_purge; intros db [H1 H2]; done.
  - simpl. rewrite lookup_keep_rows, H2. unfold purgeable_state. rewrite Hr. by rewrite andb_false_r.
Qed.

(** A retention purge never lifts a block: whatever it deletes and wherever
    it fails, the entry of the block list of a permanently blocked address and
    its threat state are still there. *)
Theorem purge_keeps_blocks s ip r :
  t_threat_intel_ip_state (e_db (s_env s)) !! ip = Some r -> ts_PermBlocked (sr_state r) = true ->
  let db' := e_db (s_env (RunRetentionPurge s).2) in
  t_blocked_ips db' !! ip = t_blocked_ips (e_db (s_env s)) !! ip /\
  t_threat_intel_ip_state db' !! ip = Some r.
Proof.
  intros Hr Hp. cbv zeta.
  by apply (keeps_RunRetentionPurge_held ip (t_blocked_ips (e_db (s_env s)) !! ip) r Hp s).
Qed.

Definition purge_demo : Svc :=
  let st := zero_ThreatIntelIPState <| ts_IP := "203.0.113.9" |> <| ts_PermBlocked := true |>
              <| ts_LastSeenAt := Day |> in
  new_svc (clean (empty_DB
    <| t_threat_intel_ip_state := {["203.0.113.9" := mkStateRow st Day Day;
                                    "203.0.113.10" := mkStateRow (st <| ts_PermBlocked := false |>) Day Day]} |>
    <| t_blocked_ips := {["203.0.113.9" := mkBlockedIP "203.0.113.9" "x" Day Day]} |>) (400 * Day)) None.

Lemma purge_keeps_blocks_witness :
  (exists p, (RunRetentionPurge purge_demo).1 = Ok p /\ pr_ThreatStates p = 1) /\
  t_blocked_ips (e_db (s_env (RunRetentionPurge purge_demo).2)) !! "203.0.113.9" =
    Some (mkBlockedIP "203.0.113.9" "x" Day Day).
Proof.
  split; [eexists; split; vm_compute; reflexivity|].
  etransitivity.
  - refine (proj1 (purge_keeps_blocks purge_demo "203.0.113.9"
      (mkStateRow (zero_ThreatIntelIPState <| ts_IP := "203.0.113.9" |> <| ts_PermBlocked := true |>
                     <| ts_LastSeenAt := Day |>) Day Day) _ _)); vm_compute; reflexivity.
  - vm_compute. reflexivity.
Defined.

(* ------------------------------------------------------------------ *)
(** ** The decay lifts expired blocks only *)

(** Both tables are keyed by the trimmed address of their rows. *)
Definition addresses_ok (db : DB) : Prop :=
  (forall ip b, t_blocked_ips db !! ip = Some b -> b_IP b = ip /\ TrimSpace ip = ip) /\
  (forall ip r, t_threat_intel_ip_state db !! ip = Some r -> ts_IP (sr_state r) = ip /\ TrimSpace ip = ip).

(** The block list only grows. *)
Definition grown (e e' : Env) : Prop :=
  (addresses_ok (e_db e) -> addresses_ok (e_db e') /\
     forall ip b, t_blocked_ips (e_db e) !! ip = Some b -> t_blocked_ips (e_db e') !! ip = Some b)
  /\ e_now e' = e_now e.
#[export] Instance grown_preorder : PreOrder grown.
Proof.
  split; unfold grown; [intros e; done|].
  intros a b c [H1 H2] [H3 H4]. split; [|congruence].
  intros H%H1. destruct H as [Hb Hab]. destruct (H3 Hb) as [Hc Hbc]. split; eauto.
Qed.

(** Only the entries of [X] can have left or changed. *)
Definition lost (X : gset string) (e e' : Env) : Prop :=
  (forall ip, ip ∉ X -> t_blocked_ips (e_db e') !! ip = t_blocked_ips (e_db e) !! ip) /\ e_now e' = e_now e.
#[export] Instance lost_preorder X : PreOrder (lost X).
Proof.
  split; unfold lost; [intros e; done|].
  intros a b c [H1 H2] [H3 H4]. split; [|congruence]. intros ip Hip. by rewrite H3, H1.
Qed.

Lemma keeps_lost_same X {A} (m : SM A) : keeps (same t_blocked_ips) m -> keeps (lost X) m.
Proof. apply keeps_weaken. intros e e' [H1 H2]. split; [|done]. intros ip _. by rewrite H1. Qed.
Lemma keeps_lost_svc X {A} (m : AM A) : keeps (on_env (same t_blocked_ips)) m -> keeps (on_env (lost X)) m.
Proof. apply keeps_weaken. intros s s' [H1 H2]. split; [|done]. intros ip _. by rewrite H1. Qed.

Lemma keeps_grown_same {A} (m : SM A) :
  keeps (same (fun db => (t_blocked_ips db, t_threat_intel_ip_state db))) m -> keeps grown m.
Proof.
  apply keeps_weaken. intros e e' [[= H1 H2] H3]. split; [|done].
  unfold addresses_ok. rewrite H1, H2. done.
Qed.
Lemma keeps_grown_svc {A} (m : AM A) :
  keeps (on_env (same (fun db => (t_blocked_ips db, t_threat_intel_ip_state db)))) m -> keeps (on_env grown) m.
Proof.
  apply keeps_weaken. intros e e' [[= H1 H2] H3]. split; [|done].
  unfold addresses_ok. rewrite H1, H2. done.
Qed.

Lemma removeTracked_lost X ip fp reason : ip ∈ X -> TrimSpace ip = ip ->
  keeps (on_env (lost X)) (removeBlockedIPTrackedOnly ip fp reason).
Proof.
  intros Hin Htrim. unfold removeBlockedIPTrackedOnly. keeps_tac; try typeclasses eauto; apply keeps_db.
  - unfold StoreThreat.RemoveBlockedIP. intros e. rewrite Htrim. destruct e as [db now [|[] fs] rnd]; (split; [|done]);
      intros i Hi; simpl; try (rewrite lookup_delete_ne by set_solver); done.
  - apply keeps_lost_same. unfold RecordThreatIntelRehabEvent. keeps_db.
  - apply keeps_lost_same. unfold CloseThreatIntelBanHistory. keeps_db.
Qed.

Lemma decay_one_lost X soft hard expired allow now acc st :
  (forall ip, ip ∈ expired -> ip ∈ X /\ TrimSpace ip = ip) ->
  keeps (on_env (lost X)) (decay_one soft hard expired allow now acc st).
Proof.
  intros HX. unfold decay_one. case_match; [keeps_tac; typeclasses eauto|].
  apply keeps_bind; [typeclasses eauto| |intros [acc' st']].
  - unfold release_expired. case_match eqn:E; [|keeps_tac; typeclasses eauto].
    keeps_tac; try typeclasses eauto. bool_facts. destruct (HX (ts_IP st)); [done|]. by apply removeTracked_lost.
  - apply keeps_bind; [typeclasses eauto| |intros st''].
    + unfold expire_soft_ban. keeps_tac; try typeclasses eauto; apply keeps_db, keeps_lost_same.
      * unfold RecordThreatIntelRehabEvent. keeps_db.
      * unfold CloseThreatIntelBanHistory. keeps_db.
    + cbv zeta.
      assert (Hst : forall st, keeps (on_env (lost X))
        (ignore (db (UpsertThreatIntelIPState st)) ≫= fun _ => mret acc')).
      { intros x. keeps_tac; try typeclasses eauto. apply keeps_db, keeps_lost_same.
        unfold UpsertThreatIntelIPState. keeps_db. }
      case_match; [case_match|]; try apply Hst.
      keeps_tac; try typeclasses eauto; apply keeps_db, keeps_lost_same.
      * unfold RecordThreatIntelRehabEvent. keeps_db.
      * unfold DeleteThreatIntelMatchesByIP. keeps_db.
      * unfold DeleteThreatIntelState. keeps_db.
Qed.

Lemma release_stateless_lost X known allow acc ip : ip ∈ X -> TrimSpace ip = ip ->
  keeps (on_env (lost X)) (release_stateless known allow acc ip).
Proof.
  intros H1 H2. unfold release_stateless. keeps_tac; try typeclasses eauto. by apply removeTracked_lost.
Qed.

Lemma promote_grown hard now db : addresses_ok db ->
  addresses_ok (promote_insert hard now db) /\
  forall ip b, t_blocked_ips db !! ip = Some b -> t_blocked_ips (promote_insert hard now db) !! ip = Some b.
Proof.
  intros [H1 H2]. unfold promote_insert, addresses_ok. simpl. split; [split; [|exact H2]|].
  - intros ip b. rewrite lookup_union_Some_raw, lookup_fmap. intros [Hb|[_ Hb]]; [by apply H1|].
    apply fmap_Some in Hb as (r & Hr & ->). apply map_lookup_filter_Some in Hr as [Hr _].
    simpl. by apply H2.
  - intros ip b Hb. by apply lookup_union_Some_l.
Qed.

Lemma promote_update_ok hard now db : addresses_ok db -> addresses_ok (promote_update hard now db).
Proof.
  intros [H1 H2]. split; [exact H1|]. intros ip r. unfold promote_update. simpl.
  rewrite map_lookup_imap. destruct (t_threat_intel_ip_state db !! ip) as [r0|] eqn:E; [|done].
  simpl. intros [= <-]. specialize (H2 ip r0 E). by case_match.
Qed.

Lemma keeps_grown_modify f :
  (forall db, addresses_ok db -> addresses_ok (f db) /\
     forall ip b, t_blocked_ips db !! ip = Some b -> t_blocked_ips (f db) !! ip = Some b) ->
  keeps grown (modify (fun e : Env => e <| e_db ::= f |>)) /\ keeps grown (exec f).
Proof.
  intros H. split.
  - intros e. split; [|done]. apply H.
  - intros [db now [|[] fs] rnd]; unfold grown; simpl; eauto.
Qed.

Lemma keeps_transaction_grown {A} (m : SM A) : keeps grown m -> keeps grown (transaction m).
Proof.
  intros H e. unfold transaction.
  assert (Hs : forall e, grown e (stmt e).2).
  { intros x. by apply (keeps_grown_same stmt (keeps_stmt _)). }
  assert (Hr : forall e, e_db (stmt e).2 = e_db e).
  { by intros [db now [|[] fs] rnd]. }
  pose proof (Hs e) as H1. pose proof (Hr e) as D1. destruct (stmt e) as [[[]|x] e1]; simpl in *; [|done].
  pose proof (H e1) as H2. destruct (m e1) as [[a|x] e2]; simpl in *.
  - pose proof (Hs e2) as H3. destruct (stmt e2) as [[[]|x] e3]; simpl in *.
    + by do 2 (etransitivity; [eassumption|]).
    + destruct H1, H2, H3. split; simpl; [rewrite D1; done|congruence].
  - destruct H1, H2. split; simpl; [rewrite D1; done|congruence].
Qed.

Lemma keeps_Promote_grown hard : keeps grown (PromoteThreatIntelHardBlocks hard).
Proof.
  unfold PromoteThreatIntelHardBlocks. keeps_tac; try typeclasses eauto.
  apply keeps_transaction_grown. keeps_tac; try typeclasses eauto.
  - apply keeps_grown_modify. apply promote_grown.
  - apply keeps_grown_same. apply keeps_query.
  - apply keeps_grown_modify. intros db Hdb. split; [by apply promote_update_ok|done].
Qed.

Lemma fold_sync_same now l db :
  (t_blocked_ips (fold_left (sync_one now) l db), t_threat_intel_ip_state (fold_left (sync_one now) l db)) =
  (t_blocked_ips db, t_threat_intel_ip_state db).
Proof.
  revert db. induction l as [|b l IH]; intros db; [done|]. simpl. rewrite IH.
  unfold sync_one. by case_match.
Qed.

Lemma keeps_Sync_grown : keeps grown SyncThreatIntelBanHistoryOpen.
Proof.
  apply keeps_grown_same. unfold SyncThreatIntelBanHistoryOpen. keeps_tac; try typeclasses eauto.
  apply keeps_exec. intros db. apply fold_sync_same.
Qed.

(** The addresses of rows created before the cut-off. *)
Lemma expired_spec n cutoff db ip :
  ip ∈ expired_set (limit n (order_by (asc_time b_CreatedAt)
         (List.filter (fun b => text_lt (b_CreatedAt b) cutoff) (rows (t_blocked_ips db))))) ->
  exists k b, t_blocked_ips db !! k = Some b /\ TrimSpace (b_IP b) = ip /\ text_lt (b_CreatedAt b) cutoff = true.
Proof.
  unfold expired_set. rewrite elem_of_list_to_set. intros [Hin _]%list_elem_of_In%filter_In.
  apply in_map_iff in Hin as (b & Hb & Hin%list_elem_of_In).
  apply elem_of_limit, elem_of_order_by, list_elem_of_In, filter_In in Hin as [Hin Ht].
  apply list_elem_of_In, elem_of_rows in Hin as [k Hk]. eauto.
Qed.

Lemma keeps_ListBlockedIPsBefore {T} (p : DB -> T) cutoff n : keeps (same p) (ListBlockedIPsBefore cutoff n).
Proof. unfold ListBlockedIPsBefore. keeps_db. Qed.

(** After the list of expired blocks is read, only they can go. *)
Lemma decay_loops_lost X soft hard expired known allow now states :
  (forall ip, ip ∈ expired -> ip ∈ X /\ TrimSpace ip = ip) ->
  keeps (on_env (lost X))
    (acc ← fold_each (decay_one soft hard expired allow now) (0, false) states;
     acc ← fold_each (release_stateless known allow) acc (elements expired);
     when acc.2 (ignore reconcileOSFirewall) ≫= fun _ => mret acc.1).
Proof.
  intros HX. apply keeps_bind; [typeclasses eauto| |intros acc].
  { apply keeps_fold_each; [typeclasses eauto|]. intros. by apply decay_one_lost. }
  apply keeps_bind; [typeclasses eauto| |intros acc'].
  - assert (Hl : forall l, (forall ip, ip ∈ l -> ip ∈ expired) -> forall acc,
      keeps (on_env (lost X)) (fold_each (release_stateless known allow) acc l)).
    { induction l as [|ip l IH]; intros Hin acc0; simpl; [apply keeps_ret; typeclasses eauto|].
      apply keeps_bind; [typeclasses eauto| |intros; apply IH; set_solver].
      destruct (HX ip); [set_solver|]. by apply release_stateless_lost. }
    apply Hl. intros ip. by rewrite elem_of_elements.
  - keeps_tac; try typeclasses eauto. apply keeps_lost_svc, keeps_reconcileOSFirewall.
Qed.

(** What the decay may have done to the block list. *)
Definition lifts_expired (s s' : Svc) : Prop :=
  exists days, days_ok days /\
  forall ip b, t_blocked_ips (e_db (s_env s)) !! ip = Some b ->
    t_blocked_ips (e_db (s_env s')) !! ip = Some b \/
    text_lt (b_CreatedAt b) (days_ago (e_now (s_env s)) days) = true.

Lemma grown_lifts s s' : addresses_ok (e_db (s_env s)) -> on_env grown s s' -> lifts_expired s s'.
Proof.
  intros Hok [H _]. exists 60. split; [unfold days_ok; lia|]. intros ip b Hb. left. by apply H.
Qed.

Lemma decay_tail_lifts s s1 days soft hard allow states :
  days_ok days -> addresses_ok (e_db (s_env s)) -> on_env grown s s1 ->
  wp (expiredBlocked ← db (ListBlockedIPsBefore (days_ago (e_now (s_env s1)) days) 50000);
      let expired := expired_set expiredBlocked in
      acc ← fold_each (decay_one soft hard expired allow (e_now (s_env s1))) (0, false) states;
      acc ← fold_each (release_stateless (list_to_set (map ts_IP states)) allow) acc (elements expired);
      when acc.2 (ignore reconcileOSFirewall) ≫= fun _ => mret acc.1)
     (fun _ s' => lifts_expired s s') s1.
Proof.
  intros Hd Hok [Hg Hn]. destruct (Hg Hok) as [[Hk _] Hg1]. clear Hg.
  apply wp_bind, wp_db. unfold ListBlockedIPsBefore. apply wp_query; intros fs.
  { exists days. split; [done|]. intros ip b Hb. left. simpl. by apply Hg1. }
  set (l := limit _ _). cbv zeta. set (X := expired_set l).
  assert (HX : forall ip, ip ∈ X -> exists b, t_blocked_ips (e_db (s_env s1)) !! ip = Some b /\
    TrimSpace ip = ip /\ text_lt (b_CreatedAt b) (days_ago (e_now (s_env s1)) days) = true).
  { intros ip Hip. unfold X, l in Hip. apply expired_spec in Hip as (k & b & Hb & <- & Ht).
    destruct (Hk k b Hb) as [Hkb Htr]. rewrite Hkb, Htr. by exists b. }
  eapply wp_keeps; [apply (decay_loops_lost X); intros ip Hip; destruct (HX ip Hip) as (? & ? & ? & ?); done|].
  intros _ s' [H _]. simpl in H. exists days. split; [done|]. intros ip b Hb%Hg1.
  destruct (decide (ip ∈ X)) as [Hin|Hin]; [right|left; by rewrite H].
  destruct (HX ip Hin) as (b' & Hb' & _ & Ht). rewrite Hb' in Hb. simplify_eq. by rewrite <- Hn.
Qed.

(** C35. The periodic decay lifts expired blocks only: there is one cut-off,
    between one day and ten years back, such that every entry of the block list
    created after it is still there afterwards, unchanged, whatever the decay
    does to the threat states and wherever it fails. *)
Theorem decay_lifts_expired_only s :
  addresses_ok (e_db (s_env s)) -> lifts_expired s (ReconcileThreatIntelDecay s).2.
Proof.
  intros Hok. assert (H : wp ReconcileThreatIntelDecay (fun _ s' => lifts_expired s s') s).
  2: { unfold wp in H. by destruct (ReconcileThreatIntelDecay s). }
  unfold ReconcileThreatIntelDecay.
  apply wp_bind, wp_try. eapply wp_keeps; [apply keeps_db, keeps_grown_same, keeps_GetThreatIntelConfig|].
  intros r s1 H1. cbv zeta.
  apply wp_bind. eapply wp_mono; [apply getRetentionPolicy_wp|].
  intros ? s2 [H2 (p & -> & Hp)]. cbv beta iota.
  assert (H12 : on_env grown s s2).
  { etransitivity; [exact H1|]. destruct H2 as [E1 E2]. split; [|done].
    intros Ha. simpl in E1. unfold id in E1. by rewrite E1. }
  clear s1 H1 H2.
  set (soft := match r with Ok c => if 0 <? tc_SoftMinLevel c then _ else _ | Err _ => _ end).
  set (hard := match r with Ok c => if 0 <? tc_HardLevel c then _ else _ | Err _ => _ end).
  apply wp_bind, wp_ignore. eapply wp_keeps; [apply keeps_db, keeps_Promote_grown|]. intros _ s3 H3.
  apply wp_bind, wp_ignore. eapply wp_keeps; [apply keeps_db, keeps_Sync_grown|]. intros _ s4 H4.
  apply wp_bind. eapply wp_keeps;
    [apply keeps_db, keeps_grown_same; unfold ListThreatIntelIPStates; keeps_db|]. intros [states|e] s5 H5.
  2: { apply grown_lifts; [done|]. repeat (etransitivity; [eassumption|]). reflexivity. }
  apply wp_bind. eapply wp_keeps;
    [apply keeps_db, keeps_grown_same; unfold ListThreatIntelAllowIPs; keeps_db|]. intros [allow|e] s6 H6.
  2: { apply grown_lifts; [done|]. repeat (etransitivity; [eassumption|]). reflexivity. }
  apply wp_bind, wp_db. apply wp_gets.
  assert (Hall : on_env grown s s6) by (repeat (etransitivity; [eassumption|]); reflexivity).
  replace (s6 <| s_env := s_env s6 |>) with s6 by (by destruct s6).
  destruct Hp as (_ & _ & _ & _ & Hb & _). unfold days_ok in Hb.
  replace (rp_BlockedDays p <=? 0) with false by lia.
  by apply decay_tail_lifts.
Qed.

Definition decay_demo : Svc :=
  new_svc (clean (empty_DB
    <| t_blocked_ips := {["203.0.113.9" := mkBlockedIP "203.0.113.9" "x" Day Day;
                          "203.0.113.10" := mkBlockedIP "203.0.113.10" "y" (390 * Day) (390 * Day)]} |>) (400 * Day)) None.

Lemma decay_lifts_expired_only_witness :
  (ReconcileThreatIntelDecay decay_demo).1 = Ok 1 /\ lifts_expired decay_demo (ReconcileThreatIntelDecay decay_demo).2.
Proof.
  split; [vm_compute; reflexivity|]. apply decay_lifts_expired_only. split.
  - intros ip b. change (t_blocked_ips _) with ({["203.0.113.9" := mkBlockedIP "203.0.113.9" "x" Day Day;
      "203.0.113.10" := mkBlockedIP "203.0.113.10" "y" (390 * Day) (390 * Day)]} : gmap string BlockedIP).
    rewrite lookup_insert_Some, lookup_singleton_Some. intros [[<- <-]|[_ [<- <-]]]; done.
  - intros ip r. change (t_threat_intel_ip_state _) with (∅ : gmap string StateRow). by rewrite lookup_empty.
Defined.
