(* ===== verification/StoreGroups.v ===== *)
(** [internal/store/identity_groups.go]: permission groups, their entries and who
    is a member of which group, in which order. *)

From S2P Require Import Prelude GoString GoMonad GoTime Model StoreDB StoreUsers.
From stdpp Require Import sorting.
Open Scope Z_scope.

Definition dedupPerms (perms : list string) : list string :=
  dedup_seen (fun p => TrimSpace (ToLower p)) nonempty ∅ perms.

(** [ORDER BY is_system DESC, name ASC] *)
Definition group_le (x y : PermissionGroup) : bool :=
  if Bool.eqb (pg_System x) (pg_System y) then String.leb (pg_Name x) (pg_Name y) else pg_System x.
(** [ORDER BY m.priority ASC, m.group_id ASC] *)
Definition member_le (x y : UserGroupMembership) : bool :=
  if gm_Priority x =? gm_Priority y then gm_GroupID x <=? gm_GroupID y else gm_Priority x <? gm_Priority y.
(** [ORDER BY m.user_id ASC, m.priority ASC, m.group_id ASC] *)
Definition members_le (x y : UserGroupMembership) : bool :=
  if gm_UserID x =? gm_UserID y then member_le x y else gm_UserID x <? gm_UserID y.

Definition ListPermissionGroups : SM (list PermissionGroup) :=
  query (fun db => order_by group_le (rows (t_permission_groups db))).

(** The name of a group is unique; [id] is the row that may keep it. *)
Definition name_free (name : string) (id : Z) (db : DB) : bool :=
  match find_row (fun g => String.eqb (pg_Name g) name && negb (pg_ID g =? id)) (t_permission_groups db) with
  | None => true
  | Some _ => false
  end.

(** The insertion of the permissions of a group: the pair is the primary key and
    the group must exist. *)
Definition insert_entries (groupID : Z) (perms : list string) : SM unit :=
  for_each (fun p =>
    exec_checked
      (fun db => bool_decide (is_Some (t_permission_groups db !! groupID))
                 && negb (bool_decide ((groupID, p) ∈ t_permission_group_entries db)))
      (fun db => db <| t_permission_group_entries ::= fun s => {[(groupID, p)]} ∪ s |>)) perms.

Definition insert_group (g : PermissionGroup) : SM Z :=
  exec_checked (name_free (pg_Name g) 0) (fun db =>
    let id := next_id "permission_groups" db in
    (take_id "permission_groups" db) <| t_permission_groups ::= <[id := g <| pg_ID := id |>]> |>) ≫= fun _ =>
  gets (fun e : Env => default 0 (t_sqlite_sequence (e_db e) !! "permission_groups")).

Definition CreatePermissionGroup (name description template : string) (system : bool) (permissions : list string)
    : SM PermissionGroup :=
  let name := TrimSpace name in
  fail_if (String.eqb name "") "group name required" ≫= fun _ =>
  now ← Now;
  id ← transaction (
    id ← insert_group (mkPermissionGroup 0 name (TrimSpace description) (TrimSpace template) system now now);
    insert_entries id (dedupPerms permissions) ≫= fun _ =>
    mret id);
  query_row (fun db => t_permission_groups db !! id).

Definition clear_entries (groupID : Z) : SM unit :=
  exec (fun db => db <| t_permission_group_entries ::= keep_set (fun p => negb (p.1 =? groupID)) |>).

Definition UpdatePermissionGroup (groupID : Z) (name description template : string) (permissions : list string)
    : SM unit :=
  fail_if (groupID <=? 0) "invalid group id" ≫= fun _ =>
  let name := TrimSpace name in
  fail_if (String.eqb name "") "group name required" ≫= fun _ =>
  now ← Now;
  transaction (
    system ← query_row (fun db => pg_System <$> t_permission_groups db !! groupID);
    fail_if system "system group is immutable" ≫= fun _ =>
    exec_checked (name_free name groupID) (fun db =>
      db <| t_permission_groups ::= alter (fun g =>
        g <| pg_Name := name |> <| pg_Description := TrimSpace description |>
          <| pg_Template := TrimSpace template |> <| pg_UpdatedAt := now |>) groupID |>) ≫= fun _ =>
    gets (fun e : Env => bool_decide (is_Some (t_permission_groups (e_db e) !! groupID))) ≫= fun affected : bool =>
    (if affected then mret tt else (fail ErrNoRows : SM unit)) ≫= fun _ =>
    clear_entries groupID ≫= fun _ =>
    insert_entries groupID (dedupPerms permissions)).

(** [ON DELETE CASCADE] *)
Definition delete_group_rows (id : Z) (db : DB) : DB :=
  db <| t_permission_groups ::= delete id |>
     <| t_permission_group_entries ::= keep_set (fun p => negb (p.1 =? id)) |>
     <| t_user_group_memberships ::= keep_keys (fun k => negb (k.2 =? id)) |>.

Definition DeletePermissionGroup (groupID : Z) : SM unit :=
  fail_if (groupID <=? 0) "invalid group id" ≫= fun _ =>
  system ← query_row (fun db => pg_System <$> t_permission_groups db !! groupID);
  fail_if system "system group cannot be deleted" ≫= fun _ =>
  exec (delete_group_rows groupID).

Definition group_perms (groupID : Z) (db : DB) : list string :=
  List.filter nonempty (map TrimSpace
    (order_by String.leb (snd <$> List.filter (fun p => p.1 =? groupID) (elements (t_permission_group_entries db))))).
Definition ListPermissionGroupPermissions (groupID : Z) : SM (list string) := query (group_perms groupID).

Definition clear_memberships (userID : Z) : SM unit :=
  exec (fun db => db <| t_user_group_memberships ::= keep_keys (fun k => negb (k.1 =? userID)) |>).

Definition insert_membership (userID : Z) (now : time) (p : Z * Z) : SM unit :=
  exec_checked
    (fun db => bool_decide (is_Some (t_users db !! userID)) && bool_decide (is_Some (t_permission_groups db !! p.2))
               && bool_decide (t_user_group_memberships db !! (userID, p.2) = None))
    (fun db => db <| t_user_group_memberships ::=
      <[(userID, p.2) := mkUserGroupMembership userID p.2 (p.1 + 1) now now "" false]> |>).

(** The groups with their place in the list. *)
Definition numbered {A} (l : list A) : list (Z * A) := imap (fun i x => (Z.of_nat i, x)) l.

Definition SetUserGroupMemberships (userID : Z) (groupIDsOrdered : list Z) : SM unit :=
  fail_if (userID <=? 0) "invalid user id" ≫= fun _ =>
  now ← Now;
  transaction (
    clear_memberships userID ≫= fun _ =>
    for_each (insert_membership userID now) (numbered (positive_ids groupIDsOrdered))).

(** [JOIN permission_groups g ON g.id=m.group_id] *)
Definition join_group (db : DB) (m : UserGroupMembership) : option UserGroupMembership :=
  (fun g => m <| gm_GroupName := pg_Name g |> <| gm_IsTemplate := pg_System g |>) <$>
    t_permission_groups db !! gm_GroupID m.

Definition user_memberships (userID : Z) (db : DB) : list UserGroupMembership :=
  order_by member_le (omap (join_group db)
    (List.filter (fun m => gm_UserID m =? userID) (rows (t_user_group_memberships db)))).
Definition ListUserGroupMemberships (userID : Z) : SM (list UserGroupMembership) := query (user_memberships userID).

(** [out[m.UserID] = append(out[m.UserID], m)] *)
Definition by_user (l : list UserGroupMembership) : gmap Z (list UserGroupMembership) :=
  foldl (fun out m => <[gm_UserID m := default [] (out !! gm_UserID m) ++ [m]]> out) ∅ l.
Definition ListUsersGroupMemberships : SM (gmap Z (list UserGroupMembership)) :=
  query (fun db => by_user (order_by members_le (omap (join_group db) (rows (t_user_group_memberships db))))).

(* ------------------------------------------------------------------ *)
(** ** What the loops leave *)

Definition add_entries (id : Z) (perms : list string) (db : DB) : DB :=
  db <| t_permission_group_entries ::= fun s => list_to_set (pair id <$> perms) ∪ s |>.

Lemma add_entries_nil id db : add_entries id [] db = db.
Proof.
  unfold add_entries. assert (H : list_to_set (pair id <$> []) ∪ t_permission_group_entries db = t_permission_group_entries db) by set_solver.
  transitivity (db <| t_permission_group_entries := t_permission_group_entries db |>); [|by destruct db].
  exact (f_equal (fun s => db <| t_permission_group_entries := s |>) H).
Qed.

Lemma add_entries_cons id p perms db :
  add_entries id perms (db <| t_permission_group_entries ::= fun s => {[(id, p)]} ∪ s |>) = add_entries id (p :: perms) db.
Proof.
  unfold add_entries.
  assert (H : (list_to_set (pair id <$> perms) ∪ ({[(id, p)]} ∪ t_permission_group_entries db) : gset (Z * string)) =
    list_to_set (pair id <$> (p :: perms)) ∪ t_permission_group_entries db) by set_solver.
  exact (f_equal (fun s => db <| t_permission_group_entries := s |>) H).
Qed.

Lemma insert_entries_wp id perms e :
  wp (insert_entries id perms) (fun r e' => is_ok r = true ->
    e_db e' = add_entries id perms (e_db e) /\ (perms <> [] -> is_Some (t_permission_groups (e_db e) !! id))) e.
Proof.
  revert e. induction perms as [|p perms IH]; intros e; simpl.
  - apply wp_ret. intros _. by rewrite add_entries_nil.
  - apply wp_bind, wp_exec_checked; intros fs; [done| |done]. intros Hok. cbv beta iota.
    apply andb_prop in Hok as [Hg _]. apply bool_decide_eq_true_1 in Hg.
    eapply wp_mono; [apply IH|]. intros r e' H Hr. destruct (H Hr) as [-> _]. split; [|done].
    apply add_entries_cons.
Qed.

(** The rows of the memberships a loop adds. *)
Definition member_row (userID : Z) (now : time) (p : Z * Z) : UserGroupMembership :=
  mkUserGroupMembership userID p.2 (p.1 + 1) now now "" false.

Definition add_members (userID : Z) (now : time) (l : list (Z * Z)) (db : DB) : DB :=
  db <| t_user_group_memberships ::= fun m => foldl (fun m p => <[(userID, p.2) := member_row userID now p]> m) m l |>.

Lemma insert_memberships_wp userID now l e :
  wp (for_each (insert_membership userID now) l) (fun r e' => is_ok r = true ->
    e_db e' = add_members userID now l (e_db e) /\ (l <> [] -> is_Some (t_users (e_db e) !! userID)) /\
    Forall (fun p => is_Some (t_permission_groups (e_db e) !! p.2)) l) e.
Proof.
  revert e. induction l as [|p l IH]; intros e; simpl.
  - apply wp_ret. intros _. split_and!; [|done|done]. by destruct e as [[] ? ? ?].
  - apply wp_bind. unfold insert_membership at 1. apply wp_exec_checked; intros fs; [done| |done]. intros Hok. cbv beta iota.
    bool_facts. eapply wp_mono; [apply IH|]. intros r e' H' Hr. destruct (H' Hr) as (-> & _ & Hg). split_and!; [|done|].
    + by destruct e as [[] ? ? ?].
    + constructor; [done|]. exact Hg.
Qed.

(* ------------------------------------------------------------------ *)
(** ** The invariant of the tables *)

Definition last_group_id (db : DB) : Z := default 0 (t_sqlite_sequence db !! "permission_groups").

(** Permissions are kept as [dedupPerms] writes them. *)
Definition stored_perm (p : string) : Prop := ToLower (TrimSpace p) = p /\ p <> "".

Record groups_ok (db : DB) : Prop := {
  go_seq : 0 <= last_group_id db;
  go_group id g : t_permission_groups db !! id = Some g ->
    pg_ID g = id /\ 0 < id <= last_group_id db /\ TrimSpace (pg_Name g) = pg_Name g /\ pg_Name g <> "";
  go_name i j g h : t_permission_groups db !! i = Some g -> t_permission_groups db !! j = Some h ->
    pg_Name g = pg_Name h -> i = j;
  go_entry id p : (id, p) ∈ t_permission_group_entries db -> is_Some (t_permission_groups db !! id) /\ stored_perm p;
  go_member k m : t_user_group_memberships db !! k = Some m ->
    k = (gm_UserID m, gm_GroupID m) /\ 0 < gm_Priority m /\
    is_Some (t_users db !! gm_UserID m) /\ is_Some (t_permission_groups db !! gm_GroupID m);
  go_order j k m n : t_user_group_memberships db !! j = Some m -> t_user_group_memberships db !! k = Some n ->
    gm_UserID m = gm_UserID n -> gm_Priority m = gm_Priority n -> j = k
}.

(** A system group keeps its row and its permissions. *)
Definition system_kept (d d' : DB) : Prop :=
  forall id g, t_permission_groups d !! id = Some g -> pg_System g = true ->
    t_permission_groups d' !! id = Some g /\
    forall p, (id, p) ∈ t_permission_group_entries d' <-> (id, p) ∈ t_permission_group_entries d.

Definition group_step (d d' : DB) : Prop := groups_ok d -> groups_ok d' /\ system_kept d d'.

#[export] Instance group_step_preorder : PreOrder group_step.
Proof.
  split; unfold group_step, system_kept; [intros d; naive_solver|].
  intros a b c Hab Hbc Ha. destruct (Hab Ha) as [Hb K1]. destruct (Hbc Hb) as [Hc K2]. split; [done|].
  intros id g Hg Hs. destruct (K1 id g Hg Hs) as [Hg1 P1]. destruct (K2 id g Hg1 Hs) as [Hg2 P2].
  split; [done|]. intros p. by rewrite P2, P1.
Qed.

Lemma dedupPerms_stored p l : p ∈ dedupPerms l -> stored_perm p.
Proof.
  intros (_ & Hn & x & _ & <-)%elem_of_dedup_seen. split; [by rewrite TrimSpace_ToLower, norm_idem|].
  intros E. rewrite E in Hn. done.
Qed.

Lemma elem_of_add_entries id perms db k p :
  (k, p) ∈ t_permission_group_entries (add_entries id perms db) <->
  (k = id /\ p ∈ perms) \/ (k, p) ∈ t_permission_group_entries db.
Proof. simpl. rewrite elem_of_union, elem_of_list_to_set, list_elem_of_fmap. naive_solver. Qed.

Lemma add_entries_ok id perms db :
  (perms <> [] -> is_Some (t_permission_groups db !! id)) -> Forall stored_perm perms -> groups_ok db ->
  groups_ok (add_entries id perms db).
Proof.
  intros Hg Hp [H0 H1 H2 H3 H4 H5]. rewrite Forall_forall in Hp. split; [done|done|done| |done|done].
  intros k p [[-> Hip]|Hk]%elem_of_add_entries; [|by apply H3].
  split; [|by apply Hp]. apply Hg. by intros ->; apply not_elem_of_nil in Hip.
Qed.

(** Permissions are added to a group that is new, or not a system group. *)
Lemma add_entries_step id perms d db :
  (perms <> [] -> is_Some (t_permission_groups db !! id)) -> Forall stored_perm perms ->
  (groups_ok d -> forall g, t_permission_groups d !! id = Some g -> pg_System g = false) ->
  group_step d db -> group_step d (add_entries id perms db).
Proof.
  intros Hg Hp Hn Hstep Hok. destruct (Hstep Hok) as [Hdb Hk]. split; [by apply add_entries_ok|].
  intros k g Hkg Hs. destruct (Hk k g Hkg Hs) as [Hg' He]. split; [done|]. intros p. rewrite elem_of_add_entries, He.
  split; [|by right]. intros [[-> _]|]; [|done]. rewrite (Hn Hok g Hkg) in Hs. done.
Qed.

(** A row of the table is written: a new one, or one that is not a system group. *)
Lemma set_group_step id g db db' :
  t_permission_groups db' = <[id := g]> (t_permission_groups db) ->
  t_permission_group_entries db' = t_permission_group_entries db ->
  t_user_group_memberships db' = t_user_group_memberships db -> t_users db' = t_users db ->
  last_group_id db <= last_group_id db' -> 0 < id <= last_group_id db' -> pg_ID g = id ->
  TrimSpace (pg_Name g) = pg_Name g -> pg_Name g <> "" -> name_free (pg_Name g) id db = true ->
  (forall g0, t_permission_groups db !! id = Some g0 -> pg_System g0 = false) ->
  group_step db db'.
Proof.
  intros Eg Ee Em Eu Hl Hid Hg Ht Hne Hfree Hold [H0 H1 H2 H3 H4 H5].
  assert (Hfresh : forall j h, t_permission_groups db !! j = Some h -> pg_Name h = pg_Name g -> j = id).
  { intros j h Hj Hn. unfold name_free in Hfree. destruct (find_row _ _) eqn:E; [done|].
    pose proof (proj1 (find_row_None _ _) E j h Hj) as Hf. cbv beta in Hf. rewrite Hn, String.eqb_refl in Hf. simpl in Hf.
    apply negb_false_iff, Z.eqb_eq in Hf. destruct (H1 _ _ Hj) as (Hi & _). congruence. }
  assert (Hin : forall j, is_Some (t_permission_groups db !! j) -> is_Some (t_permission_groups db' !! j)).
  { intros j Hj. rewrite Eg. apply lookup_insert_is_Some'. by right. }
  split; [split|].
  - lia.
  - intros j h. rewrite Eg. intros [[<- <-]|[_ Hj]]%lookup_insert_Some; [by rewrite Hg|].
    destruct (H1 j h Hj) as (? & ? & ? & ?). split_and!; [done|lia|lia|done|done].
  - intros i j a b. rewrite Eg. intros [[<- <-]|[Hi Ha]]%lookup_insert_Some [[<- <-]|[Hj Hb]]%lookup_insert_Some Hn;
      [done|symmetry; by apply (Hfresh j b)|by apply (Hfresh i a)|by eapply H2].
  - intros j p. rewrite Ee. intros Hp. destruct (H3 j p Hp). auto.
  - intros k m. rewrite Em, Eu. intros Hm. destruct (H4 k m Hm) as (? & ? & ? & ?). auto.
  - rewrite Em. exact H5.
  - intros j h Hj Hs. rewrite Eg, Ee. split; [|done]. rewrite lookup_insert_ne; [done|]. intros ->.
    rewrite (Hold h Hj) in Hs. done.
Qed.

Lemma clear_entries_step id db : (exists g, t_permission_groups db !! id = Some g /\ pg_System g = false) ->
  group_step db (db <| t_permission_group_entries ::= keep_set (fun p => negb (p.1 =? id)) |>).
Proof.
  intros (g & Hg & Hn) [H0 H1 H2 H3 H4 H5]. split; [split; [done|done|done| |done|done]|].
  - intros j p. simpl. rewrite elem_of_keep_set. intros [_ Hp]. by apply H3.
  - intros j h Hj Hs. split; [done|]. intros p. simpl. rewrite elem_of_keep_set. split; [by intros [_ ?]|].
    intros Hp. split; [|done]. simpl. apply negb_true_iff, Z.eqb_neq. intros ->. congruence.
Qed.

Lemma delete_group_step id db :
  (forall g, t_permission_groups db !! id = Some g -> pg_System g = false) -> group_step db (delete_group_rows id db).
Proof.
  intros Hn [H0 H1 H2 H3 H4 H5].
  assert (Hin : forall j, j <> id -> is_Some (t_permission_groups db !! j) -> is_Some (delete id (t_permission_groups db) !! j)).
  { intros j Hj [x Hx]. exists x. by rewrite lookup_delete_ne. }
  split; [split|]; unfold delete_group_rows; simpl.
  - done.
  - intros j g [_ Hj]%lookup_delete_Some. by apply H1.
  - intros i j a b [_ Ha]%lookup_delete_Some [_ Hb]%lookup_delete_Some. by eapply H2.
  - intros j p. rewrite elem_of_keep_set. simpl. intros [Hne Hp]. destruct (H3 j p Hp). split; [|done]. apply Hin; [|done].
    by apply negb_true_iff, Z.eqb_neq in Hne.
  - intros k m [Hk Hne]%lookup_keep_keys. destruct (H4 k m Hk) as (-> & Hp & Hu & Hg). split_and!; [done|done|done|].
    apply Hin; [|done]. simpl in Hne. by apply negb_true_iff, Z.eqb_neq in Hne.
  - intros j k m n [Hj _]%lookup_keep_keys [Hk _]%lookup_keep_keys. by apply H5.
  - intros j g Hj Hs. assert (j <> id) by (intros ->; rewrite (Hn g Hj) in Hs; done).
    unfold delete_group_rows. simpl. rewrite lookup_delete_ne by done.
    split; [done|]. intros p. rewrite elem_of_keep_set. simpl. split; [by intros [_ ?]|]. intros Hp. split; [|done].
    by apply negb_true_iff, Z.eqb_neq.
Qed.

Lemma delete_user_step id db : group_step db (delete_user_rows id db).
Proof.
  intros [H0 H1 H2 H3 H4 H5]. split; [split; [done|done|done|done| |]|done]; unfold delete_user_rows; simpl.
  - intros k m [Hk Hne]%lookup_keep_keys. destruct (H4 k m Hk) as (-> & Hp & Hu & Hg). split_and!; [done|done| |done].
    simpl in Hne. apply negb_true_iff, Z.eqb_neq in Hne. destruct Hu as [u Hu]. exists u. by rewrite lookup_delete_ne.
  - intros j k m n [Hj _]%lookup_keep_keys [Hk _]%lookup_keep_keys. by apply H5.
Qed.

Lemma lookup_members (userID : Z) (now : time) (l : list (Z * Z)) (m : gmap (Z * Z) UserGroupMembership) (k : Z * Z)
    (x : UserGroupMembership) : NoDup l.*2 ->
  foldl (fun (m : gmap (Z * Z) UserGroupMembership) p => <[(userID, p.2) := member_row userID now p]> m) m l !! k = Some x <->
  (exists p, p ∈ l /\ k = (userID, p.2) /\ x = member_row userID now p) \/
  ((forall p, p ∈ l -> k <> (userID, p.2)) /\ m !! k = Some x).
Proof.
  revert m. induction l as [|p l IH]; intros m Hnd; simpl.
  - split; [intros H; right; split; [by intros p ?%not_elem_of_nil|done]|]. by intros [(p & ?%not_elem_of_nil & _)|[_ H]].
  - apply NoDup_cons in Hnd as [Hp Hnd]. rewrite IH, lookup_insert_Some by done.
    assert (Hl : forall q, q ∈ l -> q.2 <> p.2) by (intros q Hq E; apply Hp; rewrite <- E; by apply list_elem_of_fmap_2).
    split.
    + intros [(q & Hq & Hk & Hx)|[Hn [[<- <-]|[Hne Hm]]]]; [left; exists q; split; [by right|done]|left; exists p; split; [by left|done]|].
      right. split; [|done]. intros q [->|Hq]%elem_of_cons; [congruence|by apply Hn].
    + intros [(q & [->|Hq]%elem_of_cons & -> & ->)|[Hn Hm]].
      * right. split; [intros q Hq [= E]; by apply (Hl q Hq)|]. by left.
      * left. by exists q.
      * right. split; [intros q Hq; apply Hn; by right|]. right. split; [|done]. intros <-. by apply (Hn p); [left|].
Qed.

Lemma numbered_snd {A} (l : list A) : (numbered l).*2 = l.
Proof. unfold numbered. rewrite fmap_imap. induction l using rev_ind; [done|]. rewrite imap_app. simpl. by rewrite IHl. Qed.

Lemma numbered_fst {A} (l : list A) : (numbered l).*1 = map Z.of_nat (seq 0 (length l)).
Proof.
  unfold numbered. rewrite fmap_imap. induction l using rev_ind; [done|].
  rewrite imap_app, length_app, seq_app, map_app. simpl. rewrite IHl. f_equal. f_equal. simpl. lia.
Qed.

Lemma elem_of_numbered {A} (l : list A) p : p ∈ numbered l <-> exists i, l !! i = Some p.2 /\ p.1 = Z.of_nat i.
Proof.
  unfold numbered. rewrite elem_of_lookup_imap. destruct p as [z a]. simpl. naive_solver.
Qed.

Lemma members_step userID now ids db :
  let l := numbered (positive_ids ids) in
  (l <> [] -> is_Some (t_users db !! userID)) -> Forall (fun p => is_Some (t_permission_groups db !! p.2)) l ->
  group_step db (add_members userID now l (db <| t_user_group_memberships ::= keep_keys (fun k => negb (k.1 =? userID)) |>)).
Proof.
  intros l Hu Hg [H0 H1 H2 H3 H4 H5]. rewrite Forall_forall in Hg.
  assert (Hnd : NoDup l.*2) by (unfold l; rewrite numbered_snd; apply NoDup_dedup_seen).
  assert (Hat : forall k m, t_user_group_memberships (add_members userID now l
      (db <| t_user_group_memberships ::= keep_keys (fun k => negb (k.1 =? userID)) |>)) !! k = Some m ->
    (exists i, positive_ids ids !! i = Some k.2 /\ k.1 = userID /\ m = member_row userID now (Z.of_nat i, k.2) /\ (Z.of_nat i, k.2) ∈ l) \/
    (k.1 <> userID /\ t_user_group_memberships db !! k = Some m)).
  { intros k m [(p & Hp & -> & ->)|[_ [Hm Hne]%lookup_keep_keys]]%lookup_members; [| |done].
    - left. pose proof Hp as (i & Hi & E)%elem_of_numbered. exists i. destruct p as [z g]. simpl in *. by subst z.
    - right. split; [|done]. by apply negb_true_iff, Z.eqb_neq in Hne. }
  split; [split; [done|done|done|done| |]|done].
  - intros k m [(i & Hi & Hk & -> & Hl)|[_ Hm]]%Hat; [|by apply H4]. destruct k as [u g]. simpl in *. subst u.
    split_and!; [done|lia| |by apply (Hg _ Hl)]. apply Hu. by intros E; rewrite E in Hl; apply not_elem_of_nil in Hl.
  - intros j k m n [(i & Hi & Hj & -> & _)|[Hj Hm]]%Hat [(i' & Hi' & Hk & -> & _)|[Hk Hn]]%Hat Hus Hpr; simpl in *.
    + destruct j, k. simpl in *. assert (i = i') as -> by lia. congruence.
    + destruct (H4 _ _ Hn) as (E & _). rewrite E in Hk. simpl in Hk. congruence.
    + destruct (H4 _ _ Hm) as (E & _). rewrite E in Hj. simpl in Hj. congruence.
    + by apply (H5 j k m n).
Qed.

(* ------------------------------------------------------------------ *)
(** ** The operations *)

Lemma no_group_yet db g : groups_ok db -> t_permission_groups db !! next_id "permission_groups" db = Some g -> False.
Proof. intros Hok Hg. destruct (go_group _ Hok _ _ Hg) as (_ & Hb & _). unfold last_group_id, next_id in Hb. lia. Qed.

Lemma insert_group_step g db : TrimSpace (pg_Name g) = pg_Name g -> pg_Name g <> "" ->
  name_free (pg_Name g) 0 db = true ->
  group_step db ((take_id "permission_groups" db)
    <| t_permission_groups ::= <[next_id "permission_groups" db := g <| pg_ID := next_id "permission_groups" db |>]> |>).
Proof.
  intros Ht Hne Hfree Hok. pose proof (go_seq _ Hok). set (id := next_id "permission_groups" db).
  assert (Hl : last_group_id ((take_id "permission_groups" db) <| t_permission_groups ::= <[id := g <| pg_ID := id |>]> |>) = id)
    by (unfold last_group_id, take_id; simpl; by rewrite lookup_insert_eq).
  set (db' := (take_id "permission_groups" db) <| t_permission_groups ::= <[id := g <| pg_ID := id |>]> |>) in *.
  refine (set_group_step id (g <| pg_ID := id |>) db db' eq_refl eq_refl eq_refl eq_refl _ _ eq_refl Ht Hne _ _ Hok).
  - rewrite Hl. unfold id, next_id, last_group_id. lia.
  - rewrite Hl. unfold id, next_id, last_group_id in *. lia.
  - unfold name_free in *. destruct (find_row _ _) eqn:E; [done|]. simpl.
    assert (E' : find_row (fun h => String.eqb (pg_Name h) (pg_Name g) && negb (pg_ID h =? id)) (t_permission_groups db) = None).
    { apply find_row_None. intros k h Hk. pose proof (proj1 (find_row_None _ _) E k h Hk) as Hf. cbv beta in Hf.
      destruct (go_group _ Hok _ _ Hk) as (Hi & Hb & _). apply andb_false_iff in Hf as [->|Hf]; [done|].
      apply negb_false_iff, Z.eqb_eq in Hf. lia. }
    by rewrite E'.
  - intros g0 Hg0. by destruct (no_group_yet _ _ Hok Hg0).
Qed.

(** The tables after a group was created, and after one was changed. *)
Definition new_group_row (id : Z) (name description template : string) (system : bool) (now : time) : PermissionGroup :=
  mkPermissionGroup id (TrimSpace name) (TrimSpace description) (TrimSpace template) system now now.

Definition group_added (name description template : string) (system : bool) (perms : list string) (now : time) (db : DB) : DB :=
  let id := next_id "permission_groups" db in
  add_entries id (dedupPerms perms)
    ((take_id "permission_groups" db) <| t_permission_groups ::= <[id := new_group_row id name description template system now]> |>).

Definition group_changed (id : Z) (name description template : string) (perms : list string) (now : time) (db : DB) : DB :=
  add_entries id (dedupPerms perms)
    (db <| t_permission_groups ::= alter (fun g => g <| pg_Name := TrimSpace name |> <| pg_Description := TrimSpace description |>
                                            <| pg_Template := TrimSpace template |> <| pg_UpdatedAt := now |>) id |>
        <| t_permission_group_entries ::= keep_set (fun p => negb (p.1 =? id)) |>).

Lemma create_group_wp name description template system perms e :
  wp (CreatePermissionGroup name description template system perms) (fun r e' =>
    e_db e' = e_db e \/
    (TrimSpace name <> "" /\ name_free (TrimSpace name) 0 (e_db e) = true /\
     e_db e' = group_added name description template system perms (e_now e) (e_db e))) e.
Proof.
  unfold CreatePermissionGroup. cbv zeta. apply wp_bind, wp_fail_if; [by left|]. intros Hn%String.eqb_neq. cbv beta iota.
  apply wp_bind, wp_gets. cbv beta iota. apply wp_bind. eapply wp_mono.
  - apply (wp_transaction_cases _ (fun _ d => name_free (TrimSpace name) 0 (e_db e) = true /\
      d = group_added name description template system perms (e_now e) (e_db e))). intros fs.
    apply wp_bind. unfold insert_group. apply wp_bind, wp_exec_checked; intros fs2; [done| |done]. intros Hfree.
    apply wp_gets. set (e1 := _ <| e_faults := fs2 |>).
    assert (Hid : default 0 (t_sqlite_sequence (e_db e1) !! "permission_groups") = next_id "permission_groups" (e_db e))
      by (unfold e1, take_id; simpl; by rewrite lookup_insert_eq).
    rewrite Hid. apply wp_bind. eapply wp_mono; [apply insert_entries_wp|]. intros [[]|x] e2 H2; [|done].
    apply wp_ret. intros a _. split; [exact Hfree|]. by destruct (H2 eq_refl) as [-> _].
  - intros [id|x] e' H; [|by left]. cbv beta iota. eapply (wp_keeps (same (fun d => d))).
    + apply keeps_query_row.
    + intros r e2 [-> _]. right. split; [done|exact H].
Qed.

Lemma update_group_wp id name description template perms e :
  wp (UpdatePermissionGroup id name description template perms) (fun r e' =>
    e_db e' = e_db e \/
    (exists g, t_permission_groups (e_db e) !! id = Some g /\ pg_System g = false) /\
    TrimSpace name <> "" /\ name_free (TrimSpace name) id (e_db e) = true /\
    e_db e' = group_changed id name description template perms (e_now e) (e_db e)) e.
Proof.
  unfold UpdatePermissionGroup. cbv zeta. apply wp_bind, wp_fail_if; [by left|]. intros _.
  apply wp_bind, wp_fail_if; [by left|]. intros Hn%String.eqb_neq. apply wp_bind, wp_gets. cbv beta iota.
  eapply wp_mono.
  - apply (wp_transaction_cases _ (fun _ d => (exists g, t_permission_groups (e_db e) !! id = Some g /\ pg_System g = false) /\
      name_free (TrimSpace name) id (e_db e) = true /\ d = group_changed id name description template perms (e_now e) (e_db e))).
    intros fs. apply wp_bind, wp_query_row; intros fs1; [done| |done]. intros sys Hsys. cbv beta iota.
    apply wp_bind, wp_fail_if; [done|]. intros ->. cbv beta iota. apply fmap_Some in Hsys as (g & Hg & Hns). symmetry in Hns. simpl in Hg.
    apply wp_bind, wp_exec_checked; intros fs2; [done| |done]. intros Hfree. cbv beta iota. simpl in Hfree.
    apply wp_bind, wp_gets. cbv beta iota. apply wp_bind. case_bool_decide; [|done]. apply wp_ret.
    apply wp_bind, wp_exec; intros fs3; [done|]. eapply wp_mono; [apply insert_entries_wp|]. intros r e2 H2 a ->.
    destruct (H2 eq_refl) as [-> _]. split; [by exists g|]. split; [exact Hfree|done].
  - intros [u|x] e' H; [|by left]. right. destruct H as (Hg & Hf & Hd). done.
Qed.

Lemma delete_group_wp id e :
  wp (DeletePermissionGroup id) (fun r e' => e_db e' = e_db e \/
    (exists g, t_permission_groups (e_db e) !! id = Some g /\ pg_System g = false) /\ e_db e' = delete_group_rows id (e_db e)) e.
Proof.
  unfold DeletePermissionGroup. apply wp_bind, wp_fail_if; [by left|]. intros _. cbv beta iota.
  apply wp_bind, wp_query_row; intros fs; [by left| |by left]. intros sys Hsys. cbv beta iota.
  apply wp_bind, wp_fail_if; [by left|]. intros ->. cbv beta iota. apply fmap_Some in Hsys as (g & Hg & Hns).
  apply wp_exec; intros fs2; [by left|]. right. split; [by exists g|done].
Qed.

Lemma group_added_step name description template system perms now db :
  TrimSpace name <> "" -> name_free (TrimSpace name) 0 db = true ->
  group_step db (group_added name description template system perms now db).
Proof.
  intros Hn Hf. apply add_entries_step.
  - intros _. simpl. rewrite lookup_insert_eq. eauto.
  - apply Forall_forall. intros p. apply dedupPerms_stored.
  - intros Hok g0 Hg0. by destruct (no_group_yet _ _ Hok Hg0).
  - apply (insert_group_step (new_group_row 0 name description template system now) db); [apply TrimSpace_idem|done..].
Qed.

Lemma group_changed_step id name description template perms now db g :
  t_permission_groups db !! id = Some g -> pg_System g = false -> TrimSpace name <> "" -> name_free (TrimSpace name) id db = true ->
  group_step db (group_changed id name description template perms now db).
Proof.
  intros Hg Hs Hn Hf. set (f := fun g : PermissionGroup => g <| pg_Name := TrimSpace name |> <| pg_Description := TrimSpace description |>
    <| pg_Template := TrimSpace template |> <| pg_UpdatedAt := now |>).
  set (db1 := db <| t_permission_groups ::= alter f id |>).
  assert (Hg1 : t_permission_groups db1 !! id = Some (f g)) by (simpl; by rewrite lookup_alter_eq, Hg).
  apply add_entries_step.
  - intros _. by exists (f g).
  - apply Forall_forall. intros p. apply dedupPerms_stored.
  - intros _ g0 Hg0. congruence.
  - transitivity db1; [|apply (clear_entries_step id db1); by exists (f g)].
    intros Hok. pose proof (go_seq _ Hok). destruct (go_group _ Hok _ _ Hg) as (Hi & Hb & _). revert Hok.
    apply (set_group_step id (f g)); try done.
    + simpl. apply map_eq. intros k. destruct (decide (k = id)) as [->|]; [by rewrite lookup_alter_eq, lookup_insert_eq, Hg|].
      by rewrite lookup_alter_ne, lookup_insert_ne.
    + apply TrimSpace_idem.
    + intros g0 Hg0. congruence.
Qed.

Lemma CreatePermissionGroup_step name description template system perms :
  keeps (steps group_step) (CreatePermissionGroup name description template system perms).
Proof.
  intros e. unfold steps. apply (wp_apply _ (fun _ e' => group_step (e_db e) (e_db e'))). eapply wp_mono; [apply create_group_wp|].
  intros r e' [->|(Hn & Hf & ->)]; [reflexivity|by apply group_added_step].
Qed.

Lemma UpdatePermissionGroup_step id name description template perms :
  keeps (steps group_step) (UpdatePermissionGroup id name description template perms).
Proof.
  intros e. unfold steps. apply (wp_apply _ (fun _ e' => group_step (e_db e) (e_db e'))). eapply wp_mono; [apply update_group_wp|].
  intros r e' [->|((g & Hg & Hs) & Hn & Hf & ->)]; [reflexivity|by apply (group_changed_step _ _ _ _ _ _ _ g)].
Qed.

Lemma DeletePermissionGroup_step id : keeps (steps group_step) (DeletePermissionGroup id).
Proof.
  intros e. unfold steps. apply (wp_apply _ (fun _ e' => group_step (e_db e) (e_db e'))). eapply wp_mono; [apply delete_group_wp|].
  intros r e' [->|[(g & Hg & Hs) ->]]; [reflexivity|]. apply delete_group_step. intros g0 Hg0. congruence.
Qed.

Lemma SetUserGroupMemberships_step userID ids : keeps (steps group_step) (SetUserGroupMemberships userID ids).
Proof.
  unfold SetUserGroupMemberships. apply keeps_bind; [typeclasses eauto|apply keeps_fail_if; typeclasses eauto|intros _].
  apply keeps_bind; [typeclasses eauto|apply keeps_Now; typeclasses eauto|intros now].
  apply steps_transaction; [typeclasses eauto|]. intros e. apply wp_bind, wp_exec; intros fs; [by intros|].
  eapply wp_mono; [apply insert_memberships_wp|]. intros r e2 H2 Hr. destruct (H2 Hr) as (-> & Hu & Hg).
  by apply members_step.
Qed.

(** The operations on groups, and the deletion of an account. *)
Inductive group_op :=
| OpCreateGroup (name description template : string) (system : bool) (perms : list string)
| OpUpdateGroup (id : Z) (name description template : string) (perms : list string)
| OpDeleteGroup (id : Z)
| OpSetMemberships (userID : Z) (ids : list Z)
| OpDeleteUser (userID : Z).

Definition run_group_op (op : group_op) : SM unit :=
  match op with
  | OpCreateGroup n d t s p => ignore (CreatePermissionGroup n d t s p)
  | OpUpdateGroup id n d t p => ignore (UpdatePermissionGroup id n d t p)
  | OpDeleteGroup id => ignore (DeletePermissionGroup id)
  | OpSetMemberships u ids => ignore (SetUserGroupMemberships u ids)
  | OpDeleteUser u => ignore (DeleteUser u)
  end.

Lemma group_ops_step ops : keeps (steps group_step) (for_each run_group_op ops).
Proof.
  apply keeps_for_each; [typeclasses eauto|]. intros [n d t s p|id n d t p|id|u ids|u]; apply keeps_ignore.
  - apply CreatePermissionGroup_step.
  - apply UpdatePermissionGroup_step.
  - apply DeletePermissionGroup_step.
  - apply SetUserGroupMemberships_step.
  - apply steps_exec; [typeclasses eauto|]. apply delete_user_step.
Qed.

(** The tables of the permission groups stay well formed through any run of their
    operations, driver failures and deleted accounts included: names are unique
    and not blank, every permission and every membership belongs to a group that
    exists, no two groups of a user have the same priority; and a system group
    keeps its row and its permissions, whatever is asked. *)
Theorem groups_stay_ok ops e :
  groups_ok (e_db e) ->
  groups_ok (e_db (for_each run_group_op ops e).2) /\ system_kept (e_db e) (e_db (for_each run_group_op ops e).2).
Proof. apply group_ops_step. Qed.

Definition groups_demo_db : DB := empty_DB <| t_users := {[7 := new_user 7 "ann" "admin" "local" "" false "" 0]} |>.
Definition groups_demo : list group_op :=
  [OpCreateGroup " Auditor " "" "auditor" true ["logs:read"; " Hosts:Read"; "logs:read"];
   OpCreateGroup "Night shift" "" "" false ["hosts:write"];
   OpCreateGroup "Auditor" "again" "" false [];
   OpUpdateGroup 1 "Owned" "" "" ["users:write"];
   OpSetMemberships 7 [2; 1; 2; -1];
   OpSetMemberships 7 [1; 9];
   OpDeleteGroup 1].

Lemma groups_stay_ok_witness :
  groups_ok groups_demo_db /\
  let db := e_db (for_each run_group_op groups_demo (clean groups_demo_db 5)).2 in
  groups_ok db /\ map pg_Name (order_by group_le (rows (t_permission_groups db))) = ["Auditor"; "Night shift"] /\
  group_perms 1 db = ["hosts:read"; "logs:read"] /\
  map (fun m => (gm_GroupName m, gm_Priority m)) (user_memberships 7 db) = [("Night shift", 1); ("Auditor", 2)].
Proof.
  assert (H : groups_ok groups_demo_db).
  { split; simpl; try done; intros *; first [by intros ?%lookup_empty_Some|set_solver]. }
  split; [exact H|]. split; [exact (proj1 (groups_stay_ok groups_demo (clean groups_demo_db 5) H))|]. vm_compute. done.
Defined.

(* ------------------------------------------------------------------ *)
(** ** Memberships are read back in the order they were set *)

Lemma member_le_total x y : member_le x y = true \/ member_le y x = true.
Proof. unfold member_le. zcase. Qed.
Lemma member_le_trans x y z : member_le x y = true -> member_le y z = true -> member_le x z = true.
Proof. unfold member_le. zcase. Qed.

(** The list of the user's groups, as the join shows them. *)
Definition shown (userID : Z) (now : time) (db : DB) (p : Z * Z) : UserGroupMembership :=
  default zero_UserGroupMembership (join_group db (member_row userID now p)).

Lemma shown_columns userID now db p : is_Some (t_permission_groups db !! p.2) ->
  join_group db (member_row userID now p) = Some (shown userID now db p) /\
  gm_GroupID (shown userID now db p) = p.2 /\ gm_Priority (shown userID now db p) = p.1 + 1 /\
  gm_UserID (shown userID now db p) = userID.
Proof. intros [g Hg]. unfold shown, join_group. simpl. by rewrite Hg. Qed.

Lemma numbered_sorted userID now db ids : Forall (fun g => is_Some (t_permission_groups db !! g)) ids ->
  StronglySorted (fun x y => member_le x y = true) (shown userID now db <$> numbered ids).
Proof.
  unfold numbered. revert ids. refine (rev_ind _ _ _); [constructor|]. intros g ids IH [Hall Hg]%Forall_app.
  rewrite imap_app, fmap_app. apply StronglySorted_app_2; [|apply IH, Hall|simpl; repeat constructor].
  intros x y Hx Hy. apply list_elem_of_fmap in Hx as (p & -> & Hp). apply (elem_of_numbered ids) in Hp as (i & Hi & Ei).
  apply list_elem_of_singleton in Hy as ->. simpl. apply Forall_inv in Hg.
  assert (Hx : is_Some (t_permission_groups db !! p.2)) by (rewrite Forall_forall in Hall; apply Hall; by eapply list_elem_of_lookup_2).
  destruct (shown_columns userID now db p Hx) as (_ & _ & Ep & _).
  destruct (shown_columns userID now db (Z.of_nat (length ids + 0), g) Hg) as (_ & _ & Eq & _).
  apply lookup_lt_Some in Hi. unfold member_le. rewrite Ep, Eq, Ei. cbn [fst].
  rewrite (proj2 (Z.eqb_neq _ _)), (proj2 (Z.ltb_lt _ _)) by lia. done.
Qed.

(** The rows of the user after his memberships were set, before they are sorted. *)
Lemma set_rows_perm userID now ids d (l := numbered (positive_ids ids)) db :
  groups_ok d -> groups_ok db -> Forall (fun p => is_Some (t_permission_groups d !! p.2)) l ->
  db = add_members userID now l (d <| t_user_group_memberships ::= keep_keys (fun k => negb (k.1 =? userID)) |>) ->
  shown userID now db <$> l ≡ₚ omap (join_group db) (List.filter (fun m => gm_UserID m =? userID) (rows (t_user_group_memberships db))).
Proof.
  intros Hok Hok' Hg Hdb.
  assert (Hnd : NoDup l.*2) by (unfold l; rewrite numbered_snd; apply NoDup_dedup_seen).
  assert (Eg : t_permission_groups db = t_permission_groups d) by by rewrite Hdb.
  assert (El : omap (join_group db) (member_row userID now <$> l) = shown userID now db <$> l).
  { clear Hdb. rewrite Forall_forall in Hg. revert Hg. clear -Eg. induction l as [|p l' IH]; intros Hg; simpl; [done|].
    destruct (shown_columns userID now db p) as (-> & _); [rewrite Eg; apply Hg; by left|]. f_equal. apply IH.
    intros q Hq. apply Hg. by right. }
  rewrite <- El. apply omap_Permutation. apply NoDup_Permutation.
  - rewrite Hdb in *. clear -Hnd. induction l as [|p l' IH]; simpl; [constructor|]. apply NoDup_cons in Hnd as [Hp Hnd].
    constructor; [|by apply IH]. intros (q & E & Hq)%list_elem_of_fmap. apply Hp. injection E as E _. rewrite E. by apply list_elem_of_fmap_2.
  - apply NoDup_ListNoDup, List.NoDup_filter, NoDup_ListNoDup, rows_NoDup. intros j k x Hj Hk.
    destruct (go_member _ Hok' _ _ Hj) as (-> & _), (go_member _ Hok' _ _ Hk) as (-> & _). done.
  - intros m. rewrite elem_of_selected, elem_of_rows. rewrite Hdb. clear Hdb El. split.
    + intros (p & -> & Hp)%list_elem_of_fmap. split; [|by apply Z.eqb_eq]. exists (userID, p.2).
      apply lookup_members; [done|]. left. by exists p.
    + intros [(k & Hk) Hu%Z.eqb_eq]. apply lookup_members in Hk; [|done]. destruct Hk as [(p & Hp & _ & ->)|[_ Hk]].
      * by apply list_elem_of_fmap_2.
      * apply lookup_keep_keys in Hk as [Hk Hne]. destruct (go_member _ Hok _ _ Hk) as (-> & _). simpl in Hne.
        rewrite Hu, Z.eqb_refl in Hne. done.
Qed.

(** The order tells the places of a list apart. *)
Lemma shown_order userID now db ids p q :
  is_Some (t_permission_groups db !! p.2) -> is_Some (t_permission_groups db !! q.2) ->
  p ∈ numbered ids -> q ∈ numbered ids ->
  member_le (shown userID now db p) (shown userID now db q) = true ->
  member_le (shown userID now db q) (shown userID now db p) = true -> p = q.
Proof.
  intros Gp Gq (i & Hi & Ei)%elem_of_numbered (j & Hj & Ej)%elem_of_numbered.
  destruct (shown_columns userID now db p Gp) as (_ & _ & Pp & _), (shown_columns userID now db q Gq) as (_ & _ & Pq & _).
  unfold member_le. rewrite Pp, Pq, Ei, Ej. destruct p as [z g], q as [z' g']. simpl in *. subst z z'.
  destruct (decide (i = j)) as [->|Hne]; [congruence|].
  rewrite (proj2 (Z.eqb_neq _ _)), (proj2 (Z.eqb_neq _ _)) by lia. intros ?%Z.ltb_lt ?%Z.ltb_lt. lia.
Qed.

Lemma set_memberships_wp userID ids e : wp (SetUserGroupMemberships userID ids) (fun r e' => forall u, r = Ok u ->
    let l := numbered (positive_ids ids) in
    Forall (fun p => is_Some (t_permission_groups (e_db e) !! p.2)) l /\
    exists now, e_db e' = add_members userID now l ((e_db e) <| t_user_group_memberships ::= keep_keys (fun k => negb (k.1 =? userID)) |>)) e.
Proof.
  unfold SetUserGroupMemberships. apply wp_bind, wp_fail_if; [done|]. intros _. cbv beta iota.
  apply wp_bind, wp_gets. cbv beta iota.
  apply (wp_transaction _ (fun _ d => let l := numbered (positive_ids ids) in
    Forall (fun p => is_Some (t_permission_groups (e_db e) !! p.2)) l /\
    exists now, d = add_members userID now l ((e_db e) <| t_user_group_memberships ::= keep_keys (fun k => negb (k.1 =? userID)) |>))).
  intros fs. apply wp_bind, wp_exec; intros fs2; [done|]. eapply wp_mono; [apply insert_memberships_wp|].
  intros r e2 H2 u ->. destruct (H2 eq_refl) as (-> & _ & Hg). split; [exact Hg|]. by exists (e_now e).
Qed.

(** The groups of a user are read back in the order they were set, each once and
    without the ids that are none: the list [ListUserGroupMemberships] gives has
    the groups asked for, with priorities 1, 2, 3 and so on. *)
Theorem membership_round_trip userID ids e e' now rnd :
  groups_ok (e_db e) -> SetUserGroupMemberships userID ids e = (Ok tt, e') ->
  exists l, ListUserGroupMemberships userID (mkEnv (e_db e') now [] rnd) = (Ok l, mkEnv (e_db e') now [] rnd) /\
    map gm_GroupID l = positive_ids ids /\
    map gm_Priority l = map (fun i => Z.of_nat i + 1) (seq 0 (length (positive_ids ids))).
Proof.
  intros Hok Hrun. pose proof (SetUserGroupMemberships_step userID ids e Hok) as [Hok' _].
  destruct (wp_run _ _ _ _ _ (set_memberships_wp userID ids e) Hrun tt eq_refl) as (Hg & t & Hdb).
  rewrite Hrun in Hok'. simpl in Hok'. set (db := e_db e') in *.
  exists (user_memberships userID db). split; [done|].
  assert (Hin : forall p, p ∈ numbered (positive_ids ids) -> is_Some (t_permission_groups db !! p.2))
    by (rewrite Hdb; by apply Forall_forall).
  assert (El : user_memberships userID db = shown userID t db <$> numbered (positive_ids ids)).
  { pose proof (set_rows_perm userID t ids (e_db e) db Hok Hok' Hg Hdb) as Hperm.
    apply order_by_unique; [apply member_le_total|apply member_le_trans| |exact Hperm|].
    - apply numbered_sorted. rewrite <- (numbered_snd (positive_ids ids)). apply Forall_fmap, Forall_forall. exact Hin.
    - intros x y. rewrite <- (elem_of_Permutation_proper x _ _ Hperm), <- (elem_of_Permutation_proper y _ _ Hperm).
      intros (p & -> & Hp)%list_elem_of_fmap (q & -> & Hq)%list_elem_of_fmap Hxy Hyx.
      by rewrite (shown_order userID t db (positive_ids ids) p q (Hin p Hp) (Hin q Hq) Hp Hq Hxy Hyx). }
  rewrite El. unfold fmap. split.
  - rewrite <- (numbered_snd (positive_ids ids)) at 2. rewrite map_map. apply map_ext_in. intros p Hp%list_elem_of_In.
    by destruct (shown_columns userID t db p (Hin p Hp)) as (_ & -> & _).
  - transitivity (map (fun z => z + 1) (numbered (positive_ids ids)).*1).
    + rewrite map_map. unfold fmap. rewrite map_map. apply map_ext_in. intros p Hp%list_elem_of_In.
      by destruct (shown_columns userID t db p (Hin p Hp)) as (_ & _ & -> & _).
    + by rewrite numbered_fst, map_map.
Qed.

Definition members_demo : Env := (for_each run_group_op groups_demo (clean groups_demo_db 5)).2.

Lemma membership_round_trip_witness :
  exists e' : Env, SetUserGroupMemberships 7 [2; 0; 1; 2] members_demo = (Ok tt, e') /\
  exists l, ListUserGroupMemberships 7 (mkEnv (e_db e') 9 [] []) = (Ok l, mkEnv (e_db e') 9 [] []) /\
    map gm_GroupID l = [2; 1] /\ map gm_Priority l = [1; 2].
Proof.
  destruct (SetUserGroupMemberships 7 [2; 0; 1; 2] members_demo) as [r e'] eqn:E.
  assert (Hr : r = Ok tt) by (change r with (r, e').1; rewrite <- E; vm_compute; done). subst r.
  exists e'. split; [done|]. apply (membership_round_trip 7 [2; 0; 1; 2] members_demo e' 9 []); [|exact E].
  apply (group_ops_step groups_demo (clean groups_demo_db 5)). split; simpl; try done; intros *; first [by intros ?%lookup_empty_Some|set_solver].
Defined.
