(* ===== verification/StoreBastion.v ===== *)
(** [internal/store/store.go]: the routes and keys of the SSH bastion. *)

From S2P Require Import Prelude GoString GoMonad GoTime Model StoreDB.

(* ------------------------------------------------------------------ *)
(** ** Routes *)

Definition route_by_fqdn (fqdn : string) (db : DB) : option SSHBastionRoute :=
  find_row (fun r => String.eqb (sb_FQDN r) fqdn) (t_ssh_bastion_routes db).

Definition GetSSHBastionRouteByFQDN (fqdn : string) : SM SSHBastionRoute := query_row (route_by_fqdn (norm fqdn)).
Definition GetSSHBastionRouteByID (id : Z) : SM SSHBastionRoute := query_row (fun db => t_ssh_bastion_routes db !! id).
Definition ListSSHBastionRoutes : SM (list SSHBastionRoute) :=
  query (fun db => order_by (asc_text sb_FQDN) (rows (t_ssh_bastion_routes db))).
Definition DeleteSSHBastionRoute (id : Z) : SM unit := exec (delete_bastion_route_rows id).

Definition bad_route (r : SSHBastionRoute) : bool :=
  String.eqb (sb_FQDN r) "" || String.eqb (sb_TargetHost r) "" || (sb_TargetPort r <=? 0) || (65535 <? sb_TargetPort r).

(** [INSERT ... ON CONFLICT(fqdn) DO UPDATE] *)
Definition upsert_route (r : SSHBastionRoute) (now : time) (db : DB) : DB :=
  match route_by_fqdn (sb_FQDN r) db with
  | Some old => db <| t_ssh_bastion_routes ::= <[sb_ID old :=
      old <| sb_TargetHost := sb_TargetHost r |> <| sb_TargetPort := sb_TargetPort r |>
          <| sb_Enabled := sb_Enabled r |> <| sb_UpdatedAt := now |>]> |>
  | None =>
      let id := next_id "ssh_bastion_routes" db in
      (take_id "ssh_bastion_routes" db) <| t_ssh_bastion_routes ::= <[id :=
        r <| sb_ID := id |> <| sb_CreatedAt := now |> <| sb_UpdatedAt := now |>]> |>
  end.

Definition UpsertSSHBastionRoute (inp : SSHBastionRoute) : SM SSHBastionRoute :=
  let inp := inp <| sb_FQDN ::= norm |> <| sb_TargetHost ::= TrimSpace |> in
  fail_if (bad_route inp) "invalid ssh bastion route" ≫= fun _ =>
  now ← Now;
  if 0 <? sb_ID inp then
    exec_checked
      (fun db => match route_by_fqdn (sb_FQDN inp) db with
                 | Some old => (sb_ID old =? sb_ID inp)
                               || negb (bool_decide (is_Some (t_ssh_bastion_routes db !! sb_ID inp)))
                 | None => true end)
      (fun db => db <| t_ssh_bastion_routes ::= alter (fun old =>
         old <| sb_FQDN := sb_FQDN inp |> <| sb_TargetHost := sb_TargetHost inp |>
             <| sb_TargetPort := sb_TargetPort inp |> <| sb_Enabled := sb_Enabled inp |>
             <| sb_UpdatedAt := now |>) (sb_ID inp) |>) ≫= fun _ =>
    GetSSHBastionRouteByID (sb_ID inp)
  else
    exec (upsert_route inp now) ≫= fun _ => GetSSHBastionRouteByFQDN (sb_FQDN inp).

(* ------------------------------------------------------------------ *)
(** ** Keys *)

(** The routes of a key, in the order of their ids. *)
Definition key_route_ids (keyID : Z) (db : DB) : list Z :=
  order_by Z.leb (map snd (List.filter (fun p => p.1 =? keyID) (elements (t_ssh_bastion_key_routes db)))).

Definition key_by_fingerprint (fp : string) (db : DB) : option SSHBastionKey :=
  find_row (fun k => String.eqb (bk_Fingerprint k) fp) (t_ssh_bastion_keys db).

Definition with_routes (k : SSHBastionKey) (ids : list Z) : SSHBastionKey := k <| bk_RouteIDs := ids |>.

Definition GetSSHBastionKeyByID (id : Z) : SM SSHBastionKey :=
  k ← query_row (fun db => t_ssh_bastion_keys db !! id);
  ids ← query (key_route_ids (bk_ID k));
  mret (with_routes k ids).

(** The loop of the insertions inside the transaction. *)
Fixpoint insert_key_routes (keyID : Z) (routeIDs : list Z) : SM unit :=
  match routeIDs with
  | [] => mret tt
  | rid :: l =>
      (if rid <=? 0 then mret tt
       else exec_checked
              (fun db => bool_decide (is_Some (t_ssh_bastion_routes db !! rid))
                         && negb (bool_decide ((keyID, rid) ∈ t_ssh_bastion_key_routes db)))
              (fun db => db <| t_ssh_bastion_key_routes ::= union {[(keyID, rid)]} |>)) ≫= fun _ =>
      insert_key_routes keyID l
  end.

Definition CreateSSHBastionKey (name publicKey fingerprint : string) (enabled : bool) (routeIDs : list Z)
    : SM SSHBastionKey :=
  let name := TrimSpace name in
  let publicKey := TrimSpace publicKey in
  let fingerprint := TrimSpace fingerprint in
  fail_if (String.eqb name "" || String.eqb publicKey "" || String.eqb fingerprint "") "invalid ssh bastion key" ≫= fun _ =>
  keyID ← transaction (
    now ← Now;
    exec_checked
      (fun db => match key_by_fingerprint fingerprint db with Some _ => false | None => true end)
      (fun db => let id := next_id "ssh_bastion_keys" db in
         (take_id "ssh_bastion_keys" db) <| t_ssh_bastion_keys ::= <[id :=
           mkSSHBastionKey id name publicKey fingerprint enabled [] now now]> |>) ≫= fun _ =>
    id ← gets (fun e : Env => default 0 (t_sqlite_sequence (e_db e) !! "ssh_bastion_keys"));
    insert_key_routes id routeIDs ≫= fun _ =>
    mret id);
  GetSSHBastionKeyByID keyID.

Definition ListSSHBastionKeys : SM (list SSHBastionKey) :=
  keys ← query (fun db => order_by (fun x y => bk_ID y <=? bk_ID x) (rows (t_ssh_bastion_keys db)));
  map_each (fun k => ids ← query (key_route_ids (bk_ID k)); mret (with_routes k ids)) keys.

Definition DeleteSSHBastionKey (id : Z) : SM unit := exec (delete_bastion_key_rows id).

(** The join over the table of routes. *)
Definition routes_of_key (keyID : Z) (db : DB) : list SSHBastionRoute :=
  omap (fun id => t_ssh_bastion_routes db !! id) (key_route_ids keyID db).

Definition GetSSHBastionAuthByFingerprint (fingerprint : string) : SM SSHBastionKeyAuth :=
  k ← query_row (key_by_fingerprint (TrimSpace fingerprint));
  l ← query (routes_of_key (bk_ID k));
  mret (mkSSHBastionKeyAuth (with_routes k (map sb_ID l)) l).

(* ------------------------------------------------------------------ *)
(** ** Well-formed tables *)

(** Rows carry their key; names and fingerprints are unique; every target can be
    dialled; and the join table has no dangling end ([ON DELETE CASCADE]). *)
Record bastion_ok (db : DB) : Prop := {
  bo_route_id : forall id r, t_ssh_bastion_routes db !! id = Some r -> sb_ID r = id;
  bo_key_id : forall id k, t_ssh_bastion_keys db !! id = Some k -> bk_ID k = id;
  bo_route_good : forall id r, t_ssh_bastion_routes db !! id = Some r -> bad_route r = false;
  bo_fqdn : forall i j a b, t_ssh_bastion_routes db !! i = Some a -> t_ssh_bastion_routes db !! j = Some b ->
    sb_FQDN a = sb_FQDN b -> i = j;
  bo_fingerprint : forall i j a b, t_ssh_bastion_keys db !! i = Some a -> t_ssh_bastion_keys db !! j = Some b ->
    bk_Fingerprint a = bk_Fingerprint b -> i = j;
  bo_link : forall k r, (k, r) ∈ t_ssh_bastion_key_routes db ->
    is_Some (t_ssh_bastion_keys db !! k) /\ is_Some (t_ssh_bastion_routes db !! r);
  bo_seq : forall tbl, 0 <= default 0 (t_sqlite_sequence db !! tbl);
  bo_route_seq : forall id, is_Some (t_ssh_bastion_routes db !! id) -> 0 < id <= default 0 (t_sqlite_sequence db !! "ssh_bastion_routes");
  bo_key_seq : forall id, is_Some (t_ssh_bastion_keys db !! id) -> 0 < id <= default 0 (t_sqlite_sequence db !! "ssh_bastion_keys")
}.

Inductive bastion_op : Type :=
| OpUpsertRoute (r : SSHBastionRoute)
| OpDeleteRoute (id : Z)
| OpCreateKey (name publicKey fingerprint : string) (enabled : bool) (routeIDs : list Z)
| OpDeleteKey (id : Z).

Definition run_bastion_op (op : bastion_op) : SM unit :=
  match op with
  | OpUpsertRoute r => ignore (UpsertSSHBastionRoute r)
  | OpDeleteRoute id => ignore (DeleteSSHBastionRoute id)
  | OpCreateKey n p f b l => ignore (CreateSSHBastionKey n p f b l)
  | OpDeleteKey id => ignore (DeleteSSHBastionKey id)
  end.

(** The columns of a route that [bastion_ok] reads. *)
Lemma routes_update db m : bastion_ok db ->
  (forall id, is_Some (m !! id) <-> is_Some (t_ssh_bastion_routes db !! id)) ->
  (forall id r, m !! id = Some r -> sb_ID r = id /\ bad_route r = false) ->
  (forall i j a b, m !! i = Some a -> m !! j = Some b -> sb_FQDN a = sb_FQDN b -> i = j) ->
  bastion_ok (db <| t_ssh_bastion_routes := m |>).
Proof.
  intros [H1 H2 H3 H4 H5 H6 H0 H7 H8] Hdom Hrow Hfq. split; simpl; try done.
  - intros id r Hr. by apply Hrow.
  - intros id r Hr. by eapply Hrow.
  - intros k r Hkr. apply H6 in Hkr as [Hk Hr]. by rewrite Hdom.
  - intros id Hid. apply H7. by apply Hdom.
Qed.

Lemma seq_step db tbl : (forall t, 0 <= default 0 (t_sqlite_sequence db !! t)) ->
  forall t, 0 <= default 0 (<[tbl := next_id tbl db]> (t_sqlite_sequence db) !! t).
Proof.
  intros H t. destruct (decide (tbl = t)) as [<-|]; [|by rewrite lookup_insert_ne].
  rewrite lookup_insert_eq. simpl. unfold next_id. specialize (H tbl). lia.
Qed.

Lemma upsert_route_ok r now db : bad_route r = false -> bastion_ok db -> bastion_ok (upsert_route r now db).
Proof.
  intros Hgood Hok. pose proof Hok as [H1 H2 H3 H4 H5 H6 H0 H7 H8]. unfold upsert_route.
  destruct (route_by_fqdn (sb_FQDN r) db) as [old|] eqn:E.
  - apply find_row_Some in E as [Hq%String.eqb_eq [k Hk]]. pose proof (H1 _ _ Hk) as Hid.
    set (new := old <| sb_TargetHost := _ |> <| sb_TargetPort := _ |> <| sb_Enabled := _ |> <| sb_UpdatedAt := _ |>).
    assert (Hat : forall id x, <[sb_ID old := new]> (t_ssh_bastion_routes db) !! id = Some x ->
      (id = k /\ x = new) \/ (id <> k /\ t_ssh_bastion_routes db !! id = Some x)).
    { intros id x. rewrite Hid. intros [[<- <-]|[? ?]]%lookup_insert_Some; [by left|by right]. }
    apply (routes_update db (<[sb_ID old := new]> (t_ssh_bastion_routes db))); [done| | |].
    + intros id. rewrite Hid. destruct (decide (k = id)) as [->|]; [rewrite lookup_insert_eq, Hk; split; eauto|by rewrite lookup_insert_ne].
    + intros id x [[-> ->]|[_ Hx]]%Hat; [|split; [by apply H1|by eapply H3]]. split; [done|].
      unfold bad_route in *. simpl. by rewrite Hq.
    + intros i j a b [[-> ->]|[Hi Ha]]%Hat [[-> ->]|[Hj Hb]]%Hat; simpl; intros Hab; [done|..].
      * by eapply (H4 k j).
      * by eapply (H4 i k).
      * by eapply (H4 i j).
  - assert (Hnew : forall id x, t_ssh_bastion_routes db !! id = Some x -> sb_FQDN x <> sb_FQDN r).
    { intros id x Hx Heq. pose proof (proj1 (find_row_None _ _) E id x Hx) as Hf. apply String.eqb_neq in Hf. done. }
    set (id := next_id "ssh_bastion_routes" db).
    assert (Hfresh : t_ssh_bastion_routes db !! id = None).
    { destruct (t_ssh_bastion_routes db !! id) eqn:Hx; [|done]. specialize (H7 id ltac:(eauto)). unfold id, next_id in H7. lia. }
    split; unfold take_id; simpl.
    + intros i x [[<- <-]|[_ Hx]]%lookup_insert_Some; [done|by apply H1].
    + done.
    + intros i x [[<- <-]|[_ Hx]]%lookup_insert_Some; [done|by eapply H3].
    + intros i j a b [[<- <-]|[Hi Ha]]%lookup_insert_Some [[<- <-]|[Hj Hb]]%lookup_insert_Some; simpl; intros Hab; [done|..].
      * by destruct (Hnew _ _ Hb).
      * by destruct (Hnew _ _ Ha).
      * by eapply H4.
    + done.
    + intros k x Hkx. apply H6 in Hkx as [Hk Hx]. split; [done|]. apply lookup_insert_is_Some. by destruct (decide (id = x)); [left|right].
    + apply (seq_step db "ssh_bastion_routes" H0).
    + intros i Hi. rewrite lookup_insert_eq. simpl. specialize (H0 "ssh_bastion_routes").
      apply lookup_insert_is_Some in Hi as [<-|[_ Hi]]; [|apply H7 in Hi]; unfold id, next_id; lia.
    + intros i Hi. rewrite lookup_insert_ne by done. by apply H8.
Qed.

Lemma alter_route_ok f id db : bastion_ok db ->
  (forall r, t_ssh_bastion_routes db !! id = Some r -> sb_ID (f r) = sb_ID r /\ bad_route (f r) = false) ->
  (forall r i x, t_ssh_bastion_routes db !! id = Some r -> t_ssh_bastion_routes db !! i = Some x ->
     sb_FQDN x = sb_FQDN (f r) -> i = id) ->
  bastion_ok (db <| t_ssh_bastion_routes ::= alter f id |>).
Proof.
  intros Hok Hf Huniq. pose proof Hok as [H1 H2 H3 H4 H5 H6 H0 H7 H8].
  assert (Hat : forall i x, alter f id (t_ssh_bastion_routes db) !! i = Some x ->
    (i = id /\ exists r, t_ssh_bastion_routes db !! id = Some r /\ x = f r) \/ (i <> id /\ t_ssh_bastion_routes db !! i = Some x)).
  { intros i x. rewrite lookup_alter_Some. intros [[<- (r & Hr & ->)]|[Hne Hx]]; [left; eauto|right; split; [congruence|done]]. }
  apply (routes_update db (alter f id (t_ssh_bastion_routes db))); [done| | |].
  - intros i. by rewrite lookup_alter_is_Some.
  - intros i x [[-> (r & Hr & ->)]|[_ Hx]]%Hat; [|split; [by apply H1|by eapply H3]].
    destruct (Hf r Hr) as [-> ?]. by rewrite (H1 _ _ Hr).
  - intros i j a b [[-> (r & Hr & ->)]|[Hi Ha]]%Hat [[-> (r' & Hr' & ->)]|[Hj Hb]]%Hat Hab; [done|..].
    + symmetry. by eapply Huniq.
    + by eapply Huniq.
    + by eapply H4.
Qed.

Lemma UpsertSSHBastionRoute_ok r : keeps (inv bastion_ok) (UpsertSSHBastionRoute r).
Proof.
  unfold UpsertSSHBastionRoute, GetSSHBastionRouteByID, GetSSHBastionRouteByFQDN. cbv zeta.
  set (x := r <| sb_FQDN ::= norm |> <| sb_TargetHost ::= TrimSpace |>). clearbody x.
  destruct (bad_route x) eqn:Hx; [intros e; unfold inv; done|].
  keeps_inv.
  - intros db Hchk Hok. apply alter_route_ok; [done| |].
    + intros old Hold. split; [done|]. exact Hx.
    + intros old i y Hold Hy Heq. simpl in Heq.
      destruct (route_by_fqdn (sb_FQDN x) db) as [z|] eqn:E.
      2: { pose proof (proj1 (find_row_None _ _) E i y Hy) as Hn. apply String.eqb_neq in Hn. done. }
      apply find_row_Some in E as [Hz%String.eqb_eq [k Hk]]. pose proof (bo_route_id _ Hok _ _ Hk) as Hid.
      assert (i = k) as -> by (eapply (bo_fqdn _ Hok); [exact Hy|exact Hk|congruence]).
      rewrite Hid in Hchk. apply orb_true_iff in Hchk as [Hc|Hc]; [lia|].
      apply negb_true_iff, bool_decide_eq_false in Hc. rewrite Hold in Hc. destruct Hc. eauto.
  - intros db Hok. by apply upsert_route_ok.
Qed.

Lemma DeleteSSHBastionRoute_ok id : keeps (inv bastion_ok) (DeleteSSHBastionRoute id).
Proof.
  apply keeps_inv_exec. intros db [H1 H2 H3 H4 H5 H6 H0 H7 H8]. unfold delete_bastion_route_rows. split; simpl; try done.
  - intros i r [_ Hr]%lookup_delete_Some. by apply H1.
  - intros i r [_ Hr]%lookup_delete_Some. by eapply H3.
  - intros i j a b [_ Ha]%lookup_delete_Some [_ Hb]%lookup_delete_Some. by eapply H4.
  - intros k r [Hne Hin]%elem_of_keep_set. apply H6 in Hin as [Hk Hr]. split; [done|].
    rewrite lookup_delete_ne; [done|]. intros ->. simpl in Hne. by rewrite Z.eqb_refl in Hne.
  - intros i [_ Hi]%lookup_delete_is_Some. by apply H7.
Qed.

Lemma DeleteSSHBastionKey_ok id : keeps (inv bastion_ok) (DeleteSSHBastionKey id).
Proof.
  apply keeps_inv_exec. intros db [H1 H2 H3 H4 H5 H6 H0 H7 H8]. unfold delete_bastion_key_rows. split; simpl; try done.
  - intros i r [_ Hr]%lookup_delete_Some. by apply H2.
  - intros i j a b [_ Ha]%lookup_delete_Some [_ Hb]%lookup_delete_Some. by eapply H5.
  - intros k r [Hne Hin]%elem_of_keep_set. apply H6 in Hin as [Hk Hr]. split; [|done].
    rewrite lookup_delete_ne; [done|]. intros ->. simpl in Hne. by rewrite Z.eqb_refl in Hne.
  - intros i [_ Hi]%lookup_delete_is_Some. by apply H8.
Qed.

(** The insertion of a key, whose fingerprint is new. *)
Lemma insert_key_ok name pub fp enabled now db :
  match key_by_fingerprint fp db with Some _ => false | None => true end = true -> bastion_ok db ->
  bastion_ok ((take_id "ssh_bastion_keys" db) <| t_ssh_bastion_keys ::=
    <[next_id "ssh_bastion_keys" db := mkSSHBastionKey (next_id "ssh_bastion_keys" db) name pub fp enabled [] now now]> |>).
Proof.
  intros Hchk [H1 H2 H3 H4 H5 H6 H0 H7 H8]. destruct (key_by_fingerprint fp db) as [k|] eqn:E; [done|].
  assert (Hnew : forall id x, t_ssh_bastion_keys db !! id = Some x -> bk_Fingerprint x <> fp).
  { intros id x Hx Heq. pose proof (proj1 (find_row_None _ _) E id x Hx) as Hf. by apply String.eqb_neq in Hf. }
  set (id := next_id "ssh_bastion_keys" db).
  split; unfold take_id; simpl; try done.
  - intros i x [[<- <-]|[_ Hx]]%lookup_insert_Some; [done|by apply H2].
  - intros i j a b [[<- <-]|[Hi Ha]]%lookup_insert_Some [[<- <-]|[Hj Hb]]%lookup_insert_Some; simpl; intros Hab; [done|..].
    + by destruct (Hnew _ _ Hb).
    + by destruct (Hnew _ _ Ha).
    + by eapply H5.
  - intros k r Hkr. apply H6 in Hkr as [Hk Hr]. split; [|done]. apply lookup_insert_is_Some.
    by destruct (decide (id = k)); [left|right].
  - apply (seq_step db "ssh_bastion_keys" H0).
  - intros i Hi. rewrite lookup_insert_ne by done. by apply H7.
  - intros i Hi. rewrite lookup_insert_eq. simpl. specialize (H0 "ssh_bastion_keys").
    apply lookup_insert_is_Some in Hi as [<-|[_ Hi]]; [|apply H8 in Hi]; unfold id, next_id; lia.
Qed.

(** The insertion of a link: [FOREIGN KEY(route_id)] is checked, and the key is
    there since its insertion in the same transaction. *)
Definition has_key (id : Z) (db : DB) : Prop := bastion_ok db /\ is_Some (t_ssh_bastion_keys db !! id).

Lemma insert_key_routes_ok id ids : keeps (inv (has_key id)) (insert_key_routes id ids).
Proof.
  induction ids as [|rid ids IH]; simpl; [apply keeps_ret; typeclasses eauto|].
  apply keeps_bind; [typeclasses eauto| |done]. destruct (rid <=? 0); [apply keeps_ret; typeclasses eauto|].
  apply keeps_inv_exec_checked. intros db Hchk [[H1 H2 H3 H4 H5 H6 H0 H7 H8] Hk]. split; [|done]. split; simpl; try done.
  intros k r. rewrite elem_of_union, elem_of_singleton. intros [[= -> ->]|Hin]; [|by apply H6].
  split; [done|]. apply andb_prop in Hchk as [Hr _]. by apply bool_decide_eq_true in Hr.
Qed.

Lemma key_transaction name pub fp enabled ids : keeps (inv bastion_ok) (
    now ← Now;
    exec_checked
      (fun db => match key_by_fingerprint fp db with Some _ => false | None => true end)
      (fun db => let id := next_id "ssh_bastion_keys" db in
         (take_id "ssh_bastion_keys" db) <| t_ssh_bastion_keys ::= <[id := mkSSHBastionKey id name pub fp enabled [] now now]> |>) ≫= fun _ =>
    id ← gets (fun e : Env => default 0 (t_sqlite_sequence (e_db e) !! "ssh_bastion_keys"));
    insert_key_routes id ids ≫= fun _ => mret id).
Proof.
  intros e Hok. apply (wp_apply _ (fun _ e' => bastion_ok (e_db e'))).
  apply wp_bind, wp_gets, wp_bind, wp_exec_checked; [done| |done].
  intros fs Hchk. apply wp_bind, wp_gets. set (e1 := _ <| e_faults := fs |>).
  assert (Hid : default 0 (t_sqlite_sequence (e_db e1) !! "ssh_bastion_keys") = next_id "ssh_bastion_keys" (e_db e)).
  { unfold e1, take_id. simpl. by rewrite lookup_insert_eq. }
  rewrite Hid. assert (Hk : has_key (next_id "ssh_bastion_keys" (e_db e)) (e_db e1)).
  { split; [by apply insert_key_ok|]. unfold e1. simpl. rewrite lookup_insert_eq. eauto. }
  apply wp_bind. eapply wp_keeps; [apply insert_key_routes_ok|]. intros [[]|x] e2 H2; [apply wp_ret|]; by apply H2.
Qed.

Lemma CreateSSHBastionKey_ok name pub fp enabled ids : keeps (inv bastion_ok) (CreateSSHBastionKey name pub fp enabled ids).
Proof.
  unfold CreateSSHBastionKey, GetSSHBastionKeyByID. cbv zeta. apply keeps_bind; [typeclasses eauto|apply keeps_fail_if; typeclasses eauto|].
  intros _. apply keeps_bind; [typeclasses eauto|apply keeps_inv_transaction, key_transaction|]. intros id. keeps_inv.
Qed.

Lemma bastion_run ops e :
  bastion_ok (e_db e) -> bastion_ok (e_db (for_each run_bastion_op ops e).2).
Proof.
  intros H0. assert (H : keeps (inv bastion_ok) (for_each run_bastion_op ops)); [|by apply H].
  apply keeps_for_each; [typeclasses eauto|]. intros [r|id|n p f b l|id]; apply keeps_ignore.
  - apply UpsertSSHBastionRoute_ok.
  - apply DeleteSSHBastionRoute_ok.
  - apply CreateSSHBastionKey_ok.
  - apply DeleteSSHBastionKey_ok.
Qed.

(** The tables of the bastion stay well formed through any run of its
    operations, driver failures included: every route can be dialled (a name, a
    target and a port from 1 to 65535), names and key fingerprints are unique,
    ids are never reused, and no grant points to a key or a route that is gone. *)
Theorem bastion_tables_ok ops e :
  bastion_ok (e_db e) -> bastion_ok (e_db (for_each run_bastion_op ops e).2).
Proof. apply bastion_run. Qed.

Lemma empty_bastion_ok : bastion_ok empty_DB.
Proof.
  split; simpl; intros; try (rewrite lookup_empty in *; first [done|by destruct H]); try set_solver.
Qed.

Definition demo_route_row (fqdn host : string) (port : Z) : SSHBastionRoute :=
  mkSSHBastionRoute 0 fqdn host port true 0 0.
Definition demo_bastion_ops : list bastion_op :=
  [OpUpsertRoute (demo_route_row " SSH.Lab.example" " 10.0.0.5" 22);
   OpUpsertRoute (demo_route_row "bad.lab.example" "10.0.0.6" 70000);
   OpCreateKey "ann" "ssh-ed25519 AAAA" "SHA256:abc" true [1; 9];
   OpCreateKey "bob" "ssh-ed25519 BBBB" "SHA256:def" true [1];
   OpDeleteKey 7].

Lemma bastion_tables_ok_witness :
  let db := e_db (for_each run_bastion_op demo_bastion_ops (clean empty_DB 5)).2 in
  bastion_ok db /\ map sb_FQDN (rows (t_ssh_bastion_routes db)) = ["ssh.lab.example"] /\
  map bk_Name (rows (t_ssh_bastion_keys db)) = ["bob"].
Proof.
  split; [|vm_compute; done]. apply (bastion_tables_ok demo_bastion_ops (clean empty_DB 5)). apply empty_bastion_ok.
Defined.
