(* ===== verification/StoreBackup.v ===== *)
(** [internal/store/store.go]: the backup archives, the snapshot of the database
    and its restoration.

    A snapshot file is what SQLite reads in it: the names of its tables and their
    rows, in the columns of the present schema.  [RestoreFromSnapshot] empties and
    refills the tables in the order of their names, with foreign keys enforced:
    SQLite ignores the pragma that should turn them off, inside a transaction. *)

From stdpp Require Import sorting.
From S2P Require Import Prelude GoString GoMonad GoTime Model StoreDB.
Open Scope Z_scope.

(* ------------------------------------------------------------------ *)
(** ** Archives *)

Definition GetBackupArchiveByID (id : Z) : SM BackupArchive := query_row (fun db => t_backup_archives db !! id).

Definition InsertBackupArchive (a : BackupArchive) : SM BackupArchive :=
  now ← Now;
  exec (fun db =>
    let id := next_id "backup_archives" db in
    (take_id "backup_archives" db) <| t_backup_archives ::= <[id :=
      mkBackupArchive id (TrimSpace (ba_FileName a)) (TrimSpace (ba_Storage a)) (TrimSpace (ba_Location a))
        (ba_SizeBytes a) (TrimSpace (ba_SHA256 a)) (TrimSpace (ba_Status a)) now]> |>) ≫= fun _ =>
  id ← gets (fun e : Env => default 0 (t_sqlite_sequence (e_db e) !! "backup_archives"));
  GetBackupArchiveByID id.

(** [ORDER BY created_at DESC, id DESC], and the other way round. *)
Definition archive_le (x y : BackupArchive) : bool :=
  if String.eqb (RFC3339Nano (ba_CreatedAt x)) (RFC3339Nano (ba_CreatedAt y)) then ba_ID x <=? ba_ID y
  else text_le (ba_CreatedAt x) (ba_CreatedAt y).

Definition ListBackupArchives (n : Z) : SM (list BackupArchive) :=
  let n := if (n <=? 0) || (5000 <? n) then 200 else n in
  query (fun db => limit n (order_by (fun x y => archive_le y x) (rows (t_backup_archives db)))).

Definition archives_of (storage : string) (db : DB) : list BackupArchive :=
  order_by archive_le (List.filter (fun a => String.eqb (ba_Storage a) storage) (rows (t_backup_archives db))).
Definition ListBackupArchivesByStorageOldestFirst (storage : string) : SM (list BackupArchive) :=
  query (archives_of (TrimSpace storage)).

Definition DeleteBackupArchiveByID (id : Z) : SM unit :=
  exec (fun db => db <| t_backup_archives ::= delete id |>).

(* ------------------------------------------------------------------ *)
(** ** The tables of the schema *)

(** The file of a snapshot: its tables, and their rows. *)
Record Snapshot := mkSnapshot { sn_tables : gset string; sn_db : DB }.

(** A table: its name; whether every row of the snapshot that would be inserted
    finds the rows it refers to; [DELETE FROM t] with its cascades; the insertion
    of the rows of the snapshot into the empty table. *)
Record Table := mkTable {
  tb_name : string; tb_refs : DB -> DB -> bool; tb_clear : DB -> DB; tb_fill : DB -> DB -> DB
}.

(** An insertion with explicit keys raises the AUTOINCREMENT counter. *)
Definition seq_up (name : string) (ids : list Z) (db : DB) : DB :=
  db <| t_sqlite_sequence ::= fun m => foldl (fun m id => <[name := Z.max id (default 0 (m !! name))]> m) m ids |>.
Definition keys {A} (m : gmap Z A) : list Z := fst <$> map_to_list m.

Definition no_refs (_ _ : DB) : bool := true.
Definition has {K A} `{Countable K} (m : gmap K A) (k : K) : bool := bool_decide (is_Some (m !! k)).
Definition all_of {K} `{Countable K} (p : K -> bool) (s : gset K) : bool := forallb p (elements s).
Definition all_rows {K A} `{Countable K} (p : K -> A -> bool) (m : gmap K A) : bool :=
  forallb (fun kv => p kv.1 kv.2) (map_to_list m).

Definition clear_users (db : DB) : DB :=
  let kept := fun u => negb (has (t_users db) u) in
  db <| t_users := ∅ |>
     <| t_sessions ::= keep_rows (fun s => kept (se_UserID s)) |>
     <| t_password_reset_tokens ::= keep_rows (fun r => kept (rt_user_id r)) |>
     <| t_user_domain_scopes ::= keep_set (fun p => kept p.1) |>
     <| t_user_group_memberships ::= keep_keys (fun k => kept k.1) |>
     <| t_user_mfa_recovery_codes ::= keep_keys (fun k => kept k.1) |>.
Definition clear_api_tokens (db : DB) : DB :=
  db <| t_api_tokens := ∅ |>
     <| t_api_token_domain_scopes ::= keep_set (fun p => negb (has (t_api_tokens db) p.1)) |>.
Definition clear_domains (db : DB) : DB :=
  let kept := fun d => negb (has (t_domains db) d) in
  (delete_host_rows (fun k => match t_hosts db !! k with Some h => has (t_domains db) (h_DomainID h) | None => false end) db)
     <| t_domains := ∅ |>
     <| t_api_token_domain_scopes ::= keep_set (fun p => kept p.2) |>
     <| t_user_domain_scopes ::= keep_set (fun p => kept p.2) |>.
Definition clear_groups (db : DB) : DB :=
  let kept := fun g => negb (has (t_permission_groups db) g) in
  db <| t_permission_groups := ∅ |>
     <| t_permission_group_entries ::= keep_set (fun p => kept p.1) |>
     <| t_user_group_memberships ::= keep_keys (fun k => kept k.2) |>.
Definition clear_bastion_keys (db : DB) : DB :=
  db <| t_ssh_bastion_keys := ∅ |>
     <| t_ssh_bastion_key_routes ::= keep_set (fun p => negb (has (t_ssh_bastion_keys db) p.1)) |>.
Definition clear_bastion_routes (db : DB) : DB :=
  db <| t_ssh_bastion_routes := ∅ |>
     <| t_ssh_bastion_key_routes ::= keep_set (fun p => negb (has (t_ssh_bastion_routes db) p.2)) |>.
Definition clear_feeds (db : DB) : DB :=
  db <| t_threat_intel_feeds := ∅ |>
     <| t_threat_intel_entries ::= keep_set (fun p => negb (has (t_threat_intel_feeds db) p.1)) |>.

Definition T_users : Table :=
  mkTable "users" no_refs clear_users (fun sn db => seq_up "users" (keys (t_users sn)) (db <| t_users := t_users sn |>)).
Definition T_sessions : Table :=
  mkTable "sessions" (fun sn db => all_rows (fun _ s => has (t_users db) (se_UserID s)) (t_sessions sn))
    (fun db => db <| t_sessions := ∅ |>) (fun sn db => db <| t_sessions := t_sessions sn |>).
Definition T_api_tokens : Table := mkTable "api_tokens" no_refs clear_api_tokens
    (fun sn db => seq_up "api_tokens" (keys (t_api_tokens sn)) (db <| t_api_tokens := t_api_tokens sn |>)).
Definition T_api_token_domain_scopes : Table := mkTable "api_token_domain_scopes"
    (fun sn db => all_of (fun p => has (t_api_tokens db) p.1 && has (t_domains db) p.2) (t_api_token_domain_scopes sn))
    (fun db => db <| t_api_token_domain_scopes := ∅ |>)
    (fun sn db => db <| t_api_token_domain_scopes := t_api_token_domain_scopes sn |>).
Definition T_domains : Table := mkTable "domains" no_refs clear_domains
    (fun sn db => seq_up "domains" (keys (t_domains sn)) (db <| t_domains := t_domains sn |>)).
Definition T_hosts : Table :=
  mkTable "hosts" (fun sn db => all_rows (fun _ h => has (t_domains db) (h_DomainID h)) (t_hosts sn))
    (fun db => delete_host_rows (has (t_hosts db)) db)
    (fun sn db => seq_up "hosts" (keys (t_hosts sn)) (db <| t_hosts := t_hosts sn |>)).
Definition T_secrets : Table :=
  mkTable "secrets" no_refs (fun db => db <| t_secrets := ∅ |>) (fun sn db => db <| t_secrets := t_secrets sn |>).
Definition T_audit_events : Table := mkTable "audit_events" no_refs (fun db => db <| t_audit_events := [] |>)
    (fun sn db => seq_up "audit_events" (ae_ID <$> t_audit_events sn) (db <| t_audit_events := t_audit_events sn |>)).
Definition T_trace_events : Table := mkTable "trace_events" no_refs (fun db => db <| t_trace_events := [] |>)
    (fun sn db => db <| t_trace_events := t_trace_events sn |>).
Definition T_state_transitions : Table := mkTable "state_transitions"
    (fun sn db => forallb (fun t => has (t_hosts db) (st_host_id t)) (t_state_transitions sn))
    (fun db => db <| t_state_transitions := [] |>) (fun sn db => db <| t_state_transitions := t_state_transitions sn |>).
Definition T_login_attempts : Table := mkTable "login_attempts" no_refs (fun db => db <| t_login_attempts := ∅ |>)
    (fun sn db => db <| t_login_attempts := t_login_attempts sn |>).
Definition T_ldap_delete_queue : Table :=
  mkTable "ldap_delete_queue" no_refs (fun db => db <| t_ldap_delete_queue := ∅ |>)
    (fun sn db => db <| t_ldap_delete_queue := t_ldap_delete_queue sn |>).
Definition T_blocked_ips : Table := mkTable "blocked_ips" no_refs (fun db => db <| t_blocked_ips := ∅ |>)
    (fun sn db => db <| t_blocked_ips := t_blocked_ips sn |>).
Definition T_password_reset_tokens : Table := mkTable "password_reset_tokens"
    (fun sn db => all_rows (fun _ r => has (t_users db) (rt_user_id r)) (t_password_reset_tokens sn))
    (fun db => db <| t_password_reset_tokens := ∅ |>)
    (fun sn db => db <| t_password_reset_tokens := t_password_reset_tokens sn |>).
Definition T_settings : Table :=
  mkTable "settings" no_refs (fun db => db <| t_settings := ∅ |>) (fun sn db => db <| t_settings := t_settings sn |>).
Definition T_user_domain_scopes : Table := mkTable "user_domain_scopes"
    (fun sn db => all_of (fun p => has (t_users db) p.1 && has (t_domains db) p.2) (t_user_domain_scopes sn))
    (fun db => db <| t_user_domain_scopes := ∅ |>)
    (fun sn db => db <| t_user_domain_scopes := t_user_domain_scopes sn |>).
Definition T_permission_groups : Table := mkTable "permission_groups" no_refs clear_groups
    (fun sn db => seq_up "permission_groups" (keys (t_permission_groups sn)) (db <| t_permission_groups := t_permission_groups sn |>)).
Definition T_permission_group_entries : Table := mkTable "permission_group_entries"
    (fun sn db => all_of (fun p => has (t_permission_groups db) p.1) (t_permission_group_entries sn))
    (fun db => db <| t_permission_group_entries := ∅ |>)
    (fun sn db => db <| t_permission_group_entries := t_permission_group_entries sn |>).
Definition T_user_group_memberships : Table := mkTable "user_group_memberships"
    (fun sn db => all_rows (fun k _ => has (t_users db) k.1 && has (t_permission_groups db) k.2) (t_user_group_memberships sn))
    (fun db => db <| t_user_group_memberships := ∅ |>)
    (fun sn db => db <| t_user_group_memberships := t_user_group_memberships sn |>).
Definition T_user_mfa_recovery_codes : Table := mkTable "user_mfa_recovery_codes"
    (fun sn db => all_rows (fun k _ => has (t_users db) k.1) (t_user_mfa_recovery_codes sn))
    (fun db => db <| t_user_mfa_recovery_codes := ∅ |>)
    (fun sn db => db <| t_user_mfa_recovery_codes := t_user_mfa_recovery_codes sn |>).
Definition T_host_traffic_minute : Table := mkTable "host_traffic_minute"
    (fun sn db => all_rows (fun k _ => has (t_hosts db) k.1.1) (t_host_traffic_minute sn))
    (fun db => db <| t_host_traffic_minute := ∅ |>) (fun sn db => db <| t_host_traffic_minute := t_host_traffic_minute sn |>).
Definition T_host_traffic_class_minute : Table := mkTable "host_traffic_class_minute"
    (fun sn db => all_rows (fun k _ => has (t_hosts db) k.1.1.1) (t_host_traffic_class_minute sn))
    (fun db => db <| t_host_traffic_class_minute := ∅ |>)
    (fun sn db => db <| t_host_traffic_class_minute := t_host_traffic_class_minute sn |>).
Definition T_host_visitors_daily : Table :=
  mkTable "host_visitors_daily" (fun sn db => all_of (fun k => has (t_hosts db) k.1.1) (t_host_visitors_daily sn))
    (fun db => db <| t_host_visitors_daily := ∅ |>) (fun sn db => db <| t_host_visitors_daily := t_host_visitors_daily sn |>).
Definition T_ssh_bastion_routes : Table := mkTable "ssh_bastion_routes" no_refs clear_bastion_routes
    (fun sn db => seq_up "ssh_bastion_routes" (keys (t_ssh_bastion_routes sn)) (db <| t_ssh_bastion_routes := t_ssh_bastion_routes sn |>)).
Definition T_ssh_bastion_keys : Table := mkTable "ssh_bastion_keys" no_refs clear_bastion_keys
    (fun sn db => seq_up "ssh_bastion_keys" (keys (t_ssh_bastion_keys sn)) (db <| t_ssh_bastion_keys := t_ssh_bastion_keys sn |>)).
Definition T_ssh_bastion_key_routes : Table := mkTable "ssh_bastion_key_routes"
    (fun sn db => all_of (fun p => has (t_ssh_bastion_keys db) p.1 && has (t_ssh_bastion_routes db) p.2) (t_ssh_bastion_key_routes sn))
    (fun db => db <| t_ssh_bastion_key_routes := ∅ |>)
    (fun sn db => db <| t_ssh_bastion_key_routes := t_ssh_bastion_key_routes sn |>).
Definition T_threat_intel_feeds : Table := mkTable "threat_intel_feeds" no_refs clear_feeds
    (fun sn db => seq_up "threat_intel_feeds" (keys (t_threat_intel_feeds sn)) (db <| t_threat_intel_feeds := t_threat_intel_feeds sn |>)).
Definition T_threat_intel_entries : Table :=
  mkTable "threat_intel_entries" (fun sn db => all_of (fun p => has (t_threat_intel_feeds db) p.1) (t_threat_intel_entries sn))
    (fun db => db <| t_threat_intel_entries := ∅ |>) (fun sn db => db <| t_threat_intel_entries := t_threat_intel_entries sn |>).
Definition T_threat_intel_allowlist : Table :=
  mkTable "threat_intel_allowlist" no_refs (fun db => db <| t_threat_intel_allowlist := ∅ |>)
    (fun sn db => db <| t_threat_intel_allowlist := t_threat_intel_allowlist sn |>).
Definition T_threat_intel_matches : Table :=
  mkTable "threat_intel_matches" no_refs (fun db => db <| t_threat_intel_matches := ∅ |>)
    (fun sn db => db <| t_threat_intel_matches := t_threat_intel_matches sn |>).
Definition T_threat_intel_ip_state : Table :=
  mkTable "threat_intel_ip_state" no_refs (fun db => db <| t_threat_intel_ip_state := ∅ |>)
    (fun sn db => db <| t_threat_intel_ip_state := t_threat_intel_ip_state sn |>).
Definition T_threat_intel_ban_history : Table :=
  mkTable "threat_intel_ban_history" no_refs (fun db => db <| t_threat_intel_ban_history := [] |>)
    (fun sn db => seq_up "threat_intel_ban_history" (bh_id <$> t_threat_intel_ban_history sn)
    (db <| t_threat_intel_ban_history := t_threat_intel_ban_history sn |>)).
Definition T_threat_intel_rehab_history : Table :=
  mkTable "threat_intel_rehab_history" no_refs (fun db => db <| t_threat_intel_rehab_history := [] |>)
    (fun sn db => db <| t_threat_intel_rehab_history := t_threat_intel_rehab_history sn |>).
Definition T_backup_archives : Table := mkTable "backup_archives" no_refs (fun db => db <| t_backup_archives := ∅ |>)
    (fun sn db => seq_up "backup_archives" (keys (t_backup_archives sn)) (db <| t_backup_archives := t_backup_archives sn |>)).

(** In the order of the schema. *)
Definition tables : list Table :=
  [T_users; T_sessions; T_api_tokens; T_api_token_domain_scopes; T_domains; T_hosts; T_secrets; T_audit_events;
   T_trace_events; T_state_transitions; T_login_attempts; T_ldap_delete_queue; T_blocked_ips;
   T_password_reset_tokens; T_settings; T_user_domain_scopes; T_permission_groups; T_permission_group_entries;
   T_user_group_memberships; T_user_mfa_recovery_codes; T_host_traffic_minute; T_host_traffic_class_minute;
   T_host_visitors_daily; T_ssh_bastion_routes; T_ssh_bastion_keys; T_ssh_bastion_key_routes; T_threat_intel_feeds;
   T_threat_intel_entries; T_threat_intel_allowlist; T_threat_intel_matches; T_threat_intel_ip_state;
   T_threat_intel_ban_history; T_threat_intel_rehab_history; T_backup_archives].

Definition table_names : gset string := list_to_set (tb_name <$> tables).

(** [listUserTables(ctx, tx, "main")] *)
Definition main_tables : list Table := order_by (asc_text tb_name) tables.

(* ------------------------------------------------------------------ *)
(** ** Snapshot and restoration *)

(** The checkpoint and [VACUUM INTO]: the file holds every table. *)
Definition VacuumInto (outPath : string) : SM Snapshot :=
  fail_if (String.eqb (TrimSpace outPath) "") "snapshot path required" ≫= fun _ =>
  stmt ≫= fun _ =>
  query (fun db => mkSnapshot table_names db).

(** What a deferred statement does when the body fails. *)
Definition with_cleanup {A} (m : SM A) (cleanup : SM unit) : SM A := fun e =>
  match m e with
  | (Err x, e') => (Err x, (cleanup e').2)
  | (Ok a, e') => (Ok a, e')
  end.

(** One round of the loop over the tables: [listTableColumns] of both files, the
    deletion, the insertion. *)
Definition restore_table (sn : Snapshot) (t : Table) : SM unit :=
  if negb (bool_decide (tb_name t ∈ sn_tables sn)) then mret tt
  else
    stmt ≫= fun _ =>
    stmt ≫= fun _ =>
    exec (tb_clear t) ≫= fun _ =>
    exec_checked (tb_refs t (sn_db sn)) (tb_fill t (sn_db sn)).

Section restore.
(** Whether SQLite lets a database be detached inside a transaction that has read
    it (it answers that the database is locked). *)
Context (detachable : bool).

Definition detach : SM unit := stmt ≫= fun _ => if detachable then mret tt else fail ErrDriver.

(** [file] is what SQLite reads in the attached file, if it is a database. *)
Definition RestoreFromSnapshot (snapshotPath : string) (file : option Snapshot) : SM unit :=
  fail_if (String.eqb (TrimSpace snapshotPath) "") "snapshot path required" ≫= fun _ =>
  transaction (
    stmt ≫= fun _ =>
    stmt ≫= fun _ =>
    with_cleanup (
      stmt ≫= fun _ =>
      stmt ≫= fun _ =>
      match file with
      | None => fail ErrDriver
      | Some sn =>
          for_each (restore_table sn) main_tables ≫= fun _ =>
          exec (fun db => db <| t_sessions := ∅ |>) ≫= fun _ =>
          detach ≫= fun _ =>
          stmt
      end) (ignore detach)).
End restore.

(* ------------------------------------------------------------------ *)
(** ** What the loop leaves *)

(** The tables after a loop that did not stop. *)
Definition restored (sn : Snapshot) (t : Table) (db : DB) : option DB :=
  if negb (bool_decide (tb_name t ∈ sn_tables sn)) then Some db
  else if tb_refs t (sn_db sn) (tb_clear t db) then Some (tb_fill t (sn_db sn) (tb_clear t db)) else None.
Fixpoint restored_all (sn : Snapshot) (ts : list Table) (db : DB) : option DB :=
  match ts with [] => Some db | t :: ts' => db' ← restored sn t db; restored_all sn ts' db' end.

Lemma stmt_wp (Q : result unit -> Env -> Prop) e :
  (forall fs, Q (Err ErrDriver) (e <| e_faults := fs |>)) -> (forall fs, Q (Ok tt) (e <| e_faults := fs |>)) -> wp stmt Q e.
Proof. destruct e as [db now [|[] fs] rnd]; unfold wp; simpl; intros HE HO; [apply (HO [])|apply HE|apply HO]. Qed.

Lemma restore_table_wp sn t e :
  wp (restore_table sn t) (fun r e' => match r with
    | Ok _ => restored sn t (e_db e) = Some (e_db e')
    | Err _ => e_faults e = [] -> restored sn t (e_db e) = None end /\ (e_faults e = [] -> e_faults e' = [])) e.
Proof.
  unfold restore_table, restored. destruct (negb _); [by apply wp_ret|].
  destruct e as [db now [|[] fs] rnd]; [|by unfold wp; simpl|].
  - unfold wp, exec, exec_checked, query, mbind, M_bind; simpl.
    by destruct (tb_refs t (sn_db sn) (tb_clear t db)) eqn:E.
  - eapply wp_mono with (Q := fun r e' => match r with
      | Ok _ => (if tb_refs t (sn_db sn) (tb_clear t db) then Some (tb_fill t (sn_db sn) (tb_clear t db)) else None) = Some (e_db e')
      | Err _ => True end).
    2: { intros [[]|x] e' H; split; try exact H; by intros [=]. }
    apply wp_bind, stmt_wp; [done|]. intros f1. apply wp_bind, stmt_wp; [done|]. intros f2.
    apply wp_bind, wp_exec; [done|]. intros f3. apply wp_exec_checked; [done| |done]. intros f4 E. simpl in *. by rewrite E.
Qed.

Lemma restore_all_wp sn ts e :
  wp (for_each (restore_table sn) ts) (fun r e' => match r with
    | Ok _ => restored_all sn ts (e_db e) = Some (e_db e')
    | Err _ => e_faults e = [] -> restored_all sn ts (e_db e) = None end /\ (e_faults e = [] -> e_faults e' = [])) e.
Proof.
  revert e. induction ts as [|t ts IH]; intros e; simpl; [by apply wp_ret|].
  apply wp_bind. eapply wp_mono; [apply restore_table_wp|]. intros [[]|x] e' [H Hf].
  - rewrite H. simpl. eapply wp_mono; [apply IH|]. intros [[]|x] e'' [H' Hf']; split; auto.
  - split; [|done]. intros Hc. by rewrite (H Hc).
Qed.
Lemma main_tables_eq : main_tables =
  [T_api_token_domain_scopes; T_api_tokens; T_audit_events; T_backup_archives; T_blocked_ips; T_domains;
   T_host_traffic_class_minute; T_host_traffic_minute; T_host_visitors_daily; T_hosts; T_ldap_delete_queue;
   T_login_attempts; T_password_reset_tokens; T_permission_group_entries; T_permission_groups; T_secrets;
   T_sessions; T_settings; T_ssh_bastion_key_routes; T_ssh_bastion_keys; T_ssh_bastion_routes; T_state_transitions;
   T_threat_intel_allowlist; T_threat_intel_ban_history; T_threat_intel_entries; T_threat_intel_feeds;
   T_threat_intel_ip_state; T_threat_intel_matches; T_threat_intel_rehab_history; T_trace_events;
   T_user_domain_scopes; T_user_group_memberships; T_user_mfa_recovery_codes; T_users].
Proof. reflexivity. Qed.

Lemma restored_all_app sn l1 l2 db :
  restored_all sn (l1 ++ l2) db = (db1 ← restored_all sn l1 db; restored_all sn l2 db1).
Proof. revert db. induction l1 as [|t l1 IH]; intros db; simpl; [done|]. destruct (restored sn t db); simpl; auto. Qed.

(** The file holds every table of the schema. *)
Definition full (sn : Snapshot) : Prop := table_names ⊆ sn_tables sn.

Definition refill (t : Table) (sn db : DB) : DB := tb_fill t sn (tb_clear t db).

Lemma restored_Some sn t db db' : tb_name t ∈ sn_tables sn -> restored sn t db = Some db' ->
  tb_refs t (sn_db sn) (tb_clear t db) = true /\ db' = refill t (sn_db sn) db.
Proof. unfold restored. intros H. rewrite bool_decide_true by done. simpl. case_match; [|done]. by intros [= <-]. Qed.

Section loops.
Context (sn : Snapshot) (Hsn : full sn).

Lemma in_full t : t ∈ tables -> tb_name t ∈ sn_tables sn.
Proof. intros Ht. apply Hsn. unfold table_names. rewrite elem_of_list_to_set. by apply list_elem_of_fmap_2. Qed.

(** What every table of a list keeps, the loop over the list keeps. *)
Lemma restored_inv (P : DB -> Prop) ts db db' : Forall (fun t => forall s d, P d -> P (refill t s d)) ts ->
  restored_all sn ts db = Some db' -> P db -> P db'.
Proof.
  intros H. revert db. induction H as [|t ts Ht _ IH]; intros db; simpl; [by intros [= ->]|].
  destruct (restored sn t db) as [db1|] eqn:E; [|done]. simpl. intros Hr HP. apply (IH db1 Hr).
  unfold restored in E. case_match; [by injection E as <-|]. case_match; [|done]. injection E as <-. by apply Ht.
Qed.
Lemma restored_frame {T} (p : DB -> T) ts db db' : Forall (fun t => forall s d, p (refill t s d) = p d) ts ->
  restored_all sn ts db = Some db' -> p db' = p db.
Proof.
  intros H Hr. apply (restored_inv (fun d => p d = p db) ts db db'); [|done..].
  eapply Forall_impl; [exact H|]. intros t Ht s d <-. by rewrite Ht.
Qed.

(** A table filled in the middle of the loop. *)
Lemma restored_middle l1 t l2 db db' : t ∈ tables -> restored_all sn (l1 ++ t :: l2) db = Some db' ->
  exists d, restored_all sn l1 db = Some d /\ tb_refs t (sn_db sn) (tb_clear t d) = true /\
            restored_all sn l2 (refill t (sn_db sn) d) = Some db'.
Proof.
  intros Ht. rewrite restored_all_app. destruct (restored_all sn l1 db) as [d|]; [|done]. simpl.
  destruct (restored sn t d) as [d1|] eqn:E; [|done]. simpl. intros Hr.
  apply restored_Some in E as [Hok ->]; [|by apply in_full]. eauto.
Qed.

(** A table no later step touches holds the rows of the snapshot. *)
Lemma table_kept {T} (p : DB -> T) l1 t l2 db db' : t ∈ tables -> restored_all sn (l1 ++ t :: l2) db = Some db' ->
  (forall s d, p (refill t s d) = p s) -> Forall (fun t => forall s d, p (refill t s d) = p d) l2 -> p db' = p (sn_db sn).
Proof. intros Ht (d & _ & _ & Hr)%restored_middle Hp Hl; [|done]. by rewrite (restored_frame p l2 _ _ Hl Hr). Qed.

(** A table that refers to one refilled later loses its rows. *)
Lemma table_lost {T} (child : DB -> T) (none : T) (linked : DB -> Prop) l1 tc l2 tp l3 db db' :
  tc ∈ tables -> tp ∈ tables -> restored_all sn (l1 ++ (tc :: l2) ++ tp :: l3) db = Some db' ->
  (forall s d, tb_refs tc s (tb_clear tc d) = true -> linked (refill tc s d)) ->
  Forall (fun t => forall s d, linked d -> linked (refill t s d)) l2 ->
  (forall s d, linked d -> child (refill tp s d) = none) ->
  Forall (fun t => forall s d, child d = none -> child (refill t s d) = none) l3 ->
  child db' = none.
Proof.
  intros Hc Hp (d & _ & Hok & Hr)%restored_middle Hfill Hl2 Hclear Hl3; [|done].
  apply restored_middle in Hr as (d2 & Hr2 & _ & Hr3); [|done].
  apply (restored_inv (fun d => child d = none) l3 _ _ Hl3 Hr3), Hclear. by apply (restored_inv linked l2 _ _ Hl2 Hr2), Hfill.
Qed.
End loops.

(** The tables that hold what the snapshot holds. *)
Definition same_rows (s d : DB) : Prop :=
  t_users d = t_users s /\ t_api_tokens d = t_api_tokens s /\ t_domains d = t_domains s /\ t_hosts d = t_hosts s /\
  t_secrets d = t_secrets s /\ t_settings d = t_settings s /\ t_audit_events d = t_audit_events s /\
  t_permission_groups d = t_permission_groups s /\ t_blocked_ips d = t_blocked_ips s /\
  t_ssh_bastion_routes d = t_ssh_bastion_routes s /\ t_ssh_bastion_keys d = t_ssh_bastion_keys s /\
  t_threat_intel_feeds d = t_threat_intel_feeds s /\ t_threat_intel_allowlist d = t_threat_intel_allowlist s /\
  t_threat_intel_ip_state d = t_threat_intel_ip_state s /\ t_backup_archives d = t_backup_archives s.

(** The tables that are empty whatever the snapshot holds. *)
Definition links_lost (d : DB) : Prop :=
  t_sessions d = ∅ /\ t_permission_group_entries d = ∅ /\ t_user_group_memberships d = ∅ /\
  t_user_domain_scopes d = ∅ /\ t_user_mfa_recovery_codes d = ∅ /\ t_password_reset_tokens d = ∅ /\
  t_api_token_domain_scopes d = ∅ /\ t_ssh_bastion_key_routes d = ∅ /\ t_threat_intel_entries d = ∅.

Definition no_traffic (s : DB) : Prop :=
  t_host_traffic_minute s = ∅ /\ t_host_traffic_class_minute s = ∅ /\ t_host_visitors_daily s = ∅.

(** [FOREIGN KEY(domain_id) REFERENCES domains(id)] *)
Definition hosts_have_domains (d : DB) : Prop :=
  forall k h, t_hosts d !! k = Some h -> is_Some (t_domains d !! h_DomainID h).

Ltac a_table := repeat (apply list_elem_of_here || apply list_elem_of_further).
Ltac each_table tac := repeat (apply List.Forall_cons; [tac|]); apply List.Forall_nil.
Ltac at_place n Hr := rewrite <- (take_drop n main_tables), main_tables_eq in Hr; cbn [take drop] in Hr.
(** [kept n]: the table at place [n] is filled once and for all. *)
Ltac kept n sn Hsn Hr :=
  at_place n Hr; refine (table_kept sn Hsn _ _ _ _ _ _ _ Hr _ _); [a_table|reflexivity|each_table ltac:(reflexivity)].

Lemma restored_same sn db db' : full sn -> restored_all sn main_tables db = Some db' -> same_rows (sn_db sn) db'.
Proof.
  intros Hsn Hr. unfold same_rows. split_and!.
  - kept 33%nat sn Hsn Hr.
  - kept 1%nat sn Hsn Hr.
  - kept 5%nat sn Hsn Hr.
  - kept 9%nat sn Hsn Hr.
  - kept 15%nat sn Hsn Hr.
  - kept 17%nat sn Hsn Hr.
  - kept 2%nat sn Hsn Hr.
  - kept 14%nat sn Hsn Hr.
  - kept 4%nat sn Hsn Hr.
  - kept 20%nat sn Hsn Hr.
  - kept 19%nat sn Hsn Hr.
  - kept 25%nat sn Hsn Hr.
  - kept 22%nat sn Hsn Hr.
  - kept 26%nat sn Hsn Hr.
  - kept 3%nat sn Hsn Hr.
Qed.

(** A set or map whose every key is dropped. *)
Lemma has_true {K A} `{Countable K} (m : gmap K A) k : has m k = true <-> is_Some (m !! k).
Proof. apply bool_decide_eq_true. Qed.
Lemma all_of_In {K} `{Countable K} (p : K -> bool) (s : gset K) : all_of p s = true <-> forall k, k ∈ s -> p k = true.
Proof.
  unfold all_of. rewrite forallb_forall. split; intros H1 k Hk; apply H1.
  - by apply list_elem_of_In, elem_of_elements.
  - by apply list_elem_of_In, elem_of_elements in Hk.
Qed.
Lemma all_rows_In {K A} `{Countable K} (p : K -> A -> bool) (m : gmap K A) :
  all_rows p m = true <-> forall k a, m !! k = Some a -> p k a = true.
Proof.
  unfold all_rows. rewrite forallb_forall. split.
  - intros H1 k a Hk. apply (H1 (k, a)). by apply list_elem_of_In, elem_of_map_to_list.
  - intros H1 [k a] Hk. by apply H1, elem_of_map_to_list, list_elem_of_In.
Qed.
Lemma keep_set_none {K} `{Countable K} (p : K -> bool) (s : gset K) : (forall k, k ∈ s -> p k = false) -> keep_set p s = ∅.
Proof. intros H1. apply elem_of_equiv_empty_L. intros k [Hp Hk]%elem_of_keep_set. rewrite H1 in Hp; done. Qed.
Lemma keep_keys_none {K A} `{Countable K} (p : K -> bool) (m : gmap K A) :
  (forall k a, m !! k = Some a -> p k = false) -> keep_keys p m = ∅.
Proof. intros H1. apply map_eq. intros k. rewrite lookup_empty. apply eq_None_not_Some. intros [a [Ha Hp]%lookup_keep_keys]. rewrite (H1 k a) in Hp; done. Qed.
Lemma keep_rows_none {K A} `{Countable K} (p : A -> bool) (m : gmap K A) :
  (forall k a, m !! k = Some a -> p a = false) -> keep_rows p m = ∅.
Proof. intros H1. apply map_eq. intros k. rewrite lookup_empty, lookup_keep_rows. destruct (m !! k) as [a|] eqn:E; [|done]. by rewrite (H1 k a). Qed.

Ltac same_field := intros ? ? H; exact H.
Ltac stays_empty := intros ? ? H; first [exact H|refine (eq_trans (f_equal (keep_set _) H) _); apply keep_set_none; set_solver].
(** [lost n m linked]: the rows of table [n] refer to table [m]. *)
Ltac lost n m sn Hsn Hr linked :=
  rewrite <- (take_drop n main_tables), <- (take_drop (m - n) (drop n main_tables)), main_tables_eq in Hr;
  cbn [take drop Nat.sub] in Hr;
  refine (table_lost sn Hsn _ _ linked _ _ _ _ _ _ _ _ _ Hr _ _ _ _);
  [a_table|a_table| |each_table same_field| |each_table stays_empty].

(** The rows that all have the parent just deleted are gone. *)
Ltac no_row_left :=
  let H := fresh "H" in let k := fresh "k" in let a := fresh "a" in let Hk := fresh "Hk" in
  intros ? ? H;
  first [rewrite all_of_In in H; apply keep_set_none; intros k Hk; specialize (H k Hk)
        |rewrite all_rows_In in H; first [apply keep_rows_none|apply keep_keys_none]; intros k a Hk; specialize (H k a Hk)];
  cbv beta in H; rewrite ?andb_true_iff in H; destruct_and?; by apply negb_false_iff.
Ltac row_lost n m sn Hsn Hr linked := lost n m sn Hsn Hr linked; [intros ? ? H; exact H|no_row_left].

#[local] Opaque has all_rows all_of keep_rows keep_keys keep_set.

Lemma restored_links sn db db' : full sn -> restored_all sn main_tables db = Some db' -> links_lost (db' <| t_sessions := ∅ |>).
Proof.
  intros Hsn Hr. unfold links_lost. split_and!; [done|..].
  - row_lost 13%nat 14%nat sn Hsn Hr (fun d => all_of (fun p => has (t_permission_groups d) p.1) (t_permission_group_entries d) = true).
  - row_lost 31%nat 33%nat sn Hsn Hr (fun d => all_rows (fun k _ => has (t_users d) k.1 && has (t_permission_groups d) k.2) (t_user_group_memberships d) = true).
  - row_lost 30%nat 33%nat sn Hsn Hr (fun d => all_of (fun p => has (t_users d) p.1 && has (t_domains d) p.2) (t_user_domain_scopes d) = true).
  - row_lost 32%nat 33%nat sn Hsn Hr (fun d => all_rows (fun k _ => has (t_users d) k.1) (t_user_mfa_recovery_codes d) = true).
  - row_lost 12%nat 33%nat sn Hsn Hr (fun d => all_rows (fun _ r => has (t_users d) (rt_user_id r)) (t_password_reset_tokens d) = true).
  - row_lost 0%nat 1%nat sn Hsn Hr (fun d => all_of (fun p => has (t_api_tokens d) p.1 && has (t_domains d) p.2) (t_api_token_domain_scopes d) = true).
  - row_lost 18%nat 19%nat sn Hsn Hr (fun d => all_of (fun p => has (t_ssh_bastion_keys d) p.1 && has (t_ssh_bastion_routes d) p.2) (t_ssh_bastion_key_routes d) = true).
  - row_lost 24%nat 25%nat sn Hsn Hr (fun d => all_of (fun p => has (t_threat_intel_feeds d) p.1) (t_threat_intel_entries d) = true).
Qed.

(** With no host there is no row that refers to one. *)
Lemma no_host_rows {K A} `{Countable K} (host : K -> Z) (hosts : gmap Z Host) (m : gmap K A) :
  hosts = ∅ -> all_rows (fun k _ => has hosts (host k)) m = true -> m = ∅.
Proof.
  intros -> H1. rewrite all_rows_In in H1. apply map_eq. intros k. rewrite lookup_empty. apply eq_None_not_Some.
  intros [a Ha]. specialize (H1 k a Ha). apply has_true in H1 as [h Hh]. done.
Qed.
Lemma no_host_set {K} `{Countable K} (host : K -> Z) (hosts : gmap Z Host) (m : gset K) :
  hosts = ∅ -> all_of (fun k => has hosts (host k)) m = true -> m = ∅.
Proof.
  intros -> H1. rewrite all_of_In in H1. apply elem_of_equiv_empty_L. intros k Hk.
  specialize (H1 k Hk). apply has_true in H1 as [h Hh]. done.
Qed.

Lemma restored_traffic sn db db' : full sn -> hosts_have_domains db -> restored_all sn main_tables db = Some db' ->
  no_traffic (sn_db sn).
Proof.
  intros Hsn Hfk Hr. rewrite <- (take_drop 5 main_tables), main_tables_eq in Hr. cbn [take drop] in Hr.
  apply (restored_middle sn Hsn) in Hr as (d & Hr & _ & Hr2); [|a_table].
  assert (Hd : hosts_have_domains d) by (revert Hr Hfk; apply restored_inv; each_table same_field).
  assert (Hh : t_hosts (refill T_domains (sn_db sn) d) = ∅).
  { apply keep_keys_none. intros k h Hk. cbv beta. rewrite Hk. by apply negb_false_iff, has_true, (Hd k). }
  clear Hr Hd. generalize dependent (refill T_domains (sn_db sn) d). intros d1 Hr Hh.
  apply (restored_middle sn Hsn []) in Hr as (d2 & [= <-] & H1 & Hr); [|a_table].
  apply (restored_middle sn Hsn []) in Hr as (d3 & [= <-] & H2 & Hr); [|a_table].
  apply (restored_middle sn Hsn []) in Hr as (d4 & [= <-] & H3 & Hr); [|a_table].
  unfold no_traffic. split_and!.
  - exact (no_host_rows (fun k => k.1.1) (t_hosts d1) _ Hh H2).
  - exact (no_host_rows (fun k => k.1.1.1) (t_hosts d1) _ Hh H1).
  - exact (no_host_set (fun k => k.1.1) (t_hosts d1) _ Hh H3).
Qed.

Lemma stmt_db (Q : result unit -> Env -> Prop) e :
  (forall r e', e_db e' = e_db e -> Q r e') -> wp stmt Q e.
Proof. intros H. by apply stmt_wp; intros fs; apply H. Qed.

Lemma restore_wp detachable path sn e :
  wp (RestoreFromSnapshot detachable path (Some sn)) (fun r e' =>
    match r with
    | Ok _ => detachable = true /\ exists d, restored_all sn main_tables (e_db e) = Some d /\ e_db e' = d <| t_sessions := ∅ |>
    | Err _ => e_db e' = e_db e
    end) e.
Proof.
  unfold RestoreFromSnapshot. apply wp_bind, wp_fail_if; intros _; [done|].
  apply (wp_transaction_cases _ (fun _ d' => detachable = true /\ exists d, restored_all sn main_tables (e_db e) = Some d /\ d' = d <| t_sessions := ∅ |>)).
  intros f0. apply wp_bind, stmt_wp; [done|]. intros f1. apply wp_bind, stmt_wp; [done|]. intros f2.
  unfold with_cleanup, wp at 1.
  match goal with |- context [match ?m ?e0 with _ => _ end] => assert (Hm : wp m (fun r e' => forall a, r = Ok a ->
    detachable = true /\ exists d, restored_all sn main_tables (e_db e) = Some d /\ e_db e' = d <| t_sessions := ∅ |>) e0);
    [|unfold wp in Hm; destruct (m e0) as [[b|y] e1]; [exact Hm|done]] end.
  apply wp_bind, stmt_wp; [done|]. intros f3. apply wp_bind, stmt_wp; [done|]. intros f4.
  apply wp_bind. eapply wp_mono; [apply restore_all_wp|]. intros [[]|x] e1 [Hr _]; [|done].
  apply wp_bind, wp_exec; [done|]. intros f5. unfold detach.
  apply wp_bind, wp_bind, stmt_wp; [done|]. intros f6. destruct detachable; [|done]. apply wp_ret.
  apply stmt_wp; [done|]. intros f7 a _. split; [done|]. exists (e_db e1). by split.
Qed.

(** C23. A restoration changes nothing or ends well.  It ends well only if SQLite lets
    go of the file inside the transaction and if the snapshot holds no record of
    traffic, since the hosts such a record refers to are deleted with the domains
    before it is inserted.  Then users, hosts, settings and the other tables in
    [same_rows] are those of the snapshot; but the rows that link two tables are
    gone, whatever the snapshot holds: the tables they refer to are emptied, with
    their cascades, after them.  No permission group has a permission left and no
    user a recovery code. *)
Theorem restore_outcome detachable path sn e r e' :
  full sn -> hosts_have_domains (e_db e) ->
  RestoreFromSnapshot detachable path (Some sn) e = (r, e') ->
  match r with
  | Ok _ => detachable = true /\ same_rows (sn_db sn) (e_db e') /\ links_lost (e_db e') /\ no_traffic (sn_db sn)
  | Err _ => e_db e' = e_db e
  end.
Proof.
  intros Hsn Hfk. revert r e'. apply wp_runs. eapply wp_mono; [apply restore_wp|].
  intros [[]|x] e' H; [|done]. destruct H as (Hd & d & Hr & ->). split; [done|]. split_and!.
  - exact (restored_same sn _ d Hsn Hr).
  - exact (restored_links sn _ d Hsn Hr).
  - exact (restored_traffic sn _ d Hsn Hfk Hr).
Qed.

(** A site with a user, a permission group and its permission. *)
Definition restore_demo : DB :=
  empty_DB <| t_users := {[1 := zero_User <| u_Username := "ann" |>]} |>
           <| t_permission_groups := {[1 := mkPermissionGroup 1 "ops" "" "" true 0 0]} |>
           <| t_permission_group_entries := {[(1, "hosts:read")]} |>.
Definition demo_run (s : DB) : result unit * Env :=
  RestoreFromSnapshot true "/tmp/restore.sqlite3" (Some (mkSnapshot table_names s)) (clean restore_demo 0).

Lemma restore_outcome_witness :
  is_ok (demo_run restore_demo).1 = true /\
  t_permission_group_entries (e_db (demo_run restore_demo).2) = ∅ /\
  t_users (e_db (demo_run restore_demo).2) = t_users restore_demo.
Proof.
  pose proof (restore_outcome true "/tmp/restore.sqlite3" (mkSnapshot table_names restore_demo) (clean restore_demo 0)
    (demo_run restore_demo).1 (demo_run restore_demo).2) as H.
  assert (E : is_ok (demo_run restore_demo).1 = true) by (vm_compute; reflexivity).
  assert (Hfk : hosts_have_domains restore_demo) by (intros k h Hk; change (t_hosts restore_demo) with (∅ : gmap Z Host) in Hk; by rewrite lookup_empty in Hk).
  specialize (H ltac:(unfold full; done) Hfk ltac:(unfold demo_run; by destruct (RestoreFromSnapshot _ _ _ _))).
  destruct (demo_run restore_demo) as [[[]|x] e']; [|done]. simpl in *.
  destruct H as (_ & Hs & Hl & _). split; [done|]. split; [apply Hl|apply Hs].
Defined.

(** A record of traffic in the snapshot makes the restoration fail. *)
Example restore_traffic_fails :
  (demo_run (restore_demo <| t_domains := {[1 := zero_Domain <| d_ID := 1 |>]} |>
     <| t_hosts := {[1 := zero_Host <| h_ID := 1 |> <| h_DomainID := 1 |>]} |>
     <| t_host_visitors_daily := {[(1, "2026-01-01", "a")]} |>)).1 = Err ErrConstraint.
Proof. vm_compute. reflexivity. Qed.
