(* ===== verification/Bastion.v ===== *)
(** [internal/bastion/server.go]: the SSH bastion.

    The SSH library, the network and the key material are parameters: what is
    modelled is which key is let in, what it may reach, and what is reported. *)

From S2P Require Import Prelude GoString GoMonad GoTime GoNet GoUrl GoCrypto Model StoreDB StoreThreat StoreUsers.
From S2P Require Import StoreBastion Service ThreatEngine.
From Stdlib Require Import Ascii.

Class AuthSource (S : Type) := {
  GetSSHBastionAuthByFingerprint : string -> M S SSHBastionKeyAuth;
  AddAuditEvent : AuditEvent -> M S unit;
  AddTraceEvent : TraceEvent -> M S unit;
  ApplyThreatIntelEvent : ThreatIntelEventInput -> M S (ThreatIntelEventResult * option error);
  IsSourceBlocked : string -> M S (bool * bool * time * string)
}.

(* ------------------------------------------------------------------ *)
(** ** Addresses and trace ids *)

Definition addrIP (a : option string) : string :=
  match a with
  | None => ""
  | Some s => match SplitHostPort (TrimSpace s) with Some (host, _) => TrimSpace host | None => TrimSpace s end
  end.

Definition sourceScopeFromIP (i : string) : string :=
  match ParseIP (TrimSpace i) with
  | None => "external"
  | Some p => if IsLoopback p || IsPrivate p then "internal" else "external"
  end.

(** [hash/fnv]: FNV-1a on 64 bits. *)
Definition fnv64a (l : bytes) : Z :=
  fold_left (fun h b => Z.lxor h b * 1099511628211 mod 2 ^ 64) l 14695981039346656037.

Definition UnixNano (t : time) : Z := t - 62135596800 * Second.

Definition sshTraceID (now : time) (i user reason : string) : string :=
  hex_encode (be_bytes 8 (fnv64a (bytes_of
    (TrimSpace i +:+ "|" +:+ TrimSpace user +:+ "|" +:+ TrimSpace reason +:+ "|" +:+ Itoa (UnixNano now))))).

(* ------------------------------------------------------------------ *)
(** ** The server *)

Section server.
Context {S : Type} `{AuthSource S}.
(** The clock of the source; a connection to an address, or the error text; and
    what the client's end of an accepted channel does. *)
Context (clock : S -> time) (dial : string -> option string).

(** The connection as the callback sees it. *)
Record ConnMetadata := mkConnMetadata { cm_RemoteAddr : string; cm_User : string }.

(** [ssh.Permissions], the two extensions the server sets. *)
Record Permissions := mkPermissions { pm_key_fingerprint : string; pm_principal : string }.

Definition bastion_trace (traceID actor action target sourceIP path decision summary : string) : TraceEvent :=
  zero_TraceEvent <| te_TraceID := traceID |> <| te_Kind := "flow" |> <| te_Actor := actor |> <| te_Action := action |>
    <| te_Target := target |> <| te_SourceIP := sourceIP |> <| te_IP := sourceIP |> <| te_Host := "ssh-bastion" |>
    <| te_Path := path |> <| te_Decision := decision |> <| te_SourceScope := sourceScopeFromIP sourceIP |>
    <| te_Summary := summary |>.

Definition bastion_audit (actor action target meta : string) : AuditEvent :=
  zero_AuditEvent <| ae_Actor := actor |> <| ae_Action := action |> <| ae_Target := target |> <| ae_Meta := meta |>.

Definition bastion_event (sourceIP path traceID signal : string) : ThreatIntelEventInput :=
  mkThreatIntelEventInput sourceIP "ssh-bastion" path "" "ZZ" (sourceScopeFromIP sourceIP) traceID
    ["behavior.auth_failed"; signal] "auto_mode".

Definition block_reason (why : string) (hard : bool) : string :=
  let r := TrimSpace why in
  if String.eqb r "" then (if hard then "threat_intel_hardblock" else "threat_intel_softblock") else r.

(** The key offered by a client, by its fingerprint. *)
Definition PublicKeyCallback (meta : ConnMetadata) (fp : string) : M S Permissions :=
  let sourceIP := addrIP (Some (cm_RemoteAddr meta)) in
  let user := cm_User meta in
  now ← gets clock;
  b ← try_ (IsSourceBlocked sourceIP);
  match b with
  | Ok (true, hard, until, why) =>
      let traceID := sshTraceID now sourceIP user "auth_blocked" in
      let reason := block_reason why hard in
      let metaBits := "source=" +:+ sourceIP +:+ ";user=" +:+ user +:+ ";reason=" +:+ reason +:+ ";trace=" +:+ traceID in
      let metaBits := if IsZero until then metaBits else metaBits +:+ ";until=" +:+ RFC3339 until in
      ignore (AddTraceEvent (bastion_trace traceID "ssh-bastion" "auth.blocked" user sourceIP "auth" reason
        "SSH bastion rejected a blocked source before key evaluation")) ≫= fun _ =>
      ignore (AddAuditEvent (bastion_audit "ssh-bastion" "ssh.bastion.auth.blocked" sourceIP metaBits)) ≫= fun _ =>
      fail (ErrText "source blocked")
  | _ =>
      auth ← try_ (GetSSHBastionAuthByFingerprint fp);
      match match auth with Ok a => if bk_Enabled (ka_Key a) then Some a else None | Err _ => None end with
      | None =>
          let traceID := sshTraceID now sourceIP user "auth_denied" in
          ignore (ApplyThreatIntelEvent (bastion_event sourceIP "auth" traceID "protocol.ssh.auth_denied")) ≫= fun _ =>
          ignore (AddTraceEvent (bastion_trace traceID "ssh-bastion" "auth.denied" user sourceIP "auth" "publickey_denied"
            "SSH bastion rejected presented public key")) ≫= fun _ =>
          ignore (AddAuditEvent (bastion_audit "ssh-bastion" "ssh.bastion.auth.denied" (cm_RemoteAddr meta)
            ("fingerprint=" +:+ fp +:+ ";user=" +:+ user +:+ ";source=" +:+ sourceIP +:+ ";trace=" +:+ traceID))) ≫= fun _ =>
          fail (ErrText "unknown key")
      | Some a =>
          let name := bk_Name (ka_Key a) in
          let traceID := sshTraceID now sourceIP user "auth_ok" in
          ignore (AddTraceEvent (bastion_trace traceID "ssh-bastion" "auth.ok" name sourceIP "auth" "publickey_ok"
            "SSH bastion accepted public key")) ≫= fun _ =>
          ignore (AddAuditEvent (bastion_audit "ssh-bastion" "ssh.bastion.auth.ok" name
            ("fingerprint=" +:+ fp +:+ ";user=" +:+ user +:+ ";source=" +:+ sourceIP +:+ ";trace=" +:+ traceID))) ≫= fun _ =>
          mret (mkPermissions fp name)
      end
  end.

(** A request for a channel: its type, the decoded [direct-tcpip] payload
    (destination and port), where it decodes, and whether [Accept] succeeds. *)
Record NewChannel := mkNewChannel { nc_type : string; nc_payload : option (string * Z); nc_accept : bool }.

(** What the client sees. *)
Inductive reply : Type :=
| Reject (reason msg : string)
| Closed                          (* [Accept] failed after the dial *)
| Forwarded (addr : string).      (* bytes are piped to [addr] *)

Definition route_allows (targetHost : string) (targetPort : Z) (rt : SSHBastionRoute) : bool :=
  sb_Enabled rt && (EqualFold (TrimSpace (sb_TargetHost rt)) targetHost && (sb_TargetPort rt =? targetPort)).

(** One turn of the loop of [handleConn]. *)
Definition handleChannel (remoteAddr : option string) (perms : Permissions) (ch : NewChannel) : M S reply :=
  if negb (String.eqb (nc_type ch) "direct-tcpip") then mret (Reject "UnknownChannelType" "only direct-tcpip is supported")
  else
  match nc_payload ch with
  | None => mret (Reject "ConnectionFailed" "invalid direct-tcpip payload")
  | Some (destAddr, targetPort) =>
      let fp := pm_key_fingerprint perms in
      auth ← try_ (GetSSHBastionAuthByFingerprint fp);
      match match auth with Ok a => if bk_Enabled (ka_Key a) then Some a else None | Err _ => None end with
      | None => mret (Reject "Prohibited" "unauthorized key")
      | Some a =>
          let targetHost := TrimSpace destAddr in
          let name := bk_Name (ka_Key a) in
          let sourceIP := addrIP remoteAddr in
          let target := targetHost +:+ ":" +:+ Itoa targetPort in
          now ← gets clock;
          if negb (existsb (route_allows targetHost targetPort) (ka_Routes a)) then
            let traceID := sshTraceID now sourceIP name "forward_denied" in
            ignore (ApplyThreatIntelEvent (bastion_event sourceIP "forward" traceID "protocol.ssh.forward_denied")) ≫= fun _ =>
            ignore (AddTraceEvent (bastion_trace traceID name "forward.denied" target sourceIP "forward" "target_not_allowed"
              "SSH bastion denied forwarding target")) ≫= fun _ =>
            ignore (AddAuditEvent (bastion_audit name "ssh.bastion.forward.denied" target
              ("source=" +:+ sourceIP +:+ ";fingerprint=" +:+ fp +:+ ";trace=" +:+ traceID))) ≫= fun _ =>
            mret (Reject "Prohibited" "target not allowed")
          else
            let addr := JoinHostPort targetHost (Itoa targetPort) in
            match dial addr with
            | Some err =>
                let traceID := sshTraceID now sourceIP name "forward_error" in
                ignore (AddTraceEvent ((bastion_trace traceID name "forward.error" target sourceIP "forward" "target_unreachable"
                  "SSH bastion could not reach configured target") <| te_Meta := "err=" +:+ err |>)) ≫= fun _ =>
                ignore (AddAuditEvent (bastion_audit name "ssh.bastion.forward.error" target
                  ("source=" +:+ sourceIP +:+ ";err=" +:+ err +:+ ";trace=" +:+ traceID))) ≫= fun _ =>
                mret (Reject "ConnectionFailed" "target unreachable")
            | None =>
                if negb (nc_accept ch) then mret Closed
                else
                  let traceID := sshTraceID now sourceIP name "forward_ok" in
                  ignore (AddTraceEvent (bastion_trace traceID name "forward.ok" target sourceIP "forward" "forward_opened"
                    "SSH bastion opened forwarding channel")) ≫= fun _ =>
                  ignore (AddAuditEvent (bastion_audit name "ssh.bastion.forward.ok" target
                    ("source=" +:+ sourceIP +:+ ";fingerprint=" +:+ fp +:+ ";trace=" +:+ traceID))) ≫= fun _ =>
                  mret (Forwarded addr)
            end
      end
  end.

(** The loop of [handleConn]: the channels of a connection, one after the other. *)
Definition handleConn (remoteAddr : option string) (perms : Permissions) (chans : list NewChannel) : M S (list reply) :=
  map_each (handleChannel remoteAddr perms) chans.
End server.

(* ------------------------------------------------------------------ *)
(** ** The service as the source *)

Definition blocked_answer (hard : bool) (until : time) (why : string) : bool * bool * time * string :=
  (true, hard, until, why).
Definition not_blocked : bool * bool * time * string := (false, false, 0, "").

(** [app.Service.IsSourceBlocked] *)
Definition svc_IsSourceBlocked (i : string) : AM (bool * bool * time * string) :=
  let i := TrimSpace i in
  if String.eqb i "" then mret not_blocked
  else
    db (IsIPBlocked i) ≫= fun blocked : bool =>
    if blocked then mret (blocked_answer true 0 "blocked_ips")
    else
      st ← try_ (db (GetThreatIntelIPState i));
      match st with
      | Err e => if is_no_rows e then mret not_blocked else fail e
      | Ok st =>
          now ← db Now;
          if ts_PermBlocked st then mret (blocked_answer true 0 "threat_intel_hardblock")
          else if negb (IsZero (ts_BanUntil st)) && After (ts_BanUntil st) now
          then mret (blocked_answer false (ts_BanUntil st) "threat_intel_softblock")
          else mret not_blocked
      end.

#[export] Instance svc_auth_source : AuthSource Svc := {|
  GetSSHBastionAuthByFingerprint fp := db (StoreBastion.GetSSHBastionAuthByFingerprint fp);
  AddAuditEvent ev := db (StoreUsers.AddAuditEvent ev);
  AddTraceEvent ev := db (StoreUsers.RecordTraceEvent ev);
  ApplyThreatIntelEvent := ThreatEngine.ApplyThreatIntelEvent;
  IsSourceBlocked := svc_IsSourceBlocked
|}.

Definition svc_clock (s : Svc) : time := e_now (s_env s).

(* ------------------------------------------------------------------ *)
(** ** Grants *)

(** A key reaches a target over a link to an enabled route. *)
Definition granted (d : DB) (fp host : string) (port : Z) : Prop :=
  exists kid k rid rt, t_ssh_bastion_keys d !! kid = Some k /\ bk_Fingerprint k = TrimSpace fp /\ bk_Enabled k = true /\
    (kid, rid) ∈ t_ssh_bastion_key_routes d /\ t_ssh_bastion_routes d !! rid = Some rt /\
    sb_Enabled rt = true /\ EqualFold (TrimSpace (sb_TargetHost rt)) (TrimSpace host) = true /\ sb_TargetPort rt = port.

(** An enabled key. *)
Definition key_enabled (d : DB) (fp : string) : Prop :=
  exists kid k, t_ssh_bastion_keys d !! kid = Some k /\ bk_Fingerprint k = TrimSpace fp /\ bk_Enabled k = true.

Lemma elem_of_key_route_ids d kid rid : rid ∈ key_route_ids kid d <-> (kid, rid) ∈ t_ssh_bastion_key_routes d.
Proof.
  unfold key_route_ids. rewrite elem_of_order_by, list_elem_of_In, in_map_iff. split.
  - intros ([k r] & <- & [Hin Hk]%filter_In). simpl in *. apply list_elem_of_In, elem_of_elements in Hin.
    by apply Z.eqb_eq in Hk as ->.
  - intros Hin. exists (kid, rid). split; [done|]. apply filter_In. split; [|by apply Z.eqb_refl].
    by apply list_elem_of_In, elem_of_elements.
Qed.

Lemma elem_of_routes_of_key d kid rt : rt ∈ routes_of_key kid d <->
  exists rid, (kid, rid) ∈ t_ssh_bastion_key_routes d /\ t_ssh_bastion_routes d !! rid = Some rt.
Proof.
  unfold routes_of_key. rewrite list_elem_of_omap. split; intros (rid & H1 & H2); exists rid; (split; [|done]);
    by apply elem_of_key_route_ids.
Qed.

Lemma key_by_fingerprint_spec d fp k : bastion_ok d ->
  key_by_fingerprint fp d = Some k <-> t_ssh_bastion_keys d !! bk_ID k = Some k /\ bk_Fingerprint k = fp.
Proof.
  intros Hok. unfold key_by_fingerprint. split.
  - intros [Hf%String.eqb_eq [id Hid]]%find_row_Some. by rewrite (bo_key_id _ Hok _ _ Hid).
  - intros [Hk Hf]. eapply find_row_unique; [exact Hk|by apply String.eqb_eq|].
    intros id x Hx Hfx%String.eqb_eq. eapply (bo_fingerprint _ Hok); [exact Hx|exact Hk|congruence].
Qed.

(** What a lookup of a key answers, and that it changes no table. *)
Definition auth_of (k : SSHBastionKey) (d : DB) : SSHBastionKeyAuth :=
  let l := routes_of_key (bk_ID k) d in mkSSHBastionKeyAuth (with_routes k (map sb_ID l)) l.

Definition same_db (s s' : Svc) : Prop :=
  e_db (s_env s') = e_db (s_env s) /\ (e_faults (s_env s) = [] -> e_faults (s_env s') = []).

Lemma auth_lookup_wp fp s :
  wp (db (StoreBastion.GetSSHBastionAuthByFingerprint fp)) (fun r s' => same_db s s' /\
    match r with
    | Ok a => exists k, key_by_fingerprint (TrimSpace fp) (e_db (s_env s)) = Some k /\ a = auth_of k (e_db (s_env s))
    | Err _ => e_faults (s_env s) = [] -> key_by_fingerprint (TrimSpace fp) (e_db (s_env s)) = None
    end) s.
Proof.
  apply wp_db. unfold StoreBastion.GetSSHBastionAuthByFingerprint. set (e := s_env s). unfold same_db.
  assert (Hc : e_faults e = [] -> e_faults (StoreBastion.GetSSHBastionAuthByFingerprint fp e).2 = []).
  { intros Hf. assert (Hk : keeps calm (StoreBastion.GetSSHBastionAuthByFingerprint fp)); [|by apply Hk].
    unfold StoreBastion.GetSSHBastionAuthByFingerprint. keeps_calm. }
  assert (Hs : e_db (StoreBastion.GetSSHBastionAuthByFingerprint fp e).2 = e_db e).
  { assert (Hk : keeps (same (fun d => d)) (StoreBastion.GetSSHBastionAuthByFingerprint fp)); [|by apply Hk].
    unfold StoreBastion.GetSSHBastionAuthByFingerprint. keeps_db. }
  change (wp (StoreBastion.GetSSHBastionAuthByFingerprint fp) (fun r e' => (e_db e' = e_db e /\ (e_faults e = [] -> e_faults e' = [])) /\
    match r with
    | Ok a => exists k, key_by_fingerprint (TrimSpace fp) (e_db e) = Some k /\ a = auth_of k (e_db e)
    | Err _ => e_faults e = [] -> key_by_fingerprint (TrimSpace fp) (e_db e) = None
    end) e).
  unfold wp. destruct (StoreBastion.GetSSHBastionAuthByFingerprint fp e) as [r e'] eqn:E. simpl in Hc, Hs. split; [done|].
  revert E. unfold StoreBastion.GetSSHBastionAuthByFingerprint. destruct e as [d now fs rnd]. clear Hc Hs. simpl.
  unfold query_row, query, mbind, M_bind. destruct fs as [|[] fs]; simpl; try (intros [= <- <-]; done);
    destruct (key_by_fingerprint (TrimSpace fp) d) as [k|]; simpl; try (intros [= <- <-]; done).
  - intros [= <- <-]. by exists k.
  - destruct fs as [|[] fs]; simpl; intros [= <- <-]; try done; by exists k.
Qed.

(** The routes of an enabled key allow a target exactly when it is granted. *)
Lemma allowed_granted d fp k host port : bastion_ok d -> key_by_fingerprint (TrimSpace fp) d = Some k ->
  bk_Enabled k = true ->
  existsb (route_allows (TrimSpace host) port) (ka_Routes (auth_of k d)) = true <-> granted d fp host port.
Proof.
  intros Hok Hk Hen. apply key_by_fingerprint_spec in Hk as [Hk Hf]; [|done]. rewrite existsb_exists. split.
  - intros (rt & Hin%list_elem_of_In & Ha). apply elem_of_routes_of_key in Hin as (rid & Hl & Hr).
    unfold route_allows in Ha. apply andb_prop in Ha as [He [Hh Hp]%andb_prop]. apply Z.eqb_eq in Hp.
    by exists (bk_ID k), k, rid, rt.
  - intros (kid & k' & rid & rt & H1 & H2 & H3 & H4 & H5 & H6 & H7 & H8).
    assert (kid = bk_ID k) as -> by (eapply (bo_fingerprint _ Hok); [exact H1|exact Hk|congruence]).
    exists rt. split; [apply list_elem_of_In, elem_of_routes_of_key; by exists rid|].
    unfold route_allows. rewrite H6, H7. simpl. by apply Z.eqb_eq.
Qed.

Lemma enabled_key d fp k : bastion_ok d -> key_by_fingerprint (TrimSpace fp) d = Some k ->
  key_enabled d fp <-> bk_Enabled k = true.
Proof.
  intros Hok Hk. apply key_by_fingerprint_spec in Hk as [Hk Hf]; [|done]. split.
  - intros (kid & k' & H1 & H2 & H3).
    assert (kid = bk_ID k) as -> by (eapply (bo_fingerprint _ Hok); [exact H1|exact Hk|congruence]). congruence.
  - intros Hen. by exists (bk_ID k), k.
Qed.

Section forwarding.
Context (dial : string -> option string).
Local Abbreviation handleChannel := (@handleChannel Svc _ svc_clock dial).

(** What the answer to a channel says of the grants. *)
Definition channel_post (perms : Permissions) (ch : NewChannel) (s : Svc) (r : result reply) : Prop :=
  (forall addr, r = Ok (Forwarded addr) -> exists host port, nc_payload ch = Some (host, port) /\
     granted (e_db (s_env s)) (pm_key_fingerprint perms) host port /\
     addr = JoinHostPort (TrimSpace host) (Itoa port) /\ dial addr = None) /\
  (forall host port, e_faults (s_env s) = [] -> nc_type ch = "direct-tcpip" -> nc_payload ch = Some (host, port) ->
     nc_accept ch = true -> granted (e_db (s_env s)) (pm_key_fingerprint perms) host port ->
     dial (JoinHostPort (TrimSpace host) (Itoa port)) = None ->
     r = Ok (Forwarded (JoinHostPort (TrimSpace host) (Itoa port)))).

Lemma channel_wp remote perms ch s : bastion_ok (e_db (s_env s)) ->
  wp (handleChannel remote perms ch) (fun r _ => channel_post perms ch s r) s.
Proof.
  intros Hok. unfold Bastion.handleChannel, channel_post. set (fp := pm_key_fingerprint perms). set (d := e_db (s_env s)) in *.
  destruct (nc_type ch =? "direct-tcpip")%string eqn:Ht; [|apply wp_ret; split; [done|intros; by apply String.eqb_neq in Ht]].
  simpl negb. cbv iota. destruct (nc_payload ch) as [[host port]|]; [|by apply wp_ret].
  apply wp_bind, wp_try. eapply wp_mono; [apply auth_lookup_wp|]. fold d. intros r s1 [Hs1 Hr].
  assert (Hkey : (exists k, key_by_fingerprint (TrimSpace fp) d = Some k /\ r = Ok (auth_of k d) /\ bk_Enabled k = true) \/
    (match match r with Ok a => if bk_Enabled (ka_Key a) then Some a else None | Err _ => None end with None => True | Some _ => False end /\
     (e_faults (s_env s) = [] -> ~ granted d fp host port))).
  { destruct r as [a|x].
    - destruct Hr as (k & Hk & ->). simpl. destruct (bk_Enabled k) eqn:He; [left; by exists k|right]. split; [done|].
      intros _ (kid & k' & _ & _ & H1 & H2 & H3 & _). apply (enabled_key d fp k) in Hk as Hiff; [|done].
      assert (Hx : key_enabled d fp) by (by exists kid, k'). apply Hiff in Hx. congruence.
    - right. split; [done|]. intros Hf (kid & k' & _ & _ & H1 & H2 & _). specialize (Hr Hf).
      pose proof (proj1 (find_row_None _ _) Hr kid k' H1) as Hn. apply String.eqb_neq in Hn. done. }
  destruct Hkey as [(k & Hk & -> & Hen)|[Hnone Hng]].
  2: { destruct (match r with Ok a => _ | Err _ => None end); [done|]. apply wp_ret. split; [done|].
    intros h p Hf _ [= <- <-] _ Hg _. by destruct (Hng Hf). }
  simpl (bk_Enabled (ka_Key (auth_of k d))). rewrite Hen.
  pose proof (allowed_granted d fp k host port Hok Hk Hen) as Hall.
  apply wp_bind, wp_gets. destruct (existsb _ _) eqn:He; simpl negb; cbv iota.
  2: { do 3 (apply wp_bind, wp_ignore, wp_any; intros _ ?). apply wp_ret. split; [done|].
    intros h p _ _ [= <- <-] _ Hg _. apply Hall in Hg. congruence. }
  pose proof (proj1 Hall eq_refl) as Hg.
  destruct (dial (JoinHostPort (TrimSpace host) (Itoa port))) as [err|] eqn:Hd.
  { do 2 (apply wp_bind, wp_ignore, wp_any; intros _ ?). apply wp_ret. split; [done|]. intros h p _ _ [= <- <-] _ _ Hd'. congruence. }
  destruct (nc_accept ch) eqn:Hac; simpl negb; cbv iota; [|apply wp_ret; split; [done|intros; congruence]].
  do 2 (apply wp_bind, wp_ignore, wp_any; intros _ ?). apply wp_ret. split.
  - intros addr [= <-]. by exists host, port.
  - intros h p _ _ [= <- <-] _ _ _. done.
Qed.
End forwarding.

(* ------------------------------------------------------------------ *)
(** ** What the bastion lets through *)

(** C16. A channel is forwarded exactly along the grants: bytes only ever reach an
    address that some enabled route names, over a link from the enabled key of
    the connection to that route, and that answered the dial; and when no
    statement fails, every such channel the client accepts is forwarded. *)
Theorem forwards_are_granted dial remote perms ch (s : Svc) :
  bastion_ok (e_db (s_env s)) ->
  channel_post dial perms ch s (@handleChannel Svc _ svc_clock dial remote perms ch s).1.
Proof. intros Hok. exact (wp_apply _ _ _ (channel_wp dial remote perms ch s Hok)). Qed.

(** The key of a source that may log in: known and enabled, offered from a source
    that is neither listed nor banned. *)
Record may_enter (fp i : string) (s : Svc) : Prop := {
  en_key : exists kid k, t_ssh_bastion_keys (e_db (s_env s)) !! kid = Some k /\
    bk_Fingerprint k = TrimSpace fp /\ bk_Enabled k = true;
  en_unlisted : e_faults (s_env s) = [] -> TrimSpace i <> "" -> t_blocked_ips (e_db (s_env s)) !! TrimSpace i = None;
  en_unbanned : e_faults (s_env s) = [] -> TrimSpace i <> "" ->
    forall row, t_threat_intel_ip_state (e_db (s_env s)) !! TrimSpace i = Some row ->
      ts_PermBlocked (sr_state row) = false /\ (ts_BanUntil (sr_state row) = 0 \/ ts_BanUntil (sr_state row) <= e_now (s_env s))
}.

Lemma IsSourceBlocked_wp i s :
  wp (svc_IsSourceBlocked i) (fun r s' => e_db (s_env s') = e_db (s_env s) /\
    (e_faults (s_env s) = [] -> TrimSpace i <> "" -> exists b hard until why, r = Ok (b, hard, until, why) /\ (b = false ->
      t_blocked_ips (e_db (s_env s)) !! TrimSpace i = None /\
      forall row, t_threat_intel_ip_state (e_db (s_env s)) !! TrimSpace i = Some row ->
        ts_PermBlocked (sr_state row) = false /\ (ts_BanUntil (sr_state row) = 0 \/ ts_BanUntil (sr_state row) <= e_now (s_env s))))) s.
Proof.
  assert (Hs : keeps (on_env (same (fun d => d))) (svc_IsSourceBlocked i)).
  { unfold svc_IsSourceBlocked. keeps_tac; try typeclasses eauto; apply keeps_db;
      unfold IsIPBlocked, GetThreatIntelIPState; keeps_db. }
  specialize (Hs s). unfold wp. destruct (svc_IsSourceBlocked i s) as [r s'] eqn:E. destruct Hs as [Hs _]. split; [exact Hs|].
  intros Hf Hne. apply String.eqb_neq in Hne as Hne'. revert E. unfold svc_IsSourceBlocked. rewrite Hne'.
  destruct s as [[d now fs rnd] nft win snap rules sync url hash en au pub key su]. simpl in Hf, Hs |- *. subst fs.
  unfold mbind, M_bind, db, zoom, IsIPBlocked. rewrite TrimSpace_idem, Hne'. simpl.
  case_bool_decide as Hb; simpl.
  { intros [= <- _]. by do 4 eexists. }
  unfold try_, GetThreatIntelIPState, query_row, query, mbind, M_bind. rewrite TrimSpace_idem. simpl.
  assert (Hnone : t_blocked_ips d !! TrimSpace i = None) by (destruct (t_blocked_ips d !! TrimSpace i); [by destruct Hb|done]).
  destruct (t_threat_intel_ip_state d !! TrimSpace i) as [row|] eqn:Hrow; simpl.
  2: { intros [= <- _]. do 4 eexists. split; [done|]. by intros _. }
  destruct (ts_PermBlocked (sr_state row)) eqn:Hp; [intros [= <- _]; by do 4 eexists|].
  destruct (negb (IsZero (ts_BanUntil (sr_state row))) && After (ts_BanUntil (sr_state row)) now) eqn:Hban;
    [intros [= <- _]; by do 4 eexists|].
  intros [= <- _]. do 4 eexists. split; [done|]. intros _. split; [done|]. intros row' [= <-]. split; [done|].
  unfold IsZero, After in Hban. lia.
Qed.

Lemma callback_wp meta fp s : bastion_ok (e_db (s_env s)) ->
  wp (@PublicKeyCallback Svc _ svc_clock meta fp) (fun r _ => forall perms, r = Ok perms ->
    pm_key_fingerprint perms = fp /\ may_enter fp (addrIP (Some (cm_RemoteAddr meta))) s) s.
Proof.
  intros Hok. unfold PublicKeyCallback. cbv zeta. set (i := addrIP (Some (cm_RemoteAddr meta))).
  apply wp_bind, wp_gets, wp_bind, wp_try. eapply wp_mono; [apply IsSourceBlocked_wp|]. intros b s1 [Hs1 Hb].
  assert (Hgo : (forall hard until why, b <> Ok (true, hard, until, why)) -> forall k, key_by_fingerprint (TrimSpace fp) (e_db (s_env s)) = Some k ->
    bk_Enabled k = true -> may_enter fp i s).
  { intros Hnb k Hk Hen. apply key_by_fingerprint_spec in Hk as [Hk Hf]; [|done]. split; [by exists (bk_ID k), k| |].
    all: intros Hfl Hne; destruct (Hb Hfl Hne) as ([] & hard & until & why & -> & Hx); [by destruct (Hnb hard until why)|].
    all: by apply Hx. }
  destruct b as [[[[[] hard] until] why]|x].
  1: do 2 (apply wp_bind, wp_ignore, wp_any; intros _ ?); by apply wp_fail.
  all: specialize (Hgo ltac:(discriminate)); apply wp_bind, wp_try; eapply wp_mono; [apply auth_lookup_wp|].
  all: rewrite Hs1; intros [a|y] s2 [_ Ha]; [destruct Ha as (k & Hk & ->); simpl; destruct (bk_Enabled k) eqn:He|];
    [|do 3 (apply wp_bind, wp_ignore, wp_any; intros _ ?); by apply wp_fail..].
  all: do 2 (apply wp_bind, wp_ignore, wp_any; intros _ ?); apply wp_ret; intros perms [= <-]; (split; [done|by eapply Hgo]).
Qed.

(** C18. Who the bastion lets in: only a key that is known and enabled, and, as
    long as the database answers, only from a source that is not on the block
    list, not blocked for good and not under a ban that still runs. *)
Theorem bastion_login_sound meta fp perms (s s' : Svc) :
  bastion_ok (e_db (s_env s)) -> @PublicKeyCallback Svc _ svc_clock meta fp s = (Ok perms, s') ->
  pm_key_fingerprint perms = fp /\ may_enter fp (addrIP (Some (cm_RemoteAddr meta))) s.
Proof. intros Hok Hrun. by eapply (wp_run _ _ _ _ _ (callback_wp meta fp s Hok) Hrun). Qed.

(** Revocation is immediate: once a key is deleted, connections it already
    opened get no further channel, whatever they ask for. *)
Theorem revoked_key_forwards_nothing dial remote perms ch id k (s : Svc) :
  bastion_ok (e_db (s_env s)) -> e_faults (s_env s) = [] ->
  t_ssh_bastion_keys (e_db (s_env s)) !! id = Some k -> bk_Fingerprint k = TrimSpace (pm_key_fingerprint perms) ->
  let s1 := (db (DeleteSSHBastionKey id) s).2 in
  forall addr, (@handleChannel Svc _ svc_clock dial remote perms ch s1).1 <> Ok (Forwarded addr).
Proof.
  intros Hok Hf Hk Hfp s1 addr Hrun.
  assert (Hok1 : bastion_ok (e_db (s_env s1))).
  { unfold s1, db, zoom. pose proof (DeleteSSHBastionKey_ok id (s_env s) Hok) as H.
    by destruct (DeleteSSHBastionKey id (s_env s)) as [r e']. }
  assert (Hd : e_db (s_env s1) = delete_bastion_key_rows id (e_db (s_env s))).
  { unfold s1. destruct s as [[d now fs rnd] nft win snap rules sync url hash en au pub key su]. simpl in Hf. by subst fs. }
  pose proof (wp_apply _ _ _ (channel_wp dial remote perms ch s1 Hok1)) as [Hfwd _].
  destruct (Hfwd addr Hrun) as (host & port & _ & (kid & k' & rid & rt & H1 & H2 & _) & _).
  rewrite Hd in H1. simpl in H1. apply lookup_delete_Some in H1 as [Hne H1]. apply Hne.
  eapply (bo_fingerprint _ Hok); [exact Hk|exact H1|congruence].
Qed.

(* ------------------------------------------------------------------ *)
(** ** A bastion with one key *)

Definition demo_grants : DB := e_db (for_each run_bastion_op demo_bastion_ops (clean empty_DB 5)).2.
Definition demo_bastion : Svc := new_svc (clean demo_grants (100 * Hour)) None.
Definition answers (_ : string) : option string := None.
Definition bob : ConnMetadata := mkConnMetadata "198.51.100.4:5022" "bob".
Definition bob_perms : Permissions := mkPermissions "SHA256:def" "bob".
Definition ssh_channel (host : string) (port : Z) : NewChannel := mkNewChannel "direct-tcpip" (Some (host, port)) true.

Lemma demo_bastion_ok : bastion_ok (e_db (s_env demo_bastion)).
Proof.
  unfold demo_bastion, new_svc, new_svc_with, clean. cbn [s_env e_db]. unfold demo_grants.
  exact (bastion_run demo_bastion_ops (clean empty_DB 5) empty_bastion_ok).
Qed.

Lemma forwards_are_granted_witness :
  (@handleChannel Svc _ svc_clock answers None bob_perms (ssh_channel " 10.0.0.5" 22) demo_bastion).1 = Ok (Forwarded "10.0.0.5:22") /\
  (@handleChannel Svc _ svc_clock answers None bob_perms (ssh_channel "10.0.0.5" 23) demo_bastion).1
    = Ok (Reject "Prohibited" "target not allowed") /\
  channel_post answers bob_perms (ssh_channel "10.0.0.5" 23) demo_bastion
    (@handleChannel Svc _ svc_clock answers None bob_perms (ssh_channel "10.0.0.5" 23) demo_bastion).1.
Proof.
  split; [vm_compute; reflexivity|]. split; [vm_compute; reflexivity|].
  apply (forwards_are_granted answers None bob_perms (ssh_channel "10.0.0.5" 23) demo_bastion demo_bastion_ok).
Defined.

Lemma bastion_login_sound_witness :
  exists s', @PublicKeyCallback Svc _ svc_clock bob "SHA256:def" demo_bastion = (Ok bob_perms, s') /\
    may_enter "SHA256:def" "198.51.100.4" demo_bastion.
Proof.
  destruct (@PublicKeyCallback Svc _ svc_clock bob "SHA256:def" demo_bastion) as [r s'] eqn:E.
  assert (Hr : r = Ok bob_perms).
  { transitivity (@PublicKeyCallback Svc _ svc_clock bob "SHA256:def" demo_bastion).1; [by rewrite E|vm_compute; reflexivity]. }
  subst r. exists s'. split; [done|]. exact (proj2 (bastion_login_sound bob "SHA256:def" bob_perms demo_bastion s' demo_bastion_ok E)).
Defined.

Lemma revoked_key_forwards_nothing_witness :
  (@handleChannel Svc _ svc_clock answers None bob_perms (ssh_channel "10.0.0.5" 22) (db (DeleteSSHBastionKey 1) demo_bastion).2).1
    <> Ok (Forwarded "10.0.0.5:22").
Proof.
  destruct (t_ssh_bastion_keys (e_db (s_env demo_bastion)) !! 1) as [k|] eqn:E; [|by vm_compute in E].
  apply (revoked_key_forwards_nothing answers None bob_perms (ssh_channel "10.0.0.5" 22) 1 k demo_bastion demo_bastion_ok);
    [vm_compute; reflexivity|exact E|].
  transitivity "SHA256:def"; [|vm_compute; reflexivity].
  assert (Hk : bk_Fingerprint <$> t_ssh_bastion_keys (e_db (s_env demo_bastion)) !! 1 = Some "SHA256:def") by (vm_compute; reflexivity).
  rewrite E in Hk. by injection Hk.
Defined.
