(* ===== verification/Hosts.v ===== *)
(** [internal/app/service.go]: domains and hosts as the service manages them:
    routing input, the DNS records of a domain, the public address, the states a
    host goes through, and the names certificates are asked for.

    The DNS provider ([dns.Provider]) is a record of operations whose answer may
    depend on every call made before; the calls are logged in [s_dnsCalls].  The
    detection of the public address asks web services and is a parameter. *)

From S2P Require Import Prelude GoString GoMonad GoTime GoNet GoUrl GoCrypto Crypto Model LogServers.
From S2P Require Import StoreDB StoreThreat StoreUsers StoreHosts Service Vault.
From Stdlib Require Import Ascii.

(* ------------------------------------------------------------------ *)
(** ** Normal forms of what a client sends *)

(** [url.Parse] of an upstream: http or https, with a host. *)
Definition valid_upstream (raw : string) : bool :=
  match Parse (TrimSpace raw) with
  | Some u => (String.eqb (url_Scheme u) "http" || String.eqb (url_Scheme u) "https")
              && negb (String.eqb (url_Host u) "")
  | None => false
  end.

(** The loop over the backends; [i] counts every backend, kept or not. *)
Fixpoint ha_backends (i : Z) (seen : gset string) (l : list HABackend) : result (list HABackend) :=
  match l with
  | [] => Ok []
  | b :: l' =>
      let url := TrimSpace (hb_URL b) in
      let name := or_default (TrimSpace (hb_Name b)) ("backend-" +:+ Itoa (i + 1)) in
      if String.eqb url "" || bool_decide (url ∈ seen) then ha_backends (i + 1) seen l'
      else if negb (valid_upstream url) then Err (ErrText "invalid ha backend URL")
      else out ← ha_backends (i + 1) ({[url]} ∪ seen) l'; mret (mkHABackend name url :: out)
  end.

(** Upstream, mode and backends, in normal form. *)
Definition validateRoutingInput (upstream : string) (haEnabled : bool) (haMode : string)
    (haBackends : list HABackend) : result (string * string * list HABackend) :=
  if negb haEnabled then
    if valid_upstream upstream then Ok (TrimSpace upstream, "", []) else Err (ErrText "invalid upstream URL")
  else
    let mode := or_default (norm haMode) "failover" in
    if negb (String.eqb mode "failover") && negb (String.eqb mode "round_robin") then Err (ErrText "invalid ha mode")
    else
      out ← ha_backends 0 ∅ haBackends;
      match out with
      | b :: _ :: _ => Ok (hb_URL b, mode, out)
      | _ => Err (ErrText "ha requires at least 2 backends")
      end.

Definition normalizeConnectionProfile (profile : string) : string :=
  if String.eqb (norm profile) "streaming" then "streaming" else "http".

(** Two letters from A to Z. *)
Definition is_country (c : string) : bool :=
  match c with String a (String b "") => is_upper a && is_upper b | _ => false end.

Fixpoint country_loop (seen : gset string) (l : list string) : result (list string) :=
  match l with
  | [] => Ok []
  | c :: l' =>
      let c := ToUpper (TrimSpace c) in
      if String.eqb c "" || bool_decide (c ∈ seen) then country_loop seen l'
      else if negb (is_country c) then Err (ErrText ("invalid country code: " +:+ c))
      else out ← country_loop ({[c]} ∪ seen) l'; mret (c :: out)
  end.

Definition normalizeHostGeoPolicy (mode : string) (countries : list string) : result (string * list string) :=
  let mode := norm mode in
  if String.eqb mode "" || String.eqb mode "off" then Ok ("", [])
  else if negb (String.eqb mode "allow") && negb (String.eqb mode "deny") then Err (ErrText "invalid geo mode")
  else
    out ← country_loop ∅ countries;
    match out with
    | [] => Err (ErrText "at least one country code required for geo policy")
    | _ => Ok (mode, out)
    end.

Definition parseIPv4 (raw : string) : result string :=
  match ParseIP (TrimSpace raw) with
  | Some i => match To4 i with Some _ => Ok (IP_String i) | None => Err (ErrText "invalid IPv4") end
  | None => Err (ErrText "invalid IPv4")
  end.

(* ------------------------------------------------------------------ *)
(** ** The DNS provider *)

(** [pv_resolve] is there when the provider is Cloudflare's. *)
Record Provider := mkProvider {
  pv_upsert : list DnsCall -> string -> string -> string -> result unit;
  pv_delete : list DnsCall -> string -> string -> result unit;
  pv_resolve : option (list DnsCall -> string -> result string)
}.

Definition dns_call {A} (c : DnsCall) (answer : list DnsCall -> result A) : AM A :=
  calls ← gets s_dnsCalls;
  modify (fun s => s <| s_dnsCalls ::= fun l => l ++ [c] |>) ≫= fun _ => lift (answer calls).

Section service.
Context (dns : option Provider) (detectPublicIPv4 : result string).
Context (IDKey : bytes -> bytes -> Z -> Z -> Z -> Z -> bytes).

Definition dns_upsert (p : Provider) (zone name ip : string) : AM unit :=
  dns_call (UpsertARecord zone name ip) (fun calls => pv_upsert p calls zone name ip).
Definition dns_delete (p : Provider) (zone name : string) : AM unit :=
  dns_call (DeleteARecord zone name) (fun calls => pv_delete p calls zone name).

Definition resolveCloudflareZoneID (domain : string) : AM string :=
  match dns with
  | Some (mkProvider _ _ (Some resolve)) => dns_call (ResolveZone domain) (fun calls => resolve calls domain)
  | _ => fail (ErrText "cloudflare provider unavailable")
  end.

Definition ensureDomainZoneID (d : Domain) : AM string :=
  if negb (String.eqb (TrimSpace (d_ZoneID d)) "") then mret (TrimSpace (d_ZoneID d))
  else
    resolved ← resolveCloudflareZoneID (d_Name d);
    db (StoreHosts.UpsertDomain (d <| d_ZoneID := resolved |>)) ≫= fun _ => mret resolved.

(** The provider of a domain whose records the service keeps. *)
Definition managed_by (d : Domain) : option Provider :=
  if String.eqb (d_DNSMode d) "cloudflare" then dns else None.

(** Failed updates are logged and skipped. *)
Definition update_domain_records (d : Domain) : AM unit :=
  match managed_by d with
  | None => mret tt
  | Some p =>
      ip ← gets s_publicIP;
      z ← try_ (ensureDomainZoneID d);
      match z with
      | Err _ => mret tt
      | Ok zone =>
          ignore (dns_upsert p zone (d_Name d) ip) ≫= fun _ =>
          ignore (dns_upsert p zone ("*." +:+ d_Name d) ip) ≫= fun _ =>
          ignore (dns_upsert p zone ("admin." +:+ d_Name d) ip) ≫= fun _ =>
          hosts ← try_ (db (ListHostsByDomainID (d_ID d)));
          match hosts with
          | Err _ => mret tt
          | Ok hosts => for_each (fun h =>
              when (negb (String.eqb (norm (h_FQDN h)) "")) (ignore (dns_upsert p zone (norm (h_FQDN h)) ip))) hosts
          end
      end
  end.

Definition UpdatePublicIP (ip : string) : AM unit :=
  ipv4 ← lift (parseIPv4 ip);
  modify (fun s => s <| s_publicIP := ipv4 |>) ≫= fun _ =>
  domains ← db StoreHosts.ListDomains;
  for_each update_domain_records domains.

Definition settingPublicIPv4 : string := "network.public_ipv4".

Definition currentPublicIPv4 : AM string :=
  cur ← gets s_publicIP;
  match parseIPv4 (TrimSpace cur) with
  | Ok ip => mret ip
  | Err _ =>
      r ← try_ (db (GetSetting settingPublicIPv4));
      match r with
      | Ok v =>
          match parseIPv4 v with
          | Err e => fail (ErrWrap "invalid settings public ipv4" e)
          | Ok ip => modify (fun s => s <| s_publicIP := ip |>) ≫= fun _ => mret ip
          end
      | Err e =>
          if negb (is_no_rows e) then fail e
          else
            ip ← lift detectPublicIPv4;
            db (SetSetting settingPublicIPv4 ip) ≫= fun _ =>
            modify (fun s => s <| s_publicIP := ip |>) ≫= fun _ => mret ip
      end
  end.

Definition InitializePublicIPv4 : AM unit :=
  r ← try_ currentPublicIPv4;
  match r with
  | Err _ => mret tt
  | Ok ip => modify (fun s => s <| s_publicIP := ip |>)
  end.

Definition ensurePublicIPv4 : AM string :=
  ip ← currentPublicIPv4; UpdatePublicIP ip ≫= fun _ => mret ip.

(** One round of [StartPublicIPSync]. *)
Definition syncPublicIPOnce : AM unit :=
  match detectPublicIPv4 with
  | Err _ => mret tt
  | Ok detected =>
      r ← try_ currentPublicIPv4;
      let current := match r with Ok c => c | Err _ => "" end in
      if String.eqb (TrimSpace current) (TrimSpace detected) then ignore (UpdatePublicIP detected)
      else
        r ← try_ (db (SetSetting settingPublicIPv4 detected));
        match r with
        | Err _ => mret tt
        | Ok _ =>
            r ← try_ (UpdatePublicIP detected);
            match r with
            | Err _ => mret tt
            | Ok _ => db (audit "system" "network.public_ip.changed.auto" detected
                            ("old=" +:+ TrimSpace current +:+ ";new=" +:+ TrimSpace detected))
            end
        end
  end.

(* ------------------------------------------------------------------ *)
(** ** Domains *)

(** [fmt.Errorf(msg + ": %w", err)] around a call. *)
Definition wrapped {A} (msg : string) (m : AM A) : AM A :=
  r ← try_ m; match r with Ok a => mret a | Err e => fail (ErrWrap msg e) end.

Definition UpsertDomain (name dnsMode certMode provider zoneID : string) : AM Domain :=
  let name := norm name in
  let dnsMode := norm dnsMode in
  let certMode := or_default (norm certMode) "letsencrypt" in
  let certMode := if String.eqb dnsMode "cloudflare" && String.eqb certMode "letsencrypt"
                  then "letsencrypt-catchall" else certMode in
  fail_if (Count name "."%char <? 1) "invalid domain" ≫= fun _ =>
  zone ← (if String.eqb dnsMode "cloudflare" && String.eqb (TrimSpace zoneID) ""
          then wrapped "cloudflare zone resolution failed" (resolveCloudflareZoneID name)
          else mret (TrimSpace zoneID));
  d ← db (StoreHosts.UpsertDomain (zero_Domain <| d_Name := name |> <| d_DNSMode := dnsMode |>
            <| d_CertMode := certMode |> <| d_Provider := provider |> <| d_ZoneID := zone |> <| d_Status := "active" |>));
  match (if String.eqb dnsMode "cloudflare" then dns else None) with
  | None => mret d
  | Some p =>
      ip ← wrapped "public ipv4 unavailable for cloudflare setup" ensurePublicIPv4;
      wrapped "cloudflare apex setup failed" (dns_upsert p zone name ip) ≫= fun _ =>
      wrapped "cloudflare wildcard setup failed" (dns_upsert p zone ("*." +:+ name) ip) ≫= fun _ =>
      hosts ← db (ListHostsByDomainID (d_ID d));
      for_each (fun h => wrapped ("cloudflare host setup failed for " +:+ h_FQDN h) (dns_upsert p zone (h_FQDN h) ip)) hosts
      ≫= fun _ => mret d
  end.

Definition RemoveDomain (id : Z) : AM unit := db (StoreHosts.RemoveDomain id).

Definition disable_hosts (hosts : list Host) : SM unit :=
  for_each (fun h => if String.eqb (h_State h) "disabled" then mret tt
                     else SetHostState (h_ID h) "disabled" "domain_deactivated") hosts.

Definition DeactivateDomain (id : Z) : AM unit := db (
  _ ← GetDomainByID id;
  hosts ← ListHostsByDomainID id;
  disable_hosts hosts ≫= fun _ =>
  SetDomainStatus id "inactive").

(** The names certificates are asked for. *)
Definition certified_states : gset string := {["active"; "cert_pending"; "maintenance"; "disabled"]}.

Definition ListFQDNs : AM (list string) :=
  hosts ← db StoreHosts.ListHosts;
  domains ← db StoreHosts.ListDomains;
  let live := List.filter (fun d => negb (EqualFold (TrimSpace (d_Status d)) "inactive")) domains in
  let open := List.filter (fun h => bool_decide (h_State h ∈ certified_states)) hosts in
  mret (dedup_seen norm nonempty ∅ (map d_Name live ++ map h_FQDN open)).

Definition catch_all_modes : gset string := {["letsencrypt"; "letsencrypt-catchall"]}.

Definition ListCatchAllDomains : AM (list string) :=
  domains ← db StoreHosts.ListDomains;
  mret (map (fun d => norm (d_Name d)) (List.filter (fun d =>
    String.eqb (norm (d_DNSMode d)) "cloudflare" && bool_decide (norm (d_CertMode d) ∈ catch_all_modes)) domains)).

Definition ListWildcardDomains : AM (list string) :=
  domains ← db StoreHosts.ListDomains;
  mret (map (fun d => norm (d_Name d)) (List.filter (fun d =>
    String.eqb (norm (d_DNSMode d)) "cloudflare" && HasPrefix (norm (d_CertMode d)) "letsencrypt") domains)).

(* ------------------------------------------------------------------ *)
(** ** Hosts *)

(** The error a failed DNS step of a new host leaves in its row. *)
Definition dns_or_error {A} (hostID : Z) (reason : error -> string) (m : AM A) : AM A :=
  r ← try_ m;
  match r with
  | Ok a => mret a
  | Err e => ignore (db (SetHostState hostID "error" (reason e))) ≫= fun _ => fail e
  end.

Definition CreateHost (domainName subdomain connectionProfile upstream : string) (insecureTLS haEnabled : bool)
    (haMode : string) (haBackends : list HABackend) : AM Host :=
  d ← db (GetDomainByName (ToLower domainName));
  fail_if (String.eqb subdomain "" || Contains subdomain ".") "subdomain must be single label" ≫= fun _ =>
  let profile := normalizeConnectionProfile connectionProfile in
  r ← lift (validateRoutingInput (TrimSpace upstream) haEnabled haMode haBackends);
  let '(upstream, haMode, haBackends) := r in
  let fqdn := ToLower subdomain +:+ "." +:+ d_Name d in
  h ← db (StoreHosts.CreateHost (d_ID d) (ToLower subdomain) fqdn profile upstream insecureTLS haEnabled haMode haBackends);
  db (SetHostState (h_ID h) "dns_pending" "created") ≫= fun _ =>
  match managed_by d with
  | None => mret tt
  | Some p =>
      zone ← dns_or_error (h_ID h) (fun _ => "dns: missing zone id on domain") (ensureDomainZoneID d);
      ip ← dns_or_error (h_ID h) (fun _ => "dns: missing public ipv4") ensurePublicIPv4;
      dns_or_error (h_ID h) (fun e => "dns: " +:+ error_text e) (dns_upsert p zone (d_Name d) ip) ≫= fun _ =>
      dns_or_error (h_ID h) (fun e => "dns: " +:+ error_text e) (dns_upsert p zone fqdn ip)
  end ≫= fun _ =>
  db (SetHostState (h_ID h) "cert_pending" "dns_ok") ≫= fun _ =>
  db (SetHostState (h_ID h) "active" "cert_manager_async") ≫= fun _ =>
  db (GetHostByID (h_ID h)).

Definition adminUpstreamURL (s : Svc) : string :=
  if HasPrefix (cfg_AdminBindAddr (s_cfg s)) ":" then "http://127.0.0.1" +:+ cfg_AdminBindAddr (s_cfg s)
  else "http://" +:+ cfg_AdminBindAddr (s_cfg s).

Definition ensureAdminHostForDomain (domainName : string) : AM unit :=
  let fqdn := "admin." +:+ norm domainName in
  if String.eqb fqdn "admin." then mret tt
  else
    r ← try_ (db (FindHostByFQDN fqdn));
    match r with
    | Ok _ => mret tt
    | Err e =>
        if negb (is_no_rows e) then fail e
        else
          upstream ← gets adminUpstreamURL;
          CreateHost domainName "admin" "http" upstream false false "" [] ≫= fun _ => mret tt
    end.

Definition RemoveHost (id : Z) : AM unit :=
  h ← db (GetHostByID id);
  d ← db (GetDomainByID (h_DomainID h));
  match managed_by d with
  | None => mret tt
  | Some p =>
      zone ← wrapped "cloudflare zone resolution failed" (ensureDomainZoneID d);
      wrapped "cloudflare host record delete failed" (dns_delete p zone (h_FQDN h))
  end ≫= fun _ =>
  db (StoreHosts.RemoveHost id).

(** A manual switch between [active] and another state. *)
Definition switch_state (hostID : Z) (state on off : string) (enabled : bool) : AM Host := db (
  h ← GetHostByID hostID;
  if Bool.eqb enabled (String.eqb (h_State h) state) then mret h
  else
    SetHostState hostID (if enabled then state else "active") (if enabled then on else off) ≫= fun _ =>
    GetHostByID hostID).

Definition SetHostDisabled (hostID : Z) (disabled : bool) : AM Host :=
  switch_state hostID "disabled" "manual_disable" "manual_enable" disabled.
Definition SetHostMaintenance (hostID : Z) (enabled : bool) : AM Host :=
  switch_state hostID "maintenance" "manual_maintenance_on" "manual_maintenance_off" enabled.

Definition SetHostAuth (hostID : Z) (enabled : bool) (username password : string) : AM Host :=
  h ← db (GetHostByID hostID);
  if negb enabled then
    db (UpdateHostAuth hostID false "" "") ≫= fun _ => db (GetHostByID hostID)
  else
    let username := TrimSpace username in
    fail_if (String.eqb username "") "auth username required" ≫= fun _ =>
    passHash ← (if negb (String.eqb (TrimSpace password) "") then
                  fail_if (len password <? 8) "auth password must be at least 8 chars" ≫= fun _ =>
                  hash_password IDKey password
                else mret (h_AuthPassHash h));
    fail_if (String.eqb passHash "") "auth password required" ≫= fun _ =>
    db (UpdateHostAuth hostID true username passHash) ≫= fun _ => db (GetHostByID hostID).

Definition SetHostGeoPolicy (hostID : Z) (mode : string) (countries : list string) : AM Host := db (
  _ ← GetHostByID hostID;
  r ← lift (normalizeHostGeoPolicy mode countries);
  UpdateHostGeoPolicy hostID r.1 r.2 ≫= fun _ => GetHostByID hostID).

Definition UpdateHostRouting (hostID : Z) (connectionProfile upstream : string) (insecureTLS haEnabled : bool)
    (haMode : string) (haBackends : list HABackend) : AM Host :=
  current ← db (GetHostByID hostID);
  let profile := normalizeConnectionProfile
    (if String.eqb (TrimSpace connectionProfile) "" then h_ConnectionProfile current else connectionProfile) in
  let upstream := if negb haEnabled && String.eqb (TrimSpace upstream) "" then h_UpstreamURL current else upstream in
  r ← lift (validateRoutingInput (TrimSpace upstream) haEnabled haMode haBackends);
  let '(upstream, haMode, haBackends) := r in
  let '(haMode, haBackends) := if haEnabled then (haMode, haBackends) else ("", []) in
  db (StoreHosts.UpdateHostRouting hostID profile upstream insecureTLS haEnabled haMode haBackends) ≫= fun _ =>
  db (GetHostByID hostID).

Definition RetryHost (hostID : Z) : AM unit :=
  now ← db Now;
  next ← gets (fun s => s_backoff s !! hostID);
  fail_if (match next with Some t => Before now t | None => false end)
    ("retry backoff active until " +:+ RFC3339 (default 0 next)) ≫= fun _ =>
  h ← db (GetHostByID hostID);
  fail_if (negb (String.eqb (h_State h) "error")) "host not in error state" ≫= fun _ =>
  let delay := if Contains (h_ErrorReason h) "rate" then 5 * Minute else 30 * Second in
  modify (fun s => s <| s_backoff ::= <[hostID := Add now delay]> |>) ≫= fun _ =>
  db (SetHostState hostID "dns_pending" "manual_retry") ≫= fun _ =>
  db (SetHostState hostID "cert_pending" "manual_retry") ≫= fun _ =>
  db (SetHostState hostID "active" "manual_retry").
End service.

(* ------------------------------------------------------------------ *)
(** ** Accepted input is in normal form *)

Lemma valid_upstream_trim raw : valid_upstream (TrimSpace raw) = valid_upstream raw.
Proof. unfold valid_upstream. by rewrite TrimSpace_idem. Qed.

Lemma ha_backends_ok i seen l out :
  ha_backends i seen l = Ok out ->
  NoDup (map hb_URL out) /\
  Forall (fun b => valid_upstream (hb_URL b) = true /\ TrimSpace (hb_URL b) = hb_URL b /\ hb_URL b ∉ seen) out.
Proof.
  revert i seen out. induction l as [|b l IH]; intros i seen out; simpl.
  { intros [= <-]. split; constructor. }
  destruct (_ || _) eqn:Eskip; [apply IH|]. destruct (valid_upstream _) eqn:Ev; simpl; [|done].
  destruct (ha_backends _ _ l) as [out'|e] eqn:Er; simpl; [|done]. intros [= <-].
  apply IH in Er as [Hnd Hall]. bool_facts. rewrite Forall_forall in Hall. simpl. split.
  - constructor; [|done]. intros Hin%list_elem_of_fmap. destruct Hin as (b' & Hb & Hin).
    destruct (Hall b' Hin) as (_ & _ & Hn). set_solver.
  - constructor; simpl.
    + rewrite valid_upstream_trim in *. by rewrite TrimSpace_idem.
    + apply Forall_forall. intros b' Hin. destruct (Hall b' Hin) as (? & ? & ?). set_solver.
Qed.

Lemma routing_input_ok upstream ha mode backends up m bs :
  validateRoutingInput upstream ha mode backends = Ok (up, m, bs) ->
  valid_upstream up = true /\ TrimSpace up = up /\
  (if ha then (m = "failover" \/ m = "round_robin") /\ (2 <= length bs)%nat /\ NoDup (map hb_URL bs) /\
              hb_URL <$> head bs = Some up /\
              Forall (fun b => valid_upstream (hb_URL b) = true /\ TrimSpace (hb_URL b) = hb_URL b) bs
   else m = "" /\ bs = []).
Proof.
  unfold validateRoutingInput. destruct ha; simpl.
  - set (mode' := or_default (norm mode) "failover").
    destruct (negb (mode' =? "failover")%string && _) eqn:Em; [done|].
    destruct (ha_backends 0 ∅ backends) as [out|e] eqn:Eb; simpl; [|done].
    apply ha_backends_ok in Eb as [Hnd Hall]. destruct out as [|b1 [|b2 out]]; [done..|].
    intros [= <- <- <-]. rewrite Forall_forall in Hall.
    destruct (Hall b1) as (Hv & Ht & _); [by left|]. split_and!; simpl; [done|done| |lia|done|done|].
    + destruct (mode' =? "failover")%string eqn:E1; bool_facts; [by left|].
      destruct (mode' =? "round_robin")%string eqn:E2; bool_facts; [by right|done].
    + apply Forall_forall. intros b Hb. by destruct (Hall b Hb) as (? & ? & _).
  - destruct (valid_upstream upstream) eqn:Ev; [|done]. intros [= <- <- <-].
    by rewrite valid_upstream_trim, TrimSpace_idem.
Qed.

Lemma country_loop_ok seen l out :
  country_loop seen l = Ok out ->
  NoDup out /\ Forall (fun c => is_country c = true /\ c ∉ seen) out /\
  forall c, c ∈ out <-> c <> "" /\ (c ∉ seen) /\ exists x, x ∈ l /\ ToUpper (TrimSpace x) = c.
Proof.
  revert seen out. induction l as [|x l IH]; intros seen out; simpl.
  { intros [= <-]. split_and!; [constructor..|]. set_solver. }
  destruct (_ || _) eqn:Eskip.
  - intros Hl. apply IH in Hl as (Hnd & Hall & Hin). split_and!; [done..|]. intros c. rewrite Hin.
    apply orb_prop in Eskip. split.
    + intros (? & ? & y & ? & ?). split_and!; [done..|]. exists y. set_solver.
    + intros (Hne & Hs & y & [->|Hy]%elem_of_cons & Heq); [|by eauto 6]. exfalso.
      destruct Eskip as [E|E]; bool_facts; subst; done.
  - destruct (is_country _) eqn:Ec; simpl; [|done].
    destruct (country_loop _ l) as [out'|e] eqn:Er; simpl; [|done]. intros [= <-].
    apply IH in Er as (Hnd & Hall & Hin). bool_facts. split_and!.
    + constructor; [|done]. rewrite Hin. set_solver.
    + constructor; [done|]. eapply Forall_impl; [exact Hall|]. intros c [? ?]. set_solver.
    + intros c. rewrite elem_of_cons, Hin.
      destruct (decide (c = ToUpper (TrimSpace x))) as [->|Hne]; set_solver.
Qed.

Lemma geo_policy_ok mode countries m out :
  normalizeHostGeoPolicy mode countries = Ok (m, out) ->
  (m = "" /\ out = []) \/
  ((m = "allow" \/ m = "deny") /\ out <> [] /\ NoDup out /\ Forall (fun c => is_country c = true) out /\
   forall c, c ∈ out <-> c <> "" /\ exists x, x ∈ countries /\ ToUpper (TrimSpace x) = c).
Proof.
  unfold normalizeHostGeoPolicy. destruct (_ || _); [intros [= <- <-]; by left|].
  destruct (negb (norm mode =? "allow")%string && _) eqn:Em; [done|].
  destruct (country_loop ∅ countries) as [l|e] eqn:El; simpl; [|done].
  apply country_loop_ok in El as (Hnd & Hall & Hin).
  destruct l as [|c l]; [done|]. intros [= <- <-]. right. split_and!; [|done|done| |].
  - destruct (norm mode =? "allow")%string eqn:E1; bool_facts; [by left|].
    destruct (norm mode =? "deny")%string eqn:E2; bool_facts; [by right|done].
  - eapply Forall_impl; [exact Hall|]. by intros x [? _].
  - intros x. rewrite Hin. set_solver.
Qed.

(* ------------------------------------------------------------------ *)
(** ** A change of state, and what it leaves alone *)

Definition moved (h : Host) (to reason : string) (now : time) : Host :=
  h <| h_State := to |> <| h_ErrorReason := reason |> <| h_UpdatedAt := now |>.

Lemma set_state_wp id to reason e :
  wp (SetHostState id to reason) (fun r e' => e_now e' = e_now e /\ t_domains (e_db e') = t_domains (e_db e) /\
    (t_hosts (e_db e') = t_hosts (e_db e) \/ exists h, t_hosts (e_db e) !! id = Some h /\ validTransition (h_State h) to = true /\
       t_hosts (e_db e') = <[id := moved h to reason (e_now e)]> (t_hosts (e_db e))) /\
    (r = Ok tt -> exists h, t_hosts (e_db e) !! id = Some h /\ validTransition (h_State h) to = true /\
       t_hosts (e_db e') = <[id := moved h to reason (e_now e)]> (t_hosts (e_db e)))) e.
Proof.
  unfold SetHostState, GetHostByID. apply wp_bind, wp_query_row; intros fs;
    [split_and!; [done..|by left|done]| |intros _; split_and!; [done..|by left|done]].
  intros h Hh. cbv beta iota. apply wp_bind, wp_fail_if; intros Hv; [split_and!; [done..|by left|done]|]. apply negb_false_iff in Hv.
  assert (Halt : forall f : Host -> Host, alter f id (t_hosts (e_db e)) = <[id := f h]> (t_hosts (e_db e))).
  { intros f. apply map_eq. intros k. destruct (decide (id = k)) as [<-|Hne];
      [by rewrite lookup_alter_eq, lookup_insert_eq, Hh|by rewrite lookup_alter_ne, lookup_insert_ne]. }
  apply wp_bind. unfold update_host. apply wp_bind, wp_gets, wp_exec; intros fs';
    [split_and!; [done..|by left|done]|].
  unfold transitionHostState. apply wp_bind, wp_gets, wp_exec_checked; intros fs''; simpl; rewrite Halt.
  - split_and!; [done..|right; by exists h|done].
  - intros _. split_and!; [done..|right; by exists h|by exists h].
  - intros _. split_and!; [done..|right; by exists h|done].
Qed.

(** A fault-free change of state along an edge. *)
Lemma set_state_run id to reason db now rnd h :
  t_hosts db !! id = Some h -> validTransition (h_State h) to = true ->
  exists db', SetHostState id to reason (mkEnv db now [] rnd) = (Ok tt, mkEnv db' now [] rnd) /\
    t_hosts db' = <[id := moved h to reason now]> (t_hosts db) /\ t_domains db' = t_domains db.
Proof.
  intros Hh Hv. unfold SetHostState, GetHostByID, update_host, transitionHostState. repeat run_step.
  rewrite Hh. repeat run_step. rewrite Hv. cbn [negb]. repeat run_step. cbn [t_hosts upd_field].
  rewrite bool_decide_eq_true_2 by (apply lookup_alter_is_Some; eauto).
  eexists. split; [reflexivity|]. split; [|done]. simpl. apply map_eq. intros k.
  destruct (decide (id = k)) as [<-|Hne];
    [by rewrite lookup_alter_eq, lookup_insert_eq, Hh|by rewrite lookup_alter_ne, lookup_insert_ne].
Qed.

(** Every host row is stored under its own number. *)
Definition hosts_keyed (db : DB) : Prop := forall k h, t_hosts db !! k = Some h -> h_ID h = k.

Lemma keyed_alter id (f : Host -> Host) db :
  (forall h, h_ID (f h) = h_ID h) -> hosts_keyed db -> hosts_keyed (db <| t_hosts ::= alter f id |>).
Proof.
  intros Hf Hk k h. simpl. intros H. apply lookup_alter_Some in H as [(<- & h0 & H & ->)|(_ & H)]; [rewrite Hf|]; by apply Hk.
Qed.

Lemma keyed_update id f : (forall h, h_ID (f h) = h_ID h) -> keeps (inv hosts_keyed) (update_host id f).
Proof. intros Hf. unfold update_host, Now. keeps_inv. intros db. by apply keyed_alter. Qed.

Lemma keyed_transition id from to reason : keeps (inv hosts_keyed) (transitionHostState id from to reason).
Proof. unfold transitionHostState, Now. keeps_inv. intros db _ H. exact H. Qed.

Lemma keyed_SetHostState id to reason : keeps (inv hosts_keyed) (SetHostState id to reason).
Proof.
  unfold SetHostState, GetHostByID. keeps_inv; [by apply keyed_update|apply keyed_transition].
Qed.

Lemma keyed_delete gone db : hosts_keyed db -> hosts_keyed (delete_host_rows gone db).
Proof. intros Hk k h. simpl. unfold keep_keys. intros [H _]%map_lookup_filter_Some. by apply Hk. Qed.

Lemma keyed_run_op op : keeps (inv hosts_keyed) (run_op op).
Proof.
  destruct op; cbn [run_op].
  - unfold StoreHosts.CreateHost, Now, GetHostByID. keeps_inv; [|apply keyed_transition].
    intros db _ Hk k h0. simpl. intros [[<- <-]|[_ H]]%lookup_insert_Some; [done|by apply Hk].
  - apply keyed_SetHostState.
  - by apply keyed_update.
  - by apply keyed_update.
  - by apply keyed_update.
  - unfold StoreHosts.RemoveHost. keeps_inv. intros db. apply keyed_delete.
  - unfold StoreHosts.UpsertDomain, Now, GetDomainByName. keeps_inv.
    intros db Hk. by destruct (domain_by_name _ db).
  - unfold SetDomainStatus, Now. keeps_inv. by intros db Hk.
  - unfold StoreHosts.RemoveDomain. keeps_inv. intros db Hok k h.
    destruct (delete_domain_hosts id db) as (E1 & _ & _). rewrite E1. by apply keyed_delete.
Qed.

(* ------------------------------------------------------------------ *)
(** ** Retiring a domain *)

Definition disabled_or (ids : list Z) (k : Z) (h h' : Host) : Prop :=
  h_ID h' = h_ID h /\ h_DomainID h' = h_DomainID h /\ h_State h' = (if bool_decide (k ∈ ids) then "disabled" else h_State h).

Lemma can_disable st : st ∈ host_states -> st <> "disabled" -> validTransition st "disabled" = true.
Proof.
  intros Hs Hne. assert (Hall : Forall (fun s => s = "disabled" \/ validTransition s "disabled" = true) (elements host_states)).
  { assert (Hb : forallb (fun s => String.eqb s "disabled" || validTransition s "disabled") (elements host_states) = true)
      by (vm_compute; reflexivity).
    rewrite forallb_forall in Hb. apply Forall_forall. intros x Hx%list_elem_of_In. specialize (Hb x Hx).
    apply orb_prop in Hb as [Hb|Hb]; [left; by bool_facts|by right]. }
  rewrite Forall_forall in Hall. destruct (Hall st) as [?|?]; [by apply elem_of_elements|done..].
Qed.

Lemma disable_hosts_run l db now rnd :
  NoDup (map h_ID l) -> (forall h, h ∈ l -> t_hosts db !! h_ID h = Some h /\ h_State h ∈ host_states) ->
  exists db', disable_hosts l (mkEnv db now [] rnd) = (Ok tt, mkEnv db' now [] rnd) /\ t_domains db' = t_domains db /\
    forall k, match t_hosts db !! k with
              | Some h => exists h', t_hosts db' !! k = Some h' /\ disabled_or (map h_ID l) k h h'
              | None => t_hosts db' !! k = None
              end.
Proof.
  revert db. induction l as [|h l IH]; intros db Hnd Hl.
  { exists db. split_and!; [done..|]. intros k. destruct (t_hosts db !! k) eqn:E; [|done]. eexists. split; [done|].
    split_and!; [done..|]. by rewrite bool_decide_eq_false_2 by apply not_elem_of_nil. }
  simpl in Hnd. apply NoDup_cons in Hnd as [Hfresh Hnd].
  destruct (Hl h) as [Hh Hs]; [by left|]. unfold disable_hosts. cbn [for_each]. unfold mbind at 1, M_bind.
  destruct (h_State h =? "disabled")%string eqn:Ed.
  - destruct (IH db Hnd) as (db' & Hrun & Hdom & Hk); [intros h' Hin; apply Hl; by right|].
    exists db'. split_and!; [exact Hrun|done|]. intros k. specialize (Hk k). destruct (t_hosts db !! k) as [h0|] eqn:E; [|done].
    destruct Hk as (h' & Hk & ? & ? & Hst). exists h'. split; [done|]. split; [done|]. split; [done|]. simpl. rewrite Hst.
    destruct (decide (k = h_ID h)) as [->|Hne].
    + rewrite bool_decide_eq_false_2 by done. rewrite bool_decide_eq_true_2 by (by left). bool_facts. congruence.
    + destruct (decide (k ∈ map h_ID l)); [rewrite !bool_decide_eq_true_2; set_solver|rewrite !bool_decide_eq_false_2; set_solver].
  - destruct (set_state_run (h_ID h) "disabled" "domain_deactivated" db now rnd h Hh) as (db1 & -> & H1 & D1).
    { apply can_disable; [done|]. by bool_facts. }
    destruct (IH db1 Hnd) as (db' & Hrun & Hdom & Hk).
    { intros h' Hin. destruct (Hl h') as [Hh' Hs']; [by right|]. rewrite H1, lookup_insert_ne; [done|].
      intros E. apply Hfresh. rewrite E. apply list_elem_of_fmap. eauto. }
    exists db'. split_and!; [exact Hrun|congruence|]. intros k. specialize (Hk k). rewrite H1 in Hk.
    destruct (decide (k = h_ID h)) as [->|Hne].
    + rewrite lookup_insert_eq in Hk. rewrite Hh. destruct Hk as (h' & Hk & ? & ? & Hst). exists h'. split; [done|]. split; [done|]. split; [done|].
      rewrite Hst. rewrite bool_decide_eq_false_2 by done. by rewrite bool_decide_eq_true_2 by (by left).
    + rewrite lookup_insert_ne in Hk by done. destruct (t_hosts db !! k) as [h0|] eqn:E; [|done].
      destruct Hk as (h' & Hk & ? & ? & Hst). exists h'. split; [done|]. split; [done|]. split; [done|]. rewrite Hst. simpl.
      destruct (decide (k ∈ map h_ID l)); [rewrite !bool_decide_eq_true_2; set_solver|rewrite !bool_decide_eq_false_2; set_solver].
Qed.

Lemma keyed_rows_NoDup db : hosts_keyed db -> NoDup (map h_ID (rows (t_hosts db))).
Proof.
  intros Hk. assert (E : map h_ID (rows (t_hosts db)) = (map_to_list (t_hosts db)).*1).
  { unfold rows. assert (Hall : forall kv, kv ∈ map_to_list (t_hosts db) -> h_ID kv.2 = kv.1).
    { intros [k h] Hin%elem_of_map_to_list. by apply Hk. }
    revert Hall. generalize (map_to_list (t_hosts db)) as l. induction l as [|[k h] l IH]; intros Hall; [done|]. simpl.
    f_equal; [apply (Hall (k, h)); by left|]. apply IH. intros kv Hin. apply Hall. by right. }
  rewrite E. apply NoDup_fst_map_to_list.
Qed.

Lemma filter_ids_NoDup (p : Host -> bool) l : NoDup (map h_ID l) -> NoDup (map h_ID (List.filter p l)).
Proof.
  induction l as [|h l IH]; [done|]. simpl. intros [Hh Hnd]%NoDup_cons. case_match; [|by apply IH].
  simpl. constructor; [|by apply IH]. intros Hin. apply Hh. apply list_elem_of_fmap in Hin as (h' & E & Hin).
  apply list_elem_of_fmap. exists h'. split; [done|]. by apply list_elem_of_In, filter_In, proj1, list_elem_of_In in Hin.
Qed.

(** The hosts of a domain, as the service lists them. *)
Lemma domain_hosts id db (l := order_by (asc_text h_FQDN) (List.filter (fun h => h_DomainID h =? id) (rows (t_hosts db)))) :
  hosts_keyed db ->
  NoDup (map h_ID l) /\ forall h, h ∈ l <-> t_hosts db !! h_ID h = Some h /\ h_DomainID h = id.
Proof.
  intros Hk. split.
  - assert (Hp : map h_ID l ≡ₚ map h_ID (List.filter (fun h => h_DomainID h =? id) (rows (t_hosts db)))).
    { unfold l. apply Permutation_map, order_by_perm. }
    rewrite Hp. by apply filter_ids_NoDup, keyed_rows_NoDup.
  - intros h. unfold l. rewrite elem_of_order_by, list_elem_of_In, filter_In, <- list_elem_of_In, elem_of_rows, Z.eqb_eq.
    split; intros [H1 H2]; (split; [|done]).
    + destruct H1 as [k H1]. by rewrite (Hk _ _ H1).
    + eauto.
Qed.

Definition on_db (s : Svc) (d : DB) : Svc := s <| s_env := mkEnv d (e_now (s_env s)) [] (e_rand (s_env s)) |>.

(** Retiring a domain works in two steps on a database that does not fail:
    whatever the states of its hosts, deactivating it disables all of them and
    marks it inactive, and after that it can be removed, which leaves neither
    the domain nor a host of it; no host of another domain changes its state. *)
Theorem domain_retirement allow id s :
  reachable allow (e_db (s_env s)) -> e_faults (s_env s) = [] -> is_Some (t_domains (e_db (s_env s)) !! id) ->
  exists d1 d2, DeactivateDomain id s = (Ok tt, on_db s d1) /\ RemoveDomain id (on_db s d1) = (Ok tt, on_db s d2) /\
    (forall k h, t_hosts d1 !! k = Some h -> h_DomainID h = id -> h_State h = "disabled") /\
    (d_Status <$> t_domains d1 !! id = Some "inactive") /\
    t_domains d2 !! id = None /\
    (forall k h, t_hosts d2 !! k = Some h -> h_DomainID h <> id) /\
    (forall k h, t_hosts (e_db (s_env s)) !! k = Some h -> h_DomainID h <> id ->
       h_State <$> t_hosts d2 !! k = Some (h_State h)).
Proof.
  intros Hr Hf [dom Hdom]. assert (Hk : hosts_keyed (e_db (s_env s))) by (revert Hr; by apply reachable_inv, keyed_run_op).
  assert (Hok : states_ok (e_db (s_env s))).
  { revert Hr. apply reachable_inv; [split; [apply map_Forall_empty|constructor]|apply keeps_run_op]. }
  unfold on_db. destruct (s_env s) as [d now fs rnd] eqn:Es. cbn [e_db e_faults e_now e_rand] in *. subst fs.
  destruct (domain_hosts id d Hk) as [Hnd Hin]. set (l := order_by _ _) in *.
  destruct (disable_hosts_run l d now rnd Hnd) as (d0 & Hrun & Hd0 & Hh0).
  { intros h Hl. split; [by apply Hin|]. apply Hin in Hl as [Hl _]. destruct Hok as [Hst _]. by apply (Hst _ _ Hl). }
  set (d1 := d0 <| t_domains ::= alter (fun x => x <| d_Status := "inactive" |> <| d_UpdatedAt := now |>) id |>).
  assert (Hdis : forall k h, t_hosts d0 !! k = Some h -> h_DomainID h = id -> h_State h = "disabled").
  { intros k h' Hk' Hid. specialize (Hh0 k). destruct (t_hosts d !! k) as [h|] eqn:E; [|congruence].
    destruct Hh0 as (h'' & Hk'' & H1 & H2 & Hst). simplify_eq. rewrite Hst. rewrite bool_decide_eq_true_2; [done|].
    apply list_elem_of_fmap. exists h. split; [by rewrite (Hk _ _ E)|]. apply Hin. rewrite (Hk _ _ E). split; [done|congruence]. }
  exists d1, (delete_domain_rows id d1). split_and!.
  - unfold DeactivateDomain, db, zoom. rewrite Es. unfold GetDomainByID, ListHostsByDomainID. repeat run_step.
    rewrite Hdom. repeat run_step. fold l. unfold mbind at 1, M_bind. rewrite Hrun. unfold SetDomainStatus. repeat run_step.
    change (String.eqb (norm "inactive") "") with false. repeat run_step. done.
  - unfold RemoveDomain, db, zoom. cbn [s_env upd_field]. unfold StoreHosts.RemoveDomain. repeat run_step.
    assert (Hnone : List.filter (fun h => (h_DomainID h =? id) && (h_State h =? "active")%string) (rows (t_hosts d1)) = []).
    { match goal with |- ?x = [] => destruct x as [|h r] eqn:E; [done|] end. exfalso.
      assert (Hi : In h (h :: r)) by by left. rewrite <- E in Hi. apply filter_In in Hi as [Hi Hb]. apply list_elem_of_In, elem_of_rows in Hi as [k Hi].
      bool_facts. apply Z.eqb_eq in H. rewrite (Hdis k h Hi H) in H0. done. }
    rewrite Hnone. cbn [length]. repeat run_step. done.
  - exact Hdis.
  - unfold d1. simpl. rewrite lookup_alter_eq, Hd0, Hdom. done.
  - simpl. apply lookup_delete_eq.
  - intros k h. destruct (delete_domain_hosts id d1) as (-> & _). simpl. unfold keep_keys.
    intros [H1 H2]%map_lookup_filter_Some Hid. simpl in H2. unfold of_domain in H2. simpl in H2. rewrite H1 in H2.
    by rewrite Hid, Z.eqb_refl in H2.
  - intros k h Hkh Hid. destruct (delete_domain_hosts id d1) as (-> & _). simpl. unfold keep_keys.
    specialize (Hh0 k). rewrite Hkh in Hh0. destruct Hh0 as (h' & Hk' & H1 & H2 & Hst).
    assert (E : filter (fun kv : Z * Host => negb (of_domain id d1 kv.1) = true) (t_hosts d0) !! k = Some h').
    { apply map_lookup_filter_Some. split; [done|]. simpl. unfold of_domain. simpl. rewrite Hk', H2.
      by rewrite (proj2 (Z.eqb_neq _ _) Hid). }
    rewrite E. simpl. rewrite Hst. rewrite bool_decide_eq_false_2; [done|].
    intros Hi%list_elem_of_fmap. destruct Hi as (x & Hx & Hl). apply Hin in Hl as [Hl Hdx]. rewrite <- Hx in Hl. congruence.
Qed.

(* ------------------------------------------------------------------ *)
(** ** Retrying a host *)

Lemma retry_wp id s :
  wp (RetryHost id) (fun r s' => s_dnsCalls s' = s_dnsCalls s /\
    (r = Ok tt -> exists h, t_hosts (e_db (s_env s)) !! id = Some h /\ h_State h = "error" /\
       s_backoff s' !! id = Some (Add (e_now (s_env s)) (if Contains (h_ErrorReason h) "rate" then 5 * Minute else 30 * Second)) /\
       (exists h', t_hosts (e_db (s_env s')) !! id = Some h' /\ h_State h' = "active"))) s.
Proof.
  unfold RetryHost. apply db_bind, wp_gets. cbv beta iota. apply wp_bind, wp_gets. cbv beta iota.
  apply wp_bind, wp_fail_if; intros Hb; [done|]. apply db_bind. unfold GetHostByID.
  apply wp_query_row; intros fs; [done| |done]. intros h Hh. cbv beta iota.
  apply wp_bind, wp_fail_if; intros He; [done|]. apply negb_false_iff, String.eqb_eq in He.
  apply wp_bind, wp_modify. apply db_bind. eapply wp_mono; [apply set_state_wp|].
  intros [[]|x] e1 (_ & _ & _ & H1); [|done]. apply db_bind. eapply wp_mono; [apply set_state_wp|].
  intros [[]|x] e2 (_ & _ & _ & H2); [|done]. apply wp_db. eapply wp_mono; [apply set_state_wp|].
  intros [[]|x] e3 (_ & _ & _ & H3); [|done]. split; [done|]. intros _. exists h. split_and!; [done|done| |].
  - simpl. rewrite lookup_insert_eq. done.
  - destruct (H3 eq_refl) as (h2 & _ & _ & E3). simpl. rewrite E3, lookup_insert_eq. eauto.
Qed.

(** A retry is a matter of the rows alone: only a host in the error state can be
    retried, it ends up active without a call to the DNS provider, and the host
    cannot be retried again for 30 seconds, or five minutes when the error was
    a rate limit, whatever happens to its row meanwhile. *)
Theorem retry_backs_off id s s' :
  RetryHost id s = (Ok tt, s') ->
  exists h, t_hosts (e_db (s_env s)) !! id = Some h /\ h_State h = "error" /\
    (exists h', t_hosts (e_db (s_env s')) !! id = Some h' /\ h_State h' = "active") /\
    s_dnsCalls s' = s_dnsCalls s /\
    forall s'', s_backoff s'' = s_backoff s' ->
      e_now (s_env s'') < e_now (s_env s) + (if Contains (h_ErrorReason h) "rate" then 5 * Minute else 30 * Second) ->
      exists msg, RetryHost id s'' = (Err (ErrText msg), s'').
Proof.
  intros Hrun. destruct (wp_run _ _ _ _ _ (retry_wp id s) Hrun) as [Hcalls Hok].
  destruct (Hok eq_refl) as (h & H1 & H2 & H3 & H4). exists h. split_and!; [done..|].
  intros s'' Hb Hlt. unfold RetryHost. rewrite db_now_run, gets_run_eq. cbv beta. rewrite Hb, H3.
  cbv beta iota. match goal with |- context [Before ?a ?b] =>
    replace (Before a b) with true by (symmetry; apply Z.ltb_lt; exact Hlt) end.
  simpl. eauto.
Qed.

Definition retry_demo : Svc :=
  new_svc (clean (empty_DB <| t_hosts := {[3 := demo_host <| h_ID := 3 |> <| h_State := "error" |>
    <| h_ErrorReason := "dns: cloudflare status=500" |>]} |>) 1000) None.

Lemma retry_backs_off_witness :
  exists s', RetryHost 3 retry_demo = (Ok tt, s') /\ s_dnsCalls s' = s_dnsCalls retry_demo /\
    exists msg, (RetryHost 3 (s' <| s_env ::= fun e => e <| e_now := 1000 + 29 * Second |> |>)).1 = Err (ErrText msg).
Proof.
  destruct (RetryHost 3 retry_demo) as [r s'] eqn:E.
  assert (Hr : r = Ok tt).
  { transitivity (RetryHost 3 retry_demo).1; [by rewrite E|vm_compute; reflexivity]. }
  subst r. exists s'. split; [done|].
  destruct (retry_backs_off 3 retry_demo s' E) as (h & Hh & _ & _ & Hc & Hagain). split; [exact Hc|].
  assert (Hreason : Contains (h_ErrorReason h) "rate" = false).
  { assert (Ht : t_hosts (e_db (s_env retry_demo)) !! 3 = Some (demo_host <| h_ID := 3 |> <| h_State := "error" |>
      <| h_ErrorReason := "dns: cloudflare status=500" |>)) by (vm_compute; reflexivity).
    rewrite Ht in Hh. injection Hh as <-. vm_compute. reflexivity. }
  rewrite Hreason in Hagain.
  destruct (Hagain (s' <| s_env ::= fun e => e <| e_now := 1000 + 29 * Second |> |>)) as [msg Hm];
    [by destruct s'|vm_compute; reflexivity|]. exists msg. by rewrite Hm.
Defined.

(* ------------------------------------------------------------------ *)
(** ** A new public address reaches every record *)

(** Calls are only added, no host row and not the address changes, and a
    database that does not fail still does not. *)
Definition onward (s s' : Svc) : Prop :=
  s_dnsCalls s `prefix_of` s_dnsCalls s' /\ t_hosts (e_db (s_env s')) = t_hosts (e_db (s_env s)) /\
  s_publicIP s' = s_publicIP s /\ calm (s_env s) (s_env s').

#[export] Instance onward_preorder : PreOrder onward.
Proof.
  split; unfold onward.
  - intros s. split_and!; [done..|by intros ?].
  - intros a b c (H1 & H2 & H3 & H4) (G1 & G2 & G3 & G4). split_and!; [by etransitivity|congruence..|by intros ?%H4%G4].
Qed.

Lemma onward_db {A} (m : SM A) : keeps (same t_hosts) m -> keeps calm m -> keeps onward (db m).
Proof.
  intros H1 H2 s. unfold db, zoom, onward. specialize (H1 (s_env s)). specialize (H2 (s_env s)).
  destruct (m (s_env s)) as [r e]. destruct H1 as [H1 _]. simpl in *. split_and!; done.
Qed.

Lemma onward_call {A} c (answer : list DnsCall -> result A) : keeps onward (dns_call c answer).
Proof.
  intros s. unfold dns_call, gets, modify, lift, mbind, M_bind. simpl. split_and!; [|done..|by intros ?].
  simpl. by eexists.
Qed.

Section coverage.
Context (p : Provider).
Local Abbreviation dns := (Some p).

Lemma onward_zone d : keeps onward (ensureDomainZoneID dns d).
Proof.
  unfold ensureDomainZoneID, resolveCloudflareZoneID. destruct (negb _); [keeps_tac; typeclasses eauto|].
  apply keeps_bind; [typeclasses eauto| |intros z; apply keeps_bind; [typeclasses eauto| |keeps_tac; typeclasses eauto]].
  - destruct p as [u dl [r|]]; [apply onward_call|keeps_tac; typeclasses eauto].
  - apply onward_db; unfold StoreHosts.UpsertDomain, Now, GetDomainByName; [|keeps_calm].
    keeps_tac; try typeclasses eauto; [|apply keeps_query_row].
    apply keeps_exec. intros db. by destruct (domain_by_name _ db).
Qed.

Lemma onward_records d : keeps onward (update_domain_records dns d).
Proof.
  unfold update_domain_records. destruct (managed_by dns d) as [q|]; [|keeps_tac; typeclasses eauto].
  keeps_tac; try typeclasses eauto; try apply onward_call; [apply onward_zone|].
  apply onward_db; unfold ListHostsByDomainID; [apply keeps_query|keeps_calm].
Qed.

(** An [onward] loop that never fails does for each element what it does for one. *)
Lemma for_each_onward {A} (f : A -> AM unit) (P : Svc -> Prop) l x s :
  (forall y, keeps onward (f y)) -> (forall y s, (f y s).1 = Ok tt) -> x ∈ l ->
  (forall s', onward s s' -> P (f x s').2) -> (forall s1 s2, onward s1 s2 -> P s1 -> P s2) ->
  (for_each f l s).1 = Ok tt /\ P (for_each f l s).2.
Proof.
  intros Hk Hok Hin Hx HP. assert (Hrun : forall l s, (for_each f l s).1 = Ok tt).
  { intros l'. induction l' as [|y l' IH]; intros s0; [done|]. simpl. unfold mbind, M_bind.
    specialize (Hok y s0). destruct (f y s0) as [[[]|e] s1]; [apply IH|done]. }
  split; [apply Hrun|]. revert s Hx. induction l as [|y l IH]; intros s Hx; [by apply elem_of_nil in Hin|].
  simpl. unfold mbind, M_bind. pose proof (Hok y s) as Hy. pose proof (Hk y s) as Hs.
  pose proof (Hx s (reflexivity s)) as Hxs.
  destruct (f y s) as [[[]|e] s1] eqn:E; [|done]. simpl in Hs. apply elem_of_cons in Hin as [->|Hin].
  - rewrite E in Hxs. simpl in Hxs. apply (HP s1); [|done].
    apply (keeps_for_each onward f l Hk s1).
  - apply IH; [done|]. intros s' Hs'. apply Hx. by transitivity s1.
Qed.

Lemma records_ok d s : (update_domain_records dns d s).1 = Ok tt.
Proof.
  assert (H : wp (update_domain_records dns d) (fun r _ => r = Ok tt) s).
  { unfold update_domain_records. destruct (managed_by dns d) as [q|]; [|done].
    apply wp_bind, wp_gets, wp_bind, wp_try, wp_any. intros [z|e] s1; [|done].
    do 3 (apply wp_ignored; intros ?).
    apply wp_bind, wp_try, wp_any. intros [hosts|e] s2; [|done]. cbv beta iota. revert s2.
    induction hosts as [|h l IH]; intros s2; [done|]. cbn [for_each]. apply wp_bind, wp_when; intros _; [|apply IH].
    apply wp_ignore, wp_any. intros. apply IH. }
  exact (wp_apply _ _ _ H).
Qed.
End coverage.

Lemma call_logged {A} c (answer : list DnsCall -> result A) s : c ∈ s_dnsCalls (ignore (dns_call c answer) s).2.
Proof. unfold ignore, dns_call, gets, modify, lift, mbind, M_bind. simpl. apply elem_of_app. right. by left. Qed.

Lemma onward_calls s s' c : onward s s' -> c ∈ s_dnsCalls s -> c ∈ s_dnsCalls s'.
Proof. intros ([l ->] & _) H. apply elem_of_app. by left. Qed.

(** What [UpdatePublicIP] asks for the domain [d] at address [ip]. *)
Definition records_asked (hosts : gmap Z Host) (d : Domain) (ip : string) (s : Svc) : Prop :=
  let zone := TrimSpace (d_ZoneID d) in
  UpsertARecord zone (d_Name d) ip ∈ s_dnsCalls s /\
  UpsertARecord zone ("*." +:+ d_Name d) ip ∈ s_dnsCalls s /\
  UpsertARecord zone ("admin." +:+ d_Name d) ip ∈ s_dnsCalls s /\
  forall k h, hosts !! k = Some h -> h_DomainID h = d_ID d -> norm (h_FQDN h) <> "" ->
    UpsertARecord zone (norm (h_FQDN h)) ip ∈ s_dnsCalls s.

Lemma records_asked_onward hosts d ip s s' : onward s s' -> records_asked hosts d ip s -> records_asked hosts d ip s'.
Proof.
  intros Ho (H1 & H2 & H3 & H4). unfold records_asked. cbv zeta. split_and!; try (by eapply onward_calls).
  intros k h Hk Hd Hn. eapply onward_calls; [done|]. eauto.
Qed.

Lemma host_loop p zone ip hosts s h :
  h ∈ hosts -> norm (h_FQDN h) <> "" ->
  UpsertARecord zone (norm (h_FQDN h)) ip ∈ s_dnsCalls
    (for_each (fun h => when (negb (String.eqb (norm (h_FQDN h)) "")) (ignore (dns_upsert p zone (norm (h_FQDN h)) ip))) hosts s).2.
Proof.
  intros Hin Hn.
  refine (proj2 (for_each_onward
    (fun h => when (negb (String.eqb (norm (h_FQDN h)) "")) (ignore (dns_upsert p zone (norm (h_FQDN h)) ip)))
    (fun s => UpsertARecord zone (norm (h_FQDN h)) ip ∈ s_dnsCalls s) hosts h s _ _ Hin _ _)).
  - intros y. apply keeps_when; [typeclasses eauto|]. apply keeps_ignore, onward_call.
  - intros y s0. by destruct (negb _).
  - intros s' _. rewrite (proj2 (String.eqb_neq _ _) Hn). cbn [negb when]. apply call_logged.
  - intros s1 s2. apply onward_calls.
Qed.

Lemma domain_records p d s :
  d_DNSMode d = "cloudflare" -> TrimSpace (d_ZoneID d) <> "" -> e_faults (s_env s) = [] ->
  records_asked (t_hosts (e_db (s_env s))) d (s_publicIP s) (update_domain_records (Some p) d s).2.
Proof.
  intros Hm Hz Hf. unfold update_domain_records, managed_by. rewrite Hm. cbn [String.eqb Ascii.eqb Bool.eqb]. cbn iota.
  set (zone := TrimSpace (d_ZoneID d)) in *. rewrite gets_run_eq.
  replace (ensureDomainZoneID (Some p) d) with (mret zone : AM string)
    by (unfold ensureDomainZoneID; fold zone; by rewrite (proj2 (String.eqb_neq _ _) Hz)).
  set (ip := s_publicIP s).
  assert (Htry : forall B (a : string) (k : result string -> AM B) s, (try_ (mret a) ≫= k) s = k (Ok a) s) by done.
  rewrite Htry. cbv beta iota.
  assert (Hig : forall B c (answer : list DnsCall -> result unit) (k : unit -> AM B) s, (ignore (dns_call c answer) ≫= k) s = k tt (ignore (dns_call c answer) s).2)
    by done.
  unfold dns_upsert. rewrite Hig. set (s1 := (ignore (dns_call _ _) s).2).
  rewrite Hig. set (s2 := (ignore (dns_call _ _) s1).2). rewrite Hig. set (s3 := (ignore (dns_call _ _) s2).2).
  assert (O1 : onward s s1) by apply (keeps_ignore onward _ (onward_call _ _)).
  assert (O2 : onward s1 s2) by apply (keeps_ignore onward _ (onward_call _ _)).
  assert (O3 : onward s2 s3) by apply (keeps_ignore onward _ (onward_call _ _)).
  assert (O : onward s s3) by (by do 2 (etransitivity; [eassumption|])).
  destruct O as (_ & Hh & _ & Hc). specialize (Hc Hf).
  set (hosts := order_by (asc_text h_FQDN) (List.filter (fun h => h_DomainID h =? d_ID d) (rows (t_hosts (e_db (s_env s)))))).
  assert (Hlist : exists e, db (ListHostsByDomainID (d_ID d)) s3 = (Ok hosts, s3 <| s_env := e |>)).
  { unfold db, zoom, ListHostsByDomainID. destruct (s_env s3) as [d3 n3 f3 r3]. simpl in *. subst f3. rewrite query_run_end, Hh.
    by eexists. }
  destruct Hlist as [e Hlist]. unfold try_, mbind, M_bind. rewrite Hlist. set (s4 := s3 <| s_env := e |>).
  match goal with |- records_asked _ _ _ (for_each ?f hosts s4).2 => set (body := f); assert (O4 : onward s4 (for_each body hosts s4).2) end.
  { apply keeps_for_each; [typeclasses eauto|]. intros y. unfold body. apply keeps_when; [typeclasses eauto|].
    apply keeps_ignore, onward_call. }
  assert (C4 : s_dnsCalls s4 = s_dnsCalls s3) by done.
  unfold records_asked. cbv zeta. fold zone. split_and!.
  - apply (onward_calls _ _ _ O4). rewrite C4. apply (onward_calls _ _ _ O3), (onward_calls _ _ _ O2), call_logged.
  - apply (onward_calls _ _ _ O4). rewrite C4. apply (onward_calls _ _ _ O3), call_logged.
  - apply (onward_calls _ _ _ O4). rewrite C4. apply call_logged.
  - intros k h Hk Hd Hn. apply host_loop; [|done]. unfold hosts.
    rewrite elem_of_order_by, list_elem_of_In, filter_In, <- list_elem_of_In, elem_of_rows. split; [eauto|by apply Z.eqb_eq].
Qed.

(** A change of the public address reaches every name: for each domain kept at
    Cloudflare, the apex, the wildcard, the admin name and every host are
    updated to the new address, even when the provider refuses some of the other
    updates. *)
Theorem public_ip_reaches_dns p ip ipv4 s :
  parseIPv4 ip = Ok ipv4 -> e_faults (s_env s) = [] ->
  let s' := (UpdatePublicIP (Some p) ip s).2 in
  s_publicIP s' = ipv4 /\
  forall k d, t_domains (e_db (s_env s)) !! k = Some d -> d_DNSMode d = "cloudflare" -> TrimSpace (d_ZoneID d) <> "" ->
    records_asked (t_hosts (e_db (s_env s))) d ipv4 s'.
Proof.
  intros Hip Hf. cbv zeta. unfold UpdatePublicIP. rewrite Hip, lift_run, modify_run.
  set (s0 := s <| s_publicIP := ipv4 |>).
  set (domains := order_by (asc_text d_Name) (rows (t_domains (e_db (s_env s))))).
  assert (Hlist : exists e, db StoreHosts.ListDomains s0 = (Ok domains, s0 <| s_env := e |>) /\ e_faults e = [] /\
    t_hosts (e_db e) = t_hosts (e_db (s_env s))).
  { unfold db, zoom, StoreHosts.ListDomains, s0. cbn [s_env upd_field]. destruct (s_env s) as [d3 n3 f3 r3]. simpl in Hf. subst f3.
    rewrite query_run_end. by eexists. }
  destruct Hlist as (e & Hlist & He & Hhosts). rewrite (bind_ok_run _ _ _ _ _ Hlist). set (s1 := s0 <| s_env := e |>).
  assert (Hall : onward s1 (for_each (update_domain_records (Some p)) domains s1).2).
  { apply keeps_for_each; [typeclasses eauto|]. apply onward_records. }
  split; [by destruct Hall as (_ & _ & -> & _)|]. intros k d Hd Hm Hz.
  refine (proj2 (for_each_onward (update_domain_records (Some p)) (records_asked (t_hosts (e_db (s_env s))) d ipv4)
    domains d s1 (onward_records p) (records_ok p) _ _ _)).
  - unfold domains. rewrite elem_of_order_by, elem_of_rows. eauto.
  - intros s' (_ & Hh' & Hip' & Hc'). rewrite <- Hhosts. change (e_db e) with (e_db (s_env s1)). rewrite <- Hh'.
    change ipv4 with (s_publicIP s1). rewrite <- Hip'. apply domain_records; [done..|]. by apply Hc'.
  - intros s2 s3. apply records_asked_onward.
Qed.

(** A provider that refuses every apex record. *)
Definition picky : Provider :=
  mkProvider (fun _ _ name _ => if HasPrefix name "example" then Err (ErrText "status=403") else Ok tt)
    (fun _ _ _ => Ok tt) None.
Definition dns_demo : Svc :=
  new_svc (clean (empty_DB
    <| t_domains := {[1 := zero_Domain <| d_ID := 1 |> <| d_Name := "example.org" |> <| d_DNSMode := "cloudflare" |>
                             <| d_ZoneID := "z1" |> <| d_Status := "active" |>]} |>
    <| t_hosts := {[1 := demo_host]} |>) 1000) None.

Lemma public_ip_reaches_dns_witness :
  UpsertARecord "z1" "app.example.org" "198.51.100.9" ∈ s_dnsCalls (UpdatePublicIP (Some picky) " 198.51.100.9" dns_demo).2.
Proof.
  assert (Hd : t_domains (e_db (s_env dns_demo)) !! 1 = Some (zero_Domain <| d_ID := 1 |> <| d_Name := "example.org" |>
    <| d_DNSMode := "cloudflare" |> <| d_ZoneID := "z1" |> <| d_Status := "active" |>)) by (vm_compute; reflexivity).
  assert (Hh : t_hosts (e_db (s_env dns_demo)) !! 1 = Some demo_host) by (vm_compute; reflexivity).
  destruct (public_ip_reaches_dns picky " 198.51.100.9" "198.51.100.9" dns_demo eq_refl eq_refl) as [_ H].
  destruct (H 1 _ Hd eq_refl) as (_ & _ & _ & Hall); [vm_compute; discriminate|].
  refine (Hall 1 demo_host Hh eq_refl _). vm_compute. discriminate.
Defined.

(** A domain with an active host and one in maintenance, and a second domain. *)
Definition retire_ops : list host_op :=
  demo_ops ++ [OpCreate 1 "www" "www.example.org" "http" "http://10.0.0.3" false false "" [];
               OpUpsertDomain (zero_Domain <| d_Name := "example.net" |>)].
Definition retire_demo : Svc := new_svc (clean (run_ops retire_ops empty_DB) 1000) None.

Lemma domain_retirement_witness :
  exists d1 d2, DeactivateDomain 1 retire_demo = (Ok tt, on_db retire_demo d1) /\
    RemoveDomain 1 (on_db retire_demo d1) = (Ok tt, on_db retire_demo d2) /\ t_domains d2 !! 1 = None.
Proof.
  destruct (domain_retirement (fun fs => fs = []) 1 retire_demo) as (d1 & d2 & H1 & H2 & _ & _ & H3 & _).
  - unfold retire_demo, new_svc, new_svc_with, clean. cbn [s_env e_db].
    exact (reachable_run_ops (fun fs => fs = []) retire_ops empty_DB eq_refl (reach_empty _)).
  - reflexivity.
  - destruct (t_domains (e_db (s_env retire_demo)) !! 1) eqn:E; [eexists; reflexivity|]. vm_compute in E. discriminate.
  - exists d1, d2. exact (conj H1 (conj H2 H3)).
Defined.
