(* ===== verification/LiveChecks.v ===== *)
(** [internal/app/service.go]: the live checks of domains and hosts, their
    preflights and diagnostics, and the DNS maintenance that runs every minute.

    The network is a record of answers: the local resolver, DNS over HTTPS, HTTP
    requests and TLS handshakes.  The questions put to Cloudflare change nothing;
    their answers may depend on the updates made before, which [s_dnsCalls] logs. *)

From S2P Require Import Prelude GoString GoMonad GoTime GoNet GoUrl GoCrypto Crypto Model LogServers.
From S2P Require Import StoreDB StoreThreat StoreUsers StoreHosts Service Vault Hosts.
From Stdlib Require Import Ascii.

(* ------------------------------------------------------------------ *)
(** ** The network *)

Record dohAnswer := mkdohAnswer { an_Type : Z; an_Data : string }.
Record dohResponse := mkdohResponse { do_Status : Z; do_Answer : list dohAnswer }.

Record Certificate := mkCertificate { ct_Subject : string; ct_Issuer : string; ct_NotAfter : time }.

(** [nw_get url dial insecure] is the status of a [GET] of [url] with redirects left
    alone, over a connection to [dial] when that is not empty, if there is an answer;
    [nw_tls target name] the certificates the peer presents. *)
Record Network := mkNetwork {
  nw_lookup : string -> result (list ip);
  nw_doh : string -> string -> result (Z * option dohResponse);
  nw_get : string -> string -> bool -> option Z;
  nw_tls : string -> string -> result (list Certificate)
}.

(** The questions a Cloudflare client asks. *)
Record Cloudflare := mkCloudflare {
  cf_access : list DnsCall -> string -> result unit;
  cf_has : list DnsCall -> string -> string -> result bool;
  cf_lookup : list DnsCall -> string -> string -> result (list string)
}.

Definition containsString (items : list string) (v : string) : bool := existsb (fun i => String.eqb i v) items.
Definition joinErr (base add : string) : string :=
  if String.eqb (TrimSpace base) "" then add else base +:+ "; " +:+ add.

Definition local_suffixes : list string := [".local"; ".lan"; ".internal"; ".home.arpa"; ".localhost"].

Definition shouldPreferLocalResolver (host : string) : bool :=
  let h := TrimSuffix (ToLower (TrimSpace host)) "." in
  if String.eqb h "" then false
  else match ParseIP h with
       | Some _ => false
       | None => if negb (Contains h ".") then true else existsb (HasSuffix h) local_suffixes
       end.

(** [int(time.Until(t).Hours() / 24)]; the rounding of float64 at the last
    nanoseconds of a day is left out. *)
Definition days_left (now t : time) : Z := Z.quot (Sub t now) (24 * Hour).

Record DomainPreflightCheck := mkCheck { pc_Name : string; pc_OK : bool; pc_Detail : string }.
Record DomainPreflight := mkDomainPreflight {
  dp_Domain : string; dp_DNSMode : string; dp_Provider : string; dp_ZoneID : string; dp_ResolvedZone : string;
  dp_PublicIPv4 : string; dp_Checks : list DomainPreflightCheck; dp_Ready : bool
}.
#[export] Instance eta_DomainPreflight : Eta DomainPreflight := fun r =>
  mkDomainPreflight (dp_Domain r) (dp_DNSMode r) (dp_Provider r) (dp_ZoneID r) (dp_ResolvedZone r)
    (dp_PublicIPv4 r) (dp_Checks r) (dp_Ready r).

Record HostPreflight := mkHostPreflight {
  hp_Domain : string; hp_FQDN : string; hp_Upstream : string; hp_InsecureTLS : bool; hp_DNSMode : string;
  hp_Provider : string; hp_ZoneID : string; hp_Checks : list DomainPreflightCheck; hp_Ready : bool
}.
#[export] Instance eta_HostPreflight : Eta HostPreflight := fun r =>
  mkHostPreflight (hp_Domain r) (hp_FQDN r) (hp_Upstream r) (hp_InsecureTLS r) (hp_DNSMode r)
    (hp_Provider r) (hp_ZoneID r) (hp_Checks r) (hp_Ready r).

Record HostLiveCheck := mkHostLiveCheck {
  lc_FQDN : string; lc_DNSOK : bool; lc_DNSPointsToServer : bool; lc_HTTPReachable : bool; lc_HTTPSReachable : bool;
  lc_TLSOK : bool; lc_CertDaysLeft : Z; lc_CloudflareRecordFound : bool; lc_Error : string
}.

Record DomainLiveCheck := mkDomainLiveCheck {
  dl_Domain : string; dl_DNSMode : string; dl_Provider : string; dl_ServerIPv4 : string; dl_ApexDNSOK : bool;
  dl_ApexPointsToServer : bool; dl_CloudflareAPIOK : bool; dl_CloudflareZoneID : string; dl_CloudflareError : string;
  dl_Hosts : list HostLiveCheck; dl_Warnings : list string; dl_OverallOK : bool
}.

Record HostDiagnostic := mkHostDiagnostic {
  hd_FQDN : string; hd_DNSRecords : list string; hd_HTTPStatus : Z; hd_HTTPSStatus : Z; hd_TLSOK : bool;
  hd_CertSubject : string; hd_CertIssuer : string; hd_CertNotAfter : time; hd_CertDaysLeft : Z; hd_HAEnabled : bool;
  hd_HAMode : string; hd_HAOnline : Z; hd_HATotal : Z; hd_HAOffline : list string; hd_Error : string
}.
#[export] Instance eta_HostDiagnostic : Eta HostDiagnostic := fun r =>
  mkHostDiagnostic (hd_FQDN r) (hd_DNSRecords r) (hd_HTTPStatus r) (hd_HTTPSStatus r) (hd_TLSOK r) (hd_CertSubject r)
    (hd_CertIssuer r) (hd_CertNotAfter r) (hd_CertDaysLeft r) (hd_HAEnabled r) (hd_HAMode r) (hd_HAOnline r)
    (hd_HATotal r) (hd_HAOffline r) (hd_Error r).

Section checks.
Context (nw : Network) (dns : option Provider) (detectPublicIPv4 : result string).
(** The client behind [s.dns], and one made with a token. *)
Context (own : Cloudflare) (NewCloudflare : string -> Cloudflare).
Context (Open : bytes -> bytes -> bytes -> option bytes).

(* ------------------------------------------------------------------ *)
(** ** Resolution *)

Definition resolveIPv4List (host : string) : result (list string) :=
  match nw_lookup nw host with
  | Err e => Err e
  | Ok addrs => Ok (omap (fun i => match To4 i with Some _ => Some (IP_String i) | None => None end) addrs)
  end.

(** The addresses of the answers of type A. *)
Definition a_records (l : list dohAnswer) : list string :=
  omap (fun a => if an_Type a =? 1 then match parseIPv4 (an_Data a) with Ok i => Some i | Err _ => None end else None) l.

Definition resolveIPv4ViaDOH (endpoint host : string) : result (list string) :=
  match nw_doh nw endpoint host with
  | Err e => Err e
  | Ok (status, body) =>
      if (status <? 200) || (299 <? status) then Err (ErrText ("doh status=" +:+ Itoa status))
      else match body with
           | None => Err (ErrText "invalid character")
           | Some out =>
               if negb (do_Status out =? 0) then Err (ErrText ("doh rcode=" +:+ Itoa (do_Status out)))
               else match a_records (do_Answer out) with [] => Err (ErrText "no A records") | ips => Ok ips end
           end
  end.

Definition google_doh (host : string) : result (list string) := resolveIPv4ViaDOH "https://dns.google/resolve" host.
Definition cloudflare_doh (host : string) : result (list string) :=
  resolveIPv4ViaDOH "https://cloudflare-dns.com/dns-query" host.

(** The first source that gives an address. *)
Fixpoint first_answer (l : list (string * result (list string))) : result (list string * string) :=
  match l with
  | [] => Err (ErrText "dns unresolved")
  | (source, Ok ((_ :: _) as ips)) :: _ => Ok (ips, source)
  | _ :: l' => first_answer l'
  end.

Definition resolveIPv4ListRobust (host : string) : result (list string * string) :=
  match parseIPv4 host with
  | Ok i => Ok ([i], "literal-ip")
  | Err _ =>
      let resolver := ("resolver", resolveIPv4List host) in
      let doh := [("doh-google", google_doh host); ("doh-cloudflare", cloudflare_doh host)] in
      first_answer (if shouldPreferLocalResolver host then resolver :: doh else doh ++ [resolver])
  end.

(** The addresses, none on an error, and where they come from. *)
Definition resolved (host : string) : list string * string :=
  match resolveIPv4ListRobust host with Ok r => r | Err _ => ([], "") end.

Definition dnsPointsToIP (name expectedIP : string) : bool * string :=
  match resolved name with
  | ([], _) => (false, "-")
  | (ips, _) => (containsString ips expectedIP, Join ips ",")
  end.

(* ------------------------------------------------------------------ *)
(** ** Probes *)

Definition status_or_zero (o : option Z) : Z := match o with Some st => st | None => 0 end.

Definition probeHTTPStatus (rawURL : string) (insecureTLS : bool) : Z := status_or_zero (nw_get nw rawURL "" insecureTLS).
Definition probeHTTPStatusForHost (host addr : string) : Z :=
  if String.eqb (TrimSpace addr) "" then probeHTTPStatus ("http://" +:+ host) false
  else status_or_zero (nw_get nw ("http://" +:+ host) (JoinHostPort addr "80") false).

(** Whether the handshake shows a certificate, and its days. *)
Definition cert_days (now : time) (r : result (list Certificate)) : bool * Z :=
  match r with
  | Ok (c :: _) => (true, days_left now (ct_NotAfter c))
  | _ => (false, 0)
  end.

Definition probeHTTPSAndCert (now : time) (host : string) : Z * bool * Z :=
  let '(ok, days) := cert_days now (nw_tls nw (host +:+ ":443") host) in
  (status_or_zero (nw_get nw ("https://" +:+ host) "" true), ok, days).
Definition probeHTTPSAndCertForHost (now : time) (host addr : string) : Z * bool * Z :=
  if String.eqb (TrimSpace addr) "" then probeHTTPSAndCert now host
  else
    let '(ok, days) := cert_days now (nw_tls nw (JoinHostPort addr "443") host) in
    (status_or_zero (nw_get nw ("https://" +:+ host) (JoinHostPort addr "443") true), ok, days).

(** A server does not reach itself by its public address. *)
Definition probe_address (server primary : string) : string :=
  if negb (String.eqb server "") && String.eqb primary server then "127.0.0.1" else primary.
Definition primary_of (ips : list string) : string := match ips with i :: _ => i | [] => "" end.

(* ------------------------------------------------------------------ *)
(** ** Preflights *)

Definition ok_check (name detail : string) : DomainPreflightCheck := mkCheck name true detail.
Definition bad_check (name detail : string) : DomainPreflightCheck := mkCheck name false detail.

(** An apex that does not resolve yet does not stop a domain whose records the
    service writes itself. *)
Definition blocks (dnsMode : string) (c : DomainPreflightCheck) : bool :=
  negb (pc_OK c) &&
  negb (String.eqb dnsMode "cloudflare" && existsb (String.eqb (pc_Name c)) ["apex_dns_resolves"; "apex_points_to_server"]).

Definition apex_checks (name publicIP : string) : list DomainPreflightCheck :=
  let '(ips, source) := resolved name in
  [match ips with
   | [] => bad_check "apex_dns_resolves" "no public A record yet"
   | _ => ok_check "apex_dns_resolves" (Join ips "," +:+ (if String.eqb source "resolver" then "" else " via " +:+ source))
   end;
   if negb (String.eqb publicIP "") && containsString ips publicIP then ok_check "apex_points_to_server" publicIP
   else bad_check "apex_points_to_server" ("expected " +:+ publicIP)].

Definition upsert_check (p : Provider) (zone record addr check detail : string) : AM DomainPreflightCheck :=
  r ← try_ (dns_upsert p zone record addr);
  mret (match r with Ok _ => ok_check check detail | Err e => bad_check check (error_text e) end).

(** The Cloudflare half: the checks, the zone when it is known, and whether the
    preflight goes on to its verdict. *)
Definition cloudflare_checks (name publicIP zoneID : string) : AM (list DomainPreflightCheck * string * bool) :=
  t ← try_ (GetCloudflareToken Open);
  match t with
  | Err _ => mret ([bad_check "cloudflare_token" "missing token"], "", false)
  | Ok token =>
      if String.eqb (TrimSpace token) "" then mret ([bad_check "cloudflare_token" "missing token"], "", false)
      else
        let c0 := ok_check "cloudflare_token" "" in
        z ← (if String.eqb zoneID "" then try_ (resolveCloudflareZoneID dns name) else mret (Ok zoneID));
        match z with
        | Err e => mret ([c0; bad_check "cloudflare_zone" (error_text e)], "", false)
        | Ok zone =>
            let c1 := ok_check "cloudflare_zone" zone in
            match dns with
            | Some (mkProvider u dl (Some rs)) =>
                let p := mkProvider u dl (Some rs) in
                calls ← gets s_dnsCalls;
                match cf_access own calls zone with
                | Err e => mret ([c0; c1; bad_check "cloudflare_api" (error_text e)], zone, false)
                | Ok _ =>
                    let c2 := ok_check "cloudflare_api" "" in
                    if String.eqb publicIP "" then mret ([c0; c1; c2], zone, true)
                    else
                      c3 ← upsert_check p zone name publicIP "cloudflare_apex_upsert" publicIP;
                      c4 ← upsert_check p zone ("*." +:+ name) publicIP "cloudflare_wildcard_upsert" ("*." +:+ name +:+ " -> " +:+ publicIP);
                      mret ([c0; c1; c2; c3; c4], zone, true)
                end
            | _ => fail (ErrText "cloudflare provider unavailable")
            end
        end
  end.

Definition RunDomainPreflight (name dnsMode provider zoneID : string) : AM DomainPreflight :=
  let name := norm name in
  let dnsMode := norm dnsMode in
  let zoneID := TrimSpace zoneID in
  fail_if (Count name "."%char <? 1) "invalid domain" ≫= fun _ =>
  a ← try_ (currentPublicIPv4 detectPublicIPv4);
  let '(publicIP, c_ip) := match a with
    | Ok i => (i, ok_check "public_ipv4" i)
    | Err e => ("", bad_check "public_ipv4" (error_text e)) end in
  let checks := c_ip :: apex_checks name publicIP in
  let out := mkDomainPreflight name dnsMode (norm provider) zoneID "" publicIP checks false in
  r ← (if String.eqb dnsMode "cloudflare" then cloudflare_checks name publicIP zoneID else mret ([], "", true));
  let '(more, zone, goes_on) := r : list DomainPreflightCheck * string * bool in
  let out : DomainPreflight := out <| dp_Checks := checks ++ more |> <| dp_ResolvedZone := zone |> in
  mret (if goes_on then out <| dp_Ready := negb (existsb (blocks dnsMode) (checks ++ more)) |> else out : DomainPreflight).

Definition reachable_status (st : Z) : bool := (200 <=? st) && (st <? 600).

Definition cloudflare_host_checks (d : Domain) : AM (list DomainPreflightCheck) :=
  if negb (String.eqb (d_DNSMode d) "cloudflare") then mret []
  else
    r1 ← try_ (ensurePublicIPv4 dns detectPublicIPv4);
    r2 ← try_ (ensureDomainZoneID dns d);
    mret [match r1 with Ok _ => ok_check "public_ipv4" "" | Err e => bad_check "public_ipv4" (error_text e) end;
          match r2 with Ok _ => ok_check "cloudflare_zone" "" | Err e => bad_check "cloudflare_zone" (error_text e) end].

Definition RunHostPreflight (domainName subdomain upstream : string) (insecureTLS haEnabled : bool) (haMode : string)
    (haBackends : list HABackend) : AM HostPreflight :=
  let domainName := norm domainName in
  let subdomain := norm subdomain in
  let upstream := TrimSpace upstream in
  let out := mkHostPreflight domainName "" upstream insecureTLS "" "" "" [] false in
  r ← try_ (db (GetDomainByName domainName));
  match r with
  | Err _ => mret (out <| hp_Checks := [bad_check "domain_exists" "unknown domain"] |>)
  | Ok d =>
      let out := out <| hp_DNSMode := d_DNSMode d |> <| hp_Provider := d_Provider d |> <| hp_ZoneID := d_ZoneID d |> in
      let c1 := [ok_check "domain_exists" ""] in
      if String.eqb subdomain "" || Contains subdomain "." then
        mret (out <| hp_Checks := c1 ++ [bad_check "subdomain_label" "single label required"] |>)
      else
        let c2 := c1 ++ [ok_check "subdomain_label" ""] in
        match validateRoutingInput upstream haEnabled haMode haBackends with
        | Err e => mret (out <| hp_Checks := c2 ++ [bad_check "routing_config" (error_text e)] |>)
        | Ok (upstream, haMode, haBackends) =>
            let c3 := c2 ++ (if haEnabled
              then [ok_check "ha_mode" haMode; ok_check "ha_backends" (Itoa (Z.of_nat (length haBackends)))]
              else [ok_check "upstream_url" ""]) in
            let fqdn := subdomain +:+ "." +:+ d_Name d in
            f ← try_ (db (FindHostByFQDN fqdn));
            let c4 := match f with
              | Ok _ => bad_check "fqdn_available" "already exists"
              | Err e => if is_no_rows e then ok_check "fqdn_available" "" else bad_check "fqdn_available" (error_text e) end in
            let checkURL := match haBackends with b :: _ => if haEnabled then hb_URL b else upstream | [] => upstream end in
            let st := probeHTTPStatus checkURL insecureTLS in
            let c5 := if reachable_status st then ok_check "upstream_reachable" (Itoa st)
                      else bad_check "upstream_reachable" "upstream not reachable from server" in
            c6 ← cloudflare_host_checks d;
            let checks := c3 ++ [c4; c5] ++ c6 in
            mret (out <| hp_FQDN := fqdn |> <| hp_Checks := checks |> <| hp_Ready := forallb pc_OK checks |>)
        end
  end.

(* ------------------------------------------------------------------ *)
(** ** The live check of a domain *)

(** What the check of the zone found: whether the interface answers, the zone, the
    error, and the client later questions go to. *)
Definition cloudflare_status (d : Domain) : AM (bool * string * string * option Cloudflare) :=
  z ← try_ (ensureDomainZoneID dns d);
  let zone := match z with Ok z => z | Err _ => d_ZoneID d end in
  t ← try_ (GetCloudflareToken Open);
  match t with
  | Err _ => mret (false, zone, "cloudflare token missing", None)
  | Ok token =>
      if String.eqb (TrimSpace token) "" then mret (false, zone, "cloudflare token missing", None)
      else if String.eqb (TrimSpace zone) "" then
        mret (false, zone, match z with
          | Err e => "cloudflare zone resolution failed: " +:+ error_text e
          | Ok _ => "cloudflare zone id missing on domain" end, None)
      else
        calls ← gets s_dnsCalls;
        match cf_access (NewCloudflare token) calls zone with
        | Err e => mret (false, zone, error_text e, Some (NewCloudflare token))
        | Ok _ => mret (true, zone, "", Some (NewCloudflare token))
        end
  end.

(** The check of one host, and whether it is green. *)
Definition host_live_check (now : time) (serverIP : string) (record : string -> option (result bool)) (fqdn : string)
    : HostLiveCheck * bool :=
  let '(ips, source) := resolved fqdn in
  let dns_ok := match ips with [] => false | _ => true end in
  let err := if negb dns_ok then "dns unresolved"
             else if String.eqb source "resolver" then "" else "dns via " +:+ source +:+ " fallback" in
  let points := negb (String.eqb serverIP "") && containsString ips serverIP in
  let addr := probe_address serverIP (primary_of ips) in
  let http := 0 <? probeHTTPStatusForHost fqdn addr in
  let '(https, tls, days) := probeHTTPSAndCertForHost now fqdn addr in
  let '(found, cf_ok, err) := match record fqdn with
    | None => (false, true, err)
    | Some (Err _) => (false, false, joinErr err "cloudflare lookup failed")
    | Some (Ok b) => (b, b, err) end in
  (mkHostLiveCheck fqdn dns_ok points http (0 <? https) tls days found err,
   dns_ok && (String.eqb serverIP "" || points) && http && tls && cf_ok).

Definition RunDomainLiveCheck (domainID : Z) : AM DomainLiveCheck :=
  d ← db (GetDomainByID domainID);
  hosts ← db (ListHostsByDomainID domainID);
  a ← try_ (currentPublicIPv4 detectPublicIPv4);
  let '(serverIP, w1) := match a with
    | Ok i => (i, [])
    | Err e => ("", ["public IPv4 unavailable: " +:+ error_text e]) end in
  let '(apex, source) := resolved (d_Name d) in
  let apex_ok := match apex with [] => false | _ => true end in
  let w2 := if apex_ok && negb (String.eqb source "resolver") then ["apex DNS resolved via " +:+ source +:+ " fallback"] else [] in
  let points := negb (String.eqb serverIP "") && containsString apex serverIP in
  c ← (if String.eqb (d_DNSMode d) "cloudflare" then s ← cloudflare_status d; mret (Some s) else mret None);
  now ← db Now;
  calls ← gets s_dnsCalls;
  let '(api, zone, cferr, client) := match c with Some s => s | None => (false, "", "", None) end in
  let record := fun fqdn => match client with
    | Some cf => if api then Some (cf_has cf calls zone fqdn) else None
    | None => None end in
  let checked := map (fun h => host_live_check now serverIP record (h_FQDN h)) hosts in
  mret (mkDomainLiveCheck (d_Name d) (d_DNSMode d) (d_Provider d) serverIP apex_ok points api zone cferr
    (map fst checked) (w1 ++ w2)
    (apex_ok && (String.eqb serverIP "" || points) && match c with Some _ => api | None => true end
     && forallb snd checked)).

(* ------------------------------------------------------------------ *)
(** ** Diagnostics *)

Definition diagnoseHost (now : time) (publicIP fqdn : string) (probeEnabled : bool) : HostDiagnostic :=
  let '(records, err) := match resolveIPv4ListRobust fqdn with
    | Ok (ips, source) => (ips, if String.eqb source "resolver" then "" else "dns: resolved via " +:+ source)
    | Err e => ([], "dns: unresolved (" +:+ error_text e +:+ ")") end in
  let d := mkHostDiagnostic fqdn records 0 0 false "" "" 0 0 false "" 0 0 [] err in
  if negb probeEnabled then
    d <| hd_Error := or_default err "probes skipped (host state disables active checks)" |>
  else
    let addr := probe_address (TrimSpace publicIP) (primary_of records) in
    let at_port := fun port => if String.eqb addr "" then "" else JoinHostPort addr port in
    let tls := nw_tls nw (if String.eqb addr "" then JoinHostPort fqdn "443" else JoinHostPort addr "443") fqdn in
    let d := d <| hd_HTTPStatus := status_or_zero (nw_get nw ("http://" +:+ fqdn) (at_port "80") false) |> in
    let d := match tls with
      | Ok (c :: _) => d <| hd_TLSOK := true |> <| hd_CertSubject := ct_Subject c |> <| hd_CertIssuer := ct_Issuer c |>
                         <| hd_CertNotAfter := ct_NotAfter c |> <| hd_CertDaysLeft := days_left now (ct_NotAfter c) |>
      | Ok [] => d
      | Err e => d <| hd_Error := or_default err ("tls: " +:+ error_text e) |> end in
    d <| hd_HTTPSStatus := status_or_zero (nw_get nw ("https://" +:+ fqdn) (at_port "443") true) |>.

(** The backends of a host, asked one by one. *)
Definition backend_online (h : Host) (b : HABackend) : bool := reachable_status (probeHTTPStatus (hb_URL b) (h_InsecureTLS h)).
Definition diagnose_backends (h : Host) (d : HostDiagnostic) : HostDiagnostic :=
  match h_HABackends h with
  | [] => d
  | bs =>
      if negb (h_HAEnabled h) then d
      else
        d <| hd_HAEnabled := true |> <| hd_HAMode := h_HAMode h |> <| hd_HATotal := Z.of_nat (length bs) |>
          <| hd_HAOnline := Z.of_nat (length (List.filter (backend_online h) bs)) |>
          <| hd_HAOffline := map (fun b => if String.eqb (TrimSpace (hb_Name b)) "" then hb_URL b else hb_Name b)
                               (List.filter (fun b => negb (backend_online h b)) bs) |>
  end.

Definition GetHostsDiagnostics : AM (list HostDiagnostic) :=
  hosts ← db StoreHosts.ListHosts;
  now ← db Now;
  publicIP ← gets s_publicIP;
  mret (map (fun h =>
    let probe := negb (existsb (String.eqb (norm (h_State h))) ["disabled"; "maintenance"]) in
    diagnose_backends h (diagnoseHost now publicIP (h_FQDN h) probe)) hosts).

(* ------------------------------------------------------------------ *)
(** ** DNS maintenance *)

(** Whether the state kept under [key] changes; the maps are the two of the service. *)
Definition setMaintenanceBoolState (get : Svc -> gmap string bool)
    (set : (gmap string bool -> gmap string bool) -> Svc -> Svc) (key : string) (next : bool) : AM bool :=
  state ← gets get;
  if bool_decide (state !! key = Some next) then mret false
  else modify (set (fun m => <[key := next]> m)) ≫= fun _ => mret true.

Definition set_reach (key : string) (next : bool) : AM bool :=
  setMaintenanceBoolState s_maintReach (fun f s => s <| s_maintReach ::= f |>) key next.
Definition set_mismatch (key : string) (next : bool) : AM bool :=
  setMaintenanceBoolState s_maintCFMismatch (fun f s => s <| s_maintCFMismatch ::= f |>) key next.

Definition recordReachabilityTransition (key target expectedIP : string) (r : bool * string) : AM unit :=
  changed ← set_reach key r.1;
  when changed
    (db (audit "system" "maintenance.reachability.changed" target
       ("reachable=" +:+ FormatBool r.1 +:+ ";expected=" +:+ expectedIP +:+ ";observed=" +:+ r.2))).

(** The records of a name as Cloudflare has them: what to report, and whether the
    record is to be written. *)
Definition observed (ips : list string) : string := match ips with [] => "-" | _ => Join ips "," end.
Definition record_state (calls : list DnsCall) (zone expectedIP n : string) : option (string * bool) :=
  match cf_lookup own calls zone n with
  | Err _ => Some (n +:+ "=lookup_error", false)
  | Ok ips => if containsString ips expectedIP then None else Some (n +:+ "=" +:+ observed ips, true)
  end.

(** The names of a domain the service keeps records of. *)
Definition managed_names (d : Domain) (hosts : list Host) : list string :=
  dedup_seen norm nonempty ∅
    (d_Name d :: ("*." +:+ d_Name d) :: ("admin." +:+ d_Name d) :: List.filter nonempty (map (fun h => norm (h_FQDN h)) hosts)).

Definition upsert_error (p : Provider) (zone expectedIP n : string) : AM (option string) :=
  r ← try_ (dns_upsert p zone n expectedIP);
  mret (match r with Ok _ => None | Err e => Some (n +:+ ":" +:+ error_text e) end).

Definition update_failed (d : Domain) (changed : bool) (expectedIP : string) (items : list string) (err : string) : AM unit :=
  when changed (db (audit "system" "maintenance.cloudflare.update_failed" (d_Name d)
    ("expected=" +:+ expectedIP +:+ ";records=" +:+ Join items "|" +:+ ";err=" +:+ err))).

Definition reconcile (p : Provider) (d : Domain) (hosts : list Host) (zone expectedIP : string) : AM unit :=
  calls ← gets s_dnsCalls;
  let names := managed_names d hosts in
  let wrong := omap (fun n => pair n <$> record_state calls zone expectedIP n) names in
  let items := map (fun x => x.2.1) wrong in
  let todo := map fst (List.filter (fun x => x.2.2) wrong) in
  let mismatch := match items with [] => false | _ => true end in
  changed ← set_mismatch ("cf:" +:+ d_Name d) mismatch;
  if negb mismatch then mret tt
  else
    errs ← map_each (upsert_error p zone expectedIP) todo;
    match omap id errs with
    | (_ :: _) as errs => update_failed d changed expectedIP items (Join errs "|")
    | [] =>
        calls ← gets s_dnsCalls;
        match omap (fun n => fst <$> record_state calls zone expectedIP n) todo with
        | (_ :: _) as post => update_failed d changed expectedIP post "post_verify_mismatch"
        | [] => db (audit "system" "maintenance.cloudflare.domain_updated" (d_Name d)
                  ("expected=" +:+ expectedIP +:+ ";records=" +:+ Join items "|"))
        end
    end.

Definition maintain_domain (expectedIP : string) (d : Domain) : AM unit :=
  recordReachabilityTransition ("apex:" +:+ d_Name d) (d_Name d) expectedIP (dnsPointsToIP (d_Name d) expectedIP) ≫= fun _ =>
  r ← try_ (db (ListHostsByDomainID (d_ID d)));
  match r with
  | Err _ => mret tt
  | Ok hosts =>
      for_each (fun h => when (nonempty (TrimSpace (h_FQDN h)))
        (recordReachabilityTransition ("host:" +:+ h_FQDN h) (h_FQDN h) expectedIP (dnsPointsToIP (h_FQDN h) expectedIP))) hosts
      ≫= fun _ =>
      match (if String.eqb (norm (d_DNSMode d)) "cloudflare" then dns else None) with
      | Some (mkProvider u dl (Some rs)) =>
          z ← try_ (ensureDomainZoneID dns d);
          match z with
          | Err _ => mret tt
          | Ok zone => reconcile (mkProvider u dl (Some rs)) d hosts zone expectedIP
          end
      | _ => mret tt
      end
  end.

Definition runDNSMaintenanceOnce : AM unit :=
  a ← try_ (currentPublicIPv4 detectPublicIPv4);
  match a with
  | Err _ => mret tt
  | Ok expectedIP =>
      r ← try_ (db StoreHosts.ListDomains);
      match r with
      | Err _ => mret tt
      | Ok domains => for_each (maintain_domain expectedIP) domains
      end
  end.
End checks.

(* ------------------------------------------------------------------ *)
(** ** One round of maintenance makes the records right *)

Definition points (own : Cloudflare) (calls : list DnsCall) (zone addr n : string) : bool :=
  match cf_lookup own calls zone n with Ok ips => containsString ips addr | Err _ => false end.

(** An accepted update is seen by the next lookup of that name, and by no lookup
    of another. *)
Class HonestDNS (p : Provider) (own : Cloudflare) : Prop := {
  upsert_seen calls zone n addr : pv_upsert p calls zone n addr = Ok tt ->
    points own (calls ++ [UpsertARecord zone n addr]) zone addr n = true;
  upsert_other calls zone n n' addr : n' <> n ->
    cf_lookup own (calls ++ [UpsertARecord zone n' addr]) zone n = cf_lookup own calls zone n
}.

Section maintenance.
Context (p : Provider) (own : Cloudflare) `{!HonestDNS p own} (zone addr : string).
Context (accepted : forall calls n, pv_upsert p calls zone n addr = Ok tt).

Definition upserts (l : list string) : list DnsCall := map (fun n => UpsertARecord zone n addr) l.

Lemma upsert_errors_run l s :
  map_each (upsert_error p zone addr) l s = (Ok (map (fun _ => None) l), s <| s_dnsCalls ::= fun c => c ++ upserts l |>).
Proof.
  revert s. induction l as [|n l IH]; intros s; simpl.
  - unfold mret, M_ret, upserts, upd_field. destruct s. cbn. by rewrite app_nil_r.
  - unfold mbind, M_bind, upsert_error, try_, dns_upsert, dns_call. simpl. rewrite accepted. simpl. rewrite IH.
    unfold upd_field. destruct s. cbn. by rewrite <- app_assoc.
Qed.

(** A name that points to the address keeps pointing, a name updated does. *)
Lemma points_after calls l n : points own calls zone addr n = true \/ n ∈ l -> points own (calls ++ upserts l) zone addr n = true.
Proof.
  revert calls. induction l as [|m l IH]; intros calls; simpl.
  - rewrite app_nil_r. intros [H|H]; [done|]. by apply elem_of_nil in H.
  - intros H. rewrite cons_middle, app_assoc. apply IH. destruct (decide (m = n)) as [->|Hne].
    + left. by apply upsert_seen, accepted.
    + destruct H as [H|[H|H]%elem_of_cons]; [|by subst|by right]. left. unfold points. by rewrite upsert_other.
Qed.

Definition off (calls : list DnsCall) (n : string) : bool := negb (points own calls zone addr n).

Lemma wrong_names calls (l : list string) : (forall n, is_ok (cf_lookup own calls zone n) = true) ->
  let wrong : list (string * (string * bool)) := omap (fun n => pair n <$> record_state own calls zone addr n) l in
  map fst (List.filter (fun x => x.2.2) wrong) = List.filter (off calls) l /\
  (map (fun x => x.2.1) wrong = [] <-> List.filter (off calls) l = []).
Proof.
  intros Hans wrong. subst wrong. induction l as [|n l [IH1 IH2]]; simpl; [done|].
  specialize (Hans n). unfold off, points, record_state in *. destruct (cf_lookup own calls zone n) as [ips|]; [|done].
  destruct (containsString ips addr); simpl; [by split|]. split; [by f_equal|done].
Qed.

Lemma no_errors (l : list string) : omap id (map (fun _ => @None string) l) = [].
Proof. by induction l. Qed.

Lemma db_calls {A} (m : SM A) s : s_dnsCalls (db m s).2 = s_dnsCalls s.
Proof. unfold db, zoom. by destruct (m (s_env s)). Qed.

Lemma reconcile_calls d hosts s : (forall calls n, is_ok (cf_lookup own calls zone n) = true) ->
  s_dnsCalls (reconcile own p d hosts zone addr s).2 =
    s_dnsCalls s ++ upserts (List.filter (off (s_dnsCalls s)) (managed_names d hosts)).
Proof.
  intros Hans. destruct (wrong_names (s_dnsCalls s) (managed_names d hosts) (Hans _)) as [H1 H2].
  unfold reconcile. rewrite gets_run_eq. cbv zeta. rewrite H1. clear H1.
  set (wrong := List.filter (off (s_dnsCalls s)) (managed_names d hosts)) in *.
  set (items := map _ _) in *. clearbody items.
  assert (Hset : exists c s1, set_mismatch ("cf:" +:+ d_Name d) (match items with [] => false | _ => true end) s = (Ok c, s1)
    /\ s_dnsCalls s1 = s_dnsCalls s).
  { unfold set_mismatch, setMaintenanceBoolState. rewrite gets_run_eq. case_bool_decide; eexists _, _; by split. }
  destruct Hset as (c & s1 & Hs & Hc). rewrite (bind_ok_run _ _ _ _ _ Hs). destruct items as [|i items]; simpl.
  - replace wrong with (@nil string) by (symmetry; by apply H2). simpl. by rewrite app_nil_r, Hc.
  - unfold mbind at 1, M_bind at 1. rewrite upsert_errors_run.
    rewrite no_errors.
    rewrite gets_run_eq. case_match; rewrite ?db_calls; [by rewrite <- Hc|].
    unfold update_failed, when. destruct c; rewrite ?db_calls; by rewrite <- Hc.
Qed.

(** C33. With a DNS server that shows an update it accepted to the next lookup of that name
    and to no other ([HonestDNS]), and when every lookup is answered and every update
    accepted, one round leaves every managed name of the domain pointing to the expected address; it writes the names
    that did not point there, and those only, so a round that finds them all right
    writes nothing. *)
Theorem maintenance_repairs d hosts s :
  (forall calls n, is_ok (cf_lookup own calls zone n) = true) ->
  let s' := (reconcile own p d hosts zone addr s).2 in
  s_dnsCalls s' = s_dnsCalls s ++ upserts (List.filter (off (s_dnsCalls s)) (managed_names d hosts)) /\
  (forall n, n ∈ managed_names d hosts -> points own (s_dnsCalls s') zone addr n = true).
Proof.
  intros Hans s'. subst s'. rewrite reconcile_calls by done. split; [done|]. intros n Hn. apply points_after.
  destruct (points own (s_dnsCalls s) zone addr n) eqn:E; [by left|right].
  apply elem_of_selected. split; [done|]. unfold off. by rewrite E.
Qed.
End maintenance.

(** A provider that keeps the last address of each name. *)
Fixpoint last_address (calls : list DnsCall) (zone n : string) (found : list string) : list string :=
  match calls with
  | [] => found
  | UpsertARecord z m a :: l => last_address l zone n (if String.eqb z zone && String.eqb m n then [a] else found)
  | DeleteARecord z m :: l => last_address l zone n (if String.eqb z zone && String.eqb m n then [] else found)
  | ResolveZone _ :: l => last_address l zone n found
  end.
Definition toy_provider : Provider := mkProvider (fun _ _ _ _ => Ok tt) (fun _ _ _ => Ok tt) (Some (fun _ _ => Ok "z1")).
Definition toy_cloudflare : Cloudflare :=
  mkCloudflare (fun _ _ => Ok tt) (fun calls z n => Ok (match last_address calls z n [] with [] => false | _ => true end))
    (fun calls z n => Ok (last_address calls z n [])).

Lemma last_address_app l l' zone n f : last_address (l ++ l') zone n f = last_address l' zone n (last_address l zone n f).
Proof. revert f. induction l as [|[] l IH]; intros f; simpl; auto. Qed.

#[export] Instance toy_honest : HonestDNS toy_provider toy_cloudflare.
Proof.
  split.
  - intros calls zone n addr _. unfold points. simpl. rewrite last_address_app. simpl. by rewrite !String.eqb_refl; simpl; rewrite String.eqb_refl.
  - intros calls zone n n' addr Hne. simpl. rewrite last_address_app. simpl. apply String.eqb_neq in Hne. by rewrite Hne, andb_false_r.
Qed.

Lemma maintenance_repairs_witness :
  let d := zero_Domain <| d_Name := "example.org" |> in
  let s' := (reconcile toy_cloudflare toy_provider d [] "z1" "203.0.113.7" (new_svc (clean empty_DB 0) None)).2 in
  points toy_cloudflare (s_dnsCalls s') "z1" "203.0.113.7" "*.example.org" = true /\ length (s_dnsCalls s') = 3%nat.
Proof.
  intros d s'. split; [|vm_compute; reflexivity].
  apply (maintenance_repairs toy_provider toy_cloudflare "z1" "203.0.113.7" ltac:(done) d [] (new_svc (clean empty_DB 0) None)).
  - done.
  - vm_compute. repeat constructor.
Defined.
