(* ===== verification/Settings.v ===== *)
(** [internal/app/service.go], [logservers.go]: the runtime settings.

    [encoding/json] on the stored settings, the output of [ip route] and the runs
    of [timedatectl] are parameters; the steps of [SetRuntimeSettings] are
    definitions of their own, in the order of the code. *)

From S2P Require Import Prelude GoString GoMonad GoTime GoNet GoUrl GoCrypto Crypto Model LogServers.
From S2P Require Import StoreDB StoreThreat StoreUsers StoreHosts Service Vault Retention Hosts.
From Stdlib Require Import Ascii.

Record LDAPSettings := mkLDAPSettings {
  ld_Enabled : bool; ld_URL : string; ld_StartTLS : bool; ld_InsecureSkipVerify : bool; ld_BindDN : string;
  ld_UserBaseDN : string; ld_GroupBaseDN : string; ld_UserAttr : string; ld_AdminGroup : string;
  ld_DomainAdminGroup : string; ld_ReadOnlyGroup : string; ld_DomainAdminDomainIDs : list Z
}.
#[export] Instance eta_LDAPSettings : Eta LDAPSettings := fun r =>
  mkLDAPSettings (ld_Enabled r) (ld_URL r) (ld_StartTLS r) (ld_InsecureSkipVerify r) (ld_BindDN r)
    (ld_UserBaseDN r) (ld_GroupBaseDN r) (ld_UserAttr r) (ld_AdminGroup r) (ld_DomainAdminGroup r)
    (ld_ReadOnlyGroup r) (ld_DomainAdminDomainIDs r).
Definition zero_LDAPSettings : LDAPSettings := mkLDAPSettings false "" false false "" "" "" "" "" "" "" [].

Record OIDCSettings := mkOIDCSettings {
  oi_Enabled : bool; oi_IssuerURL : string; oi_ClientID : string; oi_RedirectURL : string; oi_Scopes : string;
  oi_UsernameClaim : string; oi_GroupsClaim : string; oi_AdminGroup : string; oi_DomainAdminGroup : string;
  oi_ReadOnlyGroup : string; oi_DomainAdminDomainIDs : list Z
}.
#[export] Instance eta_OIDCSettings : Eta OIDCSettings := fun r =>
  mkOIDCSettings (oi_Enabled r) (oi_IssuerURL r) (oi_ClientID r) (oi_RedirectURL r) (oi_Scopes r)
    (oi_UsernameClaim r) (oi_GroupsClaim r) (oi_AdminGroup r) (oi_DomainAdminGroup r) (oi_ReadOnlyGroup r)
    (oi_DomainAdminDomainIDs r).
Definition zero_OIDCSettings : OIDCSettings := mkOIDCSettings false "" "" "" "" "" "" "" "" "" [].

Record MFAPolicy := mkMFAPolicy { mp_EnforceAdmin : bool; mp_EnforceDomainAdmin : bool; mp_EnforceReadOnly : bool }.

(** What [GetRuntimeSettings] reports. *)
Record RuntimeSettings := mkRuntimeSettings {
  rs_Domain : string; rs_BaseDomain : string; rs_AdminFQDN : string; rs_ACMEEmail : string; rs_ACMEStaging : bool;
  rs_HasCFToken : bool; rs_PublicIPv4 : string; rs_StyleProfile : string; rs_StyleCustom : string;
  rs_TimeSyncMode : string; rs_TimeSyncLANServers : list string; rs_LogServers : LogServerSettings;
  rs_HasLogHTTPBearer : bool; rs_Retention : RetentionPolicy; rs_MFAPolicy : MFAPolicy; rs_LDAP : LDAPSettings;
  rs_HasLDAPBindPass : bool; rs_OIDC : OIDCSettings; rs_HasOIDCClientSecret : bool
}.

(* ------------------------------------------------------------------ *)
(** ** Normal forms *)

(** [strings.FieldsFunc] and [strings.Fields]: the runs of other bytes. *)
Fixpoint fields_from (p : ascii -> bool) (acc : string) (s : string) : list string :=
  match s with
  | "" => if String.eqb acc "" then [] else [acc]
  | String c s' =>
      if p c then (if String.eqb acc "" then fields_from p "" s' else acc :: fields_from p "" s')
      else fields_from p (acc +:+ String c "") s'
  end.
Definition FieldsFunc (s : string) (p : ascii -> bool) : list string := fields_from p "" s.
Definition Fields (s : string) : list string := FieldsFunc s is_space.

Definition normalizeLDAPSettings (c : LDAPSettings) : LDAPSettings :=
  mkLDAPSettings (ld_Enabled c) (TrimSpace (ld_URL c)) (ld_StartTLS c) (ld_InsecureSkipVerify c)
    (TrimSpace (ld_BindDN c)) (TrimSpace (ld_UserBaseDN c)) (TrimSpace (ld_GroupBaseDN c))
    (or_default (TrimSpace (ld_UserAttr c)) "uid") (TrimSpace (ld_AdminGroup c))
    (TrimSpace (ld_DomainAdminGroup c)) (TrimSpace (ld_ReadOnlyGroup c)) (positive_ids (ld_DomainAdminDomainIDs c)).

Definition normalizeOIDCSettings (c : OIDCSettings) : OIDCSettings :=
  mkOIDCSettings (oi_Enabled c) (TrimSpace (oi_IssuerURL c)) (TrimSpace (oi_ClientID c))
    (TrimSpace (oi_RedirectURL c)) (TrimSpace (oi_Scopes c))
    (or_default (TrimSpace (oi_UsernameClaim c)) "preferred_username")
    (or_default (TrimSpace (oi_GroupsClaim c)) "groups") (TrimSpace (oi_AdminGroup c))
    (TrimSpace (oi_DomainAdminGroup c)) (TrimSpace (oi_ReadOnlyGroup c)) (positive_ids (oi_DomainAdminDomainIDs c)).

Definition normalizeMFAPolicy (p : MFAPolicy) : MFAPolicy :=
  mkMFAPolicy (mp_EnforceAdmin p) (mp_EnforceDomainAdmin p) (mp_EnforceReadOnly p).

Definition time_sync_modes : gset string := {["system_only"; "external_public"; "external_lan"]}.
Definition normalizeTimeSyncMode (v : string) : string :=
  if bool_decide (norm v ∈ time_sync_modes) then norm v else "system_only".

Definition list_separator (c : ascii) : bool :=
  existsb (Ascii.eqb c) [","; ";"; byte 10; byte 13; byte 9; " "]%char.
Definition parseTimeSyncServerList (raw : string) : list string :=
  dedup_seen (fun s => TrimSpace (ToLower s)) nonempty ∅ (FieldsFunc raw list_separator).

(** The word after the first [dev] of a line. *)
Fixpoint dev_of (fields : list string) : option string :=
  match fields with
  | f :: ((g :: _) as l) =>
      if String.eqb f "dev" && negb (String.eqb (TrimSpace g) "") then Some (TrimSpace g) else dev_of l
  | _ => None
  end.
Fixpoint first_dev (lines : list string) : option string :=
  match lines with
  | [] => None
  | l :: lines' => match dev_of (Fields (TrimSpace l)) with Some d => Some d | None => first_dev lines' end
  end.

Definition public_time_servers : list string := ["time.cloudflare.com"; "time.google.com"; "time.apple.com"].
Definition style_names : gset string := {["monolith"; "cybermonolith"; "custom"]}.

Section settings.
(** The output of [ip -4 route show default], and for each run of [timedatectl]
    the text of its error. *)
Context (route_output : result string) (timedatectl : list string -> option string).
(** [encoding/json]. *)
Context (encode_logs : LogServerSettings -> string) (decode_logs : string -> option LogServerSettings).
Context (encode_ldap : LDAPSettings -> string) (decode_ldap : string -> option LDAPSettings).
Context (encode_oidc : OIDCSettings -> string) (decode_oidc : string -> option OIDCSettings).
Context (decode_style : string -> option (gmap string string)).
Context (Seal : bytes -> bytes -> bytes -> bytes) (Open : bytes -> bytes -> bytes -> option bytes).
Context (dns : option Provider) (detectPublicIPv4 : result string).

Definition defaultRouteInterface : result string :=
  match route_output with
  | Err e => Err (ErrWrap "detect default route interface failed" e)
  | Ok out => match first_dev (Split (TrimSpace out) (byte 10)) with
              | Some d => Ok d
              | None => Err (ErrText "no default route interface found")
              end
  end.

Definition run_timedatectl (what : string) (args : list string) : result unit :=
  match timedatectl ("--no-ask-password" :: args) with
  | None => Ok tt
  | Some e => Err (ErrWrap (what +:+ " failed") (ErrText e))
  end.

Definition applySystemTimeSyncPolicy (mode : string) (lanServers : list string) : result unit :=
  let mode := normalizeTimeSyncMode mode in
  iface ← defaultRouteInterface;
  servers ← (if String.eqb mode "external_public" then Ok public_time_servers
             else if String.eqb mode "external_lan" then
               match lanServers with
               | [] => Err (ErrText "at least one LAN NTP server is required for external_lan mode")
               | _ => Ok lanServers
               end
             else Ok []);
  _ ← run_timedatectl "enable ntp" ["set-ntp"; "true"];
  match servers with
  | [] => run_timedatectl "revert ntp servers" ["revert"; iface]
  | _ => run_timedatectl "set ntp servers" ("ntp-servers" :: iface :: servers)
  end.

Definition ApplyStoredTimeSyncPolicy : AM unit :=
  mode ← setting_or "runtime.time_sync_mode" normalizeTimeSyncMode "system_only";
  lan ← setting_or "runtime.time_sync_lan_servers" parseTimeSyncServerList [];
  lift (applySystemTimeSyncPolicy mode lan).

(* ------------------------------------------------------------------ *)
(** ** Log servers *)

Definition loadLogServerSettings : AM (LogServerSettings * string * bool) :=
  cfg ← setting_or "runtime.log_servers"
    (fun raw => match decode_logs raw with
                | Some parsed => match normalizeLogServerSettings parsed with Ok n => n | Err _ => defaultLogServerSettings end
                | None => defaultLogServerSettings
                end) defaultLogServerSettings;
  r ← try_ (GetLogHTTPBearer Open);
  let token := match r with Ok t => t | Err _ => "" end in
  mret (cfg, token, negb (String.eqb (TrimSpace token) "")).

Definition applyLogServerSettings (cfg : LogServerSettings) (httpBearer : string) : AM unit :=
  n ← lift (normalizeLogServerSettings cfg);
  db (SetSetting "runtime.log_servers" (encode_logs n)) ≫= fun _ =>
  when (negb (String.eqb (TrimSpace httpBearer) "")) (SetLogHTTPBearer Seal httpBearer) ≫= fun _ =>
  modify (fun s => s <| s_logCfg := n |>
    <| s_logToken := if String.eqb (TrimSpace httpBearer) "" then s_logToken s else TrimSpace httpBearer |>).

Definition syncLogServerSettings : AM unit :=
  r ← try_ loadLogServerSettings;
  match r with
  | Err _ => mret tt
  | Ok (cfg, token, _) => modify (fun s => s <| s_logCfg := cfg |> <| s_logToken := TrimSpace token |>)
  end.

(* ------------------------------------------------------------------ *)
(** ** Single sign-on *)

Definition getLDAPSettings : AM LDAPSettings :=
  setting_or "auth.ldap.config"
    (fun raw => normalizeLDAPSettings (default zero_LDAPSettings (decode_ldap raw)))
    (normalizeLDAPSettings zero_LDAPSettings).
Definition getOIDCSettings : AM OIDCSettings :=
  setting_or "auth.oidc.config"
    (fun raw => normalizeOIDCSettings (default zero_OIDCSettings (decode_oidc raw)))
    (normalizeOIDCSettings zero_OIDCSettings).
Definition GetOIDCSettings : AM OIDCSettings := getOIDCSettings.

(** The role of the first configured group the user is in, and the domains of a
    domain admin. *)
Definition ResolveOIDCRole (groups : list string) (cfg : OIDCSettings) : AM (Role * list Z) :=
  let groupSet := dedup_seen norm nonempty ∅ groups in
  let has g := negb (String.eqb (norm g) "") && bool_decide (norm g ∈ groupSet) in
  if has (oi_AdminGroup cfg) then mret (RoleAdmin, [])
  else if has (oi_DomainAdminGroup cfg) then
    match oi_DomainAdminDomainIDs cfg with
    | [] => r ← try_ (db ListDomainIDs); mret (RoleDomainAdmin, match r with Ok all => all | Err _ => [] end)
    | ids => mret (RoleDomainAdmin, ids)
    end
  else if has (oi_ReadOnlyGroup cfg) then mret (RoleReadOnly, [])
  else fail (ErrText "oidc group mapping missing").

Definition read_flag (key : string) : AM bool :=
  r ← try_ (db (GetSetting key));
  mret (match r with Ok v => EqualFold (TrimSpace v) "true" | Err _ => false end).

Definition getMFAPolicy : AM MFAPolicy :=
  a ← read_flag "auth.mfa.enforce_admin";
  d ← read_flag "auth.mfa.enforce_domain_admin";
  r ← read_flag "auth.mfa.enforce_read_only";
  mret (mkMFAPolicy a d r).

(* ------------------------------------------------------------------ *)
(** ** Writing the settings *)

Definition put (key value : string) : AM unit := db (SetSetting key value).

Definition set_acme (email : string) (staging : bool) (cfToken : string) : AM unit :=
  when (negb (String.eqb (TrimSpace email) "")) (put "acme.email" (TrimSpace email)) ≫= fun _ =>
  put "acme.staging" (FormatBool staging) ≫= fun _ =>
  when (negb (String.eqb (TrimSpace cfToken) "")) (SetCloudflareToken Seal cfToken).

Definition set_public_ip (publicIPv4 : string) : AM unit :=
  let publicIPv4 := TrimSpace publicIPv4 in
  if String.eqb publicIPv4 "" then mret tt
  else
    ip ← lift (parseIPv4 publicIPv4);
    put settingPublicIPv4 ip ≫= fun _ => UpdatePublicIP dns ip.

Definition set_base_domain (baseDomain : string) : AM unit :=
  let baseDomain := norm baseDomain in
  if String.eqb baseDomain "" then put "runtime.base_domain" ""
  else
    r ← try_ (db (GetDomainByName baseDomain));
    match r with
    | Err e => fail (if is_no_rows e then ErrText "base domain must be one of configured domains" else e)
    | Ok _ =>
        put "runtime.base_domain" baseDomain ≫= fun _ =>
        wrapped "admin endpoint setup failed" (ensureAdminHostForDomain dns detectPublicIPv4 baseDomain)
    end.

Definition set_style (profile custom : string) : AM unit :=
  let profile := or_default (norm profile) "monolith" in
  fail_if (negb (bool_decide (profile ∈ style_names))) "invalid style profile" ≫= fun _ =>
  put "runtime.style_profile" profile ≫= fun _ =>
  let custom := TrimSpace custom in
  (if String.eqb custom "" then mret tt
   else match decode_style custom with
        | None => fail (ErrText "invalid style custom json")
        | Some m => fail_if (32 <? Z.of_nat (size m)) "style custom json has too many keys"
        end) ≫= fun _ =>
  put "runtime.style_custom" custom.

Definition set_time_sync (mode servers : string) : AM unit :=
  let mode := normalizeTimeSyncMode mode in
  let lan := parseTimeSyncServerList servers in
  fail_if (String.eqb mode "external_lan" && bool_decide (lan = []))
    "at least one LAN NTP server is required for external_lan mode" ≫= fun _ =>
  lift (applySystemTimeSyncPolicy mode lan) ≫= fun _ =>
  put "runtime.time_sync_mode" mode ≫= fun _ =>
  put "runtime.time_sync_lan_servers" (Join lan ",").

Definition set_retention (p : RetentionPolicy) : AM unit :=
  let p := normalizeRetentionPolicy p in
  put "runtime.retention.audit_days" (Itoa (rp_AuditDays p)) ≫= fun _ =>
  put "runtime.retention.traffic_days" (Itoa (rp_TrafficDays p)) ≫= fun _ =>
  put "runtime.retention.visitors_days" (Itoa (rp_VisitorsDays p)) ≫= fun _ =>
  put "runtime.retention.threat_days" (Itoa (rp_ThreatDays p)) ≫= fun _ =>
  put "runtime.retention.blocked_days" (Itoa (rp_BlockedDays p)) ≫= fun _ =>
  put "runtime.retention.login_days" (Itoa (rp_LoginAttemptDays p)) ≫= fun _ =>
  put "runtime.retention.password_reset_days" (Itoa (rp_PasswordResetDays p)).

Definition set_mfa_policy (p : MFAPolicy) : AM unit :=
  let p := normalizeMFAPolicy p in
  put "auth.mfa.enforce_admin" (FormatBool (mp_EnforceAdmin p)) ≫= fun _ =>
  put "auth.mfa.enforce_domain_admin" (FormatBool (mp_EnforceDomainAdmin p)) ≫= fun _ =>
  put "auth.mfa.enforce_read_only" (FormatBool (mp_EnforceReadOnly p)).

Definition blank (s : string) : bool := String.eqb (TrimSpace s) "".

Definition set_ldap (c : LDAPSettings) (bindPass : string) : AM unit :=
  let c := normalizeLDAPSettings c in
  (if ld_Enabled c then
     fail_if (blank (ld_URL c)) "ldap url required when ldap is enabled" ≫= fun _ =>
     fail_if (blank (ld_BindDN c)) "ldap bind dn required when ldap is enabled" ≫= fun _ =>
     fail_if (blank (ld_UserBaseDN c)) "ldap user base dn required when ldap is enabled" ≫= fun _ =>
     fail_if (blank (ld_GroupBaseDN c)) "ldap group base dn required when ldap is enabled" ≫= fun _ =>
     fail_if (blank (ld_AdminGroup c) && blank (ld_DomainAdminGroup c) && blank (ld_ReadOnlyGroup c))
       "at least one ldap role mapping group is required"
   else mret tt) ≫= fun _ =>
  put "auth.ldap.config" (encode_ldap c) ≫= fun _ =>
  when (negb (blank bindPass)) (store_secret Seal "auth.ldap.bind_password" (TrimSpace bindPass)).

Definition set_oidc (c : OIDCSettings) (clientSecret : string) : AM unit :=
  let c := normalizeOIDCSettings c in
  (if oi_Enabled c then
     fail_if (blank (oi_IssuerURL c)) "oidc issuer url required when oidc is enabled" ≫= fun _ =>
     fail_if (blank (oi_ClientID c)) "oidc client id required when oidc is enabled" ≫= fun _ =>
     fail_if (blank (oi_RedirectURL c)) "oidc redirect url required when oidc is enabled" ≫= fun _ =>
     fail_if (blank (oi_AdminGroup c) && blank (oi_DomainAdminGroup c) && blank (oi_ReadOnlyGroup c))
       "at least one oidc role mapping group is required" ≫= fun _ =>
     if blank clientSecret then
       r ← try_ (db (GetSecret "auth.oidc.client_secret"));
       fail_if (negb (is_ok r)) "oidc client secret required when oidc is enabled"
     else mret tt
   else mret tt) ≫= fun _ =>
  put "auth.oidc.config" (encode_oidc c) ≫= fun _ =>
  when (negb (blank clientSecret)) (store_secret Seal "auth.oidc.client_secret" (TrimSpace clientSecret)).

Definition SetRuntimeSettings (acmeEmail : string) (acmeStaging : bool)
    (cfToken publicIPv4 baseDomain styleProfile styleCustom timeSyncMode timeSyncLANServers : string)
    (logServers : LogServerSettings) (logHTTPBearer : string) (retention : RetentionPolicy)
    (mfaPolicy : MFAPolicy) (ldap : LDAPSettings) (ldapBindPass : string)
    (oidc : OIDCSettings) (oidcClientSecret : string) : AM unit :=
  set_acme acmeEmail acmeStaging cfToken ≫= fun _ =>
  set_public_ip publicIPv4 ≫= fun _ =>
  set_base_domain baseDomain ≫= fun _ =>
  set_style styleProfile styleCustom ≫= fun _ =>
  set_time_sync timeSyncMode timeSyncLANServers ≫= fun _ =>
  applyLogServerSettings logServers logHTTPBearer ≫= fun _ =>
  set_retention retention ≫= fun _ =>
  set_mfa_policy mfaPolicy ≫= fun _ =>
  set_ldap ldap ldapBindPass ≫= fun _ =>
  set_oidc oidc oidcClientSecret.

(* ------------------------------------------------------------------ *)
(** ** Reading the settings *)

(** A setting as it is stored, when it is not blank. *)
Definition raw_setting (key : string) : AM (option string) := setting_or key Some None.
(** Whether a secret is stored, whatever it holds. *)
Definition has_secret (name : string) : AM bool := r ← try_ (db (GetSecret name)); mret (is_ok r).

(** The style of the login page, which anyone may ask for. *)
Definition GetStyleSettings : AM (string * string) :=
  p ← try_ (db (GetSetting "runtime.style_profile"));
  c ← try_ (db (GetSetting "runtime.style_custom"));
  mret (match p with
        | Ok v => if bool_decide (norm v ∈ style_names) then norm v else "monolith"
        | Err _ => "monolith"
        end,
        match c with Ok v => TrimSpace v | Err _ => "" end).

Definition GetRuntimeSettings : AM RuntimeSettings :=
  cfg ← gets s_cfg;
  base ← raw_setting "runtime.base_domain";
  let base := match base with Some v => norm v | None => norm (cfg_Domain cfg) end in
  email ← raw_setting "acme.email";
  staging ← raw_setting "acme.staging";
  cf ← try_ (GetCloudflareToken Open);
  ip ← raw_setting settingPublicIPv4;
  ip ← (match (match ip with Some v => parseIPv4 v | None => Err ErrNoRows end) with
        | Ok ip => modify (fun s => s <| s_publicIP := ip |>) ≫= fun _ => mret ip
        | Err _ => gets (fun s => TrimSpace (s_publicIP s))
        end);
  profile ← raw_setting "runtime.style_profile";
  custom ← try_ (db (GetSetting "runtime.style_custom"));
  mode ← raw_setting "runtime.time_sync_mode";
  lan ← try_ (db (GetSetting "runtime.time_sync_lan_servers"));
  logs ← try_ loadLogServerSettings;
  retention ← getRetentionPolicy;
  mfa ← getMFAPolicy;
  ldap ← getLDAPSettings;
  ldapPass ← has_secret "auth.ldap.bind_password";
  oidc ← getOIDCSettings;
  oidcSecret ← has_secret "auth.oidc.client_secret";
  mret (mkRuntimeSettings (cfg_Domain cfg) base (if String.eqb base "" then "" else "admin." +:+ base)
    (default (cfg_ACMEEmail cfg) email)
    (match staging with Some v => EqualFold v "true" | None => cfg_ACMEStaging cfg end)
    (is_ok cf) ip
    (match profile with Some v => if bool_decide (norm v ∈ style_names) then norm v else "monolith" | None => "monolith" end)
    (match custom with Ok v => TrimSpace v | Err _ => "" end)
    (match mode with Some v => normalizeTimeSyncMode v | None => "system_only" end)
    (match lan with Ok v => parseTimeSyncServerList v | Err _ => [] end)
    (match logs with Ok (c, _, _) => c | Err _ => defaultLogServerSettings end)
    (match logs with Ok (_, _, has) => has | Err _ => false end)
    retention mfa ldap ldapPass oidc oidcSecret).
End settings.
