(* ===== verification/Accounts.v ===== *)
(** [internal/app/service.go], [identity_management.go]: the accounts of the
    administrators as the service manages them: users, their passwords and second
    factors, reset tokens, permission groups and the permission matrix. *)

From S2P Require Import Prelude GoString GoMonad GoTime GoNet GoCrypto Crypto Mfa Model.
From S2P Require Import StoreDB StoreThreat StoreUsers StoreGroups Service Vault Settings.
From Stdlib Require Import Ascii.
Open Scope Z_scope.

(* ------------------------------------------------------------------ *)
(** ** Networks *)

Fixpoint cidr_loop (seen : gset string) (parts : list string) : result (list string) :=
  match parts with
  | [] => Ok []
  | p :: l =>
      let p := TrimSpace p in
      if String.eqb p "" then cidr_loop seen l
      else match ParseCIDR p with
           | None => Err (ErrText ("invalid cidr: " +:+ p))
           | Some n =>
               let norm := Net_String n in
               if bool_decide (norm ∈ seen) then cidr_loop seen l
               else out ← cidr_loop ({[norm]} ∪ seen) l; Ok (norm :: out)
           end
  end.

Definition parseAndNormalizeCIDRs (raw : string) : result string :=
  let raw := ReplaceAll (ReplaceAll raw (byte 10) ",") ";"%char "," in
  out ← cidr_loop ∅ (Split raw ","%char); Ok (Join out ",").

(* ------------------------------------------------------------------ *)
(** ** Users *)

Record ManagedUser := mkManagedUser {
  mu_ID : Z; mu_Username : string; mu_Role : Role; mu_AuthProvider : string; mu_DomainIDs : list Z;
  mu_GroupMembership : list UserGroupMembership; mu_AllowedCIDRs : string; mu_IPCheckDisabled : bool;
  mu_MFAEnabled : bool; mu_MFAEnrolledAt : time; mu_CreatedAt : time; mu_UpdatedAt : time
}.

Definition managed_user (u : User) (ids : list Z) (gm : list UserGroupMembership) : ManagedUser :=
  mkManagedUser (u_ID u) (u_Username u) (u_URole u) (TrimSpace (u_AuthProvider u)) ids gm (u_AllowedCIDRs u)
    (u_IPCheckOff u) (u_MFAEnabled u) (u_MFAEnrolled u) (u_CreatedAt u) (u_UpdatedAt u).

Definition assignable_roles : list Role := [RoleAdmin; RoleDomainAdmin; RoleReadOnly].
Definition check_role (role : Role) : AM unit :=
  fail_if (negb (existsb (String.eqb role) assignable_roles)) "role must be admin, domain-admin, or read-only".

(** [ids, _ := f()] *)
Definition or_nil {A} (m : AM (list A)) : AM (list A) := r ← try_ m; mret (match r with Ok l => l | Err _ => [] end).

Definition MinPasswordLength : Z := 10.
Definition check_length (password : string) : AM unit := fail_if (len password <? MinPasswordLength) "password too short".

Section accounts.
Context (IDKey : bytes -> bytes -> Z -> Z -> Z -> Z -> bytes).
Context (Seal : bytes -> bytes -> bytes -> bytes) (Open : bytes -> bytes -> bytes -> option bytes).

Definition CreateManagedUser (username password : string) (role : Role) (domainIDs : list Z) (allowedCIDRs : string)
    (ipCheckDisabled : bool) (groupIDs : list Z) : AM ManagedUser :=
  let username := ToLower (TrimSpace username) in
  fail_if (String.eqb username "") "username required" ≫= fun _ =>
  check_length password ≫= fun _ =>
  check_role role ≫= fun _ =>
  normCIDRs ← lift (parseAndNormalizeCIDRs allowedCIDRs);
  fail_if ipCheckDisabled "disable IP check requires MFA enabled for this user" ≫= fun _ =>
  hash ← hash_password IDKey password;
  u ← db (CreateUser username role normCIDRs ipCheckDisabled hash);
  (if String.eqb role RoleDomainAdmin then
     fail_if (match domainIDs with [] => true | _ => false end) "domain-admin requires at least one domain assignment" ≫= fun _ =>
     db (SetUserDomainScopes (u_ID u) domainIDs)
   else mret tt) ≫= fun _ =>
  db (SetUserGroupMemberships (u_ID u) groupIDs) ≫= fun _ =>
  ids ← or_nil (db (GetUserDomainIDs (u_ID u)));
  gm ← or_nil (db (ListUserGroupMemberships (u_ID u)));
  mret (managed_user u ids gm).

Definition ListManagedUsers : AM (list ManagedUser) :=
  users ← db ListUsers;
  r ← try_ (db ListUsersGroupMemberships);
  let groupMap := match r with Ok m => m | Err _ => ∅ end in
  map_each (fun u =>
    ids ← or_nil (db (GetUserDomainIDs (u_ID u)));
    mret (managed_user u ids (default [] (groupMap !! u_ID u)))) users.

Definition SetManagedUserDomains (userID : Z) (domainIDs : list Z) : AM unit :=
  u ← db (GetUserByID userID);
  fail_if (negb (String.eqb (u_URole u) RoleDomainAdmin)) "user is not domain-admin" ≫= fun _ =>
  fail_if (match domainIDs with [] => true | _ => false end) "domain-admin requires at least one domain assignment" ≫= fun _ =>
  db (SetUserDomainScopes userID domainIDs).

Definition SetManagedUserAccess (userID : Z) (role : Role) (domainIDs : list Z) (allowedCIDRs : string)
    (ipCheckDisabled : bool) (groupIDs : list Z) : AM unit :=
  check_role role ≫= fun _ =>
  normCIDRs ← lift (parseAndNormalizeCIDRs allowedCIDRs);
  u ← db (GetUserByID userID);
  fail_if (ipCheckDisabled && negb (u_MFAEnabled u)) "disable IP check requires MFA enabled for this user" ≫= fun _ =>
  fail_if (String.eqb role RoleDomainAdmin && match domainIDs with [] => true | _ => false end)
    "domain-admin requires at least one domain assignment" ≫= fun _ =>
  let domainIDs := if String.eqb role RoleDomainAdmin then domainIDs else [] in
  db (SetUserAccessPolicy userID role domainIDs normCIDRs ipCheckDisabled) ≫= fun _ =>
  db (SetUserGroupMemberships userID groupIDs).

Definition DeleteManagedUser (userID : Z) : AM unit :=
  u ← db (GetUserByID userID);
  when (EqualFold (TrimSpace (u_AuthProvider u)) "ldap") (db (EnqueueLDAPDelete (u_Username u))) ≫= fun _ =>
  db (DeleteUser userID).

(** [crypto.HashPassword] and [s.store.SetUserPasswordHashByID]. *)
Definition store_password (userID : Z) (newPassword : string) : AM unit :=
  newHash ← hash_password IDKey newPassword;
  db (SetUserPasswordHashByID userID newHash).

Definition SetManagedUserPassword (userID : Z) (newPassword : string) : AM unit :=
  check_length newPassword ≫= fun _ =>
  _ ← db (GetUserByID userID);
  store_password userID newPassword.

Definition ChangeOwnPassword (userID : Z) (currentPassword newPassword : string) : AM unit :=
  fail_if (String.eqb (TrimSpace currentPassword) "") "current password required" ≫= fun _ =>
  check_length newPassword ≫= fun _ =>
  u ← db (GetUserByID userID);
  fail_if (negb (VerifyPassword IDKey currentPassword (u_PasswordHash u))) "invalid current password" ≫= fun _ =>
  store_password userID newPassword.

(** A reset token: thirty-two random bytes, kept as their hash. *)
Definition reset_token (raw : bytes) : string := "prt_" +:+ b64_encode url_alphabet raw.

Definition CreatePasswordResetToken (username : string) (ttl : duration) : AM string :=
  let username := TrimSpace username in
  fail_if (String.eqb username "") "username required" ≫= fun _ =>
  u ← db (FindUserByUsername username);
  let ttl := if ttl <=? 0 then 30 * Minute else ttl in
  raw ← db (random_bytes 32);
  let token := reset_token raw in
  now ← db Now;
  db (StoreUsers.CreatePasswordResetToken (u_ID u) (sha256_hex token) (Add now ttl)) ≫= fun _ =>
  mret token.

Definition ConsumePasswordResetToken (token newPassword : string) : AM unit :=
  let token := TrimSpace token in
  fail_if (String.eqb token "") "token required" ≫= fun _ =>
  check_length newPassword ≫= fun _ =>
  userID ← db (StoreUsers.ConsumePasswordResetToken (sha256_hex token));
  store_password userID newPassword.

(* ------------------------------------------------------------------ *)
(** ** The second factor *)

Record MFAStatus := mkMFAStatus {
  ms_Enabled : bool; ms_RequiredByPolicy : bool; ms_EnrolledAt : time; ms_RecoveryCodesRemaining : Z
}.
Record MFAEnrollStart := mkMFAEnrollStart {
  me_Secret : string; me_OTPAuth : string; me_Issuer : string; me_Account : string; me_StartedAt : string
}.
Record MFAEnrollConfirm := mkMFAEnrollConfirm { mc_Enabled : bool; mc_EnrolledAt : time; mc_RecoveryCodes : list string }.

Definition isMFAPolicyRequiredForRole (role : Role) : AM bool :=
  p ← getMFAPolicy;
  mret (if String.eqb role RoleAdmin then mp_EnforceAdmin p
        else if String.eqb role RoleDomainAdmin then mp_EnforceDomainAdmin p
        else if String.eqb role RoleReadOnly then mp_EnforceReadOnly p else false).

Definition GetOwnMFAStatus (userID : Z) : AM MFAStatus :=
  u ← db (GetUserByID userID);
  count ← (if u_MFAEnabled u then
             c ← try_ (db (CountUserMFARecoveryCodesRemaining userID)); mret (match c with Ok n => n | Err _ => 0 end)
           else mret 0);
  required ← isMFAPolicyRequiredForRole (u_URole u);
  mret (mkMFAStatus (u_MFAEnabled u) required (u_MFAEnrolled u) count).

Definition mfa_issuer : string := "DomNexDomain".

Definition StartOwnMFAEnrollment (userID : Z) (username : string) : AM MFAEnrollStart :=
  u ← db (GetUserByID userID);
  raw ← db (random_bytes 20);
  let secret := GenerateSecret raw in
  enc ← encrypt Seal secret;
  db (SetUserMFAState userID false enc 0) ≫= fun _ =>
  let account := if String.eqb (TrimSpace username) "" then TrimSpace (u_Username u) else TrimSpace username in
  now ← db Now;
  mret (mkMFAEnrollStart secret (BuildOTPAuthURL mfa_issuer account secret) mfa_issuer account (RFC3339Nano now)).

(** [mfa.GenerateRecoveryCodes] *)
Definition GenerateRecoveryCodes (n : nat) : AM (list string) :=
  map_each (fun _ => raw ← db (random_bytes 6); mret (recovery_code raw)) (seq 0 n).

Definition ConfirmOwnMFAEnrollment (userID : Z) (otp : string) : AM MFAEnrollConfirm :=
  u ← db (GetUserByID userID);
  fail_if (String.eqb (TrimSpace (u_MFASecretEnc u)) "") "mfa enrollment not started" ≫= fun _ =>
  r ← try_ (decrypt Open (u_MFASecretEnc u));
  match r with
  | Err _ => fail (ErrText "mfa secret unavailable")
  | Ok secret =>
      now ← db Now;
      fail_if (negb (ValidateTOTP secret otp now)) "invalid otp code" ≫= fun _ =>
      db (SetUserMFAState userID true (u_MFASecretEnc u) now) ≫= fun _ =>
      recoveryCodes ← GenerateRecoveryCodes 10;
      db (ReplaceUserMFARecoveryCodes userID (map HashRecoveryCode recoveryCodes)) ≫= fun _ =>
      mret (mkMFAEnrollConfirm true now recoveryCodes)
  end.

(** The one-time code, checked against the stored secret. *)
Definition totp_allowed (u : User) (code : string) : AM bool :=
  let secretEnc := TrimSpace (u_MFASecretEnc u) in
  if String.eqb secretEnc "" then mret false
  else
    r ← try_ (decrypt Open secretEnc);
    now ← db Now;
    mret (match r with Ok secret => ValidateTOTP secret code now | Err _ => false end).

Definition DisableOwnMFA (userID : Z) (currentPassword otpOrRecovery : string) : AM unit :=
  u ← db (GetUserByID userID);
  if negb (u_MFAEnabled u) then mret tt
  else
    fail_if (negb (VerifyPassword IDKey currentPassword (u_PasswordHash u))) "invalid current password" ≫= fun _ =>
    let otpOrRecovery := TrimSpace otpOrRecovery in
    fail_if (String.eqb otpOrRecovery "") "mfa code required" ≫= fun _ =>
    totp_allowed u otpOrRecovery ≫= fun allowed : bool =>
    (if negb allowed && IsRecoveryCodeFormat otpOrRecovery then
       r ← try_ (db (ConsumeUserMFARecoveryCode userID (HashRecoveryCode otpOrRecovery)));
       mret (match r with Ok b => b | Err _ => false end)
     else mret allowed) ≫= fun allowed : bool =>
    fail_if (negb allowed) "invalid mfa code" ≫= fun _ =>
    db (ResetUserMFA userID).

Definition ResetManagedUserMFA (userID : Z) : AM unit :=
  _ ← db (GetUserByID userID); db (ResetUserMFA userID).

End accounts.

Definition ListAPITokens (limit : Z) : AM (list APIToken) := db (StoreUsers.ListAPITokens limit).
Definition RevokeAPIToken (id : Z) : AM bool := db (StoreUsers.RevokeAPIToken id).

(* ------------------------------------------------------------------ *)
(** ** Permissions *)

Record PermissionCatalogItem := mkItem {
  pc_Key : string; pc_Category : string; pc_Label : string; pc_Description : string; pc_Critical : bool
}.

Definition permissionCatalog : list PermissionCatalogItem :=
  [mkItem "system:read" "system" "System Read" "Read system runtime state" false;
   mkItem "system:reload" "system" "System Reload" "Trigger service reload" true;
   mkItem "domains:read" "domains" "Domains Read" "Read domain inventory" false;
   mkItem "domains:create" "domains" "Domains Create" "Create or onboard domains" false;
   mkItem "domains:update" "domains" "Domains Update" "Modify domain settings" false;
   mkItem "domains:delete" "domains" "Domains Delete" "Delete domains" true;
   mkItem "hosts:read" "subdomains" "Subdomains Read" "Read subdomain routing" false;
   mkItem "hosts:write" "subdomains" "Subdomains Write" "Create/update subdomains" false;
   mkItem "hosts:delete" "subdomains" "Subdomains Delete" "Delete subdomains" true;
   mkItem "users:read" "identity" "Users Read" "View users and access policy" false;
   mkItem "users:write" "identity" "Users Write" "Create/edit/delete users" true;
   mkItem "groups:read" "identity" "Groups Read" "View permission groups" false;
   mkItem "groups:write" "identity" "Groups Write" "Create/edit/delete permission groups" true;
   mkItem "settings:read" "settings" "Settings Read" "Read runtime settings" false;
   mkItem "settings:write" "settings" "Settings Write" "Modify runtime settings" true;
   mkItem "tokens:read" "api" "API Tokens Read" "View API tokens" false;
   mkItem "tokens:write" "api" "API Tokens Write" "Create/revoke API tokens" true;
   mkItem "logs:read" "observability" "Logs Read" "View audit/log center" false;
   mkItem "logs:export" "observability" "Logs Export" "Export operational logs" false;
   mkItem "threatintel:read" "security" "Threat Intel Read" "View threat intel pages" false;
   mkItem "threatintel:write" "security" "Threat Intel Write" "Modify threat intel policy/feeds" true;
   mkItem "security:block_ip" "security" "Security Block IP" "Block/unblock IP entries" true;
   mkItem "backup:read" "operations" "Backup Read" "View backup center" false;
   mkItem "backup:write" "operations" "Backup Write" "Create/restore backups" true;
   mkItem "ssh:read" "edge" "SSH Bastion Read" "View SSH bastion routes/keys" false;
   mkItem "ssh:write" "edge" "SSH Bastion Write" "Manage SSH bastion routes/keys" true].

Definition allPermissionKeys : list string := map pc_Key permissionCatalog.

Record permissionTemplate := mkTemplate {
  pt_Name : string; pt_Template : string; pt_Description : string; pt_Permissions : list string
}.
Definition permissionTemplates : list permissionTemplate :=
  [mkTemplate "Platform Admin" "platform-admin" "Full platform control baseline template." allPermissionKeys;
   mkTemplate "Security Admin" "security-admin" "Security operations without full platform ownership."
     ["logs:read"; "logs:export"; "threatintel:read"; "threatintel:write"; "security:block_ip"; "settings:read"; "tokens:read"];
   mkTemplate "Domain Operator" "domain-operator" "Domain and subdomain operations."
     ["domains:read"; "domains:create"; "domains:update"; "hosts:read"; "hosts:write"; "logs:read"; "settings:read"];
   mkTemplate "Auditor" "auditor" "Read and export focused operations."
     ["domains:read"; "hosts:read"; "users:read"; "groups:read"; "logs:read"; "logs:export"; "threatintel:read";
      "settings:read"; "backup:read"; "tokens:read"]].

Fixpoint known_loop (seen : gset string) (perms : list string) : result (list string) :=
  match perms with
  | [] => Ok []
  | p :: l =>
      let key := norm p in
      if String.eqb key "" || bool_decide (key ∈ seen) then known_loop seen l
      else if negb (bool_decide (key ∈ allPermissionKeys)) then Err (ErrText ("unknown permission: " +:+ key))
      else out ← known_loop ({[key]} ∪ seen) l; Ok (key :: out)
  end.
Definition normalizePermissions (perms : list string) : result (list string) :=
  out ← known_loop ∅ perms; Ok (order_by String.leb out).

(** The loop of [EnsureIdentityTemplates] over the templates. *)
Definition ensure_template (byTemplate : list string) (t : permissionTemplate) : AM unit :=
  if bool_decide (ToLower (pt_Template t) ∈ byTemplate) then mret tt
  else _ ← db (StoreGroups.CreatePermissionGroup (pt_Name t) (pt_Description t) (pt_Template t) true (pt_Permissions t)); mret tt.

Definition EnsureIdentityTemplates : AM unit :=
  groups ← db StoreGroups.ListPermissionGroups;
  for_each (ensure_template (map (fun g => norm (pg_Template g)) groups)) permissionTemplates.

Definition PermissionCatalog : list PermissionCatalogItem := permissionCatalog.

Record PermissionGroupView := mkPermissionGroupView {
  pv_Group : PermissionGroup; pv_Permissions : list string; pv_UserCount : Z
}.

(** How many of the listed users are members of the group. *)
Definition user_count (users : list User) (membership : gmap Z (list UserGroupMembership)) (id : Z) : Z :=
  lsum (map (fun u => Z.of_nat (length (List.filter (fun m => gm_GroupID m =? id) (default [] (membership !! u_ID u))))) users).

Definition ListPermissionGroups : AM (list PermissionGroupView) :=
  EnsureIdentityTemplates ≫= fun _ =>
  groups ← db StoreGroups.ListPermissionGroups;
  users ← db ListUsers;
  membership ← db ListUsersGroupMemberships;
  map_each (fun g =>
    perms ← or_nil (db (ListPermissionGroupPermissions (pg_ID g)));
    mret (mkPermissionGroupView g perms (user_count users membership (pg_ID g)))) groups.

Definition CreatePermissionGroup (name description template : string) (permissions : list string) : AM PermissionGroupView :=
  normPerms ← lift (normalizePermissions permissions);
  g ← db (StoreGroups.CreatePermissionGroup name description template false normPerms);
  perms ← or_nil (db (ListPermissionGroupPermissions (pg_ID g)));
  mret (mkPermissionGroupView g perms 0).

Definition UpdatePermissionGroup (groupID : Z) (name description template : string) (permissions : list string) : AM unit :=
  normPerms ← lift (normalizePermissions permissions);
  db (StoreGroups.UpdatePermissionGroup groupID name description template normPerms).

Definition DeletePermissionGroup (groupID : Z) : AM unit := db (StoreGroups.DeletePermissionGroup groupID).

Definition SetManagedUserGroups (userID : Z) (groupIDs : list Z) : AM unit := db (SetUserGroupMemberships userID groupIDs).

Record PermissionMatrixRow := mkPermissionMatrixRow {
  px_Permission : string; px_Category : string; px_Label : string; px_Critical : bool; px_GroupCount : Z;
  px_UserCount : Z; px_Groups : list string; px_Users : list string
}.

(** Whether a group, or a user through one of his groups, has a permission. *)
Definition group_has (groupPerms : gmap Z (gset string)) (key : string) (id : Z) : bool :=
  bool_decide (key ∈ (default ∅ (groupPerms !! id) : gset string)).
Definition user_has (groupPerms : gmap Z (gset string)) (membership : gmap Z (list UserGroupMembership)) (key : string) (u : User) : bool :=
  existsb (fun m => group_has groupPerms key (gm_GroupID m)) (default [] (membership !! u_ID u)).

Definition matrix_row (groups : list PermissionGroup) (users : list User) (membership : gmap Z (list UserGroupMembership))
    (groupPerms : gmap Z (gset string)) (c : PermissionCatalogItem) : PermissionMatrixRow :=
  let gs := map pg_Name (List.filter (fun g => group_has groupPerms (pc_Key c) (pg_ID g)) groups) in
  let us := map u_Username (List.filter (user_has groupPerms membership (pc_Key c)) users) in
  mkPermissionMatrixRow (pc_Key c) (pc_Category c) (pc_Label c) (pc_Critical c) (Z.of_nat (length gs)) (Z.of_nat (length us))
    (order_by String.leb gs) (order_by String.leb us).

Definition row_le (x y : PermissionMatrixRow) : bool :=
  if String.eqb (px_Category x) (px_Category y) then String.leb (px_Permission x) (px_Permission y)
  else String.leb (px_Category x) (px_Category y).

Definition BuildPermissionMatrix : AM (list PermissionMatrixRow) :=
  EnsureIdentityTemplates ≫= fun _ =>
  groups ← db StoreGroups.ListPermissionGroups;
  users ← db ListUsers;
  userMembership ← db ListUsersGroupMemberships;
  groupPerms ← fold_each (fun (out : gmap Z (gset string)) g =>
    perms ← or_nil (db (ListPermissionGroupPermissions (pg_ID g)));
    mret (<[pg_ID g := list_to_set perms]> out)) ∅ groups;
  mret (order_by row_le (map (matrix_row groups users userMembership groupPerms) PermissionCatalog)).

(* ------------------------------------------------------------------ *)
(** ** Passwords *)

(** The row of a user with a new password. *)
Definition with_password (hash : string) (now : time) (u : User) : User :=
  u <| u_PasswordHash := hash |> <| u_UpdatedAt := now |>.

Section passwords.
Context {IDKey : bytes -> bytes -> Z -> Z -> Z -> Z -> bytes} `{!KeyDerivation IDKey}.

(** The account accepts the password and, apart from a collision of the derived
    keys, no other. *)
Definition accepts (password : string) (u : User) : Prop :=
  exists salt, is_bytes salt /\ forall attempt,
    VerifyPassword IDKey attempt (u_PasswordHash u) = bool_decide (derived (IDKey := IDKey) salt attempt = derived (IDKey := IDKey) salt password).

Lemma accepts_itself password u : accepts password u -> VerifyPassword IDKey password (u_PasswordHash u) = true.
Proof. intros (salt & _ & H). rewrite H. by apply bool_decide_eq_true_2. Qed.

Lemma store_password_wp userID password s :
  wp (store_password IDKey userID password) (fun r s' => match r with
    | Ok _ => exists hash, t_users (e_db (s_env s')) = alter (with_password hash (e_now (s_env s))) userID (t_users (e_db (s_env s))) /\
                forall u, accepts password (with_password hash (e_now (s_env s)) u)
    | Err _ => t_users (e_db (s_env s')) = t_users (e_db (s_env s))
    end) s.
Proof.
  unfold store_password. apply wp_bind, wp_hash; [|done]. intros e' salt Hs [Hd Hn]. cbv beta iota.
  apply wp_db. unfold SetUserPasswordHashByID. apply wp_bind, wp_gets, wp_exec; intros fs; simpl; rewrite ?Hd, ?Hn; [done|].
  exists (HashPassword IDKey password salt DefaultArgonConfig). split; [done|]. intros u. exists salt. split; [done|].
  intros attempt. simpl. by apply default_hash_check.
Qed.

(** A user changes his own password only with the old one, and to one of at least
    ten bytes: then his account accepts the new password (and no other, apart
    from a collision of the derived keys) and the other accounts are as they were;
    after an error every account is. *)
Theorem own_password_change userID current new s r s' :
  ChangeOwnPassword IDKey userID current new s = (r, s') ->
  let users := t_users (e_db (s_env s)) in let users' := t_users (e_db (s_env s')) in
  match r with
  | Ok _ => exists u u', users !! userID = Some u /\ VerifyPassword IDKey current (u_PasswordHash u) = true /\ 10 <= len new /\
              users' !! userID = Some u' /\ accepts new u' /\ forall k, k <> userID -> users' !! k = users !! k
  | Err _ => users' = users
  end.
Proof.
  revert r s'. cbv zeta. apply wp_runs. unfold ChangeOwnPassword, check_length.
  apply wp_bind, wp_fail_if; [done|]. intros _. apply wp_bind, wp_fail_if; [done|]. intros Hl.
  apply wp_bind, wp_db. apply wp_query_row; intros fs; [done| |done]. intros u Hu. simpl in Hu.
  apply wp_bind, wp_fail_if; [done|]. intros Hv. cbv beta iota.
  eapply wp_mono; [apply store_password_wp|]. intros [[]|x] s2 H2; [|exact H2].
  destruct H2 as (hash & E & Ha). simpl in E. exists u, (with_password hash (e_now (s_env s)) u).
  split_and!; [exact Hu|by apply negb_false_iff|unfold MinPasswordLength in Hl; lia| |apply Ha|].
  - rewrite E. by rewrite lookup_alter_eq, Hu.
  - intros k Hk. rewrite E. by rewrite lookup_alter_ne.
Qed.
End passwords.

(* ------------------------------------------------------------------ *)
(** ** Password resets *)

Lemma reset_token_plain raw : is_bytes raw -> TrimSpace (reset_token raw) = reset_token raw /\ reset_token raw <> "".
Proof.
  intros Hr. split; [|done]. apply TrimSpace_all. unfold reset_token. rewrite all_chars_app.
  apply (symbols_all _ 64); [vm_compute; reflexivity|]. by apply b64_digits_range.
Qed.

Definition reset_ttl (ttl : duration) : duration := if ttl <=? 0 then 30 * Minute else ttl.

(** What issuing a token leaves: a row under the hash of the token, for a user
    that exists. *)
Lemma create_reset_wp username ttl s :
  wp (CreatePasswordResetToken username ttl) (fun r s' => forall token, r = Ok token ->
    t_users (e_db (s_env s')) = t_users (e_db (s_env s)) /\ TrimSpace token = token /\ token <> "" /\
    exists u, user_by_name (TrimSpace username) (e_db (s_env s)) = Some u /\ is_Some (t_users (e_db (s_env s)) !! u_ID u) /\
      t_password_reset_tokens (e_db (s_env s')) !! sha256_hex token =
        Some (mkResetToken (u_ID u) (Add (e_now (s_env s)) (reset_ttl ttl)) None (e_now (s_env s)))) s.
Proof.
  unfold CreatePasswordResetToken. cbv zeta. apply wp_bind, wp_fail_if; [done|]. intros _.
  apply db_bind, wp_query_row; intros fs; [done| |done]. intros u Hu. simpl in Hu.
  apply wp_bind, random_bytes_wp; [|done]. intros e1 raw Hraw _ Hd Hn _. simpl in Hd, Hn.
  apply db_bind, wp_gets. apply db_bind. unfold StoreUsers.CreatePasswordResetToken. apply wp_bind, wp_gets.
  apply wp_exec_checked; intros fs2; [done| |done]. intros Hok. apply wp_ret. intros token [= <-]. simpl.
  destruct (reset_token_plain raw Hraw) as [Ht Hne]. bool_facts. simpl in *. rewrite Hd, Hn in *. split_and!; [done|exact Ht|exact Hne|].
  exists u. split_and!; [done|done|]. by rewrite lookup_insert_eq.
Qed.

Section resets.
Context {IDKey : bytes -> bytes -> Z -> Z -> Z -> Z -> bytes} `{!KeyDerivation IDKey}.

Lemma consume_wp token password s :
  wp (ConsumePasswordResetToken IDKey token password) (fun r s' =>
    let users := t_users (e_db (s_env s)) in let users' := t_users (e_db (s_env s')) in
    let h := sha256_hex (TrimSpace token) in
    match r with
    | Ok _ => exists row hash, t_password_reset_tokens (e_db (s_env s)) !! h = Some row /\ rt_used_at row = None /\
                e_now (s_env s) <= rt_expires_at row /\ 10 <= len password /\
                users' = alter (with_password hash (e_now (s_env s))) (rt_user_id row) users /\
                (forall u, accepts (IDKey := IDKey) password (with_password hash (e_now (s_env s)) u)) /\
                exists used, t_password_reset_tokens (e_db (s_env s')) !! h = Some used /\ is_Some (rt_used_at used)
    | Err _ => users' = users
    end) s.
Proof.
  unfold ConsumePasswordResetToken, check_length, StoreUsers.ConsumePasswordResetToken. cbv zeta.
  apply wp_bind, wp_fail_if; [done|]. intros _. apply wp_bind, wp_fail_if; [done|]. intros Hl.
  apply db_bind, wp_bind, wp_query_row; intros fs; [done| |done]. intros row Hrow. simpl in Hrow.
  apply wp_bind, wp_fail_if; [done|]. intros Hu. apply wp_bind, wp_gets. apply wp_bind, wp_fail_if; [done|]. intros Hx.
  apply wp_bind, wp_exec; intros fs2; [done|]. apply wp_ret. unfold After in Hx. simpl in Hx. bool_facts.
  set (s2 := s <| s_env := _ |>).
  assert (Hk : keeps (on_env (same t_password_reset_tokens)) (store_password IDKey (rt_user_id row) password)).
  { unfold store_password, SetUserPasswordHashByID. apply keeps_bind; [typeclasses eauto|apply keeps_hash|].
    intros hash. apply keeps_db. keeps_db. }
  eapply wp_mono; [apply wp_and; [apply (store_password_wp (IDKey := IDKey))|apply keeps_wp, Hk]|].
  intros [[]|x] s3 [H3 [Ht _]]; [|exact H3]. destruct H3 as (hash & E & Ha). exists row, hash.
  split_and!; [done| |lia|unfold MinPasswordLength in Hl; lia|exact E|exact Ha|].
  - destruct (rt_used_at row); [|done]. exfalso. apply Hu. eauto.
  - rewrite Ht. simpl. rewrite lookup_alter_eq, Hrow. simpl. eauto.
Qed.

(** A password is reset only with a token that was issued, is unused and has not
    expired, to one of at least ten bytes: then the account of the token accepts
    the new password (and no other, apart from a collision of the derived keys)
    and the other accounts are as they were; after an error every account is. *)
Theorem password_reset_sound token password s r s' :
  ConsumePasswordResetToken IDKey token password s = (r, s') ->
  let users := t_users (e_db (s_env s)) in let users' := t_users (e_db (s_env s')) in
  match r with
  | Ok _ => exists row, t_password_reset_tokens (e_db (s_env s)) !! sha256_hex (TrimSpace token) = Some row /\
              rt_used_at row = None /\ e_now (s_env s) <= rt_expires_at row /\ 10 <= len password /\
              (forall u, users !! rt_user_id row = Some u -> exists u', users' !! rt_user_id row = Some u' /\ accepts (IDKey := IDKey) password u') /\
              forall k, k <> rt_user_id row -> users' !! k = users !! k
  | Err _ => users' = users
  end.
Proof.
  intros Hrun users users'. pose proof (wp_run _ _ _ _ _ (consume_wp token password s) Hrun) as H.
  destruct r as [[]|x]; [|exact H]. destruct H as (row & hash & H1 & H2 & H3 & H4 & H5 & H6 & _). exists row.
  split_and!; [done..| |]; unfold users', users; cbv zeta in H5; rewrite H5.
  - intros u Hu. exists (with_password hash (e_now (s_env s)) u). split; [|apply H6]. by rewrite lookup_alter_eq, Hu.
  - intros k Hk. by rewrite lookup_alter_ne.
Qed.

(** C13. A token can be used as soon as it is issued and until it expires, for the
    account it was issued for, and only once: with it the password is set, and
    every later attempt with the token fails, whatever the driver does. *)
Theorem password_reset_works username ttl password s token s1 now b rnd :
  CreatePasswordResetToken username ttl s = (Ok token, s1) -> 10 <= len password ->
  now <= Add (e_now (s_env s)) (reset_ttl ttl) ->
  exists u u' s3, user_by_name (TrimSpace username) (e_db (s_env s)) = Some u /\
    ConsumePasswordResetToken IDKey token password (s1 <| s_env := mkEnv (e_db (s_env s1)) now [] (b :: rnd) |>) = (Ok tt, s3) /\
    t_users (e_db (s_env s3)) !! u_ID u = Some u' /\ accepts (IDKey := IDKey) password u' /\
    forall now' faults rnd' attempt,
      is_ok (ConsumePasswordResetToken IDKey token attempt (s3 <| s_env := mkEnv (e_db (s_env s3)) now' faults rnd' |>)).1 = false.
Proof.
  intros Hrun Hlen Hnow. destruct (wp_run _ _ _ _ _ (create_reset_wp username ttl s) Hrun token eq_refl)
    as (Hus & Htrim & Hne & u & Hu & [u0 Hu0] & Hrow).
  set (s2 := s1 <| s_env := _ |>). exists u.
  assert (Hok : is_ok (ConsumePasswordResetToken IDKey token password s2).1 = true).
  { unfold ConsumePasswordResetToken, check_length, StoreUsers.ConsumePasswordResetToken. cbv zeta. rewrite Htrim.
    unfold fail_if at 1. rewrite (proj2 (String.eqb_neq _ _) Hne). unfold fail_if at 1.
    rewrite (proj2 (Z.ltb_ge _ _)) by exact Hlen. simpl. unfold query_row, query, stmt, mbind, M_bind, s2, db, zoom. simpl.
    rewrite Hrow. simpl. unfold After. simpl. rewrite (proj2 (Z.ltb_ge _ _)) by exact Hnow. simpl. done. }
  destruct (ConsumePasswordResetToken IDKey token password s2) as [r s3] eqn:E. destruct r as [[]|x]; [|done].
  destruct (wp_run _ _ _ _ _ (consume_wp token password s2) E) as (row & hash & H1 & _ & _ & _ & H5 & H6 & H7).
  rewrite Htrim in *. unfold s2 in H1. simpl in H1. rewrite Hrow in H1. injection H1 as <-. simpl in H5. rewrite Hus in H5.
  exists (with_password hash now u0), s3. split_and!; [exact Hu|done|by rewrite H5, lookup_alter_eq, Hu0|apply H6|].
  intros now' faults rnd' attempt. set (s4 := s3 <| s_env := _ |>).
  destruct (ConsumePasswordResetToken IDKey token attempt s4) as [[[]|x] s5] eqn:E4; [|done]. exfalso.
  destruct (wp_run _ _ _ _ _ (consume_wp token attempt s4) E4) as (row & _ & G1 & G2 & _). rewrite Htrim in G1.
  destruct H7 as (used & G3 & G4). simpl in G1. rewrite G3 in G1. injection G1 as <-. rewrite G2 in G4. by destruct G4.
Qed.
End resets.

(** One account, with the password "correct horse". *)
Definition accounts_demo : Svc :=
  new_svc (mkEnv (empty_DB <| t_users := {[7 := new_user 7 "ann" "admin" "local" "" false
      (HashPassword toy_derivation "correct horse" (repeat 3 16) DefaultArgonConfig) 0]} |>)
    (100 * Hour) [] ["random bytes, thirty-two of them."; "sixteen of salt.."]) None.

Lemma own_password_change_witness :
  exists r s', ChangeOwnPassword toy_derivation 7 "correct horse" "battery staple" accounts_demo = (r, s') /\ r = Ok tt /\
    (exists u', t_users (e_db (s_env s')) !! 7 = Some u' /\ accepts (IDKey := toy_derivation) "battery staple" u') /\
    is_ok (ChangeOwnPassword toy_derivation 7 "wrong horse" "battery staple" accounts_demo).1 = false.
Proof.
  destruct (ChangeOwnPassword toy_derivation 7 "correct horse" "battery staple" accounts_demo) as [r s'] eqn:E.
  assert (Hr : r = Ok tt) by (change r with (r, s').1; rewrite <- E; vm_compute; reflexivity). subst r.
  exists (Ok tt), s'. split; [done|]. split; [done|]. split; [|vm_compute; reflexivity].
  destruct (own_password_change 7 "correct horse" "battery staple" accounts_demo (Ok tt) s' E) as (u & u' & _ & _ & _ & Hu' & Ha & _).
  exists u'. split; [exact Hu'|exact Ha].
Defined.

Lemma password_reset_sound_witness :
  exists r s', ConsumePasswordResetToken toy_derivation "prt_guess" "battery staple" accounts_demo = (r, s') /\
    t_users (e_db (s_env s')) = t_users (e_db (s_env accounts_demo)).
Proof.
  destruct (ConsumePasswordResetToken toy_derivation "prt_guess" "battery staple" accounts_demo) as [r s'] eqn:E.
  exists r, s'. split; [done|].
  assert (Hr : is_ok r = false) by (change r with (r, s').1; rewrite <- E; vm_compute; reflexivity).
  pose proof (password_reset_sound "prt_guess" "battery staple" accounts_demo r s' E) as H. by destruct r.
Defined.

Lemma password_reset_works_witness :
  exists token s1, CreatePasswordResetToken " ann" 0 accounts_demo = (Ok token, s1) /\
    exists u', (exists s3, ConsumePasswordResetToken toy_derivation token "battery staple"
        (s1 <| s_env := mkEnv (e_db (s_env s1)) (100 * Hour + 29 * Minute) [] ["salt"] |>) = (Ok tt, s3) /\
      t_users (e_db (s_env s3)) !! 7 = Some u') /\ accepts (IDKey := toy_derivation) "battery staple" u'.
Proof.
  destruct (CreatePasswordResetToken " ann" 0 accounts_demo) as [r s1] eqn:E.
  assert (Hr : exists token, r = Ok token).
  { assert (Hok : is_ok r = true) by (change r with (r, s1).1; rewrite <- E; vm_compute; reflexivity). destruct r; [eauto|done]. }
  destruct Hr as [token ->]. exists token, s1. split; [done|].
  destruct (password_reset_works (IDKey := toy_derivation) " ann" 0 "battery staple" accounts_demo token s1 (100 * Hour + 29 * Minute) "salt" [] E)
    as (u & u' & s3 & Hu & Hc & Hrow & Ha & _); [vm_compute; discriminate|vm_compute; discriminate|].
  assert (Hid : u_ID u = 7) by (vm_compute in Hu; injection Hu as <-; reflexivity). rewrite Hid in Hrow.
  exists u'. split; [by exists s3|exact Ha].
Defined.

(* ------------------------------------------------------------------ *)
(** ** The second factor *)

Section factors.
Context {IDKey : bytes -> bytes -> Z -> Z -> Z -> Z -> bytes}.
Context {Seal : bytes -> bytes -> bytes -> bytes} {Open : bytes -> bytes -> bytes -> option bytes} `{!AEAD Seal Open}.

(** A code of the authenticator of the user, or one of his unused recovery codes. *)
Definition proves_factor (userID : Z) (u : User) (code : string) (s : Svc) : Prop :=
  (exists secret, Decrypt Open (s_keystore s) (TrimSpace (u_MFASecretEnc u)) = Ok secret /\
     ValidateTOTP secret (TrimSpace code) (e_now (s_env s)) = true) \/
  t_user_mfa_recovery_codes (e_db (s_env s)) !! (userID, TrimSpace (HashRecoveryCode (TrimSpace code))) = Some None.

Definition without_factor (now : time) (u : User) : User :=
  u <| u_MFAEnabled := false |> <| u_MFASecretEnc := "" |> <| u_MFAEnrolled := 0 |> <| u_IPCheckOff := false |> <| u_UpdatedAt := now |>.

Lemma totp_allowed_run u code s :
  totp_allowed Open u code s = (Ok (negb (String.eqb (TrimSpace (u_MFASecretEnc u)) "") &&
    match Decrypt Open (s_keystore s) (TrimSpace (u_MFASecretEnc u)) with
    | Ok secret => ValidateTOTP secret code (e_now (s_env s)) | Err _ => false end), s).
Proof.
  unfold totp_allowed. cbv zeta. destruct (String.eqb (TrimSpace (u_MFASecretEnc u)) ""); [done|].
  cbn [negb andb]. unfold try_, decrypt, mbind, M_bind, gets, lift, db, zoom, mret, M_ret. simpl.
  by destruct s.
Qed.

Lemma consume_code_wp userID h e : wp (ConsumeUserMFARecoveryCode userID h) (fun r e' =>
  same t_users e e' /\ (r = Ok true -> t_user_mfa_recovery_codes (e_db e) !! (userID, TrimSpace h) = Some None)) e.
Proof.
  unfold ConsumeUserMFARecoveryCode. apply wp_bind, wp_gets. cbv zeta. apply wp_bind, wp_query; intros fs; [done|].
  apply wp_bind, wp_modify, wp_ret. split.
  - split; [|done]. simpl. by destruct (code_unused _ _ _).
  - intros [= Hc]. simpl in Hc. unfold code_unused in Hc. by destruct (t_user_mfa_recovery_codes (e_db e) !! _) as [[]|].
Qed.

Lemma reset_mfa_wp userID e : wp (ResetUserMFA userID) (fun r e' => match r with
  | Ok _ => t_users (e_db e') = alter (without_factor (e_now e)) userID (t_users (e_db e))
  | Err _ => e_db e' = e_db e end) e.
Proof.
  apply (wp_transaction_cases _ (fun _ d => t_users d = alter (without_factor (e_now e)) userID (t_users (e_db e)))).
  intros fs. apply wp_bind, wp_gets. apply wp_bind, wp_exec; intros fs2; [done|]. by apply wp_exec.
Qed.

Lemma keeps_recovery_codes {T} (p : DB -> T) n : keeps (on_env (same p)) (GenerateRecoveryCodes n).
Proof.
  unfold GenerateRecoveryCodes. apply keeps_map_each.
  - typeclasses eauto.
  - intros k. apply keeps_bind.
    + typeclasses eauto.
    + apply keeps_random_db.
    + intros raw. apply keeps_ret, _.
Qed.

Lemma keeps_users_replace userID hashes : keeps (same t_users) (ReplaceUserMFARecoveryCodes userID hashes).
Proof. unfold ReplaceUserMFARecoveryCodes, clear_codes. keeps_db. Qed.

Lemma start_wp userID name s :
  wp (StartOwnMFAEnrollment Seal userID name) (fun r s' => forall st, r = Ok st ->
    s_keystore s' = s_keystore s /\ exists u enc, t_users (e_db (s_env s)) !! userID = Some u /\
      Decrypt Open (s_keystore s) enc = Ok (me_Secret st) /\ TrimSpace enc = enc /\
      t_users (e_db (s_env s')) !! userID = Some (u <| u_MFAEnabled := false |> <| u_MFASecretEnc := enc |>
        <| u_MFAEnrolled := 0 |> <| u_UpdatedAt := e_now (s_env s) |>)) s.
Proof.
  unfold StartOwnMFAEnrollment. apply db_bind, wp_query_row; intros fs; [done| |done]. intros u Hu. simpl in Hu.
  apply wp_bind, random_bytes_wp; [|done]. intros e1 raw _ _ Hd1 Hn1 _. cbv zeta.
  apply wp_bind. apply (wp_encrypt Seal Open); [|done]. intros e2 enc Hdec Htrim Hd2 Hn2 _.
  apply db_bind. unfold SetUserMFAState. apply wp_bind, wp_gets, wp_exec; intros fs2; [done|].
  apply db_bind, wp_gets, wp_ret. intros st [= <-]. simpl in *. split; [done|]. exists u, enc. split_and!; [done|done|done|].
  rewrite Hd2, Hd1, lookup_alter_eq, Hu, Htrim, Hn2, Hn1. done.
Qed.

(** C12. The page that ends the second factor of a user ([DisableOwnMFA]) ends it only with
    his password and a code: one of his authenticator or an unused recovery code; after
    an error all accounts are as they were.  The page that starts a new enrolment
    ([StartOwnMFAEnrollment]) ends it as well and asks for neither: the account is
    without the factor from then on, with the secret that page has just shown. *)
Theorem second_factor_removal userID password code name s r s' u :
  DisableOwnMFA IDKey Open userID password code s = (r, s') ->
  t_users (e_db (s_env s)) !! userID = Some u -> u_MFAEnabled u = true ->
  match r with
  | Ok _ => VerifyPassword IDKey password (u_PasswordHash u) = true /\ proves_factor userID u code s /\
              t_users (e_db (s_env s')) = alter (without_factor (e_now (s_env s))) userID (t_users (e_db (s_env s)))
  | Err _ => t_users (e_db (s_env s')) = t_users (e_db (s_env s))
  end /\
  forall st s2, StartOwnMFAEnrollment Seal userID name s = (Ok st, s2) -> exists enc,
    Decrypt Open (s_keystore s) enc = Ok (me_Secret st) /\
    t_users (e_db (s_env s2)) !! userID = Some (u <| u_MFAEnabled := false |> <| u_MFASecretEnc := enc |>
      <| u_MFAEnrolled := 0 |> <| u_UpdatedAt := e_now (s_env s) |>).
Proof.
  intros Hrun Hu Hm. split; [|intros st s2 Hst; pose proof (wp_run _ _ _ _ _ (start_wp userID name s) Hst st eq_refl) as H;
    destruct H as (_ & u' & enc & Hu' & Hdec & _ & Hrow); rewrite Hu in Hu'; injection Hu' as <-; by exists enc].
  revert r s' Hrun. apply wp_runs. unfold DisableOwnMFA.
  apply db_bind, wp_query_row; intros fs; [done| |done]. intros v Hv. simpl in Hv. rewrite Hu in Hv. injection Hv as <-.
  rewrite Hm. cbn [negb]. cbv zeta. apply wp_bind, wp_fail_if; [done|]. intros Hp. apply wp_bind, wp_fail_if; [done|]. intros _.
  apply wp_bind. unfold wp at 1. rewrite totp_allowed_run. cbv beta iota. set (s1 := s <| s_env := _ |>).
  assert (H1 : s_keystore s1 = s_keystore s /\ e_db (s_env s1) = e_db (s_env s) /\ e_now (s_env s1) = e_now (s_env s)) by by destruct s.
  destruct H1 as (Hkey & Hdb & Hnow). clearbody s1. rewrite Hkey, Hnow.
  set (totp := negb (String.eqb (TrimSpace (u_MFASecretEnc u)) "") && _). apply negb_false_iff in Hp.
  assert (Hlast : forall s2 : Svc, proves_factor userID u code s -> t_users (e_db (s_env s2)) = t_users (e_db (s_env s)) ->
    e_now (s_env s2) = e_now (s_env s) -> wp (db (ResetUserMFA userID)) (fun r s' => match r with
      | Ok _ => VerifyPassword IDKey password (u_PasswordHash u) = true /\ proves_factor userID u code s /\
          t_users (e_db (s_env s')) = alter (without_factor (e_now (s_env s))) userID (t_users (e_db (s_env s)))
      | Err _ => t_users (e_db (s_env s')) = t_users (e_db (s_env s)) end) s2).
  { intros s2 Hf Ht Hn. apply wp_db. eapply wp_mono; [apply reset_mfa_wp|]. intros [[]|x] e'; simpl; intros ->; rewrite ?Hn, ?Ht; done. }
  destruct totp eqn:Ht; cbn [negb andb].
  - apply wp_bind, wp_ret. cbn [fail_if negb]. apply wp_bind, wp_ret. apply Hlast; [|by rewrite Hdb|done].
    left. subst totp. apply andb_prop in Ht as [_ Ht]. destruct (Decrypt Open _ _) as [secret|]; [by exists secret|done].
  - destruct (IsRecoveryCodeFormat (TrimSpace code)).
    + apply wp_bind, wp_bind, wp_try, wp_db. eapply wp_mono; [apply consume_code_wp|]. intros r e' [[Hsu Hsn] Hr]. apply wp_ret.
      rewrite Hdb in Hsu. rewrite Hnow in Hsn.
      apply wp_bind, wp_fail_if; [intros _; simpl; by rewrite Hsu|]. intros Hb. apply Hlast; simpl; [|by rewrite Hsu|done].
      right. rewrite <- Hdb. apply Hr. destruct r as [[]|]; done.
    + apply wp_bind, wp_ret. apply wp_bind, wp_fail_if; [|done]. intros _. by rewrite Hdb.
Qed.

Lemma decrypt_run c s : decrypt Open c s = (Decrypt Open (s_keystore s) c, s).
Proof. done. Qed.

Lemma Decrypt_blank key plain : Decrypt Open key "" <> Ok plain.
Proof. unfold Decrypt. simpl. by destruct (negb _). Qed.

Lemma confirm_wp userID otp s u secret :
  t_users (e_db (s_env s)) !! userID = Some u -> TrimSpace (u_MFASecretEnc u) = u_MFASecretEnc u ->
  Decrypt Open (s_keystore s) (u_MFASecretEnc u) = Ok secret -> e_faults (s_env s) = [] ->
  wp (ConfirmOwnMFAEnrollment Open userID otp) (fun r s' =>
    if ValidateTOTP secret otp (e_now (s_env s))
    then exists u', t_users (e_db (s_env s')) !! userID = Some u' /\ u_MFAEnabled u' = true /\ u_MFASecretEnc u' = u_MFASecretEnc u
    else r = Err (ErrText "invalid otp code") /\ s' = s) s.
Proof.
  intros Hu Ht Hd Hf. unfold ConfirmOwnMFAEnrollment, GetUserByID. apply (calm_query_row_wp s Hf _ _ _ u Hu).
  apply wp_bind, wp_fail_if; [intros E%String.eqb_eq|intros _].
  { rewrite Ht in E. rewrite E in Hd. by apply Decrypt_blank in Hd. }
  apply wp_bind, wp_try. unfold wp at 1. rewrite decrypt_run, Hd. apply wp_bind. unfold wp at 1. rewrite db_now_end.
  apply wp_bind, wp_fail_if; [intros ->%negb_true_iff; done|intros ->%negb_false_iff].
  unfold SetUserMFAState. apply wp_bind, wp_db. apply wp_bind, wp_gets. unfold wp at 1.
  assert (E : forall f, exec f (s_env s) = (Ok tt, (s_env s) <| e_db ::= f |>)) by (intros f; by destruct (s_env s); simpl in Hf; subst).
  rewrite E. cbv beta iota. set (s1 := s <| s_env := _ |>).
  assert (H1 : exists u', t_users (e_db (s_env s1)) !! userID = Some u' /\ u_MFAEnabled u' = true /\ u_MFASecretEnc u' = u_MFASecretEnc u)
    by (eexists; simpl; rewrite lookup_alter_eq, Hu; simpl; split_and!; [done|done|exact Ht]).
  eapply (wp_keeps (on_env (same t_users))); [|intros r s' [-> _]; exact H1].
  apply keeps_bind; [typeclasses eauto|apply keeps_recovery_codes|intros codes].
  apply keeps_bind; [typeclasses eauto|apply keeps_db, keeps_users_replace|intros []; apply keeps_ret, _].
Qed.

(** Starting an enrollment replaces the secret and turns the second factor off;
    it takes a code of the new secret to turn it on again, and the secret stored
    is the one the user was shown: with a code that is valid for it the account
    is protected by it, with any other code nothing changes. *)
Theorem enrollment_round_trip userID name s st s1 otp now rnd r s2 :
  StartOwnMFAEnrollment Seal userID name s = (Ok st, s1) ->
  ConfirmOwnMFAEnrollment Open userID otp (s1 <| s_env := mkEnv (e_db (s_env s1)) now [] rnd |>) = (r, s2) ->
  let users1 := t_users (e_db (s_env s1)) in let users2 := t_users (e_db (s_env s2)) in
  exists u1, users1 !! userID = Some u1 /\ u_MFAEnabled u1 = false /\
    Decrypt Open (s_keystore s) (TrimSpace (u_MFASecretEnc u1)) = Ok (me_Secret st) /\
    if ValidateTOTP (me_Secret st) otp now
    then exists u2, users2 !! userID = Some u2 /\ u_MFAEnabled u2 = true /\ u_MFASecretEnc u2 = u_MFASecretEnc u1
    else r = Err (ErrText "invalid otp code") /\ users2 = users1.
Proof.
  intros Hstart Hconf users1 users2.
  destruct (wp_run _ _ _ _ _ (start_wp userID name s) Hstart st eq_refl) as (Hk & u & enc & _ & Hdec & Htrim & Hu1).
  fold users1 in Hu1. set (u1 := u <| u_MFAEnabled := false |> <| u_MFASecretEnc := enc |> <| u_MFAEnrolled := 0 |> <| u_UpdatedAt := _ |>) in Hu1.
  exists u1. split; [exact Hu1|]. split; [done|]. split; [change (u_MFASecretEnc u1) with enc; by rewrite Htrim|]. rewrite <- Hk in Hdec.
  set (s1' := s1 <| s_env := _ |>) in Hconf.
  pose proof (wp_run _ _ _ _ _ (confirm_wp userID otp s1' u1 (me_Secret st) Hu1 Htrim Hdec eq_refl) Hconf) as H. simpl in H.
  destruct (ValidateTOTP _ _ _); [exact H|]. destruct H as [-> ->]. done.
Qed.
End factors.

Definition factor_demo : Svc :=
  new_svc_with (mkConfig "" "" "" false) (repeat 7 32) "" ""
    (mkEnv (empty_DB <| t_users := {[7 := new_user 7 "ann" "admin" "local" "" false
      (HashPassword toy_derivation "correct horse" (repeat 3 16) DefaultArgonConfig) 0]} |>)
      (rfc_time 1111111109) [] ["12345678901234567890"; "nonce bytes."]) None.

Definition ten_codes : list string := ["code01"; "code02"; "code03"; "code04"; "code05"; "code06"; "code07"; "code08"; "code09"; "code10"].

(** The code 081804 is the one of RFC 6238 for that secret and time. *)
Lemma enrollment_round_trip_witness :
  exists st s1 r s2, StartOwnMFAEnrollment toy_seal 7 "" factor_demo = (Ok st, s1) /\
    me_Account st = "ann" /\
    ConfirmOwnMFAEnrollment toy_open 7 "081 804" (s1 <| s_env := mkEnv (e_db (s_env s1)) (rfc_time 1111111109) [] ten_codes |>) = (r, s2) /\
    is_ok r = true /\ exists u2, t_users (e_db (s_env s2)) !! 7 = Some u2 /\ u_MFAEnabled u2 = true.
Proof.
  destruct (StartOwnMFAEnrollment toy_seal 7 "" factor_demo) as [r1 s1] eqn:E1.
  assert (H1 : exists st, r1 = Ok st).
  { assert (Hok : is_ok r1 = true) by (change r1 with (r1, s1).1; rewrite <- E1; vm_compute; reflexivity). destruct r1; [eauto|done]. }
  destruct H1 as [st ->].
  assert (Hst : me_Secret st = GenerateSecret (bytes_of "12345678901234567890") /\ me_Account st = "ann").
  { assert (Hs : (Ok st, s1).1 = (StartOwnMFAEnrollment toy_seal 7 "" factor_demo).1) by by rewrite E1.
    vm_compute in Hs. injection Hs as ->. split; vm_compute; reflexivity. }
  set (e := mkEnv (e_db (s_env s1)) (rfc_time 1111111109) [] ten_codes).
  destruct (ConfirmOwnMFAEnrollment toy_open 7 "081 804" (s1 <| s_env := e |>)) as [r s2] eqn:E2.
  exists st, s1, r, s2. split; [done|]. split; [apply Hst|]. split; [done|].
  destruct (enrollment_round_trip 7 "" factor_demo st s1 "081 804" (rfc_time 1111111109) ten_codes r s2 E1 E2)
    as (u1 & _ & _ & _ & H). rewrite (proj1 Hst) in H.
  assert (Hv : ValidateTOTP (GenerateSecret (bytes_of "12345678901234567890")) "081 804" (rfc_time 1111111109) = true) by (vm_compute; reflexivity).
  rewrite Hv in H. destruct H as (u2 & H2 & H3 & _). split; [|exists u2; split; [exact H2|exact H3]].
  assert (Es1 : (s1, tt) = ((StartOwnMFAEnrollment toy_seal 7 "" factor_demo).2, tt)) by by rewrite E1. injection Es1 as Es1.
  change r with (r, s2).1. rewrite <- E2. unfold e. rewrite Es1. vm_compute. reflexivity.
Defined.

Definition protected_demo : Svc :=
  factor_demo <| s_env ::= fun e => e <| e_db ::= fun d => d
    <| t_users ::= alter (fun u => u <| u_MFAEnabled := true |>) 7 |>
    <| t_user_mfa_recovery_codes := {[(7, sha256_hex "ABCD12345678") := None]} |> |> |>.

Lemma second_factor_removal_witness :
  exists r s', DisableOwnMFA toy_derivation toy_open 7 "correct horse" "abcd-1234-5678" protected_demo = (r, s') /\ r = Ok tt /\
    VerifyPassword toy_derivation "correct horse" (HashPassword toy_derivation "correct horse" (repeat 3 16) DefaultArgonConfig) = true /\
    is_ok (DisableOwnMFA toy_derivation toy_open 7 "correct horse" "abcd-1234-5679" protected_demo).1 = false /\
    is_ok (DisableOwnMFA toy_derivation toy_open 7 "wrong horse" "abcd-1234-5678" protected_demo).1 = false /\
    exists st s2, StartOwnMFAEnrollment toy_seal 7 "" protected_demo = (Ok st, s2) /\
      (u_MFAEnabled <$> t_users (e_db (s_env s2)) !! 7) = Some false.
Proof.
  destruct (DisableOwnMFA toy_derivation toy_open 7 "correct horse" "abcd-1234-5678" protected_demo) as [r s'] eqn:E.
  assert (Hr : r = Ok tt) by (change r with (r, s').1; rewrite <- E; vm_compute; reflexivity). subst r.
  destruct (StartOwnMFAEnrollment toy_seal 7 "" protected_demo) as [r2 s2] eqn:E2.
  assert (Hst : exists st, r2 = Ok st).
  { assert (Hok : is_ok r2 = true) by (change r2 with (r2, s2).1; rewrite <- E2; vm_compute; reflexivity). destruct r2; [eauto|done]. }
  destruct Hst as [st ->]. exists (Ok tt), s'. split; [done|]. split; [done|].
  destruct (t_users (e_db (s_env protected_demo)) !! 7) as [u|] eqn:Eu; [|vm_compute in Eu; done].
  assert (Hm : u_MFAEnabled u = true /\ u_PasswordHash u = HashPassword toy_derivation "correct horse" (repeat 3 16) DefaultArgonConfig)
    by (vm_compute in Eu; injection Eu as <-; split; vm_compute; reflexivity).
  destruct (second_factor_removal (Seal := toy_seal) 7 "correct horse" "abcd-1234-5678" "" protected_demo (Ok tt) s' u E Eu (proj1 Hm)) as ((Hv & _) & Hs).
  rewrite (proj2 Hm) in Hv. split; [exact Hv|]. split; [vm_compute; reflexivity|]. split; [vm_compute; reflexivity|].
  exists st, s2. split; [done|]. destruct (Hs st s2 E2) as (enc & _ & Hrow). by rewrite Hrow.
Defined.

(* ------------------------------------------------------------------ *)
(** ** What a group can grant *)

Definition perms_known (d : DB) : Prop := forall id p, (id, p) ∈ t_permission_group_entries d -> p ∈ allPermissionKeys.

(** A system group is one of the templates of the source, permission by permission. *)
Definition templates_exact (d : DB) : Prop := forall id g, t_permission_groups d !! id = Some g -> pg_System g = true ->
  exists t, t ∈ permissionTemplates /\ pg_Name g = pt_Name t /\ pg_Template g = pt_Template t /\
    forall p, (id, p) ∈ t_permission_group_entries d <-> p ∈ pt_Permissions t.

Definition access_ok (d : DB) : Prop := groups_ok d /\ perms_known d /\ templates_exact d.

Lemma keys_normal p : p ∈ allPermissionKeys -> TrimSpace (ToLower p) = p.
Proof.
  intros Hp. assert (Hall : forallb (fun p => String.eqb (TrimSpace (ToLower p)) p) allPermissionKeys = true) by (vm_compute; reflexivity).
  rewrite forallb_forall in Hall. apply String.eqb_eq, Hall. by apply list_elem_of_In.
Qed.

Lemma templates_normal t : t ∈ permissionTemplates ->
  TrimSpace (pt_Name t) = pt_Name t /\ pt_Name t <> "" /\ TrimSpace (pt_Template t) = pt_Template t /\
  dedupPerms (pt_Permissions t) = pt_Permissions t /\ Forall (fun p => p ∈ allPermissionKeys) (pt_Permissions t).
Proof.
  revert t. apply Forall_forall. repeat constructor; cbn [pt_Name pt_Template pt_Permissions]; try (vm_compute; done);
    repeat (apply Forall_cons; split; [by apply (bool_decide_unpack _); vm_compute|]); apply Forall_nil_2.
Qed.

Lemma dedupPerms_known l : Forall (fun p => p ∈ allPermissionKeys) l -> Forall (fun p => p ∈ allPermissionKeys) (dedupPerms l).
Proof.
  rewrite !Forall_forall. intros Hl p (_ & _ & x & Hx & <-)%elem_of_dedup_seen. rewrite keys_normal; by apply Hl.
Qed.

Lemma known_loop_known seen perms out : known_loop seen perms = Ok out -> Forall (fun p => p ∈ allPermissionKeys) out.
Proof.
  revert seen out. induction perms as [|p perms IH]; intros seen out; simpl; [by intros [= <-]|].
  destruct (_ || _); [apply IH|]. destruct (negb _) eqn:Hk; [done|]. apply negb_false_iff, bool_decide_eq_true in Hk.
  destruct (known_loop _ perms) as [out'|] eqn:E; [|done]. intros [= <-]. constructor; [done|]. by apply IH in E.
Qed.

Lemma normalizePermissions_known perms out : normalizePermissions perms = Ok out -> Forall (fun p => p ∈ allPermissionKeys) out.
Proof.
  unfold normalizePermissions. destruct (known_loop ∅ perms) as [l|] eqn:E; [|done]. intros [= <-].
  rewrite order_by_perm. by apply known_loop_known in E.
Qed.

(** A group is added, with the permissions of a template if it is a system group. *)
Lemma access_added name description template system perms now d :
  TrimSpace name <> "" -> name_free (TrimSpace name) 0 d = true -> Forall (fun p => p ∈ allPermissionKeys) (dedupPerms perms) ->
  (system = true -> exists t, t ∈ permissionTemplates /\ TrimSpace name = pt_Name t /\ TrimSpace template = pt_Template t /\
     dedupPerms perms = pt_Permissions t) ->
  access_ok d -> access_ok (group_added name description template system perms now d).
Proof.
  intros Hn Hf Hp Hsys (Hok & Hk & Ht). rewrite Forall_forall in Hp. set (id := next_id "permission_groups" d).
  assert (Hin : forall k p, (k, p) ∈ t_permission_group_entries (group_added name description template system perms now d) <->
    (k = id /\ p ∈ dedupPerms perms) \/ (k, p) ∈ t_permission_group_entries d) by (intros k p; unfold group_added; cbv zeta; by rewrite elem_of_add_entries).
  assert (Hfresh : forall p, (id, p) ∈ t_permission_group_entries d -> False).
  { intros p Hip. destruct (go_entry _ Hok _ _ Hip) as [[g Hg] _]. by apply (no_group_yet d g Hok). }
  split_and!.
  - by apply (group_added_step name description template system perms now d Hn Hf Hok).
  - intros k p [[_ Hip]|Hip]%Hin; [by apply Hp|by eapply Hk].
  - intros k g Hg Hs. change (t_permission_groups (group_added name description template system perms now d))
      with (<[id := new_group_row id name description template system now]> (t_permission_groups d)) in Hg.
    apply lookup_insert_Some in Hg as [[<- <-]|[Hne Hg]].
    + destruct (Hsys Hs) as (t & H1 & H2 & H3 & H4). exists t. split_and!; [done..|]. intros p. rewrite Hin, <- H4.
      split; [|by left]. intros [[_ ?]|Hip]; [done|by destruct (Hfresh p)].
    + destruct (Ht k g Hg Hs) as (t & H1 & H2 & H3 & H4). exists t. split_and!; [done..|]. intros p. rewrite Hin, <- H4.
      split; [|by right]. intros [[-> _]|]; done.
Qed.

Lemma access_changed id name description template perms now d g :
  t_permission_groups d !! id = Some g -> pg_System g = false -> TrimSpace name <> "" -> name_free (TrimSpace name) id d = true ->
  Forall (fun p => p ∈ allPermissionKeys) (dedupPerms perms) ->
  access_ok d -> access_ok (group_changed id name description template perms now d).
Proof.
  intros Hg Hs Hn Hf Hp (Hok & Hk & Ht). rewrite Forall_forall in Hp.
  assert (Hin : forall k p, (k, p) ∈ t_permission_group_entries (group_changed id name description template perms now d) <->
    (k = id /\ p ∈ dedupPerms perms) \/ (k <> id /\ (k, p) ∈ t_permission_group_entries d)).
  { intros k p. unfold group_changed. rewrite elem_of_add_entries. simpl. rewrite elem_of_keep_set. simpl.
    rewrite negb_true_iff, Z.eqb_neq. done. }
  split_and!.
  - by apply (group_changed_step id name description template perms now d g).
  - intros k p [[_ Hip]|[_ Hip]]%Hin; [by apply Hp|by eapply Hk].
  - intros k h Hh Hsys. change (t_permission_groups (group_changed id name description template perms now d))
      with (alter (fun g => g <| pg_Name := TrimSpace name |> <| pg_Description := TrimSpace description |>
              <| pg_Template := TrimSpace template |> <| pg_UpdatedAt := now |>) id (t_permission_groups d)) in Hh.
    apply lookup_alter_Some in Hh as [[<- (g0 & Hg0 & ->)]|[Hne Hh]]; [simpl in Hsys; congruence|].
    destruct (Ht k h Hh Hsys) as (t & H1 & H2 & H3 & H4). exists t. split_and!; [done..|]. intros p. rewrite Hin, <- H4. naive_solver.
Qed.

Lemma access_deleted id d : (exists g, t_permission_groups d !! id = Some g /\ pg_System g = false) ->
  access_ok d -> access_ok (delete_group_rows id d).
Proof.
  intros (g & Hg & Hs) (Hok & Hk & Ht). split_and!.
  - apply (delete_group_step id d); [|done]. intros g0 Hg0. congruence.
  - intros k p Hin. unfold delete_group_rows in Hin. simpl in Hin. apply elem_of_keep_set in Hin as [_ Hin]. by eapply Hk.
  - intros k h Hh Hsys. unfold delete_group_rows in *. simpl in *. apply lookup_delete_Some in Hh as [Hne Hh].
    destruct (Ht k h Hh Hsys) as (t & H1 & H2 & H3 & H4). exists t. split_and!; [done..|]. intros p.
    rewrite elem_of_keep_set, <- H4. simpl. rewrite negb_true_iff, Z.eqb_neq. naive_solver.
Qed.

(** The groups and their permissions stay, and so do the users memberships speak of. *)
Lemma access_same_groups d d' : t_permission_groups d' = t_permission_groups d ->
  t_permission_group_entries d' = t_permission_group_entries d -> group_step d d' -> access_ok d -> access_ok d'.
Proof.
  intros Eg Ee Hstep (Hok & Hk & Ht). split_and!; [by apply Hstep| |].
  - intros id p Hp. rewrite Ee in Hp. by eapply Hk.
  - intros id g Hg Hs. rewrite Eg in Hg. rewrite Ee. by apply Ht.
Qed.

Lemma users_kept_step d d' : t_permission_groups d' = t_permission_groups d ->
  t_permission_group_entries d' = t_permission_group_entries d -> t_user_group_memberships d' = t_user_group_memberships d ->
  last_group_id d' = last_group_id d -> (forall u, is_Some (t_users d !! u) -> is_Some (t_users d' !! u)) -> group_step d d'.
Proof.
  intros Eg Ee Em El Hu [H0 H1 H2 H3 H4 H5]. split.
  - split; rewrite ?Eg, ?Ee, ?Em, ?El; try done. intros k m Hm. destruct (H4 k m Hm) as (? & ? & ? & ?). auto.
  - intros id g Hg Hs. by rewrite Eg, Ee.
Qed.

(** ** The operations on accounts and groups *)

Lemma access_store_create name description template system perms :
  Forall (fun p => p ∈ allPermissionKeys) (dedupPerms perms) ->
  (system = true -> exists t, t ∈ permissionTemplates /\ TrimSpace name = pt_Name t /\ TrimSpace template = pt_Template t /\
     dedupPerms perms = pt_Permissions t) ->
  keeps (inv access_ok) (StoreGroups.CreatePermissionGroup name description template system perms).
Proof.
  intros Hp Hs e. apply (wp_apply _ (fun _ e' => inv access_ok e e')). eapply wp_mono; [apply create_group_wp|].
  unfold inv. intros r e' [->|(Hn & Hf & ->)]; [done|]. by apply access_added.
Qed.

Lemma access_store_step {A} (m : SM A) (p := fun d => (t_permission_groups d, t_permission_group_entries d)) :
  keeps (same p) m -> keeps (steps group_step) m -> keeps (inv access_ok) m.
Proof.
  intros Hp Hg e Hok. destruct (Hp e) as [E _]. injection E as E1 E2. apply (access_same_groups (e_db e)); [done..|apply Hg|done].
Qed.

Lemma access_ensure : keeps (on_env (inv access_ok)) EnsureIdentityTemplates.
Proof.
  unfold EnsureIdentityTemplates. apply keeps_bind; [typeclasses eauto|apply keeps_db, keeps_inv_query|]. intros groups.
  generalize (map (fun g => norm (pg_Template g)) groups) as done_. intros done_.
  assert (H : forall t, t ∈ permissionTemplates -> keeps (on_env (inv access_ok)) (ensure_template done_ t)).
  { intros t Ht. destruct (templates_normal t Ht) as (H1 & H2 & H3 & H4 & H5). unfold ensure_template.
    case_bool_decide; [apply keeps_ret, _|]. apply keeps_bind; [typeclasses eauto| |intros g; apply keeps_ret, _].
    apply keeps_db, access_store_create; [by rewrite H4|]. intros _. exists t. by rewrite H1, H3. }
  revert H. generalize permissionTemplates as ts. induction ts as [|t ts IH]; intros H; simpl; [apply keeps_ret, _|].
  apply keeps_bind; [typeclasses eauto|apply H; by left|]. intros []. apply IH. intros x Hx. apply H. by right.
Qed.

Lemma access_store_update id name description template perms : Forall (fun p => p ∈ allPermissionKeys) (dedupPerms perms) ->
  keeps (inv access_ok) (StoreGroups.UpdatePermissionGroup id name description template perms).
Proof.
  intros Hp e. apply (wp_apply _ (fun _ e' => inv access_ok e e')). eapply wp_mono; [apply update_group_wp|].
  unfold inv. intros r e' [->|((g & Hg & Hs) & Hn & Hf & ->)]; [done|]. by apply (access_changed _ _ _ _ _ _ _ g).
Qed.

Lemma access_store_delete id : keeps (inv access_ok) (StoreGroups.DeletePermissionGroup id).
Proof.
  intros e. apply (wp_apply _ (fun _ e' => inv access_ok e e')). eapply wp_mono; [apply delete_group_wp|].
  unfold inv. intros r e' [->|[Hg ->]]; [done|]. by apply access_deleted.
Qed.

(** What is normalised is in the catalog, so storing it keeps the invariant. *)
Lemma access_normalized {A} perms (k : list string -> AM A) :
  (forall out, Forall (fun p => p ∈ allPermissionKeys) (dedupPerms out) -> keeps (on_env (inv access_ok)) (k out)) ->
  keeps (on_env (inv access_ok)) (lift (normalizePermissions perms) ≫= k).
Proof.
  intros Hk s. destruct (normalizePermissions perms) as [out|] eqn:E; [|unfold on_env; reflexivity].
  rewrite lift_run. apply Hk, dedupPerms_known. by apply (normalizePermissions_known perms).
Qed.

Lemma access_create name description template perms : keeps (on_env (inv access_ok)) (CreatePermissionGroup name description template perms).
Proof.
  apply access_normalized. intros out Hout. apply keeps_bind; [typeclasses eauto|by apply keeps_db, access_store_create|].
  intros g. unfold or_nil, ListPermissionGroupPermissions. keeps_tac; try typeclasses eauto. apply keeps_db, keeps_inv_query.
Qed.

Lemma access_update id name description template perms :
  keeps (on_env (inv access_ok)) (UpdatePermissionGroup id name description template perms).
Proof. apply access_normalized. intros out Hout. by apply keeps_db, access_store_update. Qed.

(** The columns the invariant reads, users by their ids. *)
Definition access_columns (d : DB) : _ :=
  (t_permission_groups d, t_permission_group_entries d, t_user_group_memberships d, last_group_id d, dom (t_users d)).

Lemma access_frame {A} (m : SM A) : keeps (same access_columns) m -> keeps (inv access_ok) m.
Proof.
  intros Hp e. destruct (Hp e) as [E _]. unfold access_columns in E. injection E as E1 E2 E3 E4 E5. unfold inv.
  apply access_same_groups; [done|done|]. apply users_kept_step; [done..|].
  intros u. rewrite <- !elem_of_dom. by rewrite E5.
Qed.

Lemma access_memberships userID ids : keeps (inv access_ok) (SetUserGroupMemberships userID ids).
Proof.
  apply access_store_step; [|apply SetUserGroupMemberships_step]. unfold SetUserGroupMemberships, clear_memberships, insert_membership. keeps_db.
Qed.

Lemma access_create_user username role cidrs off hash : keeps (inv access_ok) (CreateUser username role cidrs off hash).
Proof.
  apply access_store_step; [unfold CreateUser, insert_user, GetUserByID; keeps_db|].
  unfold CreateUser, insert_user, GetUserByID. keeps_tac; try typeclasses eauto; try (apply steps_query_row; typeclasses eauto).
  apply steps_exec_checked; [typeclasses eauto|]. intros db _. apply users_kept_step; try done.
  - unfold last_group_id, take_id. simpl. by rewrite lookup_insert_ne.
  - intros u Hu. simpl. apply lookup_insert_is_Some'. by right.
Qed.

Lemma access_policy userID role ids cidrs off : keeps (inv access_ok) (SetUserAccessPolicy userID role ids cidrs off).
Proof.
  apply access_frame. unfold SetUserAccessPolicy, clear_scopes, insert_scopes, update_user. keeps_db.
  apply keeps_modify_db. intros db. unfold access_columns. simpl. by rewrite dom_alter_L.
Qed.

Lemma access_delete_user userID : keeps (inv access_ok) (DeleteUser userID).
Proof.
  apply access_store_step; [unfold DeleteUser; keeps_db|]. apply steps_exec; [typeclasses eauto|]. apply delete_user_step.
Qed.

(** What the administrators do with accounts and groups. *)
Inductive access_op :=
| OpTemplates
| OpCreate (name description template : string) (permissions : list string)
| OpUpdate (groupID : Z) (name description template : string) (permissions : list string)
| OpDelete (groupID : Z)
| OpUserGroups (userID : Z) (groupIDs : list Z)
| OpCreateUser (username password : string) (role : Role) (domainIDs : list Z) (cidrs : string) (off : bool) (groupIDs : list Z)
| OpUserAccess (userID : Z) (role : Role) (domainIDs : list Z) (cidrs : string) (off : bool) (groupIDs : list Z)
| OpDeleteManaged (userID : Z).

Definition run_access_op (IDKey : bytes -> bytes -> Z -> Z -> Z -> Z -> bytes) (op : access_op) : AM unit :=
  match op with
  | OpTemplates => ignore EnsureIdentityTemplates
  | OpCreate n d t p => ignore (CreatePermissionGroup n d t p)
  | OpUpdate id n d t p => ignore (UpdatePermissionGroup id n d t p)
  | OpDelete id => ignore (DeletePermissionGroup id)
  | OpUserGroups u ids => ignore (SetManagedUserGroups u ids)
  | OpCreateUser u p r d c o g => ignore (CreateManagedUser IDKey u p r d c o g)
  | OpUserAccess u r d c o g => ignore (SetManagedUserAccess u r d c o g)
  | OpDeleteManaged u => ignore (DeleteManagedUser u)
  end.

Lemma access_managed_create IDKey u p r d c o g : keeps (on_env (inv access_ok)) (CreateManagedUser IDKey u p r d c o g).
Proof.
  unfold CreateManagedUser, check_length, check_role, or_nil. keeps_tac; try typeclasses eauto; try apply keeps_db.
  - eapply keeps_weaken; [|apply (keeps_hash access_columns)]. intros s s' [E _] Hok.
    revert Hok. unfold access_columns in E. injection E as E1 E2 E3 E4 E5.
    apply access_same_groups; [done|done|]. apply users_kept_step; [done..|]. intros k. rewrite <- !elem_of_dom. by rewrite E5.
  - apply access_create_user.
  - apply access_frame. unfold SetUserDomainScopes, clear_scopes, insert_scopes. keeps_db.
  - apply access_memberships.
  - apply keeps_inv_query.
  - apply keeps_inv_query.
Qed.

Lemma access_managed_policy u r d c o g : keeps (on_env (inv access_ok)) (SetManagedUserAccess u r d c o g).
Proof.
  unfold SetManagedUserAccess, check_role, GetUserByID. keeps_tac; try typeclasses eauto; apply keeps_db.
  - apply keeps_inv_query_row.
  - apply access_policy.
  - apply access_memberships.
Qed.

Lemma access_managed_delete u : keeps (on_env (inv access_ok)) (DeleteManagedUser u).
Proof.
  unfold DeleteManagedUser, GetUserByID. keeps_tac; try typeclasses eauto; apply keeps_db.
  - apply keeps_inv_query_row.
  - apply access_frame. unfold EnqueueLDAPDelete. keeps_db.
  - apply access_delete_user.
Qed.

Lemma access_run IDKey ops s : access_ok (e_db (s_env s)) ->
  access_ok (e_db (s_env (for_each (run_access_op IDKey) ops s).2)).
Proof.
  intros Hok. assert (H : keeps (on_env (inv access_ok)) (for_each (run_access_op IDKey) ops)); [|by apply H].
  apply keeps_for_each; [typeclasses eauto|]. intros op. destruct op; apply keeps_ignore.
  - apply access_ensure.
  - apply access_create.
  - apply access_update.
  - apply keeps_db, access_store_delete.
  - apply keeps_db, access_memberships.
  - apply access_managed_create.
  - apply access_managed_policy.
  - apply access_managed_delete.
Qed.

(** C34. Whatever administrators do with accounts and groups, and however statements
    fail: no group grants a permission outside the catalog, and a system group
    grants exactly what its template in the source lists; names are unique, every
    permission and membership belongs to a group that exists. *)
Theorem groups_grant_catalog_only IDKey ops s :
  access_ok (e_db (s_env s)) -> access_ok (e_db (s_env (for_each (run_access_op IDKey) ops s).2)).
Proof. apply access_run. Qed.

Lemma empty_access_ok d now fs rnd : t_permission_groups d = ∅ -> t_permission_group_entries d = ∅ -> t_user_group_memberships d = ∅ ->
  t_sqlite_sequence d = ∅ -> access_ok (e_db (mkEnv d now fs rnd)).
Proof.
  intros E1 E2 E3 E4. unfold access_ok, perms_known, templates_exact. simpl. split_and!.
  - split; unfold last_group_id; rewrite ?E1, ?E2, ?E3, ?E4; simpl; try done; intros *; first [by intros ?%lookup_empty_Some|set_solver].
  - intros id p. rewrite E2. set_solver.
  - intros id g. rewrite E1. by intros ?%lookup_empty_Some.
Qed.

Definition access_demo : list access_op :=
  [OpTemplates; OpCreate "Owners" "" "" ["users:write"; " Backup:Read "]; OpCreate "Root" "" "" ["root:everything"];
   OpUpdate 4 "Auditor" "" "auditor" ["users:write"]; OpUserGroups 7 [5; 4]; OpDelete 1; OpTemplates].

Lemma groups_grant_catalog_only_witness :
  let d := e_db (s_env (for_each (run_access_op toy_derivation) access_demo accounts_demo).2) in
  access_ok d /\ map pg_Name (order_by group_le (rows (t_permission_groups d))) =
    ["Auditor"; "Domain Operator"; "Platform Admin"; "Security Admin"; "Owners"] /\
  group_perms 5 d = ["backup:read"; "users:write"] /\ length (group_perms 4 d) = 10%nat.
Proof.
  intros d. split; [|vm_compute; done]. apply (groups_grant_catalog_only toy_derivation access_demo accounts_demo).
  by apply empty_access_ok.
Defined.
