(* ===== verification/Backup.v ===== *)
(** [internal/app/backup.go]: the encrypted backup package.

    A package is the magic text, a salt, a nonce and the ciphertext of a compressed
    archive with a manifest, the database and the key file.  Scrypt, AES-GCM with
    its additional data, gzip with tar, JSON, the file format of SQLite and the
    file system are parameters. *)

From S2P Require Import Prelude GoString GoMonad GoTime GoCrypto Crypto Model StoreDB StoreThreat StoreUsers StoreHosts StoreBackup.
From S2P Require Import LogServers Service Vault Hosts LiveChecks.
From Stdlib Require Import Ascii.

Record BackupMeta := mkBackupMeta {
  bm_FileName : string; bm_Format : string; bm_CreatedAt : string; bm_DomNexVersion : string; bm_Domains : Z;
  bm_Subdomains : Z; bm_Users : Z; bm_DBSHA256 : string; bm_KeySHA256 : string
}.
Record PostRestoreCheckResult := mkPostRestoreCheckResult {
  pr_CheckedAt : string; pr_DomainsTotal : Z; pr_DomainsOK : Z; pr_HostsTotal : Z; pr_HostsDNSOK : Z; pr_HostsHTTPSOK : Z;
  pr_HostsTLSOK : Z; pr_HostsCertValid : Z; pr_CertWarmupAttempts : Z; pr_CertWarmupSucceeded : Z; pr_Issues : list string
}.
#[export] Instance eta_PostRestoreCheckResult : Eta PostRestoreCheckResult := fun r =>
  mkPostRestoreCheckResult (pr_CheckedAt r) (pr_DomainsTotal r) (pr_DomainsOK r) (pr_HostsTotal r) (pr_HostsDNSOK r)
    (pr_HostsHTTPSOK r) (pr_HostsTLSOK r) (pr_HostsCertValid r) (pr_CertWarmupAttempts r) (pr_CertWarmupSucceeded r)
    (pr_Issues r).

Definition backupMagic : bytes := bytes_of "DNXBACKUP1".
Definition backupSaltSz : nat := 16.
Definition backupNonce : nat := 12.
Definition maxEntry : Z := 128 * 1024 * 1024.

(** A member of the archive as the reader delivers it: [te_Size] is what its header
    announces, [te_Data] what follows before the stream ends. *)
Record TarEntry := mkTarEntry { te_Name : string; te_Dir : bool; te_Size : Z; te_Data : bytes }.

Definition hashHex (raw : bytes) : string := hex_encode (sha256 raw).

Definition pathBase (name : string) : string :=
  TrimSpace (List.last (Split (ReplaceAll name "\"%char "/") "/"%char) "").

Definition default_name (fileName : string) : string := or_default (TrimSpace fileName) "domnex-backup.dnxbak".

Definition meta_of (fileName : string) (m : backupManifest) : BackupMeta :=
  mkBackupMeta fileName "dnxbak" (mf_CreatedAt m) "v0.8.x" (mf_Domains m) (mf_Subdomains m) (mf_Users m)
    (mf_DBSHA256 m) (mf_KeySHA256 m).

(** The loop of [readBackupTarGZ]; an entry that is not there is a damaged stream. *)
Fixpoint read_entries (out : gmap string bytes) (l : list (option TarEntry)) : result (gmap string bytes) :=
  match l with
  | [] => Ok out
  | None :: _ => Err (ErrText "archive/tar: invalid tar header")
  | Some h :: l' =>
      if te_Dir h then read_entries out l'
      else if maxEntry <? te_Size h then Err (ErrText "backup entry too large")
      else if Z.of_nat (length (te_Data h)) <? te_Size h then Err (ErrText "unexpected EOF")
      else read_entries (<[pathBase (te_Name h) := take (Z.to_nat (te_Size h)) (te_Data h)]> out) l'
  end.

Section package.
Context (scrypt : bytes -> bytes -> Z -> Z -> Z -> Z -> result bytes).
(** [gcm.Seal], [gcm.Open]: key, nonce, text, additional data. *)
Context (SealWith : bytes -> bytes -> bytes -> bytes -> bytes) (OpenWith : bytes -> bytes -> bytes -> bytes -> option bytes).
(** gzip and tar: the archive of named members; the members of an archive, if it is
    gzip at all. *)
Context (pack : list (string * bytes) -> bytes) (unpack : bytes -> option (list (option TarEntry))).
Context (encode_manifest : backupManifest -> bytes) (decode_manifest : bytes -> option backupManifest).
(** A database file. *)
Context (write_sqlite : Snapshot -> bytes) (read_sqlite : bytes -> option Snapshot).
(** The outcome of a file operation, by what it is for. *)
Context (io : string -> result unit).

Definition buildBackupTarGZ (manifest : backupManifest) (dbBytes keyBytes : bytes) : bytes :=
  pack [("manifest.json", encode_manifest manifest); ("domnex.sqlite3", dbBytes); ("keystore.key", keyBytes)].

Definition readBackupTarGZ (raw : bytes) : result (gmap string bytes) :=
  match unpack raw with
  | None => Err (ErrText "gzip: invalid header")
  | Some l => read_entries ∅ l
  end.

Definition scrypt_key (passphrase : string) (salt : bytes) : result bytes :=
  key ← scrypt (bytes_of passphrase) salt 32768 8 1 32;
  if valid_aes_key key then Ok key else Err (ErrText "crypto/aes: invalid key size").

Definition encryptBackupBlob (plain : bytes) (passphrase : string) : AM bytes :=
  salt ← db (random_bytes backupSaltSz);
  nonce ← db (random_bytes backupNonce);
  key ← lift (scrypt_key passphrase salt);
  mret (backupMagic ++ salt ++ nonce ++ SealWith key nonce plain backupMagic).

Definition decryptBackupBlob (raw : bytes) (passphrase : string) : result bytes :=
  let headerLen := (length backupMagic + backupSaltSz + backupNonce)%nat in
  if (length raw <=? headerLen)%nat then Err (ErrText "invalid backup package")
  else if negb (bool_decide (take (length backupMagic) raw = backupMagic)) then Err (ErrText "invalid backup package header")
  else
    let rest := drop (length backupMagic) raw in
    let salt := take backupSaltSz rest in
    let nonce := take backupNonce (drop backupSaltSz rest) in
    let cipherText := drop backupNonce (drop backupSaltSz rest) in
    key ← scrypt_key passphrase salt;
    match OpenWith key nonce cipherText backupMagic with
    | Some plain => Ok plain
    | None => Err (ErrText "backup decrypt failed (wrong passphrase or corrupt package)")
    end.

Definition member (files : gmap string bytes) (name msg : string) : result bytes :=
  match files !! name with Some b => Ok b | None => Err (ErrText msg) end.

Definition parseBackupPackage (raw : bytes) (passphrase : string) : result backupSnapshot :=
  plain ← decryptBackupBlob raw passphrase;
  files ← readBackupTarGZ plain;
  manifestRaw ← member files "manifest.json" "backup manifest missing";
  dbRaw ← member files "domnex.sqlite3" "backup sqlite payload missing";
  keyRaw ← member files "keystore.key" "backup keystore payload missing";
  match decode_manifest manifestRaw with
  | None => Err (ErrText "invalid backup manifest")
  | Some mf =>
      if negb (mf_SchemaVersion mf =? 1) then Err (ErrText "unsupported backup schema version")
      else if negb (String.eqb (hashHex dbRaw) (norm (mf_DBSHA256 mf))) then Err (ErrText "backup db checksum mismatch")
      else if negb (String.eqb (hashHex keyRaw) (norm (mf_KeySHA256 mf))) then Err (ErrText "backup key checksum mismatch")
      else Ok (mkbackupSnapshot mf dbRaw keyRaw "")
  end.

Definition MinBackupPassphrase : Z := 12.

Definition CreateBackupPackage (passphrase : string) : AM (bytes * BackupMeta) :=
  fail_if (len (TrimSpace passphrase) <? MinBackupPassphrase) "backup passphrase must be at least 12 characters" ≫= fun _ =>
  lift (io "backup dir") ≫= fun _ =>
  snap ← db (VacuumInto "domnex.snapshot.sqlite3");
  lift (io "read snapshot") ≫= fun _ =>
  let dbBytes := write_sqlite snap in
  lift (io "read keystore") ≫= fun _ =>
  keyBytes ← gets (fun s => bytes_of (s_keyfile s));
  domains ← db StoreHosts.ListDomains;
  hosts ← db StoreHosts.ListHosts;
  users ← db StoreUsers.ListUsers;
  now ← db Now;
  host ← gets s_hostName;
  let manifest := mkbackupManifest 1 (RFC3339Nano now) host (Z.of_nat (length users)) (Z.of_nat (length domains))
    (Z.of_nat (length hosts)) (hashHex dbBytes) (hashHex keyBytes) in
  enc ← encryptBackupBlob (buildBackupTarGZ manifest dbBytes keyBytes) passphrase;
  db (audit "system" "backup.create" "encrypted" "format=dnxbak") ≫= fun _ =>
  mret (enc, meta_of "" manifest).

Definition AnalyzeBackupPackage (fileName : string) (raw : bytes) (passphrase : string) : AM BackupMeta :=
  snap ← lift (parseBackupPackage raw passphrase);
  mret (meta_of (default_name fileName) (bs_Manifest snap)).

(* ------------------------------------------------------------------ *)
(** ** Restoration *)

Context (detachable : bool).

(** The key file is written after the database is restored. *)
Definition applyBackupSnapshot (snap : backupSnapshot) : AM unit :=
  lift (io "restore dir") ≫= fun _ =>
  lift (io "write snapshot") ≫= fun _ =>
  db (RestoreFromSnapshot detachable "restore.sqlite3" (read_sqlite (bs_DBBytes snap))) ≫= fun _ =>
  lift (io "write keystore") ≫= fun _ =>
  modify (fun s => s <| s_keyfile := string_of (bs_KeyBytes snap) |>) ≫= fun _ =>
  file ← gets s_keyfile;
  ks ← lift (LoadOrCreateKey (Some file) None false);
  modify (fun s => s <| s_keystore := ks.1 |>).

Definition RestoreFromBackupPackage (fileName : string) (raw : bytes) (passphrase : string) : AM BackupMeta :=
  snap ← lift (parseBackupPackage raw passphrase);
  applyBackupSnapshot snap ≫= fun _ =>
  let meta := meta_of (default_name fileName) (bs_Manifest snap) in
  db (audit "system" "backup.restore" (bm_FileName meta) "format=dnxbak") ≫= fun _ =>
  mret meta.

Section postcheck.
Context (nw : Network) (dns : option Provider) (detectPublicIPv4 : result string).
Context (own : Cloudflare) (NewCloudflare : string -> Cloudflare).
Context (Open : bytes -> bytes -> bytes -> option bytes).

Definition one (b : bool) : Z := if b then 1 else 0.

(** What one host adds to the result; a host without a valid certificate is asked
    for once more, which may bring one. *)
Definition check_host (now : time) (out : PostRestoreCheckResult) (h : HostLiveCheck) : PostRestoreCheckResult :=
  let out := out <| pr_HostsTotal ::= Z.succ |> <| pr_HostsDNSOK ::= Z.add (one (lc_DNSOK h)) |>
                 <| pr_HostsHTTPSOK ::= Z.add (one (lc_HTTPSReachable h)) |> <| pr_HostsTLSOK ::= Z.add (one (lc_TLSOK h)) |> in
  if lc_TLSOK h && (0 <? lc_CertDaysLeft h) then out <| pr_HostsCertValid ::= Z.succ |>
  else
    let '(_, tlsOK, days) := probeHTTPSAndCert nw now (lc_FQDN h) in
    let out := out <| pr_CertWarmupAttempts ::= Z.succ |> in
    if tlsOK && (0 <? days) then
      out <| pr_CertWarmupSucceeded ::= Z.succ |> <| pr_HostsTLSOK ::= Z.succ |> <| pr_HostsCertValid ::= Z.succ |>
    else out <| pr_Issues ::= fun l => l ++ [lc_FQDN h +:+ ": tls/cert still not valid after warmup"] |>.

Definition check_domain (out : PostRestoreCheckResult) (d : Domain) : AM PostRestoreCheckResult :=
  r ← try_ (RunDomainLiveCheck nw dns detectPublicIPv4 NewCloudflare Open (d_ID d));
  match r with
  | Err e => mret (out <| pr_Issues ::= fun l => l ++ [d_Name d +:+ ": live-check error: " +:+ error_text e] |>)
  | Ok check =>
      now ← db Now;
      let out := if dl_OverallOK check then out <| pr_DomainsOK ::= Z.succ |>
                 else out <| pr_Issues ::= fun l => l ++ [d_Name d +:+ ": domain live-check not fully green"] |> in
      mret (foldl (check_host now) out (dl_Hosts check))
  end.

Definition RunPostRestoreCheck : AM PostRestoreCheckResult :=
  now ← db Now;
  let out := mkPostRestoreCheckResult (RFC3339Nano now) 0 0 0 0 0 0 0 0 0 [] in
  domains ← db StoreHosts.ListDomains;
  out ← fold_each check_domain (out <| pr_DomainsTotal := Z.of_nat (length domains) |>) domains;
  let meta := "domains_ok=" +:+ Itoa (pr_DomainsOK out) +:+ ";domains_total=" +:+ Itoa (pr_DomainsTotal out)
    +:+ ";hosts_total=" +:+ Itoa (pr_HostsTotal out) +:+ ";warmup=" +:+ Itoa (pr_CertWarmupSucceeded out)
    +:+ "/" +:+ Itoa (pr_CertWarmupAttempts out) in
  ignore (db (SetSetting "runtime.backup.last_postcheck" (pr_CheckedAt out))) ≫= fun _ =>
  db (audit "system" "backup.post_restore_check" "summary" meta) ≫= fun _ =>
  mret out.
End postcheck.
End package.

(* ------------------------------------------------------------------ *)
(** ** What the libraries promise *)

(** Seven-bit text, which JSON leaves as it is. *)
Definition seven_bit (s : string) : bool := all_chars (fun c => code c <? 128) s.
Definition plain_manifest (m : backupManifest) : Prop :=
  (exists t b k, mf_CreatedAt m = RFC3339Nano t /\ mf_DBSHA256 m = hashHex b /\ mf_KeySHA256 m = hashHex k) /\
  seven_bit (mf_Host m) = true /\
  Forall (fun n => 0 <= n <= max_int64) [mf_SchemaVersion m; mf_Users m; mf_Domains m; mf_Subdomains m].

(** Scrypt gives a key of the length asked for; opening undoes sealing, and a sealed
    text carries a tag; an archive reads back as its members; JSON decodes what it
    encoded. *)
Class PackageLaws (scrypt : bytes -> bytes -> Z -> Z -> Z -> Z -> result bytes)
    (SealWith : bytes -> bytes -> bytes -> bytes -> bytes) (OpenWith : bytes -> bytes -> bytes -> bytes -> option bytes)
    (pack : list (string * bytes) -> bytes) (unpack : bytes -> option (list (option TarEntry)))
    (encode_manifest : backupManifest -> bytes) (decode_manifest : bytes -> option backupManifest)
    (write_sqlite : Snapshot -> bytes) : Prop := {
  scrypt_ok p salt : exists k, scrypt p salt 32768 8 1 32 = Ok k /\ length k = 32%nat;
  open_seal k n p ad : is_bytes p -> OpenWith k n (SealWith k n p ad) ad = Some p;
  seal_length k n p ad : (length (SealWith k n p ad) = length p + 16)%nat;
  unpack_pack l : unpack (pack l) = Some (map (fun m => Some (mkTarEntry m.1 false (Z.of_nat (length m.2)) m.2)) l);
  pack_bytes l : Forall (fun m => is_bytes m.2) l -> is_bytes (pack l);
  decode_encode m : plain_manifest m -> decode_manifest (encode_manifest m) = Some m;
  encode_bytes m : is_bytes (encode_manifest m);
  write_bytes sn : is_bytes (write_sqlite sn)
}.

Lemma db_wp {A} (m : SM A) Q s :
  wp m (fun r e => Q r (s <| s_env := e |>)) (s_env s) -> wp (db m) Q s.
Proof. apply wp_db. Qed.

(** SQLite reads the file it wrote of these tables. *)
Definition sqlite_reads (write_sqlite : Snapshot -> bytes) (read_sqlite : bytes -> option Snapshot) (sn : Snapshot) : Prop :=
  read_sqlite (write_sqlite sn) = Some sn.

Section laws.
Context {scrypt : bytes -> bytes -> Z -> Z -> Z -> Z -> result bytes}.
Context {SealWith : bytes -> bytes -> bytes -> bytes -> bytes} {OpenWith : bytes -> bytes -> bytes -> bytes -> option bytes}.
Context {pack : list (string * bytes) -> bytes} {unpack : bytes -> option (list (option TarEntry))}.
Context {encode_manifest : backupManifest -> bytes} {decode_manifest : bytes -> option backupManifest}.
Context {write_sqlite : Snapshot -> bytes} {read_sqlite : bytes -> option Snapshot}.
Context (io : string -> result unit) (detachable : bool).
Context `{L : !PackageLaws scrypt SealWith OpenWith pack unpack encode_manifest decode_manifest write_sqlite}.

Local Abbreviation encrypt_blob := (encryptBackupBlob scrypt SealWith).
Local Abbreviation decrypt_blob := (decryptBackupBlob scrypt OpenWith).
Local Abbreviation parse := (parseBackupPackage scrypt OpenWith unpack decode_manifest).
Local Abbreviation create := (CreateBackupPackage scrypt SealWith pack encode_manifest write_sqlite io).
Local Abbreviation restore := (RestoreFromBackupPackage scrypt OpenWith unpack decode_manifest read_sqlite io detachable).

Lemma scrypt_key_ok pass salt : exists k, scrypt_key scrypt pass salt = Ok k.
Proof.
  destruct (scrypt_ok (bytes_of pass) salt) as (k & E & Hl). exists k. unfold scrypt_key. rewrite E. simpl.
  unfold valid_aes_key. by rewrite Hl.
Qed.

(** The layout of a blob. *)
Lemma decrypt_layout pass salt nonce ct : length salt = backupSaltSz -> length nonce = backupNonce -> (0 < length ct)%nat ->
  decrypt_blob (backupMagic ++ salt ++ nonce ++ ct) pass =
    (key ← scrypt_key scrypt pass salt;
     match OpenWith key nonce ct backupMagic with
     | Some plain => Ok plain
     | None => Err (ErrText "backup decrypt failed (wrong passphrase or corrupt package)") end).
Proof.
  intros Hs Hn Hc. unfold decryptBackupBlob. rewrite !length_app, Hs, Hn. change (length backupMagic) with 10%nat.
  destruct (_ <=? _)%nat eqn:E; [apply Nat.leb_le in E; unfold backupSaltSz, backupNonce in E; lia|].
  rewrite take_app_length' by done. rewrite bool_decide_true by done. simpl negb. cbv iota.
  rewrite drop_app_length' by done. rewrite take_app_length', drop_app_length' by done.
  by rewrite take_app_length', drop_app_length' by done.
Qed.

Lemma blob_round_trip plain pass s : is_bytes plain ->
  wp (encrypt_blob plain pass) (fun r s' => forall raw, r = Ok raw -> decrypt_blob raw pass = Ok plain) s.
Proof.
  intros Hp. unfold encryptBackupBlob. apply wp_bind, random_bytes_wp; [|done]. intros e1 salt _ Hs _ _ _.
  apply wp_bind, random_bytes_wp; [|done]. intros e2 nonce _ Hn _ _ _.
  destruct (scrypt_key_ok pass salt) as [k Hk]. apply wp_bind. unfold lift, wp at 1. rewrite Hk. cbv beta iota.
  apply wp_ret. intros raw E. assert (raw = backupMagic ++ salt ++ nonce ++ SealWith k nonce plain backupMagic) as -> by congruence.
  rewrite decrypt_layout by (done || rewrite seal_length; lia). rewrite Hk. simpl.
  by rewrite open_seal.
Qed.

(** A checksum is in the form it is compared in. *)
Lemma hashHex_norm b : norm (hashHex b) = hashHex b.
Proof.
  assert (Hc : forall n, let c := symbol hex_alphabet n in negb (is_space c) = true /\ Ascii.eqb (lower_byte c) c = true).
  { intros n. unfold symbol. generalize (Z.to_nat n). intros k. do 17 (destruct k as [|k]; [by vm_compute|]). by destruct k. }
  unfold norm, hashHex, ToLower. rewrite TrimSpace_all, smap_fixed; [done|..];
    (induction (sha256 b) as [|x l IH]; simpl; [done|]); destruct (Hc (x / 16)), (Hc (x mod 16)); by rewrite H, H1 || by rewrite H0, H2.
Qed.

Definition too_large (b : bytes) : bool := maxEntry <? Z.of_nat (length b).

Lemma read_one out name b l : pathBase name = name ->
  read_entries out (Some (mkTarEntry name false (Z.of_nat (length b)) b) :: l) =
    if too_large b then Err (ErrText "backup entry too large") else read_entries (<[name := b]> out) l.
Proof.
  intros Hn. cbn [read_entries te_Dir te_Size te_Data te_Name]. rewrite Hn. unfold too_large. case_match; [done|].
  rewrite Z.ltb_irrefl, Nat2Z.id. by rewrite firstn_all.
Qed.

(** What [parseBackupPackage] makes of a package built from these parts. *)
Lemma parse_built raw pass m dbB keyB : plain_manifest m -> mf_SchemaVersion m = 1 ->
  mf_DBSHA256 m = hashHex dbB -> mf_KeySHA256 m = hashHex keyB ->
  decrypt_blob raw pass = Ok (buildBackupTarGZ pack encode_manifest m dbB keyB) ->
  parse raw pass = if too_large (encode_manifest m) || too_large dbB || too_large keyB then Err (ErrText "backup entry too large")
                   else Ok (mkbackupSnapshot m dbB keyB "").
Proof.
  intros Hm Hv Hd Hk E. unfold parseBackupPackage. rewrite E. unfold mbind at 1, result_bind at 1.
  unfold readBackupTarGZ, buildBackupTarGZ. rewrite unpack_pack. cbn [map fst snd].
  rewrite read_one by done. destruct (too_large (encode_manifest m)); [done|].
  rewrite read_one by done. destruct (too_large dbB); [done|]. rewrite read_one by done. destruct (too_large keyB); [done|].
  unfold mbind, result_bind, member. cbn [read_entries orb].
  rewrite !lookup_insert_ne, lookup_insert_eq, lookup_insert_ne, lookup_insert_eq, lookup_insert_eq by done.
  rewrite decode_encode by done. rewrite Hv, Hd, Hk. simpl. by rewrite !hashHex_norm, !String.eqb_refl.
Qed.
(** The snapshot a backup of the state holds. *)
Definition snapshot_of (s : Svc) : Snapshot := mkSnapshot table_names (e_db (s_env s)).

Lemma vacuum_wp path e : wp (VacuumInto path) (fun r e' => e_db e' = e_db e /\ forall sn, r = Ok sn -> sn = mkSnapshot table_names (e_db e)) e.
Proof.
  unfold VacuumInto. apply wp_bind, wp_fail_if; intros _; [done|].
  apply wp_bind, stmt_wp; [done|]. intros fs. apply wp_query; [done|]. intros fs2. split; [done|]. by intros sn [= <-].
Qed.

(** The number of rows of a table is an [int] of Go. *)
Definition counted {A} (l : list A) : Prop := Z.of_nat (length l) <= max_int64.
Definition db_counted (d : DB) : Prop := counted (rows (t_users d)) /\ counted (rows (t_domains d)) /\ counted (rows (t_hosts d)).

Lemma order_by_length {A} le (l : list A) : length (order_by le l) = length l.
Proof. apply Permutation_length, order_by_perm. Qed.

Lemma package_wp pass s : seven_bit (s_hostName s) = true -> db_counted (e_db (s_env s)) ->
  wp (create pass) (fun r s' => forall pkg meta, r = Ok (pkg, meta) ->
    12 <= len (TrimSpace pass) /\
    exists m, plain_manifest m /\ mf_SchemaVersion m = 1 /\ meta = meta_of "" m /\
      mf_DBSHA256 m = hashHex (write_sqlite (snapshot_of s)) /\ mf_KeySHA256 m = hashHex (bytes_of (s_keyfile s)) /\
      decrypt_blob pkg pass = Ok (buildBackupTarGZ pack encode_manifest m (write_sqlite (snapshot_of s)) (bytes_of (s_keyfile s)))) s.
Proof.
  intros Hh (Hu & Hd & Hho). unfold CreateBackupPackage.
  apply wp_bind, wp_fail_if; intros Hlen; [done|]. apply wp_bind. unfold lift at 1, wp at 1. destruct (io "backup dir"); [|done].
  apply wp_bind, wp_db. eapply wp_mono; [apply vacuum_wp|]. intros [sn|x] e1 [He1 Hsn]; [|done]. specialize (Hsn sn eq_refl).
  apply wp_bind. unfold lift at 1, wp at 1. destruct (io "read snapshot"); [|done].
  apply wp_bind. unfold lift at 1, wp at 1. destruct (io "read keystore"); [|done].
  apply wp_bind, wp_gets, wp_bind, wp_db, wp_query; [done|]. intros f1.
  apply wp_bind, wp_db, wp_query; [done|]. intros f2. apply wp_bind, wp_db, wp_query; [done|]. intros f3.
  apply wp_bind. unfold wp at 1. rewrite db_now_end. apply wp_bind, wp_gets. cbv zeta.
  match goal with |- context [buildBackupTarGZ _ _ ?m0 _ _] => set (m := m0) end.
  assert (Hm : plain_manifest m).
  { unfold plain_manifest, m. simpl. rewrite !order_by_length. split_and!; [|done|].
    - eexists _, _, _. split_and!; reflexivity.
    - rewrite He1. unfold counted in *. repeat (constructor; [unfold max_int64 in *; lia|]). constructor. }
  apply wp_bind. eapply wp_mono; [apply blob_round_trip|].
  - apply (pack_bytes (pack := pack)). repeat constructor; simpl; [apply encode_bytes|apply write_bytes|apply is_bytes_of].
  - intros [enc|x] s2 Henc; [|done]. specialize (Henc enc eq_refl). apply wp_bind, wp_any. intros [[]|x] s3; [|done].
    apply wp_ret. intros pkg meta [= <- <-]. split; [by apply Z.ltb_ge in Hlen|].
    subst sn. exists m. split_and!; [exact Hm|reflexivity..|exact Henc].
Qed.

Lemma package_read pass s pkg meta s' :
  seven_bit (s_hostName s) = true -> db_counted (e_db (s_env s)) -> sqlite_reads write_sqlite read_sqlite (snapshot_of s) ->
  create pass s = (Ok (pkg, meta), s') ->
  let dbB := write_sqlite (snapshot_of s) in let keyB := bytes_of (s_keyfile s) in
  exists m, meta = meta_of "" m /\
    if too_large (encode_manifest m) || too_large dbB || too_large keyB
    then parse pkg pass = Err (ErrText "backup entry too large")
    else exists snap, parse pkg pass = Ok snap /\ read_sqlite (bs_DBBytes snap) = Some (snapshot_of s) /\
           string_of (bs_KeyBytes snap) = s_keyfile s /\ bs_Manifest snap = m.
Proof.
  intros Hh Hc Hsq E. destruct (wp_run _ _ _ _ _ (package_wp pass s Hh Hc) E pkg meta eq_refl) as (_ & m & Hm & Hv & -> & Hd & Hk & Hdec).
  cbv zeta. exists m. split; [done|]. rewrite (parse_built pkg pass m _ _ Hm Hv Hd Hk Hdec).
  destruct (too_large _ || too_large _ || too_large _); [done|].
  eexists. split; [done|]. simpl. by rewrite Hsq, string_of_bytes_of.
Qed.

(** C14. A package that [CreateBackupPackage] made opens with its passphrase, and holds
    the tables and the key file of the moment it was made, unless one of its members
    is larger than 128 MiB: then it was made all the same and cannot be read. *)
Theorem backup_round_trip pass s pkg meta s' :
  seven_bit (s_hostName s) = true -> db_counted (e_db (s_env s)) -> sqlite_reads write_sqlite read_sqlite (snapshot_of s) ->
  create pass s = (Ok (pkg, meta), s') ->
  let dbB := write_sqlite (snapshot_of s) in let keyB := bytes_of (s_keyfile s) in
  exists m, meta = meta_of "" m /\
    if too_large (encode_manifest m) || too_large dbB || too_large keyB
    then parse pkg pass = Err (ErrText "backup entry too large")
    else exists snap, parse pkg pass = Ok snap /\ read_sqlite (bs_DBBytes snap) = Some (snapshot_of s) /\
           string_of (bs_KeyBytes snap) = s_keyfile s /\ bs_Manifest snap = m.
Proof. apply package_read. Qed.

(** What is accepted has been opened with a key made from the passphrase and the salt
    of the package, is of the one schema, and matches its checksums. *)
Lemma parsed_sound raw pass snap : parse raw pass = Ok snap ->
  (exists plain, decrypt_blob raw pass = Ok plain) /\ take 10 raw = backupMagic /\ mf_SchemaVersion (bs_Manifest snap) = 1 /\
  hashHex (bs_DBBytes snap) = norm (mf_DBSHA256 (bs_Manifest snap)) /\
  hashHex (bs_KeyBytes snap) = norm (mf_KeySHA256 (bs_Manifest snap)).
Proof.
  unfold parseBackupPackage, mbind, result_bind. destruct (decrypt_blob raw pass) as [plain|] eqn:E; [|done].
  destruct (readBackupTarGZ unpack plain) as [files|]; [|done]. unfold member. repeat (destruct (_ !! _); [|done]).
  destruct (decode_manifest _) as [mf|]; [|done]. repeat (case_match; [done|]). intros [= <-]. simpl.
  split; [eauto|]. split; [|bool_facts; split_and!; [lia|done..]].
  unfold decryptBackupBlob in E. case_match; [done|]. case_match; [done|]. by bool_facts.
Qed.

(** The key the service keeps is the one in its key file. *)
Definition key_in_file (s : Svc) : Prop := LoadOrCreateKey (Some (s_keyfile s)) None false = Ok (s_keystore s, s_keyfile s).

(** What is replaced: the tables and the key, the tables alone, or nothing. *)
Lemma restored_wp snap sn k file s :
  read_sqlite (bs_DBBytes snap) = Some sn -> full sn -> LoadOrCreateKey (Some (string_of (bs_KeyBytes snap))) None false = Ok (k, file) ->
  wp (applyBackupSnapshot read_sqlite io detachable snap) (fun r s' => exists e,
    match r with
    | Ok _ => detachable = true /\ same_rows (sn_db sn) (e_db e) /\
        s' = s <| s_env := e |> <| s_keyfile := string_of (bs_KeyBytes snap) |> <| s_keystore := k |>
    | Err _ => s' = s <| s_env := e |> /\ (e_db e = e_db (s_env s) \/ detachable = true /\ same_rows (sn_db sn) (e_db e))
    end) s.
Proof.
  intros Hsn Hf Hk. assert (Hnone : exists e, s = s <| s_env := e |> /\ (e_db e = e_db (s_env s) \/ detachable = true /\ same_rows (sn_db sn) (e_db e))).
  { exists (s_env s). split; [by destruct s|by left]. }
  unfold applyBackupSnapshot. rewrite Hsn. apply wp_bind. unfold lift at 1, wp at 1. destruct (io "restore dir"); [|exact Hnone].
  apply wp_bind. unfold lift at 1, wp at 1. destruct (io "write snapshot"); [|exact Hnone].
  apply wp_bind, wp_db. eapply wp_mono; [apply restore_wp|]. intros [[]|x] e H; [|exists e; split; [done|by left]].
  destruct H as (Hd & d & Hr & E). assert (Hsame : same_rows (sn_db sn) (e_db e)) by (rewrite E; exact (restored_same sn _ d Hf Hr)).
  apply wp_bind. unfold lift at 1, wp at 1. destruct (io "write keystore"); [|exists e; split; [done|by right]].
  apply wp_bind, wp_modify, wp_bind, wp_gets, wp_bind. unfold lift, wp at 1. simpl s_keyfile. rewrite Hk.
  apply wp_modify. exists e. by split_and!.
Qed.
(** The tables a later audit entry leaves alone. *)
Definition main_rows (d : DB) := (t_users d, t_domains d, t_hosts d, t_settings d, t_secrets d).

Lemma main_rows_audit actor action target meta : keeps (same main_rows) (audit actor action target meta).
Proof. unfold audit, AddAuditEvent, Now. keeps_db. Qed.

Lemma load_secret_calm Open name s : e_faults (s_env s) = [] ->
  (load_secret Open name s).1 =
    match t_secrets (e_db (s_env s)) !! name with Some c => Decrypt Open (s_keystore s) c | None => Err ErrNoRows end.
Proof. intros Hf. unfold load_secret, GetSecret. rewrite db_query_row_run by done. by destruct (_ !! name). Qed.

Lemma audited_rows actor action target meta s :
  wp (db (audit actor action target meta)) (fun r s' => r = Ok tt /\ main_rows (e_db (s_env s')) = main_rows (e_db (s_env s)) /\
    s_keystore s' = s_keystore s /\ s_keyfile s' = s_keyfile s) s.
Proof.
  apply wp_db. unfold audit. apply wp_ignore. eapply (wp_keeps (same main_rows)); [unfold AddAuditEvent, Now; keeps_db|].
  intros r e [H _]. by split_and!.
Qed.

(** Nothing of what a restore replaces has changed. *)
Definition as_before (s s' : Svc) : Prop :=
  e_db (s_env s') = e_db (s_env s) /\ s_keystore s' = s_keystore s /\ s_keyfile s' = s_keyfile s.

(** C22. What becomes of a backup taken on one machine and restored on another.  A restore
    that answers success, which takes an SQLite that lets go of a file inside the
    transaction that has read it, has moved the accounts, the domains and hosts, the
    settings and the secrets, and the key that opens them: each secret reads there as
    it did here.  With an SQLite that does not let go (it answers that the database is
    locked), every restore fails, and tables, key and key file are as before.  One that
    fails after the tables were replaced has moved the rows and kept the old key. *)
Theorem restored_secrets_open Open pass s1 pkg meta s1' fileName s2 r2 s2' :
  seven_bit (s_hostName s1) = true -> db_counted (e_db (s_env s1)) -> key_in_file s1 ->
  sqlite_reads write_sqlite read_sqlite (snapshot_of s1) -> create pass s1 = (Ok (pkg, meta), s1') -> restore fileName pkg pass s2 = (r2, s2') ->
  match r2 with
  | Ok _ => detachable = true /\ main_rows (e_db (s_env s2')) = main_rows (e_db (s_env s1)) /\
      s_keystore s2' = s_keystore s1 /\ s_keyfile s2' = s_keyfile s1 /\
      (e_faults (s_env s1) = [] -> e_faults (s_env s2') = [] ->
       forall name, (load_secret Open name s2').1 = (load_secret Open name s1).1)
  | Err _ => as_before s2 s2' \/ detachable = true /\ main_rows (e_db (s_env s2')) = main_rows (e_db (s_env s1)) /\
      s_keystore s2' = s_keystore s2 /\ s_keyfile s2' = s_keyfile s2
  end.
Proof.
  intros Hh Hc Hkey Hsq E1 E2. destruct (package_read pass s1 pkg meta s1' Hh Hc Hsq E1) as (m & _ & Hp).
  assert (Hrows : forall d, same_rows (e_db (s_env s1)) d -> main_rows d = main_rows (e_db (s_env s1))).
  { intros d Hr. unfold same_rows in Hr. destruct_and!. unfold main_rows. congruence. }
  assert (H : wp (restore fileName pkg pass) (fun r s' => match r with
    | Ok _ => detachable = true /\ main_rows (e_db (s_env s')) = main_rows (e_db (s_env s1)) /\ s_keystore s' = s_keystore s1 /\ s_keyfile s' = s_keyfile s1
    | Err _ => as_before s2 s' \/ detachable = true /\ main_rows (e_db (s_env s')) = main_rows (e_db (s_env s1)) /\
        s_keystore s' = s_keystore s2 /\ s_keyfile s' = s_keyfile s2 end) s2).
  { unfold RestoreFromBackupPackage. apply wp_bind. unfold lift at 1, wp at 1.
    destruct (too_large _ || too_large _ || too_large _); [rewrite Hp; by left|].
    destruct Hp as (snap & -> & Hsn & Hkb & _). apply wp_bind. eapply wp_mono.
    { apply (restored_wp snap _ (s_keystore s1) (s_keyfile s1) s2 Hsn); [by unfold full|by rewrite Hkb]. }
    intros [[]|x] s3 (e & H3).
    - destruct H3 as (Hd & Hsame & ->). rewrite Hkb. apply wp_bind. eapply wp_mono; [apply audited_rows|]. intros r s4 (-> & Hm & Hks & Hkf).
      apply wp_ret. rewrite Hm, Hks, Hkf. split_and!; [done|by apply Hrows|done..].
    - destruct H3 as (-> & [Hdb|[Hd Hsame]]); [by left|right]. split_and!; [done|by apply Hrows|done..]. }
  pose proof (wp_run _ _ _ _ _ H E2) as Hr. destruct r2 as [meta2|x]; [|exact Hr]. destruct Hr as (Hd & Hm & Hks & Hkf). split_and!; [done..|].
  intros F1 F2 name. rewrite !load_secret_calm by done. rewrite Hks. injection Hm as _ _ _ _ Hs. by rewrite Hs.
Qed.
End laws.

(* ------------------------------------------------------------------ *)
(** ** Stand-ins for the libraries *)

Module Toy.
(** Each byte after a one, and a zero at the end. *)
Definition enc (b : bytes) : bytes := concat (map (fun x => [1; x]) b) ++ [0].
Fixpoint dec (l : bytes) : option (bytes * bytes) :=
  match l with
  | 1 :: x :: r => '(b, r') ← dec r; Some (x :: b, r')
  | 0 :: r => Some ([], r)
  | _ => None
  end.
Lemma dec_enc b r : dec (enc b ++ r) = Some (b, r).
Proof. unfold enc. induction b as [|x b IH]; [done|]. cbn. by rewrite IH. Qed.
Lemma enc_is_bytes b : is_bytes b -> is_bytes (enc b).
Proof.
  intros H. unfold enc, is_bytes. apply Forall_app. split; [|constructor; [lia|constructor]].
  induction H; simpl; [constructor|]. constructor; [lia|]. by constructor.
Qed.

Fixpoint enc_all (l : list bytes) : bytes := match l with [] => [] | b :: l' => enc b ++ enc_all l' end.
Fixpoint dec_all (n : nat) (l : bytes) : option (list bytes) :=
  match n, l with
  | _, [] => Some []
  | O, _ => None
  | S n', _ => '(b, r) ← dec l; bs ← dec_all n' r; Some (b :: bs)
  end.
Lemma dec_enc_all l n : (length l <= n)%nat -> dec_all n (enc_all l) = Some l.
Proof.
  revert n. induction l as [|b l IH]; intros n Hn; [by destruct n|]. destruct n as [|n]; [simpl in Hn; lia|]. cbn [enc_all].
  assert (E : exists c r, enc b ++ enc_all l = c :: r) by (unfold enc; destruct b; simpl; eauto). destruct E as (c & r & E).
  cbn [dec_all]. rewrite E, <- E, dec_enc. simpl. rewrite IH by (simpl in Hn; lia). done.
Qed.
Lemma enc_all_is_bytes l : Forall is_bytes l -> is_bytes (enc_all l).
Proof. intros H. induction H; simpl; [constructor|]. apply Forall_app. split; [by apply enc_is_bytes|done]. Qed.
Lemma enc_all_length l : (length l <= length (enc_all l))%nat.
Proof. induction l as [|b l IH]; simpl; [lia|]. unfold enc. rewrite !length_app. simpl. lia. Qed.

Definition scrypt (_ _ : bytes) (_ _ _ _ : Z) : result bytes := Ok toy_key.
Definition seal (_ _ p _ : bytes) : bytes := p ++ repeat 0 16.
Definition open (_ _ c _ : bytes) : option bytes := Some (take (length c - 16) c).

Definition pack (l : list (string * bytes)) : bytes := enc_all (concat (map (fun m => [bytes_of m.1; m.2]) l)).
Fixpoint members (l : list bytes) : list (option TarEntry) :=
  match l with
  | n :: d :: l' => Some (mkTarEntry (string_of n) false (Z.of_nat (length d)) d) :: members l'
  | _ => []
  end.
Definition unpack (b : bytes) : option (list (option TarEntry)) := members <$> dec_all (length b) b.

Definition encode (m : backupManifest) : bytes :=
  enc_all (map bytes_of [Itoa (mf_SchemaVersion m); mf_CreatedAt m; mf_Host m; Itoa (mf_Users m); Itoa (mf_Domains m);
    Itoa (mf_Subdomains m); mf_DBSHA256 m; mf_KeySHA256 m]).
Definition number (b : bytes) : Z := default 0 (Atoi (string_of b)).
Definition decode (b : bytes) : option backupManifest :=
  match dec_all (length b) b with
  | Some [v; t; h; u; d; sd; db; k] =>
      Some (mkbackupManifest (number v) (string_of t) (string_of h) (number u) (number d) (number sd) (string_of db) (string_of k))
  | _ => None
  end.

#[export] Instance toy_laws write : (forall sn, is_bytes (write sn)) -> PackageLaws scrypt seal open pack unpack encode decode write.
Proof.
  intros Hw. split; [..|done].
  - intros p salt. exists toy_key. by split.
  - intros k n p ad _. unfold open, seal. by rewrite length_app, repeat_length, Nat.add_sub, take_app_length.
  - intros k n p ad. unfold seal. by rewrite length_app, repeat_length.
  - intros l. unfold unpack, pack. rewrite dec_enc_all by apply enc_all_length. simpl. f_equal.
    induction l as [|[n d] l IH]; simpl; [done|]. by rewrite string_of_bytes_of, IH.
  - intros l H. apply enc_all_is_bytes. induction H; simpl; [constructor|]. constructor; [apply is_bytes_of|]. by constructor.
  - intros m (_ & _ & Hn). unfold decode, encode. rewrite dec_enc_all by apply enc_all_length. cbn [map].
    repeat (apply Forall_cons in Hn as [? Hn]). unfold number. rewrite !string_of_bytes_of, !Atoi_Itoa by done. by destruct m.
  - intros m. apply enc_all_is_bytes. repeat (constructor; [apply is_bytes_of|]). constructor.
Qed.
End Toy.

(** A site with one user and one secret, and an empty one. *)
Definition site_db : DB :=
  empty_DB <| t_users := {[1 := zero_User <| u_Username := "ann" |>]} |>
    <| t_secrets := {["cloudflare.api_token" := StdEncode (repeat 7 12 ++ rev (bytes_of "tok"))]} |>.
Definition site_key : string := StdEncode toy_key +:+ String (byte 10) "".
Definition site (d : DB) : Svc :=
  new_svc_with (mkConfig "" "" "" false) toy_key site_key "edge" (mkEnv d 0 [] ["0123456789abcdef"; "0123456789ab"]) None.
Definition toy_write (_ : Snapshot) : bytes := [1].
Definition toy_read (_ : bytes) : option Snapshot := Some (snapshot_of (site site_db)).
Local Abbreviation toy_create :=
  (CreateBackupPackage Toy.scrypt Toy.seal Toy.pack Toy.encode toy_write (fun _ => Ok tt) "correct horse battery" (site site_db)).
Definition toy_package : bytes := match toy_create.1 with Ok (pkg, _) => pkg | Err _ => [] end.
Local Abbreviation toy_restore :=
  (RestoreFromBackupPackage Toy.scrypt Toy.open Toy.unpack Toy.decode toy_read (fun _ => Ok tt) true
     "site.dnxbak" toy_package "correct horse battery" (site empty_DB)).
#[export] Instance toy_write_laws : PackageLaws Toy.scrypt Toy.seal Toy.open Toy.pack Toy.unpack Toy.encode Toy.decode toy_write.
Proof. apply Toy.toy_laws. intros sn. constructor; [lia|constructor]. Qed.

Lemma toy_runs :
  is_ok toy_create.1 = true /\ is_ok toy_restore.1 = true /\ e_faults (s_env toy_restore.2) = [] /\
  is_ok (parseBackupPackage Toy.scrypt Toy.open Toy.unpack Toy.decode toy_package "correct horse battery") = true.
Proof. vm_compute. auto. Qed.

Lemma toy_created : exists meta, toy_create = (Ok (toy_package, meta), toy_create.2).
Proof.
  destruct toy_runs as [H _]. unfold toy_package. destruct toy_create as [[[pkg meta]|x] s']; [|discriminate H]. by exists meta.
Qed.
Lemma toy_restored : exists meta, toy_restore = (Ok meta, toy_restore.2).
Proof. destruct toy_runs as (_ & H & _). destruct toy_restore as [[meta|x] s']; [|discriminate H]. by exists meta. Qed.

Lemma site_facts : seven_bit (s_hostName (site site_db)) = true /\ db_counted (e_db (s_env (site site_db))) /\
  key_in_file (site site_db) /\ sqlite_reads toy_write toy_read (snapshot_of (site site_db)).
Proof. split_and!; [vm_compute; reflexivity|split_and!; vm_compute; discriminate|vm_compute; reflexivity|reflexivity]. Qed.

Lemma backup_round_trip_witness :
  exists snap, parseBackupPackage Toy.scrypt Toy.open Toy.unpack Toy.decode toy_package "correct horse battery" = Ok snap /\
    string_of (bs_KeyBytes snap) = site_key.
Proof.
  destruct toy_created as [meta E]. destruct site_facts as (Hh & Hc & _ & Hsq). destruct toy_runs as (_ & _ & _ & Hok).
  destruct (backup_round_trip (fun _ => Ok tt) "correct horse battery" (site site_db) toy_package meta _ Hh Hc Hsq E) as (m & _ & H).
  revert H Hok. generalize toy_package. intros pkg H Hok.
  destruct (too_large _ || too_large _ || too_large _); [rewrite H in Hok; discriminate Hok|].
  destruct H as (snap & Hs & _ & Hk & _). exists snap. split; [exact Hs|exact Hk].
Defined.

Lemma restored_secrets_open_witness :
  (load_secret toy_open "cloudflare.api_token" toy_restore.2).1 = (load_secret toy_open "cloudflare.api_token" (site site_db)).1.
Proof.
  destruct toy_created as [meta E]. destruct toy_restored as [meta2 E2]. destruct site_facts as (Hh & Hc & Hk & Hsq).
  destruct toy_runs as (_ & _ & Hf & _).
  destruct (restored_secrets_open (fun _ => Ok tt) true toy_open
    "correct horse battery" (site site_db) toy_package meta _ "site.dnxbak" (site empty_DB) (Ok meta2) _ Hh Hc Hk Hsq E E2) as (_ & _ & _ & _ & H).
  apply H; [reflexivity|exact Hf].
Defined.
Example restored_token : (load_secret toy_open "cloudflare.api_token" toy_restore.2).1 = Ok "tok".
Proof. vm_compute. reflexivity. Qed.

(** When the key file cannot be written the tables have been replaced already, and
    the service keeps the old key: what it then reads it cannot open. *)
Example restore_half_done :
  let r := RestoreFromBackupPackage Toy.scrypt Toy.open Toy.unpack Toy.decode toy_read
    (fun what => if String.eqb what "write keystore" then Err (ErrText "read-only file system") else Ok tt) true
    "site.dnxbak" toy_package "correct horse battery" ((site empty_DB) <| s_keystore := repeat 8 32 |>) in
  is_ok r.1 = false /\ size (t_secrets (e_db (s_env r.2))) = 1%nat /\ s_keystore r.2 = repeat 8 32.
Proof. vm_compute. auto. Qed.

(** A certificate that is over is counted twice when the second handshake succeeds
    with a valid one. *)
Example tls_counted_twice :
  let nw := mkNetwork (fun _ => Ok []) (fun _ _ => Err ErrDriver) (fun _ _ _ => None) (fun _ _ => Ok [mkCertificate "" "" (48 * Hour)]) in
  let out := check_host nw 0 (mkPostRestoreCheckResult "" 1 0 0 0 0 0 0 0 0 [])
    (mkHostLiveCheck "a.example" true true true true true 0 false "") in
  pr_HostsTotal out = 1 /\ pr_HostsTLSOK out = 2.
Proof. vm_compute. auto. Qed.
