(* ===== verification/Setup.v ===== *)
(** [internal/app/setup.go]: the first run, behind a one-time code; and
    [Bootstrap] of [service.go], which starts it.

    The code is drawn, written to the log and to the file [bootstrap/ots], and kept
    as a hash; [su_announced] is the code written last.  The mutex [setupMu] makes
    each operation one step. *)

From S2P Require Import Prelude GoString GoMonad GoTime GoCrypto Crypto Model LogServers StoreDB StoreThreat StoreUsers StoreHosts.
From S2P Require Import Service Vault ThreatEngine Retention Hosts LiveChecks Settings Accounts StoreBackup Backup.

Definition settingSetupCompletedAt : string := "setup.completed_at".
Definition setupOTSTTL : duration := 20 * Minute.
Definition setupUnlockTTL : duration := 45 * Minute.
Definition setupMaxAttempts : Z := 5.
Definition setupCooldownTTL : duration := 5 * Minute.

Record SetupStatus := mkSetupStatus {
  ss_Initialized : bool; ss_Locked : bool; ss_Unlocked : bool; ss_RestoreReady : bool; ss_OTSExpiresAt : time;
  ss_UnlockUntil : time; ss_CooldownUntil : time
}.
Record SetupBackupMeta := mkSetupBackupMeta {
  sm_FileName : string; sm_Format : string; sm_CreatedAt : string; sm_DomNexVersion : string; sm_Domains : Z;
  sm_Subdomains : Z; sm_Users : Z
}.
Record SetupApplyInput := mkSetupApplyInput {
  si_Mode : string; si_AdminUsername : string; si_AdminPassword : string; si_ACMEEmail : string; si_ACMEStaging : bool;
  si_CFToken : string; si_PublicIPv4 : string; si_BaseDomain : string; si_TimeSyncMode : string;
  si_TimeSyncLANServers : string; si_LogServers : LogServerSettings; si_LogHTTPBearer : string;
  si_Retention : RetentionPolicy; si_DomainName : string; si_DomainDNSMode : string; si_DomainCertMode : string;
  si_DomainProvider : string; si_DomainZoneID : string; si_FirstSubdomain : string; si_FirstUpstream : string;
  si_FirstInsecureTLS : bool
}.

Definition with_setup (f : SetupState -> SetupState) : AM unit := modify (fun s => s <| s_setup ::= f |>).
Definition set_initialized : AM unit := with_setup (fun u => u <| su_Initialized := true |>).

(** The code of eighteen random bytes. *)
Definition code_of (raw : bytes) : string := ToUpper (b64_encode url_alphabet raw).

(** A new code locks the wizard and forgets the failures. *)
Definition new_code (now : time) (code : string) (u : SetupState) : SetupState :=
  u <| su_OTSHash := sha256 (bytes_of code) |> <| su_OTSExpires := Add now setupOTSTTL |>
    <| su_UnlockUntil := 0 |> <| su_Attempts := 0 |> <| su_Cooldown := 0 |> <| su_announced := code |>.

Definition rotateOTSLocked (now : time) : AM unit :=
  raw ← db (random_bytes 18); with_setup (new_code now (code_of raw)).

Definition ensureSetupStateLocked : AM unit :=
  initialized ← gets (fun s : Svc => su_Initialized (s_setup s));
  if initialized : bool then mret tt
  else
    r ← try_ (db (GetSetting settingSetupCompletedAt));
    if match r with Ok v => nonempty (TrimSpace v) | Err _ => false end then set_initialized
    else
      count ← db CountUsers;
      now ← db Now;
      if 0 <? count then
        set_initialized ≫= fun _ => ignore (db (SetSetting settingSetupCompletedAt (RFC3339Nano now)))
      else
        expires ← gets (fun s => su_OTSExpires (s_setup s));
        if Before now expires then mret tt else rotateOTSLocked now.

Definition GetSetupStatus : AM SetupStatus :=
  ensureSetupStateLocked ≫= fun _ =>
  now ← db Now;
  u ← gets s_setup;
  mret (if su_Initialized u then mkSetupStatus true false false false 0 0 0
        else
          let unlocked := Before now (su_UnlockUntil u) in
          mkSetupStatus false (negb unlocked) unlocked (bool_decide (is_Some (su_Restore u))) (su_OTSExpires u)
            (if unlocked then su_UnlockUntil u else 0) (su_Cooldown u)).

(** A wrong code; the fifth in a row starts the cooldown. *)
Definition count_failure (now : time) (u : SetupState) : SetupState :=
  let u := u <| su_Attempts ::= Z.succ |> in
  if setupMaxAttempts <=? su_Attempts u then u <| su_Cooldown := Add now setupCooldownTTL |> <| su_Attempts := 0 |> else u.

Definition unlocked_at (now : time) (u : SetupState) : SetupState :=
  u <| su_UnlockUntil := Add now setupUnlockTTL |> <| su_Attempts := 0 |> <| su_Cooldown := 0 |>.

Definition UnlockSetup (code : string) : AM SetupStatus :=
  ensureSetupStateLocked ≫= fun _ =>
  u ← gets s_setup;
  if su_Initialized u then mret (mkSetupStatus true false false false 0 0 0)
  else
    now ← db Now;
    fail_if (Before now (su_Cooldown u)) "setup unlock temporarily blocked, retry after cooldown" ≫= fun _ =>
    if After now (su_OTSExpires u) then
      rotateOTSLocked now ≫= fun _ => fail (ErrText "setup code expired; new code generated in service logs")
    else if negb (bool_decide (sha256 (bytes_of (TrimSpace code)) = su_OTSHash u)) then
      with_setup (count_failure now) ≫= fun _ => fail (ErrText "invalid setup code")
    else
      with_setup (unlocked_at now) ≫= fun _ =>
      db (audit "setup" "setup.unlock.success" "wizard" "") ≫= fun _ =>
      u ← gets s_setup;
      mret (mkSetupStatus false false true (bool_decide (is_Some (su_Restore u))) (su_OTSExpires u) (su_UnlockUntil u) 0).

(** What every step of the wizard asks first. *)
Definition wizard_open : AM unit :=
  ensureSetupStateLocked ≫= fun _ =>
  u ← gets s_setup;
  fail_if (su_Initialized u) "setup already completed" ≫= fun _ =>
  now ← db Now;
  fail_if (negb (Before now (su_UnlockUntil u))) "setup is locked; unlock with one-time setup code".

Section wizard.
Context (scrypt : bytes -> bytes -> Z -> Z -> Z -> Z -> result bytes).
Context (OpenWith : bytes -> bytes -> bytes -> bytes -> option bytes) (unpack : bytes -> option (list (option TarEntry))).
Context (decode_manifest : bytes -> option backupManifest).

Definition UploadSetupBackup (fileName : string) (raw : bytes) (passphrase : string) : AM SetupBackupMeta :=
  wizard_open ≫= fun _ =>
  snap ← lift (parseBackupPackage scrypt OpenWith unpack decode_manifest raw passphrase);
  let name := default_name fileName in
  let m := bs_Manifest snap in
  with_setup (fun u => u <| su_Restore := Some (mkbackupSnapshot m (bs_DBBytes snap) (bs_KeyBytes snap) name) |>) ≫= fun _ =>
  mret (mkSetupBackupMeta name "dnxbak" (mf_CreatedAt m) "v0.8.x" (mf_Domains m) (mf_Subdomains m) (mf_Users m)).

Context (route_output : result string) (timedatectl : list string -> option string).
Context (encode_logs : LogServerSettings -> string) (encode_ldap : LDAPSettings -> string) (encode_oidc : OIDCSettings -> string).
Context (decode_style : string -> option (gmap string string)).
Context (IDKey : bytes -> bytes -> Z -> Z -> Z -> Z -> bytes).
Context (Seal : bytes -> bytes -> bytes -> bytes) (Open : bytes -> bytes -> bytes -> option bytes).
Context (dns : option Provider) (detectPublicIPv4 : result string).
Context (nw : Network) (NewCloudflare : string -> Cloudflare).
Context (read_sqlite : bytes -> option Snapshot) (io : string -> result unit) (detachable : bool).

Definition fresh_setup (si : SetupApplyInput) : AM unit :=
  let domainName := norm (si_DomainName si) in
  let dnsMode := or_default (norm (si_DomainDNSMode si)) "manual" in
  let certMode := or_default (norm (si_DomainCertMode si)) "letsencrypt" in
  let provider := or_default (norm (si_DomainProvider si)) dnsMode in
  when (nonempty domainName)
    (UpsertDomain dns detectPublicIPv4 domainName dnsMode certMode provider (si_DomainZoneID si) ≫= fun _ => mret tt) ≫= fun _ =>
  let baseDomain := if nonempty domainName && negb (nonempty (TrimSpace (si_BaseDomain si))) then domainName else si_BaseDomain si in
  SetRuntimeSettings route_output timedatectl encode_logs encode_ldap encode_oidc decode_style Seal dns detectPublicIPv4
    (si_ACMEEmail si) (si_ACMEStaging si) (si_CFToken si) (si_PublicIPv4 si) baseDomain "cybermonolith" ""
    (si_TimeSyncMode si) (si_TimeSyncLANServers si) (si_LogServers si) (si_LogHTTPBearer si) (si_Retention si)
    (mkMFAPolicy false false false) zero_LDAPSettings "" zero_OIDCSettings "" ≫= fun _ =>
  let firstSub := norm (si_FirstSubdomain si) in
  let firstUpstream := TrimSpace (si_FirstUpstream si) in
  when (nonempty domainName && nonempty firstSub && nonempty firstUpstream)
    (CreateHost dns detectPublicIPv4 domainName firstSub "http" firstUpstream (si_FirstInsecureTLS si) false "" []
     ≫= fun _ => mret tt).

Definition restore_setup : AM unit :=
  restore ← gets (fun s => su_Restore (s_setup s));
  match restore with
  | None => fail (ErrText "restore package not uploaded")
  | Some snap =>
      applyBackupSnapshot read_sqlite io detachable snap ≫= fun _ =>
      with_setup (fun u => u <| su_Restore := None |>) ≫= fun _ =>
      r ← try_ (RunPostRestoreCheck nw dns detectPublicIPv4 NewCloudflare Open);
      db (match r with
          | Err e => audit "setup" "backup.post_restore_check.failed" "setup_restore" (error_text e)
          | Ok res => audit "setup" "backup.post_restore_check.completed" "setup_restore"
                        ("warmup=" +:+ Itoa (pr_CertWarmupSucceeded res) +:+ "/" +:+ Itoa (pr_CertWarmupAttempts res))
          end)
  end.

Definition MinAdminPassword : Z := 10.

(** The administrator: the first user, or one with the password just given. *)
Definition setup_admin (username hash : string) : AM unit :=
  let create := db (StoreUsers.CreateUser username RoleAdmin "" false hash) ≫= fun _ => mret tt in
  userCount ← db CountUsers;
  if userCount =? 0 then create
  else
    r ← try_ (db (FindUserByUsername username));
    match r with
    | Ok u => db (SetUserPasswordHashByID (u_ID u) hash)
    | Err e => if is_no_rows e then create else fail e
    end.

Definition complete_setup (mode : string) : AM unit :=
  now ← db Now;
  db (SetSetting settingSetupCompletedAt (RFC3339Nano now)) ≫= fun _ =>
  with_setup (fun u => u <| su_Initialized := true |> <| su_UnlockUntil := 0 |> <| su_OTSExpires := 0 |>
    <| su_OTSHash := repeat 0 32 |> <| su_Attempts := 0 |> <| su_Cooldown := 0 |>) ≫= fun _ =>
  db (audit "setup" "setup.completed" mode "").

Definition ApplyInitialSetup (si : SetupApplyInput) : AM unit :=
  wizard_open ≫= fun _ =>
  let mode := or_default (norm (si_Mode si)) "fresh" in
  fail_if (negb (String.eqb mode "fresh") && negb (String.eqb mode "restore")) "invalid setup mode" ≫= fun _ =>
  (if String.eqb mode "fresh" then fresh_setup si else restore_setup) ≫= fun _ =>
  let username := or_default (norm (si_AdminUsername si)) "admin" in
  fail_if (len (TrimSpace (si_AdminPassword si)) <? MinAdminPassword) "admin password must be at least 10 characters" ≫= fun _ =>
  hash ← hash_password IDKey (si_AdminPassword si);
  setup_admin username hash ≫= fun _ =>
  complete_setup mode.
End wizard.

(* ------------------------------------------------------------------ *)
(** ** Start of the service *)

Section bootstrap.
Context (fetch : string -> result (Z * string)) (decode_bundle : string -> option (list threatSignatureRule)).
Context (IDKey : bytes -> bytes -> Z -> Z -> Z -> Z -> bytes).

Definition bootstrap_host (d : Domain) (fqdn : string) : AM unit :=
  upstream ← gets adminUpstreamURL;
  h ← db (StoreHosts.CreateHost (d_ID d) "admin" fqdn "http" upstream false false "" []);
  ignore (db (SetHostState (h_ID h) "dns_pending" "bootstrap")) ≫= fun _ =>
  ignore (db (SetHostState (h_ID h) "cert_pending" "bootstrap")) ≫= fun _ =>
  ignore (db (SetHostState (h_ID h) "active" "bootstrap")).

Definition Bootstrap (bootstrapUser bootstrapPass : string) : AM unit :=
  ignore EnsureIdentityTemplates ≫= fun _ =>
  ignore (db (EnsureThreatIntelDefaultFeed "https://lists.blocklist.de/lists/all.txt")) ≫= fun _ =>
  ensureThreatSignaturesLoaded ≫= fun _ =>
  ignore (syncThreatSignatures fetch decode_bundle false) ≫= fun _ =>
  ignore RefreshThreatIntelSnapshot ≫= fun _ =>
  if negb (nonempty (TrimSpace bootstrapPass)) then ensureSetupStateLocked
  else
    hash ← hash_password IDKey bootstrapPass;
    db (EnsureBootstrapUser bootstrapUser RoleAdmin hash) ≫= fun _ =>
    domain ← gets (fun s => cfg_Domain (s_cfg s));
    if negb (nonempty (TrimSpace domain)) then mret tt
    else
      db (StoreHosts.UpsertDomain (zero_Domain <| d_Name := domain |> <| d_DNSMode := "manual" |>
        <| d_CertMode := "letsencrypt" |> <| d_Provider := "manual" |> <| d_Status := "active" |>)) ≫= fun _ =>
      d ← db (GetDomainByName domain);
      r ← try_ (db (FindHostByFQDN ("admin." +:+ domain)));
      match r with
      | Ok _ => mret tt
      | Err e => if negb (is_no_rows e) then fail e else bootstrap_host d ("admin." +:+ domain) ≫= fun _ => ensureSetupStateLocked
      end.
End bootstrap.
