(* ===== verification/SetupSafety.v ===== *)
(** What the one-time code of the first run protects: nothing is configured without
    it, it withstands guessing, and the wizard is closed for good once a user exists. *)

From S2P Require Import Prelude GoString GoMonad GoTime GoCrypto Crypto Model LogServers StoreDB StoreThreat StoreUsers StoreHosts.
From S2P Require Import Service Vault Retention Hosts LiveChecks Settings StoreBackup Backup Setup.

(* ------------------------------------------------------------------ *)
(** ** The first question of every operation *)

(** Accounts, domains, hosts, secrets and the key are left alone. *)
Definition protected (d : DB) := (t_users d, t_domains d, t_hosts d, t_secrets d).
Definition untouched (s s' : Svc) : Prop :=
  protected (e_db (s_env s')) = protected (e_db (s_env s)) /\ e_now (s_env s') = e_now (s_env s) /\
  s_keystore s' = s_keystore s /\ s_keyfile s' = s_keyfile s.

#[export] Instance untouched_preorder : PreOrder untouched.
Proof. split; unfold untouched; [done|]. intros a b c (? & ? & ? & ?) (? & ? & ? & ?). split_and!; congruence. Qed.

Lemma untouched_db {A} (m : SM A) : keeps (same protected) m -> keeps untouched (db m).
Proof. intros H s. specialize (H (s_env s)). unfold db, zoom, untouched. destruct (m (s_env s)) as [r e]. destruct H. by split_and!. Qed.

(** What [ensureSetupStateLocked] makes of the state of the wizard. *)
Inductive ensured (now : time) (users : gmap Z User) (u : SetupState) : SetupState -> Prop :=
| ens_done : ensured now users u (u <| su_Initialized := true |>)
| ens_same : su_Initialized u = false -> users = ∅ -> now < su_OTSExpires u -> ensured now users u u
| ens_new code : su_Initialized u = false -> users = ∅ -> su_OTSExpires u <= now -> ensured now users u (new_code now code u).

Definition now_of (s : Svc) : time := e_now (s_env s).
Definition users_of (s : Svc) : gmap Z User := t_users (e_db (s_env s)).

Lemma initialized_same u : su_Initialized u = true -> u <| su_Initialized := true |> = u.
Proof. destruct u. simpl. by intros ->. Qed.

Lemma ensure_wp s :
  wp ensureSetupStateLocked (fun r s' => untouched s s' /\
    match r with
    | Ok _ => ensured (now_of s) (users_of s) (s_setup s) (s_setup s')
    | Err x => s_setup s' = s_setup s /\ x <> ErrText "invalid setup code"
    end) s.
Proof.
  unfold ensureSetupStateLocked. apply wp_bind, wp_gets. destruct (su_Initialized (s_setup s)) eqn:Hi.
  { apply wp_ret. split; [reflexivity|]. rewrite <- (initialized_same (s_setup s)) at 2 by done. constructor. }
  apply wp_bind, wp_try, wp_db. unfold GetSetting.
  eapply wp_mono; [apply keeps_wp, (keeps_query_row (fun d => d))|]. intros r0 e0 [Hd0 Hn0].
  case_match.
  { apply wp_modify. split; [unfold untouched; simpl; by rewrite Hd0, Hn0|]. constructor. }
  apply wp_bind, wp_db. unfold CountUsers. apply wp_query; [intros fs; unfold untouched; simpl; by rewrite Hd0, Hn0|].
  intros fs. apply wp_bind. unfold wp at 1. rewrite db_now_end. cbv beta iota. simpl e_now. rewrite Hn0.
  match goal with |- context [0 <? ?x] => destruct (0 <? x) eqn:Hc; simpl in Hc; rewrite Hd0 in Hc end.
  { apply wp_bind, wp_modify, wp_ignore, wp_db. unfold SetSetting. apply wp_exec; intros f2; simpl.
    - split; [unfold untouched; simpl; by rewrite Hd0, Hn0|]. constructor.
    - split; [unfold untouched; simpl; by rewrite Hd0, Hn0|]. constructor. }
  assert (Hu : users_of s = ∅) by (apply map_size_empty_iff; unfold users_of; lia).
  apply wp_bind, wp_gets. simpl s_setup. destruct (Before _ _) eqn:Hb; unfold Before in Hb.
  { apply wp_ret. split; [unfold untouched; simpl; by rewrite Hd0, Hn0|]. apply ens_same; [done..|]. by apply Z.ltb_lt, Hb. }
  apply Z.ltb_ge in Hb. unfold rotateOTSLocked. apply wp_bind, random_bytes_src.
  - intros e' raw _ _ Hd Hn _. apply wp_modify. simpl in *. split; [unfold untouched; simpl; by rewrite Hd, Hn, Hd0, Hn0|].
    by apply ens_new.
  - split; [unfold untouched; simpl; by rewrite Hd0, Hn0|]. done.
Qed.

(* ------------------------------------------------------------------ *)
(** ** What the wizard does not touch *)

(** Up to the uploaded package, the state of the wizard stays; so do the clock and
    some rows [p]. *)
Definition forget (u : SetupState) : SetupState := u <| su_Restore := None |>.
Definition beside_of {T} (p : DB -> T) (s s' : Svc) : Prop :=
  p (e_db (s_env s')) = p (e_db (s_env s)) /\ now_of s' = now_of s /\ forget (s_setup s') = forget (s_setup s).
Local Abbreviation beside := (beside_of (fun _ : DB => tt)).

#[export] Instance beside_of_preorder {T} (p : DB -> T) : PreOrder (beside_of p).
Proof. split; unfold beside_of; [done|]. intros a b c (? & ? & ?) (? & ? & ?). split_and!; congruence. Qed.

Lemma beside_db {T} (p : DB -> T) {A} (m : SM A) : keeps (same p) m -> keeps (beside_of p) (db m).
Proof. intros H s. specialize (H (s_env s)). unfold db, zoom, beside_of, now_of. destruct (m (s_env s)) as [r e]. by destruct H. Qed.

Lemma beside_modify {T} (p : DB -> T) (f : Svc -> Svc) :
  (forall s, s_env (f s) = s_env s /\ forget (s_setup (f s)) = forget (s_setup s)) -> keeps (beside_of p) (modify f).
Proof. intros H. apply keeps_modify. intros s. destruct (H s) as [E F]. unfold beside_of, now_of. by rewrite E. Qed.

Lemma beside_weaken {T} (p : DB -> T) {A} (m : AM A) : keeps (beside_of p) m -> keeps beside m.
Proof. apply keeps_weaken. intros s s' (_ & H1 & H2). by split_and!. Qed.

Create HintDb wizard_frame.
#[local] Hint Unfold StoreHosts.UpsertDomain GetDomainByName ListHostsByDomainID StoreHosts.ListDomains SetSetting GetSetting Now
  FindHostByFQDN StoreHosts.CreateHost SetHostState GetHostByID GetDomainByID transitionHostState update_host audit AddAuditEvent
  StoreSecret GetSecret CountUsers StoreUsers.CreateUser insert_user GetUserByID FindUserByUsername SetUserPasswordHashByID
  random_bytes restore_table : wizard_frame.

Lemma clock_restore detachable path file : keeps (same (fun _ => tt)) (RestoreFromSnapshot detachable path file).
Proof.
  unfold RestoreFromSnapshot, detach, restore_table. keeps_db. intros e. unfold with_cleanup.
  match goal with |- context [match ?m e with _ => _ end] => assert (H : keeps (same (fun _ : DB => tt)) m) by keeps_db end.
  specialize (H e). match type of H with same _ _ (?m).2 => destruct m as [[?|?] e'] end; [exact H|].
  etransitivity; [exact H|]. simpl.
  match goal with |- same _ _ (?m _).2 => assert (Hc : keeps (same (fun _ : DB => tt)) m) by keeps_db; apply Hc end.
Qed.

Ltac beside_tac :=
  repeat first [ progress keeps_tac | progress intros | typeclasses eauto | apply beside_modify; done
               | apply beside_db; autounfold with wizard_frame; keeps_db; done
               | apply beside_db; autounfold with wizard_frame; keeps_db; apply keeps_exec; intros; by repeat case_match ].

Section frame.
Context (route_output : result string) (timedatectl : list string -> option string).
Context (encode_logs : LogServerSettings -> string) (encode_ldap : LDAPSettings -> string) (encode_oidc : OIDCSettings -> string).
Context (decode_style : string -> option (gmap string string)).
Context (Seal : bytes -> bytes -> bytes -> bytes) (Open : bytes -> bytes -> bytes -> option bytes).
Context (dns : option Provider) (detectPublicIPv4 : result string).

Lemma beside_call {A} c (answer : list DnsCall -> result A) : keeps (beside_of t_users) (dns_call c answer).
Proof. unfold dns_call. beside_tac. Qed.
#[local] Hint Resolve beside_call : go_keeps.

Lemma beside_resolve name : keeps (beside_of t_users) (resolveCloudflareZoneID dns name).
Proof. unfold resolveCloudflareZoneID. beside_tac. Qed.
#[local] Hint Resolve beside_resolve : go_keeps.

Lemma beside_zone d : keeps (beside_of t_users) (ensureDomainZoneID dns d).
Proof. unfold ensureDomainZoneID. beside_tac. Qed.
#[local] Hint Resolve beside_zone : go_keeps.

Lemma beside_update ip : keeps (beside_of t_users) (UpdatePublicIP dns ip).
Proof. unfold UpdatePublicIP, update_domain_records, dns_upsert. beside_tac. Qed.
#[local] Hint Resolve beside_update : go_keeps.

Lemma beside_current : keeps (beside_of t_users) (currentPublicIPv4 detectPublicIPv4).
Proof. unfold currentPublicIPv4. beside_tac. Qed.
#[local] Hint Resolve beside_current : go_keeps.

Lemma beside_ip : keeps (beside_of t_users) (ensurePublicIPv4 dns detectPublicIPv4).
Proof. unfold ensurePublicIPv4. beside_tac. Qed.
#[local] Hint Resolve beside_ip : go_keeps.

Lemma beside_domain name dnsMode certMode provider zone :
  keeps (beside_of t_users) (UpsertDomain dns detectPublicIPv4 name dnsMode certMode provider zone).
Proof. unfold UpsertDomain, wrapped, dns_upsert. beside_tac. Qed.

Lemma beside_host d sub profile up tls ha mode backends :
  keeps (beside_of t_users) (CreateHost dns detectPublicIPv4 d sub profile up tls ha mode backends).
Proof. unfold CreateHost, dns_or_error, dns_upsert. beside_tac. Qed.
#[local] Hint Resolve beside_domain beside_host : go_keeps.

Lemma beside_secret name plain : keeps (beside_of t_users) (store_secret Seal name plain).
Proof. unfold store_secret, encrypt. beside_tac. Qed.
#[local] Hint Resolve beside_secret : go_keeps.

Lemma beside_admin_host name : keeps (beside_of t_users) (ensureAdminHostForDomain dns detectPublicIPv4 name).
Proof. unfold ensureAdminHostForDomain. beside_tac. Qed.
#[local] Hint Resolve beside_admin_host : go_keeps.

Lemma beside_settings a b c d e f g h i j k l m n o p q :
  keeps (beside_of t_users) (SetRuntimeSettings route_output timedatectl encode_logs encode_ldap encode_oidc decode_style Seal dns
    detectPublicIPv4 a b c d e f g h i j k l m n o p q).
Proof.
  unfold SetRuntimeSettings, set_acme, SetCloudflareToken, set_public_ip, set_base_domain, wrapped, set_style, set_time_sync,
    applyLogServerSettings, SetLogHTTPBearer, set_retention, set_mfa_policy, set_ldap, set_oidc, put.
  beside_tac.
Qed.
#[local] Hint Resolve beside_settings : go_keeps.

Lemma beside_fresh si :
  keeps (beside_of t_users) (fresh_setup route_output timedatectl encode_logs encode_ldap encode_oidc decode_style Seal dns detectPublicIPv4 si).
Proof. unfold fresh_setup. beside_tac. Qed.

Context (nw : Network) (NewCloudflare : string -> Cloudflare).
Context (read_sqlite : bytes -> option Snapshot) (io : string -> result unit) (detachable : bool).

Lemma beside_live id : keeps (beside_of t_users) (RunDomainLiveCheck nw dns detectPublicIPv4 NewCloudflare Open id).
Proof. unfold RunDomainLiveCheck, cloudflare_status, GetCloudflareToken, load_secret, decrypt. beside_tac. Qed.
#[local] Hint Resolve beside_live : go_keeps.

Lemma beside_check : keeps (beside_of t_users) (RunPostRestoreCheck nw dns detectPublicIPv4 NewCloudflare Open).
Proof. unfold RunPostRestoreCheck, check_domain. beside_tac. Qed.
#[local] Hint Resolve beside_check : go_keeps.

Lemma beside_snapshot snap : keeps beside (applyBackupSnapshot read_sqlite io detachable snap).
Proof. unfold applyBackupSnapshot. beside_tac. apply beside_db, clock_restore. Qed.
#[local] Hint Resolve beside_snapshot : go_keeps.

Lemma beside_check_clock : keeps beside (RunPostRestoreCheck nw dns detectPublicIPv4 NewCloudflare Open).
Proof. eapply beside_weaken, beside_check. Qed.
#[local] Hint Resolve beside_check_clock : go_keeps.

Lemma beside_restore :
  keeps beside (restore_setup Open dns detectPublicIPv4 nw NewCloudflare read_sqlite io detachable).
Proof. unfold restore_setup, with_setup. beside_tac. Qed.
End frame.

(** What [complete_setup] adds: the wizard is done and locked. *)
Definition closing (s s' : Svc) : Prop :=
  now_of s' = now_of s /\
  (forget (s_setup s') = forget (s_setup s) \/ su_Initialized (s_setup s') = true /\ su_UnlockUntil (s_setup s') = 0).

Lemma forget_eq u u' : forget u' = forget u ->
  su_Initialized u' = su_Initialized u /\ su_OTSHash u' = su_OTSHash u /\ su_OTSExpires u' = su_OTSExpires u /\
  su_UnlockUntil u' = su_UnlockUntil u /\ su_Attempts u' = su_Attempts u /\ su_Cooldown u' = su_Cooldown u /\
  su_announced u' = su_announced u.
Proof. destruct u, u'. unfold forget. simpl. intros [=]. by split_and!. Qed.

#[export] Instance closing_preorder : PreOrder closing.
Proof.
  split; unfold closing; [auto|]. intros a b c [N1 H1] [N2 H2]. split; [congruence|].
  destruct H2 as [H2|H2]; [|by right]. destruct H1 as [H1|[H1 H1']]; [left; congruence|right].
  apply forget_eq in H2. destruct_and!. split; congruence.
Qed.

Lemma closing_beside {A} (m : AM A) : keeps beside m -> keeps closing m.
Proof. apply keeps_weaken. intros s s' (_ & H1 & H2). split; [done|by left]. Qed.

Lemma closing_complete mode : keeps closing (complete_setup mode).
Proof.
  unfold complete_setup. apply keeps_bind; [typeclasses eauto|apply closing_beside; beside_tac|intros now].
  apply keeps_bind; [typeclasses eauto|apply closing_beside; beside_tac|intros []].
  apply keeps_bind; [typeclasses eauto| |intros []; apply closing_beside; beside_tac].
  apply keeps_modify. intros s. split; [done|]. by right.
Qed.

(* ------------------------------------------------------------------ *)
(** ** Unlocking *)

(** What the comparison of a code makes of the state. *)
Inductive unlocked_by (now : time) (given : string) (u : SetupState) : result SetupStatus -> SetupState -> Prop :=
| by_done st : su_Initialized u = true -> ss_Unlocked st = false -> unlocked_by now given u (Ok st) u
| by_blocked : now < su_Cooldown u -> unlocked_by now given u (Err (ErrText "setup unlock temporarily blocked, retry after cooldown")) u
| by_wrong : su_Initialized u = false -> su_Cooldown u <= now -> sha256 (bytes_of (TrimSpace given)) <> su_OTSHash u ->
    unlocked_by now given u (Err (ErrText "invalid setup code")) (count_failure now u)
| by_right st : su_Initialized u = false -> sha256 (bytes_of (TrimSpace given)) = su_OTSHash u -> ss_Unlocked st = true ->
    unlocked_by now given u (Ok st) (unlocked_at now u).

Lemma ensured_expiry now users u u' : ensured now users u u' -> su_Initialized u' = false -> now < su_OTSExpires u'.
Proof. intros [|? ? ?|code ? ? ?]; simpl; [done|done|]. unfold Add, setupOTSTTL, Minute, Second. lia. Qed.

Lemma audit_wp actor action target meta (Q : result unit -> Svc -> Prop) s :
  (forall e', protected (e_db e') = protected (e_db (s_env s)) -> e_now e' = e_now (s_env s) -> Q (Ok tt) (s <| s_env := e' |>)) ->
  wp (db (audit actor action target meta)) Q s.
Proof.
  intros H. apply wp_db. unfold audit. apply wp_ignore. eapply (wp_keeps (same protected)); [|intros r e' [? ?]; by apply H].
  unfold AddAuditEvent, Now. keeps_db.
Qed.

Lemma unlock_wp given s :
  wp (UnlockSetup given) (fun r s' => untouched s s' /\
    ((exists x, r = Err x /\ x <> ErrText "invalid setup code" /\ s_setup s' = s_setup s) \/
     exists u, ensured (now_of s) (users_of s) (s_setup s) u /\ unlocked_by (now_of s) given u r (s_setup s'))) s.
Proof.
  unfold UnlockSetup. apply wp_bind. eapply wp_mono; [apply ensure_wp|]. intros [[]|x] s1 [Hu He].
  2: { split; [done|]. left. exists x. by destruct He. }
  apply wp_bind, wp_gets. pose proof Hu as (Hp & Hn & Hk & Hf).
  destruct (su_Initialized (s_setup s1)) eqn:Hi.
  { apply wp_ret. split; [done|]. right. exists (s_setup s1). split; [done|]. by constructor. }
  apply wp_bind. unfold wp at 1. rewrite db_now_end, Hn. fold (now_of s).
  apply wp_bind, wp_fail_if; unfold Before; intros Hc.
  { split; [done|]. right. exists (s_setup s1). split; [done|]. apply by_blocked. by apply Z.ltb_lt. }
  apply Z.ltb_ge in Hc. pose proof (ensured_expiry _ _ _ _ He Hi) as Hx. unfold After.
  destruct (su_OTSExpires (s_setup s1) <? now_of s) eqn:Hlt; [apply Z.ltb_lt in Hlt; lia|].
  case_bool_decide as Hcode; simpl.
  - apply wp_bind, wp_modify, wp_bind, audit_wp. intros e' Hp' Hn'. simpl in *. apply wp_bind, wp_gets, wp_ret.
    split; [etransitivity; [exact Hu|by repeat split]|]. right. exists (s_setup s1). split; [done|]. by constructor.
  - apply wp_bind, wp_modify, wp_fail. split; [etransitivity; [exact Hu|done]|].
    right. exists (s_setup s1). split; [done|]. by constructor.
Qed.

(* ------------------------------------------------------------------ *)
(** ** Uploading and applying *)

(** The wizard answers: nobody exists yet and a code has unlocked it. *)
Definition open_at (s : Svc) : Prop :=
  users_of s = ∅ /\ su_Initialized (s_setup s) = false /\ now_of s < su_UnlockUntil (s_setup s).

(** A refused step has at most drawn a new code or closed the wizard. *)
Definition refused {A} (s : Svc) (r : result A) (s' : Svc) : Prop :=
  untouched s s' /\ is_ok r = false /\
  (s_setup s' = s_setup s \/ ensured (now_of s) (users_of s) (s_setup s) (s_setup s')).

Lemma wizard_open_wp s :
  0 <= now_of s ->
  wp wizard_open (fun r s' => refused s r s' \/ r = Ok tt /\ untouched s s' /\ open_at s /\ s_setup s' = s_setup s) s.
Proof.
  intros H0. unfold wizard_open. apply wp_bind. eapply wp_mono; [apply ensure_wp|]. intros [[]|x] s1 [Hu He].
  2: { left. destruct He. split_and!; [done..|by left]. }
  pose proof Hu as (Hp & Hn & Hk & Hf). apply wp_bind, wp_gets, wp_bind, wp_fail_if; intros Hi.
  { left. split_and!; [done..|by right]. }
  apply wp_bind. unfold wp at 1. rewrite db_now_end, Hn. fold (now_of s).
  apply wp_fail_if; unfold Before; intros Hb.
  { left. split_and!; [done..|by right]. }
  apply negb_false_iff, Z.ltb_lt in Hb. right.
  split; [done|]. split; [done|]. unfold open_at. destruct He; simpl in *; [done|by split_and!|lia].
Qed.

Section applying.
Context (scrypt : bytes -> bytes -> Z -> Z -> Z -> Z -> result bytes).
Context (OpenWith : bytes -> bytes -> bytes -> bytes -> option bytes) (unpack : bytes -> option (list (option TarEntry))).
Context (decode_manifest : bytes -> option backupManifest).
Context (route_output : result string) (timedatectl : list string -> option string).
Context (encode_logs : LogServerSettings -> string) (encode_ldap : LDAPSettings -> string) (encode_oidc : OIDCSettings -> string).
Context (decode_style : string -> option (gmap string string)).
Context (IDKey : bytes -> bytes -> Z -> Z -> Z -> Z -> bytes).
Context (Seal : bytes -> bytes -> bytes -> bytes) (Open : bytes -> bytes -> bytes -> option bytes).
Context (dns : option Provider) (detectPublicIPv4 : result string).
Context (nw : Network) (NewCloudflare : string -> Cloudflare).
Context (read_sqlite : bytes -> option Snapshot) (io : string -> result unit) (detachable : bool).

Abbreviation apply_setup := (ApplyInitialSetup route_output timedatectl encode_logs encode_ldap encode_oidc decode_style
  IDKey Seal Open dns detectPublicIPv4 nw NewCloudflare read_sqlite io detachable).
Abbreviation upload := (UploadSetupBackup scrypt OpenWith unpack decode_manifest).

Lemma upload_wp name raw pass s :
  0 <= now_of s ->
  wp (upload name raw pass) (fun r s' => refused s r s' \/
    untouched s s' /\ open_at s /\ forget (s_setup s') = forget (s_setup s)) s.
Proof.
  intros H0. unfold UploadSetupBackup. apply wp_bind. eapply wp_mono; [by apply wizard_open_wp|].
  intros [[]|x] s1 [Hr|(Hr & Hu & Ho & Hs)]; try (by destruct Hr as (? & ? & ?)); [|by left|done].
  apply wp_bind. unfold lift, wp at 1. destruct (parseBackupPackage _ _ _ _ _ _) as [snap|x]; [|right; by rewrite Hs].
  apply wp_bind, wp_modify, wp_ret. right. simpl. by rewrite Hs.
Qed.

Lemma apply_wp si s :
  0 <= now_of s ->
  wp (apply_setup si) (fun r s' => refused s r s' \/ open_at s /\ closing s s') s.
Proof.
  intros H0. unfold ApplyInitialSetup. apply wp_bind. eapply wp_mono; [by apply wizard_open_wp|].
  intros [[]|x] s1 [Hr|(Hr & Hu & Ho & Hs)]; try (by destruct Hr as (? & ? & ?)); [|by left|done].
  eapply (wp_keeps closing).
  2: { intros r s' Hc. right. split; [done|]. transitivity s1; [|done].
       destruct Hu as (_ & Hn & _). split; [exact Hn|]. left. by rewrite Hs. }
  apply keeps_bind; [typeclasses eauto|apply keeps_fail_if; typeclasses eauto|intros _].
  apply keeps_bind; [typeclasses eauto| |intros _].
  { apply closing_beside. destruct (String.eqb _ "fresh"); [eapply beside_weaken, beside_fresh|apply beside_restore]. }
  apply keeps_bind; [typeclasses eauto|apply keeps_fail_if; typeclasses eauto|intros _].
  apply keeps_bind; [typeclasses eauto|apply closing_beside; unfold hash_password; beside_tac|intros hash].
  apply keeps_bind; [typeclasses eauto|apply closing_beside; unfold setup_admin; beside_tac|intros _].
  apply closing_complete.
Qed.

(** A user exists once the administrator is set up; where none was, it is the one asked for. *)
Lemma create_user_wp username role cidrs hash e :
  wp (StoreUsers.CreateUser username role cidrs false hash) (fun r e' => is_ok r = true -> exists id,
    t_users (e_db e') = <[id := new_user id username role "local" (TrimSpace cidrs) false hash (e_now e)]> (t_users (e_db e))) e.
Proof.
  unfold StoreUsers.CreateUser, insert_user, GetUserByID. do 4 apply wp_bind.
  apply wp_exec_checked; intros fs; [done| |done]. intros _. apply wp_gets, wp_query_row; intros f2; [done| |done].
  intros u _ _. simpl. eauto.
Qed.

Lemma setup_admin_wp username hash s :
  wp (setup_admin username hash) (fun r s' => r = Ok tt -> users_of s' <> ∅ /\
    (users_of s = ∅ -> exists id, users_of s' = {[id := new_user id username RoleAdmin "local" "" false hash (now_of s)]})) s.
Proof.
  set (goal := fun r s' => _). assert (Hc : forall e, t_users (e_db e) = users_of s -> e_now e = now_of s ->
    wp (db (StoreUsers.CreateUser username RoleAdmin "" false hash) ≫= fun _ => mret tt) goal (s <| s_env := e |>)).
  { intros e He Hn. apply wp_bind, wp_db. eapply wp_mono; [apply create_user_wp|]. intros [u|x] e' H; unfold goal; [|done].
    intros _. destruct (H eq_refl) as [id Hid]. simpl in Hid. unfold users_of at 1 3. simpl. rewrite Hid, He. split.
    - apply insert_non_empty.
    - intros ->. exists id. by rewrite Hn. }
  unfold setup_admin. apply wp_bind, wp_db. unfold CountUsers. apply wp_query; intros fs; [done|].
  match goal with |- context [?x =? 0] => destruct (x =? 0) eqn:Hz end; [by apply Hc|].
  assert (Hne : users_of s <> ∅) by (unfold users_of; intros E; by rewrite E in Hz).
  apply wp_bind, wp_try, wp_db. unfold FindUserByUsername. apply wp_query_row; intros f2.
  - by apply wp_fail.
  - intros u _. apply wp_db. unfold SetUserPasswordHashByID, Now. apply wp_bind, wp_gets, wp_exec; intros f3; unfold goal; [done|].
    intros _. split; [|done]. unfold users_of. simpl. intros E. apply Hne. unfold users_of.
    apply (f_equal dom) in E. rewrite dom_alter_L, dom_empty_L in E. by apply dom_empty_inv_L in E.
  - intros _. by apply Hc.
Qed.

Lemma complete_setup_wp mode s :
  wp (complete_setup mode) (fun r s' => users_of s' = users_of s /\ (r = Ok tt -> su_Initialized (s_setup s') = true)) s.
Proof.
  unfold complete_setup. apply wp_bind. unfold wp at 1. rewrite db_now_end. apply wp_bind, wp_db. unfold SetSetting.
  apply wp_exec; intros fs; [done|]. apply wp_bind, wp_modify, wp_db. unfold audit. apply wp_ignore.
  eapply (wp_keeps (same t_users)); [unfold AddAuditEvent, Now; keeps_db|]. intros r e' [He _]. unfold users_of. simpl in *. by rewrite He.
Qed.

(** The administrator a fresh setup makes. *)
Definition administrator (si : SetupApplyInput) (id : Z) (salt : bytes) (now : time) : User :=
  new_user id (or_default (norm (si_AdminUsername si)) "admin") RoleAdmin "local" "" false
    (HashPassword IDKey (si_AdminPassword si) salt DefaultArgonConfig) now.
Definition fresh_mode (si : SetupApplyInput) : Prop := or_default (norm (si_Mode si)) "fresh" = "fresh".

Lemma setup_done_wp si s :
  0 <= now_of s ->
  wp (apply_setup si) (fun r s' => r = Ok tt ->
    open_at s /\ su_Initialized (s_setup s') = true /\ users_of s' <> ∅ /\ MinAdminPassword <= len (TrimSpace (si_AdminPassword si)) /\
    (fresh_mode si -> exists id salt, is_bytes salt /\ users_of s' = {[id := administrator si id salt (now_of s)]})) s.
Proof.
  intros H0. unfold ApplyInitialSetup. apply wp_bind. eapply wp_mono; [by apply wizard_open_wp|].
  intros [[]|x] s1 [Hr|(Hr & Hu & Ho & Hs)]; try (by destruct Hr as (? & ? & ?)); [|done..].
  apply wp_bind, wp_fail_if; intros Hm; [done|]. apply wp_bind.
  apply (wp_mono _ (fun r s2 => now_of s2 = now_of s /\ (fresh_mode si -> users_of s2 = ∅))).
  { destruct Hu as (Hp & Hn & _). fold (now_of s) (now_of s1) in Hn. destruct (String.eqb _ "fresh") eqn:Hf.
    - eapply wp_keeps; [apply beside_fresh|]. intros r s2 (Ht & Hn2 & _). split; [congruence|]. intros _.
      unfold users_of at 1. rewrite Ht. injection Hp as Hp _ _ _. rewrite Hp. apply Ho.
    - eapply wp_keeps; [apply beside_restore|]. intros r s2 (_ & Hn2 & _). split; [congruence|]. intros Hmode.
      unfold fresh_mode in Hmode. by rewrite Hmode in Hf. }
  intros [[]|x] s2 [Hn2 Hu2]; [|done]. apply wp_bind, wp_fail_if; intros Hlen; [done|]. apply wp_bind, wp_hash; [|done].
  intros e' salt Hsalt [Hd Hn']. apply wp_bind. eapply wp_mono; [apply setup_admin_wp|]. intros [[]|x] s3 H3; [|done].
  destruct (H3 eq_refl) as [Hne Hadm]. eapply wp_mono; [apply complete_setup_wp|]. intros r s4 [Hu4 Hi4] ->.
  split; [done|]. split; [by apply Hi4|]. rewrite Hu4. split; [done|]. split; [by apply Z.ltb_ge|].
  intros Hfr. destruct Hadm as [id Hid]; [unfold users_of; simpl; rewrite Hd; by apply Hu2|]. exists id, salt. split; [done|].
  rewrite Hid. unfold administrator. f_equal. f_equal. unfold now_of. simpl. rewrite Hn'. exact Hn2.
Qed.

(* ------------------------------------------------------------------ *)
(** ** The life of a process *)

(** What an unlock attempt shows: the code given, the one written last to the log,
    the time, the expiry of the code it was compared with, and whether it was wrong. *)
Record Guess := mkGuess { g_given : string; g_announced : string; g_at : time; g_epoch : time; g_wrong : bool }.
Definition hit (g : Guess) : Prop := sha256 (bytes_of (TrimSpace (g_given g))) = sha256 (bytes_of (g_announced g)).
Definition is_wrong (r : result SetupStatus) : bool :=
  match r with Err (ErrText m) => String.eqb m "invalid setup code" | _ => false end.
Definition guess (given : string) (r : result SetupStatus) (s' : Svc) : Guess :=
  mkGuess given (su_announced (s_setup s')) (now_of s') (su_OTSExpires (s_setup s')) (is_wrong r).

(** A process starts with nothing in memory, at any state of the store; in between
    the calls of the wizard time passes and the rest of the service does what it
    does.  The unlock attempts are remembered, the last first. *)
Inductive reach : Svc -> list Guess -> Prop :=
| reach_start s : s_setup s = zero_SetupState -> 0 <= now_of s -> reach s []
| reach_wait s s' h : reach s h -> s_setup s' = s_setup s -> now_of s <= now_of s' -> reach s' h
| reach_status s h : reach s h -> reach (GetSetupStatus s).2 h
| reach_unlock s h given r s' : reach s h -> UnlockSetup given s = (r, s') -> reach s' (guess given r s' :: h)
| reach_upload s h name raw pass : reach s h -> reach (upload name raw pass s).2 h
| reach_apply s h si : reach s h -> reach (apply_setup si s).2 h.

(** The wrong guesses at the code that expires at [e], and whether it was ever given. *)
Definition wrongs (e : time) (h : list Guess) : Z :=
  Z.of_nat (length (List.filter (fun g => g_wrong g && (g_epoch g =? e)) h)).
Definition spared (e : time) (h : list Guess) : Prop := Forall (fun g => g_epoch g = e -> ~ hit g) h.

(** The code in force: its failures come in rounds of five, each followed by a
    cooldown that starts later than the code does. *)
Record live (now : time) (u : SetupState) (h : list Guess) : Prop := {
  lv_epochs : Forall (fun g => g_wrong g = true -> g_epoch g <= su_OTSExpires u) h;
  lv_expiry : su_OTSExpires u <= now + setupOTSTTL;
  lv_hash : 0 < su_OTSExpires u -> su_OTSHash u = sha256 (bytes_of (su_announced u));
  lv_attempts : 0 <= su_Attempts u < setupMaxAttempts;
  lv_rounds : spared (su_OTSExpires u) h -> exists q, 0 <= q /\ wrongs (su_OTSExpires u) h = setupMaxAttempts * q + su_Attempts u /\
    (q = 0 \/ su_OTSExpires u - setupOTSTTL + setupCooldownTTL * q <= su_Cooldown u)
}.
Record sound (now : time) (u : SetupState) (h : list Guess) : Prop := {
  sn_now : 0 <= now;
  sn_bound : forall e, spared e h -> wrongs e h <= 20;
  sn_until : su_UnlockUntil u = 0 \/ exists g, g ∈ h /\ hit g /\ su_UnlockUntil u = Add (g_at g) setupUnlockTTL;
  sn_live : su_Initialized u = false -> live now u h
}.

Lemma sound_zero now : 0 <= now -> sound now zero_SetupState [].
Proof.
  intros H. split; [done|by intros e _|by left|]. intros _. split; [constructor|change (0 <= now + setupOTSTTL)|intros Hx; change (0 < 0) in Hx; lia|done|intros _].
  - unfold setupOTSTTL, Minute, Second. lia.
  - exists 0. split_and!; [done..|by left].
Qed.

Lemma wrongs_none e h : Forall (fun g => g_wrong g = true -> g_epoch g < e) h -> wrongs e h = 0.
Proof.
  unfold wrongs. induction 1 as [|g h Hg _ IH]; [done|]. simpl. destruct (g_wrong g); simpl; [|done].
  specialize (Hg eq_refl). destruct (g_epoch g =? e) eqn:E; [lia|done].
Qed.

Lemma sound_wait now now' u h : sound now u h -> now <= now' -> sound now' u h.
Proof. intros [H1 H2 H3 H4] Hn. split; [lia|done..|]. intros Hi. destruct (H4 Hi). split; try done. lia. Qed.

Lemma sound_ensured now users u u' h : sound now u h -> ensured now users u u' -> sound now u' h.
Proof.
  intros [H1 H2 H3 H4] [|? ? ?|code Hi Hu Hx]; [by split|by split|]. destruct (H4 Hi) as [L1 L2 L3 L4 L5].
  split; [done..|by left|]. intros _.
  assert (Hlt : Forall (fun g => g_wrong g = true -> g_epoch g < Add now setupOTSTTL) h).
  { eapply Forall_impl; [exact L1|]. intros g Hg Hw. specialize (Hg Hw). unfold Add, setupOTSTTL, Minute, Second. simpl in *. lia. }
  split; simpl; try done.
  - eapply Forall_impl; [exact Hlt|]. intros g Hg Hw. specialize (Hg Hw). simpl in *. lia.
  - intros _. exists 0. split; [done|]. split; [by apply wrongs_none|by left].
Qed.

Lemma sound_forget now u u' h : sound now u h -> forget u' = forget u -> sound now u' h.
Proof.
  intros [H1 H2 H3 H4] E. apply forget_eq in E. destruct E as (E1 & E2 & E3 & E4 & E5 & E6 & E7).
  split; [done..|by rewrite E4|]. rewrite E1. intros Hi. destruct (H4 Hi) as [L1 L2 L3 L4 L5].
  split; rewrite ?E2, ?E3, ?E5, ?E6, ?E7; done.
Qed.

Lemma wrongs_cons e g h : wrongs e (g :: h) = (if g_wrong g && (g_epoch g =? e) then 1 else 0) + wrongs e h.
Proof. unfold wrongs. simpl. destruct (_ && _); simpl; lia. Qed.

(** An attempt that was not answered as wrong counts for nothing. *)
Lemma sound_quiet now u g h : sound now u h -> g_wrong g = false -> sound now u (g :: h).
Proof.
  intros [H1 H2 H3 H4] Hw. assert (Hc : forall e, wrongs e (g :: h) = wrongs e h) by (intros e; by rewrite wrongs_cons, Hw).
  split; [done|intros e He; rewrite Hc; inv He; by apply H2| |].
  - destruct H3 as [H3|(g' & Hin & Hg')]; [by left|right]. exists g'. split; [by right|done].
  - intros Hi. destruct (H4 Hi) as [L1 L2 L3 L4 L5]. split; [|done..|].
    + constructor; [by rewrite Hw|done].
    + intros Hs. rewrite Hc. inv Hs. by apply L5.
Qed.

Lemma sound_right now u given h :
  sound now u h -> su_Initialized u = false -> now < su_OTSExpires u -> sha256 (bytes_of (TrimSpace given)) = su_OTSHash u ->
  sound now (unlocked_at now u) (mkGuess given (su_announced u) now (su_OTSExpires u) false :: h).
Proof.
  intros Hs Hi Hx Hc. apply (sound_quiet _ _ (mkGuess given (su_announced u) now (su_OTSExpires u) false)) in Hs; [|done].
  destruct Hs as [H1 H2 H3 H4]. destruct (H4 Hi) as [L1 L2 L3 L4 L5].
  assert (Hh : hit (mkGuess given (su_announced u) now (su_OTSExpires u) false)) by (unfold hit; simpl; rewrite Hc; apply L3; lia).
  split; [done..| |].
  - right. eexists. split; [by left|]. done.
  - intros _. split; simpl; [done..|]. intros Hsp. exfalso. inv Hsp. by apply (H5 eq_refl).
Qed.

(** A wrong code: no round starts before its cooldown is over, and the code is dead
    after twenty minutes. *)
Lemma sound_wrong now u g h :
  sound now u h -> su_Initialized u = false -> now < su_OTSExpires u -> su_Cooldown u <= now ->
  g_epoch g = su_OTSExpires u -> g_wrong g = true -> sound now (count_failure now u) (g :: h).
Proof.
  intros [H1 H2 H3 H4] Hi Hx Hcd He Hw. destruct (H4 Hi) as [L1 L2 L3 L4 L5].
  assert (Hr : spared (su_OTSExpires u) (g :: h) -> exists q, 0 <= q <= 3 /\
    wrongs (su_OTSExpires u) (g :: h) = setupMaxAttempts * q + su_Attempts u + 1).
  { intros Hs. inv Hs. destruct (L5 H6) as (q & Hq & Hn & Hcool). exists q. rewrite wrongs_cons, Hw, He, Z.eqb_refl, Hn. simpl.
    split; [|lia]. unfold setupOTSTTL, setupCooldownTTL, Minute, Second in Hcool. lia. }
  assert (Hb : forall e, spared e (g :: h) -> wrongs e (g :: h) <= 20).
  { intros e Hs. destruct (decide (e = su_OTSExpires u)) as [->|Hne].
    - destruct (Hr Hs) as (q & Hq & ->). unfold setupMaxAttempts in *. lia.
    - rewrite wrongs_cons. inv Hs. specialize (H2 e H6). destruct (g_epoch g =? e) eqn:E; [lia|]. rewrite andb_false_r. lia. }
  assert (Hu : su_UnlockUntil u = 0 \/ exists g0, g0 ∈ g :: h /\ hit g0 /\ su_UnlockUntil u = Add (g_at g0) setupUnlockTTL).
  { destruct H3 as [H3|(g' & Hin & Hg')]; [by left|right]. exists g'. split; [by right|done]. }
  assert (Hep : Forall (fun g0 => g_wrong g0 = true -> g_epoch g0 <= su_OTSExpires u) (g :: h)) by (constructor; [lia|done]).
  assert (Hq : spared (su_OTSExpires u) (g :: h) -> exists q, 0 <= q /\
    wrongs (su_OTSExpires u) (g :: h) = setupMaxAttempts * q + su_Attempts u + 1 /\
    (q = 0 \/ su_OTSExpires u - setupOTSTTL + setupCooldownTTL * q <= su_Cooldown u)).
  { intros Hs. inv Hs. destruct (L5 H6) as (q & Hq & Hn & Hcool). exists q. rewrite wrongs_cons, Hw, He, Z.eqb_refl, Hn. simpl.
    split_and!; [done|lia|done]. }
  unfold count_failure. simpl. destruct (setupMaxAttempts <=? Z.succ (su_Attempts u)) eqn:Hm; (split; [done..|]); intros _; split; simpl; try done.
  - intros Hs. destruct (Hq Hs) as (q & H0 & Hn & Hcool). exists (q + 1). split; [lia|]. apply Z.leb_le in Hm.
    unfold setupMaxAttempts in *. split; [lia|right]. unfold Add, setupOTSTTL, setupCooldownTTL, Minute, Second in *. lia.
  - apply Z.leb_gt in Hm. lia.
  - intros Hs. destruct (Hq Hs) as (q & H0 & Hn & Hcool). exists q. split_and!; [done|lia|done].
Qed.

Lemma count_failure_frame now u :
  su_announced (count_failure now u) = su_announced u /\ su_OTSExpires (count_failure now u) = su_OTSExpires u.
Proof. unfold count_failure. simpl. by case_match. Qed.

Lemma sound_unlock now given u r u' h :
  sound now u h -> (su_Initialized u = false -> now < su_OTSExpires u) -> unlocked_by now given u r u' ->
  sound now u' (mkGuess given (su_announced u') now (su_OTSExpires u') (is_wrong r) :: h).
Proof.
  intros Hs Hx [st Hi _|Hb|Hi Hc _|st Hi Hc _].
  - by apply sound_quiet.
  - by apply sound_quiet.
  - destruct (count_failure_frame now u) as [-> ->]. by apply sound_wrong; [|auto|auto|..].
  - by apply (sound_right now u); [|auto|auto|].
Qed.

Lemma reach_sound s h : reach s h -> sound (now_of s) (s_setup s) h.
Proof.
  induction 1 as [s Hz H0|s s' h _ IH E Hn|s h _ IH|s h given r s' _ IH E|s h name raw pass _ IH|s h si _ IH].
  - rewrite Hz. by apply sound_zero.
  - rewrite E. by eapply sound_wait.
  - apply (wp_apply GetSetupStatus (fun _ s' => sound (now_of s') (s_setup s') h)). unfold GetSetupStatus. apply wp_bind.
    eapply wp_mono; [apply ensure_wp|]. intros [[]|x] s1 [(_ & Hn & _) He]; fold (now_of s1) (now_of s) in Hn.
    + apply wp_bind. unfold wp at 1. rewrite db_now_end. apply wp_bind, wp_gets, wp_ret. rewrite Hn. by eapply sound_ensured.
    + rewrite Hn. by destruct He as [-> _].
  - revert r s' E. apply wp_runs. eapply wp_mono; [apply unlock_wp|]. intros r s' [(_ & Hn & _) H].
    fold (now_of s') (now_of s) in Hn. unfold guess. rewrite Hn. destruct H as [(x & -> & Hx & ->)|(u & He & Hu)].
    + apply sound_quiet; [done|]. simpl. destruct x; try done. apply String.eqb_neq. congruence.
    + eapply sound_unlock; [by eapply sound_ensured|by eapply ensured_expiry|done].
  - apply (wp_apply (upload name raw pass) (fun _ s' => sound (now_of s') (s_setup s') h)).
    eapply wp_mono; [apply upload_wp, IH|]. intros r s' [[(_ & Hn & _) [_ H]]|((_ & Hn & _) & _ & H)];
      fold (now_of s') (now_of s) in Hn; rewrite Hn; [|by eapply sound_forget].
    destruct H as [->|H]; [done|by eapply sound_ensured].
  - apply (wp_apply (apply_setup si) (fun _ s' => sound (now_of s') (s_setup s') h)).
    eapply wp_mono; [apply apply_wp, IH|]. intros r s' [[(_ & Hn & _) [_ H]]|[_ [Hn H]]];
      try (fold (now_of s') (now_of s) in Hn); rewrite Hn.
    + destruct H as [->|H]; [done|by eapply sound_ensured].
    + destruct H as [H|[Hi Hu]]; [by eapply sound_forget|]. destruct IH as [H1 H2 H3 H4].
      split; [done..|by left|]. congruence.
Qed.

(* ------------------------------------------------------------------ *)
(** ** The properties *)

(** C9. While no code was given that the process had written to its log, within the last
    forty-five minutes, [ApplyInitialSetup] is refused and touches no account, no
    domain, no host, no secret and no key, whatever the wizard, the clock and the
    rest of the service did before. *)
Theorem setup_needs_code s h si r s' :
  reach s h -> apply_setup si s = (r, s') ->
  (exists g, g ∈ h /\ hit g /\ now_of s < Add (g_at g) setupUnlockTTL) \/ (is_ok r = false /\ untouched s s').
Proof.
  intros Hr. pose proof (reach_sound s h Hr) as [H0 _ Hu _]. revert r s'. apply wp_runs.
  eapply wp_mono; [by apply apply_wp|]. intros r s' [(Hun & Hok & _)|[(_ & _ & Hopen) _]]; [by right|left].
  destruct Hu as [Hu|(g & Hin & Hh & Hu)]; [lia|]. exists g. split_and!; [done..|lia].
Qed.

(** C24. A code withstands guessing: as long as it has not been given, at most twenty
    attempts at it are answered as wrong, however they are spread over its twenty
    minutes. *)
Theorem guesses_bounded s h e : reach s h -> spared e h -> wrongs e h <= 20.
Proof. intros Hr. apply (reach_sound s h Hr). Qed.

(** C10. Once there is a user the wizard is closed for good: it unlocks for no code, takes
    no package and applies nothing, and leaves every account, domain, host, secret and
    the key as they are. *)
Theorem setup_closed s given name raw pass si :
  0 <= now_of s -> users_of s <> ∅ ->
  wp (UnlockSetup given) (fun r s' => untouched s s' /\ forall st, r = Ok st -> ss_Unlocked st = false) s /\
  wp (upload name raw pass) (fun r s' => untouched s s' /\ is_ok r = false) s /\
  wp (apply_setup si) (fun r s' => untouched s s' /\ is_ok r = false) s.
Proof.
  intros H0 Hne. split_and!.
  - eapply wp_mono; [apply unlock_wp|]. intros r s' [Hu H]. split; [done|]. intros st ->.
    destruct H as [(x & [=] & _)|(u & He & Hb)]. inv He; simpl in *; [|done..]. by inv Hb.
  - eapply wp_mono; [by apply upload_wp|]. intros r s' [(? & ? & _)|(_ & [? _] & _)]; done.
  - eapply wp_mono; [by apply apply_wp|]. intros r s' [(? & ? & _)|[[? _] _]]; done.
Qed.

(** When the setup ends well it was unlocked, no user existed, and now one does; a
    fresh setup has made the administrator asked for, the only user, whose password
    has at least ten characters and is stored as a hash under a new salt. *)
Theorem setup_makes_admin si s s' :
  0 <= now_of s -> apply_setup si s = (Ok tt, s') ->
  open_at s /\ su_Initialized (s_setup s') = true /\ users_of s' <> ∅ /\ MinAdminPassword <= len (TrimSpace (si_AdminPassword si)) /\
  (fresh_mode si -> exists id salt, is_bytes salt /\ users_of s' = {[id := administrator si id salt (now_of s)]}).
Proof. intros H0 E. by apply (wp_run _ _ _ _ _ (setup_done_wp si s H0) E). Qed.
End applying.

(* ------------------------------------------------------------------ *)
(** ** A first run *)

Definition first_start : Svc :=
  new_svc_with (mkConfig "" "127.0.0.1:8443" "" false) [] "" "edge"
    (mkEnv empty_DB 1000 [] ["eighteen bytes....."; "0123456789abcdef"; "fedcba9876543210"]) None.
Definition first_input : SetupApplyInput :=
  mkSetupApplyInput "" "Root" "correct horse" "" false "" "" "" "system_only" "" defaultLogServerSettings ""
    (mkRetentionPolicy 30 30 30 30 30 30 30) "" "" "" "" "" "" "" false.
Local Abbreviation toy_apply := (ApplyInitialSetup (Ok "default via 192.0.2.1 dev eth0") (fun _ => None) (fun _ => "") (fun _ => "")
  (fun _ => "") (fun _ => None) toy_derivation toy_seal toy_open None (Err ErrDriver)
  (mkNetwork (fun _ => Err ErrDriver) (fun _ _ => Err ErrDriver) (fun _ _ _ => None) (fun _ _ => Err ErrDriver))
  (fun _ => mkCloudflare (fun _ _ => Err ErrDriver) (fun _ _ _ => Err ErrDriver) (fun _ _ _ => Err ErrDriver))
  (fun _ => None) (fun _ => Ok tt) true).

Definition started : Svc := (GetSetupStatus first_start).2.
Definition announced : string := su_announced (s_setup started).
Local Abbreviation toy_unlocked := (UnlockSetup announced started).
Local Abbreviation toy_done := (toy_apply first_input toy_unlocked.2).

Local Abbreviation toy_upload := (UploadSetupBackup Toy.scrypt Toy.open Toy.unpack Toy.decode).
Local Abbreviation toy_reach := (reach Toy.scrypt Toy.open Toy.unpack Toy.decode
  (Ok "default via 192.0.2.1 dev eth0") (fun _ => None) (fun _ => "") (fun _ => "")
  (fun _ => "") (fun _ => None) toy_derivation toy_seal toy_open None (Err ErrDriver)
  (mkNetwork (fun _ => Err ErrDriver) (fun _ _ => Err ErrDriver) (fun _ _ _ => None) (fun _ _ => Err ErrDriver))
  (fun _ => mkCloudflare (fun _ _ => Err ErrDriver) (fun _ _ _ => Err ErrDriver) (fun _ _ _ => Err ErrDriver))
  (fun _ => None) (fun _ => Ok tt) true).

Lemma first_run :
  toy_done.1 = Ok tt /\ is_ok (toy_apply first_input started).1 = false /\ users_of toy_done.2 <> ∅ /\ 0 <= now_of toy_done.2 /\
  0 <= now_of toy_unlocked.2.
Proof. split_and!; [vm_compute; reflexivity..| |vm_compute; discriminate|vm_compute; discriminate]. intros E. vm_compute in E. discriminate E. Qed.

Lemma first_reach : toy_reach started [].
Proof. apply reach_status, reach_start; [reflexivity|vm_compute; discriminate]. Qed.

(** A wrong code, again and again. *)
Fixpoint tries (n : nat) (sh : Svc * list Guess) : Svc * list Guess :=
  match n with
  | O => sh
  | S n => let '(r, s') := UnlockSetup "WRONG" sh.1 in tries n (s', guess "WRONG" r s' :: sh.2)
  end.
Lemma tries_reach n s h : toy_reach s h -> toy_reach (tries n (s, h)).1 (tries n (s, h)).2.
Proof.
  revert s h. induction n as [|n IH]; intros s h H; [done|]. simpl.
  destruct (UnlockSetup "WRONG" s) as [r s'] eqn:E. apply IH. by eapply reach_unlock.
Qed.
Local Abbreviation tried := (tries 6 (started, [])).
Lemma tried_facts : map g_wrong tried.2 = [false; true; true; true; true; true] /\ spared (su_OTSExpires (s_setup started)) tried.2.
Proof.
  split; [vm_compute; reflexivity|].
  assert (H : forallb (fun g => negb (bool_decide (sha256 (bytes_of (TrimSpace (g_given g))) = sha256 (bytes_of (g_announced g))))) tried.2 = true)
    by (vm_compute; reflexivity).
  apply Forall_forall. intros g Hg _ Hh. rewrite forallb_forall in H. specialize (H g (proj1 (list_elem_of_In _ _) Hg)).
  by rewrite bool_decide_true in H.
Qed.

Lemma setup_needs_code_witness :
  toy_reach started [] /\ untouched started (toy_apply first_input started).2.
Proof.
  split; [exact first_reach|]. destruct (toy_apply first_input started) as [r s'] eqn:E.
  pose proof (setup_needs_code _ _ _ _ _ _ _ _ _ _ _ _ _ _ _ _ _ _ _ _ started [] first_input r s' first_reach E) as H. destruct H as [(g & Hin & _)|[_ H]]; [by apply not_elem_of_nil in Hin|exact H].
Defined.

Lemma guesses_bounded_witness :
  toy_reach tried.1 tried.2 /\ wrongs (su_OTSExpires (s_setup started)) tried.2 <= 20.
Proof.
  assert (H : toy_reach tried.1 tried.2) by exact (tries_reach 6 _ _ first_reach).
  split; [exact H|]. apply (guesses_bounded _ _ _ _ _ _ _ _ _ _ _ _ _ _ _ _ _ _ _ _ _ _ _ H), tried_facts.
Defined.

Lemma setup_closed_witness :
  (forall r s', toy_apply first_input toy_done.2 = (r, s') -> is_ok r = false) /\
  (forall r s', UnlockSetup announced toy_done.2 = (r, s') -> forall st, r = Ok st -> ss_Unlocked st = false).
Proof.
  destruct first_run as (_ & _ & Hu & H0 & _). generalize dependent (toy_done.2). intros s Hu H0.
  split; intros r s' E.
  - pose proof (setup_closed Toy.scrypt Toy.open Toy.unpack Toy.decode
      (Ok "default via 192.0.2.1 dev eth0") (fun _ => None) (fun _ => "") (fun _ => "")
      (fun _ => "") (fun _ => None) toy_derivation toy_seal toy_open None (Err ErrDriver)
      (mkNetwork (fun _ => Err ErrDriver) (fun _ _ => Err ErrDriver) (fun _ _ _ => None) (fun _ _ => Err ErrDriver))
      (fun _ => mkCloudflare (fun _ _ => Err ErrDriver) (fun _ _ _ => Err ErrDriver) (fun _ _ _ => Err ErrDriver))
      (fun _ => None) (fun _ => Ok tt) true s announced "" [] "" first_input H0 Hu) as (_ & _ & H).
    by apply (wp_run _ _ _ _ _ H E).
  - eapply (wp_run _ _ _ _ _ (proj1 (setup_closed Toy.scrypt Toy.open Toy.unpack Toy.decode
      (Ok "") (fun _ => None) (fun _ => "") (fun _ => "")
      (fun _ => "") (fun _ => None) toy_derivation toy_seal toy_open None (Err ErrDriver)
      (mkNetwork (fun _ => Err ErrDriver) (fun _ _ => Err ErrDriver) (fun _ _ _ => None) (fun _ _ => Err ErrDriver))
      (fun _ => mkCloudflare (fun _ _ => Err ErrDriver) (fun _ _ _ => Err ErrDriver) (fun _ _ _ => Err ErrDriver))
      (fun _ => None) (fun _ => Ok tt) true s announced "" [] "" first_input H0 Hu)) E).
Defined.

Lemma setup_makes_admin_witness :
  exists id salt, users_of toy_done.2 = {[id := administrator toy_derivation first_input id salt (now_of toy_unlocked.2)]}.
Proof.
  destruct first_run as (Hok & _ & _ & _ & H0). destruct toy_done as [r s'] eqn:E. simpl in Hok. subst r.
  apply setup_makes_admin in E; [|exact H0]. destruct E as (_ & _ & _ & _ & H). destruct (H eq_refl) as (id & salt & _ & Hs). by exists id, salt.
Defined.

(** Unlocked for forty-five minutes, the wizard locks when the code expires: twenty
    minutes after the code was made. *)
Definition at_time (t : time) (s : Svc) : Svc := s <| s_env ::= fun e => e <| e_now := t |> |>.
Example unlock_cut_short :
  let s := at_time (20 * Minute + 1000) toy_unlocked.2 in
  match toy_unlocked.1, (GetSetupStatus s).1 with
  | Ok st, Ok st' => Before (now_of s) (ss_UnlockUntil st) = true /\ ss_Unlocked st' = false
  | _, _ => False
  end.
Proof. vm_compute. split; reflexivity. Qed.

(** The password of the administrator is looked at last: what a refused setup has
    made makes the next one fail. *)
Definition short_password : SetupApplyInput :=
  mkSetupApplyInput "" "root" "short" "" false "" "" "" "system_only" "" defaultLogServerSettings ""
    (mkRetentionPolicy 30 30 30 30 30 30 30) "example.org" "" "" "" "" "www" "http://192.0.2.7:8080" false.
Definition long_password : SetupApplyInput :=
  mkSetupApplyInput "" "root" "correct horse" "" false "" "" "" "system_only" "" defaultLogServerSettings ""
    (mkRetentionPolicy 30 30 30 30 30 30 30) "example.org" "" "" "" "" "www" "http://192.0.2.7:8080" false.
Example password_checked_last :
  let r1 := toy_apply short_password toy_unlocked.2 in
  let r2 := toy_apply long_password r1.2 in
  r1.1 = Err (ErrText "admin password must be at least 10 characters") /\ is_ok r2.1 = false /\
  is_ok (toy_apply long_password toy_unlocked.2).1 = true /\ users_of r2.2 = ∅.
Proof. vm_compute. split_and!; reflexivity. Qed.
