(* ===== verification/LdapSync.v ===== *)
(** [internal/app/ldap_sync.go]: the LDAP shadow users that are gone from the
    directory are deleted here, the users deleted here are deleted there.

    The client of the LDAP server is a parameter: the outcome of dialing, of
    [StartTLS] and of [Bind], the answer to a search and to a deletion.  Answers may
    depend on the deletions asked before, which [s_ldapDeletes] logs.  The timer of
    [StartLDAPUserSync] is left out. *)

From S2P Require Import Prelude GoString GoMonad GoTime GoUrl GoCrypto Crypto Model StoreDB StoreThreat StoreUsers.
From S2P Require Import LogServers Auth Service Vault Hosts Settings.

(** [ldap.NewSearchRequest]: base, whether the whole subtree or the entry alone, the
    limits of entries and seconds, filter and attributes. *)
Record SearchRequest := mkSearchRequest {
  sr_Base : string; sr_Subtree : bool; sr_SizeLimit : Z; sr_TimeLimit : Z; sr_Filter : string; sr_Attributes : list string
}.

Definition dedupLower (l : list string) : list string := dedup_seen norm nonempty ∅ l.

(** [e.GetAttributeValue(a)] *)
Definition GetAttributeValue (e : Entry) (a : string) : string := default "" (head (en_values e a)).

Section client.
Context (EscapeFilter : string -> string).
Context (dial : string -> option bool -> result unit) (start_tls : bool -> result unit) (bind : string -> string -> result unit).
Context (search : list string -> SearchRequest -> result (list Entry)) (del : list string -> string -> result unit).

(** The URL that is dialled; with TLS, whether the certificate is left unchecked. *)
Definition dialLDAPConnection (cfg : LDAPSettings) (bindPassword : string) : result unit :=
  let rawURL := TrimSpace (ld_URL cfg) in
  if String.eqb rawURL "" then Err (ErrText "ldap url missing")
  else match Parse rawURL with
  | None => Err (ErrText "parse url")
  | Some u =>
      let rawURL := if String.eqb (url_Scheme u) "" then "ldaps://" +:+ rawURL else rawURL in
      _ ← dial rawURL (if HasPrefix (ToLower rawURL) "ldaps://" then Some (ld_InsecureSkipVerify cfg) else None);
      _ ← (if HasPrefix (ToLower rawURL) "ldap://" && ld_StartTLS cfg then start_tls (ld_InsecureSkipVerify cfg) else Ok tt);
      bind (TrimSpace (ld_BindDN cfg)) bindPassword
  end.

Definition name_attributes (cfg : LDAPSettings) : list string := [TrimSpace (ld_UserAttr cfg); "uid"; "sAMAccountName"; "cn"].

(** The first attribute that holds a name. *)
Definition name_of_entry (attrs : list string) (e : Entry) : option string :=
  head (List.filter nonempty (map (fun a => norm (GetAttributeValue e a)) (List.filter nonempty (map TrimSpace attrs)))).

Definition resolveUsernameFromDN (gone : list string) (cfg : LDAPSettings) (dn : string) : option string :=
  let dn := TrimSpace dn in
  if String.eqb dn "" then None
  else match search gone (mkSearchRequest dn false 1 5 "(objectClass=*)" (name_attributes cfg)) with
  | Ok (e :: _) => name_of_entry (name_attributes cfg) e
  | _ => None
  end.

Definition group_request (cfg : LDAPSettings) (g : string) : SearchRequest :=
  mkSearchRequest (TrimSpace (ld_GroupBaseDN cfg)) true 0 8 ("(cn=" +:+ EscapeFilter g +:+ ")") ["memberUid"; "member"; "uniqueMember"].

(** The names an entry of a group stands for. *)
Definition members (gone : list string) (cfg : LDAPSettings) (e : Entry) : list string :=
  List.filter nonempty (map norm (en_values e "memberUid"))
  ++ omap (resolveUsernameFromDN gone cfg) (en_values e "member" ++ en_values e "uniqueMember").

Definition mapped_groups (cfg : LDAPSettings) : list string :=
  dedupLower [ld_AdminGroup cfg; ld_DomainAdminGroup cfg; ld_ReadOnlyGroup cfg].

Fixpoint collect_groups (gone : list string) (cfg : LDAPSettings) (out : gset string) (groups : list string) : result (gset string) :=
  match groups with
  | [] => Ok out
  | g :: l =>
      entries ← search gone (group_request cfg g);
      collect_groups gone cfg (out ∪ list_to_set (concat (map (members gone cfg) entries))) l
  end.
Definition listLDAPMappedUsers (gone : list string) (cfg : LDAPSettings) : result (gset string) :=
  collect_groups gone cfg ∅ (mapped_groups cfg).

Definition findLDAPUserDN (gone : list string) (cfg : LDAPSettings) (username : string) : result (option string) :=
  let username := TrimSpace username in
  if String.eqb username "" then Ok None
  else
    let attr := or_default (TrimSpace (ld_UserAttr cfg)) "uid" in
    entries ← search gone (mkSearchRequest (TrimSpace (ld_UserBaseDN cfg)) true 2 8
      ("(" +:+ attr +:+ "=" +:+ EscapeFilter username +:+ ")") ["dn"]);
    Ok (match entries with [] => None | e :: _ => Some (TrimSpace (en_DN e)) end).

(* ------------------------------------------------------------------ *)
(** ** One round *)

Context (decode_ldap : string -> option LDAPSettings) (Open : bytes -> bytes -> bytes -> option bytes).

Definition loadLDAPBindPassword : AM string :=
  r ← try_ (db (GetSecret "auth.ldap.bind_password"));
  match r with
  | Err e => fail (if is_no_rows e then ErrText "ldap bind password missing" else e)
  | Ok enc =>
      d ← try_ (decrypt Open enc);
      match d with Ok dec => mret dec | Err _ => fail (ErrText "ldap bind password decrypt failed") end
  end.

(** The shadow users by name; the last of several with one name is kept. *)
Definition shadow_name (u : User) : option string :=
  if is_ldap u && nonempty (norm (u_Username u)) then Some (norm (u_Username u)) else None.
Definition localLDAP (users : list User) : gmap string User :=
  foldl (fun m u => match shadow_name u with Some un => <[un := u]> m | None => m end) ∅ users.

(** The deletion of one shadow user; the count of those that are gone. *)
Definition remove_shadow (remote : gset string) (n : Z) (x : string * User) : AM Z :=
  let '(un, u) := x in
  if bool_decide (un ∈ remote) then mret n
  else
    r ← try_ (db (DeleteUser (u_ID u)));
    match r with
    | Err _ => mret n
    | Ok _ => db (audit "system" "auth.ldap.sync.shadow_removed" un "reason=missing_in_ldap") ≫= fun _ => mret (n + 1)
    end.

Definition ldap_delete (dn : string) : AM unit :=
  gone ← gets s_ldapDeletes;
  modify (fun s => s <| s_ldapDeletes ::= fun l => l ++ [dn] |>) ≫= fun _ => lift (del gone dn).

(** One name of the queue of deletions. *)
Definition remote_delete (cfg : LDAPSettings) (n : Z) (un : string) : AM Z :=
  gone ← gets s_ldapDeletes;
  match findLDAPUserDN gone cfg un with
  | Err e => ignore (db (SetLDAPDeleteQueueError un (error_text e))) ≫= fun _ => mret n
  | Ok None =>
      ignore (db (RemoveLDAPDeleteQueue un)) ≫= fun _ =>
      db (audit "system" "auth.ldap.sync.remote_delete_skipped" un "reason=not_found") ≫= fun _ => mret n
  | Ok (Some dn) =>
      r ← try_ (ldap_delete dn);
      match r with
      | Err e => ignore (db (SetLDAPDeleteQueueError un (error_text e))) ≫= fun _ => mret n
      | Ok _ =>
          ignore (db (RemoveLDAPDeleteQueue un)) ≫= fun _ =>
          db (audit "system" "auth.ldap.sync.remote_deleted" un ("dn=" +:+ dn)) ≫= fun _ => mret (n + 1)
      end
  end.

Definition syncLDAPUsersOnce : AM unit :=
  cfg ← getLDAPSettings decode_ldap;
  if negb (ld_Enabled cfg) then mret tt
  else
    bindPassword ← loadLDAPBindPassword;
    lift (dialLDAPConnection cfg bindPassword) ≫= fun _ =>
    gone ← gets s_ldapDeletes;
    remote ← lift (listLDAPMappedUsers gone cfg);
    users ← db ListUsers;
    shadowRemoved ← fold_each (remove_shadow remote) 0 (map_to_list (localLDAP users));
    queued ← db (ListLDAPDeleteQueue 2000);
    remoteDeleted ← fold_each (remote_delete cfg) 0 queued;
    when ((0 <? shadowRemoved) || (0 <? remoteDeleted))
      (db (audit "system" "auth.ldap.sync.summary" "ldap"
         ("shadow_removed=" +:+ Itoa shadowRemoved +:+ ";remote_deleted=" +:+ Itoa remoteDeleted))).
End client.

(* ------------------------------------------------------------------ *)
(** ** What a round may change *)

Lemma wp_fold_each {S A B} (f : B -> A -> M S B) (I : S -> Prop) l b s :
  (forall y x s, x ∈ l -> I s -> wp (f y x) (fun _ s' => I s') s) -> I s -> wp (fold_each f b l) (fun _ s' => I s') s.
Proof.
  revert b s. induction l as [|x l IH]; intros b s H Hs; simpl; [by apply wp_ret|].
  apply wp_bind. eapply wp_mono; [by apply H; [left|]|]. intros [y|e] s' Hs'; [|done].
  apply IH; [|done]. intros y' x' s'' Hx. apply H. by right.
Qed.

Definition users_of_svc (s : Svc) : gmap Z User := t_users (e_db (s_env s)).
Definition queue_of (s : Svc) : gmap string DeleteQueueRow := t_ldap_delete_queue (e_db (s_env s)).
Definition users_keyed (s : Svc) : Prop := map_Forall (fun k u => u_ID u = k) (users_of_svc s).

Section sync.
Context (EscapeFilter : string -> string).
Context (dial : string -> option bool -> result unit) (start_tls : bool -> result unit) (bind : string -> string -> result unit).
Context (search : list string -> SearchRequest -> result (list Entry)) (del : list string -> string -> result unit).
Context (decode_ldap : string -> option LDAPSettings) (Open : bytes -> bytes -> bytes -> option bytes).

Local Abbreviation sync := (syncLDAPUsersOnce EscapeFilter dial start_tls bind search del decode_ldap Open).
Local Abbreviation mapped := (listLDAPMappedUsers EscapeFilter search).
Local Abbreviation find := (findLDAPUserDN EscapeFilter search).

(** The columns the two halves of a round work on. *)
Definition ldap_columns (d : DB) := (t_users d, t_ldap_delete_queue d).
Definition still (s s' : Svc) : Prop :=
  ldap_columns (e_db (s_env s')) = ldap_columns (e_db (s_env s)) /\ s_ldapDeletes s' = s_ldapDeletes s.

#[export] Instance still_preorder : PreOrder still.
Proof. split; unfold still; [done|]. intros a b c [] []. split; congruence. Qed.

Lemma still_db {A} (m : SM A) : keeps (same ldap_columns) m -> keeps still (db m).
Proof. intros H s. specialize (H (s_env s)). unfold db, zoom, still. destruct (m (s_env s)) as [r e]. by destruct H. Qed.

Lemma still_audit actor action target meta : keeps still (db (audit actor action target meta)).
Proof. apply still_db. unfold audit, AddAuditEvent, Now. keeps_db. Qed.

Lemma still_settings : keeps still (getLDAPSettings decode_ldap).
Proof. unfold getLDAPSettings, setting_or, GetSetting. keeps_tac; try typeclasses eauto. apply still_db. keeps_db. Qed.

Lemma still_password : keeps still (loadLDAPBindPassword Open).
Proof. unfold loadLDAPBindPassword, decrypt, GetSecret. keeps_tac; try typeclasses eauto. apply still_db. keeps_db. Qed.

Lemma elem_of_localLDAP users un u : localLDAP users !! un = Some u -> u ∈ users /\ shadow_name u = Some un.
Proof.
  unfold localLDAP. induction users as [|x l IH] using rev_ind; [done|]. rewrite foldl_app. simpl.
  destruct (shadow_name x) as [un'|] eqn:E; [destruct (decide (un' = un)) as [->|Hne]|].
  - rewrite lookup_insert. destruct (decide (un = un)); [|done]. intros [= ->]. set_solver.
  - rewrite lookup_insert_ne by done. intros H. apply IH in H. set_solver.
  - intros H. apply IH in H. set_solver.
Qed.

(** The settings in force when a round begins. *)
Definition in_force (s : Svc) (cfg : LDAPSettings) : Prop := (getLDAPSettings decode_ldap s).1 = Ok cfg.

(** A user that may go: a shadow user none of the groups knows that these settings map. *)
Definition orphan (s : Svc) (u : User) : Prop :=
  is_ldap u = true /\ exists cfg remote, in_force s cfg /\ ld_Enabled cfg = true /\
    mapped (s_ldapDeletes s) cfg = Ok remote /\ norm (u_Username u) ∉ remote.

Record kept (s0 s : Svc) : Prop := {
  kp_from : users_of_svc s ⊆ users_of_svc s0;
  kp_gone : forall k u, users_of_svc s0 !! k = Some u -> users_of_svc s !! k = None -> orphan s0 u;
  kp_queue : queue_of s = queue_of s0;
  kp_asked : s_ldapDeletes s = s_ldapDeletes s0
}.

Lemma kept_refl s : kept s s.
Proof. split; [done|intros k u H1 H2; congruence|done|done]. Qed.

Lemma kept_still s0 s s' : kept s0 s -> still s s' -> kept s0 s'.
Proof.
  intros [H1 H2 H3 H4] [E F]. injection E as E1 E2. unfold users_of_svc, queue_of in *.
  split; unfold users_of_svc, queue_of; rewrite ?E1, ?E2, ?F; done.
Qed.

Lemma remove_shadow_kept s0 remote cfg un u n s :
  users_keyed s0 -> in_force s0 cfg -> ld_Enabled cfg = true -> mapped (s_ldapDeletes s0) cfg = Ok remote ->
  (exists k, users_of_svc s0 !! k = Some u) -> shadow_name u = Some un ->
  kept s0 s -> wp (remove_shadow remote n (un, u)) (fun _ s' => kept s0 s') s.
Proof.
  intros Hk Hcfg Hen Hm [k Hu] Hn Hs. unfold remove_shadow. case_bool_decide as Hr; [by apply wp_ret|].
  apply wp_bind, wp_try, wp_db. unfold DeleteUser. apply wp_exec; intros fs.
  - apply wp_ret. by eapply kept_still.
  - apply wp_bind. eapply (wp_keeps still); [apply still_audit|]. intros r s' Hst.
    assert (H' : kept s0 (s <| s_env := (s_env s) <| e_db ::= delete_user_rows (u_ID u) |> <| e_faults := fs |> |>)).
    { destruct Hs as [H1 H2 H3 H4]. split; [| |done|done]; unfold users_of_svc in *; simpl.
      - etransitivity; [apply delete_subseteq|done].
      - intros k' u' Hu' Hd. destruct (decide (k' = u_ID u)) as [->|Hne].
        + rewrite (Hk k u Hu) in Hu'. assert (u' = u) as -> by congruence.
          unfold shadow_name in Hn. destruct (is_ldap u) eqn:Hi; [|done]. simpl in Hn.
          destruct (nonempty _); [|done]. injection Hn as <-. split; [done|]. by exists cfg, remote.
        + rewrite lookup_delete_ne in Hd by done. by eapply H2. }
    destruct r; [apply wp_ret|]; by eapply kept_still.
Qed.

Lemma shadows_kept s0 remote cfg users s :
  users_keyed s0 -> in_force s0 cfg -> ld_Enabled cfg = true -> mapped (s_ldapDeletes s0) cfg = Ok remote ->
  (forall u, u ∈ users -> exists k, users_of_svc s0 !! k = Some u) -> kept s0 s ->
  wp (fold_each (remove_shadow remote) 0 (map_to_list (localLDAP users))) (fun _ s' => kept s0 s') s.
Proof.
  intros Hk Hcfg Hen Hm Hu Hs. apply wp_fold_each; [|done]. intros n [un u] s' Hx%elem_of_map_to_list Hs'.
  apply elem_of_localLDAP in Hx as [Hin Hn]. eapply remove_shadow_kept; eauto.
Qed.

(** A name leaves the queue when the directory has no entry for it or has deleted
    the one it had. *)
Definition settled (cfg : LDAPSettings) (un : string) : Prop :=
  exists name gone, norm name = un /\
    (find gone cfg name = Ok None \/ exists dn, find gone cfg name = Ok (Some dn) /\ del gone dn = Ok tt).

Record queue_kept (cfg : LDAPSettings) (queued : list string) (s0 s : Svc) : Prop := {
  qk_users : users_of_svc s = users_of_svc s0;
  qk_gone : forall un, is_Some (queue_of s0 !! un) -> queue_of s !! un = None -> settled cfg un;
  qk_asked : exists l, s_ldapDeletes s = s_ldapDeletes s0 ++ l /\
    forall i dn, l !! i = Some dn -> exists name, name ∈ queued /\ find (s_ldapDeletes s0 ++ take i l) cfg name = Ok (Some dn)
}.

Lemma queue_kept_still cfg q s0 s s' : queue_kept cfg q s0 s -> still s s' -> queue_kept cfg q s0 s'.
Proof.
  intros [H1 H2 H3] [E F]. injection E as E1 E2. unfold users_of_svc, queue_of in *.
  split; unfold users_of_svc, queue_of; rewrite ?E1, ?E2, ?F; done.
Qed.

Lemma queue_refl cfg q s : queue_kept cfg q s s.
Proof.
  split; [done|intros un [r Hr] Hn; congruence|]. exists []. by rewrite app_nil_r.
Qed.

(** The bookkeeping of the queue: an error is noted, an entry is removed. *)
Lemma note_error_kept cfg q s0 name text (Q : result unit -> Svc -> Prop) s :
  queue_kept cfg q s0 s -> (forall s', queue_kept cfg q s0 s' -> Q (Ok tt) s') ->
  wp (ignore (db (SetLDAPDeleteQueueError name text))) Q s.
Proof.
  intros Hs HQ. apply wp_ignore, wp_db. unfold SetLDAPDeleteQueueError. destruct (String.eqb _ ""); [by apply wp_ret, HQ; destruct s|].
  apply wp_bind, wp_gets, wp_exec; intros fs; apply HQ; [by eapply queue_kept_still|].
  destruct Hs as [H1 H2 H3]. split; [done| |done]. intros un Hu Hn. apply H2; [done|].
  unfold queue_of in *. simpl in Hn. apply lookup_alter_None in Hn. done.
Qed.

Lemma remove_kept cfg q s0 name (Q : result unit -> Svc -> Prop) s :
  queue_kept cfg q s0 s -> settled cfg (norm name) -> (forall s', queue_kept cfg q s0 s' -> Q (Ok tt) s') ->
  wp (ignore (db (RemoveLDAPDeleteQueue name))) Q s.
Proof.
  intros Hs Hset HQ. apply wp_ignore, wp_db. unfold RemoveLDAPDeleteQueue. fold (norm name).
  destruct (String.eqb _ ""); [by apply wp_ret, HQ; destruct s|].
  apply wp_exec; intros fs; apply HQ; [by eapply queue_kept_still|].
  destruct Hs as [H1 H2 H3]. split; [done| |done]. intros un Hu Hn. unfold queue_of in *. simpl in Hn.
  destruct (decide (un = norm name)) as [->|Hne]; [done|]. rewrite lookup_delete_ne in Hn by done. by apply H2.
Qed.

Lemma remote_delete_kept cfg q s0 n name s :
  name ∈ q -> queue_kept cfg q s0 s -> wp (remote_delete EscapeFilter search del cfg n name) (fun _ s' => queue_kept cfg q s0 s') s.
Proof.
  intros Hq Hs. unfold remote_delete. apply wp_bind, wp_gets. destruct (find _ cfg name) as [[dn|]|e] eqn:E.
  - apply wp_bind, wp_try. unfold ldap_delete. apply wp_bind, wp_gets, wp_bind, wp_modify.
    set (s1 := upd_field _ _ _). assert (Hs1 : queue_kept cfg q s0 s1).
    { destruct Hs as [H1 H2 (l & H3 & H4)]. split; [done..|]. exists (l ++ [dn]). split; [unfold s1; simpl; by rewrite H3, app_assoc|].
      intros i dn' [Hi|[-> <-]]%lookup_snoc_Some.
      - rewrite take_app_le by (apply Nat.lt_le_incl, Hi). by apply H4, Hi.
      - exists name. split; [done|]. by rewrite take_app_length, <- H3. }
    unfold lift, wp at 1. destruct (del _ dn) as [[]|e] eqn:Ed; apply wp_bind.
    + eapply remove_kept; [done| |].
      { exists name, (s_ldapDeletes s). split; [done|]. right. by exists dn. }
      intros s2 Hs2. apply wp_bind. eapply (wp_keeps still); [apply still_audit|].
      intros [] s3 H3; [apply wp_ret|]; by eapply queue_kept_still.
    + eapply note_error_kept; [done|]. intros s2 Hs2. by apply wp_ret.
  - apply wp_bind. eapply remove_kept; [done|exists name, (s_ldapDeletes s); split; [done|by left]|].
    intros s2 Hs2. apply wp_bind. eapply (wp_keeps still); [apply still_audit|].
    intros [] s3 H3; [apply wp_ret|]; by eapply queue_kept_still.
  - apply wp_bind. eapply note_error_kept; [done|]. intros s2 Hs2. by apply wp_ret.
Qed.

Lemma wp_first {A} (m : AM A) s : wp m (fun r _ => (m s).1 = r) s.
Proof. unfold wp. by destruct (m s). Qed.

(** What a round may do. *)
Record lawful_round (s s' : Svc) : Prop := {
  lr_users : users_of_svc s' ⊆ users_of_svc s;
  lr_orphans : forall k u, users_of_svc s !! k = Some u -> users_of_svc s' !! k = None -> orphan s u;
  lr_deletes : exists l, s_ldapDeletes s' = s_ldapDeletes s ++ l /\
    (forall i dn, l !! i = Some dn -> exists cfg key, in_force s cfg /\ is_Some (queue_of s !! key) /\
       find (s_ldapDeletes s ++ take i l) cfg (norm key) = Ok (Some dn)) /\
    (forall un, is_Some (queue_of s !! un) -> queue_of s' !! un = None -> exists cfg, in_force s cfg /\ settled cfg un)
}.

Lemma kept_lawful s s' : kept s s' -> lawful_round s s'.
Proof.
  intros [H1 H2 H3 H4]. split; [done..|]. exists [].
  split_and!; [by rewrite H4, app_nil_r|done|]. intros un [x Hx] Hn. rewrite H3 in Hn. congruence.
Qed.

Lemma queue_kept_lawful cfg q s s4 s' :
  (forall name, name ∈ q -> exists key, is_Some (queue_of s !! key) /\ norm key = name) ->
  in_force s cfg -> kept s s4 -> queue_kept cfg q s4 s' -> lawful_round s s'.
Proof.
  intros Hq Hcfg [K1 K2 K3 K4] [Q1 Q2 (l & Q3 & Q4)]. split; rewrite ?Q1; [done..|]. exists l. split_and!.
  - by rewrite Q3, K4.
  - intros i dn Hi. destruct (Q4 i dn Hi) as (name & Hin & Hf). destruct (Hq name Hin) as (key & Hkey & <-).
    exists cfg, key. by rewrite <- K4.
  - intros un Hun Hn. exists cfg. split; [done|]. apply Q2; [by rewrite K3|done].
Qed.

End sync.

(* ------------------------------------------------------------------ *)
(** ** A directory *)

Definition staff : LDAPSettings :=
  mkLDAPSettings true "ldaps://ldap.example.org" false false "cn=sync" "ou=people" "ou=groups" "uid" "ops" "" "" [].
Definition ldap_user (id : Z) (name provider : string) : User :=
  zero_User <| u_ID := id |> <| u_Username := name |> <| u_URole := RoleReadOnly |> <| u_AuthProvider := provider |>.
Definition sync_db : DB :=
  empty_DB <| t_users := {[1 := ldap_user 1 "root" "local"; 2 := ldap_user 2 "alice" "ldap"; 3 := ldap_user 3 "bob" "LDAP"]} |>
           <| t_settings := {["auth.ldap.config" := "{}"]} |>
           <| t_secrets := {["auth.ldap.bind_password" := StdEncode (repeat 0 12 ++ bytes_of "drowssap")]} |>
           <| t_ldap_delete_queue := {["carol" := mkDeleteQueueRow 0 0 ""; "dave" := mkDeleteQueueRow 0 0 ""]} |>.
Definition sync_svc : Svc := new_svc_with (mkConfig "" "" "" false) (repeat 7 32) "" "edge" (clean sync_db 0) None.

Definition person (dn uid : string) : Entry := mkEntry dn (fun a => if String.eqb a "uid" then [uid] else []).
(** The group holds alice; the directory answers for her entry when [up]. *)
Definition directory (up : bool) (gone : list string) (r : SearchRequest) : result (list Entry) :=
  if String.eqb (sr_Filter r) "(cn=ops)" then
    Ok [mkEntry "cn=ops" (fun a => if String.eqb a "member" then ["uid=alice,ou=people"] else [])]
  else if String.eqb (sr_Base r) "uid=alice,ou=people" then
    (if up then Ok [person "uid=alice,ou=people" "Alice"] else Err (ErrText "LDAP Result Code 51: Busy"))
  else if String.eqb (sr_Filter r) "(uid=carol)" then Ok [person "uid=carol,ou=people" "carol"]
  else Ok [].
Local Abbreviation toy_sync up := (syncLDAPUsersOnce (fun s => s) (fun _ _ => Ok tt) (fun _ => Ok tt) (fun _ _ => Ok tt)
  (directory up) (fun _ _ => Ok tt) (fun _ => Some staff) toy_open sync_svc).

(** bob is in no mapped group, carol has an entry, dave has none. *)
Example one_round :
  (toy_sync true).1 = Ok tt /\ elements (dom (users_of_svc (toy_sync true).2)) = [2; 1] /\
  queue_of (toy_sync true).2 = ∅ /\ s_ldapDeletes (toy_sync true).2 = ["uid=carol,ou=people"].
Proof. vm_compute. split_and!; reflexivity. Qed.

(** An error while a member is looked up counts as no member: alice loses her account. *)
Example busy_directory_deletes :
  (toy_sync false).1 = Ok tt /\ users_of_svc sync_svc !! 2 = Some (ldap_user 2 "alice" "ldap") /\
  users_of_svc (toy_sync false).2 !! 2 = None.
Proof. vm_compute. split_and!; reflexivity. Qed.

