(* ===== verification/BackupSchedule.v ===== *)
(** [internal/app/backup_schedule.go]: the settings of the scheduled backups, a run
    with its targets, the archives and their retention.

    The archives lie on the local disk ([s_files], by path) and on FTP servers
    ([s_ftpFiles], by address and path).  What a file operation or an FTP command
    answers is a parameter; a command that succeeds has its effect, one that fails
    has none.  The mutex [backupRunMu] makes a run one step; the timer of
    [StartBackupScheduler] is left out. *)

From S2P Require Import Prelude GoString GoMonad GoTime GoFile GoCrypto Crypto Model StoreDB StoreThreat StoreUsers StoreHosts StoreBackup.
From S2P Require Import LogServers Service Vault Hosts LiveChecks Backup.
From Stdlib Require Import Ascii.
From stdpp Require Import sorting.
Open Scope Z_scope.

Definition settingBackupEnabled : string := "runtime.backup.enabled".
Definition settingBackupInterval : string := "runtime.backup.interval_hours".
Definition settingBackupLastRun : string := "runtime.backup.last_run_at".
Definition settingBackupLastResult : string := "runtime.backup.last_result".
Definition settingBackupRetentionCount : string := "runtime.backup.retention_count".
Definition settingBackupLocalEnabled : string := "runtime.backup.local.enabled".
Definition settingBackupLocalDir : string := "runtime.backup.local.dir".
Definition settingBackupFTPEnabled : string := "runtime.backup.ftp.enabled".
Definition settingBackupFTPHost : string := "runtime.backup.ftp.host".
Definition settingBackupFTPPort : string := "runtime.backup.ftp.port".
Definition settingBackupFTPUser : string := "runtime.backup.ftp.user".
Definition settingBackupFTPRemoteDir : string := "runtime.backup.ftp.remote_dir".
Definition settingBackupFTPTLSMode : string := "runtime.backup.ftp.tls_mode".
Definition secretBackupPassphrase : string := "backup.schedule_passphrase".
Definition secretBackupFTPPass : string := "backup.ftp_password".

Record BackupLocalSettings := mkBackupLocalSettings { bl_Enabled : bool; bl_Dir : string }.
Record BackupFTPSettings := mkBackupFTPSettings {
  bf_Enabled : bool; bf_Host : string; bf_Port : Z; bf_Username : string; bf_RemoteDir : string; bf_TLSMode : string;
  bf_HasPassword : bool; bf_PasswordMasked : bool
}.
#[export] Instance eta_BackupFTPSettings : Eta BackupFTPSettings := fun r =>
  mkBackupFTPSettings (bf_Enabled r) (bf_Host r) (bf_Port r) (bf_Username r) (bf_RemoteDir r) (bf_TLSMode r)
    (bf_HasPassword r) (bf_PasswordMasked r).
Record BackupScheduleSettings := mkBackupScheduleSettings {
  bc_Enabled : bool; bc_IntervalHours : Z; bc_RetentionCount : Z; bc_HasPassphrase : bool; bc_PassphraseMasked : bool;
  bc_LastRunAt : string; bc_LastResult : string; bc_Local : BackupLocalSettings; bc_FTP : BackupFTPSettings
}.
#[export] Instance eta_BackupScheduleSettings : Eta BackupScheduleSettings := fun r =>
  mkBackupScheduleSettings (bc_Enabled r) (bc_IntervalHours r) (bc_RetentionCount r) (bc_HasPassphrase r)
    (bc_PassphraseMasked r) (bc_LastRunAt r) (bc_LastResult r) (bc_Local r) (bc_FTP r).
Record BackupGeneralStats := mkBackupGeneralStats { bg_Total : Z; bg_Local : Z; bg_FTP : Z }.

Definition default_backup_dir : string := "/var/lib/domnexdomain/backups".
Definition defaultBackupScheduleSettings : BackupScheduleSettings :=
  mkBackupScheduleSettings false 24 10 false false "" "" (mkBackupLocalSettings true default_backup_dir)
    (mkBackupFTPSettings false "" 21 "" "/" "explicit" false false).

Definition clamp_interval (n : Z) : Z := let n := if n <? 1 then 1 else n in if 168 <? n then 168 else n.
Definition clamp_retention (n : Z) : Z := let n := if n <? 1 then 10 else n in if 1000 <? n then 1000 else n.
Definition remote_dir (d : string) : string :=
  let d := or_default (TrimSpace d) "/" in if HasPrefix d "/" then d else "/" +:+ d.
Definition tls_mode (m : string) : string :=
  if bool_decide (norm m ∈ ["off"; "explicit"; "implicit"]) then norm m else "explicit".

(** What the result says of the secrets and of the last run is that of the defaults. *)
Definition normalizeBackupScheduleSettings (i : BackupScheduleSettings) : result BackupScheduleSettings :=
  let dir := or_default (TrimSpace (bl_Dir (bc_Local i))) default_backup_dir in
  let f := bc_FTP i in
  let port := if bf_Port f <=? 0 then 21 else bf_Port f in
  let host := TrimSpace (bf_Host f) in
  let user := TrimSpace (bf_Username f) in
  if negb (HasPrefix dir "/") then Err (ErrText "local backup dir must be an absolute path")
  else if 65535 <? port then Err (ErrText "ftp port must be 1-65535")
  else if bf_Enabled f && String.eqb host "" then Err (ErrText "ftp host is required")
  else if bf_Enabled f && String.eqb user "" then Err (ErrText "ftp username is required")
  else if negb (bl_Enabled (bc_Local i)) && negb (bf_Enabled f)
       then Err (ErrText "enable at least one backup target (local or ftp)")
  else Ok (mkBackupScheduleSettings (bc_Enabled i) (clamp_interval (bc_IntervalHours i)) (clamp_retention (bc_RetentionCount i))
    false false "" "" (mkBackupLocalSettings (bl_Enabled (bc_Local i)) dir)
    (mkBackupFTPSettings (bf_Enabled f) host port user (remote_dir (bf_RemoteDir f)) (tls_mode (bf_TLSMode f)) false false)).

Definition put_setting (key value : string) : AM unit := db (SetSetting key value).
(** A stored setting, as far as it can be read; else the default. *)
Definition stored {A} (key : string) (f : string -> option A) (dflt : A) : AM A :=
  r ← try_ (db (GetSetting key)); mret (match r with Ok v => default dflt (f v) | Err _ => dflt end).

Definition MinSchedulePassphrase : Z := 12.
Definition maxDownload : Z := 96 * 2 ^ 20.

Section schedule.
Context (Seal : bytes -> bytes -> bytes -> bytes) (Open : bytes -> bytes -> bytes -> option bytes).

Definition getBackupSchedulePassphrase : AM string := load_secret Open secretBackupPassphrase.
Definition getBackupFTPPassword : AM string := load_secret Open secretBackupFTPPass.

(** A call whose error is told in other words. *)
Definition required {A} (m : AM A) (msg : string) : AM unit :=
  r ← try_ m; fail_if (negb (is_ok r)) msg.

Definition SetBackupScheduleSettings (i : BackupScheduleSettings) (passphrase ftpPassword : string) : AM unit :=
  cfg ← lift (normalizeBackupScheduleSettings i);
  let passphrase := TrimSpace passphrase in
  (if String.eqb passphrase "" then mret tt
   else fail_if (len passphrase <? MinSchedulePassphrase) "backup passphrase must be at least 12 characters" ≫= fun _ =>
        store_secret Seal secretBackupPassphrase passphrase) ≫= fun _ =>
  when (bc_Enabled cfg)
    (required getBackupSchedulePassphrase "scheduled backup enabled but no backup passphrase stored") ≫= fun _ =>
  let ftpPassword := TrimSpace ftpPassword in
  when (nonempty ftpPassword) (store_secret Seal secretBackupFTPPass ftpPassword) ≫= fun _ =>
  when (bf_Enabled (bc_FTP cfg)) (required getBackupFTPPassword "ftp upload enabled but no ftp password stored") ≫= fun _ =>
  put_setting settingBackupEnabled (FormatBool (bc_Enabled cfg)) ≫= fun _ =>
  put_setting settingBackupInterval (Itoa (bc_IntervalHours cfg)) ≫= fun _ =>
  put_setting settingBackupRetentionCount (Itoa (bc_RetentionCount cfg)) ≫= fun _ =>
  put_setting settingBackupLocalEnabled (FormatBool (bl_Enabled (bc_Local cfg))) ≫= fun _ =>
  put_setting settingBackupLocalDir (bl_Dir (bc_Local cfg)) ≫= fun _ =>
  put_setting settingBackupFTPEnabled (FormatBool (bf_Enabled (bc_FTP cfg))) ≫= fun _ =>
  put_setting settingBackupFTPHost (bf_Host (bc_FTP cfg)) ≫= fun _ =>
  put_setting settingBackupFTPPort (Itoa (bf_Port (bc_FTP cfg))) ≫= fun _ =>
  put_setting settingBackupFTPUser (bf_Username (bc_FTP cfg)) ≫= fun _ =>
  put_setting settingBackupFTPRemoteDir (bf_RemoteDir (bc_FTP cfg)) ≫= fun _ =>
  put_setting settingBackupFTPTLSMode (bf_TLSMode (bc_FTP cfg)) ≫= fun _ =>
  db (audit "system" "backup.settings.update" "schedule" ("enabled=" +:+ FormatBool (bc_Enabled cfg))).

Definition as_true (v : string) : option bool := Some (EqualFold (TrimSpace v) "true").
Definition as_int (v : string) : option Z := Atoi (TrimSpace v).
Definition as_text (v : string) : option string := Some (TrimSpace v).

Definition GetBackupScheduleSettings : AM BackupScheduleSettings :=
  let d := defaultBackupScheduleSettings in
  enabled ← stored settingBackupEnabled as_true (bc_Enabled d);
  interval ← stored settingBackupInterval as_int (bc_IntervalHours d);
  retention ← stored settingBackupRetentionCount as_int (bc_RetentionCount d);
  lastRun ← stored settingBackupLastRun as_text (bc_LastRunAt d);
  lastResult ← stored settingBackupLastResult as_text (bc_LastResult d);
  lEnabled ← stored settingBackupLocalEnabled as_true (bl_Enabled (bc_Local d));
  lDir ← stored settingBackupLocalDir as_text (bl_Dir (bc_Local d));
  fEnabled ← stored settingBackupFTPEnabled as_true (bf_Enabled (bc_FTP d));
  fHost ← stored settingBackupFTPHost as_text (bf_Host (bc_FTP d));
  fPort ← stored settingBackupFTPPort as_int (bf_Port (bc_FTP d));
  fUser ← stored settingBackupFTPUser as_text (bf_Username (bc_FTP d));
  fDir ← stored settingBackupFTPRemoteDir as_text (bf_RemoteDir (bc_FTP d));
  fMode ← stored settingBackupFTPTLSMode as_text (bf_TLSMode (bc_FTP d));
  pass ← try_ getBackupSchedulePassphrase;
  ftp ← try_ getBackupFTPPassword;
  lift (normalizeBackupScheduleSettings (mkBackupScheduleSettings enabled interval retention (is_ok pass) (is_ok pass)
    lastRun lastResult (mkBackupLocalSettings lEnabled lDir)
    (mkBackupFTPSettings fEnabled fHost fPort fUser fDir fMode (is_ok ftp) (is_ok ftp)))).

Definition GetBackupGeneralStats : AM BackupGeneralStats :=
  items ← db (StoreBackup.ListBackupArchives 5000);
  let count := fun st => Z.of_nat (length (List.filter (fun a => String.eqb (norm (ba_Storage a)) st) items)) in
  mret (mkBackupGeneralStats (Z.of_nat (length items)) (count "local") (count "ftp")).

Definition ListBackupArchives (limit : Z) : AM (list BackupArchive) := db (StoreBackup.ListBackupArchives limit).

(* ------------------------------------------------------------------ *)
(** ** Where the archives lie *)

(** The outcome of a file operation on a path; of dialing an FTP server in a mode of
    TLS and logging in; of a command on a path of a server. *)
Context (disk : string -> string -> result unit) (ftp_dial : string -> string -> string -> string -> result unit).
Context (ftp_command : string -> string -> string -> result unit).

Definition persistLocalBackup (dir fileName : string) (raw : bytes) : AM string :=
  lift (disk "mkdir" dir) ≫= fun _ =>
  let loc := PathJoin dir fileName in
  lift (disk "write" loc) ≫= fun _ =>
  modify (fun s => s <| s_files ::= <[loc := raw]> |>) ≫= fun _ => mret loc.

Definition read_file (loc : string) : AM bytes :=
  lift (disk "read" loc) ≫= fun _ =>
  f ← gets (fun s : Svc => s_files s !! loc);
  match f with Some raw => mret raw | None => fail (ErrText "no such file or directory") end.
Definition remove_file (loc : string) : AM unit :=
  lift (disk "remove" loc) ≫= fun _ => modify (fun s => s <| s_files ::= delete loc |>).

(** The address of the server, once the client is logged in. *)
Definition connectFTP (cfg : BackupFTPSettings) (password : string) : result string :=
  let addr := bf_Host cfg +:+ ":" +:+ Itoa (bf_Port cfg) in
  _ ← ftp_dial addr (bf_TLSMode cfg) (bf_Username cfg) password; Ok addr.

(** The directories the client makes, one below the other; errors are dropped. *)
Definition ensureFTPDir (dir : string) : list string :=
  if String.eqb dir "/" then []
  else rev (foldl (fun dirs p => if nonempty (TrimSpace p) then (hd "" dirs +:+ "/" +:+ TrimSpace p) :: dirs else dirs) []
              (Split (TrimPrefix dir "/") "/"%char)).

Definition uploadBackupViaFTP (cfg : BackupFTPSettings) (password fileName : string) (raw : bytes) : AM string :=
  addr ← lift (connectFTP cfg password);
  let remoteDir := or_default (TrimSpace (bf_RemoteDir cfg)) "/" in
  for_each (fun d => ignore (lift (ftp_command "MKD" addr d))) (ensureFTPDir remoteDir) ≫= fun _ =>
  let remotePath := PathJoin remoteDir fileName in
  lift (ftp_command "STOR" addr remotePath) ≫= fun _ =>
  modify (fun s => s <| s_ftpFiles ::= <[(addr, remotePath) := raw]> |>) ≫= fun _ => mret remotePath.

Definition downloadBackupViaFTP (cfg : BackupFTPSettings) (password remotePath : string) : AM bytes :=
  addr ← lift (connectFTP cfg password);
  let p := TrimSpace remotePath in
  lift (ftp_command "RETR" addr p) ≫= fun _ =>
  f ← gets (fun s : Svc => s_ftpFiles s !! (addr, p));
  match f with
  | None => fail (ErrText "550 file unavailable")
  | Some raw => mret (if Z.of_nat (length raw) <=? maxDownload then raw else take (Z.to_nat maxDownload) raw)
  end.

Definition deleteBackupViaFTP (cfg : BackupFTPSettings) (password remotePath : string) : AM unit :=
  addr ← lift (connectFTP cfg password);
  let p := TrimSpace remotePath in
  lift (ftp_command "DELE" addr p) ≫= fun _ => modify (fun s => s <| s_ftpFiles ::= delete (addr, p) |>).

(* ------------------------------------------------------------------ *)
(** ** The archives *)

(** A password that is there and not blank. *)
Definition usable (r : result string) : option string :=
  match r with Ok p => if String.eqb (TrimSpace p) "" then None else Some p | Err _ => None end.

Definition readArchiveRaw (rec : BackupArchive) : AM bytes :=
  let st := norm (ba_Storage rec) in
  if String.eqb st "local" then read_file (TrimSpace (ba_Location rec))
  else if String.eqb st "ftp" then
    cfg ← GetBackupScheduleSettings;
    r ← try_ getBackupFTPPassword;
    match usable r with
    | None => fail (ErrText "ftp password missing")
    | Some p => downloadBackupViaFTP (bc_FTP cfg) p (ba_Location rec)
    end
  else fail (ErrText "unknown archive storage").

Definition delete_remote (rec : BackupArchive) : AM unit :=
  cfg ← GetBackupScheduleSettings;
  p ← getBackupFTPPassword;
  if String.eqb (TrimSpace p) "" then mret tt else deleteBackupViaFTP (bc_FTP cfg) p (ba_Location rec).

Definition DeleteBackupArchive (id : Z) : AM unit :=
  rec ← db (GetBackupArchiveByID id);
  let st := norm (ba_Storage rec) in
  (if String.eqb st "local" then ignore (remove_file (TrimSpace (ba_Location rec)))
   else if String.eqb st "ftp" then ignore (delete_remote rec)
   else mret tt) ≫= fun _ =>
  db (DeleteBackupArchiveByID id).

(** The oldest archives, all but [keep]. *)
Definition surplus (keep : Z) (items : list BackupArchive) : list BackupArchive :=
  take (length items - Z.to_nat keep) items.

Definition drop_local (a : BackupArchive) : AM unit :=
  ignore (remove_file (TrimSpace (ba_Location a))) ≫= fun _ => ignore (db (DeleteBackupArchiveByID (ba_ID a))).
Definition drop_ftp (cfg : BackupFTPSettings) (password : string) (a : BackupArchive) : AM unit :=
  ignore (deleteBackupViaFTP cfg password (ba_Location a)) ≫= fun _ => ignore (db (DeleteBackupArchiveByID (ba_ID a))).

(** The archives of one storage, thinned. *)
Definition thin (keep : Z) (storage : string) (drop : BackupArchive -> AM unit) : AM unit :=
  r ← try_ (db (ListBackupArchivesByStorageOldestFirst storage));
  match r with Ok items => for_each drop (surplus keep items) | Err _ => mret tt end.

Definition enforceArchiveRetention (cfg : BackupScheduleSettings) : AM unit :=
  let keep := if bc_RetentionCount cfg <? 1 then 10 else bc_RetentionCount cfg in
  when (bl_Enabled (bc_Local cfg)) (thin keep "local" drop_local) ≫= fun _ =>
  when (bf_Enabled (bc_FTP cfg))
    (r ← try_ getBackupFTPPassword;
     match usable r with
     | None => mret tt
     | Some p => thin keep "ftp" (drop_ftp (bc_FTP cfg) p)
     end).

(* ------------------------------------------------------------------ *)
(** ** A run *)

Context (scrypt : bytes -> bytes -> Z -> Z -> Z -> Z -> result bytes).
Context (SealWith : bytes -> bytes -> bytes -> bytes -> bytes) (OpenWith : bytes -> bytes -> bytes -> bytes -> option bytes).
Context (pack : list (string * bytes) -> bytes) (unpack : bytes -> option (list (option TarEntry))).
Context (encode_manifest : backupManifest -> bytes) (decode_manifest : bytes -> option backupManifest).
Context (write_sqlite : Snapshot -> bytes) (read_sqlite : bytes -> option Snapshot) (io : string -> result unit).

Definition set_last_result (text : string) : AM unit := ignore (db (SetSetting settingBackupLastResult text)).

(** The last run by the setting, or by the newest archive if that is later. *)
Definition last_run (cfg : BackupScheduleSettings) : AM time :=
  let stored := if String.eqb (TrimSpace (bc_LastRunAt cfg)) "" then 0
                else default 0 (ParseRFC3339Nano (TrimSpace (bc_LastRunAt cfg))) in
  r ← try_ (db (StoreBackup.ListBackupArchives 1));
  mret (match r with
        | Ok (a :: _) => if negb (IsZero (ba_CreatedAt a)) && After (ba_CreatedAt a) stored then ba_CreatedAt a else stored
        | _ => stored
        end).

Definition record_archive (fileName storage loc : string) (raw : bytes) : AM unit :=
  ignore (db (InsertBackupArchive (mkBackupArchive 0 fileName storage loc (Z.of_nat (length raw)) (hashHex raw) "ready" 0))).

Definition store_local (cfg : BackupLocalSettings) (fileName : string) (raw : bytes) : AM bool :=
  r ← try_ (persistLocalBackup (bl_Dir cfg) fileName raw);
  match r with
  | Err e => set_last_result ("schedule failed: local store: " +:+ error_text e) ≫= fun _ => mret false
  | Ok loc => record_archive fileName "local" loc raw ≫= fun _ => mret true
  end.

Definition store_ftp (cfg : BackupFTPSettings) (fileName : string) (raw : bytes) : AM bool :=
  r ← try_ getBackupFTPPassword;
  match usable r with
  | None => set_last_result "schedule failed: ftp password missing" ≫= fun _ => mret false
  | Some p =>
      u ← try_ (uploadBackupViaFTP cfg p fileName raw);
      match u with
      | Err e => set_last_result ("schedule failed: ftp upload: " +:+ error_text e) ≫= fun _ => mret false
      | Ok remotePath => record_archive fileName "ftp" remotePath raw ≫= fun _ => mret true
      end
  end.

(** The package, its targets, the retention and what is noted of it. *)
Definition run_backup (cfg : BackupScheduleSettings) (passphrase trigger : string) : AM unit :=
  r ← try_ (CreateBackupPackage scrypt SealWith pack encode_manifest write_sqlite io passphrase);
  match r with
  | Err e =>
      set_last_result ("schedule failed: " +:+ error_text e) ≫= fun _ =>
      db (audit "system" "backup.schedule.failed" "create" (error_text e)) ≫= fun _ => fail e
  | Ok (raw, _) =>
      now ← db Now;
      let fileName := "domnex-backup-" +:+ stamp now +:+ ".dnxbak" in
      localOK ← (if bl_Enabled (bc_Local cfg) then store_local (bc_Local cfg) fileName raw else mret false);
      ftpOK ← (if bf_Enabled (bc_FTP cfg) then store_ftp (bc_FTP cfg) fileName raw else mret false);
      ignore (enforceArchiveRetention cfg) ≫= fun _ =>
      ignore (db (SetSetting settingBackupLastRun (RFC3339Nano now))) ≫= fun _ =>
      let meta := "trigger=" +:+ TrimSpace trigger +:+ ";local=" +:+ FormatBool localOK +:+ ";ftp=" +:+ FormatBool ftpOK in
      if localOK || ftpOK then
        set_last_result "ok" ≫= fun _ => db (audit "system" "backup.schedule.success" fileName meta)
      else
        set_last_result "schedule failed: no backup target succeeded" ≫= fun _ =>
        db (audit "system" "backup.schedule.failed" fileName meta) ≫= fun _ => fail (ErrText "no backup target succeeded")
  end.

Definition runScheduledBackup (enforceInterval : bool) (trigger : string) : AM unit :=
  cfg ← GetBackupScheduleSettings;
  if negb (bc_Enabled cfg) then
    (if enforceInterval then mret tt else fail (ErrText "scheduled backups are disabled"))
  else
    lastRun ← last_run cfg;
    now ← db Now;
    if enforceInterval && negb (IsZero lastRun) && (Sub now lastRun <? bc_IntervalHours cfg * Hour) then mret tt
    else
      r ← try_ getBackupSchedulePassphrase;
      match usable r with
      | None => set_last_result "schedule skipped: missing passphrase" ≫= fun _ => fail (ErrText "missing backup passphrase")
      | Some passphrase => run_backup cfg passphrase trigger
      end.

Definition runScheduledBackupTick : AM unit := ignore (runScheduledBackup true "auto").
Definition RunScheduledBackupNow : AM unit := runScheduledBackup false "manual".

Context (detachable : bool) (nw : Network) (dns : option Provider) (detectPublicIPv4 : result string) (NewCloudflare : string -> Cloudflare).

Definition RestoreBackupArchive (id : Z) (confirm : string) : AM (BackupMeta * PostRestoreCheckResult) :=
  fail_if (negb (String.eqb (TrimSpace confirm) "RESTORE")) "confirm must equal RESTORE" ≫= fun _ =>
  rec ← db (GetBackupArchiveByID id);
  r ← try_ getBackupSchedulePassphrase;
  match usable r with
  | None => fail (ErrText "scheduled backup passphrase missing")
  | Some passphrase =>
      raw ← readArchiveRaw rec;
      meta ← RestoreFromBackupPackage scrypt OpenWith unpack decode_manifest read_sqlite io detachable (ba_FileName rec) raw passphrase;
      post ← RunPostRestoreCheck nw dns detectPublicIPv4 NewCloudflare Open;
      mret (meta, post)
  end.
End schedule.

(* ------------------------------------------------------------------ *)
(** ** The settings *)

Definition absolute (p : string) : Prop := HasPrefix p "/" = true /\ TrimSpace p = p.

(** What the scheduler can work with. *)
Record schedule_ok (c : BackupScheduleSettings) : Prop := {
  so_interval : 1 <= bc_IntervalHours c <= 168;
  so_retention : 1 <= bc_RetentionCount c <= 1000;
  so_dir : absolute (bl_Dir (bc_Local c));
  so_port : 1 <= bf_Port (bc_FTP c) <= 65535;
  so_remote : absolute (bf_RemoteDir (bc_FTP c));
  so_mode : bf_TLSMode (bc_FTP c) ∈ ["off"; "explicit"; "implicit"];
  so_trimmed : TrimSpace (bf_Host (bc_FTP c)) = bf_Host (bc_FTP c) /\ TrimSpace (bf_Username (bc_FTP c)) = bf_Username (bc_FTP c);
  so_server : bf_Enabled (bc_FTP c) = true -> bf_Host (bc_FTP c) <> "" /\ bf_Username (bc_FTP c) <> "";
  so_target : bl_Enabled (bc_Local c) = true \/ bf_Enabled (bc_FTP c) = true;
  so_plain : bc_HasPassphrase c = false /\ bc_PassphraseMasked c = false /\ bc_LastRunAt c = "" /\ bc_LastResult c = "" /\
             bf_HasPassword (bc_FTP c) = false /\ bf_PasswordMasked (bc_FTP c) = false
}.

Lemma clamp_interval_ok n : 1 <= clamp_interval n <= 168.
Proof. unfold clamp_interval. zcase. Qed.
Lemma clamp_interval_id n : 1 <= n <= 168 -> clamp_interval n = n.
Proof. unfold clamp_interval. intros H. replace (n <? 1) with false by lia. by replace (168 <? n) with false by lia. Qed.
Lemma clamp_retention_ok n : 1 <= clamp_retention n <= 1000.
Proof. unfold clamp_retention. zcase. Qed.
Lemma clamp_retention_id n : 1 <= n <= 1000 -> clamp_retention n = n.
Proof. unfold clamp_retention. intros H. replace (n <? 1) with false by lia. by replace (1000 <? n) with false by lia. Qed.

Lemma absolute_nonempty p d : absolute p -> or_default (TrimSpace p) d = p.
Proof. intros [H ->]. unfold or_default. by destruct p. Qed.

Lemma remote_dir_ok d : absolute (remote_dir d).
Proof.
  unfold remote_dir. set (t := or_default (TrimSpace d) "/"). assert (Ht : TrimSpace t = t) by by apply or_default_trim.
  destruct (HasPrefix t "/") eqn:E; [by split|]. split; [by destruct t|].
  assert (Hne : t <> "") by (unfold t, or_default; destruct (String.eqb_spec (TrimSpace d) ""); done).
  unfold TrimSpace in *. pose proof (trim_app is_space "/" "" t ltac:(done) Hne eq_refl Ht) as H. exact H.
Qed.
Lemma remote_dir_id p : absolute p -> remote_dir p = p.
Proof. intros H. unfold remote_dir. rewrite absolute_nonempty by done. by destruct H as [-> _]. Qed.

Lemma tls_mode_ok m : tls_mode m ∈ ["off"; "explicit"; "implicit"].
Proof. unfold tls_mode. case_bool_decide; [done|]. right. left. Qed.
Lemma tls_mode_id m : m ∈ ["off"; "explicit"; "implicit"] -> tls_mode m = m.
Proof. intros H. repeat (apply elem_of_cons in H as [->|H]; [reflexivity|]). by apply elem_of_nil in H. Qed.

(** A setting the scheduler can work with is its own normal form. *)
Lemma schedule_ok_fixed c : schedule_ok c -> normalizeBackupScheduleSettings c = Ok c.
Proof.
  intros [Hi Hr Hd Hp Hm Ht [Hh Hu] Hs Hx (E1 & E2 & E3 & E4 & E5 & E6)].
  unfold normalizeBackupScheduleSettings.
  rewrite absolute_nonempty, Hh, Hu, clamp_interval_id, clamp_retention_id, remote_dir_id, tls_mode_id by done.
  destruct c as [en iv rc hp pm lr lres [le ld] [fe fh fp fu fd fm fhp fpm]]. simpl in *. subst.
  destruct Hd as [-> _]. replace (fp <=? 0) with false by lia. replace (65535 <? fp) with false by lia. simpl.
  destruct fe; simpl; [|by destruct le, Hx].
  destruct (Hs eq_refl) as [H1%String.eqb_neq H2%String.eqb_neq]. rewrite H1, H2. by rewrite andb_false_r.
Qed.

Lemma schedule_settings_ok i c : normalizeBackupScheduleSettings i = Ok c -> schedule_ok c.
Proof.
  intros H.
  unfold normalizeBackupScheduleSettings in H.
  destruct (HasPrefix (or_default _ _) "/") eqn:Ed; simpl in H; [|done].
  destruct (65535 <? _) eqn:Ep; [done|]. destruct (bf_Enabled (bc_FTP i) && String.eqb (TrimSpace (bf_Host (bc_FTP i))) "") eqn:Eh; [done|].
  destruct (bf_Enabled (bc_FTP i) && String.eqb (TrimSpace (bf_Username (bc_FTP i))) "") eqn:Eu; [done|].
  destruct (negb _ && negb _) eqn:Et; [done|]. injection H as <-. constructor; simpl.
  - apply clamp_interval_ok.
  - apply clamp_retention_ok.
  - split; [done|by apply or_default_trim].
  - destruct (bf_Port (bc_FTP i) <=? 0) eqn:E; lia.
  - apply remote_dir_ok.
  - apply tls_mode_ok.
  - split; apply TrimSpace_idem.
  - intros E. rewrite E in Eh, Eu. split; by apply String.eqb_neq.
  - destruct (bl_Enabled _), (bf_Enabled _); auto.
  - done.
Qed.

(** Accepted settings are ones the scheduler can work with, whatever was sent, and
    a second normalisation changes nothing. *)
Theorem schedule_settings_normal i c (H : normalizeBackupScheduleSettings i = Ok c) :
  schedule_ok c /\ normalizeBackupScheduleSettings c = Ok c.
Proof. pose proof (schedule_settings_ok i c H) as Hok. split; [done|by apply schedule_ok_fixed]. Qed.

Lemma schedule_settings_normal_witness :
  exists c, normalizeBackupScheduleSettings defaultBackupScheduleSettings = Ok c /\ schedule_ok c.
Proof. eexists. split; [reflexivity|]. eapply (schedule_settings_normal defaultBackupScheduleSettings); reflexivity. Defined.

(* ------------------------------------------------------------------ *)
(** ** Reading on a working database *)

Definition tables_of (s : Svc) : DB := e_db (s_env s).

Section calm_reads.
Context (Open : bytes -> bytes -> bytes -> option bytes).

Lemma try_query_run {A B} (f : DB -> A) (k : result A -> AM B) s :
  e_faults (s_env s) = [] -> (try_ (db (query f)) ≫= k) s = k (Ok (f (tables_of s))) s.
Proof. intros Hf. destruct s as [[d now fs rnd]]. simpl in Hf. by subst fs. Qed.

(** What a secret of the store opens to. *)
Definition secret_of (name : string) (s : Svc) : result string :=
  match t_secrets (tables_of s) !! name with Some enc => Decrypt Open (s_keystore s) enc | None => Err ErrNoRows end.

Lemma load_secret_read name s : e_faults (s_env s) = [] -> load_secret Open name s = (secret_of name s, s).
Proof.
  intros Hf. unfold load_secret, GetSecret. rewrite db_query_row_run by done. unfold secret_of, tables_of.
  destruct (_ !! name); [|done]. unfold decrypt, gets, lift, mbind, M_bind. by destruct (Decrypt _ _ _).
Qed.

Lemma stored_calm {A B} key (f : string -> option A) d (k : A -> AM B) s : e_faults (s_env s) = [] ->
  (stored key f d ≫= k) s = k (match t_settings (tables_of s) !! key with Some v => default d (f v) | None => d end) s.
Proof.
  intros Hf. destruct s as [[db0 now fs rnd]]. simpl in Hf. subst fs. unfold stored, GetSetting, tables_of, try_, db, zoom, mbind, M_bind.
  simpl. rewrite query_row_run_end. simpl. by destruct (t_settings db0 !! key).
Qed.

(** The settings as they lie in the table. *)
Definition read_as {A} (s : Svc) (key : string) (f : string -> option A) (d : A) : A :=
  match t_settings (tables_of s) !! key with Some v => default d (f v) | None => d end.
Definition settings_of (s : Svc) : BackupScheduleSettings :=
  let d := defaultBackupScheduleSettings in
  let hp := is_ok (secret_of secretBackupPassphrase s) in
  let hf := is_ok (secret_of secretBackupFTPPass s) in
  mkBackupScheduleSettings (read_as s settingBackupEnabled as_true (bc_Enabled d))
    (read_as s settingBackupInterval as_int (bc_IntervalHours d)) (read_as s settingBackupRetentionCount as_int (bc_RetentionCount d))
    hp hp (read_as s settingBackupLastRun as_text (bc_LastRunAt d)) (read_as s settingBackupLastResult as_text (bc_LastResult d))
    (mkBackupLocalSettings (read_as s settingBackupLocalEnabled as_true (bl_Enabled (bc_Local d)))
      (read_as s settingBackupLocalDir as_text (bl_Dir (bc_Local d))))
    (mkBackupFTPSettings (read_as s settingBackupFTPEnabled as_true (bf_Enabled (bc_FTP d)))
      (read_as s settingBackupFTPHost as_text (bf_Host (bc_FTP d))) (read_as s settingBackupFTPPort as_int (bf_Port (bc_FTP d)))
      (read_as s settingBackupFTPUser as_text (bf_Username (bc_FTP d))) (read_as s settingBackupFTPRemoteDir as_text (bf_RemoteDir (bc_FTP d)))
      (read_as s settingBackupFTPTLSMode as_text (bf_TLSMode (bc_FTP d))) hf hf).

Lemma GetBackupScheduleSettings_calm s : e_faults (s_env s) = [] ->
  GetBackupScheduleSettings Open s = (normalizeBackupScheduleSettings (settings_of s), s).
Proof.
  intros Hf. unfold GetBackupScheduleSettings. rewrite !stored_calm by done.
  unfold getBackupSchedulePassphrase, getBackupFTPPassword, try_, mbind, M_bind, lift. by rewrite !load_secret_read by done.
Qed.
End calm_reads.

(* ------------------------------------------------------------------ *)
(** ** Settings that are stored are read back *)

Section round_trip.
Context (Seal : bytes -> bytes -> bytes -> bytes) (Open : bytes -> bytes -> bytes -> option bytes) `{!AEAD Seal Open}.

(** A run without faults, on the same settings and keystore. *)
Definition before_settings (s s' : Svc) : Prop :=
  e_faults (s_env s') = [] /\ s_keystore s' = s_keystore s.

Lemma as_true_FormatBool b : as_true (FormatBool b) = Some b.
Proof. by destruct b. Qed.
Lemma as_int_Itoa n : 0 <= n <= max_int64 -> as_int (Itoa n) = Some n.
Proof. intros H. unfold as_int. rewrite TrimSpace_Itoa by lia. by apply Atoi_Itoa. Qed.

Lemma store_secret_wp name plain (Q : result unit -> Svc -> Prop) s :
  e_faults (s_env s) = [] ->
  (forall s', before_settings s s' -> secret_of Open name s' = Ok plain ->
     (forall other, other <> name -> secret_of Open other s' = secret_of Open other s) -> Q (Ok tt) s') ->
  (forall e s', Q (Err e) s') -> wp (store_secret Seal name plain) Q s.
Proof.
  intros Hf HO HE. unfold store_secret. apply wp_bind, (wp_encrypt Seal Open); [|intros; apply HE].
  intros e' c Hc _ Hd _ Hf'. apply wp_db. unfold StoreSecret, wp. destruct e' as [d now fs rnd]. simpl in *. rewrite Hf in Hf'. subst fs d.
  apply HO; [done| |].
  - unfold secret_of, tables_of. simpl. by rewrite lookup_insert_eq.
  - intros other Hne. unfold secret_of, tables_of. simpl. by rewrite lookup_insert_ne.
Qed.

Lemma audit_calm actor action target meta s : e_faults (s_env s) = [] ->
  exists s', db (audit actor action target meta) s = (Ok tt, s') /\ e_faults (s_env s') = [] /\ s_keystore s' = s_keystore s /\
    t_settings (tables_of s') = t_settings (tables_of s) /\ t_secrets (tables_of s') = t_secrets (tables_of s).
Proof.
  intros Hf. destruct s as [[d now fs rnd]]. simpl in Hf. subst fs. unfold audit, AddAuditEvent, ignore, db, zoom, Now, exec, mbind, M_bind, when.
  simpl. case_step; simpl; eexists; (split; [reflexivity|]); done.
Qed.

(** The settings as [SetBackupScheduleSettings] writes them. *)
Definition written (cfg : BackupScheduleSettings) (m : gmap string string) : gmap string string :=
  <[settingBackupFTPTLSMode := bf_TLSMode (bc_FTP cfg)]> (<[settingBackupFTPRemoteDir := bf_RemoteDir (bc_FTP cfg)]>
  (<[settingBackupFTPUser := bf_Username (bc_FTP cfg)]> (<[settingBackupFTPPort := Itoa (bf_Port (bc_FTP cfg))]>
  (<[settingBackupFTPHost := bf_Host (bc_FTP cfg)]> (<[settingBackupFTPEnabled := FormatBool (bf_Enabled (bc_FTP cfg))]>
  (<[settingBackupLocalDir := bl_Dir (bc_Local cfg)]> (<[settingBackupLocalEnabled := FormatBool (bl_Enabled (bc_Local cfg))]>
  (<[settingBackupRetentionCount := Itoa (bc_RetentionCount cfg)]> (<[settingBackupInterval := Itoa (bc_IntervalHours cfg)]>
  (<[settingBackupEnabled := FormatBool (bc_Enabled cfg)]> m)))))))))).

Ltac read_written :=
  unfold written; repeat first [rewrite lookup_insert_eq | rewrite lookup_insert_ne by (vm_compute; discriminate)].

Lemma settings_written cfg s m : schedule_ok cfg -> t_settings (tables_of s) = written cfg m ->
  normalizeBackupScheduleSettings (settings_of Open s) = Ok cfg.
Proof.
  intros Hok E. rewrite <- (schedule_ok_fixed cfg Hok). destruct Hok as [Hi Hr [_ Hd] Hp [_ Hm] Hmode [Hh Hu] _ _ _].
  assert (Hb : forall key b d, written cfg m !! key = Some (FormatBool b) -> read_as s key as_true d = b).
  { intros key b d Hk. unfold read_as. rewrite E, Hk, as_true_FormatBool. done. }
  assert (Hn : forall key n d, 0 <= n <= 65535 -> written cfg m !! key = Some (Itoa n) -> read_as s key as_int d = n).
  { intros key n d Hb1 Hk. unfold read_as. rewrite E, Hk, as_int_Itoa; [done|]. unfold max_int64. lia. }
  assert (Ht : forall key v d, TrimSpace v = v -> written cfg m !! key = Some v -> read_as s key as_text d = v).
  { intros key v d Hv Hk. unfold read_as. rewrite E, Hk. unfold as_text. simpl. done. }
  assert (Hmt : TrimSpace (bf_TLSMode (bc_FTP cfg)) = bf_TLSMode (bc_FTP cfg)).
  { repeat (apply elem_of_cons in Hmode as [->|Hmode]; [reflexivity|]). by apply elem_of_nil in Hmode. }
  unfold settings_of.
  rewrite (Hb settingBackupEnabled (bc_Enabled cfg)), (Hn settingBackupInterval (bc_IntervalHours cfg)),
    (Hn settingBackupRetentionCount (bc_RetentionCount cfg)), (Hb settingBackupLocalEnabled (bl_Enabled (bc_Local cfg))),
    (Ht settingBackupLocalDir (bl_Dir (bc_Local cfg))), (Hb settingBackupFTPEnabled (bf_Enabled (bc_FTP cfg))),
    (Ht settingBackupFTPHost (bf_Host (bc_FTP cfg))), (Hn settingBackupFTPPort (bf_Port (bc_FTP cfg))),
    (Ht settingBackupFTPUser (bf_Username (bc_FTP cfg))), (Ht settingBackupFTPRemoteDir (bf_RemoteDir (bc_FTP cfg))),
    (Ht settingBackupFTPTLSMode (bf_TLSMode (bc_FTP cfg))) by (first [lia | assumption | read_written; reflexivity]).
  destruct cfg as [en iv rc hp pm lr lres [le ld] [fe fh fp fu fd fm fhp fpm]]. reflexivity.
Qed.

Lemma put_settings_wp cfg actor action target meta s (Q : result unit -> Svc -> Prop) :
  e_faults (s_env s) = [] -> schedule_ok cfg ->
  (forall s', (GetBackupScheduleSettings Open s').1 = Ok cfg ->
    (forall name, secret_of Open name s' = secret_of Open name s) -> Q (Ok tt) s') ->
  wp (put_setting settingBackupEnabled (FormatBool (bc_Enabled cfg)) ≫= fun _ =>
  put_setting settingBackupInterval (Itoa (bc_IntervalHours cfg)) ≫= fun _ =>
  put_setting settingBackupRetentionCount (Itoa (bc_RetentionCount cfg)) ≫= fun _ =>
  put_setting settingBackupLocalEnabled (FormatBool (bl_Enabled (bc_Local cfg))) ≫= fun _ =>
  put_setting settingBackupLocalDir (bl_Dir (bc_Local cfg)) ≫= fun _ =>
  put_setting settingBackupFTPEnabled (FormatBool (bf_Enabled (bc_FTP cfg))) ≫= fun _ =>
  put_setting settingBackupFTPHost (bf_Host (bc_FTP cfg)) ≫= fun _ =>
  put_setting settingBackupFTPPort (Itoa (bf_Port (bc_FTP cfg))) ≫= fun _ =>
  put_setting settingBackupFTPUser (bf_Username (bc_FTP cfg)) ≫= fun _ =>
  put_setting settingBackupFTPRemoteDir (bf_RemoteDir (bc_FTP cfg)) ≫= fun _ =>
  put_setting settingBackupFTPTLSMode (bf_TLSMode (bc_FTP cfg)) ≫= fun _ =>
  db (audit actor action target meta)) Q s.
Proof.
  intros Hf Hok HQ. unfold put_setting, SetSetting. do 11 (apply calm_exec_wp; [done|]).
  match goal with |- wp _ _ ?s1 => destruct (audit_calm actor action target meta s1 Hf) as (s' & E & Hf' & Hk & Ht & Hs) end.
  unfold wp. rewrite E. simpl. apply HQ.
  - rewrite GetBackupScheduleSettings_calm by done. simpl. by apply (settings_written cfg s' (t_settings (tables_of s))); [|rewrite Ht].
  - intros name. unfold secret_of. by rewrite Hs, Hk.
Qed.

Lemma required_wp name msg (Q : result unit -> Svc -> Prop) s : e_faults (s_env s) = [] ->
  (is_ok (secret_of Open name s) = true -> Q (Ok tt) s) -> (forall e, Q (Err e) s) ->
  wp (required (load_secret Open name) msg) Q s.
Proof.
  intros Hf HO HE. unfold required, try_, fail_if, wp, mbind, M_bind. rewrite load_secret_read by done.
  destruct (is_ok (secret_of Open name s)) eqn:E; simpl; rewrite ?E; [by apply HO|apply HE].
Qed.

(** When the settings are stored, they are read back in their normal form: what the
    scheduler is told is what the form was given.  A passphrase that was sent opens
    from the vault, and one is there when the schedule is switched on; so is a
    password when the FTP target is. *)
Theorem schedule_settings_kept i passphrase ftpPassword s (Hf : e_faults (s_env s) = []) :
  wp (SetBackupScheduleSettings Seal Open i passphrase ftpPassword) (fun r s' => r = Ok tt -> exists cfg,
    normalizeBackupScheduleSettings i = Ok cfg /\ (GetBackupScheduleSettings Open s').1 = Ok cfg /\
    (TrimSpace passphrase <> "" -> MinSchedulePassphrase <= len (TrimSpace passphrase) /\
       secret_of Open secretBackupPassphrase s' = Ok (TrimSpace passphrase)) /\
    (bc_Enabled cfg = true -> is_ok (secret_of Open secretBackupPassphrase s') = true) /\
    (bf_Enabled (bc_FTP cfg) = true -> is_ok (secret_of Open secretBackupFTPPass s') = true)) s.
Proof.
  unfold SetBackupScheduleSettings. apply wp_bind. unfold lift, wp at 1.
  destruct (normalizeBackupScheduleSettings i) as [cfg|e] eqn:Ei; [|done]. pose proof (schedule_settings_ok i cfg Ei) as Hok.
  set (pass := TrimSpace passphrase). set (ftp := TrimSpace ftpPassword).
  set (passed := fun s' : Svc => pass <> "" -> MinSchedulePassphrase <= len pass /\ secret_of Open secretBackupPassphrase s' = Ok pass).
  apply wp_bind, wp_mono with (Q := fun r s1 => r = Ok tt -> e_faults (s_env s1) = [] /\ passed s1).
  { unfold passed. destruct (String.eqb_spec pass ""); [by apply wp_ret|]. apply wp_bind, wp_fail_if; [done|]. intros Hl.
    apply store_secret_wp; [done| |done]. intros s' [Hf' _] Hs _ _. split; [done|]. intros _. split; [lia|done]. }
  intros [[]|e] s1 H1; [|done]. destruct (H1 eq_refl) as [Hf1 Hp1]. clear H1 Hf s.
  set (armed := fun s' : Svc => bc_Enabled cfg = true -> is_ok (secret_of Open secretBackupPassphrase s') = true).
  apply wp_bind, wp_mono with (Q := fun r s2 => r = Ok tt -> s2 = s1 /\ armed s1).
  { unfold armed, when. destruct (bc_Enabled cfg); [|by apply wp_ret]. apply required_wp; [done|done|done]. }
  intros [[]|e] s2 H2; [|done]. destruct (H2 eq_refl) as [-> Ha]. clear H2.
  apply wp_bind, wp_mono with (Q := fun r s3 => r = Ok tt -> e_faults (s_env s3) = [] /\ passed s3 /\ armed s3).
  { unfold when. destruct (nonempty ftp); [|by apply wp_ret]. apply store_secret_wp; [done| |done].
    intros s' [Hf' _] _ Ho _. unfold passed, armed. rewrite Ho by (vm_compute; discriminate). by split_and!. }
  intros [[]|e] s3 H3; [|done]. destruct (H3 eq_refl) as (Hf3 & Hp3 & Ha3). clear H3.
  apply wp_bind, wp_mono with (Q := fun r s4 => r = Ok tt -> s4 = s3 /\ (bf_Enabled (bc_FTP cfg) = true -> is_ok (secret_of Open secretBackupFTPPass s3) = true)).
  { unfold when. destruct (bf_Enabled (bc_FTP cfg)); [|by apply wp_ret]. apply required_wp; [done|done|done]. }
  intros [[]|e] s4 H4; [|done]. destruct (H4 eq_refl) as [-> Hx]. clear H4.
  apply put_settings_wp; [done|done|]. intros s' Hg Hs _. exists cfg. unfold passed, armed in *. rewrite !Hs. by split_and!.
Qed.
End round_trip.

(* ------------------------------------------------------------------ *)
(** ** The order of the archives *)

Lemma ascii_compare_code c d : Ascii.compare c d = (code c ?= code d).
Proof. unfold Ascii.compare, code. by rewrite N2Z.inj_compare. Qed.

Lemma compare_lt_trans a b c : String.compare a b = Lt -> String.compare b c = Lt -> String.compare a c = Lt.
Proof.
  revert b c. induction a as [|x a IH]; intros [|y b] [|z c]; simpl; try done.
  rewrite !ascii_compare_code. destruct (Z.compare_spec (code x) (code y)) as [Hxy|Hxy|Hxy]; [|intros _|done].
  - rewrite Hxy. destruct (code y ?= code z); [apply IH|done|done].
  - destruct (Z.compare_spec (code y) (code z)) as [Hyz|Hyz|Hyz]; [intros _|intros _|done].
    + replace (code x ?= code z) with Lt; [done|]. symmetry. apply Z.compare_lt_iff. lia.
    + replace (code x ?= code z) with Lt; [done|]. symmetry. apply Z.compare_lt_iff. lia.
Qed.

(** Two archives in the order of their texts of time. *)
Lemma archive_le_spec x y : archive_le x y = true <->
  match String.compare (RFC3339Nano (ba_CreatedAt x)) (RFC3339Nano (ba_CreatedAt y)) with
  | Lt => True | Eq => ba_ID x <= ba_ID y | Gt => False
  end.
Proof.
  unfold archive_le, text_le, text_lt, String.ltb. destruct (String.eqb_spec (RFC3339Nano (ba_CreatedAt x)) (RFC3339Nano (ba_CreatedAt y))) as [->|Hne].
  - assert (E : forall s, String.compare s s = Eq) by (intros s; destruct (String.compare s s) eqn:E; [done|pose proof (String.compare_antisym s s); rewrite E in *; done..]).
    rewrite E. lia.
  - rewrite (String.compare_antisym (RFC3339Nano (ba_CreatedAt y))). destruct (String.compare _ _) eqn:E; simpl; try done.
    apply String.compare_eq_iff in E. done.
Qed.

Lemma archive_le_total x y : archive_le x y = true \/ archive_le y x = true.
Proof.
  rewrite !archive_le_spec, (String.compare_antisym (RFC3339Nano (ba_CreatedAt y))).
  destruct (String.compare _ _); simpl; [lia|by left|by right].
Qed.

Lemma archive_le_trans x y z : archive_le x y = true -> archive_le y z = true -> archive_le x z = true.
Proof.
  rewrite !archive_le_spec. set (a := RFC3339Nano _). set (b := RFC3339Nano _). set (c := RFC3339Nano _).
  destruct (String.compare a b) eqn:Eab; [|intros _|done].
  - apply String.compare_eq_iff in Eab. rewrite Eab. destruct (String.compare b c); [lia|done|done].
  - destruct (String.compare b c) eqn:Ebc; [intros _|intros _|done].
    + apply String.compare_eq_iff in Ebc. by rewrite <- Ebc, Eab.
    + by rewrite (compare_lt_trans _ _ _ Eab Ebc).
Qed.

Definition archives_keyed (d : DB) : Prop := map_Forall (fun k a => ba_ID a = k) (t_backup_archives d).

Lemma archive_le_antisym d x y : archives_keyed d -> x ∈ rows (t_backup_archives d) -> y ∈ rows (t_backup_archives d) ->
  archive_le x y = true -> archive_le y x = true -> x = y.
Proof.
  intros Hk [kx Hx]%elem_of_rows [ky Hy]%elem_of_rows. rewrite !archive_le_spec, (String.compare_antisym (RFC3339Nano (ba_CreatedAt x))).
  destruct (String.compare (RFC3339Nano (ba_CreatedAt y)) _); simpl; try done. intros H1 H2.
  assert (ba_ID x = ba_ID y) by lia. pose proof (Hk _ _ Hx). pose proof (Hk _ _ Hy). simpl in *. congruence.
Qed.

(** The rows of a table without one of its keys. *)
Lemma rows_delete d id : archives_keyed d ->
  rows (delete id (t_backup_archives d)) ≡ₚ List.filter (fun a => negb (ba_ID a =? id)) (rows (t_backup_archives d)).
Proof.
  intros Hk. apply NoDup_Permutation.
  - apply rows_NoDup. intros j k a [_ Hj]%lookup_delete_Some [_ H]%lookup_delete_Some.
    pose proof (Hk _ _ Hj). pose proof (Hk _ _ H). simpl in *. congruence.
  - apply NoDup_ListNoDup, List.NoDup_filter, NoDup_ListNoDup, rows_NoDup. intros j k a Hj H.
    pose proof (Hk _ _ Hj). pose proof (Hk _ _ H). simpl in *. congruence.
  - intros a. rewrite elem_of_selected, !elem_of_rows. split.
    + intros [k H]. apply lookup_delete_Some in H as [Hne H]. split; [by exists k|]. pose proof (Hk _ _ H). simpl in *. lia.
    + intros [[k H] Hb]. exists k. apply lookup_delete_Some. split; [|done]. pose proof (Hk _ _ H). simpl in *. lia.
Qed.

Lemma filter_comm {A} (p q : A -> bool) l : List.filter p (List.filter q l) = List.filter q (List.filter p l).
Proof. induction l as [|x l IH]; simpl; [done|]. destruct (q x) eqn:Eq, (p x) eqn:Ep; simpl; rewrite ?Eq, ?Ep, IH; done. Qed.

Lemma filter_sorted {A} (R : A -> A -> Prop) p l : StronglySorted R l -> StronglySorted R (List.filter p l).
Proof.
  induction 1 as [|x l Hl IH Hx]; simpl; [constructor|]. destruct (p x); [|done]. constructor; [done|].
  apply Forall_forall. intros y [Hy _]%elem_of_selected. rewrite Forall_forall in Hx. by apply Hx.
Qed.

#[export] Instance filter_Permutation {A} (p : A -> bool) : Proper (Permutation ==> Permutation) (List.filter p).
Proof.
  induction 1 as [|x l l' _ IH|x y l|l1 l2 l3 _ IH1 _ IH2]; simpl; [done| | |by etransitivity].
  - destruct (p x); [by constructor|done].
  - destruct (p x), (p y); try done. constructor.
Qed.

Lemma archives_delete d id storage : archives_keyed d ->
  archives_of storage (d <| t_backup_archives ::= delete id |>) = List.filter (fun a => negb (ba_ID a =? id)) (archives_of storage d).
Proof.
  intros Hk. unfold archives_of. simpl. apply order_by_unique; [apply archive_le_total|apply archive_le_trans| | |].
  - apply filter_sorted, order_by_sorted; [apply archive_le_total|apply archive_le_trans].
  - rewrite rows_delete, order_by_perm by done. by rewrite filter_comm.
  - intros x y [Hx _]%elem_of_selected [Hy _]%elem_of_selected. rewrite rows_delete in Hx, Hy by done.
    apply elem_of_selected in Hx as [Hx _]. apply elem_of_selected in Hy as [Hy _]. by eapply archive_le_antisym.
Qed.

(* ------------------------------------------------------------------ *)
(** ** Retention *)

Definition forget_archive (d : DB) (a : BackupArchive) : DB := d <| t_backup_archives ::= delete (ba_ID a) |>.
Definition not_among (l : list BackupArchive) (a : BackupArchive) : bool := negb (existsb (fun b => ba_ID a =? ba_ID b) l).

Lemma forget_keyed d a : archives_keyed d -> archives_keyed (forget_archive d a).
Proof. intros H k b Hb. unfold forget_archive in Hb. simpl in Hb. apply lookup_delete_Some in Hb as [_ Hb]. by apply H. Qed.

Lemma forgotten_archives d l storage : archives_keyed d ->
  archives_of storage (foldl forget_archive d l) = List.filter (not_among l) (archives_of storage d).
Proof.
  revert d. induction l as [|a l IH]; intros d Hk; simpl.
  - unfold not_among. simpl. induction (archives_of storage d) as [|x k IHk]; [done|]. simpl. by rewrite <- IHk.
  - rewrite IH by by apply forget_keyed. unfold forget_archive at 1. rewrite archives_delete by done.
    induction (archives_of storage d) as [|x k IHk]; [done|]. unfold not_among in *. simpl.
    destruct (ba_ID x =? ba_ID a); simpl; [done|]. destruct (existsb _ l); simpl; [done|]. by f_equal.
Qed.

Lemma archives_ids d storage : archives_keyed d -> NoDup (ba_ID <$> archives_of storage d).
Proof.
  intros Hk. unfold archives_of. rewrite order_by_perm. apply NoDup_fmap_2_strong.
  - intros x y [[kx Hx]%elem_of_rows _]%elem_of_selected [[ky Hy]%elem_of_rows _]%elem_of_selected E.
    pose proof (Hk _ _ Hx). pose proof (Hk _ _ Hy). simpl in *. congruence.
  - apply NoDup_ListNoDup, List.NoDup_filter, NoDup_ListNoDup, rows_NoDup. intros j k a Hj H.
    pose proof (Hk _ _ Hj). pose proof (Hk _ _ H). simpl in *. congruence.
Qed.

Lemma not_among_spec l a : not_among l a = true <-> ba_ID a ∉ (ba_ID <$> l).
Proof.
  unfold not_among. rewrite negb_true_iff, <- not_true_iff_false, existsb_exists, list_elem_of_fmap. split.
  - intros H (b & E & Hb). apply H. exists b. rewrite <- list_elem_of_In. split; [done|]. lia.
  - intros H (b & Hb & E). apply H. exists b. rewrite list_elem_of_In. split; [lia|done].
Qed.

(** Without its first archives, a list starts after them. *)
Lemma filter_surplus n l : NoDup (ba_ID <$> l) -> List.filter (not_among (take n l)) l = drop n l.
Proof.
  intros Hn. rewrite <- (take_drop n l) in Hn at 1. rewrite fmap_app in Hn. apply NoDup_app in Hn as (_ & Hd & _).
  rewrite <- (take_drop n l) at 2. rewrite List.filter_app.
  replace (List.filter (not_among (take n l)) (take n l)) with (@nil BackupArchive).
  - simpl. induction (drop n l) as [|x k IHk]; [done|]. simpl in *.
    replace (not_among (take n l) x) with true; [|symmetry; apply not_among_spec; intros Hx; apply (Hd _ Hx); left].
    f_equal. apply IHk. intros y Hy Hy'. apply (Hd y Hy). by right.
  - symmetry. destruct (List.filter _ _) as [|x k] eqn:E; [done|]. assert (Hx : x ∈ x :: k) by left. rewrite <- E in Hx.
    apply elem_of_selected in Hx as [Hx Hna]. apply not_among_spec in Hna. destruct Hna. by apply list_elem_of_fmap_2.
Qed.

(** The archives of another storage stay. *)
Lemma filter_other d n st storage : archives_keyed d -> st <> storage ->
  List.filter (not_among (take n (archives_of st d))) (archives_of storage d) = archives_of storage d.
Proof.
  intros Hk Hne. assert (H : forall x, x ∈ archives_of storage d -> not_among (take n (archives_of st d)) x = true).
  { intros x [[kx Hx]%elem_of_rows Hsx]%elem_of_order_by%elem_of_selected. apply not_among_spec. intros (b & E & Hb)%list_elem_of_fmap.
    apply elem_of_take in Hb as (i & Hb & _). apply list_elem_of_lookup_2, elem_of_order_by, elem_of_selected in Hb as [[kb Hb]%elem_of_rows Hsb].
    pose proof (Hk _ _ Hx) as E1. pose proof (Hk _ _ Hb) as E2. simpl in *. assert (kx = kb) as -> by congruence.
    assert (x = b) as -> by congruence. apply String.eqb_eq in Hsx, Hsb. congruence. }
  induction (archives_of storage d) as [|x l IH]; [done|]. simpl. rewrite H by left. f_equal. apply IH. intros y Hy. apply H. by right.
Qed.

(** The newest [keep] archives of a list, which has the oldest first. *)
Definition newest (keep : Z) (l : list BackupArchive) : list BackupArchive := drop (length l - Z.to_nat keep) l.

Lemma forget_surplus d keep st storage : archives_keyed d ->
  archives_of storage (foldl forget_archive d (surplus keep (archives_of st d))) =
    if String.eqb st storage then newest keep (archives_of storage d) else archives_of storage d.
Proof.
  intros Hk. rewrite forgotten_archives by done. unfold surplus, newest. destruct (String.eqb_spec st storage) as [->|Hne].
  - by apply filter_surplus, archives_ids.
  - by apply filter_other.
Qed.

(** A run on a working database that leaves the tables [d]. *)
Definition leaves (d : DB) (s s' : Svc) : Prop :=
  tables_of s' = d /\ e_faults (s_env s') = [] /\ e_now (s_env s') = e_now (s_env s) /\ s_keystore s' = s_keystore s.

(** What does not touch the store. *)
Definition idle (s s' : Svc) : Prop := s_env s' = s_env s /\ s_keystore s' = s_keystore s.
#[export] Instance idle_preorder : PreOrder idle.
Proof. split; unfold idle; [done|]. intros a b c [] []. split; congruence. Qed.

Section retention.
Context (Open : bytes -> bytes -> bytes -> option bytes).
Context (disk : string -> string -> result unit) (ftp_dial : string -> string -> string -> string -> result unit).
Context (ftp_command : string -> string -> string -> result unit).

Lemma drop_wp (m : BackupArchive -> AM unit) a s :
  (forall a, keeps idle (m a)) -> e_faults (s_env s) = [] ->
  wp (ignore (m a) ≫= fun _ => ignore (db (DeleteBackupArchiveByID (ba_ID a))))
    (fun r s' => r = Ok tt /\ leaves (forget_archive (tables_of s) a) s s') s.
Proof.
  intros Hm Hf. apply wp_bind, wp_ignore. eapply (wp_keeps idle); [apply Hm|]. intros _ s1 [E K].
  apply wp_ignore, wp_db. unfold DeleteBackupArchiveByID, wp. rewrite E. destruct s as [[d now fs rnd]]. simpl in Hf, E. subst fs. done.
Qed.

Lemma remove_idle a : keeps idle (remove_file disk (TrimSpace (ba_Location a))).
Proof. unfold remove_file. keeps_tac; try typeclasses eauto. apply keeps_modify. done. Qed.
Lemma delete_idle cfg p a : keeps idle (deleteBackupViaFTP ftp_dial ftp_command cfg p (ba_Location a)).
Proof. unfold deleteBackupViaFTP. keeps_tac; try typeclasses eauto. apply keeps_modify. done. Qed.

Lemma drop_all_wp drop l s :
  (forall a s, e_faults (s_env s) = [] -> wp (drop a) (fun r s' => r = Ok tt /\ leaves (forget_archive (tables_of s) a) s s') s) ->
  e_faults (s_env s) = [] ->
  wp (for_each drop l) (fun r s' => r = Ok tt /\ leaves (foldl forget_archive (tables_of s) l) s s') s.
Proof.
  intros Hd. revert s. induction l as [|a l IH]; intros s Hf; simpl; [by apply wp_ret|].
  apply wp_bind. eapply wp_mono; [by apply Hd|]. intros ? s1 (-> & E & Hf1 & Hn & Hk).
  eapply wp_mono; [by apply IH|]. intros r s2 (-> & E2 & Hf2 & Hn2 & Hk2). split; [done|].
  unfold leaves. rewrite E2, E. split_and!; [done|done|congruence|congruence].
Qed.

Lemma thin_wp keep storage drop s :
  (forall a s, e_faults (s_env s) = [] -> wp (drop a) (fun r s' => r = Ok tt /\ leaves (forget_archive (tables_of s) a) s s') s) ->
  e_faults (s_env s) = [] ->
  wp (thin keep storage drop) (fun r s' => r = Ok tt /\
    leaves (foldl forget_archive (tables_of s) (surplus keep (archives_of (TrimSpace storage) (tables_of s)))) s s') s.
Proof.
  intros Hd Hf. unfold thin, ListBackupArchivesByStorageOldestFirst, wp. rewrite try_query_run by done. by apply drop_all_wp.
Qed.

Lemma forget_secrets l d : t_secrets (foldl forget_archive d l) = t_secrets d.
Proof. revert d. induction l as [|a l IH]; intros d; [done|]. simpl. by rewrite IH. Qed.
Lemma forget_all_keyed l d : archives_keyed d -> archives_keyed (foldl forget_archive d l).
Proof. revert d. induction l as [|a l IH]; intros d; [done|]. intros. by apply IH, forget_keyed. Qed.

(** Whether the retention looks at the archives of a storage. *)
Definition thinned (cfg : BackupScheduleSettings) (password : result string) (st : string) : bool :=
  (bl_Enabled (bc_Local cfg) && String.eqb st "local") ||
  (bf_Enabled (bc_FTP cfg) && bool_decide (is_Some (usable password)) && String.eqb st "ftp").

Lemma thin_step keep st drop s cases :
  TrimSpace st = st ->
  (forall a s, e_faults (s_env s) = [] -> wp (drop a) (fun r s' => r = Ok tt /\ leaves (forget_archive (tables_of s) a) s s') s) ->
  e_faults (s_env s) = [] -> archives_keyed (tables_of s) ->
  (forall s', e_faults (s_env s') = [] -> archives_keyed (tables_of s') -> secret_of Open secretBackupFTPPass s' = secret_of Open secretBackupFTPPass s ->
    (forall storage, archives_of storage (tables_of s') =
      if String.eqb st storage then newest keep (archives_of storage (tables_of s)) else archives_of storage (tables_of s)) ->
    cases (Ok tt) s') ->
  wp (thin keep st drop) cases s.
Proof.
  intros Hst Hd Hf Hk HQ. eapply wp_mono; [by apply thin_wp|]. rewrite Hst. intros r s' (-> & E & Hf' & _ & Hks).
  apply HQ; [done|rewrite E; by apply forget_all_keyed| |].
  - unfold secret_of. by rewrite E, forget_secrets, Hks.
  - intros storage. rewrite E. by apply forget_surplus.
Qed.

(** C25. After the retention has run on a database whose statements do not fail, every
    storage that is in use has its newest archives (in the order of the store) and no
    other; the archives of the rest are as they were.  A file that cannot be removed
    does not keep its row. *)
Theorem retention_keeps_newest cfg s
  (Hf : e_faults (s_env s) = []) (Hk : archives_keyed (tables_of s)) :
  wp (enforceArchiveRetention Open disk ftp_dial ftp_command cfg) (fun r s' => r = Ok tt /\ forall st,
    archives_of st (tables_of s') =
      if thinned cfg (secret_of Open secretBackupFTPPass s) st
      then newest (if bc_RetentionCount cfg <? 1 then 10 else bc_RetentionCount cfg) (archives_of st (tables_of s))
      else archives_of st (tables_of s)) s.
Proof.
  unfold enforceArchiveRetention. set (keep := if _ <? 1 then _ else _). apply wp_bind.
  set (mid := fun s' : Svc => e_faults (s_env s') = [] /\ archives_keyed (tables_of s') /\
    secret_of Open secretBackupFTPPass s' = secret_of Open secretBackupFTPPass s /\
    forall st, archives_of st (tables_of s') =
      if bl_Enabled (bc_Local cfg) && String.eqb "local" st then newest keep (archives_of st (tables_of s)) else archives_of st (tables_of s)).
  apply wp_mono with (Q := fun r s' => r = Ok tt /\ mid s').
  - unfold when, mid. destruct (bl_Enabled (bc_Local cfg)); [|by apply wp_ret].
    apply thin_step; [done| |done|done|done]. intros a s0 Hf0. by apply (drop_wp (fun a => remove_file disk (TrimSpace (ba_Location a)))); [apply remove_idle|].
  - intros r s1 (-> & Hf1 & Hk1 & Hs1 & H1). unfold thinned, when. destruct (bf_Enabled (bc_FTP cfg)); cycle 1.
    { apply wp_ret. split; [done|]. intros st. by rewrite H1, String.eqb_sym, orb_false_r. }
    apply wp_bind, wp_try. unfold getBackupFTPPassword, wp at 1. rewrite load_secret_read, Hs1 by done.
    destruct (usable _) as [p|]; cycle 1.
    { apply wp_ret. split; [done|]. intros st. by rewrite H1, String.eqb_sym, andb_false_r, orb_false_r. }
    apply thin_step; [done| |done|done|].
    + intros a s0 Hf0. by apply (drop_wp (fun a => deleteBackupViaFTP ftp_dial ftp_command (bc_FTP cfg) p (ba_Location a))); [apply delete_idle|].
    + intros s2 _ _ _ H2. split; [done|]. intros st. rewrite H2, H1, !(String.eqb_sym st).
      destruct (String.eqb_spec "ftp" st) as [<-|]; [by rewrite !andb_false_r|]. by rewrite andb_false_r, orb_false_r.
Qed.
End retention.

(* ------------------------------------------------------------------ *)
(** ** The interval *)

(** A tick that finds a backup younger than the interval does nothing at all. *)
Theorem tick_waits Open disk ftp_dial ftp_command scrypt SealWith pack encode_manifest write_sqlite io s cfg a l
  (Hf : e_faults (s_env s) = [])
  (Hcfg : (GetBackupScheduleSettings Open s).1 = Ok cfg)
  (Hl : order_by (fun x y => archive_le y x) (rows (t_backup_archives (tables_of s))) = a :: l)
  (Ha : 0 < ba_CreatedAt a) (Hyoung : e_now (s_env s) - ba_CreatedAt a < bc_IntervalHours cfg * Hour) :
  runScheduledBackupTick Open disk ftp_dial ftp_command scrypt SealWith pack encode_manifest write_sqlite io s = (Ok tt, s).
Proof.
  rewrite GetBackupScheduleSettings_calm in Hcfg by done. simpl in Hcfg. pose proof (schedule_settings_ok _ _ Hcfg) as Hok.
  destruct Hok as [Hi _ _ _ _ _ _ _ _ (_ & _ & Hlast & _)].
  unfold runScheduledBackupTick. match goal with |- ignore ?m s = _ => assert (E : m s = (Ok tt, s)); [|unfold ignore; by rewrite E] end.
  unfold runScheduledBackup. unfold mbind at 1, M_bind at 1. rewrite GetBackupScheduleSettings_calm, Hcfg by done.
  destruct (bc_Enabled cfg); [|done]. change (negb true) with false. cbv iota.
  assert (Hlr : last_run cfg s = (Ok (ba_CreatedAt a), s)).
  { unfold last_run, StoreBackup.ListBackupArchives. rewrite try_query_run by done. rewrite Hlast. simpl ((1 <=? 0) || _).
    unfold limit. cbv beta iota zeta. rewrite Hl. change (Z.to_nat (if 5000 <? 1 then 200 else 1)) with 1%nat.
    change (String.eqb (TrimSpace "") "") with true. unfold IsZero, After. simpl.
    by rewrite (proj2 (Z.eqb_neq _ 0) (Z.neq_sym _ _ (Z.lt_neq _ _ Ha))), (proj2 (Z.ltb_lt 0 _) Ha). }
  unfold mbind at 1, M_bind at 1. rewrite Hlr. cbv beta iota. rewrite db_now_run.
  unfold IsZero. rewrite (proj2 (Z.eqb_neq _ 0) (Z.neq_sym _ _ (Z.lt_neq _ _ Ha))).
  rewrite (proj2 (Z.ltb_lt (Sub (e_now (s_env s)) (ba_CreatedAt a)) (bc_IntervalHours cfg * Hour))); [done|]. unfold Sub, min_int64, max_int64, Hour, Minute, Second in *. lia.
Qed.

(* ------------------------------------------------------------------ *)
(** ** A schedule *)

Definition nightly : BackupScheduleSettings :=
  mkBackupScheduleSettings true 24 2 false false "" "" (mkBackupLocalSettings true "/backups")
    (mkBackupFTPSettings false "" 21 "" "/" "explicit" false false).
Definition archive (id : Z) (storage : string) (t : time) : BackupArchive :=
  mkBackupArchive id "a.dnxbak" storage "/backups/a.dnxbak" 1 "" "ready" t.
Definition schedule_db : DB :=
  empty_DB <| t_settings := written nightly ∅ |>
    <| t_secrets := {["backup.schedule_passphrase" := StdEncode (repeat 7 12 ++ rev (bytes_of "correct horse battery"))]} |>
    <| t_backup_archives := {[1 := archive 1 "local" Hour; 2 := archive 2 "local" (2 * Hour); 3 := archive 3 "ftp" (3 * Hour);
                              4 := archive 4 "local" (4 * Hour)]} |>
    <| t_sqlite_sequence := {["backup_archives" := 4]} |>.
Definition schedule_svc (d : DB) (now : time) : Svc :=
  new_svc_with (mkConfig "" "" "" false) toy_key site_key "edge"
    (mkEnv d now [] ["0123456789abcdef"; "0123456789ab"; "0123456789abcdef"; "0123456789ab"]) None.

Lemma schedule_db_keyed now : archives_keyed (tables_of (schedule_svc schedule_db now)).
Proof.
  intros k a. unfold tables_of. simpl. intros H. repeat (apply lookup_insert_Some in H as [[<- <-]|[_ H]]; [done|]).
  by apply lookup_singleton_Some in H as [<- <-].
Qed.

(** The oldest of three local archives goes, and the one on the FTP server stays. *)
Lemma retention_keeps_newest_witness :
  let s := schedule_svc schedule_db (5 * Hour) in
  let s' := (enforceArchiveRetention toy_open (fun _ _ => Ok tt) (fun _ _ _ _ => Ok tt) (fun _ _ _ => Ok tt) nightly s).2 in
  archives_of "local" (tables_of s') = newest 2 (archives_of "local" (tables_of s)) /\
  (ba_ID <$> archives_of "local" (tables_of s')) = [2; 4] /\ (ba_ID <$> archives_of "ftp" (tables_of s')) = [3].
Proof.
  intros s s'. pose proof (wp_apply _ _ _ (retention_keeps_newest toy_open (fun _ _ => Ok tt) (fun _ _ _ _ => Ok tt) (fun _ _ _ => Ok tt)
    nightly s eq_refl (schedule_db_keyed (5 * Hour)))) as [_ H].
  split; [exact (H "local")|]. split; vm_compute; reflexivity.
Defined.

Local Abbreviation tick disk := (runScheduledBackupTick toy_open disk (fun _ _ _ _ => Ok tt) (fun _ _ _ => Ok tt)
  Toy.scrypt Toy.seal Toy.pack Toy.encode toy_write (fun _ => Ok tt)).

Lemma tick_waits_witness :
  tick (fun _ _ => Ok tt) (schedule_svc schedule_db (5 * Hour)) = (Ok tt, schedule_svc schedule_db (5 * Hour)).
Proof.
  eapply (tick_waits toy_open (fun _ _ => Ok tt) (fun _ _ _ _ => Ok tt) (fun _ _ _ => Ok tt) Toy.scrypt Toy.seal Toy.pack Toy.encode toy_write
    (fun _ => Ok tt) _ nightly (archive 4 "local" (4 * Hour))); [reflexivity|vm_compute; reflexivity..].
Defined.

Lemma schedule_settings_kept_witness :
  let s' := (SetBackupScheduleSettings toy_seal toy_open nightly "correct horse battery" "" (schedule_svc empty_DB 0)).2 in
  (GetBackupScheduleSettings toy_open s').1 = Ok nightly.
Proof.
  pose proof (wp_apply _ _ _ (schedule_settings_kept toy_seal toy_open nightly "correct horse battery" "" (schedule_svc empty_DB 0) eq_refl)) as H.
  destruct H as (cfg & E & Hg & _); [vm_compute; reflexivity|]. intros s'. unfold s'. rewrite Hg. rewrite <- E. vm_compute. reflexivity.
Defined.

(** A tick a day after the last archive makes one more, and the oldest goes. *)
Example tick_runs :
  let s' := (tick (fun _ _ => Ok tt) (schedule_svc schedule_db (28 * Hour))).2 in
  (ba_ID <$> archives_of "local" (tables_of s')) = [4; 5] /\ size (s_files s') = 1%nat.
Proof. vm_compute. split_and!; reflexivity. Qed.

(** When no target takes the package, the time of the run is stored and never read
    back: the next tick, a minute later, makes the package again. *)
Example failure_retried_each_minute :
  let full := fun op (_ : string) => if String.eqb op "write" then Err (ErrText "no space left on device") else Ok tt : result unit in
  let s1 := (tick full (schedule_svc schedule_db (28 * Hour))).2 in
  let s2 := (tick full (s1 <| s_env ::= fun e => e <| e_now := 28 * Hour + Minute |> |>)).2 in
  is_ok (secret_of toy_open secretBackupPassphrase s1) = true /\
  (length (e_rand (s_env (schedule_svc schedule_db 0))), length (e_rand (s_env s1)), length (e_rand (s_env s2))) = (4, 2, 0)%nat /\
  t_settings (tables_of s1) !! settingBackupLastRun = Some (RFC3339Nano (28 * Hour)) /\
  (bc_LastRunAt <$> match (GetBackupScheduleSettings toy_open s1).1 with Ok c => Some c | Err _ => None end) = Some "".
Proof. vm_compute. split_and!; reflexivity. Qed.

(** An archive whose file cannot be removed leaves the list all the same. *)
Example delete_forgets_the_file :
  let busy := fun op (_ : string) => if String.eqb op "remove" then Err (ErrText "device or resource busy") else Ok tt : result unit in
  let s := (schedule_svc schedule_db 0) <| s_files := {["/backups/a.dnxbak" := [1]]} |> in
  let r := DeleteBackupArchive toy_open busy (fun _ _ _ _ => Ok tt) (fun _ _ _ => Ok tt) 1%Z s in
  r.1 = Ok tt /\ t_backup_archives (tables_of r.2) !! 1 = None /\ s_files r.2 !! "/backups/a.dnxbak" = Some [1].
Proof. vm_compute. split_and!; reflexivity. Qed.
