(* ===== verification/Feeds.v ===== *)
(** [internal/app/service.go]: the threat feeds — what is read in a list of
    addresses, the synchronisation of the feeds and its timer.

    The HTTP client is a parameter: the status and the body of an answer. *)

From S2P Require Import Prelude GoString GoMonad GoTime GoNet GoCrypto Crypto Model StoreDB StoreThreat StoreUsers Service ThreatEngine Retention Settings.
From Stdlib Require Import Ascii.
Open Scope Z_scope.

Definition defaultThreatIntelFeedURL : string := "https://lists.blocklist.de/lists/all.txt".
Definition maxFeedBody : Z := 32 * 2 ^ 20.
(** [io.ReadAll(io.LimitReader(res.Body, 32<<20))] *)
Definition read_body (body : string) : string :=
  if len body <=? maxFeedBody then body else take_bytes (Z.to_nat maxFeedBody) body.
(** The longest line a [bufio.Scanner] takes, with its line break. *)
Definition maxScanToken : Z := 64 * 1024.

(** The lines a [bufio.Scanner] gives, or its error. *)
Definition scan_lines (body : string) : result (list string) :=
  let l := Split body (byte 10) in
  let l := if String.eqb (List.last l "") "" then removelast l else l in
  if existsb (fun x => maxScanToken <=? len x) l then Err (ErrText "bufio.Scanner: token too long") else Ok l.

(** The address a line names, in its canonical form. *)
Definition feed_line (line : string) : option string :=
  let line := TrimSpace line in
  if String.eqb line "" || HasPrefix line "#" then None
  else match ParseIP (List.hd "" (Fields line)) with Some i => Some (IP_String i) | None => None end.

(** The addresses of the lines, each once. *)
Fixpoint feed_ips (seen : gset string) (lines : list string) : list string :=
  match lines with
  | [] => []
  | line :: l =>
      match feed_line line with
      | Some n => if bool_decide (n ∈ seen) then feed_ips seen l else n :: feed_ips ({[n]} ∪ seen) l
      | None => feed_ips seen l
      end
  end.

Record SyncSummary := mkSyncSummary {
  ss_Feeds : Z; ss_Synced : Z; ss_Errors : Z; ss_TotalIPs : Z; ss_GeneratedAt : string;
  ss_SignatureUpdated : bool; ss_SignatureError : string
}.

Definition UpsertThreatIntelFeed (i : ThreatIntelFeed) : AM ThreatIntelFeed :=
  let i := if (tf_ID i =? 0) && String.eqb (TrimSpace (tf_URL i)) defaultThreatIntelFeedURL && String.eqb (TrimSpace (tf_Name i)) ""
           then i <| tf_Name := "blocklist.de all" |> else i in
  f ← db (StoreThreat.UpsertThreatIntelFeed i);
  ignore RefreshThreatIntelSnapshot ≫= fun _ => mret f.

Definition DeleteThreatIntelFeed (id : Z) : AM unit :=
  db (StoreThreat.DeleteThreatIntelFeed id) ≫= fun _ => ignore RefreshThreatIntelSnapshot.

Section feeds.
Context (fetch : string -> result (Z * string)).
Context (decode_bundle : string -> option (list threatSignatureRule)).

Definition fetchThreatIntelFeed (rawURL : string) : result (list string * string) :=
  let rawURL := TrimSpace rawURL in
  if String.eqb rawURL "" then Err (ErrText "empty feed URL")
  else
    '(status, body) ← fetch rawURL;
    if (status <? 200) || (300 <=? status) then Err (ErrText ("http status " +:+ Itoa status))
    else
      let b := read_body body in
      lines ← scan_lines b;
      Ok (feed_ips ∅ lines, sha256_hex b).

(** One feed, with the counters of the loop: synced, errors, addresses. *)
Definition sync_feed (n : Z * Z * Z) (f : ThreatIntelFeed) : AM (Z * Z * Z) :=
  let '(synced, errs, total) := n in
  if negb (tf_Enabled f) then mret n
  else match fetchThreatIntelFeed (tf_URL f) with
  | Err e =>
      ignore (db (ReplaceThreatIntelFeedEntries (tf_ID f) [] "" (error_text e))) ≫= fun _ => mret (synced, errs + 1, total)
  | Ok (ips, hash) =>
      r ← try_ (db (ReplaceThreatIntelFeedEntries (tf_ID f) ips hash ""));
      mret (match r with Ok _ => (synced + 1, errs, total + Z.of_nat (length ips)) | Err _ => (synced, errs + 1, total) end)
  end.

Definition SyncThreatIntelFeeds : AM SyncSummary :=
  feeds ← db ListThreatIntelFeeds;
  now ← db Now;
  '(synced, errs, total) ← fold_each sync_feed (0, 0, 0) feeds;
  sig ← try_ (syncThreatSignatures fetch decode_bundle true);
  ignore RefreshThreatIntelSnapshot ≫= fun _ =>
  mret (mkSyncSummary (Z.of_nat (length feeds)) synced errs total (RFC3339Nano now) (is_ok sig)
    (match sig with Ok _ => "" | Err e => error_text e end)).

(** The cases of the loop of [StartThreatIntelSync]: an hourly synchronisation, the
    decay every five minutes, the firewall every minute. *)
Inductive tick : Type := SyncTick | DecayTick | FirewallTick.

Definition feed_due (cutoff : time) (f : ThreatIntelFeed) : bool :=
  tf_Enabled f && (IsZero (tf_LastSyncAt f) || Before (tf_LastSyncAt f) cutoff).

Definition sync_tick : AM unit :=
  cfg ← try_ (db GetThreatIntelConfig);
  ignore (syncThreatSignatures fetch decode_bundle false) ≫= fun _ =>
  match cfg with
  | Err _ => mret tt
  | Ok cfg =>
      if negb (tc_Enabled cfg) then mret tt
      else
        r ← try_ (db ListThreatIntelFeeds);
        match r with
        | Err _ => mret tt
        | Ok feeds =>
            now ← db Now;
            if existsb (feed_due (Add now (- (tc_SyncHours cfg * Hour)))) feeds then ignore SyncThreatIntelFeeds else mret tt
        end
  end.

Definition threat_tick (t : tick) : AM unit :=
  match t with
  | SyncTick => sync_tick
  | DecayTick =>
      r ← try_ ReconcileThreatIntelDecay;
      match r with
      | Ok rehab => when (0 <? rehab)
                      (db (audit "system" "threatintel.rehabilitated.cleanup" "threat-intel" ("count=" +:+ Itoa rehab)))
      | Err _ => mret tt
      end
  | FirewallTick => ignore reconcileOSFirewall
  end.
End feeds.

(* ------------------------------------------------------------------ *)
(** ** What a list says *)

Lemma feed_ips_spec seen lines n :
  n ∈ feed_ips seen lines <-> n ∉ seen /\ exists line, line ∈ lines /\ feed_line line = Some n.
Proof.
  revert seen. induction lines as [|line l IH]; intros seen; simpl.
  { split; [by intros ?%elem_of_nil|]. by intros (_ & x & ?%elem_of_nil & _). }
  assert (Hcons : (exists x, x ∈ line :: l /\ feed_line x = Some n) <->
                  feed_line line = Some n \/ exists x, x ∈ l /\ feed_line x = Some n).
  { split.
    - intros (x & [->|Hx]%elem_of_cons & E); [by left|right; eauto].
    - intros [E|(x & Hx & E)]; [exists line|exists x]; (split; [|done]); [left|by right]. }
  rewrite Hcons. destruct (feed_line line) as [m|] eqn:E; [|rewrite IH; naive_solver].
  case_bool_decide as Hm; [rewrite IH; naive_solver|]. rewrite elem_of_cons, IH, not_elem_of_union, not_elem_of_singleton.
  destruct (decide (n = m)) as [->|Hne]; [naive_solver|]. split; [|naive_solver].
  intros [->|([_ Hs] & Hx)]; naive_solver.
Qed.

Lemma feed_ips_NoDup seen lines : NoDup (feed_ips seen lines).
Proof.
  revert seen. induction lines as [|line l IH]; intros seen; simpl; [constructor|].
  destruct (feed_line line) as [m|]; [|apply IH]. case_bool_decide; [apply IH|]. constructor; [|apply IH].
  rewrite feed_ips_spec. intros [Hm _]. apply not_elem_of_union in Hm as [Hm _]. by apply not_elem_of_singleton in Hm.
Qed.

(** The text of an address holds no space. *)
Definition solid (s : string) : Prop := all_chars (fun c => negb (is_space c)) s = true.

Lemma solid_app s t : solid s -> solid t -> solid (s +:+ t).
Proof. unfold solid. intros Hs Ht. rewrite all_chars_app. by rewrite Hs, Ht. Qed.
Lemma solid_join l sep : Forall solid l -> solid sep -> solid (Join l sep).
Proof.
  intros Hl Hs. induction Hl as [|x l Hx Hl IH]; [done|]. destruct l as [|y l]; [done|].
  change (Join (x :: y :: l) sep) with (x +:+ sep +:+ Join (y :: l) sep). by repeat apply solid_app.
Qed.
Lemma solid_hex_digit n : 0 <= n < 16 -> solid (hex_digit n).
Proof.
  intros H. assert (Hn : n ∈ [0; 1; 2; 3; 4; 5; 6; 7; 8; 9; 10; 11; 12; 13; 14; 15]) by (rewrite !elem_of_cons; lia).
  repeat (apply elem_of_cons in Hn as [->|Hn]; [reflexivity|]). by apply elem_of_nil in Hn.
Qed.
Lemma solid_Itoa n : 0 <= n -> solid (Itoa n).
Proof.
  intros Hn. destruct (decimal_Itoa n Hn) as [_ Hd]. apply decimal_digits in Hd. revert Hd. apply all_chars_impl.
  intros c. unfold is_digit, is_space. lia.
Qed.
Lemma solid_hex_text g : 0 <= g -> solid (hex_text g).
Proof.
  intros Hg. assert (Hd : forall k, solid (hex_digit (Z.land (Z.shiftr g (4 * k)) 15))).
  { intros k. apply solid_hex_digit. change 15 with (Z.ones 4). rewrite Z.land_ones by lia. apply Z.mod_pos_bound. lia. }
  unfold hex_text. repeat apply solid_app; try apply Hd; case_match; try apply Hd; done.
Qed.
Lemma solid_IP i : solid (IP_String i).
Proof.
  unfold IP_String. destruct (To4 i) as [v|].
  - assert (Ho : forall k, 0 <= octet v k) by (intros k; unfold octet; apply Z.land_nonneg; lia).
    unfold v4_text. apply solid_join; [|done]. repeat constructor; by apply solid_Itoa.
  - assert (Hg : Forall solid (map hex_text (groups_of i))).
    { apply Forall_map, Forall_map. repeat constructor; apply solid_hex_text, Z.land_nonneg; lia. }
    unfold v6_text. destruct (longest_run _ _ _) as [p n]. case_match; [|by apply solid_join].
    rewrite <- !skipn_map, <- !firstn_map. repeat apply solid_app; try done; apply solid_join; try done; [by apply Forall_take|by apply Forall_drop].
Qed.

Lemma join_nonempty x l sep : x <> "" -> Join (x :: l) sep <> "".
Proof. intros Hx. destruct l as [|y l]; [done|]. change (x +:+ (sep +:+ Join (y :: l) sep) <> ""). by destruct x. Qed.

Lemma hex_text_nonempty g : hex_text g <> "".
Proof. unfold hex_text. repeat case_match; done. Qed.

Lemma IP_nonempty i : IP_String i <> "".
Proof.
  unfold IP_String. destruct (To4 i) as [v|].
  - apply join_nonempty. apply decimal_Itoa. unfold octet. apply Z.land_nonneg. lia.
  - unfold v6_text. destruct (longest_run _ _ _) as [p n]. case_match.
    + by destruct (Join (map hex_text (take p (groups_of i))) ":").
    + unfold groups_of. cbn [map]. apply join_nonempty, hex_text_nonempty.
Qed.

Lemma feed_line_solid line n : feed_line line = Some n -> n <> "" /\ TrimSpace n = n.
Proof.
  unfold feed_line. case_match; [done|]. destruct (ParseIP _) as [i|]; [|done]. intros [= <-].
  split; [apply IP_nonempty|]. apply TrimSpace_all, solid_IP.
Qed.

(* ------------------------------------------------------------------ *)
(** ** What a synchronisation leaves *)

Definition entries (db : DB) : gset (Z * string) := t_threat_intel_entries db.
Definition with_entries (db : DB) (s : gset (Z * string)) : DB := db <| t_threat_intel_entries := s |>.

Lemma insert_entries_run feedID ips seen count db now rnd :
  is_Some (t_threat_intel_feeds db !! feedID) -> NoDup ips -> Forall (fun x => x <> "" /\ TrimSpace x = x) ips ->
  (forall x, x ∈ ips -> x ∉ seen /\ (feedID, x) ∉ entries db) ->
  exists s, insert_entries feedID seen count ips (mkEnv db now [] rnd) =
    (Ok (count + Z.of_nat (length ips)), mkEnv (with_entries db s) now [] rnd) /\
    forall p, p ∈ s <-> p ∈ entries db \/ (p.1 = feedID /\ p.2 ∈ ips).
Proof.
  intros Hf Hn. revert seen count db Hf. induction Hn as [|x l Hx Hn IH]; intros seen count db Hf Hs Hd; simpl.
  { exists (entries db). unfold with_entries, entries. destruct db; simpl. split; [by rewrite Z.add_0_r|].
    intros p. split; [by left|]. by intros [?|[_ ?%elem_of_nil]]. }
  apply Forall_cons in Hs as [[Hne Ht] Hs]. rewrite Ht. destruct (Hd x) as [Hseen Hnew]; [left|].
  apply String.eqb_neq in Hne. rewrite Hne, (bool_decide_eq_false_2 (x ∈ seen)) by done. simpl. rewrite exec_checked_run.
  rewrite (bool_decide_eq_true_2 (is_Some _)), (bool_decide_eq_false_2 ((feedID, x) ∈ _)) by done. simpl.
  destruct (IH ({[x]} ∪ seen) (count + 1) (db <| t_threat_intel_entries ::= fun s => {[(feedID, x)]} ∪ s |>)) as (s & E & Hspec); [done|done| |].
  { intros y Hy. destruct (Hd y) as [H1 H2]; [by right|]. split.
    - apply not_elem_of_union. split; [|done]. rewrite not_elem_of_singleton. by intros ->.
    - unfold entries. simpl. rewrite not_elem_of_union, not_elem_of_singleton. split; [|done]. by intros [= ->]. }
  exists s. rewrite E. split; [by replace (count + 1 + Z.of_nat (length l)) with (count + Z.of_nat (S (length l))) by lia|].
  intros [i y]. rewrite Hspec. unfold entries. simpl. rewrite elem_of_union, elem_of_singleton, elem_of_cons. split; [|naive_solver].
  intros [[[= -> ->]|H]|H]; naive_solver.
Qed.

(** The entries of one feed replaced, those of the others as they were. *)
Definition replaced (feedID : Z) (ips : list string) (old new : gset (Z * string)) : Prop :=
  forall p, p ∈ new <-> (p.1 <> feedID /\ p ∈ old) \/ (p.1 = feedID /\ p.2 ∈ ips).

Lemma stmt_run {B} (k : unit -> SM B) db now rnd : (stmt ≫= k) (mkEnv db now [] rnd) = k tt (mkEnv db now [] rnd).
Proof. done. Qed.

Lemma replace_run feedID ips hash syncErr db now rnd :
  is_Some (t_threat_intel_feeds db !! feedID) -> NoDup ips -> Forall (fun x => x <> "" /\ TrimSpace x = x) ips ->
  exists db', ReplaceThreatIntelFeedEntries feedID ips hash syncErr (mkEnv db now [] rnd) = (Ok tt, mkEnv db' now [] rnd) /\
    replaced feedID ips (entries db) (entries db') /\ dom (t_threat_intel_feeds db') = dom (t_threat_intel_feeds db) /\
    t_settings db' = t_settings db.
Proof.
  intros Hf Hn Hs. unfold ReplaceThreatIntelFeedEntries. rewrite transaction_run. rewrite exec_run, Now_run.
  set (d1 := db <| t_threat_intel_entries ::= _ |>). rewrite stmt_run.
  destruct (insert_entries_run feedID ips ∅ 0 d1 now rnd) as (s & E & Hspec); [done|done|done| |].
  { intros x _. split; [set_solver|]. unfold entries, d1. simpl. rewrite elem_of_keep_set. simpl. rewrite Z.eqb_refl. by intros [? _]. }
  unfold mbind at 1, M_bind at 1. rewrite E. simpl. eexists. split; [reflexivity|]. split_and!; [|apply dom_alter_L|done].
  intros p. unfold entries. simpl. rewrite Hspec. unfold entries, d1. simpl. rewrite elem_of_keep_set.
  destruct (Z.eqb_spec p.1 feedID); naive_solver.
Qed.

Section sync.
Context (fetch : string -> result (Z * string)) (decode_bundle : string -> option (list threatSignatureRule)).

(** What the synchronisation makes of the entries of a feed: what its list names, nothing
    when the list cannot be had, and what was there when the feed is off. *)
Definition feed_entries (f : ThreatIntelFeed) : option (list string) :=
  if tf_Enabled f then Some (match fetchThreatIntelFeed fetch (tf_URL f) with Ok (ips, _) => ips | Err _ => [] end) else None.

Lemma fetched_solid url ips hash : fetchThreatIntelFeed fetch url = Ok (ips, hash) ->
  NoDup ips /\ Forall (fun x => x <> "" /\ TrimSpace x = x) ips.
Proof.
  unfold fetchThreatIntelFeed. case_match; [done|]. destruct (fetch _) as [[st body]|]; [|done]. unfold mbind, result_bind. case_match; [done|].
  destruct (scan_lines _) as [lines|]; [|done]. intros [= <- _]. split; [apply feed_ips_NoDup|].
  apply Forall_forall. intros x (_ & line & _ & E)%feed_ips_spec. by eapply feed_line_solid.
Qed.

(** What a step over the feeds of a list has done. *)
Definition feeds_synced (l : list ThreatIntelFeed) (s s' : Svc) : Prop :=
  e_faults (s_env s') = [] /\ dom (t_threat_intel_feeds (e_db (s_env s'))) = dom (t_threat_intel_feeds (e_db (s_env s))) /\
  (forall f ips x, f ∈ l -> feed_entries f = Some ips -> (tf_ID f, x) ∈ entries (e_db (s_env s')) <-> x ∈ ips) /\
  (forall p, (forall f ips, f ∈ l -> feed_entries f = Some ips -> tf_ID f <> p.1) ->
     p ∈ entries (e_db (s_env s')) <-> p ∈ entries (e_db (s_env s))).

Lemma sync_feed_wp n f s : e_faults (s_env s) = [] -> tf_ID f ∈ dom (t_threat_intel_feeds (e_db (s_env s))) ->
  wp (sync_feed fetch n f) (fun r s' => is_ok r = true /\ feeds_synced [f] s s') s.
Proof.
  intros Hf Hd. destruct n as [[a b] c]. unfold sync_feed, feeds_synced, feed_entries.
  destruct (tf_Enabled f) eqn:En; cycle 1.
  { apply wp_ret. split_and!; try done. intros g ips x ->%list_elem_of_singleton. by rewrite En. }
  assert (Hwrite : forall ips hash err, NoDup ips -> Forall (fun x => x <> "" /\ TrimSpace x = x) ips ->
    Some (match fetchThreatIntelFeed fetch (tf_URL f) with Ok (ips, _) => ips | Err _ => [] end) = Some ips ->
    wp (db (ReplaceThreatIntelFeedEntries (tf_ID f) ips hash err)) (fun r s' => r = Ok tt /\ feeds_synced [f] s s') s).
  { intros ips hash err Hn Hs E0. apply wp_db. destruct s as [[d now fs rnd]]. simpl in *. subst fs. apply elem_of_dom in Hd.
    destruct (replace_run (tf_ID f) ips hash err d now rnd Hd Hn Hs) as (d' & E & Hr & Hdom & _). unfold wp. rewrite E.
    split; [done|]. unfold feeds_synced, feed_entries. simpl. split_and!; [done|done| |].
    - intros g ips' x ->%list_elem_of_singleton. rewrite En, E0. intros [= <-]. rewrite (Hr (tf_ID f, x)). simpl. naive_solver.
    - intros p Hp. rewrite (Hr p). assert (tf_ID f <> p.1); [|naive_solver]. eapply Hp; [by apply list_elem_of_singleton|by rewrite En]. }
  destruct (fetchThreatIntelFeed fetch (tf_URL f)) as [[ips hash]|e] eqn:Ef.
  - destruct (fetched_solid _ _ _ Ef) as [Hn Hs]. apply wp_bind, wp_try. eapply wp_mono; [by apply Hwrite|]. intros r s' [-> H]. by apply wp_ret.
  - apply wp_bind, wp_ignore. eapply wp_mono; [by apply Hwrite; [constructor|constructor|]|]. intros r s' [-> H]. by apply wp_ret.
Qed.

Lemma sync_feeds_wp n l s : e_faults (s_env s) = [] -> NoDup (tf_ID <$> l) ->
  (forall f, f ∈ l -> tf_ID f ∈ dom (t_threat_intel_feeds (e_db (s_env s)))) ->
  wp (fold_each (sync_feed fetch) n l) (fun r s' => is_ok r = true /\ feeds_synced l s s') s.
Proof.
  revert n s. induction l as [|f l IH]; intros n s Hf Hn Hd; simpl.
  { apply wp_ret. split; [done|]. unfold feeds_synced. split_and!; try done. by intros f ips x ?%elem_of_nil. }
  apply NoDup_cons in Hn as [Hnf Hn]. apply wp_bind. eapply wp_mono; [apply sync_feed_wp; [done|apply Hd; left]|].
  intros [n1|e] s1 [Hok (F1 & D1 & In1 & Out1)]; [|done]. eapply wp_mono; [apply IH; [done|done|]|].
  { intros g Hg. rewrite D1. apply Hd. by right. }
  intros r s2 [Hok2 (F2 & D2 & In2 & Out2)]. split; [done|]. unfold feeds_synced. split_and!; [done|congruence| |].
  - intros g ips x [->|Hg]%elem_of_cons E; [|by apply In2]. rewrite Out2; [by apply (In1 f); [left|]|].
    intros h ips' Hh _ Eid. apply Hnf. simpl in Eid. rewrite <- Eid. by apply list_elem_of_fmap_2.
  - intros p Hp. rewrite Out2, Out1; [done| |]; intros g ips Hg E; (eapply Hp; [|exact E]).
    + apply list_elem_of_singleton in Hg as ->. left.
    + by right.
Qed.

Lemma refresh_entries : keeps (on_env (same entries)) RefreshThreatIntelSnapshot.
Proof.
  unfold RefreshThreatIntelSnapshot, GetThreatIntelConfig, ListThreatIntelEntriesByIP, ListThreatIntelAllowIPs.
  keeps_tac; try typeclasses eauto.
  all: try (apply keeps_db; unfold read_setting, GetSetting; keeps_db).
  apply keeps_svc; [typeclasses eauto|done].
Qed.

Lemma signatures_entries force : keeps (on_env (same entries)) (syncThreatSignatures fetch decode_bundle force).
Proof.
  unfold syncThreatSignatures, isThreatSignatureEnabled, isThreatSignatureAutoUpdateEnabled, getThreatSignatureURL, SetSetting.
  keeps_tac; try typeclasses eauto.
  all: try (by apply keeps_setting_or; typeclasses eauto).
  all: try (apply keeps_db; keeps_db).
  all: try (apply keeps_setting_or; [typeclasses eauto|unfold GetSetting; keeps_db]).
  apply keeps_svc; [typeclasses eauto|done].
Qed.

Definition feeds_keyed (db : DB) : Prop := map_Forall (fun k f => tf_ID f = k) (t_threat_intel_feeds db).

Lemma listed_feeds db : feeds_keyed db ->
  NoDup (tf_ID <$> order_by feed_le (rows (t_threat_intel_feeds db))) /\
  forall id f, t_threat_intel_feeds db !! id = Some f <-> f ∈ order_by feed_le (rows (t_threat_intel_feeds db)) /\ tf_ID f = id.
Proof.
  intros Hk. split.
  - rewrite order_by_perm. apply NoDup_fmap_2_strong.
    + intros x y [kx Hx]%elem_of_rows [ky Hy]%elem_of_rows E. pose proof (Hk _ _ Hx). pose proof (Hk _ _ Hy). simpl in *. congruence.
    + apply rows_NoDup. intros j k x Hj H. pose proof (Hk _ _ Hj). pose proof (Hk _ _ H). simpl in *. congruence.
  - intros id f. rewrite elem_of_order_by, elem_of_rows. split.
    + intros H. split; [by exists id|by apply (Hk _ _ H)].
    + intros [[k H] <-]. by rewrite (Hk _ _ H).
Qed.

(** The text a feed serves: an answer of success to its address, up to 32 MiB, in lines
    the scanner takes. *)
Definition serves (f : ThreatIntelFeed) (text : string) : Prop :=
  TrimSpace (tf_URL f) <> "" /\ exists status body, fetch (TrimSpace (tf_URL f)) = Ok (status, body) /\ 200 <= status < 300 /\
    text = read_body body /\ forall line, line ∈ Split text (byte 10) -> len line < 65536.

(** The canonical texts of the addresses that open a line; a comment opens with [#]. *)
Definition names (text x : string) : Prop :=
  exists line word i, line ∈ Split text (byte 10) /\ HasPrefix (TrimSpace line) "#" = false /\
    head (Fields (TrimSpace line)) = Some word /\ ParseIP word = Some i /\ x = IP_String i.

Lemma feed_line_spec line x : feed_line line = Some x <-> exists word i, HasPrefix (TrimSpace line) "#" = false /\
  head (Fields (TrimSpace line)) = Some word /\ ParseIP word = Some i /\ x = IP_String i.
Proof.
  unfold feed_line. destruct (String.eqb_spec (TrimSpace line) "") as [->|Hne]; simpl.
  { split; [done|]. by intros (w & i & _ & H & _). }
  destruct (HasPrefix (TrimSpace line) "#"); [split; [done|]; by intros (w & i & H & _)|].
  destruct (Fields (TrimSpace line)) as [|w l]; simpl.
  { split; [done|]. by intros (w & i & _ & H & _). }
  destruct (ParseIP w) as [i|] eqn:E.
  - split; [intros [= <-]; by exists w, i|]. intros (w' & i' & _ & [= <-] & Hi & ->). congruence.
  - split; [done|]. intros (w' & i' & _ & [= <-] & Hi & _). congruence.
Qed.

Lemma elem_of_removelast (l : list string) line : List.last l "" = "" -> line ∈ l <-> line ∈ removelast l \/ line = "" /\ line ∈ l.
Proof.
  induction l as [|y l _] using rev_ind; [set_solver|]. rewrite removelast_last, last_last. intros ->. set_solver.
Qed.

(** The scanner gives every line but an empty last one, which names nothing. *)
Lemma scanned_lines text : scan_lines text = Err (ErrText "bufio.Scanner: token too long") /\
    (exists line, line ∈ Split text (byte 10) /\ 65536 <= len line) \/
  (forall line, line ∈ Split text (byte 10) -> len line < 65536) /\ exists lines, scan_lines text = Ok lines /\
    forall x, (exists line, line ∈ lines /\ feed_line line = Some x) <-> exists line, line ∈ Split text (byte 10) /\ feed_line line = Some x.
Proof.
  unfold scan_lines. set (all := Split text (byte 10)). set (kept := if String.eqb _ "" then _ else _).
  assert (Hkept : forall line, line ∈ all <-> line ∈ kept \/ line = "" /\ line ∈ all).
  { intros line. unfold kept. destruct (String.eqb_spec (List.last all "") "") as [Hl|Hl]; [|naive_solver].
    by apply elem_of_removelast. }
  destruct (existsb _ kept) eqn:E.
  - left. split; [done|]. apply existsb_exists in E as (line & Hin%list_elem_of_In & Hl). exists line. split; [apply Hkept; by left|].
    apply Z.leb_le in Hl. exact Hl.
  - right. assert (Hshort : forall line, line ∈ kept -> len line < 65536).
    { intros line Hin%list_elem_of_In. destruct (maxScanToken <=? len line) eqn:Hl; [|by apply Z.leb_gt in Hl].
      assert (H : existsb (fun x => maxScanToken <=? len x) kept = true) by (apply existsb_exists; eauto). congruence. }
    split; [intros line [H|[-> _]]%Hkept; [by apply Hshort|done]|]. exists kept. split; [done|]. intros x. split.
    + intros (line & Hin & Hx). exists line. split; [apply Hkept; by left|done].
    + intros (line & [H|[-> _]]%Hkept & Hx); [eauto|done].
Qed.

(** What is fetched is what is named. *)
Lemma fetched_spec f x : (x ∈ match fetchThreatIntelFeed fetch (tf_URL f) with Ok (ips, _) => ips | Err _ => [] end) <->
  exists text, serves f text /\ names text x.
Proof.
  unfold fetchThreatIntelFeed, serves. destruct (String.eqb_spec (TrimSpace (tf_URL f)) "") as [Hu|Hu].
  { split; [by intros ?%elem_of_nil|]. by intros (t & [? _] & _). }
  destruct (fetch _) as [[status body]|e]; unfold mbind, result_bind.
  2: { split; [by intros ?%elem_of_nil|]. by intros (t & (_ & ? & ? & ? & _) & _). }
  destruct ((status <? 200) || (300 <=? status)) eqn:Es.
  { split; [by intros ?%elem_of_nil|]. intros (t & (_ & ? & ? & [= <- <-] & ? & _) & _). lia. }
  destruct (scanned_lines (read_body body)) as [[-> (line & Hin & Hl)]|[Hshort (lines & -> & Hlines)]].
  { split; [by intros ?%elem_of_nil|]. intros (t & (_ & ? & ? & [= <- <-] & _ & -> & H) & _). specialize (H _ Hin). lia. }
  rewrite feed_ips_spec. split.
  - intros (_ & (line & Hin & (w & i & H)%feed_line_spec)%Hlines). exists (read_body body). split; [|by exists line, w, i].
    split; [done|]. exists status, body. split_and!; [done|lia|lia|done|done].
  - intros (t & (_ & st & bd & [= <- <-] & _ & -> & _) & line & w & i & Hin & Hw). split; [apply not_elem_of_empty|].
    apply Hlines. exists line. split; [done|]. apply feed_line_spec. by exists w, i.
Qed.

(** C26. A synchronisation on a working database gives every feed that is on exactly the
    addresses its list names: for each line of the text it serves that is no comment,
    the address the first word of the line writes, in its canonical form.  A feed that
    serves no list (no answer, a status of no success, a line of 64 KiB or more) loses
    all of its addresses, and one that is off keeps them. *)
Theorem feed_sync_outcome s (Hf : e_faults (s_env s) = []) (Hk : feeds_keyed (e_db (s_env s))) :
  wp (SyncThreatIntelFeeds fetch decode_bundle) (fun r s' => is_ok r = true /\
    forall id f, t_threat_intel_feeds (e_db (s_env s)) !! id = Some f -> forall x,
      (id, x) ∈ entries (e_db (s_env s')) <->
      if tf_Enabled f then exists text, serves f text /\ names text x else (id, x) ∈ entries (e_db (s_env s))) s.
Proof.
  unfold SyncThreatIntelFeeds, ListThreatIntelFeeds. apply calm_query_wp; [done|]. unfold wp at 1. rewrite db_now_run. fold (@wp Svc SyncSummary).
  destruct (listed_feeds _ Hk) as [Hn Hl]. set (l := order_by _ _) in *.
  match goal with |- ?G => change G with (wp (fold_each (sync_feed fetch) (0, 0, 0) l ≫= fun '(a, b, c) =>
    sig ← try_ (syncThreatSignatures fetch decode_bundle true);
    ignore RefreshThreatIntelSnapshot ≫= fun _ =>
    mret (mkSyncSummary (Z.of_nat (length l)) a b c (RFC3339Nano (e_now (s_env s))) (is_ok sig) (match sig with Ok _ => "" | Err e => error_text e end)))
    (fun r s' => is_ok r = true /\ forall id f, t_threat_intel_feeds (e_db (s_env s)) !! id = Some f -> forall x,
      (id, x) ∈ entries (e_db (s_env s')) <->
      if tf_Enabled f then exists text, serves f text /\ names text x else (id, x) ∈ entries (e_db (s_env s))) s) end.
  apply wp_bind. eapply wp_mono; [apply sync_feeds_wp; [done|done|]|].
  { intros f Hin. apply elem_of_dom. exists f. by apply Hl. }
  intros [[[a b] c]|e] s1 [Hok (_ & _ & In1 & Out1)]; [|done].
  apply wp_bind, wp_try. eapply (wp_keeps (on_env (same entries))); [apply signatures_entries|]. intros sig s2 E2.
  apply wp_bind, wp_ignore. eapply (wp_keeps (on_env (same entries))); [apply refresh_entries|]. intros _ s3 E3.
  apply wp_ret. split; [done|]. intros id f Hrow x. destruct E2 as [E2 _], E3 as [E3 _]. rewrite E3, E2. apply Hl in Hrow as [Hin <-].
  destruct (tf_Enabled f) eqn:Ef; [rewrite <- fetched_spec; apply (In1 f); [done|unfold feed_entries; by rewrite Ef]|].
  apply Out1. intros g ips Hg Eg Eid. simpl in Eid.
  assert (g = f) as ->; [|unfold feed_entries in Eg; by rewrite Ef in Eg]. assert (H1 : t_threat_intel_feeds (e_db (s_env s)) !! tf_ID f = Some g) by (by apply Hl).
  assert (H2 : t_threat_intel_feeds (e_db (s_env s)) !! tf_ID f = Some f) by (by apply Hl). congruence.
Qed.
End sync.

(* ------------------------------------------------------------------ *)
(** ** A feed *)

Definition lists (up : bool) (url : string) : result (Z * string) :=
  if up then Ok (200, Join ["# drop"; "203.0.113.7"; "2001:DB8::1 ; seen"; "203.0.113.7"; "not an address"] (String (byte 10) ""))
  else Err (ErrText "connection refused").
Definition feed (id : Z) (on : bool) : ThreatIntelFeed :=
  zero_ThreatIntelFeed <| tf_ID := id |> <| tf_Name := "list" |> <| tf_URL := "https://lists.example" |> <| tf_Enabled := on |>.
Definition feed_svc : Svc :=
  new_svc (mkEnv (empty_DB <| t_threat_intel_feeds := {[1 := feed 1 true; 2 := feed 2 false]} |>
                           <| t_threat_intel_entries := {[(1, "198.51.100.9"); (2, "198.51.100.9")]} |>) Hour [] []) None.

Lemma feed_svc_keyed : feeds_keyed (e_db (s_env feed_svc)).
Proof. intros k f. simpl. intros H. apply lookup_insert_Some in H as [[<- <-]|[_ H]]; [done|]. by apply lookup_singleton_Some in H as [<- <-]. Qed.

(** The list in words: its second line names an address, its third one in capitals. *)
Lemma feed_served : serves (lists true) (feed 1 true) (Join ["# drop"; "203.0.113.7"; "2001:DB8::1 ; seen"; "203.0.113.7"; "not an address"] (String (byte 10) "")).
Proof.
  split; [vm_compute; discriminate|]. eexists 200, _. split; [reflexivity|]. split; [lia|]. split; [vm_compute; reflexivity|].
  intros line. vm_compute (Split _ _). intros H. repeat (apply elem_of_cons in H as [->|H]; [vm_compute; reflexivity|]). by apply elem_of_nil in H.
Qed.

Lemma feed_sync_outcome_witness :
  let s' := (SyncThreatIntelFeeds (lists true) (fun _ => None) feed_svc).2 in
  (1, "203.0.113.7") ∈ entries (e_db (s_env s')) /\ (1, "2001:db8::1") ∈ entries (e_db (s_env s')) /\
  (2, "198.51.100.9") ∈ entries (e_db (s_env s')).
Proof.
  cbv zeta. pose proof (wp_apply _ _ _ (feed_sync_outcome (lists true) (fun _ => None) feed_svc eq_refl feed_svc_keyed)) as [_ H].
  split_and!.
  - apply (H 1 (feed 1 true)); [vm_compute; reflexivity|]. eexists. split; [exact feed_served|].
    eexists "203.0.113.7", _, _. split_and!; [apply (bool_decide_unpack _); vm_compute; exact I|vm_compute; reflexivity..].
  - apply (H 1 (feed 1 true)); [vm_compute; reflexivity|]. eexists. split; [exact feed_served|].
    eexists "2001:DB8::1 ; seen", _, _. split_and!; [apply (bool_decide_unpack _); vm_compute; exact I|vm_compute; reflexivity..].
  - apply (H 2 (feed 2 false)); [vm_compute; reflexivity|]. cbn [tf_Enabled feed]. apply (bool_decide_unpack _). vm_compute. exact I.
Defined.

(** A list that cannot be had once empties its feed, and the time of the attempt counts
    as a synchronisation: the feed stays empty until the next one is due. *)
Example failed_download_empties :
  let s' := (SyncThreatIntelFeeds (lists false) (fun _ => None) feed_svc).2 in
  entries (e_db (s_env s')) = {[(2, "198.51.100.9")]} /\
  (tf_LastSyncAt <$> t_threat_intel_feeds (e_db (s_env s')) !! 1) = Some Hour /\
  feed_due Hour (default zero_ThreatIntelFeed (t_threat_intel_feeds (e_db (s_env s')) !! 1)) = false.
Proof. cbv zeta. split_and!; vm_compute; reflexivity. Qed.
