(* ===== verification/TrafficReports.v ===== *)
(** [internal/app/service.go], [internal/store/store.go]: the reports on the
    traffic tables the recorder fills ([Traffic.v]).

    A row of a report carries its sums as [counters] (the report by country has no
    [bytes_in]).  SQLite's SUM fails when it leaves the 64-bit integers. *)

From S2P Require Import Prelude GoString GoMonad GoTime Model StoreDB StoreHosts Traffic Service.
Open Scope Z_scope.

(** A row of [host_traffic_minute] or [host_traffic_class_minute]; the first has no class. *)
Record Bucket := mkBucket { bu_host : Z; bu_country : string; bu_class : string; bu_start : time; bu_row : TrafficRow }.

Definition minute_rows (db : DB) : list Bucket :=
  map (fun p : Z * string * time * TrafficRow => let '(h, c, b, r) := p in mkBucket h c "" b r) (map_to_list (t_host_traffic_minute db)).
Definition class_rows (db : DB) : list Bucket :=
  map (fun p : Z * string * string * time * TrafficRow => let '(h, c, cl, b, r) := p in mkBucket h c cl b r)
    (map_to_list (t_host_traffic_class_minute db)).

(** [bucket_start >= ?], on texts. *)
Definition since_bucket (since : time) (b : Bucket) : bool := String.leb (RFC3339 since) (RFC3339 (bu_start b)).

Definition add_row (r : TrafficRow) (c : counters) : counters :=
  mkcounters (tr_requests r + co_requests c) (tr_bytes_in r + co_bytesIn c) (tr_bytes_out r + co_bytesOut c)
    (tr_blocked r + co_blocked c) (tr_status_2xx r + co_2xx c) (tr_status_3xx r + co_3xx c) (tr_status_4xx r + co_4xx c)
    (tr_status_5xx r + co_5xx c).
Definition sum_buckets (l : list Bucket) : counters := fold_right (fun b c => add_row (bu_row b) c) zero_counters l.
Definition in_range (c : counters) : bool :=
  in_int64 (co_requests c) && in_int64 (co_bytesIn c) && in_int64 (co_bytesOut c) && in_int64 (co_blocked c) &&
  in_int64 (co_2xx c) && in_int64 (co_3xx c) && in_int64 (co_4xx c) && in_int64 (co_5xx c).

(** [GROUP BY key]: the keys with the sums of their rows. *)
Definition group_rows {K} `{Countable K} (key : Bucket -> K) (l : list Bucket) : gmap K (list Bucket) :=
  fold_right (fun b m => <[key b := b :: default [] (m !! key b)]> m) ∅ l.
Definition group_sums {K} `{Countable K} (key : Bucket -> K) (l : list Bucket) : list (K * counters) :=
  map (fun p => (p.1, sum_buckets p.2)) (map_to_list (group_rows key l)).

Definition no_bytes_in (c : counters) : counters := c <| co_bytesIn := 0 |>.

(** A query whose sums may overflow. *)
Definition query_sums {K A} (f : DB -> list (K * counters)) (row : DB -> K * counters -> A) (le : A -> A -> bool) : SM (list A) :=
  r ← query (fun db => (forallb (fun p => in_range p.2) (f db), order_by le (map (row db) (f db))));
  if r.1 : bool then mret r.2 else fail ErrDriver.

Record HostTrafficSummaryRow := mkHostTrafficSummaryRow { hs_HostID : Z; hs_FQDN : string; hs_sums : counters; hs_UniqueVisitors : Z }.
Record HostTrafficPointRow := mkHostTrafficPointRow { hp_BucketStart : string; hp_sums : counters }.
Record CountryTrafficRow := mkCountryTrafficRow { ct_Country : string; ct_sums : counters }.
Record HostCountryTrafficRow := mkHostCountryTrafficRow { hc_HostID : Z; hc_FQDN : string; hc_sums : counters }.

(** [COUNT(DISTINCT ip_hash)] of a host from a day on. *)
Definition uniques (since : time) (host : Z) (db : DB) : Z :=
  Z.of_nat (size (set_map (C := gset (Z * string * string)) (D := gset string) (fun v => v.2)
    (keep_set (fun v => (v.1.1 =? host) && String.leb (day_of since) v.1.2) (t_host_visitors_daily db)))).

Definition by_requests {A} (f : A -> counters) (x y : A) : bool := co_requests (f y) <=? co_requests (f x).

Definition ListHostTrafficSummaries (since : time) : SM (list HostTrafficSummaryRow) :=
  query_sums (fun db => group_sums (fun b => (bu_host b, tr_fqdn (bu_row b))) (List.filter (since_bucket since) (minute_rows db)))
    (fun db p => mkHostTrafficSummaryRow p.1.1 p.1.2 p.2 (uniques since p.1.1 db)) (by_requests hs_sums).

Definition GetHostTrafficSeries (host : Z) (since : time) : SM (list HostTrafficPointRow) :=
  query_sums (fun db => group_sums (fun b => RFC3339 (bu_start b))
                          (List.filter (fun b => (bu_host b =? host) && since_bucket since b) (minute_rows db)))
    (fun _ p => mkHostTrafficPointRow p.1 p.2) (fun x y => String.leb (hp_BucketStart x) (hp_BucketStart y)).

Definition CountHostUniqueVisitors (host : Z) (since : time) : SM Z := query (uniques since host).

Definition classes : list string := ["crawler"; "human"; "unknown"].
Definition normalizeTrafficClass (class : string) : string :=
  let c := norm class in if bool_decide (c ∈ classes) then c else "all".
Definition normalizeRequestClass (class : string) : string :=
  let c := norm class in if bool_decide (c ∈ classes) then c else "all".

(** The four forms of the condition: a host or all of them, a class or all of them. *)
Definition wanted (since : time) (host : Z) (class : string) (b : Bucket) : bool :=
  since_bucket since b && (if 0 <? host then bu_host b =? host else true) &&
  (if String.eqb class "all" then true else String.eqb (bu_class b) class).

Definition ListTrafficCountries (since : time) (host : Z) (class : string) : SM (list CountryTrafficRow) :=
  let class := normalizeTrafficClass class in
  let ask source := query_sums (fun db => group_sums bu_country (List.filter (wanted since host class) (source db)))
                      (fun _ p => mkCountryTrafficRow p.1 (no_bytes_in p.2)) (by_requests ct_sums) in
  out ← ask class_rows;
  match out with
  | [] => if String.eqb class "all" then ask minute_rows else mret out
  | _ => mret out
  end.

Definition ListHostCountryTraffic (since : time) (country : string) (host : Z) (class : string) : SM (list HostCountryTrafficRow) :=
  let country := ToUpper (TrimSpace country) in
  let class := normalizeTrafficClass class in
  fail_if (String.eqb country "") "country is required" ≫= fun _ =>
  let ask source := query_sums (fun db => group_sums (fun b => (bu_host b, tr_fqdn (bu_row b)))
                      (List.filter (fun b => wanted since host class b && String.eqb (bu_country b) country) (source db)))
                      (fun _ p => mkHostCountryTrafficRow p.1.1 p.1.2 (no_bytes_in p.2)) (by_requests hc_sums) in
  out ← ask class_rows;
  match out with
  | [] => if String.eqb class "all" then ask minute_rows else mret out
  | _ => mret out
  end.

(* ------------------------------------------------------------------ *)
(** ** The reports of the service *)

Record TrafficOverview := mkTrafficOverview {
  ov_Hours : Z; ov_GeneratedAt : string; ov_TotalRequests : Z; ov_TotalBytesIn : Z; ov_TotalBytesOut : Z;
  ov_TotalBlocked : Z; ov_UniqueVisitors : Z; ov_Hosts : list HostTrafficSummaryRow
}.
#[export] Instance eta_TrafficOverview : Eta TrafficOverview := fun r =>
  mkTrafficOverview (ov_Hours r) (ov_GeneratedAt r) (ov_TotalRequests r) (ov_TotalBytesIn r) (ov_TotalBytesOut r)
    (ov_TotalBlocked r) (ov_UniqueVisitors r) (ov_Hosts r).
Record HostTrafficDetails := mkHostTrafficDetails {
  hd_Hours : Z; hd_HostID : Z; hd_FQDN : string; hd_sums : counters; hd_UniqueVisitors : Z; hd_Series : list HostTrafficPointRow
}.
Record TrafficCountryOverview := mkTrafficCountryOverview {
  to_Hours : Z; to_GeneratedAt : string; to_RequestClass : string; to_HostID : Z; to_HostFQDN : string;
  to_TotalRequests : Z; to_TotalBlocked : Z; to_TotalBytesOut : Z; to_Countries : list CountryTrafficRow;
  to_UnknownBreakdown : list HostCountryTrafficRow
}.

Definition normalizeTrafficHours (hours : Z) : Z := if hours <=? 0 then 24 else if 720 <? hours then 720 else hours.

(** [out += x] over a list, on 64-bit integers. *)
Definition total {A} (f : A -> Z) (l : list A) : Z := fold_left (fun a x => wrap64 (a + f x)) l 0.

(** Each host counts once, by its first row with visitors. *)
Fixpoint first_visitors (seen : gset Z) (l : list HostTrafficSummaryRow) : list Z :=
  match l with
  | [] => []
  | r :: l' => if (0 <? hs_UniqueVisitors r) && negb (bool_decide (hs_HostID r ∈ seen))
               then hs_UniqueVisitors r :: first_visitors ({[hs_HostID r]} ∪ seen) l' else first_visitors seen l'
  end.

Definition since_hours (hours : Z) : SM (time * time) := now ← Now; mret (now, Add now (- (hours * Hour))).

Definition GetTrafficOverview (hours : Z) : SM TrafficOverview :=
  let hours := normalizeTrafficHours hours in
  '(now, since) ← since_hours hours;
  rows ← ListHostTrafficSummaries since;
  let sum f := total (fun r => f (hs_sums r)) rows in
  mret (mkTrafficOverview hours (RFC3339 now) (sum co_requests) (sum co_bytesIn) (sum co_bytesOut) (sum co_blocked)
    (total (fun n => n) (first_visitors ∅ rows)) rows).

Definition total_counters (l : list counters) : counters :=
  mkcounters (total co_requests l) (total co_bytesIn l) (total co_bytesOut l) (total co_blocked l) (total co_2xx l)
    (total co_3xx l) (total co_4xx l) (total co_5xx l).

Definition GetHostTraffic (hostID hours : Z) : SM HostTrafficDetails :=
  let hours := normalizeTrafficHours hours in
  '(_, since) ← since_hours hours;
  host ← GetHostByID hostID;
  series ← GetHostTrafficSeries hostID since;
  uv ← CountHostUniqueVisitors hostID since;
  mret (mkHostTrafficDetails hours hostID (h_FQDN host) (total_counters (map hp_sums series)) uv series).

Definition GetTrafficCountries (hostID hours : Z) (class : string) : SM TrafficCountryOverview :=
  let hours := normalizeTrafficHours hours in
  let class := normalizeRequestClass class in
  '(now, since) ← since_hours hours;
  '(id, fqdn) ← (if 0 <? hostID then h ← GetHostByID hostID; mret (h_ID h, h_FQDN h) else mret (0, ""));
  rows ← ListTrafficCountries since hostID class;
  let rows := List.filter (fun r => negb (EqualFold (TrimSpace (ct_Country r)) "LOCAL")) rows in
  zz ← try_ (ListHostCountryTraffic since "ZZ" hostID class);
  let sum f := total (fun r => f (ct_sums r)) rows in
  mret (mkTrafficCountryOverview hours (RFC3339 now) class id fqdn (sum co_requests) (sum co_blocked) (sum co_bytesOut) rows
    (match zz with Ok l => l | Err _ => [] end)).

(* ------------------------------------------------------------------ *)
(** ** Sums of groups *)

Lemma wrap64_add a b : wrap64 (wrap64 a + b) = wrap64 (a + b).
Proof.
  unfold wrap64. f_equal. set (c := 2 ^ 63). set (m := 2 ^ 64).
  replace ((a + c) mod m - c + b + c) with ((a + c) mod m + b) by lia.
  rewrite Z.add_mod_idemp_l by (unfold m; lia). f_equal. lia.
Qed.

Lemma total_wrap {A} (f : A -> Z) l : total f l = wrap64 (lsum (map f l)).
Proof.
  unfold total. assert (H : forall a, fold_left (fun a x => wrap64 (a + f x)) l (wrap64 a) = wrap64 (a + lsum (map f l))).
  { induction l as [|x l IH]; intros a; simpl; [f_equal; unfold lsum; simpl; lia|].
    rewrite wrap64_add, IH. unfold lsum. simpl. f_equal. lia. }
  specialize (H 0). by rewrite Z.add_0_l in H.
Qed.

(** A counter of the sums and the column it adds up. *)
Definition adds (f : counters -> Z) (g : TrafficRow -> Z) : Prop := forall l, f (sum_buckets l) = lsum (map (fun b => g (bu_row b)) l).
Lemma adds_requests : adds co_requests tr_requests.
Proof. intros l. induction l as [|b l IH]; [done|]. simpl. unfold lsum in *. simpl. by rewrite IH. Qed.

Section group.
Context {K : Type} `{Countable K} (key : Bucket -> K) (f : counters -> Z) (g : TrafficRow -> Z) (Hfg : adds f g) (p : K -> bool).
Local Abbreviation column l := (lsum (map (fun b => g (bu_row b)) l)).

Lemma group_keys l k bs : group_rows key l !! k = Some bs -> Forall (fun b => key b = k) bs.
Proof.
  revert k bs. induction l as [|b l IH]; intros k bs; simpl; [by rewrite lookup_empty|].
  intros [[<- <-]|[Hne Hk]]%lookup_insert_Some; [|by apply IH]. constructor; [done|].
  destruct (group_rows key l !! key b) as [old|] eqn:E; simpl; [by apply IH|constructor].
Qed.

Lemma group_msum l : msum (fun bs => column (List.filter (fun b => p (key b)) bs)) (group_rows key l) =
  column (List.filter (fun b => p (key b)) l).
Proof.
  induction l as [|b l IH]; [by apply msum_empty|]. simpl. rewrite msum_insert, IH.
  destruct (group_rows key l !! key b) as [old|]; simpl; destruct (p (key b)); simpl; unfold lsum; simpl; lia.
Qed.

Lemma lsum_filter {A} (q : A -> bool) (h : A -> Z) l : lsum (map h (List.filter q l)) = lsum (map (fun x => if q x then h x else 0) l).
Proof. induction l as [|x l IH]; [done|]. simpl. destruct (q x); simpl; unfold lsum in *; simpl; lia. Qed.

(** The sums of the groups of some keys add up the rows of those keys. *)
Lemma group_sums_total l :
  lsum (map (fun q => f q.2) (List.filter (fun q => p q.1) (group_sums key l))) = column (List.filter (fun b => p (key b)) l).
Proof.
  rewrite <- group_msum. unfold msum, group_sums. rewrite lsum_filter, map_map. f_equal. rewrite map_map.
  assert (Hk : forall q, q ∈ map_to_list (group_rows key l) -> Forall (fun b => key b = q.1) q.2).
  { intros [k bs] Hq%elem_of_map_to_list. by eapply group_keys. }
  induction (map_to_list _) as [|[k bs] m IH]; [done|]. simpl. f_equal; [|apply IH; intros q Hq; apply Hk; by right].
  pose proof (Hk (k, bs) ltac:(left)) as Hb. simpl in Hb. rewrite Hfg.
  assert (E : List.filter (fun b => p (key b)) bs = if p k then bs else []).
  { clear -Hb. induction Hb as [|b bs <- Hb IH]; simpl; [by destruct (p k)|]. rewrite IH. by destruct (p (key b)). }
  rewrite E. by destruct (p k).
Qed.
End group.

(* ------------------------------------------------------------------ *)
(** ** What the reports add up *)

Definition requests_in (l : list Bucket) : Z := lsum (map (fun b => tr_requests (bu_row b)) l).

Lemma query_sums_run {K A} (f : DB -> list (K * counters)) row (le : A -> A -> bool) db now rnd r e' :
  query_sums f row le (mkEnv db now [] rnd) = (Ok r, e') -> r = order_by le (map (row db) (f db)) /\ e' = mkEnv db now [] rnd.
Proof. unfold query_sums. rewrite query_run. simpl. destruct (forallb _ _); [|done]. by intros [= <- <-]. Qed.

Lemma total_rows {K A} (q : K -> bool) (f : list (K * counters)) (row : K * counters -> A) le (h : A -> Z) (keep : A -> bool) :
  (forall x, keep (row x) = q x.1) -> (forall x, h (row x) = co_requests x.2) ->
  total h (List.filter keep (order_by le (map row f))) = wrap64 (lsum (map (fun x => co_requests x.2) (List.filter (fun x => q x.1) f))).
Proof.
  intros Hk Hh. rewrite total_wrap. f_equal. rewrite !lsum_filter. rewrite order_by_perm, map_map. f_equal.
  apply map_ext. intros x. by rewrite Hk, Hh.
Qed.

(** The overview counts every request of the period exactly once, on 64-bit integers. *)
Theorem overview_counts_once hours db now rnd ov e'
  (H : GetTrafficOverview hours (mkEnv db now [] rnd) = (Ok ov, e')) :
  ov_TotalRequests ov =
    wrap64 (requests_in (List.filter (since_bucket (Add now (- (normalizeTrafficHours hours * Hour)))) (minute_rows db))).
Proof.
  unfold GetTrafficOverview, since_hours in H. rewrite bind_assoc_run, Now_run in H. unfold mbind at 1, M_bind at 1 in H. cbn [mret M_ret] in H.
  set (since := Add now _) in *. unfold mbind, M_bind in H.
  destruct (ListHostTrafficSummaries since _) as [[rows|x] e1] eqn:E; [|done]. apply query_sums_run in E as [-> ->].
  injection H as <- <-. cbn [ov_TotalRequests].
  pose proof (total_rows (fun _ => true)
    (group_sums (fun b => (bu_host b, tr_fqdn (bu_row b))) (List.filter (since_bucket since) (minute_rows db)))
    (fun p => mkHostTrafficSummaryRow p.1.1 p.1.2 p.2 (uniques since p.1.1 db)) (by_requests hs_sums)
    (fun r => co_requests (hs_sums r)) (fun _ => true) ltac:(done) ltac:(done)) as T.
  rewrite (forallb_filter_id (fun _ => true)) in T by (apply forallb_forall; done). rewrite T. f_equal.
  rewrite (group_sums_total (fun b => (bu_host b, tr_fqdn (bu_row b))) co_requests tr_requests adds_requests (fun _ => true)).
  by rewrite (forallb_filter_id (fun _ => true)) by (apply forallb_forall; done).
Qed.

Definition outside_local (c : string) : bool := negb (EqualFold (TrimSpace c) "LOCAL").

Definition country_rows (since : time) (host : Z) (class : string) (db : DB) : list Bucket :=
  List.filter (wanted since host (normalizeTrafficClass class)) (class_rows db).

Lemma group_sums_nil {K} `{Countable K} (key : Bucket -> K) l : group_sums key l = [] -> l = [].
Proof.
  unfold group_sums. intros E%map_eq_nil%map_to_list_empty_iff. destruct l as [|b l]; [done|]. simpl in E.
  exfalso. revert E. apply insert_non_empty.
Qed.

(** What a report by country adds up: where no row of a class is found for all classes,
    the rows without one that are older than the classes. *)
Definition reported (since : time) (host : Z) (class : string) (db : DB) : list Bucket :=
  match country_rows since host class db with
  | [] => if String.eqb (normalizeTrafficClass class) "all"
          then List.filter (wanted since host (normalizeTrafficClass class)) (minute_rows db) else []
  | l => l
  end.

Lemma list_countries_wp since host class db now rnd :
  wp (ListTrafficCountries since host class) (fun r _ => forall rs, r = Ok rs ->
    rs = order_by (by_requests ct_sums) (map (fun p => mkCountryTrafficRow p.1 (no_bytes_in p.2)) (group_sums bu_country (reported since host class db))))
    (mkEnv db now [] rnd).
Proof.
  unfold ListTrafficCountries. apply wp_bind. unfold wp at 1.
  destruct (query_sums _ _ _ _) as [[out|x] e1] eqn:E; [|done]. apply query_sums_run in E as [-> ->].
  fold (country_rows since host class db). unfold reported. destruct (order_by _ _) as [|a l] eqn:El; cycle 1.
  { apply wp_ret. intros rs [= <-]. rewrite <- El. destruct (country_rows since host class db); [discriminate El|done]. }
  assert (Hnil : country_rows since host class db = []).
  { assert (Hp : [] ≡ₚ map (fun p => mkCountryTrafficRow p.1 (no_bytes_in p.2)) (group_sums bu_country (country_rows since host class db))).
    { rewrite <- El. apply order_by_perm. }
    by apply Permutation_nil, map_eq_nil, group_sums_nil in Hp. }
  rewrite Hnil. destruct (String.eqb _ "all"); [|apply wp_ret; by intros rs [= <-]].
  unfold wp. destruct (query_sums _ _ _ _) as [[out|x] e1] eqn:E; [|done]. apply query_sums_run in E as [-> ->]. by intros rs [= <-].
Qed.

Lemma normalizeTrafficClass_idem class : normalizeTrafficClass (normalizeRequestClass class) = normalizeTrafficClass class.
Proof.
  unfold normalizeRequestClass, normalizeTrafficClass. destruct (bool_decide (norm class ∈ classes)) eqn:Hc; [|reflexivity].
  assert (Hn : norm (norm class) = norm class) by apply norm_idem. by rewrite Hn, Hc.
Qed.

Lemma countries_wp host hours class db now rnd :
  let since := Add now (- (normalizeTrafficHours hours * Hour)) in
  wp (GetTrafficCountries host hours class) (fun r _ => forall o, r = Ok o ->
    to_TotalRequests o = wrap64 (requests_in (List.filter (fun b => outside_local (bu_country b)) (reported since host class db))))
    (mkEnv db now [] rnd).
Proof.
  intros since. unfold GetTrafficCountries. apply wp_bind. unfold wp at 1.
  change (since_hours (normalizeTrafficHours hours) (mkEnv db now [] rnd)) with (Ok (now, since), mkEnv db now [] rnd). cbv iota beta.
  apply wp_bind. apply wp_mono with (Q := fun _ e => e = mkEnv db now [] rnd).
  { destruct (0 <? host); [|by apply wp_ret]. unfold GetHostByID, wp, mbind, M_bind. rewrite query_row_run_end. by destruct (t_hosts db !! host). }
  intros [[id fqdn]|x] e1 ->; [|done]. apply wp_bind. eapply wp_mono; [apply list_countries_wp|].
  intros [rs|x] e2 Hrs; [|done]. rewrite (Hrs rs eq_refl). apply wp_bind, wp_try, wp_any. intros zz e3. apply wp_ret. intros o [= <-].
  cbn [to_TotalRequests]. unfold reported, country_rows. rewrite normalizeTrafficClass_idem. fold (country_rows since host class db). fold (reported since host class db).
  rewrite (total_rows outside_local) by done. f_equal. unfold requests_in.
  by rewrite (group_sums_total bu_country co_requests tr_requests adds_requests outside_local).
Qed.

Lemma filter_filter_andb {A} (p q : A -> bool) l : List.filter p (List.filter q l) = List.filter (fun x => p x && q x) l.
Proof. induction l as [|x l IH]; [done|]. simpl. destruct (q x); simpl; rewrite ?andb_true_r, ?andb_false_r; [by rewrite IH|exact IH]. Qed.

(** The recorder gives every row of the table one of the three classes. *)
Definition classed (s : Recorder * Env) : Prop :=
  map_Forall (fun _ c => cg_class c ∈ classes) (rc_class s.1) /\ Forall (fun b => bu_class b ∈ classes) (class_rows (e_db s.2)).

Lemma classify_classes ua : classifyTrafficClass ua ∈ classes.
Proof. unfold classifyTrafficClass, classes. repeat case_match; set_solver. Qed.

Lemma class_rows_keys db : Forall (fun b => bu_class b ∈ classes) (class_rows db) <->
  map_Forall (fun (k : Z * string * string * time) _ => k.1.2 ∈ classes) (t_host_traffic_class_minute db).
Proof.
  unfold class_rows. rewrite Forall_map, map_Forall_to_list. apply Forall_proper; [|done]. by intros [[[[h c] cl] b] row].
Qed.

Lemma upsert_classed host fqdn country class bucket c : class ∈ classes ->
  keeps (inv (fun db => Forall (fun b => bu_class b ∈ classes) (class_rows db))) (UpsertHostTrafficClassMinute host fqdn country class bucket c).
Proof.
  intros Hc. unfold UpsertHostTrafficClassMinute. cbv zeta.
  assert (Hn : norm class = class) by (unfold classes in Hc; repeat (apply elem_of_cons in Hc as [->|Hc]; [reflexivity|]); by apply elem_of_nil in Hc).
  rewrite Hn. assert (Hne : String.eqb class "" = false) by (clear Hn; unfold classes in Hc; repeat (apply elem_of_cons in Hc as [->|Hc]; [reflexivity|]); by apply elem_of_nil in Hc).
  rewrite Hne.
  keeps_inv. intros db _ H. apply class_rows_keys. apply class_rows_keys in H. simpl. by apply map_Forall_insert_2.
Qed.

Lemma classed_step l s s' : step l s s' -> classed s -> classed s'.
Proof.
  intros [now ev r e|r e|r e tr cl vi (_ & W & _)] [H1 H2]; simpl in *.
  - split; [|done]. unfold record_event. simpl. destruct (normalize_event now ev); [|done]. by destruct (_ <? _)%nat.
  - split; [|done]. unfold take_event. simpl. destruct (rc_ch r) as [|ev q]; [done|]. simpl. apply map_Forall_insert_2; [|done].
    destruct (rc_class r !! class_key ev) as [c|] eqn:E; [exact (H1 _ _ E)|apply classify_classes].
  - split; [simpl; apply map_Forall_empty|]. simpl.
    assert (Hc : Forall (fun c => cg_class c ∈ classes) cl).
    { apply Forall_forall. intros c Hin. rewrite W in Hin. apply list_elem_of_fmap in Hin as ([k b] & -> & Hb%elem_of_map_to_list). exact (H1 _ _ Hb). }
    clear W. assert (Hk : keeps (inv (fun db => Forall (fun b => bu_class b ∈ classes) (class_rows db))) (write_all tr cl vi)); [|exact (Hk e H2)].
    unfold write_all. apply keeps_bind; [typeclasses eauto| |intros _; apply keeps_bind; [typeclasses eauto| |intros _]].
    + unfold UpsertHostTrafficMinute. keeps_inv. by intros db _ H.
    + induction Hc as [|c l2 Hcl _ IH]; simpl; [apply keeps_ret; typeclasses eauto|].
      apply keeps_bind; [typeclasses eauto|apply keeps_ignore; by apply upsert_classed|intros _; exact IH].
    + unfold UpsertHostVisitorDaily. keeps_inv; by intros db _ H.
Qed.
Lemma classed_runs s0 l s : runs s0 l s -> classed s0 -> classed s.
Proof. induction 1; eauto using classed_step. Qed.

(** C27. The requests of a period fall into the classes of clients.  Where the table by
    classes, whose rows all have one of the three classes (the recorder writes no
    others: [classed_runs]), holds a row of the period and the host asked for, the
    numbers of the three classes add up to the number of all, on 64-bit integers.
    Where it holds none, the three numbers are zero and the number of all is that of
    the older table without classes. *)
Theorem classes_partition host hours db now rnd all crawler human unknown e0 e1 e2 e3
  (Hclasses : Forall (fun b => bu_class b ∈ classes) (class_rows db))
  (H0 : GetTrafficCountries host hours "all" (mkEnv db now [] rnd) = (Ok all, e0))
  (H1 : GetTrafficCountries host hours "crawler" (mkEnv db now [] rnd) = (Ok crawler, e1))
  (H2 : GetTrafficCountries host hours "human" (mkEnv db now [] rnd) = (Ok human, e2))
  (H3 : GetTrafficCountries host hours "unknown" (mkEnv db now [] rnd) = (Ok unknown, e3)) :
  let since := Add now (- (normalizeTrafficHours hours * Hour)) in
  match country_rows since host "all" db with
  | [] => to_TotalRequests crawler = 0 /\ to_TotalRequests human = 0 /\ to_TotalRequests unknown = 0 /\
      to_TotalRequests all = wrap64 (requests_in (List.filter (fun b => outside_local (bu_country b) && wanted since host "all" b) (minute_rows db)))
  | _ => to_TotalRequests all = wrap64 (to_TotalRequests crawler + to_TotalRequests human + to_TotalRequests unknown)
  end.
Proof.
  intros since. assert (T : forall c o e, GetTrafficCountries host hours c (mkEnv db now [] rnd) = (Ok o, e) -> to_TotalRequests o =
    wrap64 (requests_in (List.filter (fun b => outside_local (bu_country b)) (reported since host c db)))).
  { intros c o e E. by apply (wp_run _ _ _ _ _ (countries_wp host hours c db now rnd) E). }
  apply T in H0, H1, H2, H3. rewrite H0, H1, H2, H3. clear -Hclasses. clearbody since. unfold reported.
  assert (Hone : forall c, c ∈ classes -> match country_rows since host c db with
    | [] => if String.eqb (normalizeTrafficClass c) "all" then List.filter (wanted since host (normalizeTrafficClass c)) (minute_rows db) else []
    | l => l end = country_rows since host c db).
  { intros c Hc. destruct (country_rows since host c db); [|done]. unfold classes in Hc.
    repeat (apply elem_of_cons in Hc as [->|Hc]; [reflexivity|]). by apply elem_of_nil in Hc. }
  rewrite !Hone by (unfold classes; set_solver).
  destruct (country_rows since host "all" db) as [|x rest] eqn:Eall.
  - assert (Hnil : forall c, country_rows since host c db = []).
    { intros c. destruct (country_rows since host c db) as [|y l] eqn:E; [done|]. exfalso.
      assert (Hy : In y (country_rows since host c db)) by (rewrite E; by left). unfold country_rows in Hy. apply filter_In in Hy as [Hin Hw].
      assert (Ha : In y (country_rows since host "all" db)); [|by rewrite Eall in Ha]. unfold country_rows. apply filter_In. split; [done|].
      unfold wanted in *. change (normalizeTrafficClass "all" =? "all")%string with true. by apply andb_prop in Hw as [-> _]. }
    rewrite !Hnil. split_and!; [reflexivity..|]. change (normalizeTrafficClass "all" =? "all")%string with true. cbv iota.
    change (normalizeTrafficClass "all") with "all". by rewrite filter_filter_andb.
  - rewrite <- Eall. clear Eall x rest.
    assert (W : forall a b c, wrap64 (wrap64 a + wrap64 b + wrap64 c) = wrap64 (a + b + c)).
    { intros a b c. rewrite <- Z.add_assoc, wrap64_add, (Z.add_comm a), <- Z.add_assoc, wrap64_add, (Z.add_comm b), <- Z.add_assoc, wrap64_add. f_equal. lia. }
    rewrite W. f_equal. unfold country_rows, requests_in.
    change (normalizeTrafficClass "all") with "all". change (normalizeTrafficClass "crawler") with "crawler".
    change (normalizeTrafficClass "human") with "human". change (normalizeTrafficClass "unknown") with "unknown".
    induction Hclasses as [|b l Hb _ IH]; [done|]. simpl. unfold wanted in *.
    destruct (since_bucket since b); simpl; [|done]. destruct (if 0 <? host then _ else true); simpl; [|done].
    unfold classes in Hb. repeat (apply elem_of_cons in Hb as [Hb|Hb]; [rewrite Hb; simpl; destruct (outside_local _); simpl; unfold lsum in *; simpl in *; lia|]).
    by apply elem_of_nil in Hb.
Qed.

(* ------------------------------------------------------------------ *)
(** ** An hour of traffic *)

Definition hits (n : Z) : TrafficRow := mkTrafficRow "a.example" n 0 (10 * n) 0 n 0 0 0.
Definition traffic_db : DB :=
  empty_DB
  <| t_host_traffic_minute := {[(1, "DE", 100 * Hour) := hits 5; (1, "ZZ", 100 * Hour + Minute) := hits 2; (1, "DE", Hour) := hits 9]} |>
  <| t_host_traffic_class_minute := {[(1, "DE", "human", 100 * Hour) := hits 4; (1, "DE", "crawler", 100 * Hour) := hits 1;
                                      (1, "ZZ", "unknown", 100 * Hour + Minute) := hits 2]} |>.

Lemma overview_counts_once_witness :
  exists ov, (GetTrafficOverview 24 (mkEnv traffic_db (101 * Hour) [] [])).1 = Ok ov /\
    ov_TotalRequests ov = wrap64 (requests_in (List.filter (since_bucket (Add (101 * Hour) (- (normalizeTrafficHours 24 * Hour)))) (minute_rows traffic_db))) /\
    ov_TotalRequests ov = 7.
Proof.
  eexists. split; [vm_compute; reflexivity|]. split; [|reflexivity].
  eapply (overview_counts_once 24 traffic_db (101 * Hour) []). vm_compute. reflexivity.
Defined.

Lemma classes_partition_witness : exists all c h u,
  (to_TotalRequests all, to_TotalRequests c, to_TotalRequests h, to_TotalRequests u) = (7, 1, 4, 2) /\
  to_TotalRequests all = wrap64 (to_TotalRequests c + to_TotalRequests h + to_TotalRequests u).
Proof.
  pose (run := fun k => GetTrafficCountries 0 24 k (mkEnv traffic_db (101 * Hour) [] [])).
  pose (count := fun k => match (run k).1 with Ok o => to_TotalRequests o | Err _ => -1 end).
  assert (N : count "all" = 7 /\ count "crawler" = 1 /\ count "human" = 4 /\ count "unknown" = 2) by (split_and!; vm_compute; reflexivity).
  destruct N as (N0 & N1 & N2 & N3). unfold count in N0, N1, N2, N3.
  destruct (run "all") as [[all|] e0] eqn:H0; [|discriminate N0]. destruct (run "crawler") as [[c|] e1] eqn:H1; [|discriminate N1].
  destruct (run "human") as [[h|] e2] eqn:H2; [|discriminate N2]. destruct (run "unknown") as [[u|] e3] eqn:H3; [|discriminate N3].
  exists all, c, h, u. split; [simpl in N0, N1, N2, N3; congruence|]. clear N0 N1 N2 N3.
  assert (Hc : Forall (fun b => bu_class b ∈ classes) (class_rows traffic_db)) by (apply (bool_decide_unpack _); vm_compute; exact I).
  pose proof (classes_partition 0 24 traffic_db (101 * Hour) [] all c h u e0 e1 e2 e3 Hc H0 H1 H2 H3) as H. cbv zeta in H.
  destruct (country_rows _ 0 "all" traffic_db) as [|x l] eqn:E; [vm_compute in E; discriminate E|exact H].
Defined.
