(* ===== verification/StoreViews.v ===== *)
(** [internal/store/store.go]: the queries behind the views of the threat engine — the
    addresses watched, the offenders, the blocked ones, the map, and the traces.

    Texts are compared as SQLite compares them, arguments are bound to the
    placeholders by their position, and the surplus is ignored, as the driver does.
    Row ids are not modelled, so rows of one time keep the order of the table. *)

From S2P Require Import Prelude GoString GoMonad GoTime Model StoreDB StoreThreat.
From Stdlib Require Import Ascii.
Open Scope Z_scope.

(* ------------------------------------------------------------------ *)
(** ** SQL *)

(** An argument of a query. *)
Inductive Arg : Type := AText (s : string) | ATime (t : time) | AInt (n : Z).
Definition arg_text (a : Arg) : string := match a with AText s => s | ATime t => RFC3339Nano t | AInt n => Itoa n end.
Definition arg_int (a : Arg) : Z := match a with AInt n => n | _ => 0 end.

(** [s LIKE p]: [%] is any text, [_] any character, letters in either case. *)
Definition continues (c : ascii) : bool := (128 <=? code c) && (code c <? 192).
Fixpoint drop_character (s : string) : string :=
  match s with String c s' => if continues c then drop_character s' else s | "" => "" end.
Fixpoint like (p s : string) : bool :=
  match p with
  | "" => String.eqb s ""
  | String c p' =>
      if Ascii.eqb c "%"%char then
        (fix any (s : string) := like p' s || match s with String _ s' => any s' | "" => false end) s
      else match s with
           | "" => false
           | String d s' => if Ascii.eqb c "_"%char then like p' (drop_character s')
                            else Ascii.eqb (lower_byte c) (lower_byte d) && like p' s'
           end
  end.

(** [CURRENT_TIMESTAMP]: a space between the date and the time. *)
Definition current_timestamp (now : time) : string :=
  let t := RFC3339 now in take_bytes 10 t +:+ " " +:+ take_bytes 8 (drop_bytes 11 t).

(** [GROUP_CONCAT(DISTINCT f)], [COUNT(DISTINCT f)], [MAX(f)] and [SUM(hits)]. *)
Definition distinct {A} (f : A -> string) (l : list A) : list string := dedup_seen f (fun _ => true) ∅ l.
Definition concat_distinct {A} (f : A -> string) (l : list A) : string := Join (distinct f l) ",".
Definition count_distinct {A} (f : A -> string) (l : list A) : Z := Z.of_nat (length (distinct f l)).
Definition max_text {A} (f : A -> string) (l : list A) : string := fold_left (fun m x => if String.ltb m (f x) then f x else m) l "".
Definition sum_hits (l : list MatchRow) : Z := lsum (map mr_hits l).

Definition matches_of (ip : string) (db : DB) : list MatchRow :=
  List.filter (fun m => String.eqb (mr_ip m) ip) (rows (t_threat_intel_matches db)).
(** [last_seen_at >= ?] *)
Definition seen_since (a : Arg) (m : MatchRow) : bool := String.leb (arg_text a) (RFC3339Nano (mr_last_seen_at m)).
Definition since_of (ip : string) (a : Arg) (db : DB) : list MatchRow := List.filter (seen_since a) (matches_of ip db).
(** [ORDER BY last_seen_at DESC LIMIT 1] *)
Definition latest (ip : string) (db : DB) : option MatchRow := head (order_by (desc_time mr_last_seen_at) (matches_of ip db)).
Definition latest_text (f : MatchRow -> string) (dflt ip : string) (db : DB) : string :=
  match latest ip db with Some m => f m | None => dflt end.

Definition tier_name (level : Z) : string :=
  if 6 <=? level then "tier6" else if 5 <=? level then "tier5" else if 4 <=? level then "tier4" else if 3 <=? level then "tier3"
  else if 2 <=? level then "tier2" else if 1 <=? level then "tier1" else "tier0".

Definition states (db : DB) : list ThreatIntelIPState := map sr_state (rows (t_threat_intel_ip_state db)).
Definition is_listed (ip : string) (db : DB) : bool := bool_decide (is_Some (t_blocked_ips db !! ip)).
Definition page_of {A} (limit offset : Z) (l : list A) : list A := take (Z.to_nat limit) (drop (Z.to_nat offset) l).

(** A query that fails when one of its sums leaves the 64-bit integers. *)
Definition summing_query {A} (fits : DB -> bool) (f : DB -> A) : SM A :=
  r ← query (fun db => (fits db, f db)); if r.1 : bool then mret r.2 else fail ErrDriver.

(* ------------------------------------------------------------------ *)
(** ** The store *)

Record ThreatIntelMatch := mkThreatIntelMatch {
  mt_IP : string; mt_Feed : string; mt_TargetCount : Z; mt_Country : string; mt_Mode : string; mt_Decision : string; mt_Hits : Z;
  mt_FirstSeenAt : time; mt_LastSeenAt : time; mt_LastTraceID : string; mt_SourceScope : string; mt_XP : Z; mt_Level : Z;
  mt_Tier : string; mt_RiskState : string
}.

(** The states of the first view: watched, under the level of an offender, not blocked. *)
Definition watched (now : time) (db : DB) (s : ThreatIntelIPState) : bool :=
  negb (is_listed (ts_IP s) db) && (0 <=? ts_Level s) && (ts_Level s <? 3) &&
  ((0 <? ts_Level s) || (0 <? ts_XP s) || String.eqb (ts_RiskState s) "watch" ||
   (negb (IsZero (ts_BanUntil s)) && String.ltb (current_timestamp now) (RFC3339Nano (ts_BanUntil s)))).

(** The condition of a search, on the arguments bound to its ten placeholders. *)
Definition search_args (q : string) (since : time) : list Arg :=
  if String.eqb q "" then []
  else let like := AText ("%" +:+ q +:+ "%") in
       [like; ATime since; like; ATime since; like; ATime since; like; ATime since; like; like].
Definition found (bound : list Arg) (db : DB) (s : ThreatIntelIPState) : bool :=
  let ip := ts_IP s in
  match bound with
  | [a1; a2; a3; a4; a5; a6; a7; a8; a9; a10] =>
      like (arg_text a1) ip ||
      like (arg_text a3) (concat_distinct mr_host (since_of ip a2 db)) ||
      like (arg_text a5) (concat_distinct mr_path (since_of ip a4 db)) ||
      like (arg_text a7) (concat_distinct mr_feed (since_of ip a6 db)) ||
      like (arg_text a9) (max_text mr_country (since_of ip a8 db)) ||
      like (arg_text a10) (latest_text mr_decision "" ip db)
  | _ => true
  end.
Definition selected (now : time) (bound : list Arg) (db : DB) : list ThreatIntelIPState :=
  List.filter (fun s => watched now db s && found bound db s) (states db).

(** A row, on the arguments bound to the five placeholders before the condition. *)
Definition match_row (b : list Arg) (db : DB) (s : ThreatIntelIPState) : ThreatIntelMatch :=
  let ip := ts_IP s in
  let at_ n := nth n b (AInt 0) in
  mkThreatIntelMatch ip (concat_distinct mr_feed (since_of ip (at_ 0%nat) db))
    (count_distinct (fun m => mr_host m +:+ "|" +:+ mr_path m) (since_of ip (at_ 1%nat) db))
    (max_text mr_country (since_of ip (at_ 2%nat) db)) (concat_distinct mr_mode (since_of ip (at_ 3%nat) db))
    (latest_text mr_decision "monitor_observe" ip db) (sum_hits (since_of ip (at_ 4%nat) db))
    (default (ts_LastSeenAt s) (first_seen ip db)) (ts_LastSeenAt s)
    (latest_text mr_last_trace_id "" ip db) (latest_text mr_source_scope "" ip db)
    (ts_XP s) (ts_Level s) (tier_name (ts_Level s)) (ts_RiskState s).

(** The arguments the code passes: one more than there are placeholders, before those
    of the condition. *)
Definition matches_args (since : time) (base : list Arg) (limit offset : Z) : list Arg :=
  repeat (ATime since) 6 ++ base ++ [AInt limit; AInt offset] ++ [ATime since].

(** [ORDER BY total_hits DESC, last_seen_at DESC].  SQLite leaves the order of rows that
    tie open; here they keep that of the table, and no theorem relies on it. *)
Definition by_hits {A} (hits : A -> Z) (last : A -> time) (x y : A) : bool :=
  if hits x =? hits y then desc_time last x y else hits y <? hits x.

(** The placeholders in the order of the text: five of the row, those of the condition,
    one of the order, the limit and the offset. *)
Definition matches_query (now : time) (args : list Arg) (n : nat) (db : DB) : list ThreatIntelMatch :=
  let at_ k := nth (5 + n + k) args (AInt 0) in
  let hits s := sum_hits (since_of (ts_IP s) (at_ 0%nat) db) in
  map (match_row (take 5 args) db)
    (page_of (arg_int (at_ 1%nat)) (arg_int (at_ 2%nat)) (order_by (by_hits hits ts_LastSeenAt) (selected now (take n (drop 5 args)) db))).
Definition matches_fit (now : time) (args : list Arg) (n : nat) (db : DB) : bool :=
  forallb (fun s => in_int64 (sum_hits (since_of (ts_IP s) (nth 4 args (AInt 0)) db)) && in_int64 (sum_hits (since_of (ts_IP s) (nth (5 + n) args (AInt 0)) db)))
    (selected now (take n (drop 5 args)) db).

Definition ListThreatIntelMatches (since : time) (decision q : string) (eventMinHits offenderMinHits limit offset : Z)
    : SM (list ThreatIntelMatch * Z) :=
  let limit := if (limit <=? 0) || (5000 <? limit) then 1000 else limit in
  let offset := if offset <? 0 then 0 else offset in
  let base := search_args (TrimSpace q) since in
  now ← Now;
  total ← query (fun db => Z.of_nat (length (selected now base db)));
  let args := matches_args since base limit offset in
  items ← summing_query (matches_fit now args (length base)) (matches_query now args (length base));
  mret (items, total).

Record ThreatIntelTarget := mkThreatIntelTarget {
  tt_Host : string; tt_Path : string; tt_Feed : string; tt_Decision : string; tt_Hits : Z; tt_LastSeenAt : time
}.
Definition last_time (l : list MatchRow) : time := fold_left (fun t m => if text_lt t (mr_last_seen_at m) then mr_last_seen_at m else t) l 0.
(** The rows of each key, in the order of the keys. *)
Definition grouped {K A} `{Countable K} (key : A -> K) (l : list A) : list (K * list A) :=
  map_to_list (fold_right (fun x m => <[key x := x :: default [] (m !! key x)]> m) (∅ : gmap K (list A)) l).

Definition ListThreatIntelTargetsByIP (since : time) (ip : string) (limit : Z) : SM (list ThreatIntelTarget) :=
  let ip := TrimSpace ip in
  fail_if (String.eqb ip "") "ip required" ≫= fun _ =>
  let limit := if (limit <=? 0) || (1000 <? limit) then 200 else limit in
  let groups db := grouped (fun m => (mr_host m, mr_path m)) (since_of ip (ATime since) db) in
  summing_query (fun db => forallb (fun g => in_int64 (sum_hits g.2)) (groups db))
    (fun db => take (Z.to_nat limit) (order_by (by_hits tt_Hits tt_LastSeenAt)
       (map (fun g : string * string * list MatchRow =>
               mkThreatIntelTarget g.1.1 g.1.2 (concat_distinct mr_feed g.2) (concat_distinct mr_decision g.2) (sum_hits g.2) (last_time g.2))
            (groups db)))).

Record ThreatIntelOffender := mkThreatIntelOffender {
  to_IP : string; to_TotalHits : Z; to_DistinctFeeds : Z; to_DistinctHosts : Z; to_FeedSummary : string; to_Decisions : string;
  to_LastSeenAt : time; to_LastTraceID : string; to_Blocked : bool; to_Allowlisted : bool; to_XP : Z; to_Level : Z;
  to_Tier : string; to_RiskState : string
}.

Definition offending (hardLevel : Z) (db : DB) (s : ThreatIntelIPState) : bool :=
  negb (is_listed (ts_IP s) db) && (3 <=? ts_Level s) && (ts_Level s <? hardLevel).
(** The three feeds with the most hits. *)
Definition feed_summary (l : list MatchRow) : string :=
  let line (g : string * list MatchRow) := (if String.eqb g.1 "" then "(none)" else g.1) +:+ " (" +:+ Itoa (sum_hits g.2) +:+ ")" in
  Join (map line (take 3 (order_by (fun x y => sum_hits y.2 <=? sum_hits x.2) (grouped mr_feed l)))) " | ".
Definition offender_row (since : time) (db : DB) (s : ThreatIntelIPState) : ThreatIntelOffender :=
  let ip := ts_IP s in
  let l := since_of ip (ATime since) db in
  mkThreatIntelOffender ip (sum_hits l) (count_distinct mr_feed l) (count_distinct mr_host l) (TrimSpace (feed_summary l))
    (latest_text mr_decision "monitor_observe" ip db) (ts_LastSeenAt s) (TrimSpace (latest_text mr_last_trace_id "" ip db)) false
    (bool_decide (is_Some (t_threat_intel_allowlist db !! ip))) (ts_XP s) (ts_Level s) (tier_name (ts_Level s)) (ts_RiskState s).

Definition hard_level (offenderMinHits : Z) : Z := if 1 <? offenderMinHits then offenderMinHits else 6.
Definition offenders (hardLevel : Z) (db : DB) : list ThreatIntelIPState := List.filter (offending hardLevel db) (states db).

Definition ListThreatIntelOffenders (since : time) (offenderMinHits limit offset : Z) : SM (list ThreatIntelOffender * Z) :=
  let limit := if (limit <=? 0) || (2000 <? limit) then 200 else limit in
  let offset := if offset <? 0 then 0 else offset in
  let hardLevel := hard_level offenderMinHits in
  total ← query (fun db => Z.of_nat (length (offenders hardLevel db)));
  items ← summing_query (fun db => forallb (fun s => in_int64 (sum_hits (since_of (ts_IP s) (ATime since) db))) (offenders hardLevel db))
            (fun db => page_of limit offset (order_by (by_hits to_TotalHits to_LastSeenAt) (map (offender_row since db) (offenders hardLevel db))));
  mret (items, total).

Record ThreatIntelBlocked := mkThreatIntelBlocked {
  tb_IP : string; tb_Reason : string; tb_History : string; tb_BlockedOn : time; tb_BlockedUntil : time; tb_UpdatedAt : time;
  tb_TotalHits : Z; tb_DistinctFeeds : Z; tb_DistinctHosts : Z; tb_LastSeenAt : time; tb_LastTraceID : string; tb_XP : Z;
  tb_Level : Z; tb_Tier : string; tb_RiskState : string
}.
#[export] Instance eta_ThreatIntelBlocked : Eta ThreatIntelBlocked := fun r =>
  mkThreatIntelBlocked (tb_IP r) (tb_Reason r) (tb_History r) (tb_BlockedOn r) (tb_BlockedUntil r) (tb_UpdatedAt r)
    (tb_TotalHits r) (tb_DistinctFeeds r) (tb_DistinctHosts r) (tb_LastSeenAt r) (tb_LastTraceID r) (tb_XP r) (tb_Level r) (tb_Tier r)
    (tb_RiskState r).

Definition history_snippet (ip : string) (db : DB) : string :=
  Join (map (fun m => mr_decision m +:+ " @ " +:+ mr_host m +:+ mr_path m) (take 3 (order_by (desc_time mr_last_seen_at) (matches_of ip db)))) " | ".
Definition blocked_row (since : time) (db : DB) (b : BlockedIP) : ThreatIntelBlocked :=
  let ip := b_IP b in
  let l := since_of ip (ATime since) db in
  let s := sr_state <$> t_threat_intel_ip_state db !! ip in
  let level := match s with Some s => ts_Level s | None => 0 end in
  mkThreatIntelBlocked ip (b_Reason b) (history_snippet ip db) (b_CreatedAt b) (match s with Some s => ts_BanUntil s | None => 0 end) (b_UpdatedAt b)
    (sum_hits l) (count_distinct mr_feed l) (count_distinct mr_host l) (last_time l) (TrimSpace (latest_text mr_last_trace_id "" ip db))
    (match s with Some s => ts_XP s | None => 0 end) level (tier_name level) (match s with Some s => ts_RiskState s | None => "monitoring" end).

Definition blocked_found (q : string) (b : BlockedIP) : bool :=
  String.eqb q "" || like ("%" +:+ q +:+ "%") (b_IP b) || like ("%" +:+ q +:+ "%") (b_Reason b).
Definition blocked_ips (q : string) (db : DB) : list BlockedIP := List.filter (blocked_found q) (rows (t_blocked_ips db)).
Definition blocked_le (x y : ThreatIntelBlocked) : bool :=
  if String.eqb (RFC3339Nano (tb_UpdatedAt x)) (RFC3339Nano (tb_UpdatedAt y)) then tb_TotalHits y <=? tb_TotalHits x else desc_time tb_UpdatedAt x y.

Definition ListThreatIntelBlocked (since : time) (q : string) (limit offset : Z) : SM (list ThreatIntelBlocked * Z) :=
  let limit := if (limit <=? 0) || (2000 <? limit) then 200 else limit in
  let offset := if offset <? 0 then 0 else offset in
  let q := TrimSpace q in
  total ← query (fun db => Z.of_nat (length (blocked_ips q db)));
  items ← summing_query (fun db => forallb (fun b => in_int64 (sum_hits (since_of (b_IP b) (ATime since) db))) (blocked_ips q db))
            (fun db => page_of limit offset (order_by blocked_le (map (blocked_row since db) (blocked_ips q db))));
  mret (items, total).

Record ThreatIntelGeoPoint := mkThreatIntelGeoPoint { gp_Country : string; gp_State : string; gp_IPs : Z; gp_Hits : Z }.

Definition banned_at (now : time) (s : ThreatIntelIPState) : bool := negb (IsZero (ts_BanUntil s)) && text_lt now (ts_BanUntil s).
Definition candidate_ips (now : time) (db : DB) : gset string :=
  list_to_set (map ts_IP (List.filter (fun s => (0 <? ts_Level s) || (0 <? ts_XP s) || negb (String.eqb (ts_RiskState s) "monitoring") || banned_at now s) (states db)))
  ∪ dom (t_blocked_ips db) ∪ list_to_set (map mr_ip (rows (t_threat_intel_matches db))).

(** [UPPER(TRIM(country))] when it is two letters. *)
Definition sql_upper_trim (s : string) : string := ToUpper (trim (fun c => Ascii.eqb c " "%char) s).
Definition two_letters (s : string) : bool := match s with String a (String b "") => is_upper a && is_upper b | _ => false end.
Definition geo_country (c : string) : string := let u := sql_upper_trim c in if two_letters u then u else "ZZ".
Definition geo_state (now : time) (ip : string) (db : DB) : string :=
  let s := sr_state <$> t_threat_intel_ip_state db !! ip in
  let risk := match s with Some s => ts_RiskState s | None => "" end in
  if is_listed ip db || String.eqb risk "hardblock" then "hard"
  else if match s with Some s => banned_at now s | None => false end || String.eqb risk "softblock" then "soft" else "monitor".
(** The countries of the last matches: all those of the latest time. *)
Definition latest_countries (ip : string) (db : DB) : list string :=
  match List.filter (fun m => String.eqb (RFC3339Nano (mr_last_seen_at m)) (RFC3339Nano (last_time (matches_of ip db)))) (matches_of ip db) with
  | [] => [""]
  | l => map mr_country l
  end.
Definition geo_rows (now : time) (db : DB) : list (string * string * Z) :=
  concat (map (fun ip => map (fun c => (geo_country c, geo_state now ip db, sum_hits (matches_of ip db))) (latest_countries ip db))
    (elements (candidate_ips now db))).
Definition geo_groups (now : time) (db : DB) : list ThreatIntelGeoPoint :=
  map (fun g : string * string * list (string * string * Z) => mkThreatIntelGeoPoint g.1.1 g.1.2 (Z.of_nat (length g.2)) (lsum (map snd g.2)))
    (grouped fst (geo_rows now db)).
Definition geo_le (x y : ThreatIntelGeoPoint) : bool :=
  if gp_IPs x =? gp_IPs y then if gp_Hits x =? gp_Hits y then String.leb (gp_Country x) (gp_Country y) else gp_Hits y <? gp_Hits x
  else gp_IPs y <? gp_IPs x.
(** What the code makes of a row once more. *)
Definition clean_point (p : ThreatIntelGeoPoint) : ThreatIntelGeoPoint :=
  let c := ToUpper (TrimSpace (gp_Country p)) in
  let state := if bool_decide (gp_State p ∈ ["hard"; "soft"; "monitor"]) then gp_State p else "monitor" in
  mkThreatIntelGeoPoint (if len c =? 2 then c else "ZZ") state (gp_IPs p) (gp_Hits p).

Definition ListThreatIntelGeoPoints : SM (list ThreatIntelGeoPoint) :=
  now ← Now;
  summing_query (fun db => forallb (fun r => in_int64 r.2) (geo_rows now db) && forallb (fun p => in_int64 (gp_Hits p)) (geo_groups now db))
    (fun db => map clean_point (order_by geo_le (geo_groups now db))).

(** ** Traces *)

Record ThreatTraceChainEntry := mkThreatTraceChainEntry {
  ce_Timestamp : time; ce_TraceID : string; ce_IP : string; ce_Host : string; ce_Path : string; ce_Feed : string; ce_Decision : string;
  ce_SourceScope : string; ce_Country : string; ce_Hits : Z; ce_XP : Z; ce_Level : Z; ce_Tier : string; ce_IsCurrentTrace : bool
}.
#[export] Instance eta_ThreatTraceChainEntry : Eta ThreatTraceChainEntry := fun r =>
  mkThreatTraceChainEntry (ce_Timestamp r) (ce_TraceID r) (ce_IP r) (ce_Host r) (ce_Path r) (ce_Feed r) (ce_Decision r)
    (ce_SourceScope r) (ce_Country r) (ce_Hits r) (ce_XP r) (ce_Level r) (ce_Tier r) (ce_IsCurrentTrace r).
Definition chain_entry (current : bool) (m : MatchRow) : ThreatTraceChainEntry :=
  mkThreatTraceChainEntry (mr_last_seen_at m) (mr_last_trace_id m) (mr_ip m) (mr_host m) (mr_path m) (mr_feed m) (mr_decision m)
    (mr_source_scope m) (mr_country m) (mr_hits m) (mr_xp_after m) (mr_level_after m) (mr_tier_after m) current.
Definition event_entry (e : TraceEvent) : ThreatTraceChainEntry :=
  mkThreatTraceChainEntry (te_EventAt e) (te_TraceID e) (te_SourceIP e) (te_Host e) (te_Path e) (te_Feed e) (te_Decision e)
    (te_SourceScope e) (te_Country e) (te_Hits e) (te_XP e) (te_Level e) (te_Tier e) true.

Definition trace_events_of (traceID : string) (db : DB) : list TraceEvent :=
  List.filter (fun e => String.eqb (te_TraceID e) traceID) (t_trace_events db).
Definition asc_time {A} (f : A -> time) (x y : A) : bool := text_le (f x) (f y).

(** The entries of a time line have the fields of a trace event. *)
Definition ListTraceTimelineEntries (traceID : string) (limit : Z) : SM (list TraceEvent) :=
  let traceID := norm traceID in
  fail_if (String.eqb traceID "") "trace id required" ≫= fun _ =>
  let limit := if (limit <=? 0) || (5000 <? limit) then 500 else limit in
  query (fun db => take (Z.to_nat limit) (order_by (asc_time te_EventAt) (trace_events_of traceID db))).

Definition GetThreatTraceSubject (traceID : string) : SM ThreatTraceChainEntry :=
  let traceID := norm traceID in
  fail_if (String.eqb traceID "") "trace id required" ≫= fun _ =>
  r ← try_ (query_row (fun db => head (order_by (desc_time mr_last_seen_at)
              (List.filter (fun m => String.eqb (mr_last_trace_id m) traceID) (rows (t_threat_intel_matches db))))));
  match r with
  | Ok m => mret (chain_entry true m)
  | Err ErrNoRows => query_row (fun db => event_entry <$> head (order_by (desc_time te_EventAt) (rev (trace_events_of traceID db))))
  | Err e => fail e
  end.

Definition ListThreatTraceChain (ip : string) (from until : time) (limit : Z) : SM (list ThreatTraceChainEntry) :=
  let ip := TrimSpace ip in
  fail_if (String.eqb ip "") "ip required" ≫= fun _ =>
  let limit := if (limit <=? 0) || (5000 <? limit) then 250 else limit in
  query (fun db => take (Z.to_nat limit) (map (chain_entry false)
    (order_by (asc_time mr_last_seen_at) (List.filter (fun m => text_le from (mr_last_seen_at m) && text_le (mr_last_seen_at m) until) (matches_of ip db))))).
