(* ===== verification/ThreatViews.v ===== *)
(** [internal/app/service.go]: the views of the threat engine, page by page, and the time
    line of a trace; every offender is on exactly one page, and a search of the watched
    addresses finds other rows than it counts. *)

From stdpp Require Import sorting.
From S2P Require Import Prelude GoString GoMonad GoTime Model StoreDB StoreThreat BackupSchedule StoreViews Service Retention.
Open Scope Z_scope.

Definition view_hours (hours : Z) : Z := let h := if hours <=? 0 then 24 else hours in if 24 * 30 <? h then 24 * 30 else h.
Definition view_page (page : Z) : Z := if page <=? 0 then 1 else page.
Definition view_size (pageSize : Z) : Z := let n := if pageSize <=? 0 then 100 else pageSize in if 1000 <? n then 1000 else n.
Definition view_offset (page pageSize : Z) : Z := wrap64 ((view_page page - 1) * view_size pageSize).

(** A page of one of the three views. *)
Record Page (A : Type) := mkPage { pg_Items : list A; pg_Total : Z; pg_Page : Z; pg_PageSize : Z }.
Arguments mkPage {A} _ _ _ _.
Arguments pg_Items {A} _.
Arguments pg_Total {A} _.

Definition page_from {A} (m : time -> Z -> Z -> SM (list A * Z)) (hours page pageSize : Z) : SM (Page A) :=
  now ← Now;
  '(items, total) ← m (Add now (- (view_hours hours * Hour))) (view_size pageSize) (view_offset page pageSize);
  mret (mkPage items total (view_page page) (view_size pageSize)).

Definition ThreatIntelMatchesPage : Type := Page ThreatIntelMatch.
Definition ThreatIntelOffendersPage : Type := Page ThreatIntelOffender.
Definition ThreatIntelBlockedPage : Type := Page ThreatIntelBlocked.

Definition ListThreatIntelMatches (hours : Z) (decision q : string) (page pageSize : Z) : SM ThreatIntelMatchesPage :=
  page_from (fun since limit offset =>
    cfg ← GetThreatIntelConfig;
    StoreViews.ListThreatIntelMatches since decision q (tc_EventMinHits cfg) (tc_OffenderMinHits cfg) limit offset) hours page pageSize.
Definition ListThreatIntelOffenders (hours page pageSize : Z) : SM ThreatIntelOffendersPage :=
  page_from (fun since limit offset =>
    cfg ← GetThreatIntelConfig;
    StoreViews.ListThreatIntelOffenders since (if tc_HardLevel cfg <=? 0 then 6 else tc_HardLevel cfg) limit offset) hours page pageSize.

(** A block without an end lasts as long as the retention keeps it. *)
Definition fill_until (days : Z) (b : ThreatIntelBlocked) : ThreatIntelBlocked :=
  if IsZero (tb_BlockedUntil b) && negb (IsZero (tb_BlockedOn b)) then b <| tb_BlockedUntil := Add (tb_BlockedOn b) (days * 24 * Hour) |> else b.
Definition ListThreatIntelBlocked (hours : Z) (q : string) (page pageSize : Z) : AM ThreatIntelBlockedPage :=
  p ← db (page_from (fun since limit offset => StoreViews.ListThreatIntelBlocked since q limit offset) hours page pageSize);
  policy ← getRetentionPolicy;
  let days := if rp_BlockedDays policy <=? 0 then 60 else rp_BlockedDays policy in
  mret (mkPage (map (fill_until days) (pg_Items p)) (pg_Total p) (pg_Page _ p) (pg_PageSize _ p)).

Definition ListThreatIntelTargetsByIP (hours : Z) (ip : string) (limit : Z) : SM (list ThreatIntelTarget) :=
  now ← Now;
  StoreViews.ListThreatIntelTargetsByIP (Add now (- (view_hours hours * Hour))) ip (if limit <=? 0 then 200 else limit).

Record ThreatTraceTimeline := mkThreatTraceTimeline {
  tl_TraceID : string; tl_Items : list TraceEvent; tl_SourceIP : string; tl_Host : string; tl_Path : string; tl_CurrentDecision : string;
  tl_CurrentLevel : Z; tl_CurrentXP : Z; tl_CurrentTier : string; tl_ChainWindowStart : time; tl_ChainWindowEnd : time;
  tl_ChainContactCount : Z; tl_ChainDurationSec : Z; tl_Chain : list ThreatTraceChainEntry
}.
#[export] Instance eta_ThreatTraceTimeline : Eta ThreatTraceTimeline := fun r =>
  mkThreatTraceTimeline (tl_TraceID r) (tl_Items r) (tl_SourceIP r) (tl_Host r) (tl_Path r) (tl_CurrentDecision r) (tl_CurrentLevel r)
    (tl_CurrentXP r) (tl_CurrentTier r) (tl_ChainWindowStart r) (tl_ChainWindowEnd r) (tl_ChainContactCount r) (tl_ChainDurationSec r)
    (tl_Chain r).

(** The seconds between the first and the last contact. *)
Definition chain_seconds (chain : list ThreatTraceChainEntry) : Z :=
  match chain, last chain with a :: _ :: _, Some z => Z.quot (Sub (ce_Timestamp z) (ce_Timestamp a)) Second | _, _ => 0 end.

Definition GetThreatTraceTimeline (traceID : string) (limit : Z) : SM ThreatTraceTimeline :=
  let traceID := norm traceID in
  fail_if (String.eqb traceID "") "trace id required" ≫= fun _ =>
  let limit := if (limit <=? 0) || (2000 <? limit) then 250 else limit in
  items ← ListTraceTimelineEntries traceID limit;
  subject ← try_ (GetThreatTraceSubject traceID);
  let out := mkThreatTraceTimeline traceID items "" "" "" "" 0 0 "" 0 0 0 0 [] in
  match subject with
  | Err _ => mret out
  | Ok s =>
      now ← Now;
      let until := if IsZero (ce_Timestamp s) then match last items with Some e => te_EventAt e | None => 0 end else ce_Timestamp s in
      let until := if IsZero until then now else until in
      let start := Add until (- (10 * Second)) in
      let out := out <| tl_SourceIP := ce_IP s |> <| tl_Host := ce_Host s |> <| tl_Path := ce_Path s |> <| tl_CurrentDecision := ce_Decision s |>
                     <| tl_CurrentLevel := ce_Level s |> <| tl_CurrentXP := ce_XP s |> <| tl_CurrentTier := ce_Tier s |> in
      chain ← try_ (ListThreatTraceChain (ce_IP s) start until 100);
      mret (match chain with
            | Err _ => out
            | Ok chain =>
                let chain := map (fun c => c <| ce_IsCurrentTrace := EqualFold (ce_TraceID c) traceID |>) chain in
                out <| tl_Chain := chain |> <| tl_ChainWindowStart := start |> <| tl_ChainWindowEnd := until |>
                    <| tl_ChainContactCount := Z.of_nat (length chain) |> <| tl_ChainDurationSec := chain_seconds chain |>
            end)
  end.

(* ------------------------------------------------------------------ *)
(** ** Pages *)

Lemma pages_tile {A} (l : list A) (n : Z) k : 0 < n -> Z.of_nat (length l) <= Z.of_nat k * n ->
  concat (map (fun i => page_of n (Z.of_nat i * n) l) (seq 0 k)) = l.
Proof.
  intros Hn. revert l. induction k as [|k IH]; intros l Hl; [destruct l; [done|simpl in Hl; lia]|].
  cbn [seq map concat]. rewrite <- seq_shift, map_map.
  rewrite (map_ext (fun i => page_of n (Z.of_nat (S i) * n) l) (fun i => page_of n (Z.of_nat i * n) (drop (Z.to_nat n) l))).
  { rewrite IH; [apply take_drop|]. rewrite length_drop. lia. }
  intros i. unfold page_of. rewrite drop_drop. do 2 f_equal. lia.
Qed.

(** The configuration that is loaded is that of the tables, at any time. *)
Lemma setting_run {C} key (f : string -> C -> C) cfg db :
  exists c, forall now rnd, read_setting key f cfg (mkEnv db now [] rnd) = (Ok c, mkEnv db now [] rnd).
Proof.
  exists (match t_settings db !! key with Some v => f v cfg | None => cfg end). intros now rnd.
  unfold read_setting, GetSetting, try_, mbind, M_bind. rewrite query_row_run_end. by destruct (t_settings db !! key).
Qed.
Lemma setting_step {C B} key (f : string -> C -> C) (k : C -> SM B) cfg db :
  (forall c, exists b, forall now rnd, k c (mkEnv db now [] rnd) = (Ok b, mkEnv db now [] rnd)) ->
  exists b, forall now rnd, (read_setting key f cfg ≫= k) (mkEnv db now [] rnd) = (Ok b, mkEnv db now [] rnd).
Proof.
  intros H. destruct (setting_run key f cfg db) as [c E]. destruct (H c) as [b Hb]. exists b. intros now rnd.
  unfold mbind, M_bind. rewrite E. apply Hb.
Qed.
Lemma config_run db : exists cfg, forall now rnd, GetThreatIntelConfig (mkEnv db now [] rnd) = (Ok cfg, mkEnv db now [] rnd).
Proof. unfold GetThreatIntelConfig. do 11 (apply setting_step; intros ?). by eexists. Qed.

Lemma summing_run {A} fits (f : DB -> A) db now rnd r e' : summing_query fits f (mkEnv db now [] rnd) = (Ok r, e') -> r = f db /\ e' = mkEnv db now [] rnd.
Proof. unfold summing_query. rewrite query_run. simpl. destruct (fits db); [|done]. by intros [= <- <-]. Qed.

Lemma view_offset_small page size : 0 < size <= 1000 -> 0 < page -> page * size < 2 ^ 63 ->
  view_size size = size /\ view_page page = page /\ view_offset page size = (page - 1) * size.
Proof.
  intros Hs Hp Ho. assert (E1 : view_size size = size).
  { unfold view_size. rewrite (proj2 (Z.leb_gt size 0)) by lia. cbv zeta. by rewrite (proj2 (Z.ltb_ge 1000 size)) by lia. }
  assert (E2 : view_page page = page) by (unfold view_page; by rewrite (proj2 (Z.leb_gt page 0)) by lia).
  split; [done|]. split; [done|]. unfold view_offset. rewrite E1, E2. apply wrap64_small. unfold in_int64, min_int64, max_int64. apply andb_true_iff. split; apply Z.leb_le; nia.
Qed.

Lemma offenders_run hours page size db now rnd cfg p e' : GetThreatIntelConfig (mkEnv db now [] rnd) = (Ok cfg, mkEnv db now [] rnd) ->
  0 < size <= 1000 -> 0 < page -> page * size < 2 ^ 63 -> ListThreatIntelOffenders hours page size (mkEnv db now [] rnd) = (Ok p, e') ->
  let hardLevel := hard_level (if tc_HardLevel cfg <=? 0 then 6 else tc_HardLevel cfg) in
  pg_Items p = page_of size ((page - 1) * size) (order_by (by_hits to_TotalHits to_LastSeenAt)
    (map (offender_row (Add now (- (view_hours hours * Hour))) db) (offenders hardLevel db))) /\
  pg_Total p = Z.of_nat (length (offenders hardLevel db)).
Proof.
  intros Hcfg Hs Hp Ho. destruct (view_offset_small page size Hs Hp Ho) as (E1 & E2 & E3).
  unfold ListThreatIntelOffenders, page_from. rewrite Now_run, E1, E2, E3. unfold mbind at 1 2, M_bind at 1 2. rewrite Hcfg.
  unfold StoreViews.ListThreatIntelOffenders. rewrite query_run. unfold mbind at 1, M_bind at 1.
  rewrite (proj2 (Z.leb_gt size 0)), (proj2 (Z.ltb_ge 2000 size)), (proj2 (Z.ltb_ge _ 0)) by nia. cbn [orb].
  destruct (summing_query _ _ _) as [[items|x] e1] eqn:E; [|done]. apply summing_run in E as [-> ->]. by intros [= <- <-].
Qed.

(** An address that offends, under the configuration that is stored: of level three or
    more, below the level that is blocked for good, and not on the block list. *)
Definition offends (cfg : ThreatIntelConfig) (db : DB) (s : ThreatIntelIPState) : bool :=
  let hard := if tc_HardLevel cfg <=? 1 then 6 else tc_HardLevel cfg in
  (3 <=? ts_Level s) && (ts_Level s <? hard) && bool_decide (t_blocked_ips db !! ts_IP s = None).

(** Before another: more hits, or as many and seen later.  Rows that tie stand in no
    order, as in the statement. *)
Definition ahead (x y : ThreatIntelOffender) : bool :=
  (to_TotalHits y <? to_TotalHits x) ||
  ((to_TotalHits x =? to_TotalHits y) && text_lt (to_LastSeenAt y) (to_LastSeenAt x)).

Lemma offends_offending cfg db : List.filter (offends cfg db) (states db) = offenders (hard_level (if tc_HardLevel cfg <=? 0 then 6 else tc_HardLevel cfg)) db.
Proof.
  unfold offenders. apply List.filter_ext. intros s. unfold offends, offending, hard_level, is_listed. cbv zeta.
  assert (E : (if tc_HardLevel cfg <=? 1 then 6 else tc_HardLevel cfg) =
    (if 1 <? (if tc_HardLevel cfg <=? 0 then 6 else tc_HardLevel cfg) then (if tc_HardLevel cfg <=? 0 then 6 else tc_HardLevel cfg) else 6)).
  { destruct (Z.leb_spec (tc_HardLevel cfg) 1), (Z.leb_spec (tc_HardLevel cfg) 0), (Z.ltb_spec 1 (tc_HardLevel cfg)); simpl; lia. }
  rewrite <- E. destruct (t_blocked_ips db !! ts_IP s); simpl; [by rewrite andb_false_r|].
  rewrite andb_true_r. by destruct (3 <=? ts_Level s).
Qed.

(** The order of the texts of times. *)
Lemma text_le_spec a b : text_le a b = true <-> String.compare (RFC3339Nano a) (RFC3339Nano b) <> Gt.
Proof.
  unfold text_le, text_lt, String.ltb. rewrite (String.compare_antisym (RFC3339Nano b) (RFC3339Nano a)).
  destruct (String.compare (RFC3339Nano a) _); simpl; split; intros; congruence.
Qed.
Lemma text_total a b : text_le a b = true \/ text_le b a = true.
Proof. rewrite !text_le_spec, (String.compare_antisym (RFC3339Nano b) (RFC3339Nano a)). destruct (String.compare (RFC3339Nano a) _); simpl; [by left..|by right]. Qed.
Lemma text_trans a b c : text_le a b = true -> text_le b c = true -> text_le a c = true.
Proof.
  rewrite !text_le_spec. set (x := RFC3339Nano a). set (y := RFC3339Nano b). set (z := RFC3339Nano c).
  destruct (String.compare x y) eqn:Exy; [|intros _|done].
  - apply String.compare_eq_iff in Exy. by rewrite Exy.
  - destruct (String.compare y z) eqn:Eyz; [intros _|intros _|done].
    + apply String.compare_eq_iff in Eyz. rewrite <- Eyz, Exy. done.
    + by rewrite (compare_lt_trans _ _ _ Exy Eyz).
Qed.
Lemma text_lt_strict a b : text_lt a b = true -> text_le a b = true /\ text_le b a = false.
Proof.
  intros H. split; [|unfold text_le; by rewrite H]. apply text_le_spec. unfold text_lt, String.ltb in H.
  by destruct (String.compare _ _).
Qed.

Lemma ahead_by_hits x y : ahead x y = true -> by_hits to_TotalHits to_LastSeenAt x y = true /\ by_hits to_TotalHits to_LastSeenAt y x = false.
Proof.
  unfold ahead, by_hits, desc_time. intros [H|[H1 H2]%andb_true_iff]%orb_true_iff.
  - rewrite (proj2 (Z.eqb_neq _ _)), (proj2 (Z.eqb_neq _ _)) by lia. lia.
  - apply Z.eqb_eq in H1. rewrite H1, Z.eqb_refl. by apply text_lt_strict.
Qed.

(** The order of a list in which nothing ties is the only one. *)
Lemma ahead_unique l all : all ≡ₚ l -> StronglySorted (fun x y => ahead x y = true) all ->
  order_by (by_hits to_TotalHits to_LastSeenAt) l = all.
Proof.
  intros Hp Hs. apply order_by_unique.
  - intros x y. unfold by_hits, desc_time. destruct (Z.eqb_spec (to_TotalHits x) (to_TotalHits y)) as [->|Hne].
    + rewrite Z.eqb_refl. apply text_total.
    + rewrite (proj2 (Z.eqb_neq _ _)) by lia. lia.
  - intros x y z. unfold by_hits, desc_time.
    destruct (Z.eqb_spec (to_TotalHits x) (to_TotalHits y)), (Z.eqb_spec (to_TotalHits y) (to_TotalHits z)), (Z.eqb_spec (to_TotalHits x) (to_TotalHits z));
      try lia. intros H1 H2. by apply (text_trans _ (to_LastSeenAt y)).
  - clear Hp. induction Hs as [|x m Hs IH Hx]; constructor; [exact IH|]. eapply Forall_impl; [exact Hx|]. intros y H. by apply ahead_by_hits in H as [? _].
  - exact Hp.
  - intros x y. rewrite <- Hp. clear Hp. induction Hs as [|z m Hs IH Hz]; [by intros ?%elem_of_nil|].
    rewrite Forall_forall in Hz. intros [->|Hx]%elem_of_cons [->|Hy]%elem_of_cons H1 H2; [done|..|by apply IH].
    + apply Hz, ahead_by_hits in Hy as [_ Hy]. congruence.
    + apply Hz, ahead_by_hits in Hx as [_ Hx]. congruence.
Qed.

(** C30. Turning the pages shows every offender exactly once.  While the tables stand still
    and no contact leaves the period between the first page and the last, whenever each
    page is asked for, and where no two offenders have both the same hits and the same
    time of last contact: the items of the pages, one after the other, are the addresses
    that offend under the stored configuration, each once, those with the most hits
    first and among equals the latest, and each page tells their number.  (The statement
    gives offenders that tie no order, so of them a page may repeat or miss one.) *)
Theorem offender_pages hours size k db (now : nat -> time) rnd P E cfg all
  (since := fun i => Add (now i) (- (view_hours hours * Hour)))
  (Hsize : 0 < size <= 1000) (Hk : Z.of_nat k * size < 2 ^ 63)
  (Hcfg : (GetThreatIntelConfig (mkEnv db (now 0%nat) [] rnd)).1 = Ok cfg)
  (Hpages : forall i, (i < k)%nat -> ListThreatIntelOffenders hours (Z.of_nat i + 1) size (mkEnv db (now i) [] rnd) = (Ok (P i), E i))
  (Hstill : forall i s, (i < k)%nat -> s ∈ states db -> offender_row (since i) db s = offender_row (since 0%nat) db s)
  (Hall : all ≡ₚ map (offender_row (since 0%nat) db) (List.filter (offends cfg db) (states db)))
  (Hstrict : StronglySorted (fun x y => ahead x y = true) all) :
  (forall i, (i < k)%nat -> pg_Total (P i) = Z.of_nat (length all)) /\
  (Z.of_nat (length all) <= Z.of_nat k * size -> concat (map (fun i => pg_Items (P i)) (seq 0 k)) = all).
Proof.
  destruct (config_run db) as [cfg' Hrun]. rewrite Hrun in Hcfg. injection Hcfg as ->.
  set (hl := hard_level (if tc_HardLevel cfg <=? 0 then 6 else tc_HardLevel cfg)).
  assert (H : forall i, (i < k)%nat -> pg_Items (P i) = page_of size (Z.of_nat i * size) all /\ pg_Total (P i) = Z.of_nat (length all)).
  { intros i Hi. assert (Ho : (Z.of_nat i + 1) * size < 2 ^ 63).
    { apply (Z.le_lt_trans _ (Z.of_nat k * size)); [|exact Hk]. apply Z.mul_le_mono_nonneg_r; lia. }
    destruct (offenders_run hours (Z.of_nat i + 1) size db (now i) rnd cfg (P i) (E i) (Hrun _ _) Hsize ltac:(lia) Ho (Hpages i Hi)) as [H1 H2].
    fold hl in H1, H2. rewrite offends_offending in Hall. fold hl in Hall.
    assert (Em : map (offender_row (since i) db) (offenders hl db) = map (offender_row (since 0%nat) db) (offenders hl db)).
    { apply map_ext_in. intros s Hs. unfold offenders in Hs. apply filter_In in Hs as [Hs _]. apply Hstill; [exact Hi|]. by apply list_elem_of_In. }
    unfold since in Em at 1. cbv beta in Em. rewrite Em in H1. rewrite (ahead_unique _ all Hall Hstrict) in H1.
    split; [rewrite H1; f_equal; lia|]. rewrite H2, (Permutation_length Hall). by rewrite length_map. }
  split; [intros i Hi; by apply H|]. intros Hl. etransitivity; [|apply (pages_tile _ size k); [apply Hsize|exact Hl]].
  f_equal. apply map_ext_in. intros i Hi%in_seq. apply H. lia.
Qed.

(* ------------------------------------------------------------------ *)
(** ** Searching *)

Definition like_text (q : string) : string := "%" +:+ q +:+ "%".
(** The condition a search means, and the one its rows are asked for. *)
Definition means (q : string) (since : time) (db : DB) (s : ThreatIntelIPState) : bool :=
  found (search_args q since) db s.
Definition decided (q : string) (db : DB) (s : ThreatIntelIPState) : bool := like (like_text q) (latest_text mr_decision "" (ts_IP s) db).

(** No text of the state is the text of the time. *)
Definition no_time_text (since : time) (q : string) (db : DB) (s : ThreatIntelIPState) : Prop :=
  let never t := like (RFC3339Nano since) t = false in
  let l := since_of (ts_IP s) (AText (like_text q)) db in
  never (ts_IP s) /\ never (concat_distinct mr_host l) /\ never (concat_distinct mr_path l) /\ never (concat_distinct mr_feed l) /\
  never (max_text mr_country l).

Definition no_time_textb (since : time) (q : string) (db : DB) (s : ThreatIntelIPState) : bool :=
  let l := since_of (ts_IP s) (AText (like_text q)) db in
  negb (existsb (like (RFC3339Nano since))
    [ts_IP s; concat_distinct mr_host l; concat_distinct mr_path l; concat_distinct mr_feed l; max_text mr_country l]).
Lemma no_time_text_dec since q db s : no_time_textb since q db s -> no_time_text since q db s.
Proof.
  unfold no_time_textb, no_time_text. cbv zeta. cbn [existsb]. rewrite negb_True, !orb_True. intros H.
  split_and!; apply not_true_is_false; intros E; apply H; rewrite E; change (Is_true true) with True; tauto.
Qed.

Definition with_decision (now : time) (q : string) (db : DB) : list ThreatIntelIPState :=
  List.filter (fun s => watched now db s && decided q db s) (states db).

Lemma late_arguments since now q db : Forall (no_time_text since q db) (states db) ->
  selected now [ATime since; AText (like_text q); ATime since; AText (like_text q); ATime since; AText (like_text q); ATime since;
                AText (like_text q); ATime since; AText (like_text q)] db = with_decision now q db.
Proof.
  intros H. unfold selected, with_decision. induction H as [|s l Hs _ IH]; [done|]. cbn [List.filter]. rewrite IH.
  destruct Hs as (H1 & H2 & H3 & H4 & H5). unfold found. cbn [arg_text]. by rewrite H1, H2, H3, H4, H5.
Qed.

(** C29. The query of the rows has one argument too many before its condition, so the
    arguments of a search are bound one place late: the number of a page counts the
    states the search means, its rows are those whose last decision matches. *)
Theorem search_rows_by_decision since decision q a b limit offset db now rnd items total e'
  (Hq : TrimSpace q <> "") (Hlimit : 0 < limit <= 5000) (Hoffset : 0 <= offset)
  (Hnone : Forall (no_time_text since (TrimSpace q) db) (states db))
  (H : StoreViews.ListThreatIntelMatches since decision q a b limit offset (mkEnv db now [] rnd) = (Ok (items, total), e')) :
  total = Z.of_nat (length (List.filter (fun s => watched now db s && means (TrimSpace q) since db s) (states db))) /\
  exists shown, shown ≡ₚ with_decision now (TrimSpace q) db /\ map mt_IP items = map ts_IP (page_of limit offset shown).
Proof.
  unfold StoreViews.ListThreatIntelMatches in H. rewrite Now_run, query_run in H. unfold mbind at 1, M_bind at 1 in H.
  rewrite (proj2 (Z.leb_gt limit 0)), (proj2 (Z.ltb_ge 5000 limit)), (proj2 (Z.ltb_ge offset 0)) in H by lia. cbn [orb] in H.
  destruct (summing_query _ _ _) as [[its|x] e1] eqn:E; [|done]. apply summing_run in E as [-> ->]. injection H as <- <- _.
  split; [done|]. clear -Hq Hnone. set (q' := TrimSpace q) in *.
  apply String.eqb_neq in Hq. unfold search_args. rewrite Hq. unfold matches_query, matches_args. cbn -[page_of order_by selected map match_row RFC3339Nano].
  change ("%" +:+ q' +:+ "%") with (like_text q'). rewrite (late_arguments _ now _ db Hnone). eexists. split; [apply order_by_perm|]. by rewrite map_map.
Qed.

(* ------------------------------------------------------------------ *)
(** ** Concrete views *)

Definition demo_match (ip host decision : string) (hits : Z) (t : time) : MatchRow :=
  mkMatchRow ip "blocklist" host "/" "DE" "monitor_only" decision hits t t "" "public" 1 1 1 "tier1".
Definition demo_row (ip : string) (level xp : Z) (t : time) : StateRow :=
  mkStateRow (zero_ThreatIntelIPState <| ts_IP := ip |> <| ts_Level := level |> <| ts_XP := xp |> <| ts_LastSeenAt := t |> <| ts_RiskState := "monitoring" |>) t t.
Definition views_now : time := Day * 739000.
Definition views_db : DB := empty_DB
  <| t_threat_intel_ip_state := {["198.51.100.1" := demo_row "198.51.100.1" 1 5 (views_now - Minute); "198.51.100.2" := demo_row "198.51.100.2" 4 90 (views_now - Hour);
                                  "198.51.100.3" := demo_row "198.51.100.3" 5 120 (views_now - Minute); "198.51.100.4" := demo_row "198.51.100.4" 3 70 (views_now - 2 * Hour)]} |>
  <| t_threat_intel_matches := {[("198.51.100.1", "blocklist", "www.example.org", "/", "monitor_observe") :=
       demo_match "198.51.100.1" "www.example.org" "monitor_observe" 3 (views_now - Minute)]} |>.

(** Pages of two, a second apart. *)
Lemma offender_pages_witness : exists (P : nat -> ThreatIntelOffendersPage) E cfg all,
  let now i := views_now + Z.of_nat i * Second in
  (GetThreatIntelConfig (mkEnv views_db (now 0%nat) [] [])).1 = Ok cfg /\
  (forall i, (i < 2)%nat -> ListThreatIntelOffenders 24 (Z.of_nat i + 1) 2 (mkEnv views_db (now i) [] []) = (Ok (P i), E i)) /\
  map to_IP all = ["198.51.100.3"; "198.51.100.2"; "198.51.100.4"] /\ concat (map (fun i => pg_Items (P i)) (seq 0 2)) = all.
Proof.
  pose (now := fun i : nat => views_now + Z.of_nat i * Second).
  pose (run := fun i : nat => ListThreatIntelOffenders 24 (Z.of_nat i + 1) 2 (mkEnv views_db (now i) [] [])).
  pose (P := fun i => match (run i).1 with Ok p => p | Err _ => mkPage [] 0 0 0 end). pose (E := fun i => (run i).2).
  assert (HP : forall i, (i < 2)%nat -> run i = (Ok (P i), E i)).
  { intros i Hi. assert (Hok : is_ok (run i).1 = true) by (destruct i as [|[|i]]; [vm_compute; reflexivity..|lia]).
    unfold P, E. destruct (run i) as [[p|x] e]; [reflexivity|discriminate Hok]. }
  pose (config := GetThreatIntelConfig (mkEnv views_db (now 0%nat) [] [])).
  destruct config.1 as [cfg|x] eqn:Hcfg; [|vm_compute in Hcfg; discriminate Hcfg].
  pose (rows := map (offender_row (Add (now 0%nat) (- (view_hours 24 * Hour))) views_db) (List.filter (offends cfg views_db) (states views_db))).
  pose (all := order_by ahead rows). exists P, E, cfg, all. cbv zeta. split; [exact Hcfg|]. split; [exact HP|].
  assert (Hips : map to_IP all = ["198.51.100.3"; "198.51.100.2"; "198.51.100.4"]).
  { vm_compute in Hcfg. injection Hcfg as <-. vm_compute. reflexivity. }
  split; [exact Hips|].
  refine (proj2 (offender_pages 24 2 2 views_db now [] P E cfg all ltac:(lia) ltac:(vm_compute; reflexivity) Hcfg HP _ (order_by_perm _ _) _) _).
  - intros i s Hi Hs. apply list_elem_of_In in Hs. revert s Hs.
    refine (@ext_in_map _ _ (offender_row (Add (now i) (- (view_hours 24 * Hour))) views_db) (offender_row (Add (now 0%nat) (- (view_hours 24 * Hour))) views_db) (states views_db) _).
    destruct i as [|[|i]]; [reflexivity|vm_compute; reflexivity|lia].
  - assert (H : match all with [a; b; c] => ahead a b && ahead a c && ahead b c | _ => false end = true).
    { vm_compute in Hcfg. injection Hcfg as <-. vm_compute. reflexivity. }
    clearbody all. destruct all as [|a [|b [|c [|d l]]]]; try discriminate H. apply andb_prop in H as [[H1 H2]%andb_prop H3].
    repeat (constructor; [|by repeat constructor]). constructor.
  - rewrite <- (length_map to_IP), Hips. simpl. lia.
Defined.

(** A search for the address of the one watched state: counted, and not shown. *)
Example search_counts_and_shows_nothing :
  (StoreViews.ListThreatIntelMatches (views_now - Day) "" "198.51.100" 2 10 100 0 (mkEnv views_db views_now [] [])).1 = Ok ([], 1).
Proof. vm_compute. reflexivity. Qed.

Lemma search_rows_by_decision_witness : exists items e', 
  StoreViews.ListThreatIntelMatches (views_now - Day) "" "198.51.100" 2 10 100 0 (mkEnv views_db views_now [] []) = (Ok (items, 1), e') /\
  exists shown, shown ≡ₚ with_decision views_now "198.51.100" views_db /\ map mt_IP items = map ts_IP (page_of 100 0 shown).
Proof.
  destruct (StoreViews.ListThreatIntelMatches (views_now - Day) "" "198.51.100" 2 10 100 0 (mkEnv views_db views_now [] [])) as [r e'] eqn:H.
  assert (Hr : r = Ok ([], 1)) by (apply (f_equal fst) in H; cbn [fst] in H; rewrite <- H; vm_compute; reflexivity).
  rewrite Hr in *. exists [], e'. split; [reflexivity|].
  refine (proj2 (search_rows_by_decision (views_now - Day) "" "198.51.100" 2 10 100 0 views_db views_now [] [] 1 e' _ _ _ _ H)).
  - discriminate.
  - lia.
  - lia.
  - apply Forall_forall. intros s Hs. apply no_time_text_dec. revert s Hs. apply Forall_forall, forallb_True. vm_compute. exact I.
Defined.
