(* ===== verification/BastionKeys.v ===== *)
(** [internal/app/service.go]: the keys of the SSH bastion — importing a public
    key, generating a pair, and the forms a pair is handed out in.

    A public key is its wire form, the bytes of [Marshal].  The parsing, the
    fingerprint and the writing of keys ([golang.org/x/crypto/ssh]), ed25519 and
    the program puttygen are parameters. *)

From S2P Require Import Prelude GoString GoMonad GoTime GoCrypto Crypto Model StoreDB StoreThreat StoreUsers StoreBastion Service.

Record SSHBastionKeyCreateResult := mkSSHBastionKeyCreateResult {
  kc_Key : SSHBastionKey; kc_PrivateKey : string; kc_PrivateKeyPPK : string; kc_PublicKeyRFC4716 : string;
  kc_PPKError : string
}.

(** The text in lines of at most seventy bytes. *)
Fixpoint wrap_lines (fuel : nat) (s : string) : list string :=
  match fuel with
  | O => []
  | S n => if 70 <? len s then take_bytes 70 s :: wrap_lines n (drop_bytes 70 s)
           else if String.eqb s "" then [] else [s]
  end.
Definition newline : string := String (byte 10) "".
Definition toRFC4716Public (pub : bytes) : string :=
  let b64 := StdEncode pub in
  "---- BEGIN SSH2 PUBLIC KEY ----" +:+ newline +:+ Join (wrap_lines (S (String.length b64)) b64) newline +:+ newline
    +:+ "---- END SSH2 PUBLIC KEY ----" +:+ newline.

Section keys.
(** [ssh.ParseAuthorizedKey], [ssh.FingerprintSHA256], [ssh.MarshalAuthorizedKey],
    [ssh.NewPublicKey] on an ed25519 key, [ssh.MarshalPrivateKey] as PEM, and
    [ed25519.GenerateKey] on the bytes of the random source. *)
Context (parse_authorized : string -> result bytes) (fingerprint : bytes -> string) (marshal_authorized : bytes -> string).
Context (keygen : string -> bytes * bytes) (new_public : bytes -> result bytes) (marshal_private : bytes -> string -> result string).
(** Whether puttygen is installed, its temporary files, and the key it writes or
    what it prints. *)
Context (has_puttygen : bool) (temp_io : string -> result unit) (puttygen : string -> result string).

Definition CreateSSHBastionKeyFromPublic (name publicKey : string) (routeIDs : list Z) : AM SSHBastionKey :=
  let name := TrimSpace name in
  let publicKey := TrimSpace publicKey in
  fail_if (String.eqb name "" || String.eqb publicKey "") "name and public key required" ≫= fun _ =>
  match parse_authorized publicKey with
  | Err e => fail (ErrWrap "invalid public key" e)
  | Ok pk => db (CreateSSHBastionKey name (marshal_authorized pk) (fingerprint pk) true routeIDs)
  end.

Definition toPPKFromPrivatePEM (privatePEM : string) : result string :=
  if String.eqb privatePEM "" then Err (ErrText "empty private key")
  else if negb has_puttygen then Err (ErrText "puttygen not installed")
  else
    temp_io "mkdir" ≫= fun _ => temp_io "write" ≫= fun _ =>
    match puttygen privatePEM with
    | Err e => Err (ErrText ("puttygen failed: " +:+ TrimSpace (error_text e)))
    | Ok ppk => temp_io "read" ≫= fun _ => Ok ppk
    end.

Definition GenerateSSHBastionKey (name : string) (routeIDs : list Z) : AM SSHBastionKeyCreateResult :=
  let name := TrimSpace name in
  fail_if (String.eqb name "") "name required" ≫= fun _ =>
  seed ← db random;
  let '(pub, priv) := keygen seed in
  sshPub ← lift (new_public pub);
  key ← db (CreateSSHBastionKey name (marshal_authorized sshPub) (fingerprint sshPub) true routeIDs);
  pem ← lift (marshal_private priv name);
  let rfc4716 := toRFC4716Public sshPub in
  mret (match toPPKFromPrivatePEM pem with
        | Ok ppk => mkSSHBastionKeyCreateResult key pem ppk rfc4716 ""
        | Err e => mkSSHBastionKeyCreateResult key pem "" rfc4716 (error_text e)
        end).
End keys.
