(* ===== verification/Acme.v ===== *)
(** [internal/acme/acme.go]: which names a certificate may be asked for, the wildcard
    certificates the manager keeps and renews, and the one it presents.

    The hosts and domains come through the class [HostProvider]; [svc_provider] is the
    service's instance.  A file operation may fail at any time ([w_fault], by its
    number); a write that fails leaves what it left.  The parsing of keys and
    certificates, lego with the certificate authority, and autocert are parameters.
    The mutexes make each operation one step; the instant of a refresh is [m_now]. *)

From S2P Require Import Prelude GoString GoMonad GoTime GoFile GoCrypto Crypto Model LogServers StoreDB StoreThreat StoreHosts Service Vault Hosts.
From Stdlib Require Import Ascii.
Open Scope Z_scope.
Open Scope list_scope.

(* ------------------------------------------------------------------ *)
(** ** Certificates and the state of the manager *)

Class HostProvider (S : Type) := {
  ListFQDNs : M S (list string);
  ListCatchAllDomains : M S (list string);
  ListWildcardDomains : M S (list string);
  GetCloudflareToken : M S string
}.

(** What the program and its clients read in an x509 certificate. *)
Record Leaf := mkLeaf { lf_NotAfter : time; lf_DNSNames : list string }.
Record tlsCertificate := mktlsCertificate { tc_Certificate : list string; tc_Leaf : option Leaf }.

(** What the certificate authority is asked to do. *)
Inductive AcmeCall :=
| Register (email : string)
| Obtain (domains : list string).

Record Resource := mkResource { rs_Certificate : string; rs_PrivateKey : string }.
Record legoUser (K : Type) := mklegoUser { lu_Email : string; lu_Registration : option string; lu_key : K }.
Arguments mklegoUser {K}. Arguments lu_Email {K}. Arguments lu_Registration {K}. Arguments lu_key {K}.

Definition GetEmail {K} (u : legoUser K) : string := lu_Email u.
Definition GetRegistration {K} (u : legoUser K) : option string := lu_Registration u.
Definition GetPrivateKey {K} (u : legoUser K) : K := lu_key u.

Record Manager := mkManager {
  m_wildcards : gmap string tlsCertificate; m_files : gmap string string; m_ops : nat;
  m_generated : nat; m_calls : list AcmeCall; m_now : time
}.
#[export] Instance eta_Manager : Eta Manager := fun r =>
  mkManager (m_wildcards r) (m_files r) (m_ops r) (m_generated r) (m_calls r) (m_now r).

(** Outside code.  A key is of type [K]; the authority's answers may depend on what
    it was asked before. *)
Record World (K : Type) := mkWorld {
  w_fault : nat -> bool;
  w_left : nat -> string -> option string -> option string;
  w_X509KeyPair : string -> string -> result (list string);
  w_ParseCertificate : string -> result Leaf;
  w_GenerateKey : nat -> result K;
  w_Decode : string -> option string;
  w_Encode : string -> string;
  w_ParseECPrivateKey : string -> result K;
  w_ParsePKCS8PrivateKey : string -> result K;
  w_MarshalECPrivateKey : K -> result string;
  w_NewClient : legoUser K -> bool -> result unit;
  w_ResolveAccountByKey : list AcmeCall -> K -> result string;
  w_Register : list AcmeCall -> legoUser K -> result string;
  w_NewDNSProvider : string -> result unit;
  w_SetDNS01Provider : result unit;
  w_Obtain : list AcmeCall -> legoUser K -> list string -> result Resource
}.
Arguments w_fault {K}. Arguments w_left {K}. Arguments w_X509KeyPair {K}. Arguments w_ParseCertificate {K}.
Arguments w_GenerateKey {K}. Arguments w_Decode {K}. Arguments w_Encode {K}. Arguments w_ParseECPrivateKey {K}.
Arguments w_ParsePKCS8PrivateKey {K}. Arguments w_MarshalECPrivateKey {K}. Arguments w_NewClient {K}.
Arguments w_ResolveAccountByKey {K}. Arguments w_Register {K}. Arguments w_NewDNSProvider {K}.
Arguments w_SetDNS01Provider {K}. Arguments w_Obtain {K}.

(* ------------------------------------------------------------------ *)
(** ** Names *)

Definition hello_name (s : string) : string := ToLower (TrimSuffix (TrimSpace s) ".").

(** [host == d || strings.HasSuffix(host, "."+d)] *)
Definition below (host d : string) : bool := HasSuffix host ("." +:+ d).
Definition matches (host d : string) : bool := String.eqb host d || below host d.

Definition longer_first (a b : string * tlsCertificate) : bool := len b.1 <=? len a.1.

(** The candidates come in the order of the map, then the longest domain first. *)
Definition findWildcardForHost (wildcards : gmap string tlsCertificate) (host : string) : option tlsCertificate :=
  match order_by longer_first (List.filter (fun c => matches host c.1) (map_to_list wildcards)) with
  | [] => None
  | c :: _ => Some c.2
  end.

Definition renewal_margin : duration := 30 * 24 * Hour.
Definition long_valid (now : time) (c : tlsCertificate) : bool :=
  match tc_Leaf c with Some leaf => renewal_margin <? Sub (lf_NotAfter leaf) now | None => false end.

Definition refresh_interval (interval : duration) : duration := if interval <=? 0 then 15 * Minute else interval.

(* ------------------------------------------------------------------ *)
(** ** Files *)

(** [filepath.Dir] *)
Definition Dir (p : string) : string :=
  match rev (Split p "/"%char) with
  | _ :: (_ :: _) as l => Clean (Join (rev l) "/" +:+ "/")
  | _ => "."
  end.

Section manager.
Context {K : Type} (w : World K) (cacheDir email : string) (staging : bool).

Definition file_op {A} (ok : Manager -> result A * Manager) (failed : Manager -> Manager) : M Manager A := fun m =>
  let m' := m <| m_ops ::= S |> in
  if w_fault w (m_ops m) then (Err (ErrText "input/output error"), failed m') else ok m'.

Definition MkdirAll (dir : string) : M Manager unit := file_op (fun m => (Ok tt, m)) id.
Definition ReadFile (p : string) : M Manager string :=
  file_op (fun m => (match m_files m !! p with Some b => Ok b | None => Err (ErrText "no such file or directory") end, m)) id.
Definition WriteFile (p b : string) : M Manager unit :=
  file_op (fun m => (Ok tt, m <| m_files ::= <[p := b]> |>))
    (fun m => m <| m_files ::= partial_alter (w_left w (m_ops m) b) p |>).

Definition wildcardPaths (domain : string) : string * string :=
  let base := PathJoin cacheDir "wildcard" in
  let name := ReplaceAll domain "*" "wild" in
  (PathJoin base (name +:+ ".crt.pem"), PathJoin base (name +:+ ".key.pem")).

Definition loadTLSKeyPair (crtPath keyPath : string) : M Manager tlsCertificate :=
  crt ← ReadFile crtPath;
  key ← ReadFile keyPath;
  pair ← lift (w_X509KeyPair w crt key);
  mret (mktlsCertificate pair
    (match pair with
     | der :: _ => match w_ParseCertificate w der with Ok leaf => Some leaf | Err _ => None end
     | [] => None
     end)).

(* ------------------------------------------------------------------ *)
(** ** The account at the certificate authority *)

Definition readPrivateKeyPEM (p : string) : M Manager K :=
  b ← ReadFile p;
  match w_Decode w b with
  | None => fail (ErrText "invalid account key pem")
  | Some der =>
      lift (match w_ParseECPrivateKey w der with
            | Ok key => Ok key
            | Err e => match w_ParsePKCS8PrivateKey w der with Ok key => Ok key | Err _ => Err e end
            end)
  end.

Definition writePrivateKeyPEM (p : string) (key : K) : M Manager unit :=
  der ← lift (w_MarshalECPrivateKey w key);
  WriteFile p (w_Encode w der).

Definition account_path : string := PathJoin cacheDir "lego_account.key".

Definition generate_key : M Manager K :=
  n ← gets m_generated;
  modify (fun m => m <| m_generated ::= S |>) ≫= fun _ => lift (w_GenerateKey w n).

Definition loadOrCreateAccount : M Manager (legoUser K) :=
  MkdirAll cacheDir ≫= fun _ =>
  r ← try_ (readPrivateKeyPEM account_path);
  match r with
  | Ok key => mret (mklegoUser email None key)
  | Err _ =>
      key ← generate_key;
      writePrivateKeyPEM account_path key ≫= fun _ => mret (mklegoUser email None key)
  end.

(** Ask the authority. *)
Definition acme_call {A} (c : AcmeCall) (answer : list AcmeCall -> result A) : M Manager A :=
  calls ← gets m_calls;
  modify (fun m => m <| m_calls ::= fun l => l ++ [c] |>) ≫= fun _ => lift (answer calls).

Definition registration (user : legoUser K) : M Manager string :=
  calls ← gets m_calls;
  match w_ResolveAccountByKey w calls (GetPrivateKey user) with
  | Ok reg => mret reg
  | Err _ => acme_call (Register (GetEmail user)) (fun calls => w_Register w calls user)
  end.

Definition obtainWildcardCert (domain token : string) : M Manager Resource :=
  user ← loadOrCreateAccount;
  lift (w_NewClient w user staging) ≫= fun _ =>
  reg ← registration user;
  let user := mklegoUser (lu_Email user) (Some reg) (lu_key user) in
  lift (w_NewDNSProvider w token) ≫= fun _ =>
  lift (w_SetDNS01Provider w) ≫= fun _ =>
  let names := [domain; "*." +:+ domain] in
  acme_call (Obtain names) (fun calls => w_Obtain w calls user names).

(* ------------------------------------------------------------------ *)
(** ** Keeping the wildcard certificates *)

Definition keep_wildcard (domain : string) (c : tlsCertificate) : M Manager unit :=
  modify (fun m => m <| m_wildcards ::= <[domain := c]> |>).

Definition held_long (domain : string) (m : Manager) : bool :=
  match findWildcardForHost (m_wildcards m) domain with Some c => long_valid (m_now m) c | None => false end.

Definition order_wildcard (domain token crtPath keyPath : string) : M Manager unit :=
  res ← obtainWildcardCert domain token;
  MkdirAll (Dir crtPath) ≫= fun _ =>
  WriteFile crtPath (rs_Certificate res) ≫= fun _ =>
  WriteFile keyPath (rs_PrivateKey res) ≫= fun _ =>
  c ← loadTLSKeyPair crtPath keyPath;
  keep_wildcard domain c.

Definition ensureWildcardCert (domain token : string) : M Manager unit :=
  held ← gets (held_long domain);
  if (held : bool) then mret tt
  else
    let '(crtPath, keyPath) := wildcardPaths domain in
    now ← gets m_now;
    disk ← try_ (loadTLSKeyPair crtPath keyPath);
    match disk with
    | Ok c => if long_valid now c then keep_wildcard domain c else order_wildcard domain token crtPath keyPath
    | Err _ => order_wildcard domain token crtPath keyPath
    end.

(** The loop of the refresh; an error does not stop it. *)
Fixpoint ensure_all (token : string) (domains : list string) : M Manager (list string) :=
  match domains with
  | [] => mret []
  | d :: domains =>
      let d := norm d in
      if String.eqb d "" then ensure_all token domains
      else
        r ← try_ (ensureWildcardCert d (TrimSpace token));
        errs ← ensure_all token domains;
        mret (match r with Ok _ => errs | Err e => (d +:+ ": " +:+ error_text e) :: errs end)
  end.

(* ------------------------------------------------------------------ *)
(** ** The manager *)

Context {Sc : Type} `{HostProvider Sc}.

Definition with_source {A} (m : M Sc A) : M (Sc * Manager) A := zoom fst (fun t s => (t, s.2)) m.
Definition with_manager {A} (m : M Manager A) : M (Sc * Manager) A := zoom snd (fun t s => (s.1, t)) m.

Definition RefreshWildcardCertificates : M (Sc * Manager) unit :=
  t ← try_ (with_source GetCloudflareToken);
  match t with
  | Err _ => mret tt
  | Ok token =>
      if String.eqb (TrimSpace token) "" then mret tt
      else
        domains ← with_source ListWildcardDomains;
        errs ← with_manager (ensure_all token domains);
        match errs with
        | [] => mret tt
        | _ => fail (ErrText ("wildcard refresh errors: " +:+ Join errs " | "))
        end
  end.

(** A tick of [StartRefresher]. *)
Definition refresh_tick : M (Sc * Manager) unit := ignore RefreshWildcardCertificates.

(** autocert is told yes ([Ok]) or no. *)
Definition ErrCacheMiss : error := ErrText "acme/autocert: certificate cache miss".

Definition covers_below (host d : string) : bool :=
  let d := norm d in nonempty d && negb (String.eqb host d) && below host d.

Definition HostPolicy (host : string) : M Sc unit :=
  let host := hello_name host in
  names ← ListFQDNs;
  if existsb (EqualFold host) names then mret tt
  else
    catchAllDomains ← ListCatchAllDomains;
    if existsb (covers_below host) catchAllDomains then mret tt else fail ErrCacheMiss.

(** [auto_GetCertificate] is autocert's, which may ask the policy. *)
Definition getCertificate (auto_GetCertificate : string -> M (Sc * Manager) tlsCertificate) (serverName : string)
    : M (Sc * Manager) tlsCertificate :=
  let host := hello_name serverName in
  wildcards ← gets (fun s => m_wildcards s.2);
  match (if nonempty host then findWildcardForHost wildcards host else None) with
  | Some c => mret c
  | None => auto_GetCertificate serverName
  end.
End manager.

Definition new_manager (now : time) (files : gmap string string) : Manager := mkManager ∅ files 0 0 [] now.

Definition svc_provider (Open : bytes -> bytes -> bytes -> option bytes) : HostProvider Svc := {|
  ListFQDNs := Hosts.ListFQDNs;
  ListCatchAllDomains := Hosts.ListCatchAllDomains;
  ListWildcardDomains := Hosts.ListWildcardDomains;
  GetCloudflareToken := Vault.GetCloudflareToken Open
|}.

(* ------------------------------------------------------------------ *)
(** ** The certificate found for a name *)

Lemma drop_bytes_tail n s c t : drop_bytes n s = String c t -> drop_bytes (S n) s = t.
Proof.
  revert s. induction n as [|n IH]; intros [|a s]; simpl; try done.
  - by intros [= _ ->].
  - apply IH.
Qed.

Lemma below_iff host d : below host d = true <-> exists p, host = p +:+ "." +:+ d.
Proof.
  unfold below, HasSuffix. rewrite andb_true_iff, String.eqb_eq, Nat.leb_le. split.
  - intros [Hl E]. rewrite <- E. generalize (String.length host - String.length ("." +:+ d))%nat as n. clear.
    induction host as [|c host IH]; intros [|n]; [by exists ""|by exists ""|by exists ""|].
    destruct (IH n) as [p Hp]. exists (String c p). simpl. by rewrite Hp at 1.
  - intros [p ->]. rewrite !string_length_app. split; [lia|].
    replace (_ - _)%nat with (String.length p) by lia. apply drop_bytes_app.
Qed.

(** A name has one suffix of each length. *)
Lemma matches_drop host d : matches host d = true -> d = drop_bytes (String.length host - String.length d) host.
Proof.
  unfold matches. rewrite orb_true_iff, String.eqb_eq, below_iff. intros [->|[p ->]].
  - by rewrite Nat.sub_diag.
  - rewrite !string_length_app. change (String.length ".") with 1%nat.
    replace (_ - _)%nat with (S (String.length p)) by lia. symmetry. apply (drop_bytes_tail _ _ "."%char).
    exact (drop_bytes_app p (String "."%char d)).
Qed.

Lemma matches_unique host d d' : matches host d = true -> matches host d' = true -> len d = len d' -> d = d'.
Proof.
  intros H1 H2 E. unfold len in E. apply Nat2Z.inj in E. rewrite (matches_drop _ _ H1), (matches_drop _ _ H2). by rewrite E.
Qed.

Lemma matches_le host d : matches host d = true -> len d <= len host.
Proof.
  unfold matches, len. rewrite orb_true_iff, String.eqb_eq, below_iff. intros [->|[p ->]]; [lia|].
  rewrite !string_length_app. lia.
Qed.

Lemma matches_refl d : matches d d = true.
Proof. unfold matches. by rewrite String.eqb_refl. Qed.

(** The longest of the domains a name belongs to. *)
Definition closest (w : gmap string tlsCertificate) (host d : string) (c : tlsCertificate) : Prop :=
  w !! d = Some c /\ matches host d = true /\
  forall d' c', w !! d' = Some c' -> matches host d' = true -> len d' <= len d.

Lemma closest_unique w host d c d' c' : closest w host d c -> closest w host d' c' -> d = d' /\ c = c'.
Proof.
  intros (H1 & M1 & L1) (H2 & M2 & L2). assert (d = d') as <-.
  { apply (matches_unique host); [done..|]. pose proof (L1 _ _ H2 M2). pose proof (L2 _ _ H1 M1). lia. }
  split; [done|]. congruence.
Qed.

Lemma elem_of_candidates w host d c :
  (d, c) ∈ List.filter (fun x : string * tlsCertificate => matches host x.1) (map_to_list w) <-> w !! d = Some c /\ matches host d = true.
Proof. rewrite <- elem_of_map_to_list, list_elem_of_In, filter_In, <- list_elem_of_In. done. Qed.

Lemma find_closest w host c : findWildcardForHost w host = Some c <-> exists d, closest w host d c.
Proof.
  unfold findWildcardForHost. set (l := List.filter _ _).
  pose proof (order_by_sorted longer_first ltac:(unfold longer_first; intros; lia) ltac:(unfold longer_first; intros; lia) l) as Hs.
  assert (Hc : forall d c, (d, c) ∈ order_by longer_first l <-> w !! d = Some c /\ matches host d = true).
  { intros d c'. rewrite elem_of_order_by. apply elem_of_candidates. }
  destruct (order_by longer_first l) as [|[d0 c0] l'].
  - split; [done|]. intros (d & Hd & Hm & _). pose proof (proj2 (Hc d c) (conj Hd Hm)) as Hin. by apply elem_of_nil in Hin.
  - destruct (proj1 (Hc d0 c0) (list_elem_of_here _ _)) as [Hd0 Hm0]. assert (H0 : closest w host d0 c0).
    { split; [done|]. split; [done|]. intros d' c' Hd' Hm'.
      pose proof (proj2 (Hc d' c') (conj Hd' Hm')) as [E|Hin]%elem_of_cons; [simplify_eq; lia|].
      inversion Hs as [|? ? _ Hall]; subst. rewrite Forall_forall in Hall. specialize (Hall _ Hin). unfold longer_first in Hall. simpl in Hall. lia. }
    split; [intros [= ->]; by exists d0|]. intros (d & Hd). by destruct (closest_unique _ _ _ _ _ _ H0 Hd) as [_ ->].
Qed.

Lemma find_none w host : findWildcardForHost w host = None <-> forall d c, w !! d = Some c -> matches host d = false.
Proof.
  unfold findWildcardForHost. set (l := List.filter _ _). split.
  - destruct (order_by longer_first l) eqn:E; [|done]. intros _ d c Hd. apply not_true_iff_false. intros Hm.
    assert (Hin : (d, c) ∈ order_by longer_first l) by by apply elem_of_order_by, elem_of_candidates.
    rewrite E in Hin. by apply elem_of_nil in Hin.
  - intros H. destruct (order_by longer_first l) as [|[d c] l'] eqn:E; [done|].
    assert (Hin : (d, c) ∈ order_by longer_first l) by (rewrite E; left).
    apply elem_of_order_by, elem_of_candidates in Hin as [Hd Hm]. by rewrite (H _ _ Hd) in Hm.
Qed.

(** A new certificate is found, or what was found before. *)
Lemma find_insert w d c host : matches host d = true ->
  findWildcardForHost (<[d := c]> w) host = Some c \/ findWildcardForHost (<[d := c]> w) host = findWildcardForHost w host.
Proof.
  intros Hm. destruct (findWildcardForHost (<[d := c]> w) host) as [c1|] eqn:E.
  - apply find_closest in E as (d1 & H1 & M1 & L1). destruct (decide (d = d1)) as [->|Hne].
    + rewrite lookup_insert_eq in H1. left. congruence.
    + right. symmetry. apply find_closest. exists d1. rewrite lookup_insert_ne in H1 by done. split; [done|]. split; [done|].
      intros d' c' Hd' Hm'. destruct (decide (d = d')) as [<-|Hne']; [apply (L1 d c); [apply lookup_insert_eq|done]|].
      apply (L1 d' c'); [by rewrite lookup_insert_ne|done].
  - rewrite find_none in E. specialize (E d c (lookup_insert_eq w d c)). by rewrite E in Hm.
Qed.

Lemma find_insert_other w d c host : matches host d = false -> findWildcardForHost (<[d := c]> w) host = findWildcardForHost w host.
Proof.
  intros Hm. assert (Hiff : forall d1 c1, closest (<[d := c]> w) host d1 c1 <-> closest w host d1 c1).
  { intros d1 c1. unfold closest. split; intros (H1 & M1 & L1).
    - assert (d <> d1) by congruence. rewrite lookup_insert_ne in H1 by done. split; [done|]. split; [done|].
      intros d' c' Hd' Hm'. apply (L1 d' c'); [|done]. rewrite lookup_insert_ne; [done|congruence].
    - assert (d <> d1) by congruence. rewrite lookup_insert_ne by done. split; [done|]. split; [done|].
      intros d' c' Hd' Hm'. apply (L1 d' c'); [|done]. rewrite lookup_insert_ne in Hd'; [done|congruence]. }
  apply option_eq. intros c1. rewrite !find_closest. split; intros [d1 H1]; exists d1; by apply Hiff.
Qed.

(** A domain's own certificate is the one found for it. *)
Lemma find_own w d c : findWildcardForHost (<[d := c]> w) d = Some c.
Proof.
  apply find_closest. exists d. split; [apply lookup_insert_eq|]. split; [apply matches_refl|].
  intros d' c' _. apply matches_le.
Qed.

(* ------------------------------------------------------------------ *)
(** ** Where a certificate is kept *)

Lemma Split_last sep s ext : lacks sep ext -> exists l x, Split (s +:+ ext) sep = l ++ [x +:+ ext].
Proof.
  intros He. induction s as [|c s (l & x & IH)].
  - exists [], "". by apply Split_lacks.
  - assert (E : Split (String c s +:+ ext) sep =
      if Ascii.eqb c sep then "" :: Split (s +:+ ext) sep
      else match Split (s +:+ ext) sep with [] => [String c ""] | p :: ps => String c p :: ps end) by reflexivity.
    rewrite E, IH. destruct (Ascii.eqb c sep); [by exists ("" :: l), x|].
    destruct l as [|p l]; [by exists [], (String c x)|by exists (String c p :: l), x].
Qed.

Lemma Join_last l sep x : exists q, Join (l ++ [x]) sep = q +:+ x.
Proof.
  induction l as [|y l [q IH]]; [by exists ""|]. simpl app. destruct (l ++ [x]) eqn:E; [by destruct l|].
  exists (y +:+ sep +:+ q). change (Join (y :: s :: l0) sep) with (y +:+ sep +:+ Join (s :: l0) sep). rewrite IH.
  by rewrite !string_app_assoc.
Qed.

Definition plain_ext (ext : string) : Prop := lacks "/"%char ext /\ (3 <= String.length ext)%nat.

Lemma clean_step_ext rooted out x ext : plain_ext ext -> clean_step rooted out (x +:+ ext) = (x +:+ ext) :: out.
Proof.
  intros [_ Hl]. unfold clean_step.
  assert (Hn : forall t, (String.length t <= 2)%nat -> String.eqb (x +:+ ext) t = false).
  { intros t Ht. apply String.eqb_neq. intros E. apply (f_equal String.length) in E. rewrite string_length_app in E. lia. }
  by rewrite !Hn by (simpl; lia).
Qed.

Lemma Clean_ext s ext : plain_ext ext -> exists q, Clean (s +:+ ext) = q +:+ ext.
Proof.
  intros He. unfold Clean. destruct (Split_last "/" s ext (proj1 He)) as (l & x & ->).
  rewrite foldl_app. simpl foldl. rewrite clean_step_ext by done. simpl rev.
  destruct (Join_last (rev (foldl (clean_step (HasPrefix (s +:+ ext) "/")) [] l)) "/" (x +:+ ext)) as [q ->].
  destruct (HasPrefix _ _); [exists ("/" +:+ q +:+ x); by rewrite !string_app_assoc|].
  destruct (String.eqb _ "") eqn:E; [|exists (q +:+ x); by rewrite string_app_assoc].
  apply String.eqb_eq, (f_equal String.length) in E. rewrite !string_length_app in E. destruct He as [_ He]. simpl in E. lia.
Qed.

Lemma PathJoin_ext dir s ext : plain_ext ext -> exists q, PathJoin dir (s +:+ ext) = q +:+ ext.
Proof.
  intros He. unfold PathJoin. assert (Hn : nonempty (s +:+ ext) = true).
  { unfold nonempty. apply negb_true_iff, String.eqb_neq. intros E. apply (f_equal String.length) in E.
    rewrite string_length_app in E. destruct He as [_ He]. simpl in E. lia. }
  simpl List.filter. rewrite Hn. destruct (nonempty dir); [|by apply Clean_ext].
  simpl Join. destruct (Clean_ext (dir +:+ "/" +:+ s) ext He) as [q Hq]. exists q. by rewrite <- Hq, !string_app_assoc.
Qed.

Lemma wildcardPaths_differ cacheDir domain : (wildcardPaths cacheDir domain).1 <> (wildcardPaths cacheDir domain).2.
Proof.
  change (PathJoin (PathJoin cacheDir "wildcard") (ReplaceAll domain "*" "wild" +:+ ".crt.pem") <>
          PathJoin (PathJoin cacheDir "wildcard") (ReplaceAll domain "*" "wild" +:+ ".key.pem")).
  generalize (ReplaceAll domain "*" "wild") as name. generalize (PathJoin cacheDir "wildcard") as base. intros base name.
  destruct (PathJoin_ext base name ".crt.pem") as [q1 ->]; [split; [by vm_compute|simpl; lia]|].
  destruct (PathJoin_ext base name ".key.pem") as [q2 ->]; [split; [by vm_compute|simpl; lia]|].
  intros E. assert (Hq : String.length q1 = String.length q2).
  { apply (f_equal String.length) in E. rewrite !string_length_app in E. simpl in E. lia. }
  apply (f_equal (drop_bytes (String.length q1))) in E. rewrite drop_bytes_app, Hq, drop_bytes_app in E. discriminate.
Qed.

(* ------------------------------------------------------------------ *)
(** ** What a refresh leaves behind *)

(** The certificates of the authority are good for more than thirty days when they
    arrive: its answer reads as a certificate that is. *)
Class LongLived {K} (w : World K) (now : time) : Prop :=
  obtained_long : forall calls user names res pair,
    w_Obtain w calls user names = Ok res -> w_X509KeyPair w (rs_Certificate res) (rs_PrivateKey res) = Ok pair ->
    exists der rest leaf, pair = der :: rest /\ w_ParseCertificate w der = Ok leaf /\ renewal_margin < Sub (lf_NotAfter leaf) now.

Section refresh.
Context {K : Type} (w : World K) (cacheDir email : string) (staging : bool).

(** The certificates that serve for long keep doing so. *)
Definition kept_long (m m' : Manager) : Prop := m_now m' = m_now m /\ forall h, held_long h m = true -> held_long h m' = true.

#[export] Instance kept_long_preorder : PreOrder kept_long.
Proof.
  split; [by split|]. intros m1 m2 m3 [N1 H1] [N2 H2]. split; [congruence|auto].
Qed.

(** The certificates in memory, as [held_long] sees them, are those before. *)
Definition same_wildcards (m m' : Manager) : Prop := m_now m' = m_now m /\ m_wildcards m' = m_wildcards m.

#[export] Instance same_wildcards_preorder : PreOrder same_wildcards.
Proof. split; [done|]. intros m1 m2 m3 [] []. split; congruence. Qed.

Lemma same_kept m m' : same_wildcards m m' -> kept_long m m'.
Proof. intros [N W]. split; [done|]. intros h. unfold held_long. by rewrite N, W. Qed.

Lemma file_op_same {A} (ok : Manager -> result A * Manager) failed :
  (forall m, same_wildcards m (ok m).2) -> (forall m, same_wildcards m (failed m)) -> keeps same_wildcards (file_op w ok failed).
Proof.
  intros H1 H2 m. unfold file_op. set (m' := upd_field _ _ m). assert (Hm : same_wildcards m m') by done.
  destruct (w_fault w (m_ops m)); simpl; etransitivity; eauto.
Qed.

Lemma MkdirAll_same d : keeps same_wildcards (MkdirAll w d).
Proof. by apply file_op_same. Qed.
Lemma ReadFile_same p : keeps same_wildcards (ReadFile w p).
Proof. by apply file_op_same. Qed.
Lemma WriteFile_same p b : keeps same_wildcards (WriteFile w p b).
Proof. by apply file_op_same. Qed.
Hint Resolve MkdirAll_same ReadFile_same WriteFile_same : go_keeps.

Lemma loadTLSKeyPair_same crt key : keeps same_wildcards (loadTLSKeyPair w crt key).
Proof. unfold loadTLSKeyPair. keeps_tac. Qed.

Lemma loadOrCreateAccount_same : keeps same_wildcards (loadOrCreateAccount w cacheDir email).
Proof.
  unfold loadOrCreateAccount, readPrivateKeyPEM, generate_key, writePrivateKeyPEM. keeps_tac.
  all: apply keeps_modify; done.
Qed.
Hint Resolve loadTLSKeyPair_same loadOrCreateAccount_same : go_keeps.

Lemma obtainWildcardCert_same d token : keeps same_wildcards (obtainWildcardCert w cacheDir email staging d token).
Proof.
  unfold obtainWildcardCert, registration, acme_call. keeps_tac.
  all: apply keeps_modify; done.
Qed.

Lemma keep_wildcard_long d c m : long_valid (m_now m) c = true ->
  kept_long m (keep_wildcard d c m).2 /\ held_long d (keep_wildcard d c m).2 = true.
Proof.
  intros Hc. simpl. unfold held_long. simpl. split; [split; [done|]; intros h; unfold held_long; simpl|].
  - destruct (matches h d) eqn:E; [|by rewrite find_insert_other].
    by destruct (find_insert (m_wildcards m) d c h E) as [-> | ->].
  - by rewrite find_own.
Qed.

Lemma file_op_wp {A} (ok : Manager -> result A * Manager) failed (Q : result A -> Manager -> Prop) m :
  (let m' := m <| m_ops ::= S |> in (forall e, Q (Err e) (failed m')) /\ Q (ok m').1 (ok m').2) -> wp (file_op w ok failed) Q m.
Proof. intros [H1 H2]. unfold wp, file_op. destruct (w_fault w (m_ops m)); [apply H1|]. by destruct (ok _). Qed.

Lemma MkdirAll_wp d m : wp (MkdirAll w d) (fun _ m' => same_wildcards m m' /\ m_files m' = m_files m) m.
Proof. apply file_op_wp. by repeat split. Qed.

Lemma ReadFile_wp p m :
  wp (ReadFile w p) (fun r m' => same_wildcards m m' /\ m_files m' = m_files m /\ forall b, r = Ok b -> m_files m !! p = Some b) m.
Proof.
  apply file_op_wp. split; [by repeat split|]. split; [done|]. split; [done|]. intros b. simpl.
  by destruct (m_files m !! p) as [c|]; [intros [= ->]|].
Qed.

Lemma WriteFile_wp p b m :
  wp (WriteFile w p b) (fun r m' => same_wildcards m m' /\ (r = Ok tt -> m_files m' = <[p := b]> (m_files m))) m.
Proof. apply file_op_wp. by repeat split. Qed.

(** What a loaded certificate is made of. *)
Definition parsed (pair : list string) : tlsCertificate :=
  mktlsCertificate pair
    (match pair with
     | der :: _ => match w_ParseCertificate w der with Ok leaf => Some leaf | Err _ => None end
     | [] => None
     end).

Lemma load_wp crtPath keyPath m :
  wp (loadTLSKeyPair w crtPath keyPath) (fun r m' => same_wildcards m m' /\ m_files m' = m_files m /\ forall c, r = Ok c ->
    exists crt key pair, m_files m !! crtPath = Some crt /\ m_files m !! keyPath = Some key /\
      w_X509KeyPair w crt key = Ok pair /\ c = parsed pair) m.
Proof.
  unfold loadTLSKeyPair. apply wp_bind. eapply wp_mono; [apply ReadFile_wp|].
  intros [crt|e] m1 (S1 & F1 & R1); [|done]. apply wp_bind. eapply wp_mono; [apply ReadFile_wp|].
  intros [key|e] m2 (S2 & F2 & R2); [|split; [by transitivity m1|]; split; [congruence|done]].
  assert (S : same_wildcards m m2) by by transitivity m1. assert (F : m_files m2 = m_files m) by congruence.
  apply wp_bind. unfold wp at 1. destruct (w_X509KeyPair w crt key) as [pair|e] eqn:E; simpl; [|done].
  apply wp_ret. split; [done|]. split; [done|]. intros c [= <-]. exists crt, key, pair.
  split; [by apply R1|]. split; [rewrite <- F1; by apply R2|]. done.
Qed.

Lemma obtain_wp d token m :
  wp (obtainWildcardCert w cacheDir email staging d token) (fun r m' => same_wildcards m m' /\
    forall res, r = Ok res -> exists calls user names, w_Obtain w calls user names = Ok res) m.
Proof.
  apply wp_and; [apply keeps_wp, obtainWildcardCert_same|]. unfold obtainWildcardCert.
  apply wp_bind, wp_any. intros [user|e] m1; [|done]. apply wp_bind, wp_any. intros [u|e] m2; [|done].
  apply wp_bind, wp_any. intros [reg|e] m3; [|done]. apply wp_bind, wp_any. intros [u'|e] m4; [|done].
  apply wp_bind, wp_any. intros [u''|e] m5; [|done].
  unfold wp, acme_call. simpl. intros res E. by eexists _, _, _.
Qed.

Context (now : time) `{!LongLived w now}.

(** An ordered certificate is held, and what was held stays. *)
Lemma order_wp d token m : m_now m = now ->
  let '(crtPath, keyPath) := wildcardPaths cacheDir d in
  wp (order_wildcard w cacheDir email staging d token crtPath keyPath)
    (fun r m' => kept_long m m' /\ (r = Ok tt -> held_long d m' = true)) m.
Proof.
  intros Hnow. pose proof (wildcardPaths_differ cacheDir d) as Hne. destruct (wildcardPaths cacheDir d) as [crtPath keyPath].
  simpl in Hne. unfold order_wildcard. apply wp_bind. eapply wp_mono; [apply obtain_wp|].
  intros [res|e] m1 [S1 H1]; [|split; [by apply same_kept|done]]. destruct (H1 _ eq_refl) as (calls & user & names & Hres).
  apply wp_bind. eapply wp_mono; [apply MkdirAll_wp|]. intros [u|e] m2 [S2 _]; [|split; [apply same_kept; by transitivity m1|done]].
  assert (S12 : same_wildcards m m2) by by transitivity m1.
  apply wp_bind. eapply wp_mono; [apply WriteFile_wp|]. intros [[]|e] m3 [S3 F3]; [|split; [apply same_kept; by transitivity m2|done]].
  assert (S13 : same_wildcards m m3) by by transitivity m2.
  apply wp_bind. eapply wp_mono; [apply WriteFile_wp|]. intros [[]|e] m4 [S4 F4]; [|split; [apply same_kept; by transitivity m3|done]].
  assert (S14 : same_wildcards m m4) by by transitivity m3.
  apply wp_bind. eapply wp_mono; [apply load_wp|]. intros [c|e] m5 (S5 & F5 & L5); [|split; [apply same_kept; by transitivity m4|done]].
  assert (S15 : same_wildcards m m5) by by transitivity m4.
  destruct (L5 _ eq_refl) as (crt & key & pair & Hc & Hk & Hp & ->).
  rewrite F4, F3 in Hc, Hk by done. rewrite lookup_insert_eq in Hk. rewrite lookup_insert_ne, lookup_insert_eq in Hc by done.
  simplify_eq. destruct (obtained_long _ _ _ _ _ Hres Hp) as (der & rest & leaf & -> & Hl & Hlong).
  destruct (keep_wildcard_long d (parsed (der :: rest)) m5) as [H2 H3].
  { unfold long_valid, parsed. simpl. rewrite Hl. destruct S15 as [-> _]. by apply Z.ltb_lt. }
  split; [|by intros _]. transitivity m5; [by apply same_kept|done].
Qed.

Lemma ensure_wildcard_wp d token m : m_now m = now ->
  wp (ensureWildcardCert w cacheDir email staging d token) (fun r m' => kept_long m m' /\ (r = Ok tt -> held_long d m' = true)) m.
Proof.
  intros Hnow. unfold ensureWildcardCert. apply wp_bind, wp_gets. destruct (held_long d m) eqn:E; [by apply wp_ret|].
  pose proof (order_wp d token) as Ho. destruct (wildcardPaths cacheDir d) as [crtPath keyPath].
  apply wp_bind, wp_gets, wp_bind, wp_try. eapply wp_mono; [apply load_wp|]. intros disk m1 (S1 & _ & _).
  assert (Hnow1 : m_now m1 = now) by (destruct S1; congruence).
  assert (Horder : wp (order_wildcard w cacheDir email staging d token crtPath keyPath)
    (fun r m' => kept_long m m' /\ (r = Ok tt -> held_long d m' = true)) m1).
  { eapply wp_mono; [by apply Ho|]. intros r m' [H1 H2]. split; [|done]. transitivity m1; [by apply same_kept|done]. }
  destruct disk as [c|e]; [|done]. destruct (long_valid (m_now m) c) eqn:El; [|done].
  destruct (keep_wildcard_long d c m1) as [H1 H2]; [by rewrite Hnow1, <- Hnow|].
  apply wp_modify. split; [transitivity m1; [by apply same_kept|done]|done].
Qed.

Definition all_held (domains : list string) (m : Manager) : Prop :=
  forall d, d ∈ domains -> norm d <> "" -> held_long (norm d) m = true.

Lemma ensure_all_wp token domains m : m_now m = now ->
  wp (ensure_all w cacheDir email staging token domains)
    (fun r m' => kept_long m m' /\ exists errs, r = Ok errs /\ (errs = [] -> all_held domains m')) m.
Proof.
  revert m. induction domains as [|d domains IH]; intros m Hnow; simpl.
  - apply wp_ret. split; [done|]. exists []. split; [done|]. intros _ d Hd. by apply elem_of_nil in Hd.
  - destruct (String.eqb (norm d) "") eqn:E.
    + apply String.eqb_eq in E. eapply wp_mono; [by apply IH|]. intros r m' (H1 & errs & -> & H2). split; [done|].
      exists errs. split; [done|]. intros He d' [->|Hd']%elem_of_cons Hn; [done|]. by apply H2.
    + apply wp_bind, wp_try. eapply wp_mono; [by apply ensure_wildcard_wp|]. intros r m1 [H1 H2].
      apply wp_bind. eapply wp_mono; [apply IH; destruct H1; congruence|]. intros r' m2 (H3 & errs & -> & H4).
      apply wp_ret. split; [by transitivity m1|]. eexists. split; [done|]. destruct r as [[]|e]; [|done].
      intros He d' [->|Hd']%elem_of_cons Hn; [|by apply H4]. apply H3. by apply H2.
Qed.

(** Nothing is ordered for domains whose certificates serve for long. *)
Lemma ensure_all_idle token domains m : all_held domains m -> ensure_all w cacheDir email staging token domains m = (Ok [], m).
Proof.
  induction domains as [|d domains IH]; intros H; [done|]. simpl.
  assert (Hd : all_held domains m) by (intros d' Hd'; apply H; by right).
  destruct (String.eqb (norm d) "") eqn:E; [by apply IH|]. apply String.eqb_neq in E.
  unfold mbind, M_bind, try_, ensureWildcardCert. simpl. unfold mbind, M_bind. simpl. rewrite (H d) by (left || done).
  simpl. by rewrite IH.
Qed.
End refresh.

Section provider.
Context {K : Type} (w : World K) (cacheDir email : string) (staging : bool) {Sc : Type} `{HostProvider Sc}.

(** What the source says at a refresh. *)
Definition asked (s : Sc) (token : string) (domains : list string) (s' : Sc) : Prop :=
  exists s1, GetCloudflareToken s = (Ok token, s1) /\ ListWildcardDomains s1 = (Ok domains, s') /\ TrimSpace token <> "".

Lemma refresh_eq s m token domains s' : asked s token domains s' ->
  RefreshWildcardCertificates w cacheDir email staging (s, m) =
    let '(r, m') := ensure_all w cacheDir email staging token domains m in
    (match r with
     | Ok [] => Ok tt
     | Ok errs => Err (ErrText ("wildcard refresh errors: " +:+ Join errs " | "))
     | Err e => Err e
     end, (s', m')).
Proof.
  intros (s1 & Ht & Hd & Hne). unfold RefreshWildcardCertificates.
  unfold mbind, M_bind, try_, with_source, zoom. simpl. rewrite Ht. simpl. apply String.eqb_neq in Hne. rewrite Hne.
  unfold mbind, M_bind, zoom. simpl. rewrite Hd. simpl. unfold with_manager, zoom. simpl.
  destruct (ensure_all w cacheDir email staging token domains m) as [[[|e errs]|e] m']; done.
Qed.

(** A refresh that reports no error leaves every domain with a certificate that is
    good for more than thirty days, and the next one orders nothing. *)
Theorem refresh_covers s m token domains s' sm :
  LongLived w (m_now m) -> asked s token domains s' ->
  RefreshWildcardCertificates w cacheDir email staging (s, m) = (Ok tt, sm) ->
  (forall d, d ∈ domains -> norm d <> "" -> exists c, findWildcardForHost (m_wildcards sm.2) (norm d) = Some c /\
     exists leaf, tc_Leaf c = Some leaf /\ renewal_margin < Sub (lf_NotAfter leaf) (m_now m)) /\
  (forall t t', asked t token domains t' ->
     RefreshWildcardCertificates w cacheDir email staging (t, sm.2) = (Ok tt, (t', sm.2))).
Proof.
  intros Hl Ha Hr. rewrite (refresh_eq _ _ _ _ _ Ha) in Hr.
  pose proof (ensure_all_wp w cacheDir email staging (m_now m) token domains m eq_refl) as Hw. unfold wp in Hw.
  destruct (ensure_all w cacheDir email staging token domains m) as [r m'] eqn:E.
  destruct Hw as ([Hnow _] & errs & -> & Hall). destruct errs as [|e errs]; [|by injection Hr]. injection Hr as <-. simpl.
  specialize (Hall eq_refl). split.
  - intros d Hd Hn. specialize (Hall d Hd Hn). unfold held_long in Hall. destruct (findWildcardForHost _ _) as [c|]; [|done].
    exists c. split; [done|]. unfold long_valid in Hall. destruct (tc_Leaf c) as [leaf|]; [|done].
    exists leaf. split; [done|]. rewrite <- Hnow. lia.
  - intros t t' Ht. rewrite (refresh_eq _ _ _ _ _ Ht). by rewrite ensure_all_idle.
Qed.
End provider.

(* ------------------------------------------------------------------ *)
(** ** The names a certificate may be asked for *)

Section policy.
Context {Sc : Type} `{HostProvider Sc}.

Lemma EqualFold_hello host n : EqualFold (hello_name host) n = true <-> hello_name host = ToLower n.
Proof. unfold EqualFold, hello_name. rewrite String.eqb_eq, ToLower_idem. done. Qed.

Lemma covers_below_iff host d :
  covers_below host d = true <-> norm d <> "" /\ exists p, host = p +:+ "." +:+ norm d.
Proof.
  unfold covers_below. rewrite !andb_true_iff, below_iff. unfold nonempty. rewrite !negb_true_iff, !String.eqb_neq. split.
  - by intros [[H1 _] H2].
  - intros [H1 [p ->]]. split; [split; [done|]|by exists p].
    intros E. apply (f_equal String.length) in E. rewrite !string_length_app in E. simpl in E. lia.
Qed.

(** One of the listed names, or a name below a catch-all domain. *)
Definition allowed_by (names catchAll : list string) (h : string) : Prop :=
  (exists n, n ∈ names /\ h = ToLower n) \/ (exists d p, d ∈ catchAll /\ norm d <> "" /\ h = p +:+ "." +:+ norm d).

Lemma names_test host names :
  existsb (EqualFold (hello_name host)) names = true <-> exists n, n ∈ names /\ hello_name host = ToLower n.
Proof. rewrite existsb_exists. setoid_rewrite EqualFold_hello. by setoid_rewrite list_elem_of_In. Qed.

Lemma catch_all_test host catchAll :
  existsb (covers_below host) catchAll = true <-> exists d p, d ∈ catchAll /\ norm d <> "" /\ host = p +:+ "." +:+ norm d.
Proof.
  rewrite existsb_exists. setoid_rewrite covers_below_iff. setoid_rewrite list_elem_of_In. split.
  - intros (d & Hd & Hn & p & ->). by exists d, p.
  - intros (d & p & Hd & Hn & ->). exists d. split; [done|]. split; [done|]. by exists p.
Qed.

(** With the answers of the source, the policy is [allowed_by]. *)
Lemma host_policy_iff host s names s1 catchAll s2 :
  ListFQDNs s = (Ok names, s1) -> ListCatchAllDomains s1 = (Ok catchAll, s2) ->
  ((HostPolicy host s).1 = Ok tt <-> allowed_by names catchAll (hello_name host)).
Proof.
  intros H1 H2. unfold HostPolicy, allowed_by. rewrite (bind_ok_run _ _ _ _ _ H1).
  rewrite <- names_test, <- catch_all_test. destruct (existsb (EqualFold (hello_name host)) names) eqn:E1; [by split; [left|]|].
  rewrite (bind_ok_run _ _ _ _ _ H2). destruct (existsb (covers_below (hello_name host)) catchAll) eqn:E2; [by split; [right|]|].
  split; [done|]. by intros [H3|H3].
Qed.
End policy.

(** The domains and hosts of the database behind those answers. *)
Definition live_name (db : DB) (h : string) : Prop :=
  exists d, d ∈ rows (t_domains db) /\ EqualFold (TrimSpace (d_Status d)) "inactive" = false /\ h = norm (d_Name d).
Definition open_host (db : DB) (h : string) : Prop :=
  exists x, x ∈ rows (t_hosts db) /\ h_State x ∈ certified_states /\ h = norm (h_FQDN x).
Definition in_catch_all (db : DB) (h : string) : Prop :=
  exists d p, d ∈ rows (t_domains db) /\ norm (d_DNSMode d) = "cloudflare" /\ norm (d_CertMode d) ∈ catch_all_modes /\
    norm (d_Name d) <> "" /\ h = p +:+ "." +:+ norm (d_Name d).

Section service.
Context (Open : bytes -> bytes -> bytes -> option bytes).
#[local] Instance provider : HostProvider Svc := svc_provider Open.

Definition tables (s : Svc) : DB := e_db (s_env s).

Lemma query_wp {A} (f : DB -> A) (s : Svc) :
  wp (db (query f)) (fun r s' => tables s' = tables s /\ (e_faults (s_env s) = [] -> e_faults (s_env s') = []) /\
    match r with Ok a => a = f (tables s) | Err e => e = ErrDriver /\ e_faults (s_env s) <> [] end) s.
Proof.
  destruct s as [[d now fs rnd]]. unfold wp, db, zoom, query, tables. simpl. unfold mbind, M_bind, stmt. simpl.
  by destruct fs as [|[] fs].
Qed.

Definition names_of (db : DB) : list string :=
  dedup_seen norm nonempty ∅
    (map d_Name (List.filter (fun d => negb (EqualFold (TrimSpace (d_Status d)) "inactive")) (order_by (asc_text d_Name) (rows (t_domains db))))
     ++ map h_FQDN (List.filter (fun h => bool_decide (h_State h ∈ certified_states)) (order_by (asc_text h_FQDN) (rows (t_hosts db))))).
Definition catch_all_of (db : DB) : list string :=
  map (fun d => norm (d_Name d)) (List.filter (fun d =>
    String.eqb (norm (d_DNSMode d)) "cloudflare" && bool_decide (norm (d_CertMode d) ∈ catch_all_modes))
    (order_by (asc_text d_Name) (rows (t_domains db)))).

Lemma ListFQDNs_wp s : wp Hosts.ListFQDNs (fun r s' => tables s' = tables s /\
    (e_faults (s_env s) = [] -> e_faults (s_env s') = []) /\
    match r with Ok l => l = names_of (tables s) | Err e => e = ErrDriver /\ e_faults (s_env s) <> [] end) s.
Proof.
  unfold Hosts.ListFQDNs, StoreHosts.ListHosts, StoreHosts.ListDomains.
  apply wp_bind. eapply wp_mono; [apply query_wp|]. intros [hosts|e] s1 (T1 & F1 & R1); [subst hosts|done].
  apply wp_bind. eapply wp_mono; [apply query_wp|]. intros [domains|e] s2 (T2 & F2 & R2).
  - apply wp_ret. subst domains. rewrite T2, T1. split; [done|]. split; [auto|]. done.
  - split; [congruence|]. split; [auto|]. split; [apply R2|]. intros H. by apply R2, F1.
Qed.

Lemma ListCatchAll_wp s : wp Hosts.ListCatchAllDomains (fun r s' => tables s' = tables s /\
    (e_faults (s_env s) = [] -> e_faults (s_env s') = []) /\
    match r with Ok l => l = catch_all_of (tables s) | Err e => e = ErrDriver /\ e_faults (s_env s) <> [] end) s.
Proof.
  unfold Hosts.ListCatchAllDomains, StoreHosts.ListDomains.
  apply wp_bind. eapply wp_mono; [apply query_wp|]. intros [domains|e] s1 (T1 & F1 & R1); [subst domains|done].
  by apply wp_ret.
Qed.

Lemma elem_of_map_filter {A B} (f : A -> B) p le l y :
  y ∈ map f (List.filter p (order_by le l)) <-> exists x, y = f x /\ p x = true /\ x ∈ l.
Proof.
  rewrite list_elem_of_In, in_map_iff. split.
  - intros (x & <- & [Hx Hp]%filter_In). exists x. split; [done|]. split; [done|].
    by apply list_elem_of_In, elem_of_order_by in Hx.
  - intros (x & -> & Hp & Hx). exists x. split; [done|]. apply filter_In. split; [|done].
    by apply list_elem_of_In, elem_of_order_by.
Qed.

Lemma norm_lower s : ToLower (norm s) = norm s.
Proof. unfold norm. apply ToLower_idem. Qed.

Lemma elem_of_names_of db h : (exists n, n ∈ names_of db /\ h = ToLower n) <-> h <> "" /\ (live_name db h \/ open_host db h).
Proof.
  assert (Hn : forall n, n ∈ names_of db <-> n <> "" /\ (live_name db n \/ open_host db n)).
  { intros n. unfold names_of. rewrite elem_of_dedup_seen. unfold nonempty. rewrite negb_true_iff, String.eqb_neq.
    setoid_rewrite elem_of_app. setoid_rewrite elem_of_map_filter. unfold live_name, open_host. split.
    - intros (_ & Hne & x & [(d & -> & Hs & Hd)|(y & -> & Hs & Hy)] & <-); (split; [done|]).
      + left. exists d. split; [done|]. split; [by apply negb_true_iff|done].
      + right. exists y. split; [done|]. split; [by apply bool_decide_eq_true in Hs|done].
    - intros (Hne & [(d & Hd & Hs & E)|(y & Hy & Hs & E)]); (split; [set_solver|]; split; [done|]); eexists; (split; [|by symmetry]).
      + left. exists d. split; [done|]. split; [by apply negb_true_iff|done].
      + right. exists y. split; [done|]. split; [by apply bool_decide_eq_true|done]. }
  split.
  - intros (n & Hin & ->). apply Hn in Hin as [H1 H2]. assert (E : ToLower n = n).
    { destruct H2 as [(d & _ & _ & ->)|(x & _ & _ & ->)]; apply norm_lower. }
    by rewrite E.
  - intros [H1 H2]. exists h. split; [by apply Hn|]. destruct H2 as [(d & _ & _ & ->)|(x & _ & _ & ->)]; by rewrite norm_lower.
Qed.

Lemma elem_of_catch_all_of db h :
  (exists d p, d ∈ catch_all_of db /\ norm d <> "" /\ h = p +:+ "." +:+ norm d) <-> in_catch_all db h.
Proof.
  unfold catch_all_of, in_catch_all. setoid_rewrite elem_of_map_filter. setoid_rewrite andb_true_iff.
  setoid_rewrite String.eqb_eq. setoid_rewrite bool_decide_eq_true. split.
  - intros (n & p & (d & -> & [H1 H2] & Hd) & H3 & H4). exists d, p. by rewrite norm_norm in H3, H4.
  - intros (d & p & Hd & H1 & H2 & H3 & H4). exists (norm (d_Name d)), p. rewrite norm_norm. split; [|done]. by exists d.
Qed.

(** autocert may ask for exactly the live domains, the hosts that are open, and what
    lies below a catch-all domain. *)
Theorem certificates_for_configured_names host s :
  let configured := (hello_name host <> "" /\ (live_name (tables s) (hello_name host) \/ open_host (tables s) (hello_name host)))
                    \/ in_catch_all (tables s) (hello_name host) in
  ((HostPolicy host s).1 = Ok tt -> configured) /\
  (e_faults (s_env s) = [] -> configured -> (HostPolicy host s).1 = Ok tt).
Proof.
  intros configured. pose proof (ListFQDNs_wp s) as H1. unfold wp in H1.
  change (Hosts.ListFQDNs s) with (ListFQDNs s) in H1. destruct (ListFQDNs s) as [[names|e] s1] eqn:E1.
  2: { destruct H1 as (_ & _ & _ & Hne). unfold HostPolicy. by rewrite (bind_err_run _ _ _ _ _ E1). }
  destruct H1 as (T1 & F1 & ->). pose proof (ListCatchAll_wp s1) as H2. unfold wp in H2.
  change (Hosts.ListCatchAllDomains s1) with (ListCatchAllDomains s1) in H2. destruct (ListCatchAllDomains s1) as [[catchAll|e] s2] eqn:E2.
  - destruct H2 as (_ & _ & ->). rewrite (host_policy_iff host s _ _ _ _ E1 E2). unfold allowed_by.
    rewrite elem_of_names_of, elem_of_catch_all_of, T1. by split.
  - destruct H2 as (_ & _ & _ & Hne). split; [|by intros H; apply F1 in H]. unfold HostPolicy. rewrite (bind_ok_run _ _ _ _ _ E1).
    destruct (existsb _ _) eqn:E; [|by rewrite (bind_err_run _ _ _ _ _ E2)]. intros _. left.
    by apply elem_of_names_of, names_test.
Qed.
End service.

(* ------------------------------------------------------------------ *)
(** ** A refresh succeeds when the world lets it *)

(** No file operation fails, keys can be made and stored, and the authority
    registers the account and hands out certificates that can be read. *)
Class Willing {K} (w : World K) (staging : bool) (token : string) : Prop := {
  no_faults n : w_fault w n = false;
  keys_made n : is_ok (w_GenerateKey w n) = true;
  keys_stored k : is_ok (w_MarshalECPrivateKey w k) = true;
  client_made u : w_NewClient w u staging = Ok tt;
  registers calls u : is_ok (w_Register w calls u) = true;
  provider_made : w_NewDNSProvider w token = Ok tt;
  challenge_set : w_SetDNS01Provider w = Ok tt;
  hands_out calls u d : exists res pair, w_Obtain w calls u [d; "*." +:+ d] = Ok res /\
    w_X509KeyPair w (rs_Certificate res) (rs_PrivateKey res) = Ok pair
}.

Section willing.
Context {K : Type} (w : World K) (cacheDir email : string) (staging : bool) (token : string) `{!Willing w staging token}.

Lemma file_op_run {A} (ok : Manager -> result A * Manager) failed m : file_op w ok failed m = ok (m <| m_ops ::= S |>).
Proof. unfold file_op. by rewrite no_faults. Qed.

Lemma MkdirAll_run d m : MkdirAll w d m = (Ok tt, m <| m_ops ::= S |>).
Proof. apply file_op_run. Qed.
Lemma WriteFile_run p b m : WriteFile w p b m = (Ok tt, m <| m_ops ::= S |> <| m_files ::= <[p := b]> |>).
Proof. apply file_op_run. Qed.
Lemma ReadFile_run p b m : m_files m !! p = Some b -> ReadFile w p m = (Ok b, m <| m_ops ::= S |>).
Proof. intros Hb. unfold ReadFile. rewrite file_op_run. cbn [m_files upd_field]. by rewrite Hb. Qed.

Lemma account_ok m : exists u m', loadOrCreateAccount w cacheDir email m = (Ok u, m').
Proof.
  unfold loadOrCreateAccount. unfold mbind at 1, M_bind. unfold MkdirAll. rewrite file_op_run.
  unfold mbind at 1, M_bind, try_. destruct (readPrivateKeyPEM _ _ _) as [[k|e] m1]; [by eexists _, _|].
  unfold generate_key. unfold mbind, M_bind, gets, modify, lift. pose proof (keys_made (m_generated m1)) as Hk.
  destruct (w_GenerateKey w (m_generated m1)) as [k|]; [|done]. unfold writePrivateKeyPEM, lift. unfold mbind, M_bind.
  pose proof (keys_stored k) as Hs. destruct (w_MarshalECPrivateKey w k) as [der|]; [|done].
  unfold WriteFile. rewrite file_op_run. by eexists _, _.
Qed.

Lemma registration_ok u m : exists reg m', registration w u m = (Ok reg, m').
Proof.
  unfold registration. unfold mbind at 1, M_bind, gets. destruct (w_ResolveAccountByKey w (m_calls m) (GetPrivateKey u)); [by eexists _, _|].
  unfold acme_call, gets, modify, lift. unfold mbind, M_bind. pose proof (registers (m_calls m) u) as Hr.
  destruct (w_Register w (m_calls m) u); [by eexists _, _|done].
Qed.

Lemma obtain_ok d m : exists res pair m', obtainWildcardCert w cacheDir email staging d token m = (Ok res, m') /\
  w_X509KeyPair w (rs_Certificate res) (rs_PrivateKey res) = Ok pair.
Proof.
  unfold obtainWildcardCert. destruct (account_ok m) as (u & m1 & E). rewrite (bind_ok_run _ _ _ _ _ E).
  rewrite client_made, lift_run. destruct (registration_ok u m1) as (reg & m2 & E2). rewrite (bind_ok_run _ _ _ _ _ E2).
  rewrite provider_made, lift_run, challenge_set, lift_run. unfold acme_call. unfold mbind, M_bind, gets, modify, lift.
  destruct (hands_out (m_calls m2) (mklegoUser (lu_Email u) (Some reg) (lu_key u)) d) as (res & pair & -> & Hp).
  by exists res, pair, (m2 <| m_calls ::= fun l => l ++ [Obtain [d; "*." +:+ d]] |>).
Qed.

Lemma order_ok d m : let '(crtPath, keyPath) := wildcardPaths cacheDir d in
  exists m', order_wildcard w cacheDir email staging d token crtPath keyPath m = (Ok tt, m').
Proof.
  pose proof (wildcardPaths_differ cacheDir d) as Hne. destruct (wildcardPaths cacheDir d) as [crtPath keyPath]. simpl in Hne.
  unfold order_wildcard. destruct (obtain_ok d m) as (res & pair & m1 & E & Hp). rewrite (bind_ok_run _ _ _ _ _ E).
  rewrite (bind_ok_run _ _ _ _ _ (MkdirAll_run _ _)), !(bind_ok_run _ _ _ _ _ (WriteFile_run _ _ _)). unfold loadTLSKeyPair. set (m2 := upd_field m_files _ _).
  assert (Hc : m_files m2 !! crtPath = Some (rs_Certificate res)) by (simpl; by rewrite lookup_insert_ne, lookup_insert_eq by done).
  assert (Hk : m_files m2 !! keyPath = Some (rs_PrivateKey res)) by (simpl; by rewrite lookup_insert_eq).
  clearbody m2. unfold mbind, M_bind. rewrite (ReadFile_run _ _ _ Hc). cbv beta iota.
  erewrite ReadFile_run by exact Hk. cbv beta iota.
  unfold lift. rewrite Hp. by eexists.
Qed.

Lemma ensure_ok d m : exists m', ensureWildcardCert w cacheDir email staging d token m = (Ok tt, m').
Proof.
  unfold ensureWildcardCert. unfold mbind at 1, M_bind, gets at 1. destruct (held_long d m); [by eexists|].
  pose proof (order_ok d) as Ho. destruct (wildcardPaths cacheDir d) as [crtPath keyPath].
  unfold mbind, M_bind, gets, try_. destruct (loadTLSKeyPair w crtPath keyPath m) as [[c|e] m1]; [|apply Ho].
  destruct (long_valid _ _); [by eexists|apply Ho].
Qed.
End willing.

Lemma ensure_all_ok {K} (w : World K) cacheDir email staging token domains m :
  Willing w staging (TrimSpace token) -> exists m', ensure_all w cacheDir email staging token domains m = (Ok [], m').
Proof.
  intros Hw. revert m. induction domains as [|d domains IH]; intros m; simpl; [by eexists|].
  destruct (String.eqb (norm d) ""); [done|]. destruct (ensure_ok w cacheDir email staging (TrimSpace token) (norm d) m) as [m1 E].
  unfold mbind, M_bind, try_. rewrite E. destruct (IH m1) as [m2 E2]. rewrite E2. by eexists.
Qed.

Theorem refresh_succeeds {K} (w : World K) cacheDir email staging {Sc} `{HostProvider Sc} (s : Sc) m token domains s' :
  Willing w staging (TrimSpace token) -> asked s token domains s' ->
  exists m', RefreshWildcardCertificates w cacheDir email staging (s, m) = (Ok tt, (s', m')).
Proof.
  intros Hw Ha. rewrite (refresh_eq _ _ _ _ _ _ _ _ _ Ha).
  destruct (ensure_all_ok w cacheDir email staging token domains m Hw) as [m' ->]. by exists m'.
Qed.

(* ------------------------------------------------------------------ *)
(** ** The account key is made once *)

Class PemLaws {K} (w : World K) : Prop := {
  decode_encode der : w_Decode w (w_Encode w der) = Some der;
  parse_marshal k der : w_MarshalECPrivateKey w k = Ok der -> w_ParseECPrivateKey w der = Ok k
}.

Section account.
Context {K : Type} (w : World K) (cacheDir email : string) `{!PemLaws w}.

Lemma read_key_run m r m1 : readPrivateKeyPEM w (account_path cacheDir) m = (r, m1) -> m_files m1 = m_files m /\ m_generated m1 = m_generated m.
Proof.
  unfold readPrivateKeyPEM, ReadFile, file_op. unfold mbind, M_bind. destruct (w_fault w (m_ops m)); [by intros [= <- <-]|].
  simpl. destruct (m_files m !! account_path cacheDir); [|by intros [= <- <-]]. destruct (w_Decode w s); by intros [= <- <-].
Qed.

Lemma read_key_files m m' k m1 : readPrivateKeyPEM w (account_path cacheDir) m = (Ok k, m1) ->
  m_files m' = m_files m -> w_fault w (m_ops m') = false -> (readPrivateKeyPEM w (account_path cacheDir) m').1 = Ok k.
Proof.
  unfold readPrivateKeyPEM, ReadFile, file_op. intros E Ef Hf. unfold mbind, M_bind in *. rewrite Hf. cbn [m_files upd_field fst] in *. rewrite Ef.
  destruct (w_fault w (m_ops m)); [done|]. cbn [m_files upd_field] in E. destruct (m_files m !! account_path cacheDir); [|done].
  destruct (w_Decode w s); [|done]. by injection E.
Qed.

(** Whoever holds the account key keeps it: the next call reads it back, and makes none. *)
Theorem account_key_kept m u m' :
  loadOrCreateAccount w cacheDir email m = (Ok u, m') ->
  w_fault w (m_ops m') = false -> w_fault w (S (m_ops m')) = false ->
  exists m'', loadOrCreateAccount w cacheDir email m' = (Ok u, m'') /\
    m_generated m'' = m_generated m' /\ m_files m'' = m_files m'.
Proof.
  intros E H1 H2.
  assert (Hback : lu_Email u = email /\ lu_Registration u = None /\
    forall m2, m_files m2 = m_files m' -> w_fault w (m_ops m2) = false ->
      (readPrivateKeyPEM w (account_path cacheDir) m2).1 = Ok (lu_key u)).
  { revert E. unfold loadOrCreateAccount. unfold mbind at 1, M_bind. destruct (MkdirAll w cacheDir m) as [[[]|e] m1]; [|done].
    unfold mbind at 1, M_bind, try_. destruct (readPrivateKeyPEM w (account_path cacheDir) m1) as [[k|e] m2] eqn:Er.
    - intros [= <- <-]. split; [done|]. split; [done|]. intros m3 Hf H3. simpl.
      destruct (read_key_run _ _ _ Er) as [Hf2 _]. eapply read_key_files; [exact Er|congruence|done].
    - unfold generate_key, writePrivateKeyPEM, gets, modify, lift. unfold mbind, M_bind.
      destruct (w_GenerateKey w (m_generated m2)) as [k|]; [|done]. destruct (w_MarshalECPrivateKey w k) as [der|] eqn:Em; [|done].
      unfold WriteFile, file_op. cbn [m_ops upd_field]. destruct (w_fault w (m_ops m2)); [done|]. intros [= <- <-]. split; [done|]. split; [done|].
      intros m3 Hf H3. unfold readPrivateKeyPEM, ReadFile, file_op. unfold mbind, M_bind. rewrite H3. cbn [m_files upd_field fst] in *. rewrite Hf.
      rewrite lookup_insert_eq, decode_encode. simpl. by rewrite (parse_marshal _ _ Em). }
  destruct Hback as (He & Hr & Hback). unfold loadOrCreateAccount. unfold mbind at 1, M_bind, MkdirAll, file_op. rewrite H1.
  set (m1 := m' <| m_ops ::= S |>). specialize (Hback m1 eq_refl H2). unfold mbind, M_bind, try_.
  destruct (readPrivateKeyPEM w (account_path cacheDir) m1) as [r m2] eqn:E2. simpl in Hback. subst r.
  destruct (read_key_run _ _ _ E2) as [F G]. exists m2. destruct u as [ue ur uk]. simpl in *. by subst.
Qed.
End account.

(* ------------------------------------------------------------------ *)
(** ** A small authority *)

(** A source that lists names; the authority's certificates last ninety days. *)
#[local] Instance toy_source : HostProvider (list string) := {|
  ListFQDNs := get; ListCatchAllDomains := mret []; ListWildcardDomains := get; GetCloudflareToken := mret "token"
|}.

Fixpoint unary (n : nat) : string := match n with O => "" | S n => String "k" (unary n) end.
Definition toy_world : World nat := {|
  w_fault := fun _ => false; w_left := fun _ _ => id;
  w_X509KeyPair := fun crt _ => Ok [crt];
  w_ParseCertificate := fun der => Ok (mkLeaf (90 * 24 * Hour) [der; "*." +:+ der]);
  w_GenerateKey := Ok; w_Decode := fun b => Some b; w_Encode := id;
  w_ParseECPrivateKey := fun der => Ok (String.length der); w_ParsePKCS8PrivateKey := fun _ => Err (ErrText "not PKCS8");
  w_MarshalECPrivateKey := fun n => Ok (unary n);
  w_NewClient := fun _ _ => Ok tt; w_ResolveAccountByKey := fun _ _ => Err (ErrText "no account");
  w_Register := fun _ _ => Ok "registered"; w_NewDNSProvider := fun _ => Ok tt; w_SetDNS01Provider := Ok tt;
  w_Obtain := fun _ _ names => match names with d :: _ => Ok (mkResource d "key") | [] => Err (ErrText "no names") end
|}.

#[local] Instance toy_long : LongLived toy_world 0.
Proof. intros calls u names res pair _ [= <-]. by eexists _, [], _. Qed.
#[local] Instance toy_willing : Willing toy_world false "token".
Proof. split; try done. intros calls u d. by eexists (mkResource d "key"), [d]. Qed.
#[local] Instance toy_pem : PemLaws toy_world.
Proof.
  split; [done|]. intros k der [= <-]. simpl. f_equal. induction k as [|k IH]; [done|]. simpl. by rewrite IH.
Qed.

Definition toy_refresh := RefreshWildcardCertificates toy_world "/acme" "ops@example.com" false.

Lemma toy_asked s : asked s "token" s s.
Proof. by exists s. Qed.

Lemma refresh_covers_witness :
  let sm := (toy_refresh (["example.com"; " Example.ORG "], new_manager 0 ∅)).2 in
  (exists c, findWildcardForHost (m_wildcards sm.2) "example.org" = Some c /\
     exists leaf, tc_Leaf c = Some leaf /\ renewal_margin < Sub (lf_NotAfter leaf) 0) /\
  toy_refresh (["example.com"; " Example.ORG "], sm.2) = (Ok tt, (["example.com"; " Example.ORG "], sm.2)).
Proof.
  set (l := ["example.com"; " Example.ORG "]). intros sm.
  assert (E : toy_refresh (l, new_manager 0 ∅) = (Ok tt, sm)) by (vm_compute; reflexivity).
  destruct (refresh_covers toy_world "/acme" "ops@example.com" false l (new_manager 0 ∅) "token" l l sm toy_long (toy_asked l) E) as [H1 H2].
  split; [|by apply H2, toy_asked]. apply (H1 " Example.ORG "); [right; left|done].
Defined.

Lemma refresh_succeeds_witness :
  exists m', toy_refresh (["example.com"], new_manager 0 ∅) = (Ok tt, (["example.com"], m')).
Proof. exact (refresh_succeeds toy_world "/acme" "ops@example.com" false _ _ "token" _ _ toy_willing (toy_asked _)). Defined.

Lemma account_key_kept_witness :
  let m' := (loadOrCreateAccount toy_world "/acme" "ops@example.com" (new_manager 0 ∅)).2 in
  exists u m'', loadOrCreateAccount toy_world "/acme" "ops@example.com" m' = (Ok u, m'') /\ m_generated m'' = 1%nat.
Proof.
  intros m'. destruct (account_key_kept toy_world "/acme" "ops@example.com" (new_manager 0 ∅) (mklegoUser "ops@example.com" None 0%nat) m')
    as (m'' & E & G & _); [vm_compute; reflexivity..|]. exists (mklegoUser "ops@example.com" None 0%nat), m''. split; [exact E|]. by rewrite G.
Defined.

(** A certificate is accepted for the names in it; [*] stands for one label. *)
Definition names_host (names : list string) (host : string) : bool :=
  existsb (fun n => String.eqb n host || match cut "."%char host with Some (_, rest) => String.eqb n ("*." +:+ rest) | None => false end) names.

Definition presented (m : Manager) (host : string) : option (list string * time) :=
  c ← findWildcardForHost (m_wildcards m) host; leaf ← tc_Leaf c; Some (lf_DNSNames leaf, lf_NotAfter leaf).

(** A domain below another listed one gets no certificate of its own, and its hosts are
    shown one that does not name them. *)
Example parent_shadows :
  let m := (toy_refresh (["example.com"; "shop.example.com"], new_manager 0 ∅)).2.2 in
  m_calls m = [Register "ops@example.com"; Obtain ["example.com"; "*.example.com"]] /\
  (presented m "www.shop.example.com" ≫= fun p => Some (names_host p.1 "www.shop.example.com")) = Some false /\
  (presented m "www.example.com" ≫= fun p => Some (names_host p.1 "www.example.com")) = Some true.
Proof. by vm_compute. Qed.

(** The certificate of a domain that is no longer listed is presented after it has expired. *)
Example expired_presented :
  let m := (toy_refresh (["example.com"], new_manager 0 ∅)).2.2 in
  let m' := (toy_refresh ([], m <| m_now := 91 * 24 * Hour |>)).2.2 in
  (presented m' "www.example.com" ≫= fun p => Some (p.2 <? m_now m')) = Some true.
Proof. by vm_compute. Qed.

(** A host of the service is configured from its creation on, whatever its domain. *)
Definition policy_db : DB := empty_DB
  <| t_domains := {[1 := zero_Domain <| d_ID := 1 |> <| d_Name := "example.com" |> <| d_Status := "inactive" |>
                         <| d_DNSMode := "cloudflare" |> <| d_CertMode := "letsencrypt-catchall" |> ]} |>
  <| t_hosts := {[7 := zero_Host <| h_ID := 7 |> <| h_DomainID := 1 |> <| h_FQDN := "app.example.net" |> <| h_State := "active" |> ]} |>.
Definition policy_svc : Svc := new_svc (clean policy_db 0) None.

Lemma certificates_for_configured_names_witness :
  (HostPolicy (H := provider (fun _ _ _ => None)) "App.Example.net." policy_svc).1 = Ok tt /\
  ~ (live_name policy_db "example.com" \/ open_host policy_db "example.com") /\
  (* the catch-all of an inactive domain goes on *)
  (HostPolicy (H := provider (fun _ _ _ => None)) "any.example.com" policy_svc).1 = Ok tt.
Proof.
  split; [|split].
  - apply certificates_for_configured_names; [done|]. left. split; [done|]. right. eexists. split; [by left|].
    by split; [apply (bool_decide_unpack _); vm_compute|].
  - assert (Hn : (HostPolicy (H := provider (fun _ _ _ => None)) "example.com" policy_svc).1 <> Ok tt) by (vm_compute; discriminate).
    intros Hc. apply Hn. apply certificates_for_configured_names; [done|]. left. split; [done|]. exact Hc.
  - apply certificates_for_configured_names; [done|]. right. eexists _, "any". split; [by left|].
    split; [done|]. split; [apply (bool_decide_unpack _); by vm_compute|]. done.
Defined.
