(* ===== verification/ApiCore.v ===== *)
(** [internal/api/server.go]: what every handler of the administration API uses —
    the server and its answers, the reading of a request, the guards before a
    handler and the checks inside it.

    A handler is a computation of [W]: it may stop with an answer, as a Go handler
    does with [writeErr(...); return], or go on with a value.  Routing, JSON, the
    multipart reader, OpenID Connect and the other libraries are the fields of
    [Outside]. *)

From S2P Require Import Prelude GoString GoMonad GoTime GoNet GoCrypto Crypto NetUtil Model LogServers StoreDB Traffic StoreThreat StoreUsers.
From S2P Require Import Auth Service Retention StoreBackup Hosts LiveChecks Settings Accounts Backup Setup BackupSchedule Feeds TrafficReports StoreViews ThreatViews BastionKeys.
From Stdlib Require Import Ascii.
Open Scope Z_scope.

(* ------------------------------------------------------------------ *)
(** ** The server *)

Record loginFlow := mkloginFlow {
  lf_Username : string; lf_Password : string; lf_SourceIP : string; lf_Stage : string; lf_Expires : time
}.
#[export] Instance eta_loginFlow : Eta loginFlow := fun r =>
  mkloginFlow (lf_Username r) (lf_Password r) (lf_SourceIP r) (lf_Stage r) (lf_Expires r).
Record oidcFlow := mkoidcFlow { of_SourceIP : string; of_Nonce : string; of_Expires : time }.

(** [sv_exit]: the process has been told to stop. *)
Record Server := mkServer {
  sv_app : Svc; sv_login : gmap string loginFlow; sv_oidc : gmap string oidcFlow; sv_live : option LiveHub; sv_exit : bool
}.
#[export] Instance eta_Server : Eta Server := fun r =>
  mkServer (sv_app r) (sv_login r) (sv_oidc r) (sv_live r) (sv_exit r).

(** The part of [http.Cookie] that varies; all are [SameSite=Strict] for the path [/]. *)
Record Cookie := mkCookie { ck_Name : string; ck_Value : string; ck_HttpOnly : bool; ck_Secure : bool; ck_MaxAge : Z }.

(** The bodies the handlers answer with. *)
Inductive Reply : Type :=
| RNone | RFile (contentType : string) (b : bytes) | ROk | RError (msg : string) | RSetupRequired | RHealthy
| RCsrf (token : string) | RStyle (profile custom : string) | ROIDCEnabled (on : bool) | RAuthURL (url : string)
| RNext (stage : string) | RUser (u : User) | RIdentity (id : Identity) | RProfile (email : string) (layout : option string)
| RSetupStatus (s : SetupStatus) | RSetupMeta (m : SetupBackupMeta) | RInitialized
| RBackupSettings (s : BackupScheduleSettings) | RArchives (l : list BackupArchive) (s : BackupGeneralStats)
| RPackage (name : string) (b : bytes) (m : BackupMeta) | RBackupMeta (m : BackupMeta)
| RRestored (m : BackupMeta) (post : result PostRestoreCheckResult) | RPostCheck (p : PostRestoreCheckResult)
| RDomains (l : list Domain) | RDomain (d : Domain) | RDomainPreflight (p : DomainPreflight) | RDomainLive (c : DomainLiveCheck)
| RHosts (l : list Host) | RHost (h : Host) | RHostPreflight (p : HostPreflight) | RDiagnostics (l : list HostDiagnostic)
| ROverview (o : TrafficOverview) | RHostTraffic (d : HostTrafficDetails) | RCountries (o : TrafficCountryOverview)
| RStream (allowed : gset Z)
| RToken (raw : string) (t : APIToken) | RTokens (l : list APIToken) | RReset (token : string) (ttl : duration)
| RAudit (l : list AuditEvent) | RBlockedIPs (l : list BlockedIP) | RSettings (s : RuntimeSettings)
| RThreatConfig (c : ThreatIntelConfig) | RSignatureConfig (c : ThreatSignatureConfig)
| RMatches (p : ThreatIntelMatchesPage) | ROffenders (p : ThreatIntelOffendersPage) | RBlockedPage (p : ThreatIntelBlockedPage)
| RGeo (generatedAt : string) (l : list ThreatIntelGeoPoint) | RTargets (l : list ThreatIntelTarget) | RTimeline (t : ThreatTraceTimeline)
| RFeeds (l : list ThreatIntelFeed) | RFeed (f : ThreatIntelFeed) | RSync (s : SyncSummary)
| RUsers (l : list ManagedUser) | RManagedUser (u : ManagedUser) | RMFAStatus (m : MFAStatus)
| REnrollStart (m : MFAEnrollStart) | REnrollConfirm (m : MFAEnrollConfirm)
| RPermissions (l : list PermissionCatalogItem) | RGroups (l : list PermissionGroupView) | RGroup (g : PermissionGroupView)
| RMatrix (l : list PermissionMatrixRow)
| RRoutes (l : list SSHBastionRoute) | RRoute (r : SSHBastionRoute) | RKeys (l : list SSHBastionKey) | RKey (k : SSHBastionKey)
| RKeyCreated (k : SSHBastionKeyCreateResult).

Record Response := mkResponse { an_Code : Z; an_Reply : Reply; an_Cookies : list Cookie; an_Location : string }.
#[export] Instance eta_Response : Eta Response := fun r =>
  mkResponse (an_Code r) (an_Reply r) (an_Cookies r) (an_Location r).

Definition StatusOK : Z := 200.
Definition StatusCreated : Z := 201.
Definition StatusFound : Z := 302.
Definition StatusBadRequest : Z := 400.
Definition StatusUnauthorized : Z := 401.
Definition StatusForbidden : Z := 403.
Definition StatusNotFound : Z := 404.
Definition StatusMethodNotAllowed : Z := 405.
Definition StatusInternalServerError : Z := 500.
Definition StatusServiceUnavailable : Z := 503.

Definition writeJSON (code : Z) (v : Reply) : Response := mkResponse code v [] "".
Definition writeErr (code : Z) (msg : string) : Response := writeJSON code (RError msg).
Definition Redirect (to : string) : Response := mkResponse StatusFound RNone [] to.

(* ------------------------------------------------------------------ *)
(** ** Handlers *)

Definition W (A : Type) : Type := Server -> (Response + A) * Server.
#[export] Instance W_ret : MRet W := fun _ a s => (inr a, s).
#[export] Instance W_bind : MBind W := fun A B (k : A -> W B) m s =>
  match m s with (inr a, s') => k a s' | (inl r, s') => (inl r, s') end.

(** Stop with an answer. *)
Definition answer {A} (r : Response) : W A := fun s => (inl r, s).
Definition refuse_if (c : bool) (code : Z) (msg : string) : W unit := if c then answer (writeErr code msg) else mret tt.
(** The answer of a finished handler. *)
Definition serve (m : W Response) (s : Server) : Response * Server :=
  match m s with (inl r, s') => (r, s') | (inr r, s') => (r, s') end.

Definition reads {A} (f : Server -> A) : W A := fun s => (inr (f s), s).
Definition changes (f : Server -> Server) : W unit := fun s => (inr tt, f s).

(** [s.app.f(...)], [s.app.Store().f(...)] and [s.auth.f(...)], with their error. *)
Definition app {A} (m : AM A) : W (result A) := fun s =>
  let '(r, a) := m (sv_app s) in (inr r, s <| sv_app := a |>).
Definition store {A} (m : SM A) : W (result A) := app (db m).
(** [if err != nil { writeErr(w, code, err.Error()); return }] *)
Definition or_err {A} (code : Z) (m : W (result A)) : W A :=
  r ← m; match r with Ok a => mret a | Err e => answer (writeErr code (error_text e)) end.
Definition or_answer {A} (r : Response) (m : W (result A)) : W A :=
  x ← m; match x with Ok a => mret a | Err _ => answer r end.

Definition clock : W time := reads (fun s => e_now (s_env (sv_app s))).

(* ------------------------------------------------------------------ *)
(** ** Requests *)

(** [ar_Multipart]: whether the body is a multipart form; [ar_Form] the values of
    [FormValue], [ar_Files] the files by their field; [ar_Flusher]: the connection can
    be flushed. *)
Record ApiRequest := mkApiRequest {
  ar_http : Request; ar_Query : gmap string string; ar_Body : string; ar_Multipart : bool;
  ar_Form : gmap string string; ar_Files : gmap string (string * bytes); ar_Flusher : bool
}.
#[export] Instance eta_ApiRequest : Eta ApiRequest := fun r =>
  mkApiRequest (ar_http r) (ar_Query r) (ar_Body r) (ar_Multipart r) (ar_Form r) (ar_Files r) (ar_Flusher r).

Definition query_of (r : ApiRequest) (name : string) : string := default "" (ar_Query r !! name).
Definition cookie_of (r : ApiRequest) (name : string) : option string := rq_Cookies (ar_http r) !! name.

(** The routing of a host. *)
Record RoutingIn := mkRoutingIn {
  ri_ConnectionProfile : string; ri_Upstream : string; ri_InsecureTLS : bool; ri_HAEnabled : bool; ri_HAMode : string;
  ri_HABackends : list HABackend
}.
Record BackupIn := mkBackupIn {
  bi_Enabled : bool; bi_IntervalHours : Z; bi_RetentionCount : Z; bi_Passphrase : string; bi_Local : BackupLocalSettings;
  bi_FTP : BackupFTPSettings; bi_FTPPassword : string
}.
Record PermissionsIn := mkPermissionsIn {
  pi_GlobalRead : bool; pi_GlobalWrite : bool; pi_DomainRead : bool; pi_DomainWrite : bool; pi_SystemRead : bool;
  pi_SystemWrite : bool
}.
Record TokenIn := mkTokenIn {
  ti_Name : string; ti_Role : string; ti_Scopes : list string; ti_DomainIDs : list Z; ti_ConfirmUnlimited : bool;
  ti_ConfirmPassword : string; ti_Permissions : PermissionsIn; ti_ExpiresIn : string
}.
Record SettingsIn := mkSettingsIn {
  xi_ACMEEmail : string; xi_ACMEStaging : bool; xi_CFToken : string; xi_PublicIPv4 : string; xi_BaseDomain : string;
  xi_StyleProfile : string; xi_StyleCustom : string; xi_TimeSyncMode : string; xi_TimeSyncLANServers : string;
  xi_LogServers : LogServerSettings; xi_LogHTTPBearer : string; xi_Retention : RetentionPolicy; xi_MFAPolicy : MFAPolicy;
  xi_LDAP : LDAPSettings; xi_LDAPBindPassword : string; xi_OIDC : OIDCSettings; xi_OIDCClientSecret : string
}.
Record GroupIn := mkGroupIn { gi_Name : string; gi_Description : string; gi_Template : string; gi_Permissions : list string }.
Record AccessIn := mkAccessIn {
  ai_Role : Role; ai_DomainIDs : list Z; ai_GroupIDs : list Z; ai_AllowedCIDRs : string; ai_IPCheckDisabled : bool
}.

(** The structs the handlers decode. *)
Inductive InputKind : Type :=
| KText (field : string) | KPair (f g : string) | KFlag (field : string) | KIDs (field : string)
| KBackup | KSetup | KDomainPreflight | KDomain | KProfile | KHost | KHostPreflight | KRouting | KHostAuth | KGeo | KToken | KSettings
| KThreatConfig | KSignatureConfig | KFeed | KGroup | KUser | KAccess | KSSHRoute | KKeyImport | KKeyGenerate.
Definition input (k : InputKind) : Type :=
  match k with
  | KText _ => string | KPair _ _ => string * string | KFlag _ => bool | KIDs _ => list Z
  | KBackup => BackupIn | KSetup => SetupApplyInput | KDomainPreflight => string * string * string * string
  | KDomain => string * string * string * string * string | KProfile => option string * string
  | KHost => string * string * RoutingIn | KHostPreflight => string * string * RoutingIn | KRouting => RoutingIn
  | KHostAuth => bool * string * string | KGeo => string * list string | KToken => TokenIn | KSettings => SettingsIn
  | KThreatConfig => ThreatIntelConfig | KSignatureConfig => ThreatSignatureConfig | KFeed => ThreatIntelFeed
  | KGroup => GroupIn | KUser => string * string * AccessIn | KAccess => AccessIn
  | KSSHRoute => Z * string * string * Z * bool | KKeyImport => string * string * list Z | KKeyGenerate => string * list Z
  end.

(** The claims of an OpenID token. *)
Inductive Claim : Type := CText (s : string) | CList (l : list (option string)) | COther.

(** What the handlers call outside of the repository. *)
Record Outside := mkOutside {
  o_auth : AuthService;
  (* the route chi finds for a method and a path in a table of methods and patterns,
     with its parameters; the files of the embedded directory *)
  o_match : string -> string -> list (string * string) -> option (nat * gmap string string);
  o_assets : string -> option bytes;
  o_decode : forall k, string -> result (input k * bool);
  o_json_valid : string -> bool;
  o_ParseDuration : string -> result duration; o_DurationString : duration -> string;
  o_decode_ldap : string -> option ldapRuntimeConfig; o_ldap : ldapRuntimeConfig -> string -> string -> string -> ldap_answer;
  o_IDKey : bytes -> bytes -> Z -> Z -> Z -> Z -> bytes;
  o_Seal : bytes -> bytes -> bytes -> bytes; o_Open : bytes -> bytes -> bytes -> option bytes;
  o_dns : option Provider; o_detectPublicIPv4 : result string; o_nw : Network; o_own : Cloudflare; o_NewCloudflare : string -> Cloudflare;
  o_route_output : result string; o_timedatectl : list string -> option string;
  o_encode_logs : LogServerSettings -> string; o_decode_logs : string -> option LogServerSettings;
  o_encode_ldapset : LDAPSettings -> string; o_decode_ldapset : string -> option LDAPSettings;
  o_encode_oidc : OIDCSettings -> string; o_decode_oidc : string -> option OIDCSettings;
  o_decode_style : string -> option (gmap string string);
  o_scrypt : bytes -> bytes -> Z -> Z -> Z -> Z -> result bytes;
  o_SealWith : bytes -> bytes -> bytes -> bytes -> bytes; o_OpenWith : bytes -> bytes -> bytes -> bytes -> option bytes;
  o_pack : list (string * bytes) -> bytes; o_unpack : bytes -> option (list (option TarEntry));
  o_encode_manifest : backupManifest -> bytes; o_decode_manifest : bytes -> option backupManifest;
  o_write_sqlite : Snapshot -> bytes; o_read_sqlite : bytes -> option Snapshot; o_io : string -> result unit; o_detachable : bool;
  o_disk : string -> string -> result unit; o_ftp_dial : string -> string -> string -> string -> result unit;
  o_ftp_command : string -> string -> string -> result unit;
  o_fetch : string -> result (Z * string); o_decode_bundle : string -> option (list threatSignatureRule);
  (* OpenID Connect: discovery of an issuer; the URL of the login page; the exchange of
     a code for the text of the ID token; its verification and its claims *)
  o_discover : string -> bool;
  o_auth_url : string -> string -> string -> string -> list string -> string -> string -> string;
  o_exchange : string -> string -> string -> string -> list string -> string -> result string;
  o_verify : string -> string -> string -> result (gmap string Claim);
  (* SSH keys *)
  o_parse_authorized : string -> result bytes; o_fingerprint : bytes -> string; o_marshal_authorized : bytes -> string;
  o_keygen : string -> bytes * bytes; o_new_public : bytes -> result bytes; o_marshal_private : bytes -> string -> result string;
  o_has_puttygen : bool; o_temp_io : string -> result unit; o_puttygen : string -> result string
}.

(** [strconv.ParseInt] and [strconv.Atoi] with their error dropped: a number out of
    range gives the bound, anything else that is no number gives 0. *)
Definition parse_or_zero (s : string) : Z :=
  let clamp n := Z.max min_int64 (Z.min max_int64 n) in
  let run (f : Z -> Z) t := match t with "" => 0 | _ => match decimal 0 t with Some n => clamp (f n) | None => 0 end end in
  match s with
  | String c s' => if Ascii.eqb c "-"%char then run Z.opp s' else if Ascii.eqb c "+"%char then run (fun n => n) s' else run (fun n => n) s
  | "" => 0
  end.
Definition param_id (p : gmap string string) (name : string) : Z := parse_or_zero (default "" (p !! name)).
Definition query_int (r : ApiRequest) (name : string) : Z := parse_or_zero (TrimSpace (query_of r name)).
(** A positive number given in the query, or the default. *)
Definition query_limit (r : ApiRequest) (dflt : Z) : Z :=
  let raw := TrimSpace (query_of r "limit") in
  match (if String.eqb raw "" then None else Atoi raw) with Some n => if 0 <? n then n else dflt | None => dflt end.

Definition isSecureRequest (r : ApiRequest) : bool :=
  rq_TLS (ar_http r) || EqualFold (header (ar_http r) "X-Forwarded-Proto") "https".

Definition maxBody : Z := 2 ^ 20.
Definition limited (body : string) : string := if len body <=? maxBody then body else take_bytes (Z.to_nat maxBody) body.

(* ------------------------------------------------------------------ *)
(** ** Who may do what *)

Definition isGlobalAdmin (id : Identity) : bool := String.eqb (id_IRole id) RoleAdmin.
Definition is_token (id : Identity) : bool := String.eqb (id_Type id) "token".

Definition requireTokenScope (id : Identity) (scope : string) : W unit :=
  refuse_if (is_token id && negb (ScopeAllows (id_Scopes id) "global:write") &&
             negb (String.eqb scope "" || ScopeAllows (id_Scopes id) scope)) StatusForbidden ("missing token scope: " +:+ scope).

Definition tokenHasDomainRestriction (id : Identity) : bool :=
  is_token id && negb (Z.of_nat (length (id_DomainIDs id)) =? 0) &&
  negb (ScopeAllows (id_Scopes id) "global:read" || ScopeAllows (id_Scopes id) "global:write").

Definition containsInt64 (items : list Z) (v : Z) : bool := existsb (fun i => i =? v) items.
Definition filterDomainsByIDs (items : list Domain) (allowed : list Z) : list Domain :=
  List.filter (fun d => containsInt64 allowed (d_ID d)) items.
Definition filterHostsByDomainIDs (items : list Host) (allowed : list Z) : list Host :=
  List.filter (fun h => containsInt64 allowed (h_DomainID h)) items.

(** Whether an identity sees only the domains it is given. *)
Definition restricted (id : Identity) : bool := String.eqb (id_IRole id) RoleDomainAdmin || tokenHasDomainRestriction id.

Definition globalAdmin (id : Identity) : W unit := refuse_if (negb (isGlobalAdmin id)) StatusForbidden "global admin required".
Definition adminOrReadOnly (id : Identity) (msg : string) : W unit :=
  refuse_if (negb (isGlobalAdmin id) && negb (String.eqb (id_IRole id) RoleReadOnly)) StatusForbidden msg.
Definition sessionOnly (id : Identity) : W unit :=
  refuse_if (negb (String.eqb (id_Type id) "session") || (id_UserID id <=? 0)) StatusForbidden "session auth required".

(** [_ = s.app.Store().AddAuditEvent(...)] *)
Definition log_action (actor action target meta : string) : W unit := store (audit actor action target meta) ≫= fun _ => mret tt.

Definition answer_ok : W Response := mret (writeJSON StatusOK ROk).

(** A cookie, and no cookie. *)
Definition set_cookie (r : ApiRequest) (name value : string) (httpOnly : bool) (maxAge : Z) : Cookie :=
  mkCookie name value httpOnly (isSecureRequest r) maxAge.

Section guards.
Context (o : Outside).

(** [randomHex(n)]: the bytes of the random source. *)
Definition randomHex : W (result string) := store (blob ← random; mret (hex_encode (bytes_of blob))).

Definition decodeJSON (k : InputKind) (r : ApiRequest) : W (input k) :=
  match o_decode o k (limited (ar_Body r)) with
  | Err e => answer (writeErr StatusBadRequest (error_text e))
  | Ok (v, more) => if more then answer (writeErr StatusBadRequest "unexpected trailing data") else mret v
  end.

(** The middlewares. *)
Definition setup_paths : list string :=
  ["/api/v1/style"; "/api/v1/csrf"; "/api/v1/login/options"; "/api/v1/login/oidc/start"; "/api/v1/login/oidc/callback";
   "/api/v1/setup/status"; "/api/v1/setup/unlock"; "/api/v1/setup/restore/upload"; "/api/v1/setup/restore/analyze";
   "/api/v1/setup/apply"].

Definition setupGateMiddleware (r : ApiRequest) : W unit :=
  let path := rq_Path (ar_http r) in
  if negb (HasPrefix path "/api/") then mret tt
  else
    st ← or_err StatusInternalServerError (app GetSetupStatus);
    if ss_Initialized st then mret tt
    else if bool_decide (path ∈ setup_paths) then mret tt
    else answer (writeJSON StatusServiceUnavailable RSetupRequired).

Definition requireAuth (role : Role) (scope : string) (r : ApiRequest) : W Identity :=
  id ← or_answer (writeErr StatusUnauthorized "unauthorized") (store (ResolveIdentity (o_auth o) (ar_http r)));
  refuse_if (negb (RoleAllows (id_IRole id) role)) StatusForbidden "insufficient role" ≫= fun _ =>
  refuse_if (negb (String.eqb scope "") && negb (ScopeAllows (id_Scopes id) scope)) StatusForbidden "missing token scope" ≫= fun _ =>
  mret id.

Definition requireCSRF (id : Identity) (r : ApiRequest) : W unit :=
  if is_token id then mret tt
  else match cookie_of r "domnex_csrf" with
  | None => answer (writeErr StatusForbidden "missing csrf cookie")
  | Some v =>
      let h := header (ar_http r) "X-Csrf-Token" in
      refuse_if (String.eqb v "" || String.eqb h "" || negb (String.eqb v h)) StatusForbidden "invalid csrf token"
  end.
End guards.

(* ------------------------------------------------------------------ *)
(** ** What handlers leave alone *)

Definition w_keeps {A} (R : Server -> Server -> Prop) (m : W A) : Prop := forall s, R s (m s).2.

(** A relation between services, for servers. *)
Definition on_app (R : Svc -> Svc -> Prop) (s s' : Server) : Prop := R (sv_app s) (sv_app s').
#[export] Instance on_app_preorder R `{!PreOrder R} : PreOrder (on_app R).
Proof. split; unfold on_app; [intros s; reflexivity|intros a b c ? ?; by etransitivity]. Qed.

Section w_keeps.
Context (R : Server -> Server -> Prop) `{!PreOrder R}.

Lemma w_keeps_ret {A} (a : A) : w_keeps R (mret a : W A).
Proof. intros s. simpl. reflexivity. Qed.
Lemma w_keeps_answer {A} r : w_keeps R (answer r : W A).
Proof. intros s. simpl. reflexivity. Qed.
Lemma w_keeps_refuse_if c code msg : w_keeps R (refuse_if c code msg).
Proof. destruct c; intros s; simpl; reflexivity. Qed.
Lemma w_keeps_reads {A} (f : Server -> A) : w_keeps R (reads f).
Proof. intros s. simpl. reflexivity. Qed.
Lemma w_keeps_bind {A B} (m : W A) (k : A -> W B) : w_keeps R m -> (forall a, w_keeps R (k a)) -> w_keeps R (m ≫= k).
Proof.
  intros Hm Hk s. specialize (Hm s). unfold mbind, W_bind. destruct (m s) as [[r|a] s']; simpl in *; [done|].
  etransitivity; [exact Hm|apply Hk].
Qed.
Lemma w_keeps_or_err {A} code (m : W (result A)) : w_keeps R m -> w_keeps R (or_err code m).
Proof. intros H. apply w_keeps_bind; [done|]. intros []; [apply w_keeps_ret|apply w_keeps_answer]. Qed.
Lemma w_keeps_or_answer {A} r (m : W (result A)) : w_keeps R m -> w_keeps R (or_answer r m).
Proof. intros H. apply w_keeps_bind; [done|]. intros []; [apply w_keeps_ret|apply w_keeps_answer]. Qed.
Lemma w_keeps_changes f : (forall s, R s (f s)) -> w_keeps R (changes f).
Proof. intros H s. apply H. Qed.
Lemma w_keeps_serve (m : W Response) s : w_keeps R m -> R s (serve m s).2.
Proof. intros H. specialize (H s). unfold serve. by destruct (m s) as [[?|?] ?]. Qed.
Lemma w_keeps_decode o k r : w_keeps R (decodeJSON o k r).
Proof. intros s. unfold decodeJSON. destruct (o_decode o k _) as [[v []]|]; simpl; reflexivity. Qed.
End w_keeps.

Lemma w_keeps_app R {A} (m : AM A) : keeps R m -> w_keeps (on_app R) (app m).
Proof. intros H s. specialize (H (sv_app s)). unfold app, on_app. by destruct (m (sv_app s)). Qed.
Lemma w_keeps_store R {A} (m : SM A) : keeps R m -> w_keeps (on_app (on_env R)) (store m).
Proof. intros H. by apply w_keeps_app, keeps_db. Qed.

(** [w_tac] walks a handler down to the operations it calls. *)
Ltac w_step :=
  match goal with
  | |- forall _, w_keeps _ _ => intros ?
  | |- w_keeps _ (mret _) => apply w_keeps_ret
  | |- w_keeps _ (answer _) => apply w_keeps_answer
  | |- w_keeps _ (refuse_if _ _ _) => apply w_keeps_refuse_if
  | |- w_keeps _ (reads _) => apply w_keeps_reads
  | |- w_keeps _ clock => apply w_keeps_reads
  | |- w_keeps _ (decodeJSON ?o ?k ?r) => refine (w_keeps_decode _ o k r)
  | |- w_keeps _ (or_err _ _) => apply w_keeps_or_err
  | |- w_keeps _ (or_answer _ _) => apply w_keeps_or_answer
  | |- w_keeps _ (mbind _ _) => apply w_keeps_bind
  | |- w_keeps _ (let _ := _ in _) => intros ?
  | |- w_keeps _ (match ?x with _ => _ end) => destruct x
  | |- w_keeps _ (store _) => apply w_keeps_store
  | |- w_keeps _ (app _) => apply w_keeps_app
  | |- PreOrder _ => solve [typeclasses eauto]
  end.
Ltac w_tac := cbv beta; repeat (w_step; cbv beta zeta).

(** Runs of a bind. *)
Lemma w_bind_ok {A B} (m : W A) (k : A -> W B) s a s' : m s = (inr a, s') -> (m ≫= k) s = k a s'.
Proof. intros E. unfold mbind, W_bind. by rewrite E. Qed.
Lemma w_bind_stop {A B} (m : W A) (k : A -> W B) s r s' : m s = (inl r, s') -> (m ≫= k) s = (inl r, s').
Proof. intros E. unfold mbind, W_bind. by rewrite E. Qed.
Lemma refuse_no code msg {B} (k : unit -> W B) s : (refuse_if false code msg ≫= k) s = k tt s.
Proof. done. Qed.
Lemma refuse_yes code msg {B} (k : unit -> W B) s : (refuse_if true code msg ≫= k) s = (inl (writeErr code msg), s).
Proof. done. Qed.

(** Postconditions of handlers. *)
Definition w_wp {A} (m : W A) (Q : Response + A -> Server -> Prop) (s : Server) : Prop := let '(r, s') := m s in Q r s'.

Lemma w_wp_bind {A B} (m : W A) (k : A -> W B) Q s :
  w_wp m (fun r s' => match r with inr a => w_wp (k a) Q s' | inl x => Q (inl x) s' end) s -> w_wp (m ≫= k) Q s.
Proof. unfold w_wp, mbind, W_bind. by destruct (m s) as [[x|a] s']. Qed.
Lemma w_wp_mono {A} (m : W A) (Q Q' : Response + A -> Server -> Prop) s : w_wp m Q s -> (forall r s', Q r s' -> Q' r s') -> w_wp m Q' s.
Proof. unfold w_wp. destruct (m s). eauto. Qed.
Lemma w_wp_keeps {A} R (m : W A) (Q : Response + A -> Server -> Prop) s : w_keeps R m -> (forall r s', R s s' -> Q r s') -> w_wp m Q s.
Proof. intros H HQ. specialize (H s). unfold w_wp. destruct (m s). auto. Qed.
Lemma w_wp_refuse c code msg Q s :
  (c = true -> Q (inl (writeErr code msg)) s) -> (c = false -> Q (inr tt) s) -> w_wp (refuse_if c code msg) Q s.
Proof. intros H1 H2. destruct c; [exact (H1 eq_refl)|exact (H2 eq_refl)]. Qed.
Lemma w_wp_app {A} (m : AM A) Q s : wp m (fun r a => Q (inr r) (s <| sv_app := a |>)) (sv_app s) -> w_wp (app m) Q s.
Proof. unfold wp, w_wp, app. by destruct (m (sv_app s)). Qed.
Lemma w_wp_store {A} (m : SM A) Q s :
  wp m (fun r e => Q (inr r) (s <| sv_app := (sv_app s) <| s_env := e |> |>)) (s_env (sv_app s)) -> w_wp (store m) Q s.
Proof. intros H. by apply w_wp_app, wp_db. Qed.
Lemma w_wp_or_err {A} code (m : W (result A)) Q s :
  w_wp m (fun r s' => match r with
                      | inr (Ok a) => Q (inr a) s' | inr (Err e) => Q (inl (writeErr code (error_text e))) s' | inl x => Q (inl x) s' end) s ->
  w_wp (or_err code m) Q s.
Proof. intros H. unfold or_err. apply w_wp_bind. eapply w_wp_mono; [exact H|]. by intros [x|[a|e]] s'. Qed.
Lemma w_wp_or_answer {A} x (m : W (result A)) Q s :
  w_wp m (fun r s' => match r with inr (Ok a) => Q (inr a) s' | inr (Err _) => Q (inl x) s' | inl y => Q (inl y) s' end) s ->
  w_wp (or_answer x m) Q s.
Proof. intros H. unfold or_answer. apply w_wp_bind. eapply w_wp_mono; [exact H|]. by intros [y|[a|e]] s'. Qed.
Lemma w_wp_serve (m : W Response) (Q : Response -> Server -> Prop) s :
  w_wp m (fun r s' => match r with inl a | inr a => Q a s' end) s -> Q (serve m s).1 (serve m s).2.
Proof. unfold w_wp, serve. by destruct (m s) as [[a|a] s']. Qed.
Lemma w_wp_decode o k r Q s : (forall x, Q (inl x) s) -> (forall v, Q (inr v) s) -> w_wp (decodeJSON o k r) Q s.
Proof. intros H1 H2. unfold w_wp, decodeJSON. destruct (o_decode o k _) as [[v []]|]; simpl; auto. Qed.
