(* ===== verification/ApiLogin.v ===== *)
(** [internal/api/server.go]: the pages anyone may ask for, the login in three
    steps, the login through OpenID Connect, and the end of a session.

    A login flow is found by a cookie, belongs to one source and one stage and
    lives for three minutes; it ends when the session is opened or refused. *)

From S2P Require Import Prelude GoString GoMonad GoTime GoNet GoCrypto Crypto NetUtil Model StoreDB StoreThreat StoreUsers Auth Service Vault Settings Accounts ApiCore.
From Stdlib Require Import Ascii.
Open Scope Z_scope.

Definition loginFlowCookie : string := "domnex_login_flow".
Definition loginStagePassword : string := "password".
Definition loginStageOTP : string := "otp".
Definition loginFlowTTL : duration := 3 * Minute.
Definition session_age : Z := 12 * 3600.
Definition flow_age : Z := 180.

Definition pruneLoginFlowsLocked (t : time) (s : Server) : Server :=
  s <| sv_login ::= filter (fun p => After (lf_Expires p.2) t = true) |>.
Definition pruneOIDCFlowsLocked (t : time) (s : Server) : Server :=
  s <| sv_oidc ::= filter (fun p => After (of_Expires p.2) t = true) |>.

(** The claims of an OpenID token. *)
Definition oidcNonceMatch (claims : gmap string Claim) (expected : string) : bool :=
  match claims !! "nonce" with Some (CText raw) => String.eqb (TrimSpace raw) (TrimSpace expected) | _ => false end.

Fixpoint first_claim (claims : gmap string Claim) (keys : list string) : string :=
  match keys with
  | [] => ""
  | k :: l =>
      if String.eqb k "" then first_claim claims l
      else match claims !! k with
      | Some (CText s) => if String.eqb (norm s) "" then first_claim claims l else norm s
      | _ => first_claim claims l
      end
  end.
Definition oidcUsernameFromClaims (claims : gmap string Claim) (preferredClaim : string) : string :=
  first_claim claims [TrimSpace preferredClaim; "preferred_username"; "email"; "sub"].

(** Each group once, in lower case. *)
Fixpoint add_groups (seen : gset string) (l : list string) : list string :=
  match l with
  | [] => []
  | s :: l =>
      let s := norm s in
      if String.eqb s "" || bool_decide (s ∈ seen) then add_groups seen l else s :: add_groups ({[s]} ∪ seen) l
  end.
Definition oidcGroupsFromClaims (claims : gmap string Claim) (claim : string) : list string :=
  let claim := TrimSpace claim in
  match claims !! (if String.eqb claim "" then "groups" else claim) with
  | Some (CText g) => add_groups ∅ (Fields (ReplaceAll g ","%char " "))
  | Some (CList l) => add_groups ∅ (omap (fun s => s) l)
  | _ => []
  end.

Definition oidc_base_scopes : list string := ["openid"; "profile"; "email"].
Definition extra_scopes (s : string) : list string :=
  List.filter nonempty (map TrimSpace (Fields (ReplaceAll (TrimSpace s) ","%char " "))).
(** The start asks for each scope once. *)
Definition start_scopes (s : string) : list string :=
  fold_left (fun scopes sc => if existsb (fun ex => String.eqb ex sc) scopes then scopes else scopes ++ [sc])
    (extra_scopes s) oidc_base_scopes.

Section login.
Context (o : Outside).

Definition SourceIP (r : ApiRequest) : string := requestIP (o_auth o) (ar_http r).

Definition handleCSRF (r : ApiRequest) : W Response :=
  t ← randomHex;
  let token := match t with Ok t => t | Err _ => "" end in
  mret (mkResponse StatusOK (RCsrf token) [set_cookie r "domnex_csrf" token false 0] "").

Definition handlePublicStyle : W Response :=
  '(profile, custom) ← or_err StatusInternalServerError (app GetStyleSettings);
  mret (writeJSON StatusOK (RStyle profile custom)).

Definition oidc_settings : W OIDCSettings :=
  c ← app (GetOIDCSettings (o_decode_oidc o)); mret (match c with Ok c => c | Err _ => zero_OIDCSettings end).

Definition handleLoginOptions : W Response :=
  cfg ← oidc_settings; mret (writeJSON StatusOK (ROIDCEnabled (oi_Enabled cfg))).

Definition handleLoginOIDCStart (r : ApiRequest) : W Response :=
  let denied := writeErr StatusUnauthorized "login failed" in
  let broken := writeErr StatusInternalServerError "login failed" in
  cfg ← oidc_settings;
  if negb (oi_Enabled cfg) then answer denied
  else
    clientSecret ← or_answer denied (app (GetOIDCClientSecret (o_Open o)));
    let issuer := TrimSpace (oi_IssuerURL cfg) in
    if negb (o_discover o issuer) then answer denied
    else
      state ← or_answer broken randomHex;
      nonce ← or_answer broken randomHex;
      t ← clock;
      changes (pruneOIDCFlowsLocked t) ≫= fun _ =>
      changes (fun s => s <| sv_oidc ::= <[state := mkoidcFlow (SourceIP r) nonce (Add t loginFlowTTL)]> |>) ≫= fun _ =>
      mret (writeJSON StatusOK (RAuthURL (o_auth_url o issuer (TrimSpace (oi_ClientID cfg)) clientSecret
        (TrimSpace (oi_RedirectURL cfg)) (start_scopes (oi_Scopes cfg)) state nonce))).

(** Take the flow of a state: a state is good for one callback. *)
Definition take_oidc_flow (state : string) : W (option oidcFlow) :=
  t ← clock;
  changes (pruneOIDCFlowsLocked t) ≫= fun _ =>
  flow ← reads (fun s => sv_oidc s !! state);
  changes (fun s => s <| sv_oidc ::= delete state |>) ≫= fun _ => mret flow.

(** The claims the issuer vouches for. *)
Definition oidc_claims (cfg : OIDCSettings) (clientSecret code : string) : result (gmap string Claim) :=
  let issuer := TrimSpace (oi_IssuerURL cfg) in
  let clientID := TrimSpace (oi_ClientID cfg) in
  if negb (o_discover o issuer) then Err (ErrText "issuer")
  else
    rawID ← o_exchange o issuer clientID clientSecret (TrimSpace (oi_RedirectURL cfg))
              (oidc_base_scopes ++ extra_scopes (oi_Scopes cfg)) code;
    if String.eqb (TrimSpace rawID) "" then Err (ErrText "no id token") else o_verify o issuer clientID rawID.

Definition handleLoginOIDCCallback (r : ApiRequest) : W Response :=
  let failed := Redirect "/?login=failed" in
  cfg ← oidc_settings;
  let state := TrimSpace (query_of r "state") in
  let code := TrimSpace (query_of r "code") in
  if negb (oi_Enabled cfg) || String.eqb state "" || String.eqb code "" then answer failed
  else
    flow ← take_oidc_flow state;
    match flow with
    | None => answer failed
    | Some flow =>
        if negb (String.eqb (of_SourceIP flow) (SourceIP r)) then answer failed
        else
          clientSecret ← or_answer failed (app (GetOIDCClientSecret (o_Open o)));
          match oidc_claims cfg clientSecret code with
          | Err _ => answer failed
          | Ok claims =>
              if negb (oidcNonceMatch claims (of_Nonce flow)) then answer failed
              else
                let username := oidcUsernameFromClaims claims (oi_UsernameClaim cfg) in
                if String.eqb username "" then answer failed
                else
                  '(role, domainIDs) ← or_answer failed (app (ResolveOIDCRole (oidcGroupsFromClaims claims (oi_GroupsClaim cfg)) cfg));
                  '(sid, _) ← or_answer failed (store (AuthenticateExternal (o_auth o) username role domainIDs "oidc" (SourceIP r)));
                  mret (mkResponse StatusFound RNone [set_cookie r "domnex_session" sid true session_age] "/")
          end
    end.

Definition flow_cookie (r : ApiRequest) (token : string) : Cookie := set_cookie r loginFlowCookie token true flow_age.
Definition save_flow (token : string) (f : loginFlow) : W unit := changes (fun s => s <| sv_login ::= <[token := f]> |>).

Definition handleLoginStart (r : ApiRequest) : W Response :=
  username ← decodeJSON o (KText "username") r;
  token ← or_answer (writeErr StatusInternalServerError "login failed") randomHex;
  t ← clock;
  changes (pruneLoginFlowsLocked t) ≫= fun _ =>
  save_flow token (mkloginFlow (TrimSpace username) "" (SourceIP r) loginStagePassword (Add t loginFlowTTL)) ≫= fun _ =>
  mret (mkResponse StatusOK (RNext "password") [flow_cookie r token] "").

(** The flow of the cookie; one of another stage or source is dropped. *)
Definition requireLoginFlow (r : ApiRequest) (stage : string) : W (option (string * loginFlow)) :=
  match cookie_of r loginFlowCookie with
  | None => mret None
  | Some c =>
      let token := TrimSpace c in
      if String.eqb token "" then mret None
      else
        t ← clock;
        changes (pruneLoginFlowsLocked t) ≫= fun _ =>
        f ← reads (fun s => sv_login s !! token);
        match f with
        | None => mret None
        | Some flow =>
            if negb (String.eqb (lf_Stage flow) stage) || negb (String.eqb (lf_SourceIP flow) (SourceIP r))
            then changes (fun s => s <| sv_login ::= delete token |>) ≫= fun _ => mret None
            else mret (Some (token, flow))
        end
  end.

Definition handleLoginPassword (r : ApiRequest) : W Response :=
  password ← decodeJSON o (KText "password") r;
  f ← requireLoginFlow r loginStagePassword;
  match f with
  | None => answer (writeErr StatusUnauthorized "login failed")
  | Some (token, flow) =>
      t ← clock;
      changes (pruneLoginFlowsLocked t) ≫= fun _ =>
      save_flow token (flow <| lf_Password := password |> <| lf_Stage := loginStageOTP |> <| lf_Expires := Add t loginFlowTTL |>) ≫= fun _ =>
      mret (mkResponse StatusOK (RNext "otp") [flow_cookie r token] "")
  end.

(** The cookie that ends the flow. *)
Definition clearLoginFlow (token : string) (r : ApiRequest) : W Cookie :=
  changes (fun s => s <| sv_login ::= delete token |>) ≫= fun _ => mret (set_cookie r loginFlowCookie "" true (-1)).

Definition handleLoginFinish (r : ApiRequest) : W Response :=
  otp ← decodeJSON o (KText "otp") r;
  f ← requireLoginFlow r loginStageOTP;
  match f with
  | None => answer (writeErr StatusUnauthorized "login failed")
  | Some (token, flow) =>
      cleared ← clearLoginFlow token r;
      a ← store (AuthenticatePassword (o_decode_ldap o) (o_Open o) (o_IDKey o) (o_ldap o) (o_auth o)
                   (lf_Username flow) (lf_Password flow) (TrimSpace otp) (lf_SourceIP flow));
      mret (match a with
            | Err _ => (writeErr StatusUnauthorized "login failed") <| an_Cookies := [cleared] |>
            | Ok (sid, user) => mkResponse StatusOK (RUser user) [cleared; set_cookie r "domnex_session" sid true session_age] ""
            end)
  end.

Definition handleLogout (id : Identity) (r : ApiRequest) : W Response :=
  (if is_token id then mret tt
   else match cookie_of r "domnex_csrf" with
        | None => answer (writeErr StatusForbidden "invalid csrf token")
        | Some v => refuse_if (String.eqb v "" || negb (String.eqb v (header (ar_http r) "X-Csrf-Token"))) StatusForbidden "invalid csrf token"
        end) ≫= fun _ =>
  (match cookie_of r "domnex_session" with
   | Some c => if String.eqb c "" then mret tt else store (Logout c (id_Username id)) ≫= fun _ => mret tt
   | None => mret tt
   end) ≫= fun _ =>
  mret (mkResponse StatusOK ROk [set_cookie r "domnex_session" "" true (-1)] "").

Definition handleLogoutAll (id : Identity) : W Response :=
  refuse_if (id_UserID id =? 0) StatusBadRequest "session identity required" ≫= fun _ =>
  or_err StatusInternalServerError (store (LogoutAll (id_UserID id) (id_Username id))) ≫= fun _ => answer_ok.

Definition handleMe (id : Identity) : W Response := mret (writeJSON StatusOK (RIdentity id)).
End login.
