(* ===== verification/ApiHosts.v ===== *)
(** [internal/api/server.go]: domains, hosts and their traffic.

    A domain admin, or a token limited to some domains, sees and changes the hosts
    of its domains only; the checks are in each handler. *)

From S2P Require Import Prelude GoString GoMonad GoTime GoNet NetUtil Model StoreDB Traffic StoreThreat StoreUsers StoreHosts Auth Service Hosts LiveChecks TrafficReports ApiCore.
Open Scope Z_scope.

Section hosts.
Context (o : Outside).

(** ** Domains *)

Definition handleListDomains (id : Identity) : W Response :=
  requireTokenScope id "domains:read" ≫= fun _ =>
  items ← or_err StatusInternalServerError (store ListDomains);
  mret (writeJSON StatusOK (RDomains (if restricted id then filterDomainsByIDs items (id_DomainIDs id) else items))).

(** Tokens need [global:write] to change a domain. *)
Definition token_global (id : Identity) (msg : string) : W unit :=
  refuse_if (is_token id && negb (ScopeAllows (id_Scopes id) "global:write")) StatusForbidden msg.

Definition handleUpsertDomain (id : Identity) (r : ApiRequest) : W Response :=
  requireTokenScope id "domains:write" ≫= fun _ =>
  token_global id "global:write required for domain upsert" ≫= fun _ =>
  '(name, dnsMode, certMode, provider, zoneID) ← decodeJSON o KDomain r;
  let dnsMode := if String.eqb dnsMode "" then "cloudflare" else dnsMode in
  let certMode := if String.eqb certMode "" then "letsencrypt" else certMode in
  let provider := if String.eqb provider "" then "cloudflare" else provider in
  globalAdmin id ≫= fun _ =>
  d ← or_err StatusBadRequest (app (UpsertDomain (o_dns o) (o_detectPublicIPv4 o) name dnsMode certMode provider zoneID));
  log_action (id_Username id) "domain.upsert" (d_Name d) (d_Provider d) ≫= fun _ =>
  mret (writeJSON StatusOK (RDomain d)).

Definition handleDeleteDomain (p : gmap string string) (id : Identity) : W Response :=
  requireTokenScope id "domains:write" ≫= fun _ =>
  token_global id "global:write required for domain delete" ≫= fun _ =>
  globalAdmin id ≫= fun _ =>
  let domainID := param_id p "id" in
  or_err StatusBadRequest (app (RemoveDomain domainID)) ≫= fun _ =>
  log_action (id_Username id) "domain.delete" (Itoa domainID) "" ≫= fun _ => answer_ok.

Definition handleDeactivateDomain (p : gmap string string) (id : Identity) : W Response :=
  requireTokenScope id "domains:write" ≫= fun _ =>
  token_global id "global:write required for domain deactivate" ≫= fun _ =>
  globalAdmin id ≫= fun _ =>
  let domainID := param_id p "id" in
  or_err StatusBadRequest (app (DeactivateDomain domainID)) ≫= fun _ =>
  log_action (id_Username id) "domain.deactivate" (Itoa domainID) "cascade_hosts=disabled" ≫= fun _ => answer_ok.

Definition handleDomainPreflight (id : Identity) (r : ApiRequest) : W Response :=
  globalAdmin id ≫= fun _ =>
  '(name, dnsMode, provider, zoneID) ← decodeJSON o KDomainPreflight r;
  out ← or_err StatusBadRequest (app (RunDomainPreflight (o_nw o) (o_dns o) (o_detectPublicIPv4 o) (o_own o) (o_Open o) name dnsMode provider zoneID));
  mret (writeJSON StatusOK (RDomainPreflight out)).

Definition handleDomainLiveCheck (p : gmap string string) (id : Identity) : W Response :=
  requireTokenScope id "domains:read" ≫= fun _ =>
  let domainID := param_id p "id" in
  refuse_if (restricted id && negb (containsInt64 (id_DomainIDs id) domainID)) StatusForbidden "domain not assigned to this admin" ≫= fun _ =>
  check ← or_err StatusBadRequest (app (RunDomainLiveCheck (o_nw o) (o_dns o) (o_detectPublicIPv4 o) (o_NewCloudflare o) (o_Open o) domainID));
  mret (writeJSON StatusOK (RDomainLive check)).

(** ** Hosts *)

Definition handleListHosts (id : Identity) : W Response :=
  requireTokenScope id "hosts:read" ≫= fun _ =>
  h ← or_err StatusInternalServerError (store ListHosts);
  mret (writeJSON StatusOK (RHosts (if restricted id then filterHostsByDomainIDs h (id_DomainIDs id) else h))).

(** When the hosts cannot be read the report is given as it is. *)
Definition handleHostsDiagnostics (id : Identity) : W Response :=
  requireTokenScope id "hosts:read" ≫= fun _ =>
  items ← or_err StatusInternalServerError (app (GetHostsDiagnostics (o_nw o)));
  items ← (if restricted id then
             hosts ← store ListHosts;
             mret (match hosts with
                   | Ok hosts =>
                       let set := map h_FQDN (filterHostsByDomainIDs hosts (id_DomainIDs id)) in
                       List.filter (fun it => existsb (String.eqb (LiveChecks.hd_FQDN it)) set) items
                   | Err _ => items
                   end)
           else mret items);
  mret (writeJSON StatusOK (RDiagnostics items)).

(** The domain a restricted identity names must be one of its own. *)
Definition own_domain (id : Identity) (domain : string) : W unit :=
  if restricted id then
    d ← or_answer (writeErr StatusBadRequest "unknown domain") (store (GetDomainByName (ToLower (TrimSpace domain))));
    refuse_if (negb (containsInt64 (id_DomainIDs id) (d_ID d))) StatusForbidden "domain not assigned to this admin"
  else mret tt.
(** So must the domain of a host. *)
Definition own_host (id : Identity) (h : Host) : W unit :=
  refuse_if (restricted id && negb (containsInt64 (id_DomainIDs id) (h_DomainID h))) StatusForbidden "host domain not assigned to this admin".
Definition host_or_refuse (id : Identity) (hostID : Z) : W unit :=
  h ← or_err StatusBadRequest (store (GetHostByID hostID)); own_host id h.

Definition handleCreateHost (id : Identity) (r : ApiRequest) : W Response :=
  requireTokenScope id "hosts:write" ≫= fun _ =>
  '(domain, sub, i) ← decodeJSON o KHost r;
  own_domain id domain ≫= fun _ =>
  h ← or_err StatusBadRequest (app (CreateHost (o_dns o) (o_detectPublicIPv4 o) domain sub (ri_ConnectionProfile i) (ri_Upstream i)
        (ri_InsecureTLS i) (ri_HAEnabled i) (ri_HAMode i) (ri_HABackends i)));
  log_action (id_Username id) "host.create" (h_FQDN h) (h_UpstreamURL h) ≫= fun _ =>
  mret (writeJSON StatusCreated (RHost h)).

Definition handleHostPreflight (id : Identity) (r : ApiRequest) : W Response :=
  requireTokenScope id "hosts:write" ≫= fun _ =>
  '(domain, sub, i) ← decodeJSON o KHostPreflight r;
  own_domain id domain ≫= fun _ =>
  out ← or_err StatusBadRequest (app (RunHostPreflight (o_nw o) (o_dns o) (o_detectPublicIPv4 o) domain sub (ri_Upstream i)
          (ri_InsecureTLS i) (ri_HAEnabled i) (ri_HAMode i) (ri_HABackends i)));
  mret (writeJSON StatusOK (RHostPreflight out)).

Definition handleUpdateHostRouting (p : gmap string string) (id : Identity) (r : ApiRequest) : W Response :=
  requireTokenScope id "hosts:write" ≫= fun _ =>
  let hostID := param_id p "id" in
  host_or_refuse id hostID ≫= fun _ =>
  i ← decodeJSON o KRouting r;
  h ← or_err StatusBadRequest (app (UpdateHostRouting hostID (ri_ConnectionProfile i) (ri_Upstream i) (ri_InsecureTLS i)
        (ri_HAEnabled i) (ri_HAMode i) (ri_HABackends i)));
  log_action (id_Username id) "host.update" (h_FQDN h) (h_UpstreamURL h) ≫= fun _ =>
  mret (writeJSON StatusOK (RHost h)).

Definition handleSetHostAuth (p : gmap string string) (id : Identity) (r : ApiRequest) : W Response :=
  requireTokenScope id "hosts:write" ≫= fun _ =>
  let hostID := param_id p "id" in
  host_or_refuse id hostID ≫= fun _ =>
  '(enabled, username, password) ← decodeJSON o KHostAuth r;
  h ← or_err StatusBadRequest (app (SetHostAuth (o_IDKey o) hostID enabled username password));
  log_action (id_Username id) "host.auth.update" (h_FQDN h) (FormatBool (h_AuthEnabled h)) ≫= fun _ =>
  mret (writeJSON StatusOK (RHost h)).

Definition handleSetHostGeoPolicy (p : gmap string string) (id : Identity) (r : ApiRequest) : W Response :=
  requireTokenScope id "hosts:write" ≫= fun _ =>
  let hostID := param_id p "id" in
  host_or_refuse id hostID ≫= fun _ =>
  '(mode, countries) ← decodeJSON o KGeo r;
  h ← or_err StatusBadRequest (app (SetHostGeoPolicy hostID mode countries));
  log_action (id_Username id) "host.geo.update" (h_FQDN h) (h_GeoMode h +:+ ":" +:+ Join (h_GeoCountries h) ",") ≫= fun _ =>
  mret (writeJSON StatusOK (RHost h)).

Definition handleRetryHost (p : gmap string string) (id : Identity) : W Response :=
  requireTokenScope id "hosts:write" ≫= fun _ =>
  let hostID := param_id p "id" in
  (if restricted id then host_or_refuse id hostID else mret tt) ≫= fun _ =>
  or_err StatusBadRequest (app (RetryHost hostID)) ≫= fun _ =>
  log_action (id_Username id) "host.retry" (Itoa hostID) "" ≫= fun _ => answer_ok.

Definition handleSetHostDisabled (p : gmap string string) (id : Identity) (r : ApiRequest) : W Response :=
  requireTokenScope id "hosts:write" ≫= fun _ =>
  let hostID := param_id p "id" in
  host_or_refuse id hostID ≫= fun _ =>
  disabled ← decodeJSON o (KFlag "disabled") r;
  h ← or_err StatusBadRequest (app (SetHostDisabled hostID disabled));
  log_action (id_Username id) (if disabled : bool then "host.disable" else "host.enable") (h_FQDN h) (h_State h) ≫= fun _ =>
  mret (writeJSON StatusOK (RHost h)).

Definition handleSetHostMaintenance (p : gmap string string) (id : Identity) (r : ApiRequest) : W Response :=
  requireTokenScope id "hosts:write" ≫= fun _ =>
  let hostID := param_id p "id" in
  host_or_refuse id hostID ≫= fun _ =>
  enabled ← decodeJSON o (KFlag "enabled") r;
  h ← or_err StatusBadRequest (app (SetHostMaintenance hostID enabled));
  log_action (id_Username id) (if enabled : bool then "host.maintenance.on" else "host.maintenance.off") (h_FQDN h) (h_State h) ≫= fun _ =>
  mret (writeJSON StatusOK (RHost h)).

Definition handleDeleteHost (p : gmap string string) (id : Identity) : W Response :=
  requireTokenScope id "hosts:write" ≫= fun _ =>
  let hostID := param_id p "id" in
  (if restricted id then host_or_refuse id hostID else mret tt) ≫= fun _ =>
  or_err StatusBadRequest (app (RemoveHost (o_dns o) hostID)) ≫= fun _ =>
  log_action (id_Username id) "host.delete" (Itoa hostID) "" ≫= fun _ => answer_ok.

(** ** Traffic *)

(** The overview of some hosts: the sums are built again. *)
Definition narrow (allowed : Z -> bool) (ov : TrafficOverview) : TrafficOverview :=
  let l := List.filter (fun h => allowed (hs_HostID h)) (ov_Hosts ov) in
  let sum f := total (fun h => f (hs_sums h)) l in
  ov <| ov_Hosts := l |> <| ov_TotalRequests := sum co_requests |> <| ov_TotalBytesIn := sum co_bytesIn |>
     <| ov_TotalBytesOut := sum co_bytesOut |> <| ov_TotalBlocked := sum co_blocked |>
     <| ov_UniqueVisitors := total hs_UniqueVisitors l |>.

Definition allowed_host (hosts : list Host) (hostID : Z) : bool := existsb (fun h => h_ID h =? hostID) hosts.

Definition handleTrafficOverview (id : Identity) (r : ApiRequest) : W Response :=
  requireTokenScope id "hosts:read" ≫= fun _ =>
  overview ← or_err StatusInternalServerError (store (GetTrafficOverview (query_int r "hours")));
  overview ← (if restricted id then
                hosts ← store ListHosts;
                mret (match hosts with
                      | Ok hosts => narrow (allowed_host (filterHostsByDomainIDs hosts (id_DomainIDs id))) overview
                      | Err _ => overview
                      end)
              else mret overview);
  mret (writeJSON StatusOK (ROverview overview)).

Definition handleHostTraffic (p : gmap string string) (id : Identity) (r : ApiRequest) : W Response :=
  requireTokenScope id "hosts:read" ≫= fun _ =>
  let hostID := param_id p "id" in
  host_or_refuse id hostID ≫= fun _ =>
  out ← or_err StatusInternalServerError (store (GetHostTraffic hostID (query_int r "hours")));
  mret (writeJSON StatusOK (RHostTraffic out)).

Definition add_country (m : gmap string CountryTrafficRow) (c : CountryTrafficRow) : gmap string CountryTrafficRow :=
  let curr := match m !! ct_Country c with Some x => ct_sums x | None => zero_counters end in
  <[ct_Country c := mkCountryTrafficRow (ct_Country c) (total_counters [curr; ct_sums c])]> m.
Definition add_unknown (m : gmap Z HostCountryTrafficRow) (h : HostCountryTrafficRow) : gmap Z HostCountryTrafficRow :=
  let curr := match m !! hc_HostID h with Some x => hc_sums x | None => zero_counters end in
  <[hc_HostID h := mkHostCountryTrafficRow (hc_HostID h) (hc_FQDN h) (total_counters [curr; hc_sums h])]> m.

(** The overviews of several hosts, added up. *)
Definition merge_countries (hours : Z) (t : time) (class : string) (l : list TrafficCountryOverview) : TrafficCountryOverview :=
  let countries := fold_left add_country (concat (map to_Countries l)) ∅ in
  let unknown := fold_left add_unknown (concat (map to_UnknownBreakdown l)) ∅ in
  mkTrafficCountryOverview hours (RFC3339 t) class 0 "" (total to_TotalRequests l) (total to_TotalBlocked l)
    (total to_TotalBytesOut l) (order_by (by_requests ct_sums) (rows countries)) (order_by (by_requests hc_sums) (rows unknown)).

(** The overviews that can be had, one per host. *)
Fixpoint each_host (hours : Z) (class : string) (hosts : list Host) : W (list TrafficCountryOverview) :=
  match hosts with
  | [] => mret []
  | h :: hosts =>
      out ← store (GetTrafficCountries (h_ID h) hours class);
      l ← each_host hours class hosts;
      mret (match out with Ok ov => ov :: l | Err _ => l end)
  end.

Definition handleTrafficCountries (id : Identity) (r : ApiRequest) : W Response :=
  requireTokenScope id "hosts:read" ≫= fun _ =>
  let hours := query_int r "hours" in
  let hostID := query_int r "hostId" in
  let class := norm (query_of r "class") in
  let class := if bool_decide (class ∈ ["" ; "all"; "crawler"; "human"; "unknown"]) then class else "all" in
  let hours := if hours <=? 0 then 24 else hours in
  if restricted id then
    hosts ← or_err StatusInternalServerError (store ListHosts);
    let hosts := filterHostsByDomainIDs hosts (id_DomainIDs id) in
    if 0 <? hostID then
      refuse_if (negb (allowed_host hosts hostID)) StatusForbidden "host domain not assigned to this admin" ≫= fun _ =>
      out ← or_err StatusInternalServerError (store (GetTrafficCountries hostID hours class));
      mret (writeJSON StatusOK (RCountries out))
    else
      l ← each_host hours class hosts;
      t ← clock;
      mret (writeJSON StatusOK (RCountries (merge_countries hours t class l)))
  else
    out ← or_err StatusInternalServerError (store (GetTrafficCountries hostID hours class));
    mret (writeJSON StatusOK (RCountries out)).

(** The stream of the live hub: which events a subscriber is sent.  The set is empty
    for those who see everything. *)
Definition live_domains (id : Identity) : gset Z := if restricted id then list_to_set (id_DomainIDs id) else ∅.
Definition live_shown (allowed : gset Z) (ev : LiveTraceEvent) : bool :=
  bool_decide (allowed = ∅) || ((0 <? lt_DomainID ev) && bool_decide (lt_DomainID ev ∈ allowed)).

Definition handleTrafficLive (id : Identity) (r : ApiRequest) : W Response :=
  requireTokenScope id "hosts:read" ≫= fun _ =>
  hub ← reads sv_live;
  match hub with
  | None => answer (writeErr StatusServiceUnavailable "live trace unavailable")
  | Some h =>
      refuse_if (negb (ar_Flusher r)) StatusInternalServerError "streaming unsupported" ≫= fun _ =>
      changes (fun s => s <| sv_live := Some (Subscribe 512 h).2 |>) ≫= fun _ =>
      mret (writeJSON StatusOK (RStream (live_domains id)))
  end.
End hosts.
