(* ===== verification/ApiAdmin.v ===== *)
(** [internal/api/server.go]: the first-run setup, backups, accounts and groups
    (tokens, settings and the rest are in [ApiSystem.v]). *)

From S2P Require Import Prelude GoString GoMonad GoTime GoFile GoNet GoCrypto Crypto NetUtil Model StoreDB StoreThreat StoreUsers StoreHosts StoreBastion Auth Service Vault.
From S2P Require Import ThreatEngine Retention Hosts LiveChecks Settings Accounts Backup Setup BackupSchedule Feeds BastionKeys ApiCore.
Open Scope Z_scope.

Section admin.
Context (o : Outside).

(* ------------------------------------------------------------------ *)
(** ** First-run setup and backups *)

Definition handleSetupStatus : W Response :=
  st ← or_err StatusInternalServerError (app GetSetupStatus); mret (writeJSON StatusOK (RSetupStatus st)).

Definition handleSetupUnlock (r : ApiRequest) : W Response :=
  ots ← decodeJSON o (KText "ots") r;
  st ← or_err StatusBadRequest (app (UnlockSetup ots));
  mret (writeJSON StatusOK (RSetupStatus st)).

Definition maxUpload : Z := 96 * 2 ^ 20.
Definition cut_upload (b : bytes) : bytes := if Z.of_nat (length b) <=? maxUpload then b else take (Z.to_nat maxUpload) b.

(** The name, the bytes and the passphrase of an uploaded package; what is beyond
    96 MiB is cut off. *)
Definition readBackupUpload (r : ApiRequest) : result (string * bytes * string) :=
  if negb (ar_Multipart r) then Err (ErrText "invalid multipart payload")
  else
    let passphrase := TrimSpace (default "" (ar_Form r !! "passphrase")) in
    if len passphrase <? 12 then Err (ErrText "passphrase must be at least 12 characters")
    else match ar_Files r !! "backup" with
    | None => Err (ErrText "backup file is required")
    | Some (name, raw) =>
        let raw := cut_upload raw in
        match raw with [] => Err (ErrText "backup file is empty") | _ => Ok (TrimSpace name, raw, passphrase) end
    end.
Definition upload (r : ApiRequest) : W (string * bytes * string) := or_err StatusBadRequest (mret (readBackupUpload r)).

Definition handleSetupRestoreUpload (r : ApiRequest) : W Response :=
  '(fileName, raw, passphrase) ← upload r;
  meta ← or_err StatusBadRequest (app (UploadSetupBackup (o_scrypt o) (o_OpenWith o) (o_unpack o) (o_decode_manifest o) fileName raw passphrase));
  mret (writeJSON StatusOK (RSetupMeta meta)).

Definition handleSetupRestoreAnalyze (r : ApiRequest) : W Response :=
  if HasPrefix (norm (header (ar_http r) "Content-Type")) "multipart/form-data" then handleSetupRestoreUpload r
  else
    _ ← decodeJSON o (KText "fileName") r;
    answer (writeErr StatusBadRequest "send multipart form-data with fields: backup (file), passphrase").

Definition handleSetupApply (r : ApiRequest) : W Response :=
  i ← decodeJSON o KSetup r;
  or_err StatusBadRequest (app (ApplyInitialSetup (o_route_output o) (o_timedatectl o) (o_encode_logs o) (o_encode_ldapset o)
    (o_encode_oidc o) (o_decode_style o) (o_IDKey o) (o_Seal o) (o_Open o) (o_dns o) (o_detectPublicIPv4 o) (o_nw o)
    (o_NewCloudflare o) (o_read_sqlite o) (o_io o) (o_detachable o) i)) ≫= fun _ =>
  mret (writeJSON StatusOK RInitialized).

Definition handleBackupSettingsGet (id : Identity) : W Response :=
  adminOrReadOnly id "global admin required" ≫= fun _ =>
  cfg ← or_err StatusInternalServerError (app (GetBackupScheduleSettings (o_Open o)));
  mret (writeJSON StatusOK (RBackupSettings cfg)).

Definition handleBackupSettingsSet (id : Identity) (r : ApiRequest) : W Response :=
  globalAdmin id ≫= fun _ =>
  i ← decodeJSON o KBackup r;
  or_err StatusBadRequest (app (SetBackupScheduleSettings (o_Seal o) (o_Open o)
    (mkBackupScheduleSettings (bi_Enabled i) (bi_IntervalHours i) (bi_RetentionCount i) false false "" "" (bi_Local i) (bi_FTP i))
    (bi_Passphrase i) (bi_FTPPassword i))) ≫= fun _ => answer_ok.

Definition handleBackupArchivesList (id : Identity) (r : ApiRequest) : W Response :=
  adminOrReadOnly id "global admin required" ≫= fun _ =>
  items ← or_err StatusInternalServerError (app (ListBackupArchives (query_limit r 500)));
  stats ← or_err StatusInternalServerError (app GetBackupGeneralStats);
  mret (writeJSON StatusOK (RArchives items stats)).

Definition handleBackupScheduleRunNow (id : Identity) : W Response :=
  globalAdmin id ≫= fun _ =>
  or_err StatusBadRequest (app (RunScheduledBackupNow (o_Open o) (o_disk o) (o_ftp_dial o) (o_ftp_command o) (o_scrypt o) (o_SealWith o)
    (o_pack o) (o_encode_manifest o) (o_write_sqlite o) (o_io o))) ≫= fun _ => answer_ok.

Definition handleBackupCreate (id : Identity) (r : ApiRequest) : W Response :=
  globalAdmin id ≫= fun _ =>
  passphrase ← decodeJSON o (KText "passphrase") r;
  '(raw, meta) ← or_err StatusBadRequest (app (CreateBackupPackage (o_scrypt o) (o_SealWith o) (o_pack o) (o_encode_manifest o)
                   (o_write_sqlite o) (o_io o) passphrase));
  t ← clock;
  mret (writeJSON StatusOK (RPackage ("domnex-backup-" +:+ stamp t +:+ ".dnxbak") raw meta)).

Definition handleBackupAnalyze (id : Identity) (r : ApiRequest) : W Response :=
  globalAdmin id ≫= fun _ =>
  '(fileName, raw, passphrase) ← upload r;
  meta ← or_err StatusBadRequest (app (AnalyzeBackupPackage (o_scrypt o) (o_OpenWith o) (o_unpack o) (o_decode_manifest o) fileName raw passphrase));
  mret (writeJSON StatusOK (RBackupMeta meta)).

Definition post_check : AM PostRestoreCheckResult :=
  RunPostRestoreCheck (o_nw o) (o_dns o) (o_detectPublicIPv4 o) (o_NewCloudflare o) (o_Open o).

Definition handleBackupRestore (id : Identity) (r : ApiRequest) : W Response :=
  globalAdmin id ≫= fun _ =>
  refuse_if (negb (String.eqb (TrimSpace (default "" (ar_Form r !! "confirm"))) "RESTORE")) StatusBadRequest "confirm must equal RESTORE" ≫= fun _ =>
  '(fileName, raw, passphrase) ← upload r;
  meta ← or_err StatusBadRequest (app (RestoreFromBackupPackage (o_scrypt o) (o_OpenWith o) (o_unpack o) (o_decode_manifest o)
           (o_read_sqlite o) (o_io o) (o_detachable o) fileName raw passphrase));
  post ← app post_check;
  log_action (id_Username id) "backup.restore.apply" (bm_FileName meta) "done" ≫= fun _ =>
  mret (writeJSON StatusOK (RRestored meta post)).

Definition handleBackupPostRestoreCheck (id : Identity) : W Response :=
  globalAdmin id ≫= fun _ =>
  out ← or_err StatusBadRequest (app post_check); mret (writeJSON StatusOK (RPostCheck out)).

Definition handleBackupArchiveRestore (p : gmap string string) (id : Identity) (r : ApiRequest) : W Response :=
  globalAdmin id ≫= fun _ =>
  confirm ← decodeJSON o (KText "confirm") r;
  '(meta, post) ← or_err StatusBadRequest (app (RestoreBackupArchive (o_Open o) (o_disk o) (o_ftp_dial o) (o_ftp_command o) (o_scrypt o)
     (o_OpenWith o) (o_unpack o) (o_decode_manifest o) (o_read_sqlite o) (o_io o) (o_detachable o) (o_nw o) (o_dns o)
     (o_detectPublicIPv4 o) (o_NewCloudflare o) (param_id p "id") confirm));
  mret (writeJSON StatusOK (RRestored meta (Ok post))).

Definition handleBackupArchiveDelete (p : gmap string string) (id : Identity) : W Response :=
  globalAdmin id ≫= fun _ =>
  or_err StatusBadRequest (app (DeleteBackupArchive (o_Open o) (o_disk o) (o_ftp_dial o) (o_ftp_command o) (param_id p "id"))) ≫= fun _ => answer_ok.

(* ------------------------------------------------------------------ *)
(** ** One's own account *)

Definition handleGetOwnMFAStatus (id : Identity) : W Response :=
  sessionOnly id ≫= fun _ =>
  out ← or_err StatusInternalServerError (app (GetOwnMFAStatus (id_UserID id))); mret (writeJSON StatusOK (RMFAStatus out)).

Definition profileEmailSettingKey (username : string) : string := "profile.email." +:+ norm username.
Definition profileDashboardLayoutSettingKey (username : string) : string := "profile.dashboard_layout." +:+ norm username.

Definition handleMeProfileGet (id : Identity) : W Response :=
  e ← store (GetSetting (profileEmailSettingKey (id_Username id)));
  l ← store (GetSetting (profileDashboardLayoutSettingKey (id_Username id)));
  mret (writeJSON StatusOK (RProfile (match e with Ok v => TrimSpace v | Err _ => "" end)
    (match l with
     | Ok v => let raw := TrimSpace v in if nonempty raw && o_json_valid o raw then Some raw else None
     | Err _ => None
     end))).

Definition maxEmail : Z := 254.
Definition maxLayout : Z := 128 * 1024.
Definition has_blank (s : string) : bool := has_byte (byte 32) s || has_byte (byte 9) s || has_byte (byte 13) s || has_byte (byte 10) s.

Definition set_email (id : Identity) (v : string) : W unit :=
  let email := TrimSpace v in
  refuse_if (maxEmail <? len email) StatusBadRequest "email too long" ≫= fun _ =>
  refuse_if (nonempty email && (negb (Contains email "@") || has_blank email)) StatusBadRequest "invalid email" ≫= fun _ =>
  or_err StatusInternalServerError (store (SetSetting (profileEmailSettingKey (id_Username id)) email)) ≫= fun _ =>
  log_action (id_Username id) "profile.email.update" (id_Username id) "".

Definition set_layout (id : Identity) (layout : string) : W unit :=
  let raw := TrimSpace layout in
  refuse_if (maxLayout <? len raw) StatusBadRequest "dashboard layout too large" ≫= fun _ =>
  let cleared := String.eqb raw "" || String.eqb raw "null" in
  refuse_if (negb cleared && negb (o_json_valid o raw)) StatusBadRequest "invalid dashboard layout" ≫= fun _ =>
  or_err StatusInternalServerError (store (SetSetting (profileDashboardLayoutSettingKey (id_Username id)) (if cleared then "" else raw))) ≫= fun _ =>
  log_action (id_Username id) "profile.dashboard_layout.update" (id_Username id) "".

Definition handleMeProfileSet (id : Identity) (r : ApiRequest) : W Response :=
  '(email, layout) ← decodeJSON o KProfile r;
  (match email with Some v => set_email id v | None => mret tt end) ≫= fun _ =>
  (if String.eqb layout "" then mret tt else set_layout id layout) ≫= fun _ => answer_ok.

Definition handleChangeOwnPassword (id : Identity) (r : ApiRequest) : W Response :=
  sessionOnly id ≫= fun _ =>
  '(current, new) ← decodeJSON o (KPair "currentPassword" "newPassword") r;
  or_err StatusBadRequest (app (ChangeOwnPassword (o_IDKey o) (id_UserID id) current new)) ≫= fun _ =>
  log_action (id_Username id) "auth.password.changed" (id_Username id) "self-service" ≫= fun _ => answer_ok.

Definition handleStartOwnMFAEnroll (id : Identity) : W Response :=
  sessionOnly id ≫= fun _ =>
  out ← or_err StatusBadRequest (app (StartOwnMFAEnrollment (o_Seal o) (id_UserID id) (id_Username id)));
  log_action (id_Username id) "auth.mfa.enroll.start" (id_Username id) "self-service" ≫= fun _ =>
  mret (writeJSON StatusOK (REnrollStart out)).

Definition handleConfirmOwnMFAEnroll (id : Identity) (r : ApiRequest) : W Response :=
  sessionOnly id ≫= fun _ =>
  otp ← decodeJSON o (KText "otp") r;
  out ← or_err StatusBadRequest (app (ConfirmOwnMFAEnrollment (o_Open o) (id_UserID id) otp));
  log_action (id_Username id) "auth.mfa.enroll.confirm" (id_Username id) "enabled=1" ≫= fun _ =>
  mret (writeJSON StatusOK (REnrollConfirm out)).

Definition handleDisableOwnMFA (id : Identity) (r : ApiRequest) : W Response :=
  sessionOnly id ≫= fun _ =>
  '(current, code) ← decodeJSON o (KPair "currentPassword" "code") r;
  or_err StatusBadRequest (app (DisableOwnMFA (o_IDKey o) (o_Open o) (id_UserID id) current code)) ≫= fun _ =>
  log_action (id_Username id) "auth.mfa.disable" (id_Username id) "self-service" ≫= fun _ => answer_ok.

(* ------------------------------------------------------------------ *)
(** ** Accounts and groups *)

(** The beginning of a handler that changes accounts. *)
Definition accounts_admin (id : Identity) : W unit := requireTokenScope id "users:write" ≫= fun _ => globalAdmin id.

Definition handleListUsers (id : Identity) : W Response :=
  requireTokenScope id "users:read" ≫= fun _ =>
  adminOrReadOnly id "admin or read-only required" ≫= fun _ =>
  users ← or_err StatusInternalServerError (app ListManagedUsers); mret (writeJSON StatusOK (RUsers users)).

Definition handleListIdentityPermissions (id : Identity) : W Response :=
  requireTokenScope id "users:read" ≫= fun _ => mret (writeJSON StatusOK (RPermissions PermissionCatalog)).
Definition handleListIdentityGroups (id : Identity) : W Response :=
  requireTokenScope id "users:read" ≫= fun _ =>
  items ← or_err StatusInternalServerError (app ListPermissionGroups); mret (writeJSON StatusOK (RGroups items)).
Definition handleIdentityMatrix (id : Identity) : W Response :=
  requireTokenScope id "users:read" ≫= fun _ =>
  l ← or_err StatusInternalServerError (app BuildPermissionMatrix); mret (writeJSON StatusOK (RMatrix l)).

Definition handleCreateIdentityGroup (id : Identity) (r : ApiRequest) : W Response :=
  accounts_admin id ≫= fun _ =>
  i ← decodeJSON o KGroup r;
  out ← or_err StatusBadRequest (app (CreatePermissionGroup (gi_Name i) (gi_Description i) (gi_Template i) (gi_Permissions i)));
  log_action (id_Username id) "identity.group.create" (gi_Name i) (Join (pv_Permissions out) ",") ≫= fun _ =>
  mret (writeJSON StatusCreated (RGroup out)).

Definition positive_id (n : Z) (msg : string) : W unit := refuse_if (n <=? 0) StatusBadRequest msg.

Definition handleUpdateIdentityGroup (p : gmap string string) (id : Identity) (r : ApiRequest) : W Response :=
  accounts_admin id ≫= fun _ =>
  let groupID := param_id p "id" in
  positive_id groupID "invalid group id" ≫= fun _ =>
  i ← decodeJSON o KGroup r;
  or_err StatusBadRequest (app (UpdatePermissionGroup groupID (gi_Name i) (gi_Description i) (gi_Template i) (gi_Permissions i))) ≫= fun _ =>
  log_action (id_Username id) "identity.group.update" (Itoa groupID) (Join (gi_Permissions i) ",") ≫= fun _ => answer_ok.

Definition handleDeleteIdentityGroup (p : gmap string string) (id : Identity) : W Response :=
  accounts_admin id ≫= fun _ =>
  let groupID := param_id p "id" in
  positive_id groupID "invalid group id" ≫= fun _ =>
  or_err StatusBadRequest (app (DeletePermissionGroup groupID)) ≫= fun _ =>
  log_action (id_Username id) "identity.group.delete" (Itoa groupID) "" ≫= fun _ => answer_ok.

Definition handleSetUserGroups (p : gmap string string) (id : Identity) (r : ApiRequest) : W Response :=
  accounts_admin id ≫= fun _ =>
  let userID := param_id p "id" in
  positive_id userID "invalid user id" ≫= fun _ =>
  groups ← decodeJSON o (KIDs "groupIds") r;
  or_err StatusBadRequest (app (SetManagedUserGroups userID groups)) ≫= fun _ =>
  log_action (id_Username id) "user.update_groups" (Itoa userID) ("count=" +:+ Itoa (Z.of_nat (length groups))) ≫= fun _ => answer_ok.

Definition handleCreateUser (id : Identity) (r : ApiRequest) : W Response :=
  accounts_admin id ≫= fun _ =>
  '(username, password, a) ← decodeJSON o KUser r;
  u ← or_err StatusBadRequest (app (CreateManagedUser (o_IDKey o) username password (ai_Role a) (ai_DomainIDs a) (ai_AllowedCIDRs a)
        (ai_IPCheckDisabled a) (ai_GroupIDs a)));
  log_action (id_Username id) "user.create" (mu_Username u) (mu_Role u) ≫= fun _ =>
  mret (writeJSON StatusCreated (RManagedUser u)).

Definition handleSetUserDomains (p : gmap string string) (id : Identity) (r : ApiRequest) : W Response :=
  accounts_admin id ≫= fun _ =>
  let userID := param_id p "id" in
  domains ← decodeJSON o (KIDs "domainIds") r;
  or_err StatusBadRequest (app (SetManagedUserDomains userID domains)) ≫= fun _ =>
  log_action (id_Username id) "user.update_domains" (Itoa userID) "" ≫= fun _ => answer_ok.

Definition handleUpdateUserAccess (p : gmap string string) (id : Identity) (r : ApiRequest) : W Response :=
  accounts_admin id ≫= fun _ =>
  let userID := param_id p "id" in
  positive_id userID "invalid user id" ≫= fun _ =>
  refuse_if (userID =? id_UserID id) StatusBadRequest "cannot change own role via this endpoint" ≫= fun _ =>
  a ← decodeJSON o KAccess r;
  or_err StatusBadRequest (app (SetManagedUserAccess userID (ai_Role a) (ai_DomainIDs a) (ai_AllowedCIDRs a) (ai_IPCheckDisabled a) (ai_GroupIDs a))) ≫= fun _ =>
  log_action (id_Username id) "user.update_access" (Itoa userID) (TrimSpace (ai_Role a)) ≫= fun _ => answer_ok.

Definition handleSetUserPassword (p : gmap string string) (id : Identity) (r : ApiRequest) : W Response :=
  accounts_admin id ≫= fun _ =>
  let userID := param_id p "id" in
  refuse_if (userID =? id_UserID id) StatusBadRequest "use /api/v1/me/password for own account" ≫= fun _ =>
  password ← decodeJSON o (KText "password") r;
  or_err StatusBadRequest (app (SetManagedUserPassword (o_IDKey o) userID password)) ≫= fun _ =>
  log_action (id_Username id) "user.password.reset" (Itoa userID) "admin-reset" ≫= fun _ => answer_ok.

Definition handleAdminResetUserMFA (p : gmap string string) (id : Identity) : W Response :=
  accounts_admin id ≫= fun _ =>
  let userID := param_id p "id" in
  positive_id userID "invalid user id" ≫= fun _ =>
  refuse_if (userID =? id_UserID id) StatusBadRequest "use your own account mfa actions" ≫= fun _ =>
  or_err StatusBadRequest (app (ResetManagedUserMFA userID)) ≫= fun _ =>
  log_action (id_Username id) "user.mfa.reset" (Itoa userID) "admin-reset" ≫= fun _ => answer_ok.

Definition handleDeleteUser (p : gmap string string) (id : Identity) : W Response :=
  accounts_admin id ≫= fun _ =>
  let userID := param_id p "id" in
  refuse_if (userID =? id_UserID id) StatusBadRequest "cannot delete current user" ≫= fun _ =>
  or_err StatusBadRequest (app (DeleteManagedUser userID)) ≫= fun _ =>
  log_action (id_Username id) "user.delete" (Itoa userID) "" ≫= fun _ => answer_ok.

Definition handleCreatePasswordReset (id : Identity) (r : ApiRequest) : W Response :=
  requireTokenScope id "users:write" ≫= fun _ =>
  '(username, expiresIn) ← decodeJSON o (KPair "username" "expiresIn") r;
  let ttl := match o_ParseDuration o (TrimSpace expiresIn) with Ok d => if d <=? 0 then 30 * Minute else d | Err _ => 30 * Minute end in
  token ← or_err StatusBadRequest (app (CreatePasswordResetToken username ttl));
  log_action (id_Username id) "auth.password_reset.token_created" username (o_DurationString o ttl) ≫= fun _ =>
  mret (writeJSON StatusCreated (RReset token ttl)).

Definition handleConsumePasswordReset (r : ApiRequest) : W Response :=
  '(token, new) ← decodeJSON o (KPair "token" "newPassword") r;
  or_err StatusBadRequest (app (ConsumePasswordResetToken (o_IDKey o) token new)) ≫= fun _ =>
  log_action "password_reset" "auth.password_reset.consumed" "user" "" ≫= fun _ => answer_ok.
End admin.
