(* ===== verification/ApiSystem.v ===== *)
(** [internal/api/server.go]: tokens, settings, the audit log, the block list, the
    threat engine and the SSH bastion. *)

From S2P Require Import Prelude GoString GoMonad GoTime GoNet GoCrypto Crypto NetUtil Model LogServers StoreDB StoreThreat StoreUsers StoreHosts StoreBastion Auth Service Vault.
From S2P Require Import ThreatEngine Retention Hosts LiveChecks Settings Accounts Backup Setup BackupSchedule Feeds StoreViews ThreatViews BastionKeys ApiCore.
Open Scope Z_scope.

Section system.
Context (o : Outside).

(* ------------------------------------------------------------------ *)
(** ** Tokens *)

Definition unlimited_ttl : duration := 100 * 365 * 24 * Hour.

(** A token without end asks for the password of a local administrator. *)
Definition confirm_unlimited (id : Identity) (i : TokenIn) : W unit :=
  refuse_if (negb (ti_ConfirmUnlimited i)) StatusBadRequest "unlimited ttl requires explicit confirmation" ≫= fun _ =>
  refuse_if (String.eqb (TrimSpace (ti_ConfirmPassword i)) "") StatusBadRequest "password confirmation required for unlimited ttl" ≫= fun _ =>
  refuse_if (negb (String.eqb (id_Type id) "session") || (id_UserID id <=? 0)) StatusForbidden "unlimited ttl requires admin session login" ≫= fun _ =>
  me ← or_answer (writeErr StatusForbidden "unable to validate password") (store (GetUserByID (id_UserID id)));
  refuse_if (negb (EqualFold (TrimSpace (u_AuthProvider me)) "local") || String.eqb (TrimSpace (u_PasswordHash me)) "")
    StatusForbidden "unlimited ttl requires local admin account" ≫= fun _ =>
  refuse_if (negb (VerifyPassword (o_IDKey o) (ti_ConfirmPassword i) (u_PasswordHash me))) StatusForbidden "password confirmation failed".

Definition token_ttl (id : Identity) (i : TokenIn) : W duration :=
  if EqualFold (TrimSpace (ti_ExpiresIn i)) "unlimited" then confirm_unlimited id i ≫= fun _ => mret unlimited_ttl
  else mret (match o_ParseDuration o (ti_ExpiresIn i) with Ok d => if d <=? 0 then 30 * 24 * Hour else d | Err _ => 30 * 24 * Hour end).

Definition only_if (b : bool) (l : list string) : list string := if b then l else [].
(** The marker of a pair of permissions. *)
Definition intent (name : string) (read write : bool) : list string :=
  if read && write then [name +:+ ":rw"] else if write then [name +:+ ":w"] else only_if read [name +:+ ":r"].

Definition permission_scopes (p : PermissionsIn) : list string :=
  only_if (pi_DomainRead p) ["domains:read"; "hosts:read"] ++
  only_if (pi_DomainWrite p) ["domains:write"; "domains:read"; "hosts:write"; "hosts:read"; "dns:write"; "cert:write"] ++
  only_if (pi_SystemRead p) ["system:read"; "settings:read"; "audit:read"; "users:read"; "tokens:read"] ++
  only_if (pi_SystemWrite p) ["system:write"; "settings:write"; "reload:write"; "users:write"; "tokens:write"] ++
  only_if (pi_GlobalRead p) ["global:read"; "domains:read"; "hosts:read"; "system:read"] ++
  only_if (pi_GlobalWrite p) ["global:write"; "domains:write"; "hosts:write"; "system:write"; "settings:write"; "reload:write";
                              "users:write"; "tokens:write"; "dns:write"; "cert:write"] ++
  intent "global" (pi_GlobalRead p) (pi_GlobalWrite p) ++ intent "domain" (pi_DomainRead p) (pi_DomainWrite p) ++
  intent "system" (pi_SystemRead p) (pi_SystemWrite p).

(** The scopes of a new token; a map in the source, so in no particular order. *)
Definition token_scopes (i : TokenIn) : gset string :=
  list_to_set (List.filter nonempty (map TrimSpace (ti_Scopes i)) ++ permission_scopes (ti_Permissions i)).
Definition scope_list (scopes : gset string) : list string :=
  match elements scopes with [] => ["domains:read"; "hosts:read"] | l => l end.

Definition handleCreateToken (id : Identity) (r : ApiRequest) : W Response :=
  requireTokenScope id "tokens:write" ≫= fun _ =>
  i ← decodeJSON o KToken r;
  refuse_if (String.eqb (ti_Name i) "") StatusBadRequest "name required" ≫= fun _ =>
  dur ← token_ttl id i;
  let role := if String.eqb (ti_Role i) "" then RoleOperator else ti_Role i in
  let scopes := token_scopes i in
  let domains := if bool_decide ("global:read" ∈ scopes) || bool_decide ("global:write" ∈ scopes) then [] else ti_DomainIDs i in
  t ← clock;
  '(tok, raw) ← or_err StatusInternalServerError (store (CreateAPIToken (ti_Name i) role (Join (scope_list scopes) ",") domains (Add t dur)));
  log_action (id_Username id) "token.create" (ti_Name i) role ≫= fun _ =>
  mret (writeJSON StatusCreated (RToken raw tok)).

Definition handleListTokens (id : Identity) : W Response :=
  requireTokenScope id "tokens:read" ≫= fun _ =>
  adminOrReadOnly id "admin or read-only required" ≫= fun _ =>
  items ← or_err StatusInternalServerError (app (Accounts.ListAPITokens 200)); mret (writeJSON StatusOK (RTokens items)).

Definition handleRevokeToken (p : gmap string string) (id : Identity) : W Response :=
  requireTokenScope id "tokens:write" ≫= fun _ =>
  let tokenID := param_id p "id" in
  refuse_if (tokenID <=? 0) StatusBadRequest "invalid token id" ≫= fun _ =>
  found ← or_err StatusBadRequest (app (Accounts.RevokeAPIToken tokenID));
  refuse_if (negb found) StatusNotFound "token not found" ≫= fun _ =>
  log_action (id_Username id) "token.revoke" (Itoa tokenID) "" ≫= fun _ => answer_ok.

(* ------------------------------------------------------------------ *)
(** ** Settings and the process *)

Definition handleSetCloudflareToken (r : ApiRequest) : W Response :=
  token ← decodeJSON o (KText "token") r;
  refuse_if (String.eqb (TrimSpace token) "") StatusBadRequest "token required" ≫= fun _ =>
  or_err StatusInternalServerError (app (SetCloudflareToken (o_Seal o) token)) ≫= fun _ => answer_ok.

Definition handleDynDNSUpdate (r : ApiRequest) : W Response :=
  ipv4 ← decodeJSON o (KText "ipv4") r;
  or_err StatusBadRequest (app (UpdatePublicIP (o_dns o) ipv4)) ≫= fun _ => answer_ok.

Definition handleGetSettings (id : Identity) : W Response :=
  requireTokenScope id "settings:read" ≫= fun _ =>
  s ← or_err StatusInternalServerError (app (GetRuntimeSettings (o_decode_logs o) (o_decode_ldapset o) (o_decode_oidc o) (o_Open o)));
  mret (writeJSON StatusOK (RSettings s)).

(** The beginning of a handler that changes settings. *)
Definition settings_admin (id : Identity) : W unit := requireTokenScope id "settings:write" ≫= fun _ => globalAdmin id.

Definition handleSetSettings (id : Identity) (r : ApiRequest) : W Response :=
  settings_admin id ≫= fun _ =>
  i ← decodeJSON o KSettings r;
  or_err StatusBadRequest (app (SetRuntimeSettings (o_route_output o) (o_timedatectl o) (o_encode_logs o) (o_encode_ldapset o) (o_encode_oidc o)
    (o_decode_style o) (o_Seal o) (o_dns o) (o_detectPublicIPv4 o) (xi_ACMEEmail i) (xi_ACMEStaging i) (xi_CFToken i) (xi_PublicIPv4 i)
    (xi_BaseDomain i) (xi_StyleProfile i) (xi_StyleCustom i) (xi_TimeSyncMode i) (xi_TimeSyncLANServers i) (xi_LogServers i)
    (xi_LogHTTPBearer i) (xi_Retention i) (xi_MFAPolicy i) (xi_LDAP i) (xi_LDAPBindPassword i) (xi_OIDC i) (xi_OIDCClientSecret i))) ≫= fun _ =>
  log_action (id_Username id) "settings.update" "runtime" "acme/cloudflare/base-domain/time-sync/logservers/retention/mfa-policy/ldap/oidc" ≫= fun _ =>
  answer_ok.

Definition handleReloadService (id : Identity) : W Response :=
  requireTokenScope id "reload:write" ≫= fun _ => globalAdmin id ≫= fun _ =>
  log_action (id_Username id) "service.reload" "domnexdomain" "ui" ≫= fun _ =>
  changes (fun s => s <| sv_exit := true |>) ≫= fun _ => answer_ok.

(* ------------------------------------------------------------------ *)
(** ** Audit log and block list *)

(** An empty filter takes everything. *)
Definition passes (wanted v : string) : bool := String.eqb wanted "" || EqualFold (TrimSpace v) wanted.

Definition handleListAudit (id : Identity) (r : ApiRequest) : W Response :=
  requireTokenScope id "audit:read" ≫= fun _ =>
  items ← or_err StatusInternalServerError (store (ListAuditEvents (query_limit r 500)));
  let wants name := TrimSpace (query_of r name) in
  mret (writeJSON StatusOK (RAudit (List.filter (fun e =>
    passes (wants "ip") (ae_SourceIP e) && passes (wants "action") (ae_Action e) && passes (wants "actor") (ae_Actor e)) items))).

Definition handleListBlockedIPs (id : Identity) : W Response :=
  requireTokenScope id "audit:read" ≫= fun _ =>
  items ← or_err StatusInternalServerError (store (ListBlockedIPs 500)); mret (writeJSON StatusOK (RBlockedIPs items)).

Definition parse_ip (s : string) : W ip :=
  match ParseIP (TrimSpace s) with Some i => mret i | None => answer (writeErr StatusBadRequest "invalid ip") end.

Definition handleAddBlockedIP (id : Identity) (r : ApiRequest) : W Response :=
  requireTokenScope id "settings:write" ≫= fun _ =>
  '(text, reason) ← decodeJSON o (KPair "ip" "reason") r;
  i ← parse_ip text;
  refuse_if (IsLoopback i) StatusBadRequest "loopback addresses cannot be blocked" ≫= fun _ =>
  or_err StatusInternalServerError (app (UpsertBlockedIP (IP_String i) (TrimSpace reason))) ≫= fun _ =>
  log_action (id_Username id) "security.ip_block.add" (IP_String i) (TrimSpace reason) ≫= fun _ => answer_ok.

Definition handleRemoveBlockedIP (id : Identity) (r : ApiRequest) : W Response :=
  requireTokenScope id "settings:write" ≫= fun _ =>
  text ← decodeJSON o (KText "ip") r;
  i ← parse_ip text;
  or_err StatusInternalServerError (app (RemoveBlockedIP (IP_String i))) ≫= fun _ =>
  log_action (id_Username id) "security.ip_block.remove" (IP_String i) "" ≫= fun _ => answer_ok.

(* ------------------------------------------------------------------ *)
(** ** The threat engine *)

Definition handleThreatIntelConfigGet (id : Identity) : W Response :=
  requireTokenScope id "settings:read" ≫= fun _ =>
  cfg ← or_err StatusInternalServerError (store GetThreatIntelConfig); mret (writeJSON StatusOK (RThreatConfig cfg)).
Definition handleThreatIntelSignatureConfigGet (id : Identity) : W Response :=
  requireTokenScope id "settings:read" ≫= fun _ =>
  cfg ← or_err StatusInternalServerError (app GetThreatSignatureConfig); mret (writeJSON StatusOK (RSignatureConfig cfg)).
Definition handleThreatIntelFeedsList (id : Identity) : W Response :=
  requireTokenScope id "settings:read" ≫= fun _ =>
  items ← or_err StatusInternalServerError (store ListThreatIntelFeeds); mret (writeJSON StatusOK (RFeeds items)).
Definition handleThreatIntelAllowlistList (id : Identity) : W Response :=
  requireTokenScope id "settings:read" ≫= fun _ =>
  items ← or_err StatusInternalServerError (store ListThreatIntelAllowIPs); mret (writeJSON StatusOK (RBlockedIPs items)).

Definition handleThreatIntelMatchesList (id : Identity) (r : ApiRequest) : W Response :=
  requireTokenScope id "audit:read" ≫= fun _ =>
  items ← or_err StatusInternalServerError (store (ListThreatIntelMatches (query_int r "hours") (TrimSpace (query_of r "decision"))
            (TrimSpace (query_of r "q")) (query_int r "page") (query_int r "pageSize")));
  mret (writeJSON StatusOK (RMatches items)).
Definition handleThreatIntelOffendersList (id : Identity) (r : ApiRequest) : W Response :=
  requireTokenScope id "audit:read" ≫= fun _ =>
  items ← or_err StatusInternalServerError (store (ListThreatIntelOffenders (query_int r "hours") (query_int r "page") (query_int r "pageSize")));
  mret (writeJSON StatusOK (ROffenders items)).
Definition handleThreatIntelBlockedList (id : Identity) (r : ApiRequest) : W Response :=
  requireTokenScope id "audit:read" ≫= fun _ =>
  items ← or_err StatusInternalServerError (app (ListThreatIntelBlocked (query_int r "hours") (TrimSpace (query_of r "q"))
            (query_int r "page") (query_int r "pageSize")));
  mret (writeJSON StatusOK (RBlockedPage items)).
Definition handleThreatIntelGeoList (id : Identity) : W Response :=
  requireTokenScope id "audit:read" ≫= fun _ =>
  items ← or_err StatusInternalServerError (store ListThreatIntelGeoPoints);
  t ← clock; mret (writeJSON StatusOK (RGeo (RFC3339 t) items)).
Definition handleThreatIntelTargetsByIP (p : gmap string string) (id : Identity) (r : ApiRequest) : W Response :=
  requireTokenScope id "audit:read" ≫= fun _ =>
  items ← or_err StatusBadRequest (store (ListThreatIntelTargetsByIP (query_int r "hours") (TrimSpace (default "" (p !! "ip"))) (query_int r "limit")));
  mret (writeJSON StatusOK (RTargets items)).
Definition handleThreatIntelTraceTimeline (p : gmap string string) (id : Identity) (r : ApiRequest) : W Response :=
  requireTokenScope id "audit:read" ≫= fun _ =>
  items ← or_err StatusBadRequest (store (GetThreatTraceTimeline (TrimSpace (default "" (p !! "trace"))) (query_int r "limit")));
  mret (writeJSON StatusOK (RTimeline items)).

Definition handleThreatIntelConfigSet (id : Identity) (r : ApiRequest) : W Response :=
  settings_admin id ≫= fun _ =>
  i ← decodeJSON o KThreatConfig r;
  or_err StatusBadRequest (app (ThreatEngine.SetThreatIntelConfig i)) ≫= fun _ =>
  log_action (id_Username id) "threatintel.config.update" "threat-intel" ("mode=" +:+ norm (tc_Mode i)) ≫= fun _ => answer_ok.

Definition handleThreatIntelSignatureConfigSet (id : Identity) (r : ApiRequest) : W Response :=
  settings_admin id ≫= fun _ =>
  i ← decodeJSON o KSignatureConfig r;
  or_err StatusBadRequest (app (SetThreatSignatureConfig (o_fetch o) (o_decode_bundle o) i)) ≫= fun _ =>
  log_action (id_Username id) "threatintel.signature.config.update" "threat-intel-signatures"
    ("enabled=" +:+ FormatBool (sc_Enabled i) +:+ ";auto_update=" +:+ FormatBool (sc_AutoUpdate i)) ≫= fun _ => answer_ok.

Definition handleThreatIntelFeedUpsert (id : Identity) (r : ApiRequest) : W Response :=
  settings_admin id ≫= fun _ =>
  i ← decodeJSON o KFeed r;
  out ← or_err StatusBadRequest (app (Feeds.UpsertThreatIntelFeed i));
  log_action (id_Username id) "threatintel.feed.upsert" (tf_Name out) (tf_URL out) ≫= fun _ =>
  mret (writeJSON StatusOK (RFeed out)).

Definition handleThreatIntelFeedDelete (p : gmap string string) (id : Identity) : W Response :=
  settings_admin id ≫= fun _ =>
  let feedID := param_id p "id" in
  refuse_if (feedID <=? 0) StatusBadRequest "invalid feed id" ≫= fun _ =>
  or_err StatusBadRequest (app (Feeds.DeleteThreatIntelFeed feedID)) ≫= fun _ =>
  log_action (id_Username id) "threatintel.feed.delete" (Itoa feedID) "" ≫= fun _ => answer_ok.

Definition handleThreatIntelSync (id : Identity) : W Response :=
  settings_admin id ≫= fun _ =>
  out ← or_err StatusBadRequest (app (SyncThreatIntelFeeds (o_fetch o) (o_decode_bundle o)));
  log_action (id_Username id) "threatintel.sync.manual" "threat-intel" "manual" ≫= fun _ =>
  mret (writeJSON StatusOK (RSync out)).

Definition handleThreatIntelActionBlock (id : Identity) (r : ApiRequest) : W Response :=
  settings_admin id ≫= fun _ =>
  '(ip, reason) ← decodeJSON o (KPair "ip" "reason") r;
  or_err StatusBadRequest (app (UpsertBlockedIP (TrimSpace ip) ("threat_intel_manual:" +:+ TrimSpace reason))) ≫= fun _ =>
  log_action (id_Username id) "threatintel.action.block" (TrimSpace ip) (TrimSpace reason) ≫= fun _ => answer_ok.

Definition handleThreatIntelActionAllow (id : Identity) (r : ApiRequest) : W Response :=
  settings_admin id ≫= fun _ =>
  '(ip, reason) ← decodeJSON o (KPair "ip" "reason") r;
  let ip := TrimSpace ip in
  refuse_if (String.eqb ip "") StatusBadRequest "ip required" ≫= fun _ =>
  app (RemoveBlockedIPFalsePositive ip) ≫= fun _ =>
  or_err StatusBadRequest (app (AddThreatIntelAllowIP ip (TrimSpace reason))) ≫= fun _ =>
  log_action (id_Username id) "threatintel.action.allow" ip (TrimSpace reason) ≫= fun _ => answer_ok.

Definition handleThreatIntelActionUnallow (id : Identity) (r : ApiRequest) : W Response :=
  settings_admin id ≫= fun _ =>
  ip ← decodeJSON o (KText "ip") r;
  or_err StatusBadRequest (app (RemoveThreatIntelAllowIP (TrimSpace ip))) ≫= fun _ =>
  log_action (id_Username id) "threatintel.action.unallow" (TrimSpace ip) "" ≫= fun _ => answer_ok.

(* ------------------------------------------------------------------ *)
(** ** The SSH bastion *)

Definition handleListSSHBastionRoutes (id : Identity) : W Response :=
  adminOrReadOnly id "admin or read-only required" ≫= fun _ =>
  items ← or_err StatusInternalServerError (store ListSSHBastionRoutes); mret (writeJSON StatusOK (RRoutes items)).

Definition handleUpsertSSHBastionRoute (id : Identity) (r : ApiRequest) : W Response :=
  globalAdmin id ≫= fun _ =>
  '(routeID, fqdn, target, port, enabled) ← decodeJSON o KSSHRoute r;
  out ← or_err StatusBadRequest (store (UpsertSSHBastionRoute
          (mkSSHBastionRoute routeID fqdn target port enabled 0 0)));
  log_action (id_Username id) "ssh.bastion.route.upsert" (sb_FQDN out) (sb_TargetHost out +:+ ":" +:+ Itoa (sb_TargetPort out)) ≫= fun _ =>
  mret (writeJSON StatusOK (RRoute out)).

Definition handleDeleteSSHBastionRoute (p : gmap string string) (id : Identity) : W Response :=
  globalAdmin id ≫= fun _ =>
  let routeID := param_id p "id" in
  refuse_if (routeID <=? 0) StatusBadRequest "invalid route id" ≫= fun _ =>
  or_err StatusBadRequest (store (DeleteSSHBastionRoute routeID)) ≫= fun _ =>
  log_action (id_Username id) "ssh.bastion.route.delete" (Itoa routeID) "" ≫= fun _ => answer_ok.

Definition redact (k : SSHBastionKey) : SSHBastionKey := k <| bk_PublicKey := "REDACTED" |> <| bk_Fingerprint := "REDACTED" |>.

Definition handleListSSHBastionKeys (id : Identity) : W Response :=
  adminOrReadOnly id "admin or read-only required" ≫= fun _ =>
  items ← or_err StatusInternalServerError (store ListSSHBastionKeys);
  mret (writeJSON StatusOK (RKeys (if String.eqb (id_IRole id) RoleReadOnly then map redact items else items))).

Definition handleImportSSHBastionKey (id : Identity) (r : ApiRequest) : W Response :=
  globalAdmin id ≫= fun _ =>
  '(name, publicKey, routeIDs) ← decodeJSON o KKeyImport r;
  key ← or_err StatusBadRequest (app (CreateSSHBastionKeyFromPublic (o_parse_authorized o) (o_fingerprint o) (o_marshal_authorized o) name publicKey routeIDs));
  log_action (id_Username id) "ssh.bastion.key.import" (bk_Name key) (bk_Fingerprint key) ≫= fun _ =>
  mret (writeJSON StatusOK (RKey key)).

Definition handleGenerateSSHBastionKey (id : Identity) (r : ApiRequest) : W Response :=
  globalAdmin id ≫= fun _ =>
  '(name, routeIDs) ← decodeJSON o KKeyGenerate r;
  out ← or_err StatusBadRequest (app (GenerateSSHBastionKey (o_fingerprint o) (o_marshal_authorized o) (o_keygen o) (o_new_public o)
          (o_marshal_private o) (o_has_puttygen o) (o_temp_io o) (o_puttygen o) name routeIDs));
  log_action (id_Username id) "ssh.bastion.key.generate" (bk_Name (kc_Key out)) (bk_Fingerprint (kc_Key out)) ≫= fun _ =>
  mret (writeJSON StatusOK (RKeyCreated out)).

Definition handleDeleteSSHBastionKey (p : gmap string string) (id : Identity) : W Response :=
  globalAdmin id ≫= fun _ =>
  let keyID := param_id p "id" in
  refuse_if (keyID <=? 0) StatusBadRequest "invalid key id" ≫= fun _ =>
  or_err StatusBadRequest (store (DeleteSSHBastionKey keyID)) ≫= fun _ =>
  log_action (id_Username id) "ssh.bastion.key.delete" (Itoa keyID) "" ≫= fun _ => answer_ok.
End system.
