(* ===== verification/ApiRouter.v ===== *)
(** [internal/api/server.go]: the table of routes, the guards of each group and the
    files of the web interface.

    The reading of a path is chi's, a parameter: it gives the number of a route in the
    table and the parameters of the path.  Metrics and request ids leave no trace. *)

From S2P Require Import Prelude GoString GoMonad GoTime GoFile GoNet GoCrypto Crypto NetUtil Model StoreDB StoreThreat StoreUsers Auth Service ApiCore ApiLogin ApiHosts ApiAdmin ApiSystem.
From Stdlib Require Import Ascii.
Open Scope Z_scope.

(** Who may call: anyone; who is known; who is known, with the token of the form; who
    may change hosts; administrators. *)
Inductive Group : Type := Public | Member | Own | HostsWrite | Admin.
#[export] Instance Group_eq_dec : EqDecision Group.
Proof. solve_decision. Defined.

Record Route := mkRoute {
  rt_Group : Group; rt_Method : string; rt_Pattern : string;
  rt_Handler : gmap string string -> Identity -> ApiRequest -> W Response
}.

Definition zero_Identity : Identity := mkIdentity 0 "" "" [] ∅ "".

(** [filepath.Ext]: from the last dot of the last element on. *)
Fixpoint ext_from (found : string) (s : string) : string :=
  match s with
  | "" => found
  | String c s' => if Ascii.eqb c "."%char then ext_from s s' else if Ascii.eqb c "/"%char then ext_from "" s' else ext_from found s'
  end.
Definition Ext (name : string) : string := ext_from "" name.

Definition contentTypeFor (name : string) : string :=
  let e := ToLower (Ext name) in
  if String.eqb e ".html" then "text/html; charset=utf-8"
  else if String.eqb e ".css" then "text/css; charset=utf-8"
  else if String.eqb e ".js" then "application/javascript; charset=utf-8"
  else if String.eqb e ".json" then "application/json; charset=utf-8"
  else if String.eqb e ".svg" then "image/svg+xml"
  else if String.eqb e ".png" then "image/png"
  else if String.eqb e ".jpg" || String.eqb e ".jpeg" then "image/jpeg"
  else "application/octet-stream".

Section router.
Context (o : Outside).

(** The middlewares of a group. *)
Definition guard (g : Group) (r : ApiRequest) : W Identity :=
  let with_csrf id := requireCSRF id r ≫= fun _ => mret id in
  match g with
  | Public => mret zero_Identity
  | Member => requireAuth o RoleReadOnly "" r
  | Own => id ← requireAuth o RoleReadOnly "" r; with_csrf id
  | HostsWrite => id ← requireAuth o RoleOperator "hosts:write" r; with_csrf id
  | Admin => id ← requireAuth o RoleAdmin "" r; with_csrf id
  end.

(** A handler of the path, the identity and the request, from one of fewer. *)
Local Abbreviation just h := (fun _ _ _ => h).
Local Abbreviation of_r h := (fun _ _ r => h r).
Local Abbreviation of_id h := (fun _ id _ => h id).
Local Abbreviation of_id_r h := (fun _ id r => h id r).
Local Abbreviation of_p_id h := (fun p id _ => h p id).

Definition public_routes : list Route :=
  [mkRoute Public "GET" "/healthz" (just (mret (writeJSON StatusOK RHealthy)));
   mkRoute Public "GET" "/api/v1/style" (just handlePublicStyle);
   mkRoute Public "GET" "/api/v1/csrf" (of_r handleCSRF);
   mkRoute Public "GET" "/api/v1/login/options" (just (handleLoginOptions o));
   mkRoute Public "GET" "/api/v1/setup/status" (just handleSetupStatus);
   mkRoute Public "POST" "/api/v1/setup/unlock" (of_r (handleSetupUnlock o));
   mkRoute Public "POST" "/api/v1/setup/restore/upload" (of_r (handleSetupRestoreUpload o));
   mkRoute Public "POST" "/api/v1/setup/restore/analyze" (of_r (handleSetupRestoreAnalyze o));
   mkRoute Public "POST" "/api/v1/setup/apply" (of_r (handleSetupApply o));
   mkRoute Public "POST" "/api/v1/login/start" (of_r (handleLoginStart o));
   mkRoute Public "POST" "/api/v1/login/password" (of_r (handleLoginPassword o));
   mkRoute Public "POST" "/api/v1/login/finish" (of_r (handleLoginFinish o));
   mkRoute Public "POST" "/api/v1/login/oidc/start" (of_r (handleLoginOIDCStart o));
   mkRoute Public "GET" "/api/v1/login/oidc/callback" (of_r (handleLoginOIDCCallback o));
   mkRoute Public "POST" "/api/v1/password-reset/consume" (of_r (handleConsumePasswordReset o))].

Definition member_routes : list Route :=
  [mkRoute Member "GET" "/api/v1/me" (of_id handleMe);
   mkRoute Member "GET" "/api/v1/me/profile" (of_id (handleMeProfileGet o));
   mkRoute Member "GET" "/api/v1/me/mfa/status" (of_id handleGetOwnMFAStatus);
   mkRoute Member "POST" "/api/v1/logout" (of_id_r handleLogout);
   mkRoute Member "GET" "/api/v1/domains" (of_id handleListDomains);
   mkRoute Member "GET" "/api/v1/domains/{id}/live-check" (of_p_id (handleDomainLiveCheck o));
   mkRoute Member "GET" "/api/v1/hosts" (of_id handleListHosts);
   mkRoute Member "GET" "/api/v1/hosts/diagnostics" (of_id (handleHostsDiagnostics o));
   mkRoute Member "GET" "/api/v1/traffic/overview" (of_id_r handleTrafficOverview);
   mkRoute Member "GET" "/api/v1/traffic/hosts/{id}" handleHostTraffic;
   mkRoute Member "GET" "/api/v1/traffic/countries" (of_id_r handleTrafficCountries);
   mkRoute Member "GET" "/api/v1/traffic/live" (of_id_r handleTrafficLive);
   mkRoute Member "GET" "/api/v1/audit" (of_id_r handleListAudit);
   mkRoute Member "GET" "/api/v1/security/ip-blocks" (of_id handleListBlockedIPs);
   mkRoute Member "GET" "/api/v1/threat-intel/config" (of_id handleThreatIntelConfigGet);
   mkRoute Member "GET" "/api/v1/threat-intel/signatures/config" (of_id handleThreatIntelSignatureConfigGet);
   mkRoute Member "GET" "/api/v1/threat-intel/feeds" (of_id handleThreatIntelFeedsList);
   mkRoute Member "GET" "/api/v1/threat-intel/matches" (of_id_r handleThreatIntelMatchesList);
   mkRoute Member "GET" "/api/v1/threat-intel/matches/{ip}/targets" handleThreatIntelTargetsByIP;
   mkRoute Member "GET" "/api/v1/threat-intel/traces/{trace}" handleThreatIntelTraceTimeline;
   mkRoute Member "GET" "/api/v1/threat-intel/offenders" (of_id_r handleThreatIntelOffendersList);
   mkRoute Member "GET" "/api/v1/threat-intel/blocked" (of_id_r handleThreatIntelBlockedList);
   mkRoute Member "GET" "/api/v1/threat-intel/geo" (of_id handleThreatIntelGeoList);
   mkRoute Member "GET" "/api/v1/threat-intel/allowlist" (of_id handleThreatIntelAllowlistList);
   mkRoute Member "GET" "/api/v1/settings" (of_id (handleGetSettings o));
   mkRoute Member "GET" "/api/v1/backup/settings" (of_id (handleBackupSettingsGet o));
   mkRoute Member "GET" "/api/v1/backup/archives" (of_id_r handleBackupArchivesList);
   mkRoute Member "GET" "/api/v1/users" (of_id handleListUsers);
   mkRoute Member "GET" "/api/v1/identity/permissions" (of_id handleListIdentityPermissions);
   mkRoute Member "GET" "/api/v1/identity/groups" (of_id handleListIdentityGroups);
   mkRoute Member "GET" "/api/v1/identity/matrix" (of_id handleIdentityMatrix);
   mkRoute Member "GET" "/api/v1/tokens" (of_id handleListTokens);
   mkRoute Member "GET" "/api/v1/ssh/routes" (of_id handleListSSHBastionRoutes);
   mkRoute Member "GET" "/api/v1/ssh/keys" (of_id handleListSSHBastionKeys)].

Definition own_routes : list Route :=
  [mkRoute Own "POST" "/api/v1/me/password" (of_id_r (handleChangeOwnPassword o));
   mkRoute Own "POST" "/api/v1/me/profile" (of_id_r (handleMeProfileSet o));
   mkRoute Own "POST" "/api/v1/me/mfa/enroll/start" (of_id (handleStartOwnMFAEnroll o));
   mkRoute Own "POST" "/api/v1/me/mfa/enroll/confirm" (of_id_r (handleConfirmOwnMFAEnroll o));
   mkRoute Own "POST" "/api/v1/me/mfa/disable" (of_id_r (handleDisableOwnMFA o))].

Definition host_routes : list Route :=
  [mkRoute HostsWrite "POST" "/api/v1/hosts/preflight" (of_id_r (handleHostPreflight o));
   mkRoute HostsWrite "POST" "/api/v1/hosts" (of_id_r (handleCreateHost o));
   mkRoute HostsWrite "PUT" "/api/v1/hosts/{id}" (handleUpdateHostRouting o);
   mkRoute HostsWrite "PUT" "/api/v1/hosts/{id}/auth" (handleSetHostAuth o);
   mkRoute HostsWrite "PUT" "/api/v1/hosts/{id}/geo" (handleSetHostGeoPolicy o);
   mkRoute HostsWrite "POST" "/api/v1/hosts/{id}/disable" (handleSetHostDisabled o);
   mkRoute HostsWrite "POST" "/api/v1/hosts/{id}/maintenance" (handleSetHostMaintenance o);
   mkRoute HostsWrite "POST" "/api/v1/hosts/{id}/retry" (of_p_id handleRetryHost);
   mkRoute HostsWrite "DELETE" "/api/v1/hosts/{id}" (of_p_id (handleDeleteHost o))].

Definition admin_routes : list Route :=
  [mkRoute Admin "POST" "/api/v1/domains/preflight" (of_id_r (handleDomainPreflight o));
   mkRoute Admin "POST" "/api/v1/domains" (of_id_r (handleUpsertDomain o));
   mkRoute Admin "POST" "/api/v1/domains/{id}/deactivate" (of_p_id handleDeactivateDomain);
   mkRoute Admin "DELETE" "/api/v1/domains/{id}" (of_p_id handleDeleteDomain);
   mkRoute Admin "POST" "/api/v1/dyndns" (of_r (handleDynDNSUpdate o));
   mkRoute Admin "POST" "/api/v1/secrets/cloudflare" (of_r (handleSetCloudflareToken o));
   mkRoute Admin "POST" "/api/v1/tokens" (of_id_r (handleCreateToken o));
   mkRoute Admin "DELETE" "/api/v1/tokens/{id}" (of_p_id handleRevokeToken);
   mkRoute Admin "POST" "/api/v1/password-reset/create" (of_id_r (handleCreatePasswordReset o));
   mkRoute Admin "POST" "/api/v1/settings" (of_id_r (handleSetSettings o));
   mkRoute Admin "POST" "/api/v1/reload" (of_id handleReloadService);
   mkRoute Admin "POST" "/api/v1/backup/settings" (of_id_r (handleBackupSettingsSet o));
   mkRoute Admin "POST" "/api/v1/backup/schedule/run" (of_id (handleBackupScheduleRunNow o));
   mkRoute Admin "POST" "/api/v1/backup/create" (of_id_r (handleBackupCreate o));
   mkRoute Admin "POST" "/api/v1/backup/analyze" (of_id_r (handleBackupAnalyze o));
   mkRoute Admin "POST" "/api/v1/backup/restore" (of_id_r (handleBackupRestore o));
   mkRoute Admin "POST" "/api/v1/backup/post-restore-check" (of_id (handleBackupPostRestoreCheck o));
   mkRoute Admin "POST" "/api/v1/backup/archives/{id}/restore" (handleBackupArchiveRestore o);
   mkRoute Admin "DELETE" "/api/v1/backup/archives/{id}" (of_p_id (handleBackupArchiveDelete o));
   mkRoute Admin "POST" "/api/v1/users" (of_id_r (handleCreateUser o));
   mkRoute Admin "PUT" "/api/v1/users/{id}" (handleUpdateUserAccess o);
   mkRoute Admin "PUT" "/api/v1/users/{id}/groups" (handleSetUserGroups o);
   mkRoute Admin "PUT" "/api/v1/users/{id}/domains" (handleSetUserDomains o);
   mkRoute Admin "PUT" "/api/v1/users/{id}/password" (handleSetUserPassword o);
   mkRoute Admin "POST" "/api/v1/users/{id}/mfa/reset" (of_p_id handleAdminResetUserMFA);
   mkRoute Admin "DELETE" "/api/v1/users/{id}" (of_p_id handleDeleteUser);
   mkRoute Admin "POST" "/api/v1/identity/groups" (of_id_r (handleCreateIdentityGroup o));
   mkRoute Admin "PUT" "/api/v1/identity/groups/{id}" (handleUpdateIdentityGroup o);
   mkRoute Admin "DELETE" "/api/v1/identity/groups/{id}" (of_p_id handleDeleteIdentityGroup);
   mkRoute Admin "POST" "/api/v1/logout-all" (of_id handleLogoutAll);
   mkRoute Admin "POST" "/api/v1/security/ip-blocks" (of_id_r (handleAddBlockedIP o));
   mkRoute Admin "POST" "/api/v1/security/ip-blocks/remove" (of_id_r (handleRemoveBlockedIP o));
   mkRoute Admin "POST" "/api/v1/ssh/routes" (of_id_r (handleUpsertSSHBastionRoute o));
   mkRoute Admin "DELETE" "/api/v1/ssh/routes/{id}" (of_p_id handleDeleteSSHBastionRoute);
   mkRoute Admin "POST" "/api/v1/ssh/keys/import" (of_id_r (handleImportSSHBastionKey o));
   mkRoute Admin "POST" "/api/v1/ssh/keys/generate" (of_id_r (handleGenerateSSHBastionKey o));
   mkRoute Admin "DELETE" "/api/v1/ssh/keys/{id}" (of_p_id handleDeleteSSHBastionKey);
   mkRoute Admin "POST" "/api/v1/threat-intel/config" (of_id_r (handleThreatIntelConfigSet o));
   mkRoute Admin "POST" "/api/v1/threat-intel/signatures/config" (of_id_r (handleThreatIntelSignatureConfigSet o));
   mkRoute Admin "POST" "/api/v1/threat-intel/feeds" (of_id_r (handleThreatIntelFeedUpsert o));
   mkRoute Admin "DELETE" "/api/v1/threat-intel/feeds/{id}" (of_p_id handleThreatIntelFeedDelete);
   mkRoute Admin "POST" "/api/v1/threat-intel/sync" (of_id (handleThreatIntelSync o));
   mkRoute Admin "POST" "/api/v1/threat-intel/actions/block" (of_id_r (handleThreatIntelActionBlock o));
   mkRoute Admin "POST" "/api/v1/threat-intel/actions/allow" (of_id_r (handleThreatIntelActionAllow o));
   mkRoute Admin "POST" "/api/v1/threat-intel/actions/unallow" (of_id_r (handleThreatIntelActionUnallow o))].

Definition routes : list Route := public_routes ++ member_routes ++ own_routes ++ host_routes ++ admin_routes.

(** The files of the interface; any other path shows its first page. *)
Definition static_file (path : string) : Response :=
  if HasPrefix path "/api/" then writeJSON StatusNotFound RNone
  else
    let clean := TrimPrefix (Clean path) "/" in
    let clean := if String.eqb clean "." || String.eqb clean "" then "index.html" else clean in
    let p := PathJoin "dist" clean in
    match o_assets o p with
    | Some b => writeJSON StatusOK (RFile (contentTypeFor p) b)
    | None => match o_assets o "dist/index.html" with
              | Some b => writeJSON StatusOK (RFile "text/html; charset=utf-8" b)
              | None => writeJSON StatusNotFound RNone
              end
    end.

(** The route of a request and the parameters of its path. *)
Definition route_for (r : ApiRequest) : option (Route * gmap string string) :=
  let q := ar_http r in
  match o_match o (rq_Method q) (rq_Path q) (map (fun rt => (rt_Method rt, rt_Pattern rt)) routes) with
  | Some (n, p) => (fun rt => (rt, p)) <$> nth_error routes n
  | None => None
  end.

Definition Router (r : ApiRequest) : W Response :=
  setupGateMiddleware r ≫= fun _ =>
  match route_for r with
  | Some (rt, p) => id ← guard (rt_Group rt) r; rt_Handler rt p id r
  | None => mret (if String.eqb (rq_Method (ar_http r)) "GET" then static_file (rq_Path (ar_http r))
                  else writeJSON StatusMethodNotAllowed RNone)
  end.
End router.
