(* ===== verification/ApiSafety.v ===== *)
(** What the guards and the checks of the administration API guarantee: who is let in,
    and what a domain admin, or a token limited to some domains, cannot reach. *)

From S2P Require Import SetupSafety.
From S2P Require Import Prelude GoString GoMonad GoTime GoNet GoCrypto Crypto NetUtil Mfa Model LogServers StoreDB Traffic StoreThreat StoreUsers StoreHosts StoreGroups StoreBastion StoreBackup.
From S2P Require Import Auth Service Vault Retention Hosts LiveChecks Settings Accounts Backup Setup BackupSchedule Feeds TrafficReports StoreViews ThreatViews BastionKeys.
From S2P Require Import ApiCore ApiLogin ApiHosts ApiAdmin ApiSystem ApiRouter.
From Stdlib Require Import Ascii.
Open Scope Z_scope.

(** The hosts of other domains, and the tables only administrators write. *)
Definition foreign (ids : list Z) (db : DB) : gmap Z Host :=
  filter (fun p : Z * Host => containsInt64 ids (h_DomainID p.2) = false) (t_hosts db).
Definition token_grants (db : DB) : gmap Z APIToken := (fun t => t <| tk_LastUsedAt := 0 |>) <$> t_api_tokens db.
Definition reserved (db : DB) :=
  (token_grants db, t_blocked_ips db, t_ssh_bastion_routes db, t_ssh_bastion_keys db).
Definition untouchable (db : DB) := (t_hosts db, reserved db).

Definition leaves {T} (p : DB -> T) {A} (m : W A) : Prop := w_keeps (on_app (on_env (same p))) m.

Create HintDb api_frame.
#[local] Hint Unfold SetSetting GetSetting Now audit AddAuditEvent GetUserByID FindUserByUsername SetUserPasswordHashByID random_bytes
  SetUserMFAState ConsumeUserMFARecoveryCode ResetUserMFA CountUserMFARecoveryCodesRemaining ListUsers GetUserDomainIDs
  GetDomainByID GetDomainByName GetHostByID StoreHosts.ListDomains ListHosts GetSecret : api_frame.

(** The tables are left alone: [autounfold] opens the operations of the store. *)
Ltac quiet_tac :=
  repeat first [ progress keeps_tac | progress intros | typeclasses eauto | apply keeps_svc; [typeclasses eauto|done]
               | apply keeps_db; autounfold with api_frame; keeps_db; done
               | apply keeps_exec; intros; by repeat case_match | apply keeps_modify_db; intros; by repeat case_match
               | apply keeps_db; autounfold with api_frame; keeps_db
               | autounfold with api_frame; progress keeps_db ].

Section quiet.
Context (o : Outside).

Local Abbreviation left_alone m := (keeps (on_env (same untouchable)) m).

Lemma api_audit a b c d : keeps (same untouchable) (audit a b c d).
Proof. quiet_tac. Qed.
Lemma quiet_setting k v : keeps (same untouchable) (SetSetting k v).
Proof. quiet_tac. Qed.
#[local] Hint Resolve api_audit quiet_setting keeps_random_db keeps_hash keeps_encrypt keeps_decrypt keeps_recovery_codes : go_keeps.

Lemma quiet_password userID a b : left_alone (ChangeOwnPassword (o_IDKey o) userID a b).
Proof. unfold ChangeOwnPassword, check_length, store_password. quiet_tac. Qed.
Lemma quiet_enroll userID name : left_alone (StartOwnMFAEnrollment (o_Seal o) userID name).
Proof. unfold StartOwnMFAEnrollment. quiet_tac. Qed.
Lemma quiet_confirm userID otp : left_alone (ConfirmOwnMFAEnrollment (o_Open o) userID otp).
Proof. unfold ConfirmOwnMFAEnrollment. quiet_tac. Qed.
Lemma quiet_disable userID a b : left_alone (DisableOwnMFA (o_IDKey o) (o_Open o) userID a b).
Proof. unfold DisableOwnMFA, totp_allowed. quiet_tac.
 Qed.
#[local] Hint Resolve quiet_password quiet_enroll quiet_confirm quiet_disable : go_keeps.

Lemma quiet_stored {A} key (f : string -> option A) d : left_alone (stored key f d).
Proof. unfold stored. quiet_tac. Qed.
Lemma quiet_setting_or {A} key (f : string -> A) d : left_alone (setting_or key f d).
Proof. apply keeps_setting_or; [typeclasses eauto|]. apply keeps_GetSetting. Qed.
#[local] Hint Resolve @quiet_stored @quiet_setting_or keeps_getRetentionPolicy : go_keeps.

Lemma quiet_load_secret name : left_alone (load_secret (o_Open o) name).
Proof. unfold load_secret. quiet_tac. Qed.
Lemma quiet_mfa_policy : left_alone getMFAPolicy.
Proof. unfold getMFAPolicy, read_flag. quiet_tac. Qed.
#[local] Hint Resolve quiet_load_secret quiet_mfa_policy : go_keeps.

Lemma quiet_call {A} c (answer : list DnsCall -> result A) : left_alone (dns_call c answer).
Proof. unfold dns_call. quiet_tac. Qed.
#[local] Hint Resolve @quiet_call : go_keeps.
Lemma quiet_resolve name : left_alone (resolveCloudflareZoneID (o_dns o) name).
Proof. unfold resolveCloudflareZoneID. quiet_tac. Qed.
#[local] Hint Resolve quiet_resolve : go_keeps.
Lemma quiet_zone d : left_alone (ensureDomainZoneID (o_dns o) d).
Proof. unfold ensureDomainZoneID, StoreHosts.UpsertDomain. quiet_tac. Qed.
#[local] Hint Resolve quiet_zone : go_keeps.

Lemma quiet_mfa_status userID : left_alone (GetOwnMFAStatus userID).
Proof. unfold GetOwnMFAStatus, isMFAPolicyRequiredForRole. quiet_tac. Qed.
Lemma api_live_check id : left_alone (RunDomainLiveCheck (o_nw o) (o_dns o) (o_detectPublicIPv4 o) (o_NewCloudflare o) (o_Open o) id).
Proof. unfold RunDomainLiveCheck, cloudflare_status, currentPublicIPv4, GetCloudflareToken. quiet_tac. Qed.
Lemma quiet_diagnostics : left_alone (GetHostsDiagnostics (o_nw o)).
Proof. unfold GetHostsDiagnostics. quiet_tac. Qed.
Lemma quiet_settings : left_alone (GetRuntimeSettings (o_decode_logs o) (o_decode_ldapset o) (o_decode_oidc o) (o_Open o)).
Proof.
  unfold GetRuntimeSettings, raw_setting, has_secret, loadLogServerSettings, GetLogHTTPBearer, getLDAPSettings, getOIDCSettings, GetCloudflareToken.
  quiet_tac.
Qed.
Lemma quiet_backup_settings : left_alone (GetBackupScheduleSettings (o_Open o)).
Proof. unfold GetBackupScheduleSettings. quiet_tac. Qed.
Lemma quiet_archives n : left_alone (ListBackupArchives n).
Proof. unfold ListBackupArchives, StoreBackup.ListBackupArchives. quiet_tac. Qed.
Lemma quiet_stats : left_alone GetBackupGeneralStats.
Proof. unfold GetBackupGeneralStats, StoreBackup.ListBackupArchives. quiet_tac. Qed.
Lemma quiet_users : left_alone ListManagedUsers.
Proof. unfold ListManagedUsers, ListUsersGroupMemberships, or_nil. quiet_tac. Qed.
Lemma quiet_templates : left_alone EnsureIdentityTemplates.
Proof.
  unfold EnsureIdentityTemplates, StoreGroups.ListPermissionGroups, ensure_template, StoreGroups.CreatePermissionGroup, insert_group, insert_entries.
  quiet_tac.
Qed.
#[local] Hint Resolve quiet_templates : go_keeps.
Lemma quiet_groups : left_alone ListPermissionGroups.
Proof. unfold ListPermissionGroups, StoreGroups.ListPermissionGroups, ListUsersGroupMemberships, ListPermissionGroupPermissions, or_nil. quiet_tac. Qed.
Lemma quiet_matrix : left_alone BuildPermissionMatrix.
Proof. unfold BuildPermissionMatrix, StoreGroups.ListPermissionGroups, ListUsersGroupMemberships, ListPermissionGroupPermissions, or_nil. quiet_tac. Qed.
Lemma quiet_tokens n : left_alone (Accounts.ListAPITokens n).
Proof. unfold Accounts.ListAPITokens, StoreUsers.ListAPITokens, GetAPITokenDomainIDs. quiet_tac. Qed.
Lemma quiet_signatures : left_alone GetThreatSignatureConfig.
Proof. unfold GetThreatSignatureConfig, isThreatSignatureEnabled, isThreatSignatureAutoUpdateEnabled, getThreatSignatureURL. quiet_tac. Qed.
Lemma quiet_threat_config : keeps (same untouchable) GetThreatIntelConfig.
Proof. unfold GetThreatIntelConfig, read_setting. quiet_tac. Qed.
Lemma quiet_overview h : keeps (same untouchable) (GetTrafficOverview h).
Proof. unfold GetTrafficOverview, since_hours, ListHostTrafficSummaries, query_sums. quiet_tac. Qed.
Lemma quiet_host_traffic k h : keeps (same untouchable) (GetHostTraffic k h).
Proof. unfold GetHostTraffic, since_hours, GetHostTrafficSeries, CountHostUniqueVisitors, query_sums. quiet_tac. Qed.
Lemma quiet_countries k h c : keeps (same untouchable) (GetTrafficCountries k h c).
Proof. unfold GetTrafficCountries, since_hours, ListTrafficCountries, ListHostCountryTraffic, query_sums. quiet_tac. Qed.

#[local] Hint Resolve quiet_threat_config : go_keeps.
Lemma quiet_view {A} hours page size (m : time -> Z -> Z -> SM (list A * Z)) :
  (forall a b c, keeps (same untouchable) (m a b c)) -> keeps (same untouchable) (page_from m hours page size).
Proof. intros H. unfold page_from. quiet_tac; apply H. Qed.
Lemma quiet_watched a b c d e : keeps (same untouchable) (ListThreatIntelMatches a b c d e).
Proof. unfold ListThreatIntelMatches. apply quiet_view. intros. unfold StoreViews.ListThreatIntelMatches, summing_query. quiet_tac. Qed.
Lemma quiet_offenders a b c : keeps (same untouchable) (ListThreatIntelOffenders a b c).
Proof. unfold ListThreatIntelOffenders. apply quiet_view. intros. unfold StoreViews.ListThreatIntelOffenders, summing_query. quiet_tac. Qed.
Lemma quiet_listed a b c d : left_alone (ListThreatIntelBlocked a b c d).
Proof.
  unfold ListThreatIntelBlocked. quiet_tac. apply quiet_view. intros. unfold StoreViews.ListThreatIntelBlocked, summing_query. quiet_tac.
Qed.
Lemma quiet_map_points : keeps (same untouchable) ListThreatIntelGeoPoints.
Proof. unfold ListThreatIntelGeoPoints, summing_query. quiet_tac. Qed.
Lemma quiet_targets a b c : keeps (same untouchable) (ListThreatIntelTargetsByIP a b c).
Proof. unfold ListThreatIntelTargetsByIP, StoreViews.ListThreatIntelTargetsByIP, summing_query. quiet_tac. Qed.
Lemma quiet_timeline a b : keeps (same untouchable) (GetThreatTraceTimeline a b).
Proof. unfold GetThreatTraceTimeline, ListTraceTimelineEntries, GetThreatTraceSubject, ListThreatTraceChain. quiet_tac. Qed.
#[local] Hint Resolve quiet_watched quiet_offenders quiet_listed quiet_map_points quiet_targets quiet_timeline : go_keeps.

Lemma quiet_each_host h c l : leaves untouchable (each_host h c l).
Proof. induction l as [|x l IH]; simpl; unfold leaves in *; w_tac; [apply quiet_countries|done]. Qed.
Lemma quiet_hosts : keeps (same untouchable) ListHosts.
Proof. quiet_tac. Qed.
Lemma quiet_host_by_id n : keeps (same untouchable) (GetHostByID n).
Proof. quiet_tac. Qed.
Lemma quiet_domain_by_name n : keeps (same untouchable) (GetDomainByName n).
Proof. quiet_tac. Qed.
#[local] Hint Resolve quiet_mfa_status api_live_check quiet_diagnostics quiet_settings quiet_backup_settings quiet_archives quiet_stats
  quiet_users quiet_groups quiet_matrix quiet_tokens quiet_signatures quiet_threat_config quiet_overview quiet_host_traffic
  quiet_countries quiet_each_host quiet_hosts quiet_host_by_id quiet_domain_by_name : go_keeps.

Lemma quiet_upsert p z n a : left_alone (dns_upsert p z n a).
Proof. unfold dns_upsert. quiet_tac. Qed.
#[local] Hint Resolve quiet_upsert : go_keeps.
Lemma quiet_public_ip : left_alone (ensurePublicIPv4 (o_dns o) (o_detectPublicIPv4 o)).
Proof. unfold ensurePublicIPv4, UpdatePublicIP, update_domain_records, currentPublicIPv4. quiet_tac. Qed.
#[local] Hint Resolve quiet_public_ip : go_keeps.
Lemma quiet_preflight d sub up tls ha m b : left_alone (RunHostPreflight (o_nw o) (o_dns o) (o_detectPublicIPv4 o) d sub up tls ha m b).
Proof. unfold RunHostPreflight, cloudflare_host_checks, FindHostByFQDN. quiet_tac. Qed.

(** A handler, down to the lemmas above; a change of the server that is none of the
    service. *)
Ltac quiet_handler :=
  unfold leaves; w_tac; first [ solve [eauto 2 with go_keeps] | apply quiet_each_host | apply w_keeps_changes; intros ?; done | solve [quiet_tac] | idtac ].

Lemma quiet_own rt p id r : rt ∈ own_routes o -> leaves untouchable (rt_Handler rt p id r).
Proof.
  unfold own_routes. intros H. repeat (apply elem_of_cons in H as [->|H]); [..|by apply elem_of_nil in H]; cbn [rt_Handler];
  unfold handleChangeOwnPassword, handleMeProfileSet, handleStartOwnMFAEnroll, handleConfirmOwnMFAEnroll, handleDisableOwnMFA,
    sessionOnly, set_email, set_layout, log_action, answer_ok; quiet_handler.
Qed.

Lemma quiet_member rt p id r : rt ∈ member_routes o -> leaves untouchable (rt_Handler rt p id r).
Proof.
  unfold member_routes. intros H. repeat (apply elem_of_cons in H as [->|H]); [..|by apply elem_of_nil in H]; cbn [rt_Handler];
  unfold handleMe, handleMeProfileGet, handleGetOwnMFAStatus, handleLogout, Logout, DeleteSession, handleListDomains, handleDomainLiveCheck,
    handleListHosts, handleHostsDiagnostics, handleTrafficOverview, handleHostTraffic, handleTrafficCountries, handleTrafficLive, handleListAudit,
    handleListBlockedIPs, handleThreatIntelConfigGet, handleThreatIntelSignatureConfigGet, handleThreatIntelFeedsList,
    handleThreatIntelAllowlistList, handleGetSettings, handleBackupSettingsGet, handleBackupArchivesList, handleListUsers,
    handleListIdentityPermissions, handleListIdentityGroups, handleIdentityMatrix, handleListTokens, handleListSSHBastionRoutes,
    handleListSSHBastionKeys, handleThreatIntelMatchesList, handleThreatIntelTargetsByIP, handleThreatIntelTraceTimeline,
    handleThreatIntelOffendersList, handleThreatIntelBlockedList, handleThreatIntelGeoList, requireTokenScope, adminOrReadOnly, sessionOnly, host_or_refuse, own_host, answer_ok, ListAuditEvents,
    ListBlockedIPs, ListThreatIntelFeeds, ListThreatIntelAllowIPs, ListSSHBastionRoutes, ListSSHBastionKeys; quiet_handler.
Qed.

(* ------------------------------------------------------------------ *)
(** ** Hosts of other domains *)

(** Names of domains as [Hosts.UpsertDomain] writes them: trimmed. *)
Definition names_trimmed (db : DB) : Prop := map_Forall (fun _ d => TrimSpace (d_Name d) = d_Name d) (t_domains db).

Lemma upsert_trimmed d : TrimSpace (d_Name d) = d_Name d -> keeps (inv names_trimmed) (StoreHosts.UpsertDomain d).
Proof.
  intros Hd. unfold StoreHosts.UpsertDomain, Now, GetDomainByName. keeps_inv. intros db H. unfold names_trimmed.
  destruct (domain_by_name (d_Name d) db) as [old|] eqn:E; simpl; apply map_Forall_insert_2; simpl; try done.
  unfold domain_by_name in E. apply find_row_Some in E as [_ [k Hk]]. exact (H _ _ Hk).
Qed.
(** The operations on hosts and domains keep them trimmed, the service naming domains by [norm]. *)
Lemma ops_trimmed op : match op with OpUpsertDomain d => exists raw, d_Name d = norm raw | _ => True end ->
  keeps (inv names_trimmed) (run_op op).
Proof.
  assert (Hsame : forall A (m : SM A), keeps (same t_domains) m -> keeps (inv names_trimmed) m).
  { intros A m H e. destruct (H e) as [E _]. unfold inv, names_trimmed. by rewrite E. }
  destruct op; cbn [run_op]; intros Hop.
  - apply Hsame. unfold StoreHosts.CreateHost, transitionHostState, GetHostByID. keeps_db.
  - apply Hsame. unfold SetHostState, update_host, transitionHostState, GetHostByID. keeps_db.
  - apply Hsame. unfold UpdateHostAuth, update_host, GetHostByID. keeps_db.
  - apply Hsame. unfold StoreHosts.UpdateHostRouting, update_host, GetHostByID. keeps_db.
  - apply Hsame. unfold UpdateHostGeoPolicy, update_host, GetHostByID. keeps_db.
  - apply Hsame. unfold StoreHosts.RemoveHost. keeps_db.
  - destruct Hop as [raw Hraw]. apply keeps_bind; [typeclasses eauto| |intros; apply keeps_ret; typeclasses eauto]. apply upsert_trimmed.
    rewrite Hraw. unfold norm. by rewrite TrimSpace_ToLower, TrimSpace_idem.
  - unfold SetDomainStatus, Now. keeps_inv. intros db H. unfold names_trimmed. simpl. intros k d Hd.
    apply lookup_alter_Some in Hd as [(<- & d0 & Hd0 & ->)|(_ & Hd)]; [exact (H _ _ Hd0)|exact (H _ _ Hd)].
  - unfold StoreHosts.RemoveDomain. keeps_inv. intros db H k d Hd. unfold delete_domain_rows in Hd. simpl in Hd.
    apply lookup_delete_Some in Hd as [_ Hd]. exact (H _ _ Hd).
Qed.

Section confined.
Context (ids : list Z).

Definition tables (s : Server) : DB := e_db (s_env (sv_app s)).
(** What an identity of the domains [ids] must leave. *)
Definition beyond (db : DB) := (foreign ids db, reserved db).
Definition confined (s s' : Server) : Prop := beyond (tables s') = beyond (tables s).
#[export] Instance confined_preorder : PreOrder confined.
Proof. split; unfold confined; [done|congruence]. Qed.

(** The tables while a handler works on the host of row [k], which is in one of the domains. *)
Definition held (k : Z) (v : gmap Z Host * _) (db : DB) : Prop :=
  beyond db = v /\ forall h, t_hosts db !! k = Some h -> containsInt64 ids (h_DomainID h) = true.
Local Abbreviation holding k v m := (keeps (inv (held k v)) m).

Lemma held_same k v {A} (m : SM A) : keeps (same untouchable) m -> holding k v m.
Proof.
  intros H e. destruct (H e) as [E _]. unfold untouchable in E. injection E as E1 E2 E3 E4 E5.
  unfold inv, held, beyond, foreign, reserved. by rewrite E1, E2, E3, E4, E5.
Qed.

Lemma held_update k v f : (forall h, h_DomainID (f h) = h_DomainID h) -> holding k v (update_host k f).
Proof.
  intros Hf. unfold update_host, Now. keeps_inv. intros db [<- Hk]. split.
  - unfold beyond, foreign. apply (f_equal2 pair); [|done]. simpl. apply map_eq. intros j. rewrite !map_lookup_filter. destruct (decide (k = j)) as [<-|Hne].
    + rewrite lookup_alter_eq. destruct (t_hosts db !! k) as [h|] eqn:E; [|done]. simpl. rewrite Hf, (Hk _ eq_refl). by rewrite !option_guard_False.
    + by rewrite lookup_alter_ne.
  - simpl. intros h. rewrite lookup_alter_eq. destruct (t_hosts db !! k) as [h0|] eqn:E; [|done]. intros [= <-]. simpl. rewrite Hf. by apply Hk.
Qed.

Lemma held_transition k v j a b c : holding k v (transitionHostState j a b c).
Proof. unfold transitionHostState, Now. keeps_inv. intros db _ H. exact H. Qed.

Lemma held_state k v st reason : holding k v (SetHostState k st reason).
Proof. unfold SetHostState, GetHostByID. keeps_inv; [by apply held_update|apply held_transition]. Qed.

Lemma held_remove k v : holding k v (StoreHosts.RemoveHost k).
Proof.
  unfold StoreHosts.RemoveHost. keeps_inv. intros db [<- Hk]. split.
  - unfold beyond, foreign. apply (f_equal2 pair); [|done]. simpl. apply map_eq. intros j. unfold keep_keys. rewrite !map_lookup_filter.
    destruct (t_hosts db !! j) as [h|] eqn:E; [|done]. simpl. destruct (decide (k = j)) as [<-|Hne].
    + rewrite (option_guard_False (negb _ = true)) by (rewrite Z.eqb_refl; done). simpl. rewrite (Hk _ E). by rewrite option_guard_False.
    + rewrite option_guard_True; [done|]. by rewrite (proj2 (Z.eqb_neq k j)).
  - simpl. unfold keep_keys. intros h [H _]%map_lookup_filter_Some. by apply Hk.
Qed.

Local Abbreviation holds k v m := (keeps (on_env (inv (held k v))) m).

Lemma holds_left_alone k v {A} (m : AM A) : left_alone m -> holds k v m.
Proof.
  intros H s. destruct (H s) as [E _]. unfold untouchable in E. injection E as E1 E2 E3 E4 E5.
  unfold on_env, inv, held, beyond, foreign, reserved. by rewrite E1, E2, E3, E4, E5.
Qed.

Lemma held_get k v n : holding k v (GetHostByID n).
Proof. apply held_same, quiet_host_by_id. Qed.
#[local] Hint Resolve held_get held_state held_remove : go_keeps.

Ltac held_tac :=
  repeat first [ progress keeps_tac | progress intros | typeclasses eauto | apply keeps_svc; [typeclasses eauto|done]
               | apply held_update; done | apply keeps_db ];
  try (apply holds_left_alone; solve [eauto 2 with go_keeps | quiet_tac]); try (apply held_same; solve [quiet_tac]).

Lemma holds_routing k v a b c d e f : holds k v (UpdateHostRouting k a b c d e f).
Proof. unfold UpdateHostRouting, StoreHosts.UpdateHostRouting. held_tac. Qed.
Lemma holds_auth k v a b c : holds k v (SetHostAuth (o_IDKey o) k a b c).
Proof. unfold SetHostAuth, UpdateHostAuth. held_tac. Qed.
Lemma holds_geo k v a b : holds k v (SetHostGeoPolicy k a b).
Proof. unfold SetHostGeoPolicy, UpdateHostGeoPolicy. held_tac. Qed.
Lemma holds_switch k v a b c d : holds k v (switch_state k a b c d).
Proof. unfold switch_state. held_tac. Qed.
Lemma holds_retry k v : holds k v (RetryHost k).
Proof. unfold RetryHost. held_tac. Qed.
Lemma holds_remove k v : holds k v (RemoveHost (o_dns o) k).
Proof. unfold RemoveHost, wrapped, dns_delete. held_tac. Qed.

(** ** A new host in one of the domains *)

Lemma create_row_held d sub fqdn prof up tls ha mode backs e :
  containsInt64 ids d = true ->
  wp (StoreHosts.CreateHost d sub fqdn prof up tls ha mode backs) (fun r e' => beyond (e_db e') = beyond (e_db e) /\
        forall h, r = Ok h -> held (h_ID h) (beyond (e_db e)) (e_db e')) e.
Proof.
  intros Hd. unfold StoreHosts.CreateHost. apply wp_bind, wp_gets. cbv beta. apply wp_bind, wp_exec_checked; intros fs; [done| |done].
  intros _. cbv beta.
  set (n := new_host_id (e_db e)).
  set (db1 := (e_db e) <| t_sqlite_sequence ::= <["hosts" := n]> |> <| t_hosts ::= <[n := new_host n d sub fqdn prof up tls ha mode backs (e_now e)]> |>).
  assert (Hh : held n (beyond (e_db e)) db1).
  { split.
    - unfold beyond, foreign. apply (f_equal2 pair); [|done]. simpl. rewrite map_filter_insert_False by (simpl; by rewrite Hd).
      by rewrite delete_id by apply new_host_id_free.
    - simpl. intros h. rewrite lookup_insert_eq. by intros [= <-]. }
  assert (Hs : t_sqlite_sequence db1 !! "hosts" = Some n) by (simpl; by rewrite lookup_insert_eq).
  apply wp_bind, wp_gets. cbv beta.
  change (wp (transitionHostState (default 0 (t_sqlite_sequence db1 !! "hosts")) "" "created" "initial" ≫= fun _ => GetHostByID (default 0 (t_sqlite_sequence db1 !! "hosts")))
    (fun r e' => beyond (e_db e') = beyond (e_db e) /\ forall h, r = Ok h -> held (h_ID h) (beyond (e_db e)) (e_db e')) (e <| e_db := db1 |> <| e_faults := fs |>)).
  rewrite Hs. simpl default. unfold transitionHostState.
  apply wp_bind. apply wp_bind, wp_gets, wp_exec_checked; intros fs'; [by split; [apply Hh|]| |by split; [apply Hh|]]. intros _.
  unfold GetHostByID. apply wp_query_row; intros fs''; [by split; [apply Hh|]| |by split; [apply Hh|]]. intros h Hrow.
  split; [apply Hh|]. intros ? [= <-]. simpl in Hrow. rewrite lookup_insert_eq in Hrow. injection Hrow as <-. exact Hh.
Qed.

Lemma holds_or_error k v {A} reason (m : AM A) : left_alone m -> holds k v (dns_or_error k reason m).
Proof. intros Hm. unfold dns_or_error. held_tac; by apply holds_left_alone. Qed.

Lemma create_confined domain sub prof up tls ha mode backs s :
  (forall d, domain_by_name (ToLower domain) (e_db (s_env s)) = Some d -> containsInt64 ids (d_ID d) = true) ->
  wp (CreateHost (o_dns o) (o_detectPublicIPv4 o) domain sub prof up tls ha mode backs)
     (fun _ s' => beyond (e_db (s_env s')) = beyond (e_db (s_env s))) s.
Proof.
  intros Hd. unfold CreateHost. apply db_bind. unfold GetDomainByName. apply wp_query_row; intros fs; [done| |done]. intros d Hdom.
  apply wp_bind, wp_fail_if; intros _; [done|]. cbv zeta.
  apply wp_bind. unfold lift, wp at 1. destruct (validateRoutingInput _ _ _ _) as [[[u m] bs]|x]; [|done]. cbv beta iota.
  apply db_bind. eapply wp_mono; [apply create_row_held; by apply Hd|]. intros [h|x] e1 [H1 H2]; [|exact H1].
  specialize (H2 h eq_refl). cbn [s_env upd_field e_db] in H2.
  eapply (wp_keeps (on_env (inv (held (h_ID h) (beyond (e_db (s_env s))))))); [|intros r s' H; exact (proj1 (H H2))].
  pose proof holds_or_error as Hor. held_tac; try (apply Hor; eauto 2 with go_keeps). 
Qed.

Lemma domain_named name d db : names_trimmed db -> domain_by_name (ToLower name) db = Some d -> domain_by_name (ToLower (TrimSpace name)) db = Some d.
Proof.
  intros Ht H. assert (E : ToLower (TrimSpace name) = ToLower name); [|by rewrite E].
  assert (Hd : d_Name d = ToLower name /\ exists k, t_domains db !! k = Some d).
  { unfold domain_by_name, find_row in H. apply find_some in H as [Hin Heq]. split; [by apply String.eqb_eq|].
    apply list_elem_of_In, elem_of_rows in Hin. exact Hin. }
  destruct Hd as [En [k Hk]]. specialize (Ht _ _ Hk). simpl in Ht. rewrite En in Ht. by rewrite <- TrimSpace_ToLower.
Qed.
End confined.

Section host_handlers.
Context (id : Identity) (Hr : restricted id = true).
Local Abbreviation ids := (id_DomainIDs id).
Definition confines (m : W Response) : Prop := forall s, names_trimmed (tables s) ->
  w_wp m (fun _ s' => confined ids s s') s.

Lemma confines_quiet m : leaves untouchable m -> confines m.
Proof.
  intros H s _. eapply w_wp_keeps; [exact H|]. intros _ s' [E _]. unfold untouchable in E. injection E as E1 E2 E3 E4 E5.
  unfold confined, beyond, tables, foreign, reserved. by rewrite E1, E2, E3, E4, E5.
Qed.

Lemma confines_scope scope m : confines m -> confines (requireTokenScope id scope ≫= fun _ => m).
Proof. intros H s H1. apply w_wp_bind, w_wp_refuse; [done|intros _; by apply H]. Qed.

Lemma host_or_refuse_wp k s :
  w_wp (host_or_refuse id k) (fun r s' => tables s' = tables s /\
    (r = inr tt -> forall h, t_hosts (tables s) !! k = Some h -> containsInt64 ids (h_DomainID h) = true)) s.
Proof.
  unfold host_or_refuse. apply w_wp_bind, w_wp_or_err, w_wp_store. unfold GetHostByID. apply wp_query_row; intros fs; [done| |done]. intros h Hh.
  unfold own_host. rewrite Hr. apply w_wp_refuse; [done|]. intros Hc. split; [done|]. intros _ h' Hh'. change (t_hosts (tables s) !! k = Some h) in Hh.
  simplify_eq. by apply negb_false_iff in Hc.
Qed.

Lemma confines_host k m : (forall v, w_keeps (on_app (on_env (inv (held ids k v)))) m) -> confines (host_or_refuse id k ≫= fun _ => m).
Proof.
  intros H s _. apply w_wp_bind. eapply w_wp_mono; [apply host_or_refuse_wp|]. intros [x|[]] s1 [E Hk]; [unfold confined; by rewrite E|].
  eapply w_wp_keeps; [apply (H (beyond ids (tables s)))|]. intros r s2 H2. unfold confined. apply H2. split; [unfold tables in E; by rewrite E|].
  unfold tables in E. rewrite E. by apply Hk.
Qed.

Lemma own_domain_wp name s :
  w_wp (own_domain id name) (fun r s' => tables s' = tables s /\
    (r = inr tt -> exists d, domain_by_name (ToLower (TrimSpace name)) (tables s) = Some d /\ containsInt64 ids (d_ID d) = true)) s.
Proof.
  unfold own_domain. rewrite Hr. apply w_wp_bind, w_wp_or_answer, w_wp_store. unfold GetDomainByName. apply wp_query_row; intros fs; [done| |done].
  intros d Hd. apply w_wp_refuse; [done|]. intros Hc. split; [done|]. intros _. exists d. split; [exact Hd|]. by apply negb_false_iff in Hc.
Qed.

Lemma confines_create r : confines (handleCreateHost o id r).
Proof.
  unfold handleCreateHost. apply confines_scope. intros s H2. apply w_wp_bind. refine (w_wp_decode o KHost r _ s _ _); [done|]. intros [[domain sub] i].
  apply w_wp_bind. eapply w_wp_mono; [apply own_domain_wp|]. intros [x|[]] s1 [E Hd]; [unfold confined; by rewrite E|].
  destruct (Hd eq_refl) as (d & Hd1 & Hd2). apply w_wp_bind, w_wp_or_err, w_wp_app.
  assert (Hdb : e_db (s_env (sv_app s1)) = tables s) by (exact E).
  eapply wp_mono; [apply create_confined|].
  - rewrite Hdb. intros d' Hd'. apply domain_named in Hd'; [|done]. rewrite Hd1 in Hd'. by injection Hd' as <-.
  - rewrite Hdb. intros [h|x] a Ha; [|exact Ha]. eapply (w_wp_keeps (on_app (on_env (same untouchable)))).
    + unfold log_action. w_tac. apply api_audit.
    + intros r' s' [Eu _]. unfold untouchable in Eu. injection Eu as E1 E2 E3 E4 E5.
      unfold confined. rewrite <- Ha. unfold beyond, foreign, reserved, tables in *. simpl in *. by rewrite E1, E2, E3, E4, E5.
Qed.

Lemma confines_hosts_write rt p r : rt ∈ host_routes o -> confines (rt_Handler rt p id r).
Proof.
  unfold host_routes. intros H. repeat (apply elem_of_cons in H as [->|H]); [..|by apply elem_of_nil in H]; cbn [rt_Handler];
  unfold handleHostPreflight, handleUpdateHostRouting, handleSetHostAuth, handleSetHostGeoPolicy, handleSetHostDisabled,
    handleSetHostMaintenance, handleRetryHost, handleDeleteHost; try rewrite Hr; cbv zeta; try apply confines_create.
  1: { apply confines_quiet. unfold own_domain, requireTokenScope. rewrite Hr. quiet_handler. apply quiet_preflight. }
  all: apply confines_scope, confines_host; intros v; unfold log_action, answer_ok, SetHostDisabled, SetHostMaintenance;
    w_tac; first [apply holds_routing | apply holds_auth | apply holds_geo | apply holds_switch | apply holds_retry | apply holds_remove
                 | apply held_same, api_audit].
Qed.
End host_handlers.

(* ------------------------------------------------------------------ *)
(** ** The guards *)

(** What the gate of the setup and the look at the caller leave. *)
Definition core (db : DB) :=
  (untouchable db, t_domains db, t_users db, t_sessions db, t_secrets db, t_permission_groups db, t_sqlite_sequence db !! "hosts").
Local Abbreviation core_kept m := (keeps (same core) m).

Lemma core_audit a b c d : core_kept (audit a b c d).
Proof.
  unfold audit, AddAuditEvent, Now. keeps_db. apply keeps_exec. intros db. unfold core, insert_audit. simpl.
  by rewrite lookup_insert_ne.
Qed.
#[local] Hint Resolve core_audit : go_keeps.

Lemma core_lookup bearer : core_kept (LookupAPIToken bearer).
Proof.
  unfold LookupAPIToken, GetAPITokenDomainIDs, Now. keeps_db. apply keeps_exec. intros db. unfold core, untouchable, reserved, token_grants. simpl.
  assert (E : forall k x (m : gmap Z APIToken), (fun t => t <| tk_LastUsedAt := 0 |>) <$> alter (fun t => t <| tk_LastUsedAt := x |>) k m =
    (fun t => t <| tk_LastUsedAt := 0 |>) <$> m); [|by rewrite E].
  intros k x m. apply map_eq. intros j. rewrite !lookup_fmap. destruct (decide (k = j)) as [<-|Hne].
  - rewrite lookup_alter_eq. by destruct (m !! k).
  - by rewrite lookup_alter_ne.
Qed.
Lemma core_blocked source : core_kept (source_blocked source).
Proof. apply keeps_source_blocked. Qed.
#[local] Hint Resolve core_lookup core_blocked : go_keeps.

Lemma core_resolve q : core_kept (ResolveIdentity (o_auth o) q).
Proof. unfold ResolveIdentity, resolve_session, GetSession, GetUserByID, GetUserDomainIDs, Now. keeps_db. Qed.

Lemma core_gate : keeps (on_env (same core)) GetSetupStatus.
Proof.
  unfold GetSetupStatus, ensureSetupStateLocked, rotateOTSLocked, set_initialized, with_setup, GetSetting, SetSetting, CountUsers, random_bytes, Now.
  quiet_tac.
Qed.

Definition needed_role (g : Group) : Role := match g with HostsWrite => RoleOperator | Admin => RoleAdmin | _ => RoleReadOnly end.
Definition needed_scope (g : Group) : string := match g with HostsWrite => "hosts:write" | _ => "" end.
(** The form was sent by a page that can read the cookie; tokens are exempt. *)
Definition csrf_ok (id : Identity) (r : ApiRequest) : bool :=
  is_token id || match cookie_of r "domnex_csrf" with Some v => negb (String.eqb v "") && String.eqb v (header (ar_http r) "X-Csrf-Token") | None => false end.
Definition entitled (g : Group) (id : Identity) (r : ApiRequest) : bool :=
  RoleAllows (id_IRole id) (needed_role g) && (String.eqb (needed_scope g) "" || ScopeAllows (id_Scopes id) (needed_scope g)) &&
  (bool_decide (g = Member) || csrf_ok id r).

(** Who calls, and the server after the look: the session or the token, behind the gate. *)
Definition after_gate (r : ApiRequest) (s : Server) : Server := (setupGateMiddleware r s).2.
Definition look (r : ApiRequest) (s : Server) : result Identity * Server :=
  let '(x, e) := ResolveIdentity (o_auth o) (ar_http r) (s_env (sv_app s)) in (x, s <| sv_app := (sv_app s) <| s_env := e |> |>).
Definition caller (r : ApiRequest) (s : Server) : result Identity := (look r (after_gate r s)).1.
Definition gate_open (r : ApiRequest) (s : Server) : Prop := (setupGateMiddleware r s).1 = inr tt.

Definition refused_with (c : Z) (s : Server) (x : (Response + Identity) * Server) : Prop := exists a, x = (inl a, s) /\ an_Code a = c.

Lemma csrf_run id r s : (requireCSRF id r ≫= fun _ => mret id) s = (inr id, s) /\ csrf_ok id r = true \/
  refused_with StatusForbidden s ((requireCSRF id r ≫= fun _ => mret id) s) /\ csrf_ok id r = false.
Proof.
  unfold requireCSRF, csrf_ok. destruct (is_token id); [by left|]. simpl. destruct (cookie_of r "domnex_csrf") as [v|]; [|right; split; [by eexists|done]].
  destruct (v =? "")%string eqn:Ev; simpl; [right; split; [by eexists|done]|].
  destruct (v =? header (ar_http r) "X-Csrf-Token")%string eqn:E; simpl.
  - left. split; [|done]. apply String.eqb_eq in E. subst v. by rewrite Ev.
  - right. rewrite orb_true_r. split; [by eexists|done].
Qed.

Lemma guard_run g r s : g <> Public ->
  match look r s with
  | (Ok id, s1) => guard o g r s = (inr id, s1) /\ entitled g id r = true \/ refused_with StatusForbidden s1 (guard o g r s) /\ entitled g id r = false
  | (Err _, s1) => guard o g r s = (inl (writeErr StatusUnauthorized "unauthorized"), s1)
  end.
Proof.
  intros Hg. assert (Hauth : forall role scope, match look r s with
    | (Ok id, s1) => let b := RoleAllows (id_IRole id) role && (String.eqb scope "" || ScopeAllows (id_Scopes id) scope) in
        if b then requireAuth o role scope r s = (inr id, s1) else refused_with StatusForbidden s1 (requireAuth o role scope r s)
    | (Err _, s1) => requireAuth o role scope r s = (inl (writeErr StatusUnauthorized "unauthorized"), s1) end).
  { intros role scope. unfold look, requireAuth, or_answer, store, app, db, zoom, mbind, W_bind. destruct (ResolveIdentity _ _ _) as [[id|x] e]; [|done]. simpl.
    destruct (RoleAllows (id_IRole id) role); simpl; [|by eexists]. destruct (scope =? "")%string; simpl; [done|].
    destruct (ScopeAllows (id_Scopes id) scope); simpl; [done|by eexists]. }
  unfold guard, entitled. destruct g; [done|..]; cbn [needed_role needed_scope];
  match goal with |- context [requireAuth o ?role ?scope] => specialize (Hauth role scope) end; destruct (look r s) as [[id|x] s1]; cbv zeta in *;
    try (rewrite (w_bind_stop _ _ _ _ _ Hauth); done); try exact Hauth.
  all: destruct (RoleAllows _ _ && _) eqn:Ea; [|right; split; [|done]; destruct Hauth as (a & Ha & Hc)].
  - left. by rewrite Hauth.
  - by exists a.
  - rewrite (w_bind_ok _ _ _ _ _ Hauth). destruct (csrf_run id r s1) as [[-> ->]|[H ->]]; [by left|by right].
  - rewrite (w_bind_stop _ _ _ _ _ Ha). by exists a.
  - rewrite (w_bind_ok _ _ _ _ _ Hauth). destruct (csrf_run id r s1) as [[-> ->]|[H ->]]; [by left|by right].
  - rewrite (w_bind_stop _ _ _ _ _ Ha). by exists a.
  - rewrite (w_bind_ok _ _ _ _ _ Hauth). destruct (csrf_run id r s1) as [[-> ->]|[H ->]]; [by left|by right].
  - rewrite (w_bind_stop _ _ _ _ _ Ha). by exists a.
Qed.

Lemma admin_only role : RoleAllows role RoleAdmin = true -> role = RoleAdmin.
Proof. unfold RoleAllows, rank. change (rank RoleAdmin) with 3. destruct (role =? RoleAdmin)%string eqn:E; [by intros _; apply String.eqb_eq|]. by repeat case_match. Qed.

Lemma gate_core r s : core (tables (after_gate r s)) = core (tables s).
Proof.
  assert (H : w_keeps (on_app (on_env (same core))) (setupGateMiddleware r)).
  { unfold setupGateMiddleware. w_tac. apply core_gate. }
  apply (H s).
Qed.
Lemma look_core r s : core (tables (look r s).2) = core (tables s).
Proof.
  unfold look. pose proof (core_resolve (ar_http r) (s_env (sv_app s))) as [H _]. by destruct (ResolveIdentity _ _ _) as [x e].
Qed.

(** C3. Behind the guards: for every request to a route that is not public and passes the
    gate of the setup, the handler runs exactly when there is a session or a token of
    the role and the scope the group asks for and, where the group changes something,
    a session has sent the token of the form.  Any other request is answered 401 or
    403, and users, sessions, hosts, domains, secrets, groups, what tokens grant, the
    block list and the keys are what they were. *)
Theorem guards_decide rt p r s (Hroute : route_for o r = Some (rt, p)) (Hgroup : rt_Group rt <> Public) (Hgate : gate_open r s) :
  let '(x, s1) := look r (after_gate r s) in
  match x with
  | Ok id => entitled (rt_Group rt) id r = true /\ serve (Router o r) s = serve (rt_Handler rt p id r) s1 \/
             entitled (rt_Group rt) id r = false /\ an_Code (serve (Router o r) s).1 = StatusForbidden /\ core (tables (serve (Router o r) s).2) = core (tables s)
  | Err _ => an_Code (serve (Router o r) s).1 = StatusUnauthorized /\ core (tables (serve (Router o r) s).2) = core (tables s)
  end.
Proof.
  pose proof (guard_run (rt_Group rt) r (after_gate r s) Hgroup) as Hg. pose proof (look_core r (after_gate r s)) as Hl. rewrite gate_core in Hl.
  assert (E : Router o r s = (id ← guard o (rt_Group rt) r; rt_Handler rt p id r) (after_gate r s)).
  { unfold Router, after_gate, gate_open in *. rewrite (w_bind_ok _ _ s tt (setupGateMiddleware r s).2) by (rewrite (surjective_pairing (setupGateMiddleware r s)); by f_equal).
    by rewrite Hroute. }
  destruct (look r (after_gate r s)) as [[id|x] s1]; simpl in Hl.
  - destruct Hg as [[Hg Hent]|[(a & Hg & Hc) Hent]].
    + left. split; [done|]. unfold serve. by rewrite E, (w_bind_ok _ _ _ _ _ Hg).
    + right. split; [done|]. unfold serve. by rewrite E, (w_bind_stop _ _ _ _ _ Hg).
  - unfold serve. by rewrite E, (w_bind_stop _ _ _ _ _ Hg).
Qed.

(** The routes of a group. *)
Lemma route_group rt : rt ∈ routes o ->
  match rt_Group rt with
  | Public => True | Member => rt ∈ member_routes o | Own => rt ∈ own_routes o | HostsWrite => rt ∈ host_routes o | Admin => rt ∈ admin_routes o
  end.
Proof.
  assert (H : forall g l, Forall (fun x => rt_Group x = g) l -> rt ∈ l -> rt_Group rt = g) by (intros g l Hl; by rewrite Forall_forall in Hl; apply Hl).
  assert (H1 : Forall (fun x => rt_Group x = Public) (public_routes o)) by (unfold public_routes; repeat constructor).
  assert (H2 : Forall (fun x => rt_Group x = Member) (member_routes o)) by (unfold member_routes; repeat constructor).
  assert (H3 : Forall (fun x => rt_Group x = Own) (own_routes o)) by (unfold own_routes; repeat constructor).
  assert (H4 : Forall (fun x => rt_Group x = HostsWrite) (host_routes o)) by (unfold host_routes; repeat constructor).
  assert (H5 : Forall (fun x => rt_Group x = Admin) (admin_routes o)) by (unfold admin_routes; repeat constructor).
  unfold routes. rewrite !elem_of_app. intros [Hp|[Hp|[Hp|[Hp|Hp]]]].
  - by rewrite (H _ _ H1 Hp).
  - by rewrite (H _ _ H2 Hp).
  - by rewrite (H _ _ H3 Hp).
  - by rewrite (H _ _ H4 Hp).
  - by rewrite (H _ _ H5 Hp).
Qed.

Lemma public_in rt : rt ∈ routes o -> rt_Group rt = Public -> rt ∈ public_routes o.
Proof.
  assert (H2 : Forall (fun x => rt_Group x <> Public) (member_routes o ++ own_routes o ++ host_routes o ++ admin_routes o))
    by (unfold member_routes, own_routes, host_routes, admin_routes; repeat constructor; discriminate).
  unfold routes. rewrite elem_of_app. intros [H|H] Hp; [done|]. rewrite Forall_forall in H2. by destruct (H2 _ H).
Qed.

Lemma untouchable_confined ids s s' : untouchable (tables s') = untouchable (tables s) -> confined ids s s'.
Proof. unfold untouchable, confined, beyond, foreign, reserved. by intros [= -> -> -> -> ->]. Qed.

Lemma route_in rt p r : route_for o r = Some (rt, p) -> rt ∈ routes o.
Proof.
  unfold route_for. destruct (o_match o _ _ _) as [[n q]|]; [|done]. destruct (nth_error (routes o) n) as [rt'|] eqn:E; [|done]. simpl. intros [= -> _].
  apply list_elem_of_In. by apply (nth_error_In _ n).
Qed.

Lemma core_untouchable s s' : core (tables s') = core (tables s) ->
  untouchable (tables s') = untouchable (tables s) /\ t_domains (tables s') = t_domains (tables s) /\
  t_users (tables s') = t_users (tables s).
Proof. unfold core. intros H. injection H. unfold untouchable, reserved. by intros _ _ _ _ -> -> -> -> -> -> ->. Qed.

Lemma serve_leaves (m : W Response) s : leaves untouchable m -> untouchable (tables (serve m s).2) = untouchable (tables s).
Proof. intros H. by destruct (w_keeps_serve _ _ s H) as [E _]. Qed.

(* ------------------------------------------------------------------ *)
(** ** The public pages, once a user exists *)

Lemma quiet_wizard : left_alone wizard_open.
Proof.
  unfold wizard_open, ensureSetupStateLocked, rotateOTSLocked, set_initialized, with_setup, CountUsers. quiet_tac.
Qed.

(** The wizard refuses, and what it would do next is not done. *)
Lemma wizard_shut {A} (k : unit -> AM A) s : t_users (e_db (s_env s)) <> ∅ ->
  wp (wizard_open ≫= k) (fun _ s' => untouchable (e_db (s_env s')) = untouchable (e_db (s_env s))) s.
Proof.
  intros Hu. apply wp_bind. eapply wp_mono; [apply wp_and; [apply keeps_wp, quiet_wizard|]|].
  - unfold wizard_open. apply wp_bind. eapply wp_mono; [apply ensure_wp|]. intros [[]|x] s1 [_ He];
      [|instantiate (1 := fun r _ => is_ok r = false); done].
    apply wp_bind, wp_gets, wp_bind. destruct He as [|_ He|? _ He]; [|by destruct Hu..]. done.
  - intros [a|x] s1 [[E _] H]; [done|exact E].
Qed.

Lemma quiet_upload name raw pass s : t_users (e_db (s_env s)) <> ∅ ->
  wp (UploadSetupBackup (o_scrypt o) (o_OpenWith o) (o_unpack o) (o_decode_manifest o) name raw pass)
     (fun _ s' => untouchable (e_db (s_env s')) = untouchable (e_db (s_env s))) s.
Proof. by apply wizard_shut. Qed.

Lemma quiet_unlock code : left_alone (UnlockSetup code).
Proof. unfold UnlockSetup, ensureSetupStateLocked, rotateOTSLocked, set_initialized, with_setup, CountUsers. quiet_tac. Qed.
Lemma quiet_status : left_alone GetSetupStatus.
Proof. unfold GetSetupStatus, ensureSetupStateLocked, rotateOTSLocked, set_initialized, with_setup, CountUsers. quiet_tac. Qed.
#[local] Hint Resolve quiet_unlock quiet_status : go_keeps.

Lemma quiet_login user pass otp source :
  keeps (same untouchable) (AuthenticatePassword (o_decode_ldap o) (o_Open o) (o_IDKey o) (o_ldap o) (o_auth o) user pass otp source).
Proof.
  unfold AuthenticatePassword, prove_identity, tryLDAPLogin, check_second_factor, open_session, deny_ldap, registerFailureIfEligible, deny,
    loadLDAPConfig, source_blocked, validateMFA, userRequiresMFA, UpsertExternalUser,
    external_user_id, insert_user, clear_scopes, insert_scopes, GetUserByID, IsIPBlocked, GetLoginAttempt, RegisterLoginFailure,
    FindUserByUsername, ClearLoginFailures, CreateSession, ListDomainIDs, ConsumeUserMFARecoveryCode, GetSetting, GetSecret, Auth.randomHex, audit, AddAuditEvent.
  keeps_db; try apply keeps_GetLoginAttempt. apply keeps_modify_db. intros db. by case_match.
Qed.
Lemma quiet_external user role ids provider source : keeps (same untouchable) (AuthenticateExternal (o_auth o) user role ids provider source).
Proof.
  unfold AuthenticateExternal, open_session, source_blocked, UpsertExternalUser, external_user_id, insert_user, clear_scopes, insert_scopes,
    GetUserByID, IsIPBlocked, ClearLoginFailures, CreateSession, Auth.randomHex, audit, AddAuditEvent.
  keeps_db.
Qed.
Lemma quiet_reset token new : left_alone (ConsumePasswordResetToken (o_IDKey o) token new).
Proof. unfold ConsumePasswordResetToken, check_length, store_password. quiet_tac. unfold StoreUsers.ConsumePasswordResetToken. keeps_db. Qed.
#[local] Hint Resolve quiet_login quiet_external quiet_reset : go_keeps.

Lemma upload_quiet r s : t_users (tables s) <> ∅ ->
  w_wp (handleSetupRestoreUpload o r) (fun _ s' => untouchable (tables s') = untouchable (tables s)) s.
Proof.
  intros Hu. unfold handleSetupRestoreUpload, upload. apply w_wp_bind, w_wp_or_err. unfold w_wp at 1, mret, W_ret.
  destruct (readBackupUpload r) as [[[n raw] p]|x]; [|done]. cbv beta iota. apply w_wp_bind, w_wp_or_err, w_wp_app.
  eapply wp_mono; [by apply wizard_shut|]. by intros [m|x] a H.
Qed.

Lemma apply_quiet r s : t_users (tables s) <> ∅ ->
  w_wp (handleSetupApply o r) (fun _ s' => untouchable (tables s') = untouchable (tables s)) s.
Proof.
  intros Hu. unfold handleSetupApply. apply w_wp_bind. refine (w_wp_decode o KSetup r _ s _ _); [done|]. intros i.
  apply w_wp_bind, w_wp_or_err, w_wp_app. eapply wp_mono; [by apply wizard_shut|]. by intros [m|x] a H.
Qed.

Lemma quiet_public rt p id r s : rt ∈ public_routes o -> t_users (tables s) <> ∅ ->
  w_wp (rt_Handler rt p id r) (fun _ s' => untouchable (tables s') = untouchable (tables s)) s.
Proof.
  assert (Hall : forall m : W Response, leaves untouchable m -> w_wp m (fun _ s' => untouchable (tables s') = untouchable (tables s)) s).
  { intros m H. eapply w_wp_keeps; [exact H|]. by intros _ s' [E _]. }
  unfold public_routes. intros H Hu. repeat (apply elem_of_cons in H as [->|H]); [..|by apply elem_of_nil in H]; cbn [rt_Handler];
    first [solve [apply upload_quiet; exact Hu]|solve [apply apply_quiet; exact Hu]|idtac].
  all: unfold handleSetupRestoreAnalyze; try (destruct (HasPrefix _ _); [by apply upload_quiet|]); apply Hall.
  all: unfold handlePublicStyle, handleCSRF, handleLoginOptions, handleSetupStatus, handleSetupUnlock, handleLoginStart, handleLoginPassword,
    handleLoginFinish, handleLoginOIDCStart, handleLoginOIDCCallback, handleConsumePasswordReset, requireLoginFlow, clearLoginFlow, save_flow,
    take_oidc_flow, oidc_settings, randomHex, log_action, answer_ok, GetStyleSettings, GetOIDCSettings, getOIDCSettings, GetOIDCClientSecret, ResolveOIDCRole.
  all: quiet_handler.
Qed.

(** What serves a request: with the core as before, nothing, a public page, or the
    handler of a caller who is let in. *)
Inductive answered (r : ApiRequest) (s : Server) : Server -> Prop :=
| by_nobody s' : core (tables s') = core (tables s) -> answered r s s'
| by_public rt p s1 : rt ∈ public_routes o -> core (tables s1) = core (tables s) ->
    answered r s (serve (rt_Handler rt p zero_Identity r) s1).2
| by_caller rt p id s1 : rt ∈ routes o -> rt_Group rt <> Public -> caller r s = Ok id -> entitled (rt_Group rt) id r = true ->
    core (tables s1) = core (tables s) -> answered r s (serve (rt_Handler rt p id r) s1).2.

Lemma routed r s : answered r s (serve (Router o r) s).2.
Proof.
  pose proof (gate_core r s) as Hgc. unfold after_gate in Hgc.
  destruct (setupGateMiddleware r s) as [[a|[]] s0] eqn:Eg; simpl in Hgc.
  { unfold serve, Router. rewrite (w_bind_stop _ _ _ _ _ Eg). by constructor. }
  destruct (route_for o r) as [[rt p]|] eqn:Er.
  2: { unfold serve, Router. rewrite (w_bind_ok _ _ _ _ _ Eg), Er. by constructor. }
  assert (E : Router o r s = (id ← guard o (rt_Group rt) r; rt_Handler rt p id r) s0) by (unfold Router; by rewrite (w_bind_ok _ _ _ _ _ Eg), Er).
  pose proof (route_in _ _ _ Er) as Hin. unfold serve. rewrite E. clear E. destruct (decide (rt_Group rt = Public)) as [Hp|Hp].
  { rewrite Hp. pose proof (route_group rt Hin) as Hg. exact (by_public r s rt p s0 (public_in _ Hin Hp) Hgc). }
  pose proof (guard_run (rt_Group rt) r s0 Hp) as Hg. pose proof (look_core r s0) as Hl. rewrite Hgc in Hl.
  assert (Hc : caller r s = (look r s0).1) by (unfold caller, after_gate; by rewrite Eg).
  destruct (look r s0) as [[id|x] s1]; simpl in Hl, Hc.
  - destruct Hg as [[Hg Hent]|[(a & Hg & _) Hent]].
    + rewrite (w_bind_ok _ _ _ _ _ Hg). by eapply (by_caller r s rt p id s1).
    + rewrite (w_bind_stop _ _ _ _ _ Hg). by constructor.
  - rewrite (w_bind_stop _ _ _ _ _ Hg). by constructor.
Qed.

(** C4. A domain admin, or a token limited to some domains whose role is no administrator's,
    once a user exists and no stored domain name begins or ends with white space (as
    the operations on domains keep it, the service trimming the names it stores, see
    [ops_trimmed]; a restored copy or the domain of the environment may hold another):
    whatever request it sends to whichever route, the public ones and the wizard of the
    setup included, and whatever the handler answers, the hosts of all other domains are
    what they were (rows, routing, state, policies), and so are the API tokens, the block
    list, and the routes and keys of the SSH bastion. *)
Theorem domain_admin_confined r s id
  (Hid : caller r s = Ok id) (Hr : restricted id = true) (Hrole : id_IRole id <> RoleAdmin)
  (Husers : t_users (tables s) <> ∅) (Hnames : names_trimmed (tables s)) :
  confined (id_DomainIDs id) s (serve (Router o r) s).2.
Proof.
  assert (Hcore : forall s1, core (tables s1) = core (tables s) ->
    confined (id_DomainIDs id) s s1 /\ t_users (tables s1) <> ∅ /\ names_trimmed (tables s1)).
  { intros s1 H. destruct (core_untouchable _ _ H) as (E1 & E2 & E3). unfold names_trimmed. rewrite E2, E3. split; [|done].
    by apply untouchable_confined. }
  destruct (routed r s) as [s'|rt p s1 Hin Hs1|rt p id' s1 Hin Hp Hid' Hent Hs1]; [by apply Hcore|..]; destruct (Hcore _ Hs1) as (Hc1 & Hu1 & Hn1).
  { etransitivity; [exact Hc1|]. apply untouchable_confined. apply (w_wp_serve _ (fun _ s' => untouchable (tables s') = untouchable (tables s1))).
    eapply w_wp_mono; [by apply quiet_public|]. by intros [a|a] s2. }
  rewrite Hid in Hid'. injection Hid' as <-.
  assert (Hm : confines id (rt_Handler rt p id r)).
  { pose proof (route_group rt Hin) as Hg. destruct (rt_Group rt); [done|..].
    - by apply confines_quiet, quiet_member.
    - by apply confines_quiet, quiet_own.
    - by apply confines_hosts_write.
    - exfalso. unfold entitled in Hent. apply andb_true_iff in Hent as [[Ha _]%andb_true_iff _]. by apply Hrole, admin_only. }
  etransitivity; [exact Hc1|]. apply (w_wp_serve _ (fun _ => confined (id_DomainIDs id) s1)).
  eapply w_wp_mono; [by apply Hm|]. by intros [a|a] s2.
Qed.

(** C15. Once a user exists, reading is all a read-only account or token can do: none of its
    requests, whatever the route, the public ones and the wizard of the setup included,
    changes a host, a token, the block list or the SSH bastion. *)
Theorem read_only_changes_nothing r s id
  (Hid : caller r s = Ok id) (Hrole : RoleAllows (id_IRole id) RoleOperator = false) (Husers : t_users (tables s) <> ∅) :
  untouchable (tables (serve (Router o r) s).2) = untouchable (tables s).
Proof.
  destruct (routed r s) as [s' H|rt p s1 Hin Hs1|rt p id' s1 Hin Hp Hid' Hent Hs1]; [by apply core_untouchable|..];
    destruct (core_untouchable _ _ Hs1) as (<- & _ & Hu).
  { apply (w_wp_serve _ (fun _ s' => untouchable (tables s') = untouchable (tables s1))).
    eapply w_wp_mono; [apply quiet_public; congruence|]. by intros [a|a] s2. }
  rewrite Hid in Hid'. injection Hid' as <-. apply serve_leaves. pose proof (route_group rt Hin) as Hg.
  unfold entitled in Hent. apply andb_true_iff in Hent as [[Ha _]%andb_true_iff _].
  destruct (rt_Group rt); [done|by apply quiet_member|by apply quiet_own|..]; cbn [needed_role] in Ha; [congruence|].
  apply admin_only in Ha. rewrite Ha in Hrole. by vm_compute in Hrole.
Qed.
End quiet.

(* ------------------------------------------------------------------ *)
(** ** A small site *)

(** A router that reads a path segment by segment. *)
Fixpoint segments_match (path pattern : list string) : option (gmap string string) :=
  match path, pattern with
  | [], [] => Some ∅
  | x :: path', y :: pattern' =>
      m ← segments_match path' pattern';
      if HasPrefix y "{" then Some (<[TrimSuffix (TrimPrefix y "{") "}" := x]> m) else if String.eqb x y then Some m else None
  | _, _ => None
  end.
Fixpoint first_route (method : string) (path : list string) (n : nat) (table : list (string * string)) : option (nat * gmap string string) :=
  match table with
  | [] => None
  | (m, p) :: table' =>
      match (if String.eqb m method then segments_match path (Split p "/"%char) else None) with
      | Some vars => Some (n, vars)
      | None => first_route method path (S n) table'
      end
  end.
Definition toy_match (method path : string) (table : list (string * string)) := first_route method (Split path "/"%char) 0 table.

(** Bodies without syntax: the text itself, a pair with a space between, a flag. *)
Definition toy_decode (k : InputKind) (body : string) : result (input k * bool) :=
  match k return result (input k * bool) with
  | KText _ => Ok (body, false)
  | KPair _ _ => match Split body " "%char with [x; y] => Ok ((x, y), false) | _ => Err (ErrText "unexpected EOF") end
  | KFlag _ => Ok (String.eqb body "true", false)
  | _ => Err (ErrText "unexpected EOF")
  end.

Definition toy_network : Network := mkNetwork (fun _ => Ok []) (fun _ _ => Err (ErrText "timeout")) (fun _ _ _ => None) (fun _ _ => Err (ErrText "timeout")).
Definition toy_claims : gmap string Claim := {["email" := CText "ann@example.org"; "nonce" := CText "34353637"; "groups" := CList [Some "Admins"]]}.

Definition toy_outside : Outside := {|
  o_auth := demo_auth; o_match := toy_match; o_assets := fun _ => None; o_decode := toy_decode; o_json_valid := fun _ => false;
  o_ParseDuration := fun _ => Err (ErrText "invalid duration"); o_DurationString := fun _ => "";
  o_decode_ldap := fun _ => None; o_ldap := no_ldap; o_IDKey := toy_derivation;
  o_Seal := fun _ _ b => b; o_Open := fun _ _ b => Some b;
  o_dns := None; o_detectPublicIPv4 := Err (ErrText "offline"); o_nw := toy_network; o_own := toy_cloudflare; o_NewCloudflare := fun _ => toy_cloudflare;
  o_route_output := Err (ErrText "offline"); o_timedatectl := fun _ => None;
  o_encode_logs := fun _ => ""; o_decode_logs := fun _ => None; o_encode_ldapset := fun _ => ""; o_decode_ldapset := fun _ => None;
  o_encode_oidc := fun _ => ""; o_decode_oidc := fun _ => Some (zero_OIDCSettings <| oi_Enabled := true |> <| oi_IssuerURL := "https://id.example.org" |> <| oi_ClientID := "domnex" |>
    <| oi_AdminGroup := "admins" |>);
  o_decode_style := fun _ => None;
  o_scrypt := fun _ _ _ _ _ _ => Err (ErrText "scrypt"); o_SealWith := fun _ _ _ b => b; o_OpenWith := fun _ _ _ b => Some b;
  o_pack := fun _ => []; o_unpack := fun _ => None; o_encode_manifest := fun _ => []; o_decode_manifest := fun _ => None;
  o_write_sqlite := fun _ => []; o_read_sqlite := fun _ => None; o_io := fun _ => Ok tt; o_detachable := true;
  o_disk := fun _ _ => Ok tt; o_ftp_dial := fun _ _ _ _ => Ok tt; o_ftp_command := fun _ _ _ => Ok tt;
  o_fetch := fun _ => Err (ErrText "offline"); o_decode_bundle := fun _ => None;
  o_discover := fun _ => true; o_auth_url := fun _ _ _ _ _ state _ => "https://id.example.org/auth?state=" +:+ state;
  o_exchange := fun _ _ _ _ _ code => if String.eqb code "good" then Ok "jwt" else Err (ErrText "invalid_grant");
  o_verify := fun _ _ _ => Ok toy_claims;
  o_parse_authorized := fun _ => Err (ErrText "ssh: no key found"); o_fingerprint := fun _ => ""; o_marshal_authorized := fun _ => "";
  o_keygen := fun _ => ([], []); o_new_public := fun b => Ok b; o_marshal_private := fun _ _ => Ok "";
  o_has_puttygen := false; o_temp_io := fun _ => Ok tt; o_puttygen := fun _ => Err (ErrText "exec")
|}.

(** Two domains with a host each; a domain admin of the first, and a reader. *)
Definition demo_site : DB := empty_DB
  <| t_domains := {[1 := zero_Domain <| d_ID := 1 |> <| d_Name := "shop.example.org" |>; 2 := zero_Domain <| d_ID := 2 |> <| d_Name := "blog.example.org" |>]} |>
  <| t_hosts := {[6 := zero_Host <| h_ID := 6 |> <| h_DomainID := 1 |> <| h_FQDN := "www.shop.example.org" |> <| h_State := "active" |>;
                  7 := zero_Host <| h_ID := 7 |> <| h_DomainID := 2 |> <| h_FQDN := "www.blog.example.org" |> <| h_State := "active" |>]} |>
  <| t_sqlite_sequence := {["hosts" := 7]} |>
  <| t_users := {[1 := zero_User <| u_ID := 1 |> <| u_Username := "dora" |> <| u_URole := RoleDomainAdmin |> <| u_IPCheckOff := true |>;
                  2 := zero_User <| u_ID := 2 |> <| u_Username := "rita" |> <| u_URole := RoleReadOnly |> <| u_IPCheckOff := true |>]} |>
  <| t_user_domain_scopes := {[(1, 1)]} |>
  <| t_sessions := {["d5" := mkSession "d5" 1 (Day * 800001); "r5" := mkSession "r5" 2 (Day * 800001)]} |>
  <| t_settings := {["setup.completed_at" := "2026-01-01T00:00:00Z"]} |>.
Definition demo_server : Server := mkServer (new_svc (mkEnv demo_site (Day * 800000) [] ["0123"; "4567"; "89ab"]) None) ∅ ∅ None false.

Definition call (method path body session : string) : ApiRequest :=
  mkApiRequest (mkRequest "203.0.113.5:4711" "panel.example.org" method path path {["X-Csrf-Token" := "tok"]}
    {["domnex_session" := session; "domnex_csrf" := "tok"]} None true 0) ∅ body false ∅ ∅ false.

Definition disable_own : ApiRequest := call "POST" "/api/v1/hosts/6/disable" "true" "d5".
Definition disable_other : ApiRequest := call "POST" "/api/v1/hosts/7/disable" "true" "d5".
Definition disable_reader : ApiRequest := call "POST" "/api/v1/hosts/6/disable" "true" "r5".
Definition disable_route : Route :=
  mkRoute HostsWrite "POST" "/api/v1/hosts/{id}/disable" (handleSetHostDisabled toy_outside).

Lemma disable_routed r n p :
  toy_match (rq_Method (ar_http r)) (rq_Path (ar_http r)) (map (fun rt => (rt_Method rt, rt_Pattern rt)) (routes toy_outside)) = Some (n, p) ->
  n = 59%nat -> route_for toy_outside r = Some (disable_route, p).
Proof. intros H ->. unfold route_for. change (o_match toy_outside) with toy_match. by rewrite H. Qed.

Definition dora : Identity := mkIdentity 1 "dora" RoleDomainAdmin [1] ∅ "session".
Definition rita : Identity := mkIdentity 2 "rita" RoleReadOnly [] ∅ "session".

Definition summary (x : Response * Server) : Z * list (Z * string) :=
  (an_Code x.1, map (fun h => (h_ID h, h_State h)) (rows (t_hosts (tables x.2)))).

Example own_host_disabled : summary (serve (Router toy_outside disable_own) demo_server) = (200, [(7, "active"); (6, "disabled")]).
Proof. vm_compute. reflexivity. Qed.
Example other_host_refused : summary (serve (Router toy_outside disable_other) demo_server) = (403, [(7, "active"); (6, "active")]).
Proof. vm_compute. reflexivity. Qed.

Lemma guards_decide_witness :
  exists p s1, route_for toy_outside disable_own = Some (disable_route, p) /\ gate_open disable_own demo_server /\
    serve (Router toy_outside disable_own) demo_server = serve (rt_Handler disable_route p dora disable_own) s1.
Proof.
  exists {["id" := "6"]}, (look toy_outside disable_own (after_gate disable_own demo_server)).2.
  assert (Hr : route_for toy_outside disable_own = Some (disable_route, {["id" := "6"]})).
  { apply (disable_routed _ 59); [vm_compute; reflexivity|done]. }
  assert (Hg : gate_open disable_own demo_server) by (vm_compute; reflexivity).
  split; [exact Hr|]. split; [exact Hg|].
  pose proof (guards_decide toy_outside disable_route _ disable_own demo_server Hr ltac:(done) Hg) as H.
  assert (Hl : (look toy_outside disable_own (after_gate disable_own demo_server)).1 = Ok dora) by (vm_compute; reflexivity).
  destruct (look _ _ _) as [x s1]. simpl in Hl |- *. subst x. destruct H as [[_ H]|[H _]]; [exact H|]. vm_compute in H. discriminate H.
Defined.

Lemma domain_admin_confined_witness :
  caller toy_outside disable_own demo_server = Ok dora /\
  confined [1] demo_server (serve (Router toy_outside disable_own) demo_server).2.
Proof.
  assert (Hc : caller toy_outside disable_own demo_server = Ok dora) by (vm_compute; reflexivity).
  split; [exact Hc|].
  apply (domain_admin_confined toy_outside disable_own demo_server dora); [exact Hc|reflexivity|discriminate|discriminate|].
  intros k d Hd. unfold tables, demo_server, demo_site in Hd. simpl in Hd.
  apply lookup_insert_Some in Hd as [[<- <-]|[_ Hd]]; [reflexivity|]. apply lookup_singleton_Some in Hd as [<- <-]. reflexivity.
Defined.

Lemma read_only_changes_nothing_witness :
  caller toy_outside disable_reader demo_server = Ok rita /\
  untouchable (tables (serve (Router toy_outside disable_reader) demo_server).2) = untouchable demo_site.
Proof.
  assert (Hc : caller toy_outside disable_reader demo_server = Ok rita) by (vm_compute; reflexivity).
  split; [exact Hc|].
  apply (read_only_changes_nothing toy_outside disable_reader demo_server rita); [exact Hc|reflexivity|discriminate].
Defined.
