(* ===== verification/ApiLoginSafety.v ===== *)
(** Where sessions come from: over any sequence of requests to the administration API,
    a session cookie is the end of a login in three steps from one source, or of a
    login at the OpenID provider that the same source began. *)

From S2P Require Import Prelude GoString GoMonad GoTime GoNet GoCrypto Crypto NetUtil Model LogServers StoreDB Traffic StoreThreat StoreUsers StoreHosts.
From S2P Require Import Auth Service Vault Retention Hosts LiveChecks Settings Accounts Backup Setup BackupSchedule Feeds TrafficReports StoreViews ThreatViews BastionKeys.
From S2P Require Import ApiCore ApiLogin ApiHosts ApiAdmin ApiSystem ApiRouter ApiSafety.
Open Scope Z_scope.

(** The flows of the server, and an answer that opens no session. *)
Definition flows (s : Server) := (sv_login s, sv_oidc s).
Definition opens (c : Cookie) : Prop := ck_Name c = "domnex_session" /\ 0 < ck_MaxAge c.
Definition login_free (a : Response) : Prop := Forall (fun c => ~ opens c) (an_Cookies a).

(** A computation that leaves the flows alone and opens no session. *)
Definition inert {A} (P : A -> Prop) (m : W A) : Prop := forall s,
  flows (m s).2 = flows s /\ match (m s).1 with inl a => login_free a | inr x => P x end.
Definition anything {A} (_ : A) : Prop := True.

Section inert.
Context {A : Type} (P : A -> Prop).
Lemma inert_ret a : P a -> inert P (mret a).
Proof. by intros H s. Qed.
Lemma inert_answer r : login_free r -> inert P (answer r).
Proof. by intros H s. Qed.
Lemma inert_bind {B} (m : W B) (k : B -> W A) : inert anything m -> (forall b, inert P (k b)) -> inert P (m ≫= k).
Proof.
  intros Hm Hk s. specialize (Hm s). unfold mbind, W_bind. destruct (m s) as [[a|b] s1]; simpl in *; [done|].
  destruct Hm as [E _]. destruct (Hk b s1) as [E2 H]. by rewrite E2, E.
Qed.
End inert.

Lemma inert_any {A} (a : A) : anything a.
Proof. done. Qed.
Lemma free_err code msg : login_free (writeErr code msg).
Proof. by apply Forall_nil. Qed.
Lemma free_json code v : login_free (writeJSON code v).
Proof. by apply Forall_nil. Qed.
Lemma free_redirect to : login_free (Redirect to).
Proof. by apply Forall_nil. Qed.
Lemma free_cookie code v c to : ~ opens c -> login_free (mkResponse code v [c] to).
Proof. intros H. by repeat constructor. Qed.
Lemma inert_refuse c code msg : inert anything (refuse_if c code msg).
Proof. destruct c; [apply inert_answer, free_err|by apply inert_ret]. Qed.
Lemma inert_app {A} (m : AM A) : inert anything (app m).
Proof. intros s. unfold app. by destruct (m (sv_app s)). Qed.
Lemma inert_store {A} (m : SM A) : inert anything (store m).
Proof. apply inert_app. Qed.
Lemma inert_reads {A} (f : Server -> A) : inert anything (reads f).
Proof. done. Qed.
Lemma inert_changes f : (forall s, flows (f s) = flows s) -> inert anything (changes f).
Proof. intros H s. by split; [apply H|]. Qed.
Lemma inert_or_err {A} code (m : W (result A)) : inert anything m -> inert anything (or_err code m).
Proof. intros H. apply inert_bind; [done|]. intros []; [by apply inert_ret|apply inert_answer, free_err]. Qed.
Lemma inert_or_answer {A} x (m : W (result A)) : login_free x -> inert anything m -> inert anything (or_answer x m).
Proof. intros Hx H. apply inert_bind; [done|]. intros []; [by apply inert_ret|by apply inert_answer]. Qed.
Lemma inert_decode o k r : inert anything (decodeJSON o k r).
Proof. intros s. unfold decodeJSON. destruct (o_decode o k _) as [[v []]|]; simpl; split; try done; apply free_err. Qed.

#[local] Hint Resolve free_err free_json free_redirect : core.

(** [inert_tac] walks a handler. *)
Ltac inert_step :=
  match goal with
  | |- forall _, inert _ _ => intros ?
  | |- inert _ (mret _) => apply inert_ret
  | |- inert _ (answer _) => apply inert_answer
  | |- inert _ (refuse_if _ _ _) => apply inert_refuse
  | |- inert _ (reads _) => apply inert_reads
  | |- inert _ clock => apply inert_reads
  | |- inert _ (decodeJSON ?o ?k ?r) => refine (inert_decode o k r)
  | |- inert _ (or_err _ _) => apply inert_or_err
  | |- inert _ (or_answer _ _) => apply inert_or_answer
  | |- inert _ (store _) => apply inert_store
  | |- inert _ (app _) => apply inert_app
  | |- inert _ (changes _) => apply inert_changes; intros ?; reflexivity
  | |- inert _ (mbind _ _) => apply inert_bind
  | |- inert _ (let _ := _ in _) => intros ?
  | |- inert _ (match ?x with _ => _ end) => destruct x
  | |- anything _ => exact I
  | |- login_free (writeErr _ _) => apply free_err
  | |- login_free (writeJSON _ _) => apply free_json
  | |- login_free (Redirect _) => apply free_redirect
  | |- login_free (mkResponse _ _ [_] _) => apply free_cookie; intros [? ?]; simpl in *; (discriminate || lia)
  | |- login_free (match ?x with _ => _ end) => destruct x
  | |- login_free _ => progress cbv zeta
  end.
Ltac inert_tac := cbv beta zeta; repeat (inert_step; cbv beta zeta).

Section sessions.
Context (o : Outside).

Lemma inert_hosts rt p id r : rt ∈ host_routes o -> inert login_free (rt_Handler rt p id r).
Proof.
  unfold host_routes. intros H. repeat (apply elem_of_cons in H as [->|H]); [..|by apply elem_of_nil in H]; cbn [rt_Handler];
  unfold handleHostPreflight, handleCreateHost, handleUpdateHostRouting, handleSetHostAuth, handleSetHostGeoPolicy, handleSetHostDisabled,
    handleSetHostMaintenance, handleRetryHost, handleDeleteHost, requireTokenScope, host_or_refuse, own_host, own_domain, log_action, answer_ok; inert_tac.
Qed.
Lemma inert_own rt p id r : rt ∈ own_routes o -> inert login_free (rt_Handler rt p id r).
Proof.
  unfold own_routes. intros H. repeat (apply elem_of_cons in H as [->|H]); [..|by apply elem_of_nil in H]; cbn [rt_Handler];
  unfold handleChangeOwnPassword, handleMeProfileSet, handleStartOwnMFAEnroll, handleConfirmOwnMFAEnroll, handleDisableOwnMFA,
    sessionOnly, set_email, set_layout, log_action, answer_ok; inert_tac.
Qed.
Lemma inert_each_host h c l : inert anything (each_host h c l).
Proof. induction l as [|x l IH]; simpl; inert_tac. apply IH. Qed.
Lemma inert_member rt p id r : rt ∈ member_routes o -> inert login_free (rt_Handler rt p id r).
Proof.
  unfold member_routes. intros H. repeat (apply elem_of_cons in H as [->|H]); [..|by apply elem_of_nil in H]; cbn [rt_Handler];
  unfold handleMe, handleMeProfileGet, handleGetOwnMFAStatus, handleLogout, handleListDomains, handleDomainLiveCheck,
    handleListHosts, handleHostsDiagnostics, handleTrafficOverview, handleHostTraffic, handleTrafficCountries, handleTrafficLive, handleListAudit,
    handleListBlockedIPs, handleThreatIntelConfigGet, handleThreatIntelSignatureConfigGet, handleThreatIntelFeedsList,
    handleThreatIntelAllowlistList, handleGetSettings, handleBackupSettingsGet, handleBackupArchivesList, handleListUsers,
    handleListIdentityPermissions, handleListIdentityGroups, handleIdentityMatrix, handleListTokens, handleListSSHBastionRoutes,
    handleListSSHBastionKeys, handleThreatIntelMatchesList, handleThreatIntelTargetsByIP, handleThreatIntelTraceTimeline,
    handleThreatIntelOffendersList, handleThreatIntelBlockedList, handleThreatIntelGeoList, requireTokenScope, adminOrReadOnly, sessionOnly, host_or_refuse, own_host, answer_ok; inert_tac; try apply inert_each_host.
Qed.
Lemma inert_admin rt p id r : rt ∈ admin_routes o -> inert login_free (rt_Handler rt p id r).
Proof.
  unfold admin_routes. intros H. repeat (apply elem_of_cons in H as [->|H]); [..|by apply elem_of_nil in H]; cbn [rt_Handler];
  unfold handleDomainPreflight, handleUpsertDomain, handleDeactivateDomain, handleDeleteDomain, handleDynDNSUpdate, handleSetCloudflareToken,
    handleCreateToken, handleRevokeToken, handleCreatePasswordReset, handleSetSettings, handleReloadService, handleBackupSettingsSet,
    handleBackupScheduleRunNow, handleBackupCreate, handleBackupAnalyze, handleBackupRestore, handleBackupPostRestoreCheck,
    handleBackupArchiveRestore, handleBackupArchiveDelete, handleCreateUser, handleUpdateUserAccess, handleSetUserGroups, handleSetUserDomains,
    handleSetUserPassword, handleAdminResetUserMFA, handleDeleteUser, handleCreateIdentityGroup, handleUpdateIdentityGroup,
    handleDeleteIdentityGroup, handleLogoutAll, handleAddBlockedIP, handleRemoveBlockedIP, handleUpsertSSHBastionRoute,
    handleDeleteSSHBastionRoute, handleImportSSHBastionKey, handleGenerateSSHBastionKey, handleDeleteSSHBastionKey, handleThreatIntelConfigSet,
    handleThreatIntelSignatureConfigSet, handleThreatIntelFeedUpsert, handleThreatIntelFeedDelete, handleThreatIntelSync,
    handleThreatIntelActionBlock, handleThreatIntelActionAllow, handleThreatIntelActionUnallow;
  unfold token_ttl, settings_admin, accounts_admin; unfold requireTokenScope, token_global, globalAdmin, confirm_unlimited, positive_id, parse_ip, upload,
    log_action, answer_ok; inert_tac.
Qed.

(** The requests that begin, carry on and end a login, by the pattern of their route. *)
Definition login_patterns : list string :=
  ["/api/v1/login/start"; "/api/v1/login/password"; "/api/v1/login/finish"; "/api/v1/login/oidc/start"; "/api/v1/login/oidc/callback"].
Definition of_login (rt : Route) : bool := existsb (String.eqb (rt_Pattern rt)) login_patterns.

Lemma inert_public rt p id r : rt ∈ public_routes o -> of_login rt = false -> inert login_free (rt_Handler rt p id r).
Proof.
  unfold public_routes. intros H Hn. repeat (apply elem_of_cons in H as [->|H]; [try discriminate Hn|]); [..|by apply elem_of_nil in H];
  cbn [rt_Handler]; unfold handlePublicStyle, handleCSRF, handleLoginOptions, handleSetupStatus, handleSetupUnlock, handleSetupApply,
    handleSetupRestoreAnalyze, handleConsumePasswordReset; unfold handleSetupRestoreUpload, upload, oidc_settings, randomHex, log_action, answer_ok;
  inert_tac.
Qed.

Lemma inert_route rt p id r : rt ∈ routes o -> of_login rt = false -> inert login_free (rt_Handler rt p id r).
Proof.
  unfold routes. rewrite !elem_of_app. intros [H|[H|[H|[H|H]]]] Hn;
    [by apply inert_public|by apply inert_member|by apply inert_own|by apply inert_hosts|by apply inert_admin].
Qed.

Lemma inert_guard g r : inert anything (guard o g r).
Proof. unfold guard, requireAuth, requireCSRF. destruct g; inert_tac. Qed.
Lemma inert_gate r : inert anything (setupGateMiddleware r).
Proof. unfold setupGateMiddleware. inert_tac. Qed.

Lemma serve_inert (m : W Response) s : inert login_free m -> flows (serve m s).2 = flows s /\ login_free (serve m s).1.
Proof. intros H. specialize (H s). unfold serve. by destruct (m s) as [[a|a] s']. Qed.
Lemma free_static path : login_free (static_file o path).
Proof. unfold static_file. cbv zeta. repeat case_match; apply free_json. Qed.

Lemma login_public rt : rt ∈ routes o -> of_login rt = true -> rt ∈ public_routes o.
Proof.
  assert (H2 : Forall (fun x => of_login x = false) (member_routes o)) by (unfold member_routes; repeat constructor).
  assert (H3 : Forall (fun x => of_login x = false) (own_routes o)) by (unfold own_routes; repeat constructor).
  assert (H4 : Forall (fun x => of_login x = false) (host_routes o)) by (unfold host_routes; repeat constructor).
  assert (H5 : Forall (fun x => of_login x = false) (admin_routes o)) by (unfold admin_routes; repeat constructor).
  rewrite Forall_forall in H2, H3, H4, H5.
  unfold routes. rewrite !elem_of_app. intros [Hp|[Hp|[Hp|[Hp|Hp]]]] H; [done|..];
    [rewrite (H2 _ Hp) in H|rewrite (H3 _ Hp) in H|rewrite (H4 _ Hp) in H|rewrite (H5 _ Hp) in H]; discriminate.
Qed.

(** A request of a login. *)
Inductive login_request (r : ApiRequest) : W Response -> Prop :=
| is_start : login_request r (handleLoginStart o r)
| is_password : login_request r (handleLoginPassword o r)
| is_finish : login_request r (handleLoginFinish o r)
| is_oidc_start : login_request r (handleLoginOIDCStart o r)
| is_oidc_callback : login_request r (handleLoginOIDCCallback o r).

(** The handler of a route of the login. *)
Definition asks (r : ApiRequest) (m : W Response) : Prop := exists rt p, route_for o r = Some (rt, p) /\ forall id, rt_Handler rt p id r = m.

Lemma login_handler rt p r : rt ∈ public_routes o -> of_login rt = true -> exists m, login_request r m /\ forall id, rt_Handler rt p id r = m.
Proof.
  unfold public_routes. intros H Hl. repeat (apply elem_of_cons in H as [->|H]; [try discriminate Hl|]); [..|by apply elem_of_nil in H];
  cbn [rt_Handler]; eexists; (split; [|reflexivity]); constructor.
Qed.

(** Any other request leaves the flows alone and opens no session. *)
Lemma served_by r s :
  (flows (serve (Router o r) s).2 = flows s /\ login_free (serve (Router o r) s).1) \/
  exists m, login_request r m /\ asks r m /\ flows (after_gate r s) = flows s /\ serve (Router o r) s = serve m (after_gate r s).
Proof.
  pose proof (inert_gate r s) as [Hg Ha]. unfold after_gate. destruct (setupGateMiddleware r s) as [[a|[]] s0] eqn:Eg; simpl in Hg, Ha |- *.
  { left. unfold serve, Router. by rewrite (w_bind_stop _ _ _ _ _ Eg). }
  destruct (route_for o r) as [[rt p]|] eqn:Er.
  - destruct (of_login rt) eqn:El.
    + right. destruct (login_handler rt p r (login_public _ (route_in _ _ _ _ Er) El) El) as (m & Hm & Hh). exists m. split; [done|].
      split; [by exists rt, p|]. split; [done|]. unfold serve, Router. rewrite (w_bind_ok _ _ _ _ _ Eg), Er.
      pose proof (login_public _ (route_in _ _ _ _ Er) El) as Hp.
      assert (Hpub : rt_Group rt = Public).
      { assert (H : Forall (fun x => rt_Group x = Public) (public_routes o)) by (unfold public_routes; repeat constructor). rewrite Forall_forall in H. by apply H. }
      rewrite Hpub. simpl. unfold mbind at 1, W_bind at 1. simpl. by rewrite Hh.
    + left. unfold serve, Router. rewrite (w_bind_ok _ _ _ _ _ Eg), Er. rewrite <- Hg. apply serve_inert.
      apply inert_bind; [apply inert_guard|]. intros id. apply inert_route; [|done]. by apply (route_in _ _ _ _ Er).
  - left. unfold serve, Router. rewrite (w_bind_ok _ _ _ _ _ Eg), Er. simpl. split; [done|]. case_match; [apply free_static|apply free_json].
Qed.

(* ------------------------------------------------------------------ *)
(** ** Sequences of requests *)

(** The server after some requests, in order; between them time passes and everything
    may change that is no flow of a login. *)
Inductive served : list ApiRequest -> Server -> Prop :=
| served_none s : sv_login s = ∅ -> sv_oidc s = ∅ -> served [] s
| served_request h s r : served h s -> served (h ++ [r]) (serve (Router o r) s).2
| served_else h s s' : served h s -> flows s' = flows s -> served h s'.

Definition said (r : ApiRequest) (field v : string) : Prop := o_decode o (KText field) (limited (ar_Body r)) = Ok (v, false).
Definition began (r : ApiRequest) (user source : string) : Prop :=
  asks r (handleLoginStart o r) /\ SourceIP o r = source /\ exists v, said r "username" v /\ TrimSpace v = user.
Definition gave (r : ApiRequest) (pass source : string) : Prop :=
  asks r (handleLoginPassword o r) /\ SourceIP o r = source /\ said r "password" pass.
Definition turned (r : ApiRequest) (source : string) : Prop := asks r (handleLoginOIDCStart o r) /\ SourceIP o r = source.

(** What the history holds for a flow. *)
Definition steps_of (h : list ApiRequest) (f : loginFlow) : Prop := exists h1 r1 h2,
  h = h1 ++ r1 :: h2 /\ began r1 (lf_Username f) (lf_SourceIP f) /\
  (lf_Stage f = loginStageOTP -> exists r2, r2 ∈ h2 /\ gave r2 (lf_Password f) (lf_SourceIP f)).
Definition turn_of (h : list ApiRequest) (f : oidcFlow) : Prop := exists r1, r1 ∈ h /\ turned r1 (of_SourceIP f).
Definition earned (h : list ApiRequest) (s : Server) : Prop :=
  map_Forall (fun _ f => steps_of h f) (sv_login s) /\ map_Forall (fun _ f => turn_of h f) (sv_oidc s).

Lemma steps_later h r f : steps_of h f -> steps_of (h ++ [r]) f.
Proof.
  intros (h1 & r1 & h2 & -> & Hb & Hs). exists h1, r1, (h2 ++ [r]). split; [by rewrite <- app_assoc|]. split; [done|].
  intros H. destruct (Hs H) as (r2 & Hin & Hg). exists r2. split; [|done]. apply elem_of_app. by left.
Qed.
Lemma turn_later h r f : turn_of h f -> turn_of (h ++ [r]) f.
Proof. intros (r1 & Hin & Ht). exists r1. split; [|done]. apply elem_of_app. by left. Qed.
Lemma earned_later h r s : earned h s -> earned (h ++ [r]) s.
Proof. intros [H1 H2]. split; intros k f Hf; [apply steps_later, (H1 k f Hf)|apply turn_later, (H2 k f Hf)]. Qed.
Lemma earned_less h s s' : earned h s -> sv_login s' ⊆ sv_login s -> sv_oidc s' ⊆ sv_oidc s -> earned h s'.
Proof. intros [H1 H2] E1 E2. split; intros k f Hf; [apply (H1 k)|apply (H2 k)]; by eapply lookup_weaken. Qed.
Lemma earned_flows h s s' : earned h s -> flows s' = flows s -> earned h s'.
Proof. intros H [= E1 E2]. eapply earned_less; [done|by rewrite E1|by rewrite E2]. Qed.
Lemma earned_login h s s' k f : earned h s -> steps_of h f -> sv_login s' ⊆ <[k := f]> (sv_login s) -> sv_oidc s' ⊆ sv_oidc s -> earned h s'.
Proof.
  intros [H1 H2] Hs E1 E2. split; intros j g Hg; [|apply (H2 j); by eapply lookup_weaken].
  apply (lookup_weaken _ _ _ _ Hg) in E1. apply lookup_insert_Some in E1 as [[_ <-]|[_ E1]]; [done|by apply (H1 j)].
Qed.
Lemma earned_turn h s s' k f : earned h s -> turn_of h f -> sv_login s' ⊆ sv_login s -> sv_oidc s' ⊆ <[k := f]> (sv_oidc s) -> earned h s'.
Proof.
  intros [H1 H2] Hs E1 E2. split; intros j g Hg; [apply (H1 j); by eapply lookup_weaken|].
  apply (lookup_weaken _ _ _ _ Hg) in E2. apply lookup_insert_Some in E2 as [[_ <-]|[_ E2]]; [done|by apply (H2 j)].
Qed.

(* ------------------------------------------------------------------ *)
(** ** The requests of a login *)

(** A session opened by a password: the flow was begun and the password given by the
    same source, in this order, and the three agree. *)
Definition by_password (h : list ApiRequest) (r : ApiRequest) (s s' : Server) (sid : string) : Prop := exists h1 r1 h2 r2 token f otp u,
  h = h1 ++ r1 :: h2 /\ r2 ∈ h2 /\ began r1 (lf_Username f) (SourceIP o r) /\ gave r2 (lf_Password f) (SourceIP o r) /\ said r "otp" otp /\
  sv_login s !! token = Some f /\ After (lf_Expires f) (e_now (s_env (sv_app s))) = true /\ sv_login s' !! token = None /\
  AuthenticatePassword (o_decode_ldap o) (o_Open o) (o_IDKey o) (o_ldap o) (o_auth o) (lf_Username f) (lf_Password f) (TrimSpace otp) (SourceIP o r)
    (s_env (sv_app s)) = (Ok (sid, u), s_env (sv_app s')).

(** A session opened by the OpenID provider. *)
Definition by_provider (h : list ApiRequest) (r : ApiRequest) (s s' : Server) (sid : string) : Prop := exists r1 f cfg a1 secret claims a2 role domains a3 u,
  let state := TrimSpace (query_of r "state") in
  r1 ∈ h /\ turned r1 (SourceIP o r) /\
  sv_oidc s !! state = Some f /\ After (of_Expires f) (e_now (s_env (sv_app s))) = true /\ sv_oidc s' !! state = None /\
  GetOIDCSettings (o_decode_oidc o) (sv_app s) = (Ok cfg, a1) /\ oi_Enabled cfg = true /\
  oidc_claims o cfg secret (TrimSpace (query_of r "code")) = Ok claims /\ oidcNonceMatch claims (of_Nonce f) = true /\
  ResolveOIDCRole (oidcGroupsFromClaims claims (oi_GroupsClaim cfg)) cfg a2 = (Ok (role, domains), a3) /\
  AuthenticateExternal (o_auth o) (oidcUsernameFromClaims claims (oi_UsernameClaim cfg)) role domains "oidc" (SourceIP o r) (s_env a3) =
    (Ok (sid, u), s_env (sv_app s')).

Definition sessions_by (P : string -> Prop) (a : Response) : Prop := forall c, c ∈ an_Cookies a -> opens c -> P (ck_Value c).
Lemma free_sessions P a : login_free a -> sessions_by P a.
Proof. unfold login_free. rewrite Forall_forall. intros H c Hc Ho. by destruct (H c Hc). Qed.

(** What a request of a login is to guarantee. *)
Definition in_order (h : list ApiRequest) (r : ApiRequest) (s : Server) (x : Response + Response) (s' : Server) : Prop :=
  earned (h ++ [r]) s' /\
  sessions_by (fun sid => by_password h r s s' sid \/ by_provider h r s s' sid) (match x with inl a | inr a => a end).

Lemma in_order_less h r s s' x : earned h s -> sv_login s' ⊆ sv_login s -> sv_oidc s' ⊆ sv_oidc s ->
  login_free (match x with inl a | inr a => a end) -> in_order h r s x s'.
Proof. intros He H1 H2 Hf. split; [eapply earned_less; [by apply earned_later|done|done]|by apply free_sessions]. Qed.

Lemma w_wp_said field r Q s : (forall x, login_free x -> Q (inl x) s) -> (forall v : string, said r field v -> Q (inr v) s) ->
  w_wp (decodeJSON o (KText field) r) Q s.
Proof.
  intros H1 H2. unfold w_wp, decodeJSON, said in *. destruct (o_decode o _ _) as [[v []]|]; [apply H1, free_err|by apply H2|apply H1, free_err].
Qed.

Lemma filter_less {K} `{Countable K} {V} (P : K * V -> Prop) `{!forall x, Decision (P x)} (m : gmap K V) : filter P m ⊆ m.
Proof. apply map_filter_subseteq. Qed.

Lemma start_in_order h r s : earned h s -> asks r (handleLoginStart o r) -> w_wp (handleLoginStart o r) (in_order h r s) s.
Proof.
  intros He Hr. unfold handleLoginStart. apply w_wp_bind, w_wp_said; [intros x Hx; by apply in_order_less|]. intros v Hv.
  apply w_wp_bind, w_wp_or_answer. unfold w_wp at 1, randomHex, store, app. destruct (db _ (sv_app s)) as [[token|x] a]; [|by apply in_order_less; [..|apply free_err]].
  apply w_wp_bind. unfold w_wp at 1. simpl. split; [|by apply free_sessions, free_cookie; intros [Hn _]].
  eapply (earned_login _ s _ token); [by apply earned_later| |simpl; apply insert_mono, filter_less|done].
  exists h, r, []. split; [done|]. split; [|done]. split; [done|]. split; [done|]. by exists v.
Qed.

(** The flow of the cookie, if it is of this stage, of this source and not too old. *)
Lemma flow_wp r stage s :
  w_wp (requireLoginFlow o r stage) (fun x s' => sv_app s' = sv_app s /\ sv_oidc s' = sv_oidc s /\ sv_login s' ⊆ sv_login s /\
    match x with
    | inl _ => False | inr None => True
    | inr (Some (token, f)) => sv_login s !! token = Some f /\ lf_Stage f = stage /\ lf_SourceIP f = SourceIP o r /\
                               After (lf_Expires f) (e_now (s_env (sv_app s))) = true
    end) s.
Proof.
  unfold requireLoginFlow. destruct (cookie_of r loginFlowCookie) as [c|]; [|done]. cbv zeta. destruct (TrimSpace c =? "")%string; [done|].
  apply w_wp_bind. unfold w_wp at 1, clock, reads. apply w_wp_bind. unfold w_wp at 1, changes.
  apply w_wp_bind. unfold w_wp at 1, reads. cbn [sv_login pruneLoginFlowsLocked].
  destruct (sv_login (pruneLoginFlowsLocked (e_now (s_env (sv_app s))) s) !! TrimSpace c) as [f|] eqn:Ef; simpl in Ef; [|split_and!; try done; apply filter_less].
  apply map_lookup_filter_Some in Ef as [Ef Ht]. destruct (negb _ || negb _) eqn:E.
  - unfold w_wp, mbind, W_bind, changes. simpl. split_and!; try done. etransitivity; [apply delete_subseteq|apply filter_less].
  - apply orb_false_iff in E as [E1%negb_false_iff%String.eqb_eq E2%negb_false_iff%String.eqb_eq]. unfold w_wp. simpl. split_and!; try done. apply filter_less.
Qed.

Lemma password_in_order h r s : earned h s -> asks r (handleLoginPassword o r) -> w_wp (handleLoginPassword o r) (in_order h r s) s.
Proof.
  intros He Hr. unfold handleLoginPassword. apply w_wp_bind, w_wp_said; [intros x Hx; by apply in_order_less|]. intros pass Hp.
  apply w_wp_bind. eapply w_wp_mono; [apply flow_wp|]. intros [?|[[token f]|]] s1 (Ha & Ho & Hl & Hx); [done| |].
  - destruct Hx as (Hf & Hst & Hsrc & Hexp). unfold w_wp. simpl. split; [|by apply free_sessions, free_cookie; intros [Hn _]].
    eapply (earned_login _ s _ token); [by apply earned_later| |simpl; apply insert_mono; etransitivity; [apply filter_less|done]|simpl; by rewrite Ho].
    destruct (proj1 He _ _ Hf) as (h1 & r1 & h2 & -> & Hb & _). exists h1, r1, (h2 ++ [r]). split; [by rewrite <- app_assoc|].
    split; [exact Hb|]. intros _. exists r. split; [apply elem_of_app; right; by left|]. by split.
  - apply in_order_less; [done|done|by rewrite Ho|apply free_err].
Qed.

Lemma finish_in_order h r s : earned h s -> w_wp (handleLoginFinish o r) (in_order h r s) s.
Proof.
  intros He. unfold handleLoginFinish. apply w_wp_bind, w_wp_said; [intros x Hx; by apply in_order_less|]. intros otp Hotp.
  apply w_wp_bind. eapply w_wp_mono; [apply flow_wp|]. intros [?|[[token f]|]] s1 (Ha & Ho & Hl & Hx); [done| |].
  - destruct Hx as (Hf & Hst & Hsrc & Hexp). unfold w_wp, clearLoginFlow, mbind at 1 2 3, W_bind at 1 2 3, changes, store, app, db, zoom. simpl. rewrite Ha.
    destruct (AuthenticatePassword _ _ _ _ _ _ _ _ _ _) as [[[sid u]|x] e] eqn:Eauth; simpl;
      (split; [eapply earned_less; [by apply earned_later|simpl; etransitivity; [apply delete_subseteq|done]|simpl; by rewrite Ho]|]).
    + intros c Hc Hopen. left. simpl in Hc. apply elem_of_cons in Hc as [->|Hc]; [by destruct Hopen|].
      apply elem_of_cons in Hc as [->|Hc]; [|by apply elem_of_nil in Hc]. simpl.
      destruct (proj1 He _ _ Hf) as (h1 & r1 & h2 & Eh & Hb & Hg). destruct (Hg Hst) as (r2 & Hin & Hgave). rewrite Hsrc in Hb, Hgave, Eauth.
      exists h1, r1, h2, r2, token, f, otp, u. split_and!; try done. simpl. apply lookup_delete_eq.
    + apply free_sessions. repeat constructor. intros [Hn _]. discriminate.
  - apply in_order_less; [done|done|by rewrite Ho|apply free_err].
Qed.

Lemma w_wp_inert {A} (m : W A) Q s : inert anything m -> (forall a s', flows s' = flows s -> login_free a -> Q (inl a) s') ->
  (forall b s', flows s' = flows s -> Q (inr b) s') -> w_wp m Q s.
Proof. intros H H1 H2. specialize (H s). unfold w_wp. destruct (m s) as [[a|b] s']; simpl in H; destruct H; eauto. Qed.
Lemma inert_settings : inert anything (oidc_settings o).
Proof. unfold oidc_settings. inert_tac. Qed.
Lemma inert_random : inert anything randomHex.
Proof. unfold randomHex. inert_tac. Qed.

Lemma in_order_inert h r s s' x : earned h s -> flows s' = flows s -> login_free (match x with inl a | inr a => a end) -> in_order h r s x s'.
Proof. intros He [= E1 E2] Hf. apply in_order_less; [done|by rewrite E1|by rewrite E2|done]. Qed.

Lemma oidc_start_in_order h r s : earned h s -> asks r (handleLoginOIDCStart o r) -> w_wp (handleLoginOIDCStart o r) (in_order h r s) s.
Proof.
  intros He Hr. unfold handleLoginOIDCStart. cbv zeta. apply w_wp_bind, w_wp_inert; [apply inert_settings|intros; by apply in_order_inert|].
  intros cfg s1 E1. destruct (negb (oi_Enabled cfg)); [by apply in_order_inert; simpl|].
  apply w_wp_bind, w_wp_inert; [apply inert_or_answer; [apply free_err|apply inert_app]|intros a s2 E Hf; apply in_order_inert; [done|congruence|done]|].
  intros secret s2 E2. destruct (negb (o_discover o _)); [apply in_order_inert; [done|congruence|apply free_err]|].
  apply w_wp_bind, w_wp_inert; [apply inert_or_answer; [apply free_err|apply inert_random]|intros a s3 E Hf; apply in_order_inert; [done|congruence|done]|].
  intros state s3 E3.
  apply w_wp_bind, w_wp_inert; [apply inert_or_answer; [apply free_err|apply inert_random]|intros a s4 E Hf; apply in_order_inert; [done|congruence|done]|].
  intros nonce s4 E4. assert (E : flows s4 = flows s) by congruence. injection E as El Eo.
  unfold w_wp. simpl. split; [|by apply free_sessions, free_json].
  eapply (earned_turn _ s _ state); [by apply earned_later| |simpl; by rewrite El|simpl; apply insert_mono; rewrite Eo; apply filter_less].
  exists r. split; [apply elem_of_app; right; by left|]. by split.
Qed.

Lemma keeps_time_oidc : keeps (on_env (same (fun _ => tt))) (GetOIDCSettings (o_decode_oidc o)).
Proof. unfold GetOIDCSettings, getOIDCSettings. apply keeps_setting_or; [typeclasses eauto|]. apply keeps_GetSetting. Qed.

Lemma take_wp state s :
  w_wp (take_oidc_flow state) (fun x s' => sv_app s' = sv_app s /\ sv_login s' = sv_login s /\ sv_oidc s' ⊆ sv_oidc s /\ sv_oidc s' !! state = None /\
    match x with
    | inl _ => False | inr None => True
    | inr (Some f) => sv_oidc s !! state = Some f /\ After (of_Expires f) (e_now (s_env (sv_app s))) = true
    end) s.
Proof.
  unfold w_wp. simpl. split_and!; try done; [etransitivity; [apply delete_subseteq|apply filter_less]|apply lookup_delete_eq|].
  destruct (filter _ _ !! state) as [f|] eqn:E; [|done]. by apply map_lookup_filter_Some in E.
Qed.

Lemma oidc_callback_in_order h r s : earned h s -> w_wp (handleLoginOIDCCallback o r) (in_order h r s) s.
Proof.
  intros He. unfold handleLoginOIDCCallback. cbv zeta. unfold oidc_settings. apply w_wp_bind, w_wp_bind.
  unfold w_wp at 1, app. pose proof (keeps_time_oidc (sv_app s)) as [_ Ht].
  destruct (GetOIDCSettings (o_decode_oidc o) (sv_app s)) as [c a1] eqn:Ec. simpl in Ht.
  set (s1 := s <| sv_app := a1 |>). unfold w_wp at 1. cbn [mret W_ret].
  destruct (negb _ || _ || _) eqn:En; [by apply in_order_inert; simpl|].
  apply orb_false_iff in En as [[En _]%orb_false_iff _]. apply negb_false_iff in En.
  destruct c as [cfg|x]; [|discriminate En].
  apply w_wp_bind. eapply w_wp_mono; [apply take_wp|]. intros [?|[f|]] s2 (Ea & El & Eo & Eg & Hx); [done| |].
  2: { apply in_order_less; [done|by rewrite El|done|done]. }
  destruct Hx as [Hf Hexp]. destruct (negb (of_SourceIP f =? _)%string) eqn:Esrc; [by apply in_order_less; [|rewrite El|..]|].
  apply negb_false_iff, String.eqb_eq in Esrc. assert (Hless : forall s' x, flows s' = flows s2 -> login_free (match x with inl a | inr a => a end) -> in_order h r s x s').
  { intros s' x [= E1 E2] Hfree. apply in_order_less; [done|by rewrite E1, El|by rewrite E2|done]. }
  apply w_wp_bind, w_wp_inert; [by apply inert_or_answer, inert_app|by intros; apply Hless|]. intros secret s3 E3.
  destruct (oidc_claims o cfg secret _) as [claims|x] eqn:Eclaims; [|by apply Hless].
  destruct (negb (oidcNonceMatch _ _)) eqn:Enonce; [by apply Hless|]. apply negb_false_iff in Enonce.
  destruct (_ =? "")%string; [by apply Hless|].
  apply w_wp_bind, w_wp_or_answer. unfold w_wp at 1, app.
  destruct (ResolveOIDCRole _ cfg (sv_app s3)) as [[[role domains]|x] a3] eqn:Erole; [|by apply Hless].
  apply w_wp_bind, w_wp_or_answer. unfold w_wp at 1, store, app, db, zoom. cbn [sv_app upd_field].
  destruct (AuthenticateExternal _ _ _ _ _ _ (s_env a3)) as [[[sid u]|x] e] eqn:Eauth; [|by apply Hless].
  unfold w_wp. simpl. destruct (Hless (s3 <| sv_app := a3 <| s_env := e |> |>) (inl (Redirect "")) E3 (free_redirect _)) as [Hearned _].
  split; [exact Hearned|]. intros c Hc _. right. apply elem_of_cons in Hc as [->|Hc]; [|by apply elem_of_nil in Hc]. simpl.
  destruct (proj2 He _ _ Hf) as (r1 & Hin & Hturned). rewrite Esrc in Hturned. injection E3 as _ E3.
  exists r1, f, cfg, a1, secret, claims, (sv_app s3), role, domains, a3, u. split_and!; try done; simpl; [by rewrite <- Ht|by rewrite E3].
Qed.

Lemma login_in_order h r m s : earned h s -> login_request r m -> asks r m -> w_wp m (in_order h r s) s.
Proof.
  intros He [] Ha;
    [by apply start_in_order|by apply password_in_order|by apply finish_in_order|by apply oidc_start_in_order|by apply oidc_callback_in_order].
Qed.

Lemma request_in_order h r s : earned h s ->
  earned (h ++ [r]) (serve (Router o r) s).2 /\
  sessions_by (fun sid => by_password h r (after_gate r s) (serve (Router o r) s).2 sid \/ by_provider h r (after_gate r s) (serve (Router o r) s).2 sid)
    (serve (Router o r) s).1.
Proof.
  intros He. destruct (served_by r s) as [[Ef Hfree]|(m & Hm & Ha & Ef & ->)].
  - split; [by apply (earned_flows _ s), Ef; apply earned_later|by apply free_sessions].
  - pose proof (login_in_order h r m (after_gate r s) (earned_flows _ _ _ He Ef) Hm Ha) as H.
    apply (w_wp_serve m (fun a s' => earned (h ++ [r]) s' /\ sessions_by (fun sid => by_password h r (after_gate r s) s' sid \/ by_provider h r (after_gate r s) s' sid) a)).
    eapply w_wp_mono; [exact H|]. by intros [a|a] s' Hx.
Qed.

Lemma served_earned h s : served h s -> earned h s.
Proof.
  induction 1 as [s H1 H2|h s r _ IH|h s s' _ IH E].
  - split; [rewrite H1|rewrite H2]; apply map_Forall_empty.
  - by apply request_in_order.
  - by eapply earned_flows.
Qed.

(** C2. Whatever requests the administration API has served, in whatever order and from
    whichever sources: the answer to a request that sets a live session cookie is
    either the last of three steps (the user name, the password and the code, each from
    the source of this request and in this order), with the account, the password and
    the code accepted by [AuthenticatePassword]; or the return from the OpenID provider,
    to which the same source was sent, with claims the provider vouches for and the
    nonce it was sent with.  In both cases the flow is used up. *)
Theorem sessions_are_earned h s r c (Hserved : served h s)
  (Hcookie : c ∈ an_Cookies (serve (Router o r) s).1) (Hopens : opens c) :
  by_password h r (after_gate r s) (serve (Router o r) s).2 (ck_Value c) \/
  by_provider h r (after_gate r s) (serve (Router o r) s).2 (ck_Value c).
Proof. by apply (request_in_order h r s (served_earned _ _ Hserved)). Qed.
End sessions.

(* ------------------------------------------------------------------ *)
(** ** A login in three steps, and one at the provider *)

Definition login_site : DB := demo_site
  <| t_users ::= <[3 := zero_User <| u_ID := 3 |> <| u_Username := "ann" |> <| u_URole := RoleAdmin |> <| u_AuthProvider := "local" |> <| u_IPCheckOff := true |>
       <| u_PasswordHash := HashPassword toy_derivation "secret" [1; 2; 3] DefaultArgonConfig |>]> |>
  <| t_settings ::= <["auth.oidc.config" := "{}"]> |> <| t_secrets := {["auth.oidc.client_secret" := "MDEyMzQ1Njc4OWFic2VjcmV0"]} |>.
Definition login_server : Server :=
  mkServer ((new_svc (mkEnv login_site (Day * 800000) [] ["0123"; "4567"; "89ab"]) None) <| s_keystore := toy_key |>) ∅ ∅ None false.
Definition login_call (path body cookie : string) : ApiRequest :=
  mkApiRequest (mkRequest "203.0.113.5:4711" "panel.example.org" "POST" path path ∅ {["domnex_login_flow" := cookie]} None true 0) ∅ body false ∅ ∅ false.
Definition step1 : ApiRequest := login_call "/api/v1/login/start" "ann" "".
Definition step2 : ApiRequest := login_call "/api/v1/login/password" "secret" "30313233".
Definition step3 : ApiRequest := login_call "/api/v1/login/finish" "" "30313233".
Definition after_two : Server := (serve (Router toy_outside step2) (serve (Router toy_outside step1) login_server).2).2.
Definition session_of (a : Response) : list (string * string * Z) := map (fun c => (ck_Name c, ck_Value c, ck_MaxAge c)) (an_Cookies a).

Lemma sessions_are_earned_witness : exists c, c ∈ an_Cookies (serve (Router toy_outside step3) after_two).1 /\ opens c /\
  by_password toy_outside [step1; step2] step3 (after_gate step3 after_two) (serve (Router toy_outside step3) after_two).2 (ck_Value c).
Proof.
  set (c := mkCookie "domnex_session" "34353637" true true 43200). exists c.
  assert (Hc : an_Cookies (serve (Router toy_outside step3) after_two).1 = [mkCookie "domnex_login_flow" "" true true (-1); c])
    by (vm_compute; reflexivity).
  assert (Hin : c ∈ an_Cookies (serve (Router toy_outside step3) after_two).1) by (rewrite Hc; right; left).
  assert (Ho : opens c) by (split; [reflexivity|simpl; lia]).
  split; [exact Hin|]. split; [exact Ho|].
  assert (Hs : served toy_outside [step1; step2] after_two)
    by (apply (served_request _ [step1]), (served_request _ []), served_none; reflexivity).
  destruct (sessions_are_earned toy_outside [step1; step2] after_two step3 c Hs Hin Ho) as [H|H]; [exact H|].
  exfalso. destruct H as (r1 & f & cfg & a1 & secret & claims & a2 & role & domains & a3 & u & _ & _ & H & _).
  vm_compute in H. discriminate H.
Defined.

Definition oidc1 : ApiRequest := login_call "/api/v1/login/oidc/start" "" "".
Definition oidc2 : ApiRequest := (login_call "/api/v1/login/oidc/callback" "" "") <| ar_http ::= fun q => q <| rq_Method := "GET" |> |>
  <| ar_Query := {["state" := "30313233"; "code" := "good"]} |>.

Example login_at_provider :
  session_of (serve (Router toy_outside oidc2) (serve (Router toy_outside oidc1) login_server).2).1 = [("domnex_session", "38396162", 43200)].
Proof. vm_compute. reflexivity. Qed.
(** The flow is used up: the same return again opens nothing. *)
Example login_once :
  session_of (serve (Router toy_outside oidc2) (serve (Router toy_outside oidc2) (serve (Router toy_outside oidc1) login_server).2).2).1 = [].
Proof. vm_compute. reflexivity. Qed.
