(* ===== verification/ProxyCore.v ===== *)
(** [internal/proxy/proxy.go], the decisions of the edge that need nothing but
    their arguments: who is on the LAN, the country policy of a host, the signals
    of a request, the unknown-host flood guard, the choice of a backend, the
    login sessions of protected hosts, and the colours of the pages. *)

From S2P Require Import Prelude GoString GoMonad GoTime GoNet GoUrl GoCrypto Model StoreDB.
From Stdlib Require Import Ascii.

(* ------------------------------------------------------------------ *)
(** ** Addresses and host names *)

Definition isLANClient (raw publicIP : string) : bool :=
  match ParseIP (TrimSpace raw) with
  | None => false
  | Some i =>
      if match ParseIP (TrimSpace publicIP) with Some p => i =? p | None => false end then true
      else if IsLoopback i || IsPrivate i || IsLinkLocalUnicast i || IsLinkLocalMulticast i then true
      else match To4 i with
           | Some _ => false
           | None => Z.land (Z.shiftr i 120) 254 =? 252
           end
  end.

Definition requestScope (clientIP publicIP : string) : string :=
  if isLANClient clientIP publicIP then "internal (LAN/hairpin request)" else "external (internet request)".

Definition normalizeHostHeader (host : string) : string :=
  ToLower (TrimSpace (before ":"%char (TrimSpace host))).

(** The label of the metrics and of the traces. *)
Definition host_label (host : string) : string :=
  let h := TrimSpace (ToLower (before ":"%char host)) in
  if String.eqb h "" then "_unknown" else h.

(* ------------------------------------------------------------------ *)
(** ** The country policy *)

Definition country_set (h : Host) : gset string :=
  list_to_set (List.filter (fun cc => len cc =? 2) (map (fun c => ToUpper (TrimSpace c)) (h_GeoCountries h))).

Definition isGeoBlocked (country : string) (h : Host) : bool * string :=
  let mode := norm (h_GeoMode h) in
  if String.eqb mode "" then (false, "")
  else if bool_decide (country_set h = ∅) then (false, mode)
  else if String.eqb country "LOCAL" then (false, mode)
  else if String.eqb mode "allow" then (negb (bool_decide (country ∈ country_set h)), mode)
  else if String.eqb mode "deny" then (bool_decide (country ∈ country_set h), mode)
  else (false, mode).

(* ------------------------------------------------------------------ *)
(** ** Threat signals of a request *)

Definition uniqueThreatFeeds (l : list string) : list string := dedup_seen norm nonempty ∅ l.

Definition crawler_hints : list string :=
  ["bot"; "crawler"; "spider"; "slurp"; "googlebot"; "bingbot"; "duckduckbot"; "yandexbot"; "baiduspider";
   "semrush"; "ahrefs"; "mj12bot"; "dotbot"; "petalbot"; "facebookexternalhit";
   "curl/"; "wget/"; "python-requests"; "go-http-client";
   "scanner"; "nmap"; "zgrab"; "nikto"; "masscan"; "sqlmap"].

Definition isLikelyCrawlerUA (ua : string) : bool := existsb (Contains (norm ua)) crawler_hints.

Definition normalizeThreatPath (p : string) : string :=
  let p := TrimSpace p in
  if String.eqb p "" then "/" else take_bytes 96 (before "?"%char p).

Definition path_needles : list string :=
  ["/.env"; "/wp-admin"; "/wp-login"; "/xmlrpc.php"; "/vendor/phpunit";
   "/boaform/admin"; "/actuator"; "/cgi-bin"; "/.git"; "/etc/passwd";
   "/api/v1/namespaces"; "/hudson"; "/jenkins"; "/manager/html"].
Definition ua_needles : list string :=
  ["zgrab"; "masscan"; "nmap"; "sqlmap"; "nikto"; "nuclei"; "dirbuster"; "gobuster"; "curl/"].

Definition signal_if (b : bool) (s : string) : list string := if b then [s] else [].

Definition detectBehaviorThreatSignals (host : string) (routeKnown : bool) (path ua : string) : list string :=
  let lp := ToLower (normalizeThreatPath path) in
  let lua := norm ua in
  uniqueThreatFeeds
    (signal_if (negb routeKnown) "behavior.unknown_host"
     ++ signal_if (existsb (Contains lp) path_needles) "behavior.path_scan"
     ++ signal_if (existsb (Contains lua) ua_needles) "behavior.ua_scanner"
     ++ signal_if (String.eqb (TrimSpace host) "") "behavior.invalid_host").

(* ------------------------------------------------------------------ *)
(** ** The unknown-host flood guard *)

Definition wafUnknownWindow : duration := 60 * Second.
Definition wafUnknownThreshold : Z := 80.
Definition wafTempBlockTTL : duration := 15 * Minute.

Record wafCounter := mkwafCounter { wc_windowStart : time; wc_count : Z }.

(** The fields under [wafMu]. *)
Record Waf := mkWaf {
  wafCount : gmap string wafCounter; wafBlock : gmap string time; wafWhy : gmap string string
}.
#[export] Instance eta_Waf : Eta Waf := fun r => mkWaf (wafCount r) (wafBlock r) (wafWhy r).

Definition block_over (now : time) (w : Waf) (ip : string) : bool :=
  match wafBlock w !! ip with Some until => negb (After until now) | None => false end.

Definition wafPrune (now : time) (w : Waf) : Waf :=
  let cutoff := Add now (- (wafUnknownWindow + wafTempBlockTTL)) in
  mkWaf (keep_rows (fun c => negb (Before (wc_windowStart c) cutoff)) (wafCount w))
        (keep_rows (fun until => After until now) (wafBlock w))
        (keep_keys (fun ip => negb (block_over now w ip)) (wafWhy w)).

(** The time the source is blocked until, and why. *)
Definition wafIsBlocked (now : time) (clientIP publicIP : string) (w : Waf) : option (time * string) * Waf :=
  if String.eqb clientIP "" || isLANClient clientIP publicIP then (None, w)
  else
    let w := wafPrune now w in
    match wafBlock w !! clientIP with
    | Some until =>
        if negb (After until now) then (None, w)
        else (Some (until, TrimSpace (default "" (wafWhy w !! clientIP))), w)
    | None => (None, w)
    end.

(** Whether the source is blocked from here, until when, and its hits. *)
Definition wafTrackUnknownHost (now : time) (clientIP publicIP : string) (w : Waf) : (bool * time * Z) * Waf :=
  if String.eqb clientIP "" || isLANClient clientIP publicIP then ((false, 0, 0), w)
  else
    let w := wafPrune now w in
    match match wafBlock w !! clientIP with Some u => if After u now then Some u else None | None => None end with
    | Some until => ((true, until, wafUnknownThreshold), w)
    | None =>
        let c := default (mkwafCounter 0 0) (wafCount w !! clientIP) in
        let c := if IsZero (wc_windowStart c) || (wafUnknownWindow <=? Sub now (wc_windowStart c))
                 then mkwafCounter now 0 else c in
        let c := mkwafCounter (wc_windowStart c) (wc_count c + 1) in
        if wc_count c <? wafUnknownThreshold
        then ((false, 0, wc_count c), w <| wafCount ::= <[clientIP := c]> |>)
        else
          let until := Add now wafTempBlockTTL in
          ((true, until, wc_count c),
           mkWaf (delete clientIP (wafCount w)) (<[clientIP := until]> (wafBlock w))
                 (<[clientIP := "unknown_host_flood"]> (wafWhy w)))
    end.

(* ------------------------------------------------------------------ *)
(** ** Routes and backends *)

(** What [newReverseProxy] sets on the standard library's proxy; a zero duration
    or number is the default. *)
Record ReverseProxy := mkReverseProxy {
  rp_url : URL; rp_host : Host; rp_upstreamRef : string; rp_MaxIdleConns : Z; rp_MaxIdleConnsPerHost : Z;
  rp_IdleConnTimeout : duration; rp_ResponseHeaderTimeout : duration; rp_FlushInterval : duration;
  rp_InsecureSkipVerify : bool
}.

Definition newReverseProxy (u : URL) (h : Host) (upstreamRef : string) : ReverseProxy :=
  let isStreaming := EqualFold (TrimSpace (h_ConnectionProfile h)) "streaming" in
  mkReverseProxy u h upstreamRef
    (if isStreaming then 512 else 200) (if isStreaming then 256 else 0)
    (if isStreaming then 180 * Second else 90 * Second) (if isStreaming then 30 * Second else 0)
    (if isStreaming then 100 * Millisecond else 0)
    (EqualFold (url_Scheme u) "https" && h_InsecureTLS h).

Record backendRoute := mkbackendRoute { br_name : string; br_raw : string; br_parsed : URL; br_proxy : ReverseProxy }.

(** [proxy] is nil for a disabled host, [rr] a [uint64]. *)
Record routeEntry := mkrouteEntry {
  re_proxy : option ReverseProxy; re_backends : list backendRoute; re_host : Host; re_rr : Z
}.
#[export] Instance eta_routeEntry : Eta routeEntry := fun r =>
  mkrouteEntry (re_proxy r) (re_backends r) (re_host r) (re_rr r).

Section dial.
(** Whether a TCP connection to an address opens within the timeout. *)
Context (reachable : string -> bool).

Definition isBackendReachable (u : URL) : bool :=
  let port := Port u in
  let port := if String.eqb port "" then if EqualFold (url_Scheme u) "https" then "443" else "80" else port in
  reachable (JoinHostPort (Hostname u) port).

(** The loop of the failover mode: the index of the first backend that answers,
    and the names of those before it. *)
Fixpoint first_online (i : Z) (l : list backendRoute) : Z * Z * list string :=
  match l with
  | [] => (-1, 0, [])
  | b :: l' =>
      if isBackendReachable (br_parsed b) then (i, 1, [])
      else
        let name := TrimSpace (br_name b) in
        let '(idx, online, offline) := first_online (i + 1) l' in
        (idx, online, (if String.eqb name "" then br_raw b else name) :: offline)
  end.

(** Index, number online, total and offline names; and the entry with its counter. *)
Definition selectBackendIndex (rt : routeEntry) : (Z * Z * Z * list string) * routeEntry :=
  let n := Z.of_nat (length (re_backends rt)) in
  if n =? 0 then ((-1, 0, 0, []), rt)
  else
    let mode := norm (h_HAMode (re_host rt)) in
    let mode := if String.eqb mode "" then "failover" else mode in
    if String.eqb mode "round_robin" then
      let rr := (re_rr rt + 1) mod 2 ^ 64 in
      ((((rr - 1) mod 2 ^ 64) mod n, n, n, []), rt <| re_rr := rr |>)
    else
      let '(idx, online, offline) := first_online 0 (re_backends rt) in
      ((idx, online, n, offline), rt).
End dial.

(* ------------------------------------------------------------------ *)
(** ** Sessions of protected hosts *)

Record authSession := mkauthSession { as_host : string; as_expiresAt : time }.

Definition hostAuthCookieName : string := "dnx_host_auth".
Definition hostAuthPathLogin : string := "/_domnex/auth/login".
Definition hostAuthPathLogout : string := "/_domnex/auth/logout".
Definition hostAuthTTL : duration := 12 * Hour.

Definition pruneAuthSessions (now : time) (auth : gmap string authSession) : gmap string authSession :=
  keep_rows (fun s => negb (After now (as_expiresAt s))) auth.

(** A session of another host, or one that is over, is dropped. *)
Definition isHostAuthorized (now : time) (host : string) (cookie : option string) (auth : gmap string authSession)
    : bool * gmap string authSession :=
  match cookie with
  | None => (false, auth)
  | Some value =>
      if String.eqb (TrimSpace value) "" then (false, auth)
      else match auth !! value with
      | None => (false, auth)
      | Some s =>
          if negb (String.eqb (as_host s) host) || After now (as_expiresAt s) then (false, delete value auth)
          else (true, auth)
      end
  end.

Definition logoutHostAuth (cookie : option string) (auth : gmap string authSession) : gmap string authSession :=
  match cookie with
  | Some value => if String.eqb value "" then auth else delete value auth
  | None => auth
  end.

Definition normalizeNext (raw : string) : string :=
  let raw := TrimSpace raw in
  if String.eqb raw "" || negb (HasPrefix raw "/") || HasPrefix raw "//" || HasPrefix raw hostAuthPathLogin
  then "/" else raw.

(* ------------------------------------------------------------------ *)
(** ** The theme *)

Record edgeTheme := mkedgeTheme {
  th_bg : string; th_surface : string; th_border : string; th_text : string; th_dim : string; th_accent : string;
  th_danger : string; th_inputBg : string; th_success : string; th_heroA : string; th_heroB : string
}.

Definition monolithEdgeTheme : edgeTheme :=
  mkedgeTheme "#0b0c12" "#13141c" "#2a2d3a" "#f3f4f6" "#9ca3af" "#2563eb" "#fca5a5" "#0f1119" "#10b981"
    "rgba(56,189,248,.15)" "rgba(99,102,241,.2)".
Definition cyberMonolithEdgeTheme : edgeTheme :=
  mkedgeTheme "#16161a" "#1c1c22" "#2a2a36" "#e6e6f0" "#8b8b99" "#8b5cf6" "#dc2626" "#17171d" "#10b981"
    "rgba(139,92,246,.16)" "rgba(124,58,237,.12)".

Definition safe_byte (c : ascii) : bool := is_lower c || is_upper c || is_digit c || has_char c "#(),.%- _".
Definition isSafeThemeValue (v : string) : bool := all_chars safe_byte v.

(** [set(&dst, key)] on the decoded JSON object. *)
Definition theme_value (m : gmap string string) (key dst : string) : string :=
  let v := TrimSpace (default "" (m !! key)) in
  if String.eqb v "" || (64 <? len v) then dst else if isSafeThemeValue v then v else dst.

Definition parseEdgeTheme (decode : string -> option (gmap string string)) (profile custom : string) : edgeTheme :=
  let base := if EqualFold (TrimSpace profile) "cybermonolith" then cyberMonolithEdgeTheme else monolithEdgeTheme in
  let base := if EqualFold (TrimSpace profile) "custom" then monolithEdgeTheme else base in
  let custom := TrimSpace custom in
  if String.eqb custom "" then base
  else match decode custom with
  | None => base
  | Some m =>
      mkedgeTheme (theme_value m "bg" (th_bg base)) (theme_value m "surface" (th_surface base))
        (theme_value m "border" (th_border base)) (theme_value m "text" (th_text base))
        (theme_value m "textDim" (th_dim base)) (theme_value m "accent" (th_accent base))
        (theme_value m "danger" (th_danger base)) (theme_value m "inputBg" (th_inputBg base))
        (theme_value m "success" (th_success base)) (theme_value m "heroA" (th_heroA base))
        (theme_value m "heroB" (th_heroB base))
  end.

(* ------------------------------------------------------------------ *)
(** ** The theme is safe to print in a style sheet *)

Definition theme_colours (t : edgeTheme) : list string :=
  [th_bg t; th_surface t; th_border t; th_text t; th_dim t; th_accent t; th_danger t; th_inputBg t; th_success t;
   th_heroA t; th_heroB t].

Definition printable_colour (v : string) : Prop := isSafeThemeValue v = true /\ len v <= 64.

Lemma theme_value_ok m key dst : printable_colour dst -> printable_colour (theme_value m key dst).
Proof.
  intros Hd. unfold theme_value. cbv zeta. destruct (_ || _) eqn:E; [done|].
  destruct (isSafeThemeValue _) eqn:Hs; [|done]. split; [done|]. bool_facts. lia.
Qed.

Lemma builtin_themes_ok :
  Forall printable_colour (theme_colours monolithEdgeTheme) /\
  Forall printable_colour (theme_colours cyberMonolithEdgeTheme).
Proof. split; repeat (constructor; [split; [reflexivity|vm_compute; discriminate]|]); constructor. Qed.

(** Whatever style the settings hold, every colour written into the style
    sheet of a page is at most 64 letters, digits and characters of [#(),.%-_ ]:
    no setting can close the rule or open another element. *)
Theorem theme_is_printable decode profile custom :
  Forall printable_colour (theme_colours (parseEdgeTheme decode profile custom)).
Proof.
  destruct builtin_themes_ok as [H1 H2]. unfold parseEdgeTheme. cbv zeta.
  match goal with |- context [if String.eqb _ "" then ?b else _] => set (base := b) end.
  assert (Hb : Forall printable_colour (theme_colours base)) by (unfold base; repeat case_match; assumption).
  clearbody base. destruct (String.eqb (TrimSpace custom) ""); [done|].
  destruct (decode _) as [m|]; [|done].
  destruct base. unfold theme_colours in *. simpl in *.
  repeat match goal with H : Forall _ (_ :: _) |- _ => apply Forall_cons in H as [? H] end.
  repeat (constructor; [by apply theme_value_ok|]). constructor.
Qed.

(* ------------------------------------------------------------------ *)
(** ** The flood guard *)

(** A series of requests for unknown hosts by one source. *)
Fixpoint unknown_hits (ip pub : string) (ts : list time) (w : Waf) : list bool * Waf :=
  match ts with
  | [] => ([], w)
  | t :: l =>
      let '((b, _, _), w) := wafTrackUnknownHost t ip pub w in
      let '(bs, w) := unknown_hits ip pub l w in
      (b :: bs, w)
  end.

Lemma unknown_hits_app ip pub l l' w :
  unknown_hits ip pub (l ++ l') w =
  let '(b1, w1) := unknown_hits ip pub l w in let '(b2, w2) := unknown_hits ip pub l' w1 in (b1 ++ b2, w2).
Proof.
  revert w. induction l as [|t l IH]; intros w; simpl; [by destruct (unknown_hits ip pub l' w)|].
  destruct (wafTrackUnknownHost t ip pub w) as [[[b u] h] w1]. rewrite IH.
  destruct (unknown_hits ip pub l w1) as [b1 w2]. by destruct (unknown_hits ip pub l' w2).
Qed.

Section flood.
Context (ip pub : string) (t0 : time).
Implicit Types (t u : time) (w : Waf).
Context (Hip : ip <> "") (Hpub : isLANClient ip pub = false) (Ht0 : 0 < t0).

(** What is stored of the source after [k] hits, the 80th at [t80]. *)
Definition after_hits (k : nat) (t80 : time) (w : Waf) : Prop :=
  if (k <? 80)%nat then
    wafBlock w !! ip = None /\
    wafCount w !! ip = (if (k =? 0)%nat then None else Some (mkwafCounter t0 (Z.of_nat k)))
  else wafBlock w !! ip = Some (Add t80 wafTempBlockTTL).

Lemma prune_block t w :
  wafBlock (wafPrune t w) !! ip = match wafBlock w !! ip with Some u => if After u t then Some u else None | None => None end.
Proof. apply lookup_keep_rows. Qed.
Lemma prune_count t w :
  wafCount (wafPrune t w) !! ip =
  match wafCount w !! ip with
  | Some c => if negb (Before (wc_windowStart c) (t - (wafUnknownWindow + wafTempBlockTTL))) then Some c else None
  | None => None
  end.
Proof. apply lookup_keep_rows. Qed.

(** A hit while the source is blocked. *)
Lemma track_blocked (t until : time) w :
  wafBlock w !! ip = Some until -> t < until ->
  wafTrackUnknownHost t ip pub w = ((true, until, wafUnknownThreshold), wafPrune t w).
Proof.
  intros Hb Ht. apply String.eqb_neq in Hip. unfold wafTrackUnknownHost. rewrite Hip, Hpub. change (false || false) with false. cbv iota zeta.
  rewrite prune_block, Hb. unfold After. replace (t <? until) with true by lia. cbv iota.
  replace (t <? until) with true by lia. done.
Qed.

(** A hit while it is not. *)
Lemma track_free t w :
  wafBlock w !! ip = None ->
  let c := match wafCount w !! ip with
           | Some c => if negb (Before (wc_windowStart c) (t - (wafUnknownWindow + wafTempBlockTTL))) then c else mkwafCounter 0 0
           | None => mkwafCounter 0 0
           end in
  let c := if IsZero (wc_windowStart c) || (wafUnknownWindow <=? Sub t (wc_windowStart c)) then mkwafCounter t 0 else c in
  let '((b, _, _), w') := wafTrackUnknownHost t ip pub w in
  if wc_count c + 1 <? wafUnknownThreshold
  then b = false /\ wafBlock w' !! ip = None /\ wafCount w' !! ip = Some (mkwafCounter (wc_windowStart c) (wc_count c + 1))
  else b = true /\ wafBlock w' !! ip = Some (Add t wafTempBlockTTL).
Proof.
  intros Hb. apply String.eqb_neq in Hip. unfold wafTrackUnknownHost. rewrite Hip, Hpub. change (false || false) with false. cbv iota zeta.
  rewrite prune_block, Hb, prune_count. cbv iota.
  set (c0 := default _ _).
  assert (Hc0 : c0 = match wafCount w !! ip with
    | Some c => if negb (Before (wc_windowStart c) (t - (wafUnknownWindow + wafTempBlockTTL))) then c else mkwafCounter 0 0
    | None => mkwafCounter 0 0 end) by (unfold c0; destruct (wafCount w !! ip) as [c|]; [by destruct (negb _)|done]).
  rewrite <- Hc0. clearbody c0.
  set (c := if _ || _ then _ else c0). simpl wc_count. simpl wc_windowStart.
  destruct (wc_count c + 1 <? wafUnknownThreshold); simpl.
  - split; [done|]. split; [by rewrite lookup_keep_rows, Hb|]. apply lookup_insert_eq.
  - split; [done|]. apply lookup_insert_eq.
Qed.

Lemma track_step k t80 t w :
  t0 <= t < t0 + wafUnknownWindow -> (k = 0%nat -> t = t0) -> ((80 <= k)%nat -> t0 <= t80) ->
  after_hits k t80 w ->
  let '((b, _, _), w') := wafTrackUnknownHost t ip pub w in
  b = (80 <=? S k)%nat /\ after_hits (S k) (if (k =? 79)%nat then t else t80) w'.
Proof.
  intros Ht H0 H80 Hw. unfold after_hits in *. unfold wafUnknownWindow, Second in Ht.
  destruct (k <? 80)%nat eqn:Hk; apply Nat.ltb_lt in Hk || apply Nat.ltb_ge in Hk.
  - destruct Hw as [Hb Hc]. pose proof (track_free t w Hb) as Hf. cbv zeta in Hf. rewrite Hc in Hf.
    destruct (wafTrackUnknownHost t ip pub w) as [[[b u] h] w']. clear Hb Hc.
    destruct (k =? 0)%nat eqn:E0; [apply Nat.eqb_eq in E0; subst k; rewrite H0 in Hf by done; by destruct Hf as (-> & -> & ->)|].
    simpl in Hf. unfold Before, IsZero in Hf.
    replace (t0 <? t - (wafUnknownWindow + wafTempBlockTTL)) with false in Hf
      by (unfold wafUnknownWindow, wafTempBlockTTL, Minute, Second; lia).
    simpl in Hf. replace (t0 =? 0) with false in Hf by lia. rewrite Sub_exact in Hf.
    2: { unfold in_int64, min_int64, max_int64. apply andb_true_intro. split; apply Z.leb_le; lia. }
    replace (wafUnknownWindow <=? t - t0) with false in Hf by (unfold wafUnknownWindow, Second; lia). simpl in Hf.
    unfold wafUnknownThreshold in Hf. destruct (S k <? 80)%nat eqn:Es; apply Nat.ltb_lt in Es || apply Nat.ltb_ge in Es.
    + replace (Z.of_nat k + 1 <? 80) with true in Hf by lia. destruct Hf as (-> & -> & ->).
      split; [by destruct k as [|k]; [done|]; symmetry; apply Nat.leb_gt|]. split; [done|]. simpl. do 2 f_equal. lia.
    + replace (Z.of_nat k + 1 <? 80) with false in Hf by lia. destruct Hf as (-> & ->).
      replace k with 79%nat by lia. done.
  - rewrite (track_blocked t _ w Hw) by (specialize (H80 Hk); unfold Add, wafTempBlockTTL, Minute, Second; lia).
    split; [symmetry; apply Nat.leb_le; lia|].
    replace (S k <? 80)%nat with false by (symmetry; apply Nat.ltb_ge; lia).
    replace (k =? 79)%nat with false by (symmetry; apply Nat.eqb_neq; lia).
    rewrite prune_block, Hw. unfold After, Add. specialize (H80 Hk).
    by replace (t <? t80 + wafTempBlockTTL) with true by (unfold wafTempBlockTTL, Minute, Second; lia).
Qed.

Lemma flood_state w ts :
  wafBlock w !! ip = None -> wafCount w !! ip = None ->
  head ts = Some t0 \/ ts = [] -> Forall (fun t : time => t0 <= t < t0 + wafUnknownWindow) ts ->
  let '(bs, w') := unknown_hits ip pub ts w in
  bs = map (fun i => (80 <=? i)%nat) (seq 1 (length ts)) /\ after_hits (length ts) (nth 79 ts 0) w'.
Proof.
  intros Hb Hc. induction ts as [|t ts IH] using rev_ind; intros Hh Hall; [done|].
  apply Forall_app in Hall as [Hall [Ht _]%Forall_cons].
  rewrite unknown_hits_app. destruct (unknown_hits ip pub ts w) as [bs w1].
  destruct IH as [-> Hw]; [by destruct ts; [right|left; destruct Hh]|done|].
  simpl. pose proof (track_step (length ts) (nth 79 ts 0) t w1 Ht) as Hs.
  destruct (wafTrackUnknownHost t ip pub w1) as [[[b u] h] w2]. destruct Hs as [-> Hw2]; [..|done|].
  - destruct ts; [|done]. intros _. destruct Hh as [[= ->]|]; done.
  - intros Hk. rewrite Forall_forall in Hall. assert (Hn : nth 79 ts 0 ∈ ts) by (apply list_elem_of_In, nth_In; lia).
    by apply Hall in Hn as [? _].
  - rewrite length_app. change (length [t]) with 1%nat. rewrite Nat.add_1_r, seq_S, map_app. split; [done|].
    replace (nth 79 (ts ++ [t]) 0) with (if (length ts =? 79)%nat then t else nth 79 (ts ++ [t]) 0).
    2: { destruct (length ts =? 79)%nat eqn:E; [|done]. apply Nat.eqb_eq in E. rewrite app_nth2 by lia. by rewrite E. }
    destruct (length ts =? 79)%nat eqn:E; [exact Hw2|]. apply Nat.eqb_neq in E.
    unfold after_hits in *. destruct (S (length ts) <? 80)%nat eqn:E2; [done|].
    apply Nat.ltb_ge in E2. by rewrite app_nth1 by lia.
Qed.
End flood.

(** The flood guard: of a series of requests for unknown hosts that one
    outside source makes within a minute, exactly those from the 80th on are
    refused; from then on every request of the source is refused for fifteen
    minutes after the 80th, and none of them after that. *)
Theorem flood_guard ip pub (t0 : time) (ts : list time) w (t : time) :
  ip <> "" -> isLANClient ip pub = false -> 0 < t0 ->
  wafBlock w !! ip = None -> wafCount w !! ip = None ->
  head ts = Some t0 -> Forall (fun t : time => t0 <= t < t0 + wafUnknownWindow) ts ->
  let '(bs, w') := unknown_hits ip pub ts w in
  bs = map (fun i => (80 <=? i)%nat) (seq 1 (length ts)) /\
  ((wafIsBlocked t ip pub w').1 <> None <-> (80 <= length ts)%nat /\ t < nth 79 ts 0 + wafTempBlockTTL).
Proof.
  intros Hip Hpub Ht0 Hb Hc Hh Hall. pose proof (flood_state ip pub t0 Hip Hpub Ht0 w ts Hb Hc (or_introl Hh) Hall) as H.
  destruct (unknown_hits ip pub ts w) as [bs w']. destruct H as [-> Hw]. split; [done|].
  apply String.eqb_neq in Hip. unfold wafIsBlocked. rewrite Hip, Hpub. change (false || false) with false. cbv iota zeta.
  rewrite prune_block. revert Hw. unfold after_hits. destruct (length ts <? 80)%nat eqn:E; intros Hw.
  - apply Nat.ltb_lt in E. destruct Hw as [-> _]. simpl. split; [done|lia].
  - apply Nat.ltb_ge in E. rewrite Hw. unfold After, Add. destruct (t <? _) eqn:Et; simpl.
    + rewrite Et. simpl. split; [lia|done].
    + split; [done|lia].
Qed.

Definition flood_times : list time := map (fun k => Hour + Z.of_nat k * 100 * Millisecond) (seq 0 100).

Lemma flood_guard_witness :
  let '(bs, w') := unknown_hits "203.0.113.9" "198.51.100.1" flood_times (mkWaf ∅ ∅ ∅) in
  bs = repeat false 79 ++ repeat true 21 /\
  (wafIsBlocked (Hour + 10 * Minute) "203.0.113.9" "198.51.100.1" w').1 <> None.
Proof.
  assert (Hall : Forall (fun t : time => Hour <= t < Hour + wafUnknownWindow) flood_times).
  { apply Forall_forall. intros t Ht. apply list_elem_of_In, in_map_iff in Ht as (k & <- & Hk).
    apply in_seq in Hk. unfold wafUnknownWindow, Millisecond, Second. lia. }
  pose proof (flood_guard "203.0.113.9" "198.51.100.1" Hour flood_times (mkWaf ∅ ∅ ∅) (Hour + 10 * Minute)
    ltac:(discriminate) ltac:(vm_compute; reflexivity) ltac:(vm_compute; reflexivity) eq_refl eq_refl
    ltac:(vm_compute; reflexivity) Hall) as H.
  destruct (unknown_hits _ _ _ _) as [bs w']. destruct H as [-> H].
  split; [vm_compute; reflexivity|]. apply H. split; [vm_compute; lia|vm_compute; reflexivity].
Defined.

(* ------------------------------------------------------------------ *)
(** ** The choice of a backend *)

Section backends.
Context (reachable : string -> bool).
Local Abbreviation up b := (isBackendReachable reachable (br_parsed b)).

Lemma first_online_spec i l :
  let '(idx, online, offline) := first_online reachable i l in
  (idx = -1 /\ online = 0 /\ Forall (fun b => up b = false) l /\ length offline = length l) \/
  (exists l1 b l2, l = l1 ++ b :: l2 /\ Forall (fun b => up b = false) l1 /\ up b = true /\
     idx = i + Z.of_nat (length l1) /\ online = 1 /\ length offline = length l1).
Proof.
  revert i. induction l as [|b l IH]; intros i; simpl; [left; done|].
  destruct (up b) eqn:Hb.
  - right. exists [], b, l. simpl. split_and!; try done. lia.
  - specialize (IH (i + 1)). destruct (first_online reachable (i + 1) l) as [[idx online] offline].
    destruct IH as [(-> & -> & H1 & H2)|(l1 & c & l2 & -> & H1 & H2 & -> & -> & H3)].
    + left. split_and!; try done; [by constructor|simpl; lia].
    + right. exists (b :: l1), c, l2. simpl. split_and!; try done; [by constructor|lia|lia].
Qed.

Lemma selection_of rt :
  let n := Z.of_nat (length (re_backends rt)) in
  0 < n ->
  selectBackendIndex reachable rt =
  if String.eqb (norm (h_HAMode (re_host rt))) "round_robin"
  then ((((((re_rr rt + 1) mod 2 ^ 64) - 1) mod 2 ^ 64) mod n, n, n, []), rt <| re_rr := (re_rr rt + 1) mod 2 ^ 64 |>)
  else let '(idx, online, offline) := first_online reachable 0 (re_backends rt) in ((idx, online, n, offline), rt).
Proof.
  cbv zeta. intros Hn. unfold selectBackendIndex. cbv zeta.
  replace (Z.of_nat (length (re_backends rt)) =? 0) with false by lia.
  destruct (norm (h_HAMode (re_host rt)) =? "")%string eqn:E; [|done]. apply String.eqb_eq in E. by rewrite E.
Qed.

(** No index, or one in range. *)
Lemma backend_in_range rt : re_backends rt <> [] ->
  let idx := (selectBackendIndex reachable rt).1.1.1.1 in
  idx < 0 \/ 0 <= idx < Z.of_nat (length (re_backends rt)).
Proof.
  intros Hne. assert (Hn : 0 < Z.of_nat (length (re_backends rt))) by (destruct (re_backends rt); [done|simpl; lia]).
  cbv zeta. rewrite selection_of by done. destruct (_ =? "round_robin")%string.
  - right. by apply Z.mod_pos_bound.
  - pose proof (first_online_spec 0 (re_backends rt)) as Hs.
    destruct (first_online reachable 0 (re_backends rt)) as [[idx online] offline].
    destruct Hs as [(-> & _)|(l1 & b & l2 & -> & _ & _ & -> & _)]; [by left|right].
    rewrite length_app. simpl. lia.
Qed.

(** The choice of a backend: an entry is always in range when one is
    chosen; in failover mode it is the first one of the list that answers, and
    none is chosen exactly when none answers; in round-robin mode one is always
    chosen, whether it answers or not. *)
Theorem backend_choice rt :
  re_backends rt <> [] ->
  let '((idx, _, total, _), _) := selectBackendIndex reachable rt in
  total = Z.of_nat (length (re_backends rt)) /\
  if String.eqb (norm (h_HAMode (re_host rt))) "round_robin" then 0 <= idx < total
  else (idx = -1 /\ Forall (fun b => up b = false) (re_backends rt)) \/
       (0 <= idx < total /\ exists b, re_backends rt !! Z.to_nat idx = Some b /\ up b = true /\
          Forall (fun b => up b = false) (take (Z.to_nat idx) (re_backends rt))).
Proof.
  intros Hne. assert (Hn : 0 < Z.of_nat (length (re_backends rt))) by (destruct (re_backends rt); [done|simpl; lia]).
  rewrite selection_of by done. destruct (_ =? "round_robin")%string.
  - split; [done|]. apply Z.mod_pos_bound. lia.
  - pose proof (first_online_spec 0 (re_backends rt)) as Hs.
    destruct (first_online reachable 0 (re_backends rt)) as [[idx online] offline]. split; [done|].
    destruct Hs as [(-> & _ & H & _)|(l1 & b & l2 & Hl & H1 & H2 & -> & _)]; [by left|]. right.
    rewrite Hl, Z.add_0_l, Nat2Z.id, length_app. simpl. split; [lia|]. exists b.
    by rewrite list_lookup_middle, take_app_length.
Qed.

(** The index round-robin chooses [k] requests later. *)
Fixpoint choices (k : nat) (rt : routeEntry) : list Z :=
  match k with
  | O => []
  | S k => let '((idx, _, _, _), rt) := selectBackendIndex reachable rt in idx :: choices k rt
  end.

Lemma choices_round_robin k rt :
  let n := Z.of_nat (length (re_backends rt)) in
  0 < n -> norm (h_HAMode (re_host rt)) = "round_robin" -> 0 <= re_rr rt -> re_rr rt + Z.of_nat k < 2 ^ 64 ->
  choices k rt = map (fun i => (re_rr rt + Z.of_nat i) mod n) (seq 0 k).
Proof.
  cbv zeta. intros Hn Hm. revert rt Hn Hm. induction k as [|k IH]; intros rt Hn Hm H0 Hk; [done|].
  cbn [choices]. rewrite selection_of by done. rewrite Hm. change (String.eqb "round_robin" "round_robin") with true.
  cbv iota. rewrite (Z.mod_small (re_rr rt + 1)) by lia. rewrite Z.add_simpl_r, (Z.mod_small (re_rr rt)) by lia.
  rewrite IH by (simpl; first [done|lia]). simpl. rewrite Z.add_0_r. f_equal. rewrite <- seq_shift, map_map.
  apply map_ext. intros i. f_equal. lia.
Qed.

(** C37. Round robin is fair: of as many consecutive choices as there are
    backends, each backend gets exactly one, wherever the counter stands (before
    it wraps around). *)
Theorem round_robin_fair rt :
  let n := Z.of_nat (length (re_backends rt)) in
  0 < n -> norm (h_HAMode (re_host rt)) = "round_robin" -> 0 <= re_rr rt -> re_rr rt + n < 2 ^ 64 ->
  choices (length (re_backends rt)) rt ≡ₚ map Z.of_nat (seq 0 (length (re_backends rt))).
Proof.
  cbv zeta. intros Hn Hm H0 Hb. rewrite choices_round_robin by done.
  set (k := length (re_backends rt)) in *. clearbody k. apply submseteq_length_Permutation; [|by rewrite !length_map].
  apply NoDup_submseteq.
  - apply NoDup_fmap_2_strong; [|apply NoDup_seq]. intros i j Hi Hj E.
    apply elem_of_seq in Hi, Hj.
    assert (Hd : (re_rr rt + Z.of_nat i - (re_rr rt + Z.of_nat j)) mod Z.of_nat k = 0).
    { rewrite Zminus_mod, E, Z.sub_diag. by apply Zmod_0_l. }
    apply Z.mod_divide in Hd as [q Hq]; [|lia]. assert (q = 0) as -> by (clear -Hq Hi Hj; destruct (Z.lt_trichotomy q 0) as [|[|]]; [nia|done|nia]). lia.
  - intros x Hx. apply list_elem_of_In, in_map_iff in Hx as (i & <- & Hi).
    apply list_elem_of_In, in_map_iff. exists (Z.to_nat ((re_rr rt + Z.of_nat i) mod Z.of_nat k)).
    pose proof (Z.mod_pos_bound (re_rr rt + Z.of_nat i) (Z.of_nat k) ltac:(lia)).
    split; [lia|]. apply in_seq. lia.
Qed.
End backends.

Definition demo_backend (name host : string) : backendRoute :=
  mkbackendRoute name ("http://" +:+ host) (mkURL "http" host) (newReverseProxy (mkURL "http" host) zero_Host "").
Definition demo_route (mode : string) (rr : Z) : routeEntry :=
  mkrouteEntry None [demo_backend "a" "a.lan"; demo_backend "b" "b.lan:81"; demo_backend "c" "c.lan"]
    (zero_Host <| h_HAMode := mode |>) rr.
Definition only_b (addr : string) : bool := String.eqb addr "b.lan:81".

Lemma backend_choice_witness :
  (selectBackendIndex only_b (demo_route " FailOver" 0)).1 = (1, 1, 3, ["a"]) /\
  exists b, re_backends (demo_route "" 0) !! 1%nat = Some b /\ isBackendReachable only_b (br_parsed b) = true.
Proof.
  split; [vm_compute; reflexivity|].
  pose proof (backend_choice only_b (demo_route "" 0) ltac:(discriminate)) as H.
  destruct (selectBackendIndex only_b (demo_route "" 0)) as [[[[idx on] total] off] rt] eqn:E.
  assert (Hi : idx = 1) by (apply (f_equal (fun x => x.1.1.1.1)) in E; vm_compute in E; by rewrite <- E).
  destruct H as [_ H]. change (String.eqb (norm (h_HAMode (re_host (demo_route "" 0)))) "round_robin") with false in H.
  cbv iota in H. destruct H as [[-> _]|[_ (b & H1 & H2 & _)]]; [done|]. subst idx. by exists b.
Defined.

Lemma round_robin_fair_witness : choices only_b 3 (demo_route "round_robin" 7) ≡ₚ [0; 1; 2].
Proof. apply (round_robin_fair only_b (demo_route "round_robin" 7)); vm_compute; (reflexivity || discriminate). Defined.

(* ------------------------------------------------------------------ *)
(** ** Small facts *)

Lemma normalizeNext_local raw :
  HasPrefix (normalizeNext raw) "/" = true /\ HasPrefix (normalizeNext raw) "//" = false.
Proof.
  unfold normalizeNext. cbv zeta. destruct (_ || _ || _ || _) eqn:E; [done|]. bool_facts. done.
Qed.

(** What a browser reads as the start of another host passes all the same. *)
Example normalizeNext_backslash : normalizeNext "/\evil.example/" = "/\evil.example/".
Proof. reflexivity. Qed.

Lemma isGeoBlocked_local h : (isGeoBlocked "LOCAL" h).1 = false.
Proof. unfold isGeoBlocked. cbv zeta. by repeat case_match. Qed.
