(* ===== verification/Proxy.v ===== *)
(** [internal/proxy/proxy.go]: the edge engine, its refresh and its handler.

    The engine reaches the control plane through [HostSource], the interface of
    the Go file; [ProxySafety] states what it relies on and discharges it for the
    service.  The handler is the sequence of stages the Go function runs, each of
    which may answer the request; the deferred function runs after them.  Log
    lines and the text of the pages are not modelled. *)

From S2P Require Import Prelude GoString GoMonad GoTime GoNet GoUrl GeoIp GoCrypto Crypto NetUtil Model StoreDB.
From S2P Require Import Traffic ProxyCore.
From Stdlib Require Import Ascii.

(* ------------------------------------------------------------------ *)
(** ** The interface of the control plane *)

Class HostSource (S : Type) := {
  ListHosts : M S (list Host);
  ListDomains : M S (list Domain);
  ListSSHBastionRoutes : M S (list SSHBastionRoute);
  PublicIPv4 : S -> string;
  AddAuditEvent : AuditEvent -> M S unit;
  AddTraceEvent : TraceEvent -> M S unit;
  GetStyleSettings : M S (string * string);
  GetThreatIntelSnapshot : M S ThreatIntelSnapshot;
  ApplyThreatIntelEvent : ThreatIntelEventInput -> M S (ThreatIntelEventResult * option error);
  IsIPBlocked : string -> M S bool;
  UpsertBlockedIP : string -> string -> M S unit
}.

(* ------------------------------------------------------------------ *)
(** ** Pages and answers *)

Record smartErrorPage := mksmartErrorPage {
  sp_HTTPStatus : Z; sp_Title : string; sp_Description : string; sp_Code : string; sp_FailurePoint : string;
  sp_Host : string; sp_TraceID : string; sp_Theme : string; sp_Scope : string
}.

(** What [renderSmartErrorPage] shows besides the fixed text. *)
Record rendered := mkrendered {
  rd_status : Z; rd_host : string; rd_title : string; rd_description : string; rd_traceID : string; rd_theme : string
}.

Definition renderSmartErrorPage (r : Request) (p : smartErrorPage) : rendered :=
  let status := if sp_HTTPStatus p =? 0 then 503 else sp_HTTPStatus p in
  let host := TrimSpace (sp_Host p) in
  let host := if String.eqb host "" then TrimSpace (ToLower (before ":"%char (rq_RHost r))) else host in
  mkrendered status (if String.eqb host "" then "unknown" else host) (sp_Title p) (sp_Description p) (sp_TraceID p)
    (TrimSpace (ToLower (sp_Theme p))).

(** What the client gets. *)
Inductive outcome : Type :=
| Logo
| Dropped                                            (* the connection is closed *)
| ErrorPage (code : string) (page : rendered)
| Landing (host traceID : string)                    (* renderManagedDomainPage *)
| LoginPage (fqdn next errMsg : string)              (* renderHostLoginPage *)
| AuthFailure                                        (* 500 "auth error" *)
| LoggedOut                                          (* the cookie is cleared *)
| LoggedIn (next token : string) (secure : bool)     (* the cookie is set *)
| Served (rp : ReverseProxy) (status bytes : Z) (edge_header : string). (* the backend answered *)

Definition droppedStatusCode : Z := 444.

(** [sw.StatusCode()] and the header [X-DomNex-Edge-Error], at the end. *)
Definition StatusCode (o : outcome) : Z :=
  match o with
  | Logo | Landing _ _ => 200
  | Dropped => droppedStatusCode
  | ErrorPage _ p => rd_status p
  | LoginPage _ _ _ => 401
  | AuthFailure => 500
  | LoggedOut | LoggedIn _ _ _ => 303
  | Served _ status _ _ => if status =? 0 then 200 else status
  end.
Definition edge_error (o : outcome) : bool :=
  match o with
  | Dropped | ErrorPage _ _ | Landing _ _ => true
  | Served _ _ _ h => EqualFold (TrimSpace h) "1"
  | _ => false
  end.

(* ------------------------------------------------------------------ *)
(** ** The engine *)

Section engine.
Context {S : Type} `{HostSource S}.

(** [Engine], with the clock and the random source it reads.  [e.m], [e.tr] and
    [e.live] may be nil. *)
Record Engine := mkEngine {
  g_src : S; g_now : time; g_rand : list string; g_geo : Resolver;
  g_requests : option (gmap (string * string) Z); g_geoBlocks : gmap (string * string * string) Z;
  g_tr : option Recorder; g_live : option LiveHub; g_publicIP : string;
  g_routes : gmap string routeEntry; g_bastion : gset string; g_managed : gset string;
  g_auth : gmap string authSession; g_theme : edgeTheme; g_waf : Waf; g_tiSnap : ThreatIntelSnapshot;
  g_trusted : list IPNet
}.
#[export] Instance eta_Engine : Eta Engine := fun r =>
  mkEngine (g_src r) (g_now r) (g_rand r) (g_geo r) (g_requests r) (g_geoBlocks r) (g_tr r) (g_live r)
    (g_publicIP r) (g_routes r) (g_bastion r) (g_managed r) (g_auth r) (g_theme r) (g_waf r) (g_tiSnap r)
    (g_trusted r).

Definition New (source : S) (now : time) (rnd : list string) (geo : Resolver) (tr : option Recorder)
    (live : option LiveHub) (trustedProxyCIDRs : list string) : Engine :=
  mkEngine source now rnd geo (Some ∅) ∅ tr live "" ∅ ∅ ∅ ∅ monolithEdgeTheme (mkWaf ∅ ∅ ∅)
    (zero_ThreatIntelSnapshot <| sn_Mode := "monitor_only" |>)
    (match ParseCIDRs trustedProxyCIDRs with Ok l => l | Err _ => [] end).

Local Abbreviation EM := (M Engine).

Definition src {A} (m : M S A) : EM A := zoom g_src (fun t e => e <| g_src := t |>) m.
Definition noted (m : M S unit) : EM unit := ignore (src m).
Definition now : EM time := gets g_now.

(** Under [wafMu], and under [mu] on the sessions. *)
Definition on_waf {A} (f : Waf -> A * Waf) : EM A := fun e =>
  let '(x, w) := f (g_waf e) in (Ok x, e <| g_waf := w |>).
Definition on_auth {A} (f : gmap string authSession -> A * gmap string authSession) : EM A := fun e =>
  let '(x, a) := f (g_auth e) in (Ok x, e <| g_auth := a |>).

(** [rand.Read]; an exhausted source is its error. *)
Definition draw : EM (option string) := fun e =>
  match g_rand e with
  | b :: l => (Ok (Some b), e <| g_rand := l |>)
  | [] => (Ok None, e)
  end.
(** [randomHex(8)] with its error ignored, and [randomToken(32)]. *)
Definition randomHex : EM string :=
  b ← draw; mret (match b with Some b => hex_encode (bytes_of b) | None => "" end).
Definition randomToken : EM (option string) :=
  b ← draw; mret (option_map (fun b => b64_encode url_alphabet (bytes_of b)) b).

Definition auditProxyEvent (action target meta : string) : EM unit :=
  noted (AddAuditEvent (zero_AuditEvent <| ae_Actor := "edge" |> <| ae_Action := action |>
                          <| ae_Target := target |> <| ae_Meta := meta |>)).

(* ------------------------------------------------------------------ *)
(** ** Refresh *)

Section refresh.
(** [encoding/json] on the custom style. *)
Context (decode_style : string -> option (gmap string string)).

Definition valid_url (raw : string) : option URL :=
  match Parse raw with Some u => if String.eqb (url_Host u) "" then None else Some u | None => None end.

Definition backend_of (h : Host) (be : HABackend) : option backendRoute :=
  let raw := TrimSpace (hb_URL be) in
  match valid_url raw with
  | None => None
  | Some u =>
      let name := TrimSpace (hb_Name be) in
      Some (mkbackendRoute (if String.eqb name "" then url_Host u else name) raw u (newReverseProxy u h raw))
  end.

(** The route of a host; nothing when the host has none. *)
Definition route_of (h : Host) : option routeEntry :=
  if negb (String.eqb (h_State h) "active") && negb (String.eqb (h_State h) "disabled")
     && negb (String.eqb (h_State h) "maintenance") then None
  else if String.eqb (h_State h) "disabled" then Some (mkrouteEntry None [] h 0)
  else
    let backends := if h_HAEnabled h then omap (backend_of h) (h_HABackends h) else [] in
    match valid_url (h_UpstreamURL h) with
    | None => None
    | Some u => Some (mkrouteEntry (Some (newReverseProxy u h (h_UpstreamURL h))) backends h 0)
    end.

Definition add_route (routes : gmap string routeEntry) (h : Host) : gmap string routeEntry :=
  match route_of h with Some rt => <[ToLower (h_FQDN h) := rt]> routes | None => routes end.

Definition bastion_of (l : list SSHBastionRoute) : gset string :=
  list_to_set (List.filter nonempty (map (fun r => norm (sb_FQDN r)) (List.filter sb_Enabled l))).
Definition managed_of (l : list Domain) : gset string :=
  list_to_set (List.filter nonempty (map (fun d => norm (d_Name d))
    (List.filter (fun d => negb (EqualFold (TrimSpace (d_Status d)) "inactive")) l))).

Definition Refresh : EM unit :=
  hosts ← src ListHosts;
  domains ← src ListDomains;
  sshRoutes ← src ListSSHBastionRoutes;
  publicIP ← gets (fun e => TrimSpace (PublicIPv4 (g_src e)));
  style ← try_ (src GetStyleSettings);
  snap ← try_ (src GetThreatIntelSnapshot);
  let '(profile, custom) := match style with Ok p => p | Err _ => ("", "") end in
  modify (fun e => e <| g_routes := fold_left add_route hosts ∅ |> <| g_bastion := bastion_of sshRoutes |>
    <| g_managed := managed_of domains |> <| g_publicIP := publicIP |>
    <| g_theme := parseEdgeTheme decode_style profile custom |>
    <| g_tiSnap := match snap with Ok s => s | Err _ => zero_ThreatIntelSnapshot end |>).
End refresh.

(* ------------------------------------------------------------------ *)
(** ** The handler *)

Section handler.
(** The environment of the country lookup, the key derivation, whether a TCP
    address answers, the answer of a backend (status, length and edge header, or
    the text of the transport error), and the length of a page in bytes. *)
Context (env_MMDBS env_MMDB : string) (open : time -> string -> option Reader).
Context (http_get : string -> option (Z * option answer)).
Context (IDKey : bytes -> bytes -> Z -> Z -> Z -> Z -> bytes).
Context (reachable : string -> bool).
Context (roundtrip : ReverseProxy -> Request -> (Z * Z * string) + string).
Context (page_bytes : outcome -> Z).

Definition BytesWritten (o : outcome) : Z :=
  match o with Served _ _ bytes _ => bytes | Dropped => 0 | _ => page_bytes o end.

Definition geoCountry (ip : string) : EM string := fun e =>
  let '(c, g) := CountryCode env_MMDBS env_MMDB open http_get (g_now e) ip (g_geo e) in
  (Ok c, e <| g_geo := g |>).
Definition countryFromHeaders (r : Request) : EM string := gets (fun e => CountryFromHeaders r (g_trusted e)).
(** The headers of a trusted proxy, else the lookup. *)
Definition country_of (r : Request) (ip : string) : EM string :=
  c ← countryFromHeaders r; if String.eqb c "" then geoCountry ip else mret c.

(** The variables the stages share with the deferred function. *)
Record Flow := mkFlow {
  fl_route : option routeEntry; fl_country : string; fl_clientIP : string; fl_publicIP : string;
  fl_blocked : bool; fl_scanner : bool; fl_traceID : string; fl_host : string
}.
#[export] Instance eta_Flow : Eta Flow := fun r =>
  mkFlow (fl_route r) (fl_country r) (fl_clientIP r) (fl_publicIP r) (fl_blocked r) (fl_scanner r)
    (fl_traceID r) (fl_host r).
Definition zero_Flow : Flow := mkFlow None "" "" "" false false "" "".

(** A stage answers the request or lets it pass. *)
Definition stage : Type := Flow -> EM (option outcome * Flow).

Definition then_ (m k : stage) : stage := fun fl =>
  x ← m fl;
  match x with (Some out, fl) => mret (Some out, fl) | (None, fl) => k fl end.

Definition scope_of (fl : Flow) : string := requestScope (fl_clientIP fl) (fl_publicIP fl).

(** The fields every trace of a request has. *)
Definition flow_trace (fl : Flow) (r : Request) (action host summary : string) : TraceEvent :=
  zero_TraceEvent <| te_TraceID := fl_traceID fl |> <| te_Kind := "flow" |> <| te_Actor := "edge" |>
    <| te_Action := action |> <| te_Target := host |> <| te_SourceIP := fl_clientIP fl |>
    <| te_IP := fl_clientIP fl |> <| te_Host := host |> <| te_Path := rq_Path r |> <| te_Summary := summary |>.
Definition scoped_trace (fl : Flow) (r : Request) (action host decision summary : string) : TraceEvent :=
  (flow_trace fl r action host summary) <| te_Decision := decision |> <| te_SourceScope := scope_of fl |>.

(** "trace=...;source=...;path=..." *)
Definition meta_of (fl : Flow) (r : Request) : string :=
  "trace=" +:+ fl_traceID fl +:+ ";source=" +:+ fl_clientIP fl +:+ ";path=" +:+ rq_Path r.

Definition page (fl : Flow) (r : Request) (status : Z) (title description code point host theme scope : string) : outcome :=
  ErrorPage code (renderSmartErrorPage r
    (mksmartErrorPage status title description code point host (fl_traceID fl) theme scope)).

Definition not_configured (fl : Flow) (r : Request) : outcome :=
  page fl r 404 "Nothing here yet"
    "This subdomain is not active yet. Check back later, something might appear soon."
    "DNX-ROUTE-404" "routing: host not configured (yet)" (fl_host fl) "ok" "".

Definition flood_page (fl : Flow) (r : Request) : outcome :=
  page fl r 429 "Temporarily Blocked"
    "Automated edge protection temporarily limited requests from this source."
    "DNX-WAF-429" "waf: unknown-host flood detected" (fl_host fl) "warn" (scope_of fl).

(** *** Stages *)

Definition check_block_list (r : Request) : stage := fun fl =>
  b ← try_ (src (IsIPBlocked (fl_clientIP fl)));
  match b with
  | Ok true =>
      let fl := fl <| fl_blocked := true |> <| fl_scanner := true |> in
      noted (AddTraceEvent (scoped_trace fl r "policy.blocked_ip" (fl_host fl) "hard_drop"
        "Source matched blocked IP list before routing")) ≫= fun _ =>
      auditProxyEvent "proxy.block.hard_drop" (fl_host fl) (meta_of fl r +:+ ";reason=blocked_ip") ≫= fun _ =>
      mret (Some Dropped, fl)
  | _ => mret (None, fl)
  end.

(** The signals of a request: what the feeds say of its source, and its own
    behaviour; none for an address of the allow list. *)
Definition signals_of (snap : ThreatIntelSnapshot) (fl : Flow) (r : Request) : list string :=
  if bool_decide (fl_clientIP fl ∈ sn_Allowlist snap) then []
  else uniqueThreatFeeds (default [] (sn_FeedByIP snap !! fl_clientIP fl)
         ++ detectBehaviorThreatSignals (fl_host fl) (match fl_route fl with Some _ => true | None => false end)
              (rq_Path r) (UserAgent r)).

Definition has_signal (snap : ThreatIntelSnapshot) (fl : Flow) (r : Request) : bool :=
  negb (bool_decide (signals_of snap fl r = [])) && negb (isLANClient (fl_clientIP fl) (fl_publicIP fl)).

Definition event_mode (snap : ThreatIntelSnapshot) : string :=
  let mode := norm (sn_Mode snap) in
  let mode := if String.eqb mode "" then "monitor_only" else mode in
  if negb (sn_Enabled snap) then "monitor_only" else mode.

Definition event_of (snap : ThreatIntelSnapshot) (fl : Flow) (r : Request) : ThreatIntelEventInput :=
  mkThreatIntelEventInput (fl_clientIP fl) (fl_host fl) (normalizeThreatPath (rq_Path r)) (UserAgent r)
    (fl_country fl) (scope_of fl) (fl_traceID fl) (signals_of snap fl r) (event_mode snap).

Definition check_threats (snap : ThreatIntelSnapshot) (r : Request) : stage := fun fl =>
  if negb (has_signal snap fl r) then mret (None, fl)
  else
    c ← country_of r (fl_clientIP fl);
    let fl := fl <| fl_scanner := true |> <| fl_country := c |> in
    res ← try_ (src (ApplyThreatIntelEvent (event_of snap fl r)));
    let out := match res with Ok (out, _) => out | Err _ => zero_ThreatIntelEventResult end in
    if negb (er_Blocked out) then mret (None, fl)
    else if er_HardBlock out then
      let fl := fl <| fl_blocked := true |> in
      noted (AddTraceEvent ((scoped_trace fl r "policy.threat_intel.hard_block" (fl_host fl) "hard_drop"
        "Threat Intel escalated request to hard block") <| te_Country := c |>)) ≫= fun _ =>
      auditProxyEvent "proxy.block.hard_drop" (fl_host fl) (meta_of fl r +:+ ";reason=threat_intel_hardblock") ≫= fun _ =>
      mret (Some Dropped, fl)
    else
      noted (AddTraceEvent ((scoped_trace fl r "policy.threat_intel.soft_block" (fl_host fl) "soft_block"
        "Threat Intel escalated request to temporary block") <| te_Country := c |>)) ≫= fun _ =>
      mret (Some (page fl r 429 "Temporarily Blocked"
        "Threat intelligence policy triggered temporary protection for this source."
        "DNX-TI-429" "threat-intel: xp/level soft block" (fl_host fl) "warn" (scope_of fl)), fl).

Definition check_flood_block (r : Request) : stage := fun fl =>
  t ← now;
  b ← on_waf (wafIsBlocked t (fl_clientIP fl) (fl_publicIP fl));
  match b with
  | None => mret (None, fl)
  | Some (until, _) =>
      let fl := fl <| fl_scanner := true |> in
      noted (AddTraceEvent ((scoped_trace fl r "policy.waf.active" (fl_host fl) "soft_block"
        "WAF soft block already active for source") <| te_EventAt := until |>)) ≫= fun _ =>
      auditProxyEvent "proxy.waf.temp_block.hit" (fl_host fl)
        (meta_of fl r +:+ ";until=" +:+ RFC3339 until) ≫= fun _ =>
      mret (Some (flood_page fl r), fl)
  end.

Definition unknown_host (managedApex threatIntelRecognized : bool) (r : Request) : stage := fun fl =>
  match fl_route fl with
  | Some _ => mret (None, fl)
  | None =>
      let fl := fl <| fl_scanner := true |> in
      if managedApex then
        noted (AddTraceEvent (flow_trace fl r "routing.managed_apex" (fl_host fl)
          "Managed apex landing page served")) ≫= fun _ =>
        mret (Some (Landing (fl_host fl) (fl_traceID fl)), fl)
      else if threatIntelRecognized then mret (Some (not_configured fl r), fl)
      else
        t ← now;
        on_waf (wafTrackUnknownHost t (fl_clientIP fl) (fl_publicIP fl)) ≫= fun x : bool * time * Z =>
        let '(triggered, until, hits) := x in
        if triggered then
          noted (AddTraceEvent ((scoped_trace fl r "policy.waf.set" (fl_host fl) "soft_block"
            "Unknown-host flood tripped WAF soft block") <| te_Hits := hits |> <| te_EventAt := until |>)) ≫= fun _ =>
          auditProxyEvent "proxy.waf.temp_block.set" (fl_host fl)
            (meta_of fl r +:+ ";hits=" +:+ Itoa hits +:+ ";until=" +:+ RFC3339 until) ≫= fun _ =>
          mret (Some (flood_page fl r), fl)
        else
          auditProxyEvent "proxy.error.unknown_host" (fl_host fl) (meta_of fl r) ≫= fun _ =>
          mret (Some (not_configured fl r), fl)
  end.

(** The stages below run with a route. *)
Definition check_host_state (isBastionHost : bool) (h : Host) (r : Request) : stage := fun fl =>
  if isBastionHost then
    auditProxyEvent "proxy.error.unknown_host" (fl_host fl) (meta_of fl r) ≫= fun _ =>
    mret (Some (not_configured fl r), fl)
  else if String.eqb (h_State h) "disabled" then
    auditProxyEvent "proxy.error.host_disabled" (h_FQDN h) (meta_of fl r) ≫= fun _ =>
    mret (Some (page fl r 503 "Host Disabled"
      "External access is blocked by administrator policy for this host." "DNX-HOST-503" "policy" (h_FQDN h) "warn" ""), fl)
  else if String.eqb (h_State h) "maintenance" && negb (isLANClient (fl_clientIP fl) (fl_publicIP fl)) then
    auditProxyEvent "proxy.error.maintenance" (h_FQDN h) (meta_of fl r) ≫= fun _ =>
    mret (Some (page fl r 503 "Maintenance Mode"
      "This endpoint is currently in maintenance mode for external traffic." "DNX-MAINT-503" "policy" (h_FQDN h) "warn" ""), fl)
  else mret (None, fl).

Definition check_country (h : Host) (r : Request) : stage := fun fl =>
  c ← country_of r (fl_clientIP fl);
  let fl := fl <| fl_country := c |> in
  let '(denied, mode) := isGeoBlocked c h in
  if negb denied then mret (None, fl)
  else
    let fl := fl <| fl_blocked := true |> <| fl_scanner := true |> in
    noted (AddTraceEvent ((scoped_trace fl r "policy.geo_block" (h_FQDN h) "blocked" "Geo policy denied request")
      <| te_Country := c |> <| te_Mode := mode |>)) ≫= fun _ =>
    modify (fun e => match g_requests e with
                     | None => e
                     | Some _ => e <| g_geoBlocks ::= fun m =>
                         <[(h_FQDN h, c, mode) := default 0 (m !! (h_FQDN h, c, mode)) + 1]> m |>
                     end) ≫= fun _ =>
    auditProxyEvent "proxy.error.geo_blocked" (h_FQDN h)
      ("trace=" +:+ fl_traceID fl +:+ ";source=" +:+ fl_clientIP fl +:+ ";country=" +:+ c +:+ ";mode=" +:+ mode
         +:+ ";path=" +:+ rq_Path r) ≫= fun _ =>
    mret (Some (page fl r 403 "Access Blocked" "This request was denied by host access policy." "DNX-GEO-403"
      ("policy: geo " +:+ mode +:+ " / country " +:+ c) (h_FQDN h) "warn" ""), fl).

Definition cookie_of (r : Request) : option string := rq_Cookies r !! hostAuthCookieName.

Definition login_page (h : Host) (r : Request) (errMsg : string) : outcome :=
  LoginPage (h_FQDN h) (normalizeNext (rq_RequestURI r)) errMsg.

Definition handleHostAuthLogin (h : Host) (r : Request) : EM outcome :=
  match rq_Form r with
  | None => mret (login_page h r "invalid login form")
  | Some _ =>
      let user := TrimSpace (form_value r "username") in
      let pass := form_value r "password" in
      let next := normalizeNext (form_value r "next") in
      if negb (EqualFold user (TrimSpace (h_AuthUser h))) || negb (VerifyPassword IDKey pass (h_AuthPassHash h))
      then mret (login_page h r "invalid credentials")
      else
        token ← randomToken;
        match token with
        | None => mret AuthFailure
        | Some token =>
            modify (fun e => e <| g_auth ::= <[token := mkauthSession (ToLower (h_FQDN h)) (Add (g_now e) hostAuthTTL)]> |>)
            ≫= fun _ => mret (LoggedIn next token (rq_TLS r))
        end
  end.

Definition check_host_login (h : Host) (r : Request) : stage := fun fl =>
  if negb (h_AuthEnabled h) then mret (None, fl)
  else
    modify (fun e => e <| g_auth ::= pruneAuthSessions (g_now e) |>) ≫= fun _ =>
    if HasPrefix (rq_Path r) hostAuthPathLogout then
      modify (fun e => e <| g_auth ::= logoutHostAuth (cookie_of r) |>) ≫= fun _ => mret (Some LoggedOut, fl)
    else if String.eqb (rq_Path r) hostAuthPathLogin && String.eqb (rq_Method r) "POST" then
      o ← handleHostAuthLogin h r; mret (Some o, fl)
    else
      t ← now;
      on_auth (isHostAuthorized t (fl_host fl) (cookie_of r)) ≫= fun ok : bool =>
      if ok then mret (None, fl) else mret (Some (login_page h r ""), fl).

(** [proxy.ServeHTTP] and its [ErrorHandler]. *)
Definition serve (rp : ReverseProxy) (r : Request) : stage := fun fl =>
  match roundtrip rp r with
  | inl (status, bytes, edge_header) => mret (Some (Served rp status bytes edge_header), fl)
  | inr err =>
      traceID ← (if String.eqb (TrimSpace (fl_traceID fl)) "" then randomHex else mret (TrimSpace (fl_traceID fl)));
      let h := rp_host rp in
      let fl' := fl <| fl_traceID := traceID |> in
      sourcePublic ← gets (fun e => PublicIPv4 (g_src e));
      noted (AddTraceEvent ((flow_trace fl' r "origin.error" (h_FQDN h) "Configured origin could not be reached")
        <| te_Decision := "origin_unreachable" |> <| te_SourceScope := requestScope (fl_clientIP fl) sourcePublic |>
        <| te_Meta := "upstream=" +:+ rp_upstreamRef rp +:+ ";err=" +:+ err |>)) ≫= fun _ =>
      auditProxyEvent "proxy.error.origin_unreachable" (h_FQDN h)
        ("trace=" +:+ traceID +:+ ";source=" +:+ fl_clientIP fl +:+ ";upstream=" +:+ rp_upstreamRef rp
           +:+ ";path=" +:+ rq_Path r +:+ ";err=" +:+ err) ≫= fun _ =>
      publicIP ← gets g_publicIP;
      mret (Some (page fl' r 502 "Upstream Unreachable"
        "The edge received your request, but could not reach the configured origin service."
        "DNX-ORIGIN-502" "origin" (h_FQDN h) "err" (requestScope (fl_clientIP fl) publicIP)), fl)
  end.

Definition select_backend (rt : routeEntry) (fl : Flow) : EM (Z * Z * Z * list string) :=
  let '(x, rt') := selectBackendIndex reachable rt in
  modify (fun e => e <| g_routes ::= <[fl_host fl := rt']> |>) ≫= fun _ => mret x.

(** An index out of range and a nil proxy would be a panic, on which
    [net/http] closes the connection. *)
Definition serve_at (rp : option ReverseProxy) (summary : string) (h : Host) (r : Request) : stage := fun fl =>
  noted (AddTraceEvent (scoped_trace fl r "routing.selected" (h_FQDN h) "route_selected" summary)) ≫= fun _ =>
  match rp with Some rp => serve rp r fl | None => mret (Some Dropped, fl) end.

Definition ha_down (h : Host) (online total : Z) (offline : list string) (r : Request) : stage := fun fl =>
  let fl := fl <| fl_scanner := true |> in
  noted (AddTraceEvent (scoped_trace fl r "routing.ha_down" (h_FQDN h) "origin_unreachable"
    "All HA backends were unavailable")) ≫= fun _ =>
  auditProxyEvent "proxy.error.ha_all_backends_down" (h_FQDN h)
    ("trace=" +:+ fl_traceID fl +:+ ";source=" +:+ fl_clientIP fl +:+ ";online=" +:+ Itoa online
       +:+ ";total=" +:+ Itoa total +:+ ";offline=" +:+ Join offline "," +:+ ";path=" +:+ rq_Path r) ≫= fun _ =>
  mret (Some (page fl r 503 "HA Backends Unavailable"
    "All configured high-availability backends are currently unreachable." "DNX-HA-503"
    ("origin: all HA backends down (" +:+ Itoa online +:+ "/" +:+ Itoa total +:+ " healthy)")
    (h_FQDN h) "err" (scope_of fl)), fl).

Definition serve_route (rt : routeEntry) (r : Request) : stage := fun fl =>
  let h := re_host rt in
  if h_HAEnabled h && negb (bool_decide (length (re_backends rt) = 0%nat)) then
    select_backend rt fl ≫= fun x : Z * Z * Z * list string =>
    let '(idx, online, total, offline) := x in
    if idx <? 0 then ha_down h online total offline r fl
    else serve_at (option_map br_proxy (re_backends rt !! Z.to_nat idx)) "HA route selected an available backend" h r fl
  else serve_at (re_proxy rt) "Request routed to configured upstream" h r fl.

(** The stages after the flood guard, for a known host. *)
Definition route_stages (isBastionHost : bool) (rt : routeEntry) (r : Request) : stage :=
  then_ (check_host_state isBastionHost (re_host rt) r)
  (then_ (check_country (re_host rt) r)
  (then_ (check_host_login (re_host rt) r)
         (serve_route rt r))).

Definition pipeline (snap : ThreatIntelSnapshot) (isBastionHost managedApex : bool) (r : Request) : stage := fun fl =>
  then_ (check_block_list r)
  (then_ (check_threats snap r)
  (then_ (check_flood_block r)
  (then_ (unknown_host managedApex (has_signal snap fl r) r)
         (fun fl => match fl_route fl with
                    | Some rt => route_stages isBastionHost rt r fl
                    | None => mret (None, fl) (* answered by [unknown_host] *)
                    end)))) fl.

Definition edgeLogoPath : string := "/_domnex/logo.png".

(** The request is looked up and its arrival traced. *)
Definition ingress (r : Request) (traceID : string) : EM Flow :=
  let host := normalizeHostHeader (rq_RHost r) in
  fl ← gets (fun e => mkFlow (g_routes e !! host) "" (ClientIP r (g_trusted e)) (g_publicIP e) false
                        (isLikelyCrawlerUA (UserAgent r)) traceID host);
  when (negb (String.eqb traceID ""))
    (noted (AddTraceEvent ((flow_trace fl r "request.ingress" host "Request accepted at edge")
       <| te_Mode := rq_Method r |> <| te_SourceScope := scope_of fl |>))) ≫= fun _ =>
  mret fl.

(** *** The deferred function *)

Definition upper (c : string) : string := TrimSpace (ToUpper c).

Definition observe_request (out : outcome) (r : Request) : EM unit :=
  modify (fun e => e <| g_requests ::= option_map (fun m : gmap (string * string) Z =>
    let k := (host_label (rq_RHost r), Itoa (StatusCode out)) in <[k := default 0 (m !! k) + 1]> m) |>).

(** The country a report names; [ZZ] only for the live stream. *)
Definition report_country (r : Request) (fl : Flow) : EM string :=
  let c := upper (fl_country fl) in if String.eqb c "" then country_of r (fl_clientIP fl) else mret c.

Definition publish_live (out : outcome) (r : Request) (fl : Flow) : EM unit :=
  live ← gets g_live;
  match live with
  | None => mret tt
  | Some hub =>
      if (SubscriberCount hub <=? 0) || String.eqb (fl_clientIP fl) "" then mret tt
      else
        c ← report_country r fl;
        t ← now;
        let class := if isLikelyCrawlerUA (UserAgent r) then "crawler" else "human" in
        let class := if String.eqb (TrimSpace (UserAgent r)) "" then "unknown" else class in
        let h := match fl_route fl with Some rt => re_host rt
                 | None => zero_Host <| h_FQDN := host_label (rq_RHost r) |> end in
        let ev := mkLiveTraceEvent (RFC3339Nano t) (h_ID h) (h_DomainID h) (h_FQDN h)
                    (if String.eqb c "" then "ZZ" else c) class
                    (fl_scanner fl || String.eqb class "crawler") (StatusCode out) (rq_Path r) "" (scope_of fl) in
        modify (fun e => e <| g_live ::= option_map (Publish ev) |>)
  end.

Definition trace_completed (out : outcome) (r : Request) (fl : Flow) : EM unit :=
  if String.eqb (fl_traceID fl) "" || String.eqb (fl_clientIP fl) "" then mret tt
  else
    let host := match fl_route fl with
                | Some rt => if String.eqb (TrimSpace (h_FQDN (re_host rt))) "" then host_label (rq_RHost r)
                             else h_FQDN (re_host rt)
                | None => host_label (rq_RHost r)
                end in
    c ← report_country r fl;
    let decision := if fl_blocked fl then "blocked" else if edge_error out then "edge_error" else "completed" in
    noted (AddTraceEvent ((scoped_trace fl r "request.completed" host decision "Request completed at edge")
      <| te_Country := c |> <| te_Mode := Itoa (StatusCode out) |> <| te_Hits := BytesWritten out |>)).

Definition record_traffic (out : outcome) (r : Request) (fl : Flow) : EM unit :=
  match fl_route fl with
  | None => mret tt
  | Some rt =>
      if edge_error out then mret tt
      else
        let h := re_host rt in
        modify (fun e => e <| g_tr ::= option_map (record_event (g_now e)
          (mkEvent (h_ID h) (h_FQDN h) (fl_country fl) (UserAgent r) (fl_clientIP fl) (StatusCode out)
             (if 0 <? rq_ContentLength r then rq_ContentLength r else 0) (BytesWritten out) (fl_blocked fl) (g_now e))) |>)
  end.

Definition finish (out : outcome) (r : Request) (fl : Flow) : EM unit :=
  observe_request out r ≫= fun _ => publish_live out r fl ≫= fun _ =>
  trace_completed out r fl ≫= fun _ => record_traffic out r fl.

Definition Handler (r : Request) : EM outcome :=
  if String.eqb (rq_Path r) edgeLogoPath then finish Logo r zero_Flow ≫= fun _ => mret Logo
  else
    traceID ← randomHex;
    fl ← ingress r traceID;
    snap ← gets g_tiSnap;
    isBastionHost ← gets (fun e => bool_decide (fl_host fl ∈ g_bastion e));
    managedApex ← gets (fun e => bool_decide (fl_host fl ∈ g_managed e));
    '(o, fl) ← pipeline snap isBastionHost managedApex r fl;
    let out := default Dropped o in
    finish out r fl ≫= fun _ => mret out.
End handler.
End engine.
