(* ===== verification/ProxySafety.v ===== *)
(** What the edge guarantees: theorems about the handler of [Proxy], against the
    laws of the control plane ([HostSourceLaws]). *)

From S2P Require Import Prelude GoString GoMonad GoTime GoNet GoUrl GeoIp GoCrypto Crypto NetUtil Model StoreDB.
From S2P Require Import Traffic ProxyCore Proxy.
From Stdlib Require Import Ascii.

(* ------------------------------------------------------------------ *)
(** ** What the engine relies on *)

(** [healthy]: no statement of the driver fails.  [listed]: the source is on the
    block list.  Writing traces and audit events, looking an address up and
    judging an event lift no block; an event that answers a hard block has put
    the address on the list. *)
Class HostSourceLaws (S : Type) `{HostSource S} := {
  healthy : S -> Prop;
  listed : S -> string -> Prop;
  src_step (s s' : S) : Prop := healthy s -> healthy s' /\ forall ip, listed s ip -> listed s' ip;
  audit_step ev : keeps src_step (AddAuditEvent ev);
  trace_step ev : keeps src_step (AddTraceEvent ev);
  event_step inp : keeps src_step (ApplyThreatIntelEvent inp);
  lookup_step ip : keeps src_step (IsIPBlocked ip);
  lookup_answer ip s : healthy s -> exists b, (IsIPBlocked ip s).1 = Ok b /\ (b = true <-> listed s ip);
  event_lists inp s res err : healthy s -> (ApplyThreatIntelEvent inp s).1 = Ok (res, err) ->
    er_HardBlock res = true -> listed (ApplyThreatIntelEvent inp s).2 (ei_IP inp)
}.

#[export] Instance src_step_preorder S `{HostSourceLaws S} : PreOrder src_step.
Proof.
  split; unfold src_step; [intros s Hs; by split; [|intros ip]|].
  intros a b c H1 H2 Ha. destruct (H1 Ha) as [Hb B1]. destruct (H2 Hb) as [Hc B2]. eauto.
Qed.

Section safety.
Context {S : Type} `{HostSourceLaws S}.
Context (env_MMDBS env_MMDB : string) (open : time -> string -> option Reader).
Context (http_get : string -> option (Z * option answer)).
Context (IDKey : bytes -> bytes -> Z -> Z -> Z -> Z -> bytes).
Context (reachable : string -> bool).
Context (roundtrip : ReverseProxy -> Request -> (Z * Z * string) + string).
Context (page_bytes : outcome -> Z).
(** The source of the request that is judged. *)
Context (ip0 : string).

Local Abbreviation Eng := (@Engine S).
Local Abbreviation country_of := (country_of env_MMDBS env_MMDB open http_get).
Local Abbreviation check_threats := (check_threats env_MMDBS env_MMDB open http_get).
Local Abbreviation check_country := (check_country env_MMDBS env_MMDB open http_get).
Local Abbreviation check_host_login := (check_host_login IDKey).
Local Abbreviation serve_route := (serve_route reachable roundtrip).
Local Abbreviation pipeline := (pipeline env_MMDBS env_MMDB open http_get IDKey reachable roundtrip).
Local Abbreviation finish := (finish env_MMDBS env_MMDB open http_get page_bytes).
Local Abbreviation Handler := (Handler env_MMDBS env_MMDB open http_get IDKey reachable roundtrip page_bytes).

(* ------------------------------------------------------------------ *)
(** ** Frames *)

(** The country the engine's resolver knows the source by. *)
Definition resolved (e : Eng) : string := (CountryCode env_MMDBS env_MMDB open http_get (g_now e) ip0 (g_geo e)).1.

(** What is fixed while a request is judged. *)
Definition core (e : Eng) :=
  (g_now e, g_publicIP e, g_routes e, g_bastion e, g_managed e, g_tiSnap e, g_trusted e, resolved e).

(** The core, the flood guard and the sessions stay as they are. *)
Definition quiet (e e' : Eng) : Prop :=
  core e' = core e /\ g_waf e' = g_waf e /\ g_auth e' = g_auth e /\ src_step (g_src e) (g_src e').
(** The core and the sessions do. *)
Definition tame (e e' : Eng) : Prop :=
  core e' = core e /\ g_auth e' = g_auth e /\ src_step (g_src e) (g_src e').
(** Only the clock, the trusted proxies and the list of blocked sources are
    sure to be. *)
Definition routes_ok (e : Eng) : Prop :=
  forall k rt, g_routes e !! k = Some rt -> h_State (re_host rt) <> "disabled" -> is_Some (re_proxy rt).
Definition after (e e' : Eng) : Prop :=
  g_now e' = g_now e /\ g_trusted e' = g_trusted e /\ src_step (g_src e) (g_src e') /\ (routes_ok e -> routes_ok e').

#[export] Instance quiet_preorder : PreOrder quiet.
Proof.
  split; unfold quiet; [intros e; split_and!; [done..|reflexivity]|].
  intros a b c (H1 & H2 & H3 & H4) (G1 & G2 & G3 & G4). split_and!; [congruence..|by etransitivity].
Qed.
#[export] Instance tame_preorder : PreOrder tame.
Proof.
  split; unfold tame; [intros e; split_and!; [done..|reflexivity]|].
  intros a b c (H1 & H2 & H3) (G1 & G2 & G3). split_and!; [congruence..|by etransitivity].
Qed.
#[export] Instance after_preorder : PreOrder after.
Proof.
  split; unfold after; [intros e; split_and!; [done..|reflexivity|done]|].
  intros a b c (H1 & H2 & H3 & H4) (G1 & G2 & G3 & G4). split_and!; [congruence..|by etransitivity|eauto].
Qed.

Lemma quiet_tame e e' : quiet e e' -> tame e e'.
Proof. intros (H1 & _ & H3 & H4). done. Qed.
Lemma tame_after e e' : tame e e' -> after e e'.
Proof.
  intros (H1 & _ & H3). unfold core in H1. simplify_eq. unfold after, routes_ok. split_and!; [congruence..|done|].
  intros Hr k rt Hk. apply (Hr k). congruence.
Qed.

(** Each of the three relations is kept by what only touches the source, the
    resolver or the random source. *)
Lemma quiet_src {A} (m : M S A) : keeps src_step m -> keeps quiet (src m).
Proof. intros Hm e. unfold src, zoom, quiet. specialize (Hm (g_src e)). by destruct (m (g_src e)). Qed.
Lemma quiet_noted m : keeps src_step m -> keeps quiet (noted m).
Proof. intros Hm. unfold noted. by apply keeps_ignore, quiet_src. Qed.
Lemma quiet_trace ev : keeps quiet (noted (AddTraceEvent ev)).
Proof. apply quiet_noted, trace_step. Qed.
Lemma quiet_audit action target meta : keeps quiet (auditProxyEvent action target meta).
Proof. apply quiet_noted, audit_step. Qed.
Lemma quiet_draw : keeps quiet draw.
Proof. intros e. unfold draw, quiet. by destruct (g_rand e); split_and!. Qed.
Lemma quiet_geo : keeps quiet (geoCountry env_MMDBS env_MMDB open http_get ip0).
Proof.
  intros e. pose proof (CountryCode_again env_MMDBS env_MMDB open http_get (g_now e) ip0 (g_geo e)) as Ha.
  unfold geoCountry, quiet, core, resolved.
  destruct (CountryCode env_MMDBS env_MMDB open http_get (g_now e) ip0 (g_geo e)) as [c g] eqn:E.
  cbn [fst snd] in Ha |- *. cbn [g_now g_geo g_publicIP g_routes g_bastion g_managed g_tiSnap g_trusted g_waf g_auth g_src upd_field].
  rewrite Ha. by split_and!.
Qed.
Lemma quiet_country r : keeps quiet (country_of r ip0).
Proof.
  unfold Proxy.country_of, countryFromHeaders. keeps_tac; try typeclasses eauto. apply quiet_geo.
Qed.

#[local] Hint Resolve quiet_trace quiet_audit quiet_draw quiet_geo quiet_country : go_keeps.

Lemma wp_then m k (Q : result (option outcome * Flow) -> Eng -> Prop) fl e :
  wp (m fl) (fun r e' => match r with
                         | Ok (Some o, fl') => Q (Ok (Some o, fl')) e'
                         | Ok (None, fl') => wp (k fl') Q e'
                         | Err x => Q (Err x) e'
                         end) e ->
  wp (then_ m k fl) Q e.
Proof.
  intros Hm. unfold then_. apply wp_bind. eapply wp_mono; [exact Hm|].
  intros [[[o|] fl']|x] e' Hq; exact Hq.
Qed.

(* ------------------------------------------------------------------ *)
(** ** One rule per call *)

Lemma wp_quiet {A} (m : M Eng A) (Q : result A -> Eng -> Prop) e :
  keeps quiet m -> (exists a, (m e).1 = Ok a) -> (forall a e', quiet e e' -> Q (Ok a) e') -> wp m Q e.
Proof. intros Hm [a Ha] HQ. specialize (Hm e). unfold wp. destruct (m e) as [r e']. simpl in *. subst r. by apply HQ. Qed.

Lemma wp_trace ev (Q : result unit -> Eng -> Prop) e :
  (forall e', quiet e e' -> Q (Ok tt) e') -> wp (noted (AddTraceEvent ev)) Q e.
Proof. intros HQ. apply wp_quiet; [apply quiet_trace|by exists tt|]. intros [] e'. apply HQ. Qed.

Lemma wp_audit action target meta (Q : result unit -> Eng -> Prop) e :
  (forall e', quiet e e' -> Q (Ok tt) e') -> wp (auditProxyEvent action target meta) Q e.
Proof. intros HQ. apply wp_quiet; [apply quiet_audit|by exists tt|]. intros [] e'. apply HQ. Qed.

(** The country of a request: what a trusted proxy says, else what the resolver of
    the engine answers for the source. *)
Definition country_seen (r : Request) (e : Eng) : string :=
  let c := CountryFromHeaders r (g_trusted e) in if String.eqb c "" then resolved e else c.

Lemma wp_country r (Q : result string -> Eng -> Prop) e :
  (forall e', quiet e e' -> Q (Ok (country_seen r e)) e') -> wp (country_of r ip0) Q e.
Proof.
  intros HQ. assert (Hk := quiet_country r e). unfold wp. destruct (country_of r ip0 e) as [res e'] eqn:E. simpl in Hk.
  assert (Hres : res = Ok (country_seen r e)); [|subst res; by apply HQ].
  revert E. unfold Proxy.country_of, countryFromHeaders, country_seen, resolved, mbind, M_bind. cbn [gets].
  destruct (CountryFromHeaders r (g_trusted e) =? "")%string eqn:Hc; [|by intros [= <- _]].
  unfold geoCountry. destruct (CountryCode _ _ _ _ (g_now e) ip0 (g_geo e)) as [c g] eqn:Hg. by intros [= <- _].
Qed.

(* ------------------------------------------------------------------ *)
(** ** The stages *)

Definition same_flow (fl fl' : Flow) : Prop :=
  fl_route fl' = fl_route fl /\ fl_clientIP fl' = fl_clientIP fl /\ fl_publicIP fl' = fl_publicIP fl /\
  fl_host fl' = fl_host fl.

Definition not_served (o : outcome) : Prop := match o with Served _ _ _ _ => False | _ => True end.

(** A refusal: nothing is served, and a dropped source is on the block list. *)
Definition refusal (e e' : Eng) (fl : Flow) (o : outcome) : Prop :=
  not_served o /\ (o = Dropped -> healthy (g_src e) -> listed (g_src e') (fl_clientIP fl)).

(** A stage stays within [R], and lets a request of the source pass only under [P]. *)
Definition guards (R : Eng -> Eng -> Prop) (P : Eng -> Flow -> Prop) (m : stage) : Prop :=
  forall fl e, fl_clientIP fl = ip0 -> wp (m fl) (fun r e' => R e e' /\
    match r with
    | Ok (Some o, fl') => refusal e e' fl o /\ same_flow fl fl'
    | Ok (None, fl') => P e fl /\ same_flow fl fl'
    | Err _ => False
    end) e.

Lemma guards_mono (R R' : Eng -> Eng -> Prop) P m : (forall e e', R e e' -> R' e e') -> guards R P m -> guards R' P m.
Proof.
  intros HR Hm fl e Hip. eapply wp_mono; [by apply Hm|]. intros r e' [H1 H2]. split; [by apply HR|exact H2].
Qed.

Lemma refuse (R : Eng -> Eng -> Prop) e e' fl fl' o :
  R e e' -> not_served o -> o <> Dropped -> same_flow fl fl' ->
  R e e' /\ refusal e e' fl o /\ same_flow fl fl'.
Proof. intros HR H1 H2 H3. by split_and!. Qed.

Lemma block_list_guards r : guards quiet (fun e fl => healthy (g_src e) -> ~ listed (g_src e) (fl_clientIP fl)) (check_block_list r).
Proof.
  intros fl e _. unfold check_block_list. apply wp_bind, wp_try.
  pose proof (quiet_src (IsIPBlocked (fl_clientIP fl)) (lookup_step _) e) as Hq.
  assert (Ha : healthy (g_src e) -> exists b, (src (IsIPBlocked (fl_clientIP fl)) e).1 = Ok b /\
    (b = true <-> listed (g_src e) (fl_clientIP fl))).
  { intros Hh. destruct (lookup_answer (fl_clientIP fl) (g_src e) Hh) as (b & Hb & Hiff). exists b. split; [|done].
    unfold src, zoom. by destruct (IsIPBlocked (fl_clientIP fl) (g_src e)) as [x t]. }
  unfold wp at 1. destruct (src (IsIPBlocked (fl_clientIP fl)) e) as [b e1]. simpl in *.
  assert (Hpass : b <> Ok true -> wp (mret (None, fl)) (fun r e' => quiet e e' /\
    match r with
    | Ok (Some o, fl') => refusal e e' fl o /\ same_flow fl fl'
    | Ok (None, fl') => (healthy (g_src e) -> ~ listed (g_src e) (fl_clientIP fl)) /\ same_flow fl fl'
    | Err _ => False
    end) e1).
  { intros Hb. apply wp_ret. split; [done|]. split; [|done]. intros Hh Hl. destruct (Ha Hh) as (b' & -> & Hiff).
    apply Hiff in Hl. congruence. }
  destruct b as [[|]|x]; [|by apply Hpass..].
  apply wp_bind, wp_trace. intros e2 H2. apply wp_bind, wp_audit. intros e3 H3. apply wp_ret.
  assert (Hq3 : quiet e e3) by (do 2 (etransitivity; [eassumption|]); done).
  split; [done|]. split; [|done]. split; [done|]. intros _ Hh. destruct (Ha Hh) as (b' & [= <-] & Hiff).
  destruct Hq3 as (_ & _ & _ & Hs). apply Hs; [done|]. by apply Hiff.
Qed.

Lemma threats_guard snap r : guards quiet (fun _ _ => True) (check_threats snap r).
Proof.
  intros fl e Hip. unfold Proxy.check_threats. destruct (negb (has_signal snap fl r)); [apply wp_ret; by split_and!|].
  rewrite Hip. apply wp_bind, wp_country. intros e1 H1. generalize (country_seen r e) as c. intros c. apply wp_bind, wp_try.
  set (inp := event_of snap _ r).
  pose proof (quiet_src (ApplyThreatIntelEvent inp) (event_step inp) e1) as H2.
  assert (Hl : forall res err, (src (ApplyThreatIntelEvent inp) e1).1 = Ok (res, err) -> er_HardBlock res = true ->
    healthy (g_src e1) -> listed (g_src (src (ApplyThreatIntelEvent inp) e1).2) (fl_clientIP fl)).
  { intros res err Hres Hhb Hh. unfold src, zoom in Hres |- *.
    pose proof (event_lists inp (g_src e1) res err Hh) as He.
    destruct (ApplyThreatIntelEvent inp (g_src e1)) as [x t]. simpl in *. by apply He. }
  unfold wp at 1. destruct (src (ApplyThreatIntelEvent inp) e1) as [res e2]. simpl in H2, Hl.
  set (out := match res with Ok (out, _) => out | Err _ => _ end).
  assert (H12 : quiet e e2) by (by etransitivity).
  destruct (negb (er_Blocked out)) eqn:Hb; [apply wp_ret; by split_and!|].
  destruct (er_HardBlock out) eqn:Hhb.
  - apply wp_bind, wp_trace. intros e3 H3. apply wp_bind, wp_audit. intros e4 H4. apply wp_ret.
    assert (H24 : quiet e2 e4) by (by etransitivity).
    split; [by etransitivity|]. split; [|done]. split; [done|]. intros _ Hh.
    destruct H1 as (_ & _ & _ & S1). destruct (S1 Hh) as [Hh1 _].
    destruct H2 as (_ & _ & _ & S2). destruct (S2 Hh1) as [Hh2 _].
    destruct H24 as (_ & _ & _ & S4). apply S4; [done|].
    unfold out in Hhb, Hb. destruct res as [[res err]|x]; [|done]. by eapply Hl.
  - apply wp_bind, wp_trace. intros e3 H3. apply wp_ret. apply (refuse quiet); [by etransitivity|done|discriminate|done].
Qed.

Lemma on_waf_tame {A} (f : Waf -> A * Waf) e : tame e (on_waf f e).2.
Proof. unfold on_waf, tame. by destruct (f (g_waf e)). Qed.

Lemma wp_on_waf {A} (f : Waf -> A * Waf) (Q : result A -> Eng -> Prop) e :
  (forall x w, f (g_waf e) = (x, w) -> tame e (e <| g_waf := w |>) -> Q (Ok x) (e <| g_waf := w |>)) -> wp (on_waf f) Q e.
Proof.
  intros HQ. pose proof (on_waf_tame f e) as Ht. unfold wp, on_waf in *. destruct (f (g_waf e)) as [x w] eqn:E. by apply HQ.
Qed.

Lemma wp_on_auth {A} (f : gmap string authSession -> A * gmap string authSession) (Q : result A -> Eng -> Prop) e :
  (forall x a, f (g_auth e) = (x, a) -> Q (Ok x) (e <| g_auth := a |>)) -> wp (on_auth f) Q e.
Proof. intros HQ. unfold wp, on_auth. destruct (f (g_auth e)) as [x a] eqn:E. by apply HQ. Qed.

Definition flood_passed (e : Eng) (fl : Flow) : Prop :=
  fl_clientIP fl <> "" -> isLANClient (fl_clientIP fl) (fl_publicIP fl) = false ->
  forall until : time, wafBlock (g_waf e) !! fl_clientIP fl = Some until -> until <= g_now e.

Lemma flood_guards r : guards tame flood_passed (check_flood_block r).
Proof.
  intros fl e _. unfold check_flood_block. apply wp_bind, wp_gets, wp_bind, wp_on_waf.
  intros b w Hw H1. destruct b as [[until why]|].
  - apply wp_bind, wp_trace. intros e3 H3. apply wp_bind, wp_audit. intros e4 H4. apply wp_ret.
    apply (refuse tame); [|done|discriminate|done]. etransitivity; [exact H1|]. apply quiet_tame. by etransitivity.
  - apply wp_ret. split; [done|]. split; [|done]. intros Hne Hlan until Hu.
    apply String.eqb_neq in Hne. revert Hw. unfold wafIsBlocked. rewrite Hne, Hlan. change (false || false) with false.
    cbv iota zeta. rewrite prune_block, Hu. unfold After. destruct (g_now e <? until) eqn:E; [by rewrite E|]. lia.
Qed.

Lemma unknown_guards managed recognized r : guards tame (fun _ fl => fl_route fl <> None) (unknown_host managed recognized r).
Proof.
  intros fl e _. unfold unknown_host. destruct (fl_route fl) as [rt|] eqn:Hrt; [by apply wp_ret|].
  destruct managed.
  { apply wp_bind, wp_trace. intros e1 H1. apply wp_ret. apply (refuse tame); [by apply quiet_tame|done|discriminate|done]. }
  destruct recognized; [apply wp_ret; apply (refuse tame); [reflexivity|done|discriminate|done]|].
  apply wp_bind, wp_gets, wp_bind, wp_on_waf. intros [[triggered until] hits] w _ H1. destruct triggered.
  - apply wp_bind, wp_trace. intros e3 H3. apply wp_bind, wp_audit. intros e4 H4. apply wp_ret.
    apply (refuse tame); [|done|discriminate|done]. etransitivity; [exact H1|]. apply quiet_tame. by etransitivity.
  - apply wp_bind, wp_audit. intros e4 H4. apply wp_ret.
    apply (refuse tame); [|done|discriminate|done]. etransitivity; [exact H1|]. by apply quiet_tame.
Qed.

Definition state_passed (bastion : bool) (h : Host) (fl : Flow) : Prop :=
  bastion = false /\ h_State h <> "disabled" /\
  (h_State h = "maintenance" -> isLANClient (fl_clientIP fl) (fl_publicIP fl) = true).

Lemma state_guards bastion h r : guards quiet (fun _ => state_passed bastion h) (check_host_state bastion h r).
Proof.
  intros fl e _. unfold check_host_state.
  destruct bastion.
  { apply wp_bind, wp_audit. intros e1 H1. apply wp_ret. apply (refuse quiet); [done|done|discriminate|done]. }
  destruct (h_State h =? "disabled")%string eqn:Hd.
  { apply wp_bind, wp_audit. intros e1 H1. apply wp_ret. apply (refuse quiet); [done|done|discriminate|done]. }
  destruct (_ && _) eqn:Hm.
  { apply wp_bind, wp_audit. intros e1 H1. apply wp_ret. apply (refuse quiet); [done|done|discriminate|done]. }
  apply wp_ret. split; [reflexivity|]. split; [|done]. apply String.eqb_neq in Hd. split_and!; [done|done|].
  intros Hs. rewrite Hs in Hm. by destruct (isLANClient _ _).
Qed.

Definition country_passed (h : Host) (r : Request) (e : Eng) (_ : Flow) : Prop :=
  (isGeoBlocked (country_seen r e) h).1 = false.

Lemma quiet_geoBlocks h c mode : keeps quiet (modify (fun e : Eng => match g_requests e with
  | None => e
  | Some _ => e <| g_geoBlocks ::= fun m => <[(h_FQDN h, c, mode) := default 0 (m !! (h_FQDN h, c, mode)) + 1]> m |>
  end)).
Proof. intros e. unfold quiet. simpl. by destruct (g_requests e); split_and!. Qed.

Lemma country_guards h r : guards quiet (country_passed h r) (check_country h r).
Proof.
  intros fl e Hip. unfold Proxy.check_country. rewrite Hip. apply wp_bind, wp_country. intros e1 H1.
  unfold country_passed. generalize (country_seen r e) as c. intros c.
  destruct (isGeoBlocked c h) as [denied mode] eqn:Hg. destruct denied; simpl negb; cbv iota.
  - apply wp_bind, wp_trace. intros e2 H2. apply wp_bind.
    apply wp_quiet; [apply quiet_geoBlocks|by exists tt|]. intros [] e3 H3.
    apply wp_bind, wp_audit. intros e4 H4. apply wp_ret.
    apply (refuse quiet); [|done|discriminate|done]. do 3 (etransitivity; [eassumption|]). done.
  - apply wp_ret. by split.
Qed.

(** The sessions of the engine, and who earns one. *)
Definition logged_in (h : Host) (r : Request) (e : Eng) (fl : Flow) : Prop :=
  h_AuthEnabled h = true -> exists token s, cookie_of r = Some token /\ g_auth e !! token = Some s /\
    as_host s = fl_host fl /\ g_now e <= as_expiresAt s.

Definition earned (h : Host) (r : Request) (e : Eng) (s : authSession) : Prop :=
  h_AuthEnabled h = true /\ rq_Path r = hostAuthPathLogin /\ rq_Method r = "POST" /\
  EqualFold (TrimSpace (form_value r "username")) (TrimSpace (h_AuthUser h)) = true /\
  VerifyPassword IDKey (form_value r "password") (h_AuthPassHash h) = true /\
  s = mkauthSession (ToLower (h_FQDN h)) (Add (g_now e) hostAuthTTL).

(** No session appears but an earned one. *)
Definition login_frame (h : Host) (r : Request) (e e' : Eng) : Prop :=
  core e' = core e /\ g_waf e' = g_waf e /\ src_step (g_src e) (g_src e') /\
  forall token s, g_auth e' !! token = Some s -> g_auth e !! token = Some s \/ earned h r e s.

Lemma prune_sub t auth (token : string) s : pruneAuthSessions t auth !! token = Some s ->
  auth !! token = Some s /\ s.(as_expiresAt) >= t.
Proof.
  unfold pruneAuthSessions. rewrite lookup_keep_rows. destruct (auth !! token) as [s'|]; [|done].
  unfold After. destruct (as_expiresAt s' <? t) eqn:E; simpl; [done|]. intros [= <-]. split; [done|lia].
Qed.

Lemma login_guards h r : guards (login_frame h r) (logged_in h r) (check_host_login h r).
Proof.
  intros fl e _. unfold Proxy.check_host_login. destruct (h_AuthEnabled h) eqn:Ha; simpl negb; cbv iota.
  2: { apply wp_ret. split; [|split; [intros Hx; congruence|by repeat split]]. unfold login_frame. repeat split; try done. by left. }
  apply wp_bind, wp_modify. set (a1 := pruneAuthSessions (g_now e) (g_auth e)).
  set (e1 := e <| g_auth ::= pruneAuthSessions (g_now e) |>).
  assert (Hframe : forall a, (forall token s, a !! token = Some s -> a1 !! token = Some s \/ earned h r e s) ->
    forall rnd, login_frame h r e (e <| g_auth := a |> <| g_rand := rnd |>)).
  { intros a Hsub rnd. unfold login_frame. split; [done|]. split; [done|]. split; [done|].
    intros token s [[Hs _]%prune_sub|Hs]%Hsub; [by left|by right]. }
  destruct (HasPrefix (rq_Path r) hostAuthPathLogout).
  { apply wp_bind, wp_modify, wp_ret. split; [|by repeat split].
    apply (Hframe (logoutHostAuth (cookie_of r) a1)) with (rnd := g_rand e). intros token s Hs. left. revert Hs.
    unfold logoutHostAuth. destruct (cookie_of r) as [v|]; [|done]. destruct (v =? "")%string; [done|].
    by intros [_ ?]%lookup_delete_Some. }
  destruct (_ && _) eqn:Hp.
  { apply andb_prop in Hp as [Hpath%String.eqb_eq Hpost%String.eqb_eq].
    apply wp_bind. unfold handleHostAuthLogin.
    assert (Hp1 : login_frame h r e e1) by (apply (Hframe a1); by left).
    destruct (rq_Form r) as [form|]; [|apply wp_ret, wp_ret; by split_and!].
    destruct (_ || _) eqn:Hc; [apply wp_ret, wp_ret; by split_and!|].
    apply orb_false_elim in Hc as [Hu%negb_false_iff Hv%negb_false_iff].
    apply wp_bind. unfold randomToken. apply wp_bind. unfold wp at 1, draw. simpl.
    destruct (g_rand e) as [|b l]; simpl.
    - apply wp_ret, wp_ret. split; [done|by repeat split].
    - apply wp_ret, wp_bind, wp_modify, wp_ret, wp_ret. split; [|by repeat split].
      set (s := mkauthSession (ToLower (h_FQDN h)) (Add (g_now e) hostAuthTTL)).
      apply (Hframe (<[b64_encode url_alphabet (bytes_of b) := s]> a1)) with (rnd := l).
      intros token s' [[_ <-]|[_ Hs]]%lookup_insert_Some; [right; by split_and!|by left]. }
  apply wp_bind, wp_gets, wp_bind, wp_on_auth. intros ok a2 Hok.
  change (isHostAuthorized (g_now e) (fl_host fl) (cookie_of r) a1 = (ok, a2)) in Hok.
  assert (Hsub : forall token s, a2 !! token = Some s -> a1 !! token = Some s \/ earned h r e s).
  { intros token s Hs. left. revert Hok Hs. unfold isHostAuthorized. destruct (cookie_of r) as [v|]; [|by intros [= <- <-]].
    destruct (TrimSpace v =? "")%string; [by intros [= <- <-]|]. destruct (a1 !! v); [|by intros [= <- <-]].
    destruct (_ || _); intros [= <- <-]; [by intros [_ ?]%lookup_delete_Some|done]. }
  destruct ok; apply wp_ret; (split; [exact (Hframe a2 Hsub (g_rand e))|]); [|by repeat split].
  split; [|done]. intros _. revert Hok. unfold isHostAuthorized. destruct (cookie_of r) as [v|]; [|done].
  destruct (TrimSpace v =? "")%string; [done|]. destruct (a1 !! v) as [s|] eqn:Hs; [|done].
  destruct (_ || _) eqn:Hb; [done|]. intros _. apply orb_false_elim in Hb as [Hh%negb_false_iff Hx].
  apply prune_sub in Hs as [Hs _]. exists v, s. unfold After in Hx. split_and!; [done|done|by apply String.eqb_eq|lia].
Qed.

(** *** Routing *)

Definition proxy_of (rt : routeEntry) (rp : ReverseProxy) : Prop :=
  re_proxy rt = Some rp \/ exists b, b ∈ re_backends rt /\ rp = br_proxy b.

(** What routing answers with. *)
Definition routed (rt : routeEntry) (o : outcome) : Prop :=
  match o with
  | Served rp _ _ _ => proxy_of rt rp
  | Dropped => re_proxy rt = None
  | _ => True
  end.

Definition route_post (rt : routeEntry) (fl : Flow) (e : Eng) (res : result (option outcome * Flow)) (e' : Eng) : Prop :=
  after e e' /\ g_waf e' = g_waf e /\ g_auth e' = g_auth e /\
  exists o fl', res = Ok (Some o, fl') /\ same_flow fl fl' /\ routed rt o.

Lemma route_post_quiet rt fl e e1 o fl' :
  quiet e e1 -> same_flow fl fl' -> routed rt o -> route_post rt fl e (Ok (Some o, fl')) e1.
Proof.
  intros Hq Hf Ho. split; [by apply tame_after, quiet_tame|]. destruct Hq as (_ & Hw & Ha & _).
  split; [done|]. split; [done|]. by exists o, fl'.
Qed.

Lemma serve_at_wp rt rp summary h r fl e :
  (forall p, rp = Some p -> proxy_of rt p) -> (rp = None -> re_proxy rt = None) ->
  wp (serve_at roundtrip rp summary h r fl) (route_post rt fl e) e.
Proof.
  intros Hp Hn. unfold serve_at. apply wp_bind, wp_trace. intros e1 H1. destruct rp as [rp|].
  2: { apply wp_ret. by apply route_post_quiet; [done| |apply Hn]. }
  unfold serve. destruct (roundtrip rp r) as [[[status bytes] edge]|err].
  { apply wp_ret. by apply route_post_quiet; [done| |apply Hp]. }
  apply wp_bind. apply wp_quiet.
  { destruct (_ =? _)%string; [unfold randomHex|]; keeps_tac; typeclasses eauto. }
  { destruct (_ =? _)%string; [unfold randomHex, draw, mbind, M_bind; destruct (g_rand e1)|]; by eexists. }
  intros traceID e2 H2. apply wp_bind, wp_gets, wp_bind, wp_trace. intros e3 H3.
  apply wp_bind, wp_audit. intros e4 H4. apply wp_bind, wp_gets, wp_ret.
  apply route_post_quiet; [|done|done]. do 3 (etransitivity; [eassumption|]). done.
Qed.

Lemma select_after rt (k : string) e rnd :
  g_routes e !! k = Some rt -> after e (e <| g_routes ::= <[k := rt <| re_rr := rnd |>]> |>).
Proof.
  intros Hk. unfold after. split; [done|]. split; [done|]. split; [reflexivity|].
  intros Hr k' rt' Hk'. change (<[k := rt <| re_rr := rnd |>]> (g_routes e) !! k' = Some rt') in Hk'.
  apply lookup_insert_Some in Hk' as [[_ <-]|[_ H']]; [|by eapply Hr].
  change (h_State (re_host rt) <> "disabled" -> is_Some (re_proxy rt)). by eapply Hr.
Qed.

(** The chosen index is in range, and only the counter of the entry changes. *)
Lemma selected rt : re_backends rt <> [] ->
  exists idx online total offline rr, selectBackendIndex reachable rt = ((idx, online, total, offline), rt <| re_rr := rr |>) /\
  (idx < 0 \/ is_Some (re_backends rt !! Z.to_nat idx)).
Proof.
  intros Hne. pose proof (backend_in_range reachable rt Hne) as Hb.
  assert (Hc : exists rr, (selectBackendIndex reachable rt).2 = rt <| re_rr := rr |>).
  { destruct rt as [rp bs h rr]. unfold selectBackendIndex. simpl. destruct (_ =? 0); [by exists rr|]. destruct (_ =? "round_robin")%string.
    - by eexists.
    - destruct (first_online reachable 0 bs) as [[??]?]. by exists rr. }
  destruct Hc as [rr Hrr]. destruct (selectBackendIndex reachable rt) as [[[[idx online] total] offline] rt'].
  cbn in Hrr, Hb. subst rt'. exists idx, online, total, offline, rr. split; [done|].
  destruct Hb as [Hi|Hi]; [by left|right]. apply lookup_lt_is_Some_2. lia.
Qed.

Lemma serve_route_wp rt r fl e :
  g_routes e !! fl_host fl = Some rt -> wp (serve_route rt r fl) (route_post rt fl e) e.
Proof.
  intros Hk. unfold Proxy.serve_route. destruct (_ && _) eqn:Hha.
  2: { apply serve_at_wp; [by left|done]. }
  apply andb_prop in Hha as [_ Hne%negb_true_iff%bool_decide_eq_false].
  assert (Hbs : re_backends rt <> []) by (by intros Hx; rewrite Hx in Hne).
  destruct (selected rt Hbs) as (idx & online & total & offline & rr & Hsel & Hi).
  apply wp_bind. unfold select_backend. rewrite Hsel. apply wp_bind, wp_modify, wp_ret.
  set (e1 := e <| g_routes ::= <[fl_host fl := rt <| re_rr := rr |>]> |>).
  assert (H1 : after e e1) by (by apply select_after).
  destruct (idx <? 0) eqn:Hneg.
  - unfold ha_down. apply wp_bind, wp_trace. intros e3 H3. apply wp_bind, wp_audit. intros e4 H4. apply wp_ret.
    assert (Hq : quiet e1 e4) by (by etransitivity).
    pose proof (tame_after _ _ (quiet_tame _ _ Hq)) as Ha. destruct Hq as (_ & Hw & Hu & _).
    split; [by etransitivity|]. split; [done|]. split; [done|]. by eexists _, _.
  - destruct Hi as [?|[b Hb]]; [lia|]. rewrite Hb. eapply wp_mono.
    + apply serve_at_wp with (rt := rt); [|done]. intros p [= <-]. right. exists b. split; [|done].
      by eapply list_elem_of_lookup_2.
    + intros res e2 (H2 & Hw & Hu & Hres). split; [by etransitivity|]. split; [done|]. split; [done|]. done.
Qed.

(* ------------------------------------------------------------------ *)
(** ** The whole handler *)

(** [finish] keeps what the stages keep. *)
Lemma quiet_metrics f : keeps quiet (modify (fun e : Eng => e <| g_requests ::= f |>)).
Proof. intros e. unfold quiet. simpl. by repeat split. Qed.
Lemma quiet_live f : keeps quiet (modify (fun e : Eng => e <| g_live ::= f |>)).
Proof. intros e. unfold quiet. simpl. by repeat split. Qed.

Section finish.
Context (out : outcome) (r : Request) (fl : Flow) (Hip : fl_clientIP fl = ip0 \/ fl_clientIP fl = "").

Lemma quiet_publish : keeps quiet (publish_live env_MMDBS env_MMDB open http_get out r fl).
Proof.
  unfold Proxy.publish_live, Proxy.report_country. apply keeps_bind; [typeclasses eauto|apply keeps_gets; typeclasses eauto|].
  intros [hub|]; [|apply keeps_ret; typeclasses eauto]. destruct Hip as [-> | ->].
  - keeps_tac; try typeclasses eauto; try apply quiet_live.
    all: intros e; unfold quiet; simpl; by repeat split.
  - change (String.eqb "" "") with true. rewrite orb_true_r. apply keeps_ret. typeclasses eauto.
Qed.

Lemma quiet_completed : keeps quiet (trace_completed env_MMDBS env_MMDB open http_get page_bytes out r fl).
Proof.
  unfold Proxy.trace_completed, Proxy.report_country. destruct Hip as [-> | ->].
  - keeps_tac; typeclasses eauto.
  - change (String.eqb "" "") with true. rewrite orb_true_r. apply keeps_ret. typeclasses eauto.
Qed.
#[local] Hint Resolve quiet_publish quiet_completed : go_keeps.

Lemma quiet_finish : keeps quiet (finish out r fl).
Proof.
  unfold Proxy.finish, observe_request, record_traffic. keeps_tac; try typeclasses eauto; try apply quiet_metrics.
  all: intros e; unfold quiet; simpl; by repeat split.
Qed.
End finish.

(** A computation that always answers. *)
Definition total {A} (m : M Eng A) : Prop := forall e, exists a, (m e).1 = Ok a.

Lemma total_bind {A B} (m : M Eng A) (k : A -> M Eng B) : total m -> (forall a, total (k a)) -> total (m ≫= k).
Proof.
  intros Hm Hk e. destruct (Hm e) as [a Ha]. unfold mbind, M_bind. destruct (m e) as [x e1]. simpl in Ha. subst x. apply Hk.
Qed.
Lemma total_ret {A} (a : A) : total (mret a).
Proof. intros e. by exists a. Qed.
Lemma total_gets {A} (f : Eng -> A) : total (gets f).
Proof. intros e. by eexists. Qed.
Lemma total_modify f : total (modify f).
Proof. intros e. by exists tt. Qed.
Lemma total_noted m : total (noted m).
Proof. intros e. by exists tt. Qed.
Lemma total_country r ip : total (country_of r ip).
Proof.
  unfold Proxy.country_of, countryFromHeaders. apply total_bind; [apply total_gets|]. intros c.
  destruct (c =? "")%string; [|apply total_ret]. intros e. unfold geoCountry.
  destruct (CountryCode _ _ _ _ _ _ _). by eexists.
Qed.

Ltac total_step :=
  match goal with
  | |- forall _, total _ => intros ?
  | |- total (mbind _ _) => apply total_bind
  | |- total (match ?x with _ => _ end) => destruct x
  | |- total (let _ := _ in _) => intros ?
  | |- total _ => first [apply total_ret|apply total_gets|apply total_modify|apply total_noted|apply total_country]
  end.

Lemma finish_total out r fl : total (finish out r fl).
Proof.
  unfold Proxy.finish, observe_request, publish_live, trace_completed, record_traffic, report_country, now.
  repeat (cbv zeta; total_step).
Qed.

Lemma wp_finish out r fl (Q : result unit -> Eng -> Prop) e :
  fl_clientIP fl = ip0 \/ fl_clientIP fl = "" -> (forall e', quiet e e' -> Q (Ok tt) e') -> wp (finish out r fl) Q e.
Proof. intros Hip HQ. apply wp_quiet; [by apply quiet_finish|apply finish_total|]. intros [] e'. apply HQ. Qed.

(** *** What holds when a backend answers *)

Record admitted (isBastionHost : bool) (r : Request) (e : Eng) (fl : Flow) (rp : ReverseProxy) : Prop := {
  ad_unlisted : healthy (g_src e) -> ~ listed (g_src e) (fl_clientIP fl);
  ad_flood : flood_passed e fl;
  ad_route : exists rt, fl_route fl = Some rt /\ proxy_of rt rp /\
    state_passed isBastionHost (re_host rt) fl /\ country_passed (re_host rt) r e fl /\ logged_in (re_host rt) r e fl
}.

(** What the stages guarantee, from the state the request arrives in. *)
Record judged (isBastionHost : bool) (r : Request) (fl : Flow) (e : Eng) (o : outcome) (e' : Eng) : Prop := {
  jd_after : after e e';
  jd_served : forall rp status bytes edge, o = Served rp status bytes edge -> admitted isBastionHost r e fl rp;
  jd_dropped : o = Dropped -> routes_ok e -> healthy (g_src e) -> listed (g_src e') (fl_clientIP fl);
  jd_sessions : forall token s, g_auth e' !! token = Some s -> g_auth e !! token = Some s \/
    exists rt, fl_route fl = Some rt /\ earned (re_host rt) r e s
}.

Definition judged_as isBastionHost r fl e (res : result (option outcome * Flow)) (e' : Eng) : Prop :=
  exists o fl', res = Ok (Some o, fl') /\ same_flow fl fl' /\ judged isBastionHost r fl e o e'.

Lemma refused_judged b r fl e e1 e2 o fl0 fl' :
  tame e e1 -> tame e1 e2 -> fl_clientIP fl0 = fl_clientIP fl -> refusal e1 e2 fl0 o -> same_flow fl fl' ->
  judged_as b r fl e (Ok (Some o, fl')) e2.
Proof.
  intros H1 H2 Hip [Hns Hd] Hf. exists o, fl'. split; [done|]. split; [done|].
  assert (H12 : tame e e2) by (by etransitivity). split.
  - by apply tame_after.
  - intros rp st b' ed ->. done.
  - intros Ho _ Hh. rewrite <- Hip. apply Hd; [done|]. destruct H1 as (_ & _ & H1). by apply H1.
  - intros token s Hs. left. destruct H12 as (_ & Ha & _). by rewrite <- Ha.
Qed.

Lemma same_flow_trans a b c : same_flow a b -> same_flow b c -> same_flow a c.
Proof. intros (H1 & H2 & H3 & H4) (G1 & G2 & G3 & G4). repeat split; congruence. Qed.

Lemma wp_stage (R : Eng -> Eng -> Prop) P m k b r fl e fl0 e0 :
  fl_clientIP fl = ip0 -> guards R P m -> (forall a c, R a c -> tame a c) -> tame e e0 -> same_flow fl fl0 ->
  (forall fl1 e1, R e0 e1 -> P e0 fl0 -> tame e e1 -> same_flow fl fl1 -> wp (k fl1) (judged_as b r fl e) e1) ->
  wp (then_ m k fl0) (judged_as b r fl e) e0.
Proof.
  intros Hip0 Hm HR Ht Hf Hk. apply wp_then. eapply wp_mono; [apply Hm; destruct Hf as (_ & ? & _); congruence|].
  intros [[[o|] fl1]|x] e1 [H1 H2]; [|destruct H2 as [HP Hf1]|done].
  - destruct H2 as [Hr Hf1]. apply (refused_judged b r fl e e0 e1 o fl0 fl1); [done|by apply HR| |done|].
    + by destruct Hf as (_ & ? & _).
    + by eapply same_flow_trans.
  - apply Hk; [exact H1|exact HP| |by eapply same_flow_trans]. etransitivity; [exact Ht|by apply HR].
Qed.

Lemma core_fields e e' : core e' = core e ->
  g_now e' = g_now e /\ g_trusted e' = g_trusted e /\ g_routes e' = g_routes e.
Proof. unfold core. intros Hc. repeat split; congruence. Qed.
Lemma core_country r e e' : core e' = core e -> country_seen r e' = country_seen r e.
Proof.
  intros Hc. pose proof (core_fields _ _ Hc) as (_ & Ht & _). unfold country_seen. rewrite Ht.
  assert (Hr : resolved e' = resolved e) by (revert Hc; unfold core; congruence). by rewrite Hr.
Qed.

Lemma country_passed_at h r e e0 fl fl0 :
  tame e e0 -> same_flow fl fl0 -> country_passed h r e0 fl0 -> country_passed h r e fl.
Proof.
  intros (Hc & _) _. unfold country_passed. by rewrite (core_country r e e0 Hc).
Qed.

Lemma state_passed_at b h fl fl0 : same_flow fl fl0 -> state_passed b h fl0 -> state_passed b h fl.
Proof. intros (_ & Hip & Hp & _). unfold state_passed. by rewrite Hip, Hp. Qed.

Lemma logged_in_at h r e e0 fl fl0 : tame e e0 -> same_flow fl fl0 -> logged_in h r e0 fl0 -> logged_in h r e fl.
Proof.
  intros (Hc & Ha & _) (_ & _ & _ & Hh) Hl Hauth. destruct (Hl Hauth) as (tok & s & H1 & H2 & H3 & H4).
  apply core_fields in Hc as (Hn & _). exists tok, s. split; [done|]. split; [by rewrite <- Ha|]. split; congruence.
Qed.

Lemma earned_at h r e e0 s : tame e e0 -> earned h r e0 s -> earned h r e s.
Proof. intros (Hc & _). apply core_fields in Hc as (Hn & _). unfold earned. by rewrite Hn. Qed.

Lemma login_after h r e e0 e1 : tame e e0 -> login_frame h r e0 e1 -> after e e1.
Proof.
  intros (Hc & _ & Hs) (Hc1 & _ & Hs1 & _). apply core_fields in Hc as (Hn & Ht & Hr), Hc1 as (Hn1 & Ht1 & Hr1).
  unfold after, routes_ok. split; [congruence|]. split; [congruence|]. split; [by etransitivity|]. by rewrite Hr1, Hr.
Qed.

(** The last two stages, once the others let the request pass. *)
Lemma login_and_serve b rt r fl e fl0 e0 :
  fl_clientIP fl = ip0 -> tame e e0 -> same_flow fl fl0 -> fl_route fl = Some rt -> g_routes e !! fl_host fl = Some rt ->
  (healthy (g_src e) -> ~ listed (g_src e) (fl_clientIP fl)) -> flood_passed e fl ->
  state_passed b (re_host rt) fl -> country_passed (re_host rt) r e fl ->
  wp (then_ (check_host_login (re_host rt) r) (serve_route rt r) fl0) (judged_as b r fl e) e0.
Proof.
  intros Hip0 Ht Hf Hrt Hk Hun Hfl Hst Hco. apply wp_then.
  eapply wp_mono; [apply login_guards; destruct Hf as (_ & ? & _); congruence|].
  intros [[[o|] fl1]|x] e1 [Hlf H2]; [| |done].
  all: pose proof Hlf as (Hc1 & _ & _ & Hse).
  - destruct H2 as [[Hns Hd] Hf1]. exists o, fl1. split; [done|]. split; [by eapply same_flow_trans|].
    assert (Ha : after e e1).
    { by eapply login_after. }
    split; [done|by intros ? ? ? ? ->| |].
    + intros Ho _ Hh. replace (fl_clientIP fl) with (fl_clientIP fl0) by (by destruct Hf as (_ & ? & _)).
      apply Hd; [done|]. destruct Ht as (_ & _ & Hs). by apply Hs.
    + intros token s [Hs|Hs]%Hse; [left; destruct Ht as (_ & Ha' & _); by rewrite <- Ha'|].
      right. exists rt. split; [done|]. by eapply earned_at.
  - destruct H2 as [Hl Hf1]. eapply wp_mono; [apply serve_route_wp|].
    { destruct Ht as (Hc & _ & _), Hf as (_ & _ & _ & Hh), Hf1 as (_ & _ & _ & Hh1).
      apply core_fields in Hc as (_ & _ & Hc), Hc1 as (_ & _ & Hc1). by rewrite Hh1, Hh, Hc1, Hc. }
    intros res e2 (Ha2 & Hw2 & Hau2 & o & fl2 & -> & Hf2 & Hro). exists o, fl2. split; [done|].
    split; [by do 2 (eapply same_flow_trans; [eassumption|])|].
    assert (Ha : after e e2).
    { etransitivity; [|exact Ha2]. by eapply login_after. }
    split; [done| | |].
    + intros rp status bytes edge ->. split; [done|done|]. exists rt. split; [done|]. split; [done|]. split; [done|].
      split; [done|]. eapply logged_in_at; [done| |exact Hl]. by eapply same_flow_trans.
    + intros -> Hr _. destruct Hst as (_ & Hd & _). destruct (Hr _ _ Hk Hd) as [p Hp]. simpl in Hro. congruence.
    + intros token s Hs. rewrite Hau2 in Hs. apply Hse in Hs as [Hs|Hs].
      * left. destruct Ht as (_ & Ha' & _). by rewrite <- Ha'.
      * right. exists rt. split; [done|]. by eapply earned_at.
Qed.

Lemma pipeline_judged snap b managed r fl e :
  fl_clientIP fl = ip0 -> fl_route fl = g_routes e !! fl_host fl -> wp (pipeline snap b managed r fl) (judged_as b r fl e) e.
Proof.
  intros Hip0 Hroute. unfold Proxy.pipeline.
  eapply wp_stage; [exact Hip0|apply block_list_guards|apply quiet_tame|reflexivity|by repeat split|].
  intros fl1 e1 Hq1 Hun Ht1 Hf1.
  eapply wp_stage; [exact Hip0|apply threats_guard|apply quiet_tame|done|done|]. intros fl2 e2 Hq2 _ Ht2 Hf2.
  eapply wp_stage; [exact Hip0|apply flood_guards|done|done|done|]. intros fl3 e3 _ Hfl Ht3 Hf3.
  assert (Hfl0 : flood_passed e fl).
  { assert (Hq : quiet e e2) by (by etransitivity). destruct Hq as (Hc & Hw & _). destruct Hf2 as (_ & Hip & Hp & _).
    apply core_fields in Hc as (Hn & _). unfold flood_passed in *. rewrite Hip, Hp in Hfl. intros H1 H2 until Hu.
    rewrite <- Hw in Hu. specialize (Hfl H1 H2 until Hu). congruence. }
  eapply wp_stage; [exact Hip0|apply unknown_guards|done|done|done|]. intros fl4 e4 _ Hrt Ht4 Hf4.
  assert (Hrt4 : fl_route fl4 = fl_route fl) by (by destruct Hf4). rewrite Hrt4.
  assert (Hrt3 : fl_route fl3 = fl_route fl) by (by destruct Hf3).
  destruct (fl_route fl) as [rt|] eqn:Hr; [|congruence]. unfold Proxy.route_stages.
  eapply wp_stage; [exact Hip0|apply state_guards|apply quiet_tame|done|done|]. intros fl5 e5 _ Hst Ht5 Hf5.
  eapply wp_stage; [exact Hip0|apply country_guards|apply quiet_tame|done|done|]. intros fl6 e6 _ Hco Ht6 Hf6.
  apply login_and_serve; [done|done|done|done|done|done|done| |].
  - by apply (state_passed_at _ _ _ fl4).
  - by apply (country_passed_at _ _ _ e5 _ fl5).
Qed.

(* ------------------------------------------------------------------ *)
(** ** A request, from its arrival to the end of the deferred function *)

(** The flow a request starts with. *)
Record flow_of (r : Request) (e : Eng) (fl : Flow) : Prop := {
  fo_host : fl_host fl = normalizeHostHeader (rq_RHost r);
  fo_route : fl_route fl = g_routes e !! fl_host fl;
  fo_clientIP : fl_clientIP fl = ClientIP r (g_trusted e);
  fo_publicIP : fl_publicIP fl = g_publicIP e
}.

Lemma ingress_wp r traceID e :
  wp (ingress r traceID) (fun res e' => quiet e e' /\ exists fl, res = Ok fl /\ flow_of r e fl) e.
Proof.
  unfold ingress. apply wp_bind, wp_gets, wp_bind.
  assert (Hq : keeps quiet (when (negb (traceID =? "")%string) (noted (AddTraceEvent
    ((flow_trace (mkFlow (g_routes e !! normalizeHostHeader (rq_RHost r)) "" (ClientIP r (g_trusted e)) (g_publicIP e) false
        (isLikelyCrawlerUA (UserAgent r)) traceID (normalizeHostHeader (rq_RHost r))) r "request.ingress"
        (normalizeHostHeader (rq_RHost r)) "Request accepted at edge")
       <| te_Mode := rq_Method r |> <| te_SourceScope := requestScope (ClientIP r (g_trusted e)) (g_publicIP e) |>))))).
  { apply keeps_when; [typeclasses eauto|apply quiet_trace]. }
  apply wp_quiet; [exact Hq|destruct (negb _); by exists tt|]. intros [] e1 H1. apply wp_ret. split; [done|].
  eexists. by split.
Qed.

Lemma core_public e e' : core e' = core e ->
  g_publicIP e' = g_publicIP e /\ g_bastion e' = g_bastion e /\ g_tiSnap e' = g_tiSnap e.
Proof. unfold core. intros Hc. repeat split; congruence. Qed.

Lemma flow_of_at r e e' fl : quiet e e' -> flow_of r e' fl -> flow_of r e fl.
Proof.
  intros (Hc & _) [H1 H2 H3 H4]. pose proof (core_fields _ _ Hc) as (_ & Ht & Hr).
  apply core_public in Hc as (Hp & _). split; congruence.
Qed.

Lemma admitted_at b r e e' fl rp : quiet e e' -> admitted b r e' fl rp -> admitted b r e fl rp.
Proof.
  intros Hq [H1 H2 (rt & H3 & H4 & H5 & H6 & H7)]. pose proof (quiet_tame _ _ Hq) as Ht.
  destruct Hq as (Hc & Hw & _ & Hs). apply core_fields in Hc as (Hn & _). split.
  - intros Hh Hl. destruct (Hs Hh) as [Hh' Hs']. by apply (H1 Hh'), Hs'.
  - unfold flood_passed in *. by rewrite Hn, Hw in H2.
  - exists rt. split; [done|]. split; [done|]. split; [done|].
    split; [by eapply country_passed_at|by eapply logged_in_at].
Qed.

Lemma judged_at b r fl e e1 o e2 e' :
  quiet e e1 -> judged b r fl e1 o e2 -> quiet e2 e' -> judged b r fl e o e'.
Proof.
  intros Hq [H1 H2 H3 H4] Hq'. pose proof (quiet_tame _ _ Hq) as Ht. pose proof (tame_after _ _ Ht) as Ha.
  pose proof (tame_after _ _ (quiet_tame _ _ Hq')) as Ha'. split.
  - etransitivity; [exact Ha|]. by etransitivity.
  - intros rp st b' ed Ho. eapply admitted_at; [exact Hq|by eapply H2].
  - intros Ho Hr Hh. destruct Ha as (_ & _ & Hs & Hr1). destruct (Hs Hh) as [Hh1 _].
    destruct H1 as (_ & _ & Hs2 & _). destruct (Hs2 Hh1) as [Hh2 _].
    destruct Ha' as (_ & _ & Hs' & _). apply Hs'; [done|]. by apply H3; [|apply Hr1|].
  - intros token s Hs. destruct Hq' as (_ & _ & Hau & _). rewrite Hau in Hs.
    apply H4 in Hs as [Hs|(rt & Hrt & He)].
    + left. destruct Ht as (_ & Hau1 & _). by rewrite <- Hau1.
    + right. exists rt. split; [done|]. by eapply earned_at.
Qed.

Definition bastion_host (r : Request) (e : Eng) : bool :=
  bool_decide (normalizeHostHeader (rq_RHost r) ∈ g_bastion e).

Lemma quiet_randomHex : keeps quiet (randomHex : M Eng string).
Proof. unfold randomHex. keeps_tac; typeclasses eauto. Qed.
Lemma randomHex_ok (e : Eng) : exists a, (randomHex e).1 = Ok a.
Proof. unfold randomHex, draw, mbind, M_bind. destruct (g_rand e); by eexists. Qed.

Lemma handler_judged r e :
  ip0 = ClientIP r (g_trusted e) -> rq_Path r <> edgeLogoPath ->
  wp (Handler r) (fun res e' => exists o fl, res = Ok o /\ flow_of r e fl /\ judged (bastion_host r e) r fl e o e') e.
Proof.
  intros Hip Hp%String.eqb_neq. unfold Proxy.Handler. rewrite Hp.
  apply wp_bind, wp_quiet; [apply quiet_randomHex|apply randomHex_ok|]. intros traceID e1 H1.
  apply wp_bind. eapply wp_mono; [apply ingress_wp|]. intros res e2 (H2 & fl & -> & Hfl).
  assert (H02 : quiet e e2) by (by etransitivity).
  assert (Hip0 : fl_clientIP fl = ip0) by (destruct (flow_of_at _ _ _ _ H1 Hfl) as [_ _ -> _]; done).
  apply wp_bind, wp_gets, wp_bind, wp_gets, wp_bind, wp_gets, wp_bind.
  eapply wp_mono; [apply pipeline_judged; [exact Hip0|]|].
  { destruct Hfl as [_ -> _ _]. destruct H2 as (Hc & _). by apply core_fields in Hc as (_ & _ & ->). }
  intros res e3 (o & fl' & -> & Hsf & Hj).
  apply wp_bind, wp_finish; [left; destruct Hsf as (_ & ? & _); congruence|]. intros e4 H4. apply wp_ret.
  exists o, fl. split; [done|]. assert (Hfl0 : flow_of r e fl) by (by apply (flow_of_at _ _ e1)). split; [done|].
  assert (Hb : bool_decide (fl_host fl ∈ g_bastion e2) = bastion_host r e).
  { unfold bastion_host. destruct Hfl0 as [-> _ _ _]. destruct H02 as (Hc & _). by apply core_public in Hc as (_ & -> & _). }
  rewrite Hb in Hj. by eapply judged_at.
Qed.

Lemma logo_quiet r e : rq_Path r = edgeLogoPath -> (Handler r e).1 = Ok Logo /\ quiet e (Handler r e).2.
Proof.
  intros Hp. apply (wp_apply (Handler r) (fun res e' => res = Ok Logo /\ quiet e e')).
  unfold Proxy.Handler. rewrite Hp. simpl String.eqb. cbv iota. apply wp_bind, wp_finish; [by right|]. intros e1 H1. by apply wp_ret.
Qed.
End safety.
