(* ===== verification/ProxySource.v ===== *)
(** [internal/app/service.go] as the source of the edge: the instance of
    [HostSource] for the service, and the proof that it keeps the laws the engine
    relies on ([HostSourceLaws]). *)

From S2P Require Import Prelude GoString GoMonad GoTime GoNet GoUrl GeoIp GoCrypto Crypto NetUtil Model StoreDB.
From S2P Require Import Traffic StoreThreat StoreUsers StoreHosts StoreBastion Service ThreatEngine ThreatEvents.
From S2P Require Import ProxyCore Proxy ProxySafety.

Definition style_profiles : gset string := {["monolith"; "cybermonolith"; "custom"]}.

Definition GetStyleSettings : AM (string * string) :=
  p ← try_ (db (GetSetting "runtime.style_profile"));
  c ← try_ (db (GetSetting "runtime.style_custom"));
  mret (match p with
        | Ok v => if bool_decide (norm v ∈ style_profiles) then norm v else "monolith"
        | Err _ => "monolith"
        end,
        match c with Ok v => TrimSpace v | Err _ => "" end).

Definition PublicIPv4 (s : Svc) : string := TrimSpace (s_publicIP s).

#[export] Instance svc_source : HostSource Svc := {|
  Proxy.ListHosts := db StoreHosts.ListHosts;
  Proxy.ListDomains := db StoreHosts.ListDomains;
  Proxy.ListSSHBastionRoutes := db StoreBastion.ListSSHBastionRoutes;
  Proxy.PublicIPv4 := PublicIPv4;
  Proxy.AddAuditEvent := fun ev => db (StoreUsers.AddAuditEvent ev);
  Proxy.AddTraceEvent := fun ev => db (StoreUsers.RecordTraceEvent ev);
  Proxy.GetStyleSettings := GetStyleSettings;
  Proxy.GetThreatIntelSnapshot := RefreshThreatIntelSnapshot;
  Proxy.ApplyThreatIntelEvent := ThreatEngine.ApplyThreatIntelEvent;
  Proxy.IsIPBlocked := fun ip => db (StoreThreat.IsIPBlocked ip);
  Proxy.UpsertBlockedIP := ThreatEngine.UpsertBlockedIP
|}.

(* ------------------------------------------------------------------ *)
(** ** The laws *)

Definition svc_healthy (s : Svc) : Prop := e_faults (s_env s) = [].
Definition svc_listed (s : Svc) (ip : string) : Prop :=
  TrimSpace ip <> "" /\ is_Some (t_blocked_ips (e_db (s_env s)) !! TrimSpace ip).

Definition svc_step (s s' : Svc) : Prop :=
  svc_healthy s -> svc_healthy s' /\ forall ip, svc_listed s ip -> svc_listed s' ip.

(** An operation that stays calm and keeps the table, or every entry of it. *)
Lemma svc_step_of {A} (m : AM A) :
  keeps (on_env calm) m -> (forall ip, keeps (on_env (inv (fun db => is_Some (t_blocked_ips db !! ip)))) m) ->
  keeps svc_step m.
Proof.
  intros Hc Hi s Hs. split; [by apply Hc|]. intros ip [Hne Hin]. split; [done|]. by apply (Hi (TrimSpace ip) s).
Qed.

Lemma keeps_blocks {A} (m : SM A) ip : keeps (same t_blocked_ips) m ->
  keeps (on_env (inv (fun db => is_Some (t_blocked_ips db !! ip)))) (db m).
Proof.
  intros Hm. apply keeps_db. eapply keeps_weaken; [|exact Hm]. intros e e' [E _] Hi. by rewrite E.
Qed.

#[export] Instance svc_laws : HostSourceLaws Svc.
Proof.
  refine {| healthy := svc_healthy; listed := svc_listed |}.
  - intros ev. apply svc_step_of; [apply keeps_db; unfold StoreUsers.AddAuditEvent, audit_trace; keeps_calm|].
    intros ip. apply keeps_blocks. unfold StoreUsers.AddAuditEvent. keeps_db.
  - intros ev. apply svc_step_of; [apply keeps_db; unfold RecordTraceEvent; keeps_calm|].
    intros ip. apply keeps_blocks. unfold RecordTraceEvent. keeps_db.
  - intros inp. apply svc_step_of; [apply calm_event|]. intros ip. apply event_keeps_blocks.
  - intros ip. apply svc_step_of; [apply keeps_db; unfold StoreThreat.IsIPBlocked; keeps_calm|].
    intros x. apply keeps_blocks. unfold StoreThreat.IsIPBlocked. keeps_db.
  - intros ip s Hs. unfold svc_healthy in Hs. destruct s as [[db now fs rnd] nft win snap rules sync url hash en au pub key kf su cfg bo dc lc lt hn].
    simpl in Hs. subst fs. unfold Proxy.IsIPBlocked, svc_listed. simpl. unfold StoreThreat.IsIPBlocked.
    destruct (TrimSpace ip =? "")%string eqn:E.
    + exists false. split; [done|]. apply String.eqb_eq in E. split; [done|]. by intros [Hne _].
    + apply String.eqb_neq in E. eexists. split; [done|]. rewrite bool_decide_eq_true. naive_solver.
  - intros inp s res err Hs Hr Hh. simpl in Hr |- *.
    destruct (ThreatEngine.ApplyThreatIntelEvent inp s) as [x s'] eqn:E. simpl in Hr |- *. subst x. split.
    + intros Hip. unfold ThreatEngine.ApplyThreatIntelEvent in E. rewrite Hip in E. cbn in E. injection E as <- _ _. discriminate.
    + by eapply hard_block_listed.
Defined.
