(* ===== verification/HostRoutes.v ===== *)
(** From the service to the edge: what the proxy makes of the hosts the service
    accepts.  [Hosts] writes the rows, [Proxy.Refresh] turns them into routes. *)

From S2P Require Import Prelude GoString GoMonad GoTime GoNet GoUrl GeoIp GoCrypto Crypto NetUtil Model.
From S2P Require Import StoreDB StoreThreat StoreUsers StoreHosts LogServers Service Vault Hosts ProxyCore Proxy ProxySource.
From Stdlib Require Import Ascii.

(* ------------------------------------------------------------------ *)
(** ** Accepted routing becomes a route *)

Lemma valid_upstream_url u : valid_upstream u = true -> TrimSpace u = u -> is_Some (valid_url u).
Proof.
  unfold valid_upstream, valid_url. intros Hv E. rewrite E in Hv. destruct (Parse u) as [x|]; [|done].
  apply andb_prop in Hv as [_ Hv]. apply negb_true_iff in Hv. rewrite Hv. eauto.
Qed.

(** What a client may ask for: one backend, or several under high availability, each
    URL once and without the blanks around it. *)
Fixpoint distinct (seen : gset string) (l : list string) : list string :=
  match l with
  | [] => []
  | x :: l' => if bool_decide (x ∈ seen) then distinct seen l' else x :: distinct ({[x]} ∪ seen) l'
  end.
Definition asked (backends : list HABackend) : list string :=
  distinct ∅ (List.filter nonempty (map (fun b => TrimSpace (hb_URL b)) backends)).

Lemma ha_backends_urls i seen l out : ha_backends i seen l = Ok out ->
  map hb_URL out = distinct seen (List.filter nonempty (map (fun b => TrimSpace (hb_URL b)) l)).
Proof.
  revert i seen out. induction l as [|b l IH]; intros i seen out; simpl; [by intros [= <-]|].
  unfold nonempty at 1. destruct (String.eqb (TrimSpace (hb_URL b)) "") eqn:Ee; simpl.
  { replace (TrimSpace (hb_URL b)) with "" by (by apply String.eqb_eq in Ee). apply IH. }
  simpl. case_bool_decide; [apply IH|]. destruct (valid_upstream _); simpl; [|done].
  destruct (ha_backends _ _ l) as [out'|e] eqn:E; simpl; [|done]. intros [= <-]. simpl. f_equal. by eapply IH.
Qed.

(** The proxy of a URL: it sends to what the URL says, and leaves a certificate
    unchecked only over https and where the client asked for that. *)
Definition sends (p : ReverseProxy) (raw : string) (tls : bool) : Prop :=
  exists u, Parse raw = Some u /\ url_Host u <> "" /\ rp_url p = u /\ rp_upstreamRef p = raw /\
    rp_InsecureSkipVerify p = EqualFold (url_Scheme u) "https" && tls.

Lemma new_sends u h raw : valid_url raw = Some u -> sends (newReverseProxy u h raw) raw (h_InsecureTLS h).
Proof.
  unfold valid_url. destruct (Parse raw) as [u'|] eqn:E; [|done]. destruct (String.eqb_spec (url_Host u') ""); [done|].
  intros [= ->]. by exists u.
Qed.

Lemma backends_kept h l :
  Forall (fun b => valid_upstream (hb_URL b) = true /\ TrimSpace (hb_URL b) = hb_URL b) l ->
  map br_raw (omap (backend_of h) l) = map hb_URL l /\
  Forall (fun b => sends (br_proxy b) (br_raw b) (h_InsecureTLS h)) (omap (backend_of h) l).
Proof.
  induction 1 as [|b l [Hv Ht] _ IH]; [done|].
  destruct (valid_upstream_url _ Hv Ht) as [u Hu].
  assert (Hs : exists name, backend_of h b = Some (mkbackendRoute name (hb_URL b) u (newReverseProxy u h (hb_URL b))))
    by (unfold backend_of; rewrite Ht, Hu; eauto).
  destruct Hs as [name Hs]. csimpl. rewrite Hs. csimpl. destruct IH as [-> IH]. split; [done|].
  constructor; [by apply new_sends|done].
Qed.

(** The routing columns of a row are what [validateRoutingInput] returned. *)
Definition accepted (upstream mode : string) (backends : list HABackend) (h : Host) : Prop :=
  validateRoutingInput upstream (h_HAEnabled h) mode backends = Ok (h_UpstreamURL h, h_HAMode h, h_HABackends h).

(** The route of a host sends to what was asked for, and to nothing else: to the
    upstream, or to each of the backends in their order, of which there are two at
    least, by the mode that was asked for, and then to the first without the others. *)
Definition routed (upstream : string) (tls ha : bool) (mode : string) (backends : list HABackend) (h : Host) (rt : routeEntry) : Prop :=
  re_host rt = h /\ exists rp, re_proxy rt = Some rp /\
  if ha then
    (h_HAEnabled h = true /\ h_HAMode h = or_default (norm mode) "failover" /\ (h_HAMode h = "failover" \/ h_HAMode h = "round_robin")) /\
    (2 <= length (re_backends rt))%nat /\ map br_raw (re_backends rt) = asked backends /\
    Forall (fun b => sends (br_proxy b) (br_raw b) tls) (re_backends rt) /\
    exists first, head (asked backends) = Some first /\ sends rp first tls
  else h_HAEnabled h = false /\ re_backends rt = [] /\ sends rp (TrimSpace upstream) tls.

Lemma accepted_mode upstream mode backends up m bs : validateRoutingInput upstream true mode backends = Ok (up, m, bs) ->
  m = or_default (norm mode) "failover" /\ map hb_URL bs = asked backends.
Proof.
  unfold validateRoutingInput. cbn [negb]. destruct (negb _ && negb _); [done|].
  destruct (ha_backends 0 ∅ backends) as [out|e] eqn:E; simpl; [|done]. apply ha_backends_urls in E.
  destruct out as [|b1 [|b2 out]]; [done..|]. by intros [= _ <- <-].
Qed.
Lemma accepted_upstream upstream mode backends up m bs : validateRoutingInput upstream false mode backends = Ok (up, m, bs) -> up = TrimSpace upstream.
Proof. unfold validateRoutingInput. cbn [negb]. destruct (valid_upstream upstream); [|done]. by intros [= <- _ _]. Qed.

Lemma accepted_routed upstream mode backends h : accepted upstream mode backends h -> h_State h = "active" \/ h_State h = "maintenance" ->
  exists rt, route_of h = Some rt /\ routed upstream (h_InsecureTLS h) (h_HAEnabled h) mode backends h rt.
Proof.
  intros Hok Hst. unfold accepted in Hok. pose proof Hok as Hcols. apply routing_input_ok in Hok as (Hv & Ht & Hha).
  destruct (valid_upstream_url _ Hv Ht) as [u Hu].
  exists (mkrouteEntry (Some (newReverseProxy u h (h_UpstreamURL h)))
            (if h_HAEnabled h then omap (backend_of h) (h_HABackends h) else []) h 0). split.
  { unfold route_of. rewrite Hu. by destruct Hst as [-> | ->]. }
  split; [done|]. eexists. split; [reflexivity|]. cbn [re_backends].
  destruct (h_HAEnabled h).
  - destruct Hha as (Hm & Hl & _ & Hhead & Hall). apply accepted_mode in Hcols as [Hmode Hurls].
    destruct (backends_kept h _ Hall) as [Hraw Hsends]. split_and!; [done|done|exact Hm| |by rewrite Hraw|exact Hsends|].
    + rewrite <- (length_map br_raw), Hraw, length_map. exact Hl.
    + exists (h_UpstreamURL h). split; [|by apply new_sends]. rewrite <- Hurls. by destruct (h_HABackends h).
  - destruct Hha as [_ _]. apply accepted_upstream in Hcols. split_and!; [done..|]. rewrite <- Hcols. by apply new_sends.
Qed.

(** A refresh gives a host its route, when no other host has its name. *)
Lemma refreshed hosts h rt : h ∈ hosts -> route_of h = Some rt ->
  (forall h', h' ∈ hosts -> ToLower (h_FQDN h') = ToLower (h_FQDN h) -> h' = h) ->
  fold_left add_route hosts ∅ !! ToLower (h_FQDN h) = Some rt.
Proof.
  intros Hin Hrt. induction hosts as [|x l IH] using rev_ind; [by apply elem_of_nil in Hin|]. intros Hone. rewrite fold_left_app. simpl.
  unfold add_route at 1. destruct (decide (ToLower (h_FQDN x) = ToLower (h_FQDN h))) as [E|E].
  - rewrite (Hone x) by (set_solver || exact E). rewrite Hrt. by rewrite lookup_insert_eq.
  - assert (Hl : h ∈ l) by (apply elem_of_app in Hin as [?|Hx%list_elem_of_singleton]; [done|congruence]).
    destruct (route_of x); [rewrite lookup_insert_ne by done|]; (apply IH; [done|]; intros h' Hh'; apply Hone; set_solver).
Qed.

(* ------------------------------------------------------------------ *)
(** ** Creating a host *)

(** The columns a change of state leaves alone. *)
Definition same_columns (h h' : Host) : Prop :=
  h_ID h' = h_ID h /\ h_DomainID h' = h_DomainID h /\ h_FQDN h' = h_FQDN h /\ h_UpstreamURL h' = h_UpstreamURL h /\
  h_InsecureTLS h' = h_InsecureTLS h /\ h_HAEnabled h' = h_HAEnabled h /\ h_HAMode h' = h_HAMode h /\ h_HABackends h' = h_HABackends h.

Definition row_like (h : Host) (db : DB) : Prop := exists h', t_hosts db !! h_ID h = Some h' /\ same_columns h h'.

Lemma set_state_row h id to reason : keeps (inv (row_like h)) (SetHostState id to reason).
Proof.
  intros e (h' & Hh & Hc). pose proof (wp_apply _ _ _ (set_state_wp id to reason e)) as (_ & _ & Hrow & _).
  destruct Hrow as [E|(h0 & H0 & _ & E)]; unfold row_like; rewrite E; [by exists h'|].
  destruct (decide (id = h_ID h)) as [->|Hne]; [|rewrite lookup_insert_ne; [by exists h'|done]].
  rewrite lookup_insert_eq. eexists. split; [done|]. simplify_eq. exact Hc.
Qed.

Lemma onward_row h {A} (m : AM A) : keeps onward m -> keeps (on_env (inv (row_like h))) m.
Proof. intros Hm s (h' & Hh & Hc). destruct (Hm s) as (_ & E & _). exists h'. by rewrite E. Qed.

Lemma create_row_wp d sub fqdn prof up tls ha mode backs e :
  wp (StoreHosts.CreateHost d sub fqdn prof up tls ha mode backs)
     (fun r e' => forall h, r = Ok h -> row_like h (e_db e') /\
        h_FQDN h = fqdn /\ h_UpstreamURL h = up /\ h_InsecureTLS h = tls /\ h_HAEnabled h = ha /\ h_HAMode h = mode /\ h_HABackends h = backs) e.
Proof.
  unfold StoreHosts.CreateHost. apply wp_bind, wp_gets. cbv beta. apply wp_bind, wp_exec_checked; intros fs; [done| |done].
  intros _. cbv beta. apply wp_bind, wp_gets. cbv beta. unfold transitionHostState.
  apply wp_bind. apply wp_bind, wp_gets, wp_exec_checked; intros fs'; [done| |done]. intros _.
  unfold GetHostByID. apply wp_query_row; intros fs''; [done| |done]. intros h Hh _ [= <-].
  simpl in Hh. rewrite (lookup_insert_eq (t_sqlite_sequence (e_db e))) in Hh. simpl in Hh. rewrite lookup_insert_eq in Hh.
  injection Hh as <-. split; [|done]. eexists. simpl. split; [apply lookup_insert_eq|done].
Qed.

(** The DNS steps write no host row. *)
Section dns_steps.
Context (dns : option Provider) (detect : result string).
Local Abbreviation keeps_hosts := (keeps (on_env (same t_hosts))).

Lemma hosts_call {A} c (answer : list DnsCall -> result A) : keeps_hosts (dns_call c answer).
Proof. by intros s. Qed.

Lemma hosts_zone d : keeps_hosts (ensureDomainZoneID dns d).
Proof.
  unfold ensureDomainZoneID, resolveCloudflareZoneID.
  keeps_tac; try typeclasses eauto; try apply hosts_call. apply keeps_db.
  unfold StoreHosts.UpsertDomain, Now, GetDomainByName. keeps_tac; try typeclasses eauto; [|apply keeps_query_row].
  apply keeps_exec. intros db. by destruct (domain_by_name _ db).
Qed.

Lemma hosts_records d : keeps_hosts (update_domain_records dns d).
Proof.
  unfold update_domain_records. keeps_tac; try typeclasses eauto; try apply hosts_call; [apply hosts_zone|].
  apply keeps_db. unfold ListHostsByDomainID. apply keeps_query.
Qed.

Lemma hosts_UpdatePublicIP ip : keeps_hosts (UpdatePublicIP dns ip).
Proof.
  unfold UpdatePublicIP. keeps_tac; try typeclasses eauto.
  - by apply keeps_svc; [typeclasses eauto|].
  - apply keeps_db. unfold StoreHosts.ListDomains. apply keeps_query.
  - apply hosts_records.
Qed.

Lemma hosts_setting key v : keeps (same t_hosts) (SetSetting key v).
Proof. unfold SetSetting. keeps_db. Qed.
Lemma hosts_get_setting key : keeps (same t_hosts) (GetSetting key).
Proof. unfold GetSetting. keeps_db. Qed.

Lemma hosts_public_ip : keeps_hosts (ensurePublicIPv4 dns detect).
Proof.
  unfold ensurePublicIPv4, currentPublicIPv4. keeps_tac; try typeclasses eauto; try apply hosts_UpdatePublicIP;
    try (by apply keeps_svc; [typeclasses eauto|]); apply keeps_db; apply hosts_setting || apply hosts_get_setting.
Qed.

Lemma row_of_hosts h {A} (m : AM A) : keeps_hosts m -> keeps (on_env (inv (row_like h))) m.
Proof. apply keeps_weaken. intros s s' [E _] (h' & Hh & Hc). exists h'. by rewrite E. Qed.

Lemma row_dns_or_error h id {A} reason (m : AM A) :
  keeps_hosts m -> keeps (on_env (inv (row_like h))) (dns_or_error id reason m).
Proof.
  intros Hm. unfold dns_or_error. keeps_tac; try typeclasses eauto; [by apply row_of_hosts|].
  apply keeps_db, set_state_row.
Qed.

Context (domainName subdomain profile upstream : string) (tls ha : bool) (mode : string) (backends : list HABackend).
Local Abbreviation create := (CreateHost dns detect domainName subdomain profile upstream tls ha mode backends).

Lemma create_wp s :
  wp create (fun r s' => forall h, r = Ok h -> t_hosts (e_db (s_env s')) !! h_ID h = Some h /\ h_State h = "active" /\
     accepted (TrimSpace upstream) mode backends h /\ h_InsecureTLS h = tls /\ h_HAEnabled h = ha /\ exists d, domain_by_name (ToLower domainName) (e_db (s_env s)) = Some d /\
     h_FQDN h = ToLower subdomain +:+ "." +:+ d_Name d) s.
Proof.
  unfold CreateHost. apply db_bind. unfold GetDomainByName. apply wp_query_row; intros fs; [done| |done]. intros d Hd.
  apply wp_bind, wp_fail_if; intros Hsub; [done|]. cbv zeta.
  destruct (validateRoutingInput (TrimSpace upstream) ha mode backends) as [[[up m] bs]|x] eqn:Hv; [|done].
  apply wp_bind. unfold lift, wp at 1. cbv beta iota. apply db_bind.
  eapply wp_mono; [apply create_row_wp|]. intros [h0|x] e1 H0; [|done]. cbv beta iota.
  destruct (H0 h0 eq_refl) as (Hrow & Hf & Hu & Htls & Hha & Hm & Hbs). clear H0.
  set (Q := fun (r : result Host) s' => _).
  assert (Hlast : forall s2, row_like h0 (e_db (s_env s2)) ->
    wp (db (SetHostState (h_ID h0) "cert_pending" "dns_ok") ≫= fun _ =>
        db (SetHostState (h_ID h0) "active" "cert_manager_async") ≫= fun _ => db (GetHostByID (h_ID h0))) Q s2).
  { intros s2 Hr2. apply db_bind. eapply wp_keeps; [apply (set_state_row h0)|]. intros [[]|x] e2 Hr; [|done].
    specialize (Hr Hr2). apply db_bind. eapply wp_mono; [apply wp_and; [apply set_state_wp|apply keeps_wp, (set_state_row h0)]|].
    intros [[]|x] e3 [(_ & _ & _ & H3) H4]; [|done]. specialize (H4 Hr). destruct (H3 eq_refl) as (hx & _ & _ & E3).
    apply wp_db. unfold GetHostByID. apply wp_query_row; intros fs'; [done| |done]. intros h Hh h' [= <-].
    cbn [s_env upd_field e_db] in *. destruct H4 as (h4 & Hh4 & C1 & C2 & C3 & C4 & C0 & C5 & C6 & C7). simpl in Hh.
    assert (h4 = h) as -> by congruence. split_and!.
    - by rewrite C1.
    - rewrite E3, lookup_insert_eq in Hh. by injection Hh as <-.
    - unfold accepted. rewrite C4, C5, C6, C7, Hu, Hha, Hm, Hbs. exact Hv.
    - congruence.
    - congruence.
    - exists d. split; [done|]. congruence. }
  apply db_bind. eapply wp_keeps; [apply (set_state_row h0)|]. intros [[]|x] e2 Hr; [|done]. specialize (Hr Hrow).
  apply wp_bind. apply (wp_keeps (on_env (inv (row_like h0)))); [|intros [[]|x] s3 H3; [apply Hlast, H3, Hr|done]].
  destruct (managed_by dns d) as [p|]; [|keeps_tac; typeclasses eauto].
  apply keeps_bind; [typeclasses eauto|apply row_dns_or_error, hosts_zone|intros zone].
  apply keeps_bind; [typeclasses eauto|apply row_dns_or_error, hosts_public_ip|intros ip].
  apply keeps_bind; [typeclasses eauto|apply row_dns_or_error, hosts_call|intros []].
  apply row_dns_or_error, hosts_call.
Qed.

(** C31. A host the service reports as created is active, stored, and named by its label
    and its domain; and the edge has a route for it, also after every refresh unless
    another host has its name.  Without high availability the route proxies to the
    upstream that was asked for and to nothing else.  With it, the route has the mode
    that was asked for and a backend for each URL of the request, once and in their order,
    two at least, each of which proxies to that URL, and its upstream is the first of them.
    A certificate is left unchecked only over https and where the request says so. *)
Theorem created_host_is_routed s h s' :
  create s = (Ok h, s') ->
  t_hosts (e_db (s_env s')) !! h_ID h = Some h /\ h_State h = "active" /\
  (exists d, domain_by_name (ToLower domainName) (e_db (s_env s)) = Some d /\ h_FQDN h = ToLower subdomain +:+ "." +:+ d_Name d) /\
  exists rt, route_of h = Some rt /\ routed upstream tls ha mode backends h rt /\
    forall hosts, h ∈ hosts -> (forall h', h' ∈ hosts -> ToLower (h_FQDN h') = ToLower (h_FQDN h) -> h' = h) ->
      fold_left add_route hosts ∅ !! ToLower (h_FQDN h) = Some rt.
Proof.
  intros Hrun. destruct (wp_run _ _ _ _ _ (create_wp s) Hrun h eq_refl) as (H1 & H2 & H3 & Htls & Hha & H4).
  split_and!; [done..|]. destruct (accepted_routed _ _ _ _ H3 (or_introl H2)) as (rt & Hrt & Hr). exists rt.
  rewrite Htls, Hha in Hr. unfold routed in *. rewrite TrimSpace_idem in Hr. split; [done|]. split; [exact Hr|].
  intros hosts Hin. by apply refreshed.
Qed.
End dns_steps.

(* ------------------------------------------------------------------ *)
(** ** Host columns the edge decides by *)

(** An update of a row followed by its reading. *)
Lemma update_then_get id f s :
  wp (update_host id f ≫= fun _ => GetHostByID id) (fun r e' => forall h, r = Ok h -> exists h0,
    t_hosts (e_db s) !! id = Some h0 /\ h = (f h0) <| h_UpdatedAt := e_now s |> /\ t_hosts (e_db e') !! id = Some h) s.
Proof.
  unfold update_host, GetHostByID. apply wp_bind. apply wp_bind, wp_gets, wp_exec; intros fs; [done|]. cbv beta iota.
  apply wp_query_row; intros fs'; [done| |done]. intros h Hh h' [= <-]. simpl in Hh.
  rewrite lookup_alter_eq in Hh. destruct (t_hosts (e_db s) !! id) as [h0|] eqn:E; [|done]. injection Hh as <-.
  exists h0. split_and!; [done..|]. simpl. by rewrite lookup_alter_eq, E.
Qed.

Lemma country_text c : is_country c = true -> TrimSpace c = c /\ ToUpper c = c /\ len c = 2 /\ lacks ","%char c.
Proof.
  destruct c as [|a [|b [|]]]; try done. cbn [is_country]. intros [Ha Hb]%andb_prop.
  assert (Hall : forall c, is_upper c = true -> (is_space c = false /\ upper_byte c = c) /\ Ascii.eqb c ","%char = false).
  { intros c Hc. assert (H : forallb (fun c => negb (is_upper c) || (negb (is_space c) && Ascii.eqb (upper_byte c) c && negb (Ascii.eqb c ","%char))) all_bytes = true)
      by (vm_compute; reflexivity).
    rewrite forallb_forall in H. specialize (H c (proj1 (list_elem_of_In _ _) (elem_of_all_bytes c))). rewrite Hc in H. simpl in H.
    bool_facts. split; [split; [done|by apply Ascii.eqb_eq]|done]. }
  destruct (Hall a Ha) as [[Sa Ua] Ca]. destruct (Hall b Hb) as [[Sb Ub] Cb]. split_and!; [| |done|].
  - apply TrimSpace_all. simpl. by rewrite Sa, Sb.
  - unfold ToUpper. simpl. by rewrite Ua, Ub.
  - apply lacks_cons. split; [done|]. apply lacks_cons. by split.
Qed.

Definition lists_country (c : string) (countries : list string) : bool :=
  existsb (fun x => String.eqb (ToUpper (TrimSpace x)) c) countries.

Lemma lists_country_spec c l : lists_country c l = true <-> exists x, x ∈ l /\ ToUpper (TrimSpace x) = c.
Proof.
  unfold lists_country. rewrite existsb_exists. split; intros (x & Hx & E); exists x.
  - split; [by apply list_elem_of_In|by apply String.eqb_eq].
  - split; [by apply list_elem_of_In|by apply String.eqb_eq].
Qed.

(** Country codes pass through the column unchanged. *)
Lemma stored_countries out : Forall (fun c => is_country c = true) out -> decodeCSV (encodeCSV out) = out.
Proof.
  intros Hall. rewrite csv_decoded.
  - induction Hall as [|c l Hc _ IH]; [done|]. simpl. destruct (country_text c Hc) as (-> & _ & Hl & _).
    unfold nonempty at 1. destruct c; [done|]. simpl. by f_equal.
  - eapply Forall_impl; [exact Hall|]. intros c Hc. by destruct (country_text c Hc) as (_ & _ & _ & ?).
Qed.

Lemma country_set_stored h : Forall (fun c => is_country c = true) (h_GeoCountries h) ->
  forall c, c ∈ country_set h <-> c ∈ h_GeoCountries h.
Proof.
  intros Hall c. unfold country_set. rewrite elem_of_list_to_set, list_elem_of_In, filter_In, <- list_elem_of_In, list_elem_of_fmap.
  rewrite Forall_forall in Hall. split.
  - intros ((x & -> & Hx) & _). destruct (country_text x (Hall x Hx)) as (-> & -> & _). done.
  - intros Hc. destruct (country_text c (Hall c Hc)) as (E1 & E2 & E3 & _). split; [exists c; by rewrite E1, E2|].
    rewrite E3. done.
Qed.

(** C32. A country policy means at the edge what the client asked of the service:
    after it was set, a request from a country is denied exactly when the policy
    allows other countries only, or denies this one, however the codes were
    spelled; "off" denies nobody. *)
Theorem country_policy_enforced id mode countries s h s' c :
  SetHostGeoPolicy id mode countries s = (Ok h, s') -> is_country c = true ->
  (isGeoBlocked c h).1 =
    (if String.eqb (norm mode) "allow" then negb (lists_country c countries)
     else String.eqb (norm mode) "deny" && lists_country c countries).
Proof.
  intros Hrun Hc.
  assert (Hwp : wp (SetHostGeoPolicy id mode countries) (fun r _ => forall h, r = Ok h -> exists m out,
    normalizeHostGeoPolicy mode countries = Ok (m, out) /\ h_GeoMode h = m /\ h_GeoCountries h = decodeCSV (encodeCSV out)) s).
  { unfold SetHostGeoPolicy. apply wp_db. unfold GetHostByID at 1. apply wp_bind, wp_query_row; intros fs; [done| |done].
    intros _ _. cbv beta iota. destruct (normalizeHostGeoPolicy mode countries) as [[m out]|x]; [|done].
    apply wp_bind. unfold lift, wp at 1. cbv beta iota. eapply wp_mono; [apply update_then_get|].
    intros r e' Hr h' E. destruct (Hr h' E) as (h0 & _ & -> & _). by exists m, out. }
  destruct (wp_run _ _ _ _ _ Hwp Hrun h eq_refl) as (m & out & Hn & Hm & Hg). clear Hwp Hrun.
  pose proof Hn as Hmode. apply geo_policy_ok in Hn as [[-> ->]|(Ham & Hne & Hnd & Hall & Hin)].
  - unfold isGeoBlocked. rewrite Hm. simpl. unfold normalizeHostGeoPolicy in Hmode.
    destruct ((norm mode =? "")%string || (norm mode =? "off")%string) eqn:E.
    + apply orb_prop in E as [E|E]; apply String.eqb_eq in E; by rewrite E.
    + destruct (negb (norm mode =? "allow")%string && _); [done|].
      destruct (country_loop ∅ countries) as [[|]|]; simpl in Hmode; done.
  - assert (Em : norm mode = m).
    { unfold normalizeHostGeoPolicy in Hmode. destruct (_ || _); [injection Hmode as <- <-; by destruct Ham|].
      destruct (negb (norm mode =? "allow")%string && _); [done|].
      destruct (country_loop ∅ countries) as [[|]|]; simpl in Hmode; congruence. }
    rewrite stored_countries in Hg by done. rewrite Em. unfold isGeoBlocked. rewrite Hm.
    assert (Hset : forall x, x ∈ country_set h <-> x ∈ out) by (intros x; rewrite <- Hg; apply country_set_stored; by rewrite Hg).
    assert (Hne' : bool_decide (country_set h = ∅) = false).
    { apply bool_decide_eq_false_2. intros E. destruct out as [|x out]; [done|]. specialize (Hset x). rewrite E in Hset. set_solver. }
    assert (Hl : c <> "LOCAL") by by destruct c as [|? [|? [|? ?]]].
    assert (Hb : bool_decide (c ∈ country_set h) = lists_country c countries).
    { destruct (lists_country c countries) eqn:El.
      - apply bool_decide_eq_true_2, Hset, Hin. split; [by destruct c|]. by apply lists_country_spec.
      - apply bool_decide_eq_false_2. intros Hx%Hset%Hin. destruct Hx as [_ Hx%lists_country_spec]. congruence. }
    apply String.eqb_neq in Hl. destruct Ham as [-> | ->]; cbn -[bool_decide country_set]; by rewrite Hne', Hl, Hb.
Qed.

Definition edge_demo : Svc := new_svc (clean demo_db 1000) None.

Lemma country_policy_enforced_witness :
  exists h s', SetHostGeoPolicy 1 " Deny" ["us"; "RU "; "ru"] edge_demo = (Ok h, s') /\
    (isGeoBlocked "RU" h).1 = true /\ (isGeoBlocked "DE" h).1 = false.
Proof.
  destruct (SetHostGeoPolicy 1 " Deny" ["us"; "RU "; "ru"] edge_demo) as [r s'] eqn:E.
  assert (Hr : exists h, r = Ok h).
  { assert (Hok : is_ok (SetHostGeoPolicy 1 " Deny" ["us"; "RU "; "ru"] edge_demo).1 = true) by (vm_compute; reflexivity).
    rewrite E in Hok. simpl in Hok. destruct r as [h|]; [by exists h|done]. }
  destruct Hr as [h ->]. exists h, s'. split; [done|]. split.
  - rewrite (country_policy_enforced 1 " Deny" ["us"; "RU "; "ru"] edge_demo h s' "RU" E eq_refl). reflexivity.
  - rewrite (country_policy_enforced 1 " Deny" ["us"; "RU "; "ru"] edge_demo h s' "DE" E eq_refl). reflexivity.
Defined.

Definition two_backends : list HABackend := [mkHABackend "" " http://10.0.0.2:8080"; mkHABackend "b" "https://10.0.0.3"].

Lemma created_host_is_routed_witness :
  exists h s', CreateHost None (Err ErrNoRows) "Example.org" "Api" "" "" false true "" two_backends edge_demo = (Ok h, s') /\
    h_FQDN h = "api.example.org" /\
    exists rt, route_of h = Some rt /\ map br_raw (re_backends rt) = ["http://10.0.0.2:8080"; "https://10.0.0.3"].
Proof.
  destruct (CreateHost None (Err ErrNoRows) "Example.org" "Api" "" "" false true "" two_backends edge_demo) as [r s'] eqn:E.
  assert (Hr : exists h, r = Ok h).
  { assert (Hok : is_ok (CreateHost None (Err ErrNoRows) "Example.org" "Api" "" "" false true "" two_backends edge_demo).1 = true)
      by (vm_compute; reflexivity).
    rewrite E in Hok. simpl in Hok. destruct r as [h|]; [by exists h|done]. }
  destruct Hr as [h ->]. exists h, s'. split; [done|].
  destruct (created_host_is_routed None (Err ErrNoRows) "Example.org" "Api" "" "" false true "" two_backends edge_demo h s' E)
    as (_ & _ & (d & Hd & Hf) & (rt & Hrt & (_ & rp & _ & _ & _ & Hurls & _) & _)).
  split; [|exists rt; split; [exact Hrt|exact Hurls]]. rewrite Hf.
  assert (Hn : d_Name <$> domain_by_name (ToLower "Example.org") (e_db (s_env edge_demo)) = Some "example.org") by (vm_compute; reflexivity).
  rewrite Hd in Hn. injection Hn as ->. reflexivity.
Defined.

(* ------------------------------------------------------------------ *)
(** ** The login of a protected host *)

Lemma host_auth_wp IDKey id username password s :
  TrimSpace password <> "" ->
  wp (SetHostAuth IDKey id true username password) (fun r s' => forall h, r = Ok h ->
    t_hosts (e_db (s_env s')) !! id = Some h /\ h_AuthEnabled h = true /\ h_AuthUser h = TrimSpace username /\
    8 <= len password /\ exists salt, is_bytes salt /\ h_AuthPassHash h = HashPassword IDKey password salt DefaultArgonConfig) s.
Proof.
  intros Hp. unfold SetHostAuth. apply db_bind. unfold GetHostByID at 1. apply wp_query_row; intros fs; [done| |done].
  intros h0 _. cbn [negb]. cbv zeta. apply wp_bind, wp_fail_if; intros Hu; [done|].
  rewrite (proj2 (String.eqb_neq _ _) Hp). cbn [negb]. apply wp_bind, wp_bind, wp_fail_if; intros Hl; [done|].
  apply wp_hash; [|done]. intros e' salt Hs _. apply wp_bind, wp_fail_if; intros He; [done|].
  assert (Hrun : forall k : unit -> SM Host, forall s, (db (UpdateHostAuth id true (TrimSpace username)
      (HashPassword IDKey password salt DefaultArgonConfig)) ≫= fun _ => db (GetHostByID id)) s =
    db (UpdateHostAuth id true (TrimSpace username) (HashPassword IDKey password salt DefaultArgonConfig) ≫= fun _ => GetHostByID id) s).
  { intros _ s0. unfold db, zoom, mbind, M_bind. destruct (UpdateHostAuth _ _ _ _ (s_env s0)) as [[[]|x] e1]; [|done]. simpl.
    destruct (GetHostByID id e1) as [r e2]. by destruct s0. }
  unfold wp. rewrite (Hrun (fun _ => fail ErrNoRows)). apply wp_db. eapply wp_mono; [apply update_then_get|].
  intros r e2 Hr h E. destruct (Hr h E) as (h1 & _ & -> & Hrow). split_and!; [exact Hrow|done|done|lia|].
  by exists salt.
Qed.

Section edge_login.
Context {S : Type} `{HostSource S} {IDKey : bytes -> bytes -> Z -> Z -> Z -> Z -> bytes} `{!KeyDerivation IDKey}.

(** The login form of a host opens for the credentials the service was given
    and for no others: with the right name (in any case, surrounded by spaces) and
    password the edge opens a session bound to the host; with another name, or
    with a password that derives another key, it shows the form again and opens
    none. *)
Theorem host_login_matches id username password s h s' r (e : Engine) :
  TrimSpace password <> "" -> SetHostAuth IDKey id true username password s = (Ok h, s') -> rq_Form r <> None ->
  exists salt, is_bytes salt /\
    ((EqualFold (TrimSpace (form_value r "username")) (TrimSpace username) = true -> form_value r "password" = password ->
      g_rand e <> [] -> exists token,
      handleHostAuthLogin (S := S) IDKey h r e =
        (Ok (LoggedIn (normalizeNext (form_value r "next")) token (rq_TLS r)),
         e <| g_rand := tail (g_rand e) |>
           <| g_auth ::= <[token := mkauthSession (ToLower (h_FQDN h)) (Add (g_now e) hostAuthTTL)]> |>)) /\
     (EqualFold (TrimSpace (form_value r "username")) (TrimSpace username) = false \/
      derived (IDKey := IDKey) salt (form_value r "password") <> derived (IDKey := IDKey) salt password ->
      handleHostAuthLogin (S := S) IDKey h r e = (Ok (login_page h r "invalid credentials"), e))).
Proof.
  intros Hp Hrun Hform. destruct (wp_run _ _ _ _ _ (host_auth_wp IDKey id username password s Hp) Hrun h eq_refl)
    as (_ & _ & Hu & _ & salt & Hsalt & Hh).
  exists salt. split; [done|]. unfold handleHostAuthLogin. destruct (rq_Form r); [|done].
  cbv zeta. rewrite Hu, Hh, TrimSpace_idem, default_hash_check by done. split.
  - intros -> -> Hr. rewrite bool_decide_eq_true_2 by done. cbn [negb orb]. unfold randomToken, draw, mbind, M_bind.
    destruct (g_rand e) as [|b l] eqn:Eb; [done|]. eexists. simpl. by destruct e.
  - intros Hbad. assert (E : negb (EqualFold (TrimSpace (form_value r "username")) (TrimSpace username)) ||
        negb (bool_decide (derived (IDKey := IDKey) salt (form_value r "password") = derived (IDKey := IDKey) salt password)) = true).
    { destruct Hbad as [-> | Hd]; [done|]. rewrite (bool_decide_eq_false_2 _ Hd). apply orb_true_r. }
    by rewrite E.
Qed.
End edge_login.

Definition salted_demo : Svc := new_svc (mkEnv demo_db 1000 [] ["0123456789abcdef"]) None.
Definition form_login (password : string) : Request :=
  mkRequest "198.51.100.7:4000" "app.example.org" "POST" hostAuthPathLogin hostAuthPathLogin ∅ ∅
    (Some {["username" := " BOB "; "password" := password]}) true 0.
Definition login_engine : Engine :=
  New salted_demo (100 * Hour) ["token-bytes"] (GeoIp.New "" "" (fun _ _ => None) Hour 0) None None [].

Lemma host_login_matches_witness :
  exists h s', SetHostAuth toy_derivation 1 true "bob " "hunter22" salted_demo = (Ok h, s') /\
    (exists token e', handleHostAuthLogin toy_derivation h (form_login "hunter22") login_engine = (Ok (LoggedIn "/" token true), e')) /\
    handleHostAuthLogin toy_derivation h (form_login "hunter23") login_engine =
      (Ok (login_page h (form_login "hunter23") "invalid credentials"), login_engine).
Proof.
  destruct (SetHostAuth toy_derivation 1 true "bob " "hunter22" salted_demo) as [r s'] eqn:E.
  assert (Hr : exists h, r = Ok h).
  { assert (Hok : is_ok (SetHostAuth toy_derivation 1 true "bob " "hunter22" salted_demo).1 = true) by (vm_compute; reflexivity).
    rewrite E in Hok. simpl in Hok. destruct r as [h|]; [by exists h|done]. }
  destruct Hr as [h ->]. exists h, s'. split; [reflexivity|].
  assert (Hp : TrimSpace "hunter22" <> "") by (vm_compute; discriminate). split.
  - destruct (host_login_matches 1 "bob " "hunter22" salted_demo h s' (form_login "hunter22") login_engine Hp E) as
      (salt & _ & Hgood & _); [discriminate|].
    destruct Hgood as [token Hlogin]; [vm_compute; reflexivity|reflexivity|discriminate|].
    exists token. eexists. exact Hlogin.
  - destruct (host_login_matches 1 "bob " "hunter22" salted_demo h s' (form_login "hunter23") login_engine Hp E) as
      (salt & _ & _ & Hbad); [discriminate|].
    apply Hbad. right. intros Hd. apply (f_equal (fun l => nth 7 l 0)) in Hd. vm_compute in Hd. discriminate.
Defined.
