(* ===== verification/EdgeTheorems.v ===== *)
(** What the edge promises, request by request, whatever control plane keeps the
    laws of [HostSourceLaws]; the witnesses run the handler on the service. *)

From S2P Require Import Prelude GoString GoMonad GoTime GoNet GoUrl GeoIp GoCrypto Crypto NetUtil Model StoreDB.
From S2P Require Import Traffic Service ProxyCore Proxy ProxySafety ProxySource.

Section edge.
Context {S : Type} `{HostSourceLaws S}.
Context (env_MMDBS env_MMDB : string) (open : time -> string -> option Reader).
Context (http_get : string -> option (Z * option answer)).
Context (IDKey : bytes -> bytes -> Z -> Z -> Z -> Z -> bytes).
Context (reachable : string -> bool).
Context (roundtrip : ReverseProxy -> Request -> (Z * Z * string) + string).
Context (page_bytes : outcome -> Z).

Local Abbreviation Eng := (@Engine S).
Local Abbreviation Handler := (Handler env_MMDBS env_MMDB open http_get IDKey reachable roundtrip page_bytes).
Local Abbreviation pipeline := (pipeline env_MMDBS env_MMDB open http_get IDKey reachable roundtrip).
Local Abbreviation quiet := (quiet env_MMDBS env_MMDB open http_get).
Local Abbreviation wp_trace := (wp_trace env_MMDBS env_MMDB open http_get).
Local Abbreviation wp_audit := (wp_audit env_MMDBS env_MMDB open http_get).
Local Abbreviation wp_quiet := (wp_quiet env_MMDBS env_MMDB open http_get).
Local Abbreviation quiet_src := (quiet_src env_MMDBS env_MMDB open http_get).
Local Abbreviation quiet_trace := (quiet_trace env_MMDBS env_MMDB open http_get).
Local Abbreviation quiet_audit := (quiet_audit env_MMDBS env_MMDB open http_get).
Local Abbreviation quiet_draw := (quiet_draw env_MMDBS env_MMDB open http_get).
Local Abbreviation quiet_randomHex := (quiet_randomHex env_MMDBS env_MMDB open http_get).
Local Abbreviation wp_finish := (wp_finish env_MMDBS env_MMDB open http_get page_bytes).
Local Abbreviation flow_of_at := (flow_of_at env_MMDBS env_MMDB open http_get).
Local Abbreviation ingress_wp := (ingress_wp env_MMDBS env_MMDB open http_get).
Local Abbreviation handler_judged := (handler_judged env_MMDBS env_MMDB open http_get IDKey reachable roundtrip page_bytes).
Local Abbreviation logo_quiet := (logo_quiet env_MMDBS env_MMDB open http_get IDKey reachable roundtrip page_bytes).
Local Abbreviation block_list_guards := (block_list_guards env_MMDBS env_MMDB open http_get).
Local Abbreviation threats_guard := (threats_guard env_MMDBS env_MMDB open http_get).
Local Abbreviation flood_guards := (flood_guards env_MMDBS env_MMDB open http_get).
Local Abbreviation state_guards := (state_guards env_MMDBS env_MMDB open http_get).
Local Abbreviation country_guards := (country_guards env_MMDBS env_MMDB open http_get).
Local Abbreviation country_seen := (country_seen env_MMDBS env_MMDB open http_get).

(* ------------------------------------------------------------------ *)
(** ** The block list *)

Lemma block_list_drops ip0 r fl e : healthy (g_src e) -> listed (g_src e) (fl_clientIP fl) ->
  wp (check_block_list r fl) (fun res e' => quiet ip0 e e' /\ exists fl', res = Ok (Some Dropped, fl') /\ fl_clientIP fl' = fl_clientIP fl) e.
Proof.
  intros Hh Hl. unfold check_block_list. apply wp_bind, wp_try.
  destruct (lookup_answer (fl_clientIP fl) (g_src e) Hh) as (b & Hb & Hiff). rewrite (proj2 Hiff Hl) in Hb.
  pose proof (quiet_src ip0 (IsIPBlocked (fl_clientIP fl)) (lookup_step _) e) as Hq.
  assert (Ha : (src (IsIPBlocked (fl_clientIP fl)) e).1 = Ok true).
  { unfold src, zoom. by destruct (IsIPBlocked (fl_clientIP fl) (g_src e)). }
  unfold wp at 1. destruct (src (IsIPBlocked (fl_clientIP fl)) e) as [x e1]. simpl in Ha, Hq. subst x.
  apply wp_bind, (wp_trace ip0). intros e2 H2. apply wp_bind, (wp_audit ip0). intros e3 H3. apply wp_ret.
  split; [do 2 (etransitivity; [eassumption|]); done|by eexists].
Qed.

Lemma blocked_again ip0 r (e : Eng) :
  ip0 = ClientIP r (g_trusted e) -> healthy (g_src e) -> listed (g_src e) ip0 -> rq_Path r <> edgeLogoPath ->
  (Handler r e).1 = Ok Dropped /\ listed (g_src (Handler r e).2) ip0 /\ quiet ip0 e (Handler r e).2.
Proof.
  intros Hip0 Hh Hl Hp%String.eqb_neq. assert (Hmain : (Handler r e).1 = Ok Dropped /\ quiet ip0 e (Handler r e).2).
  2: { destruct Hmain as [H1 H2]. split; [done|]. split; [|done]. destruct H2 as (_ & _ & _ & Hs). by apply Hs. }
  apply (wp_apply (Handler r) (fun res e' => res = Ok Dropped /\ quiet ip0 e e')). unfold Proxy.Handler. rewrite Hp.
  apply wp_bind, (wp_quiet ip0); [apply quiet_randomHex|apply randomHex_ok|]. intros traceID e1 H1.
  apply wp_bind. eapply wp_mono; [apply (ingress_wp ip0)|]. intros res e2 (H2 & fl & -> & Hfl).
  assert (H02 : quiet ip0 e e2) by (by etransitivity).
  apply (flow_of_at ip0 _ _ _ _ H1) in Hfl as [_ _ Hip _].
  apply wp_bind, wp_gets, wp_bind, wp_gets, wp_bind, wp_gets, wp_bind. unfold Proxy.pipeline. apply wp_then.
  assert (Hs := H02). destruct Hs as (_ & _ & _ & Hs). destruct (Hs Hh) as [Hh2 Hl2].
  eapply wp_mono; [apply block_list_drops; [done|rewrite Hip, <- Hip0; by apply Hl2]|].
  intros res e3 (H3 & fl' & -> & Hfl'). apply wp_bind, (wp_finish ip0); [left; congruence|]. intros e4 H4. apply wp_ret.
  split; [done|]. etransitivity; [exact H02|]. by etransitivity.
Qed.

(** A source on the block list is turned away before anything else: as long as
    the database answers, every request but one for the logo has its connection
    closed without an answer, and neither the sessions, nor the flood guard, nor
    the routes change. *)
Theorem blocked_source_dropped r (e : Eng) :
  healthy (g_src e) -> listed (g_src e) (ClientIP r (g_trusted e)) -> rq_Path r <> edgeLogoPath ->
  (Handler r e).1 = Ok Dropped /\ quiet (ClientIP r (g_trusted e)) e (Handler r e).2.
Proof. intros H1 H2 H3. by destruct (blocked_again _ r e eq_refl H1 H2 H3) as (? & _ & ?). Qed.

(* ------------------------------------------------------------------ *)
(** ** What a backend sees *)

(** C1. A request reaches a backend only with every right to: its host is routed
    to that backend and is not a bastion name; it is not disabled, and when in
    maintenance the request comes from the local network; its country, the one a
    trusted proxy names or else the one the engine's own resolver answers for the
    source at that instant, passes the host's policy; on a protected host it carries a
    session of that host that has not expired; its source is under no flood block; and, when the database
    answers, is not on the block list.  And the handler always answers. *)
Theorem served_is_allowed r (e : Eng) :
  exists o, (Handler r e).1 = Ok o /\
  forall rp status bytes edge, o = Served rp status bytes edge ->
  let host := normalizeHostHeader (rq_RHost r) in
  let ip := ClientIP r (g_trusted e) in
  (exists rt, g_routes e !! host = Some rt /\ proxy_of rt rp /\ (host ∉ g_bastion e) /\
     (h_State (re_host rt) <> "disabled") /\
     (h_State (re_host rt) = "maintenance" -> isLANClient ip (g_publicIP e) = true) /\
     (isGeoBlocked (country_seen ip r e) (re_host rt)).1 = false /\
     (h_AuthEnabled (re_host rt) = true -> exists token s, cookie_of r = Some token /\ g_auth e !! token = Some s /\
        as_host s = host /\ g_now e <= as_expiresAt s)) /\
  (ip <> "" -> isLANClient ip (g_publicIP e) = false ->
     forall until : time, wafBlock (g_waf e) !! ip = Some until -> until <= g_now e) /\
  (healthy (g_src e) -> ~ listed (g_src e) ip).
Proof.
  destruct (decide (rq_Path r = edgeLogoPath)) as [Hp|Hp].
  { exists Logo. split; [|done]. by apply (logo_quiet ""). }
  pose proof (wp_apply _ _ _ (handler_judged (ClientIP r (g_trusted e)) r e eq_refl Hp))
    as (o & fl & Ho & [Hhost Hroute Hip Hpub] & [_ Hserved _ _]).
  exists o. split; [done|]. intros rp status bytes edge Hs. cbv zeta.
  destruct (Hserved _ _ _ _ Hs) as [Hun Hflood (rt & Hrt & Hpx & (Hb & Hst & Hm) & Hco & Hlog)].
  rewrite Hroute, Hhost in Hrt. unfold flood_passed, country_passed, logged_in in *.
  rewrite Hip in *. rewrite Hpub in *. rewrite Hhost in *.
  split; [|split; done]. exists rt. split; [done|]. split; [done|].
  split; [by apply bool_decide_eq_false in Hb|]. by repeat split.
Qed.

(* ------------------------------------------------------------------ *)
(** ** Sessions *)

(** C19. A session of a protected host is only ever handed out for the right
    credentials: one that is there after a request and was not before was asked
    for at the login path, by a form with the host's user name and a password
    that matches its hash, is bound to that host and expires twelve hours
    later. *)
Theorem sessions_earned r (e : Eng) token s :
  g_auth (Handler r e).2 !! token = Some s -> g_auth e !! token = None ->
  exists rt, g_routes e !! normalizeHostHeader (rq_RHost r) = Some rt /\
    let h := re_host rt in
    h_AuthEnabled h = true /\ rq_Path r = hostAuthPathLogin /\ rq_Method r = "POST" /\
    EqualFold (TrimSpace (form_value r "username")) (TrimSpace (h_AuthUser h)) = true /\
    VerifyPassword IDKey (form_value r "password") (h_AuthPassHash h) = true /\
    s = mkauthSession (ToLower (h_FQDN h)) (Add (g_now e) hostAuthTTL).
Proof.
  destruct (decide (rq_Path r = edgeLogoPath)) as [Hp|Hp].
  { pose proof (logo_quiet "" r e Hp)
      as [_ (_ & _ & Ha & _)]. rewrite Ha. congruence. }
  pose proof (wp_apply _ _ _ (handler_judged (ClientIP r (g_trusted e)) r e eq_refl Hp))
    as (o & fl & Ho & [Hhost Hroute Hip Hpub] & [_ _ _ Hsess]).
  intros [?|(rt & Hrt & He)]%Hsess Hnone; [congruence|]. exists rt. by rewrite <- Hhost, <- Hroute.
Qed.

(* ------------------------------------------------------------------ *)
(** ** Dropped once, dropped again *)

(** The routes [Refresh] builds have a proxy unless the host is disabled. *)
Lemma fold_add_route hosts routes :
  (forall k rt, routes !! k = Some rt -> h_State (re_host rt) <> "disabled" -> is_Some (re_proxy rt)) ->
  forall k rt, fold_left add_route hosts routes !! k = Some rt -> h_State (re_host rt) <> "disabled" -> is_Some (re_proxy rt).
Proof.
  revert routes. induction hosts as [|h hosts IH]; intros routes Hr; [done|]. simpl. apply IH. unfold add_route.
  destruct (route_of h) as [rt0|] eqn:E; [|done]. intros k rt [[_ <-]|[_ Hk]]%lookup_insert_Some; [|by eapply Hr].
  unfold route_of in E. revert E. destruct (_ && _); [done|]. destruct (h_State h =? "disabled")%string eqn:Hd.
  - apply String.eqb_eq in Hd. intros [= <-]. done.
  - destruct (valid_url (h_UpstreamURL h)); [|done]. intros [= <-]. eauto.
Qed.

Lemma refresh_routes_ok decode (e : Eng) : routes_ok e -> routes_ok (Refresh decode e).2.
Proof.
  intros Hr. apply (wp_apply (Refresh decode) (fun _ e' => routes_ok e')). unfold Refresh.
  assert (Hsrc : forall {A} (m : M S A) (Q : result A -> Eng -> Prop) e0, routes_ok e0 ->
    (forall res e1, routes_ok e1 -> Q res e1) -> wp (src m) Q e0).
  { intros A m Q e0 He0 HQ. unfold wp, src, zoom. destruct (m (g_src e0)). apply HQ. exact He0. }
  apply wp_bind, Hsrc; [done|]. intros [hosts|] e1 H1; [|done].
  apply wp_bind, Hsrc; [done|]. intros [domains|] e2 H2; [|done].
  apply wp_bind, Hsrc; [done|]. intros [ssh|] e3 H3; [|done].
  apply wp_bind, wp_gets, wp_bind, wp_try, Hsrc; [done|]. intros style e4 H4.
  apply wp_bind, wp_try, Hsrc; [done|]. intros snap e5 H5. cbv zeta. destruct (match style with Ok p => p | Err _ => _ end) as [profile custom].
  apply wp_modify. intros k rt Hk Hs. by eapply (fold_add_route hosts ∅).
Qed.

(** Whatever is asked, the trusted proxies stay and no entry of the block list is lost. *)
Lemma handler_frame r (e : Eng) :
  g_trusted (Handler r e).2 = g_trusted e /\ src_step (g_src e) (g_src (Handler r e).2).
Proof.
  destruct (decide (rq_Path r = edgeLogoPath)) as [Hp|Hp].
  - destruct (logo_quiet "" r e Hp) as [_ Hq]. apply quiet_tame, tame_after in Hq as (_ & ? & ? & _). done.
  - pose proof (wp_apply _ _ _ (handler_judged (ClientIP r (g_trusted e)) r e eq_refl Hp)) as (o & fl & _ & _ & [(_ & ? & ? & _) _ _ _]).
    done.
Qed.

(** C7. What is dropped stays dropped: with the routes [Refresh] builds and a
    database that answers, a request whose connection was closed came from a
    source that is on the block list when the handler is done; and every later
    request of that source for anything but the logo, whatever its host, is dropped
    too and leaves the source on the list, whoever else was served in between. *)
Theorem dropped_stays_dropped r (e : Eng) :
  routes_ok e -> healthy (g_src e) -> (Handler r e).1 = Ok Dropped ->
  let ip := ClientIP r (g_trusted e) in
  listed (g_src (Handler r e).2) ip /\
  forall others r', rq_Path r' <> edgeLogoPath -> ClientIP r' (g_trusted e) = ip ->
    let e' := fold_left (fun e q => (Handler q e).2) others (Handler r e).2 in
    (Handler r' e').1 = Ok Dropped /\ listed (g_src (Handler r' e').2) ip.
Proof.
  intros Hr Hh Hd ip.
  assert (Hl : listed (g_src (Handler r e).2) ip).
  { destruct (decide (rq_Path r = edgeLogoPath)) as [Hp|Hp].
    { pose proof (logo_quiet "" r e Hp) as [Hl _]. rewrite Hl in Hd. discriminate. }
    pose proof (wp_apply _ _ _ (handler_judged ip r e eq_refl Hp)) as (o & fl & Ho & [_ _ Hip _] & [_ _ Hdrop _]).
    rewrite Ho in Hd. injection Hd as ->. specialize (Hdrop eq_refl Hr Hh). by rewrite Hip in Hdrop. }
  split; [done|]. intros others r' Hp' Hip'. cbv zeta.
  destruct (handler_frame r e) as [Ht Hs]. destruct (Hs Hh) as [Hh' _]. rewrite <- Ht in Hip'.
  revert Hh' Hl Hip'. generalize (Handler r e).2 as e1. clear Hr Hh Hd Ht Hs. intros e1 Hh1 Hl1 Hip1.
  revert e1 Hh1 Hl1 Hip1. induction others as [|q others IH]; intros e1 Hh1 Hl1 Hip1; simpl.
  - by destruct (blocked_again ip r' e1 (eq_sym Hip1) Hh1 Hl1 Hp') as (? & ? & _).
  - destruct (handler_frame q e1) as [Ht Hs]. destruct (Hs Hh1) as [Hh2 Hl2]. apply IH; [done|by apply Hl2|by rewrite Ht].
Qed.

(* ------------------------------------------------------------------ *)
(** ** The flood guard and the threat signals *)

(** No count and no block of the flood guard is new. *)
Definition guard_idle (e e' : Eng) : Prop :=
  wafCount (g_waf e') ⊆ wafCount (g_waf e) /\ wafBlock (g_waf e') ⊆ wafBlock (g_waf e).

#[local] Instance guard_idle_preorder : PreOrder guard_idle.
Proof.
  split; unfold guard_idle; [intros e; by split|]. intros a b c [] []. split; by etransitivity.
Qed.

Lemma quiet_idle ip0 e e' : quiet ip0 e e' -> guard_idle e e'.
Proof. intros (_ & Hw & _). unfold guard_idle. by rewrite Hw. Qed.

Lemma keep_rows_sub {A} (p : A -> bool) (m : gmap string A) : keep_rows p m ⊆ m.
Proof. apply map_filter_subseteq. Qed.

Lemma prune_idle now w : wafCount (wafPrune now w) ⊆ wafCount w /\ wafBlock (wafPrune now w) ⊆ wafBlock w.
Proof. unfold wafPrune. simpl. split; apply keep_rows_sub. Qed.

Lemma flood_block_idle r fl : keeps guard_idle (check_flood_block r fl).
Proof.
  unfold check_flood_block, now. apply keeps_bind; [typeclasses eauto|apply keeps_gets; typeclasses eauto|]. intros t.
  apply keeps_bind; [typeclasses eauto| |].
  - intros e. unfold on_waf, wafIsBlocked. destruct (_ || _); [unfold guard_idle; simpl; by split|]. cbv zeta.
    pose proof (prune_idle t (g_waf e)) as [H1 H2].
    destruct (wafBlock (wafPrune t (g_waf e)) !! fl_clientIP fl) as [until|]; [destruct (negb (After until t))|];
      unfold guard_idle; simpl; by split.
  - intros [[until why]|]; keeps_tac; try typeclasses eauto; (eapply keeps_weaken; [exact (quiet_idle "")|]);
      first [apply (quiet_trace "")|apply (quiet_audit "")].
Qed.

(** An unknown host is a signal, so outside the allow list only a request of the
    local network is without one. *)
Lemma unknown_is_signal snap fl r : fl_route fl = None -> fl_clientIP fl ∉ sn_Allowlist snap ->
  has_signal snap fl r = false -> isLANClient (fl_clientIP fl) (fl_publicIP fl) = true.
Proof.
  intros Hrt Ha. unfold has_signal. destruct (isLANClient _ _); [done|]. rewrite andb_true_r.
  intros Hs%negb_false_iff%bool_decide_eq_true. exfalso. revert Hs. unfold signals_of.
  rewrite bool_decide_eq_false_2 by done. rewrite Hrt.
  assert (Hin : "behavior.unknown_host" ∈ detectBehaviorThreatSignals (fl_host fl) false (rq_Path r) (UserAgent r)).
  { unfold detectBehaviorThreatSignals, uniqueThreatFeeds. cbv zeta. apply elem_of_dedup_seen.
    split; [set_solver|]. split; [done|]. exists "behavior.unknown_host". split; [|by vm_compute].
    simpl negb. unfold signal_if at 1. set_solver. }
  intros Hnil. assert (Hu : "behavior.unknown_host" ∈ uniqueThreatFeeds (default [] (sn_FeedByIP snap !! fl_clientIP fl) ++
    detectBehaviorThreatSignals (fl_host fl) false (rq_Path r) (UserAgent r))); [|rewrite Hnil in Hu; set_solver].
  unfold uniqueThreatFeeds at 1. apply elem_of_dedup_seen. split; [set_solver|]. split; [done|].
  exists "behavior.unknown_host". split; [apply elem_of_app; by right|by vm_compute].
Qed.

Lemma unknown_idle managed snap fl0 fl r e :
  same_flow fl0 fl -> fl_clientIP fl0 ∉ sn_Allowlist snap ->
  guard_idle e (unknown_host managed (has_signal snap fl0 r) r fl e).2.
Proof.
  intros (Hrt & Hip & Hpub & _) Ha.
  assert (Hk : keeps guard_idle (noted (AddTraceEvent (flow_trace (fl <| fl_scanner := true |>) r "routing.managed_apex" (fl_host fl)
          "Managed apex landing page served")))) by (eapply keeps_weaken; [exact (quiet_idle "")|apply (quiet_trace "")]).
  unfold unknown_host. destruct (fl_route fl) as [rt|] eqn:Hn; [apply (keeps_ret guard_idle)|].
  destruct managed; [apply keeps_bind; [typeclasses eauto|exact Hk|intros []; apply keeps_ret; typeclasses eauto]|].
  destruct (has_signal snap fl0 r) eqn:Hs; [apply (keeps_ret guard_idle)|].
  apply unknown_is_signal in Hs; [|congruence|done].
  apply (wp_apply _ (fun _ e' => guard_idle e e')). unfold now. apply wp_bind, wp_gets, wp_bind. unfold wp at 1, on_waf, wafTrackUnknownHost.
  simpl fl_clientIP. simpl fl_publicIP. rewrite Hip, Hpub, Hs, orb_true_r.
  apply wp_bind, (wp_audit ""). intros e1 H1. apply wp_ret. apply quiet_idle in H1. exact H1.
Qed.

Lemma guards_keep ip0 R P m fl : fl_clientIP fl = ip0 -> guards ip0 R P m -> keeps R (m fl).
Proof. intros Hip Hm e. apply (wp_apply (m fl) (fun _ e' => R e e')). eapply wp_mono; [by apply Hm|]. by intros r e' [HR _]. Qed.

Lemma guards_idle ip0 P m fl : fl_clientIP fl = ip0 -> guards ip0 (quiet ip0) P m -> keeps guard_idle (m fl).
Proof. intros Hip Hm. eapply keeps_weaken; [exact (quiet_idle ip0)|]. by eapply guards_keep. Qed.

Lemma serve_route_idle rt r fl : keeps guard_idle (serve_route reachable roundtrip rt r fl).
Proof.
  assert (Hq : forall {A} (m : M Eng A), keeps (quiet "") m -> keeps guard_idle m).
  { intros A m. apply keeps_weaken, quiet_idle. }
  assert (Hat : forall rp summary h, keeps guard_idle (serve_at roundtrip rp summary h r fl)).
  { intros rp summary h. unfold serve_at, serve, randomHex. keeps_tac; try typeclasses eauto; apply Hq;
      first [apply (quiet_trace "")|apply (quiet_audit "")|apply (quiet_draw "")]. }
  unfold Proxy.serve_route. destruct (_ && _); [|apply Hat]. apply keeps_bind; [typeclasses eauto| |].
  - unfold select_backend. destruct (selectBackendIndex reachable rt). keeps_tac; try typeclasses eauto.
    intros e. unfold guard_idle. simpl. by split.
  - intros [[[idx online] total] offline]. destruct (idx <? 0); [|apply Hat]. unfold ha_down.
    keeps_tac; try typeclasses eauto; apply Hq; first [apply (quiet_trace "")|apply (quiet_audit "")].
Qed.

Lemma login_idle h r fl : keeps guard_idle (check_host_login IDKey h r fl).
Proof.
  eapply keeps_weaken; [|eapply (guards_keep (fl_clientIP fl)), (login_guards env_MMDBS env_MMDB open http_get); done].
  intros e e' (_ & Hw & _). unfold guard_idle. by rewrite Hw.
Qed.

Lemma keeps_then (m k : stage) fl : keeps guard_idle (m fl) -> (forall fl', keeps guard_idle (k fl')) -> keeps guard_idle (then_ m k fl).
Proof.
  intros Hm Hk. unfold then_. apply keeps_bind; [typeclasses eauto|exact Hm|]. intros [[o|] fl']; [apply keeps_ret; typeclasses eauto|apply Hk].
Qed.

(** A stage leaves the fields the next ones read. *)
Lemma idle_stage ip0 R P m k fl e fl0 e0 :
  fl_clientIP fl = ip0 -> guards ip0 R P m -> keeps guard_idle (m fl0) -> guard_idle e e0 -> same_flow fl fl0 ->
  (forall fl1 e1, guard_idle e e1 -> same_flow fl fl1 -> guard_idle e (k fl1 e1).2) ->
  guard_idle e (then_ m k fl0 e0).2.
Proof.
  intros Hip Hm Hi He Hf Hk. apply (wp_apply _ (fun _ e' => guard_idle e e')), wp_then.
  eapply wp_mono; [apply wp_and; [apply Hm; destruct Hf as (_ & ? & _); congruence|apply keeps_wp, Hi]|].
  intros [[[o|] fl1]|x] e1 [[_ H1] H2]; [|destruct H1 as [_ H1]|done].
  - by etransitivity.
  - assert (H3 : guard_idle e (k fl1 e1).2) by (apply Hk; [by etransitivity|by eapply same_flow_trans]).
    unfold wp. by destruct (k fl1 e1).
Qed.

Lemma pipeline_idle snap b managed r fl e :
  fl_clientIP fl ∉ sn_Allowlist snap -> guard_idle e (pipeline snap b managed r fl e).2.
Proof.
  intros Ha. unfold Proxy.pipeline. set (ip := fl_clientIP fl) in *.
  eapply (idle_stage ip _ _ _ _ fl); [done|apply (block_list_guards ip)|eapply (guards_idle ip); [done|apply block_list_guards]|reflexivity|by repeat split|].
  intros fl1 e1 H1 F1. assert (Hip1 : fl_clientIP fl1 = ip) by (by destruct F1 as (_ & ? & _)).
  eapply (idle_stage ip _ _ _ _ fl); [done|apply (threats_guard ip)|eapply (guards_idle ip); [done|apply threats_guard]|done|done|].
  intros fl2 e2 H2 F2.
  eapply (idle_stage ip _ _ _ _ fl); [done|apply (flood_guards ip)|apply flood_block_idle|done|done|]. intros fl3 e3 H3 F3.
  unfold then_ at 1.
  pose proof (unknown_idle managed snap fl fl3 r e3 F3 Ha) as Hu.
  unfold mbind, M_bind. destruct (unknown_host managed (has_signal snap fl r) r fl3 e3) as [[[[o|] fl4]|x] e4]; simpl in Hu |- *;
    [by etransitivity| |by etransitivity].
  etransitivity; [exact H3|]. etransitivity; [exact Hu|].
  destruct (fl_route fl4) as [rt|]; [|apply (keeps_ret guard_idle)].
  assert (Hrs : keeps guard_idle (route_stages env_MMDBS env_MMDB open http_get IDKey reachable roundtrip b rt r fl4)); [|apply Hrs].
  unfold Proxy.route_stages. apply keeps_then; [eapply (guards_idle (fl_clientIP fl4)); [done|apply state_guards]|]. intros fl5.
  apply keeps_then; [eapply (guards_idle (fl_clientIP fl5)); [done|apply country_guards]|]. intros fl6.
  apply keeps_then; [apply login_idle|]. intros fl7. apply serve_route_idle.
Qed.

(** C36. The flood guard never counts a source from outside: for a request whose
    source is not on the allow list, the handler adds no count and no block to it,
    whatever the host and however often it comes.  An unknown host is itself a
    threat signal, and a request with a signal is answered before the guard would
    count it; so the threshold of 80 requests a minute is out of reach. *)
Theorem flood_guard_unreached r (e : Eng) :
  ClientIP r (g_trusted e) ∉ sn_Allowlist (g_tiSnap e) -> guard_idle e (Handler r e).2.
Proof.
  intros Ha. destruct (decide (rq_Path r = edgeLogoPath)) as [Hp|Hp].
  { pose proof (logo_quiet "" r e Hp) as [_ Hq]. by apply quiet_idle in Hq. }
  apply String.eqb_neq in Hp. set (ip0 := ClientIP r (g_trusted e)) in *. apply (wp_apply (Handler r) (fun _ e' => guard_idle e e')). unfold Proxy.Handler. rewrite Hp.
  apply wp_bind, (wp_quiet ip0); [apply (quiet_randomHex ip0)|apply randomHex_ok|]. intros traceID e1 H1.
  apply wp_bind. eapply wp_mono; [apply (ingress_wp ip0)|]. intros res e2 (H2 & fl & -> & Hfl).
  assert (H02 : quiet ip0 e e2) by (by etransitivity).
  apply (flow_of_at ip0 _ _ _ _ H1) in Hfl as [_ _ Hip _].
  assert (Hsnap : g_tiSnap e2 = g_tiSnap e) by (destruct H02 as (Hc & _); by apply core_public in Hc as (_ & _ & ->)).
  apply wp_bind, wp_gets, wp_bind, wp_gets, wp_bind, wp_gets, wp_bind. rewrite Hsnap.
  set (b := bool_decide _). set (mg := bool_decide _).
  pose proof (pipeline_idle (g_tiSnap e) b mg r fl e2 ltac:(by rewrite Hip)) as H3.
  unfold wp at 1. destruct (pipeline (g_tiSnap e) b mg r fl e2) as [[[o fl']|x] e3]; simpl in H3;
    (assert (H03 : guard_idle e e3) by (etransitivity; [by eapply quiet_idle|exact H3])); [|done].
  apply wp_bind, (wp_finish (fl_clientIP fl')); [by left|]. intros e4 H4. apply wp_ret. etransitivity; [exact H03|by eapply quiet_idle].
Qed.
End edge.

(* ------------------------------------------------------------------ *)
(** ** The edge in front of a service *)

(** Two hosts, one protected, one in maintenance; one blocked source. *)
Definition demo_hash : string := HashPassword toy_derivation "correct horse" (repeat 1 16) DefaultArgonConfig.
Definition demo_published : Host :=
  zero_Host <| h_ID := 1 |> <| h_DomainID := 1 |> <| h_FQDN := "App.lab.example" |>
    <| h_UpstreamURL := "http://10.0.0.9:8080" |> <| h_AuthEnabled := true |> <| h_AuthUser := "ann" |>
    <| h_AuthPassHash := demo_hash |> <| h_State := "active" |>.
Definition demo_open : Host :=
  zero_Host <| h_ID := 2 |> <| h_DomainID := 1 |> <| h_FQDN := "www.lab.example" |>
    <| h_UpstreamURL := "http://10.0.0.8" |> <| h_State := "maintenance" |>.
Definition demo_tables : DB :=
  empty_DB <| t_hosts := {[1 := demo_published; 2 := demo_open]} |>
    <| t_blocked_ips := {["203.0.113.9" := mkBlockedIP "203.0.113.9" "abuse" 1 1]} |>.
Definition demo_svc : Svc := new_svc (clean demo_tables (100 * Hour)) None.
Definition no_reader (_ : time) (_ : string) : option Reader := None.
Definition no_web (_ : string) : option (Z * option answer) := None.
Definition no_style (_ : string) : option (gmap string string) := None.
Definition up_always (_ : string) : bool := true.
Definition echo (_ : ReverseProxy) (_ : Request) : (Z * Z * string) + string := inl (200, 5, "").
Definition no_bytes (_ : outcome) : Z := 0.
Definition demo_engine : Engine :=
  (Refresh no_style (New demo_svc (100 * Hour) ["aaaaaaaa"; "bbbbbbbb"; "cccccccc"] (GeoIp.New "" "" no_reader Hour 0) None None [])).2.
Definition demo_handler := Handler "" "" no_reader no_web toy_derivation up_always echo no_bytes.
Definition login_request : Request :=
  (plain_request "198.51.100.7:4000" "app.lab.example:443" hostAuthPathLogin)
    <| rq_Method := "POST" |> <| rq_Form := Some {["username" := " ANN"; "password" := "correct horse"; "next" := "/x"]} |>.
Definition local_request : Request := plain_request "192.168.1.20:999" "WWW.lab.example" "/".
Definition blocked_request : Request := plain_request "203.0.113.9:999" "www.lab.example" "/".
Definition scan_request : Request := plain_request "198.51.100.8:999" "nope.lab.example" "/".

Lemma demo_healthy : healthy (g_src demo_engine).
Proof. vm_compute. reflexivity. Qed.
Lemma demo_listed : listed (g_src demo_engine) "203.0.113.9".
Proof. split; [vm_compute; discriminate|]. vm_compute. eauto. Qed.

Lemma blocked_source_dropped_witness : (demo_handler blocked_request demo_engine).1 = Ok Dropped.
Proof.
  assert (Hip : ClientIP blocked_request (g_trusted demo_engine) = "203.0.113.9") by (vm_compute; reflexivity).
  refine (proj1 (blocked_source_dropped "" "" no_reader no_web toy_derivation up_always echo no_bytes
    blocked_request demo_engine demo_healthy _ _)); [rewrite Hip; apply demo_listed|discriminate].
Defined.

(** The host in maintenance answers the local network, and only it. *)
Lemma served_is_allowed_witness :
  match (demo_handler local_request demo_engine).1 with Ok (Served rp 200 5 _) => rp_upstreamRef rp = "http://10.0.0.8" | _ => False end /\
  exists o, (demo_handler local_request demo_engine).1 = Ok o.
Proof.
  split; [vm_compute; reflexivity|].
  destruct (served_is_allowed "" "" no_reader no_web toy_derivation up_always echo no_bytes local_request demo_engine) as (o & Ho & _).
  by exists o.
Defined.

Lemma sessions_earned_witness :
  exists token s, g_auth (demo_handler login_request demo_engine).2 !! token = Some s /\
    as_host s = "app.lab.example" /\ rq_Path login_request = hostAuthPathLogin.
Proof.
  destruct (g_auth (demo_handler login_request demo_engine).2 !! "YmJiYmJiYmI") as [s|] eqn:E; [|by vm_compute in E].
  exists "YmJiYmJiYmI", s. split; [done|].
  pose proof (sessions_earned "" "" no_reader no_web toy_derivation up_always echo no_bytes login_request demo_engine
    "YmJiYmJiYmI" s E ltac:(vm_compute; reflexivity)) as (rt & Hrt & _ & Hp & _ & _ & _ & ->).
  split; [|exact Hp]. assert (Hh : ToLower <$> (h_FQDN <$> (re_host <$> g_routes demo_engine !! normalizeHostHeader (rq_RHost login_request))) = Some "app.lab.example")
    by (vm_compute; reflexivity). rewrite Hrt in Hh. by injection Hh.
Defined.

Lemma demo_routes_ok : routes_ok demo_engine.
Proof. apply refresh_routes_ok. intros k rt Hk. simpl in Hk. by rewrite lookup_empty in Hk. Qed.

(** The blocked source is refused again, at another host. *)
Lemma dropped_stays_dropped_witness :
  let e' := (demo_handler local_request (demo_handler blocked_request demo_engine).2).2 in
  listed (g_src (demo_handler blocked_request demo_engine).2) "203.0.113.9" /\
  (demo_handler (plain_request "203.0.113.9:1" "app.lab.example" "/y") e').1 = Ok Dropped.
Proof.
  intros e'. assert (Hip : ClientIP blocked_request (g_trusted demo_engine) = "203.0.113.9") by (vm_compute; reflexivity).
  assert (Hd : (demo_handler blocked_request demo_engine).1 = Ok Dropped) by (vm_compute; reflexivity).
  destruct (dropped_stays_dropped "" "" no_reader no_web toy_derivation up_always echo no_bytes blocked_request
    demo_engine demo_routes_ok demo_healthy Hd) as [Hl Hn]. rewrite Hip in Hl, Hn. split; [exact Hl|].
  apply (Hn [local_request]); [discriminate|vm_compute; reflexivity].
Defined.

(** A hundred requests for an unknown host from one source, at one instant. *)
Definition scan (n : nat) : Engine := Nat.iter n (fun e => (demo_handler scan_request e).2) demo_engine.

Lemma flood_guard_unreached_witness :
  guard_idle (scan 99) (demo_handler scan_request (scan 99)).2 /\ wafBlock (g_waf (scan 100)) !! "198.51.100.8" = None.
Proof.
  split; [|vm_compute; reflexivity]. generalize (eq_refl : scan 99 = scan 99). generalize (scan 99) at 1 3 4. intros e ->.
  apply flood_guard_unreached. apply (bool_decide_eq_false_1 _). vm_compute. reflexivity.
Defined.
